(* ===== verification/_CoqProject ===== *)
-Q . S2P
Prelude.v
GoStd.v
GoJson.v
ProtoWire.v
ProtoCodec.v
PulsarWire.v
PulsarCodec.v
PulsarReflect.v
PulsarLists.v
PulsarAgree.v
ProtoJwk.v
Sdk.v
SdkModel.v
PlatformFee.v
ZkTypes.v
ZkDefault.v
ZkKeeper.v
ZkQuery.v
DkimTypes.v
DkimKeeper.v
DkimSubject.v
DkimQuery.v
Jwk.v
JwkQuery.v
GlobalFee.v
Mint.v
Feegrant.v
WebAuthn.v
Indexer.v
IndexerInit.v
IndexerQuery.v
FeeAbs.v
WasmBindings.v
App.v
AppExport.v
ProtoZk.v
ProtoDkim.v
ProtoXion.v
ProtoMint.v
ProtoFeeAbs.v
ProtoIndexer.v
ApiJwk.v
ApiZk.v
ApiDkim.v
ApiXion.v
ApiMint.v
ApiFeeAbs.v
ApiIndexer.v
FeeAbsIbc.v
Modules.v
Cli.v
ProtoAll.v
ApiAll.v
