(* ===== verification/Prelude.v ===== *)
(** * Verification of the Xion chain's own modules

    Xion is a Cosmos SDK chain written in Go.  This development models the code that
    the repository adds to the SDK (under [src/x], [src/indexer], [src/wasmbindings],
    [src/app] and [src/api]) as executable Rocq definitions and proves what that code promises.

    ** The program and its parts

    - [x/xion] takes a platform fee from bank transfers, replaces the mint function of
      the SDK, defines three fee allowances, and answers queries that verify WebAuthn
      responses.
    - [x/zk] stores verification keys and verifies Groth16 and UltraHonk proofs.
    - [x/dkim] stores DKIM public keys; its [Authenticate] query ties an e-mail to an
      account with a proof, and calls the verifier and the key store of [x/zk].
    - [x/jwk] stores audiences with their keys and validates tokens against them.
    - [x/globalfee] sets the minimum gas prices of a transaction in the ante chain;
      [x/mint/types] holds the minter and its parameters.
    - [indexer] replays the change set of every block on an index of the authz grants
      and fee allowances, and answers queries from it.
    - [wasmbindings] says which queries contracts may make; [app] chains the ante
      decorators, registers the upgrade and exports the state.
    - Every message has two Go types with generated code: the one in [x/*/types] and
      [indexer] ([.pb.go]), and the one under [api] ([.pulsar.go]), which clients and the
      SDK's reflection use.

    ** How Go is modelled

    A call returns an [outcome]: a value, an error, or a panic.  A call that writes is a
    function [M S A] from a state to a state and an outcome, and the state is returned
    on every exit, so what a failing call has written is visible.  An error keeps its
    sentinel and loses its text ([goerr]).  Integers are [Z]; where a width matters the
    wrap-around is written out ([u64], [u32]) or the operation panics out of range, as
    the one of the dependency does.  Strings and byte slices are byte sequences
    ([string]); nil is an [option] where the code tests for it.  Definitions keep the
    names of the source; a method is [Type_Method], and a name that two modules use
    carries the module's name.

    Code outside the repository is never defined here: it is the operations of a
    [Class] ([Sdk.v], or the file that uses it), and what a theorem relies on is a class
    of laws with the documented behaviour.  [SdkModel.v] and the witnesses give
    instances, so the laws can hold together.

    ** Files

    - [Prelude]: results, state passing, loops, the tactics [inv_ok], [run_ok] and
      [eval_hyp], the hint database [panics], lemmas on lists, maps, sums and strings.
    - [GoStd], [GoJson]: the parts of Go's standard library in use.  [Sdk], [SdkModel]: interfaces
      to the dependencies and their instances.
    - [PlatformFee]: [x/xion/keeper] (keeper.go, msg_server.go, genesis.go) and the
      messages and genesis of [x/xion/types].  The state is the module's store and the
      bank.
    - [Mint]: [x/mint/types] and [x/xion/keeper/mint.go].
    - [Feegrant]: [x/xion/types/feegrant.go].
    - [WebAuthn]: [x/xion/types/webauthn.go] and the two queries on it.
    - [ZkTypes], [ZkDefault], [ZkKeeper], [ZkQuery]: [x/zk].  The state is the record of
      the four collections and the gas meter.
    - [DkimTypes], [DkimKeeper], [DkimSubject], [DkimQuery]: [x/dkim].
    - [Jwk], [JwkQuery]: [x/jwk].  The store holds bytes, written and read by the
      generated code of [ProtoJwk].
    - [GlobalFee]: [x/globalfee].  [FeeAbs], [FeeAbsIbc]: [x/feeabs/types].
    - [Indexer], [IndexerInit], [IndexerQuery]: [indexer].
    - [WasmBindings]: [wasmbindings].  [App]: [app/ante.go], [app/upgrades.go] and the
      blocked addresses of [app/app.go].  [AppExport]: [app/export.go].
    - [Modules]: the [module.go] of the five modules, as records of the interface
      [AppModule] over their keepers: genesis files as JSON, and migrations.  [Cli]: the
      commands of [x/xion/client/cli/tx.go] that build a message from their arguments.
    - [ProtoWire]: the templates behind the generated [.pb.go] files: base-128 integers,
      skipping, the writer that fills a buffer from its end, the loop of [Unmarshal], and
      a [Field] for each kind of field.  [ProtoCodec]: the wire format as an encoding
      from front to back, the classes [FieldSpec], [MsgSpec] and [MsgCodecSpec] that say
      what fields, messages and embedded messages promise, their instances for all
      kinds, and the theorems on an arbitrary message.  [ProtoJwk], [ProtoZk],
      [ProtoDkim], [ProtoXion], [ProtoMint], [ProtoFeeAbs], [ProtoIndexer]: the 139
      message types that have fields, each as the list of its fields, which determines
      its [Size], [Marshal], [MarshalToSizedBuffer] and [Unmarshal]; the 35 types without
      fields are [empty_fields].  [ProtoAll]: the theorems on all of them.
    - [PulsarWire]: the templates behind the functions [size], [marshal] and [unmarshal]
      of the [.pulsar.go] files, over the fields of [ProtoWire] and the runtime of the
      generator; a message is a [Pulsar]: the fields that are not known, and the others.
      [PulsarCodec]: what they promise.  [PulsarReflect]: the reflection methods, each
      field with its case in each method ([RField]), a nil receiver and foreign names
      included.  [PulsarLists]: the list types of repeated fields, over slices with their
      capacity.  [PulsarAgree]: when a message agrees with its counterpart in the first
      set.  [ApiJwk], [ApiZk], [ApiDkim], [ApiXion], [ApiMint], [ApiFeeAbs], [ApiIndexer]:
      the 131 message types under [src/api] that have fields and the 36 list types, each
      with its fields for the codec and for reflection.  [ApiAll]: the theorems on all of
      them, and a model of the libraries.

    ** What the theorems show

    - Money: [Send] and [MultiSend] debit exactly the amount, the recipients get it less
      the platform fee and the fee collector gets the fee; the fee is the percentage in
      basis points rounded up, on both paths of its computation.  The mint function
      leaves the fee collector with the provision of the block, minting what is missing
      and burning what is left over; the inflation changes by one block's share of the
      distance from the bonding goal, up to rounding, and stays in its bounds.  A fee is
      charged to exactly one allowance; the others and the expiration stay, and the result
      is valid when the SDK's charged allowance is.
    - Fees: the decorator hands on the global prices in a block and the maximum of the
      local and the global prices in the pool, and in the chain of [app/ante.go] an
      admitted transaction pays them; the maximum and the binary search agree with their
      plain specifications, whatever the order of a map.
    - Authority: verification keys, audiences, claims and parameters change only for
      their owner or for the authority of the module, and a revoked DKIM key never
      comes back.
    - Registries: from a validated genesis file on, the name index and the key table of
      [x/zk] describe each other after every sequence of messages, the identifiers handed
      out are strictly increasing, what was added is found, and importing an exported file
      of Circom keys restores the state; a theorem says which exported states the import
      refuses.  An update of an audience of [x/jwk] moves its record and its claim and
      leaves all others.
    - Verification: the Groth16 query answers exactly with the verdict of the library on
      canonical inputs within the limits in force, for the stored key, and the proof
      queries do not panic; [Authenticate] answers only when the
      request agrees with the public inputs; the checks on circom keys and JWKs and the
      inputs of the Poseidon hash agree with their specifications.
    - The index mirrors the grants and allowances of the chain after every block and
      never stops the node; a theorem says which grant is lost at a page boundary, and for
      which keys the buffer of 128 bytes is too short for an answer.
    - Encoding: for every message type, [Size], [Marshal] and [MarshalToSizedBuffer]
      agree, [Unmarshal] reads the message back and skips fields it does not know, and on
      arbitrary bytes it ends with a message or an error, without a panic.  What
      [json.Marshal] writes for a text reads back as that text, with bytes that are not
      UTF-8 replaced by U+FFFD, so the memo of a cross-chain swap has the members it is
      meant to have, whatever the texts hold; so have the contract messages of the command
      line.
    - The second set of messages: the same for its [size], [marshal] and [unmarshal],
      with fields that are not known, groups included and anywhere between the others, kept
      unless they are to be discarded; both sets write the same bytes for the same
      message and read each other's.  Reflection changes one field at a time, copying
      field by field copies the message, and a field is populated exactly when it is
      written.  The methods of a repeated field are those of a list, however [append]
      grows the slice.
    - Modules: every module starts from its default genesis file and has a migration from
      every earlier version.  The import of [x/dkim] drops the revocations of the file,
      which the import of its keeper restores.
    - Contracts get answers only for listed paths, decoded at the listed type.  The
      export for height zero, when it completes and its iterator closes, leaves no height
      of the old chain in the unbonding entries and the signing information.

    ** Bounds and fuel

    Recursion that is not structural has fuel, and the theorems fix enough of it or
    prove that it never runs out: the binary search [find_in] halves its coins and gets
    their number; [drop_any], [find_words], [remove_prefixes] and [pem_lines] consume at
    least one byte a round and get the length of their input; [walk_pages], which follows
    the page keys of a query, gets more rounds than there are entries.  [skip] and
    [Unmarshal] read at least the byte of a tag a round and get the length of their
    input, and a theorem says that they never run out; an integer has at most ten
    bytes, and twenty decimal digits.  The JSON reader is a specification: its theorems
    hold from some fuel on.  The nesting of
    fee allowances is a nested inductive type, so checks on it recurse structurally.
    Amounts of coins are below [2^256] and decimals below [2^315], as the SDK has them;
    beyond that its operations panic and so do the modelled calls.  A byte slice is
    shorter than [2^63]; making a longer one panics.

    ** Not modelled

    [cmd/xiond] and the other command-line clients (flags, files and gRPC calls), the
    [sign] and [update-configs] commands of [x/xion] (they read files, ask nodes and
    convert JSON of any shape), the registration of codecs, routes and services, the
    construction of keepers in [app/app.go], the wrappers around wasmd in [app/keepers] and
    [app/genesis] (they call wasmd and add empty checks), the options of the indexer, the
    accessors, descriptors and gRPC stubs of both sets of generated code, and tests.  A
    value that reflection returns for a list holds its contents at that time, and elements
    of repeated messages inside a message are not nil; slices that share an array are not
    modelled.  Events, logs, telemetry and the text of errors are left out everywhere.
    Cryptography, JSON decoders and the SDK's JSON codec, the runtime of the generator of
    [src/api], the message types of dependencies and the SDK's keepers are parameters. *)

From Stdlib Require Export ZArith Lia.
From stdpp Require Export sorting.
From stdpp Require Export base tactics numbers option list strings gmap.
From Stdlib Require Ascii String.

#[export] Set Warnings "-clear-no-such-hyp".
#[global] Open Scope Z_scope.

(** ** Errors, panics and results of Go code *)

(** A Go [error] value.  [Registered] is a sentinel made by
    [errorsmod.Register(codespace, code, ...)]; wrapping it with text keeps the
    sentinel ([errors.Is]), so the text of a wrapper is not part of the model.
    [Plain] is an error made by [errors.New] or [fmt.Errorf] in this repository,
    named by a short tag; [Foreign] is an error handed back by a dependency. *)
Inductive goerr : Type :=
| Registered (codespace : string) (code : Z)
| Plain (tag : string)
| Foreign (tag : string).

#[global] Instance goerr_eq_dec : EqDecision goerr.
Proof. solve_decision. Defined.

(** The three ways a Go call can end. *)
Inductive outcome (A : Type) : Type :=
| Ok (a : A)
| Err (e : goerr)
| Panic.
Arguments Ok {A} a.
Arguments Err {A} e.
Arguments Panic {A}.

#[global] Instance outcome_eq_dec {A} `{EqDecision A} : EqDecision (outcome A).
Proof. solve_decision. Defined.

#[global] Instance outcome_ret : MRet outcome := λ A a, Ok a.
#[global] Instance outcome_bind : MBind outcome := λ A B f x,
  match x with Ok a => f a | Err e => Err e | Panic => Panic end.
#[global] Instance outcome_fmap : FMap outcome := λ A B f x,
  match x with Ok a => Ok (f a) | Err e => Err e | Panic => Panic end.

(** [if c { return err }] *)
Definition fail_if (c : bool) (e : goerr) : outcome unit := if c then Err e else Ok tt.

(** A comma-ok result turned into an error. *)
Definition or_fail {A} (o : option A) (e : goerr) : outcome A :=
  match o with Some a => Ok a | None => Err e end.

(** [if err != nil { return wrap(err) }] *)
Definition map_err {A} (f : goerr → goerr) (x : outcome A) : outcome A :=
  match x with Ok a => Ok a | Err e => Err (f e) | Panic => Panic end.

(** A call under [defer func() { if r := recover() ... }]: a panic becomes an error. *)
Definition recovering {A} (e : goerr) (x : outcome A) : outcome A :=
  match x with Panic => Err e | _ => x end.

Definition is_ok {A} (x : outcome A) : bool := match x with Ok _ => true | _ => false end.

Definition ok_or {A} (d : A) (x : outcome A) : A := match x with Ok a => a | _ => d end.

(** ** State-passing code

    [M S A] is a Go call that may write to a store of type [S].  The store is
    returned on every exit, so what a failing call has already written is
    visible in the model. *)
Definition M (S A : Type) : Type := S → S * outcome A.

#[global] Instance M_ret {S} : MRet (M S) := λ A a s, (s, Ok a).
#[global] Instance M_bind {S} : MBind (M S) := λ A B f m s,
  match m s with
  | (s', Ok a) => f a s'
  | (s', Err e) => (s', Err e)
  | (s', Panic) => (s', Panic)
  end.

Definition lift {S A} (x : outcome A) : M S A := λ s, (s, x).
Definition get_state {S} : M S S := λ s, (s, Ok s).
Definition gets {S A} (f : S → A) : M S A := λ s, (s, Ok (f s)).
Definition modify {S} (f : S → S) : M S unit := λ s, (f s, Ok tt).

(** A fallible write: on error the store keeps its old value. *)
Definition write {S} (f : S → outcome S) : M S unit := λ s,
  match f s with Ok s' => (s', Ok tt) | Err e => (s, Err e) | Panic => (s, Panic) end.

(** [if err != nil { panic(err) }] *)
Definition or_panic {A} (x : outcome A) : outcome A := match x with Ok a => Ok a | _ => Panic end.
Definition must {S A} (m : M S A) : M S A := λ s, let '(s', r) := m s in (s', or_panic r).

(** A call that works on one field of the state. *)
Definition zoom {S T A} (get : S → T) (set : T → S → S) (m : M T A) : M S A := λ s,
  let '(t, r) := m (get s) in (set t s, r).

(** [for _, x := range l { ... }] with early return. *)
Fixpoint for_each {S A} (f : A → M S unit) (l : list A) : M S unit :=
  match l with
  | [] => mret tt
  | x :: l => f x ≫= λ _, for_each f l
  end.

(** The loop without a store, threading an accumulator. *)
Fixpoint fold_outcome {A B} (f : B → A → outcome B) (b : B) (l : list A) : outcome B :=
  match l with
  | [] => Ok b
  | x :: l => f b x ≫= λ b', fold_outcome f b' l
  end.

(** [for _, x := range l { if err := f(x); err != nil { return err } }] *)
Fixpoint check_all {A} (f : A → outcome unit) (l : list A) : outcome unit :=
  match l with
  | [] => Ok tt
  | x :: l => _ ← f x; check_all f l
  end.

(** ** Machine integers *)
Definition u64_max : Z := 2 ^ 64 - 1.
Definition u64 (z : Z) : Z := z mod 2 ^ 64.
Definition u32 (z : Z) : Z := z mod 2 ^ 32.
Definition is_u64 (z : Z) : Prop := 0 ≤ z < 2 ^ 64.

(** Length of a Go string or byte slice (both are byte sequences here). *)
Definition slen (s : string) : Z := Z.of_nat (String.length s).
Definition llen {A} (l : list A) : Z := Z.of_nat (length l).

(** ** Go's order on strings: bytewise, as [String.compare] *)
Definition str_lt (a b : string) : Prop := String.ltb a b = true.

#[global] Instance str_lt_dec : RelDecision str_lt := λ a b, decide (String.ltb a b = true).

(** ** Sums *)
Fixpoint sumZ {A} (f : A → Z) (l : list A) : Z :=
  match l with [] => 0 | x :: l => f x + sumZ f l end.

(** ** Inversion lemmas and the automation built on them *)

Lemma bind_Ok {A B} (f : A → outcome B) x b :
  x ≫= f = Ok b ↔ ∃ a, x = Ok a ∧ f a = Ok b.
Proof. destruct x; cbn; naive_solver. Qed.

Lemma bind_Ok_l {A B} (f : A → outcome B) a : Ok a ≫= f = f a.
Proof. done. Qed.

Lemma fail_if_false_bind {A} e (k : unit → outcome A) : fail_if false e ≫= k = k tt.
Proof. done. Qed.

Lemma fail_if_bind {A} c e (k : outcome A) a :
  fail_if c e ≫= (λ _, k) = Ok a ↔ c = false ∧ k = Ok a.
Proof. destruct c; cbn; naive_solver. Qed.

Lemma unit_bind {A} (x : outcome unit) (k : outcome A) a :
  x ≫= (λ _, k) = Ok a ↔ x = Ok tt ∧ k = Ok a.
Proof. destruct x as [[]| |]; cbn; naive_solver. Qed.

Lemma M_bind_Ok_l {S A B} (f : A → M S B) (m : M S A) s s' a :
  m s = (s', Ok a) → (m ≫= f) s = f a s'.
Proof. intros E. unfold mbind, M_bind. by rewrite E. Qed.

Lemma lift_bind_Ok {S A B} (f : A → M S B) (x : outcome A) s a :
  x = Ok a → (lift x ≫= f) s = f a s.
Proof. by intros ->. Qed.

Lemma lift_bind {S A B} (f : A → M S B) (x : outcome A) s :
  (lift x ≫= f) s = match x with Ok a => f a s | Err e => (s, Err e) | Panic => (s, Panic) end.
Proof. by destruct x. Qed.

Lemma get_state_bind {S B} (f : S → M S B) s : (get_state ≫= f) s = f s s.
Proof. done. Qed.

Lemma must_run {S A} (m : M S A) s s' a : m s = (s', Ok a) → must m s = (s', Ok a).
Proof. intros E. unfold must. by rewrite E. Qed.

Lemma M_bind_step {S A B} (f : A → M S B) (m : M S A) s :
  (m ≫= f) s = match (m s).2 with
               | Ok a => f a (m s).1 | Err e => ((m s).1, Err e) | Panic => ((m s).1, Panic) end.
Proof. unfold mbind, M_bind. by destruct (m s) as [? []]. Qed.

Lemma lift_fail_if {S B} (f : unit → M S B) c e s :
  c = false → (lift (fail_if c e) ≫= f) s = f tt s.
Proof. by intros ->. Qed.

Lemma M_bind_Ok {S A B} (f : A → M S B) (m : M S A) s s' b :
  (m ≫= f) s = (s', Ok b) ↔ ∃ s1 a, m s = (s1, Ok a) ∧ f a s1 = (s', Ok b).
Proof. unfold mbind, M_bind. destruct (m s) as [s1 [a|e|]]; naive_solver. Qed.

Lemma fail_if_Ok c e u : fail_if c e = Ok u ↔ c = false.
Proof. destruct c, u; naive_solver. Qed.

Lemma or_fail_Ok {A} (o : option A) e a : or_fail o e = Ok a ↔ o = Some a.
Proof. destruct o; naive_solver. Qed.

Lemma map_err_Ok {A} f (x : outcome A) a : map_err f x = Ok a ↔ x = Ok a.
Proof. destruct x; naive_solver. Qed.

Lemma recovering_Ok {A} e (x : outcome A) a : recovering e x = Ok a ↔ x = Ok a.
Proof. destruct x; naive_solver. Qed.

Lemma recovering_no_panic {A} e (x : outcome A) : recovering e x ≠ Panic.
Proof. by destruct x. Qed.

Lemma is_ok_true {A} (x : outcome A) : is_ok x = true ↔ ∃ a, x = Ok a.
Proof. destruct x; naive_solver. Qed.

Lemma lift_Ok {S A} (x : outcome A) (s s' : S) a : lift x s = (s', Ok a) ↔ s' = s ∧ x = Ok a.
Proof. unfold lift. naive_solver. Qed.

Lemma gets_Ok {S A} (f : S → A) s s' a : gets f s = (s', Ok a) ↔ s' = s ∧ a = f s.
Proof. unfold gets. naive_solver. Qed.

Lemma get_state_Ok {S} (s s' a : S) : get_state s = (s', Ok a) ↔ s' = s ∧ a = s.
Proof. unfold get_state. naive_solver. Qed.

Lemma modify_Ok {S} (f : S → S) s s' u : modify f s = (s', Ok u) ↔ s' = f s.
Proof. destruct u. unfold modify. naive_solver. Qed.

Lemma write_Ok {S} (f : S → outcome S) s s' u : write f s = (s', Ok u) ↔ f s = Ok s'.
Proof. destruct u. unfold write. destruct (f s); naive_solver. Qed.

Lemma M_ret_Ok {S A} (a b : A) (s s' : S) : (mret a : M S A) s = (s', Ok b) ↔ s' = s ∧ b = a.
Proof. unfold mret, M_ret. naive_solver. Qed.

Lemma check_all_Ok {A} (f : A → outcome unit) l : check_all f l = Ok tt ↔ Forall (λ x, f x = Ok tt) l.
Proof.
  induction l as [|x l IH]; cbn; [by rewrite Forall_nil|]. rewrite Forall_cons, <- IH. apply unit_bind.
Qed.

Lemma check_all_single {A} (f : A → bool) e l :
  check_all (λ x, fail_if (f x) e) l = if decide (Forall (λ x, f x = false) l) then Ok tt else Err e.
Proof.
  induction l as [|x l IH]; cbn [check_all]; [by rewrite decide_True|]. destruct (f x) eqn:E; cbn [fail_if].
  - rewrite decide_False; [done|]. rewrite Forall_cons. naive_solver congruence.
  - rewrite bind_Ok_l, IH. apply decide_ext. rewrite Forall_cons. naive_solver.
Qed.

Lemma fold_outcome_app {A B} (f : B → A → outcome B) b l k :
  fold_outcome f b (l ++ k) = fold_outcome f b l ≫= λ b, fold_outcome f b k.
Proof. revert b. induction l as [|x l IH]; intros b; cbn; [done|]. destruct (f b x); cbn; auto. Qed.

(** ** Properties kept by every exit of a call *)
Lemma bind_keeps {S A B} (P : S → Prop) (m : M S A) (f : A → M S B) s :
  P (m s).1 → (∀ s' a, m s = (s', Ok a) → P (f a s').1) → P ((m ≫= f) s).1.
Proof. unfold mbind, M_bind. destruct (m s) as [s1 [a|e|]]; cbn; eauto. Qed.

Lemma lift_keeps {S A B} (P : S → Prop) (x : outcome A) (f : A → M S B) s :
  P s → (∀ a, x = Ok a → P (f a s).1) → P ((lift x ≫= f) s).1.
Proof. intros. apply bind_keeps; [done|]. intros s' a [= -> ->]. auto. Qed.

Lemma for_each_keeps {S A} (P : S → Prop) (f : A → M S unit) l s :
  (∀ x s, x ∈ l → P s → P (f x s).1) → P s → P (for_each f l s).1.
Proof.
  revert s. induction l as [|x l IH]; intros s Hf Hs; cbn [for_each]; [done|].
  apply bind_keeps; [apply Hf; [left|done]|]. intros s' [] E. apply IH.
  - intros y s0 Hy. apply Hf. by right.
  - specialize (Hf x s). rewrite E in Hf. apply Hf; [left|done].
Qed.

(** ** Absence of panics *)
Definition no_panic {A} (x : outcome A) : Prop := x ≠ Panic.

Lemma no_panic_bind {A B} (x : outcome A) (f : A → outcome B) :
  no_panic x → (∀ a, x = Ok a → no_panic (f a)) → no_panic (x ≫= f).
Proof. unfold no_panic. destruct x; cbn; naive_solver. Qed.

Lemma no_panic_Ok {A} (a : A) : no_panic (Ok a).
Proof. done. Qed.

Lemma no_panic_Err {A} e : no_panic (Err e : outcome A).
Proof. done. Qed.

Lemma no_panic_fail_if c e : no_panic (fail_if c e).
Proof. by destruct c. Qed.

Lemma no_panic_or_fail {A} (o : option A) e : no_panic (or_fail o e).
Proof. by destruct o. Qed.

Lemma no_panic_map_err {A} f (x : outcome A) : no_panic x → no_panic (map_err f x).
Proof. unfold no_panic. by destruct x. Qed.

Lemma no_panic_recovering {A} e (x : outcome A) : no_panic (recovering e x).
Proof. by destruct x. Qed.

Lemma no_panic_fold {A B} (f : B → A → outcome B) b l :
  (∀ b x, no_panic (f b x)) → no_panic (fold_outcome f b l).
Proof.
  intros Hf. revert b. induction l as [|x l IH]; intros b; cbn [fold_outcome]; [done|].
  apply no_panic_bind; [apply Hf|]. intros. apply IH.
Qed.

Lemma check_all_no_panic {A} (f : A → outcome unit) l :
  (∀ x, x ∈ l → no_panic (f x)) → no_panic (check_all f l).
Proof.
  induction l as [|x l IH]; intros Hf; cbn; [done|]. apply no_panic_bind; [apply Hf; by left|].
  intros _ _. apply IH. intros y Hy. apply Hf. by right.
Qed.
Create HintDb panics.
#[export] Hint Resolve no_panic_bind no_panic_Ok no_panic_Err no_panic_fail_if
  no_panic_or_fail no_panic_map_err no_panic_recovering check_all_no_panic : panics.

(** [inv_ok] peels the successful steps of a monadic computation in the context. *)
Ltac inv_ok_step :=
  match goal with
  | H : _ ≫= _ = Ok _ |- _ => apply bind_Ok in H as (?&?&?)
  | H : (_ ≫= _) _ = (_, Ok _) |- _ => apply M_bind_Ok in H as (?&?&?&?)
  | H : fail_if _ _ = Ok _ |- _ => apply fail_if_Ok in H
  | H : or_fail _ _ = Ok _ |- _ => apply or_fail_Ok in H
  | H : map_err _ _ = Ok _ |- _ => apply map_err_Ok in H
  | H : recovering _ _ = Ok _ |- _ => apply recovering_Ok in H
  | H : lift _ _ = (_, Ok _) |- _ => apply lift_Ok in H as [? H]; subst
  | H : gets _ _ = (_, Ok _) |- _ => apply gets_Ok in H as [??]; subst
  | H : get_state _ = (_, Ok _) |- _ => apply get_state_Ok in H as [??]; subst
  | H : modify _ _ = (_, Ok _) |- _ => apply modify_Ok in H; subst
  | H : write _ _ = (_, Ok _) |- _ => apply write_Ok in H
  | H : mret _ _ = (_, Ok _) |- _ => apply M_ret_Ok in H as [??]; subst
  | H : mret _ = Ok _ |- _ => injection H as ?; subst
  | H : Ok _ = Ok _ |- _ => injection H as ?; subst
  | H : ?t = Ok ?x, H' : ?t = Ok ?y |- _ => rewrite H in H'
  | H : ?t = Ok _, H' : ?t = Err _ |- _ => rewrite H in H'; discriminate H'
  | H : (_, Ok _) = (_, Ok _) |- _ => injection H as ??; subst
  | H : Err _ = Ok _ |- _ => discriminate H
  | H : Panic = Ok _ |- _ => discriminate H
  | H : (_, Err _) = (_, Ok _) |- _ => discriminate H
  | H : (_, Panic) = (_, Ok _) |- _ => discriminate H
  end.
Ltac inv_ok := repeat (inv_ok_step; cbn beta iota in * ).

(** [run_ok] runs the leading steps of a monadic goal that the context shows to succeed. *)
Ltac run_ok :=
  repeat first
    [ erewrite lift_fail_if by first [eassumption | by apply negb_false_iff]
    | erewrite lift_bind_Ok by eassumption
    | erewrite M_bind_Ok_l by (reflexivity || eassumption) ]; cbn beta.

(** The end state of a run together with its result. *)
Lemma run_pair {S A} (m : M S A) s r : (m s).2 = r → m s = ((m s).1, r).
Proof. intros <-. by destruct (m s). Qed.

Lemma ok_or_eq {A} (d : A) x : is_ok x = true → x = Ok (ok_or d x).
Proof. by destruct x. Qed.

(** [eval_hyp] discharges a closed hypothesis of a theorem by evaluation. *)
Ltac eval_hyp :=
  lazymatch goal with
  | |- _ = ((_ _).1, _) => apply run_pair; vm_compute; reflexivity
  | |- _ = Ok (ok_or _ _) => apply ok_or_eq; vm_compute; reflexivity
  | |- _ = _ => vm_compute; reflexivity
  | |- _ ∧ _ => split; eval_hyp
  | |- True => exact I
  | |- _ => vm_compute; first [reflexivity | discriminate | intuition discriminate]
  end.

(** ** Lemmas on the string order *)

Lemma str_lt_iff a b : str_lt a b ↔ String.le a b ∧ a ≠ b.
Proof.
  unfold str_lt, String.le, String.ltb, String.leb.
  destruct (String.compare a b) eqn:E; split; try naive_solver.
  - apply String.compare_eq_iff in E as ->. naive_solver.
  - intros _. split; [done|]. intros ->.
    pose proof (String.compare_antisym b b) as H. rewrite E in H. done.
Qed.

#[global] Instance str_lt_irrefl : Irreflexive str_lt.
Proof. intros a H. apply str_lt_iff in H. naive_solver. Qed.

#[global] Instance str_lt_trans : Transitive str_lt.
Proof.
  intros a b c. rewrite !str_lt_iff. intros [Hab Hne] [Hbc Hne']. split.
  - by trans b.
  - intros ->. apply Hne. by apply (anti_symm String.le).
Qed.

Lemma str_lt_total a b : str_lt a b ∨ a = b ∨ str_lt b a.
Proof.
  rewrite !str_lt_iff. destruct (decide (a = b)); [auto|].
  destruct (total String.le a b); naive_solver.
Qed.

Lemma str_ltb_false a b : String.ltb a b = false → a = b ∨ str_lt b a.
Proof. destruct (str_lt_total a b) as [H|]; [unfold str_lt in H; congruence|done]. Qed.

Lemma slen_ne_0 s : s ≠ "" → slen s ≠ 0.
Proof. by destruct s. Qed.

Lemma slen_nonneg s : 0 ≤ slen s.
Proof. unfold slen. lia. Qed.

(** ** Lemmas on filtered lists *)
Lemma StronglySorted_filter {A} (R : A → A → Prop) (P : A → Prop) `{∀ x, Decision (P x)} l :
  StronglySorted R l → StronglySorted R (filter P l).
Proof.
  induction 1 as [|x l Hs IH Hx]; [constructor|]. rewrite filter_cons. case_decide; [|done].
  constructor; [done|]. rewrite Forall_forall in *. intros y [_ ?]%list_elem_of_filter. auto.
Qed.

(** Where the [n]-th element that passes the filter stands. *)
Lemma filter_split {A} (P : A → Prop) `{∀ x, Decision (P x)} n l e rest :
  drop n (filter P l) = e :: rest →
  ∃ pre post, l = pre ++ e :: post ∧ filter P pre = take n (filter P l) ∧ filter P (e :: post) = e :: rest.
Proof.
  revert n. induction l as [|x l IH]; intros n E; [by destruct n|].
  rewrite filter_cons in E |- *. case_decide as Hx.
  - destruct n as [|n]; cbn in E.
    + injection E as <- <-. exists [], l. by rewrite filter_cons_True.
    + destruct (IH n E) as (pre&post&->&Hp&He). exists (x :: pre), post. rewrite filter_cons_True by done.
      cbn. by rewrite Hp.
  - destruct (IH n E) as (pre&post&->&Hp&He). exists (x :: pre), post. by rewrite filter_cons_False.
Qed.

(** ** Lemmas on maps built by insertions *)
Lemma foldl_insert_to_list {K V A} `{Countable K} (f : A → K) (g : A → V) l (m : gmap K V) :
  foldl (λ m x, <[f x := g x]> m) m l = list_to_map (reverse ((λ x, (f x, g x)) <$> l)) ∪ m.
Proof.
  revert m. induction l as [|x l IH]; intros m; cbn [foldl fmap list_fmap].
  - rewrite reverse_nil, list_to_map_nil. by rewrite (left_id_L ∅ (∪)).
  - rewrite IH, reverse_cons, list_to_map_app, <- (assoc_L (∪)). f_equal.
    cbn. by rewrite insert_empty, <- insert_union_singleton_l.
Qed.

(** ** Lemmas on sums *)

Lemma sumZ_app {A} (f : A → Z) l k : sumZ f (l ++ k) = sumZ f l + sumZ f k.
Proof. induction l as [|x l IH]; cbn in *; lia. Qed.

Lemma sumZ_ext {A} (f g : A → Z) l : (∀ x, x ∈ l → f x = g x) → sumZ f l = sumZ g l.
Proof.
  induction l as [|x l IH]; cbn; intros H; [done|].
  rewrite H by constructor. rewrite IH; [done|]. intros y Hy. apply H. by constructor.
Qed.

Lemma sumZ_add {A} (f g : A → Z) l : sumZ (λ x, f x + g x) l = sumZ f l + sumZ g l.
Proof. induction l as [|x l IH]; cbn in *; lia. Qed.

Lemma sumZ_nonneg {A} (f : A → Z) l : (∀ x, x ∈ l → 0 ≤ f x) → 0 ≤ sumZ f l.
Proof.
  induction l as [|x l IH]; cbn; intros H; [lia|].
  pose proof (H x (list_elem_of_here _ _)).
  assert (0 ≤ sumZ f l) by (apply IH; intros y Hy; apply H; by constructor). lia.
Qed.

Lemma sumZ_map {A B} (f : B → Z) (g : A → B) l : sumZ f (g <$> l) = sumZ (λ x, f (g x)) l.
Proof. induction l as [|x l IH]; cbn in *; [done|]. by rewrite IH. Qed.

Lemma sumZ_perm {A} (f : A → Z) l k : l ≡ₚ k → sumZ f l = sumZ f k.
Proof. induction 1; cbn in *; lia. Qed.
