(* ===== verification/GoStd.v ===== *)
(** * The parts of Go and its standard library that the modules use

    Slices with their bounds checks, [strings], [math/big.Int.SetString] and
    fixed-width integer conversions, as executable definitions. *)

From S2P Require Import Prelude.

(** ** Integers *)

(** Conversion to [int64] ([int] on the platforms the chain runs on). *)
Definition i64 (z : Z) : Z := (z + 2 ^ 63) mod 2 ^ 64 - 2 ^ 63.

(** ** Slices: [l[:n]], [l[n:]], [l[a:b]] and [l[i]], with their bounds checks *)
Definition slice_to {A} (l : list A) (n : Z) : outcome (list A) :=
  if decide (0 ≤ n ≤ llen l) then Ok (take (Z.to_nat n) l) else Panic.
Definition slice_from {A} (l : list A) (n : Z) : outcome (list A) :=
  if decide (0 ≤ n ≤ llen l) then Ok (drop (Z.to_nat n) l) else Panic.
Definition slice {A} (l : list A) (a b : Z) : outcome (list A) :=
  if decide (0 ≤ a ≤ b ∧ b ≤ llen l)
  then Ok (take (Z.to_nat (b - a)) (drop (Z.to_nat a) l)) else Panic.
Definition index {A} (l : list A) (i : Z) : outcome A :=
  if decide (0 ≤ i) then from_option Ok Panic (l !! Z.to_nat i) else Panic.

(** ** Strings as byte sequences *)
Fixpoint bytes_of (s : string) : list Ascii.ascii :=
  match s with "" => [] | String a s => a :: bytes_of s end.
Fixpoint of_bytes (l : list Ascii.ascii) : string :=
  match l with [] => "" | a :: l => String a (of_bytes l) end.

Definition byte_val (a : Ascii.ascii) : Z := Z.of_N (Ascii.N_of_ascii a).
Definition byte_of (z : Z) : Ascii.ascii := Ascii.ascii_of_N (Z.to_N (z mod 256)).

(** [s[n:]] and [s[a:b]] on strings and byte slices *)
Definition str_from (s : string) (n : Z) : outcome string := of_bytes <$> slice_from (bytes_of s) n.
Definition str_to (s : string) (n : Z) : outcome string := of_bytes <$> slice_to (bytes_of s) n.
Definition str_slice (s : string) (a b : Z) : outcome string := of_bytes <$> slice (bytes_of s) a b.
Definition str_index (s : string) (i : Z) : outcome Z := byte_val <$> index (bytes_of s) i.

(** [strings.HasPrefix] *)
Definition HasPrefix (s p : string) : bool := String.prefix p s.

(** ** [math/big.Int.SetString] for bases 10 and 16: an optional sign, then at
    least one digit, and nothing else. *)
Definition digit_val (a : Ascii.ascii) : option Z :=
  let v := byte_val a in
  if decide (48 ≤ v ≤ 57) then Some (v - 48)
  else if decide (97 ≤ v ≤ 122) then Some (v - 97 + 10)
  else if decide (65 ≤ v ≤ 90) then Some (v - 65 + 10)
  else None.

Fixpoint scan_digits (base acc : Z) (l : list Ascii.ascii) : option Z :=
  match l with
  | [] => Some acc
  | a :: l =>
    match digit_val a with
    | Some d => if d <? base then scan_digits base (acc * base + d) l else None
    | None => None
    end
  end.

Definition scan_nat (base : Z) (l : list Ascii.ascii) : option Z :=
  match l with [] => None | _ => scan_digits base 0 l end.

Definition big_SetString (s : string) (base : Z) : option Z :=
  match bytes_of s with
  | a :: l =>
    if byte_val a =? 45 then Z.opp <$> scan_nat base l
    else if byte_val a =? 43 then scan_nat base l
    else scan_nat base (a :: l)
  | [] => None
  end.

(** ** Package [strings], on UTF-8 text *)

(** [l] without the leading bytes [p], if it starts with them. *)
Fixpoint strip_bytes (p : list Z) (l : list Ascii.ascii) : option (list Ascii.ascii) :=
  match p, l with
  | [], _ => Some l
  | z :: p, a :: l => if byte_val a =? z then strip_bytes p l else None
  | _ :: _, [] => None
  end.

Fixpoint strip_any (ps : list (list Z)) (l : list Ascii.ascii) : option (list Ascii.ascii) :=
  match ps with
  | [] => None
  | p :: ps => match strip_bytes p l with Some l' => Some l' | None => strip_any ps l end
  end.

(** The characters of [unicode.IsSpace], as their UTF-8 bytes. *)
Definition space_chars : list (list Z) :=
  [[9]; [10]; [11]; [12]; [13]; [32]; [194; 133]; [194; 160]; [225; 154; 128];
   [226; 128; 128]; [226; 128; 129]; [226; 128; 130]; [226; 128; 131]; [226; 128; 132]; [226; 128; 133];
   [226; 128; 134]; [226; 128; 135]; [226; 128; 136]; [226; 128; 137]; [226; 128; 138];
   [226; 128; 168]; [226; 128; 169]; [226; 128; 175]; [226; 129; 159]; [227; 128; 128]].

(** Drops leading occurrences of the [ps]; each round drops a byte or more, so the
    length of [l] is fuel enough. *)
Fixpoint drop_any (ps : list (list Z)) (fuel : nat) (l : list Ascii.ascii) : list Ascii.ascii :=
  match fuel, strip_any ps l with
  | S fuel, Some l' => drop_any ps fuel l'
  | _, _ => l
  end.

Definition trim_left (ps : list (list Z)) (l : list Ascii.ascii) : list Ascii.ascii :=
  drop_any ps (length l) l.
Definition trim_right (ps : list (list Z)) (l : list Ascii.ascii) : list Ascii.ascii :=
  reverse (drop_any (map reverse ps) (length l) (reverse l)).

(** [strings.TrimSpace] *)
Definition TrimSpace (s : string) : string :=
  of_bytes (trim_right space_chars (trim_left space_chars (bytes_of s))).
(** [strings.TrimLeftFunc(s, unicode.IsSpace)] *)
Definition TrimLeftSpace (s : string) : string := of_bytes (trim_left space_chars (bytes_of s)).
(** [strings.TrimRight(s, ...)] with a cutset of ASCII characters, given by their codes *)
Definition TrimRight (s : string) (cutset : list Z) : string :=
  of_bytes (trim_right (map (λ z, [z]) cutset) (bytes_of s)).

(** [strings.Index]: the position of the first occurrence, if any *)
Fixpoint str_Index (s p : string) : option nat :=
  if String.prefix p s then Some O
  else match s with
       | "" => None
       | String _ s' => S <$> str_Index s' p
       end.
(** [strings.Contains] *)
Definition Contains (s p : string) : bool := bool_decide (is_Some (str_Index s p)).

(** Lower case of the ASCII letters.  [strings.ToLower] and [strings.EqualFold] agree
    with it when the outcome is compared with text over the letters of [utf], [re]
    and [fwd], which no other Unicode character folds to. *)
Definition lower_byte (a : Ascii.ascii) : Ascii.ascii :=
  if decide (65 ≤ byte_val a ≤ 90) then byte_of (byte_val a + 32) else a.
Definition ToLowerASCII (s : string) : string := of_bytes (map lower_byte (bytes_of s)).

(** ** Lemmas *)

Lemma of_bytes_of s : of_bytes (bytes_of s) = s.
Proof. induction s as [|a s IH]; cbn; [done|]. by rewrite IH. Qed.

Lemma bytes_of_of l : bytes_of (of_bytes l) = l.
Proof. induction l as [|a l IH]; cbn; [done|]. by rewrite IH. Qed.

Lemma bytes_of_length s : llen (bytes_of s) = slen s.
Proof. unfold llen, slen. f_equal. induction s as [|a s IH]; cbn; [done|]. by rewrite IH. Qed.

Lemma bytes_of_app s t : bytes_of (s +:+ t) = bytes_of s ++ bytes_of t.
Proof.
  induction s as [|a s IH]; [done|]. change (String a s +:+ t) with (String a (s +:+ t)).
  cbn [bytes_of app]. by rewrite IH.
Qed.

Lemma of_bytes_app l k : of_bytes (l ++ k) = of_bytes l +:+ of_bytes k.
Proof.
  induction l as [|a l IH]; [done|]. cbn [of_bytes app]. rewrite IH. done.
Qed.

#[global] Instance bytes_of_inj : Inj (=) (=) bytes_of.
Proof. intros s t E. by rewrite <- (of_bytes_of s), <- (of_bytes_of t), E. Qed.

Lemma llen_nonneg {A} (l : list A) : 0 ≤ llen l.
Proof. unfold llen. lia. Qed.

Lemma llen_app {A} (l k : list A) : llen (l ++ k) = llen l + llen k.
Proof. unfold llen. rewrite length_app. lia. Qed.

Lemma llen_cons {A} (x : A) l : llen (x :: l) = 1 + llen l.
Proof. unfold llen. cbn. lia. Qed.

Lemma slice_to_ok {A} (l : list A) n : 0 ≤ n ≤ llen l → slice_to l n = Ok (take (Z.to_nat n) l).
Proof. intros. unfold slice_to. by rewrite decide_True. Qed.

Lemma slice_from_ok {A} (l : list A) n : 0 ≤ n ≤ llen l → slice_from l n = Ok (drop (Z.to_nat n) l).
Proof. intros. unfold slice_from. by rewrite decide_True. Qed.

Lemma byte_val_range a : 0 ≤ byte_val a < 256.
Proof.
  unfold byte_val. split; [lia|].
  change 256 with (Z.of_N 256). apply N2Z.inj_lt, Ascii.N_ascii_bounded.
Qed.

Lemma byte_of_val a : byte_of (byte_val a) = a.
Proof.
  unfold byte_of. rewrite Z.mod_small by apply byte_val_range.
  unfold byte_val. by rewrite N2Z.id, Ascii.ascii_N_embedding.
Qed.

Lemma byte_val_of z : byte_val (byte_of z) = z mod 256.
Proof.
  unfold byte_val, byte_of. pose proof (Z.mod_pos_bound z 256 ltac:(lia)).
  rewrite Ascii.N_ascii_embedding, Z2N.id; lia.
Qed.

Lemma i64_small z : - 2 ^ 63 ≤ z < 2 ^ 63 → i64 z = z.
Proof. intros. unfold i64. rewrite Z.mod_small; lia. Qed.

Lemma u64_small z : is_u64 z → u64 z = z.
Proof. unfold is_u64, u64. intros. by apply Z.mod_small. Qed.

Lemma u64_range z : is_u64 (u64 z).
Proof. unfold is_u64, u64. apply Z.mod_pos_bound. lia. Qed.

Lemma scan_digits_nonneg base acc l z :
  0 ≤ base → 0 ≤ acc → scan_digits base acc l = Some z → 0 ≤ z.
Proof.
  intros Hb. revert acc. induction l as [|a l IH]; intros acc Ha; cbn; [naive_solver|].
  destruct (digit_val a) as [d|] eqn:E; [|done]. case_match; [|done].
  apply IH. unfold digit_val in E. repeat case_decide; naive_solver nia.
Qed.

(** ** Lemmas on prefixes *)
Lemma prefix_app p s : String.prefix p s = true ↔ ∃ r, s = p +:+ r.
Proof.
  revert s. induction p as [|a p IH]; intros s; cbn; [by destruct s; naive_solver|].
  destruct s as [|b s]; [split; [done|by intros [r [=]]]|].
  change (String.prefix (String a p) (String b s))
    with (if Ascii.ascii_dec a b then String.prefix p s else false).
  destruct (Ascii.ascii_dec a b) as [->|Hab].
  { rewrite IH. split; intros [r E]; exists r; [by rewrite E|by injection E]. }
  split; [done|]. by intros [r [= ->]].
Qed.

(** ** Lemmas on trimming *)
Lemma strip_bytes_length p l l' :
  strip_bytes p l = Some l' → length l = (length p + length l')%nat.
Proof.
  revert l. induction p as [|z p IH]; intros [|a l]; cbn; intros E; simplify_eq; [done..|].
  case_match; [|done]. by rewrite (IH l).
Qed.

Lemma strip_any_length ps l l' :
  Forall (λ p, p ≠ []) ps → strip_any ps l = Some l' → (length l' < length l)%nat.
Proof.
  induction 1 as [|p ps Hp _ IH]; cbn; [done|]. destruct (strip_bytes p l) eqn:E; [|done].
  intros [= ->]. apply strip_bytes_length in E. destruct p; [done|]. cbn in E. lia.
Qed.

Lemma drop_any_length ps fuel l : Forall (λ p, p ≠ []) ps → (length (drop_any ps fuel l) ≤ length l)%nat.
Proof.
  intros Hps. revert l. induction fuel as [|fuel IH]; intros l; cbn; [done|].
  destruct (strip_any ps l) eqn:E; [|done]. apply strip_any_length in E; [|done]. etrans; [apply IH|lia].
Qed.

Lemma space_chars_nonempty : Forall (λ p, p ≠ []) space_chars.
Proof. repeat constructor; discriminate. Qed.

Lemma TrimSpace_length s : slen (TrimSpace s) ≤ slen s.
Proof.
  rewrite <- !bytes_of_length. unfold TrimSpace, trim_right, llen. rewrite bytes_of_of, length_reverse.
  apply Nat2Z.inj_le. etrans; [apply drop_any_length|].
  - repeat constructor; discriminate.
  - rewrite length_reverse. apply drop_any_length, space_chars_nonempty.
Qed.

(** Nothing is left to drop. *)
Lemma drop_any_stable ps fuel l :
  Forall (λ p, p ≠ []) ps → (length l ≤ fuel)%nat → strip_any ps (drop_any ps fuel l) = None.
Proof.
  intros Hps. revert l. induction fuel as [|fuel IH]; intros l Hl; cbn.
  - destruct l; [|cbn in Hl; lia]. destruct (strip_any ps []) eqn:E; [|done].
    apply strip_any_length in E; [cbn in E; lia|done].
  - destruct (strip_any ps l) eqn:E; [|done]. apply IH. apply strip_any_length in E; [lia|done].
Qed.
