(* ===== verification/GoJson.v ===== *)
(** * Go's [encoding/json]

    What [json.Marshal] writes for strings, unsigned integers, slices and structs, with
    the escapes of the encoder, and a reader for it as the specification.  Bytes are
    their values. *)

From S2P Require Import Prelude GoStd.

(** ** UTF-8 *)

(** What may follow the first byte of a character: how many bytes, and the range of the
    first of them *)
Definition utf8_lead (b : Z) : nat * Z * Z :=
  if (194 <=? b) && (b <=? 223) then (1%nat, 128, 191)
  else if b =? 224 then (2%nat, 160, 191)
  else if b =? 237 then (2%nat, 128, 159)
  else if (225 <=? b) && (b <=? 239) then (2%nat, 128, 191)
  else if b =? 240 then (3%nat, 144, 191)
  else if (241 <=? b) && (b <=? 243) then (3%nat, 128, 191)
  else if b =? 244 then (3%nat, 128, 143)
  else (0%nat, 0, 0).

Definition in_range (lo hi b : Z) : bool := (lo <=? b) && (b <=? hi).

(** [utf8.DecodeRune]: the bytes behind the first one of the character at the front, none
    if there is no well-formed one of several bytes *)
Definition utf8_more (l : list Z) : nat :=
  match l with
  | b0 :: b1 :: rest =>
    let '(n, lo, hi) := utf8_lead b0 in
    if negb (in_range lo hi b1) then 0%nat
    else match n, rest with
         | 1%nat, _ => 1%nat
         | 2%nat, b2 :: _ => if in_range 128 191 b2 then 2%nat else 0%nat
         | 3%nat, b2 :: b3 :: _ => if in_range 128 191 b2 && in_range 128 191 b3 then 3%nat else 0%nat
         | _, _ => 0%nat
         end
  | _ => 0%nat
  end.

(** ** Strings *)
Definition hex_digit (z : Z) : Z := if z <? 10 then 48 + z else 87 + z.

(** A byte below 128: the escapes are those of [htmlSafeSet] *)
Definition escape_ascii (b : Z) : list Z :=
  if (b =? 34) || (b =? 92) then [92; b]
  else if b =? 8 then [92; 98]
  else if b =? 12 then [92; 102]
  else if b =? 10 then [92; 110]
  else if b =? 13 then [92; 114]
  else if b =? 9 then [92; 116]
  else if (b <? 32) || (b =? 60) || (b =? 62) || (b =? 38) then [92; 117; 48; 48; hex_digit (b / 16); hex_digit (b mod 16)]
  else [b].

(** [appendString]; [copy] bytes belong to a character that was recognized.  The line
    separators U+2028 and U+2029 are escaped, and so is a byte that is not UTF-8. *)
Fixpoint json_escape (copy : nat) (l : list Z) : list Z :=
  match l with
  | [] => []
  | b :: l' =>
    match copy with
    | S copy => b :: json_escape copy l'
    | O =>
      if b <? 128 then escape_ascii b ++ json_escape 0 l'
      else
        let other :=
          match utf8_more l with
          | O => [92; 117; 102; 102; 102; 100] ++ json_escape 0 l'
          | n => b :: json_escape n l'
          end in
        match l' with
        | b1 :: b2 :: l'' =>
          if (b =? 226) && (b1 =? 128) && ((b2 =? 168) || (b2 =? 169))
          then [92; 117; 50; 48; 50; hex_digit (b2 - 160)] ++ json_escape 0 l''
          else other
        | _ => other
        end
    end
  end.

Definition byte_vals (s : string) : list Z := byte_val <$> bytes_of s.

(** ** Values: an object has its members in the order in which they are written *)
Inductive Json :=
| JNumber (n : Z)
| JString (s : list Z)
| JArray (l : list Json)
| JObject (l : list (list Z * Json)).

Fixpoint dec_digits (fuel : nat) (n : Z) (acc : list Z) : list Z :=
  match fuel with
  | O => acc
  | S fuel => if n <? 10 then 48 + n :: acc else dec_digits fuel (n / 10) (48 + n mod 10 :: acc)
  end.
(** [strconv.AppendUint]: twenty digits are enough *)
Definition json_number (n : Z) : list Z := dec_digits 20 n [].

Definition json_string (s : list Z) : list Z := 34 :: json_escape 0 s ++ [34].

(** The elements with commas between them *)
Definition commas (l : list (list Z)) : list Z :=
  match l with
  | [] => []
  | x :: l => x ++ concat ((λ y, 44 :: y) <$> l)
  end.

Fixpoint json_print (v : Json) : list Z :=
  match v with
  | JNumber n => json_number n
  | JString s => json_string s
  | JArray l => 91 :: commas (json_print <$> l) ++ [93]
  | JObject l => 123 :: commas ((λ kv : list Z * Json, json_string kv.1 ++ 58 :: json_print kv.2) <$> l) ++ [125]
  end.

Definition json_text (v : Json) : string := of_bytes (byte_of <$> json_print v).

(** [json.Marshal] of a slice of strings that is not nil *)
Definition json_Marshal_strings (l : list string) : string := json_text (JArray (JString ∘ byte_vals <$> l)).

(** ** Reading, as the specification *)
Definition hex_val (b : Z) : option Z :=
  if in_range 48 57 b then Some (b - 48) else if in_range 97 102 b then Some (b - 87)
  else if in_range 65 70 b then Some (b - 55) else None.

(** A code point of the basic plane *)
Definition utf8_encode (c : Z) : list Z :=
  if c <? 128 then [c]
  else if c <? 2048 then [192 + c / 64; 128 + c mod 64]
  else [224 + c / 4096; 128 + (c / 64) mod 64; 128 + c mod 64].

Definition simple_escape (b : Z) : option Z :=
  if (b =? 34) || (b =? 92) || (b =? 47) then Some b
  else if b =? 98 then Some 8 else if b =? 102 then Some 12 else if b =? 110 then Some 10
  else if b =? 114 then Some 13 else if b =? 116 then Some 9 else None.

(** The characters up to the closing quote, and what is behind it *)
Fixpoint read_chars (l : list Z) : option (list Z * list Z) :=
  match l with
  | [] => None
  | b :: r =>
    if b =? 34 then Some ([], r)
    else if b =? 92 then
      match r with
      | [] => None
      | e :: r =>
        if e =? 117 then
          match r with
          | h1 :: h2 :: h3 :: h4 :: r =>
            d1 ← hex_val h1; d2 ← hex_val h2; d3 ← hex_val h3; d4 ← hex_val h4;
            '(s, r) ← read_chars r;
            Some (utf8_encode (((d1 * 16 + d2) * 16 + d3) * 16 + d4) ++ s, r)
          | _ => None
          end
        else
          c ← simple_escape e;
          '(s, r) ← read_chars r;
          Some (c :: s, r)
      end
    else if b <? 32 then None
    else '(s, r) ← read_chars r; Some (b :: s, r)
  end.

Fixpoint read_digits (acc : Z) (l : list Z) : Z * list Z :=
  match l with
  | b :: r => if in_range 48 57 b then read_digits (acc * 10 + (b - 48)) r else (acc, l)
  | [] => (acc, [])
  end.

(** What is behind the byte [c], if the text starts with it *)
Definition behind (c : Z) (l : list Z) : option (list Z) :=
  match l with b :: r => if b =? c then Some r else None | [] => None end.

Fixpoint read_value (fuel : nat) (l : list Z) : option (Json * list Z) :=
  match fuel with
  | O => None
  | S fuel =>
    match l with
    | [] => None
    | b :: r =>
      if b =? 34 then '(s, r) ← read_chars r; Some (JString s, r)
      else if b =? 91 then
        match behind 93 r with
        | Some r => Some (JArray [], r)
        | None => '(v, r) ← read_value fuel r; '(vs, r) ← read_elems fuel r; Some (JArray (v :: vs), r)
        end
      else if b =? 123 then
        match behind 125 r with
        | Some r => Some (JObject [], r)
        | None => '(kv, r) ← read_member fuel r; '(kvs, r) ← read_members fuel r; Some (JObject (kv :: kvs), r)
        end
      else if in_range 48 57 b then let '(n, r) := read_digits 0 l in Some (JNumber n, r)
      else None
    end
  end
with read_elems (fuel : nat) (l : list Z) : option (list Json * list Z) :=
  match fuel with
  | O => None
  | S fuel =>
    match behind 93 l with
    | Some r => Some ([], r)
    | None => r ← behind 44 l; '(v, r) ← read_value fuel r; '(vs, r) ← read_elems fuel r; Some (v :: vs, r)
    end
  end
with read_member (fuel : nat) (l : list Z) : option ((list Z * Json) * list Z) :=
  match fuel with
  | O => None
  | S fuel =>
    r ← behind 34 l; '(k, r) ← read_chars r;
    r ← behind 58 r; '(v, r) ← read_value fuel r;
    Some ((k, v), r)
  end
with read_members (fuel : nat) (l : list Z) : option (list (list Z * Json) * list Z) :=
  match fuel with
  | O => None
  | S fuel =>
    match behind 125 l with
    | Some r => Some ([], r)
    | None => r ← behind 44 l; '(kv, r) ← read_member fuel r; '(kvs, r) ← read_members fuel r; Some (kv :: kvs, r)
    end
  end.

(** Text that is UTF-8, and values with such text and with 64-bit numbers *)
Fixpoint utf8_ok (copy : nat) (l : list Z) : bool :=
  match l with
  | [] => match copy with O => true | S _ => false end
  | b :: l' =>
    match copy with
    | S copy => in_range 128 255 b && utf8_ok copy l'
    | O => if b <? 128 then (0 <=? b) && utf8_ok 0 l'
           else (b <=? 255) && match utf8_more l with O => false | n => utf8_ok n l' end
    end
  end.

Inductive json_ok : Json → Prop :=
| ok_number n : 0 ≤ n < 2 ^ 64 → json_ok (JNumber n)
| ok_string s : utf8_ok 0 s = true → json_ok (JString s)
| ok_array l : Forall json_ok l → json_ok (JArray l)
| ok_object l : Forall (λ kv, utf8_ok 0 kv.1 = true ∧ json_ok kv.2) l → json_ok (JObject l).

(** Text in which every byte that belongs to no character is replaced by U+FFFD: what a
    reader finds where the encoder was given other bytes *)
Fixpoint utf8_fix (copy : nat) (l : list Z) : list Z :=
  match l with
  | [] => []
  | b :: l' =>
    match copy with
    | S copy => b :: utf8_fix copy l'
    | O => if b <? 128 then b :: utf8_fix 0 l'
           else match utf8_more l with O => [239; 191; 189] ++ utf8_fix 0 l' | n => b :: utf8_fix n l' end
    end
  end.

Fixpoint json_fix (v : Json) : Json :=
  match v with
  | JNumber n => JNumber n
  | JString s => JString (utf8_fix 0 s)
  | JArray l => JArray (json_fix <$> l)
  | JObject l => JObject ((λ kv : list Z * Json, (utf8_fix 0 kv.1, json_fix kv.2)) <$> l)
  end.

Definition is_byte (b : Z) : Prop := 0 ≤ b < 256.

#[global] Instance is_byte_dec b : Decision (is_byte b).
Proof. unfold is_byte. apply _. Defined.

(** Values with any bytes for text *)
Inductive json_bytes : Json → Prop :=
| bytes_number n : 0 ≤ n < 2 ^ 64 → json_bytes (JNumber n)
| bytes_string s : Forall is_byte s → json_bytes (JString s)
| bytes_array l : Forall json_bytes l → json_bytes (JArray l)
| bytes_object l : Forall (λ kv, Forall is_byte kv.1 ∧ json_bytes kv.2) l → json_bytes (JObject l).

Lemma in_range_iff lo hi b : in_range lo hi b = true ↔ lo ≤ b ∧ b ≤ hi.
Proof. unfold in_range. by rewrite andb_true_iff, !Z.leb_le. Qed.

(** ** Strings are read back *)
Definition push (b : Z) (x : option (list Z * list Z)) : option (list Z * list Z) := '(s, r) ← x; Some (b :: s, r).

Lemma read_ascii b r : 0 ≤ b < 128 → read_chars (escape_ascii b ++ r) = push b (read_chars r).
Proof.
  intros Hb. assert (Forall (λ b, ∀ r, read_chars (escape_ascii b ++ r) = push b (read_chars r)) (seqZ 0 128)) as H.
  { repeat constructor; intros s; reflexivity. }
  rewrite Forall_forall in H. apply H, elem_of_seqZ. lia.
Qed.

Lemma read_high b r : 128 ≤ b → read_chars (b :: r) = push b (read_chars r).
Proof.
  intros Hb. cbn [read_chars]. rewrite (proj2 (Z.eqb_neq b 34)), (proj2 (Z.eqb_neq b 92)), (proj2 (Z.ltb_ge b 32)) by lia. done.
Qed.

Lemma read_separator b r : b = 168 ∨ b = 169 →
  read_chars ([92; 117; 50; 48; 50; hex_digit (b - 160)] ++ r) = push 226 (push 128 (push b (read_chars r))).
Proof. intros [->| ->]; cbn -[read_chars]; cbn [read_chars]; destruct (read_chars r) as [[s r']|]; reflexivity. Qed.

(** A character is recognized with its bytes, all of them above the ASCII range. *)
Lemma utf8_more_high b l : Forall (λ b, 128 ≤ b) (take (utf8_more (b :: l)) l).
Proof.
  destruct l as [|b1 l]; [by rewrite take_nil|]. unfold utf8_more.
  assert (((utf8_lead b).1.1 ≠ 0)%nat → 128 ≤ (utf8_lead b).1.2) as Hlo
    by (unfold utf8_lead; repeat case_match; cbn; lia).
  destruct (utf8_lead b) as [[n lo] hi]. cbn [fst snd] in Hlo.
  destruct (in_range lo hi b1) eqn:H1; [|constructor]. apply in_range_iff in H1. cbn [negb].
  destruct n as [|[|[|[|n]]]]; try (destruct l as [|b2 l]); try (destruct l as [|b3 l]); try constructor; try lia;
    repeat case_match; try constructor;
    repeat match goal with
    | H : _ && _ = true |- _ => apply andb_true_iff in H as [??]
    | H : in_range _ _ _ = true |- _ => apply in_range_iff in H
    end; cbn [take]; repeat constructor; lia.
Qed.

(** An escaped character of several bytes: a separator, its bytes, or a byte that is none *)
Lemma json_escape_high b l : 128 ≤ b →
  (∃ b2 l', b = 226 ∧ l = 128 :: b2 :: l' ∧ (b2 = 168 ∨ b2 = 169) ∧
     json_escape 0 (b :: l) = [92; 117; 50; 48; 50; hex_digit (b2 - 160)] ++ json_escape 0 l') ∨
  (utf8_more (b :: l) = 0%nat ∧ json_escape 0 (b :: l) = [92; 117; 102; 102; 102; 100] ++ json_escape 0 l) ∨
  (utf8_more (b :: l) ≠ 0%nat ∧ json_escape 0 (b :: l) = b :: json_escape (utf8_more (b :: l)) l).
Proof.
  intros Hb. cbn [json_escape]. rewrite (proj2 (Z.ltb_ge b 128)) by lia.
  assert (∀ x y : list Z, (utf8_more (b :: l) = 0%nat ∧ match utf8_more (b :: l) with O => x | S n => b :: json_escape (S n) l end = x) ∨
    (utf8_more (b :: l) ≠ 0%nat ∧ match utf8_more (b :: l) with O => x | S n => b :: json_escape (S n) l end = b :: json_escape (utf8_more (b :: l)) l)) as H.
  { intros x _. destruct (utf8_more (b :: l)); [by left|by right]. }
  destruct l as [|b1 [|b2 l']]; [right; apply H; exact []..|].
  destruct ((b =? 226) && (b1 =? 128) && ((b2 =? 168) || (b2 =? 169))) eqn:Hsep; [left|right; apply H; exact []].
  exists b2, l'. rewrite !andb_true_iff, orb_true_iff, !Z.eqb_eq in Hsep. naive_solver.
Qed.

Lemma utf8_fix_separator b2 l : b2 = 168 ∨ b2 = 169 → utf8_fix 0 (226 :: 128 :: b2 :: l) = 226 :: 128 :: b2 :: utf8_fix 0 l.
Proof. by intros [->| ->]. Qed.

Lemma read_replacement r :
  read_chars ([92; 117; 102; 102; 102; 100] ++ r) = push 239 (push 191 (push 189 (read_chars r))).
Proof. cbn -[read_chars]; cbn [read_chars]; destruct (read_chars r) as [[s r']|]; reflexivity. Qed.

(** What the encoder writes for bytes is read as their text, and ends at the quote. *)
Lemma read_escape c l r : Forall is_byte l → Forall (λ b, 128 ≤ b) (take c l) →
  read_chars (json_escape c l ++ 34 :: r) = Some (utf8_fix c l, r).
Proof.
  revert c. induction l as [l IH] using (induction_ltof1 _ (@length Z)). unfold ltof in IH. intros c Hl Hc.
  destruct l as [|b l]; [by destruct c|]. apply Forall_cons in Hl as [Hb Hl]. unfold is_byte in Hb. destruct c as [|c].
  - destruct (Z.ltb_spec b 128) as [Hlt|Hge].
    + cbn [json_escape utf8_fix]. rewrite (proj2 (Z.ltb_lt b 128)) by lia.
      rewrite <- app_assoc, read_ascii, IH by (simpl; auto with lia). done.
    + destruct (json_escape_high b l Hge) as [(b2 & l' & -> & -> & Hb2 & ->)|[[E ->]|[E ->]]].
      * rewrite utf8_fix_separator by done. repeat (apply Forall_cons in Hl as [_ Hl]).
        rewrite <- app_assoc, read_separator, IH by (simpl; auto with lia). done.
      * rewrite <- app_assoc, read_replacement, IH by (simpl; auto with lia).
        cbn [utf8_fix]. by rewrite (proj2 (Z.ltb_ge b 128)), E by lia.
      * cbn [app]. rewrite read_high, IH by (done || apply utf8_more_high || (simpl; lia)).
        cbn [utf8_fix]. rewrite (proj2 (Z.ltb_ge b 128)) by lia. by destruct (utf8_more (b :: l)).
  - cbn [json_escape utf8_fix app take] in *. apply Forall_cons in Hc as [Hb' Hc].
    rewrite read_high, IH by (simpl; auto with lia). done.
Qed.

Lemma read_string s r : Forall is_byte s → read_chars (json_escape 0 s ++ [34] ++ r) = Some (utf8_fix 0 s, r).
Proof. intros Hs. by apply read_escape. Qed.

(** ** Numbers are read back *)
Definition no_digit (r : list Z) : Prop := match r with [] => True | b :: _ => in_range 48 57 b = false end.

Lemma digit_in_range n : 0 ≤ n < 10 → in_range 48 57 (48 + n) = true.
Proof. intros. unfold in_range. rewrite andb_true_iff, !Z.leb_le. lia. Qed.

Lemma read_digits_app fuel n : 0 ≤ n < 10 ^ Z.of_nat fuel → ∀ acc r, (0 < fuel)%nat →
  read_digits 0 (dec_digits fuel n acc ++ r) = read_digits n (acc ++ r).
Proof.
  revert n. induction fuel as [|fuel IH]; intros n Hn acc r Hf; [lia|]. cbn [dec_digits].
  destruct (Z.ltb_spec n 10) as [H|H].
  - cbn [app read_digits]. rewrite digit_in_range by lia. f_equal. lia.
  - rewrite Nat2Z.inj_succ, Z.pow_succ_r in Hn by lia. destruct fuel as [|fuel]; [simpl in Hn; lia|].
    rewrite IH by (try split; try apply Z.div_lt_upper_bound; try apply Z.div_pos; lia).
    cbn [app read_digits]. rewrite digit_in_range by (apply Z.mod_pos_bound; lia). f_equal.
    pose proof (Z.div_mod n 10). lia.
Qed.

Lemma read_number n r : 0 ≤ n < 2 ^ 64 → no_digit r → read_digits 0 (json_number n ++ r) = (n, r).
Proof.
  intros Hn Hr. unfold json_number. rewrite read_digits_app by (simpl; lia).
  destruct r as [|b r]; [done|]. cbn [app read_digits]. by rewrite Hr.
Qed.

(** ** Values are read back *)
Definition json_member (kv : list Z * Json) : list Z := json_string kv.1 ++ 58 :: json_print kv.2.

Lemma dec_digits_head fuel n acc : 0 ≤ n → (0 < fuel)%nat → ∃ d t, dec_digits fuel n acc = 48 + d :: t ∧ 0 ≤ d < 10.
Proof.
  revert n acc. induction fuel as [|fuel IH]; intros n acc Hn Hf; [lia|]. cbn [dec_digits].
  destruct (Z.ltb_spec n 10); [by eexists _, _|]. destruct fuel as [|fuel].
  - eexists _, _. split; [done|]. apply Z.mod_pos_bound. lia.
  - apply IH; [apply Z.div_pos|]; lia.
Qed.

(** A printed value does not look like the end of an array. *)
Lemma json_print_head v r : json_bytes v → behind 93 (json_print v ++ r) = None.
Proof.
  destruct 1 as [n Hn| | |]; [|done..].
  destruct (dec_digits_head 20 n []) as (d & t & Hd & ?); [lia..|]. cbn [json_print]. unfold json_number.
  rewrite Hd. cbn [app behind]. by rewrite (proj2 (Z.eqb_neq _ _)) by lia.
Qed.

(** From some fuel on, [f] reads [x] from the text [t], whatever follows it. *)
Definition reads {A} (f : nat → list Z → option (A * list Z)) (t : list Z) (x : A) : Prop :=
  ∃ n, ∀ fuel r, (n ≤ fuel)%nat → no_digit r → f fuel (t ++ r) = Some (x, r).

Definition member_fix (kv : list Z * Json) : list Z * Json := (utf8_fix 0 kv.1, json_fix kv.2).

Lemma reads_member k v : Forall is_byte k → reads read_value (json_print v) (json_fix v) →
  reads read_member (json_member (k, v)) (member_fix (k, v)).
Proof.
  intros Hk [n Hv]. exists (S n). intros [|fuel] r Hf Hr; [lia|]. unfold json_member, json_string. cbn [fst snd].
  cbn [app read_member behind Z.eqb Pos.eqb mbind option_bind].
  rewrite <- !app_assoc. cbn [app]. rewrite (read_escape 0 k) by done. cbn [mbind option_bind app behind Z.eqb Pos.eqb].
  rewrite Hv by (done || lia). done.
Qed.

(** The rest of a list, each element behind a comma, up to the closing byte *)
Lemma reads_rest {A} (f : nat → list Z → option (A * list Z)) (g : nat → list Z → option (list A * list Z))
    (print : A → list Z) (fix_ : A → A) (close : Z) l :
  (∀ fuel r, g (S fuel) (close :: r) = Some ([], r)) →
  (∀ fuel r, g (S fuel) (44 :: r) = ('(v, r) ← f fuel r; '(vs, r) ← g fuel r; Some (v :: vs, r))) →
  in_range 48 57 close = false →
  Forall (λ x, reads f (print x) (fix_ x)) l →
  reads g (concat ((λ y, 44 :: y) <$> (print <$> l)) ++ [close]) (fix_ <$> l).
Proof.
  intros Hnil Hcons Hclose. induction 1 as [|x l [n Hx] _ [m IH]].
  - exists 1%nat. intros [|fuel] r Hf Hr; [lia|]. apply Hnil.
  - exists (S (n + m)). intros [|fuel] r Hf Hr; [lia|]. cbn [fmap list_fmap concat].
    rewrite <- !app_assoc. cbn [app]. rewrite Hcons, Hx; [|lia|].
    + cbn [mbind option_bind]. specialize (IH fuel r). rewrite <- app_assoc in IH.
      cbn [app fmap list_fmap] in IH. rewrite IH by (done || lia). done.
    + by destruct l.
Qed.

Lemma reads_array l : Forall json_bytes l → Forall (λ v, reads read_value (json_print v) (json_fix v)) l →
  reads read_value (json_print (JArray l)) (json_fix (JArray l)).
Proof.
  intros Hok Hl. destruct l as [|v l]; [by exists 1%nat; intros [|fuel] r Hf Hr; [lia|]|].
  inversion Hl as [|? ? [n Hv] Hl']; subst. inversion Hok; subst.
  destruct (reads_rest read_value read_elems json_print json_fix 93 l) as [m Hm]; [done..|].
  exists (S (n + m)). intros [|fuel] r Hf Hr; [lia|].
  cbn [json_print commas fmap list_fmap app read_value Z.eqb Pos.eqb]. rewrite <- !app_assoc.
  rewrite json_print_head, Hv; [|lia|by destruct l|done]. cbn [mbind option_bind].
  specialize (Hm fuel r). rewrite <- app_assoc in Hm. rewrite Hm by (done || lia). done.
Qed.

Lemma reads_object l : Forall (λ kv, reads read_member (json_member kv) (member_fix kv)) l →
  reads read_value (json_print (JObject l)) (json_fix (JObject l)).
Proof.
  intros Hl. destruct l as [|kv l]; [by exists 1%nat; intros [|fuel] r Hf Hr; [lia|]|].
  inversion Hl as [|? ? [n Hv] Hl']; subst.
  destruct (reads_rest read_member read_members json_member member_fix 125 l) as [m Hm]; [done..|].
  exists (S (n + m)). intros [|fuel] r Hf Hr; [lia|].
  specialize (Hm fuel r). rewrite <- app_assoc in Hm.
  assert (read_value (S fuel) (json_print (JObject (kv :: l)) ++ r) =
    ('(kv', r') ← read_member fuel (json_member kv ++ concat ((λ y, 44 :: y) <$> (json_member <$> l)) ++ [125] ++ r);
     '(kvs, r') ← read_members fuel r'; Some (JObject (kv' :: kvs), r'))) as ->.
  { cbn [json_print commas fmap list_fmap app read_value Z.eqb Pos.eqb]. unfold json_member, json_string.
    rewrite <- !app_assoc. done. }
  rewrite Hv; [|lia|by destruct l]. cbn [mbind option_bind]. rewrite Hm by (done || lia). done.
Qed.

(** Every value is read back from what the encoder writes for it, with its text in UTF-8. *)
Lemma json_print_reads v : json_bytes v → reads read_value (json_print v) (json_fix v).
Proof.
  revert v. fix REC 2. intros w [n Hn|s Hs|l Hl|l Hl].
  - exists 1%nat. intros [|fuel] r Hf Hr; [lia|].
    pose proof (read_number n r Hn Hr) as Hread. cbn [json_print]. revert Hread. unfold json_number.
    destruct (dec_digits_head 20 n []) as (d & t & -> & Hd); [lia..|]. intros Hread. cbn [app] in *.
    cbn [read_value]. rewrite !(proj2 (Z.eqb_neq (48 + d) _)), digit_in_range by lia. by rewrite Hread.
  - exists 1%nat. intros [|fuel] r Hf Hr; [lia|]. unfold json_print, json_string.
    cbn [app read_value Z.eqb Pos.eqb]. rewrite <- app_assoc. cbn [app]. by rewrite read_escape.
  - apply reads_array; [done|]. induction Hl as [|v l Hv Hl IH]; constructor; auto.
  - apply reads_object. induction Hl as [|[k v] l [Hk Hv] Hl IH]; constructor; auto using reads_member.
Qed.

(** ** The text is a sequence of bytes *)
Lemma escape_ascii_bytes b : 0 ≤ b < 128 → Forall is_byte (escape_ascii b).
Proof.
  intros Hb. assert (Forall (λ b, Forall is_byte (escape_ascii b)) (seqZ 0 128)) as H.
  { apply (bool_decide_unpack _). by vm_compute. }
  rewrite Forall_forall in H. apply H, elem_of_seqZ. lia.
Qed.

Lemma json_escape_bytes c l : Forall is_byte l → Forall is_byte (json_escape c l).
Proof.
  revert c. induction l as [l IH] using (induction_ltof1 _ (@length Z)). unfold ltof in IH. intros c Hl.
  destruct l as [|b l]; [done|]. apply Forall_cons in Hl as [Hb Hl].
  destruct c as [|c]; [|cbn [json_escape]; constructor; [done|apply IH; simpl; auto with lia]].
  destruct (Z.ltb_spec b 128) as [Hlt|Hge].
  - cbn [json_escape]. rewrite (proj2 (Z.ltb_lt b 128)) by lia.
    apply Forall_app. split; [apply escape_ascii_bytes; unfold is_byte in Hb; lia|apply IH; simpl; auto with lia].
  - destruct (json_escape_high b l Hge) as [(b2 & l' & -> & -> & Hb2 & ->)|[[_ ->]|[_ ->]]].
    + repeat (apply Forall_cons in Hl as [_ Hl]). apply Forall_app. split; [|apply IH; simpl; auto with lia].
      destruct Hb2 as [->| ->]; repeat constructor; unfold is_byte; done.
    + apply Forall_app. split; [by repeat constructor|apply IH; simpl; auto with lia].
    + constructor; [done|apply IH; simpl; auto with lia].
Qed.

Lemma json_string_bytes s : Forall is_byte s → Forall is_byte (json_string s).
Proof.
  intros Hs. constructor; [done|]. apply Forall_app. split; [by apply json_escape_bytes|by repeat constructor].
Qed.

Lemma dec_digits_bytes fuel n acc : 0 ≤ n → Forall is_byte acc → Forall is_byte (dec_digits fuel n acc).
Proof.
  revert n acc. induction fuel as [|fuel IH]; intros n acc Hn Hacc; [done|]. cbn [dec_digits].
  pose proof (Z.mod_pos_bound n 10).
  destruct (Z.ltb_spec n 10); [|apply IH; [by apply Z.div_pos|]]; constructor; auto; unfold is_byte; lia.
Qed.

Lemma commas_bytes l : Forall (Forall is_byte) l → Forall is_byte (commas l).
Proof.
  destruct 1 as [|x l Hx Hl]; [done|]. cbn [commas]. apply Forall_app. split; [done|]. apply Forall_concat, Forall_fmap.
  apply (Forall_impl _ _ _ Hl). intros y Hy. by constructor.
Qed.

Lemma json_print_bytes v : json_bytes v → Forall is_byte (json_print v).
Proof.
  revert v. fix REC 2. intros w [n Hn|s Hs|l Hl|l Hl]; cbn [json_print].
  - apply dec_digits_bytes; [lia|done].
  - by apply json_string_bytes.
  - constructor; [done|]. apply Forall_app. split; [apply commas_bytes|by repeat constructor].
    induction Hl as [|v l Hv Hl IH]; constructor; auto.
  - constructor; [done|]. apply Forall_app. split; [apply commas_bytes|by repeat constructor].
    induction Hl as [|[k v] l [Hk Hv] Hl IH]; constructor; auto.
    apply Forall_app. split; [by apply json_string_bytes|]. constructor; [done|]. by apply REC.
Qed.

(** [t] is a text of the value [v]. *)
Definition json_parses (t : string) (v : Json) : Prop :=
  ∃ n, ∀ fuel, (n ≤ fuel)%nat → read_value fuel (byte_vals t) = Some (v, []).

Lemma json_text_bytes v : json_bytes v → byte_vals (json_text v) = json_print v.
Proof.
  intros H%json_print_bytes. unfold byte_vals, json_text. rewrite bytes_of_of.
  induction H as [|b l Hb _ IH]; [done|]. rewrite !fmap_cons, IH, byte_val_of. by rewrite Z.mod_small.
Qed.

(** Whatever bytes the strings of a value hold, the text of the value is read as the value
    with their text. *)
Lemma json_text_reads v : json_bytes v → json_parses (json_text v) (json_fix v).
Proof.
  intros Hv. destruct (json_print_reads v Hv) as [n Hn]. exists n. intros fuel Hf.
  rewrite json_text_bytes by done. rewrite <- (app_nil_r (json_print v)). by apply Hn.
Qed.

(** On text in UTF-8 nothing is replaced. *)
Lemma utf8_fix_ok c l : utf8_ok c l = true → utf8_fix c l = l.
Proof.
  revert c. induction l as [|b l IH]; intros c Hok; [done|]. cbn [utf8_ok utf8_fix] in *. destruct c as [|c].
  - destruct (b <? 128); apply andb_true_iff in Hok as [_ Hok]; [by rewrite IH|].
    destruct (utf8_more (b :: l)); [done|]. by rewrite IH.
  - apply andb_true_iff in Hok as [_ Hok]. by rewrite IH.
Qed.

Lemma utf8_ok_bytes c l : utf8_ok c l = true → Forall is_byte l.
Proof.
  revert c. induction l as [|b l IH]; intros c Hok; [done|]. cbn [utf8_ok] in Hok. destruct c as [|c].
  - destruct (Z.ltb_spec b 128); apply andb_true_iff in Hok as [Hb%Z.leb_le Hok].
    + constructor; [unfold is_byte; lia|by eapply IH].
    + destruct (utf8_more (b :: l)); [done|]. constructor; [unfold is_byte; lia|by eapply IH].
  - apply andb_true_iff in Hok as [?%in_range_iff Hok]. constructor; [unfold is_byte; lia|by eapply IH].
Qed.

Lemma json_ok_fix v : json_ok v → json_bytes v ∧ json_fix v = v.
Proof.
  revert v. fix REC 2. intros w [n Hn|s Hs|l Hl|l Hl]; cbn [json_fix].
  - split; [by constructor|done].
  - split; [constructor; by eapply utf8_ok_bytes|by rewrite utf8_fix_ok].
  - assert (Forall json_bytes l ∧ json_fix <$> l = l) as [? ->]; [|split; [by constructor|done]].
    induction Hl as [|v l Hv Hl [IH1 IH2]]; [done|]. destruct (REC v Hv) as [H1 H2].
    split; [by constructor|]. by rewrite fmap_cons, H2, IH2.
  - assert (Forall (λ kv, Forall is_byte kv.1 ∧ json_bytes kv.2) l ∧
      (λ kv : list Z * Json, (utf8_fix 0 kv.1, json_fix kv.2)) <$> l = l) as [? ->]; [|split; [by constructor|done]].
    induction Hl as [|[k v] l [Hk Hv] Hl [IH1 IH2]]; [done|]. destruct (REC v Hv) as [H1 H2]. cbn [fst snd] in *.
    split; [constructor; [split; [by eapply utf8_ok_bytes|done]|done]|].
    by rewrite fmap_cons, IH2; cbn [fst snd]; rewrite H2, utf8_fix_ok.
Qed.

Lemma json_text_parses v : json_ok v → json_parses (json_text v) v.
Proof. intros [Hb E]%json_ok_fix. apply json_text_reads in Hb. by rewrite E in Hb. Qed.

(** A text has one value. *)
Lemma json_parses_unique t v w : json_parses t v → json_parses t w → v = w.
Proof. intros [n Hn] [m Hm]. specialize (Hn (n + m)%nat). specialize (Hm (n + m)%nat). rewrite Hm in Hn by lia. naive_solver lia. Qed.

Lemma byte_vals_inj s t : byte_vals s = byte_vals t → s = t.
Proof.
  intros E. apply (inj bytes_of). apply (f_equal (fmap byte_of)) in E. unfold byte_vals in E.
  rewrite <- !list_fmap_compose in E.
  assert (∀ l : list Ascii.ascii, (byte_of ∘ byte_val) <$> l = l) as H.
  { intros l. rewrite <- (list_fmap_id l) at 2. apply list_fmap_ext. intros ? a ?. apply byte_of_val. }
  by rewrite !H in E.
Qed.

(** ** Text *)
Definition utf8_text (s : string) : Prop := utf8_ok 0 (byte_vals s) = true.

(** UTF-8 is closed under concatenation. *)
Lemma utf8_more_app l k : utf8_more l ≠ 0%nat → utf8_more (l ++ k) = utf8_more l.
Proof.
  destruct l as [|b0 [|b1 [|b2 [|b3 l]]]]; cbn [app]; try done; unfold utf8_more;
    destruct (utf8_lead b0) as [[n lo] hi]; destruct (in_range lo hi b1); cbn [negb]; try done;
    by destruct n as [|[|[|[|n]]]].
Qed.
Lemma utf8_ok_app c l k : utf8_ok c l = true → utf8_ok 0 k = true → utf8_ok c (l ++ k) = true.
Proof.
  intros Hl Hk. revert c Hl. induction l as [|b l IH]; intros c Hl; [by destruct c|].
  cbn [utf8_ok app] in *. destruct c as [|c]; [|apply andb_true_iff in Hl as [-> Hl]; by apply IH].
  destruct (b <? 128); apply andb_true_iff in Hl as [-> Hl]; [by apply IH|]. rewrite andb_true_l. pose proof (utf8_more_app (b :: l) k) as Happ. cbn [app] in Happ.
  destruct (utf8_more (b :: l)) eqn:E; [done|]. rewrite Happ by done. auto.
Qed.
Lemma utf8_text_app s t : utf8_text s → utf8_text t → utf8_text (s +:+ t).
Proof. unfold utf8_text, byte_vals. rewrite bytes_of_app, fmap_app. apply utf8_ok_app. Qed.

Lemma json_strings_parse l : Forall utf8_text l →
  json_parses (json_Marshal_strings l) (JArray (JString ∘ byte_vals <$> l)).
Proof.
  intros Hl. apply json_text_parses. constructor. rewrite Forall_fmap.
  apply (Forall_impl _ _ _ Hl). intros s Hs. by constructor.
Qed.

(** The text that a string with any bytes is read as *)
Definition valid_utf8 (s : string) : string := of_bytes (byte_of <$> utf8_fix 0 (byte_vals s)).

Lemma byte_vals_bytes s : Forall is_byte (byte_vals s).
Proof. unfold byte_vals. rewrite Forall_fmap. apply Forall_true. intros b. apply byte_val_range. Qed.

Lemma utf8_fix_bytes c l : Forall is_byte l → Forall is_byte (utf8_fix c l).
Proof.
  intros Hl. revert c. induction Hl as [|b l Hb _ IH]; intros c; [done|]. cbn [utf8_fix].
  destruct c as [|c]; [|by constructor]. destruct (b <? 128); [by constructor|].
  destruct (utf8_more (b :: l)); [|by constructor]. by repeat constructor.
Qed.

Lemma byte_vals_of l : Forall is_byte l → byte_vals (of_bytes (byte_of <$> l)) = l.
Proof.
  intros H. unfold byte_vals. rewrite bytes_of_of.
  induction H as [|b l Hb _ IH]; [done|]. rewrite !fmap_cons, IH, byte_val_of. by rewrite Z.mod_small.
Qed.

Lemma valid_utf8_vals s : byte_vals (valid_utf8 s) = utf8_fix 0 (byte_vals s).
Proof. apply byte_vals_of, utf8_fix_bytes, byte_vals_bytes. Qed.

Lemma valid_utf8_ok s : utf8_text s → valid_utf8 s = s.
Proof. intros Hs. apply byte_vals_inj. by rewrite valid_utf8_vals, utf8_fix_ok. Qed.

(** ** Objects with keys that the program knows *)
Definition JText (s : string) : Json := JString (byte_vals s).
Definition JStruct (l : list (string * Json)) : Json := JObject ((λ kv : string * Json, (byte_vals kv.1, kv.2)) <$> l).

(** Assignment to a map, kept in the order of its keys, in which the encoder writes it *)
Fixpoint map_set {V} (k : string) (v : V) (m : list (string * V)) : list (string * V) :=
  match m with
  | [] => [(k, v)]
  | (k', v') :: m' =>
    if String.eqb k k' then (k, v) :: m'
    else if String.ltb k k' then (k, v) :: m else (k', v') :: map_set k v m'
  end.

Lemma JText_bytes s : json_bytes (JText s).
Proof. constructor. apply byte_vals_bytes. Qed.
Lemma JText_fix s : json_fix (JText s) = JText (valid_utf8 s).
Proof. unfold JText. cbn [json_fix]. by rewrite valid_utf8_vals. Qed.
Lemma JStruct_bytes l : Forall (λ kv, json_bytes kv.2) l → json_bytes (JStruct l).
Proof.
  intros H. constructor. rewrite Forall_fmap. apply (Forall_impl _ _ _ H). intros [k v] Hv. split; [apply byte_vals_bytes|done].
Qed.
(** The keys that the program knows are UTF-8. *)
Lemma JStruct_fix l : Forall (λ kv, utf8_text kv.1) l →
  json_fix (JStruct l) = JStruct ((λ kv : string * Json, (kv.1, json_fix kv.2)) <$> l).
Proof.
  intros H. unfold JStruct. cbn [json_fix]. f_equal. rewrite <- !list_fmap_compose.
  apply list_fmap_ext. intros i [k v] Hi. cbn. f_equal. apply utf8_fix_ok.
  rewrite Forall_forall in H. apply (H (k, v)). by eapply list_elem_of_lookup_2.
Qed.

Lemma JText_ok s : utf8_text s → json_ok (JText s).
Proof. by constructor. Qed.
Lemma JStruct_ok l : Forall (λ kv, utf8_text kv.1 ∧ json_ok kv.2) l → json_ok (JStruct l).
Proof. intros H. constructor. by rewrite Forall_fmap. Qed.

(** Objects, arrays and texts down to the numbers *)
Ltac json_shape :=
  repeat first [apply JText_ok; assumption | apply JText_ok; reflexivity | apply JStruct_ok | apply Forall_cons; split
               | apply Forall_nil; exact I | split; [reflexivity || assumption|]]; try (apply ok_number).

(** ** Byte slices: [json.Marshal] writes them in [base64.StdEncoding] *)
Definition b64_char (v : Z) : Z :=
  if v <? 26 then 65 + v else if v <? 52 then 71 + v else if v <? 62 then v - 4 else if v =? 62 then 43 else 47.
Fixpoint base64 (l : list Z) : list Z :=
  match l with
  | [] => []
  | [a] => [b64_char (a / 4); b64_char (a mod 4 * 16); 61; 61]
  | [a; b] => [b64_char (a / 4); b64_char (a mod 4 * 16 + b / 16); b64_char (b mod 16 * 4); 61]
  | a :: b :: c :: l =>
    [b64_char (a / 4); b64_char (a mod 4 * 16 + b / 16); b64_char (b mod 16 * 4 + c / 64); b64_char (c mod 64)] ++ base64 l
  end.
Definition JBytes (s : string) : Json := JString (base64 (byte_vals s)).

(** Reading it back *)
Definition b64_val (b : Z) : Z :=
  if in_range 65 90 b then b - 65 else if in_range 97 122 b then b - 71 else if in_range 48 57 b then b + 4
  else if b =? 43 then 62 else 63.
Fixpoint unbase64 (l : list Z) : list Z :=
  match l with
  | w :: x :: y :: z :: l =>
    let w := b64_val w in
    let x := b64_val x in
    if y =? 61 then [w * 4 + x / 16]
    else let y := b64_val y in
      if z =? 61 then [w * 4 + x / 16; x mod 16 * 16 + y / 4]
      else [w * 4 + x / 16; x mod 16 * 16 + y / 4; y mod 4 * 64 + b64_val z] ++ unbase64 l
  | _ => []
  end.

Lemma b64_char_spec v : 0 ≤ v < 64 → b64_val (b64_char v) = v ∧ b64_char v ≠ 61 ∧ 0 ≤ b64_char v < 128.
Proof.
  intros Hv. unfold b64_char, b64_val, in_range.
  repeat case_match; rewrite ?andb_true_iff, ?andb_false_iff, ?Z.ltb_lt, ?Z.ltb_ge, ?Z.leb_le, ?Z.leb_gt, ?Z.eqb_eq, ?Z.eqb_neq in *; lia.
Qed.

Lemma b64_val_char v : 0 ≤ v < 64 → b64_val (b64_char v) = v.
Proof. apply b64_char_spec. Qed.
Lemma b64_not_pad v : 0 ≤ v < 64 → (b64_char v =? 61) = false.
Proof. intros Hv. apply Z.eqb_neq. by apply b64_char_spec. Qed.

Lemma list_ind3 {A} (P : list A → Prop) : P [] → (∀ a, P [a]) → (∀ a b, P [a; b]) →
  (∀ a b c l, P l → P (a :: b :: c :: l)) → ∀ l, P l.
Proof.
  intros H0 H1 H2 H3. fix IH 1. intros [|a [|b [|c l]]]; [exact H0|apply H1|apply H2|apply H3, IH].
Qed.

Ltac dlia := Z.div_mod_to_equations; lia.

Lemma base64_roundtrip l : Forall is_byte l → unbase64 (base64 l) = l.
Proof.
  induction l as [|a|a b|a b c l IH] using list_ind3; intros Hl; [done|..]; repeat (apply Forall_cons in Hl as [? Hl]);
    unfold is_byte in *; cbn [base64 unbase64 app].
  - rewrite !b64_val_char, Z.eqb_refl by dlia. f_equal. dlia.
  - rewrite b64_not_pad, !b64_val_char, Z.eqb_refl by dlia. repeat f_equal; dlia.
  - rewrite !b64_not_pad, !b64_val_char, IH by (dlia || done). repeat f_equal; dlia.
Qed.

Lemma utf8_ok_ascii l : Forall (λ b, 0 ≤ b < 128) l → utf8_ok 0 l = true.
Proof.
  induction 1 as [|b l Hb _ IH]; [done|]. cbn [utf8_ok]. rewrite (proj2 (Z.ltb_lt b 128)), (proj2 (Z.leb_le 0 b)) by lia. exact IH.
Qed.

Lemma base64_ascii l : Forall is_byte l → Forall (λ b, 0 ≤ b < 128) (base64 l).
Proof.
  induction l as [|a|a b|a b c l IH] using list_ind3; intros Hl; [constructor|..]; repeat (apply Forall_cons in Hl as [? Hl]);
    unfold is_byte in *; cbn [base64 app]; repeat (apply Forall_cons; split); try (apply b64_char_spec; dlia); try lia;
    [apply Forall_nil; exact I..|by apply IH].
Qed.

Lemma JBytes_ok s : json_ok (JBytes s).
Proof.
  constructor. apply utf8_ok_ascii, base64_ascii. unfold byte_vals. rewrite Forall_fmap. apply Forall_true. intros b. apply byte_val_range.
Qed.
