(* ===== verification/ProtoWire.v ===== *)
(** * The generated protobuf code: wire format

    The [.pb.go] files under [x] are all instances of the same templates.  This file has
    the templates: base-128 integers, the skipping of unknown fields, the backward
    writer into a buffer of the exact size and the loop of [Unmarshal].  A message is
    then given by the list of its fields, in the [Proto] file of its module.  Field numbers
    are below 16 everywhere, so a tag is one byte. *)

From S2P Require Import Prelude GoStd.

Abbreviation bytes := (list Ascii.ascii).

Definition i32 (z : Z) : Z := (z + 2 ^ 31) mod 2 ^ 32 - 2 ^ 31.

Definition ErrUnexpectedEOF : goerr := Foreign "io.ErrUnexpectedEOF".
Definition ErrIntOverflow : goerr := Plain "proto: integer overflow".
Definition ErrInvalidLength : goerr := Plain "proto: negative length found during unmarshaling".
Definition ErrUnexpectedEndOfGroup : goerr := Plain "proto: unexpected end of group".
Definition ErrProto (tag : string) : goerr := Plain ("proto: " +:+ tag).

(** No run ends this way: see [skip_benign] and [msg_Unmarshal_total]. *)
Definition ErrOutOfFuel : goerr := Plain "out of fuel".

(** ** Reading *)

(** [for shift := uint(0); ; shift += 7]: shifts 0, 7, ..., 63 are ten rounds, then the
    loop gives up.  The bits are collected in a [uint64]; code that collects them in an
    [int], [int64] or [int32] has the conversion of the same bits. *)
Fixpoint varint_loop (rounds : nat) (dAtA : bytes) (shift acc iNdEx : Z) : outcome (Z * Z) :=
  match rounds with
  | O => Err ErrIntOverflow
  | S rounds =>
    _ ← fail_if (llen dAtA <=? iNdEx) ErrUnexpectedEOF;
    b ← byte_val <$> index dAtA iNdEx;
    let acc := Z.lor acc (u64 (Z.shiftl (Z.land b 127) shift)) in
    if b <? 128 then Ok (acc, iNdEx + 1) else varint_loop rounds dAtA (shift + 7) acc (iNdEx + 1)
  end.

(** The value and the index behind it *)
Definition decodeVarint (dAtA : bytes) (iNdEx : Z) : outcome (Z * Z) := varint_loop 10 dAtA 0 0 iNdEx.

(** The bytes of a string, byte slice or message behind their length *)
Definition readBytes (dAtA : bytes) (iNdEx : Z) : outcome (bytes * Z) :=
  '(stringLen, iNdEx) ← decodeVarint dAtA iNdEx;
  let intStringLen := i64 stringLen in
  _ ← fail_if (intStringLen <? 0) ErrInvalidLength;
  let postIndex := i64 (iNdEx + intStringLen) in
  _ ← fail_if (postIndex <? 0) ErrInvalidLength;
  _ ← fail_if (llen dAtA <? postIndex) ErrUnexpectedEOF;
  s ← slice dAtA iNdEx postIndex;
  Ok (s, postIndex).

(** One field without its tag, for the six wire types *)
Definition skip_field (dAtA : bytes) (wireType iNdEx depth : Z) : outcome (Z * Z) :=
  if wireType =? 0 then
    '(_, iNdEx) ← decodeVarint dAtA iNdEx; Ok (iNdEx, depth)
  else if wireType =? 1 then Ok (i64 (iNdEx + 8), depth)
  else if wireType =? 2 then
    '(n, iNdEx) ← decodeVarint dAtA iNdEx;
    let length := i64 n in
    _ ← fail_if (length <? 0) ErrInvalidLength;
    Ok (i64 (iNdEx + length), depth)
  else if wireType =? 3 then Ok (iNdEx, depth + 1)
  else if wireType =? 4 then
    _ ← fail_if (depth =? 0) ErrUnexpectedEndOfGroup;
    Ok (iNdEx, depth - 1)
  else if wireType =? 5 then Ok (i64 (iNdEx + 4), depth)
  else Err (ErrProto "illegal wireType").

Fixpoint skip_loop (fuel : nat) (dAtA : bytes) (iNdEx depth : Z) : outcome Z :=
  match fuel with
  | O => Err ErrOutOfFuel
  | S fuel =>
    if iNdEx <? llen dAtA then
      '(wire, iNdEx) ← decodeVarint dAtA iNdEx;
      '(iNdEx, depth) ← skip_field dAtA (Z.land wire 7) iNdEx depth;
      _ ← fail_if (iNdEx <? 0) ErrInvalidLength;
      if depth =? 0 then Ok iNdEx else skip_loop fuel dAtA iNdEx depth
    else Err ErrUnexpectedEOF
  end.

(** Every round reads a byte or more, so the length is fuel enough. *)
Definition skip (dAtA : bytes) : outcome Z := skip_loop (S (length dAtA)) dAtA 0 0.

(** ** Writing, from the end of the buffer to its start *)
Record Buf := mkBuf { buf_dAtA : bytes; buf_i : Z }.

(** [l[i] = x] *)
Definition set_index (l : bytes) (i : Z) (x : Ascii.ascii) : outcome bytes :=
  if decide (0 ≤ i < llen l) then Ok (<[Z.to_nat i := x]> l) else Panic.

(** [copy(l[i:], s)], which copies as much as fits *)
Definition copy_at (l : bytes) (i : Z) (s : bytes) : outcome bytes :=
  rest ← slice_from l i;
  Ok (take (Z.to_nat i) l ++ take (length rest) s ++ drop (length s) rest).

(** [make([]byte, size)], which panics for a length that is not an [int] *)
Definition make_bytes (size : Z) : outcome bytes :=
  if decide (0 ≤ size < 2 ^ 63) then Ok (replicate (Z.to_nat size) (byte_of 0)) else Panic.

(** [math/bits.Len64] *)
Definition bits_Len64 (x : Z) : Z := if x =? 0 then 0 else Z.log2 x + 1.
Definition sov (x : Z) : Z := (bits_Len64 (Z.lor x 1) + 6) / 7.

(** A [uint64] takes at most ten rounds. *)
Fixpoint put_varint (rounds : nat) (l : bytes) (offset v : Z) : outcome bytes :=
  match rounds with
  | O => Err ErrOutOfFuel
  | S rounds =>
    if 128 <=? v then
      l ← set_index l offset (byte_of (Z.lor (Z.land v 127) 128));
      put_varint rounds l (offset + 1) (Z.shiftr v 7)
    else set_index l offset (byte_of v)
  end.

Definition encodeVarint (v : Z) (b : Buf) : outcome Buf :=
  let base := buf_i b - sov v in
  l ← put_varint 10 (buf_dAtA b) base v;
  Ok (mkBuf l base).

(** [i--; dAtA[i] = z] *)
Definition put_byte (z : Z) (b : Buf) : outcome Buf :=
  let i := buf_i b - 1 in
  l ← set_index (buf_dAtA b) i (byte_of z);
  Ok (mkBuf l i).

(** [i -= len(s); copy(dAtA[i:], s)] *)
Definition put_bytes (s : bytes) (b : Buf) : outcome Buf :=
  let i := buf_i b - llen s in
  l ← copy_at (buf_dAtA b) i s;
  Ok (mkBuf l i).

(** ** Messages *)

(** What the generated code has for a field of a message of type [R]: its number, what
    [Size] adds for it, its part of [MarshalToSizedBuffer], and its case in
    [Unmarshal], which gets the wire type and the index behind the tag. *)
Record Field (R : Type) := mkField {
  f_num : Z;
  f_size : R → Z;
  f_put : R → Buf → outcome Buf;
  f_get : Z → bytes → Z → R → outcome (R * Z);
}.
Arguments mkField {R}.
Arguments f_num {R}.
Arguments f_size {R}.
Arguments f_put {R}.
Arguments f_get {R}.

Section message.
Context {R : Type}.
Implicit Types (fields : list (Field R)) (m : R).

Definition msg_Size fields m : Z := sumZ (λ f, f_size f m) fields.

(** The fields in descending order, and the number of bytes written *)
Definition msg_MarshalToSizedBuffer fields m (dAtA : bytes) : outcome (bytes * Z) :=
  b ← fold_outcome (λ b f, f_put f m b) (mkBuf dAtA (llen dAtA)) (reverse fields);
  Ok (buf_dAtA b, llen dAtA - buf_i b).

Definition msg_Marshal fields m : outcome bytes :=
  let size := msg_Size fields m in
  dAtA ← make_bytes size;
  '(dAtA, n) ← msg_MarshalToSizedBuffer fields m dAtA;
  slice_to dAtA n.

(** [skipper] finds the end of a field that is not known, and [keep] does with its bytes
    what the code does with them. *)
Fixpoint unmarshal_loop (skipper : bytes → outcome Z) (keep : bytes → R → R) (fuel : nat) fields (dAtA : bytes) m (iNdEx : Z) :
    outcome R :=
  match fuel with
  | O => Err ErrOutOfFuel
  | S fuel =>
    if iNdEx <? llen dAtA then
      let preIndex := iNdEx in
      '(wire, iNdEx) ← decodeVarint dAtA iNdEx;
      let fieldNum := i32 (Z.shiftr wire 3) in
      let wireType := Z.land wire 7 in
      _ ← fail_if (wireType =? 4) (ErrProto "wiretype end group for non-group");
      _ ← fail_if (fieldNum <=? 0) (ErrProto "illegal tag");
      match list_find (λ f, f_num f = fieldNum) fields with
      | Some (_, f) =>
        '(m, iNdEx) ← f_get f wireType dAtA iNdEx m;
        unmarshal_loop skipper keep fuel fields dAtA m iNdEx
      | None =>
        rest ← slice_from dAtA preIndex;
        skippy ← skipper rest;
        _ ← fail_if ((skippy <? 0) || (i64 (preIndex + skippy) <? 0)) ErrInvalidLength;
        _ ← fail_if (llen dAtA <? i64 (preIndex + skippy)) ErrUnexpectedEOF;
        unmarshal_loop skipper keep fuel fields dAtA (keep (take (Z.to_nat skippy) rest) m) (preIndex + skippy)
      end
    else
      _ ← fail_if (llen dAtA <? iNdEx) ErrUnexpectedEOF;
      Ok m
  end.

(** [m.Unmarshal(dAtA)], which adds to what [m] holds; every round reads a tag.  Fields
    that are not known are dropped. *)
Definition msg_Unmarshal fields (m : R) (dAtA : bytes) : outcome R :=
  unmarshal_loop skip (λ _ m, m) (S (length dAtA)) fields dAtA m 0.
End message.

(** What the code of an embedded message offers, generated here or in a dependency *)
Record MsgCodec (T : Type) := mkMsgCodec {
  mc_Size : T → Z;
  mc_MarshalToSizedBuffer : T → bytes → outcome (bytes * Z);
  mc_Unmarshal : T → bytes → outcome T;
}.
Arguments mkMsgCodec {T}.
Arguments mc_Size {T}.
Arguments mc_MarshalToSizedBuffer {T}.
Arguments mc_Unmarshal {T}.

Definition msg_codec {T} (fields : list (Field T)) : MsgCodec T :=
  mkMsgCodec (msg_Size fields) (msg_MarshalToSizedBuffer fields) (msg_Unmarshal fields).

(** A custom type ([LegacyDec], a time or a duration): [MarshalTo] writes at the start of
    the slice it gets *)
Record CustomCodec (T : Type) := mkCustomCodec {
  cc_Size : T → Z;
  cc_MarshalTo : T → bytes → outcome bytes;
  cc_Unmarshal : bytes → outcome T;
}.
Arguments mkCustomCodec {T}.
Arguments cc_Size {T}.
Arguments cc_MarshalTo {T}.
Arguments cc_Unmarshal {T}.

(** The functions on integers that the code of a field calls: those of its own file, or
    those of a library *)
Class VarintCode := { vc_sov : Z → Z; vc_encode : Z → Buf → outcome Buf }.
#[global] Instance file_varints : VarintCode := {| vc_sov := sov; vc_encode := encodeVarint |}.

(** ** The kinds of fields *)
Section kinds.
Context {R : Type}.

Definition expect_wire (want wireType : Z) : outcome unit :=
  fail_if (negb (wireType =? want)) (ErrProto "wrong wireType").

Section varints.
Context `{VC : !VarintCode}.

Definition put_delimited (num : Z) (s : bytes) (b : Buf) : outcome Buf :=
  b ← put_bytes s b;
  b ← vc_encode (llen s) b;
  put_byte (num * 8 + 2) b.

(** A [string] or [[]byte] *)
Definition string_field (num : Z) (get : R → string) (set : string → R → R) : Field R := {|
  f_num := num;
  f_size m := let l := slen (get m) in if 0 <? l then 1 + l + vc_sov l else 0;
  f_put m b := if 0 <? slen (get m) then put_delimited num (bytes_of (get m)) b else Ok b;
  f_get wireType dAtA iNdEx m :=
    _ ← expect_wire 2 wireType;
    '(s, iNdEx) ← readBytes dAtA iNdEx;
    Ok (set (of_bytes s) m, iNdEx) |}.

(** [repeated string] and [repeated bytes] *)
Definition strings_field (num : Z) (get : R → list string) (set : list string → R → R) : Field R := {|
  f_num := num;
  f_size m := sumZ (λ s, 1 + slen s + vc_sov (slen s)) (get m);
  f_put m b := fold_outcome (λ b s, put_delimited num (bytes_of s) b) b (reverse (get m));
  f_get wireType dAtA iNdEx m :=
    _ ← expect_wire 2 wireType;
    '(s, iNdEx) ← readBytes dAtA iNdEx;
    Ok (set (get m ++ [of_bytes s]) m, iNdEx) |}.

(** An integer: [conv] takes the bits read to the Go type, the identity for [uint64] *)
Definition int_field (conv : Z → Z) (num : Z) (get : R → Z) (set : Z → R → R) : Field R := {|
  f_num := num;
  f_size m := if get m =? 0 then 0 else 1 + vc_sov (u64 (get m));
  f_put m b := if get m =? 0 then Ok b else b ← vc_encode (u64 (get m)) b; put_byte (num * 8) b;
  f_get wireType dAtA iNdEx m :=
    _ ← expect_wire 0 wireType;
    '(v, iNdEx) ← decodeVarint dAtA iNdEx;
    Ok (set (conv v) m, iNdEx) |}.
End varints.

Definition bool_field (num : Z) (get : R → bool) (set : bool → R → R) : Field R := {|
  f_num := num;
  f_size m := if get m then 2 else 0;
  f_put m b := if get m then b ← put_byte 1 b; put_byte (num * 8) b else Ok b;
  f_get wireType dAtA iNdEx m :=
    _ ← expect_wire 0 wireType;
    '(v, iNdEx) ← decodeVarint dAtA iNdEx;
    Ok (set (negb (v =? 0)) m, iNdEx) |}.

(** An embedded message writes into [dAtA[:i]]. *)
Definition put_message {T} (sub : MsgCodec T) (num : Z) (t : T) (b : Buf) : outcome Buf :=
  front ← slice_to (buf_dAtA b) (buf_i b);
  '(front, size) ← mc_MarshalToSizedBuffer sub t front;
  let b := mkBuf (front ++ drop (Z.to_nat (buf_i b)) (buf_dAtA b)) (buf_i b - size) in
  b ← encodeVarint size b;
  put_byte (num * 8 + 2) b.

Definition message_size {T} (sub : MsgCodec T) (t : T) : Z :=
  let l := mc_Size sub t in 1 + l + sov l.

(** A message held by value: always written *)
Definition message_field {T} (sub : MsgCodec T) (num : Z) (get : R → T) (set : T → R → R) : Field R := {|
  f_num := num;
  f_size m := message_size sub (get m);
  f_put m b := put_message sub num (get m) b;
  f_get wireType dAtA iNdEx m :=
    _ ← expect_wire 2 wireType;
    '(s, iNdEx) ← readBytes dAtA iNdEx;
    t ← mc_Unmarshal sub (get m) s;
    Ok (set t m, iNdEx) |}.

(** A pointer to a message, allocated on demand *)
Definition pointer_field {T} (sub : MsgCodec T) (zero : T) (num : Z) (get : R → option T) (set : option T → R → R) : Field R := {|
  f_num := num;
  f_size m := match get m with Some t => message_size sub t | None => 0 end;
  f_put m b := match get m with Some t => put_message sub num t b | None => Ok b end;
  f_get wireType dAtA iNdEx m :=
    _ ← expect_wire 2 wireType;
    '(s, iNdEx) ← readBytes dAtA iNdEx;
    t ← mc_Unmarshal sub (default zero (get m)) s;
    Ok (set (Some t) m, iNdEx) |}.

(** Repeated messages, each decoded from the zero value *)
Definition messages_field {T} (sub : MsgCodec T) (zero : T) (num : Z) (get : R → list T) (set : list T → R → R) : Field R := {|
  f_num := num;
  f_size m := sumZ (message_size sub) (get m);
  f_put m b := fold_outcome (λ b t, put_message sub num t b) b (reverse (get m));
  f_get wireType dAtA iNdEx m :=
    _ ← expect_wire 2 wireType;
    '(s, iNdEx) ← readBytes dAtA iNdEx;
    t ← mc_Unmarshal sub zero s;
    Ok (set (get m ++ [t]) m, iNdEx) |}.

(** A custom type held by value: always written *)
Definition put_custom {T} (sub : CustomCodec T) (num : Z) (t : T) (b : Buf) : outcome Buf :=
  let size := cc_Size sub t in
  let i := buf_i b - size in
  rest ← slice_from (buf_dAtA b) i;
  rest ← cc_MarshalTo sub t rest;
  b ← encodeVarint size (mkBuf (take (Z.to_nat i) (buf_dAtA b) ++ rest) i);
  put_byte (num * 8 + 2) b.

Definition custom_field {T} (sub : CustomCodec T) (num : Z) (get : R → T) (set : T → R → R) : Field R := {|
  f_num := num;
  f_size m := let l := cc_Size sub (get m) in 1 + l + sov l;
  f_put m b := put_custom sub num (get m) b;
  f_get wireType dAtA iNdEx m :=
    _ ← expect_wire 2 wireType;
    '(s, iNdEx) ← readBytes dAtA iNdEx;
    t ← cc_Unmarshal sub s;
    Ok (set t m, iNdEx) |}.
End kinds.

(** ** The wire format *)

(** Base 128, least significant digit first *)
Fixpoint varint_digits (rounds : nat) (v : Z) : bytes :=
  match rounds with
  | O => []
  | S rounds => if v <? 128 then [byte_of v] else byte_of (v mod 128 + 128) :: varint_digits rounds (v / 128)
  end.
Definition varint (v : Z) : bytes := varint_digits 10 v.

Definition delimited (s : bytes) : bytes := varint (llen s) ++ s.
#[global] Arguments expect_wire : simpl never.
#[global] Arguments decodeVarint : simpl never.
#[global] Arguments readBytes : simpl never.
#[global] Arguments encodeVarint : simpl never.
#[global] Arguments put_byte : simpl never.
#[global] Arguments put_bytes : simpl never.
#[global] Arguments sov : simpl never.
#[global] Arguments varint : simpl never.
#[global] Arguments delimited : simpl never.

(** ** Reading integers *)
Lemma land_shifted acc x k : 0 ≤ k → 0 ≤ acc < 2 ^ k → Z.land acc (Z.shiftl x k) = 0.
Proof.
  intros Hk Ha. apply Z.bits_inj'. intros n Hn. rewrite Z.land_spec, Z.bits_0.
  destruct (decide (n < k)); [by rewrite Z.shiftl_spec_low, andb_false_r|].
  by rewrite <- (Z.mod_small acc (2 ^ k)), Z.mod_pow2_bits_high by lia.
Qed.

Lemma lor_shifted acc x k : 0 ≤ k → 0 ≤ acc < 2 ^ k → Z.lor acc (Z.shiftl x k) = acc + x * 2 ^ k.
Proof.
  intros Hk Ha. rewrite <- Z.add_nocarry_lor by (by apply land_shifted). by rewrite Z.shiftl_mul_pow2.
Qed.

Lemma land_127 b : Z.land b 127 = b mod 128.
Proof. apply (Z.land_ones b 7). lia. Qed.
Lemma land_7 b : Z.land b 7 = b mod 8.
Proof. apply (Z.land_ones b 3). lia. Qed.

Lemma index_middle {A} (pre : list A) x suf : index (pre ++ x :: suf) (llen pre) = Ok x.
Proof.
  unfold index, llen. rewrite decide_True by lia. rewrite Nat2Z.id, list_lookup_middle; done.
Qed.

Lemma varint_digits_nonempty r v : varint_digits (S r) v ≠ [].
Proof. cbn. by case_match. Qed.

Lemma varint_loop_digits rounds pre suf k acc v :
  0 ≤ k → 0 ≤ acc < 2 ^ k → 0 ≤ v < 128 ^ Z.of_nat rounds → v * 2 ^ k < 2 ^ 64 → (0 < rounds)%nat →
  varint_loop rounds (pre ++ varint_digits rounds v ++ suf) k acc (llen pre)
  = Ok (acc + v * 2 ^ k, llen pre + llen (varint_digits rounds v)).
Proof.
  revert pre k acc v. induction rounds as [|r IH]; intros pre k acc v Hk Ha Hv Hfit Hr; [lia|].
  cbn [varint_loop varint_digits]. pose proof (llen_nonneg suf). pose proof (Z.pow_pos_nonneg 2 k ltac:(lia) Hk) as Hp.
  assert (∀ (d : Ascii.ascii) ds, (llen (pre ++ (d :: ds) ++ suf) <=? llen pre) = false) as Hlen.
  { intros d ds. rewrite !llen_app, llen_cons. pose proof (llen_nonneg ds). lia. }
  destruct (v <? 128) eqn:E.
  - rewrite Hlen. cbn [fail_if app]. rewrite bind_Ok_l, index_middle. cbn [fmap outcome_fmap]. rewrite bind_Ok_l, byte_val_of.
    rewrite (Z.mod_small v 256), E, land_127, Z.mod_small by lia.
    rewrite u64_small by (unfold is_u64; rewrite Z.shiftl_mul_pow2; nia). rewrite lor_shifted by lia. done.
  - rewrite Hlen. cbn [fail_if app]. rewrite bind_Ok_l, index_middle. cbn [fmap outcome_fmap]. rewrite bind_Ok_l, byte_val_of.
    pose proof (Z.mod_pos_bound v 128 ltac:(lia)). rewrite (Z.mod_small (_ + 128) 256) by lia.
    rewrite (proj2 (Z.ltb_ge _ _)) by lia. rewrite land_127.
    rewrite <- Zplus_mod_idemp_r, Z_mod_same_full, Z.add_0_r, Z.mod_mod by lia.
    pose proof (Z.div_mod v 128 ltac:(lia)) as Hdm. assert (0 ≤ v / 128) by (apply Z.div_pos; lia).
    rewrite u64_small by (unfold is_u64; rewrite Z.shiftl_mul_pow2; nia). rewrite lor_shifted by lia.
    rewrite cons_middle, (assoc_L (++)). rewrite Nat2Z.inj_succ, Z.pow_succ_r in Hv by lia.
    assert (2 ^ (k + 7) = 2 ^ k * 128) as Hk7 by (rewrite Z.pow_add_r by lia; done).
    destruct r as [|r]; [cbn in Hv; lia|].
    replace (llen pre + 1) with (llen (pre ++ [byte_of (v mod 128 + 128)])) by (rewrite llen_app; done).
    rewrite IH; [|lia|rewrite Hk7; nia|lia|rewrite Hk7; nia|lia].
    rewrite Hk7, llen_app, !llen_cons. do 2 f_equal; [nia|]. change (llen []) with 0. lia.
Qed.

Lemma decodeVarint_ok pre suf v : is_u64 v →
  decodeVarint (pre ++ varint v ++ suf) (llen pre) = Ok (v, llen pre + llen (varint v)).
Proof.
  intros Hv. unfold decodeVarint, varint. unfold is_u64 in Hv. rewrite (varint_loop_digits 10 pre suf 0 0 v) by lia.
  do 2 f_equal. lia.
Qed.

(** ** No read panics or runs out of fuel *)
Definition benign {A} (x : outcome A) : Prop := x ≠ Panic ∧ x ≠ Err ErrOutOfFuel.

Lemma benign_bind {A B} (x : outcome A) (f : A → outcome B) :
  benign x → (∀ a, x = Ok a → benign (f a)) → benign (x ≫= f).
Proof. unfold benign. destruct x as [a|e|]; cbn; intros [] Hf; [auto|split; congruence|done]. Qed.

Lemma benign_Ok {A} (a : A) : benign (Ok a).
Proof. done. Qed.

Lemma benign_fail_if c tag : benign (fail_if c (ErrProto tag)).
Proof. by destruct c. Qed.

Lemma benign_fail_if_eof c : benign (fail_if c ErrUnexpectedEOF).
Proof. by destruct c. Qed.

Lemma benign_fail_if_len c : benign (fail_if c ErrInvalidLength).
Proof. by destruct c. Qed.

Lemma benign_fail_if_group c : benign (fail_if c ErrUnexpectedEndOfGroup).
Proof. by destruct c. Qed.

Lemma benign_Err tag : ∀ A, benign (Err (ErrProto tag) : outcome A).
Proof. done. Qed.

Create HintDb wire.
#[export] Hint Resolve benign_Ok benign_fail_if benign_fail_if_eof benign_fail_if_len benign_fail_if_group benign_Err : wire.

Lemma index_ok {A} (l : list A) i : 0 ≤ i < llen l → ∃ x, index l i = Ok x.
Proof.
  intros [H0 Hl]. unfold index, llen in *. rewrite decide_True by done.
  destruct (lookup_lt_is_Some_2 l (Z.to_nat i)) as [x ->]; [lia|]. by exists x.
Qed.

Lemma varint_loop_bounds rounds d k acc i v i' :
  varint_loop rounds d k acc i = Ok (v, i') → i < i' ≤ llen d.
Proof.
  revert k acc i. induction rounds as [|r IH]; intros k acc i; cbn [varint_loop]; [done|].
  rewrite fail_if_bind. intros [Hl%Z.leb_gt H]. apply bind_Ok in H as (b&_&H). destruct (b <? 128).
  - injection H as _ <-. lia.
  - apply IH in H. lia.
Qed.

Lemma varint_loop_benign rounds d k acc i : 0 ≤ i → benign (varint_loop rounds d k acc i).
Proof.
  revert k acc i. induction rounds as [|r IH]; intros k acc i Hi; cbn [varint_loop]; [done|].
  apply benign_bind; [auto with wire|]. intros u Hu%fail_if_Ok%Z.leb_gt.
  destruct (index_ok d i) as [x Hx]; [lia|]. rewrite Hx. cbn [fmap outcome_fmap]. rewrite bind_Ok_l.
  case_match; [done|]. apply IH. lia.
Qed.

Lemma decodeVarint_bounds d i v i' : decodeVarint d i = Ok (v, i') → i < i' ≤ llen d.
Proof. apply varint_loop_bounds. Qed.

Lemma decodeVarint_benign d i : 0 ≤ i → benign (decodeVarint d i).
Proof. apply varint_loop_benign. Qed.
#[export] Hint Resolve decodeVarint_benign : wire.

Lemma i64_range z : - 2 ^ 63 ≤ i64 z < 2 ^ 63.
Proof. unfold i64. pose proof (Z.mod_pos_bound (z + 2 ^ 63) (2 ^ 64) ltac:(lia)). lia. Qed.

(** An index that has wrapped around is negative: the code's test for overflow *)
Lemma i64_add i n : 0 ≤ i < 2 ^ 63 → 0 ≤ n < 2 ^ 63 → 0 ≤ i64 (i + n) → i64 (i + n) = i + n.
Proof.
  intros Hi Hn. destruct (decide (i + n < 2 ^ 63)); [intros; apply i64_small; lia|].
  unfold i64. rewrite <- (Z_mod_plus_full _ (-1)), Z.mod_small by lia. lia.
Qed.

Lemma slice_ok {A} (l : list A) a b : 0 ≤ a ≤ b → b ≤ llen l → slice l a b = Ok (take (Z.to_nat (b - a)) (drop (Z.to_nat a) l)).
Proof. intros. unfold slice. by rewrite decide_True. Qed.

Lemma readBytes_bounds d i s i' : 0 ≤ i → llen d < 2 ^ 63 → readBytes d i = Ok (s, i') → i < i' ≤ llen d ∧ llen s < i' - i.
Proof.
  intros Hi Hd. unfold readBytes. intros H. apply bind_Ok in H as ([n i1]&Hn%decodeVarint_bounds&H).
  rewrite !fail_if_bind in H. destruct H as (H1%Z.ltb_ge&H2%Z.ltb_ge&H3%Z.ltb_ge&H).
  pose proof (i64_range n). rewrite i64_add in * by lia.
  rewrite slice_ok, bind_Ok_l in H by lia. injection H as <- <-. unfold llen in *. rewrite length_take, length_drop. lia.
Qed.

Lemma readBytes_benign d i : 0 ≤ i → llen d < 2 ^ 63 → benign (readBytes d i).
Proof.
  intros Hi Hd. unfold readBytes. apply benign_bind; [auto with wire|]. intros [n i1] Hn%decodeVarint_bounds.
  apply benign_bind; [auto with wire|]. intros _ H1%fail_if_Ok%Z.ltb_ge.
  apply benign_bind; [auto with wire|]. intros _ H2%fail_if_Ok%Z.ltb_ge.
  apply benign_bind; [auto with wire|]. intros _ H3%fail_if_Ok%Z.ltb_ge.
  pose proof (i64_range n). rewrite i64_add in * by lia. by rewrite slice_ok by lia.
Qed.
#[export] Hint Resolve readBytes_benign : wire.

Lemma readBytes_ok pre s suf : llen (pre ++ delimited s ++ suf) < 2 ^ 63 →
  readBytes (pre ++ delimited s ++ suf) (llen pre) = Ok (s, llen pre + llen (delimited s)).
Proof.
  unfold delimited. rewrite !llen_app. intros Hl. pose proof (llen_nonneg pre). pose proof (llen_nonneg s).
  pose proof (llen_nonneg suf). pose proof (llen_nonneg (varint (llen s))).
  unfold readBytes. rewrite <- (assoc_L (++)), decodeVarint_ok, bind_Ok_l by (unfold is_u64; lia).
  rewrite (i64_small (llen s)), i64_small by lia.
  rewrite (proj2 (Z.ltb_ge (llen s) 0)), (proj2 (Z.ltb_ge (llen pre + _ + _) 0)), (proj2 (Z.ltb_ge (llen (pre ++ _)) _))
    by (rewrite ?llen_app; lia).
  cbn [fail_if]. rewrite !bind_Ok_l.
  rewrite slice_ok, bind_Ok_l by (rewrite ?llen_app; lia). do 2 f_equal; [|lia].
  rewrite (assoc_L (++)), drop_app_length' by (unfold llen in *; rewrite length_app; lia).
  apply take_app_length'. unfold llen. lia.
Qed.

(** ** Skipping ends *)
Lemma skip_field_bounds d w i depth i' depth' : 0 ≤ i ≤ llen d → llen d < 2 ^ 63 →
  skip_field d w i depth = Ok (i', depth') → 0 ≤ i' → i ≤ i'.
Proof.
  intros Hi Hd E Hi'. unfold skip_field in E. repeat case_match.
  - apply bind_Ok in E as ([v i1]&Hv%decodeVarint_bounds&[= <- <-]). lia.
  - injection E as <- <-. rewrite i64_add in * by lia. lia.
  - apply bind_Ok in E as ([n i1]&Hv%decodeVarint_bounds&E). apply fail_if_bind in E as [Hn%Z.ltb_ge [= <- <-]].
    pose proof (i64_range n). rewrite i64_add in * by lia. lia.
  - injection E as <- <-. lia.
  - apply fail_if_bind in E as [_ [= <- <-]]. lia.
  - injection E as <- <-. rewrite i64_add in * by lia. lia.
  - done.
Qed.

Lemma skip_field_benign d w i depth : 0 ≤ i → benign (skip_field d w i depth).
Proof.
  intros Hi. unfold skip_field. repeat case_match; auto with wire;
    (apply benign_bind; [auto with wire|]; intros [] ?; auto with wire; apply benign_bind; auto with wire).
Qed.

Lemma skip_loop_benign fuel d i depth : 0 ≤ i → llen d < 2 ^ 63 → llen d - i < Z.of_nat fuel → (0 < fuel)%nat →
  benign (skip_loop fuel d i depth).
Proof.
  revert i depth. induction fuel as [|fuel IH]; intros i depth Hi Hd Hf H0; [lia|]. cbn [skip_loop].
  destruct (i <? llen d) eqn:E; [|done]. apply Z.ltb_lt in E.
  apply benign_bind; [auto with wire|]. intros [wire i1] Hw%decodeVarint_bounds.
  apply benign_bind; [apply skip_field_benign; lia|]. intros [i2 depth2] Hs.
  apply benign_bind; [auto with wire|]. intros _ H2%fail_if_Ok%Z.ltb_ge.
  apply skip_field_bounds in Hs; [|lia..]. case_match; [done|].
  destruct (decide (fuel = O)) as [->|]; [|apply IH; lia]. lia.
Qed.

Lemma skip_benign d : llen d < 2 ^ 63 → benign (skip d).
Proof. intros Hd. apply skip_loop_benign; unfold llen in *; lia. Qed.

(** What is skipped has at least the byte of a tag. *)
Lemma skip_loop_progress fuel d i depth n : 0 ≤ i → llen d < 2 ^ 63 → skip_loop fuel d i depth = Ok n → i < n.
Proof.
  revert i depth. induction fuel as [|fuel IH]; intros i depth Hi Hd; cbn [skip_loop]; [done|].
  destruct (i <? llen d) eqn:E; [|done]. intros H.
  apply bind_Ok in H as ([wire i1]&Hw%decodeVarint_bounds&H). apply bind_Ok in H as ([i2 depth2]&Hs&H).
  apply fail_if_bind in H as [H2%Z.ltb_ge H]. apply skip_field_bounds in Hs; [|lia..].
  case_match; [injection H as <-; lia|]. apply IH in H; lia.
Qed.

Lemma skip_progress d n : llen d < 2 ^ 63 → skip d = Ok n → 0 < n.
Proof. intros Hd. by apply skip_loop_progress. Qed.
