(* ===== verification/ProtoCodec.v ===== *)
(** * The generated protobuf code: messages are written and read back

    What a field owes ([FieldSpec]), the specifications of the kinds of fields, and the
    theorems on messages that follow: [Size] is exact, the backward writer produces the
    forward encoding, [Unmarshal] reads it back, and on any input it ends without a
    panic. *)

From S2P Require Import Prelude GoStd ProtoWire.

(** ** Writing *)

(** The buffer is [junk ++ done], and the index is at the end of the junk. *)
Definition written (b : Buf) (done : bytes) : Prop :=
  ∃ junk, buf_dAtA b = junk ++ done ∧ buf_i b = llen junk.

Lemma set_index_middle pre x y suf : set_index (pre ++ x :: suf) (llen pre) y = Ok (pre ++ y :: suf).
Proof.
  unfold set_index. rewrite decide_True by (rewrite llen_app, llen_cons; pose proof (llen_nonneg pre); pose proof (llen_nonneg suf); lia).
  unfold llen. rewrite Nat2Z.id. replace (length pre) with (length pre + 0)%nat by lia. by rewrite insert_app_r.
Qed.

Lemma llen_split {A} (l : list A) n : 0 ≤ n ≤ llen l → ∃ l1 l2, l = l1 ++ l2 ∧ llen l2 = n ∧ llen l1 = llen l - n.
Proof.
  intros Hn. exists (take (length l - Z.to_nat n) l), (drop (length l - Z.to_nat n) l).
  rewrite take_drop. unfold llen in *. rewrite length_take, length_drop. split_and!; [done|lia..].
Qed.

Lemma llen_0 {A} (l : list A) : llen l = 0 → l = [].
Proof. destruct l; [done|]. rewrite llen_cons. pose proof (llen_nonneg l). lia. Qed.

Lemma put_byte_ok z b done : written b done → 1 ≤ buf_i b → ∃ b', put_byte z b = Ok b' ∧ written b' (byte_of z :: done) ∧ buf_i b' = buf_i b - 1.
Proof.
  intros (junk&E&Ei) Hi. destruct (llen_split junk 1) as (j1&j2&->&H2&H1); [lia|].
  destruct j2 as [|x [|? j2]]; [done| |rewrite !llen_cons in H2; pose proof (llen_nonneg j2); lia].
  unfold put_byte. rewrite E, Ei, <- H1, <- (assoc_L (++)). cbn [app]. rewrite set_index_middle, bind_Ok_l.
  eexists. split; [done|]. split; [by exists j1|done].
Qed.

Lemma put_bytes_ok s b done : written b done → llen s ≤ buf_i b →
  ∃ b', put_bytes s b = Ok b' ∧ written b' (s ++ done) ∧ buf_i b' = buf_i b - llen s.
Proof.
  intros (junk&E&Ei) Hi. pose proof (llen_nonneg s). destruct (llen_split junk (llen s)) as (j1&j2&->&H2&H1); [lia|].
  unfold put_bytes, copy_at. rewrite E, Ei, <- H1, <- (assoc_L (++)). pose proof (llen_nonneg j1).
  assert (length j2 = length s) as Hs by (unfold llen in H2; lia).
  rewrite slice_from_ok, !bind_Ok_l by (rewrite !llen_app; pose proof (llen_nonneg j2); pose proof (llen_nonneg done); lia).
  rewrite drop_app_length', take_app_length' by (unfold llen; lia).
  rewrite (take_ge s), drop_app_length' by (rewrite ?length_app; lia).
  eexists. split; [done|]. split; [by exists j1|done].
Qed.

Lemma put_varint_digits rounds pre junk suf v : 0 ≤ v < 128 ^ Z.of_nat rounds → (0 < rounds)%nat →
  length junk = length (varint_digits rounds v) →
  put_varint rounds (pre ++ junk ++ suf) (llen pre) v = Ok (pre ++ varint_digits rounds v ++ suf).
Proof.
  revert pre junk v. induction rounds as [|r IH]; intros pre junk v Hv Hr Hj; [lia|].
  cbn [put_varint varint_digits] in *. destruct (v <? 128) eqn:E.
  - rewrite (proj2 (Z.leb_gt _ _)) by lia. destruct junk as [|x [|? ?]]; [done| |done]. cbn [app].
    by rewrite set_index_middle.
  - rewrite (proj2 (Z.leb_le _ _)) by lia. destruct junk as [|x junk]; [done|]. cbn [app length] in *.
    rewrite set_index_middle, bind_Ok_l. rewrite land_127. rewrite Nat2Z.inj_succ, Z.pow_succ_r in Hv by lia.
    pose proof (Z.mod_pos_bound v 128 ltac:(lia)).
    assert (Z.lor (v mod 128) 128 = v mod 128 + 128) as ->.
    { change 128 with (Z.shiftl 1 7) at 2. rewrite lor_shifted by lia. done. }
    rewrite (cons_middle _ pre), (assoc_L (++)), Z.shiftr_div_pow2 by lia. change (2 ^ 7) with 128.
    replace (llen pre + 1) with (llen (pre ++ [byte_of (v mod 128 + 128)])) by (rewrite llen_app; done).
    destruct r as [|r]; [cbn in Hv; lia|]. rewrite IH; [|split; [apply Z.div_pos; lia|apply Z.div_lt_upper_bound; lia]|lia|lia].
    by rewrite <- (assoc_L (++)).
Qed.

Lemma bits_group v : 128 ≤ v → sov v = 1 + sov (v / 128).
Proof.
  intros Hv. unfold sov, bits_Len64. change 128 with (2 ^ 7). rewrite <- Z.shiftr_div_pow2 by lia.
  assert (0 < Z.shiftr v 7) by (rewrite Z.shiftr_div_pow2 by lia; apply Z.div_str_pos; lia).
  assert (∀ x, 0 < x → (Z.lor x 1 =? 0) = false) as Hne by (intros x Hx; apply Z.eqb_neq; rewrite Z.lor_eq_0_iff; lia).
  rewrite !Hne, !Z.log2_lor by lia. change (Z.log2 1) with 0. rewrite Z.log2_shiftr by lia.
  pose proof (Z.log2_nonneg v). assert (7 ≤ Z.log2 v) by (change 7 with (Z.log2 128); by apply Z.log2_le_mono).
  rewrite (Z.max_l (Z.log2 v) 0), (Z.max_r 0 (Z.log2 v - 7)), Z.max_l by lia. replace (Z.log2 v + 1 + 6) with (Z.log2 v - 7 + 1 + 6 + 1 * 7) by lia.
  rewrite Z.div_add by lia. lia.
Qed.

Lemma bits_last v : 0 ≤ v < 128 → sov v = 1.
Proof.
  intros Hv. unfold sov, bits_Len64. rewrite (proj2 (Z.eqb_neq _ _)) by (rewrite Z.lor_eq_0_iff; lia).
  rewrite Z.log2_lor, Z.max_l by (cbn; pose proof (Z.log2_nonneg v); lia). pose proof (Z.log2_nonneg v).
  assert (Z.log2 v ≤ 6) by (change 6 with (Z.log2 127); apply Z.log2_le_mono; lia).
  symmetry. apply (Z.div_unique _ _ _ (Z.log2 v)); lia.
Qed.

Lemma varint_digits_length rounds v : 0 ≤ v < 128 ^ Z.of_nat rounds → (0 < rounds)%nat → llen (varint_digits rounds v) = sov v.
Proof.
  revert v. induction rounds as [|r IH]; intros v Hv Hr; [lia|]. cbn [varint_digits]. destruct (v <? 128) eqn:E.
  - by rewrite bits_last by lia.
  - rewrite Nat2Z.inj_succ, Z.pow_succ_r in Hv by lia. destruct r as [|r]; [cbn in Hv; lia|].
    rewrite llen_cons, IH, (bits_group v); [done|lia|split; [apply Z.div_pos; lia|apply Z.div_lt_upper_bound; lia]|lia].
Qed.

Lemma varint_length v : is_u64 v → llen (varint v) = sov v.
Proof. intros Hv. apply varint_digits_length; [unfold is_u64 in Hv|]; lia. Qed.

Lemma encodeVarint_ok v b done : is_u64 v → written b done → sov v ≤ buf_i b →
  ∃ b', encodeVarint v b = Ok b' ∧ written b' (varint v ++ done) ∧ buf_i b' = buf_i b - sov v.
Proof.
  intros Hv (junk&E&Ei) Hi. rewrite <- varint_length in * by done. pose proof (llen_nonneg (varint v)).
  destruct (llen_split junk (llen (varint v))) as (j1&j2&->&H2&H1); [lia|].
  unfold encodeVarint. rewrite <- varint_length by done. rewrite E, Ei, <- H1, <- (assoc_L (++)).
  unfold varint in *. rewrite put_varint_digits by (unfold is_u64, llen in *; lia). rewrite bind_Ok_l.
  eexists. split; [done|]. split; [by exists j1|done].
Qed.

(** What the functions on integers owe to the code of a field *)
Class VarintSpec `{VC : !VarintCode} := {
  vc_sov_ok v : is_u64 v → vc_sov v = llen (varint v);
  vc_encode_ok v b done : is_u64 v → written b done → llen (varint v) ≤ buf_i b →
    ∃ b', vc_encode v b = Ok b' ∧ written b' (varint v ++ done) ∧ buf_i b' = buf_i b - llen (varint v);
}.
#[global] Program Instance file_varints_spec : VarintSpec.
Next Obligation. intros v Hv. by rewrite varint_length. Qed.
Next Obligation. intros v b done Hv. rewrite varint_length by done. by apply encodeVarint_ok. Qed.

(** ** What a field owes *)

(** What is written for a field is a list of items: the bytes behind the tag, and the
    effect of reading them. *)
Abbreviation item R := (bytes * (R → R))%type.

Definition tag_byte (num wire : Z) : Ascii.ascii := byte_of (num * 8 + wire).

Definition items_enc {R} (num wire : Z) (l : list (item R)) : bytes :=
  concat ((λ it, tag_byte num wire :: it.1) <$> l).

#[global] Arguments items_enc : simpl never.

Definition items_apply {R} (l : list (item R)) (m : R) : R := foldl (λ m it, it.2 m) m l.

Class FieldNum (num : Z) := field_num : 1 ≤ num ≤ 15.
#[global] Hint Extern 0 (FieldNum _) => (split; discriminate) : typeclass_instances.

Class FieldSpec {R} (f : Field R) := mkFieldSpec {
  fs_wire : Z;
  fs_fits : R → Prop;
  fs_items : R → list (item R);
  fs_num_range : 1 ≤ f_num f ≤ 15;
  fs_wire_range : fs_wire = 0 ∨ fs_wire = 2;
  fs_size m : fs_fits m → f_size f m = llen (items_enc (f_num f) fs_wire (fs_items m));
  fs_put m b done :
    fs_fits m → written b done → llen (items_enc (f_num f) fs_wire (fs_items m)) ≤ buf_i b → buf_i b < 2 ^ 63 →
    ∃ b', f_put f m b = Ok b' ∧ written b' (items_enc (f_num f) fs_wire (fs_items m) ++ done) ∧
      buf_i b' = buf_i b - llen (items_enc (f_num f) fs_wire (fs_items m));
  fs_get m it pre suf m0 :
    fs_fits m → it ∈ fs_items m → llen (pre ++ it.1 ++ suf) < 2 ^ 63 →
    f_get f fs_wire (pre ++ it.1 ++ suf) (llen pre) m0 = Ok (it.2 m0, llen pre + llen it.1);
  fs_bounds w d i m m' i' :
    0 ≤ i ≤ llen d → llen d < 2 ^ 63 → f_get f w d i m = Ok (m', i') → i ≤ i' ≤ llen d;
  fs_benign w d i m : 0 ≤ i → llen d < 2 ^ 63 → benign (f_get f w d i m);
}.

Inductive FieldsSpec {R} : list (Field R) → Type :=
| fields_nil : FieldsSpec []
| fields_cons f fs : FieldSpec f → FieldsSpec fs → FieldsSpec (f :: fs).
Existing Class FieldsSpec.
#[global] Existing Instances fields_nil fields_cons.

Fixpoint fields_fits {R} {fs : list (Field R)} (Sp : FieldsSpec fs) (m : R) : Prop :=
  match Sp with
  | fields_nil => True
  | fields_cons f fs Sf Sp => fs_fits m ∧ fields_fits Sp m
  end.

(** The forward encoding: the fields in ascending order *)
Fixpoint fields_enc {R} {fs : list (Field R)} (Sp : FieldsSpec fs) (m : R) : bytes :=
  match Sp with
  | fields_nil => []
  | fields_cons f fs Sf Sp => items_enc (f_num f) fs_wire (fs_items m) ++ fields_enc Sp m
  end.

(** What reading the encoding of [m] does to a message *)
Fixpoint fields_apply {R} {fs : list (Field R)} (Sp : FieldsSpec fs) (m m0 : R) : R :=
  match Sp with
  | fields_nil => m0
  | fields_cons f fs Sf Sp => fields_apply Sp m (items_apply (fs_items m) m0)
  end.

(** ** Messages: size and writing *)
Section writing.
Context {R : Type}.
Implicit Types (fs : list (Field R)) (m : R).

Lemma msg_Size_ok fs (Sp : FieldsSpec fs) m : fields_fits Sp m → msg_Size fs m = llen (fields_enc Sp m).
Proof.
  unfold msg_Size. induction Sp as [|f fs Sf Sp IH]; cbn; [done|]. intros [Hf Hfs].
  by rewrite llen_app, <- fs_size, IH.
Qed.

Lemma put_fields_ok fs (Sp : FieldsSpec fs) m b done :
  fields_fits Sp m → written b done → llen (fields_enc Sp m) ≤ buf_i b → buf_i b < 2 ^ 63 →
  ∃ b', fold_outcome (λ b f, f_put f m b) b (reverse fs) = Ok b' ∧ written b' (fields_enc Sp m ++ done) ∧
    buf_i b' = buf_i b - llen (fields_enc Sp m).
Proof.
  revert done b. induction Sp as [|f fs Sf Sp IH]; cbn [fields_fits fields_enc]; intros done b Hfit Hw Hl Hb.
  - exists b. change (llen []) with 0. rewrite Z.sub_0_r. done.
  - destruct Hfit as [Hf Hfs]. rewrite llen_app in *. pose proof (llen_nonneg (fields_enc Sp m)).
    pose proof (llen_nonneg (items_enc (f_num f) fs_wire (fs_items m))).
    destruct (IH done b Hfs Hw) as (b1&E1&Hw1&Hi1); [lia..|].
    destruct (fs_put m b1 (fields_enc Sp m ++ done)) as (b2&E2&Hw2&Hi2); [done|done|lia..|].
    exists b2. rewrite reverse_cons, fold_outcome_app, E1. cbn. rewrite E2, <- (assoc_L (++)). split_and!; [done|done|lia].
Qed.

Lemma msg_MarshalToSizedBuffer_ok fs (Sp : FieldsSpec fs) m dAtA :
  fields_fits Sp m → llen (fields_enc Sp m) ≤ llen dAtA → llen dAtA < 2 ^ 63 →
  ∃ junk, msg_MarshalToSizedBuffer fs m dAtA = Ok (junk ++ fields_enc Sp m, llen (fields_enc Sp m)) ∧
    llen junk = llen dAtA - llen (fields_enc Sp m).
Proof.
  intros Hfit Hl Hb. unfold msg_MarshalToSizedBuffer.
  destruct (put_fields_ok fs Sp m (mkBuf dAtA (llen dAtA)) []) as (b&->&(junk&E&Ej)&Hi); [done| |done..|].
  { exists dAtA. by rewrite app_nil_r. }
  cbn [buf_i] in Hi. rewrite app_nil_r in E. exists junk. rewrite bind_Ok_l, E, Hi. split; [do 2 f_equal; lia|lia].
Qed.

Lemma msg_Marshal_ok fs (Sp : FieldsSpec fs) m :
  fields_fits Sp m → llen (fields_enc Sp m) < 2 ^ 63 → msg_Marshal fs m = Ok (fields_enc Sp m).
Proof.
  intros Hfit Hl. unfold msg_Marshal, make_bytes. rewrite (msg_Size_ok fs Sp) by done.
  pose proof (llen_nonneg (fields_enc Sp m)). rewrite decide_True, bind_Ok_l by done.
  assert (llen (replicate (Z.to_nat (llen (fields_enc Sp m))) (byte_of 0)) = llen (fields_enc Sp m)) as Hr.
  { unfold llen. rewrite length_replicate. lia. }
  destruct (msg_MarshalToSizedBuffer_ok fs Sp m (replicate (Z.to_nat (llen (fields_enc Sp m))) (byte_of 0))) as (junk&->&Hj);
    [done|lia..|].
  rewrite Hr, Z.sub_diag in Hj. apply llen_0 in Hj as ->. rewrite bind_Ok_l. cbn [app].
  rewrite slice_to_ok by lia. by rewrite take_ge by (unfold llen; lia).
Qed.
End writing.

(** ** Tags *)
Lemma i32_small z : 0 ≤ z < 2 ^ 31 → i32 z = z.
Proof. intros. unfold i32. rewrite Z.mod_small; lia. Qed.

Lemma decode_tag num wire pre suf : 1 ≤ num ≤ 15 → 0 ≤ wire < 8 →
  decodeVarint (pre ++ tag_byte num wire :: suf) (llen pre) = Ok (num * 8 + wire, llen pre + 1).
Proof.
  intros Hn Hw. assert (varint (num * 8 + wire) = [tag_byte num wire]) as E.
  { unfold varint. cbn [varint_digits]. by rewrite (proj2 (Z.ltb_lt _ _)) by lia. }
  pose proof (decodeVarint_ok pre suf (num * 8 + wire)) as H. rewrite E in H. apply H. unfold is_u64. lia.
Qed.

(** ** Fields the message does not have *)
Unset Elimination Schemes.

(** A field with its number: an integer, eight or four bytes, bytes behind their length, or a
    group of fields between two tags *)
Inductive Unknown :=
| UVarint (num v : Z)
| UFixed64 (num : Z) (s : bytes)
| UBytes (num : Z) (s : bytes)
| UFixed32 (num : Z) (s : bytes)
| UGroup (num : Z) (body : list Unknown).
Set Elimination Schemes.

Definition un_num (u : Unknown) : Z :=
  match u with UVarint num _ | UFixed64 num _ | UBytes num _ | UFixed32 num _ | UGroup num _ => num end.
Definition un_wire (u : Unknown) : Z :=
  match u with UVarint _ _ => 0 | UFixed64 _ _ => 1 | UBytes _ _ => 2 | UFixed32 _ _ => 5 | UGroup _ _ => 3 end.

(** A tag may take several bytes. *)
Definition un_tag (num wire : Z) : bytes := varint (num * 8 + wire).

Fixpoint un_enc (u : Unknown) : bytes :=
  match u with
  | UVarint num v => un_tag num 0 ++ varint v
  | UFixed64 num s => un_tag num 1 ++ s
  | UBytes num s => un_tag num 2 ++ delimited s
  | UFixed32 num s => un_tag num 5 ++ s
  | UGroup num body => un_tag num 3 ++ concat (un_enc <$> body) ++ un_tag num 4
  end.

(** A list of them *)
Definition uns_enc (us : list Unknown) : bytes := concat (un_enc <$> us).

(** The numbers that a protobuf field may have *)
Definition is_field_num (num : Z) : Prop := 1 ≤ num < 2 ^ 29.

Inductive un_wf : Unknown → Prop :=
| wf_varint num v : is_field_num num → is_u64 v → un_wf (UVarint num v)
| wf_fixed64 num s : is_field_num num → llen s = 8 → un_wf (UFixed64 num s)
| wf_bytes num s : is_field_num num → llen s < 2 ^ 63 → un_wf (UBytes num s)
| wf_fixed32 num s : is_field_num num → llen s = 4 → un_wf (UFixed32 num s)
| wf_group num body : is_field_num num → Forall un_wf body → un_wf (UGroup num body).
Definition un_ok {R} (fields : list (Field R)) (u : Unknown) : Prop := un_wf u ∧ (un_num u ∉ (f_num <$> fields)).

Lemma varint_pos v : 0 < llen (varint v).
Proof.
  assert (varint v = if v <? 128 then [byte_of v] else byte_of (v mod 128 + 128) :: varint_digits 9 (v / 128)) as -> by done.
  destruct (v <? 128); [done|]. rewrite llen_cons. pose proof (llen_nonneg (varint_digits 9 (v / 128))). lia.
Qed.

(** The tag in front, and what is behind it *)
Lemma un_enc_tag u : ∃ s, un_enc u = un_tag (un_num u) (un_wire u) ++ s.
Proof. destruct u; cbn [un_enc un_num un_wire]; eauto. Qed.

Lemma un_wf_num u : un_wf u → is_field_num (un_num u).
Proof. by destruct 1. Qed.

Lemma un_enc_pos u : 0 < llen (un_enc u).
Proof.
  destruct (un_enc_tag u) as [s ->]. rewrite llen_app. unfold un_tag.
  pose proof (varint_pos (un_num u * 8 + un_wire u)). pose proof (llen_nonneg s). lia.
Qed.

Lemma decode_un_tag num wire pre suf : is_field_num num → 0 ≤ wire < 8 →
  decodeVarint (pre ++ un_tag num wire ++ suf) (llen pre) = Ok (num * 8 + wire, llen (pre ++ un_tag num wire)).
Proof. unfold is_field_num. intros Hn Hw. rewrite llen_app. apply decodeVarint_ok. unfold is_u64. lia. Qed.

Lemma tag_wire num wire : 0 ≤ wire < 8 → Z.land (num * 8 + wire) 7 = wire.
Proof. intros Hw. by rewrite land_7, (Z.add_comm (num * 8)), Z_mod_plus_full, Z.mod_small. Qed.

Lemma tag_num num wire : 0 ≤ wire < 8 → Z.shiftr (num * 8 + wire) 3 = num.
Proof.
  intros Hw. rewrite Z.shiftr_div_pow2 by lia. change (2 ^ 3) with 8.
  rewrite (Z.add_comm (num * 8)), Z_div_plus_full, Z.div_small by lia. lia.
Qed.

(** What the function that finds the end of a field owes *)
Class SkipSpec (skipper : bytes → outcome Z) := {
  sk_ok u suf : un_wf u → llen (un_enc u ++ suf) < 2 ^ 63 → skipper (un_enc u ++ suf) = Ok (llen (un_enc u));
  sk_progress d n : llen d < 2 ^ 63 → skipper d = Ok n → 0 < n;
  sk_benign d : llen d < 2 ^ 63 → benign (skipper d);
}.

(** One round of [skip] from the front of [s], whose tag is followed by [skip_field], at a depth *)
Lemma skip_round fuel num wire pre s suf depth depth' :
  is_field_num num → 0 ≤ wire < 8 → llen (pre ++ (un_tag num wire ++ s) ++ suf) < 2 ^ 63 →
  skip_field ((pre ++ un_tag num wire) ++ s ++ suf) wire (llen (pre ++ un_tag num wire)) depth
    = Ok (llen ((pre ++ un_tag num wire) ++ s), depth') →
  let d := pre ++ (un_tag num wire ++ s) ++ suf in
  let i := llen (pre ++ un_tag num wire ++ s) in
  skip_loop (S fuel) d (llen pre) depth = if depth' =? 0 then Ok i else skip_loop fuel d i depth'.
Proof.
  intros Hn Hw Hl E d i. cbn [skip_loop]. unfold d. pose proof (varint_pos (num * 8 + wire)) as Hv. fold (un_tag num wire) in Hv.
  rewrite (proj2 (Z.ltb_lt _ _))
    by (rewrite !llen_app; pose proof (llen_nonneg s); pose proof (llen_nonneg suf); lia).
  rewrite <- (assoc_L (++) (un_tag num wire)), decode_un_tag, bind_Ok_l, tag_wire by done.
  rewrite (assoc_L (++) pre) , E, bind_Ok_l. rewrite <- (assoc_L (++) pre) in E |- *. fold i.
  rewrite (proj2 (Z.ltb_ge _ _)) by apply llen_nonneg. cbn [fail_if]. by rewrite bind_Ok_l, <- (assoc_L (++) pre).
Qed.

(** [skip] moves over a field, at whatever depth of groups it is. *)
Definition skips (enc : bytes) : Prop := ∀ fuel pre suf depth,
  0 ≤ depth → llen (pre ++ enc ++ suf) < 2 ^ 63 → llen (enc ++ suf) < Z.of_nat fuel →
  ∃ fuel', llen suf < Z.of_nat fuel' ∧
    skip_loop fuel (pre ++ enc ++ suf) (llen pre) depth
    = if depth =? 0 then Ok (llen (pre ++ enc)) else skip_loop fuel' (pre ++ enc ++ suf) (llen (pre ++ enc)) depth.

Lemma skips_simple num wire s :
  is_field_num num → 0 ≤ wire < 8 →
  (∀ pre suf depth, llen (pre ++ s ++ suf) < 2 ^ 63 →
     skip_field (pre ++ s ++ suf) wire (llen pre) depth = Ok (llen (pre ++ s), depth)) →
  skips (un_tag num wire ++ s).
Proof.
  intros Hn Hw Hf fuel pre suf depth Hd Hl Hfuel. destruct fuel as [|fuel]; [pose proof (llen_nonneg ((un_tag num wire ++ s) ++ suf)); lia|].
  exists fuel. split.
  { rewrite !llen_app in Hfuel. pose proof (varint_pos (num * 8 + wire)). unfold un_tag in Hfuel. pose proof (llen_nonneg s). lia. }
  apply (skip_round fuel num wire pre s suf depth depth); [done..|]. apply Hf. by rewrite <- !(assoc_L (++)) in *.
Qed.

(** The fields in a group *)
Lemma skips_inner us : Forall (λ u, skips (un_enc u)) us → ∀ fuel pre suf depth,
  0 < depth → llen (pre ++ uns_enc us ++ suf) < 2 ^ 63 → llen (uns_enc us ++ suf) < Z.of_nat fuel →
  ∃ fuel', llen suf < Z.of_nat fuel' ∧
    skip_loop fuel (pre ++ uns_enc us ++ suf) (llen pre) depth
    = skip_loop fuel' (pre ++ uns_enc us ++ suf) (llen (pre ++ uns_enc us)) depth.
Proof.
  induction 1 as [|u us Hu _ IH]; intros fuel pre suf depth Hd Hl Hf.
  - exists fuel. cbn. by rewrite app_nil_r.
  - change (uns_enc (u :: us)) with (un_enc u ++ uns_enc us) in *. rewrite <- (assoc_L (++) (un_enc u)) in *.
    destruct (Hu fuel pre (uns_enc us ++ suf) depth) as (f1&Hf1&->); [lia|done..|].
    rewrite (proj2 (Z.eqb_neq _ _)) by lia. rewrite (assoc_L (++) pre _ (_ ++ suf)) in Hl |- *.
    rewrite (assoc_L (++) pre _ (uns_enc us)). by apply IH.
Qed.

Lemma skips_group num body : is_field_num num → Forall (λ u, skips (un_enc u)) body → skips (un_enc (UGroup num body)).
Proof.
  intros Hn Hb fuel pre suf depth Hd Hl Hf. cbn [un_enc] in *. fold (uns_enc body) in *.
  destruct fuel as [|fuel]; [pose proof (llen_nonneg ((un_tag num 3 ++ uns_enc body ++ un_tag num 4) ++ suf)); lia|].
  pose proof (varint_pos (num * 8 + 3)) as H3. pose proof (varint_pos (num * 8 + 4)) as H4.
  fold (un_tag num 3) in H3. fold (un_tag num 4) in H4. pose proof (llen_nonneg suf). pose proof (llen_nonneg (uns_enc body)).
  rewrite <- !(assoc_L (++)) in *.
  pose proof (skip_round fuel num 3 pre [] (uns_enc body ++ un_tag num 4 ++ suf) depth (depth + 1)) as E. cbv zeta in E.
  rewrite !app_nil_r in E. rewrite E by (try done; cbn [app]; by rewrite <- ?(assoc_L (++))). clear E.
  rewrite (proj2 (Z.eqb_neq _ _)) by lia. rewrite !llen_app in Hf.
  destruct (skips_inner body Hb fuel (pre ++ un_tag num 3) (un_tag num 4 ++ suf) (depth + 1)) as (f1&Hf1&E1);
    [lia|by rewrite <- (assoc_L (++))|rewrite !llen_app; lia|].
  rewrite <- !(assoc_L (++)) in E1. rewrite E1. rewrite llen_app in Hf1. destruct f1 as [|f1]; [lia|].
  exists f1. split; [lia|].
  pose proof (skip_round f1 num 4 (pre ++ un_tag num 3 ++ uns_enc body) [] suf (depth + 1) depth) as E. cbv zeta in E.
  rewrite !app_nil_r in E. rewrite <- !(assoc_L (++)) in E. rewrite E; [done|done..|].
  unfold skip_field. cbn [Z.eqb Pos.eqb]. rewrite (proj2 (Z.eqb_neq _ _)) by lia. cbn [fail_if]. rewrite bind_Ok_l. do 2 f_equal. lia.
Qed.

Lemma un_skips u : un_wf u → skips (un_enc u).
Proof.
  revert u. fix REC 2. intros w [num v Hn Hv|num s Hn Hs|num s Hn Hs|num s Hn Hs|num body Hn Hb].
  - apply skips_simple; [done..|]. intros pre suf depth Hl. unfold skip_field. cbn [Z.eqb].
    by rewrite decodeVarint_ok, bind_Ok_l, llen_app by done.
  - apply skips_simple; [done..|]. intros pre suf depth Hl. unfold skip_field. cbn [Z.eqb Pos.eqb].
    rewrite !llen_app in *. pose proof (llen_nonneg pre). pose proof (llen_nonneg suf). rewrite i64_small by lia. by rewrite Hs.
  - apply skips_simple; [done..|]. intros pre suf depth Hl. unfold skip_field. cbn [Z.eqb Pos.eqb]. unfold delimited in *.
    rewrite !llen_app in *. pose proof (llen_nonneg pre). pose proof (llen_nonneg suf). pose proof (llen_nonneg s).
    pose proof (llen_nonneg (varint (llen s))). rewrite <- (assoc_L (++)), decodeVarint_ok, bind_Ok_l by (unfold is_u64; lia).
    rewrite (i64_small (llen s)), (proj2 (Z.ltb_ge _ _)) by lia. cbn [fail_if]. rewrite bind_Ok_l, i64_small by lia.
    do 2 f_equal. lia.
  - apply skips_simple; [done..|]. intros pre suf depth Hl. unfold skip_field. cbn [Z.eqb Pos.eqb].
    rewrite !llen_app in *. pose proof (llen_nonneg pre). pose proof (llen_nonneg suf). rewrite i64_small by lia. by rewrite Hs.
  - apply skips_group; [done|]. induction Hb as [|u us Hu _ IH]; constructor; auto.
Qed.

Lemma skip_unknown u suf : un_wf u → llen (un_enc u ++ suf) < 2 ^ 63 → skip (un_enc u ++ suf) = Ok (llen (un_enc u)).
Proof.
  intros Hu Hl. unfold skip. destruct (un_skips u Hu (S (length (un_enc u ++ suf))) [] suf 0) as (fuel&_&E); [lia|done|unfold llen; lia|].
  exact E.
Qed.

#[global] Instance file_skip_spec : SkipSpec skip.
Proof. split; [exact skip_unknown|exact skip_progress|exact skip_benign]. Qed.

(** ** Two sequences in one, each in its order *)
Inductive interleaves {A} : list A → list A → list A → Prop :=
| inter_nil : interleaves [] [] []
| inter_left x l k r : interleaves l k r → interleaves (x :: l) k (x :: r)
| inter_right x l k r : interleaves l k r → interleaves l (x :: k) (x :: r).

Lemma interleaves_left {A} (l : list A) : interleaves l [] l.
Proof. induction l; by constructor. Qed.
Lemma interleaves_app_right {A} (l k k' r : list A) : interleaves l k r → interleaves l (k' ++ k) (k' ++ r).
Proof. induction k'; [done|]. intros. by apply inter_right; auto. Qed.
Lemma interleaves_app {A} (l k : list A) : interleaves l k (l ++ k).
Proof. induction l; [induction k|]; by constructor. Qed.
Lemma interleaves_Forall {A} (P : A → Prop) l k r : interleaves l k r → Forall P l → Forall P k → Forall P r.
Proof. induction 1; [done|..]; intros Hl Hk; [inversion Hl|inversion Hk]; subst; constructor; auto. Qed.
(** The order is chosen on the images. *)
Lemma interleaves_fmap_inv {A B} (f : A → B) l k r :
  interleaves (f <$> l) (f <$> k) r → ∃ r', r = f <$> r' ∧ interleaves l k r'.
Proof.
  intros H. remember (f <$> l) as l' eqn:El. remember (f <$> k) as k' eqn:Ek. revert l k El Ek.
  induction H as [|x l' k' r H IH|x l' k' r H IH]; intros l k El Ek.
  - symmetry in El, Ek. apply fmap_nil_inv in El as ->. apply fmap_nil_inv in Ek as ->. exists []. by split; [|constructor].
  - symmetry in El. apply fmap_cons_inv in El as (y&l1&->&->&->). destruct (IH l1 k eq_refl Ek) as (r'&->&?).
    exists (y :: r'). by split; [|constructor].
  - symmetry in Ek. apply fmap_cons_inv in Ek as (y&k1&->&->&->). destruct (IH l k1 El eq_refl) as (r'&->&?).
    exists (y :: r'). by split; [|constructor].
Qed.

(** ** Messages: reading *)
Section reading.
Context {R : Type} (skipper : bytes → outcome Z) (keep : bytes → R → R) `{Hskip : !SkipSpec skipper}.
Implicit Types (fs fields : list (Field R)) (m : R).
Abbreviation loop := (unmarshal_loop skipper keep).

Lemma loop_item fields f (Sf : FieldSpec f) j m it fuel pre suf m0 :
  list_find (λ g, f_num g = f_num f) fields = Some (j, f) →
  fs_fits m → it ∈ fs_items m → llen (pre ++ tag_byte (f_num f) fs_wire :: it.1 ++ suf) < 2 ^ 63 →
  loop (S fuel) fields (pre ++ tag_byte (f_num f) fs_wire :: it.1 ++ suf) m0 (llen pre)
  = loop fuel fields (pre ++ tag_byte (f_num f) fs_wire :: it.1 ++ suf) (it.2 m0)
      (llen (pre ++ tag_byte (f_num f) fs_wire :: it.1)).
Proof.
  intros Hfind Hfit Hit Hl. pose proof (fs_num_range (f := f)). pose proof (fs_wire_range (f := f)). cbn [unmarshal_loop].
  rewrite (proj2 (Z.ltb_lt _ _)) by (rewrite llen_app, llen_cons; pose proof (llen_nonneg (it.1 ++ suf)); lia).
  rewrite decode_tag, bind_Ok_l by lia. rewrite land_7, Z.shiftr_div_pow2 by lia. change (2 ^ 3) with 8.
  rewrite (Z.add_comm (f_num f * 8)), Z_mod_plus_full, Z_div_plus_full, Z.mod_small, Z.div_small, Z.add_0_l by lia.
  rewrite i32_small by lia. rewrite (proj2 (Z.eqb_neq _ _)), (proj2 (Z.leb_gt _ _)) by lia. cbn [fail_if]. rewrite !bind_Ok_l, Hfind.
  rewrite (cons_middle _ pre), (assoc_L (++)) in Hl |- *.
  replace (llen pre + 1) with (llen (pre ++ [tag_byte (f_num f) fs_wire])) by (rewrite llen_app; done).
  rewrite (fs_get m it) by done. rewrite bind_Ok_l. f_equal. rewrite !llen_app, !llen_cons. change (llen []) with 0. lia.
Qed.

Lemma items_enc_cons num wire (it : item R) l : items_enc num wire (it :: l) = (tag_byte num wire :: it.1) ++ items_enc num wire l.
Proof. done. Qed.

(** A piece of the input that one round of the loop reads: its bytes with the tag, and its effect *)
Definition readable fields (p : item R) : Prop := 0 < llen p.1 ∧ ∀ fuel pre suf m0,
  llen (pre ++ p.1 ++ suf) < 2 ^ 63 →
  loop (S fuel) fields (pre ++ p.1 ++ suf) m0 (llen pre) = loop fuel fields (pre ++ p.1 ++ suf) (p.2 m0) (llen (pre ++ p.1)).

Definition pieces_enc (l : list (item R)) : bytes := concat (fst <$> l).

Lemma loop_end fields m fuel d : 0 < Z.of_nat fuel → loop fuel fields d m (llen d) = Ok m.
Proof. destruct fuel; [done|]. intros _. cbn [unmarshal_loop]. by rewrite Z.ltb_irrefl. Qed.

Lemma list_find_num fields f : NoDup (f_num <$> fields) → f ∈ fields →
  ∃ j, list_find (λ g, f_num g = f_num f) fields = Some (j, f).
Proof.
  intros Hnd [j Hj]%list_elem_of_lookup. exists j. apply list_find_Some. split_and!; [done..|].
  intros k g Hk Hlt E. assert (k = j); [|lia]. eapply (NoDup_lookup (f_num <$> fields)); [done|..];
    rewrite list_lookup_fmap; [by rewrite Hk|rewrite Hj; cbn; by rewrite E].
Qed.

Lemma loop_pieces fields l fuel pre m0 : Forall (readable fields) l →
  llen (pre ++ pieces_enc l) < 2 ^ 63 → llen (pieces_enc l) < Z.of_nat fuel →
  loop fuel fields (pre ++ pieces_enc l) m0 (llen pre) = Ok (items_apply l m0).
Proof.
  intros Hl. revert fuel pre m0. induction Hl as [|p l [Hp Hr] _ IH]; intros fuel pre m0 Hd Hf.
  - cbn. rewrite app_nil_r. by apply loop_end.
  - change (pieces_enc (p :: l)) with (p.1 ++ pieces_enc l) in *. rewrite llen_app in Hf. pose proof (llen_nonneg (pieces_enc l)).
    destruct fuel as [|fuel]; [lia|]. rewrite Hr by done. rewrite (assoc_L (++)) in Hd |- *. rewrite IH; [done|done|lia].
Qed.

(** The fields of a message that are set, one after the other *)
Fixpoint fields_items {fs} (Sp : FieldsSpec fs) m : list (item R) :=
  match Sp with
  | fields_nil => []
  | fields_cons f fs Sf Sp =>
    ((λ it, (tag_byte (f_num f) fs_wire :: it.1, it.2)) <$> fs_items m) ++ fields_items Sp m
  end.

Lemma fields_items_enc fs (Sp : FieldsSpec fs) m : pieces_enc (fields_items Sp m) = fields_enc Sp m.
Proof.
  unfold pieces_enc. induction Sp as [|f fs Sf Sp IH]; [done|]. cbn [fields_items fields_enc].
  rewrite fmap_app, concat_app, IH. f_equal. unfold items_enc. by rewrite <- list_fmap_compose.
Qed.

Lemma fields_items_apply fs (Sp : FieldsSpec fs) m m0 : items_apply (fields_items Sp m) m0 = fields_apply Sp m m0.
Proof.
  revert m0. induction Sp as [|f fs Sf Sp IH]; intros m0; [done|]. cbn [fields_items fields_apply].
  rewrite <- IH. unfold items_apply. rewrite foldl_app. f_equal. generalize (fs_items m). intros l. revert m0.
  induction l as [|it l IHl]; intros m0; [done|]. cbn. apply IHl.
Qed.

Lemma fields_items_readable fields fs (Sp : FieldsSpec fs) m :
  (∀ f, f ∈ fs → ∃ j, list_find (λ g, f_num g = f_num f) fields = Some (j, f)) →
  fields_fits Sp m → Forall (readable fields) (fields_items Sp m).
Proof.
  induction Sp as [|f fs Sf Sp IH]; intros Hfind Hfit; [constructor|]. cbn [fields_items fields_fits] in *. destruct Hfit as [Hf Hfs].
  apply Forall_app. split; [|apply IH; [|done]; intros g Hg; apply Hfind; by right].
  rewrite Forall_fmap. apply Forall_forall. intros it Hit. destruct (Hfind f (list_elem_of_here _ _)) as [j Hj].
  split; [cbn; rewrite llen_cons; pose proof (llen_nonneg it.1); lia|]. cbn [fst snd].
  intros fuel pre suf m0 Hl. by apply (loop_item fields f Sf j m it fuel pre suf m0).
Qed.

(** What is not known is kept as it is, with its tag. *)
Definition unknown_item (u : Unknown) : item R := (un_enc u, keep (un_enc u)).

Lemma unknown_readable fields u : un_ok fields u → readable fields (unknown_item u).
Proof.
  intros [Hu Hk]. split; [apply un_enc_pos|]. cbn [unknown_item fst snd]. intros fuel pre suf m0 Hl.
  pose proof (un_wf_num u Hu) as Hn. assert (0 ≤ un_wire u < 8) as Hw by (destruct u; cbn; lia). cbn [unmarshal_loop].
  pose proof (un_enc_pos u). pose proof (llen_nonneg pre). pose proof (llen_nonneg suf). rewrite !llen_app in Hl.
  rewrite (proj2 (Z.ltb_lt _ _)) by (rewrite !llen_app; lia).
  destruct (un_enc_tag u) as [s Es]. pose proof (decode_un_tag (un_num u) (un_wire u) pre (s ++ suf) Hn Hw) as E.
  rewrite (assoc_L (++) (un_tag _ _)), <- Es in E. rewrite E, bind_Ok_l, tag_wire, tag_num by done.
  unfold is_field_num in Hn. rewrite i32_small by lia.
  rewrite (proj2 (Z.eqb_neq _ _)), (proj2 (Z.leb_gt _ _)) by (destruct u; cbn in *; lia).
  cbn [fail_if]. rewrite !bind_Ok_l. replace (list_find _ fields) with (None : option (nat * Field R)).
  2: { symmetry. apply list_find_None, Forall_forall. intros f Hf Ef. apply Hk. rewrite <- Ef. by apply list_elem_of_fmap_2. }
  rewrite slice_from_ok, bind_Ok_l by (rewrite !llen_app; lia). rewrite drop_app_length' by (unfold llen; lia).
  rewrite sk_ok, bind_Ok_l by (done || rewrite llen_app; lia).
  rewrite !i64_small, !(proj2 (Z.ltb_ge _ _)) by (rewrite ?llen_app; lia). cbn [fail_if orb]. rewrite !bind_Ok_l.
  rewrite llen_app. by rewrite take_app_length' by (unfold llen; lia).
Qed.

(** The loop reads the fields of a message with unknown fields anywhere between them. *)
Lemma loop_reads fields (Sp : FieldsSpec fields) m m0 us l :
  NoDup (f_num <$> fields) → fields_fits Sp m → Forall (un_ok fields) us →
  interleaves (fields_items Sp m) (unknown_item <$> us) l → llen (pieces_enc l) < 2 ^ 63 →
  loop (S (length (pieces_enc l))) fields (pieces_enc l) m0 0 = Ok (items_apply l m0).
Proof.
  intros Hnd Hfit Hus Hi Hl. apply (loop_pieces fields l _ [] m0); [|done|unfold llen; lia].
  eapply interleaves_Forall; [exact Hi|apply fields_items_readable; [by intros; apply list_find_num|done]|].
  rewrite Forall_fmap. eapply Forall_impl; [exact Hus|]. apply unknown_readable.
Qed.

(** ** On any input [Unmarshal] ends, without a panic *)
Lemma unmarshal_loop_benign fields fuel dAtA m i :
  (∀ f, f ∈ fields → inhabited (FieldSpec f)) → 0 ≤ i → llen dAtA < 2 ^ 63 → llen dAtA - i < Z.of_nat fuel → (0 < fuel)%nat →
  benign (loop fuel fields dAtA m i).
Proof.
  intros HS. revert m i. induction fuel as [|fuel IH]; intros m i Hi Hd Hf H0; [lia|]. cbn [unmarshal_loop].
  destruct (i <? llen dAtA) eqn:E; [|apply benign_bind; auto with wire]. apply Z.ltb_lt in E.
  apply benign_bind; [auto with wire|]. intros [wire i1] Hw%decodeVarint_bounds.
  apply benign_bind; [auto with wire|]. intros _ _. apply benign_bind; [auto with wire|]. intros _ _.
  destruct (list_find _ fields) as [[j f]|] eqn:Ef.
  - apply list_find_Some in Ef as (Hj%list_elem_of_lookup_2&_). destruct (HS f Hj) as [Sf].
    apply benign_bind; [apply fs_benign; lia|]. intros [m' i2] Hb%fs_bounds; [|lia..]. apply IH; lia.
  - rewrite slice_from_ok, bind_Ok_l by lia.
    assert (llen (drop (Z.to_nat i) dAtA) ≤ llen dAtA) by (unfold llen; rewrite length_drop; lia).
    apply benign_bind; [apply sk_benign; lia|]. intros n Hn%sk_progress; [|lia].
    apply benign_bind; [auto with wire|]. intros _ _. apply benign_bind; [auto with wire|]. intros _ _. apply IH; lia.
Qed.

Lemma fields_inhabited fields (Sp : FieldsSpec fields) f : f ∈ fields → inhabited (FieldSpec f).
Proof. induction Sp; [by intros ?%not_elem_of_nil|]. intros [->|?]%elem_of_cons; auto. Qed.

Lemma loop_ends fields (Sp : FieldsSpec fields) m dAtA :
  llen dAtA < 2 ^ 63 → benign (loop (S (length dAtA)) fields dAtA m 0).
Proof. intros Hd. apply unmarshal_loop_benign; [by apply fields_inhabited|unfold llen in *; lia..]. Qed.
End reading.

(** ** [Unmarshal] *)
Section unmarshal.
Context {R : Type}.
Implicit Types (fields : list (Field R)) (m : R).

(** What is not known is dropped, wherever it is. *)
Lemma msg_Unmarshal_mixed fields (Sp : FieldsSpec fields) m m0 us l :
  NoDup (f_num <$> fields) → fields_fits Sp m → Forall (un_ok fields) us →
  interleaves (fst <$> fields_items Sp m) (un_enc <$> us) l → llen (concat l) < 2 ^ 63 →
  msg_Unmarshal fields m0 (concat l) = Ok (fields_apply Sp m m0).
Proof.
  intros Hnd Hfit Hus Hi Hl. unfold msg_Unmarshal.
  replace (un_enc <$> us) with (fst <$> (unknown_item (λ _ m, m) <$> us)) in Hi by (by rewrite <- list_fmap_compose).
  apply interleaves_fmap_inv in Hi as (l'&->&Hi). fold (pieces_enc l') in *.
  rewrite (loop_reads skip (λ _ m, m) fields Sp m m0 us l') by done. rewrite <- fields_items_apply. f_equal.
  clear -Hi. remember (unknown_item _ <$> us) as k eqn:Ek. revert us m0 Ek.
  induction Hi as [|p l k r _ IH|p l k r _ IH]; intros us m0 Ek; [done| |].
  - cbn. by eapply IH.
  - symmetry in Ek. apply fmap_cons_inv in Ek as (u&us'&->&->&->). cbn. by eapply IH.
Qed.

Lemma msg_Unmarshal_unknown fields (Sp : FieldsSpec fields) m m0 us1 us2 :
  NoDup (f_num <$> fields) → fields_fits Sp m → Forall (un_ok fields) us1 → Forall (un_ok fields) us2 →
  llen (uns_enc us1 ++ fields_enc Sp m ++ uns_enc us2) < 2 ^ 63 →
  msg_Unmarshal fields m0 (uns_enc us1 ++ fields_enc Sp m ++ uns_enc us2) = Ok (fields_apply Sp m m0).
Proof.
  intros Hnd Hfit H1 H2 Hl.
  assert (uns_enc us1 ++ fields_enc Sp m ++ uns_enc us2 =
    concat ((un_enc <$> us1) ++ (fst <$> fields_items Sp m) ++ (un_enc <$> us2))) as E.
  { rewrite !concat_app. by rewrite <- fields_items_enc. }
  rewrite E in *. eapply (msg_Unmarshal_mixed fields Sp m m0 (us1 ++ us2)); [done|done|by apply Forall_app| |done].
  rewrite fmap_app. apply interleaves_app_right, interleaves_app.
Qed.

Lemma msg_Unmarshal_enc fields (Sp : FieldsSpec fields) m m0 :
  NoDup (f_num <$> fields) → fields_fits Sp m → llen (fields_enc Sp m) < 2 ^ 63 →
  msg_Unmarshal fields m0 (fields_enc Sp m) = Ok (fields_apply Sp m m0).
Proof.
  intros Hnd Hfit Hl. pose proof (msg_Unmarshal_unknown fields Sp m m0 [] []) as H. cbn [uns_enc fmap list_fmap concat app] in H.
  rewrite app_nil_r in H. by apply H.
Qed.

Lemma msg_Unmarshal_benign fields (Sp : FieldsSpec fields) m dAtA :
  llen dAtA < 2 ^ 63 → benign (msg_Unmarshal fields m dAtA).
Proof. intros Hd. by apply (loop_ends skip _ fields Sp). Qed.
End unmarshal.

(** ** The kinds of fields meet their specifications *)

(** What the code of a message promises to the message it is embedded in: [mc_enc] is
    the encoding, [mc_merge] the effect of reading it onto a message. *)
Class MsgCodecSpec {T} (c : MsgCodec T) (zero : T) := mkMsgCodecSpec {
  mc_fits : T → Prop;
  mc_enc : T → bytes;
  mc_merge : T → T → T;
  mc_Size_ok t : mc_fits t → mc_Size c t = llen (mc_enc t);
  mc_Marshal_ok t dAtA : mc_fits t → llen (mc_enc t) ≤ llen dAtA → llen dAtA < 2 ^ 63 →
    ∃ junk, mc_MarshalToSizedBuffer c t dAtA = Ok (junk ++ mc_enc t, llen (mc_enc t)) ∧
      llen junk = llen dAtA - llen (mc_enc t);
  mc_Unmarshal_ok t t0 : mc_fits t → llen (mc_enc t) < 2 ^ 63 → mc_Unmarshal c t0 (mc_enc t) = Ok (mc_merge t t0);
  mc_restore t : mc_merge t zero = t;
  mc_Unmarshal_benign t0 s : llen s < 2 ^ 63 → benign (mc_Unmarshal c t0 s);
}.

(** A message type of this repository: its fields, with different numbers, are read back
    onto the zero value. *)
Class MsgSpec {T} (fields : list (Field T)) (zero : T) := mkMsgSpec {
  msg_fields : FieldsSpec fields;
  msg_nodup : NoDup (f_num <$> fields);
  msg_restore m : fields_apply msg_fields m zero = m;
}.

#[global] Program Instance msg_codec_spec {T} (fields : list (Field T)) zero `{Hm : !MsgSpec fields zero} :
    MsgCodecSpec (msg_codec fields) zero := {|
  mc_fits := fields_fits msg_fields; mc_enc := fields_enc msg_fields; mc_merge := fields_apply msg_fields |}.
Next Obligation. intros T fields zero Hm. apply msg_Size_ok. Qed.
Next Obligation. intros T fields zero Hm. apply msg_MarshalToSizedBuffer_ok. Qed.
Next Obligation. intros T fields zero Hm t t0 Hf Hl. apply msg_Unmarshal_enc; [apply msg_nodup|done..]. Qed.
Next Obligation. intros T fields zero Hm. apply msg_restore. Qed.
Next Obligation. intros T fields zero Hm t0 s. apply (msg_Unmarshal_benign fields msg_fields). Qed.

(** What the code of a custom type promises *)
Class CustomCodecSpec {T} (c : CustomCodec T) := mkCustomCodecSpec {
  cc_fits : T → Prop;
  cc_enc : T → bytes;
  cc_Size_ok t : cc_fits t → cc_Size c t = llen (cc_enc t);
  cc_MarshalTo_ok t dAtA : cc_fits t → llen (cc_enc t) ≤ llen dAtA →
    cc_MarshalTo c t dAtA = Ok (cc_enc t ++ drop (length (cc_enc t)) dAtA);
  cc_Unmarshal_ok t : cc_fits t → cc_Unmarshal c (cc_enc t) = Ok t;
  cc_Unmarshal_benign s : llen s < 2 ^ 63 → benign (cc_Unmarshal c s);
}.

Lemma expect_wire_bind {A} want w (k : outcome A) a : expect_wire want w ≫= (λ _, k) = Ok a → k = Ok a.
Proof. unfold expect_wire. rewrite fail_if_bind. naive_solver. Qed.

Lemma expect_wire_ok {A} want (k : unit → outcome A) : expect_wire want want ≫= k = k tt.
Proof. unfold expect_wire. by rewrite Z.eqb_refl. Qed.

Lemma delimited_length s : llen s < 2 ^ 63 → llen (delimited s) = sov (llen s) + llen s.
Proof. intros Hs. unfold delimited. rewrite llen_app, varint_length; [done|]. pose proof (llen_nonneg s). unfold is_u64. lia. Qed.

Lemma delimited_size `{!VarintCode, !VarintSpec} s : llen s < 2 ^ 63 → llen (delimited s) = vc_sov (llen s) + llen s.
Proof.
  intros Hs. unfold delimited. rewrite llen_app, vc_sov_ok; [done|]. pose proof (llen_nonneg s). unfold is_u64. lia.
Qed.

Lemma put_delimited_ok `{!VarintCode, !VarintSpec} num s b done :
  llen s < 2 ^ 63 → written b done → 1 + llen (delimited s) ≤ buf_i b →
  ∃ b', put_delimited num s b = Ok b' ∧ written b' ((tag_byte num 2 :: delimited s) ++ done) ∧
    buf_i b' = buf_i b - (1 + llen (delimited s)).
Proof.
  intros Hs Hw Hi. pose proof (llen_nonneg s). unfold delimited in *. rewrite llen_app in *. unfold put_delimited.
  assert (is_u64 (llen s)) as Hu by (unfold is_u64; lia). pose proof (llen_nonneg (varint (llen s))) as Hv.
  destruct (put_bytes_ok s b done) as (b1&->&Hw1&Hi1); [done|lia|]. rewrite bind_Ok_l.
  destruct (vc_encode_ok (llen s) b1 (s ++ done)) as (b2&->&Hw2&Hi2); [done..|lia|]. rewrite bind_Ok_l.
  destruct (put_byte_ok (num * 8 + 2) b2 (varint (llen s) ++ s ++ done)) as (b3&->&Hw3&Hi3); [done|lia|].
  exists b3. split_and!; [done| |lia]. cbn [app]. by rewrite <- (assoc_L (++)).
Qed.

Lemma put_message_ok {T} (sub : MsgCodec T) zero (Sp : MsgCodecSpec sub zero) num t b done :
  mc_fits t → llen (mc_enc t) < 2 ^ 63 → buf_i b < 2 ^ 63 →
  written b done → 1 + llen (delimited (mc_enc t)) ≤ buf_i b →
  ∃ b', put_message sub num t b = Ok b' ∧ written b' ((tag_byte num 2 :: delimited (mc_enc t)) ++ done) ∧
    buf_i b' = buf_i b - (1 + llen (delimited (mc_enc t))).
Proof.
  intros Hfit Hs Hb (junk&E&Ei) Hi. pose proof (llen_nonneg (mc_enc t)). pose proof (llen_nonneg done).
  rewrite delimited_length in * by done. unfold put_message. rewrite E, Ei in *.
  assert (is_u64 (llen (mc_enc t))) as Hu by (unfold is_u64; lia).
  pose proof (llen_nonneg (varint (llen (mc_enc t)))) as Hv. rewrite varint_length in Hv by done.
  rewrite slice_to_ok, bind_Ok_l by (rewrite llen_app; lia).
  rewrite take_app_length', drop_app_length' by (unfold llen; lia).
  destruct (mc_Marshal_ok t junk) as (j1&->&Hj); [done|lia|done|]. rewrite bind_Ok_l.
  destruct (encodeVarint_ok (llen (mc_enc t)) (mkBuf ((j1 ++ mc_enc t) ++ done) (llen junk - llen (mc_enc t)))
    (mc_enc t ++ done)) as (b2&->&Hw2&Hi2); [done| |cbn; lia|].
  { exists j1. by rewrite <- (assoc_L (++)). }
  rewrite bind_Ok_l. cbn [buf_i] in Hi2.
  destruct (put_byte_ok (num * 8 + 2) b2 (varint (llen (mc_enc t)) ++ mc_enc t ++ done)) as (b3&->&Hw3&Hi3); [done|lia|].
  exists b3. split_and!; [done| |lia]. unfold delimited. cbn [app]. by rewrite <- (assoc_L (++)).
Qed.

(** Elements written from the last to the first *)
Lemma put_items_ok {R X} num wire (put : X → Buf → outcome Buf) (it : X → item R) l b done :
  (∀ x b done, x ∈ l → written b done → 1 + llen (it x).1 ≤ buf_i b → buf_i b < 2 ^ 63 →
     ∃ b', put x b = Ok b' ∧ written b' ((tag_byte num wire :: (it x).1) ++ done) ∧ buf_i b' = buf_i b - (1 + llen (it x).1)) →
  written b done → llen (items_enc num wire (it <$> l)) ≤ buf_i b → buf_i b < 2 ^ 63 →
  ∃ b', fold_outcome (λ b x, put x b) b (reverse l) = Ok b' ∧ written b' (items_enc num wire (it <$> l) ++ done) ∧
    buf_i b' = buf_i b - llen (items_enc num wire (it <$> l)).
Proof.
  intros Hput Hw. revert b done Hw. induction l as [|x l IH]; intros b done Hw Hi Hb.
  - exists b. split_and!; [done..|]. unfold items_enc. cbn. change (llen []) with 0. lia.
  - cbn [fmap list_fmap] in *. rewrite items_enc_cons in *. cbn [app] in *. rewrite llen_cons, llen_app in *.
    pose proof (llen_nonneg (it x).1). pose proof (llen_nonneg (items_enc num wire (it <$> l))).
    destruct (IH (λ y b done Hy, Hput y b done (list_elem_of_further _ _ _ Hy)) b done Hw) as (b1&E1&Hw1&Hi1); [lia..|].
    destruct (Hput x b1 (items_enc num wire (it <$> l) ++ done)) as (b2&E2&Hw2&Hi2); [left|done|lia..|].
    exists b2. rewrite reverse_cons, fold_outcome_app, E1. cbn. rewrite E2. cbn in *. rewrite <- (assoc_L (++)). split_and!; [done..|lia].
Qed.

(** ** Specifications: strings *)
Section instances.
Context {R : Type}.

Lemma items_enc_one num wire (it : item R) : items_enc num wire [it] = tag_byte num wire :: it.1.
Proof. unfold items_enc. cbn. by rewrite app_nil_r. Qed.

Lemma read_string_bounds {A} want w d i (k : string → A) m' i' : 0 ≤ i → llen d < 2 ^ 63 →
  (_ ← expect_wire want w; '(s, j) ← readBytes d i; Ok (k (of_bytes s), j)) = Ok (m', i') → i ≤ i' ≤ llen d.
Proof.
  intros Hi Hd H%expect_wire_bind. apply bind_Ok in H as ([s j]&Hs%readBytes_bounds&[= <- <-]); [lia|done..].
Qed.

Lemma read_string_benign {A} want w d i (k : string → A) : 0 ≤ i → llen d < 2 ^ 63 →
  benign (_ ← expect_wire want w; '(s, j) ← readBytes d i; Ok (k (of_bytes s), j)).
Proof.
  intros Hi Hd. apply benign_bind; [apply benign_fail_if|]. intros _ _. apply benign_bind; [auto with wire|]. by intros [] _.
Qed.

#[global] Program Instance string_field_spec `{VC : !VarintCode, VS : !VarintSpec} num get set `{Hn : !FieldNum num} : FieldSpec (R := R) (string_field num get set) := {|
  fs_wire := 2;
  fs_fits m := slen (get m) < 2 ^ 63;
  fs_items m := if decide (get m = "") then [] else [(delimited (bytes_of (get m)), set (get m))] |}.
Next Obligation. done. Qed.
Next Obligation. auto. Qed.
Next Obligation.
  intros VC VS num get set Hn m Hf. cbn in *. case_decide as E; [by rewrite E|]. rewrite items_enc_one, llen_cons. cbn [fst].
  rewrite delimited_size, bytes_of_length by (by rewrite bytes_of_length).
  pose proof (slen_nonneg (get m)). pose proof (slen_ne_0 _ E). rewrite (proj2 (Z.ltb_lt _ _)) by lia. lia.
Qed.
Next Obligation.
  intros VC VS num get set Hn m b done Hf Hw Hi Hb. cbn in *. case_decide as E.
  - rewrite E. exists b. split_and!; [done..|]. change (llen _) with 0. lia.
  - pose proof (slen_nonneg (get m)). pose proof (slen_ne_0 _ E). rewrite (proj2 (Z.ltb_lt _ _)) by lia.
    rewrite items_enc_one, llen_cons in *. cbn [fst] in *. apply put_delimited_ok; [by rewrite bytes_of_length|done..].
Qed.
Next Obligation.
  intros VC VS num get set Hn m it pre suf m0 Hf Hit Hl. cbn in *. case_decide; [by apply not_elem_of_nil in Hit|].
  apply list_elem_of_singleton in Hit as ->. cbn [fst snd] in *. rewrite expect_wire_ok, readBytes_ok by done. cbn. by rewrite of_bytes_of.
Qed.
Next Obligation. intros VC VS num get set Hn w d i m m' i' [Hi _] Hd. apply (read_string_bounds 2 w d i (λ s, set s m)); done. Qed.
Next Obligation. intros VC VS num get set Hn w d i m Hi Hd. by apply (read_string_benign 2 w d i (λ s, set s m)). Qed.

#[global] Program Instance strings_field_spec `{VC : !VarintCode, VS : !VarintSpec} num get set `{Hn : !FieldNum num} : FieldSpec (R := R) (strings_field num get set) := {|
  fs_wire := 2;
  fs_fits m := Forall (λ s, slen s < 2 ^ 63) (get m);
  fs_items m := (λ s, (delimited (bytes_of s), λ m0, set (get m0 ++ [s]) m0)) <$> get m |}.
Next Obligation. done. Qed.
Next Obligation. auto. Qed.
Next Obligation.
  intros VC VS num get set Hn m Hf. cbn in *. revert Hf. generalize (get m). induction 1 as [|s l Hs Hl IH]; [done|]. cbn [sumZ].
  rewrite fmap_cons, items_enc_cons, llen_app, llen_cons, IH. cbn [fst].
  rewrite delimited_size, bytes_of_length by (by rewrite bytes_of_length). lia.
Qed.
Next Obligation.
  intros VC VS num get set Hn m b done Hf Hw Hi Hb. cbn in *.
  apply (put_items_ok num 2 (λ s, put_delimited num (bytes_of s)) (λ s, (delimited (bytes_of s), λ m0, set (get m0 ++ [s]) m0))); [|done..].
  intros s b0 done0 Hs Hw0 Hi0 Hb0. rewrite Forall_forall in Hf. apply put_delimited_ok; [rewrite bytes_of_length; by apply Hf|done..].
Qed.
Next Obligation.
  intros VC VS num get set Hn m it pre suf m0 Hf Hit Hl. cbn in *. apply list_elem_of_fmap in Hit as (s&->&Hs). cbn [fst snd] in *.
  rewrite expect_wire_ok, readBytes_ok by done. cbn. by rewrite of_bytes_of.
Qed.
Next Obligation. intros VC VS num get set Hn w d i m m' i' [Hi _] Hd. apply (read_string_bounds 2 w d i (λ s, set (get m ++ [s]) m)); done. Qed.
Next Obligation. intros VC VS num get set Hn w d i m Hi Hd. by apply (read_string_benign 2 w d i (λ s, set (get m ++ [s]) m)). Qed.

(** ** Specifications: integers and booleans *)
Lemma read_int_bounds {A} want w d i (k : Z → A) m' i' : 0 ≤ i →
  (_ ← expect_wire want w; '(v, j) ← decodeVarint d i; Ok (k v, j)) = Ok (m', i') → i ≤ i' ≤ llen d.
Proof. intros Hi H%expect_wire_bind. apply bind_Ok in H as ([s j]&Hs%decodeVarint_bounds&[= <- <-]). lia. Qed.

Lemma read_int_benign {A} want w d i (k : Z → A) : 0 ≤ i →
  benign (_ ← expect_wire want w; '(v, j) ← decodeVarint d i; Ok (k v, j)).
Proof.
  intros Hi. apply benign_bind; [apply benign_fail_if|]. intros _ _. apply benign_bind; [auto with wire|]. by intros [] _.
Qed.

#[global] Program Instance int_field_spec `{VC : !VarintCode, VS : !VarintSpec} conv num get set `{Hn : !FieldNum num} : FieldSpec (R := R) (int_field conv num get set) := {|
  fs_wire := 0;
  fs_fits m := conv (u64 (get m)) = get m;
  fs_items m := if decide (get m = 0) then [] else [(varint (u64 (get m)), set (get m))] |}.
Next Obligation. done. Qed.
Next Obligation. auto. Qed.
Next Obligation.
  intros VC VS conv num get set Hn m Hf. cbn in *. case_decide as E; [by rewrite E|]. rewrite (proj2 (Z.eqb_neq _ _)) by done.
  rewrite items_enc_one, llen_cons. cbn [fst]. by rewrite vc_sov_ok by apply u64_range.
Qed.
Next Obligation.
  intros VC VS conv num get set Hn m b done Hf Hw Hi Hb. cbn in *. case_decide as E.
  - rewrite E. exists b. split_and!; [done..|]. change (llen _) with 0. lia.
  - rewrite (proj2 (Z.eqb_neq _ _)) by done. rewrite items_enc_one, llen_cons in *. cbn [fst] in *.
    pose proof (u64_range (get m)) as Hu. pose proof (llen_nonneg (varint (u64 (get m)))).
    destruct (vc_encode_ok (u64 (get m)) b done) as (b1&->&Hw1&Hi1); [done..|lia|]. rewrite bind_Ok_l.
    destruct (put_byte_ok (num * 8) b1 (varint (u64 (get m)) ++ done)) as (b2&->&Hw2&Hi2); [done|lia|].
    exists b2. split_and!; [done| |lia]. unfold tag_byte. by rewrite Z.add_0_r.
Qed.
Next Obligation.
  intros VC VS conv num get set Hn m it pre suf m0 Hf Hit Hl. cbn in *. case_decide; [by apply not_elem_of_nil in Hit|].
  apply list_elem_of_singleton in Hit as ->. cbn [fst snd] in *. rewrite expect_wire_ok, decodeVarint_ok by apply u64_range.
  cbn. by rewrite Hf.
Qed.
Next Obligation. intros VC VS conv num get set Hn w d i m m' i' [Hi _] Hd. apply (read_int_bounds 0 w d i (λ v, set (conv v) m)); done. Qed.
Next Obligation. intros VC VS conv num get set Hn w d i m Hi Hd. by apply (read_int_benign 0 w d i (λ v, set (conv v) m)). Qed.

#[global] Program Instance bool_field_spec num get set `{Hn : !FieldNum num} : FieldSpec (R := R) (bool_field num get set) := {|
  fs_wire := 0;
  fs_fits m := True;
  fs_items m := if get m then [(varint 1, set true)] else [] |}.
Next Obligation. done. Qed.
Next Obligation. auto. Qed.
Next Obligation. intros num get set Hn m Hf. cbn. by destruct (get m). Qed.
Next Obligation.
  intros num get set Hn m b done Hf Hw Hi Hb. cbn in *. destruct (get m); [|exists b; split_and!; [done..|]; change (llen _) with 0; lia].
  rewrite items_enc_one, llen_cons in *. cbn [fst] in *. change (llen (varint 1)) with 1 in *.
  destruct (put_byte_ok 1 b done) as (b1&->&Hw1&Hi1); [done|lia|]. rewrite bind_Ok_l.
  destruct (put_byte_ok (num * 8) b1 (byte_of 1 :: done)) as (b2&->&Hw2&Hi2); [done|lia|].
  exists b2. split_and!; [done| |lia]. unfold tag_byte. by rewrite Z.add_0_r.
Qed.
Next Obligation.
  intros num get set Hn m it pre suf m0 Hf Hit Hl. cbn in *. destruct (get m); [|by apply not_elem_of_nil in Hit].
  apply list_elem_of_singleton in Hit as ->. cbn [fst snd] in *. by rewrite expect_wire_ok, decodeVarint_ok by done.
Qed.
Next Obligation. intros num get set Hn w d i m m' i' [Hi _] Hd. apply (read_int_bounds 0 w d i (λ v, set (negb (v =? 0)) m)); done. Qed.
Next Obligation. intros num get set Hn w d i m Hi Hd. by apply (read_int_benign 0 w d i (λ v, set (negb (v =? 0)) m)). Qed.
(** ** Specifications: embedded messages *)
Section embedded.
Context {T : Type} (sub : MsgCodec T) (zero : T) `{Hsub : !MsgCodecSpec sub zero}.

Definition sub_enc (t : T) : bytes := delimited (mc_enc t).
Definition sub_fits (t : T) : Prop := mc_fits t ∧ llen (mc_enc t) < 2 ^ 63.

Lemma message_size_ok t : sub_fits t → message_size sub t = 1 + llen (sub_enc t).
Proof.
  intros [Hf Hl]. unfold message_size, sub_enc. rewrite mc_Size_ok by done.
  rewrite delimited_length by done. lia.
Qed.

Lemma read_message_ok {A} pre t suf t0 (k : T → A) : sub_fits t → llen (pre ++ sub_enc t ++ suf) < 2 ^ 63 →
  (_ ← expect_wire 2 2; '(s, j) ← readBytes (pre ++ sub_enc t ++ suf) (llen pre); t ← mc_Unmarshal sub t0 s; Ok (k t, j))
  = Ok (k (mc_merge t t0), llen pre + llen (sub_enc t)).
Proof.
  intros [Hf Hl] Hd. unfold sub_enc in *. rewrite expect_wire_ok, readBytes_ok, bind_Ok_l by done.
  by rewrite mc_Unmarshal_ok.
Qed.

Lemma read_message_bounds {A} w d i t0 (k : T → A) m' i' : 0 ≤ i → llen d < 2 ^ 63 →
  (_ ← expect_wire 2 w; '(s, j) ← readBytes d i; t ← mc_Unmarshal sub t0 s; Ok (k t, j)) = Ok (m', i') → i ≤ i' ≤ llen d.
Proof.
  intros Hi Hd H%expect_wire_bind. apply bind_Ok in H as ([s j]&Hs%readBytes_bounds&H); [|done..].
  apply bind_Ok in H as (t&_&[= <- <-]). lia.
Qed.

Lemma read_message_benign {A} w d i t0 (k : T → A) : 0 ≤ i → llen d < 2 ^ 63 →
  benign (_ ← expect_wire 2 w; '(s, j) ← readBytes d i; t ← mc_Unmarshal sub t0 s; Ok (k t, j)).
Proof.
  intros Hi Hd. apply benign_bind; [apply benign_fail_if|]. intros _ _. apply benign_bind; [auto with wire|].
  intros [s j] Hs%readBytes_bounds; [|done..]. apply benign_bind; [apply mc_Unmarshal_benign; lia|]. done.
Qed.

#[global] Program Instance message_field_spec num get set `{Hn : !FieldNum num} : FieldSpec (R := R) (message_field sub num get set) := {|
  fs_wire := 2;
  fs_fits m := sub_fits (get m);
  fs_items m := [(sub_enc (get m), λ m0, set (mc_merge (get m) (get m0)) m0)] |}.
Next Obligation. done. Qed.
Next Obligation. auto. Qed.
Next Obligation. intros num get set Hn m Hf. cbn in *. by rewrite items_enc_one, llen_cons, message_size_ok. Qed.
Next Obligation.
  intros num get set Hn m b done [Hf Hl] Hw Hi Hb. cbn in *. rewrite items_enc_one, llen_cons in *. cbn [fst] in *.
  by eapply put_message_ok.
Qed.
Next Obligation.
  intros num get set Hn m it pre suf m0 Hf Hit Hl. cbn in *. apply list_elem_of_singleton in Hit as ->. cbn [fst snd] in *.
  by apply (read_message_ok pre (get m) suf (get m0) (λ t, set t m0)).
Qed.
Next Obligation. intros num get set Hn w d i m m' i' [Hi _] Hd. by apply (read_message_bounds w d i (get m) (λ t, set t m)). Qed.
Next Obligation. intros num get set Hn w d i m Hi Hd. by apply (read_message_benign w d i (get m) (λ t, set t m)). Qed.

#[global] Program Instance pointer_field_spec num get set `{Hn : !FieldNum num} : FieldSpec (R := R) (pointer_field sub zero num get set) := {|
  fs_wire := 2;
  fs_fits m := from_option sub_fits True (get m);
  fs_items m := match get m with
                | Some t => [(sub_enc t, λ m0, set (Some (mc_merge t (default zero (get m0)))) m0)]
                | None => [] end |}.
Next Obligation. done. Qed.
Next Obligation. auto. Qed.
Next Obligation.
  intros num get set Hn m Hf. cbn in *. destruct (get m); [|done]. by rewrite items_enc_one, llen_cons, message_size_ok.
Qed.
Next Obligation.
  intros num get set Hn m b done Hf Hw Hi Hb. cbn in *. destruct (get m) as [t|].
  - destruct Hf as [Hf Hl]. rewrite items_enc_one, llen_cons in *. cbn [fst] in *. by eapply put_message_ok.
  - exists b. split_and!; [done..|]. change (llen _) with 0. lia.
Qed.
Next Obligation.
  intros num get set Hn m it pre suf m0 Hf Hit Hl. cbn in *. destruct (get m) as [t|]; [|by apply not_elem_of_nil in Hit].
  apply list_elem_of_singleton in Hit as ->. cbn [fst snd] in *.
  by apply (read_message_ok pre t suf (default zero (get m0)) (λ t, set (Some t) m0)).
Qed.
Next Obligation.
  intros num get set Hn w d i m m' i' [Hi _] Hd. by apply (read_message_bounds w d i (default zero (get m)) (λ t, set (Some t) m)).
Qed.
Next Obligation.
  intros num get set Hn w d i m Hi Hd. by apply (read_message_benign w d i (default zero (get m)) (λ t, set (Some t) m)).
Qed.

#[global] Program Instance messages_field_spec num get set `{Hn : !FieldNum num} : FieldSpec (R := R) (messages_field sub zero num get set) := {|
  fs_wire := 2;
  fs_fits m := Forall sub_fits (get m);
  fs_items m := (λ t, (sub_enc t, λ m0, set (get m0 ++ [t]) m0)) <$> get m |}.
Next Obligation. done. Qed.
Next Obligation. auto. Qed.
Next Obligation.
  intros num get set Hn m Hf. cbn in *. revert Hf. generalize (get m). induction 1 as [|t l Ht Hl IH]; [done|]. cbn [sumZ].
  rewrite fmap_cons, items_enc_cons, llen_app, llen_cons, IH. cbn [fst]. by rewrite message_size_ok.
Qed.
Next Obligation.
  intros num get set Hn m b done Hf Hw Hi Hb. cbn in *.
  apply (put_items_ok num 2 (put_message sub num) (λ t, (sub_enc t, λ m0, set (get m0 ++ [t]) m0))); [|done..].
  intros t b0 done0 Ht Hw0 Hi0 Hb0. rewrite Forall_forall in Hf. destruct (Hf t Ht). by eapply put_message_ok.
Qed.
Next Obligation.
  intros num get set Hn m it pre suf m0 Hf Hit Hl. cbn in *. apply list_elem_of_fmap in Hit as (t&->&Ht). cbn [fst snd] in *.
  rewrite Forall_forall in Hf. pose proof (read_message_ok pre t suf zero (λ t, set (get m0 ++ [t]) m0) (Hf t Ht) Hl) as E.
  rewrite mc_restore in E. exact E.
Qed.
Next Obligation.
  intros num get set Hn w d i m m' i' [Hi _] Hd. by apply (read_message_bounds w d i zero (λ t, set (get m ++ [t]) m)).
Qed.
Next Obligation.
  intros num get set Hn w d i m Hi Hd. by apply (read_message_benign w d i zero (λ t, set (get m ++ [t]) m)).
Qed.
End embedded.

(** ** Specifications: custom types *)
Section custom.
Context {T : Type} (sub : CustomCodec T) `{Hsub : !CustomCodecSpec sub}.

Definition custom_fits (t : T) : Prop := cc_fits t ∧ llen (cc_enc t) < 2 ^ 63.

Lemma put_custom_ok num t b done : custom_fits t → written b done → 1 + llen (delimited (cc_enc t)) ≤ buf_i b →
  ∃ b', put_custom sub num t b = Ok b' ∧ written b' ((tag_byte num 2 :: delimited (cc_enc t)) ++ done) ∧
    buf_i b' = buf_i b - (1 + llen (delimited (cc_enc t))).
Proof.
  intros [Hfit Hs] (junk&E&Ei) Hi. pose proof (llen_nonneg (cc_enc t)). pose proof (llen_nonneg done).
  rewrite delimited_length in * by done. unfold put_custom. rewrite cc_Size_ok, E, Ei in * by done.
  assert (is_u64 (llen (cc_enc t))) as Hu by (unfold is_u64; lia).
  pose proof (llen_nonneg (varint (llen (cc_enc t)))) as Hv. rewrite varint_length in Hv by done.
  destruct (llen_split junk (llen (cc_enc t))) as (j1&j2&->&H2&H1); [lia|]. rewrite <- H1, <- (assoc_L (++)) in *.
  pose proof (llen_nonneg j1). rewrite slice_from_ok, bind_Ok_l by (rewrite !llen_app; lia).
  rewrite drop_app_length', take_app_length' by (unfold llen; lia).
  rewrite cc_MarshalTo_ok, bind_Ok_l by (done || (rewrite llen_app; lia)).
  rewrite drop_app_length' by (unfold llen in *; lia).
  destruct (encodeVarint_ok (llen (cc_enc t)) (mkBuf (j1 ++ cc_enc t ++ done) (llen j1)) (cc_enc t ++ done))
    as (b2&->&Hw2&Hi2); [done|by exists j1|cbn; lia|]. rewrite bind_Ok_l. cbn [buf_i] in Hi2.
  destruct (put_byte_ok (num * 8 + 2) b2 (varint (llen (cc_enc t)) ++ cc_enc t ++ done)) as (b3&->&Hw3&Hi3); [done|lia|].
  exists b3. split_and!; [done| |lia]. unfold delimited. cbn [app]. by rewrite <- (assoc_L (++)).
Qed.

#[global] Program Instance custom_field_spec num get set `{Hn : !FieldNum num} : FieldSpec (R := R) (custom_field sub num get set) := {|
  fs_wire := 2;
  fs_fits m := custom_fits (get m);
  fs_items m := [(delimited (cc_enc (get m)), set (get m))] |}.
Next Obligation. done. Qed.
Next Obligation. auto. Qed.
Next Obligation.
  intros num get set Hn m [Hf Hl]. cbn. rewrite items_enc_one, llen_cons. cbn [fst]. rewrite cc_Size_ok, delimited_length by done. lia.
Qed.
Next Obligation.
  intros num get set Hn m b done Hf Hw Hi Hb. cbn in *. rewrite items_enc_one, llen_cons in *. cbn [fst] in *. by apply put_custom_ok.
Qed.
Next Obligation.
  intros num get set Hn m it pre suf m0 [Hf Hl'] Hit Hl. cbn in *. apply list_elem_of_singleton in Hit as ->. cbn [fst snd] in *.
  rewrite expect_wire_ok, readBytes_ok, bind_Ok_l by done. by rewrite cc_Unmarshal_ok.
Qed.
Next Obligation.
  intros num get set Hn w d i m m' i' [Hi _] Hd H%expect_wire_bind. apply bind_Ok in H as ([s j]&Hs%readBytes_bounds&H); [|done..].
  apply bind_Ok in H as (t&_&[= <- <-]). lia.
Qed.
Next Obligation.
  intros num get set Hn w d i m Hi Hd. apply benign_bind; [apply benign_fail_if|]. intros _ _. apply benign_bind; [auto with wire|].
  intros [s j] Hs%readBytes_bounds; [|done..]. apply benign_bind; [apply cc_Unmarshal_benign; lia|]. done.
Qed.
End custom.
End instances.

(** ** Reading a field back onto a value that does not have it yet *)
Section restore.
Context {R : Type} (m m0 : R).

Lemma string_restore `{!VarintCode, !VarintSpec} num get set `{!FieldNum num} : set "" m0 = m0 →
  items_apply (fs_items (FieldSpec := string_field_spec num get set) m) m0 = set (get m) m0.
Proof. intros E. cbn. case_decide as Em; [by rewrite Em, E|done]. Qed.

Lemma int_restore `{!VarintCode, !VarintSpec} conv num get set `{!FieldNum num} : set 0 m0 = m0 →
  items_apply (fs_items (FieldSpec := int_field_spec conv num get set) m) m0 = set (get m) m0.
Proof. intros E. cbn. case_decide as Em; [by rewrite Em, E|done]. Qed.

Lemma bool_restore num get set `{!FieldNum num} : set false m0 = m0 →
  items_apply (fs_items (FieldSpec := bool_field_spec num get set) m) m0 = set (get m) m0.
Proof. intros E. cbn. by destruct (get m). Qed.

(** Appending the elements one by one *)
Lemma append_all {X} (enc : X → bytes) (get : R → list X) (set : list X → R → R) l acc :
  (∀ k x, get (set k x) = k) → (∀ k k' x, set k (set k' x) = set k x) →
  items_apply ((λ x, (enc x, λ r, set (get r ++ [x]) r)) <$> l) (set acc m0) = set (acc ++ l) m0.
Proof.
  intros Hg Hs. revert acc. induction l as [|x l IH]; intros acc; [by rewrite app_nil_r|].
  unfold items_apply in *. cbn [fmap list_fmap foldl snd]. rewrite Hg, Hs, IH. by rewrite <- (assoc_L (++)).
Qed.

Lemma strings_restore `{!VarintCode, !VarintSpec} num get set `{!FieldNum num} :
  set [] m0 = m0 → (∀ k x, get (set k x) = k) → (∀ k k' x, set k (set k' x) = set k x) →
  items_apply (fs_items (FieldSpec := strings_field_spec num get set) m) m0 = set (get m) m0.
Proof. intros E Hg Hs. cbn [fs_items strings_field_spec]. rewrite <- E at 1. by rewrite append_all. Qed.

Section sub.
Context {T : Type} (sub : MsgCodec T) (zero : T) `{!MsgCodecSpec sub zero}.

Lemma message_restore num get set `{!FieldNum num} : get m0 = zero →
  items_apply (fs_items (FieldSpec := message_field_spec sub zero num get set) m) m0 = set (get m) m0.
Proof. intros E. cbn. by rewrite E, mc_restore. Qed.

Lemma pointer_restore num get set `{!FieldNum num} : get m0 = None → set None m0 = m0 →
  items_apply (fs_items (FieldSpec := pointer_field_spec sub zero num get set) m) m0 = set (get m) m0.
Proof. intros E E'. cbn. destruct (get m); [|done]. cbn. by rewrite E, mc_restore. Qed.

Lemma messages_restore num get set `{!FieldNum num} :
  set [] m0 = m0 → (∀ k x, get (set k x) = k) → (∀ k k' x, set k (set k' x) = set k x) →
  items_apply (fs_items (FieldSpec := messages_field_spec sub zero num get set) m) m0 = set (get m) m0.
Proof. intros E Hg Hs. cbn [fs_items messages_field_spec]. rewrite <- E at 1. by rewrite append_all. Qed.
End sub.

Lemma custom_restore {T} (sub : CustomCodec T) `{!CustomCodecSpec sub} num get set `{!FieldNum num} :
  items_apply (fs_items (FieldSpec := custom_field_spec sub num get set) m) m0 = set (get m) m0.
Proof. done. Qed.
End restore.
(** The obligations of a message type: the fields are read back from the first to the last. *)
Ltac restore_field :=
  match goal with
  | |- context [items_apply ?l ?m0] =>
    lazymatch m0 with context [items_apply] => fail | _ => idtac end;
    let E := fresh in
    eassert (items_apply l m0 = _) as E by (first [eapply string_restore|eapply int_restore|eapply bool_restore|eapply strings_restore
      |eapply message_restore|eapply pointer_restore|eapply messages_restore|eapply custom_restore]; intros; reflexivity);
    lazymatch type of E with _ = ?r => let r' := eval cbn in r in rewrite (E : _ = r') end; clear E
  end.
Ltac msg_spec :=
  refine (mkMsgSpec _ _ _ _ _ _);
  [ by apply (bool_decide_unpack _); vm_compute
  | intros []; cbn [fields_apply]; repeat restore_field; reflexivity ].

(** ** Message types *)
#[global] Arguments msg_Size : simpl never.
#[global] Arguments msg_MarshalToSizedBuffer : simpl never.
#[global] Arguments msg_Marshal : simpl never.
#[global] Arguments msg_Unmarshal : simpl never.

(** The generated methods of a message type, with the messages that can be encoded and
    the numbers of the fields *)
Record Message := mkMessage {
  mt_type : Type;
  mt_zero : mt_type;
  mt_Size : mt_type → Z;
  mt_MarshalToSizedBuffer : mt_type → bytes → outcome (bytes * Z);
  mt_Marshal : mt_type → outcome bytes;
  mt_Unmarshal : mt_type → bytes → outcome mt_type;
  mt_encodable : mt_type → Prop;
  mt_fields : list (Field mt_type);
}.
Arguments mkMessage {_}.

(** Size, writing and reading agree: the buffer that [Marshal] makes is filled exactly, a
    larger one at its end, and the bytes are read back. *)
Definition roundtrips (M : Message) : Prop := ∀ m, mt_encodable M m →
  ∃ dAtA, mt_Marshal M m = Ok dAtA ∧ mt_Size M m = llen dAtA ∧ mt_Unmarshal M (mt_zero M) dAtA = Ok m ∧
    ∀ buf, llen dAtA ≤ llen buf → llen buf < 2 ^ 63 →
      ∃ junk, mt_MarshalToSizedBuffer M m buf = Ok (junk ++ dAtA, llen dAtA) ∧ llen junk + llen dAtA = llen buf.

(** Arbitrary bytes: a message or an error, never a panic, and the loop ends. *)
Definition decodes_any (M : Message) : Prop := ∀ m0 dAtA, llen dAtA < 2 ^ 63 →
  (∃ m, mt_Unmarshal M m0 dAtA = Ok m) ∨ (∃ e, mt_Unmarshal M m0 dAtA = Err e ∧ e ≠ ErrOutOfFuel).

(** Fields of a later version, before and behind the known ones, are skipped. *)
Definition skips_unknown (M : Message) : Prop := ∀ m us1 us2 dAtA, mt_encodable M m → mt_Marshal M m = Ok dAtA →
  Forall (un_ok (mt_fields M)) us1 → Forall (un_ok (mt_fields M)) us2 → llen (uns_enc us1 ++ dAtA ++ uns_enc us2) < 2 ^ 63 →
  mt_Unmarshal M (mt_zero M) (uns_enc us1 ++ dAtA ++ uns_enc us2) = Ok m.

Record message_ok (M : Message) : Prop := mkMessageOk {
  ok_roundtrips : roundtrips M;
  ok_decodes_any : decodes_any M;
  ok_skips_unknown : skips_unknown M;
}.

Section theorems.
Context {R : Type} (fields : list (Field R)) (zero : R) `{Hm : !MsgSpec fields zero}.

(** A message whose integers are in range and whose encoding has a Go length *)
Definition encodable (m : R) : Prop := fields_fits msg_fields m ∧ llen (fields_enc msg_fields m) < 2 ^ 63.

Definition message : Message :=
  mkMessage zero (msg_Size fields) (msg_MarshalToSizedBuffer fields) (msg_Marshal fields) (msg_Unmarshal fields) encodable fields.

Lemma msg_roundtrips : roundtrips message.
Proof.
  intros m [Hf Hl]. exists (fields_enc msg_fields m). split_and!.
  - by apply msg_Marshal_ok.
  - by apply msg_Size_ok.
  - cbn. rewrite msg_Unmarshal_enc by (done || apply msg_nodup). by rewrite msg_restore.
  - intros buf Hb Hb'. destruct (msg_MarshalToSizedBuffer_ok fields msg_fields m buf Hf Hb Hb') as (junk&E&Hj).
    exists junk. split; [done|]. rewrite Hj. apply Z.sub_add.
Qed.

Lemma msg_decodes_any : decodes_any message.
Proof.
  intros m0 dAtA Hd. destruct (msg_Unmarshal_benign fields msg_fields m0 dAtA Hd) as [Hp He]. cbn.
  destruct (msg_Unmarshal fields m0 dAtA) as [m|e|]; [eauto|right; exists e; split; congruence|done].
Qed.

Lemma msg_no_panic {A} m0 dAtA (k : R → A) : llen dAtA < 2 ^ 63 → (m ← msg_Unmarshal fields m0 dAtA; Ok (k m)) ≠ Panic.
Proof.
  intros Hd. destruct (msg_Unmarshal_benign fields msg_fields m0 dAtA Hd) as [Hp _].
  by destruct (msg_Unmarshal fields m0 dAtA).
Qed.

Lemma msg_skips_unknown : skips_unknown message.
Proof.
  intros m us1 us2 dAtA [Hf Hl] E H1 H2 Hd. cbn in E. rewrite (msg_Marshal_ok fields msg_fields) in E by done.
  injection E as <-. cbn. rewrite msg_Unmarshal_unknown by (done || apply msg_nodup). by rewrite msg_restore.
Qed.

Lemma message_is_ok : message_ok message.
Proof. split; [apply msg_roundtrips|apply msg_decodes_any|apply msg_skips_unknown]. Qed.
End theorems.

(** For a list of message types, each of them given by its fields *)
Ltac messages_ok := repeat first [apply List.Forall_nil|apply List.Forall_cons; [apply message_is_ok|]].

(** ** Messages of strings *)

(** The size of the encoding bounds what such a field holds. *)
Class SizeFits {R} (f : Field R) `{!FieldSpec f} :=
  size_fits m : 0 ≤ f_size f m ∧ (f_size f m < 2 ^ 63 → fs_fits m).
Class AllSizeFit {R} {fields : list (Field R)} (Sp : FieldsSpec fields) :=
  all_size_fit m : 0 ≤ msg_Size fields m ∧ (msg_Size fields m < 2 ^ 63 → fields_fits Sp m).

Lemma sov_pos l : 0 ≤ l → 0 ≤ sov l.
Proof.
  intros Hl. unfold sov, bits_Len64. apply Z.div_pos; [|lia].
  pose proof (Z.log2_nonneg (Z.lor l 1)). destruct (_ =? 0); lia.
Qed.

#[global] Instance string_size_fits {R} num get set `{!FieldNum num} : SizeFits (R := R) (string_field num get set).
Proof.
  intros m. cbn. pose proof (slen_nonneg (get m)). pose proof (sov_pos (slen (get m))).
  destruct (0 <? slen (get m)) eqn:E; [apply Z.ltb_lt in E|apply Z.ltb_ge in E]; lia.
Qed.
#[global] Instance nil_size_fit {R} : AllSizeFit (R := R) fields_nil.
Proof. done. Qed.
#[global] Instance cons_size_fit {R} f (fs : list (Field R)) (Sf : FieldSpec f) (Sp : FieldsSpec fs) `{!SizeFits f, !AllSizeFit Sp} :
  AllSizeFit (fields_cons f fs Sf Sp).
Proof.
  intros m. unfold msg_Size. cbn [sumZ fields_fits]. destruct (size_fits (f := f) m). destruct (all_size_fit (Sp := Sp) m).
  fold (msg_Size fs m). split; [lia|]. intros Hl. split; auto with lia.
Qed.

Ltac strings_only := repeat first [apply nil_size_fit|apply cons_size_fit; [apply string_size_fits|]].

(** What [Marshal] gives for such a message is always read back. *)
Lemma marshal_unmarshal {R} (fields : list (Field R)) zero (Hm : MsgSpec fields zero) m dAtA :
  AllSizeFit msg_fields → msg_Marshal fields m = Ok dAtA → msg_Unmarshal fields zero dAtA = Ok m.
Proof.
  intros Hall E. destruct (all_size_fit (Sp := msg_fields) m) as [Hs Hfit]. pose proof E as E'. unfold msg_Marshal, make_bytes in E'.
  destruct (decide _) as [[_ Hl]|]; [|done]. specialize (Hfit Hl). rewrite (msg_Size_ok fields msg_fields) in Hl by done.
  destruct (msg_roundtrips fields zero m) as (d&E1&_&E2&_); [done|]. cbn in E1. rewrite E in E1. by injection E1 as ->.
Qed.

(** ** The message types without fields: most requests for parameters and most responses *)
Definition empty_fields : list (Field unit) := [].
#[global] Instance empty_spec : MsgSpec empty_fields tt.
Proof. msg_spec. Defined.

(** ** Message types of the dependencies *)

(** A message type whose code is generated in a dependency: its methods and zero value *)
Class ImportedMsg (T : Type) := { im_codec : MsgCodec T; im_zero : T }.

(** Its code is an instance of the same templates: it writes what it announces, reads it
    back, and neither panics nor diverges on other bytes. *)
Class ImportedLaws (T : Type) `{!ImportedMsg T} := im_spec :: MsgCodecSpec im_codec im_zero.
