(* ===== verification/PulsarWire.v ===== *)
(** * src/api: the generated code of the second set of messages

    The [.pulsar.go] files under [api] hold a second Go type for every message, with code
    that is again an instance of templates: the functions [size], [marshal] and
    [unmarshal] of [ProtoMethods].  The kinds of fields are those of [ProtoWire.v] except
    for embedded messages; fields that are not known are kept.  The functions on integers
    come from the runtime library of the generator, and an embedded message is reached
    through the options of the protobuf library. *)

From S2P Require Import Prelude GoStd ProtoWire ProtoCodec.

(** ** The libraries *)

(** [github.com/cosmos/cosmos-proto/runtime]: [EncodeVarint] writes in front of an offset
    and gives the new one. *)
Class PulsarRuntime := {
  rt_Sov : Z → Z;
  rt_EncodeVarint : bytes → Z → Z → outcome (bytes * Z);
  rt_Skip : bytes → outcome Z;
}.
Class PulsarRuntimeLaws `{!PulsarRuntime} := {
  rt_Sov_ok v : is_u64 v → rt_Sov v = llen (varint v);
  rt_EncodeVarint_ok pre junk suf v : is_u64 v → llen junk = llen (varint v) →
    rt_EncodeVarint (pre ++ junk ++ suf) (llen pre + llen junk) v = Ok (pre ++ varint v ++ suf, llen pre);
  rt_Skip_spec :: SkipSpec rt_Skip;
}.

Definition runtime_varints `{!PulsarRuntime} : VarintCode := {|
  vc_sov := rt_Sov;
  vc_encode v b := '(l, i) ← rt_EncodeVarint (buf_dAtA b) (buf_i b) v; Ok (mkBuf l i) |}.

(** The functions that [ProtoMethods] returns, on messages that are not nil *)
Record Methods (T : Type) := mkMethods {
  pm_Size : T → Z;
  pm_Marshal : T → outcome bytes;
  pm_Unmarshal : T → bytes → outcome T;
}.
Arguments mkMethods {T}.
Arguments pm_Size {T}.
Arguments pm_Marshal {T}.
Arguments pm_Unmarshal {T}.

(** The same functions as the library calls them: the message may be nil, and [marshal]
    appends to [input.Buf] *)
Section inputs.
Context {T : Type} (M : Methods T).
Definition pm_size (x : option T) : Z := match x with None => 0 | Some x => pm_Size M x end.
Definition pm_marshal (x : option T) (Buf : bytes) : outcome bytes :=
  match x with None => Ok Buf | Some x => dAtA ← pm_Marshal M x; Ok (Buf ++ dAtA) end.
Definition pm_unmarshal (x : option T) (Buf : bytes) : outcome (option T) :=
  match x with None => Ok None | Some x => x ← pm_Unmarshal M x Buf; Ok (Some x) end.
End inputs.

(** [proto.SizeOptions], [MarshalOptions] and [UnmarshalOptions], which call these
    functions.  [Unmarshal] gets a new message and the one to fill. *)
Class ProtoOptions := {
  DiscardUnknown : bool;
  opt_Size : ∀ {T}, (T → Z) → T → Z;
  opt_Marshal : ∀ {T}, (T → outcome bytes) → T → outcome bytes;
  opt_Unmarshal : ∀ {T}, (T → bytes → outcome T) → T → T → bytes → outcome T;
}.
(** [Unmarshal] either merges into the message it gets or resets it first. *)
Class ProtoOptionsLaws `{!ProtoOptions} := {
  opt_Size_ok {T} (size : T → Z) t : opt_Size size t = size t;
  opt_Marshal_ok {T} (marshal : T → outcome bytes) t : opt_Marshal marshal t = marshal t;
  opt_Unmarshal_ok {T} (unmarshal : T → bytes → outcome T) zero t s :
    opt_Unmarshal unmarshal zero t s = unmarshal t s ∨ opt_Unmarshal unmarshal zero t s = unmarshal zero s;
}.

(** ** Messages *)

(** A message: the fields that are not known, and the others *)
Record Pulsar (B : Type) := mkPulsar { p_unknown : bytes; p_body : B }.
Arguments mkPulsar {B}.
Arguments p_unknown {B}.
Arguments p_body {B}.

Definition fresh {B} (zero : B) : Pulsar B := mkPulsar [] zero.

(** The methods that look at the whole message; a nil pointer panics. *)
Definition Reset {B} (zero : B) (x : option (Pulsar B)) : outcome (Pulsar B) :=
  match x with Some _ => Ok (fresh zero) | None => Panic end.
Definition GetUnknown {B} (x : option (Pulsar B)) : outcome bytes :=
  match x with Some x => Ok (p_unknown x) | None => Panic end.
Definition SetUnknown {B} (fields : bytes) (x : option (Pulsar B)) : outcome (Pulsar B) :=
  match x with Some x => Ok (mkPulsar fields (p_body x)) | None => Panic end.

Definition on_body {B} (f : Field B) : Field (Pulsar B) := {|
  f_num := f_num f;
  f_size m := f_size f (p_body m);
  f_put m := f_put f (p_body m);
  f_get wireType dAtA iNdEx m :=
    '(body, iNdEx) ← f_get f wireType dAtA iNdEx (p_body m);
    Ok (mkPulsar (p_unknown m) body, iNdEx) |}.

Section methods.
Context `{Rt : !PulsarRuntime, Op : !ProtoOptions}.

Section message.
Context {B : Type}.
Implicit Types (fields : list (Field B)) (x : Pulsar B).

(** The function [size] of [ProtoMethods] *)
Definition pl_Size fields x : Z := msg_Size fields (p_body x) + llen (p_unknown x).

(** The function [marshal]: the fields in descending order, in front of what is not known *)
Definition pl_Marshal fields x : outcome bytes :=
  let size := opt_Size (pl_Size fields) x in
  dAtA ← make_bytes size;
  b ← put_bytes (p_unknown x) (mkBuf dAtA (llen dAtA));
  b ← fold_outcome (λ b f, f_put f (p_body x) b) b (reverse fields);
  Ok (buf_dAtA b).

Definition keep_unknown (s : bytes) x : Pulsar B :=
  if DiscardUnknown then x else mkPulsar (p_unknown x ++ s) (p_body x).

(** The function [unmarshal] *)
Definition pl_Unmarshal fields x (dAtA : bytes) : outcome (Pulsar B) :=
  unmarshal_loop rt_Skip keep_unknown (S (length dAtA)) (on_body <$> fields) dAtA x 0.

Definition ProtoMethods fields : Methods (Pulsar B) :=
  mkMethods (pl_Size fields) (pl_Marshal fields) (pl_Unmarshal fields).
End message.

(** ** Embedded messages *)
Section embedded.
Context {R T : Type} (sub : Methods T) (zero : T).

Definition pl_message_size (t : T) : Z := let l := opt_Size (pm_Size sub) t in 1 + l + rt_Sov l.

Definition pl_put_message (num : Z) (t : T) (b : Buf) : outcome Buf :=
  encoded ← opt_Marshal (pm_Marshal sub) t;
  put_delimited (VC := runtime_varints) num encoded b.

(** A pointer to a message *)
Definition pl_pointer_field (num : Z) (get : R → option T) (set : option T → R → R) : Field R := {|
  f_num := num;
  f_size m := match get m with Some t => pl_message_size t | None => 0 end;
  f_put m b := match get m with Some t => pl_put_message num t b | None => Ok b end;
  f_get wireType dAtA iNdEx m :=
    _ ← expect_wire 2 wireType;
    '(s, iNdEx) ← readBytes dAtA iNdEx;
    t ← opt_Unmarshal (pm_Unmarshal sub) zero (default zero (get m)) s;
    Ok (set (Some t) m, iNdEx) |}.

(** Repeated messages; the elements are not nil *)
Definition pl_messages_field (num : Z) (get : R → list T) (set : list T → R → R) : Field R := {|
  f_num := num;
  f_size m := sumZ pl_message_size (get m);
  f_put m b := fold_outcome (λ b t, pl_put_message num t b) b (reverse (get m));
  f_get wireType dAtA iNdEx m :=
    _ ← expect_wire 2 wireType;
    '(s, iNdEx) ← readBytes dAtA iNdEx;
    t ← opt_Unmarshal (pm_Unmarshal sub) zero zero s;
    Ok (set (get m ++ [t]) m, iNdEx) |}.
End embedded.
End methods.

(** The kinds that are shared, with the functions of the runtime *)
Abbreviation pl_string_field := (string_field (VC := runtime_varints)).
Abbreviation pl_strings_field := (strings_field (VC := runtime_varints)).
Abbreviation pl_int_field := (int_field (VC := runtime_varints)).
Abbreviation pl_bool_field := bool_field.
