(* ===== verification/PulsarCodec.v ===== *)
(** * src/api: messages are written and read back

    The specifications of the kinds of fields of [PulsarWire.v] and the theorems on an
    arbitrary message: [size] is exact, [marshal] writes the forward encoding followed by
    the fields that are not known, and [unmarshal] reads both back. *)

From S2P Require Import Prelude GoStd ProtoWire ProtoCodec PulsarWire.

#[global] Program Instance runtime_varints_spec `{!PulsarRuntime, !PulsarRuntimeLaws} : VarintSpec (VC := runtime_varints).
Next Obligation. intros Rt L v. apply rt_Sov_ok. Qed.
Next Obligation.
  intros Rt L v b done Hv (junk&E&Ei) Hi. pose proof (llen_nonneg (varint v)). cbn.
  destruct (llen_split junk (llen (varint v))) as (j1&j2&->&H2&H1); [lia|].
  rewrite E, Ei, llen_app, <- (assoc_L (++)), rt_EncodeVarint_ok, bind_Ok_l by done.
  eexists. split; [done|]. split; [by exists j1|cbn; lia].
Qed.

(** ** What the methods of an embedded message owe *)
Class MethodsSpec {T} (sub : Methods T) (zero : T) := mkMethodsSpec {
  ms_fits : T → Prop;
  ms_enc : T → bytes;
  ms_Size_ok t : ms_fits t → pm_Size sub t = llen (ms_enc t);
  ms_Marshal_ok t : ms_fits t → llen (ms_enc t) < 2 ^ 63 → pm_Marshal sub t = Ok (ms_enc t);
  ms_Unmarshal_onto t t0 : ms_fits t → llen (ms_enc t) < 2 ^ 63 → ∃ t', pm_Unmarshal sub t0 (ms_enc t) = Ok t';
  ms_Unmarshal_ok t : ms_fits t → llen (ms_enc t) < 2 ^ 63 → pm_Unmarshal sub zero (ms_enc t) = Ok t;
  ms_benign t0 s : llen s < 2 ^ 63 → benign (pm_Unmarshal sub t0 s);
}.

Section embedded.
Context `{Rt : !PulsarRuntime, Op : !ProtoOptions, RtL : !PulsarRuntimeLaws, OpL : !ProtoOptionsLaws}.
Context {R T : Type} (sub : Methods T) (zero : T) `{Hsub : !MethodsSpec sub zero}.

Definition pl_enc (t : T) : bytes := delimited (ms_enc t).
Definition pl_fits (t : T) : Prop := ms_fits t ∧ llen (ms_enc t) < 2 ^ 63.

(** The message after reading the encoding of [t] into [t0] *)
Definition pl_merge (t t0 : T) : T :=
  match opt_Unmarshal (pm_Unmarshal sub) zero t0 (ms_enc t) with Ok t' => t' | _ => t0 end.

Lemma pl_merge_ok t t0 : pl_fits t → opt_Unmarshal (pm_Unmarshal sub) zero t0 (ms_enc t) = Ok (pl_merge t t0).
Proof.
  intros [Hf Hl]. unfold pl_merge. destruct (ms_Unmarshal_onto t t0 Hf Hl) as [t1 E1].
  destruct (ms_Unmarshal_onto t zero Hf Hl) as [t2 E2].
  by destruct (opt_Unmarshal_ok (pm_Unmarshal sub) zero t0 (ms_enc t)) as [->| ->]; rewrite ?E1, ?E2.
Qed.

Lemma pl_merge_zero t : pl_fits t → pl_merge t zero = t.
Proof.
  intros [Hf Hl]. unfold pl_merge.
  by destruct (opt_Unmarshal_ok (pm_Unmarshal sub) zero zero (ms_enc t)) as [->| ->]; rewrite ms_Unmarshal_ok.
Qed.

Lemma pl_message_size_ok t : pl_fits t → pl_message_size sub t = 1 + llen (pl_enc t).
Proof.
  intros [Hf Hl]. unfold pl_message_size, pl_enc. rewrite opt_Size_ok, ms_Size_ok by done.
  rewrite (delimited_size (H := runtime_varints)) by done. cbn. lia.
Qed.

Lemma pl_put_message_ok num t b done : pl_fits t → written b done → 1 + llen (pl_enc t) ≤ buf_i b →
  ∃ b', pl_put_message sub num t b = Ok b' ∧ written b' ((tag_byte num 2 :: pl_enc t) ++ done) ∧
    buf_i b' = buf_i b - (1 + llen (pl_enc t)).
Proof.
  intros [Hf Hl] Hw Hi. unfold pl_put_message. rewrite opt_Marshal_ok, ms_Marshal_ok, bind_Ok_l by done.
  by apply put_delimited_ok.
Qed.

Lemma opt_Unmarshal_benign t0 s : llen s < 2 ^ 63 → benign (opt_Unmarshal (pm_Unmarshal sub) zero t0 s).
Proof. intros Hs. destruct (opt_Unmarshal_ok (pm_Unmarshal sub) zero t0 s) as [->| ->]; by apply ms_benign. Qed.

Lemma pl_read_ok {A} pre t suf t0 (k : T → A) : pl_fits t → llen (pre ++ pl_enc t ++ suf) < 2 ^ 63 →
  (_ ← expect_wire 2 2; '(s, j) ← readBytes (pre ++ pl_enc t ++ suf) (llen pre);
   t ← opt_Unmarshal (pm_Unmarshal sub) zero t0 s; Ok (k t, j))
  = Ok (k (pl_merge t t0), llen pre + llen (pl_enc t)).
Proof.
  intros Hf Hd. unfold pl_enc in *. rewrite expect_wire_ok, readBytes_ok, bind_Ok_l by done.
  by rewrite pl_merge_ok.
Qed.

Lemma pl_read_bounds {A} w d i t0 (k : T → A) m' i' : 0 ≤ i → llen d < 2 ^ 63 →
  (_ ← expect_wire 2 w; '(s, j) ← readBytes d i; t ← opt_Unmarshal (pm_Unmarshal sub) zero t0 s; Ok (k t, j)) = Ok (m', i') →
  i ≤ i' ≤ llen d.
Proof.
  intros Hi Hd H%expect_wire_bind. apply bind_Ok in H as ([s j]&Hs%readBytes_bounds&H); [|done..].
  apply bind_Ok in H as (t&_&[= <- <-]). lia.
Qed.

Lemma pl_read_benign {A} w d i t0 (k : T → A) : 0 ≤ i → llen d < 2 ^ 63 →
  benign (_ ← expect_wire 2 w; '(s, j) ← readBytes d i; t ← opt_Unmarshal (pm_Unmarshal sub) zero t0 s; Ok (k t, j)).
Proof.
  intros Hi Hd. apply benign_bind; [apply benign_fail_if|]. intros _ _. apply benign_bind; [auto with wire|].
  intros [s j] Hs%readBytes_bounds; [|done..]. apply benign_bind; [apply opt_Unmarshal_benign; lia|]. done.
Qed.

#[global] Program Instance pl_pointer_field_spec num get set `{Hn : !FieldNum num} :
    FieldSpec (R := R) (pl_pointer_field sub zero num get set) := {|
  fs_wire := 2;
  fs_fits m := from_option pl_fits True (get m);
  fs_items m := match get m with
                | Some t => [(pl_enc t, λ m0, set (Some (pl_merge t (default zero (get m0)))) m0)]
                | None => [] end |}.
Next Obligation. done. Qed.
Next Obligation. auto. Qed.
Next Obligation.
  intros num get set Hn m Hf. cbn in *. destruct (get m); [|done]. by rewrite items_enc_one, llen_cons, pl_message_size_ok.
Qed.
Next Obligation.
  intros num get set Hn m b done Hf Hw Hi Hb. cbn in *. destruct (get m) as [t|].
  - rewrite items_enc_one, llen_cons in *. cbn [fst] in *. by apply pl_put_message_ok.
  - exists b. split_and!; [done..|]. change (llen _) with 0. lia.
Qed.
Next Obligation.
  intros num get set Hn m it pre suf m0 Hf Hit Hl. cbn in *. destruct (get m) as [t|]; [|by apply not_elem_of_nil in Hit].
  apply list_elem_of_singleton in Hit as ->. cbn [fst snd] in *.
  by apply (pl_read_ok pre t suf (default zero (get m0)) (λ t, set (Some t) m0)).
Qed.
Next Obligation.
  intros num get set Hn w d i m m' i' [Hi _] Hd. by apply (pl_read_bounds w d i (default zero (get m)) (λ t, set (Some t) m)).
Qed.
Next Obligation.
  intros num get set Hn w d i m Hi Hd. by apply (pl_read_benign w d i (default zero (get m)) (λ t, set (Some t) m)).
Qed.

#[global] Program Instance pl_messages_field_spec num get set `{Hn : !FieldNum num} :
    FieldSpec (R := R) (pl_messages_field sub zero num get set) := {|
  fs_wire := 2;
  fs_fits m := Forall pl_fits (get m);
  fs_items m := (λ t, (pl_enc t, λ m0, set (get m0 ++ [pl_merge t zero]) m0)) <$> get m |}.
Next Obligation. done. Qed.
Next Obligation. auto. Qed.
Next Obligation.
  intros num get set Hn m Hf. cbn in *. revert Hf. generalize (get m). induction 1 as [|t l Ht Hl IH]; [done|]. cbn [sumZ].
  rewrite fmap_cons, items_enc_cons, llen_app, llen_cons, IH. cbn [fst]. by rewrite pl_message_size_ok.
Qed.
Next Obligation.
  intros num get set Hn m b done Hf Hw Hi Hb. cbn in *.
  apply (put_items_ok num 2 (pl_put_message sub num) (λ t, (pl_enc t, λ m0, set (get m0 ++ [pl_merge t zero]) m0))); [|done..].
  intros t b0 done0 Ht Hw0 Hi0 Hb0. rewrite Forall_forall in Hf. by apply pl_put_message_ok; auto.
Qed.
Next Obligation.
  intros num get set Hn m it pre suf m0 Hf Hit Hl. cbn in *. apply list_elem_of_fmap in Hit as (t&->&Ht). cbn [fst snd] in *.
  rewrite Forall_forall in Hf. by apply (pl_read_ok pre t suf zero (λ t, set (get m0 ++ [t]) m0)); auto.
Qed.
Next Obligation.
  intros num get set Hn w d i m m' i' [Hi _] Hd. by apply (pl_read_bounds w d i zero (λ t, set (get m ++ [t]) m)).
Qed.
Next Obligation.
  intros num get set Hn w d i m Hi Hd. by apply (pl_read_benign w d i zero (λ t, set (get m ++ [t]) m)).
Qed.

(** *** Reading onto a value that does not have the field *)
Lemma pl_pointer_restore (m m0 : R) num get set `{!FieldNum num} :
  fs_fits (FieldSpec := pl_pointer_field_spec num get set) m → get m0 = None → set None m0 = m0 →
  items_apply (fs_items (FieldSpec := pl_pointer_field_spec num get set) m) m0 = set (get m) m0.
Proof. cbn. intros Hf E E'. destruct (get m); [|done]. cbn. by rewrite E, pl_merge_zero. Qed.

Lemma pl_messages_restore (m m0 : R) num get set `{!FieldNum num} :
  fs_fits (FieldSpec := pl_messages_field_spec num get set) m →
  set [] m0 = m0 → (∀ k x, get (set k x) = k) → (∀ k k' x, set k (set k' x) = set k x) →
  items_apply (fs_items (FieldSpec := pl_messages_field_spec num get set) m) m0 = set (get m) m0.
Proof.
  cbn [fs_fits fs_items pl_messages_field_spec]. intros Hf E Hg Hs. rewrite <- E at 1.
  replace ((λ t, (pl_enc t, λ m1, set (get m1 ++ [pl_merge t zero]) m1)) <$> get m)
    with ((λ t, (pl_enc t, λ m1, set (get m1 ++ [t]) m1)) <$> get m); [by rewrite append_all|].
  induction Hf as [|t l Ht _ IH]; [done|]. rewrite !fmap_cons, IH. by rewrite pl_merge_zero.
Qed.
End embedded.

(** ** Message types *)
Class PulsarSpec {B} (fields : list (Field B)) (zero : B) := mkPulsarSpec {
  pu_fields : FieldsSpec fields;
  pu_nodup : NoDup (f_num <$> fields);
  pu_restore m : fields_fits pu_fields m → fields_apply pu_fields m zero = m;
}.

(** *** From the body to the message *)
Section lifting.
Context {B : Type}.
Implicit Types (f : Field B) (fs : list (Field B)).

Definition lift_item (it : item B) : item (Pulsar B) := (it.1, λ x, mkPulsar (p_unknown x) (it.2 (p_body x))).

Lemma lift_items_enc num wire (l : list (item B)) : items_enc num wire (lift_item <$> l) = items_enc num wire l.
Proof. unfold items_enc. by rewrite <- list_fmap_compose. Qed.

Lemma lift_items_apply (l : list (item B)) x :
  items_apply (lift_item <$> l) x = mkPulsar (p_unknown x) (items_apply l (p_body x)).
Proof.
  revert x. induction l as [|it l IH]; intros x; [by destruct x|]. unfold items_apply in *. cbn [fmap list_fmap foldl].
  by rewrite IH.
Qed.

#[global] Program Instance on_body_spec f (Sf : FieldSpec f) : FieldSpec (on_body f) := {|
  fs_wire := fs_wire (f := f);
  fs_fits x := fs_fits (p_body x);
  fs_items x := lift_item <$> fs_items (p_body x) |}.
Next Obligation. intros f Sf. apply (fs_num_range (f := f)). Qed.
Next Obligation. intros f Sf. apply (fs_wire_range (f := f)). Qed.
Next Obligation. intros f Sf x Hf. cbn. rewrite lift_items_enc. by apply (fs_size (f := f)). Qed.
Next Obligation. intros f Sf x b done Hf Hw. cbn. rewrite lift_items_enc. by apply (fs_put (f := f)). Qed.
Next Obligation.
  intros f Sf x it pre suf x0 Hf Hit Hl. cbn in *. apply list_elem_of_fmap in Hit as (it'&->&Hit). cbn in *.
  by rewrite (fs_get (f := f) (p_body x) it').
Qed.
Next Obligation.
  intros f Sf w d i x x' i' Hi Hd H. cbn in H. apply bind_Ok in H as ([b j]&Hb&[= <- <-]). by eapply (fs_bounds (f := f)).
Qed.
Next Obligation. intros f Sf w d i x Hi Hd. cbn. apply benign_bind; [by apply (fs_benign (f := f))|]. by intros [] _. Qed.

Fixpoint lift_fields {fs} (Sp : FieldsSpec fs) : FieldsSpec (on_body <$> fs) :=
  match Sp with
  | fields_nil => fields_nil
  | fields_cons f fs Sf Sp => fields_cons (on_body f) (on_body <$> fs) (on_body_spec f Sf) (lift_fields Sp)
  end.

Lemma lift_fields_fits {fs} (Sp : FieldsSpec fs) x : fields_fits (lift_fields Sp) x ↔ fields_fits Sp (p_body x).
Proof. induction Sp as [|f fs Sf Sp IH]; [done|]. cbn. by rewrite IH. Qed.
Lemma lift_fields_enc {fs} (Sp : FieldsSpec fs) x : fields_enc (lift_fields Sp) x = fields_enc Sp (p_body x).
Proof. induction Sp as [|f fs Sf Sp IH]; [done|]. cbn. by rewrite IH, lift_items_enc. Qed.
Lemma lift_fields_apply {fs} (Sp : FieldsSpec fs) x x0 :
  fields_apply (lift_fields Sp) x x0 = mkPulsar (p_unknown x0) (fields_apply Sp (p_body x) (p_body x0)).
Proof.
  revert x0. induction Sp as [|f fs Sf Sp IH]; intros x0; [by destruct x0|].
  cbn [lift_fields fields_apply fs_items on_body_spec]. by rewrite IH, lift_items_apply.
Qed.
Lemma lift_fields_items {fs} (Sp : FieldsSpec fs) x :
  fields_items (lift_fields Sp) x = lift_item <$> fields_items Sp (p_body x).
Proof.
  induction Sp as [|f fs Sf Sp IH]; [done|]. cbn [lift_fields fields_items]. rewrite IH, fmap_app. f_equal.
  cbn [fs_items on_body_spec]. by rewrite <- !list_fmap_compose.
Qed.
Lemma lift_fields_num fs : f_num <$> (on_body <$> fs) = f_num <$> fs.
Proof. by rewrite <- list_fmap_compose. Qed.
Lemma lift_un_ok fs u : un_ok (on_body <$> fs) u ↔ un_ok fs u.
Proof. unfold un_ok. by rewrite lift_fields_num. Qed.
End lifting.

(** *** The methods of a message type *)
Section message.
Context `{Rt : !PulsarRuntime, Op : !ProtoOptions, RtL : !PulsarRuntimeLaws, OpL : !ProtoOptionsLaws}.
Context {B : Type} (fields : list (Field B)) (zero : B) `{Hm : !PulsarSpec fields zero}.
Implicit Types x : Pulsar B.

(** Integers are in range, and what is kept is a sequence of fields that are not known *)
Definition pulsar_fits x : Prop :=
  fields_fits pu_fields (p_body x) ∧
  ∃ us, Forall (un_ok fields) us ∧ p_unknown x = uns_enc us ∧ (DiscardUnknown = true → us = []).
Definition pulsar_enc x : bytes := fields_enc pu_fields (p_body x) ++ p_unknown x.

Lemma pl_Size_ok x : pulsar_fits x → pl_Size fields x = llen (pulsar_enc x).
Proof. intros [Hf _]. unfold pl_Size, pulsar_enc. by rewrite llen_app, <- (msg_Size_ok fields pu_fields). Qed.

Lemma pl_Marshal_ok x : pulsar_fits x → llen (pulsar_enc x) < 2 ^ 63 → pl_Marshal fields x = Ok (pulsar_enc x).
Proof.
  intros Hf Hl. unfold pl_Marshal, make_bytes. rewrite opt_Size_ok, pl_Size_ok by done. pose proof (llen_nonneg (pulsar_enc x)).
  rewrite decide_True, bind_Ok_l by done. destruct Hf as [Hf _]. unfold pulsar_enc in *. rewrite llen_app in *.
  pose proof (llen_nonneg (fields_enc pu_fields (p_body x))). pose proof (llen_nonneg (p_unknown x)).
  match goal with |- context [mkBuf ?l _] => set (d := l) end.
  assert (llen d = llen (fields_enc pu_fields (p_body x)) + llen (p_unknown x)) as Hd.
  { unfold d, llen. rewrite length_replicate. unfold llen in *. lia. }
  destruct (put_bytes_ok (p_unknown x) (mkBuf d (llen d)) []) as (b1&->&Hw1&Hi1); [|cbn; lia|].
  { exists d. by rewrite app_nil_r. }
  cbn [buf_i] in Hi1. rewrite bind_Ok_l, app_nil_r in *.
  destruct (put_fields_ok fields pu_fields (p_body x) b1 (p_unknown x)) as (b2&->&(junk&E&Ej)&Hi2); [done..|lia|lia|].
  rewrite bind_Ok_l, E. assert (llen junk = 0) as ->%llen_0 by lia. done.
Qed.

(** Known fields only touch the body, and what is kept only the rest. *)
Lemma mixed_apply (items : list (item B)) us l x0 :
  interleaves (lift_item <$> items) (unknown_item keep_unknown <$> us) l →
  items_apply l x0 = mkPulsar (if DiscardUnknown then p_unknown x0 else p_unknown x0 ++ uns_enc us) (items_apply items (p_body x0)).
Proof.
  intros Hi. remember (lift_item <$> items) as l1 eqn:E1. remember (unknown_item keep_unknown <$> us) as l2 eqn:E2.
  revert items us x0 E1 E2. induction Hi as [|p l1 l2 l _ IH|p l1 l2 l _ IH]; intros items us x0 E1 E2.
  - symmetry in E1, E2. apply fmap_nil_inv in E1 as ->. apply fmap_nil_inv in E2 as ->. cbn. rewrite app_nil_r.
    by destruct DiscardUnknown, x0.
  - symmetry in E1. apply fmap_cons_inv in E1 as (it&items'&->&->&->).
    unfold items_apply in *. cbn [foldl]. by rewrite (IH items' us).
  - symmetry in E2. apply fmap_cons_inv in E2 as (u&us'&->&->&->).
    unfold items_apply in *. cbn [foldl unknown_item snd]. rewrite (IH items us') by done. unfold keep_unknown.
    destruct DiscardUnknown; [done|]. cbn. change (uns_enc (u :: us')) with (un_enc u ++ uns_enc us'). by rewrite <- (assoc_L (++)).
Qed.

(** Known fields are read onto a message, and unknown ones anywhere between them are kept. *)
Lemma pl_Unmarshal_mixed m x0 us l :
  fields_fits pu_fields m → Forall (un_ok fields) us →
  interleaves (fst <$> fields_items pu_fields m) (un_enc <$> us) l → llen (concat l) < 2 ^ 63 →
  pl_Unmarshal fields x0 (concat l)
  = Ok (mkPulsar (if DiscardUnknown then p_unknown x0 else p_unknown x0 ++ uns_enc us)
                 (fields_apply pu_fields m (p_body x0))).
Proof.
  intros Hf Hus Hi Hl. unfold pl_Unmarshal.
  replace (un_enc <$> us) with (fst <$> (unknown_item (R := Pulsar B) keep_unknown <$> us)) in Hi by (by rewrite <- list_fmap_compose).
  replace (fst <$> fields_items pu_fields m) with (fst <$> (lift_item <$> fields_items pu_fields m)) in Hi
    by (by rewrite <- list_fmap_compose).
  apply interleaves_fmap_inv in Hi as (l'&->&Hi). fold (pieces_enc l') in *.
  rewrite (loop_reads rt_Skip keep_unknown (on_body <$> fields) (lift_fields pu_fields) (mkPulsar [] m) x0 us l').
  - rewrite (mixed_apply _ _ _ _ Hi). by rewrite fields_items_apply.
  - rewrite lift_fields_num. apply pu_nodup.
  - by apply lift_fields_fits.
  - eapply Forall_impl; [exact Hus|]. intros u. by apply lift_un_ok.
  - by rewrite lift_fields_items.
  - done.
Qed.

Lemma pl_Unmarshal_reads m x0 us :
  fields_fits pu_fields m → Forall (un_ok fields) us → llen (fields_enc pu_fields m ++ uns_enc us) < 2 ^ 63 →
  pl_Unmarshal fields x0 (fields_enc pu_fields m ++ uns_enc us)
  = Ok (mkPulsar (if DiscardUnknown then p_unknown x0 else p_unknown x0 ++ uns_enc us)
                 (fields_apply pu_fields m (p_body x0))).
Proof.
  intros Hf Hus. rewrite <- fields_items_enc. unfold pieces_enc, uns_enc at 1 2. rewrite <- concat_app. intros Hl.
  apply pl_Unmarshal_mixed; [done|done|apply interleaves_app|done].
Qed.

Lemma pl_Unmarshal_onto x x0 : pulsar_fits x → llen (pulsar_enc x) < 2 ^ 63 → ∃ x', pl_Unmarshal fields x0 (pulsar_enc x) = Ok x'.
Proof.
  intros [Hf (us&Hus&E&_)] Hl. unfold pulsar_enc in *. rewrite E in *. eexists. by apply pl_Unmarshal_reads.
Qed.

Lemma pl_Unmarshal_ok x : pulsar_fits x → llen (pulsar_enc x) < 2 ^ 63 → pl_Unmarshal fields (fresh zero) (pulsar_enc x) = Ok x.
Proof.
  intros [Hf (us&Hus&E&Hd)] Hl. unfold pulsar_enc in *. rewrite E in *.
  rewrite pl_Unmarshal_reads by done. cbn [fresh p_body p_unknown app]. rewrite pu_restore by done. destruct x as [un body]. cbn in *. subst un.
  destruct DiscardUnknown; [|done]. by rewrite Hd.
Qed.

Lemma pl_Unmarshal_benign x0 s : llen s < 2 ^ 63 → benign (pl_Unmarshal fields x0 s).
Proof. intros Hs. by apply (loop_ends rt_Skip keep_unknown (on_body <$> fields) (lift_fields pu_fields)). Qed.

#[global] Instance methods_spec : MethodsSpec (ProtoMethods fields) (fresh zero).
Proof.
  refine (mkMethodsSpec _ _ _ pulsar_fits pulsar_enc _ _ _ _ _);
    [apply pl_Size_ok|apply pl_Marshal_ok|apply pl_Unmarshal_onto|apply pl_Unmarshal_ok|apply pl_Unmarshal_benign].
Defined.
End message.

(** The obligations of a message type, as [msg_spec] *)
Ltac pulsar_restore_field :=
  match goal with
  | |- context [items_apply ?l ?m0] =>
    lazymatch m0 with context [items_apply] => fail | _ => idtac end;
    let E := fresh in
    eassert (items_apply l m0 = _) as E by (first [eapply string_restore|eapply int_restore|eapply bool_restore|eapply strings_restore
      |eapply pl_pointer_restore; [eassumption|..]|eapply pl_messages_restore; [eassumption|..]]; intros; reflexivity);
    lazymatch type of E with _ = ?r => let r' := eval cbn in r in rewrite (E : _ = r') end; clear E
  end.
Ltac split_fits := repeat match goal with H : _ ∧ _ |- _ => destruct H end.
Ltac pulsar_spec :=
  refine (mkPulsarSpec _ _ _ _ _ _);
  [ by apply (bool_decide_unpack _); vm_compute
  | intros []; cbn [fields_apply fields_fits]; intros; split_fits; repeat pulsar_restore_field; reflexivity ].

(** ** Message types of the dependencies *)
Class ImportedApi (T : Type) := { ia_methods : Methods T; ia_zero : T }.
Class ImportedApiLaws (T : Type) `{!ImportedApi T} := ia_spec :: MethodsSpec ia_methods ia_zero.
