(* ===== verification/PulsarReflect.v ===== *)
(** * src/api: reflection

    The methods of [fastReflection_X] in the [.pulsar.go] files: [Range], [Has], [Clear],
    [Get], [Set], [Mutable], [NewField], [WhichOneof] and [IsValid].  All are instances of
    templates; a message is given by the list of its fields.  A value holds the contents of
    a list at the time it was taken. *)

From S2P Require Import Prelude GoStd ProtoWire.

(** ** Values *)

(** Pointers to messages as interface values: [unbox] is the type assertion [i.( *T)]. *)
Class GoPointer (I T : Type) := {
  box : option T → I;
  unbox : I → option (option T);
  unbox_box p : unbox (box p) = Some p;
}.

(** [protoreflect.Value]; [VOther] stands for kinds that no field here has.  A list is a
    pointer to a type of its own, with the elements unless it is a read-only view. *)
Inductive Value (I : Type) :=
| VBool (b : bool)
| VInt32 (n : Z)
| VInt64 (n : Z)
| VUint32 (n : Z)
| VUint64 (n : Z)
| VEnum (n : Z)
| VString (s : string)
| VBytes (s : string)
| VMessage (i : I)
| VList (type : string) (list : option (list (Value I)))
| VOther.
Arguments VBool {I}.
Arguments VInt32 {I}.
Arguments VInt64 {I}.
Arguments VUint32 {I}.
Arguments VUint64 {I}.
Arguments VEnum {I}.
Arguments VString {I}.
Arguments VBytes {I}.
Arguments VMessage {I}.
Arguments VList {I}.
Arguments VOther {I}.

(** A field of a message [R]: its full name, and its case in each of the methods *)
Record RField (I R : Type) := mkRField {
  rf_name : string;
  rf_has : R → bool;
  rf_clear : R → R;
  rf_get : R → Value I;
  rf_set : Value I → R → outcome R;
  rf_mutable : R → outcome (R * Value I);
  rf_new : Value I;
}.
Arguments mkRField {I R}.
Arguments rf_name {I R}.
Arguments rf_has {I R}.
Arguments rf_clear {I R}.
Arguments rf_get {I R}.
Arguments rf_set {I R}.
Arguments rf_mutable {I R}.
Arguments rf_new {I R}.

(** ** The kinds of fields *)
Section kinds.
Context {I R : Type}.
Implicit Types v : Value I.

(** The accessors of [protoreflect.Value] panic on the other kinds. *)
Definition value_Bool v : outcome bool := match v with VBool b => Ok b | _ => Panic end.
Definition value_Int v : outcome Z := match v with VInt32 n | VInt64 n => Ok n | _ => Panic end.
Definition value_Uint v : outcome Z := match v with VUint32 n | VUint64 n => Ok n | _ => Panic end.
Definition value_Enum v : outcome Z := match v with VEnum n => Ok n | _ => Panic end.
Definition value_Bytes v : outcome string := match v with VBytes s => Ok s | _ => Panic end.
(** [value.Interface().(string)] *)
Definition value_text v : outcome string := match v with VString s => Ok s | _ => Panic end.

(** A field that is not composite is not mutable. *)
Definition scalar {V} (name : string) (zero : V) (has : V → bool) (wrap : V → Value I) (unwrap : Value I → outcome V)
    (get : R → V) (set : V → R → R) : RField I R := {|
  rf_name := name;
  rf_has x := has (get x);
  rf_clear x := set zero x;
  rf_get x := wrap (get x);
  rf_set v x := w ← unwrap v; Ok (set w x);
  rf_mutable _ := Panic;
  rf_new := wrap zero |}.

Definition nonempty (s : string) : bool := negb (bool_decide (s = "")).

Definition r_string (name : string) := scalar name "" nonempty VString value_text.
Definition r_bytes (name : string) := scalar name "" nonempty VBytes value_Bytes.
Definition r_bool (name : string) := scalar name false id VBool value_Bool.
Definition r_int64 (name : string) := scalar name 0 (λ n, negb (n =? 0)) VInt64 value_Int.
Definition r_uint64 (name : string) := scalar name 0 (λ n, negb (n =? 0)) VUint64 value_Uint.
Definition r_uint32 (name : string) := scalar name 0 (λ n, negb (n =? 0)) VUint32 (λ v, n ← value_Uint v; Ok (u32 n)).
Definition r_enum (name : string) := scalar name 0 (λ n, negb (n =? 0)) VEnum value_Enum.

(** [value.Message().Interface().( *T)] *)
Definition value_Message {T} `{!GoPointer I T} v : outcome (option T) :=
  match v with VMessage i => match unbox i with Some p => Ok p | None => Panic end | _ => Panic end.

(** [Mutable] allocates a message that is missing. *)
Definition r_message {T} `{!GoPointer I T} (zero : T) (name : string) (get : R → option T) (set : option T → R → R) : RField I R := {|
  rf_name := name;
  rf_has x := match get x with Some _ => true | None => false end;
  rf_clear x := set None x;
  rf_get x := VMessage (box (get x));
  rf_set v x := p ← value_Message v; Ok (set p x);
  rf_mutable x := let t := default zero (get x) in Ok (set (Some t) x, VMessage (box (Some t)));
  rf_new := VMessage (box (Some zero)) |}.

(** [value.List().( *type)] and the slice behind it *)
Definition value_List {V} (type : string) (unwrap : Value I → outcome V) v : outcome (list V) :=
  match v with
  | VList type' (Some l) => if decide (type = type') then mapM unwrap l else Panic
  | _ => Panic
  end.

(** A repeated field; an empty one is a read-only view. *)
Definition r_list {V} (wrap : V → Value I) (unwrap : Value I → outcome V) (type name : string)
    (get : R → list V) (set : list V → R → R) : RField I R := {|
  rf_name := name;
  rf_has x := negb (bool_decide (length (get x) = 0%nat));
  rf_clear x := set [] x;
  rf_get x := if decide (length (get x) = 0%nat) then VList type None else VList type (Some (wrap <$> get x));
  rf_set v x := l ← value_List type unwrap v; Ok (set l x);
  rf_mutable x := Ok (x, VList type (Some (wrap <$> get x)));
  rf_new := VList type (Some []) |}.

Definition r_strings := r_list VString value_text.
Definition r_bytess := r_list VBytes value_Bytes.
(** The elements of a repeated message field are not nil. *)
Definition some_message {T} `{!GoPointer I T} v : outcome T :=
  p ← value_Message v; match p with Some t => Ok t | None => Panic end.
Definition r_messages {T} `{!GoPointer I T} := r_list (λ t : T, VMessage (box (Some t))) some_message.
End kinds.

(** ** The methods of a message; a nil pointer has no fields to look at *)
Section methods.
Context {I R : Type}.
Implicit Types (fields : list (RField I R)) (x : option R) (fd : string).

(** The [switch] on the full name; other names panic *)
Definition find_field fields fd : outcome (RField I R) :=
  match list_find (λ f, rf_name f = fd) fields with Some (_, f) => Ok f | None => Panic end.
Definition deref x : outcome R := match x with Some r => Ok r | None => Panic end.

Definition refl_Has fields x fd : outcome bool :=
  f ← find_field fields fd; r ← deref x; Ok (rf_has f r).
Definition refl_Clear fields x fd : outcome R :=
  f ← find_field fields fd; r ← deref x; Ok (rf_clear f r).
Definition refl_Get fields x fd : outcome (Value I) :=
  f ← find_field fields fd; r ← deref x; Ok (rf_get f r).
Definition refl_Set fields x fd (v : Value I) : outcome R :=
  f ← find_field fields fd; r ← deref x; rf_set f v r.
Definition refl_Mutable fields x fd : outcome (R * Value I) :=
  f ← find_field fields fd; r ← deref x; rf_mutable f r.
Definition refl_NewField fields fd : outcome (Value I) :=
  f ← find_field fields fd; Ok (rf_new f).
(** No message has a oneof. *)
Definition refl_WhichOneof (d : string) : outcome string := Panic.
Definition refl_IsValid x : bool := match x with Some _ => true | None => false end.

(** [f] gets the name and the value of every populated field, and says whether to go on. *)
Fixpoint range_fields {S} fields (r : R) (f : S → string → Value I → outcome (S * bool)) (s : S) : outcome S :=
  match fields with
  | [] => Ok s
  | rf :: fields =>
    if rf_has rf r then
      '(s, go) ← f s (rf_name rf) (rf_get rf r);
      if (go : bool) then range_fields fields r f s else Ok s
    else range_fields fields r f s
  end.
Definition refl_Range {S} fields x (f : S → string → Value I → outcome (S * bool)) (s : S) : outcome S :=
  match fields with
  | [] => Ok s
  | _ => r ← deref x; range_fields fields r f s
  end.
End methods.

(** ** What the cases of a field owe *)

(** A field is a place [rs_place] of the message, which [rs_put] changes. *)
Class RFieldSpec {I R} (f : RField I R) := mkRFieldSpec {
  rs_V : Type;
  rs_place : R → rs_V;
  rs_put : rs_V → R → R;
  rs_zero : rs_V;
  rs_typed : rs_V → Prop;
  rs_view x y : rs_place x = rs_place y → rf_get f x = rf_get f y ∧ rf_has f x = rf_has f y;
  rs_set v x x' : rf_set f v x = Ok x' → ∃ w, x' = rs_put w x;
  rs_mutable x x' v : rf_mutable f x = Ok (x', v) → x' = x ∨ ∃ w, x' = rs_put w x;
  rs_clear x : rf_clear f x = rs_put rs_zero x;
  rs_has_zero x : rs_place x = rs_zero → rf_has f x = false;
  rs_unset x : rf_has f x = false → rs_place x = rs_zero;
  rs_copy x y : rs_typed (rs_place y) → rf_has f y = true → rf_set f (rf_get f y) x = Ok (rs_put (rs_place y) x);
}.

Section instances.
Context {I R : Type}.

Definition scalar_spec {V} name (zero : V) has (wrap : V → Value I) unwrap (typed : V → Prop) (get : R → V) set
    (Hhas : ∀ w, has w = false ↔ w = zero) (Hwrap : ∀ w, typed w → unwrap (wrap w) = Ok w) :
  RFieldSpec (scalar name zero has wrap unwrap get set).
Proof.
  refine {| rs_place := get; rs_put := set; rs_zero := zero; rs_typed := typed |}; cbn.
  - by intros x y ->.
  - intros v x x' (w&_&[= <-])%bind_Ok. by exists w.
  - done.
  - done.
  - intros x E. by apply Hhas.
  - intros x E. by apply Hhas.
  - intros x y Hty _. by rewrite Hwrap.
Defined.

Lemma nonempty_false s : nonempty s = false ↔ s = "".
Proof. unfold nonempty. rewrite negb_false_iff. apply bool_decide_eq_true. Qed.
Lemma nonzero_false n : negb (n =? 0) = false ↔ n = 0.
Proof. rewrite negb_false_iff. apply Z.eqb_eq. Qed.

#[global] Instance r_string_spec name get set : RFieldSpec (I := I) (R := R) (r_string name get set).
Proof. apply (scalar_spec _ _ _ _ _ (λ _, True)); [apply nonempty_false|done]. Defined.
#[global] Instance r_bytes_spec name get set : RFieldSpec (I := I) (R := R) (r_bytes name get set).
Proof. apply (scalar_spec _ _ _ _ _ (λ _, True)); [apply nonempty_false|done]. Defined.
#[global] Instance r_bool_spec name get set : RFieldSpec (I := I) (R := R) (r_bool name get set).
Proof. apply (scalar_spec _ _ _ _ _ (λ _, True)); done. Defined.
#[global] Instance r_int64_spec name get set : RFieldSpec (I := I) (R := R) (r_int64 name get set).
Proof. apply (scalar_spec _ _ _ _ _ (λ _, True)); [apply nonzero_false|done]. Defined.
#[global] Instance r_uint64_spec name get set : RFieldSpec (I := I) (R := R) (r_uint64 name get set).
Proof. apply (scalar_spec _ _ _ _ _ (λ _, True)); [apply nonzero_false|done]. Defined.
#[global] Instance r_uint32_spec name get set : RFieldSpec (I := I) (R := R) (r_uint32 name get set).
Proof. apply (scalar_spec _ _ _ _ _ (λ n, u32 n = n)); [apply nonzero_false|]. intros n E. cbn. by rewrite E. Defined.
#[global] Instance r_enum_spec name get set : RFieldSpec (I := I) (R := R) (r_enum name get set).
Proof. apply (scalar_spec _ _ _ _ _ (λ _, True)); [apply nonzero_false|done]. Defined.

#[global] Instance r_message_spec {T} `{!GoPointer I T} zero name get set : RFieldSpec (R := R) (r_message zero name get set).
Proof.
  refine {| rs_place := get; rs_put := set; rs_zero := None; rs_typed _ := True |}; cbn.
  - by intros x y ->.
  - intros v x x' (p&_&[= <-])%bind_Ok. by exists p.
  - intros x x' v [= <- _]. right. by eexists.
  - done.
  - by intros x ->.
  - intros x. by destruct (get x).
  - intros x y _ _. by rewrite unbox_box.
Defined.

Lemma mapM_wrap {V} (wrap : V → Value I) unwrap l : (∀ w, unwrap (wrap w) = Ok w) → mapM unwrap (wrap <$> l) = Ok l.
Proof.
  intros Hwrap. induction l as [|w l IH]; [done|]. rewrite fmap_cons. cbn [mapM]. rewrite Hwrap, bind_Ok_l, IH. done.
Qed.

Definition r_list_spec {V} (wrap : V → Value I) unwrap type name (get : R → list V) set (Hwrap : ∀ w, unwrap (wrap w) = Ok w) :
  RFieldSpec (r_list wrap unwrap type name get set).
Proof.
  refine {| rs_place := get; rs_put := set; rs_zero := []; rs_typed _ := True |}; cbn.
  - by intros x y ->.
  - intros v x x' (l&_&[= <-])%bind_Ok. by exists l.
  - intros x x' v [= <- _]. by left.
  - done.
  - by intros x ->.
  - intros x H. rewrite negb_false_iff, bool_decide_eq_true in H. by apply nil_length_inv.
  - intros x y _ H. rewrite negb_true_iff, bool_decide_eq_false in H. rewrite decide_False by done.
    unfold value_List. rewrite decide_True by done.
    by rewrite mapM_wrap.
Defined.
#[global] Instance r_strings_spec type name get set : RFieldSpec (I := I) (R := R) (r_strings type name get set).
Proof. by apply r_list_spec. Defined.
#[global] Instance r_bytess_spec type name get set : RFieldSpec (I := I) (R := R) (r_bytess type name get set).
Proof. by apply r_list_spec. Defined.
#[global] Instance r_messages_spec {T} `{!GoPointer I T} type name get set : RFieldSpec (R := R) (r_messages type name get set).
Proof. apply r_list_spec. intros t. cbn. by rewrite unbox_box. Defined.
End instances.

Inductive RFieldsSpec {I R} : list (RField I R) → Type :=
| rfields_nil : RFieldsSpec []
| rfields_cons f fs : RFieldSpec f → RFieldsSpec fs → RFieldsSpec (f :: fs).
Existing Class RFieldsSpec.
#[global] Existing Instances rfields_nil rfields_cons.

(** ** Messages *)
Section message.
Context {I R : Type}.
Implicit Types (fs : list (RField I R)) (x y : R).

(** The places of two fields are different. *)
Definition apart (f : RField I R) (Sf : RFieldSpec f) (g : RField I R) (Sg : RFieldSpec g) : Prop :=
  ∀ w x, rs_place (f := g) (rs_put (f := f) w x) = rs_place (f := g) x.
Fixpoint apart_all (f : RField I R) (Sf : RFieldSpec f) {fs} (Sp : RFieldsSpec fs) : Prop :=
  match Sp with
  | rfields_nil => True
  | rfields_cons g fs Sg Sp => apart f Sf g Sg ∧ apart g Sg f Sf ∧ apart_all f Sf Sp
  end.
Fixpoint places {fs} (Sp : RFieldsSpec fs) : Prop :=
  match Sp with
  | rfields_nil => True
  | rfields_cons f fs Sf Sp =>
    (∀ w x, rs_place (f := f) (rs_put (f := f) w x) = w) ∧ (∀ x, rs_put (f := f) (rs_place x) x = x) ∧
    apart_all f Sf Sp ∧ places Sp
  end.

Fixpoint typed {fs} (Sp : RFieldsSpec fs) y : Prop :=
  match Sp with
  | rfields_nil => True
  | rfields_cons f fs Sf Sp => rs_typed (f := f) (rs_place y) ∧ typed Sp y
  end.

(** All places of [y], one after the other, put into [x] *)
Fixpoint put_places {fs} (Sp : RFieldsSpec fs) y x : R :=
  match Sp with
  | rfields_nil => x
  | rfields_cons f fs Sf Sp => put_places Sp y (rs_put (f := f) (rs_place y) x)
  end.
Fixpoint zero_places {fs} (Sp : RFieldsSpec fs) x : Prop :=
  match Sp with
  | rfields_nil => True
  | rfields_cons f fs Sf Sp => rs_place (f := f) x = rs_zero ∧ zero_places Sp x
  end.
End message.

(** The fields of a message type have names and places of their own, and all of a message
    is in its fields. *)
Class ReflectSpec {I R} (fields : list (RField I R)) (zero : R) := mkReflectSpec {
  re_fields : RFieldsSpec fields;
  re_names : NoDup (rf_name <$> fields);
  re_places : places re_fields;
  re_zero : zero_places re_fields zero;
  re_all y : put_places re_fields y zero = y;
}.

(** Copying a message by reflection: the populated fields, as [Range] gives them, are set
    on a new message. *)
Definition refl_copy {I R} (fields : list (RField I R)) (y zero : R) : outcome R :=
  refl_Range fields (Some y) (λ acc fd v, acc ← refl_Set fields (Some acc) fd v; Ok (acc, true)) zero.

(** The methods that change a message, on the field [fd] *)
Inductive changes {I R} (fields : list (RField I R)) (fd : string) (x x' : R) : Prop :=
| by_Set v : refl_Set fields (Some x) fd v = Ok x' → changes fields fd x x'
| by_Clear : refl_Clear fields (Some x) fd = Ok x' → changes fields fd x x'
| by_Mutable v : refl_Mutable fields (Some x) fd = Ok (x', v) → changes fields fd x x'.

(** What the methods of a message type owe *)
Record reflects {I R} (fields : list (RField I R)) (zero : R) (well_typed : R → Prop) : Prop := mkReflects {
  rl_copy y : well_typed y → refl_copy fields y zero = Ok y;
  rl_clear x x' fd : refl_Clear fields (Some x) fd = Ok x' → refl_Has fields (Some x') fd = Ok false;
  rl_frame x x' fd fd' : changes fields fd x x' → fd ≠ fd' →
    refl_Get fields (Some x') fd' = refl_Get fields (Some x) fd' ∧ refl_Has fields (Some x') fd' = refl_Has fields (Some x) fd';
  rl_foreign x fd v : fd ∉ (rf_name <$> fields) →
    refl_Has fields x fd = Panic ∧ refl_Clear fields x fd = Panic ∧ refl_Get fields x fd = Panic ∧
    refl_Set fields x fd v = Panic ∧ refl_Mutable fields x fd = Panic ∧ refl_NewField fields fd = Panic;
}.

Section theorems.
Context {I R : Type}.
Implicit Types (fs fields : list (RField I R)) (x y : R).

Lemma find_field_in fields f : NoDup (rf_name <$> fields) → f ∈ fields → find_field fields (rf_name f) = Ok f.
Proof.
  intros Hnd [j Hj]%list_elem_of_lookup. unfold find_field.
  assert (list_find (λ g, rf_name g = rf_name f) fields = Some (j, f)) as ->; [|done].
  apply list_find_Some. split_and!; [done..|]. intros k g Hk Hlt E. assert (k = j); [|lia].
  eapply (NoDup_lookup (rf_name <$> fields)); [done|..]; rewrite list_lookup_fmap; [by rewrite Hk|rewrite Hj; cbn; by rewrite E].
Qed.

Lemma find_field_Ok fields fd f : find_field fields fd = Ok f → f ∈ fields ∧ rf_name f = fd.
Proof.
  unfold find_field. destruct (list_find _ fields) as [[j g]|] eqn:E; [|done]. intros [= <-].
  apply list_find_Some in E as (Hj&?&_). split; [by eapply list_elem_of_lookup_2|done].
Qed.

Lemma find_field_foreign fields fd : fd ∉ (rf_name <$> fields) → find_field fields fd = Panic.
Proof.
  intros Hfd. unfold find_field. destruct (list_find _ fields) as [[j g]|] eqn:E; [|done].
  apply list_find_Some in E as (Hj%list_elem_of_lookup_2&<-&_). destruct Hfd. by apply list_elem_of_fmap_2.
Qed.

(** *** Copying *)
Definition copy_step y (acc : R) (f : RField I R) : outcome R :=
  if rf_has f y then rf_set f (rf_get f y) acc else Ok acc.

Lemma range_copies fields fs y acc : NoDup (rf_name <$> fields) → (∀ f, f ∈ fs → f ∈ fields) →
  range_fields fs y (λ acc fd v, acc ← refl_Set fields (Some acc) fd v; Ok (acc, true)) acc = fold_outcome (copy_step y) acc fs.
Proof.
  intros Hnd. revert acc. induction fs as [|f fs IH]; intros acc Hin; [done|]. cbn [range_fields fold_outcome].
  unfold copy_step at 2. destruct (rf_has f y); [|rewrite bind_Ok_l; apply IH; intros; apply Hin; by right].
  unfold refl_Set. rewrite find_field_in, bind_Ok_l by (done || apply Hin; by left). cbn [deref]. rewrite bind_Ok_l.
  destruct (rf_set f (rf_get f y) acc) as [acc'| |]; [|done..]. rewrite !bind_Ok_l. apply IH. intros; apply Hin; by right.
Qed.

Lemma apart_all_zero f (Sf : RFieldSpec f) fs (Sp : RFieldsSpec fs) w x :
  apart_all f Sf Sp → zero_places Sp x → zero_places Sp (rs_put (f := f) w x).
Proof. induction Sp as [|g fs Sg Sp IH]; cbn; [done|]. intros (Hfg&_&Ha) [Hz Hzs]. split; [by rewrite Hfg|auto]. Qed.

Lemma copy_places fs (Sp : RFieldsSpec fs) y acc : places Sp → typed Sp y → zero_places Sp acc →
  fold_outcome (copy_step y) acc fs = Ok (put_places Sp y acc).
Proof.
  revert acc. induction Sp as [|f fs Sf Sp IH]; intros acc; cbn [places typed zero_places put_places fold_outcome]; [done|].
  intros (_&Hpg&Ha&Hp) [Hty Htys] [Hz Hzs].
  assert (copy_step y acc f = Ok (rs_put (rs_place y) acc)) as ->.
  { unfold copy_step. destruct (rf_has f y) eqn:E; [by apply rs_copy|]. by rewrite (rs_unset y E), <- Hz, Hpg. }
  rewrite bind_Ok_l. apply IH; [done..|]. by apply apart_all_zero.
Qed.

(** *** Other fields *)
Definition moves (f : RField I R) (Sf : RFieldSpec f) x x' : Prop := x' = x ∨ ∃ w, x' = rs_put (f := f) w x.

Lemma moves_apart f Sf g Sg x x' : moves f Sf x x' → apart f Sf g Sg → rf_get g x' = rf_get g x ∧ rf_has g x' = rf_has g x.
Proof. intros [->|[w ->]] Ha; [done|]. apply rs_view. apply Ha. Qed.

Lemma changes_moves fields fd x x' : changes fields fd x x' →
  ∃ f, f ∈ fields ∧ rf_name f = fd ∧ ∀ Sf : RFieldSpec f, moves f Sf x x'.
Proof.
  intros [v E|E|v E]; apply bind_Ok in E as (f&[Hf Hn]%find_field_Ok&E); exists f; (split_and!; [done..|]); intros Sf;
    cbn in E; [right; by eapply rs_set|right; injection E as <-; exists rs_zero; apply rs_clear|by eapply rs_mutable].
Qed.

Lemma apart_all_elem f (Sf : RFieldSpec f) fs (Sp : RFieldsSpec fs) g :
  apart_all f Sf Sp → g ∈ fs → ∃ Sg, apart f Sf g Sg ∧ apart g Sg f Sf.
Proof.
  induction Sp as [|h fs Sh Sp IH]; cbn; [by intros _ ?%not_elem_of_nil|].
  intros (H1&H2&Ha) [->|Hg]%elem_of_cons; [by exists Sh|auto].
Qed.

Lemma places_apart fs (Sp : RFieldsSpec fs) f g : places Sp → f ∈ fs → g ∈ fs → rf_name f ≠ rf_name g →
  ∃ Sf Sg, apart f Sf g Sg.
Proof.
  induction Sp as [|h fs Sh Sp IH]; cbn; [by intros _ ?%not_elem_of_nil|].
  intros (_&_&Ha&Hp) [->|Hf]%elem_of_cons [->|Hg]%elem_of_cons Hne; [done|..|auto].
  - destruct (apart_all_elem h Sh fs Sp g Ha Hg) as (Sg&H&_). by exists Sh, Sg.
  - destruct (apart_all_elem h Sh fs Sp f Ha Hf) as (Sf&_&H). by exists Sf, Sh.
Qed.

Lemma places_get_put fs (Sp : RFieldsSpec fs) f : places Sp → f ∈ fs →
  ∃ Sf : RFieldSpec f, ∀ w x, rs_place (f := f) (rs_put (f := f) w x) = w.
Proof.
  induction Sp as [|h fs Sh Sp IH]; cbn; [by intros _ ?%not_elem_of_nil|].
  intros (H&_&_&Hp) [->|Hf]%elem_of_cons; [by exists Sh|auto].
Qed.

(** *** All of it *)
Lemma reflect_spec_reflects fields zero (Hr : ReflectSpec fields zero) : reflects fields zero (typed re_fields).
Proof.
  split.
  - intros y Hty. unfold refl_copy, refl_Range. trans (Ok (put_places re_fields y zero)); [|by rewrite re_all].
    rewrite <- copy_places; [|apply re_places|done|apply re_zero].
    destruct fields as [|f fs]; [done|]. cbn [deref]. rewrite bind_Ok_l. apply range_copies; [apply re_names|done].
  - intros x x' fd E. unfold refl_Clear, refl_Has in *. apply bind_Ok in E as (f&Hf&E). rewrite Hf, bind_Ok_l. injection E as <-.
    cbn. f_equal. apply find_field_Ok in Hf as [Hf _]. destruct (places_get_put _ re_fields f re_places Hf) as [Sf Hgp].
    apply rs_has_zero. by rewrite rs_clear, Hgp.
  - intros x x' fd fd' (f&Hf&<-&Hm)%changes_moves Hne. unfold refl_Get, refl_Has.
    destruct (find_field fields fd') as [g| |] eqn:Hg; [|done..]. apply find_field_Ok in Hg as [Hg <-].
    destruct (places_apart _ re_fields f g re_places Hf Hg Hne) as (Sf&Sg&Ha).
    destruct (moves_apart f Sf g Sg x x' (Hm Sf) Ha) as [E1 E2]. cbn. by rewrite E1, E2.
  - intros x fd v Hfd%find_field_foreign. unfold refl_Has, refl_Clear, refl_Get, refl_Set, refl_Mutable, refl_NewField.
    by rewrite Hfd.
Qed.
End theorems.

(** The obligations of a message type *)
Ltac reflect_spec :=
  refine (mkReflectSpec _ _ _ _ _ _ _ _ _);
  [ by apply (bool_decide_unpack _); vm_compute
  | cbn; unfold apart; cbn; repeat split; try (intros ? []; reflexivity); intros []; reflexivity
  | cbn; repeat split; reflexivity
  | intros []; reflexivity ].
