(* ===== verification/PulsarLists.v ===== *)
(** * src/api: the lists of repeated fields

    The methods of the types [_X_n_list] in the [.pulsar.go] files, through which reflection
    reads and changes a repeated field.  A list is a pointer to a slice; all are instances of
    three templates, given by the kind of the elements. *)

From S2P Require Import Prelude GoStd ProtoWire PulsarReflect.

#[local] Coercion Z.of_nat : nat >-> Z.

(** ** Slices: an array and how much of it is in use *)
Record Slice (V : Type) := mkSlice { sl_array : list V; sl_len : nat }.
Arguments mkSlice {V}.
Arguments sl_array {V}.
Arguments sl_len {V}.

Section slices.
Context {V : Type}.
Implicit Types s : Slice V.

Definition sl_cap s : nat := length (sl_array s).
Definition sl_wf s : Prop := (sl_len s ≤ sl_cap s)%nat.
Definition sl_elems s : list V := take (sl_len s) (sl_array s).

(** [s[i]] *)
Definition sl_index s (i : Z) : outcome V :=
  if decide (0 ≤ i < sl_len s) then match sl_array s !! Z.to_nat i with Some w => Ok w | None => Panic end else Panic.
(** [s[i] = w] *)
Definition sl_store s (i : Z) (w : V) : outcome (Slice V) :=
  if decide (0 ≤ i < sl_len s) then Ok (mkSlice (<[Z.to_nat i := w]> (sl_array s)) (sl_len s)) else Panic.
(** [s[:n]] *)
Definition sl_prefix s (n : Z) : outcome (Slice V) :=
  if decide (0 ≤ n ≤ sl_cap s) then Ok (mkSlice (sl_array s) (Z.to_nat n)) else Panic.
(** [append(s, w)]; a new array has room for [spare] more elements, which are zero. *)
Definition sl_append (spare : nat → nat) (zero : V) s (w : V) : Slice V :=
  if decide (sl_len s < sl_cap s)%nat then mkSlice (<[sl_len s := w]> (sl_array s)) (S (sl_len s))
  else mkSlice (sl_elems s ++ w :: replicate (spare (sl_len s)) zero) (S (sl_len s)).
(** [for i := n; i < len(s); i++ { s[i] = zero }], for the [k] values that are left *)
Fixpoint sl_clear (zero : V) (k : nat) (i : Z) s : outcome (Slice V) :=
  match k with
  | O => Ok s
  | S k => s ← sl_store s i zero; sl_clear zero k (i + 1) s
  end.
End slices.

(** ** The kinds of elements *)

(** [Value.String] formats values that are not strings. *)
Class ValueFormat (I : Type) := {
  value_String : Value I → string;
  value_String_text s : value_String (VString s) = s;
}.

Record ListKind (I V : Type) := mkListKind {
  lk_wrap : V → Value I;
  lk_unwrap : Value I → outcome V;
  lk_nil : V;
  lk_new : V;
  lk_message : bool;
}.
Arguments mkListKind {I V}.
Arguments lk_wrap {I V}.
Arguments lk_unwrap {I V}.
Arguments lk_nil {I V}.
Arguments lk_new {I V}.
Arguments lk_message {I V}.

Section kinds.
Context {I : Type}.
Definition string_list `{!ValueFormat I} : ListKind I string :=
  mkListKind VString (λ v, Ok (value_String v)) "" "" false.
Definition bytes_list : ListKind I string := mkListKind VBytes value_Bytes "" "" false.
Definition message_list {T} `{!GoPointer I T} (zero : T) : ListKind I (option T) :=
  mkListKind (λ p, VMessage (box p)) value_Message None (Some zero) true.
End kinds.

(** ** The methods; [x] is nil or a pointer to the slice *)
Section methods.
Context {I V : Type} (spare : nat → nat) (k : ListKind I V).
Implicit Types (x : option (Slice V)) (v : Value I).

Definition list_Len x : Z := match x with None => 0 | Some s => sl_len s end.
Definition list_Get x (i : Z) : outcome (Value I) :=
  s ← deref x; w ← sl_index s i; Ok (lk_wrap k w).
Definition list_Set x (i : Z) v : outcome (Slice V) :=
  concreteValue ← lk_unwrap k v;
  s ← deref x;
  sl_store s i concreteValue.
Definition list_Append x v : outcome (Slice V) :=
  concreteValue ← lk_unwrap k v;
  s ← deref x;
  Ok (sl_append spare (lk_nil k) s concreteValue).
Definition list_AppendMutable x : outcome (Slice V * Value I) :=
  if lk_message k then
    let v := lk_new k in
    s ← deref x;
    Ok (sl_append spare (lk_nil k) s v, lk_wrap k v)
  else Panic.
(** Pointers that are cut off are cleared first. *)
Definition list_Truncate x (n : Z) : outcome (Slice V) :=
  s ← deref x;
  s ← (if lk_message k then sl_clear (lk_nil k) (Z.to_nat (sl_len s - n)) n s else Ok s);
  sl_prefix s n.
Definition list_NewElement : Value I := lk_wrap k (lk_new k).
Definition list_IsValid x : bool := match x with Some _ => true | None => false end.
End methods.

(** ** Slices as lists *)
Section slice_lemmas.
Context {V : Type}.
Implicit Types (s : Slice V) (w : V).

Lemma sl_elems_length s : sl_wf s → length (sl_elems s) = sl_len s.
Proof. intros H. apply length_take_le. exact H. Qed.

Lemma sl_index_elems s i w : sl_elems s !! Z.to_nat i = Some w → 0 ≤ i → sl_index s i = Ok w.
Proof.
  unfold sl_elems, sl_index. intros [Hw Hlt]%lookup_take_Some Hi. rewrite decide_True by lia. by rewrite Hw.
Qed.

Lemma sl_store_elems s i w : sl_wf s → 0 ≤ i < sl_len s →
  ∃ s', sl_store s i w = Ok s' ∧ sl_wf s' ∧ sl_len s' = sl_len s ∧ sl_elems s' = <[Z.to_nat i := w]> (sl_elems s).
Proof.
  intros Hwf Hi. unfold sl_store. rewrite decide_True by done. eexists. split_and!; [done| |done|].
  - unfold sl_wf, sl_cap. cbn. by rewrite length_insert.
  - unfold sl_elems. cbn. by rewrite take_insert_lt by lia.
Qed.

Lemma sl_append_elems spare zero s w : sl_wf s →
  sl_wf (sl_append spare zero s w) ∧ sl_elems (sl_append spare zero s w) = sl_elems s ++ [w].
Proof.
  intros Hwf. unfold sl_append. case_decide as Hc; unfold sl_wf, sl_cap, sl_elems in *; cbn.
  - rewrite length_insert. split; [done|].
    erewrite take_S_r by (apply list_lookup_insert_eq; exact Hc). by rewrite take_insert_ge by lia.
  - rewrite length_app, length_take. cbn. split; [lia|]. rewrite take_app_ge by (rewrite length_take; lia).
    rewrite length_take. replace (S (sl_len s) - _)%nat with 1%nat by lia. done.
Qed.

Lemma sl_clear_elems zero (j : nat) i s : sl_wf s → 0 ≤ i → i + j = sl_len s →
  ∃ s', sl_clear zero j i s = Ok s' ∧ sl_wf s' ∧ sl_len s' = sl_len s ∧
    take (Z.to_nat i) (sl_elems s') = take (Z.to_nat i) (sl_elems s).
Proof.
  revert i s. induction j as [|j IH]; intros i s Hwf Hi Hj; [by exists s|]. cbn.
  destruct (sl_store_elems s i zero Hwf) as (s1&->&Hwf1&Hl1&E1); [lia|]. cbn.
  destruct (IH (i + 1) s1) as (s2&->&Hwf2&Hl2&E2); [done|lia..|]. exists s2. split_and!; [done..|lia|].
  apply (f_equal (take (Z.to_nat i))) in E2. rewrite !take_take, !Nat.min_l in E2 by lia.
  rewrite E2, E1. by rewrite take_insert_ge by lia.
Qed.

Lemma sl_prefix_elems s n : sl_wf s → 0 ≤ n ≤ sl_len s →
  ∃ s', sl_prefix s n = Ok s' ∧ sl_wf s' ∧ sl_elems s' = take (Z.to_nat n) (sl_elems s).
Proof.
  unfold sl_wf, sl_prefix. intros Hwf Hn. rewrite decide_True by lia. eexists. split_and!; [done|unfold sl_cap in *; cbn; lia|].
  unfold sl_elems. cbn. rewrite take_take. f_equal. lia.
Qed.
End slice_lemmas.

(** ** What the methods owe *)
Class ListSpec {I V} (k : ListKind I V) := ls_wrap w : lk_unwrap k (lk_wrap k w) = Ok w.

#[global] Instance string_list_spec {I} `{!ValueFormat I} : ListSpec (string_list (I := I)).
Proof. intros w. cbn. by rewrite value_String_text. Qed.
#[global] Instance bytes_list_spec {I} : ListSpec (bytes_list (I := I)).
Proof. by intros w. Qed.
#[global] Instance message_list_spec {I T} `{!GoPointer I T} zero : ListSpec (I := I) (message_list zero).
Proof. intros w. cbn. by rewrite unbox_box. Qed.

(** The method returns a slice that stands for the list [l]. *)
Definition gives {V} (o : outcome (Slice V)) (l : list V) : Prop := ∃ s, o = Ok s ∧ sl_wf s ∧ sl_elems s = l.

(** The methods are those of a list, and a nil list is an empty one that cannot change. *)
Record list_refines {I V} (spare : nat → nat) (k : ListKind I V) : Prop := mkListRefines {
  lr_Len (s : Slice V) : sl_wf s → list_Len (Some s) = length (sl_elems s);
  lr_Get (s : Slice V) i : sl_wf s → list_Get k (Some s) i =
    match sl_elems s !! Z.to_nat i with Some w => if decide (0 ≤ i) then Ok (lk_wrap k w) else Panic | None => Panic end;
  lr_Set (s : Slice V) i w : sl_wf s → 0 ≤ i < length (sl_elems s) →
    gives (list_Set k (Some s) i (lk_wrap k w)) (<[Z.to_nat i := w]> (sl_elems s));
  lr_Set_range (s : Slice V) i w : ¬ 0 ≤ i < sl_len s → list_Set k (Some s) i (lk_wrap k w) = Panic;
  lr_Append (s : Slice V) w : sl_wf s → gives (list_Append spare k (Some s) (lk_wrap k w)) (sl_elems s ++ [w]);
  lr_AppendMutable (s : Slice V) : sl_wf s → if lk_message k
    then ∃ s', list_AppendMutable spare k (Some s) = Ok (s', lk_wrap k (lk_new k)) ∧ sl_wf s' ∧ sl_elems s' = sl_elems s ++ [lk_new k]
    else list_AppendMutable spare k (Some s) = Panic;
  lr_Truncate (s : Slice V) n : sl_wf s → 0 ≤ n ≤ length (sl_elems s) → gives (list_Truncate k (Some s) n) (take (Z.to_nat n) (sl_elems s));
  lr_Truncate_range (s : Slice V) n : sl_wf s → ¬ 0 ≤ n ≤ sl_cap s → list_Truncate k (Some s) n = Panic;
  lr_NewElement (s : Slice V) : sl_wf s → gives (list_Append spare k (Some s) (list_NewElement k)) (sl_elems s ++ [lk_new k]);
  lr_nil i v : list_IsValid (V := V) None = false ∧ list_Len (V := V) None = 0 ∧ list_Get k None i = Panic ∧
    list_Truncate k None i = Panic ∧ list_AppendMutable spare k None = Panic ∧
    (∀ s, list_Set k None i v ≠ Ok s) ∧ (∀ s, list_Append spare k None v ≠ Ok s);
}.

Lemma list_kind_refines {I V} spare (k : ListKind I V) `{!ListSpec k} : list_refines spare k.
Proof.
  split.
  - intros s Hs. cbn. by rewrite sl_elems_length.
  - intros s i Hs. cbn. destruct (sl_elems s !! Z.to_nat i) as [w|] eqn:E.
    + case_decide; [by rewrite (sl_index_elems s i w)|]. unfold sl_index. rewrite decide_False by lia. done.
    + unfold sl_index. apply lookup_ge_None in E. rewrite sl_elems_length in E by done. rewrite decide_False by lia. done.
  - intros s i w Hs Hi. rewrite sl_elems_length in Hi by done. unfold list_Set. rewrite ls_wrap. cbn.
    destruct (sl_store_elems s i w Hs Hi) as (s'&?&?&_&?). by exists s'.
  - intros s i w Hi. unfold list_Set. rewrite ls_wrap. cbn. unfold sl_store. by rewrite decide_False.
  - intros s w Hs. unfold list_Append. rewrite ls_wrap. eexists. split; [done|by apply sl_append_elems].
  - intros s Hs. unfold list_AppendMutable. destruct (lk_message k); [|done]. eexists. split; [done|by apply sl_append_elems].
  - intros s n Hs Hn. rewrite sl_elems_length in Hn by done. unfold list_Truncate. cbn. destruct (lk_message k); cbn.
    + destruct (sl_clear_elems (lk_nil k) (Z.to_nat (sl_len s - n)) n s) as (s1&->&Hs1&Hl&E); [done|lia..|]. cbn.
      rewrite <- E. apply sl_prefix_elems; [done|lia].
    + by apply sl_prefix_elems.
  - intros s n Hs Hn. unfold list_Truncate, sl_wf, sl_prefix in *. cbn. destruct (lk_message k); cbn; [|by rewrite decide_False].
    destruct (decide (n < 0)) as [Hneg|Hpos].
    + destruct (Z.to_nat (sl_len s - n)) as [|j] eqn:E; [lia|]. cbn. unfold sl_store. rewrite decide_False by lia. done.
    + replace (Z.to_nat (sl_len s - n)) with 0%nat by lia. cbn. by rewrite decide_False.
  - intros s Hs. unfold list_Append, list_NewElement. rewrite ls_wrap. eexists. split; [done|by apply sl_append_elems].
  - intros i v. unfold list_Set, list_Append, list_AppendMutable. cbn. split_and!; [done..|by destruct (lk_message k)| |].
    all: intros s; by destruct (lk_unwrap k v).
Qed.

(** A list type, with the type of its elements *)
Record ApiList (I : Type) := mkApiList { al_V : Type; al_kind : ListKind I al_V }.
Arguments mkApiList {I V} al_kind : rename.
Arguments al_V {I}.
Arguments al_kind {I}.
Definition api_list_ok {I} (L : ApiList I) : Prop := ∀ spare, list_refines spare (al_kind L).
Lemma api_list_is_ok {I V} (k : ListKind I V) `{!ListSpec k} : api_list_ok (mkApiList k).
Proof. intros spare. by apply list_kind_refines. Qed.
