(* ===== verification/PulsarAgree.v ===== *)
(** * src/api: message types, and their agreement with the other set

    A message of [x/*/types] and its counterpart under [api] have the same encoding, so the
    bytes that one of them writes are read by the other.  Reflection says that a field is
    populated exactly when it is written. *)

From S2P Require Import Prelude GoStd ProtoWire ProtoCodec PulsarWire PulsarCodec PulsarReflect.

(** An embedded message and its counterpart *)
Class CodecAgrees {T T'} (sub : MsgCodec T) (zero : T) `{!MsgCodecSpec sub zero} (sub' : Methods T') (zero' : T')
    `{!MethodsSpec sub' zero'} (conv : T → T') :=
  codec_agrees t : sub_fits sub zero t → pl_fits sub' zero' (conv t) ∧ ms_enc (conv t) = mc_enc t.

(** A custom type and the message or the text that stands for it *)
Class CustomAgrees {T T'} (sub : CustomCodec T) `{!CustomCodecSpec sub} (sub' : Methods T') (zero' : T')
    `{!MethodsSpec sub' zero'} (conv : T → T') :=
  custom_agrees t : custom_fits sub t → pl_fits sub' zero' (conv t) ∧ ms_enc (conv t) = cc_enc t.
Class CustomText {T} (sub : CustomCodec T) `{!CustomCodecSpec sub} := custom_text t : custom_fits sub t → cc_enc t ≠ [].

Section fields.
Context {R B : Type} (conv : R → B).

Definition field_agrees (f : Field R) (Sf : FieldSpec f) (g : Field B) (Sg : FieldSpec g) : Prop :=
  ∀ m, fs_fits (f := f) m → fs_fits (f := g) (conv m) ∧
    items_enc (f_num g) (fs_wire (f := g)) (fs_items (f := g) (conv m)) = items_enc (f_num f) (fs_wire (f := f)) (fs_items (f := f) m).

Definition fields_agree {fs : list (Field R)} (Sf : FieldsSpec fs) {gs : list (Field B)} (Sg : FieldsSpec gs) : Prop :=
  ∀ m, fields_fits Sf m → fields_fits Sg (conv m) ∧ fields_enc Sg (conv m) = fields_enc Sf m.

Lemma agree_nil : fields_agree fields_nil fields_nil.
Proof. done. Qed.
Lemma agree_cons f Sf g Sg fs (Sfs : FieldsSpec fs) gs (Sgs : FieldsSpec gs) :
  field_agrees f Sf g Sg → fields_agree Sfs Sgs → fields_agree (fields_cons f fs Sf Sfs) (fields_cons g gs Sg Sgs).
Proof. intros H Hs m [Hf Hfs]. cbn. destruct (H m Hf) as [? ->]. destruct (Hs m Hfs) as [? ->]. done. Qed.

(** *** The kinds of fields *)
Section kinds.
Context `{VC : !VarintCode, VS : !VarintSpec, VC' : !VarintCode, VS' : !VarintSpec} (num : Z) `{Hn : !FieldNum num}.

Lemma string_agrees get set get' set' : (∀ m, get' (conv m) = get m) →
  field_agrees _ (string_field_spec (VC := VC) num get set) _ (string_field_spec (VC := VC') num get' set').
Proof. intros E m Hf. cbn in *. rewrite E. split; [done|]. by case_decide. Qed.

Lemma strings_agree get set get' set' : (∀ m, get' (conv m) = get m) →
  field_agrees _ (strings_field_spec (VC := VC) num get set) _ (strings_field_spec (VC := VC') num get' set').
Proof. intros E m Hf. cbn in *. rewrite E. split; [done|]. unfold items_enc. by rewrite <- !list_fmap_compose. Qed.

Lemma int_agrees cv get set get' set' : (∀ m, get' (conv m) = get m) →
  field_agrees _ (int_field_spec (VC := VC) cv num get set) _ (int_field_spec (VC := VC') cv num get' set').
Proof. intros E m Hf. cbn in *. rewrite E. split; [done|]. by case_decide. Qed.

Lemma bool_agrees get set get' set' : (∀ m, get' (conv m) = get m) →
  field_agrees _ (bool_field_spec num get set) _ (bool_field_spec num get' set').
Proof. intros E m Hf. cbn in *. rewrite E. split; [done|]. by destruct (get m). Qed.

(** [LegacyDec] is a text in the other set. *)
Lemma text_agrees {T} (sub : CustomCodec T) `{!CustomCodecSpec sub} get set get' set' :
  (∀ m, get' (conv m) = of_bytes (cc_enc (get m))) → CustomText sub →
  field_agrees _ (custom_field_spec sub num get set) _ (string_field_spec (VC := VC') num get' set').
Proof.
  intros E Ht m Hf. cbn in *. rewrite E. destruct (Hf) as [Hc Hl]. pose proof (custom_text _ Hf) as Hne.
  split; [by rewrite <- bytes_of_length, bytes_of_of|]. rewrite decide_False.
  - by rewrite bytes_of_of.
  - intros E'. apply Hne. by rewrite <- (bytes_of_of (cc_enc (get m))), E'.
Qed.
End kinds.

Section embedded.
Context `{Rt : !PulsarRuntime, Op : !ProtoOptions, RtL : !PulsarRuntimeLaws, OpL : !ProtoOptionsLaws}.
Context {T T' : Type} (num : Z) `{Hn : !FieldNum num} (sub' : Methods T') (zero' : T') `{Hsub' : !MethodsSpec sub' zero'} (c : T → T').

Lemma custom_message_agrees (sub : CustomCodec T) `{!CustomCodecSpec sub} get set get' set' :
  (∀ m, get' (conv m) = Some (c (get m))) → CustomAgrees sub sub' zero' c →
  field_agrees _ (custom_field_spec sub num get set) _ (pl_pointer_field_spec sub' zero' num get' set').
Proof.
  intros E Hc m Hf. cbn in *. rewrite E. destruct (custom_agrees _ Hf) as [Hf' Ee]. split; [done|].
  rewrite !items_enc_one. cbn [fst]. unfold pl_enc. by rewrite Ee.
Qed.

Context (sub : MsgCodec T) (zero : T) `{Hsub : !MsgCodecSpec sub zero}.

Lemma message_agrees get set get' set' : (∀ m, get' (conv m) = Some (c (get m))) → CodecAgrees sub zero sub' zero' c →
  field_agrees _ (message_field_spec sub zero num get set) _ (pl_pointer_field_spec sub' zero' num get' set').
Proof.
  intros E Hc m Hf. cbn in *. rewrite E. destruct (codec_agrees _ Hf) as [Hf' Ee]. split; [done|].
  rewrite !items_enc_one. cbn [fst]. unfold pl_enc, sub_enc. by rewrite Ee.
Qed.

Lemma pointer_agrees get set get' set' : (∀ m, get' (conv m) = c <$> get m) → CodecAgrees sub zero sub' zero' c →
  field_agrees _ (pointer_field_spec sub zero num get set) _ (pl_pointer_field_spec sub' zero' num get' set').
Proof.
  intros E Hc m Hf. cbn in *. rewrite E. destruct (get m) as [t|]; [|done]. cbn in *.
  destruct (codec_agrees _ Hf) as [Hf' Ee]. split; [done|]. rewrite !items_enc_one. cbn [fst].
  unfold pl_enc, sub_enc. by rewrite Ee.
Qed.

Lemma messages_agree get set get' set' : (∀ m, get' (conv m) = c <$> get m) → CodecAgrees sub zero sub' zero' c →
  field_agrees _ (messages_field_spec sub zero num get set) _ (pl_messages_field_spec sub' zero' num get' set').
Proof.
  intros E Hc m Hf. cbn in *. rewrite E. clear E. generalize dependent (get m). intros l Hf.
  induction Hf as [|t l Ht Hl [IHf IHe]]; [done|]. destruct (codec_agrees _ Ht) as [Hf' Ee]. rewrite !fmap_cons.
  split; [by constructor|]. rewrite !items_enc_cons, IHe. cbn [fst]. unfold pl_enc, sub_enc. by rewrite Ee.
Qed.
End embedded.
End fields.

(** ** Message types *)
Section message.
Context `{Rt : !PulsarRuntime, Op : !ProtoOptions, RtL : !PulsarRuntimeLaws, OpL : !ProtoOptionsLaws}.
Context {T B : Type} (fields : list (Field T)) (zero : T) (fields' : list (Field B)) (zero' : B).
Context `{Hm : !MsgSpec fields zero, Hm' : !PulsarSpec fields' zero'} (conv : T → B).

(** The counterpart of a message *)
Definition api (m : T) : Pulsar B := mkPulsar [] (conv m).

Class MessageAgrees := message_agrees_all : fields_agree conv (msg_fields (fields := fields)) (pu_fields (fields := fields')).

Context `{Ha : !MessageAgrees}.

Lemma api_fits m : fields_fits (msg_fields (fields := fields)) m →
  pulsar_fits fields' zero' (api m) ∧ pulsar_enc fields' zero' (api m) = fields_enc (msg_fields (fields := fields)) m.
Proof.
  intros Hf. destruct (message_agrees_all m Hf) as [Hf' E]. split.
  - split; [done|]. exists []. done.
  - unfold pulsar_enc. cbn. by rewrite app_nil_r, E.
Qed.

#[global] Instance api_agrees : CodecAgrees (msg_codec fields) zero (ProtoMethods fields') (fresh zero') api.
Proof.
  intros m [Hf Hl]. destruct (api_fits m Hf) as [Hf' E]. split; [|exact E]. split; [exact Hf'|].
  cbn [ms_enc methods_spec]. by rewrite E.
Qed.
End message.
Arguments MessageAgrees {T B} fields zero fields' zero' {_ _} conv.

Ltac field_agree :=
  first [apply string_agrees|apply strings_agree|apply int_agrees|apply bool_agrees|eapply message_agrees|eapply pointer_agrees
        |eapply messages_agree|apply text_agrees|eapply custom_message_agrees];
  [intros []; reflexivity|try apply _..].
Ltac message_agree := red; repeat first [apply agree_nil|apply agree_cons; [field_agree|]].

(** ** Populated fields are the written ones *)
Inductive Presence {I R} : list (RField I R) → ∀ fs : list (Field R), FieldsSpec fs → Prop :=
| pr_nil : Presence [] [] fields_nil
| pr_cons r rs f fs Sf Sp : (∀ x, rf_has r x = false ↔ fs_items (f := f) x = []) → Presence rs fs Sp →
    Presence (r :: rs) (f :: fs) (fields_cons f fs Sf Sp).

Section presence.
Context {I R : Type}.

Lemma string_presence `{!VarintCode, !VarintSpec} num name get set set' `{!FieldNum num} x :
  rf_has (r_string (I := I) (R := R) name get set') x = false ↔ fs_items (FieldSpec := string_field_spec num get set) x = [].
Proof. cbn. rewrite nonempty_false. by case_decide. Qed.
Lemma bytes_presence `{!VarintCode, !VarintSpec} num name get set set' `{!FieldNum num} x :
  rf_has (r_bytes (I := I) (R := R) name get set') x = false ↔ fs_items (FieldSpec := string_field_spec num get set) x = [].
Proof. cbn. rewrite nonempty_false. by case_decide. Qed.
Lemma int_presence `{!VarintCode, !VarintSpec} num conv name wrap unwrap get set set' `{!FieldNum num} x :
  rf_has (scalar (I := I) (R := R) name 0 (λ n, negb (n =? 0)) wrap unwrap get set') x = false ↔
  fs_items (FieldSpec := int_field_spec conv num get set) x = [].
Proof. cbn. rewrite nonzero_false. by case_decide. Qed.
Lemma bool_presence num name get set set' `{!FieldNum num} x :
  rf_has (r_bool (I := I) (R := R) name get set') x = false ↔ fs_items (FieldSpec := bool_field_spec num get set) x = [].
Proof. cbn. by destruct (get x). Qed.
Lemma strings_presence `{!VarintCode, !VarintSpec} num wrap unwrap type name get set set' `{!FieldNum num} x :
  rf_has (r_list (I := I) (R := R) wrap unwrap type name get set') x = false ↔
  fs_items (FieldSpec := strings_field_spec num get set) x = [].
Proof. cbn. rewrite negb_false_iff, bool_decide_eq_true. by destruct (get x). Qed.

Context `{Rt : !PulsarRuntime, Op : !ProtoOptions, RtL : !PulsarRuntimeLaws, OpL : !ProtoOptionsLaws}.
Context {T : Type} (sub : Methods T) (zero : T) `{Hsub : !MethodsSpec sub zero} `{!GoPointer I T}.

Lemma messages_presence num wrap unwrap type name get set set' `{!FieldNum num} x :
  rf_has (r_list (I := I) (R := R) wrap unwrap type name get set') x = false ↔
  fs_items (FieldSpec := pl_messages_field_spec sub zero num get set) x = [].
Proof. cbn. rewrite negb_false_iff, bool_decide_eq_true. by destruct (get x). Qed.
Lemma message_presence num zero' name get set set' `{!FieldNum num} x :
  rf_has (r_message (I := I) (R := R) zero' name get set') x = false ↔
  fs_items (FieldSpec := pl_pointer_field_spec sub zero num get set) x = [].
Proof. cbn. by destruct (get x). Qed.
End presence.

Ltac presence :=
  repeat first [apply pr_nil|apply pr_cons;
    [intros ?; first [apply string_presence|apply bytes_presence|apply int_presence|apply bool_presence
                     |apply strings_presence|apply messages_presence|apply message_presence]|]].

(** ** Message types *)

(** A message type under [api] with its counterpart *)
Record ApiMessage (I : Type) := mkApiMessage {
  am_body : Type;
  am_zero : am_body;
  am_methods : Methods (Pulsar am_body);
  am_encodable : Pulsar am_body → Prop;
  am_fields : list (Field am_body);
  (** the encodings of the fields that are set, each with its tag *)
  am_items : Pulsar am_body → list bytes;
  am_reflect : list (RField I am_body);
  am_well_typed : am_body → Prop;
  am_counterpart : Message;
  am_api : mt_type am_counterpart → Pulsar am_body;
}.
Arguments mkApiMessage {I}.
Arguments am_body {I}.
Arguments am_zero {I}.
Arguments am_methods {I}.
Arguments am_encodable {I}.
Arguments am_fields {I}.
Arguments am_items {I}.
Arguments am_reflect {I}.
Arguments am_well_typed {I}.
Arguments am_counterpart {I}.
Arguments am_api {I}.

Section statements.
Context {I : Type} (M : ApiMessage I).

(** Size, writing and reading agree, and arbitrary bytes give a message or an error. *)
Definition api_roundtrips : Prop :=
  (∀ x Buf, am_encodable M x → ∃ dAtA, pm_marshal (am_methods M) (Some x) Buf = Ok (Buf ++ dAtA) ∧
     pm_size (am_methods M) (Some x) = llen dAtA ∧
     pm_unmarshal (am_methods M) (Some (fresh (am_zero M))) dAtA = Ok (Some x)) ∧
  (∀ x dAtA, llen dAtA < 2 ^ 63 → benign (pm_unmarshal (am_methods M) x dAtA)).

(** Both sets write the same bytes, and each reads them. *)
Definition sets_agree : Prop := ∀ m, mt_encodable (am_counterpart M) m →
  ∃ dAtA, mt_Marshal (am_counterpart M) m = Ok dAtA ∧ pm_Marshal (am_methods M) (am_api M m) = Ok dAtA ∧
    pm_Unmarshal (am_methods M) (fresh (am_zero M)) dAtA = Ok (am_api M m) ∧
    mt_Unmarshal (am_counterpart M) (mt_zero (am_counterpart M)) dAtA = Ok m.

(** Fields of a later version survive a message that does not know them: fields with any
    number and wire type, between any two of the fields that the message has.  With
    [DiscardUnknown] they are dropped, and nothing else is. *)
Definition keeps_unknown `{!ProtoOptions} : Prop := ∀ x us pieces,
  am_encodable M x → p_unknown x = [] → Forall (un_ok (am_fields M)) us →
  interleaves (am_items M x) (un_enc <$> us) pieces → llen (concat pieces) < 2 ^ 63 →
  pm_Marshal (am_methods M) x = Ok (concat (am_items M x)) ∧
  ∃ x', pm_Unmarshal (am_methods M) (fresh (am_zero M)) (concat pieces) = Ok x' ∧ p_body x' = p_body x ∧
    pm_Marshal (am_methods M) x' = Ok (concat (am_items M x) ++ if DiscardUnknown then [] else uns_enc us).
End statements.

(** The size of a field is zero exactly when reflection says that it is not populated. *)
Definition writes_populated {I} (M : ApiMessage I) : Prop := ∀ x j r f, am_encodable M x →
  am_reflect M !! j = Some r → am_fields M !! j = Some f → rf_has r (p_body x) = true ↔ f_size f (p_body x) ≠ 0.

Lemma items_enc_nil {R} num wire (l : list (item R)) : llen (items_enc num wire l) = 0 ↔ l = [].
Proof.
  split; [|by intros ->]. destruct l as [|it l]; [done|]. rewrite items_enc_cons. cbn [app]. rewrite llen_cons.
  pose proof (llen_nonneg (it.1 ++ items_enc num wire l)). lia.
Qed.

Lemma presence_size {I R} (rs : list (RField I R)) fs Sp x j r f : Presence rs fs Sp → fields_fits Sp x →
  rs !! j = Some r → fs !! j = Some f → rf_has r x = true ↔ f_size f x ≠ 0.
Proof.
  intros Hp. revert j. induction Hp as [|r' rs f' fs Sf Sp Hi _ IH]; intros j; [done|]. cbn [fields_fits]. intros [Hf Hfs].
  destruct j as [|j]; cbn; [|by apply IH]. intros [= <-] [= <-]. rewrite (fs_size x Hf), items_enc_nil, <- Hi.
  by destruct (rf_has r' x).
Qed.

Record api_message_ok {I} `{!ProtoOptions} (M : ApiMessage I) : Prop := mkApiMessageOk {
  ao_roundtrips : api_roundtrips M;
  ao_agree : sets_agree M;
  ao_unknown : keeps_unknown M;
  ao_reflects : reflects (am_reflect M) (am_zero M) (am_well_typed M);
  ao_populated : writes_populated M;
}.

Section ok.
Context `{Rt : !PulsarRuntime, Op : !ProtoOptions, RtL : !PulsarRuntimeLaws, OpL : !ProtoOptionsLaws}.
Context {I T B : Type} (fields : list (Field T)) (zero : T) (fields' : list (Field B)) (zero' : B) (rfields : list (RField I B)).
Context `{Hm : !MsgSpec fields zero, Hm' : !PulsarSpec fields' zero', Hr : !ReflectSpec rfields zero'} (conv : T → B).
Context `{Ha : !MessageAgrees fields zero fields' zero' conv}.

Definition pulsar_encodable (x : Pulsar B) : Prop := pulsar_fits fields' zero' x ∧ llen (pulsar_enc fields' zero' x) < 2 ^ 63.

Definition api_message : ApiMessage I :=
  mkApiMessage B zero' (ProtoMethods fields') pulsar_encodable fields' (λ x, fst <$> fields_items pu_fields (p_body x)) rfields (typed re_fields) (message fields zero) (api conv).

Lemma api_message_roundtrips : api_roundtrips api_message.
Proof.
  split.
  - intros x Buf [Hf Hl]. exists (pulsar_enc fields' zero' x). unfold pm_marshal, pm_unmarshal.
    cbn [am_methods am_zero api_message pm_Marshal pm_Unmarshal ProtoMethods].
    rewrite (pl_Marshal_ok fields' zero'), (pl_Unmarshal_ok fields' zero') by done.
    split_and!; [done|by apply pl_Size_ok|done].
  - intros [x|] dAtA Hd; [|done]. apply benign_bind; [by apply (pl_Unmarshal_benign fields' zero')|done].
Qed.

Lemma api_encodable m : mt_encodable (message fields zero) m → pulsar_encodable (api conv m).
Proof. intros [Hf Hl]. destruct (api_fits fields zero fields' zero' conv m Hf) as [Hf' E]. split; [done|]. by rewrite E. Qed.

Lemma api_message_agrees : sets_agree api_message.
Proof.
  intros m [Hf Hl]. destruct (msg_roundtrips fields zero m) as (d&E1&_&E2&_); [done|]. exists d.
  destruct (api_fits fields zero fields' zero' conv m Hf) as [Hf' E]. cbn in E1, E2. pose proof E1 as E1'.
  rewrite (msg_Marshal_ok fields msg_fields) in E1' by done. injection E1' as <-. rewrite <- E in *.
  split_and!; [done|by apply pl_Marshal_ok|by apply pl_Unmarshal_ok|done].
Qed.

Lemma interleaves_concat (l k r : list bytes) : interleaves l k r → llen (concat r) = llen (concat l ++ concat k).
Proof. induction 1; [done|..]; cbn [concat]; rewrite !llen_app in *; lia. Qed.

Lemma api_message_unknown : keeps_unknown api_message.
Proof.
  intros [un x] us pieces [[Hf _] Hl] E0 Hus Hi Hlen. cbn in E0, Hf, Hl. subst un.
  cbn [am_items am_fields am_methods am_zero api_message p_body] in *.
  pose proof (fields_items_enc fields' pu_fields x) as Ei. unfold pieces_enc in Ei.
  split.
  { cbn [pm_Marshal ProtoMethods]. rewrite (pl_Marshal_ok fields' zero'); [|split; [done|by exists []]|done].
    unfold pulsar_enc. cbn [p_body p_unknown]. by rewrite app_nil_r, Ei. }
  cbn [pm_Unmarshal ProtoMethods]. rewrite (pl_Unmarshal_mixed fields' zero' x (fresh zero') us pieces) by done.
  eexists. split; [done|]. cbn [p_body p_unknown fresh app]. rewrite pu_restore by done. split; [done|].
  apply interleaves_concat in Hi. rewrite Ei in Hi |- *. fold (uns_enc us) in Hi.
  cbn [pm_Marshal ProtoMethods]. rewrite (pl_Marshal_ok fields' zero'); [done| |].
  - split; [done|]. cbn [p_unknown p_body]. destruct DiscardUnknown; [by exists []|]. by exists us.
  - unfold pulsar_enc. cbn [p_body p_unknown]. destruct DiscardUnknown; [|by rewrite <- Hi].
    rewrite app_nil_r. rewrite llen_app in Hi. pose proof (llen_nonneg (uns_enc us)). lia.
Qed.

Lemma api_message_is_ok : Presence rfields fields' pu_fields → api_message_ok api_message.
Proof.
  intros Hp. split; [apply api_message_roundtrips|apply api_message_agrees|apply api_message_unknown
    |apply (reflect_spec_reflects rfields zero' Hr)|].
  intros x j r f [[Hf _] _]. by apply (presence_size rfields fields' pu_fields).
Qed.
End ok.
Ltac api_messages_ok := repeat first [apply List.Forall_nil|apply List.Forall_cons; [apply api_message_is_ok; [apply _|presence]|]].
