(* ===== verification/ProtoJwk.v ===== *)
(** * x/jwk/types: the messages and their generated code

    The types of the module's messages and, for each of the [.pb.go] files, the fields
    of every message, which determine its generated methods. *)

From S2P Require Import Prelude GoStd ProtoWire ProtoCodec.

(** ** Data *)
Record Audience := mkAudience { au_Admin : string; au_Aud : string; au_Key : string }.
Record AudienceClaim := mkAudienceClaim { ac_Signer : string }.
Record JwkParams := mkJwkParams { TimeOffset : Z; DeploymentGas : Z }.
Record JwkGenesis := mkJwkGenesis { jg_AudienceList : list Audience; jg_Params : JwkParams }.

#[global] Instance Audience_eq_dec : EqDecision Audience.
Proof. solve_decision. Defined.
#[global] Instance AudienceClaim_eq_dec : EqDecision AudienceClaim.
Proof. solve_decision. Defined.

Record MsgCreateAudience := mkCreateAudience { cr_Admin : string; cr_Aud : string; cr_Key : string }.
Record MsgUpdateAudience := mkUpdateAudience {
  ua_NewAdmin : string; ua_NewAud : string; ua_Admin : string; ua_Aud : string; ua_Key : string }.
Record MsgDeleteAudience := mkDeleteAudience { da_Admin : string; da_Aud : string }.
(** [MsgCreateAudienceClaim] and [MsgDeleteAudienceClaim] *)
Record MsgAudienceClaim := mkMsgAudienceClaim { mc_Admin : string; mc_AudHash : string }.

(** [QueryValidateJWTRequest] and [QueryDecodeJWTRequest] *)
Record QueryJWTRequest := mkQueryJWT { qj_Aud : string; qj_Sub : string; qj_SigBytes : string }.
(** A claim in a response: [PrivateClaim] and [JWTClaim] *)
Record JWTClaim := mkJWTClaim { cl_Key : string; cl_Value : string }.

#[global] Instance JWTClaim_eq_dec : EqDecision JWTClaim.
Proof. solve_decision. Defined.

(** *** [x/jwk/types/audience.pb.go] *)
Definition jwk_Audience_fields : list (Field Audience) := [
  string_field 1 au_Aud (λ v m, mkAudience (au_Admin m) v (au_Key m));
  string_field 2 au_Key (λ v m, mkAudience (au_Admin m) (au_Aud m) v);
  string_field 3 au_Admin (λ v m, mkAudience v (au_Aud m) (au_Key m))].
Definition jwk_Audience_zero : Audience := mkAudience "" "" "".
#[global] Instance jwk_Audience_spec : MsgSpec jwk_Audience_fields jwk_Audience_zero.
Proof. msg_spec. Defined.

Definition jwk_AudienceClaim_fields : list (Field AudienceClaim) := [
  string_field 1 ac_Signer (λ v _, mkAudienceClaim v)].
Definition jwk_AudienceClaim_zero : AudienceClaim := mkAudienceClaim "".
#[global] Instance jwk_AudienceClaim_spec : MsgSpec jwk_AudienceClaim_fields jwk_AudienceClaim_zero.
Proof. msg_spec. Defined.

(** *** [x/jwk/types/params.pb.go] *)
Definition jwk_Params_fields : list (Field JwkParams) := [
  int_field id 1 TimeOffset (λ v m, mkJwkParams v (DeploymentGas m));
  int_field id 2 DeploymentGas (λ v m, mkJwkParams (TimeOffset m) v)].
Definition jwk_Params_zero : JwkParams := mkJwkParams 0 0.
#[global] Instance jwk_Params_spec : MsgSpec jwk_Params_fields jwk_Params_zero.
Proof. msg_spec. Defined.

(** *** [x/jwk/types/genesis.pb.go] *)
Definition jwk_GenesisState_fields : list (Field JwkGenesis) := [
  message_field (msg_codec jwk_Params_fields) 1 jg_Params (λ v m, mkJwkGenesis (jg_AudienceList m) v);
  messages_field (msg_codec jwk_Audience_fields) jwk_Audience_zero 2 jg_AudienceList (λ v m, mkJwkGenesis v (jg_Params
    m))].
Definition jwk_GenesisState_zero : JwkGenesis := mkJwkGenesis [] jwk_Params_zero.
#[global] Instance jwk_GenesisState_spec : MsgSpec jwk_GenesisState_fields jwk_GenesisState_zero.
Proof. msg_spec. Defined.

(** *** [x/jwk/types/tx.pb.go] *)
Definition jwk_MsgCreateAudienceClaim_fields : list (Field MsgAudienceClaim) := [
  string_field 1 mc_Admin (λ v m, mkMsgAudienceClaim v (mc_AudHash m));
  string_field 2 mc_AudHash (λ v m, mkMsgAudienceClaim (mc_Admin m) v)].
Definition jwk_MsgCreateAudienceClaim_zero : MsgAudienceClaim := mkMsgAudienceClaim "" "".
#[global] Instance jwk_MsgCreateAudienceClaim_spec : MsgSpec jwk_MsgCreateAudienceClaim_fields jwk_MsgCreateAudienceClaim_zero.
Proof. msg_spec. Defined.

Definition jwk_MsgDeleteAudienceClaim_fields : list (Field MsgAudienceClaim) := [
  string_field 1 mc_Admin (λ v m, mkMsgAudienceClaim v (mc_AudHash m));
  string_field 2 mc_AudHash (λ v m, mkMsgAudienceClaim (mc_Admin m) v)].
Definition jwk_MsgDeleteAudienceClaim_zero : MsgAudienceClaim := mkMsgAudienceClaim "" "".
#[global] Instance jwk_MsgDeleteAudienceClaim_spec : MsgSpec jwk_MsgDeleteAudienceClaim_fields jwk_MsgDeleteAudienceClaim_zero.
Proof. msg_spec. Defined.

Definition jwk_MsgCreateAudience_fields : list (Field MsgCreateAudience) := [
  string_field 1 cr_Admin (λ v m, mkCreateAudience v (cr_Aud m) (cr_Key m));
  string_field 2 cr_Aud (λ v m, mkCreateAudience (cr_Admin m) v (cr_Key m));
  string_field 3 cr_Key (λ v m, mkCreateAudience (cr_Admin m) (cr_Aud m) v)].
Definition jwk_MsgCreateAudience_zero : MsgCreateAudience := mkCreateAudience "" "" "".
#[global] Instance jwk_MsgCreateAudience_spec : MsgSpec jwk_MsgCreateAudience_fields jwk_MsgCreateAudience_zero.
Proof. msg_spec. Defined.

Record jwk_MsgCreateAudienceResponse := mk_jwk_MsgCreateAudienceResponse {
  jwk_MsgCreateAudienceResponse_Audience : option Audience }.
Definition jwk_MsgCreateAudienceResponse_fields : list (Field jwk_MsgCreateAudienceResponse) := [
  pointer_field (msg_codec jwk_Audience_fields) jwk_Audience_zero 1 jwk_MsgCreateAudienceResponse_Audience (λ v _,
    mk_jwk_MsgCreateAudienceResponse v)].
Definition jwk_MsgCreateAudienceResponse_zero : jwk_MsgCreateAudienceResponse := mk_jwk_MsgCreateAudienceResponse None.
#[global] Instance jwk_MsgCreateAudienceResponse_spec : MsgSpec jwk_MsgCreateAudienceResponse_fields jwk_MsgCreateAudienceResponse_zero.
Proof. msg_spec. Defined.

Definition jwk_MsgUpdateAudience_fields : list (Field MsgUpdateAudience) := [
  string_field 1 ua_Admin (λ v m, mkUpdateAudience (ua_NewAdmin m) (ua_NewAud m) v (ua_Aud m) (ua_Key m));
  string_field 2 ua_NewAdmin (λ v m, mkUpdateAudience v (ua_NewAud m) (ua_Admin m) (ua_Aud m) (ua_Key m));
  string_field 3 ua_Aud (λ v m, mkUpdateAudience (ua_NewAdmin m) (ua_NewAud m) (ua_Admin m) v (ua_Key m));
  string_field 4 ua_Key (λ v m, mkUpdateAudience (ua_NewAdmin m) (ua_NewAud m) (ua_Admin m) (ua_Aud m) v);
  string_field 5 ua_NewAud (λ v m, mkUpdateAudience (ua_NewAdmin m) v (ua_Admin m) (ua_Aud m) (ua_Key m))].
Definition jwk_MsgUpdateAudience_zero : MsgUpdateAudience := mkUpdateAudience "" "" "" "" "".
#[global] Instance jwk_MsgUpdateAudience_spec : MsgSpec jwk_MsgUpdateAudience_fields jwk_MsgUpdateAudience_zero.
Proof. msg_spec. Defined.

Record jwk_MsgUpdateAudienceResponse := mk_jwk_MsgUpdateAudienceResponse {
  jwk_MsgUpdateAudienceResponse_Audience : option Audience }.
Definition jwk_MsgUpdateAudienceResponse_fields : list (Field jwk_MsgUpdateAudienceResponse) := [
  pointer_field (msg_codec jwk_Audience_fields) jwk_Audience_zero 1 jwk_MsgUpdateAudienceResponse_Audience (λ v _,
    mk_jwk_MsgUpdateAudienceResponse v)].
Definition jwk_MsgUpdateAudienceResponse_zero : jwk_MsgUpdateAudienceResponse := mk_jwk_MsgUpdateAudienceResponse None.
#[global] Instance jwk_MsgUpdateAudienceResponse_spec : MsgSpec jwk_MsgUpdateAudienceResponse_fields jwk_MsgUpdateAudienceResponse_zero.
Proof. msg_spec. Defined.

Definition jwk_MsgDeleteAudience_fields : list (Field MsgDeleteAudience) := [
  string_field 1 da_Admin (λ v m, mkDeleteAudience v (da_Aud m));
  string_field 2 da_Aud (λ v m, mkDeleteAudience (da_Admin m) v)].
Definition jwk_MsgDeleteAudience_zero : MsgDeleteAudience := mkDeleteAudience "" "".
#[global] Instance jwk_MsgDeleteAudience_spec : MsgSpec jwk_MsgDeleteAudience_fields jwk_MsgDeleteAudience_zero.
Proof. msg_spec. Defined.

(** *** [x/jwk/types/query.pb.go] *)
Record jwk_QueryParamsResponse := mk_jwk_QueryParamsResponse { jwk_QueryParamsResponse_Params : JwkParams }.
Definition jwk_QueryParamsResponse_fields : list (Field jwk_QueryParamsResponse) := [
  message_field (msg_codec jwk_Params_fields) 1 jwk_QueryParamsResponse_Params (λ v _, mk_jwk_QueryParamsResponse v)].
Definition jwk_QueryParamsResponse_zero : jwk_QueryParamsResponse := mk_jwk_QueryParamsResponse jwk_Params_zero.
#[global] Instance jwk_QueryParamsResponse_spec : MsgSpec jwk_QueryParamsResponse_fields jwk_QueryParamsResponse_zero.
Proof. msg_spec. Defined.

Record jwk_QueryAudienceClaimRequest := mk_jwk_QueryAudienceClaimRequest { jwk_QueryAudienceClaimRequest_Hash : string
  }.
Definition jwk_QueryAudienceClaimRequest_fields : list (Field jwk_QueryAudienceClaimRequest) := [
  string_field 1 jwk_QueryAudienceClaimRequest_Hash (λ v _, mk_jwk_QueryAudienceClaimRequest v)].
Definition jwk_QueryAudienceClaimRequest_zero : jwk_QueryAudienceClaimRequest := mk_jwk_QueryAudienceClaimRequest "".
#[global] Instance jwk_QueryAudienceClaimRequest_spec : MsgSpec jwk_QueryAudienceClaimRequest_fields jwk_QueryAudienceClaimRequest_zero.
Proof. msg_spec. Defined.

Record jwk_QueryAudienceClaimResponse := mk_jwk_QueryAudienceClaimResponse {
  jwk_QueryAudienceClaimResponse_Claim : option AudienceClaim }.
Definition jwk_QueryAudienceClaimResponse_fields : list (Field jwk_QueryAudienceClaimResponse) := [
  pointer_field (msg_codec jwk_AudienceClaim_fields) jwk_AudienceClaim_zero 1 jwk_QueryAudienceClaimResponse_Claim (λ
    v _, mk_jwk_QueryAudienceClaimResponse v)].
Definition jwk_QueryAudienceClaimResponse_zero : jwk_QueryAudienceClaimResponse := mk_jwk_QueryAudienceClaimResponse None.
#[global] Instance jwk_QueryAudienceClaimResponse_spec : MsgSpec jwk_QueryAudienceClaimResponse_fields jwk_QueryAudienceClaimResponse_zero.
Proof. msg_spec. Defined.

Record jwk_QueryGetAudienceClaimRequest := mk_jwk_QueryGetAudienceClaimRequest {
  jwk_QueryGetAudienceClaimRequest_Hash : string }.
Definition jwk_QueryGetAudienceClaimRequest_fields : list (Field jwk_QueryGetAudienceClaimRequest) := [
  string_field 1 jwk_QueryGetAudienceClaimRequest_Hash (λ v _, mk_jwk_QueryGetAudienceClaimRequest v)].
Definition jwk_QueryGetAudienceClaimRequest_zero : jwk_QueryGetAudienceClaimRequest := mk_jwk_QueryGetAudienceClaimRequest "".
#[global] Instance jwk_QueryGetAudienceClaimRequest_spec : MsgSpec jwk_QueryGetAudienceClaimRequest_fields jwk_QueryGetAudienceClaimRequest_zero.
Proof. msg_spec. Defined.

Record jwk_QueryGetAudienceClaimResponse := mk_jwk_QueryGetAudienceClaimResponse {
  jwk_QueryGetAudienceClaimResponse_Claim : option AudienceClaim }.
Definition jwk_QueryGetAudienceClaimResponse_fields : list (Field jwk_QueryGetAudienceClaimResponse) := [
  pointer_field (msg_codec jwk_AudienceClaim_fields) jwk_AudienceClaim_zero 1 jwk_QueryGetAudienceClaimResponse_Claim
    (λ v _, mk_jwk_QueryGetAudienceClaimResponse v)].
Definition jwk_QueryGetAudienceClaimResponse_zero : jwk_QueryGetAudienceClaimResponse := mk_jwk_QueryGetAudienceClaimResponse None.
#[global] Instance jwk_QueryGetAudienceClaimResponse_spec : MsgSpec jwk_QueryGetAudienceClaimResponse_fields jwk_QueryGetAudienceClaimResponse_zero.
Proof. msg_spec. Defined.

Record jwk_QueryAudienceRequest := mk_jwk_QueryAudienceRequest { jwk_QueryAudienceRequest_Aud : string }.
Definition jwk_QueryAudienceRequest_fields : list (Field jwk_QueryAudienceRequest) := [
  string_field 1 jwk_QueryAudienceRequest_Aud (λ v _, mk_jwk_QueryAudienceRequest v)].
Definition jwk_QueryAudienceRequest_zero : jwk_QueryAudienceRequest := mk_jwk_QueryAudienceRequest "".
#[global] Instance jwk_QueryAudienceRequest_spec : MsgSpec jwk_QueryAudienceRequest_fields jwk_QueryAudienceRequest_zero.
Proof. msg_spec. Defined.

Record jwk_QueryAudienceResponse := mk_jwk_QueryAudienceResponse { jwk_QueryAudienceResponse_Audience : Audience }.
Definition jwk_QueryAudienceResponse_fields : list (Field jwk_QueryAudienceResponse) := [
  message_field (msg_codec jwk_Audience_fields) 1 jwk_QueryAudienceResponse_Audience (λ v _,
    mk_jwk_QueryAudienceResponse v)].
Definition jwk_QueryAudienceResponse_zero : jwk_QueryAudienceResponse := mk_jwk_QueryAudienceResponse jwk_Audience_zero.
#[global] Instance jwk_QueryAudienceResponse_spec : MsgSpec jwk_QueryAudienceResponse_fields jwk_QueryAudienceResponse_zero.
Proof. msg_spec. Defined.

Record jwk_QueryGetAudienceRequest := mk_jwk_QueryGetAudienceRequest { jwk_QueryGetAudienceRequest_Aud : string }.
Definition jwk_QueryGetAudienceRequest_fields : list (Field jwk_QueryGetAudienceRequest) := [
  string_field 1 jwk_QueryGetAudienceRequest_Aud (λ v _, mk_jwk_QueryGetAudienceRequest v)].
Definition jwk_QueryGetAudienceRequest_zero : jwk_QueryGetAudienceRequest := mk_jwk_QueryGetAudienceRequest "".
#[global] Instance jwk_QueryGetAudienceRequest_spec : MsgSpec jwk_QueryGetAudienceRequest_fields jwk_QueryGetAudienceRequest_zero.
Proof. msg_spec. Defined.

Record jwk_QueryGetAudienceResponse := mk_jwk_QueryGetAudienceResponse {
  jwk_QueryGetAudienceResponse_Audience : Audience }.
Definition jwk_QueryGetAudienceResponse_fields : list (Field jwk_QueryGetAudienceResponse) := [
  message_field (msg_codec jwk_Audience_fields) 1 jwk_QueryGetAudienceResponse_Audience (λ v _,
    mk_jwk_QueryGetAudienceResponse v)].
Definition jwk_QueryGetAudienceResponse_zero : jwk_QueryGetAudienceResponse := mk_jwk_QueryGetAudienceResponse jwk_Audience_zero.
#[global] Instance jwk_QueryGetAudienceResponse_spec : MsgSpec jwk_QueryGetAudienceResponse_fields jwk_QueryGetAudienceResponse_zero.
Proof. msg_spec. Defined.

Definition jwk_QueryValidateJWTRequest_fields : list (Field QueryJWTRequest) := [
  string_field 1 qj_Aud (λ v m, mkQueryJWT v (qj_Sub m) (qj_SigBytes m));
  string_field 2 qj_Sub (λ v m, mkQueryJWT (qj_Aud m) v (qj_SigBytes m));
  string_field 3 qj_SigBytes (λ v m, mkQueryJWT (qj_Aud m) (qj_Sub m) v)].
Definition jwk_QueryValidateJWTRequest_zero : QueryJWTRequest := mkQueryJWT "" "" "".
#[global] Instance jwk_QueryValidateJWTRequest_spec : MsgSpec jwk_QueryValidateJWTRequest_fields jwk_QueryValidateJWTRequest_zero.
Proof. msg_spec. Defined.

Definition jwk_PrivateClaim_fields : list (Field JWTClaim) := [
  string_field 1 cl_Key (λ v m, mkJWTClaim v (cl_Value m));
  string_field 2 cl_Value (λ v m, mkJWTClaim (cl_Key m) v)].
Definition jwk_PrivateClaim_zero : JWTClaim := mkJWTClaim "" "".
#[global] Instance jwk_PrivateClaim_spec : MsgSpec jwk_PrivateClaim_fields jwk_PrivateClaim_zero.
Proof. msg_spec. Defined.

Record jwk_QueryValidateJWTResponse := mk_jwk_QueryValidateJWTResponse {
  jwk_QueryValidateJWTResponse_PrivateClaims : list JWTClaim }.
Definition jwk_QueryValidateJWTResponse_fields : list (Field jwk_QueryValidateJWTResponse) := [
  messages_field (msg_codec jwk_PrivateClaim_fields) jwk_PrivateClaim_zero 1
    jwk_QueryValidateJWTResponse_PrivateClaims (λ v _, mk_jwk_QueryValidateJWTResponse v)].
Definition jwk_QueryValidateJWTResponse_zero : jwk_QueryValidateJWTResponse := mk_jwk_QueryValidateJWTResponse [].
#[global] Instance jwk_QueryValidateJWTResponse_spec : MsgSpec jwk_QueryValidateJWTResponse_fields jwk_QueryValidateJWTResponse_zero.
Proof. msg_spec. Defined.

Record jwk_QueryVerifyJWSRequest := mk_jwk_QueryVerifyJWSRequest { jwk_QueryVerifyJWSRequest_Aud : string;
  jwk_QueryVerifyJWSRequest_SigBytes : string }.
Definition jwk_QueryVerifyJWSRequest_fields : list (Field jwk_QueryVerifyJWSRequest) := [
  string_field 1 jwk_QueryVerifyJWSRequest_Aud (λ v m, mk_jwk_QueryVerifyJWSRequest v
    (jwk_QueryVerifyJWSRequest_SigBytes m));
  string_field 2 jwk_QueryVerifyJWSRequest_SigBytes (λ v m, mk_jwk_QueryVerifyJWSRequest
    (jwk_QueryVerifyJWSRequest_Aud m) v)].
Definition jwk_QueryVerifyJWSRequest_zero : jwk_QueryVerifyJWSRequest := mk_jwk_QueryVerifyJWSRequest "" "".
#[global] Instance jwk_QueryVerifyJWSRequest_spec : MsgSpec jwk_QueryVerifyJWSRequest_fields jwk_QueryVerifyJWSRequest_zero.
Proof. msg_spec. Defined.

Record jwk_QueryVerifyJWSResponse := mk_jwk_QueryVerifyJWSResponse { jwk_QueryVerifyJWSResponse_Payload : string }.
Definition jwk_QueryVerifyJWSResponse_fields : list (Field jwk_QueryVerifyJWSResponse) := [
  string_field 1 jwk_QueryVerifyJWSResponse_Payload (λ v _, mk_jwk_QueryVerifyJWSResponse v)].
Definition jwk_QueryVerifyJWSResponse_zero : jwk_QueryVerifyJWSResponse := mk_jwk_QueryVerifyJWSResponse "".
#[global] Instance jwk_QueryVerifyJWSResponse_spec : MsgSpec jwk_QueryVerifyJWSResponse_fields jwk_QueryVerifyJWSResponse_zero.
Proof. msg_spec. Defined.

Definition jwk_QueryDecodeJWTRequest_fields : list (Field QueryJWTRequest) := [
  string_field 1 qj_Aud (λ v m, mkQueryJWT v (qj_Sub m) (qj_SigBytes m));
  string_field 2 qj_Sub (λ v m, mkQueryJWT (qj_Aud m) v (qj_SigBytes m));
  string_field 3 qj_SigBytes (λ v m, mkQueryJWT (qj_Aud m) (qj_Sub m) v)].
Definition jwk_QueryDecodeJWTRequest_zero : QueryJWTRequest := mkQueryJWT "" "" "".
#[global] Instance jwk_QueryDecodeJWTRequest_spec : MsgSpec jwk_QueryDecodeJWTRequest_fields jwk_QueryDecodeJWTRequest_zero.
Proof. msg_spec. Defined.

Definition jwk_JWTClaim_fields : list (Field JWTClaim) := [
  string_field 1 cl_Key (λ v m, mkJWTClaim v (cl_Value m));
  string_field 2 cl_Value (λ v m, mkJWTClaim (cl_Key m) v)].
Definition jwk_JWTClaim_zero : JWTClaim := mkJWTClaim "" "".
#[global] Instance jwk_JWTClaim_spec : MsgSpec jwk_JWTClaim_fields jwk_JWTClaim_zero.
Proof. msg_spec. Defined.

Record jwk_QueryDecodeJWTResponse := mk_jwk_QueryDecodeJWTResponse { jwk_QueryDecodeJWTResponse_Claims : list JWTClaim
  }.
Definition jwk_QueryDecodeJWTResponse_fields : list (Field jwk_QueryDecodeJWTResponse) := [
  messages_field (msg_codec jwk_JWTClaim_fields) jwk_JWTClaim_zero 1 jwk_QueryDecodeJWTResponse_Claims (λ v _,
    mk_jwk_QueryDecodeJWTResponse v)].
Definition jwk_QueryDecodeJWTResponse_zero : jwk_QueryDecodeJWTResponse := mk_jwk_QueryDecodeJWTResponse [].
#[global] Instance jwk_QueryDecodeJWTResponse_spec : MsgSpec jwk_QueryDecodeJWTResponse_fields jwk_QueryDecodeJWTResponse_zero.
Proof. msg_spec. Defined.

(** ** The message types *)
Definition jwk_messages : list Message := [ message jwk_Audience_fields jwk_Audience_zero;
  message jwk_AudienceClaim_fields jwk_AudienceClaim_zero; message jwk_Params_fields jwk_Params_zero;
  message jwk_GenesisState_fields jwk_GenesisState_zero;
  message jwk_MsgCreateAudienceClaim_fields jwk_MsgCreateAudienceClaim_zero;
  message jwk_MsgDeleteAudienceClaim_fields jwk_MsgDeleteAudienceClaim_zero;
  message jwk_MsgCreateAudience_fields jwk_MsgCreateAudience_zero;
  message jwk_MsgCreateAudienceResponse_fields jwk_MsgCreateAudienceResponse_zero;
  message jwk_MsgUpdateAudience_fields jwk_MsgUpdateAudience_zero;
  message jwk_MsgUpdateAudienceResponse_fields jwk_MsgUpdateAudienceResponse_zero;
  message jwk_MsgDeleteAudience_fields jwk_MsgDeleteAudience_zero;
  message jwk_QueryParamsResponse_fields jwk_QueryParamsResponse_zero;
  message jwk_QueryAudienceClaimRequest_fields jwk_QueryAudienceClaimRequest_zero;
  message jwk_QueryAudienceClaimResponse_fields jwk_QueryAudienceClaimResponse_zero;
  message jwk_QueryGetAudienceClaimRequest_fields jwk_QueryGetAudienceClaimRequest_zero;
  message jwk_QueryGetAudienceClaimResponse_fields jwk_QueryGetAudienceClaimResponse_zero;
  message jwk_QueryAudienceRequest_fields jwk_QueryAudienceRequest_zero;
  message jwk_QueryAudienceResponse_fields jwk_QueryAudienceResponse_zero;
  message jwk_QueryGetAudienceRequest_fields jwk_QueryGetAudienceRequest_zero;
  message jwk_QueryGetAudienceResponse_fields jwk_QueryGetAudienceResponse_zero;
  message jwk_QueryValidateJWTRequest_fields jwk_QueryValidateJWTRequest_zero;
  message jwk_PrivateClaim_fields jwk_PrivateClaim_zero;
  message jwk_QueryValidateJWTResponse_fields jwk_QueryValidateJWTResponse_zero;
  message jwk_QueryVerifyJWSRequest_fields jwk_QueryVerifyJWSRequest_zero;
  message jwk_QueryVerifyJWSResponse_fields jwk_QueryVerifyJWSResponse_zero;
  message jwk_QueryDecodeJWTRequest_fields jwk_QueryDecodeJWTRequest_zero;
  message jwk_JWTClaim_fields jwk_JWTClaim_zero;
  message jwk_QueryDecodeJWTResponse_fields jwk_QueryDecodeJWTResponse_zero ].

Lemma jwk_messages_ok : Forall message_ok jwk_messages.
Proof. messages_ok. Qed.

(** ** Messages that embed types of the dependencies *)
Section imported.
Context {PageRequest PageResponse : Type} `{IPageRequest : !ImportedMsg PageRequest, IPageResponse : !ImportedMsg PageResponse}.
Context `{LPageRequest : !ImportedLaws PageRequest, LPageResponse : !ImportedLaws PageResponse}.

(** *** [x/jwk/types/query.pb.go] *)
Record jwk_QueryAudienceAllRequest := mk_jwk_QueryAudienceAllRequest {
  jwk_QueryAudienceAllRequest_Pagination : option PageRequest }.
Definition jwk_QueryAudienceAllRequest_fields : list (Field jwk_QueryAudienceAllRequest) := [
  pointer_field im_codec im_zero 1 jwk_QueryAudienceAllRequest_Pagination (λ v _, mk_jwk_QueryAudienceAllRequest v)].
Definition jwk_QueryAudienceAllRequest_zero : jwk_QueryAudienceAllRequest := mk_jwk_QueryAudienceAllRequest None.
#[global] Instance jwk_QueryAudienceAllRequest_spec : MsgSpec jwk_QueryAudienceAllRequest_fields jwk_QueryAudienceAllRequest_zero.
Proof. msg_spec. Defined.

Record jwk_QueryAudienceAllResponse := mk_jwk_QueryAudienceAllResponse {
  jwk_QueryAudienceAllResponse_Audience : list Audience; jwk_QueryAudienceAllResponse_Pagination : option PageResponse
  }.
Definition jwk_QueryAudienceAllResponse_fields : list (Field jwk_QueryAudienceAllResponse) := [
  messages_field (msg_codec jwk_Audience_fields) jwk_Audience_zero 1 jwk_QueryAudienceAllResponse_Audience (λ v m,
    mk_jwk_QueryAudienceAllResponse v (jwk_QueryAudienceAllResponse_Pagination m));
  pointer_field im_codec im_zero 2 jwk_QueryAudienceAllResponse_Pagination (λ v m, mk_jwk_QueryAudienceAllResponse
    (jwk_QueryAudienceAllResponse_Audience m) v)].
Definition jwk_QueryAudienceAllResponse_zero : jwk_QueryAudienceAllResponse := mk_jwk_QueryAudienceAllResponse [] None.
#[global] Instance jwk_QueryAudienceAllResponse_spec : MsgSpec jwk_QueryAudienceAllResponse_fields jwk_QueryAudienceAllResponse_zero.
Proof. msg_spec. Defined.

Record jwk_QueryAllAudienceRequest := mk_jwk_QueryAllAudienceRequest {
  jwk_QueryAllAudienceRequest_Pagination : option PageRequest }.
Definition jwk_QueryAllAudienceRequest_fields : list (Field jwk_QueryAllAudienceRequest) := [
  pointer_field im_codec im_zero 1 jwk_QueryAllAudienceRequest_Pagination (λ v _, mk_jwk_QueryAllAudienceRequest v)].
Definition jwk_QueryAllAudienceRequest_zero : jwk_QueryAllAudienceRequest := mk_jwk_QueryAllAudienceRequest None.
#[global] Instance jwk_QueryAllAudienceRequest_spec : MsgSpec jwk_QueryAllAudienceRequest_fields jwk_QueryAllAudienceRequest_zero.
Proof. msg_spec. Defined.

Record jwk_QueryAllAudienceResponse := mk_jwk_QueryAllAudienceResponse {
  jwk_QueryAllAudienceResponse_Audience : list Audience; jwk_QueryAllAudienceResponse_Pagination : option PageResponse
  }.
Definition jwk_QueryAllAudienceResponse_fields : list (Field jwk_QueryAllAudienceResponse) := [
  messages_field (msg_codec jwk_Audience_fields) jwk_Audience_zero 1 jwk_QueryAllAudienceResponse_Audience (λ v m,
    mk_jwk_QueryAllAudienceResponse v (jwk_QueryAllAudienceResponse_Pagination m));
  pointer_field im_codec im_zero 2 jwk_QueryAllAudienceResponse_Pagination (λ v m, mk_jwk_QueryAllAudienceResponse
    (jwk_QueryAllAudienceResponse_Audience m) v)].
Definition jwk_QueryAllAudienceResponse_zero : jwk_QueryAllAudienceResponse := mk_jwk_QueryAllAudienceResponse [] None.
#[global] Instance jwk_QueryAllAudienceResponse_spec : MsgSpec jwk_QueryAllAudienceResponse_fields jwk_QueryAllAudienceResponse_zero.
Proof. msg_spec. Defined.

Definition jwk_messages_imported : list Message := [
  message jwk_QueryAudienceAllRequest_fields jwk_QueryAudienceAllRequest_zero;
  message jwk_QueryAudienceAllResponse_fields jwk_QueryAudienceAllResponse_zero;
  message jwk_QueryAllAudienceRequest_fields jwk_QueryAllAudienceRequest_zero;
  message jwk_QueryAllAudienceResponse_fields jwk_QueryAllAudienceResponse_zero ].

Lemma jwk_messages_imported_ok : Forall message_ok jwk_messages_imported.
Proof. messages_ok. Qed.
End imported.
