(* ===== verification/Sdk.v ===== *)
(** * Interfaces to the Cosmos SDK and the other dependencies

    Nothing here is code of this repository.  Each [Class] lists the operations
    of a dependency that the modelled modules call; a class named [...Laws]
    states, as hypotheses, the documented behaviour that a theorem relies on.
    [SdkModel.v] gives concrete instances, so the laws can hold together. *)

From S2P Require Import Prelude GoStd.

(** ** cosmossdk.io/math: [Int]

    An [sdkmath.Int] is identified with the integer it holds; its operations
    panic when the result leaves the range of 256-bit magnitudes. *)
Definition int_range (z : Z) : Prop := Z.abs z < 2 ^ 256.

Class SdkMath := {
  Int_Mul : Z → Z → outcome Z;
  Int_Add : Z → Z → outcome Z;
  Int_Quo : Z → Z → outcome Z;
  NewIntFromBigInt : Z → outcome Z;
}.

Class SdkMathLaws `{!SdkMath} := {
  Int_Mul_ok a b : int_range (a * b) → Int_Mul a b = Ok (a * b);
  Int_Add_ok a b : int_range (a + b) → Int_Add a b = Ok (a + b);
  Int_Quo_ok a b : b ≠ 0 → Int_Quo a b = Ok (Z.quot a b);
  NewIntFromBigInt_ok a : int_range a → NewIntFromBigInt a = Ok a;
}.

(** ** github.com/cosmos/cosmos-sdk/types: [Coin] and [Coins] *)
Record Coin := mkCoin { coin_Denom : string; coin_Amount : Z }.
Abbreviation Coins := (list Coin).

#[global] Instance Coin_eq_dec : EqDecision Coin.
Proof. solve_decision. Defined.

(** The amount of one denomination in a list of coins. *)
Definition amount_of (cs : Coins) (d : string) : Z :=
  sumZ (λ c, if decide (coin_Denom c = d) then coin_Amount c else 0) cs.
#[global] Arguments amount_of : simpl never.

Class CoinsOps := {
  ValidateDenom : string → bool;
  NewCoin : string → Z → outcome Coin;
  Coins_Add : Coins → Coins → outcome Coins;
  Coins_Sub : Coins → Coins → outcome Coins;
  Coins_SafeSub : Coins → Coins → outcome (Coins * bool);
  Coins_IsZero : Coins → bool;
  Coins_IsValid : Coins → bool;
  Coins_IsAllPositive : Coins → bool;
  Coins_IsAnyNegative : Coins → bool;
}.

(** Strictly sorted by denomination. *)
Definition coins_sorted (cs : Coins) : Prop :=
  StronglySorted (λ a b, str_lt (coin_Denom a) (coin_Denom b)) cs.

(** What [Coins.IsValid] promises: sorted, unique, valid denominations and
    positive amounts. *)
Definition coins_valid `{!CoinsOps} (cs : Coins) : Prop :=
  coins_sorted cs ∧
  Forall (λ c, ValidateDenom (coin_Denom c) = true ∧ 0 < coin_Amount c < 2 ^ 256) cs.

Class CoinsLaws `{!CoinsOps} := {
  NewCoin_ok d a :
    ValidateDenom d = true → 0 ≤ a → NewCoin d a = Ok (mkCoin d a);
  (** [Add] adds denomination-wise, never returns a non-positive coin. *)
  Coins_Add_ok A B :
    coins_valid A → coins_sorted B →
    Forall (λ c, ValidateDenom (coin_Denom c) = true ∧ 0 ≤ coin_Amount c) B →
    (∀ d, amount_of A d + amount_of B d < 2 ^ 256) →
    ∃ C, Coins_Add A B = Ok C ∧ coins_valid C ∧
         ∀ d, amount_of C d = amount_of A d + amount_of B d;
  (** [SafeSub] subtracts denomination-wise and says whether a result went negative. *)
  Coins_SafeSub_ok A B :
    coins_valid A → coins_valid B → (∀ d, amount_of B d ≤ amount_of A d) →
    ∃ C, Coins_SafeSub A B = Ok (C, false) ∧ coins_valid C ∧
         ∀ d, amount_of C d = amount_of A d - amount_of B d;
  (** [Sub] is [SafeSub] that panics on a negative result. *)
  Coins_Sub_SafeSub A B :
    Coins_Sub A B = (Coins_SafeSub A B ≫= λ '(C, neg), if neg : bool then Panic else Ok C);
  Coins_IsZero_spec A : coins_valid A → Coins_IsZero A = bool_decide (A = []);
  Coins_IsValid_spec A : Coins_IsValid A = true ↔ coins_valid A;
}.

(** ** Addresses *)
Abbreviation AccAddress := string (only parsing).

Class AddressCodec := {
  AccAddressFromBech32 : string → outcome AccAddress;
  AccAddress_String : AccAddress → string;
}.

Class AddressLaws `{!AddressCodec} := {
  AccAddress_roundtrip s a :
    AccAddressFromBech32 s = Ok a → AccAddressFromBech32 (AccAddress_String a) = Ok a;
}.

(** github.com/btcsuite/btcd/btcutil/bech32: [Decode] and [ConvertBits]. *)
Class Bech32 := {
  bech32_Decode : string → outcome (string * string);
  bech32_ConvertBits : string → Z → Z → bool → outcome string;
}.

(** ** x/bank: message types and keeper *)
Record Input := mkInput { in_Address : string; in_Coins : Coins }.
Record Output := mkOutput { out_Address : string; out_Coins : Coins }.

Class BankTypes := {
  ValidateInputOutputs : Input → list Output → outcome unit;
}.

Class BankTypesLaws `{!CoinsOps} `{!BankTypes} := {
  (** valid coins everywhere, and the outputs add up to the input *)
  ValidateInputOutputs_ok i os u :
    ValidateInputOutputs i os = Ok u →
    coins_valid (in_Coins i) ∧ Forall (λ o, coins_valid (out_Coins o)) os ∧
    ∀ d, sumZ (λ o, amount_of (out_Coins o) d) os = amount_of (in_Coins i) d;
}.

Class BankKeeper (B : Type) := {
  IsSendEnabledCoins : B → Coins → outcome unit;
  BlockedAddr : B → AccAddress → bool;
  SendCoins : AccAddress → AccAddress → Coins → M B unit;
  SendCoinsFromAccountToModule : AccAddress → string → Coins → M B unit;
  InputOutputCoins : Input → list Output → M B unit;
  GetModuleAddress : string → AccAddress;
}.

(** [amt d] counted when the address is the one named. *)
Definition at_addr (a b : AccAddress) (z : Z) : Z := if decide (a = b) then z else 0.

Definition at_bech32 `{!AddressCodec} (s : string) (b : AccAddress) (z : Z) : Z :=
  match AccAddressFromBech32 s with Ok a => at_addr a b z | _ => 0 end.

Class BankLaws (B : Type) `{!BankKeeper B} `{!AddressCodec} := {
  bank_balance : B → AccAddress → string → Z;
  SendCoins_ok f t amt b b' u :
    SendCoins f t amt b = (b', Ok u) →
    ∀ a d, bank_balance b' a d =
           bank_balance b a d - at_addr f a (amount_of amt d) + at_addr t a (amount_of amt d);
  SendCoinsFromAccountToModule_ok f m amt b b' u :
    SendCoinsFromAccountToModule f m amt b = (b', Ok u) →
    ∀ a d, bank_balance b' a d =
           bank_balance b a d - at_addr f a (amount_of amt d)
           + at_addr (GetModuleAddress m) a (amount_of amt d);
  InputOutputCoins_ok i os b b' u :
    InputOutputCoins i os b = (b', Ok u) →
    ∀ a d, bank_balance b' a d =
           bank_balance b a d - at_bech32 (in_Address i) a (amount_of (in_Coins i) d)
           + sumZ (λ o, at_bech32 (out_Address o) a (amount_of (out_Coins o) d)) os;
  GetModuleAddress_bech32 m :
    AccAddressFromBech32 (AccAddress_String (GetModuleAddress m)) = Ok (GetModuleAddress m);
}.

(** ** Errors of the dependencies that the code returns by name *)
Definition ErrUnauthorized : goerr := Foreign "sdk.ErrUnauthorized".
Definition ErrInvalidRequest : goerr := Foreign "sdk.ErrInvalidRequest".
Definition ErrInvalidAddress : goerr := Foreign "sdk.ErrInvalidAddress".
Definition ErrInvalidCoins : goerr := Foreign "sdk.ErrInvalidCoins".
Definition ErrNoInputs : goerr := Foreign "bank.ErrNoInputs".
Definition ErrMultipleSenders : goerr := Foreign "bank.ErrMultipleSenders".
Definition ErrNoOutputs : goerr := Foreign "bank.ErrNoOutputs".
Definition ErrKeyNotFound : goerr := Foreign "sdk.ErrKeyNotFound".
Definition ErrSdkNotFound : goerr := Foreign "sdk.ErrNotFound".
Definition ErrorInvalidSigner : goerr := Foreign "sdk.ErrorInvalidSigner".
Definition ErrInvalidSigner : goerr := Foreign "gov.ErrInvalidSigner".

(** ** cosmossdk.io/math: [LegacyDec]

    A decimal is the integer behind it, a multiple of [10^-18]; a nil pointer is
    [None] in the records that hold one.  The operations panic when the result
    leaves the range of 315-bit magnitudes. *)
Abbreviation LegacyDec := (option Z).
Definition dec_one : Z := 10 ^ 18.
Definition dec_range (z : Z) : Prop := Z.abs z < 2 ^ 315.

Class DecOps := {
  Dec_Add : Z → Z → outcome Z;
  Dec_Sub : Z → Z → outcome Z;
  Dec_Mul : Z → Z → outcome Z;
  Dec_Quo : Z → Z → outcome Z;
  Dec_MulInt : Z → Z → outcome Z;
  Dec_QuoInt : Z → Z → outcome Z;
  Dec_TruncateInt : Z → outcome Z;
  Int_ToLegacyDec : Z → outcome Z;
}.

Class DecLaws `{!DecOps} := {
  Dec_Add_ok a b : dec_range (a + b) → Dec_Add a b = Ok (a + b);
  Dec_Sub_ok a b : dec_range (a - b) → Dec_Sub a b = Ok (a - b);
  (** products are rounded to the nearest decimal *)
  Dec_Mul_ok a b : dec_range (a * b) → ∃ r, Dec_Mul a b = Ok r ∧ 2 * Z.abs (r * dec_one - a * b) ≤ dec_one;
  (** quotients are truncated at 36 digits and then rounded at 18 *)
  Dec_Quo_ok a b : b ≠ 0 → dec_range (a * dec_one) →
    ∃ r, Dec_Quo a b = Ok r ∧ 3 * Z.abs (r * b - a * dec_one) ≤ 2 * Z.abs b;
  Dec_MulInt_ok a i : dec_range (a * i) → Dec_MulInt a i = Ok (a * i);
  Dec_QuoInt_ok a i : i ≠ 0 → Dec_QuoInt a i = Ok (Z.quot a i);
  Dec_TruncateInt_ok a : int_range (Z.quot a dec_one) → Dec_TruncateInt a = Ok (Z.quot a dec_one);
  Int_ToLegacyDec_ok i : int_range i → Int_ToLegacyDec i = Ok (i * dec_one);
}.

(** ** [Coin] arithmetic; comparing or subtracting different denominations panics *)
Class CoinArith := {
  Coin_IsLT : Coin → Coin → outcome bool;
  Coin_Sub : Coin → Coin → outcome Coin;
  (** [sdk.NewCoins] of one coin, which drops a zero *)
  NewCoins1 : Coin → outcome Coins;
}.

Class CoinArithLaws `{!CoinsOps} `{!CoinArith} := {
  Coin_IsLT_ok d a b : Coin_IsLT (mkCoin d a) (mkCoin d b) = Ok (a <? b);
  Coin_Sub_ok d a b : int_range (a - b) → b ≤ a → Coin_Sub (mkCoin d a) (mkCoin d b) = Ok (mkCoin d (a - b));
  NewCoins1_ok d a : ValidateDenom d = true → 0 ≤ a →
    NewCoins1 (mkCoin d a) = Ok (if a =? 0 then [] else [mkCoin d a]);
}.

(** ** The bank as the mint function uses it, partly through the mint keeper *)
Class MintBank (B : Type) := {
  GetModuleAccountAddress : string → AccAddress;
  GetBalance : B → AccAddress → string → Coin;
  BurnCoins : string → Coins → M B unit;
  mint_ModuleName : string;
  (** the fee collector the mint keeper was created with *)
  mint_feeCollectorName : string;
  mint_MintCoins : Coins → M B unit;
  mint_AddCollectedFees : Coins → M B unit;
}.

(** The bank refuses coins that are not valid, so the laws are about valid ones. *)
Class MintBankLaws (B : Type) `{!MintBank B} `{!CoinsOps} := {
  mb_balance : B → AccAddress → string → Z;
  mb_supply : B → string → Z;
  GetBalance_spec b a d : GetBalance b a d = mkCoin d (mb_balance b a d);
  (** the fee collector may burn, the mint module may mint *)
  BurnCoins_ok b cs : coins_valid cs →
    (∀ d, 0 ≤ amount_of cs d ≤ mb_balance b (GetModuleAccountAddress mint_feeCollectorName) d) →
    ∃ b', BurnCoins mint_feeCollectorName cs b = (b', Ok tt) ∧
      (∀ d, mb_supply b' d = mb_supply b d - amount_of cs d) ∧
      ∀ a d, mb_balance b' a d
             = mb_balance b a d - at_addr (GetModuleAccountAddress mint_feeCollectorName) a (amount_of cs d);
  mint_MintCoins_ok b cs : coins_valid cs →
    (∀ d, mb_supply b d + amount_of cs d < 2 ^ 256) →
    ∃ b', mint_MintCoins cs b = (b', Ok tt) ∧
      (∀ d, mb_supply b' d = mb_supply b d + amount_of cs d) ∧
      ∀ a d, mb_balance b' a d
             = mb_balance b a d + at_addr (GetModuleAccountAddress mint_ModuleName) a (amount_of cs d);
  mint_AddCollectedFees_ok b cs : coins_valid cs →
    (∀ d, 0 ≤ amount_of cs d ≤ mb_balance b (GetModuleAccountAddress mint_ModuleName) d) →
    ∃ b', mint_AddCollectedFees cs b = (b', Ok tt) ∧
      (∀ d, mb_supply b' d = mb_supply b d) ∧
      ∀ a d, mb_balance b' a d
             = mb_balance b a d - at_addr (GetModuleAccountAddress mint_ModuleName) a (amount_of cs d)
               + at_addr (GetModuleAccountAddress mint_feeCollectorName) a (amount_of cs d);
}.

(** ** [DecCoin] and [DecCoins]: amounts are the integers behind [LegacyDec] *)
Record DecCoin := mkDecCoin { dc_Denom : string; dc_Amount : Z }.
Abbreviation DecCoins := (list DecCoin).

#[global] Instance DecCoin_eq_dec : EqDecision DecCoin.
Proof. solve_decision. Defined.

(** The amount of a denomination, zero if it is not listed. *)
Definition dec_amount (cs : DecCoins) (d : string) : Z :=
  match list_find (λ c, dc_Denom c = d) cs with Some (_, c) => dc_Amount c | None => 0 end.

Definition denoms (cs : DecCoins) : list string := dc_Denom <$> cs.
(** Strictly ascending denominations *)
Definition dec_sorted (cs : DecCoins) : Prop := StronglySorted (λ c d, str_lt (dc_Denom c) (dc_Denom d)) cs.

Class DecCoinsOps := {
  DecCoins_Sort : DecCoins → DecCoins;
  DecCoins_AmountOf : DecCoins → string → outcome Z;
  NewDecCoinFromDec : string → Z → outcome DecCoin;
}.

Class DecCoinsLaws `{!CoinsOps} `{!DecCoinsOps} := {
  DecCoins_Sort_perm cs : DecCoins_Sort cs ≡ₚ cs;
  (** with unique denominations the order is strict *)
  DecCoins_Sort_sorted cs : NoDup (denoms cs) → dec_sorted (DecCoins_Sort cs);
  (** a binary search, so the coins have to be sorted; an invalid denomination panics *)
  DecCoins_AmountOf_ok cs d :
    ValidateDenom d = true → dec_sorted cs → DecCoins_AmountOf cs d = Ok (dec_amount cs d);
  NewDecCoinFromDec_ok d a :
    ValidateDenom d = true → 0 ≤ a → NewDecCoinFromDec d a = Ok (mkDecCoin d a);
}.

(** [DecCoins.IsZero] *)
Definition DecCoins_IsZero (cs : DecCoins) : bool := forallb (λ c, dc_Amount c =? 0) cs.

(** The keys of a Go map in the order of one [range] over it: any order is possible. *)
Class MapRange := range_keys : list string → list string.
Class MapRangeLaws `{!MapRange} := {
  range_keys_NoDup l : NoDup (range_keys l);
  range_keys_elem l x : x ∈ range_keys l ↔ x ∈ l;
}.

(** ** Key-value stores: cosmossdk.io/store *)
Class KVStore (S : Type) := {
  kv_get : S → string → option string;
  kv_set : S → string → string → S;
  kv_delete : S → string → S;
  (** the pairs whose key starts with the prefix, in key order *)
  kv_prefix_iter : S → string → list (string * string);
}.

Class KVStoreLaws (S : Type) `{!KVStore S} := {
  kv_contents : S → gmap string string;
  kv_get_spec s k : kv_get s k = kv_contents s !! k;
  kv_set_spec s k v : kv_contents (kv_set s k v) = <[k := v]> (kv_contents s);
  kv_delete_spec s k : kv_contents (kv_delete s k) = delete k (kv_contents s);
  kv_prefix_iter_spec s p :
    kv_prefix_iter s p ≡ₚ map_to_list (filter (λ kv, String.prefix p kv.1 = true) (kv_contents s));
  kv_prefix_iter_sorted s p :
    StronglySorted (λ a b, str_lt a.1 b.1) (kv_prefix_iter s p);
}.

(** ** cosmossdk.io/collections *)
Definition ErrNotFound : goerr := Registered "collections" 1.

(** A [collections.Map[K, V]]. *)
Class CollMap (K V C : Type) := {
  coll_Get : C → K → outcome V;
  coll_Has : C → K → outcome bool;
  coll_Set : C → K → V → outcome C;
  coll_Remove : C → K → outcome C;
  (** the entries in the order of [Walk] and [Iterate] *)
  coll_Entries : C → outcome (list (K * V));
}.

Class CollMapLaws (K V C : Type) `{Countable K} `{!CollMap K V C} := {
  coll_contents : C → gmap K V;
  (** keys the key codec can encode *)
  coll_key_ok : K → Prop;
  coll_Get_spec c k : coll_key_ok k → coll_Get c k = or_fail (coll_contents c !! k) ErrNotFound;
  coll_Has_spec c k :
    coll_key_ok k → coll_Has c k = Ok (bool_decide (is_Some (coll_contents c !! k)));
  coll_Set_spec c k v : coll_key_ok k →
    ∃ c', coll_Set c k v = Ok c' ∧ coll_contents c' = <[k := v]> (coll_contents c);
  coll_Remove_spec c k : coll_key_ok k →
    ∃ c', coll_Remove c k = Ok c' ∧ coll_contents c' = delete k (coll_contents c);
  coll_Entries_spec c :
    ∃ l, coll_Entries c = Ok l ∧ l ≡ₚ map_to_list (coll_contents c);
}.

(** A key type whose codec encodes every key: [collections.Uint64Key], and
    [collections.StringKey] in last position. *)
Class CollKeysOk (K V C : Type) `{CollMapLaws K V C} := coll_keys_ok k : coll_key_ok k.

(** A [collections.Item[V]]. *)
Class CollItem (V C : Type) := {
  item_Get : C → outcome V;
  item_Set : C → V → outcome C;
}.

Class CollItemLaws (V C : Type) `{!CollItem V C} := {
  item_contents : C → option V;
  item_Get_spec c : item_Get c = or_fail (item_contents c) ErrNotFound;
  item_Set_spec c v : ∃ c', item_Set c v = Ok c' ∧ item_contents c' = Some v;
}.

(** A [collections.Sequence]: [Next] returns the current [uint64] and moves on. *)
Class CollSequence (C : Type) := {
  seq_Peek : C → outcome Z;
  seq_Next : C → outcome (Z * C);
  seq_Set : C → Z → outcome C;
}.

Class CollSequenceLaws (C : Type) `{!CollSequence C} := {
  seq_value : C → Z;
  seq_Peek_spec c : seq_Peek c = Ok (seq_value c);
  seq_Next_spec c :
    ∃ c', seq_Next c = Ok (seq_value c, c') ∧ seq_value c' = u64 (seq_value c + 1);
  seq_Set_spec c n : ∃ c', seq_Set c n = Ok c' ∧ seq_value c' = n;
}.

(** ** x/params: a [Subspace] holding [uint64] parameters

    [Get] panics when the parameter was never set. *)
Class Subspace (P : Type) := {
  sub_Get : P → string → outcome Z;
  sub_Set : P → string → Z → P;
}.

Class SubspaceLaws (P : Type) `{!Subspace P} := {
  sub_contents : P → gmap string Z;
  sub_Get_spec p k : sub_Get p k = from_option Ok Panic (sub_contents p !! k);
  sub_Set_spec p k v : sub_contents (sub_Set p k v) = <[k := v]> (sub_contents p);
}.

(** ** A [collections.Map] whose keys are pairs of strings

    The first string is encoded with a NUL terminator, so it may not hold one. *)
Definition no_nul (s : string) : Prop := Forall (λ a, byte_val a ≠ 0) (bytes_of s).

#[global] Instance no_nul_dec s : Decision (no_nul s).
Proof. unfold no_nul. apply _. Defined.

Definition NUL : string := String (byte_of 0) "".
(** The key under which an entry is stored. *)
Definition pair_key (k : string * string) : string := k.1 +:+ NUL +:+ k.2.

Class PairMap (V C : Type) := {
  pair_coll :: CollMap (string * string) V C;
  (** the entries in a [NewPrefixedPairRange], in order *)
  pair_Prefixed : C → string → outcome (list ((string * string) * V));
  (** [KeyCodec().EncodeNonTerminal] into a buffer of the given size, the bytes written *)
  pair_EncodeNonTerminal : Z → string * string → outcome string;
}.

Class PairMapLaws (V C : Type) `{!PairMap V C} := {
  pair_laws :: CollMapLaws (string * string) V C;
  pair_key_ok k : no_nul k.1 → coll_key_ok k;
  pair_Get_bad c k : ¬ no_nul k.1 → ∃ e, coll_Get c k = Err e ∧ e ≠ ErrNotFound;
  pair_Set_bad c k v : ¬ no_nul k.1 → ∃ e, coll_Set c k v = Err e;
  pair_Remove_bad c k : ¬ no_nul k.1 → ∃ e, coll_Remove c k = Err e;
  pair_stored_ok c k v : coll_contents c !! k = Some v → no_nul k.1;
  pair_Prefixed_spec c d l : no_nul d → coll_Entries c = Ok l →
    pair_Prefixed c d = Ok (filter (λ e, e.1.1 = d) l);
  pair_Prefixed_bad c d : ¬ no_nul d → ∃ e, pair_Prefixed c d = Err e;
  pair_Entries_sorted c l : coll_Entries c = Ok l →
    StronglySorted (λ a b, str_lt (pair_key a.1) (pair_key b.1)) l;
  pair_EncodeNonTerminal_spec n k : no_nul k.1 → no_nul k.2 → slen k.1 + slen k.2 + 2 ≤ n →
    pair_EncodeNonTerminal n k = Ok (pair_key k +:+ NUL);
}.

(** ** The gas meter: consuming gas panics when the limit is exceeded *)
Class GasMeter (G : Type) := ConsumeGas : G → Z → outcome G.

(** ** Lemmas on valid coins *)
Section coins.
Context `{!CoinsOps}.

Lemma amount_of_nil d : amount_of [] d = 0.
Proof. done. Qed.

Lemma amount_of_cons c cs d :
  amount_of (c :: cs) d = (if decide (coin_Denom c = d) then coin_Amount c else 0) + amount_of cs d.
Proof. done. Qed.

Lemma coins_valid_nil : coins_valid [].
Proof. split; constructor. Qed.

Lemma coins_valid_cons c cs :
  coins_valid (c :: cs) ↔
  ValidateDenom (coin_Denom c) = true ∧ 0 < coin_Amount c < 2 ^ 256 ∧
  Forall (λ c', str_lt (coin_Denom c) (coin_Denom c')) cs ∧ coins_valid cs.
Proof.
  unfold coins_valid, coins_sorted. rewrite Forall_cons. split.
  - intros [Hs [[??]?]]. inversion Hs; subst. done.
  - intros (?&?&?&?&?). split; [by constructor|done].
Qed.

Lemma coins_valid_singleton_ok d a :
  ValidateDenom d = true → 0 ≤ a →
  coins_sorted [mkCoin d a] ∧
  Forall (λ c, ValidateDenom (coin_Denom c) = true ∧ 0 ≤ coin_Amount c) [mkCoin d a].
Proof. intros. split; repeat constructor; done. Qed.

Lemma coins_valid_weaken cs :
  coins_valid cs →
  coins_sorted cs ∧ Forall (λ c, ValidateDenom (coin_Denom c) = true ∧ 0 ≤ coin_Amount c) cs.
Proof. intros [? Hf]. split; [done|]. eapply Forall_impl; [exact Hf|]. cbn. naive_solver lia. Qed.

(** A denomination sorted after all others does not occur. *)
Lemma amount_of_lt d cs :
  Forall (λ c, str_lt d (coin_Denom c)) cs → amount_of cs d = 0.
Proof.
  induction 1 as [|c cs Hc _ IH]; [done|]. rewrite amount_of_cons, IH.
  case_decide as E; [|done]. rewrite E in Hc. by apply (irreflexivity str_lt) in Hc.
Qed.

Lemma amount_of_nonneg cs d : coins_valid cs → 0 ≤ amount_of cs d.
Proof.
  induction cs as [|c cs IH]; [done|]. rewrite coins_valid_cons, amount_of_cons.
  intros (?&?&?&?). specialize (IH ltac:(done)). case_decide; lia.
Qed.

Lemma amount_of_bound cs d : coins_valid cs → amount_of cs d < 2 ^ 256.
Proof.
  induction cs as [|c cs IH]; [done|]. rewrite coins_valid_cons, amount_of_cons.
  intros (?&?&Hlt&?). case_decide; [|by apply IH].
  subst. rewrite amount_of_lt by done. lia.
Qed.

(** In valid coins each denomination occurs once, so a sum of a function of the
    amounts is that function of the total. *)
Lemma amount_sum_map (f : Z → Z) cs d :
  f 0 = 0 → coins_valid cs →
  sumZ (λ c, if decide (coin_Denom c = d) then f (coin_Amount c) else 0) cs
  = f (amount_of cs d).
Proof.
  intros Hf. induction cs as [|c cs IH]; [done|].
  rewrite coins_valid_cons, amount_of_cons. intros (?&?&Hlt&Hv). cbn.
  rewrite IH by done. case_decide; [|by rewrite !Z.add_0_l]. subst.
  rewrite amount_of_lt by done. by rewrite Hf, !Z.add_0_r.
Qed.

Lemma amount_of_head c cs : coins_valid (c :: cs) → amount_of (c :: cs) (coin_Denom c) = coin_Amount c.
Proof.
  rewrite coins_valid_cons, amount_of_cons. intros (_&_&?&_).
  rewrite decide_True, amount_of_lt by done. lia.
Qed.

Lemma amount_of_below d c cs :
  coins_valid (c :: cs) → str_lt d (coin_Denom c) → amount_of (c :: cs) d = 0.
Proof.
  rewrite coins_valid_cons. intros (_&_&Hl&_) Hlt. apply amount_of_lt. constructor; [done|].
  eapply Forall_impl; [exact Hl|]. cbn. intros. by etrans.
Qed.

(** Valid coins are determined by their amounts. *)
Lemma coins_valid_ext cs cs' :
  coins_valid cs → coins_valid cs' →
  (∀ d, amount_of cs d = amount_of cs' d) → cs = cs'.
Proof.
  revert cs'. induction cs as [|c cs IH]; intros [|c' cs'] Hv Hv' E; [done|exfalso..|].
  - specialize (E (coin_Denom c')). rewrite amount_of_head in E by done.
    apply coins_valid_cons in Hv' as (?&?&?). rewrite amount_of_nil in E. lia.
  - specialize (E (coin_Denom c)). rewrite amount_of_head in E by done.
    apply coins_valid_cons in Hv as (?&?&?). rewrite amount_of_nil in E. lia.
  - pose proof (proj1 (coins_valid_cons _ _) Hv) as (?&?&?&?).
    pose proof (proj1 (coins_valid_cons _ _) Hv') as (?&?&?&?).
    assert (coin_Denom c = coin_Denom c') as Ed.
    { destruct (str_lt_total (coin_Denom c) (coin_Denom c')) as [Hlt|[?|Hlt]]; [|done|]; exfalso.
      - specialize (E (coin_Denom c)). rewrite amount_of_head, amount_of_below in E by done. lia.
      - specialize (E (coin_Denom c')). rewrite amount_of_below, amount_of_head in E by done. lia. }
    assert (coin_Amount c = coin_Amount c') as Ea.
    { rewrite <- (amount_of_head c cs), <- (amount_of_head c' cs') by done. by rewrite Ed. }
    destruct c, c'; cbn in Ed, Ea; subst. f_equal. apply IH; [done..|].
    intros d. specialize (E d). rewrite !amount_of_cons in E. cbn in E. lia.
Qed.
End coins.
