(* ===== verification/SdkModel.v ===== *)
(** * Concrete instances of the dependency interfaces

    Small executable implementations of the classes of [Sdk.v], with proofs of
    the laws.  No theorem about the repository's code uses them: they show that
    the laws can hold together, and the witnesses run the modelled code on them. *)

From S2P Require Import Prelude GoStd Sdk.

(** ** [sdkmath.Int]: exact integers with the range check *)
Definition int_checked (z : Z) : outcome Z := if decide (int_range z) then Ok z else Panic.

#[global] Instance model_math : SdkMath := {|
  Int_Mul a b := int_checked (a * b);
  Int_Add a b := int_checked (a + b);
  Int_Quo a b := if b =? 0 then Panic else Ok (Z.quot a b);
  NewIntFromBigInt := int_checked;
|}.

#[global] Instance model_math_laws : SdkMathLaws.
Proof.
  split; cbn; unfold int_checked; intros.
  1,2,4: by rewrite decide_True.
  by rewrite (proj2 (Z.eqb_neq _ _)).
Qed.

(** ** Coins *)

(** Adds [a] of [d] to a sorted list, dropping a zero result. *)
Fixpoint ins (d : string) (a : Z) (cs : Coins) : Coins :=
  match cs with
  | [] => if a =? 0 then [] else [mkCoin d a]
  | c :: cs' =>
    if String.ltb d (coin_Denom c) then if a =? 0 then cs else mkCoin d a :: cs
    else if decide (d = coin_Denom c) then
      if coin_Amount c + a =? 0 then cs' else mkCoin d (coin_Amount c + a) :: cs'
    else c :: ins d a cs'
  end.

Definition model_ValidateDenom (d : string) : bool := bool_decide (d ≠ "").

(** Adds [sgn] times each coin of [B] to [A]. *)
Definition merge (sgn : Z) (A B : Coins) : Coins :=
  foldl (λ cs c, ins (coin_Denom c) (sgn * coin_Amount c) cs) A B.

Definition coins_checkb (cs : Coins) : bool :=
  bool_decide (StronglySorted (λ a b, str_lt (coin_Denom a) (coin_Denom b)) cs) &&
  bool_decide (Forall (λ c, model_ValidateDenom (coin_Denom c) = true ∧
                            0 < coin_Amount c ∧ coin_Amount c < 2 ^ 256) cs).

#[global] Instance model_coins : CoinsOps := {|
  ValidateDenom := model_ValidateDenom;
  NewCoin d a := if model_ValidateDenom d && (0 <=? a) then Ok (mkCoin d a) else Panic;
  Coins_Add A B := Ok (merge 1 A B);
  Coins_Sub A B :=
    if forallb (λ c, 0 <=? coin_Amount c) (merge (-1) A B) then Ok (merge (-1) A B) else Panic;
  Coins_SafeSub A B :=
    Ok (merge (-1) A B, negb (forallb (λ c, 0 <=? coin_Amount c) (merge (-1) A B)));
  Coins_IsZero cs := forallb (λ c, coin_Amount c =? 0) cs;
  Coins_IsValid := coins_checkb;
  Coins_IsAllPositive cs := bool_decide (cs ≠ []) && forallb (λ c, 0 <? coin_Amount c) cs;
  Coins_IsAnyNegative cs := existsb (λ c, coin_Amount c <? 0) cs;
|}.

Lemma ins_amount d a cs d' :
  amount_of (ins d a cs) d' = amount_of cs d' + (if decide (d = d') then a else 0).
Proof.
  induction cs as [|c cs IH]; cbn [ins].
  - destruct (a =? 0) eqn:E; rewrite ?amount_of_cons, amount_of_nil; cbn; case_decide; lia.
  - destruct (String.ltb _ _).
    + destruct (a =? 0) eqn:E; rewrite ?amount_of_cons; cbn; repeat case_decide; lia.
    + destruct (decide (d = coin_Denom c)) as [->|].
      * destruct (_ + a =? 0) eqn:E; rewrite ?amount_of_cons; cbn; repeat case_decide; lia.
      * rewrite !amount_of_cons, IH. lia.
Qed.

Lemma merge_amount sgn A B d : amount_of (merge sgn A B) d = amount_of A d + sgn * amount_of B d.
Proof.
  unfold merge. revert A. induction B as [|c B IH]; intros A; cbn [foldl].
  - rewrite amount_of_nil. lia.
  - rewrite IH, ins_amount, amount_of_cons. case_decide; lia.
Qed.

(** A property of denominations kept by insertion. *)
Lemma ins_denoms (P : string → Prop) d a cs :
  P d → Forall (λ c, P (coin_Denom c)) cs → Forall (λ c, P (coin_Denom c)) (ins d a cs).
Proof.
  intros Hd. induction 1 as [|c cs Hc Hcs IH]; cbn [ins].
  - destruct (a =? 0); repeat constructor; done.
  - destruct (String.ltb _ _); [destruct (a =? 0); repeat constructor; done|].
    case_decide; [case_match; [done|by constructor]|by constructor].
Qed.

Lemma ins_sorted d a cs : coins_sorted cs → coins_sorted (ins d a cs).
Proof.
  unfold coins_sorted. induction 1 as [|c cs Hs IH Hc]; cbn [ins].
  - destruct (a =? 0); repeat constructor.
  - destruct (String.ltb d (coin_Denom c)) eqn:E.
    + destruct (a =? 0); [by constructor|]. constructor; [by constructor|]. constructor; [done|].
      eapply Forall_impl; [exact Hc|]. cbn. intros. by etrans.
    + apply str_ltb_false in E. case_decide as Ed.
      * case_match; [done|]. subst. by constructor.
      * destruct E as [?|E]; [done|]. constructor; [done|].
        by apply (ins_denoms (str_lt (coin_Denom c))).
Qed.

Lemma ins_nonzero d a cs :
  Forall (λ c, coin_Amount c ≠ 0) cs → Forall (λ c, coin_Amount c ≠ 0) (ins d a cs).
Proof.
  induction 1 as [|c cs Hc Hcs IH]; cbn [ins].
  - destruct (a =? 0) eqn:E; repeat constructor. cbn. lia.
  - destruct (String.ltb _ _); [destruct (a =? 0) eqn:E; repeat constructor; try done; cbn; lia|].
    case_decide; [|by constructor]. destruct (_ + a =? 0) eqn:E; [done|]. constructor; [cbn; lia|done].
Qed.

Lemma merge_invariant sgn A B :
  coins_sorted A → Forall (λ c, coin_Amount c ≠ 0) A →
  coins_sorted (merge sgn A B) ∧ Forall (λ c, coin_Amount c ≠ 0) (merge sgn A B).
Proof.
  unfold merge. revert A. induction B as [|c B IH]; intros A ??; cbn [foldl]; [done|].
  apply IH; [by apply ins_sorted|by apply ins_nonzero].
Qed.

Lemma merge_denoms (P : string → Prop) sgn A B :
  Forall (λ c, P (coin_Denom c)) A → Forall (λ c, P (coin_Denom c)) B →
  Forall (λ c, P (coin_Denom c)) (merge sgn A B).
Proof.
  unfold merge. intros HA HB. revert A HA. induction HB as [|c B Hc _ IH]; intros A HA; cbn [foldl]; [done|].
  apply IH. by apply ins_denoms.
Qed.

(** In a sorted list a coin's amount is the total of its denomination. *)
Lemma sorted_amount cs c : coins_sorted cs → c ∈ cs → amount_of cs (coin_Denom c) = coin_Amount c.
Proof.
  induction 1 as [|c' cs Hs IH Hc]; intros Hin; [by apply elem_of_nil in Hin|].
  rewrite amount_of_cons. apply elem_of_cons in Hin as [->|Hin].
  - rewrite decide_True, amount_of_lt by done. lia.
  - rewrite Forall_forall in Hc. specialize (Hc c Hin). rewrite decide_False, IH by
      (try done; intros E; rewrite E in Hc; by apply (irreflexivity str_lt) in Hc). lia.
Qed.

Lemma merge_valid sgn A B :
  coins_valid A → Forall (λ c, ValidateDenom (coin_Denom c) = true) B →
  (∀ d, 0 ≤ amount_of A d + sgn * amount_of B d < 2 ^ 256) →
  coins_valid (merge sgn A B).
Proof.
  intros [Hs Hf] HB Hr. destruct (merge_invariant sgn A B) as [Hms Hmn]; [done| |].
  { eapply Forall_impl; [exact Hf|]. cbn. intros; lia. }
  split; [done|]. rewrite !Forall_forall in *. intros c Hc.
  assert (Forall (λ c, ValidateDenom (coin_Denom c) = true) (merge sgn A B)) as Hd.
  { apply (merge_denoms (λ d, ValidateDenom d = true)); rewrite Forall_forall; [|done]. naive_solver. }
  rewrite Forall_forall in Hd. split; [by apply Hd|]. specialize (Hr (coin_Denom c)).
  rewrite <- merge_amount, sorted_amount in Hr by done. specialize (Hmn c Hc). lia.
Qed.

Lemma valid_forallb cs : coins_valid cs → forallb (λ c, 0 <=? coin_Amount c) cs = true.
Proof.
  intros [_ Hf]. apply forallb_forall. intros c Hc%list_elem_of_In. rewrite Forall_forall in Hf.
  destruct (Hf c Hc). lia.
Qed.

#[global] Instance model_coins_laws : CoinsLaws.
Proof.
  split.
  - intros d a Hd Ha. cbn in *. rewrite Hd, (proj2 (Z.leb_le _ _)) by done. done.
  - intros A B HA HB Hf Hlt. exists (merge 1 A B).
    assert (∀ d, 0 ≤ amount_of B d) as Hn.
    { intros d. apply sumZ_nonneg. intros c Hc. rewrite Forall_forall in Hf.
      destruct (Hf c Hc). case_decide; lia. }
    split_and!; [done| |intros d; rewrite merge_amount; lia].
    apply merge_valid; [done|eapply Forall_impl; [exact Hf|]; naive_solver|].
    intros d. specialize (Hlt d). specialize (Hn d). pose proof (amount_of_nonneg A d HA). lia.
  - intros A B HA HB Hle. exists (merge (-1) A B).
    assert (coins_valid (merge (-1) A B)) as Hv.
    { apply merge_valid; [done|eapply Forall_impl; [apply HB|]; naive_solver|].
      intros d. specialize (Hle d). pose proof (amount_of_bound A d HA).
      pose proof (amount_of_nonneg B d HB). lia. }
    split_and!; [|done|intros d; rewrite merge_amount; lia].
    cbn. by rewrite (valid_forallb _ Hv).
  - intros A B. cbn. by destruct (forallb _ _).
  - intros A [_ HA]. cbn. destruct HA as [|c A [_ Hc] _]; [done|]. cbn.
    by rewrite (proj2 (Z.eqb_neq _ _)) by lia.
  - intros A. cbn. unfold coins_checkb, coins_valid, coins_sorted.
    rewrite andb_true_iff, !bool_decide_eq_true. done.
Qed.

(** ** Addresses: the bytes behind a fixed prefix *)
Fixpoint strip (p s : string) : option string :=
  match p, s with
  | "", _ => Some s
  | String a p, String b s => if decide (a = b) then strip p s else None
  | _, _ => None
  end.

Lemma strip_app p s : strip p (p +:+ s) = Some s.
Proof.
  induction p as [|a p IH]; [done|]. change (String a p +:+ s) with (String a (p +:+ s)).
  cbn [strip]. by rewrite decide_True.
Qed.

#[global] Instance model_addr : AddressCodec := {|
  AccAddressFromBech32 s :=
    match strip "xion1" s with Some a => Ok a | None => Err (Foreign "bech32") end;
  AccAddress_String a := "xion1" +:+ a;
|}.

#[global] Instance model_addr_laws : AddressLaws.
Proof. split. intros s a _. cbn -[strip String.append]. by rewrite strip_app. Qed.

#[global] Instance model_bech32 : Bech32 := {|
  bech32_Decode s :=
    match strip "xion1" s with Some a => Ok ("xion", a) | None => Err (Foreign "bech32") end;
  bech32_ConvertBits s _ _ _ := Ok s;
|}.

(** ** Bank: a table of balances *)
Abbreviation model_bank := (gmap (string * string) Z).
Definition model_balance (b : model_bank) (a d : string) : Z := default 0 (b !! (a, d)).
Definition credit (a : string) (sgn : Z) (cs : Coins) (b : model_bank) : model_bank :=
  foldl (λ b c, <[(a, coin_Denom c) := model_balance b a (coin_Denom c) + sgn * coin_Amount c]> b) b cs.
Definition has_funds (b : model_bank) (a : string) (cs : Coins) : bool :=
  forallb (λ c, coin_Amount c <=? model_balance b a (coin_Denom c)) cs.

Lemma credit_balance a sgn cs b a' d :
  model_balance (credit a sgn cs b) a' d = model_balance b a' d + at_addr a a' (sgn * amount_of cs d).
Proof.
  unfold credit. revert b. induction cs as [|c cs IH]; intros b; cbn [foldl].
  - rewrite amount_of_nil. unfold at_addr. case_decide; lia.
  - rewrite IH, amount_of_cons. unfold model_balance, at_addr.
    destruct (decide (a = a')) as [<-|].
    + destruct (decide (coin_Denom c = d)) as [<-|].
      * rewrite lookup_insert_eq. cbn. lia.
      * rewrite lookup_insert_ne by congruence. lia.
    + rewrite lookup_insert_ne by congruence. lia.
Qed.

Definition move (f t : string) (cs : Coins) : M model_bank unit := λ b,
  if has_funds b f cs then (credit t 1 cs (credit f (-1) cs b), Ok tt)
  else (b, Err (Foreign "insufficient funds")).

Lemma move_ok f t cs b b' u :
  move f t cs b = (b', Ok u) →
  ∀ a d, model_balance b' a d =
         model_balance b a d - at_addr f a (amount_of cs d) + at_addr t a (amount_of cs d).
Proof.
  unfold move. destruct (has_funds _ _ _); intros E; inv_ok. intros a d.
  rewrite !credit_balance. unfold at_addr. repeat case_decide; lia.
Qed.

Definition module_address (m : string) : string := "module/" +:+ m.

(** [ValidateInputOutputs]: valid coins, at least one on each side, and equal sums *)
Definition io_checkb (i : Input) (os : list Output) : bool :=
  let positive cs := coins_checkb cs && negb (bool_decide (cs = [])) in
  positive (in_Coins i) && forallb (λ o, positive (out_Coins o)) os &&
  bool_decide (foldr (λ o t, merge 1 (out_Coins o) t) [] os = in_Coins i).

Definition credit_output (b : model_bank) (o : Output) : model_bank :=
  match AccAddressFromBech32 (out_Address o) with
  | Ok a => credit a 1 (out_Coins o) b
  | _ => b
  end.

#[global] Instance model_bank_keeper : BankKeeper model_bank := {|
  IsSendEnabledCoins _ _ := Ok tt;
  BlockedAddr _ a := bool_decide (a = module_address "fee_collector");
  SendCoins := move;
  SendCoinsFromAccountToModule f m := move f (module_address m);
  InputOutputCoins i os b :=
    match AccAddressFromBech32 (in_Address i) with
    | Ok a =>
      if io_checkb i os && has_funds b a (in_Coins i)
      then (foldl credit_output (credit a (-1) (in_Coins i) b) os, Ok tt)
      else (b, Err (Foreign "insufficient funds"))
    | _ => (b, Err (Foreign "bech32"))
    end;
  GetModuleAddress := module_address;
|}.

Lemma credit_outputs_balance os b a d :
  model_balance (foldl credit_output b os) a d =
  model_balance b a d + sumZ (λ o, at_bech32 (out_Address o) a (amount_of (out_Coins o) d)) os.
Proof.
  revert b. induction os as [|o os IH]; intros b; cbn [foldl sumZ]; [lia|]. rewrite IH.
  unfold credit_output, at_bech32 at 2. case_match; rewrite ?credit_balance, ?Z.mul_1_l; lia.
Qed.

#[global] Instance model_bank_laws : BankLaws model_bank.
Proof.
  refine {| bank_balance := model_balance |}.
  - apply move_ok.
  - intros f m. apply move_ok.
  - intros i os b b' u. cbn [InputOutputCoins model_bank_keeper].
    destruct (AccAddressFromBech32 (in_Address i)) as [a| |] eqn:Ea; try (intros E; by inv_ok).
    destruct (io_checkb i os && _); intros E; inv_ok. intros a' d.
    rewrite credit_outputs_balance, credit_balance. unfold at_bech32 at 2. rewrite Ea.
    unfold at_addr. case_decide; lia.
  - intros m. cbn -[strip String.append]. by rewrite strip_app.
Defined.

#[global] Instance model_bank_types : BankTypes := {|
  ValidateInputOutputs i os :=
    if io_checkb i os then Ok tt else Err (Foreign "bank.ErrInputOutputMismatch");
|}.

#[global] Instance model_bank_types_laws : BankTypesLaws.
Proof.
  split. intros i os u. cbn. destruct (io_checkb i os) eqn:E; [|done]. intros _.
  apply andb_true_iff in E as [[E1 E2]%andb_true_iff E3%bool_decide_eq_true].
  apply andb_true_iff in E1 as [E1 _]. split_and!.
  - by apply Coins_IsValid_spec.
  - apply Forall_forall. intros o Ho. apply Coins_IsValid_spec.
    eapply forallb_forall in E2; [by apply andb_true_iff in E2 as [E2 _]|]. by apply list_elem_of_In.
  - intros d. rewrite <- E3. clear. induction os as [|o os IH]; cbn [foldr sumZ]; [done|].
    rewrite merge_amount, <- IH. lia.
Qed.

(** ** Stores *)
Definition key_le (a b : string * string) : Prop := String.le a.1 b.1.
#[global] Instance key_le_dec : RelDecision key_le.
Proof. intros a b. unfold key_le, String.le. apply _. Defined.
#[global] Instance key_le_trans : Transitive key_le.
Proof. intros a b c. unfold key_le. apply transitivity. Qed.
#[global] Instance key_le_total : Total key_le.
Proof. intros a b. unfold key_le. apply (total String.le). Qed.

#[global] Instance model_kv : KVStore (gmap string string) := {|
  kv_get s k := s !! k;
  kv_set s k v := <[k := v]> s;
  kv_delete s k := delete k s;
  kv_prefix_iter s p :=
    merge_sort key_le (map_to_list (filter (λ kv, String.prefix p kv.1 = true) s));
|}.

(** A sorted listing without duplicate keys is strictly sorted. *)
Lemma keys_strict (l : list (string * string)) :
  StronglySorted key_le l → NoDup (l.*1) → StronglySorted (λ a b, str_lt a.1 b.1) l.
Proof.
  induction 1 as [|x l Hs IH Hx]; cbn; [constructor|].
  intros [Hni Hnd]%NoDup_cons. constructor; [auto|].
  rewrite Forall_forall in *. intros y Hy. apply str_lt_iff. split; [by apply Hx|].
  intros E. apply Hni. rewrite E. by apply list_elem_of_fmap_2.
Qed.

#[global] Instance model_kv_laws : KVStoreLaws (gmap string string).
Proof.
  refine {| kv_contents := λ s, s |}; cbn; try done.
  - intros. apply merge_sort_Permutation.
  - intros. apply keys_strict; [apply StronglySorted_merge_sort; apply _|].
    rewrite merge_sort_Permutation. apply NoDup_fst_map_to_list.
Defined.

#[global] Instance model_coll {K V} `{Countable K} : CollMap K V (gmap K V) := {|
  coll_Get c k := or_fail (c !! k) ErrNotFound;
  coll_Has c k := Ok (bool_decide (is_Some (c !! k)));
  coll_Set c k v := Ok (<[k := v]> c);
  coll_Remove c k := Ok (delete k c);
  coll_Entries c := Ok (map_to_list c);
|}.

#[global] Instance model_coll_laws {K V} `{Countable K} : CollMapLaws K V (gmap K V).
Proof.
  refine {| coll_contents := λ c, c; coll_key_ok := λ _, True |}; cbn; try done; intros; eauto.
Defined.

#[global] Instance model_coll_keys {K V} `{Countable K} : CollKeysOk K V (gmap K V).
Proof. by intros k. Qed.

(** Maps keyed by pairs of strings; entries whose first string holds a NUL do not count. *)
Record pair_store (V : Type) := PairStore { pair_gmap : gmap (string * string) V }.
Arguments PairStore {V}.
Arguments pair_gmap {V}.

Definition pair_live {V} (c : pair_store V) : gmap (string * string) V :=
  filter (λ kv, no_nul kv.1.1) (pair_gmap c).

Definition pair_le {V} (a b : (string * string) * V) : Prop := String.le (pair_key a.1) (pair_key b.1).
#[global] Instance pair_le_dec {V} : RelDecision (@pair_le V).
Proof. unfold pair_le. solve_decision. Defined.
#[global] Instance pair_le_total {V} : Total (@pair_le V).
Proof. intros a b. apply (total String.le). Qed.
#[global] Instance pair_le_trans {V} : Transitive (@pair_le V).
Proof. intros a b c. unfold pair_le. apply transitivity. Qed.

Definition bad_key : goerr := Foreign "collections.ErrEncoding".

#[global] Instance model_pair_coll {V} : CollMap (string * string) V (pair_store V) := {|
  coll_Get c k := if decide (no_nul k.1) then or_fail (pair_gmap c !! k) ErrNotFound else Err bad_key;
  coll_Has c k := if decide (no_nul k.1) then Ok (bool_decide (is_Some (pair_gmap c !! k))) else Err bad_key;
  coll_Set c k v := if decide (no_nul k.1) then Ok (PairStore (<[k := v]> (pair_gmap c))) else Err bad_key;
  coll_Remove c k := if decide (no_nul k.1) then Ok (PairStore (delete k (pair_gmap c))) else Err bad_key;
  coll_Entries c := Ok (merge_sort pair_le (map_to_list (pair_live c)));
|}.

#[global] Instance model_pair {V} : PairMap V (pair_store V) := {|
  pair_Prefixed c d :=
    if decide (no_nul d)
    then Ok (filter (λ e, e.1.1 = d) (merge_sort pair_le (map_to_list (pair_live c)))) else Err bad_key;
  pair_EncodeNonTerminal n k :=
    if decide (no_nul k.1 ∧ no_nul k.2)
    then if slen k.1 + slen k.2 + 2 <=? n then Ok (pair_key k +:+ NUL) else Panic
    else Err bad_key;
|}.

Lemma split_nul (l l' k k' : list Ascii.ascii) :
  Forall (λ a, byte_val a ≠ 0) l → Forall (λ a, byte_val a ≠ 0) l' →
  l ++ byte_of 0 :: k = l' ++ byte_of 0 :: k' → l = l' ∧ k = k'.
Proof.
  intros Hl. revert l'. induction Hl as [|a l Ha Hl IH]; intros [|b l'] Hl' E; cbn in E.
  - by injection E.
  - injection E as <- _. apply Forall_cons in Hl' as [[] _]. done.
  - injection E as -> _. by destruct Ha.
  - injection E as -> E. apply Forall_cons in Hl' as [_ Hl']. destruct (IH l' Hl' E). by subst.
Qed.

Lemma pair_key_inj k k' : no_nul k.1 → no_nul k'.1 → pair_key k = pair_key k' → k = k'.
Proof.
  destruct k as [d t], k' as [d' t']. unfold pair_key, no_nul. cbn [fst snd]. intros Hd Hd' E.
  apply (f_equal bytes_of) in E. rewrite !bytes_of_app in E.
  apply split_nul in E as [E1 E2]; [|done..].
  by rewrite <- (of_bytes_of d), <- (of_bytes_of t), E1, E2, !of_bytes_of.
Qed.

(** A sorted listing of distinct storable keys is strictly sorted. *)
Lemma pair_keys_strict {V} (l : list ((string * string) * V)) :
  StronglySorted pair_le l → NoDup (l.*1) → Forall (λ e, no_nul e.1.1) l →
  StronglySorted (λ a b, str_lt (pair_key a.1) (pair_key b.1)) l.
Proof.
  induction 1 as [|x l Hs IH Hx]; cbn; [constructor|].
  intros [Hni Hnd]%NoDup_cons [Hok Hoks]%Forall_cons. constructor; [auto|].
  rewrite Forall_forall in *. intros y Hy. apply str_lt_iff. split; [by apply Hx|].
  intros E%pair_key_inj; [|done|by apply Hoks]. apply Hni. rewrite E. by apply list_elem_of_fmap_2.
Qed.

Lemma pair_live_lookup {V} (c : pair_store V) k :
  no_nul k.1 → pair_live c !! k = pair_gmap c !! k.
Proof.
  intros Hk. unfold pair_live. destruct (pair_gmap c !! k) eqn:E.
  - by apply map_lookup_filter_Some.
  - by apply map_lookup_filter_None; left.
Qed.

#[global] Instance model_pair_coll_laws {V} : CollMapLaws (string * string) V (pair_store V).
Proof.
  refine {| coll_contents := pair_live; coll_key_ok := λ k, no_nul k.1 |}; cbn.
  - intros c k Hk. by rewrite decide_True, pair_live_lookup.
  - intros c k Hk. by rewrite decide_True, pair_live_lookup.
  - intros c k v Hk. rewrite decide_True by done. eexists; split; [done|].
    unfold pair_live; cbn. by apply map_filter_insert_True.
  - intros c k Hk. rewrite decide_True by done. eexists; split; [done|].
    unfold pair_live; cbn. by apply map_filter_delete.
  - intros c. eexists; split; [done|]. apply merge_sort_Permutation.
Defined.

#[global] Instance model_pair_laws {V} : PairMapLaws V (pair_store V).
Proof.
  refine {| pair_laws := model_pair_coll_laws |}; cbn; try done.
  - intros c k Hk. rewrite decide_False by done. by eexists.
  - intros c k v Hk. rewrite decide_False by done. by eexists.
  - intros c k Hk. rewrite decide_False by done. by eexists.
  - intros c k v [_ ?]%map_lookup_filter_Some. done.
  - intros c d l Hd [= <-]. by rewrite decide_True.
  - intros c d Hd. rewrite decide_False by done. by eexists.
  - intros c l [= <-]. apply pair_keys_strict.
    + apply StronglySorted_merge_sort; apply _.
    + rewrite merge_sort_Permutation. apply NoDup_fst_map_to_list.
    + rewrite merge_sort_Permutation. apply Forall_forall. intros [k v] Hin%elem_of_map_to_list.
      by apply map_lookup_filter_Some in Hin as [_ ?].
  - intros n k ???. rewrite decide_True, (proj2 (Z.leb_le _ _)) by done. done.
Defined.

#[global] Instance model_item {V} : CollItem V (option V) := {|
  item_Get c := or_fail c ErrNotFound;
  item_Set c v := Ok (Some v);
|}.
#[global] Instance model_item_laws {V} : CollItemLaws V (option V).
Proof. refine {| item_contents := λ c, c |}; cbn; eauto. Defined.

#[global] Instance model_subspace : Subspace (gmap string Z) := {|
  sub_Get p k := from_option Ok Panic (p !! k);
  sub_Set p k v := <[k := v]> p;
|}.
#[global] Instance model_subspace_laws : SubspaceLaws (gmap string Z).
Proof. refine {| sub_contents := λ p, p |}; done. Defined.

#[global] Instance model_sequence : CollSequence Z := {|
  seq_Peek c := Ok c;
  seq_Next c := Ok (c, u64 (c + 1));
  seq_Set c n := Ok n;
|}.
#[global] Instance model_sequence_laws : CollSequenceLaws Z.
Proof. refine {| seq_value := λ c, c |}; cbn; eauto. Defined.

(** The gas left. *)
#[global] Instance model_gas : GasMeter Z := λ left amount,
  if left <? amount then Panic else Ok (left - amount).

(** ** Codecs: any countable value as a string of digits *)
Fixpoint digits (p : positive) : string :=
  match p with
  | xH => "1"
  | xO p => String (Ascii.ascii_of_nat 48) (digits p)
  | xI p => String (Ascii.ascii_of_nat 50) (digits p)
  end.

Fixpoint undigits (s : string) : option positive :=
  match s with
  | "" => None
  | String a s' =>
    if decide (a = Ascii.ascii_of_nat 49) then if decide (s' = "") then Some xH else None
    else if decide (a = Ascii.ascii_of_nat 48) then xO <$> undigits s'
    else if decide (a = Ascii.ascii_of_nat 50) then xI <$> undigits s'
    else None
  end.

Lemma undigits_digits p : undigits (digits p) = Some p.
Proof. induction p as [p IH|p IH|]; cbn; [by rewrite IH..|done]. Qed.

Definition model_marshal {A} `{Countable A} (a : A) : string := digits (encode a).
Definition model_unmarshal {A} `{Countable A} (s : string) : option A := undigits s ≫= decode.
#[global] Arguments model_marshal : simpl never.
#[global] Arguments model_unmarshal : simpl never.

Lemma model_codec_roundtrip {A} `{Countable A} (a : A) : model_unmarshal (model_marshal a) = Some a.
Proof. unfold model_unmarshal, model_marshal. rewrite undigits_digits. cbn. apply decode_encode. Qed.

Lemma model_marshal_nonempty {A} `{Countable A} (a : A) : model_marshal a ≠ "".
Proof. unfold model_marshal. by destruct (encode a). Qed.

#[global] Instance Coin_countable : Countable Coin.
Proof.
  apply (inj_countable' (λ c, (coin_Denom c, coin_Amount c)) (λ x, mkCoin x.1 x.2)). by intros [].
Defined.

(** ** Sorting by a string key *)
Section sort_by.
Context {A : Type} (key : A → string).

Fixpoint insert_by (x : A) (l : list A) : list A :=
  match l with
  | [] => [x]
  | y :: l' => if String.ltb (key y) (key x) then y :: insert_by x l' else x :: l
  end.

Definition sort_by (l : list A) : list A := foldr insert_by [] l.

Lemma insert_by_perm x l : insert_by x l ≡ₚ x :: l.
Proof. induction l as [|y l IH]; cbn; [done|]. destruct (String.ltb _ _); [|done]. rewrite IH. constructor. Qed.

Lemma sort_by_perm l : sort_by l ≡ₚ l.
Proof. unfold sort_by. induction l as [|x l IH]; cbn; [done|]. by rewrite insert_by_perm, IH. Qed.

Abbreviation key_sorted l := (StronglySorted (λ a b, str_lt (key a) (key b)) l).

Lemma insert_by_sorted x l : key_sorted l → (key x ∉ key <$> l) → key_sorted (insert_by x l).
Proof.
  induction 1 as [|y l Hs IH Hy]; intros Hx; cbn [insert_by]; [repeat constructor|].
  cbn in Hx. rewrite not_elem_of_cons in Hx. destruct Hx as [Hne Hx].
  destruct (String.ltb (key y) (key x)) eqn:E.
  - constructor; [by apply IH|]. rewrite insert_by_perm. by constructor.
  - apply str_ltb_false in E as [E|E]; [by rewrite E in Hne|]. constructor; [by constructor|].
    constructor; [done|]. eapply Forall_impl; [exact Hy|]. cbn. intros z Hz. by trans (key y).
Qed.

Lemma sort_by_sorted l : NoDup (key <$> l) → key_sorted (sort_by l).
Proof.
  induction l as [|x l IH]; cbn; intros Hnd; [constructor|]. inversion Hnd; subst.
  apply insert_by_sorted; [by apply IH|]. by rewrite sort_by_perm.
Qed.
End sort_by.

(** ** Decimal coins *)
#[global] Instance model_dec_coins : DecCoinsOps := {|
  DecCoins_Sort := sort_by dc_Denom;
  DecCoins_AmountOf cs d := if model_ValidateDenom d then Ok (dec_amount cs d) else Panic;
  NewDecCoinFromDec d a := if model_ValidateDenom d && (0 <=? a) then Ok (mkDecCoin d a) else Panic;
|}.

#[global] Instance model_dec_coins_laws : DecCoinsLaws.
Proof.
  split; cbn.
  - apply sort_by_perm.
  - apply sort_by_sorted.
  - by intros cs d ->.
  - intros d a -> Ha. by rewrite (proj2 (Z.leb_le _ _) Ha).
Qed.

#[global] Instance model_map_range : MapRange := remove_dups.
#[global] Instance model_map_range_laws : MapRangeLaws.
Proof. split; unfold range_keys, model_map_range; [apply NoDup_remove_dups|apply elem_of_remove_dups]. Qed.

(** ** Decimals *)
Definition dec_checked (z : Z) : outcome Z := if decide (Z.abs z < 2 ^ 315) then Ok z else Panic.
(** Division by a positive number, rounded to the nearest integer *)
Definition round_div (x b : Z) : Z := (2 * x + b) / (2 * b).

Lemma round_div_spec x b : 0 < b → 2 * Z.abs (round_div x b * b - x) ≤ b.
Proof.
  intros Hb. unfold round_div. pose proof (Z.div_mod (2 * x + b) (2 * b)) as E. pose proof (Z.mod_pos_bound (2 * x + b) (2 * b)). lia.
Qed.

#[global] Instance model_dec : DecOps := {|
  Dec_Add a b := dec_checked (a + b);
  Dec_Sub a b := dec_checked (a - b);
  Dec_Mul a b := Ok (round_div (a * b) dec_one);
  Dec_Quo a b := if b =? 0 then Panic else Ok (round_div (Z.sgn b * a * dec_one) (Z.abs b));
  Dec_MulInt a i := dec_checked (a * i);
  Dec_QuoInt a i := if i =? 0 then Panic else Ok (Z.quot a i);
  Dec_TruncateInt a := int_checked (Z.quot a dec_one);
  Int_ToLegacyDec i := Ok (i * dec_one);
|}.

#[global] Instance model_dec_laws : DecLaws.
Proof.
  split; cbn; unfold dec_checked, int_checked; intros.
  1,2,5: by rewrite decide_True.
  - eexists. split; [done|]. by apply round_div_spec.
  - rewrite (proj2 (Z.eqb_neq _ _)) by done. eexists. split; [done|].
    pose proof (round_div_spec (Z.sgn b * a * dec_one) (Z.abs b)) as Hs. revert Hs. generalize (round_div (Z.sgn b * a * dec_one) (Z.abs b)).
    intros r Hs. destruct (Z.lt_trichotomy b 0) as [Hb|[Hb|Hb]]; [|done|].
    + rewrite Z.sgn_neg, Z.abs_neq in * by lia. lia.
    + rewrite Z.sgn_pos, (Z.abs_eq b) in * by lia. lia.
  - by rewrite (proj2 (Z.eqb_neq _ _)).
  - by rewrite decide_True.
  - done.
Qed.

#[global] Instance model_coin_arith : CoinArith := {|
  Coin_IsLT a b := if decide (coin_Denom a = coin_Denom b) then Ok (coin_Amount a <? coin_Amount b) else Panic;
  Coin_Sub a b :=
    if decide (coin_Denom a = coin_Denom b)
    then if coin_Amount a <? coin_Amount b then Panic else Ok (mkCoin (coin_Denom a) (coin_Amount a - coin_Amount b)) else Panic;
  NewCoins1 c :=
    if model_ValidateDenom (coin_Denom c) && (0 <=? coin_Amount c)
    then Ok (if coin_Amount c =? 0 then [] else [c]) else Panic;
|}.

#[global] Instance model_coin_arith_laws : CoinArithLaws.
Proof.
  split; cbn; intros.
  - by rewrite decide_True.
  - rewrite decide_True by done. by rewrite (proj2 (Z.ltb_ge _ _)).
  - rewrite H, (proj2 (Z.leb_le _ _)) by done. done.
Qed.

(** ** The bank for the mint function *)
Definition model_supply (b : model_bank) (d : string) : Z :=
  map_fold (λ k v acc, (if decide (k.2 = d) then v else 0) + acc) 0 b.

Lemma model_supply_insert b k v d :
  model_supply (<[k := v]> b) d = model_supply b d + if decide (k.2 = d) then v - default 0 (b !! k) else 0.
Proof.
  assert (∀ (b : model_bank) k v d, b !! k = None →
    model_supply (<[k := v]> b) d = (if decide (k.2 = d) then v else 0) + model_supply b d) as Hfresh.
  { intros b' k' v' d' Hk. unfold model_supply. rewrite map_fold_insert_L; [done| |done]. intros. lia. }
  destruct (b !! k) as [w|] eqn:E; cbn [default].
  - rewrite <- (insert_delete_id b k w E) at 2. rewrite <- insert_delete_eq, !Hfresh by apply lookup_delete_eq.
    case_decide; cbn; lia.
  - rewrite Hfresh by done. case_decide; cbn; lia.
Qed.

Lemma credit_supply a sgn cs b d : model_supply (credit a sgn cs b) d = model_supply b d + sgn * amount_of cs d.
Proof.
  unfold credit. revert b. induction cs as [|c cs IH]; intros b; cbn [foldl]; [rewrite amount_of_nil; lia|].
  rewrite IH, model_supply_insert, amount_of_cons. cbn. unfold model_balance. case_decide; lia.
Qed.

(** The account holds the sum of the coins of each denomination. *)
Definition has_total (b : model_bank) (a : string) (cs : Coins) : bool :=
  forallb (λ c, amount_of cs (coin_Denom c) <=? model_balance b a (coin_Denom c)) cs.

#[global] Instance model_mint_bank : MintBank model_bank := {|
  GetModuleAccountAddress := module_address;
  GetBalance b a d := mkCoin d (model_balance b a d);
  BurnCoins m cs b :=
    if negb (coins_checkb cs) then (b, Err (Foreign "sdk.ErrInvalidCoins"))
    else if has_total b (module_address m) cs then (credit (module_address m) (-1) cs b, Ok tt)
    else (b, Err (Foreign "insufficient funds"));
  mint_ModuleName := "mint";
  mint_feeCollectorName := "fee_collector";
  mint_MintCoins cs b :=
    if coins_checkb cs then (credit (module_address "mint") 1 cs b, Ok tt)
    else (b, Err (Foreign "sdk.ErrInvalidCoins"));
  mint_AddCollectedFees cs b :=
    if negb (coins_checkb cs) then (b, Err (Foreign "sdk.ErrInvalidCoins"))
    else if has_total b (module_address "mint") cs
    then (credit (module_address "fee_collector") 1 cs (credit (module_address "mint") (-1) cs b), Ok tt)
    else (b, Err (Foreign "insufficient funds"));
|}.

Lemma has_total_true b a cs : (∀ d, 0 ≤ amount_of cs d ≤ model_balance b a d) → has_total b a cs = true.
Proof. intros H. unfold has_total. apply forallb_forall. intros c _. apply Z.leb_le. apply H. Qed.

Lemma valid_checkb cs : coins_valid cs → coins_checkb cs = true.
Proof. intros H. by apply Coins_IsValid_spec in H. Qed.

#[global] Instance model_mint_bank_laws : MintBankLaws model_bank.
Proof.
  refine {| mb_balance := model_balance; mb_supply := model_supply |}; cbn [BurnCoins mint_MintCoins mint_AddCollectedFees
    GetBalance GetModuleAccountAddress mint_feeCollectorName mint_ModuleName model_mint_bank].
  - done.
  - intros b cs Hv%valid_checkb H. rewrite Hv, has_total_true by done. eexists. split; [done|]. split; intros.
    + rewrite credit_supply. lia.
    + rewrite credit_balance. unfold at_addr. case_decide; lia.
  - intros b cs Hv%valid_checkb _. rewrite Hv. eexists. split; [done|]. split; intros.
    + rewrite credit_supply. lia.
    + rewrite credit_balance. unfold at_addr. case_decide; lia.
  - intros b cs Hv%valid_checkb H. rewrite Hv, has_total_true by done. eexists. split; [done|]. split; intros.
    + rewrite !credit_supply. lia.
    + rewrite !credit_balance. unfold at_addr. repeat case_decide; lia.
Defined.
