(* ===== verification/PlatformFee.v ===== *)
(** * x/xion: platform fees on sends

    Models x/xion/keeper/keeper.go, msg_server.go, genesis.go and the message
    and genesis validation of x/xion/types.  The module's KV store and the bank
    are the state; the SDK pieces come from [Sdk.v]. *)

From S2P Require Import Prelude Sdk SdkModel.

(** ** Data *)

(** Byte order and JSON helpers of the SDK used for the two stored values. *)
Class XionCodec := {
  BigEndianToUint64 : string → Z;
  Uint64ToBigEndian : Z → string;
  json_Marshal_Coins : Coins → outcome string;
  json_Unmarshal_Coins : string → outcome Coins;
}.

Class XionCodecLaws `{!XionCodec} := {
  BigEndianToUint64_empty : BigEndianToUint64 "" = 0;
  BigEndian_roundtrip n : is_u64 n → BigEndianToUint64 (Uint64ToBigEndian n) = n;
  json_Coins_roundtrip cs bz :
    json_Marshal_Coins cs = Ok bz → bz ≠ "" ∧ json_Unmarshal_Coins bz = Ok cs;
}.

Record MsgSend := mkMsgSend {
  send_FromAddress : string; send_ToAddress : string; send_Amount : Coins }.
Record MsgMultiSend := mkMsgMultiSend {
  ms_Inputs : list Input; ms_Outputs : list Output }.
Record MsgSetPlatformPercentage := mkMsgSetPct {
  pct_Authority : string; pct_PlatformPercentage : Z }.
Record MsgSetPlatformMinimum := mkMsgSetMin {
  min_Authority : string; min_Minimums : Coins }.
Record XionGenesis := mkXionGenesis {
  gs_PlatformPercentage : Z; gs_PlatformMinimums : Coins }.

(** What the handlers can write to: the module's KV store and the bank. *)
Record XState (S B : Type) := mkXState { x_store : S; x_bank : B }.
Arguments mkXState {S B}.
Arguments x_store {S B}.
Arguments x_bank {S B}.

Definition PlatformPercentageKey : string := String (Ascii.ascii_of_nat 0) "".
Definition PlatformMinimumKey : string := String (Ascii.ascii_of_nat 1) "".
Definition FeeCollectorName : string := "fee_collector".

Definition ErrNoAllowedContracts : goerr := Registered "xion" 2.
Definition ErrNoValidAllowances : goerr := Registered "xion" 3.
Definition ErrInconsistentExpiry : goerr := Registered "xion" 4.
Definition ErrMinimumNotMet : goerr := Registered "xion" 5.
Definition ErrNoValidWebAuth : goerr := Registered "xion" 6.
Definition ErrWebAuthDataTooLarge : goerr := Registered "xion" 7.

Section platform_fee.
Context `{!SdkMath, !CoinsOps, !AddressCodec, !Bech32, !BankTypes, !XionCodec}.
Context {S B : Type} `{!KVStore S, !BankKeeper B}.
(** [Keeper.authority] *)
Context (authority : string).

(** ** Keeper *)

Definition GetPlatformPercentage (s : S) : Z :=
  let bz := default "" (kv_get s PlatformPercentageKey) in
  BigEndianToUint64 bz.

(** [percentage] is a [uint32], widened to [uint64]. *)
Definition OverwritePlatformPercentage (percentage : Z) (s : S) : S :=
  kv_set s PlatformPercentageKey (Uint64ToBigEndian percentage).

Definition GetPlatformMinimums (s : S) : outcome Coins :=
  let bz := default "" (kv_get s PlatformMinimumKey) in
  if decide (slen bz ≠ 0) then json_Unmarshal_Coins bz else Ok [].

Definition OverwritePlatformMinimum (coins : Coins) (s : S) : outcome S :=
  bz ← json_Marshal_Coins coins;
  Ok (kv_set s PlatformMinimumKey bz).

(** ** Fee computation *)

(** [minMap]: one entry per denomination, the last one wins. *)
Definition minMap (mins : Coins) : gmap string Z :=
  foldl (λ m c, <[coin_Denom c := coin_Amount c]> m) ∅ mins.

Fixpoint meets_all (amt : Coins) (m : gmap string Z) : bool :=
  match amt with
  | [] => true
  | c :: amt =>
    match m !! coin_Denom c with
    | None => false
    | Some mn => if negb (mn =? 0) && (coin_Amount c <? mn) then false else meets_all amt m
    end
  end.

Definition meetsConfiguredMinimums (amt mins : Coins) : bool :=
  if decide (length mins = 0%nat) then false else meets_all amt (minMap mins).

(** One round of the loop of [getPlatformCoins] for a non-zero percentage: the
    fee on one coin, by big integers above [maxSafeAmount] and by [sdkmath.Int]
    below it. *)
Definition platform_fee (amount percentage : Z) : outcome Z :=
  maxSafeAmount ← Int_Quo u64_max percentage;
  if decide (amount > maxSafeAmount) then
    let bigResult := amount * percentage in
    let bigResult := bigResult + (10000 - 1) in
    let bigResult := Z.quot bigResult 10000 in
    NewIntFromBigInt bigResult
  else
    p ← Int_Mul amount percentage;
    q ← Int_Add p 9999;
    Int_Quo q 10000.

Definition add_platform_fee (percentage : Z) (platformCoins : Coins) (coin : Coin) : outcome Coins :=
  fee ← platform_fee (coin_Amount coin) percentage;
  f ← NewCoin (coin_Denom coin) fee;
  Coins_Add platformCoins [f].

Definition getPlatformCoins (coins : Coins) (percentage : Z) : outcome Coins :=
  if percentage =? 0 then
    fold_outcome (λ platformCoins c,
      z ← NewCoin (coin_Denom c) 0; Coins_Add platformCoins [z]) [] coins
  else
    fold_outcome (add_platform_fee percentage) [] coins.

(** ** Message handlers *)
Abbreviation St := (XState S B).

Definition on_bank {A} (m : M B A) : M St A :=
  zoom x_bank (λ b s, mkXState (x_store s) b) m.
Definition on_store (f : S → outcome S) : M St unit :=
  write (λ s, st ← f (x_store s); Ok (mkXState st (x_bank s))).

Definition msgServer_Send (msg : MsgSend) : M St unit :=
  s ← get_state;
  _ ← lift (IsSendEnabledCoins (x_bank s) (send_Amount msg));
  from ← lift (AccAddressFromBech32 (send_FromAddress msg));
  to ← lift (AccAddressFromBech32 (send_ToAddress msg));
  _ ← lift (fail_if (BlockedAddr (x_bank s) to) ErrUnauthorized);
  let percentage := GetPlatformPercentage (x_store s) in
  minimums ← lift (GetPlatformMinimums (x_store s));
  _ ← lift (fail_if (negb (meetsConfiguredMinimums (send_Amount msg) minimums)) ErrMinimumNotMet);
  throughCoins ←
    (if percentage =? 0 then mret (send_Amount msg)
     else
       platformCoins ← lift (getPlatformCoins (send_Amount msg) percentage);
       throughCoins ← lift (Coins_Sub (send_Amount msg) platformCoins);
       _ ← on_bank (SendCoinsFromAccountToModule from FeeCollectorName platformCoins);
       mret throughCoins);
  on_bank (SendCoins from to throughCoins).

Definition NewOutput (addr : AccAddress) (coins : Coins) : Output :=
  mkOutput (AccAddress_String addr) coins.

(** One round of the output loop of [MultiSend]; the accumulator is
    [(outputs, totalPlatformCoins)]. *)
Definition multi_send_output (b : B) (percentage : Z)
    (acc : list Output * Coins) (out : Output) : outcome (list Output * Coins) :=
  let '(outputs, totalPlatformCoins) := acc in
  accAddr ← map_err (λ _, ErrInvalidAddress) (AccAddressFromBech32 (out_Address out));
  _ ← fail_if (BlockedAddr b accAddr) ErrUnauthorized;
  if negb (percentage =? 0) then
    platformCoins ← getPlatformCoins (out_Coins out) percentage;
    '(throughCoins, wentNegative) ← Coins_SafeSub (out_Coins out) platformCoins;
    _ ← fail_if wentNegative (Plain "unable to subtract");
    total ← Coins_Add totalPlatformCoins platformCoins;
    Ok (outputs ++ [NewOutput accAddr throughCoins], total)
  else
    Ok (outputs ++ [out], totalPlatformCoins).

Definition msgServer_MultiSend (msg : MsgMultiSend) : M St unit :=
  s ← get_state;
  _ ← for_each (λ i, lift (IsSendEnabledCoins (x_bank s) (in_Coins i))) (ms_Inputs msg);
  let percentage := GetPlatformPercentage (x_store s) in
  minimums ← lift (GetPlatformMinimums (x_store s));
  match ms_Inputs msg with
  | [] => lift Panic
  | input :: _ =>
    _ ← lift (fail_if (negb (meetsConfiguredMinimums (in_Coins input) minimums)) ErrMinimumNotMet);
    '(outputs, totalPlatformCoins) ←
      lift (fold_outcome (multi_send_output (x_bank s) percentage) ([], []) (ms_Outputs msg));
    let outputs :=
      if negb (Coins_IsZero totalPlatformCoins)
      then outputs ++ [NewOutput (GetModuleAddress FeeCollectorName) totalPlatformCoins]
      else outputs in
    on_bank (InputOutputCoins input outputs)
  end.

Definition msgServer_SetPlatformPercentage (msg : MsgSetPlatformPercentage) : M St unit :=
  _ ← lift (fail_if (negb (bool_decide (authority = pct_Authority msg))) ErrInvalidSigner);
  _ ← lift (fail_if (10000 <? pct_PlatformPercentage msg) ErrInvalidRequest);
  on_store (λ st, Ok (OverwritePlatformPercentage (pct_PlatformPercentage msg) st)).

Definition msgServer_SetPlatformMinimum (msg : MsgSetPlatformMinimum) : M St unit :=
  _ ← lift (fail_if (negb (bool_decide (authority = min_Authority msg))) ErrInvalidSigner);
  on_store (OverwritePlatformMinimum (min_Minimums msg)).

(** ** Genesis *)
Definition XionGenesis_Validate (gs : XionGenesis) : outcome unit :=
  fail_if (10000 <? gs_PlatformPercentage gs) (Plain "unable to set platform percentage").

Definition DefaultXionGenesis : XionGenesis := mkXionGenesis 0 [].

Definition xion_InitGenesis (gs : XionGenesis) (s : S) : outcome S :=
  let s := OverwritePlatformPercentage (gs_PlatformPercentage gs) s in
  match OverwritePlatformMinimum (gs_PlatformMinimums gs) s with
  | Ok s => Ok s
  | _ => Panic
  end.

Definition xion_ExportGenesis (s : S) : outcome XionGenesis :=
  let platformPercentage := u32 (GetPlatformPercentage s) in
  match GetPlatformMinimums s with
  | Ok platformMinimums => Ok (mkXionGenesis platformPercentage platformMinimums)
  | _ => Panic
  end.

(** ** Queries *)
Definition Query_PlatformPercentage (s : S) : outcome Z := Ok (GetPlatformPercentage s).
Definition Query_PlatformMinimum (s : S) : outcome Coins := GetPlatformMinimums s.

(** ** Stateless validation and signers of the messages *)
Definition bech32_ok (addr : string) : outcome unit :=
  _ ← map_err (λ _, ErrInvalidAddress) (bech32_Decode addr); Ok tt.

Definition MsgSend_ValidateBasic (msg : MsgSend) : outcome unit :=
  _ ← bech32_ok (send_FromAddress msg);
  _ ← bech32_ok (send_ToAddress msg);
  _ ← fail_if (negb (Coins_IsValid (send_Amount msg))) ErrInvalidCoins;
  fail_if (negb (Coins_IsAllPositive (send_Amount msg))) ErrInvalidCoins.

Definition MsgMultiSend_ValidateBasic (msg : MsgMultiSend) : outcome unit :=
  match ms_Inputs msg with
  | [] => Err ErrNoInputs
  | [input] =>
    if decide (length (ms_Outputs msg) = 0%nat) then Err ErrNoOutputs
    else ValidateInputOutputs input (ms_Outputs msg)
  | _ => Err ErrMultipleSenders
  end.

Definition MsgSetPlatformPercentage_ValidateBasic (msg : MsgSetPlatformPercentage) : outcome unit :=
  fail_if (10000 <? pct_PlatformPercentage msg) (Plain "platform percentage exceeds 100%").

Definition MsgSetPlatformMinimum_ValidateBasic (msg : MsgSetPlatformMinimum) : outcome unit :=
  _ ← bech32_ok (min_Authority msg);
  _ ← fail_if (negb (Coins_IsValid (min_Minimums msg))) ErrInvalidCoins;
  fail_if (Coins_IsAnyNegative (min_Minimums msg)) ErrInvalidCoins.

(** [addr, _ := sdk.AccAddressFromBech32(s)]: the nil address on error. *)
Definition addr_or_nil (s : string) : outcome string :=
  match AccAddressFromBech32 s with Ok a => Ok a | Err _ => Ok "" | Panic => Panic end.

Definition MsgSend_GetSigners (msg : MsgSend) : outcome (list string) :=
  a ← addr_or_nil (send_FromAddress msg); Ok [a].

Definition MsgMultiSend_GetSigners (msg : MsgMultiSend) : outcome (list string) :=
  fold_outcome (λ addrs i, a ← addr_or_nil (in_Address i); Ok (addrs ++ [a])) [] (ms_Inputs msg).

(** [GetSigners] of both authority messages: the bytes of the address under
    any prefix, or the standard conversion when that fails. *)
Definition authority_GetSigners (authority : string) : outcome (list string) :=
  let fallback := a ← addr_or_nil authority; Ok [a] in
  match bech32_Decode authority with
  | Panic => Panic
  | Err _ => fallback
  | Ok (_, addrBytes) =>
    match bech32_ConvertBits addrBytes 5 8 false with
    | Panic => Panic
    | Err _ => fallback
    | Ok converted => Ok [converted]
    end
  end.

Definition MsgSetPlatformPercentage_GetSigners (msg : MsgSetPlatformPercentage) :=
  authority_GetSigners (pct_Authority msg).
Definition MsgSetPlatformMinimum_GetSigners (msg : MsgSetPlatformMinimum) :=
  authority_GetSigners (min_Authority msg).

End platform_fee.

(** ** Specification of the fee *)

(** [ceil (amount * percentage / 10000)] *)
Definition ceil_fee (amount percentage : Z) : Z := (amount * percentage + 9999) / 10000.

Lemma ceil_fee_0 p : ceil_fee 0 p = 0.
Proof. done. Qed.

Lemma ceil_fee_pct_0 a : ceil_fee a 0 = 0.
Proof. unfold ceil_fee. by rewrite Z.mul_0_r. Qed.

Lemma ceil_fee_nonneg a p : 0 ≤ a → 0 ≤ p → 0 ≤ ceil_fee a p.
Proof. intros. unfold ceil_fee. apply Z.div_pos; nia. Qed.

Lemma ceil_fee_le a p : 0 ≤ a → 0 ≤ p ≤ 10000 → ceil_fee a p ≤ a.
Proof. intros. unfold ceil_fee. apply Z.lt_succ_r, Z.div_lt_upper_bound; nia. Qed.

Lemma ceil_fee_pos a p : 0 < a → 0 < p → 0 < ceil_fee a p.
Proof. intros. unfold ceil_fee. apply Z.div_str_pos. nia. Qed.

Lemma ceil_fee_subadditive a b p :
  ceil_fee (a + b) p ≤ ceil_fee a p + ceil_fee b p.
Proof.
  unfold ceil_fee.
  pose proof (Z.div_mod ((a + b) * p + 9999) 10000).
  pose proof (Z.div_mod (a * p + 9999) 10000).
  pose proof (Z.div_mod (b * p + 9999) 10000).
  pose proof (Z.mod_pos_bound ((a + b) * p + 9999) 10000).
  pose proof (Z.mod_pos_bound (a * p + 9999) 10000).
  pose proof (Z.mod_pos_bound (b * p + 9999) 10000). lia.
Qed.

(** ** Correctness of the fee computation *)
Section fees.
Context `{Hm : !SdkMath, !SdkMathLaws, Hc : !CoinsOps, !CoinsLaws}.

(** Below the threshold the product fits in 64 bits, above it the big-integer
    path is used: both compute the ceiling, and neither panics. *)
Lemma platform_fee_ceil a p :
  0 ≤ a < 2 ^ 256 → 0 < p ≤ 10000 → platform_fee a p = Ok (ceil_fee a p).
Proof.
  intros Ha Hp. unfold platform_fee. rewrite Int_Quo_ok by lia. cbn.
  pose proof (ceil_fee_nonneg a p) as Hn. pose proof (ceil_fee_le a p) as Hle.
  case_decide as Hbig.
  - rewrite Z.quot_div_nonneg by nia. unfold ceil_fee in *. change (10000 - 1) with 9999.
    apply NewIntFromBigInt_ok. unfold int_range. lia.
  - assert (a * p ≤ u64_max) as Hs.
    { rewrite Z.quot_div_nonneg in Hbig by (unfold u64_max; lia).
      pose proof (Z.mul_div_le u64_max p). nia. }
    assert (0 ≤ a * p) by nia. unfold u64_max in Hs.
    rewrite Int_Mul_ok by (unfold int_range; lia). cbn.
    rewrite Int_Add_ok by (unfold int_range; lia). cbn.
    rewrite Int_Quo_ok by lia. by rewrite Z.quot_div_nonneg by lia.
Qed.

(** What the fees of a list of coins add up to for one denomination. *)
Definition fees_of (cs : Coins) (p : Z) (d : string) : Z :=
  sumZ (λ c, if decide (coin_Denom c = d) then ceil_fee (coin_Amount c) p else 0) cs.

Lemma fees_of_nonneg cs p d : coins_valid cs → 0 ≤ p → 0 ≤ fees_of cs p d.
Proof.
  intros [_ Hf] Hp. apply sumZ_nonneg. intros c Hin. rewrite Forall_forall in Hf.
  destruct (Hf c Hin). case_decide; [|lia]. apply ceil_fee_nonneg; lia.
Qed.

Lemma fees_of_valid cs p d : coins_valid cs → fees_of cs p d = ceil_fee (amount_of cs d) p.
Proof. intros. unfold fees_of. by apply (amount_sum_map (λ a, ceil_fee a p)). Qed.

Lemma add_platform_fee_ceil p acc c :
  0 < p ≤ 10000 → ValidateDenom (coin_Denom c) = true → 0 < coin_Amount c < 2 ^ 256 →
  add_platform_fee p acc c = Coins_Add acc [mkCoin (coin_Denom c) (ceil_fee (coin_Amount c) p)].
Proof.
  intros. unfold add_platform_fee. rewrite platform_fee_ceil by lia. cbn.
  rewrite NewCoin_ok; [done..|]. apply ceil_fee_nonneg; lia.
Qed.

Lemma getPlatformCoins_loop cs acc p :
  0 < p ≤ 10000 → coins_valid acc → coins_valid cs →
  (∀ d, amount_of acc d + fees_of cs p d < 2 ^ 256) →
  ∃ fs, fold_outcome (add_platform_fee p) acc cs = Ok fs ∧ coins_valid fs ∧
        ∀ d, amount_of fs d = amount_of acc d + fees_of cs p d.
Proof.
  intros Hp. revert acc. induction cs as [|c cs IH]; intros acc Hacc Hcs Hb.
  - exists acc. split_and!; [done..|]. intros. cbn. lia.
  - apply coins_valid_cons in Hcs as (Hd&Ha&Hlt&Hcs). cbn [fold_outcome].
    pose proof (ceil_fee_nonneg (coin_Amount c) p). rewrite add_platform_fee_ceil by done.
    set (f := mkCoin (coin_Denom c) (ceil_fee (coin_Amount c) p)).
    destruct (coins_valid_singleton_ok (coin_Denom c) (ceil_fee (coin_Amount c) p)) as [??];
      [done|lia|].
    assert (∀ d, amount_of [f] d = if decide (coin_Denom c = d) then ceil_fee (coin_Amount c) p else 0)
      as Ef by (intros; rewrite amount_of_cons, amount_of_nil; apply Z.add_0_r).
    assert (∀ d, fees_of (c :: cs) p d = amount_of [f] d + fees_of cs p d) as Efs
      by (intros; by rewrite Ef).
    destruct (Coins_Add_ok acc [f]) as (acc'&->&Hv&Eacc); [done..| |rewrite bind_Ok_l].
    { intros d. specialize (Hb d). rewrite Efs in Hb. pose proof (fees_of_nonneg cs p d Hcs). lia. }
    destruct (IH acc') as (fs&->&?&E); [done..| |].
    { intros d. specialize (Hb d). rewrite Efs in Hb. rewrite Eacc. lia. }
    exists fs. split_and!; [done..|]. intros d. rewrite E, Eacc, Efs. lia.
Qed.

(** The platform coins of valid coins are valid and are the ceiling fee per
    denomination. *)
Lemma getPlatformCoins_spec cs p :
  0 < p ≤ 10000 → coins_valid cs →
  ∃ fs, getPlatformCoins cs p = Ok fs ∧ coins_valid fs ∧
        ∀ d, amount_of fs d = ceil_fee (amount_of cs d) p.
Proof.
  intros Hp Hcs. unfold getPlatformCoins. rewrite (proj2 (Z.eqb_neq p 0)) by lia.
  destruct (getPlatformCoins_loop cs [] p) as (fs&->&?&E); [done|apply coins_valid_nil|done| |].
  - intros d. rewrite fees_of_valid by done. rewrite amount_of_nil.
    pose proof (amount_of_nonneg cs d Hcs). pose proof (amount_of_bound cs d Hcs).
    pose proof (ceil_fee_le (amount_of cs d) p). lia.
  - exists fs. split_and!; [done..|]. intros d. by rewrite E, fees_of_valid.
Qed.

(** What is left after the platform coins are taken out. *)
Lemma through_coins_spec cs fs p :
  0 < p ≤ 10000 → coins_valid cs → coins_valid fs →
  (∀ d, amount_of fs d = ceil_fee (amount_of cs d) p) →
  ∃ ts, Coins_SafeSub cs fs = Ok (ts, false) ∧ coins_valid ts ∧
        ∀ d, amount_of ts d = amount_of cs d - ceil_fee (amount_of cs d) p.
Proof.
  intros Hp Hcs Hfs E.
  destruct (Coins_SafeSub_ok cs fs) as (ts&?&?&Et); [done..| |].
  - intros d. rewrite E. apply ceil_fee_le; [by apply amount_of_nonneg|lia].
  - exists ts. split_and!; [done..|]. intros d. by rewrite Et, E.
Qed.
End fees.

(** ** Correctness of the handlers *)
Section handlers.
Context `{Hm : !SdkMath, !SdkMathLaws, Hc : !CoinsOps, !CoinsLaws}.
Context `{Ha : !AddressCodec, !AddressLaws, Hbech : !Bech32, Hx : !XionCodec, !XionCodecLaws}.
Context `{Hbt : !BankTypes, !BankTypesLaws}.
Context {S B : Type} `{Hs : !KVStore S, !KVStoreLaws S, Hb : !BankKeeper B, !BankLaws B}.
Context (authority : string).
Implicit Types (s : XState S B).

Lemma on_bank_Ok {A} (m : M B A) s s' (a : A) :
  on_bank m s = (s', Ok a) ↔
  ∃ b, m (x_bank s) = (b, Ok a) ∧ s' = mkXState (x_store s) b.
Proof. unfold on_bank, zoom. destruct (m (x_bank s)) as [b r]. naive_solver. Qed.

Ltac inv_bank :=
  repeat match goal with Hbk : on_bank _ _ = (_, Ok _) |- _ => apply on_bank_Ok in Hbk as (?&?&?); subst end.

Lemma on_bank_store {A} (m : M B A) s : x_store (on_bank m s).1 = x_store s.
Proof. unfold on_bank, zoom. by destruct (m (x_bank s)). Qed.

(** The coins a send takes from the sender: the fee and the rest. *)
Lemma fee_split cs p :
  0 < p ≤ 10000 → coins_valid cs →
  ∃ fs ts, getPlatformCoins cs p = Ok fs ∧ Coins_SafeSub cs fs = Ok (ts, false) ∧
    Coins_Sub cs fs = Ok ts ∧ coins_valid fs ∧ coins_valid ts ∧
    (∀ d, amount_of fs d = ceil_fee (amount_of cs d) p) ∧
    ∀ d, amount_of ts d = amount_of cs d - ceil_fee (amount_of cs d) p.
Proof.
  intros Hp Hv. destruct (getPlatformCoins_spec cs p) as (fs&Ef&?&Hf); [done..|].
  destruct (through_coins_spec cs fs p) as (ts&Et&?&Ht); [done..|].
  exists fs, ts. split_and!; try done. by rewrite Coins_Sub_SafeSub, Et.
Qed.

Lemma store_pure {T A} (m : M (XState S B) T) (f : T → M (XState S B) A) s :
  x_store (m s).1 = x_store s → (∀ t s', x_store (f t s').1 = x_store s') →
  x_store ((m ≫= f) s).1 = x_store s.
Proof.
  unfold mbind, M_bind. intros E Hf. destruct (m s) as [s1 [t|e|]] eqn:Em; cbn in *; [|done..].
  by rewrite Hf.
Qed.

Lemma for_each_lift_store {T} (f : T → outcome unit) l s :
  (for_each (λ i, lift (f i)) l s).1 = s.
Proof.
  induction l as [|x l IH]; [done|]. cbn. unfold mbind, M_bind, lift at 1.
  by destruct (f x).
Qed.

Lemma for_each_lift_Ok {T} (f : T → outcome unit) l s s' u :
  for_each (λ i, lift (f i)) l s = (s', Ok u) → s' = s.
Proof. intros E. by rewrite <- (for_each_lift_store f l s), E. Qed.

Lemma msgServer_Send_store msg s : x_store (msgServer_Send msg s).1 = x_store s.
Proof.
  unfold msgServer_Send.
  repeat first [apply on_bank_store | apply store_pure; [done|intros] ].
  apply store_pure; [|intros; apply on_bank_store].
  case_match; [done|].
  repeat (apply store_pure; [done || apply on_bank_store|intros]). done.
Qed.

Lemma msgServer_MultiSend_store msg s : x_store (msgServer_MultiSend msg s).1 = x_store s.
Proof.
  unfold msgServer_MultiSend. apply store_pure; [done|intros s1 s'].
  apply store_pure; [by rewrite for_each_lift_store|intros ? s2].
  apply store_pure; [done|intros mins s3]. case_match; [done|].
  apply store_pure; [done|intros ? s4]. apply store_pure; [done|intros [os tot] s5].
  apply on_bank_store.
Qed.

Lemma MsgSend_ValidateBasic_coins msg u :
  MsgSend_ValidateBasic msg = Ok u → coins_valid (send_Amount msg).
Proof.
  unfold MsgSend_ValidateBasic. intros E. inv_ok. apply Coins_IsValid_spec. by apply negb_false_iff.
Qed.

Lemma MsgMultiSend_ValidateBasic_inputs msg u :
  MsgMultiSend_ValidateBasic msg = Ok u →
  ∃ input, ms_Inputs msg = [input] ∧ coins_valid (in_Coins input) ∧
    Forall (λ o, coins_valid (out_Coins o)) (ms_Outputs msg) ∧
    ∀ d, sumZ (λ o, amount_of (out_Coins o) d) (ms_Outputs msg) = amount_of (in_Coins input) d.
Proof.
  unfold MsgMultiSend_ValidateBasic. destruct (ms_Inputs msg) as [|i [|]]; [done| |done].
  case_decide; [done|]. intros E%ValidateInputOutputs_ok. naive_solver.
Qed.

(** C1. [Send] moves exactly the amount out of the sender, delivers it to the
    recipient less [ceil(amount * percentage / 10000)] per denomination, hands
    that fee to the fee collector, and touches no other balance and no module
    parameter. *)
Theorem Send_balances msg s s' from to :
  MsgSend_ValidateBasic msg = Ok tt →
  0 ≤ GetPlatformPercentage (x_store s) ≤ 10000 →
  AccAddressFromBech32 (send_FromAddress msg) = Ok from →
  AccAddressFromBech32 (send_ToAddress msg) = Ok to →
  msgServer_Send msg s = (s', Ok tt) →
  x_store s' = x_store s ∧
  ∀ a d,
    let amt := amount_of (send_Amount msg) d in
    let fee := ceil_fee amt (GetPlatformPercentage (x_store s)) in
    bank_balance (x_bank s') a d =
      bank_balance (x_bank s) a d - at_addr from a amt + at_addr to a (amt - fee)
      + at_addr (GetModuleAddress FeeCollectorName) a fee.
Proof.
  intros Hv%MsgSend_ValidateBasic_coins Hp Efrom Eto Hsend. split.
  { change s' with ((s', Ok tt).1 : XState S B). rewrite <- Hsend. apply msgServer_Send_store. }
  intros a d; cbv zeta. unfold msgServer_Send in Hsend. inv_ok.
  case_match eqn:Ep; inv_ok; inv_bank; cbn in *.
  - apply Z.eqb_eq in Ep. rewrite Ep, ceil_fee_pct_0. erewrite SendCoins_ok by done.
    unfold at_addr. repeat case_decide; lia.
  - apply Z.eqb_neq in Ep.
    destruct (fee_split (send_Amount msg) (GetPlatformPercentage (x_store s)))
      as (fs&ts&Ef&_&Et&_&_&Hf&Ht); [lia|done|]. inv_ok.
    erewrite SendCoins_ok, SendCoinsFromAccountToModule_ok by done.
    rewrite Hf, Ht. unfold at_addr. repeat case_decide; lia.
Qed.

(** When the guards of [Send] pass, the fee arithmetic cannot fail: the
    handler is exactly the fee transfer followed by the delivery of the rest. *)
Theorem Send_performs_transfers msg s from to mins :
  MsgSend_ValidateBasic msg = Ok tt →
  0 < GetPlatformPercentage (x_store s) ≤ 10000 →
  AccAddressFromBech32 (send_FromAddress msg) = Ok from →
  AccAddressFromBech32 (send_ToAddress msg) = Ok to →
  IsSendEnabledCoins (x_bank s) (send_Amount msg) = Ok tt →
  BlockedAddr (x_bank s) to = false →
  GetPlatformMinimums (x_store s) = Ok mins →
  meetsConfiguredMinimums (send_Amount msg) mins = true →
  ∃ fs ts,
    msgServer_Send msg s =
      (_ ← on_bank (SendCoinsFromAccountToModule from FeeCollectorName fs);
       on_bank (SendCoins from to ts)) s ∧
    ∀ d, amount_of fs d = ceil_fee (amount_of (send_Amount msg) d) (GetPlatformPercentage (x_store s)) ∧
         amount_of fs d + amount_of ts d = amount_of (send_Amount msg) d.
Proof.
  intros Hv%MsgSend_ValidateBasic_coins Hp Efrom Eto Een Ebl Emin Emeet.
  destruct (fee_split (send_Amount msg) (GetPlatformPercentage (x_store s)))
    as (fs&ts&Ef&_&Et&_&_&Hf&Ht); [lia|done|].
  exists fs, ts. split; [|intros d; rewrite Hf, Ht; lia].
  unfold msgServer_Send. run_ok. rewrite (proj2 (Z.eqb_neq _ _)) by lia.
  rewrite Ef. unfold mbind at 1, M_bind at 1. run_ok.
  unfold mbind, M_bind. by destruct (on_bank _ s) as [s1 [?|?|]].
Qed.

(** What a list of outputs credits to an address, before and after the fee. *)
Definition credited (os : list Output) (a : string) (d : string) : Z :=
  sumZ (λ o, at_bech32 (out_Address o) a (amount_of (out_Coins o) d)) os.
Definition credited_net (p : Z) (os : list Output) (a : string) (d : string) : Z :=
  sumZ (λ o, at_bech32 (out_Address o) a
               (amount_of (out_Coins o) d - ceil_fee (amount_of (out_Coins o) d) p)) os.
Definition fees_total (p : Z) (os : list Output) (d : string) : Z :=
  sumZ (λ o, ceil_fee (amount_of (out_Coins o) d) p) os.
Definition outputs_total (os : list Output) (d : string) : Z :=
  sumZ (λ o, amount_of (out_Coins o) d) os.

Lemma fees_total_le p os d :
  0 ≤ p ≤ 10000 → Forall (λ o, coins_valid (out_Coins o)) os →
  0 ≤ fees_total p os d ≤ outputs_total os d.
Proof.
  intros Hp. unfold fees_total, outputs_total.
  induction 1 as [|o os Ho _ IH]; cbn [sumZ]; [lia|].
  pose proof (amount_of_nonneg _ d Ho).
  pose proof (ceil_fee_le (amount_of (out_Coins o) d) p).
  pose proof (ceil_fee_nonneg (amount_of (out_Coins o) d) p). lia.
Qed.

Lemma multi_send_output_spec b p acc tot o r :
  0 < p ≤ 10000 → coins_valid (out_Coins o) → coins_valid tot →
  (∀ d, amount_of tot d + ceil_fee (amount_of (out_Coins o) d) p < 2 ^ 256) →
  multi_send_output b p (acc, tot) o = Ok r →
  coins_valid r.2 ∧
  (∀ d, amount_of r.2 d = amount_of tot d + ceil_fee (amount_of (out_Coins o) d) p) ∧
  ∀ a d, credited r.1 a d = credited acc a d + credited_net p [o] a d.
Proof.
  intros Hp Ho Ht Hbd. unfold multi_send_output.
  rewrite (proj2 (Z.eqb_neq p 0)) by lia. cbn [negb]. intros E. inv_ok.
  destruct (fee_split (out_Coins o) p) as (fs&ts&?&?&_&Hvf&?&Hf&Hts); [done..|]. inv_ok.
  destruct (coins_valid_weaken _ Hvf) as [Hsf Hff].
  destruct (Coins_Add_ok tot fs) as (tot'&?&?&Etot); [done..| |].
  { intros d. rewrite Hf. apply Hbd. }
  inv_ok. cbn [fst snd]. split_and!; [done| |].
  - intros d. by rewrite Etot, Hf.
  - intros a d. unfold credited, credited_net. rewrite sumZ_app. cbn [sumZ]. f_equal. f_equal.
    unfold at_bech32. cbn. erewrite AccAddress_roundtrip by done. rewrite Hts. by case_match; inv_ok.
Qed.

Lemma multi_send_loop b p os acc tot r :
  0 < p ≤ 10000 → Forall (λ o, coins_valid (out_Coins o)) os → coins_valid tot →
  (∀ d, amount_of tot d + fees_total p os d < 2 ^ 256) →
  fold_outcome (multi_send_output b p) (acc, tot) os = Ok r →
  coins_valid r.2 ∧
  (∀ d, amount_of r.2 d = amount_of tot d + fees_total p os d) ∧
  ∀ a d, credited r.1 a d = credited acc a d + credited_net p os a d.
Proof.
  intros Hp Hos. revert acc tot.
  induction Hos as [|o os Ho Hos IH]; intros acc tot Ht Hbd E; cbn [fold_outcome] in E.
  { inv_ok. unfold fees_total, credited_net. cbn [fst snd sumZ]. split_and!; [done|lia..]. }
  apply bind_Ok in E as ([acc1 tot1]&E1&E).
  assert (∀ d, fees_total p (o :: os) d = ceil_fee (amount_of (out_Coins o) d) p + fees_total p os d)
    as Ef by done.
  destruct (multi_send_output_spec b p acc tot o (acc1, tot1)) as (Hv1&Et1&Ec1); [done..| |done|].
  { intros d. specialize (Hbd d). rewrite Ef in Hbd. pose proof (fees_total_le p os d ltac:(lia) Hos). lia. }
  cbn [fst snd] in Hv1, Et1, Ec1. destruct (IH acc1 tot1) as (?&Et&Ec); [done| |done|].
  { intros d. specialize (Hbd d). rewrite Ef in Hbd. rewrite Et1. lia. }
  split_and!; [done| |].
  - intros d. rewrite Et, Et1, Ef. lia.
  - intros a d. rewrite Ec, Ec1. unfold credited_net. cbn [sumZ]. lia.
Qed.

(** With no fee the outputs go to the bank as they came. *)
Lemma multi_send_loop_free b os acc tot r :
  fold_outcome (multi_send_output b 0) (acc, tot) os = Ok r → r = (acc ++ os, tot).
Proof.
  revert acc. induction os as [|o os IH]; intros acc E; cbn [fold_outcome] in E.
  { inv_ok. by rewrite app_nil_r. }
  apply bind_Ok in E as (r1&E1&E). unfold multi_send_output in E1. cbn in E1. inv_ok.
  apply IH in E. by rewrite <- app_assoc in E.
Qed.

Lemma credited_net_free os a d : credited_net 0 os a d = credited os a d.
Proof.
  apply sumZ_ext. intros o _. by rewrite ceil_fee_pct_0, Z.sub_0_r.
Qed.

Lemma credited_app os os' a d : credited (os ++ os') a d = credited os a d + credited os' a d.
Proof. apply sumZ_app. Qed.

Lemma credited_fee_collector (tot : Coins) a d :
  credited [NewOutput (GetModuleAddress FeeCollectorName) tot] a d =
  at_addr (GetModuleAddress FeeCollectorName) a (amount_of tot d).
Proof. unfold credited, at_bech32. cbn. rewrite GetModuleAddress_bech32. lia. Qed.

(** Whatever the percentage, the outputs passed to the bank credit the net
    amounts and the total of the fees. *)
Lemma multi_send_outputs b p os os' tot :
  0 ≤ p ≤ 10000 → Forall (λ o, coins_valid (out_Coins o)) os →
  (∀ d, outputs_total os d < 2 ^ 256) →
  fold_outcome (multi_send_output b p) ([], []) os = Ok (os', tot) →
  coins_valid tot ∧ (∀ d, amount_of tot d = fees_total p os d) ∧
  ∀ a d, credited os' a d = credited_net p os a d.
Proof.
  intros Hp Hos Hbd E. destruct (decide (p = 0)) as [->|].
  - apply multi_send_loop_free in E as [= -> ->]. split_and!; [apply coins_valid_nil| |].
    + intros d. unfold fees_total.
      rewrite (sumZ_ext _ (λ _, 0)) by (intros; by rewrite ceil_fee_pct_0).
      clear. induction os; cbn [sumZ]; [done|]. by rewrite <- IHos.
    + intros. by rewrite credited_net_free.
  - apply multi_send_loop in E as (?&Et&Ec); [|lia|done|apply coins_valid_nil|].
    + split_and!; [done|intros..]; cbn [fst snd] in *; [by rewrite Et|by rewrite Ec].
    + intros d. pose proof (fees_total_le p os d Hp Hos). specialize (Hbd d).
      rewrite amount_of_nil. lia.
Qed.

(** C2. A validated [MultiSend] has one input; it takes the input's coins from
    the input address, credits each output less its own ceiling fee, and credits
    the sum of those fees to the fee collector; what is debited is what is
    credited. *)
Theorem MultiSend_balances msg s s' :
  MsgMultiSend_ValidateBasic msg = Ok tt →
  0 ≤ GetPlatformPercentage (x_store s) ≤ 10000 →
  msgServer_MultiSend msg s = (s', Ok tt) →
  x_store s' = x_store s ∧
  ∃ input, ms_Inputs msg = [input] ∧
  (∀ d, amount_of (in_Coins input) d = outputs_total (ms_Outputs msg) d) ∧
  ∀ a d,
    let p := GetPlatformPercentage (x_store s) in
    bank_balance (x_bank s') a d =
      bank_balance (x_bank s) a d
      - at_bech32 (in_Address input) a (amount_of (in_Coins input) d)
      + credited_net p (ms_Outputs msg) a d
      + at_addr (GetModuleAddress FeeCollectorName) a (fees_total p (ms_Outputs msg) d).
Proof.
  intros (input&Ein&Hvi&Hos&Etot)%MsgMultiSend_ValidateBasic_inputs Hp Hms.
  assert (∀ d, outputs_total (ms_Outputs msg) d < 2 ^ 256) as Hbd.
  { intros d. unfold outputs_total. rewrite Etot. by apply amount_of_bound. }
  split; [|exists input; split_and!; [done|intros d; symmetry; apply Etot|] ].
  { change s' with ((s', Ok tt).1 : XState S B). rewrite <- Hms. apply msgServer_MultiSend_store. }
  intros a d; cbv zeta. unfold msgServer_MultiSend in Hms. inv_ok.
  match goal with Hf : for_each _ _ _ = _ |- _ => apply for_each_lift_Ok in Hf; subst end.
  rewrite Ein in *. inv_ok.
  match goal with p : list Output * Coins |- _ => destruct p as [os' tot] end.
  edestruct multi_send_outputs as (Hvt&Et&Ec); [..|eassumption|]; [done..|].
  inv_bank. cbn in *. erewrite InputOutputCoins_ok by done.
  change (sumZ _ ?l) with (credited l a d). rewrite Coins_IsZero_spec by done.
  case_bool_decide; cbn [negb].
  - subst tot. rewrite Ec, <- (Et d), amount_of_nil. unfold at_addr. case_decide; lia.
  - rewrite credited_app, credited_fee_collector, Ec, Et. lia.
Qed.

(** C8. Both paths of the fee computation, below and above the 64-bit threshold,
    return [ceil(amount * percentage / 10000)] and never panic; the fee is at
    most the amount, is at least one unit on a positive amount, and splitting an
    amount never lowers the total fee. *)
Theorem platform_fee_spec a b p :
  0 ≤ a < 2 ^ 256 → 0 ≤ b < 2 ^ 256 → a + b < 2 ^ 256 → 0 < p ≤ 10000 →
  platform_fee a p = Ok (ceil_fee a p) ∧
  0 ≤ ceil_fee a p ≤ a ∧ (0 < a → 0 < ceil_fee a p) ∧
  platform_fee (a + b) p = Ok (ceil_fee (a + b) p) ∧
  ceil_fee (a + b) p ≤ ceil_fee a p + ceil_fee b p.
Proof.
  intros Hla Hlb Hlab Hp. split_and!.
  - by apply platform_fee_ceil.
  - apply ceil_fee_nonneg; lia.
  - apply ceil_fee_le; lia.
  - intros. apply ceil_fee_pos; lia.
  - apply platform_fee_ceil; lia.
  - apply ceil_fee_subadditive.
Qed.

(** *** Minimums *)

Lemma minMap_lookup mins d (m0 : gmap string Z) :
  NoDup (coin_Denom <$> mins) →
  foldl (λ m c, <[coin_Denom c := coin_Amount c]> m) m0 mins !! d =
  match list_find (λ c, coin_Denom c = d) mins with
  | Some (_, c) => Some (coin_Amount c)
  | None => m0 !! d
  end.
Proof.
  revert m0. induction mins as [|c mins IH]; intros m0 Hnd; [done|].
  cbn in Hnd. apply NoDup_cons in Hnd as [Hni Hnd]. cbn [foldl list_find].
  rewrite IH by done. case_decide as E.
  - subst. rewrite lookup_insert_eq. destruct (list_find _ mins) as [[i c']|] eqn:Ef; [|done].
    apply list_find_Some in Ef as (Ec&Ed&_). exfalso. apply Hni. rewrite <- Ed.
    apply list_elem_of_fmap_2. by eapply list_elem_of_lookup_2.
  - rewrite lookup_insert_ne by done. by destruct (list_find _ mins) as [[? ?]|].
Qed.

Lemma meets_all_true amt (m : gmap string Z) :
  meets_all amt m = true ↔
  ∀ c, c ∈ amt → ∃ mn, m !! coin_Denom c = Some mn ∧ (mn = 0 ∨ mn ≤ coin_Amount c).
Proof.
  induction amt as [|c amt IH]; cbn.
  { split; [|done]. intros _ c Hin. by apply elem_of_nil in Hin. }
  setoid_rewrite elem_of_cons. destruct (m !! coin_Denom c) as [mn|] eqn:E.
  - destruct (negb (mn =? 0) && (coin_Amount c <? mn)) eqn:Eb.
    + split; [done|]. intros Hall. destruct (Hall c) as (mn'&?&?); [by left|]. simplify_eq. lia.
    + rewrite IH. split; [|naive_solver]. intros Hall c' [->|?]; [|by apply Hall].
      exists mn. split; [done|]. lia.
  - split; [done|]. intros Hall. destruct (Hall c) as (mn'&?&?); [by left|]. congruence.
Qed.

(** C38. The minimum check is an allow list: it passes exactly when minimums are
    configured and every coin sent has an entry whose minimum is zero or met. *)
Theorem meetsConfiguredMinimums_spec amt mins :
  NoDup (coin_Denom <$> mins) →
  meetsConfiguredMinimums amt mins = true ↔
  mins ≠ [] ∧
  ∀ c, c ∈ amt →
    ∃ m, m ∈ mins ∧ coin_Denom m = coin_Denom c ∧
         (coin_Amount m = 0 ∨ coin_Amount m ≤ coin_Amount c).
Proof.
  intros Hnd. unfold meetsConfiguredMinimums. case_decide as Hl.
  { apply nil_length_inv in Hl. naive_solver. }
  rewrite meets_all_true. unfold minMap. setoid_rewrite minMap_lookup; [|done].
  assert (mins ≠ []) by (by intros ->). split.
  - intros Hall. split; [done|]. intros c Hin. destruct (Hall c Hin) as (mn&Em&?).
    destruct (list_find _ mins) as [[i m]|] eqn:Ef; [|done]. simplify_eq.
    apply list_find_Some in Ef as (?&?&_). exists m.
    split; [by eapply list_elem_of_lookup_2|done].
  - intros [_ Hall] c Hin. destruct (Hall c Hin) as (m&Hmem&Ed&?).
    destruct (list_find (λ c', coin_Denom c' = coin_Denom c) mins) as [[i m']|] eqn:Ef.
    + apply list_find_Some in Ef as (Hmem'&Ed'&_). apply list_elem_of_lookup_1 in Hmem as [j Hj].
      assert (i = j) as ->.
      { apply (NoDup_lookup (coin_Denom <$> mins) _ _ (coin_Denom c)); [done|..];
          rewrite list_lookup_fmap; [rewrite Hmem'|rewrite Hj]; cbn; congruence. }
      exists (coin_Amount m). split; [congruence|done].
    + apply list_find_None in Ef. rewrite Forall_forall in Ef. naive_solver.
Qed.

(** *** The module's parameters over every history of the chain *)

Inductive XionMsg :=
| DoSend (msg : MsgSend)
| DoMultiSend (msg : MsgMultiSend)
| DoSetPlatformPercentage (msg : MsgSetPlatformPercentage)
| DoSetPlatformMinimum (msg : MsgSetPlatformMinimum).

Definition xion_handle (m : XionMsg) : M (XState S B) unit :=
  match m with
  | DoSend msg => msgServer_Send msg
  | DoMultiSend msg => msgServer_MultiSend msg
  | DoSetPlatformPercentage msg => msgServer_SetPlatformPercentage authority msg
  | DoSetPlatformMinimum msg => msgServer_SetPlatformMinimum authority msg
  end.

(** The percentage of a message and of a genesis file is a [uint32]. *)
Definition msg_uint32 (m : XionMsg) : Prop :=
  match m with
  | DoSetPlatformPercentage msg => 0 ≤ pct_PlatformPercentage msg < 2 ^ 32
  | _ => True
  end.

Inductive xion_reachable : XState S B → Prop :=
| reach_genesis gs st0 st b :
    XionGenesis_Validate gs = Ok tt → 0 ≤ gs_PlatformPercentage gs < 2 ^ 32 →
    xion_InitGenesis gs st0 = Ok st → xion_reachable (mkXState st b)
| reach_other_module s b :
    xion_reachable s → xion_reachable (mkXState (x_store s) b)
| reach_msg m s :
    xion_reachable s → msg_uint32 m → xion_reachable (xion_handle m s).1.

(** The percentage is at most 100% and the minimums can be read back. *)
Definition xion_params_ok (st : S) : Prop :=
  0 ≤ GetPlatformPercentage st ≤ 10000 ∧ ∃ mins, GetPlatformMinimums st = Ok mins.

Lemma GetPlatformPercentage_set p st :
  0 ≤ p < 2 ^ 64 → GetPlatformPercentage (OverwritePlatformPercentage p st) = p.
Proof.
  intros. unfold GetPlatformPercentage, OverwritePlatformPercentage.
  rewrite kv_get_spec, kv_set_spec, lookup_insert_eq. by apply BigEndian_roundtrip.
Qed.

Lemma GetPlatformMinimums_frame p st :
  GetPlatformMinimums (OverwritePlatformPercentage p st) = GetPlatformMinimums st.
Proof.
  unfold GetPlatformMinimums, OverwritePlatformPercentage.
  by rewrite !kv_get_spec, kv_set_spec, lookup_insert_ne.
Qed.

Lemma GetPlatformMinimums_set cs st st' :
  OverwritePlatformMinimum cs st = Ok st' →
  GetPlatformMinimums st' = Ok cs ∧ GetPlatformPercentage st' = GetPlatformPercentage st.
Proof.
  unfold OverwritePlatformMinimum. intros E. inv_ok.
  destruct (json_Coins_roundtrip cs x) as [Hne Hrt]; [done|].
  unfold GetPlatformMinimums, GetPlatformPercentage.
  rewrite !kv_get_spec, kv_set_spec, lookup_insert_eq, lookup_insert_ne by done. cbn.
  by rewrite decide_True by (by apply slen_ne_0).
Qed.

Lemma xion_InitGenesis_reads gs st0 st :
  0 ≤ gs_PlatformPercentage gs < 2 ^ 32 → xion_InitGenesis gs st0 = Ok st →
  GetPlatformPercentage st = gs_PlatformPercentage gs ∧
  GetPlatformMinimums st = Ok (gs_PlatformMinimums gs).
Proof.
  intros Hp. unfold xion_InitGenesis. case_match eqn:E; [|done..]. intros [= <-].
  apply GetPlatformMinimums_set in E as [? Ep]. split; [|done].
  rewrite Ep. apply GetPlatformPercentage_set. lia.
Qed.

Lemma set_percentage_params msg s :
  0 ≤ pct_PlatformPercentage msg < 2 ^ 32 → xion_params_ok (x_store s) →
  xion_params_ok (x_store (msgServer_SetPlatformPercentage authority msg s).1).
Proof.
  intros Hp Hok. unfold msgServer_SetPlatformPercentage, on_store, mbind, M_bind, lift, write.
  destruct (fail_if (negb _) _); [|done..]. destruct (fail_if (10000 <? _) _) eqn:E; [|done..].
  inv_ok. apply Z.ltb_ge in E. cbn. destruct Hok as [_ [mins ?]].
  split; [rewrite GetPlatformPercentage_set; lia|]. exists mins. by rewrite GetPlatformMinimums_frame.
Qed.

Lemma set_minimum_params msg s :
  xion_params_ok (x_store s) →
  xion_params_ok (x_store (msgServer_SetPlatformMinimum authority msg s).1).
Proof.
  intros Hok. unfold msgServer_SetPlatformMinimum, on_store, mbind at 1, M_bind, lift, write.
  destruct (fail_if _ _); [|done..].
  destruct (OverwritePlatformMinimum _ _) as [st| |] eqn:E; [|done..].
  cbn. apply GetPlatformMinimums_set in E as [? Ep]. destruct Hok. split; [by rewrite Ep|eauto].
Qed.

(** C13. In every state the chain can reach, whatever messages succeed or fail,
    the stored platform percentage is at most 100% and the stored minimums
    decode, so neither [ExportGenesis] nor the fee computation can panic. *)
Theorem xion_params_invariant s : xion_reachable s → xion_params_ok (x_store s).
Proof.
  induction 1 as [gs st0 st b Hv Hp Hi|s b _ IH|[msg|msg|msg|msg] s _ IH Hmsg]; cbn in *.
  - apply fail_if_Ok, Z.ltb_ge in Hv.
    destruct (xion_InitGenesis_reads _ _ _ Hp Hi) as [Ep Em]. split; [rewrite Ep; lia|eauto].
  - done.
  - by rewrite msgServer_Send_store.
  - by rewrite msgServer_MultiSend_store.
  - by apply set_percentage_params.
  - by apply set_minimum_params.
Qed.

(** Only the module's authority changes a parameter: any other signer gets
    [ErrInvalidSigner] and the state is untouched; the authority's accepted
    values are the ones read back. *)
Theorem SetPlatform_authorized pmsg mmsg s :
  0 ≤ pct_PlatformPercentage pmsg < 2 ^ 32 →
  (pct_Authority pmsg ≠ authority →
     msgServer_SetPlatformPercentage authority pmsg s = (s, Err ErrInvalidSigner)) ∧
  (min_Authority mmsg ≠ authority →
     msgServer_SetPlatformMinimum authority mmsg s = (s, Err ErrInvalidSigner)) ∧
  (pct_Authority pmsg = authority → 10000 < pct_PlatformPercentage pmsg →
     msgServer_SetPlatformPercentage authority pmsg s = (s, Err ErrInvalidRequest)) ∧
  (pct_Authority pmsg = authority → pct_PlatformPercentage pmsg ≤ 10000 →
     ∃ s', msgServer_SetPlatformPercentage authority pmsg s = (s', Ok tt) ∧
           GetPlatformPercentage (x_store s') = pct_PlatformPercentage pmsg ∧
           GetPlatformMinimums (x_store s') = GetPlatformMinimums (x_store s)) ∧
  (∀ s', msgServer_SetPlatformMinimum authority mmsg s = (s', Ok tt) →
     GetPlatformMinimums (x_store s') = Ok (min_Minimums mmsg) ∧
     GetPlatformPercentage (x_store s') = GetPlatformPercentage (x_store s)).
Proof.
  intros Hp. unfold msgServer_SetPlatformPercentage, msgServer_SetPlatformMinimum. split_and!.
  - intros Hne. by rewrite bool_decide_eq_false_2 by congruence.
  - intros Hne. by rewrite bool_decide_eq_false_2 by congruence.
  - intros <- Hbig. rewrite bool_decide_eq_true_2 by done. by rewrite (proj2 (Z.ltb_lt _ _)).
  - intros <- Hok. rewrite bool_decide_eq_true_2 by done. rewrite (proj2 (Z.ltb_ge _ _)) by done.
    eexists. split; [done|]. cbn. rewrite GetPlatformMinimums_frame.
    by rewrite GetPlatformPercentage_set by lia.
  - intros s' E. unfold on_store in E. inv_ok. cbn. by apply GetPlatformMinimums_set.
Qed.

(** Importing a genesis file and exporting the state gives the file back. *)
Theorem xion_genesis_roundtrip gs st0 st :
  0 ≤ gs_PlatformPercentage gs < 2 ^ 32 → xion_InitGenesis gs st0 = Ok st →
  xion_ExportGenesis st = Ok gs.
Proof.
  intros Hp Hi. destruct (xion_InitGenesis_reads _ _ _ Hp Hi) as [Ep Em].
  unfold xion_ExportGenesis. rewrite Em, Ep. destruct gs as [p ms]; cbn in *.
  unfold u32. by rewrite Z.mod_small by lia.
Qed.
End handlers.

(** ** The theorems at work on concrete states *)
#[global] Instance model_xion_codec : XionCodec := {|
  BigEndianToUint64 s := default 0 (model_unmarshal s);
  Uint64ToBigEndian n := model_marshal n;
  json_Marshal_Coins cs := Ok (model_marshal cs);
  json_Unmarshal_Coins s := or_fail (model_unmarshal s) (Foreign "json");
|}.

#[global] Instance model_xion_codec_laws : XionCodecLaws.
Proof.
  split; cbn.
  - done.
  - intros n _. by rewrite model_codec_roundtrip.
  - intros cs bz [= <-]. split; [apply model_marshal_nonempty|]. by rewrite model_codec_roundtrip.
Qed.

Definition ex_genesis : XionGenesis := mkXionGenesis 250 [mkCoin "uxion" 10].
Definition ex_store : gmap string string := ok_or ∅ (xion_InitGenesis ex_genesis ∅).
Definition ex_state : XState (gmap string string) model_bank :=
  mkXState ex_store {[ ("alice", "uxion") := 5000 ]}.
Definition ex_send : MsgSend := mkMsgSend "xion1alice" "xion1bob" [mkCoin "uxion" 1001].
Definition ex_multi : MsgMultiSend :=
  mkMsgMultiSend [mkInput "xion1alice" [mkCoin "uxion" 1041]]
    [mkOutput "xion1bob" [mkCoin "uxion" 1000]; mkOutput "xion1carol" [mkCoin "uxion" 41]].

(** 2.5% of 1001 rounds up to 26. *)
Lemma Send_balances_witness :
  let s' := (msgServer_Send ex_send ex_state).1 in
  bank_balance (x_bank s') "bob" "uxion" = 975 ∧
  bank_balance (x_bank s') (GetModuleAddress FeeCollectorName) "uxion" = 26.
Proof.
  pose proof (Send_balances ex_send ex_state (msgServer_Send ex_send ex_state).1 "alice" "bob") as E.
  destruct E as [_ E]; [eval_hyp..|].
  split; (etrans; [apply E|vm_compute; reflexivity]).
Defined.

Lemma Send_performs_transfers_witness :
  ∃ fs ts,
    msgServer_Send ex_send ex_state =
      (_ ← on_bank (SendCoinsFromAccountToModule "alice" FeeCollectorName fs);
       on_bank (SendCoins "alice" "bob" ts)) ex_state ∧
    ∀ d, amount_of fs d = ceil_fee (amount_of (send_Amount ex_send) d) (GetPlatformPercentage (x_store ex_state)) ∧
         amount_of fs d + amount_of ts d = amount_of (send_Amount ex_send) d.
Proof.
  apply (Send_performs_transfers ex_send ex_state "alice" "bob" [mkCoin "uxion" 10]);
    eval_hyp.
Defined.

Lemma MultiSend_balances_witness :
  let s' := (msgServer_MultiSend ex_multi ex_state).1 in
  bank_balance (x_bank s') "bob" "uxion" = 975 ∧ bank_balance (x_bank s') "carol" "uxion" = 39 ∧
  bank_balance (x_bank s') (GetModuleAddress FeeCollectorName) "uxion" = 27.
Proof.
  pose proof (MultiSend_balances ex_multi ex_state (msgServer_MultiSend ex_multi ex_state).1) as E.
  destruct E as [_ (i&[= <-]&_&E)]; [eval_hyp..|].
  split_and!; (etrans; [apply E|vm_compute; reflexivity]).
Defined.

Lemma platform_fee_spec_witness :
  platform_fee (2 ^ 200) 250 = Ok (ceil_fee (2 ^ 200) 250) ∧
  platform_fee 1 250 = Ok 1 ∧ ceil_fee (1 + 1) 250 ≤ ceil_fee 1 250 + ceil_fee 1 250.
Proof.
  split_and!.
  - apply (platform_fee_spec (2 ^ 200) 0 250); lia.
  - apply (platform_fee_spec 1 1 250); lia.
  - apply (platform_fee_spec 1 1 250); lia.
Defined.

Lemma meetsConfiguredMinimums_spec_witness :
  meetsConfiguredMinimums [mkCoin "uxion" 10] [mkCoin "uxion" 10] = true ∧
  [mkCoin "uxion" 10] ≠ [].
Proof.
  split; [vm_compute; reflexivity|].
  apply (meetsConfiguredMinimums_spec [mkCoin "uxion" 10] [mkCoin "uxion" 10]);
    [apply NoDup_singleton|vm_compute; reflexivity].
Defined.

Lemma xion_params_invariant_witness :
  xion_params_ok (x_store (xion_handle "gov" (DoSend ex_send) ex_state).1).
Proof.
  apply (xion_params_invariant "gov" (xion_handle "gov" (DoSend ex_send) ex_state).1).
  apply (reach_msg "gov" (DoSend ex_send) ex_state); [|exact I].
  apply (reach_genesis "gov" ex_genesis ∅ (ok_or ∅ (xion_InitGenesis ex_genesis ∅))); eval_hyp.
Defined.

Lemma SetPlatform_authorized_witness :
  msgServer_SetPlatformPercentage "gov" (mkMsgSetPct "eve" 1) ex_state
  = (ex_state, Err ErrInvalidSigner).
Proof.
  apply (SetPlatform_authorized "gov" (mkMsgSetPct "eve" 1) (mkMsgSetMin "eve" []) ex_state);
    [cbn; lia|discriminate].
Defined.

Lemma xion_genesis_roundtrip_witness : xion_ExportGenesis ex_store = Ok ex_genesis.
Proof.
  apply (xion_genesis_roundtrip ex_genesis ∅ (ok_or ∅ (xion_InitGenesis ex_genesis ∅))); eval_hyp.
Defined.
