(* ===== verification/ZkTypes.v ===== *)
(** * x/zk: parameters, verification keys and messages

    Models x/zk/types (params.go, vkey.go, msgs.go, genesis.go, errors.go).  The
    proof libraries (circom2gnark, gnark, barretenberg) are the class [ZkCrypto]. *)

From S2P Require Import Prelude GoStd Sdk SdkModel.

(** ** Errors *)
Definition ErrInvalidAuthority : goerr := Registered "zk" 1102.
Definition ErrVKeyExists : goerr := Registered "zk" 1103.
Definition ErrVKeyNotFound : goerr := Registered "zk" 1104.
Definition ErrInvalidVKey : goerr := Registered "zk" 1105.
Definition ErrIncreaseSequenceID : goerr := Registered "zk" 1106.
Definition ErrZkInvalidRequest : goerr := Registered "zk" 1107.
Definition ErrVKeyTooLarge : goerr := Registered "zk" 1108.
Definition ErrZkInvalidParams : goerr := Registered "zk" 1109.
Definition ErrProofTooLarge : goerr := Registered "zk" 1110.
Definition ErrPublicInputsTooLarge : goerr := Registered "zk" 1111.

(** ** Parameters: every field is a [uint64] *)
Definition DefaultMaxVKeySizeBytes : Z := 256 * 1024.
Definition DefaultUploadChunkSize : Z := 20.
Definition DefaultUploadChunkGas : Z := 10000.
Definition DefaultMaxGroth16ProofSizeBytes : Z := 4 * 1024.
Definition DefaultMaxGroth16PublicInputSizeBytes : Z := 30 * 1024.
Definition DefaultMaxUltraHonkProofSizeBytes : Z := 20 * 1024.
Definition DefaultMaxUltraHonkPublicInputSizeBytes : Z := 10 * 1024.
Definition DefaultMaxGnarkProofSizeBytes : Z := 4 * 1024.
Definition DefaultMaxGnarkPublicInputSizeBytes : Z := 10 * 1024.
Definition MinProofOrInputSizeBytes : Z := 1.
Definition MaxAllowedProofOrInputSizeBytes : Z := 524288.
Definition MaxAllowedVKeySizeBytes : Z := 1048576.

Record ZkParams := mkZkParams {
  MaxVkeySizeBytes : Z;
  UploadChunkSize : Z;
  UploadChunkGas : Z;
  MaxGroth16ProofSizeBytes : Z;
  MaxGroth16PublicInputSizeBytes : Z;
  MaxUltraHonkProofSizeBytes : Z;
  MaxUltraHonkPublicInputSizeBytes : Z;
  MaxGnarkProofSizeBytes : Z;
  MaxGnarkPublicInputSizeBytes : Z;
}.

#[global] Instance ZkParams_eq_dec : EqDecision ZkParams.
Proof. solve_decision. Defined.

(** The zero value [types.Params{}]. *)
Definition ZkParams_zero : ZkParams := mkZkParams 0 0 0 0 0 0 0 0 0.

Definition ZkNewParams (maxSize chunkSize chunkGas : Z) : ZkParams := {|
  MaxVkeySizeBytes := maxSize;
  UploadChunkSize := chunkSize;
  UploadChunkGas := chunkGas;
  MaxGroth16ProofSizeBytes := DefaultMaxGroth16ProofSizeBytes;
  MaxGroth16PublicInputSizeBytes := DefaultMaxGroth16PublicInputSizeBytes;
  MaxUltraHonkProofSizeBytes := DefaultMaxUltraHonkProofSizeBytes;
  MaxUltraHonkPublicInputSizeBytes := DefaultMaxUltraHonkPublicInputSizeBytes;
  MaxGnarkProofSizeBytes := DefaultMaxGnarkProofSizeBytes;
  MaxGnarkPublicInputSizeBytes := DefaultMaxGnarkPublicInputSizeBytes;
|}.

Definition ZkDefaultParams : ZkParams :=
  ZkNewParams DefaultMaxVKeySizeBytes DefaultUploadChunkSize DefaultUploadChunkGas.

(** [if v == 0 { v = d }] *)
Definition or_default (v d : Z) : Z := if v =? 0 then d else v.

Definition WithMaxLimitDefaults (p : ZkParams) : ZkParams := {|
  MaxVkeySizeBytes := MaxVkeySizeBytes p;
  UploadChunkSize := UploadChunkSize p;
  UploadChunkGas := UploadChunkGas p;
  MaxGroth16ProofSizeBytes :=
    or_default (MaxGroth16ProofSizeBytes p) DefaultMaxGroth16ProofSizeBytes;
  MaxGroth16PublicInputSizeBytes :=
    or_default (MaxGroth16PublicInputSizeBytes p) DefaultMaxGroth16PublicInputSizeBytes;
  MaxUltraHonkProofSizeBytes :=
    or_default (MaxUltraHonkProofSizeBytes p) DefaultMaxUltraHonkProofSizeBytes;
  MaxUltraHonkPublicInputSizeBytes :=
    or_default (MaxUltraHonkPublicInputSizeBytes p) DefaultMaxUltraHonkPublicInputSizeBytes;
  MaxGnarkProofSizeBytes :=
    or_default (MaxGnarkProofSizeBytes p) DefaultMaxGnarkProofSizeBytes;
  MaxGnarkPublicInputSizeBytes :=
    or_default (MaxGnarkPublicInputSizeBytes p) DefaultMaxGnarkPublicInputSizeBytes;
|}.

(** The pair of range checks made for each proof or public-input limit. *)
Definition check_limit (v : Z) : outcome unit :=
  _ ← fail_if (v <? MinProofOrInputSizeBytes) ErrZkInvalidParams;
  fail_if (MaxAllowedProofOrInputSizeBytes <? v) ErrZkInvalidParams.

Definition ZkParams_Validate (p : ZkParams) : outcome unit :=
  _ ← fail_if (MaxVkeySizeBytes p =? 0) ErrZkInvalidParams;
  _ ← fail_if (UploadChunkSize p =? 0) ErrZkInvalidParams;
  _ ← fail_if (UploadChunkGas p =? 0) ErrZkInvalidParams;
  _ ← check_limit (MaxGroth16ProofSizeBytes p);
  _ ← check_limit (MaxGroth16PublicInputSizeBytes p);
  _ ← check_limit (MaxUltraHonkProofSizeBytes p);
  _ ← check_limit (MaxUltraHonkPublicInputSizeBytes p);
  _ ← fail_if (MaxAllowedVKeySizeBytes <? MaxVkeySizeBytes p) ErrZkInvalidParams;
  _ ← check_limit (MaxGnarkProofSizeBytes p);
  check_limit (MaxGnarkPublicInputSizeBytes p).

(** [uint64] arithmetic: the sum and the product wrap around. *)
Definition GasCostForSize (p : ZkParams) (size : Z) : outcome Z :=
  _ ← ZkParams_Validate p;
  _ ← fail_if (size =? 0) ErrInvalidVKey;
  _ ← fail_if (MaxVkeySizeBytes p <? size) ErrVKeyTooLarge;
  let chunks := u64 (u64 (size + UploadChunkSize p) - 1) / UploadChunkSize p in
  let cost := u64 (chunks * UploadChunkGas p) in
  _ ← fail_if (negb (chunks =? 0) && negb (cost / chunks =? UploadChunkGas p)) ErrZkInvalidParams;
  Ok cost.

(** ** Verification keys *)

(** The enum [ProofSystem] is an [int32] on the wire: unknown values are possible. *)
Definition PROOF_SYSTEM_UNSPECIFIED : Z := 0.
Definition PROOF_SYSTEM_GROTH16 : Z := 1.
Definition PROOF_SYSTEM_ULTRA_HONK_ZK : Z := 2.
Definition PROOF_SYSTEM_GROTH16_GNARK : Z := 3.

Record VKey := mkVKey {
  vkey_KeyBytes : string;
  vkey_Name : string;
  vkey_Description : string;
  vkey_Authority : string;
  vkey_ProofSystem : Z;
  vkey_CircuitHash : string;
}.

#[global] Instance VKey_eq_dec : EqDecision VKey.
Proof. solve_decision. Defined.

(** circom2gnark's [parser.CircomVerificationKey], as far as the code reads it. *)
Record CircomVerificationKey := mkCircomVK {
  vk_Protocol : string;
  vk_NPublic : Z;
  vk_VkAlpha1 : list string;
  vk_VkBeta2 : list (list string);
  vk_VkGamma2 : list (list string);
  vk_VkDelta2 : list (list string);
  vk_IC : list (list string);
}.

(** The proof libraries. *)
Class ZkCrypto := {
  (** circom2gnark/parser *)
  UnmarshalCircomVerificationKeyJSON : string → outcome CircomVerificationKey;
  json_Marshal_CircomVK : CircomVerificationKey → outcome string;
  CircomProof : Type;
  UnmarshalCircomProofJSON : string → outcome CircomProof;
  CircomGnarkProof : Type;
  ConvertCircomToGnark : CircomVerificationKey → CircomProof → list string → outcome CircomGnarkProof;
  VerifyProof : CircomGnarkProof → outcome bool;
  (** gnark, native BN254 Groth16 *)
  GnarkVK : Type;
  GnarkProof : Type;
  GnarkWitness : Type;
  gnark_ReadVerifyingKey : string → outcome GnarkVK;
  gnark_ReadProof : string → outcome GnarkProof;
  gnark_NewWitness : outcome GnarkWitness;
  gnark_UnmarshalWitness : GnarkWitness → string → outcome GnarkWitness;
  groth16_Verify : GnarkProof → GnarkVK → GnarkWitness → outcome unit;
  (** barretenberg *)
  BbVK : Type;
  BbProof : Type;
  BbVerifier : Type;
  FieldElementSize : Z;
  bb_ValidateVerificationKeyBytes : string → Z → outcome unit;
  bb_ParseVerificationKey : string → outcome BbVK;
  bb_ParseProof : string → outcome BbProof;
  bb_NewVerifier : BbVK → outcome BbVerifier;
  bb_VerifyWithBytes : BbVerifier → BbProof → list string → outcome bool;
  bb_ErrVerificationFailed : goerr;
  bb_ErrInvalidPublicInputs : goerr;
  bb_ErrInternal : goerr;
}.

Definition bn254FieldPrime : Z :=
  21888242871839275222246405745257275088696311157297823662689037894645226208583.
Definition bn254ScalarPrime : Z :=
  21888242871839275222246405745257275088548364400416034343698204186575808495617.

Definition checkBN254FieldCoord (coord : string) : outcome unit :=
  n ← or_fail (big_SetString coord 10) (Plain "not a valid integer");
  _ ← fail_if (n <? 0) (Plain "coordinate is negative");
  fail_if (bn254FieldPrime <=? n) (Plain "coordinate >= BN254 field prime").

(** The shape of a G2 point: at least two rows, the first two of two columns. *)
Definition check_g2_shape (rows : list (list string)) : outcome unit :=
  _ ← fail_if (llen rows <? 2) (Plain "expected at least 2 rows");
  check_all (λ row, fail_if (negb (llen row =? 2)) (Plain "row should have 2 columns")) (take 2 rows).

Definition check_g2_coords (rows : list (list string)) : outcome unit :=
  check_all (check_all checkBN254FieldCoord) (take 2 rows).

Definition check_g1_coords (point : list string) : outcome unit :=
  xy ← slice_to point 2; check_all checkBN254FieldCoord xy.

Definition validateCircomVerificationKey (vk : CircomVerificationKey) : outcome unit :=
  _ ← fail_if (negb (bool_decide (vk_Protocol vk = "groth16"))) (Plain "unsupported protocol");
  _ ← fail_if (vk_NPublic vk <=? 0) (Plain "invalid nPublic");
  _ ← fail_if (llen (vk_VkAlpha1 vk) <? 2) (Plain "invalid VkAlpha1");
  _ ← check_g2_shape (vk_VkBeta2 vk);
  _ ← check_g2_shape (vk_VkGamma2 vk);
  _ ← check_g2_shape (vk_VkDelta2 vk);
  let expectedICLen := i64 (vk_NPublic vk + 1) in
  _ ← fail_if (negb (llen (vk_IC vk) =? expectedICLen)) (Plain "invalid IC length");
  _ ← check_all (λ p, fail_if (llen p <? 2) (Plain "invalid IC point")) (vk_IC vk);
  _ ← check_g1_coords (vk_VkAlpha1 vk);
  _ ← check_g2_coords (vk_VkBeta2 vk);
  _ ← check_g2_coords (vk_VkGamma2 vk);
  _ ← check_g2_coords (vk_VkDelta2 vk);
  check_all check_g1_coords (vk_IC vk).

Definition ValidateVKeyByteSize (data : string) (maxSizeBytes : Z) : outcome unit :=
  fail_if ((0 <? maxSizeBytes) && (maxSizeBytes <? u64 (slen data))) ErrVKeyTooLarge.

Section vkeys.
Context `{!ZkCrypto, !AddressCodec}.

Definition ValidateVKeyBytes (data : string) (maxDecodedSize : Z) : outcome unit :=
  _ ← ValidateVKeyByteSize data maxDecodedSize;
  vk ← map_err (λ _, ErrInvalidVKey) (UnmarshalCircomVerificationKeyJSON data);
  map_err (λ _, ErrInvalidVKey) (validateCircomVerificationKey vk).

Definition ValidateGnarkVKeyBytes (data : string) (maxSizeBytes : Z) : outcome unit :=
  _ ← ValidateVKeyByteSize data maxSizeBytes;
  _ ← map_err (λ _, ErrInvalidVKey) (gnark_ReadVerifyingKey data);
  Ok tt.

(** [if ps == UNSPECIFIED { ps = GROTH16 }] *)
Definition default_proof_system (ps : Z) : Z :=
  if ps =? PROOF_SYSTEM_UNSPECIFIED then PROOF_SYSTEM_GROTH16 else ps.

Definition ValidateVKeyForProofSystem (vkeyBytes : string) (maxSizeBytes proofSystem : Z) : outcome unit :=
  let proofSystem := default_proof_system proofSystem in
  if proofSystem =? PROOF_SYSTEM_ULTRA_HONK_ZK then
    bb_ValidateVerificationKeyBytes vkeyBytes maxSizeBytes
  else if proofSystem =? PROOF_SYSTEM_GROTH16 then ValidateVKeyBytes vkeyBytes maxSizeBytes
  else if proofSystem =? PROOF_SYSTEM_GROTH16_GNARK then ValidateGnarkVKeyBytes vkeyBytes maxSizeBytes
  else Err (Plain "unsupported proof_system").

(** The nil pointer is [None]. *)
Definition UnmarshalVKey (vkey : option VKey) : outcome CircomVerificationKey :=
  match vkey with
  | None => Err (Plain "nil vkey")
  | Some vkey =>
    _ ← fail_if (slen (vkey_KeyBytes vkey) =? 0) (Plain "empty key_bytes");
    UnmarshalCircomVerificationKeyJSON (vkey_KeyBytes vkey)
  end.

Definition MarshalVKey (vk : option CircomVerificationKey) : outcome string :=
  match vk with None => Err (Plain "nil verification key") | Some vk => json_Marshal_CircomVK vk end.

Definition NewVKeyFromBytes (keyBytes name description : string) : outcome VKey :=
  _ ← ValidateVKeyBytes keyBytes 0;
  Ok (mkVKey keyBytes name description "" PROOF_SYSTEM_UNSPECIFIED "").

Definition NewVKeyFromCircom (vk : option CircomVerificationKey) (name description : string) : outcome VKey :=
  keyBytes ← MarshalVKey vk;
  Ok (mkVKey keyBytes name description "" PROOF_SYSTEM_UNSPECIFIED "").

(** ** Messages *)
Record MsgAddVKey := mkMsgAddVKey {
  av_Authority : string; av_Name : string; av_VkeyBytes : string;
  av_Description : string; av_ProofSystem : Z }.
Record MsgRemoveVKey := mkMsgRemoveVKey { rv_Authority : string; rv_Name : string }.
Record MsgZkUpdateParams := mkMsgZkUpdateParams { up_Authority : string; up_Params : ZkParams }.

Definition MaxVKeyNameLen : Z := 128.
Definition MaxVKeyDescLen : Z := 1024.

(** [MsgAddVKey.ValidateBasic]; [MsgUpdateVKey] has the same fields and checks. *)
Definition MsgAddVKey_ValidateBasic (m : MsgAddVKey) : outcome unit :=
  _ ← AccAddressFromBech32 (av_Authority m);
  _ ← fail_if (bool_decide (av_Name m = "")) (Plain "name cannot be empty");
  _ ← fail_if (MaxVKeyNameLen <? slen (av_Name m)) (Plain "name too long");
  _ ← fail_if (MaxVKeyDescLen <? slen (av_Description m)) (Plain "description too long");
  _ ← fail_if (slen (av_VkeyBytes m) =? 0) (Plain "vkey_bytes cannot be empty");
  let proofSystem := av_ProofSystem m in
  _ ← fail_if (negb (proofSystem =? PROOF_SYSTEM_UNSPECIFIED) &&
               negb (proofSystem =? PROOF_SYSTEM_GROTH16) &&
               negb (proofSystem =? PROOF_SYSTEM_GROTH16_GNARK) &&
               negb (proofSystem =? PROOF_SYSTEM_ULTRA_HONK_ZK)) (Plain "unsupported proof_system");
  ValidateVKeyForProofSystem (av_VkeyBytes m) MaxAllowedVKeySizeBytes proofSystem.

Definition MsgUpdateVKey_ValidateBasic (m : MsgAddVKey) : outcome unit := MsgAddVKey_ValidateBasic m.

Definition MsgRemoveVKey_ValidateBasic (m : MsgRemoveVKey) : outcome unit :=
  _ ← AccAddressFromBech32 (rv_Authority m);
  fail_if (bool_decide (rv_Name m = "")) (Plain "name cannot be empty").

Definition MsgZkUpdateParams_ValidateBasic (m : MsgZkUpdateParams) : outcome unit :=
  _ ← AccAddressFromBech32 (up_Authority m);
  ZkParams_Validate (WithMaxLimitDefaults (up_Params m)).

(** ** Genesis *)
Record VKeyWithID := mkVKeyWithID { vi_Id : Z; vi_Vkey : VKey }.
Record ZkGenesis := mkZkGenesis { zg_Vkeys : list VKeyWithID; zg_Params : ZkParams }.

(** [params == (Params{})] selects the defaults; missing limits are filled in. *)
Definition genesis_params (gs : ZkGenesis) : ZkParams :=
  let params := zg_Params gs in
  let params := if decide (params = ZkParams_zero) then ZkDefaultParams else params in
  WithMaxLimitDefaults params.

(** One round of the loop of [GenesisState.Validate] over [(seenIDs, seenNames)]. *)
Definition genesis_vkey_ok (params : ZkParams) (seen : gset Z * gset string) (v : VKeyWithID)
    : outcome (gset Z * gset string) :=
  let '(seenIDs, seenNames) := seen in
  _ ← fail_if (bool_decide (vi_Id v ∈ seenIDs)) (Plain "duplicate vkey ID");
  _ ← fail_if (bool_decide (vkey_Name (vi_Vkey v) ∈ seenNames)) (Plain "duplicate vkey name");
  _ ← fail_if (bool_decide (vkey_Name (vi_Vkey v) = "")) (Plain "empty name");
  _ ← fail_if (slen (vkey_KeyBytes (vi_Vkey v)) =? 0) (Plain "empty key_bytes");
  _ ← ValidateVKeyForProofSystem (vkey_KeyBytes (vi_Vkey v)) (MaxVkeySizeBytes params)
        (vkey_ProofSystem (vi_Vkey v));
  Ok ({[vi_Id v]} ∪ seenIDs, {[vkey_Name (vi_Vkey v)]} ∪ seenNames).

Definition ZkGenesis_Validate (gs : ZkGenesis) : outcome unit :=
  let params := genesis_params gs in
  _ ← ZkParams_Validate params;
  _ ← fold_outcome (genesis_vkey_ok params) (∅, ∅) (zg_Vkeys gs);
  Ok tt.
End vkeys.

(** ** Parameters: what validation promises *)

Definition limit_ok (v : Z) : Prop := 1 ≤ v ≤ 524288.

(** The bounds that the comments on the constants announce. *)
Definition zk_params_bounded (p : ZkParams) : Prop :=
  1 ≤ MaxVkeySizeBytes p ≤ 1048576 ∧ 1 ≤ UploadChunkSize p ∧ 1 ≤ UploadChunkGas p ∧
  limit_ok (MaxGroth16ProofSizeBytes p) ∧ limit_ok (MaxGroth16PublicInputSizeBytes p) ∧
  limit_ok (MaxUltraHonkProofSizeBytes p) ∧ limit_ok (MaxUltraHonkPublicInputSizeBytes p) ∧
  limit_ok (MaxGnarkProofSizeBytes p) ∧ limit_ok (MaxGnarkPublicInputSizeBytes p).

(** The fields are [uint64]s. *)
Definition zk_params_u64 (p : ZkParams) : Prop :=
  is_u64 (MaxVkeySizeBytes p) ∧ is_u64 (UploadChunkSize p) ∧ is_u64 (UploadChunkGas p) ∧
  is_u64 (MaxGroth16ProofSizeBytes p) ∧ is_u64 (MaxGroth16PublicInputSizeBytes p) ∧
  is_u64 (MaxUltraHonkProofSizeBytes p) ∧ is_u64 (MaxUltraHonkPublicInputSizeBytes p) ∧
  is_u64 (MaxGnarkProofSizeBytes p) ∧ is_u64 (MaxGnarkPublicInputSizeBytes p).

Lemma check_limit_Ok v : check_limit v = Ok tt ↔ limit_ok v.
Proof.
  unfold check_limit, limit_ok, MinProofOrInputSizeBytes, MaxAllowedProofOrInputSizeBytes.
  destruct (v <? 1) eqn:E1, (524288 <? v) eqn:E2; cbn; split; try done; lia.
Qed.

Lemma check_limit_bind {A} v (k : outcome A) a :
  check_limit v ≫= (λ _, k) = Ok a ↔ limit_ok v ∧ k = Ok a.
Proof. by rewrite unit_bind, check_limit_Ok. Qed.

(** [Params.Validate] accepts exactly the parameters within the documented
    bounds, and on [uint64] fields it never rejects for another reason. *)
Theorem ZkParams_Validate_spec p :
  zk_params_u64 p → ZkParams_Validate p = Ok tt ↔ zk_params_bounded p.
Proof.
  unfold zk_params_u64, is_u64. intros Hu. unfold ZkParams_Validate, zk_params_bounded.
  rewrite !fail_if_bind, !check_limit_bind, fail_if_bind, check_limit_bind, check_limit_Ok.
  rewrite !Z.eqb_neq, Z.ltb_ge. unfold MaxAllowedVKeySizeBytes. intuition lia.
Qed.

Lemma ZkParams_Validate_Ok p :
  ZkParams_Validate p = Ok tt →
  MaxVkeySizeBytes p ≠ 0 ∧ UploadChunkSize p ≠ 0 ∧ UploadChunkGas p ≠ 0 ∧
  MaxVkeySizeBytes p ≤ 1048576.
Proof.
  unfold ZkParams_Validate. rewrite !fail_if_bind, !check_limit_bind, fail_if_bind.
  rewrite !Z.eqb_neq, Z.ltb_ge. unfold MaxAllowedVKeySizeBytes. tauto.
Qed.

Lemma or_default_idem v d : or_default (or_default v d) d = or_default v d.
Proof. unfold or_default. destruct (v =? 0) eqn:E; [by destruct (d =? 0)|by rewrite E]. Qed.

Lemma WithMaxLimitDefaults_idem p : WithMaxLimitDefaults (WithMaxLimitDefaults p) = WithMaxLimitDefaults p.
Proof. unfold WithMaxLimitDefaults. cbn. by rewrite !or_default_idem. Qed.

(** ** Gas *)

Definition ceil_div (a b : Z) : Z := (a + b - 1) / b.

(** The overflow test on the product is exact. *)
Lemma mul_overflow_test chunks gas :
  0 < chunks → 0 ≤ gas →
  (u64 (chunks * gas) / chunks =? gas) = bool_decide (chunks * gas < 2 ^ 64).
Proof.
  intros Hc Hg. unfold u64. pose proof (Z.mod_pos_bound (chunks * gas) (2 ^ 64) ltac:(lia)) as Hm.
  case_bool_decide as E.
  - rewrite Z.mod_small by nia. apply Z.eqb_eq. rewrite Z.mul_comm. by apply Z.div_mul; lia.
  - apply Z.eqb_neq. intros Eq.
    pose proof (Z.mul_div_le ((chunks * gas) mod 2 ^ 64) chunks Hc). nia.
Qed.

(** For a chunk size that leaves room for the rounding term, the gas is
    [ceil(size / UploadChunkSize) * UploadChunkGas] computed without wrap-around;
    a product that does not fit 64 bits is reported, and an empty or oversized
    key is refused. *)
Theorem GasCostForSize_spec p size :
  zk_params_u64 p → is_u64 size → ZkParams_Validate p = Ok tt →
  UploadChunkSize p ≤ 2 ^ 64 - 1048577 →
  GasCostForSize p size =
    if size =? 0 then Err ErrInvalidVKey
    else if MaxVkeySizeBytes p <? size then Err ErrVKeyTooLarge
    else let cost := ceil_div size (UploadChunkSize p) * UploadChunkGas p in
         if bool_decide (cost < 2 ^ 64) then Ok cost else Err ErrZkInvalidParams.
Proof.
  unfold zk_params_u64, is_u64. intros Hu Hs Hv Hc.
  destruct (ZkParams_Validate_Ok p Hv) as (?&?&?&?).
  unfold GasCostForSize. rewrite Hv, bind_Ok_l.
  destruct (size =? 0) eqn:E0; [done|]. rewrite fail_if_false_bind.
  destruct (MaxVkeySizeBytes p <? size) eqn:E1; [done|]. rewrite fail_if_false_bind.
  rewrite (u64_small (size + UploadChunkSize p)), (u64_small (size + UploadChunkSize p - 1))
    by (unfold is_u64; lia).
  fold (ceil_div size (UploadChunkSize p)).
  assert (0 < ceil_div size (UploadChunkSize p)).
  { unfold ceil_div. apply Z.div_str_pos. lia. }
  rewrite mul_overflow_test by lia. rewrite (proj2 (Z.eqb_neq (ceil_div _ _) 0)) by lia.
  case_bool_decide; cbn; [|done]. f_equal. apply u64_small. split; nia.
Qed.

(** Parameters that [Validate] accepts although they price an upload at zero. *)
Definition wrapping_params : ZkParams :=
  mkZkParams 1048576 (2 ^ 64 - 1) 10000 1 1 1 1 1 1.

(** [Validate] puts no bound on [UploadChunkSize]: with a chunk size close
    to 2^64 the rounding term wraps, the number of chunks is zero, the overflow
    test is skipped and a key of two bytes or more costs no gas. *)
Theorem GasCostForSize_wraps size :
  2 ≤ size ≤ 1048576 →
  ZkParams_Validate wrapping_params = Ok tt ∧ GasCostForSize wrapping_params size = Ok 0.
Proof.
  intros Hs. split; [done|]. unfold GasCostForSize.
  change (ZkParams_Validate wrapping_params) with (Ok tt : outcome unit). rewrite bind_Ok_l.
  cbn [wrapping_params UploadChunkSize UploadChunkGas MaxVkeySizeBytes].
  rewrite (proj2 (Z.eqb_neq size 0)), (proj2 (Z.ltb_ge _ _)) by lia. rewrite !fail_if_false_bind.
  assert (u64 (u64 (size + (2 ^ 64 - 1)) - 1) = size - 2) as ->.
  { unfold u64. replace (size + (2 ^ 64 - 1)) with (size - 1 + 1 * 2 ^ 64) by lia.
    rewrite Z.mod_add, !Z.mod_small by (rewrite ?Z.mod_small; lia). lia. }
  by rewrite Z.div_small by lia.
Qed.

(** ** Circom verification keys *)

Definition coord_ok (s : string) : Prop :=
  ∃ n, big_SetString s 10 = Some n ∧ 0 ≤ n < bn254FieldPrime.
Definition g1_ok (p : list string) : Prop :=
  ∃ x y rest, p = x :: y :: rest ∧ coord_ok x ∧ coord_ok y.
Definition g2_ok (rows : list (list string)) : Prop :=
  ∃ x0 x1 y0 y1 rest, rows = [x0; x1] :: [y0; y1] :: rest ∧
    coord_ok x0 ∧ coord_ok x1 ∧ coord_ok y0 ∧ coord_ok y1.

(** A Groth16 key over BN254: the points have affine coordinates in the base
    field and there is one IC point per public input plus the constant term. *)
Definition circom_vk_ok (vk : CircomVerificationKey) : Prop :=
  vk_Protocol vk = "groth16" ∧ 0 < vk_NPublic vk ∧ llen (vk_IC vk) = vk_NPublic vk + 1 ∧
  g1_ok (vk_VkAlpha1 vk) ∧ g2_ok (vk_VkBeta2 vk) ∧ g2_ok (vk_VkGamma2 vk) ∧
  g2_ok (vk_VkDelta2 vk) ∧ Forall g1_ok (vk_IC vk).

Lemma checkBN254FieldCoord_Ok s : checkBN254FieldCoord s = Ok tt ↔ coord_ok s.
Proof.
  unfold checkBN254FieldCoord, coord_ok. destruct (big_SetString s 10) as [n|]; cbn; [|naive_solver].
  destruct (n <? 0) eqn:E1, (bn254FieldPrime <=? n) eqn:E2; cbn; naive_solver lia.
Qed.

Lemma check_g1_Ok p :
  (llen p <? 2) = false → check_g1_coords p = Ok tt ↔ g1_ok p.
Proof.
  intros Hl. unfold check_g1_coords. rewrite slice_to_ok by lia. rewrite bind_Ok_l.
  destruct p as [|x [|y p]]; [done..|]. cbn [Z.to_nat Pos.to_nat Pos.iter_op Nat.add take].
  rewrite check_all_Ok. change (take _ _) with [x; y].
  rewrite !Forall_cons, !checkBN254FieldCoord_Ok, Forall_nil. unfold g1_ok. naive_solver.
Qed.

Lemma g1_ok_len p : g1_ok p → (llen p <? 2) = false.
Proof. intros (x&y&r&->&_). apply Z.ltb_ge. unfold llen. rewrite !length_cons. lia. Qed.

Lemma check_g2_Ok rows :
  check_g2_shape rows = Ok tt ∧ check_g2_coords rows = Ok tt ↔ g2_ok rows.
Proof.
  unfold check_g2_shape, check_g2_coords, g2_ok. rewrite fail_if_bind, !check_all_Ok.
  split.
  - intros [[Hl Hs] Hc]. destruct rows as [|r0 [|r1 rows]]; [done..|]. cbn in Hs, Hc.
    rewrite !Forall_cons, !fail_if_Ok in Hs. rewrite !Forall_cons, !check_all_Ok in Hc.
    destruct Hs as (H0&H1&_). apply negb_false_iff, Z.eqb_eq in H0, H1. unfold llen in H0, H1.
    destruct r0 as [|a [|b [|]]], r1 as [|c [|d [|]]]; cbn in H0, H1; try lia.
    rewrite !Forall_cons, !checkBN254FieldCoord_Ok in Hc. naive_solver.
  - intros (a&b&c&d&rest&->&Ha&Hb&Hc&Hd). cbn [take].
    rewrite !Forall_cons, !check_all_Ok, !Forall_cons, !checkBN254FieldCoord_Ok, !Forall_nil.
    split_and!; try done. apply Z.ltb_ge. unfold llen. rewrite !length_cons. lia.
Qed.

Lemma check_g1_all_Ok l :
  check_all (λ p, fail_if (llen p <? 2) (Plain "invalid IC point")) l = Ok tt ∧
  check_all check_g1_coords l = Ok tt ↔ Forall g1_ok l.
Proof.
  rewrite !check_all_Ok, !Forall_forall. split.
  - intros [Hl Hc] p Hp. apply check_g1_Ok; [|by apply Hc]. specialize (Hl p Hp).
    by apply fail_if_Ok in Hl.
  - intros Hall. split; intros p Hp; pose proof (g1_ok_len p (Hall p Hp)) as Hlen.
    + by rewrite Hlen.
    + apply check_g1_Ok; [done|by apply Hall].
Qed.

Lemma checkBN254FieldCoord_no_panic s : no_panic (checkBN254FieldCoord s).
Proof. unfold checkBN254FieldCoord. auto with panics. Qed.
#[export] Hint Resolve checkBN254FieldCoord_no_panic : panics.

Lemma check_g1_no_panic p : (llen p <? 2) = false → no_panic (check_g1_coords p).
Proof.
  intros Hl. unfold check_g1_coords. rewrite slice_to_ok by lia. auto with panics.
Qed.

Lemma validateCircom_no_panic vk : no_panic (validateCircomVerificationKey vk).
Proof.
  unfold validateCircomVerificationKey, check_g2_shape, check_g2_coords.
  do 2 (apply no_panic_bind; [auto with panics|intros _ _]).
  apply no_panic_bind; [auto with panics|intros ? Ha%fail_if_Ok].
  do 4 (apply no_panic_bind; [auto with panics|intros _ _]).
  apply no_panic_bind; [auto with panics|intros [] HIC].
  do 4 (apply no_panic_bind; [auto using check_g1_no_panic with panics|intros _ _]).
  apply check_all_no_panic. intros p Hp. apply check_g1_no_panic.
  rewrite check_all_Ok, Forall_forall in HIC. by apply HIC, fail_if_Ok in Hp.
Qed.

(** C24. [validateCircomVerificationKey] accepts exactly the keys that have the
    shape and the field elements of a BN254 Groth16 key, and its slices stay in
    bounds on every input. *)
Theorem validateCircomVerificationKey_spec vk :
  - 2 ^ 63 ≤ vk_NPublic vk < 2 ^ 63 → llen (vk_IC vk) < 2 ^ 63 →
  (validateCircomVerificationKey vk = Ok tt ↔ circom_vk_ok vk) ∧
  validateCircomVerificationKey vk ≠ Panic.
Proof.
  intros Hn Hic. split; [|apply validateCircom_no_panic].
  unfold validateCircomVerificationKey, circom_vk_ok.
  rewrite !unit_bind, !fail_if_Ok, negb_false_iff, bool_decide_eq_true, Z.leb_gt.
  rewrite negb_false_iff, Z.eqb_eq, <- !check_g2_Ok, <- check_g1_all_Ok.
  assert (0 < vk_NPublic vk →
    llen (vk_IC vk) = i64 (vk_NPublic vk + 1) ↔ llen (vk_IC vk) = vk_NPublic vk + 1) as Hi.
  { intros ?. destruct (decide (vk_NPublic vk = 2 ^ 63 - 1)) as [->|].
    - change (i64 (2 ^ 63 - 1 + 1)) with (- 2 ^ 63). pose proof (llen_nonneg (vk_IC vk)). lia.
    - by rewrite i64_small by lia. }
  pose proof (g1_ok_len (vk_VkAlpha1 vk)). pose proof (check_g1_Ok (vk_VkAlpha1 vk)). naive_solver.
Qed.

(** ** The theorems at work on concrete values *)
Lemma ZkParams_Validate_spec_witness : ZkParams_Validate ZkDefaultParams = Ok tt.
Proof. apply (ZkParams_Validate_spec ZkDefaultParams); vm_compute; intuition discriminate. Defined.

(** 100 bytes are five chunks of 20 bytes. *)
Lemma GasCostForSize_spec_witness : GasCostForSize ZkDefaultParams 100 = Ok 50000.
Proof.
  rewrite (GasCostForSize_spec ZkDefaultParams 100); [reflexivity|..]; vm_compute; intuition discriminate.
Defined.

Lemma GasCostForSize_wraps_witness : GasCostForSize wrapping_params 1000 = Ok 0.
Proof. apply (GasCostForSize_wraps 1000). lia. Defined.

Definition ex_circom_vk : CircomVerificationKey :=
  mkCircomVK "groth16" 1 ["1"; "2"; "1"] [["1"; "2"]; ["3"; "4"]] [["1"; "2"]; ["3"; "4"]]
    [["1"; "2"]; ["3"; "4"]] [["5"; "6"]; ["7"; "8"]].

Lemma validateCircomVerificationKey_spec_witness : circom_vk_ok ex_circom_vk.
Proof.
  apply (validateCircomVerificationKey_spec ex_circom_vk);
    [cbn; lia|vm_compute; reflexivity|vm_compute; reflexivity].
Defined.
