(* ===== verification/ZkDefault.v ===== *)
(** * x/zk: the default verification key

    The key of [CreateDefaultVKeyBytes] (x/zk/types/genesis.go), digit for digit,
    and the default genesis state built on it. *)

From S2P Require Import Prelude GoStd Sdk SdkModel ZkTypes.

(** [vkeyJSON]; its entries [curve] and [vk_alphabeta_12] are read by no code of
    the module and are not part of [CircomVerificationKey]. *)
Definition vkeyJSON : CircomVerificationKey := {|
  vk_Protocol := "groth16";
  vk_NPublic := 88;
  vk_VkAlpha1 := ["20491192805390485299153009773594534940189261866228447918068658471970481763042"; "9383485363053290200918347156157836566562967994039712273449902621266178545958"; "1"];
  vk_VkBeta2 :=
    [["6375614351688725206403948262868962793625744043794305715222011528459656738731"; "4252822878758300859123897981450591353533073413197771768651442665752259397132"];
     ["10505242626370262277552901082094356697409835680220590971873171140371331206856"; "21847035105528745403288232691147584728191162732299865338377159692350059136679"];
     ["1"; "0"]];
  vk_VkGamma2 :=
    [["10857046999023057135944570762232829481370756359578518086990519993285655852781"; "11559732032986387107991004021392285783925812861821192530917403151452391805634"];
     ["8495653923123431417604973247489272438418190587263600148770280649306958101930"; "4082367875863433681332203403145435568316851327593401208105741076214120093531"];
     ["1"; "0"]];
  vk_VkDelta2 :=
    [["1819739333453238201544496510725110584426650825660361339309415450082603307725"; "20775035824795928013263071667990434175955914722274865466696285616215973520699"];
     ["18317396706858481531184310106573079431977548131267051728328209484181782745477"; "14909902456239892968167394901559968213044429746284794841933446282238646810436"];
     ["1"; "0"]];
  vk_IC :=
    [["15950214535785561503685901885170416089208679241613946489241078754121531345368"; "6413566741484414396601460146086570277052919216702699673845046940202545452712"; "1"];
     ["16863092586897262433781345351732838892413475324733242808383514398789918257821"; "2562926972726649639219893647901465073299431928632439273712843001810941814953"; "1"];
     ["13068025862463096060363455359016956346236100286757263148377084234631824702773"; "7737164861220347728330147009122685407385475738569408313096457178276957900800"; "1"];
     ["4880502924625142882637218816341390548115741496372444113090118291337749751910"; "20641211449938587878773621163821960030891368876242808289954092058040062388213"; "1"];
     ["3862436174048768061564857650966663195191482254865068674374262483451806389520"; "12402267693937063020550836252660463530985468695168451085487700610121047810951"; "1"];
     ["13259997926828616484017101986753339350308361973527940017383814849072285699811"; "10368672356259218839812719891499002458185249451833161710220630391964837445352"; "1"];
     ["6397992820508516842241029094898516186725279286540672554116403160914176358443"; "11195708633986858615714896781442268079030446466740337173653814606879461857562"; "1"];
     ["16711396487645523624974699453994048850819233871032982904645504869858729525093"; "16738482245786492820552168054381022310168489767902867788923385844539016279008"; "1"];
     ["18549786394029224114545421187435575957887646018397541546865376163643142068707"; "20052055145772687396769805410655970206023291130121819803408317971585826442303"; "1"];
     ["9488244878405253066326398911806349476402820283916955909555088408451825216566"; "14755712876564758833957923354105492023651788053211248807130155088310530601959"; "1"];
     ["14373538572767172871472740985216352990517175912727836245348580109076322689434"; "16551701169108805146510679977707499310951563344723188459880788910250556192396"; "1"];
     ["21375041240635456273133847411338529361372641157826050078444226405949823351210"; "3990701785499350931201013954804244253544512156381231628411657195236539105943"; "1"];
     ["5392664266481004015100790636645876890061146810321246928426924028746789521386"; "10749854649104785399017162103843486127753039621788468862658123655363901077181"; "1"];
     ["9200155369151155561666333315183846584563973278547039380517493788730113043689"; "3681808583763093472679418746401624806120862118346819377349076446950467066385"; "1"];
     ["17530250430917406008626763464663663784525511871465031036020474163808056762909"; "20509651622379631442933086061646947716120671868445047203776095938670039566844"; "1"];
     ["19508957406013174741442608162562832887991931528284778091889421085900689127207"; "10208609206252879202046625789094819803998748253603741410278686202757540798516"; "1"];
     ["21686217944728010507586740480873321410941819443803188923658980698884670361261"; "20943922276768364284451796397444156387069934574573272808623624956547122936735"; "1"];
     ["20232461811568906700497150211824030936112074376197218907096759717503065821357"; "15956506013354668088289770379353538815817784455167435761572956382456579635066"; "1"];
     ["4045620713404972029797155330214849888029242650388151636874142954100049234692"; "20523594583438851187849737856155340013317630404249704360690401323665466211571"; "1"];
     ["14045008891890861821934552191744592053190701283630431621962332417749403017410"; "12436059612224214699934430907774865184442829101183443713965971581594652198921"; "1"];
     ["3653940122287964145237348199295673459992974603920669982495236791950070527626"; "2577487249519353755769349964737706597907561017441061577131545294016853399202"; "1"];
     ["9768531125480921709549417643253756436957790241271268561831249334077975552931"; "18721409322580688507497216887702841485607828572976338424263073805186097780618"; "1"];
     ["10385995135688946227255483643120865737554264560200280417726642622746663283640"; "2500538262979246644639113090101849985701865785408589115890617441332273007320"; "1"];
     ["11237527922926484074571415915644558055350198320930328841917242816906729921984"; "9989064688222575788989699201390210701598360614811246368037826159811238215339"; "1"];
     ["13602240994466841542593822177421187494135375480904595334407188100374738023279"; "7979329358377217491130521234533807294864596933062464497366381252964663511911"; "1"];
     ["1711092060580308217314239791744806143435492838955938811896790605109199849707"; "6124000530364770163873726114714522226327235978456519872871971819440325839389"; "1"];
     ["7799884938403008152118851385637692021433934443217070047257552408445155909530"; "17995166091708851447356099736619972016980612736869467487878993961727582346305"; "1"];
     ["6964723158213822055903020395775887935359512418864546589372028788008830715214"; "10603142758860447408212637181621006651148702133594999090457906007787862741022"; "1"];
     ["21585042147643659531478438797392857942466764344251065997734451941586050937147"; "19206750508334847412700376800643503145601743211616957432602097915492480948284"; "1"];
     ["19410826129283908627224600179433457093859454726250815431452936037403518129037"; "21285690837378097546559937683636907348481424137844375530431400728616860751434"; "1"];
     ["17632290282488082803101420074418252288083457791857528886767407390256669487402"; "17601828943652226539740622761647617667562548009148250169032981750111383756903"; "1"];
     ["3300800043068359501168906383251622915927319213819504738248596838440868491800"; "9077020854714517489632578827611903104824643714690794811715918824746980034062"; "1"];
     ["11539791592063540373565051781605532819743889181048325280516095215599278415284"; "10770569126750218640631965776891557069905077747951579385656724402057932910688"; "1"];
     ["13724223271717932146542793560988193267634645382104140426101652902821727110537"; "4856436887855555488108070477685326609666056846400527879446335244723429476079"; "1"];
     ["6241507949034324079800115382174737834566930959514884141318927681662216523943"; "14393199679188906744606306198503537959676457383341152874934499775533009409606"; "1"];
     ["13436319270221703070116084576472516502991447365941865176279504837843783543206"; "12706323356935158720751079589081494910388874407711411527357229396762505544170"; "1"];
     ["13598297511625991421031161846448598192312155440397910285175739915635261376057"; "4426713382064984964487484322434624939479314861306325388834933222277300696381"; "1"];
     ["4886370502050706893960406806786429893151412627823242468793057403822891056317"; "5238856709761889474143528825087827219557312572431139070979300944579717464738"; "1"];
     ["3134243413481044152526156202217921428466884823704454191944686448110742402342"; "2599539807343292984997694185916996481169822480743916477712082096077653382969"; "1"];
     ["6658643794409316793705291453949445823644555496249384507873716853332934668986"; "13897297086987489580876479814537425419100995423569151661399608783311218870034"; "1"];
     ["7639216203502438771749587700304160576480992048622128105295591906259506421984"; "17901568302074394971546943159117851358859364213472838734249317970515017712332"; "1"];
     ["3820430048383362344675685907365588952781700622139282165698846294285041050009"; "14350371325690709315412811076968893225853472441680688955435272779527196071480"; "1"];
     ["19741056833517215091019681519161084617255186700240895847113956533982894728044"; "20284194974784615257288195801961634371687421809029601211109561213653381765343"; "1"];
     ["7017169041508795614997911671897895339113193275820386036139280849575223455037"; "11982810763519820597490797383127300808367511979686315546850445487989939786311"; "1"];
     ["12414214262317235387766149426150079811656594287116042146646069084014600463564"; "4467060607047064647048017348630058323081461935891076860278872208792869989541"; "1"];
     ["14854719023038286333789214372998949285345259897348664731891459878596867915238"; "21701895600760900652355401503873236516153623881639962228982145813293800165201"; "1"];
     ["21467378938829605952320861456896682628734522207637254136870777587403196542707"; "3323265524796620136486855393056291075067202206846266874550487930548803655889"; "1"];
     ["1160354600852200592162660540201026590538244527515479441048140727478123678204"; "10012930608119980354319250519856965362060251050066875588508607282136339410705"; "1"];
     ["3583661491681735379690040574159705160493728586284550050052447927015896894459"; "6003897836691435561922619171486538258987082170798801117795921005035674695745"; "1"];
     ["11095556631362669461564420426853498980513453089428341728093742633312770162365"; "6794271493907316768019285494104898486495396104699623580464075592380779089476"; "1"];
     ["21666696947872480725445170872389123738667879006506166192433247345022644440734"; "17493522665437407217479491711496237384680993522912159838803918309801075697925"; "1"];
     ["5485673981926661082743526956233627869185248827866081723720465569764609233721"; "4045083751858422052100717317149711478118055660858644263502264172717098386032"; "1"];
     ["12155266854873373714579469422317219181806026601525137556258438418734246988116"; "11797233548915192896028636876234557620060680507586158982666928251642539305423"; "1"];
     ["16583520184362063182677074368201636605199859497032982479247000667311864104375"; "10506907758813719094737636583503385800753433021331248728651677214258004088559"; "1"];
     ["3712508399833140998060963899280362581681022870963525242397161522990742154646"; "16280723390252623514700101989253312790264168456963172502708592074310968549591"; "1"];
     ["17868698875581175628137099605490246473243401999252406999511512247460002901021"; "1649168920263494223861701097863895560224608849426978375751850303377673819172"; "1"];
     ["6810657939168348880087204018066475625605806147563193070841516632644765868480"; "17861791586059032352097327375385385624473273394109074701894471379978074040784"; "1"];
     ["4620016759046441678773492701523809923461409760417558746453181041208821583418"; "4612521404064736144689514026357777275115244068514713805129035664178213979554"; "1"];
     ["18771002108786903247959537255031401956476977840015721421148261463190095851113"; "498886275661823072287718704049949258400991209968727350252554523778105782215"; "1"];
     ["15326013501770747921174775482478715930743514297654100923596902576575671816849"; "2883308288996168085983065367681663502068338699538440275816275978410323328406"; "1"];
     ["21581684913076799209490557818483260110296790332918771795348816669651847000679"; "19255873940850804451783260286343088032937552756774189816713586265529831908504"; "1"];
     ["9422261690912571173986303028522296342606395637942219379666652619903201019131"; "13157297488865573001303139061647034843599036423019952497061432740799741656842"; "1"];
     ["1514157775351832733851600116508176403078970867542532240445777211872550685122"; "10098819081512815519980061805077722208902467184247461515351240331734854518381"; "1"];
     ["11782815250364193986475389178853147568516472982130840457112491737559788955101"; "3335902146830715656021749998239646474827407353582699596885331049435108953201"; "1"];
     ["19715141303756368931876618652294034157902362015546362095456319804205226826133"; "13940583470143867039418224929910049911006893023789574099286250232307258688711"; "1"];
     ["8716744272985801264882445926416318716002742018795335350713831221043480580032"; "5981267136782955250495545666218546733118820751848196041477454671263163558897"; "1"];
     ["21628952821580586497929833355825274220202057128991040228930331708145040660855"; "3469516323364817710854129570092268160069632978883031941255303021154065607922"; "1"];
     ["17501861154724193589590506891062483213646232948920678675545153811813856128573"; "20254238639286400751749247937175107725010995373011052127004348867729068873966"; "1"];
     ["8442995010652504441784521577785851339669684005049314495578925421517035610011"; "15627528014249992938080566822784668676708451534871137221203003405263205622292"; "1"];
     ["19414400530135975385492231648570111940243147307766181195188375717332269327959"; "1499364253014807765434847446251511366276069422266546393509394742672423498642"; "1"];
     ["9161864863925961293845383820344598372665960579564678665694408576515214580204"; "13406476698756762066901676887188803910954348623494044661390967444811064032830"; "1"];
     ["7008531358837212090350935476929706988333478235531943394907033017977192860610"; "7774424843983567179012169757171980747968105070613972208975551310700117771542"; "1"];
     ["14578588366366136567572216886935469954382916858356947811454442710467695870366"; "17231497063137231274856192560145970477655535850141461878515723965739614607035"; "1"];
     ["4319881357156202808731141185602438275838823213614732720325977789014374291149"; "14351127588947523773520193838214020706347297025902615585223544665583857923393"; "1"];
     ["18192254486173626791927949654743431767586920040690298573321190032488684795658"; "6072114391506802460909542442713589973786175258256944676453994774586144868971"; "1"];
     ["3798425761531572380130880687418099092838859498323200122859781833653604156767"; "7084161216630305433056954952704057959691436560540571492579268107886758282590"; "1"];
     ["12221482081437000836203647300597080175031889687813472200014154223123836620199"; "20968736189291315653908935342644552914098668187863638497385415943421228733058"; "1"];
     ["617400237964230416228804192601882940521456716046054781850543477724806091311"; "2904398655777212823206942900445971875646587821051609522215605193631325136260"; "1"];
     ["2630283627321778633778673545048506457244227283376747634599863527799915022425"; "940513164069974613974034762133339181649727449337769637272141800475219688707"; "1"];
     ["18163405159728587410831224788431815807681099737058317492533922873291080064040"; "9031215561364014341835611435935312647306825311699176403239210668640380631758"; "1"];
     ["1737647792914177177630507239053383779243024285042606473063461958504284885437"; "8578877333890370354788498261638161376531459669187328779551688892176587772921"; "1"];
     ["12354002330358693886969982374034740922082764644395640762532220758019139198399"; "19575157564538221508252074540975523997474775427079762157651825427443387741334"; "1"];
     ["18032566659806712997656749275422220696173189796125826963827833268809202086322"; "16946040601798695321043126656806137519263966567822907008292341347796760038300"; "1"];
     ["21427739805154086213649306614743044371728499524515544239186979041239237442117"; "8923985632057383012782601268197398502317544291061078307272989411673950351474"; "1"];
     ["7081324789641261935825569660606618609091430934854329039157458662925381113109"; "21565060637886002596108024486962876241946928759218624744800835274778545826453"; "1"];
     ["9474074458682123852946953048882083153831215474062305951197139598855191369887"; "17076595853287865670607387197085589417258936334498202048370392739025133484947"; "1"];
     ["5281705668899767051116648812837006764258612940205033154396824669172615411374"; "21610060531524118652658079655974381794228027531596545964243289489247182860243"; "1"];
     ["9255585742697107898396540824748617249796675837262778594710205251423547909391"; "21252311345958756529843826782458097494903171861113489067518450694281638753940"; "1"];
     ["20911406283497461651801969177668183817390375840777623031021125474041622540287"; "10275270587102628971535520879400364640005486064321744709600223644102588379687"; "1"]];
|}.

Section default_genesis.
Context `{!ZkCrypto}.

Definition CreateDefaultVKeyBytes : outcome string :=
  match json_Marshal_CircomVK vkeyJSON with Ok bz => Ok bz | _ => Panic end.

Definition ZkDefaultGenesisState : outcome ZkGenesis :=
  keyBytes ← CreateDefaultVKeyBytes;
  Ok (mkZkGenesis
        [mkVKeyWithID 1
           (mkVKey keyBytes "Zk Email" "ZK email Vkey for AA + ZK email" "" PROOF_SYSTEM_UNSPECIFIED "")]
        ZkDefaultParams).
End default_genesis.

(** [json.Marshal] and circom2gnark's parser are inverse on a key. *)
Class ZkJsonLaws `{!ZkCrypto} := {
  circom_json_roundtrip vk bz :
    json_Marshal_CircomVK vk = Ok bz → bz ≠ "" ∧ UnmarshalCircomVerificationKeyJSON bz = Ok vk;
}.

Lemma vkeyJSON_valid : validateCircomVerificationKey vkeyJSON = Ok tt.
Proof. vm_compute. reflexivity. Qed.

Lemma default_vkey_bytes_ok `{!ZkCrypto, !ZkJsonLaws} bz : json_Marshal_CircomVK vkeyJSON = Ok bz →
  slen bz ≤ DefaultMaxVKeySizeBytes → ValidateVKeyBytes bz DefaultMaxVKeySizeBytes = Ok tt.
Proof.
  intros Ej Hsz. destruct (circom_json_roundtrip _ _ Ej) as [Hne Hp].
  unfold ValidateVKeyBytes, ValidateVKeyByteSize.
  rewrite u64_small, (proj2 (Z.ltb_ge DefaultMaxVKeySizeBytes (slen bz))), andb_false_r
    by (unfold is_u64, DefaultMaxVKeySizeBytes in *; pose proof (slen_nonneg bz); lia).
  rewrite fail_if_false_bind, Hp. cbn [map_err]. by rewrite bind_Ok_l, vkeyJSON_valid.
Qed.

(** The default genesis state, with the built-in key parsed back from its
    JSON, passes the module's own genesis validation. *)
Theorem ZkDefaultGenesisState_valid `{!ZkCrypto, !ZkJsonLaws} gs :
  (∀ bz, json_Marshal_CircomVK vkeyJSON = Ok bz → slen bz ≤ DefaultMaxVKeySizeBytes) →
  ZkDefaultGenesisState = Ok gs → ZkGenesis_Validate gs = Ok tt.
Proof.
  intros Hsz Hgs. unfold ZkDefaultGenesisState, CreateDefaultVKeyBytes in Hgs.
  destruct (json_Marshal_CircomVK vkeyJSON) as [bz| |] eqn:Ej; [|done..].
  rewrite bind_Ok_l in Hgs. injection Hgs as <-.
  destruct (circom_json_roundtrip _ _ Ej) as [Hne Hp]. specialize (Hsz bz eq_refl).
  unfold ZkGenesis_Validate. change (genesis_params _) with ZkDefaultParams.
  change (ZkParams_Validate ZkDefaultParams) with (Ok tt : outcome unit). rewrite bind_Ok_l.
  cbn [zg_Vkeys fold_outcome genesis_vkey_ok vi_Vkey vi_Id vkey_KeyBytes vkey_Name vkey_ProofSystem].
  rewrite (bool_decide_eq_false_2 (1 ∈ _)), (bool_decide_eq_false_2 ("Zk Email" ∈ _)) by set_solver.
  rewrite (bool_decide_eq_false_2 ("Zk Email" = "")) by done. rewrite !fail_if_false_bind.
  rewrite (proj2 (Z.eqb_neq (slen bz) 0)) by by apply slen_ne_0. rewrite fail_if_false_bind.
  change (ValidateVKeyForProofSystem bz _ _) with (ValidateVKeyBytes bz DefaultMaxVKeySizeBytes).
  by rewrite default_vkey_bytes_ok.
Qed.

(** ** A concrete proof library for the witnesses *)
#[global] Instance CircomVerificationKey_eq_dec : EqDecision CircomVerificationKey.
Proof. solve_decision. Defined.

(** One known Circom key, UltraHonk keys that start with a fixed tag, gnark keys
    likewise; a proof is accepted when it is the string "proof". *)
#[global] Instance model_zk : ZkCrypto := {|
  UnmarshalCircomVerificationKeyJSON s :=
    if decide (s = "default") then Ok vkeyJSON else Err (Foreign "json");
  json_Marshal_CircomVK vk := if decide (vk = vkeyJSON) then Ok "default" else Err (Foreign "json");
  CircomProof := string;
  UnmarshalCircomProofJSON s := Ok s;
  CircomGnarkProof := string;
  ConvertCircomToGnark _ p _ := Ok p;
  VerifyProof p := Ok (bool_decide (p = "proof"));
  GnarkVK := unit;
  GnarkProof := string;
  GnarkWitness := string;
  gnark_ReadVerifyingKey s := if HasPrefix s "gnark" then Ok tt else Err (Foreign "gnark");
  gnark_ReadProof s := Ok s;
  gnark_NewWitness := Ok "";
  gnark_UnmarshalWitness _ s := Ok s;
  groth16_Verify p _ _ := if decide (p = "proof") then Ok tt else Err (Foreign "gnark");
  BbVK := unit;
  BbProof := string;
  BbVerifier := unit;
  FieldElementSize := 32;
  bb_ValidateVerificationKeyBytes s _ := if HasPrefix s "honk" then Ok tt else Err (Foreign "bb");
  bb_ParseVerificationKey s := if HasPrefix s "honk" then Ok tt else Err (Foreign "bb");
  bb_ParseProof s := Ok s;
  bb_NewVerifier _ := Ok tt;
  bb_VerifyWithBytes _ p _ := if decide (p = "proof") then Ok true else Err (Foreign "bb.failed");
  bb_ErrVerificationFailed := Foreign "bb.failed";
  bb_ErrInvalidPublicInputs := Foreign "bb.inputs";
  bb_ErrInternal := Foreign "bb.internal";
|}.

#[global] Instance model_zk_json : ZkJsonLaws.
Proof. split. intros vk bz. cbn -[vkeyJSON]. case_decide as E; [|done]. intros [= <-]. by subst. Qed.

Lemma ZkDefaultGenesisState_valid_witness :
  ∃ gs, ZkDefaultGenesisState = Ok gs ∧ ZkGenesis_Validate gs = Ok tt.
Proof.
  eexists. split; [reflexivity|]. apply ZkDefaultGenesisState_valid; [|reflexivity].
  intros bz. cbn -[vkeyJSON slen]. case_decide; [|done]. intros [= <-]. vm_compute. discriminate.
Defined.
