(* ===== verification/ZkKeeper.v ===== *)
(** * x/zk: the keeper, its message server, genesis and migrations

    Models x/zk/keeper (keeper.go, msg_server.go, gas.go, migrator.go) and
    x/zk/migrations.  The four collections and the gas meter are the state. *)

From S2P Require Import Prelude GoStd Sdk SdkModel ZkTypes ZkDefault.

(** ** State *)
Record ZkState (VC NC SQ PI G : Type) := mkZkState {
  z_VKeys : VC;
  z_VKeyNameIndex : NC;
  z_NextVKeyID : SQ;
  z_Params : PI;
  z_gas : G;
}.
Arguments mkZkState {VC NC SQ PI G}.
Arguments z_VKeys {VC NC SQ PI G}.
Arguments z_VKeyNameIndex {VC NC SQ PI G}.
Arguments z_NextVKeyID {VC NC SQ PI G}.
Arguments z_Params {VC NC SQ PI G}.
Arguments z_gas {VC NC SQ PI G}.

(** [errors.IsOf(err, collections.ErrNotFound)] selects the replacement. *)
Definition not_found_as {A} (e : goerr) (x : outcome A) : outcome A :=
  map_err (λ err, if decide (err = ErrNotFound) then e else err) x.

Section keeper.
Context `{!ZkCrypto, !AddressCodec}.
Context {VC NC SQ PI G : Type}.
Context `{!CollMap Z VKey VC, !CollMap string Z NC, !CollSequence SQ, !CollItem ZkParams PI, !GasMeter G}.
(** [Keeper.authority] *)
Context (authority : string).
Abbreviation St := (ZkState VC NC SQ PI G).
Implicit Types s : St.

(** *** Access to the collections *)
Definition VKeys_Set (id : Z) (v : VKey) : M St unit := write (λ s,
  c ← coll_Set (z_VKeys s) id v;
  Ok (mkZkState c (z_VKeyNameIndex s) (z_NextVKeyID s) (z_Params s) (z_gas s))).
Definition VKeys_Remove (id : Z) : M St unit := write (λ s,
  c ← coll_Remove (z_VKeys s) id;
  Ok (mkZkState c (z_VKeyNameIndex s) (z_NextVKeyID s) (z_Params s) (z_gas s))).
Definition VKeyNameIndex_Set (name : string) (id : Z) : M St unit := write (λ s,
  c ← coll_Set (z_VKeyNameIndex s) name id;
  Ok (mkZkState (z_VKeys s) c (z_NextVKeyID s) (z_Params s) (z_gas s))).
Definition VKeyNameIndex_Remove (name : string) : M St unit := write (λ s,
  c ← coll_Remove (z_VKeyNameIndex s) name;
  Ok (mkZkState (z_VKeys s) c (z_NextVKeyID s) (z_Params s) (z_gas s))).
Definition NextVKeyID_Set (id : Z) : M St unit := write (λ s,
  c ← seq_Set (z_NextVKeyID s) id;
  Ok (mkZkState (z_VKeys s) (z_VKeyNameIndex s) c (z_Params s) (z_gas s))).
Definition NextVKeyID_Next : M St Z := λ s,
  match seq_Next (z_NextVKeyID s) with
  | Ok (id, c) => (mkZkState (z_VKeys s) (z_VKeyNameIndex s) c (z_Params s) (z_gas s), Ok id)
  | Err e => (s, Err e)
  | Panic => (s, Panic)
  end.
Definition Params_Set (p : ZkParams) : M St unit := write (λ s,
  c ← item_Set (z_Params s) p;
  Ok (mkZkState (z_VKeys s) (z_VKeyNameIndex s) (z_NextVKeyID s) c (z_gas s))).
Definition Consume (amount : Z) : M St unit := write (λ s,
  g ← ConsumeGas (z_gas s) amount;
  Ok (mkZkState (z_VKeys s) (z_VKeyNameIndex s) (z_NextVKeyID s) (z_Params s) g)).

(** *** Parameters *)
Definition ZkGetParams s : outcome ZkParams :=
  match item_Get (z_Params s) with
  | Ok params => Ok (WithMaxLimitDefaults params)
  | Err e => if decide (e = ErrNotFound) then Ok ZkDefaultParams else Err e
  | Panic => Panic
  end.

Definition ZkSetParams (params : ZkParams) : M St unit :=
  let params := WithMaxLimitDefaults params in
  _ ← lift (ZkParams_Validate params);
  Params_Set params.

Definition ensureVKeySize (params : ZkParams) (size : Z) : outcome Z := GasCostForSize params (u64 size).

Definition ConsumeVKeyGas (params : ZkParams) (size : Z) : M St unit :=
  gasCost ← lift (GasCostForSize params (u64 size));
  Consume gasCost.

(** *** Keys *)
Definition AddVKey (auth name keyBytes description : string) (proofSystem : Z) : M St Z :=
  let proofSystem := default_proof_system proofSystem in
  s ← get_state;
  has ← lift (coll_Has (z_VKeyNameIndex s) name);
  _ ← lift (fail_if has ErrVKeyExists);
  params ← lift (ZkGetParams s);
  gasCost ← lift (ensureVKeySize params (slen keyBytes));
  _ ← Consume gasCost;
  _ ← lift (map_err (λ _, ErrInvalidVKey)
              (ValidateVKeyForProofSystem keyBytes (MaxVkeySizeBytes params) proofSystem));
  id ← (λ s, let '(s', r) := NextVKeyID_Next s in (s', map_err (λ _, ErrIncreaseSequenceID) r));
  let vkey := mkVKey keyBytes name description auth proofSystem "" in
  _ ← VKeys_Set id vkey;
  _ ← VKeyNameIndex_Set name id;
  mret id.

Definition GetVKeyByID s (id : Z) : outcome VKey :=
  not_found_as ErrVKeyNotFound (coll_Get (z_VKeys s) id).

Definition GetVKeyByName s (name : string) : outcome VKey :=
  id ← not_found_as ErrVKeyNotFound (coll_Get (z_VKeyNameIndex s) name);
  GetVKeyByID s id.

Definition GetCircomVKeyByName s (name : string) : outcome CircomVerificationKey :=
  vkey ← GetVKeyByName s name; UnmarshalVKey (Some vkey).

Definition GetCircomVKeyByID s (id : Z) : outcome CircomVerificationKey :=
  vkey ← GetVKeyByID s id; UnmarshalVKey (Some vkey).

(** The key stored under a name, with its id and its effective authority; the
    common prefix of [UpdateVKey] and [RemoveVKey]. *)
Definition owned_vkey s (auth name : string) : outcome (Z * string) :=
  id ← not_found_as ErrVKeyNotFound (coll_Get (z_VKeyNameIndex s) name);
  storedVKey ← not_found_as ErrVKeyNotFound (coll_Get (z_VKeys s) id);
  let storedAuthority :=
    if decide (vkey_Authority storedVKey = "") then authority else vkey_Authority storedVKey in
  _ ← fail_if (negb (bool_decide (storedAuthority = auth))) ErrInvalidAuthority;
  Ok (id, storedAuthority).

Definition UpdateVKey (auth name keyBytes description : string) (proofSystem : Z) : M St unit :=
  let proofSystem := default_proof_system proofSystem in
  s ← get_state;
  '(id, storedAuthority) ← lift (owned_vkey s auth name);
  params ← lift (ZkGetParams s);
  gasCost ← lift (ensureVKeySize params (slen keyBytes));
  _ ← Consume gasCost;
  _ ← lift (map_err (λ _, ErrInvalidVKey)
              (ValidateVKeyForProofSystem keyBytes (MaxVkeySizeBytes params) proofSystem));
  VKeys_Set id (mkVKey keyBytes name description storedAuthority proofSystem "").

Definition RemoveVKey (auth name : string) : M St unit :=
  s ← get_state;
  '(id, _) ← lift (owned_vkey s auth name);
  _ ← VKeys_Remove id;
  VKeyNameIndex_Remove name.

Definition ListVKeys s : outcome (list VKey) :=
  map snd <$> (coll_Entries (z_VKeys s) : outcome (list (Z * VKey))).

Definition HasVKey s (name : string) : outcome bool := coll_Has (z_VKeyNameIndex s) name.

(** *** Genesis *)
Definition import_vkey (params : ZkParams) (v : VKeyWithID) : M St unit :=
  _ ← lift (or_panic (ValidateVKeyBytes (vkey_KeyBytes (vi_Vkey v)) (MaxVkeySizeBytes params)));
  let w := vi_Vkey v in
  let vkey := if decide (vkey_Authority w = "")
              then mkVKey (vkey_KeyBytes w) (vkey_Name w) (vkey_Description w) authority (vkey_ProofSystem w) (vkey_CircuitHash w)
              else w in
  _ ← must (VKeys_Set (vi_Id v) vkey);
  _ ← must (VKeyNameIndex_Set (vkey_Name vkey) (vi_Id v));
  s ← get_state;
  currentSeq ← lift (or_panic (seq_Peek (z_NextVKeyID s)));
  if currentSeq <=? vi_Id v then must (NextVKeyID_Set (u64 (vi_Id v + 1))) else mret tt.

Definition zk_InitGenesis (gs : ZkGenesis) : M St unit :=
  let params := genesis_params gs in
  _ ← lift (or_panic (ZkParams_Validate params));
  _ ← must (ZkSetParams params);
  for_each (import_vkey params) (zg_Vkeys gs).

Definition export_vkey s (acc : list VKeyWithID) (vkey : VKey) : outcome (list VKeyWithID) :=
  id ← or_panic (coll_Get (z_VKeyNameIndex s) (vkey_Name vkey));
  Ok (acc ++ [mkVKeyWithID id vkey]).

Definition zk_ExportGenesis s : outcome ZkGenesis :=
  vkeys ← or_panic (ListVKeys s);
  params ← or_panic (ZkGetParams s);
  vkeysWithID ← fold_outcome (export_vkey s) [] vkeys;
  Ok (mkZkGenesis vkeysWithID params).

(** *** Message server *)
Definition zk_AddVKey (msg : MsgAddVKey) : M St Z :=
  _ ← lift (MsgAddVKey_ValidateBasic msg);
  AddVKey (av_Authority msg) (av_Name msg) (av_VkeyBytes msg) (av_Description msg) (av_ProofSystem msg).

Definition zk_UpdateVKey (msg : MsgAddVKey) : M St unit :=
  _ ← lift (MsgUpdateVKey_ValidateBasic msg);
  UpdateVKey (av_Authority msg) (av_Name msg) (av_VkeyBytes msg) (av_Description msg) (av_ProofSystem msg).

Definition zk_RemoveVKey (msg : MsgRemoveVKey) : M St unit :=
  RemoveVKey (rv_Authority msg) (rv_Name msg).

Definition zk_UpdateParams (msg : MsgZkUpdateParams) : M St unit :=
  _ ← lift (fail_if (negb (bool_decide (up_Authority msg = authority))) ErrInvalidAuthority);
  ZkSetParams (up_Params msg).

(** *** Migrations *)
Definition find_vkey_1 (l : list VKeyWithID) : VKey :=
  match list_find (λ v, vi_Id v = 1) l with
  | Some (_, v) => vi_Vkey v
  | None => mkVKey "" "" "" "" 0 ""
  end.

Definition zk_v2_MigrateStore : M St unit :=
  gs ← lift ZkDefaultGenesisState;
  let defaultVkey := find_vkey_1 (zg_Vkeys gs) in
  if negb (slen (vkey_KeyBytes defaultVkey) =? 0) then VKeys_Set 1 defaultVkey else mret tt.

(** The four limits that version 3 fills in; [updated] says whether any was zero. *)
Definition v3_backfill (p : ZkParams) : ZkParams :=
  mkZkParams (MaxVkeySizeBytes p) (UploadChunkSize p) (UploadChunkGas p)
    (or_default (MaxGroth16ProofSizeBytes p) DefaultMaxGroth16ProofSizeBytes)
    (or_default (MaxGroth16PublicInputSizeBytes p) DefaultMaxGroth16PublicInputSizeBytes)
    (or_default (MaxUltraHonkProofSizeBytes p) DefaultMaxUltraHonkProofSizeBytes)
    (or_default (MaxUltraHonkPublicInputSizeBytes p) DefaultMaxUltraHonkPublicInputSizeBytes)
    (MaxGnarkProofSizeBytes p) (MaxGnarkPublicInputSizeBytes p).

Definition v3_updated (p : ZkParams) : bool :=
  (MaxGroth16ProofSizeBytes p =? 0) || (MaxGroth16PublicInputSizeBytes p =? 0) ||
  (MaxUltraHonkProofSizeBytes p =? 0) || (MaxUltraHonkPublicInputSizeBytes p =? 0).

Definition zk_v3_MigrateStore : M St unit := λ s,
  match item_Get (z_Params s) with
  | Ok p => (if v3_updated p then Params_Set (v3_backfill p) else mret tt) s
  | Err e => if decide (e = ErrNotFound) then (s, Ok tt) else (s, Err e)
  | Panic => (s, Panic)
  end.
End keeper.

(** ** Correctness of the registry of keys *)
Section registry.
Context `{Ccr : !ZkCrypto, Cad : !AddressCodec}.
Context {VC NC SQ PI G : Type}.
Context `{Cv : !CollMap Z VKey VC, Cvl : !CollMapLaws Z VKey VC, !CollKeysOk Z VKey VC}.
Context `{Cn : !CollMap string Z NC, Cnl : !CollMapLaws string Z NC, !CollKeysOk string Z NC}.
Context `{Cq : !CollSequence SQ, Cql : !CollSequenceLaws SQ}.
Context `{Cp : !CollItem ZkParams PI, Cpl : !CollItemLaws ZkParams PI, Cg : !GasMeter G}.
Context (authority : string).
Abbreviation St := (ZkState VC NC SQ PI G).
Implicit Types s : St.

(** The abstract state: keys by id, ids by name, the next id, the parameters. *)
Definition keys s : gmap Z VKey := coll_contents (z_VKeys s).
Definition names s : gmap string Z := coll_contents (z_VKeyNameIndex s).
Definition next_id s : Z := seq_value (z_NextVKeyID s).
Definition params_of s : option ZkParams := item_contents (z_Params s).

(** Two states with the same registry (they may differ in gas). *)
Definition same_registry s s' : Prop :=
  keys s' = keys s ∧ names s' = names s ∧ next_id s' = next_id s ∧ params_of s' = params_of s.

Lemma same_registry_refl s : same_registry s s.
Proof. done. Qed.

Lemma VKeys_Set_run id v s : ∃ s',
  VKeys_Set id v s = (s', Ok tt) ∧ keys s' = <[id := v]> (keys s) ∧
  names s' = names s ∧ next_id s' = next_id s ∧ params_of s' = params_of s.
Proof.
  destruct (coll_Set_spec (z_VKeys s) id v (coll_keys_ok id)) as (c&E&Hc).
  eexists. unfold VKeys_Set, write. rewrite E. cbn. split_and!; [done|by unfold keys|done..].
Qed.

Lemma VKeys_Remove_run id s : ∃ s',
  VKeys_Remove id s = (s', Ok tt) ∧ keys s' = delete id (keys s) ∧
  names s' = names s ∧ next_id s' = next_id s ∧ params_of s' = params_of s.
Proof.
  destruct (coll_Remove_spec (z_VKeys s) id (coll_keys_ok id)) as (c&E&Hc).
  eexists. unfold VKeys_Remove, write. rewrite E. cbn. split_and!; [done|by unfold keys|done..].
Qed.

Lemma VKeyNameIndex_Set_run name id s : ∃ s',
  VKeyNameIndex_Set name id s = (s', Ok tt) ∧ keys s' = keys s ∧
  names s' = <[name := id]> (names s) ∧ next_id s' = next_id s ∧ params_of s' = params_of s.
Proof.
  destruct (coll_Set_spec (z_VKeyNameIndex s) name id (coll_keys_ok name)) as (c&E&Hc).
  eexists. unfold VKeyNameIndex_Set, write. rewrite E. cbn.
  split_and!; [done|done|by unfold names|done..].
Qed.

Lemma VKeyNameIndex_Remove_run name s : ∃ s',
  VKeyNameIndex_Remove name s = (s', Ok tt) ∧ keys s' = keys s ∧
  names s' = delete name (names s) ∧ next_id s' = next_id s ∧ params_of s' = params_of s.
Proof.
  destruct (coll_Remove_spec (z_VKeyNameIndex s) name (coll_keys_ok name)) as (c&E&Hc).
  eexists. unfold VKeyNameIndex_Remove, write. rewrite E. cbn.
  split_and!; [done|done|by unfold names|done..].
Qed.

Lemma NextVKeyID_Next_run s : ∃ s',
  NextVKeyID_Next s = (s', Ok (next_id s)) ∧ keys s' = keys s ∧ names s' = names s ∧
  next_id s' = u64 (next_id s + 1) ∧ params_of s' = params_of s.
Proof.
  destruct (seq_Next_spec (z_NextVKeyID s)) as (c&E&Hc).
  eexists. unfold NextVKeyID_Next. rewrite E. split_and!; [done|done|done|by unfold next_id|done].
Qed.

Lemma NextVKeyID_Set_run id s : ∃ s',
  NextVKeyID_Set id s = (s', Ok tt) ∧ keys s' = keys s ∧ names s' = names s ∧
  next_id s' = id ∧ params_of s' = params_of s.
Proof.
  destruct (seq_Set_spec (z_NextVKeyID s) id) as (c&E&Hc).
  eexists. unfold NextVKeyID_Set, write. rewrite E. cbn.
  split_and!; [done|done|done|by unfold next_id|done].
Qed.

Lemma Params_Set_run p s : ∃ s',
  Params_Set p s = (s', Ok tt) ∧ keys s' = keys s ∧ names s' = names s ∧
  next_id s' = next_id s ∧ params_of s' = Some p.
Proof.
  destruct (item_Set_spec (z_Params s) p) as (c&E&Hc).
  eexists. unfold Params_Set, write. rewrite E. cbn. split_and!; [done|done|done|done|by unfold params_of].
Qed.

Lemma Consume_run amount s : same_registry s (Consume amount s).1.
Proof.
  unfold Consume, write. by destruct (ConsumeGas (z_gas s) amount).
Qed.

Lemma ZkGetParams_run s : ZkGetParams s = Ok (from_option WithMaxLimitDefaults ZkDefaultParams (params_of s)).
Proof.
  unfold ZkGetParams, params_of. rewrite item_Get_spec. destruct (item_contents _); [done|]. cbn.
  by rewrite decide_True.
Qed.

Lemma not_found_lookup {A} (o : option A) e : not_found_as e (or_fail o ErrNotFound) = or_fail o e.
Proof. destruct o; [done|]. cbn. by rewrite decide_True. Qed.

Lemma GetVKeyByID_run s id : GetVKeyByID s id = or_fail (keys s !! id) ErrVKeyNotFound.
Proof. unfold GetVKeyByID. by rewrite coll_Get_spec, not_found_lookup by apply coll_keys_ok. Qed.

Lemma GetVKeyByName_run s name :
  GetVKeyByName s name = (id ← or_fail (names s !! name) ErrVKeyNotFound; GetVKeyByID s id).
Proof. unfold GetVKeyByName. by rewrite coll_Get_spec, not_found_lookup by apply coll_keys_ok. Qed.

(** The authority that may change a key: its own, or the module's when unset. *)
Definition effective_authority (v : VKey) : string :=
  if decide (vkey_Authority v = "") then authority else vkey_Authority v.

Lemma owned_vkey_Ok s auth name id a :
  owned_vkey authority s auth name = Ok (id, a) ↔
  ∃ v, names s !! name = Some id ∧ keys s !! id = Some v ∧
       effective_authority v = auth ∧ a = auth.
Proof.
  unfold owned_vkey. rewrite coll_Get_spec, not_found_lookup by apply coll_keys_ok.
  fold (names s). destruct (names s !! name) as [id'|]; cbn; [|naive_solver].
  rewrite coll_Get_spec, not_found_lookup by apply coll_keys_ok. fold (keys s).
  destruct (keys s !! id') as [v|] eqn:Ev; cbn; [|naive_solver].
  fold (effective_authority v). case_bool_decide; cbn; naive_solver.
Qed.

(** The key that [AddVKey] and [UpdateVKey] write has been checked for its proof
    system against the current parameters. *)
Definition vkey_checked s (keyBytes : string) (proofSystem : Z) : Prop :=
  ∃ gas params, ZkGetParams s = Ok params ∧ ensureVKeySize params (slen keyBytes) = Ok gas ∧
  ValidateVKeyForProofSystem keyBytes (MaxVkeySizeBytes params) (default_proof_system proofSystem) = Ok tt.

(** [AddVKey] is all or nothing: on success the name was free, the id is the next
    of the sequence, the checked key is stored under it and indexed by its name;
    on any failure the registry is untouched. *)
Lemma AddVKey_effect auth name keyBytes description ps s s' r :
  AddVKey auth name keyBytes description ps s = (s', r) →
  match r with
  | Ok id =>
      names s !! name = None ∧ id = next_id s ∧ vkey_checked s keyBytes ps ∧
      keys s' = <[id := mkVKey keyBytes name description auth (default_proof_system ps) ""]> (keys s) ∧
      names s' = <[name := id]> (names s) ∧ next_id s' = u64 (next_id s + 1) ∧
      params_of s' = params_of s
  | _ => same_registry s s'
  end.
Proof.
  unfold AddVKey. rewrite get_state_bind, lift_bind, coll_Has_spec by apply coll_keys_ok.
  fold (names s). destruct (names s !! name) as [id0|] eqn:En.
  { rewrite bool_decide_eq_true_2 by eauto. intros [= <- <-]. done. }
  rewrite bool_decide_eq_false_2 by (by intros []). rewrite lift_bind. cbn [fail_if]. rewrite lift_bind.
  destruct (ZkGetParams s) as [params| |] eqn:Ep; [|intros [= <- <-]; done..].
  rewrite lift_bind. destruct (ensureVKeySize _ _) as [gas| |] eqn:Eg; [|intros [= <- <-]; done..].
  rewrite M_bind_step. pose proof (Consume_run gas s) as Hc.
  destruct (Consume gas s) as [s1 [[]| |]]; cbn [fst snd] in *; [|intros [= <- <-]; done..].
  rewrite lift_bind.
  destruct (ValidateVKeyForProofSystem _ _ _) as [[]| |] eqn:Ev; cbn [map_err]; [|intros [= <- <-]; done..].
  destruct Hc as (Hk1&Hn1&Hq1&Hp1).
  destruct (NextVKeyID_Next_run s1) as (s2&E2&Hk2&Hn2&Hq2&Hp2).
  rewrite M_bind_step, E2. cbn [fst snd map_err].
  destruct (VKeys_Set_run (next_id s1)
    (mkVKey keyBytes name description auth (default_proof_system ps) "") s2) as (s3&E3&Hk3&Hn3&Hq3&Hp3).
  rewrite M_bind_step, E3. cbn [fst snd].
  destruct (VKeyNameIndex_Set_run name (next_id s1) s3) as (s4&E4&Hk4&Hn4&Hq4&Hp4).
  rewrite M_bind_step, E4. cbn [fst snd]. intros [= <- <-].
  split_and!; [done|congruence| |congruence..]. exists gas, params. done.
Qed.

(** [UpdateVKey] rewrites a key only for its authority and keeps its id, its name
    and its authority. *)
Lemma UpdateVKey_effect auth name keyBytes description ps s s' r :
  UpdateVKey authority auth name keyBytes description ps s = (s', r) →
  match r with
  | Ok _ => ∃ id v, names s !! name = Some id ∧ keys s !! id = Some v ∧
      effective_authority v = auth ∧ vkey_checked s keyBytes ps ∧
      keys s' = <[id := mkVKey keyBytes name description auth (default_proof_system ps) ""]> (keys s) ∧
      names s' = names s ∧ next_id s' = next_id s ∧ params_of s' = params_of s
  | _ => same_registry s s'
  end.
Proof.
  unfold UpdateVKey. rewrite get_state_bind, lift_bind.
  destruct (owned_vkey authority s auth name) as [[id a]| |] eqn:Eo; [|intros [= <- <-]; done..].
  apply owned_vkey_Ok in Eo as (v&En&Ek&Ea&->). rewrite lift_bind.
  destruct (ZkGetParams s) as [params| |] eqn:Ep; [|intros [= <- <-]; done..].
  rewrite lift_bind. destruct (ensureVKeySize _ _) as [gas| |] eqn:Eg; [|intros [= <- <-]; done..].
  rewrite M_bind_step. pose proof (Consume_run gas s) as Hc.
  destruct (Consume gas s) as [s1 [[]| |]]; cbn [fst snd] in *; [|intros [= <- <-]; done..].
  rewrite lift_bind. destruct (ValidateVKeyForProofSystem _ _ _) as [[]| |] eqn:Ev;
    cbn [map_err]; [|intros [= <- <-]; done..].
  destruct Hc as (Hk1&Hn1&Hq1&Hp1).
  edestruct VKeys_Set_run as (s2&E2&Hk2&Hn2&Hq2&Hp2). rewrite E2. intros [= <- <-].
  exists id, v. split_and!; [done..| |congruence|congruence|congruence|congruence].
  exists gas, params. done.
Qed.

(** [RemoveVKey] deletes the key and its name, for its authority only. *)
Lemma RemoveVKey_effect auth name s s' r :
  RemoveVKey authority auth name s = (s', r) →
  match r with
  | Ok _ => ∃ id v, names s !! name = Some id ∧ keys s !! id = Some v ∧
      effective_authority v = auth ∧ keys s' = delete id (keys s) ∧
      names s' = delete name (names s) ∧ next_id s' = next_id s ∧ params_of s' = params_of s
  | _ => same_registry s s'
  end.
Proof.
  unfold RemoveVKey. rewrite get_state_bind, lift_bind.
  destruct (owned_vkey authority s auth name) as [[id a]| |] eqn:Eo; [|intros [= <- <-]; done..].
  apply owned_vkey_Ok in Eo as (v&En&Ek&Ea&->).
  destruct (VKeys_Remove_run id s) as (s1&E1&Hk1&Hn1&Hq1&Hp1).
  destruct (VKeyNameIndex_Remove_run name s1) as (s2&E2&Hk2&Hn2&Hq2&Hp2).
  rewrite M_bind_step, E1. cbn [fst snd]. rewrite E2. intros [= <- <-].
  exists id, v. split_and!; try done; congruence.
Qed.

(** Parameters that pass validation once backfilled replace the old ones. *)
Lemma ZkSetParams_effect p s s' r :
  ZkSetParams p s = (s', r) →
  match r with
  | Ok _ => ZkParams_Validate (WithMaxLimitDefaults p) = Ok tt ∧ keys s' = keys s ∧
      names s' = names s ∧ next_id s' = next_id s ∧ params_of s' = Some (WithMaxLimitDefaults p)
  | _ => same_registry s s'
  end.
Proof.
  unfold ZkSetParams. rewrite lift_bind.
  destruct (ZkParams_Validate _) as [[]| |]; [|intros [= <- <-]; done..].
  destruct (Params_Set_run (WithMaxLimitDefaults p) s) as (s1&E1&Hs1). rewrite E1.
  by intros [= <- <-].
Qed.

(** *** The invariant of the registry *)

(** A name is indexed to an id exactly when the key with that id has that name;
    ids in use are below the next id; the parameters in force are valid. *)
Definition zk_inv s : Prop :=
  (∀ name id, names s !! name = Some id ↔ ∃ v, keys s !! id = Some v ∧ vkey_Name v = name) ∧
  (∀ id v, keys s !! id = Some v → id < next_id s) ∧
  0 ≤ next_id s ∧
  ZkParams_Validate (from_option WithMaxLimitDefaults ZkDefaultParams (params_of s)) = Ok tt.

Lemma zk_inv_same s s' : same_registry s s' → zk_inv s → zk_inv s'.
Proof. unfold zk_inv. intros (->&->&->&->). done. Qed.

(** Adding a key under a fresh name and the next id. *)
Lemma zk_inv_insert s s' id v :
  zk_inv s → names s !! vkey_Name v = None → keys s !! id = None →
  keys s' = <[id := v]> (keys s) → names s' = <[vkey_Name v := id]> (names s) →
  id < next_id s' → next_id s ≤ next_id s' → params_of s' = params_of s → zk_inv s'.
Proof.
  intros (Hi&Hlt&Hpos&Hpv) Hfree Hid Hk Hn Hnx Hle Hp'. unfold zk_inv. rewrite Hk, Hn, Hp'.
  split_and!; [|intros id' w|lia|done].
  - intros name id'. destruct (decide (name = vkey_Name v)) as [->|Hne].
    + rewrite lookup_insert_eq. split.
      * intros [= <-]. exists v. by rewrite lookup_insert_eq.
      * intros (w&Hw&Ew). destruct (decide (id = id')) as [<-|Hd]; [done|].
        rewrite lookup_insert_ne in Hw by done.
        assert (names s !! vkey_Name v = Some id') as Hs by (apply Hi; eauto). congruence.
    + rewrite lookup_insert_ne by done. rewrite Hi. destruct (decide (id = id')) as [<-|Hd].
      * rewrite lookup_insert_eq, Hid. naive_solver.
      * by rewrite lookup_insert_ne.
  - destruct (decide (id = id')) as [<-|Hd]; [lia|]. rewrite lookup_insert_ne by done.
    intros Hw. specialize (Hlt id' w Hw). lia.
Qed.

(** Replacing a key by one of the same name. *)
Lemma zk_inv_update s s' id v w :
  zk_inv s → keys s !! id = Some v → vkey_Name w = vkey_Name v →
  keys s' = <[id := w]> (keys s) → names s' = names s → next_id s' = next_id s →
  params_of s' = params_of s → zk_inv s'.
Proof.
  intros (Hi&Hlt&Hpos&Hpv) Hid En Hk Hn Hnx Hp'. unfold zk_inv. rewrite Hk, Hn, Hnx, Hp'.
  split_and!; [|intros id' x|lia|done].
  - intros name id'. rewrite Hi. destruct (decide (id = id')) as [<-|Hd].
    + rewrite lookup_insert_eq, Hid. naive_solver.
    + by rewrite lookup_insert_ne.
  - destruct (decide (id = id')) as [<-|Hd]; [intros; by eapply Hlt|].
    rewrite lookup_insert_ne by done. apply Hlt.
Qed.

Lemma zk_inv_delete s s' id v :
  zk_inv s → keys s !! id = Some v →
  keys s' = delete id (keys s) → names s' = delete (vkey_Name v) (names s) →
  next_id s' = next_id s → params_of s' = params_of s → zk_inv s'.
Proof.
  intros (Hi&Hlt&Hpos&Hpv) Hid Hk Hn Hnx Hp'. unfold zk_inv. rewrite Hk, Hn, Hnx, Hp'.
  split_and!; [|intros id' x Hx|lia|done].
  - intros name id'. destruct (decide (name = vkey_Name v)) as [->|Hne].
    + rewrite lookup_delete_eq. split; [done|]. intros (w&Hw&Ew).
      apply lookup_delete_Some in Hw as [Hd Hw].
      assert (names s !! vkey_Name v = Some id') by (apply Hi; eauto).
      assert (names s !! vkey_Name v = Some id) by (apply Hi; eauto). congruence.
    + rewrite lookup_delete_ne by done. rewrite Hi. destruct (decide (id = id')) as [<-|Hd].
      * rewrite lookup_delete_eq, Hid. naive_solver.
      * by rewrite lookup_delete_ne.
  - apply lookup_delete_Some in Hx as [_ Hx]. by eapply Hlt.
Qed.

(** *** Messages *)
Inductive ZkMsg :=
| ZkAdd (msg : MsgAddVKey)
| ZkUpdate (msg : MsgAddVKey)
| ZkRemove (msg : MsgRemoveVKey)
| ZkUpdateParams (msg : MsgZkUpdateParams).

Definition zk_handle (m : ZkMsg) : M St unit :=
  match m with
  | ZkAdd msg => _ ← zk_AddVKey msg; mret tt
  | ZkUpdate msg => zk_UpdateVKey authority msg
  | ZkRemove msg => zk_RemoveVKey authority msg
  | ZkUpdateParams msg => zk_UpdateParams authority msg
  end.

Definition zk_signer (m : ZkMsg) : string :=
  match m with
  | ZkAdd msg | ZkUpdate msg => av_Authority msg
  | ZkRemove msg => rv_Authority msg
  | ZkUpdateParams msg => up_Authority msg
  end.

(** The four ways a message can change the registry. *)
Inductive zk_effect (m : ZkMsg) s s' : Prop :=
| effect_none : same_registry s s' → zk_effect m s s'
| effect_add v :
    vkey_Authority v = zk_signer m → names s !! vkey_Name v = None →
    keys s' = <[next_id s := v]> (keys s) → names s' = <[vkey_Name v := next_id s]> (names s) →
    next_id s' = u64 (next_id s + 1) → params_of s' = params_of s → zk_effect m s s'
| effect_update id v w :
    names s !! vkey_Name w = Some id → keys s !! id = Some v →
    effective_authority v = zk_signer m → vkey_Authority w = zk_signer m →
    keys s' = <[id := w]> (keys s) → names s' = names s → next_id s' = next_id s →
    params_of s' = params_of s → zk_effect m s s'
| effect_remove id v name :
    names s !! name = Some id → keys s !! id = Some v → effective_authority v = zk_signer m →
    keys s' = delete id (keys s) → names s' = delete name (names s) → next_id s' = next_id s →
    params_of s' = params_of s → zk_effect m s s'
| effect_params p :
    zk_signer m = authority → ZkParams_Validate (WithMaxLimitDefaults p) = Ok tt →
    keys s' = keys s → names s' = names s → next_id s' = next_id s →
    params_of s' = Some (WithMaxLimitDefaults p) → zk_effect m s s'.

Lemma zk_add_effect msg s : zk_effect (ZkAdd msg) s (zk_handle (ZkAdd msg) s).1.
Proof.
  cbn [zk_handle]. unfold zk_AddVKey. rewrite M_bind_step, lift_bind.
  destruct (MsgAddVKey_ValidateBasic msg); [|by apply effect_none..].
  destruct (AddVKey _ _ _ _ _ _) as [s1 r] eqn:E. apply AddVKey_effect in E.
  destruct r as [id| |]; cbn [fst snd mret M_ret]; [|by apply effect_none..].
  destruct E as (?&->&_&?&?&?&?). by eapply effect_add; eauto.
Qed.

Lemma zk_update_effect msg s : zk_effect (ZkUpdate msg) s (zk_handle (ZkUpdate msg) s).1.
Proof.
  cbn [zk_handle]. unfold zk_UpdateVKey. rewrite lift_bind.
  destruct (MsgUpdateVKey_ValidateBasic msg); [|by apply effect_none..].
  destruct (UpdateVKey _ _ _ _ _ _ _) as [s1 r] eqn:E. apply UpdateVKey_effect in E.
  destruct r as [u| |]; cbn [fst]; [|by apply effect_none..].
  destruct E as (id&v&?&?&?&_&?&?&?&?).
  by eapply (effect_update _ _ _ id v (mkVKey (av_VkeyBytes msg) (av_Name msg) (av_Description msg)
    (av_Authority msg) (default_proof_system (av_ProofSystem msg)) "")).
Qed.

Lemma zk_remove_effect msg s : zk_effect (ZkRemove msg) s (zk_handle (ZkRemove msg) s).1.
Proof.
  cbn [zk_handle]. unfold zk_RemoveVKey.
  destruct (RemoveVKey _ _ _ _) as [s1 r] eqn:E. apply RemoveVKey_effect in E.
  destruct r as [u| |]; cbn [fst]; [|by apply effect_none..].
  destruct E as (id&v&?&?&?&?&?&?&?). eapply effect_remove; eauto.
Qed.

Lemma zk_params_effect msg s : zk_effect (ZkUpdateParams msg) s (zk_handle (ZkUpdateParams msg) s).1.
Proof.
  cbn [zk_handle]. unfold zk_UpdateParams. rewrite lift_bind.
  case_bool_decide; cbn [negb fail_if]; [|by apply effect_none].
  destruct (ZkSetParams _ _) as [s1 r] eqn:E. apply ZkSetParams_effect in E.
  destruct r as [u| |]; cbn [fst]; [|by apply effect_none..].
  destruct E as (?&?&?&?&?). eapply effect_params; eauto.
Qed.

Lemma zk_handle_effect m s : zk_effect m s (zk_handle m s).1.
Proof.
  destruct m; [apply zk_add_effect|apply zk_update_effect|apply zk_remove_effect|apply zk_params_effect].
Qed.

Lemma zk_inv_effect m s s' :
  zk_inv s → next_id s < 2 ^ 64 - 1 → zk_effect m s s' → zk_inv s'.
Proof.
  intros Hinv Hb He. pose proof Hinv as (Hi&Hlt&Hpos&Hpv).
  destruct He as [Hs|v Ha Hf Hk Hn Hx Hp|id v w Hn' Hv Ha Ha' Hk Hn Hx Hp
                 |id v name Hn' Hv Ha Hk Hn Hx Hp|p Ha Hpp Hk Hn Hx Hp].
  - by eapply zk_inv_same.
  - rewrite u64_small in Hx by (unfold is_u64; lia).
    eapply (zk_inv_insert s s' (next_id s) v); try done; try lia.
    destruct (keys s !! next_id s) eqn:E; [|done]. apply Hlt in E. lia.
  - apply Hi in Hn' as (v'&Hv'&En). simplify_eq. by eapply zk_inv_update.
  - apply Hi in Hn' as (v'&Hv'&<-). simplify_eq. by eapply zk_inv_delete.
  - unfold zk_inv. rewrite Hk, Hn, Hx, Hp. cbn. by rewrite WithMaxLimitDefaults_idem.
Qed.

(** *** Histories of messages *)

(** The ids that a message hands out: the answer of a successful [AddVKey]. *)
Definition zk_issued (m : ZkMsg) s : list Z :=
  match m with
  | ZkAdd msg => match (zk_AddVKey msg s).2 with Ok id => [id] | _ => [] end
  | _ => []
  end.

(** The state after a list of messages, successful or not, and all the ids that
    were handed out on the way, in order. *)
Fixpoint zk_run (ms : list ZkMsg) s : St * list Z :=
  match ms with
  | [] => (s, [])
  | m :: ms => let '(s', ids) := zk_run ms (zk_handle m s).1 in (s', zk_issued m s ++ ids)
  end.

Lemma zk_effect_next m s s' :
  0 ≤ next_id s → next_id s < 2 ^ 64 - 1 → zk_effect m s s' → next_id s ≤ next_id s' ≤ next_id s + 1.
Proof.
  intros Hpos Hb [(_&_&->&_)|v _ _ _ _ Hx _|id v w _ _ _ _ _ _ Hx _|id v name _ _ _ _ _ Hx _|p _ _ _ _ Hx _];
    rewrite ?Hx, ?u64_small by (unfold is_u64; lia); lia.
Qed.

(** An id is handed out at most once per message: the next one, which the
    sequence then leaves behind. *)
Lemma zk_issued_spec m s :
  zk_issued m s = [] ∨ zk_issued m s = [next_id s] ∧ next_id (zk_handle m s).1 = u64 (next_id s + 1).
Proof.
  destruct m as [msg|msg|msg|msg]; [|by left..]. cbn [zk_issued zk_handle].
  rewrite M_bind_step. destruct (zk_AddVKey msg s) as [s1 r] eqn:E. cbn [fst snd].
  destruct r as [id| |]; [|by left..]. right. unfold zk_AddVKey in E.
  apply M_bind_Ok in E as (s2&u&Hl&E). apply lift_Ok in Hl as [-> _].
  apply AddVKey_effect in E as (_&->&_&_&_&Hx&_). done.
Qed.

Lemma zk_run_inv ms s0 s ids :
  zk_inv s0 → next_id s0 + llen ms < 2 ^ 64 → zk_run ms s0 = (s, ids) →
  zk_inv s ∧ StronglySorted Z.lt ids ∧ next_id s0 ≤ next_id s ∧
  Forall (λ id, next_id s0 ≤ id < next_id s) ids.
Proof.
  revert s0 s ids. induction ms as [|m ms IH]; intros s0 s ids Hinv Hb E; cbn [zk_run] in E.
  { injection E as <- <-. split_and!; [done|constructor|lia|constructor]. }
  destruct (zk_run ms _) as [s1 ids1] eqn:E1. injection E as <- <-.
  rewrite llen_cons in Hb. pose proof (llen_nonneg ms). pose proof Hinv as (_&_&Hpos&_).
  pose proof (zk_handle_effect m s0) as He.
  pose proof (zk_effect_next m s0 _ Hpos ltac:(lia) He) as Hn.
  apply IH in E1 as (Hi&Hs&Hle&Hf); [|eapply zk_inv_effect; [exact Hinv|lia|exact He]|lia].
  destruct (zk_issued_spec m s0) as [->|[-> Hx]]; cbn [app].
  - split_and!; [done|done|lia|]. eapply Forall_impl; [exact Hf|]. cbn. lia.
  - rewrite u64_small in Hx by (unfold is_u64; lia). rewrite Hx in *.
    split_and!; [done| |lia|].
    + constructor; [done|]. eapply Forall_impl; [exact Hf|]. cbn. lia.
    + constructor; [lia|]. eapply Forall_impl; [exact Hf|]. cbn. lia.
Qed.

Lemma name_lookup s name v :
  zk_inv s → GetVKeyByName s name = Ok v ↔
  ∃ id, names s !! name = Some id ∧ keys s !! id = Some v ∧ vkey_Name v = name.
Proof.
  intros (Hi&_). rewrite GetVKeyByName_run. destruct (names s !! name) as [id|] eqn:En; cbn; [|naive_solver].
  rewrite GetVKeyByID_run, or_fail_Ok. pose proof (proj1 (Hi name id) En) as (w&Hw&?). naive_solver.
Qed.

(** C5. A key can be looked up by name unchanged after any message, unless the
    message is signed by the authority of that very key. *)
Theorem zk_vkey_authorized m s name v :
  zk_inv s → GetVKeyByName s name = Ok v →
  GetVKeyByName (zk_handle m s).1 name ≠ Ok v → zk_signer m = effective_authority v.
Proof.
  intros Hinv Hget Hne. pose proof Hinv as (Hi&Hlt&Hpos&Hpv).
  pose proof (proj1 (name_lookup s name v Hinv) Hget) as (id&Hn&Hk&Ename).
  rewrite GetVKeyByName_run, Hn in Hget.
  destruct (zk_handle_effect m s) as [(Ek&En&_)|w Ha Hf Ek En _ _|id' v' w Hn' Hv' Ha _ Ek En _ _
                 |id' v' name' Hn' Hv' Ha Ek En _ _|p Ha _ Ek En _ _];
    rewrite GetVKeyByName_run, En in Hne.
  - rewrite Hn in Hne. cbn in Hne. rewrite GetVKeyByID_run, Ek, Hk in Hne. done.
  - rewrite lookup_insert_ne, Hn in Hne by congruence. cbn in Hne.
    rewrite GetVKeyByID_run, Ek, lookup_insert_ne, Hk in Hne; [done|]. apply Hlt in Hk. lia.
  - rewrite Hn in Hne. cbn in Hne. rewrite GetVKeyByID_run, Ek in Hne.
    destruct (decide (id' = id)) as [->|]; [by simplify_eq|].
    by rewrite lookup_insert_ne, Hk in Hne.
  - destruct (decide (name' = name)) as [->|]; [by simplify_eq|].
    rewrite lookup_delete_ne, Hn in Hne by done. cbn in Hne.
    rewrite GetVKeyByID_run, Ek in Hne. destruct (decide (id' = id)) as [->|].
    + apply Hi in Hn' as (v2&Hv2&?). congruence.
    + by rewrite lookup_delete_ne, Hk in Hne.
  - rewrite Hn in Hne. cbn in Hne. rewrite GetVKeyByID_run, Ek, Hk in Hne. done.
Qed.

(** A key added by a message is found under its name and under the returned
    id with the bytes, the signer and the proof system of the message, it has
    passed the validator of that proof system, and every other lookup is as
    before. *)
Theorem zk_AddVKey_lookup msg s s' id :
  zk_inv s → zk_AddVKey msg s = (s', Ok id) →
  let v := mkVKey (av_VkeyBytes msg) (av_Name msg) (av_Description msg) (av_Authority msg)
             (default_proof_system (av_ProofSystem msg)) "" in
  GetVKeyByName s' (av_Name msg) = Ok v ∧ GetVKeyByID s' id = Ok v ∧
  vkey_checked s (av_VkeyBytes msg) (av_ProofSystem msg) ∧
  (∀ name, name ≠ av_Name msg → GetVKeyByName s' name = GetVKeyByName s name) ∧
  (∀ i, i ≠ id → GetVKeyByID s' i = GetVKeyByID s i).
Proof.
  intros (Hi&Hlt&_) Hadd. unfold zk_AddVKey in Hadd. apply M_bind_Ok in Hadd as (s1&u&Hl&Hadd).
  apply lift_Ok in Hl as [-> _]. apply AddVKey_effect in Hadd as (Hf&->&Hc&Ek&En&_&_). cbv zeta.
  assert (∀ st name, GetVKeyByName st name = or_fail (names st !! name ≫= λ i, keys st !! i) ErrVKeyNotFound)
    as Hget.
  { intros st name. rewrite GetVKeyByName_run. destruct (names st !! name); [|done]. apply GetVKeyByID_run. }
  split_and!; [..|intros name Hne|intros i Hne]; rewrite ?Hget, ?GetVKeyByID_run, ?Ek, ?En.
  - rewrite lookup_insert_eq. cbn. by rewrite lookup_insert_eq.
  - by rewrite lookup_insert_eq.
  - done.
  - rewrite lookup_insert_ne by done. destruct (names s !! name) as [i|] eqn:E; [|done]. cbn.
    apply Hi in E as (w&Hw&_). apply Hlt in Hw. by rewrite lookup_insert_ne by lia.
  - by rewrite lookup_insert_ne.
Qed.

(** *** Genesis *)

Definition with_authority (v : VKey) : VKey :=
  mkVKey (vkey_KeyBytes v) (vkey_Name v) (vkey_Description v) (effective_authority v) (vkey_ProofSystem v) (vkey_CircuitHash v).

Definition bump (n id : Z) : Z := if n <=? id then u64 (id + 1) else n.

Lemma with_authority_import w :
  (if decide (vkey_Authority w = "")
   then mkVKey (vkey_KeyBytes w) (vkey_Name w) (vkey_Description w) authority (vkey_ProofSystem w) (vkey_CircuitHash w)
   else w) = with_authority w.
Proof. unfold with_authority, effective_authority. destruct w; cbn. by case_decide. Qed.

Lemma import_vkey_run p v s :
  ValidateVKeyBytes (vkey_KeyBytes (vi_Vkey v)) (MaxVkeySizeBytes p) = Ok tt →
  ∃ s', import_vkey authority p v s = (s', Ok tt) ∧
    keys s' = <[vi_Id v := with_authority (vi_Vkey v)]> (keys s) ∧
    names s' = <[vkey_Name (vi_Vkey v) := vi_Id v]> (names s) ∧
    next_id s' = bump (next_id s) (vi_Id v) ∧ params_of s' = params_of s.
Proof.
  intros Hv. unfold import_vkey. rewrite Hv, lift_bind. cbn [or_panic]. rewrite with_authority_import.
  destruct (VKeys_Set_run (vi_Id v) (with_authority (vi_Vkey v)) s) as (s1&E1&Hk1&Hn1&Hq1&Hp1).
  rewrite M_bind_step, (must_run _ _ _ _ E1). cbn [fst snd].
  destruct (VKeyNameIndex_Set_run (vkey_Name (vi_Vkey v)) (vi_Id v) s1) as (s2&E2&Hk2&Hn2&Hq2&Hp2).
  rewrite M_bind_step. cbn [with_authority vkey_Name]. rewrite (must_run _ _ _ _ E2). cbn [fst snd].
  rewrite get_state_bind, lift_bind, seq_Peek_spec. cbn [or_panic]. fold (next_id s2).
  unfold bump. rewrite <- Hq1, <- Hq2. destruct (next_id s2 <=? vi_Id v).
  - destruct (NextVKeyID_Set_run (u64 (vi_Id v + 1)) s2) as (s3&E3&Hk3&Hn3&Hq3&Hp3).
    exists s3. rewrite (must_run _ _ _ _ E3). split_and!; congruence.
  - exists s2. split_and!; try congruence. done.
Qed.

Lemma import_vkey_panics p v s :
  ValidateVKeyBytes (vkey_KeyBytes (vi_Vkey v)) (MaxVkeySizeBytes p) ≠ Ok tt →
  import_vkey authority p v s = (s, Panic).
Proof.
  intros Hv. unfold import_vkey. rewrite lift_bind.
  by destruct (ValidateVKeyBytes _ _) as [[]| |].
Qed.

Lemma import_all_run p l s :
  Forall (λ v, ValidateVKeyBytes (vkey_KeyBytes (vi_Vkey v)) (MaxVkeySizeBytes p) = Ok tt) l →
  ∃ s', for_each (import_vkey authority p) l s = (s', Ok tt) ∧
    keys s' = foldl (λ m v, <[vi_Id v := with_authority (vi_Vkey v)]> m) (keys s) l ∧
    names s' = foldl (λ m v, <[vkey_Name (vi_Vkey v) := vi_Id v]> m) (names s) l ∧
    next_id s' = foldl (λ n v, bump n (vi_Id v)) (next_id s) l ∧ params_of s' = params_of s.
Proof.
  intros Hl. revert s. induction Hl as [|v l Hv Hl IH]; intros s; [by exists s|].
  destruct (import_vkey_run p v s Hv) as (s1&E1&Hk1&Hn1&Hq1&Hp1).
  destruct (IH s1) as (s2&E2&Hk2&Hn2&Hq2&Hp2).
  exists s2. cbn [for_each foldl]. rewrite M_bind_step, E1. cbn [fst snd].
  rewrite Hk1 in Hk2. rewrite Hn1 in Hn2. rewrite Hq1 in Hq2. split_and!; congruence.
Qed.

Lemma export_vkey_run s acc v :
  export_vkey s acc v =
  (id ← or_panic (or_fail (names s !! vkey_Name v) ErrNotFound); Ok (acc ++ [mkVKeyWithID id v])).
Proof. unfold export_vkey. by rewrite coll_Get_spec by apply coll_keys_ok. Qed.

(** A key that the name index does not know stops the export. *)
Lemma export_loop_panics s l v acc :
  v ∈ l → names s !! vkey_Name v = None → fold_outcome (export_vkey s) acc l = Panic.
Proof.
  intros Hin Hn. revert acc. induction Hin as [v l|v w l Hin IH]; intros acc;
    cbn [fold_outcome]; rewrite export_vkey_run.
  - by rewrite Hn.
  - destruct (names s !! vkey_Name w); cbn [or_fail or_panic]; [|done]. rewrite !bind_Ok_l. by apply IH.
Qed.

(** The genesis file of a state: every key under its own id. *)
Lemma export_loop s l acc :
  zk_inv s → (∀ id v, (id, v) ∈ l → keys s !! id = Some v) →
  fold_outcome (export_vkey s) acc (map snd l) = Ok (acc ++ ((λ x, mkVKeyWithID x.1 x.2) <$> l)).
Proof.
  intros Hinv. revert acc. induction l as [|[id v] l IH]; intros acc Hl; cbn [fold_outcome map].
  { by rewrite app_nil_r. }
  assert (names s !! vkey_Name v = Some id) as Hn.
  { apply Hinv. exists v. split; [apply Hl; by left|done]. }
  cbn [snd]. rewrite export_vkey_run, Hn. cbn [or_fail or_panic]. rewrite !bind_Ok_l, IH.
  - by rewrite <- app_assoc.
  - intros i w Hw. apply Hl. by right.
Qed.

Lemma export_run s :
  zk_inv s → ∃ l, l ≡ₚ map_to_list (keys s) ∧
    zk_ExportGenesis s = Ok (mkZkGenesis ((λ x, mkVKeyWithID x.1 x.2) <$> l)
                               (from_option WithMaxLimitDefaults ZkDefaultParams (params_of s))).
Proof.
  intros Hinv. destruct (coll_Entries_spec (z_VKeys s)) as (l&El&Hl). fold (keys s) in Hl.
  exists l. split; [done|]. unfold zk_ExportGenesis, ListVKeys. rewrite El. cbn [fmap outcome_fmap or_panic].
  rewrite bind_Ok_l, ZkGetParams_run. cbn [or_panic]. rewrite bind_Ok_l, export_loop; [done|done|].
  intros id v Hin. rewrite Hl in Hin. by apply elem_of_map_to_list in Hin.
Qed.

Lemma genesis_params_valid gs p :
  zg_Params gs = WithMaxLimitDefaults p → ZkParams_Validate (WithMaxLimitDefaults p) = Ok tt →
  genesis_params gs = WithMaxLimitDefaults p.
Proof.
  intros E Hv. unfold genesis_params. rewrite E.
  case_decide as Hz; [rewrite Hz in Hv; done|]. apply WithMaxLimitDefaults_idem.
Qed.

Lemma params_in_force s :
  ∃ p, from_option WithMaxLimitDefaults ZkDefaultParams (params_of s) = WithMaxLimitDefaults p.
Proof. destruct (params_of s) as [p|]; [by exists p|by exists ZkDefaultParams]. Qed.

Lemma zk_InitGenesis_run gs s :
  ZkParams_Validate (genesis_params gs) = Ok tt →
  ∃ s1, zk_InitGenesis authority gs s = for_each (import_vkey authority (genesis_params gs)) (zg_Vkeys gs) s1 ∧
    keys s1 = keys s ∧ names s1 = names s ∧ next_id s1 = next_id s ∧
    params_of s1 = Some (genesis_params gs).
Proof.
  intros Hv. unfold zk_InitGenesis. rewrite lift_bind, Hv. cbn [or_panic].
  destruct (Params_Set_run (genesis_params gs) s) as (s1&E1&Hs1). exists s1.
  rewrite M_bind_step. assert (must (ZkSetParams (genesis_params gs)) s = (s1, Ok tt)) as ->.
  { apply must_run. unfold ZkSetParams. rewrite lift_bind.
    assert (WithMaxLimitDefaults (genesis_params gs) = genesis_params gs) as ->
      by apply WithMaxLimitDefaults_idem. by rewrite Hv. }
  done.
Qed.

Lemma export_keys_back s l :
  l ≡ₚ map_to_list (keys s) → (∀ id v, keys s !! id = Some v → vkey_Authority v ≠ "") →
  foldl (λ m v, <[vi_Id v := with_authority (vi_Vkey v)]> m) ∅ ((λ x, mkVKeyWithID x.1 x.2) <$> l) = keys s.
Proof.
  intros Hl Ha. rewrite foldl_insert_to_list, (right_id_L ∅ (∪)), <- list_fmap_compose.
  assert ((λ x, (vi_Id x, with_authority (vi_Vkey x))) ∘ (λ x, mkVKeyWithID x.1 x.2) <$> l = l) as ->.
  { rewrite <- (list_fmap_id l) at 2. apply list_fmap_ext. intros i [id v] Hi. cbn. f_equal.
    unfold with_authority, effective_authority. rewrite decide_False; [by destruct v|].
    apply (Ha id). apply elem_of_map_to_list. rewrite <- Hl. by eapply list_elem_of_lookup_2. }
  rewrite <- (list_to_map_to_list (keys s)). apply list_to_map_proper.
  - rewrite reverse_Permutation, Hl. apply NoDup_fst_map_to_list.
  - by rewrite reverse_Permutation.
Qed.

Lemma export_names_back s l :
  zk_inv s → l ≡ₚ map_to_list (keys s) →
  foldl (λ m v, <[vkey_Name (vi_Vkey v) := vi_Id v]> m) ∅ ((λ x, mkVKeyWithID x.1 x.2) <$> l) = names s.
Proof.
  intros (Hi&_) Hl. rewrite foldl_insert_to_list, (right_id_L ∅ (∪)), <- list_fmap_compose.
  set (h := (λ x, (vkey_Name (vi_Vkey x), vi_Id x)) ∘ (λ x : Z * VKey, mkVKeyWithID x.1 x.2)).
  assert (NoDup ((h <$> l).*1)) as Hnd.
  { rewrite <- list_fmap_compose. apply (NoDup_fmap_2_strong _ l); [|rewrite Hl; apply NoDup_map_to_list].
    intros [i v] [j w] Hin Hjn E. cbn in E. rewrite Hl in Hin, Hjn.
    apply elem_of_map_to_list in Hin, Hjn.
    assert (names s !! vkey_Name v = Some i) by (apply Hi; eauto).
    assert (names s !! vkey_Name v = Some j) by (apply Hi; eauto). congruence. }
  apply map_eq. intros name. apply option_eq. intros id.
  rewrite <- elem_of_list_to_map by (by rewrite reverse_Permutation).
  rewrite elem_of_reverse, list_elem_of_fmap, Hi. split.
  - intros ([i v]&[= -> ->]&Hin). rewrite Hl in Hin. apply elem_of_map_to_list in Hin. eauto.
  - intros (v&Hv&<-). exists (id, v). split; [done|]. rewrite Hl. by apply elem_of_map_to_list.
Qed.

(** C32. On a state whose name index and key table agree ([zk_inv]),
    [ExportGenesis] returns a file.  If moreover every stored key names its
    authority and passes the Circom validator, importing that file into an empty
    store succeeds and restores every key, every name and the parameters. *)
Theorem zk_genesis_roundtrip s :
  zk_inv s →
  ∃ gs, zk_ExportGenesis s = Ok gs ∧
  ((∀ id v, keys s !! id = Some v → vkey_Authority v ≠ "" ∧
      ∀ p, ZkGetParams s = Ok p → ValidateVKeyBytes (vkey_KeyBytes v) (MaxVkeySizeBytes p) = Ok tt) →
   ∀ s0, keys s0 = ∅ → names s0 = ∅ →
   ∃ s', zk_InitGenesis authority gs s0 = (s', Ok tt) ∧
     keys s' = keys s ∧ names s' = names s ∧ ZkGetParams s' = ZkGetParams s).
Proof.
  intros Hinv. destruct (export_run s Hinv) as (l&Hl&Eg).
  destruct (params_in_force s) as (p&Ep). rewrite Ep in Eg.
  assert (ZkParams_Validate (WithMaxLimitDefaults p) = Ok tt) as Hpv by (rewrite <- Ep; apply Hinv).
  assert (ZkGetParams s = Ok (WithMaxLimitDefaults p)) as Hget by (by rewrite ZkGetParams_run, Ep).
  set (gs := mkZkGenesis _ _) in Eg. exists gs. split; [done|]. intros Hv s0 Hk0 Hn0.
  assert (genesis_params gs = WithMaxLimitDefaults p) as Egp by (by apply genesis_params_valid).
  destruct (zk_InitGenesis_run gs s0) as (s1&E1&Hk1&Hn1&_&Hp1); [by rewrite Egp|].
  destruct (import_all_run (genesis_params gs) (zg_Vkeys gs) s1) as (s2&E2&Hk2&Hn2&_&Hp2).
  { rewrite Egp. cbn [gs zg_Vkeys]. rewrite Forall_fmap. apply Forall_forall. intros [id v] Hin.
    rewrite Hl in Hin. apply elem_of_map_to_list in Hin. by apply (Hv id v Hin). }
  exists s2. split_and!; [by rewrite E1| | |].
  - rewrite Hk2, Hk1, Hk0. apply export_keys_back; [done|]. intros id v Hid. by apply (Hv id).
  - rewrite Hn2, Hn1, Hn0. by apply export_names_back.
  - rewrite Hget, ZkGetParams_run, Hp2, Hp1. cbn. by rewrite Egp, WithMaxLimitDefaults_idem.
Qed.

Lemma import_all_panics p l v s :
  v ∈ l → ValidateVKeyBytes (vkey_KeyBytes (vi_Vkey v)) (MaxVkeySizeBytes p) ≠ Ok tt →
  (for_each (import_vkey authority p) l s).2 = Panic.
Proof.
  intros Hin Hv. revert s. induction Hin as [v l|v w l Hin IH]; intros s; cbn [for_each]; rewrite M_bind_step.
  - by rewrite import_vkey_panics.
  - destruct (decide (ValidateVKeyBytes (vkey_KeyBytes (vi_Vkey w)) (MaxVkeySizeBytes p) = Ok tt)) as [Hw|Hw].
    + destruct (import_vkey_run p w s Hw) as (s1&E1&_). rewrite E1. by apply IH.
    + by rewrite import_vkey_panics.
Qed.

(** C34. The import checks every key with the Circom validator, whatever its
    proof system: a state that holds a key this validator refuses (any accepted
    UltraHonk or gnark key that is not Circom JSON) exports a genesis file on
    which [InitGenesis] panics. *)
Theorem zk_genesis_import_panics s s0 id v :
  zk_inv s → keys s !! id = Some v →
  (∀ p, ZkGetParams s = Ok p → ValidateVKeyBytes (vkey_KeyBytes v) (MaxVkeySizeBytes p) ≠ Ok tt) →
  ∃ gs, zk_ExportGenesis s = Ok gs ∧ (zk_InitGenesis authority gs s0).2 = Panic.
Proof.
  intros Hinv Hid Hv. destruct (export_run s Hinv) as (l&Hl&Eg).
  destruct (params_in_force s) as (p&Ep). rewrite Ep in Eg.
  assert (ZkParams_Validate (WithMaxLimitDefaults p) = Ok tt) as Hpv by (rewrite <- Ep; apply Hinv).
  eexists. split; [exact Eg|]. set (gs := mkZkGenesis _ _) in *.
  assert (genesis_params gs = WithMaxLimitDefaults p) as Egp by (by apply genesis_params_valid).
  destruct (zk_InitGenesis_run gs s0) as (s1&->&_); [by rewrite Egp|].
  apply (import_all_panics _ _ (mkVKeyWithID id v)).
  - cbn [gs zg_Vkeys]. apply list_elem_of_fmap. exists (id, v). split; [done|].
    rewrite Hl. by apply elem_of_map_to_list.
  - rewrite Egp. apply Hv. by rewrite ZkGetParams_run, Ep.
Qed.

(** *** A chain from its genesis file *)

(** [GenesisState.Validate] accepts a list of keys whose ids and names are
    distinct. *)
Lemma genesis_vkeys_distinct p l seen seen' :
  fold_outcome (genesis_vkey_ok p) seen l = Ok seen' →
  NoDup (vi_Id <$> l) ∧ NoDup ((λ v, vkey_Name (vi_Vkey v)) <$> l) ∧
  Forall (λ v, (vi_Id v ∉ seen.1) ∧ (vkey_Name (vi_Vkey v) ∉ seen.2)) l.
Proof.
  revert seen. induction l as [|v l IH]; intros [sI sN] E; cbn [fold_outcome] in E.
  { split_and!; constructor. }
  apply bind_Ok in E as (seen1&E1&E). unfold genesis_vkey_ok in E1.
  rewrite fail_if_bind in E1. destruct E1 as [H1 E1]. rewrite fail_if_bind in E1. destruct E1 as [H2 E1].
  rewrite fail_if_bind in E1. destruct E1 as [_ E1]. rewrite fail_if_bind in E1. destruct E1 as [_ E1].
  apply bind_Ok in E1 as (?&_&[= <-]). apply bool_decide_eq_false in H1, H2.
  apply IH in E as (Hd1&Hd2&Hf). rewrite Forall_forall in Hf. cbn [fst snd] in *. cbn [fmap list_fmap].
  split_and!.
  - constructor; [|done]. rewrite list_elem_of_fmap. intros (w&Ew&Hw). apply Hf in Hw. set_solver.
  - constructor; [|done]. rewrite list_elem_of_fmap. intros (w&Ew&Hw). apply Hf in Hw. set_solver.
  - constructor; [done|]. apply Forall_forall. intros w Hw. apply Hf in Hw. set_solver.
Qed.

(** Importing keys with new ids and new names keeps the invariant. *)
Lemma import_all_inv p l s s' :
  zk_inv s → NoDup (vi_Id <$> l) → NoDup ((λ v, vkey_Name (vi_Vkey v)) <$> l) →
  Forall (λ v, 0 ≤ vi_Id v < 2 ^ 64 - 1 ∧ keys s !! vi_Id v = None ∧ names s !! vkey_Name (vi_Vkey v) = None) l →
  for_each (import_vkey authority p) l s = (s', Ok tt) →
  zk_inv s' ∧ next_id s ≤ next_id s' ∧ Forall (λ v, vi_Id v < next_id s') l.
Proof.
  revert s. induction l as [|v l IH]; intros s Hinv Hd1 Hd2 Hf E.
  { cbn [for_each] in E. injection E as <-. split_and!; [done|lia|constructor]. }
  cbn [for_each] in E. apply M_bind_Ok in E as (s1&[]&E1&E).
  apply Forall_cons in Hf as [(Hid&Hk&Hn) Hf]. cbn [fmap list_fmap] in Hd1, Hd2.
  apply NoDup_cons in Hd1 as [Hn1 Hd1]. apply NoDup_cons in Hd2 as [Hn2 Hd2].
  destruct (decide (ValidateVKeyBytes (vkey_KeyBytes (vi_Vkey v)) (MaxVkeySizeBytes p) = Ok tt)) as [Hv|Hv];
    [|by rewrite import_vkey_panics in E1].
  destruct (import_vkey_run p v s Hv) as (s2&E2&Hk2&Hm2&Hq2&Hp2). rewrite E2 in E1. injection E1 as <-.
  assert (vi_Id v < next_id s2 ∧ next_id s ≤ next_id s2) as [Hlt Hle].
  { rewrite Hq2. unfold bump. destruct (Z.leb_spec (next_id s) (vi_Id v)); [|lia].
    rewrite u64_small by (unfold is_u64; lia). lia. }
  apply IH in E as (Hi&Hle'&Hl); [|by eapply (zk_inv_insert s s2 (vi_Id v) (with_authority (vi_Vkey v)))|done|done|].
  - split_and!; [done|lia|]. constructor; [lia|done].
  - rewrite Forall_forall in Hf |- *. intros w Hw. destruct (Hf w Hw) as (Hb&Hkw&Hnw).
    rewrite Hk2, Hm2. split_and!; [lia|lia|..].
    + rewrite lookup_insert_ne; [done|]. intros Ew. apply Hn1. rewrite Ew. by apply list_elem_of_fmap_2.
    + rewrite lookup_insert_ne; [done|]. intros Ew. apply Hn2. rewrite Ew. apply list_elem_of_fmap. eauto.
Qed.

(** The state that a chain starts from: a validated genesis file, with ids below
    the end of the 64-bit sequence, was imported into an empty store. *)
Definition zk_started (gs : ZkGenesis) s : Prop :=
  ZkGenesis_Validate gs = Ok tt ∧ Forall (λ v, 0 ≤ vi_Id v < 2 ^ 64 - 1) (zg_Vkeys gs) ∧
  ∃ s0, keys s0 = ∅ ∧ names s0 = ∅ ∧ next_id s0 = 0 ∧ zk_InitGenesis authority gs s0 = (s, Ok tt).

Lemma zk_started_inv gs s :
  zk_started gs s → zk_inv s ∧ Forall (λ v, vi_Id v < next_id s) (zg_Vkeys gs).
Proof.
  intros (Hv&Hid&s0&Hk0&Hn0&Hx0&E). unfold ZkGenesis_Validate in Hv.
  rewrite unit_bind in Hv. destruct Hv as [Hp Hv]. apply bind_Ok in Hv as (seen&Hv&_).
  apply genesis_vkeys_distinct in Hv as (Hd1&Hd2&_).
  destruct (zk_InitGenesis_run gs s0 Hp) as (s1&E1&Hk1&Hn1&Hx1&Hp1). rewrite E1 in E.
  rewrite Hk0 in Hk1. rewrite Hn0 in Hn1. rewrite Hx0 in Hx1.
  apply import_all_inv in E as (Hi&_&Hl); [done| |done|done|].
  - unfold zk_inv. rewrite Hk1, Hn1, Hx1, Hp1. cbn [from_option].
    split_and!; [|done|lia|].
    + intros name id. rewrite lookup_empty. split; [done|]. intros (v&Ev&_). by rewrite lookup_empty in Ev.
    + unfold genesis_params in *. by rewrite WithMaxLimitDefaults_idem.
  - eapply Forall_impl; [exact Hid|]. intros v Hb. by rewrite Hk1, Hn1, !lookup_empty.
Qed.

(** C4. A chain starts from a validated genesis file, with ids below 2^64 - 1, and
    handles any list of messages, successful or not, as long as the 64-bit sequence
    does not run out.
    Then the name index and the key table describe each other exactly, ids in use
    are below the next id, and the parameters in force are valid.  The ids handed
    out along the way are strictly increasing and above those of the genesis file:
    no id is ever handed out twice, even after its key was removed. *)
Theorem zk_registry_invariant gs s0 ms s ids :
  zk_started gs s0 → next_id s0 + llen ms < 2 ^ 64 → zk_run ms s0 = (s, ids) →
  zk_inv s ∧ StronglySorted Z.lt ids ∧
  Forall (λ id, id < next_id s ∧ Forall (λ v, vi_Id v < id) (zg_Vkeys gs)) ids.
Proof.
  intros [Hinv Hg]%zk_started_inv Hb E. apply zk_run_inv in E as (Hi&Hs&_&Hf); [|done|done].
  split_and!; [done|done|]. eapply Forall_impl; [exact Hf|]. intros id [Hlo Hhi]. split; [done|].
  eapply Forall_impl; [exact Hg|]. cbn. lia.
Qed.

(** *** Migrations *)

Lemma v2_run s bz :
  json_Marshal_CircomVK vkeyJSON = Ok bz → bz ≠ "" →
  zk_v2_MigrateStore s =
  VKeys_Set 1 (mkVKey bz "Zk Email" "ZK email Vkey for AA + ZK email" "" PROOF_SYSTEM_UNSPECIFIED "") s.
Proof.
  intros Ej Hne. unfold zk_v2_MigrateStore, ZkDefaultGenesisState, CreateDefaultVKeyBytes.
  rewrite Ej, bind_Ok_l, lift_bind. unfold find_vkey_1. cbn [zg_Vkeys list_find].
  rewrite decide_True by done. cbn [vi_Vkey vkey_KeyBytes].
  by rewrite (proj2 (Z.eqb_neq _ _)) by (by apply slen_ne_0).
Qed.

(** Migration 1 to 2 rewrites key 1 without touching the name index: it
    keeps the registry consistent when key 1 is named "Zk Email", and otherwise
    leaves a key that the index does not know, on which [ExportGenesis] panics. *)
Theorem zk_v2_migration s v bz :
  zk_inv s → keys s !! 1 = Some v → json_Marshal_CircomVK vkeyJSON = Ok bz → bz ≠ "" →
  ∃ s', zk_v2_MigrateStore s = (s', Ok tt) ∧
  (vkey_Name v = "Zk Email" → zk_inv s') ∧
  (names s !! "Zk Email" = None → zk_ExportGenesis s' = Panic).
Proof.
  intros Hinv H1 Ej Hne. rewrite (v2_run s bz Ej Hne).
  set (dk := mkVKey bz _ _ _ _ _).
  destruct (VKeys_Set_run 1 dk s) as (s'&E&Hk&Hn&Hx&Hp). exists s'. split; [exact E|]. split.
  - intros En. eapply (zk_inv_update s s' 1 v); [done|done| |exact Hk|done..]. by rewrite En.
  - intros Hnone. unfold zk_ExportGenesis, ListVKeys.
    destruct (coll_Entries_spec (z_VKeys s')) as (l&->&Hl). fold (keys s') in Hl. rewrite Hk in Hl.
    cbn [fmap outcome_fmap or_panic]. rewrite bind_Ok_l, ZkGetParams_run. cbn [or_panic].
    rewrite bind_Ok_l.
    rewrite (export_loop_panics s' _ dk); [done| |by rewrite Hn].
    apply list_elem_of_fmap. exists (1, dk). split; [done|].
    rewrite Hl. apply elem_of_map_to_list, lookup_insert_eq.
Qed.

(** Migration 2 to 3 changes no key and no name, and the parameters the
    keeper reads are the same before and after. *)
Theorem zk_v3_migration s :
  ∃ s', zk_v3_MigrateStore s = (s', Ok tt) ∧ keys s' = keys s ∧ names s' = names s ∧
        next_id s' = next_id s ∧ ZkGetParams s' = ZkGetParams s.
Proof.
  unfold zk_v3_MigrateStore. rewrite item_Get_spec. rewrite (ZkGetParams_run s).
  unfold params_of. destruct (item_contents (z_Params s)) as [p|] eqn:Ep; cbn [or_fail].
  - destruct (v3_updated p) eqn:Eu.
    + destruct (Params_Set_run (v3_backfill p) s) as (s'&E&Hk&Hn&Hx&Hp). exists s'.
      rewrite ZkGetParams_run, Hp. split_and!; try done. cbn.
      unfold WithMaxLimitDefaults, v3_backfill. cbn. by rewrite !or_default_idem.
    + exists s. rewrite ZkGetParams_run. unfold params_of. by rewrite Ep.
  - exists s. rewrite decide_True by done. rewrite ZkGetParams_run. unfold params_of. by rewrite Ep.
Qed.
End registry.

(** ** The theorems at work on concrete states *)
Abbreviation ZkModel := (ZkState (gmap Z VKey) (gmap string Z) Z (option ZkParams) Z).
Definition ex_zk0 : ZkModel := mkZkState ∅ ∅ 1 None 10000000.
Definition ex_zk1 (v : VKey) : ZkModel :=
  mkZkState {[1 := v]} {[vkey_Name v := 1]} 2 None 10000000.

Lemma ex_zk0_inv : zk_inv ex_zk0.
Proof.
  split_and!; [|done|done|reflexivity]. intros name id. unfold names, keys. cbn.
  rewrite lookup_empty. split; [done|]. intros (v&E&_). by rewrite lookup_empty in E.
Qed.

Lemma ex_zk1_inv v : zk_inv (ex_zk1 v).
Proof.
  apply (zk_inv_insert ex_zk0 (ex_zk1 v) 1 v); try done. apply ex_zk0_inv.
Qed.

Definition ex_circom_key : VKey := mkVKey "default" "email" "" "xion1alice" PROOF_SYSTEM_GROTH16 "".
Definition ex_honk_key : VKey := mkVKey "honk key" "honk" "" "xion1alice" PROOF_SYSTEM_ULTRA_HONK_ZK "".
Definition ex_add : MsgAddVKey := mkMsgAddVKey "xion1alice" "email" "default" "" PROOF_SYSTEM_GROTH16.

Definition ex_genesis : ZkGenesis := mkZkGenesis [mkVKeyWithID 1 ex_circom_key] ZkDefaultParams.
Definition ex_zk_fresh : ZkModel := mkZkState ∅ ∅ 0 None 10000000.
Definition ex_add_other : MsgAddVKey := mkMsgAddVKey "xion1bob" "other" "default" "" PROOF_SYSTEM_GROTH16.

Lemma ex_started : zk_started "gov" ex_genesis (zk_InitGenesis "gov" ex_genesis ex_zk_fresh).1.
Proof.
  split_and!; [vm_compute; reflexivity|repeat constructor; done|].
  exists ex_zk_fresh. split_and!; [done..|]. apply run_pair. vm_compute. reflexivity.
Qed.

(** A key is added, removed and added again: its second id is a new one. *)
Definition ex_zk_messages : list ZkMsg :=
  [ZkAdd ex_add_other; ZkRemove (mkMsgRemoveVKey "xion1bob" "other"); ZkAdd ex_add_other].

Lemma zk_registry_invariant_witness :
  let s0 := (zk_InitGenesis "gov" ex_genesis ex_zk_fresh).1 in
  zk_inv (zk_run "gov" ex_zk_messages s0).1 ∧ (zk_run "gov" ex_zk_messages s0).2 = [2; 3].
Proof.
  cbv zeta. split; [|vm_compute; reflexivity].
  eapply (zk_registry_invariant "gov" ex_genesis _ ex_zk_messages);
    [exact ex_started|vm_compute; reflexivity|apply surjective_pairing].
Defined.

Lemma zk_vkey_authorized_witness :
  zk_signer (ZkRemove (mkMsgRemoveVKey "xion1alice" "email")) = effective_authority "gov" ex_circom_key.
Proof.
  apply (zk_vkey_authorized "gov" _ (ex_zk1 ex_circom_key) "email");
    [apply ex_zk1_inv|vm_compute; reflexivity|vm_compute; discriminate].
Defined.

Lemma zk_AddVKey_lookup_witness :
  GetVKeyByName (zk_AddVKey ex_add ex_zk0).1 "email" = Ok ex_circom_key.
Proof.
  pose proof (zk_AddVKey_lookup ex_add ex_zk0 (zk_AddVKey ex_add ex_zk0).1 1 ex_zk0_inv) as E.
  destruct E as [E _]; [apply run_pair; vm_compute; reflexivity|exact E].
Defined.

Lemma zk_genesis_roundtrip_witness :
  ∃ gs s', zk_ExportGenesis (ex_zk1 ex_circom_key) = Ok gs ∧
    zk_InitGenesis "gov" gs ex_zk0 = (s', Ok tt) ∧ keys s' = keys (ex_zk1 ex_circom_key) ∧
    names s' = names (ex_zk1 ex_circom_key) ∧ ZkGetParams s' = ZkGetParams (ex_zk1 ex_circom_key).
Proof.
  destruct (zk_genesis_roundtrip "gov" (ex_zk1 ex_circom_key)) as (gs&Eg&Hgs); [apply ex_zk1_inv|].
  destruct (Hgs) with (s0 := ex_zk0) as (s'&E&Hs'); [|done|done|exists gs, s'; split; [exact Eg|split; [exact E|exact Hs']]].
  intros id v Hv. unfold keys in Hv. cbn in Hv. apply lookup_singleton_Some in Hv as [<- <-].
  split; [done|]. intros p Hp. vm_compute in Hp. injection Hp as <-. vm_compute. reflexivity.
Defined.

Lemma zk_genesis_import_panics_witness :
  ∃ gs, zk_ExportGenesis (ex_zk1 ex_honk_key) = Ok gs ∧ (zk_InitGenesis "gov" gs ex_zk0).2 = Panic.
Proof.
  apply (zk_genesis_import_panics "gov" (ex_zk1 ex_honk_key) ex_zk0 1 ex_honk_key);
    [apply ex_zk1_inv|done|].
  intros p Hp. vm_compute in Hp. injection Hp as <-. vm_compute. discriminate.
Defined.

Lemma zk_v2_migration_witness :
  ∃ s', zk_v2_MigrateStore (ex_zk1 ex_circom_key) = (s', Ok tt) ∧ zk_ExportGenesis s' = Panic.
Proof.
  destruct (zk_v2_migration (ex_zk1 ex_circom_key) ex_circom_key "default") as (s'&E&_&Hp);
    [apply ex_zk1_inv|done|vm_compute; reflexivity|done|].
  exists s'. split; [done|]. apply Hp. vm_compute. reflexivity.
Defined.
