(* ===== verification/ZkQuery.v ===== *)
(** * x/zk: proof verification and the query server

    Models [Verify] and [VerifyGnark] of x/zk/keeper/keeper.go and
    x/zk/keeper/query_server.go. *)

From S2P Require Import Prelude GoStd Sdk SdkModel ZkTypes ZkDefault ZkKeeper.

Record QueryVerifyRequest := mkQueryVerify {
  qv_Proof : string; qv_PublicInputs : list string; qv_VkeyName : string; qv_VkeyId : Z }.
(** [QueryVerifyUltraHonkRequest] and [QueryVerifyGnarkRequest] *)
Record QueryVerifyBytesRequest := mkQueryVerifyBytes {
  qb_Proof : string; qb_PublicInputs : string; qb_VkeyName : string; qb_VkeyId : Z }.
Record QueryVKeyByNameResponse := mkVKeyByName { vn_Vkey : VKey; vn_Id : Z }.
Record QueryHasVKeyResponse := mkHasVKey { hv_Exists : bool; hv_Id : Z }.

(** [query.CollectionPaginate] of the SDK over the map of keys. *)
Class Paginate (K V C : Type) := {
  PageRequest : Type;
  PageResponse : Type;
  CollectionPaginate {T} : C → PageRequest → (K → V → outcome T) → outcome (list T * PageResponse);
}.

(** The integer that a public input denotes: hexadecimal after [0x] or [0X],
    decimal otherwise. *)
Definition parse_public_input (inp : string) : outcome (option Z) :=
  if HasPrefix inp "0x" || HasPrefix inp "0X" then
    s ← str_from inp 2; Ok (big_SetString s 16)
  else Ok (big_SetString inp 10).

Definition check_public_input (inp : string) : outcome unit :=
  v ← parse_public_input inp;
  match v with
  | Some v => fail_if ((v <? 0) || (bn254ScalarPrime <=? v)) ErrZkInvalidRequest
  | None => Err ErrZkInvalidRequest
  end.

Definition validatePublicInputsInScalarField (inputs : list string) : outcome unit :=
  check_all check_public_input inputs.

(** The size loop of [ProofVerify], in [uint64] arithmetic. *)
Definition add_input_size (publicInputsSize : Z) (inp : string) : outcome Z :=
  let inputSize := u64 (slen inp) in
  _ ← fail_if (u64 (publicInputsSize + inputSize) <? publicInputsSize) ErrPublicInputsTooLarge;
  Ok (u64 (publicInputsSize + inputSize)).

Section queries.
Context `{!ZkCrypto}.
Context {VC NC SQ PI G : Type}.
Context `{!CollMap Z VKey VC, !CollMap string Z NC, !CollSequence SQ, !CollItem ZkParams PI}.
Abbreviation St := (ZkState VC NC SQ PI G).
Implicit Types s : St.

(** ** Verification *)
Definition Keeper_Verify (proof : CircomProof) (vkey : CircomVerificationKey) (inputs : list string) : outcome bool :=
  _ ← check_all check_public_input inputs;
  recovering ErrZkInvalidRequest
    (gnarkProof ← ConvertCircomToGnark vkey proof inputs;
     VerifyProof gnarkProof).

Definition VerifyGnark (proofBytes vkeyBytes publicInputsBytes : string) : outcome bool :=
  recovering ErrZkInvalidRequest
    (vk ← map_err (λ _, ErrInvalidVKey) (gnark_ReadVerifyingKey vkeyBytes);
     proof ← map_err (λ _, ErrZkInvalidRequest) (gnark_ReadProof proofBytes);
     publicWitness ← map_err (λ _, ErrZkInvalidRequest) gnark_NewWitness;
     publicWitness ← map_err (λ _, ErrZkInvalidRequest)
                       (gnark_UnmarshalWitness publicWitness publicInputsBytes);
     match groth16_Verify proof vk publicWitness with
     | Ok _ => Ok true
     | Err _ => Ok false
     | Panic => Panic
     end).

(** ** Queries; a nil request is [None] *)
Definition ProofVerify s (req : option QueryVerifyRequest) : outcome bool :=
  match req with
  | None => Err ErrZkInvalidRequest
  | Some req =>
    _ ← fail_if (slen (qv_Proof req) =? 0) ErrZkInvalidRequest;
    _ ← fail_if (bool_decide (qv_VkeyName req = "") && (qv_VkeyId req =? 0)) ErrZkInvalidRequest;
    params ← ZkGetParams s;
    _ ← fail_if (MaxGroth16ProofSizeBytes params <? u64 (slen (qv_Proof req))) ErrProofTooLarge;
    publicInputsSize ← fold_outcome add_input_size 0 (qv_PublicInputs req);
    _ ← fail_if (MaxGroth16PublicInputSizeBytes params <? publicInputsSize) ErrPublicInputsTooLarge;
    snarkProof ← UnmarshalCircomProofJSON (qv_Proof req);
    snarkVk ←
      (if negb (bool_decide (qv_VkeyName req = "")) then
         map_err (λ _, ErrVKeyNotFound) (GetCircomVKeyByName s (qv_VkeyName req))
       else if negb (qv_VkeyId req =? 0) then
         map_err (λ _, ErrVKeyNotFound) (GetCircomVKeyByID s (qv_VkeyId req))
       else Err ErrZkInvalidRequest);
    _ ← validatePublicInputsInScalarField (qv_PublicInputs req);
    Keeper_Verify snarkProof snarkVk (qv_PublicInputs req)
  end.

(** Resolves a key by name or, without a name, by id. *)
Definition resolve_vkey s (name : string) (id : Z) : outcome VKey :=
  if negb (bool_decide (name = "")) then GetVKeyByName s name
  else if negb (id =? 0) then GetVKeyByID s id
  else Err ErrZkInvalidRequest.

(** [chunks[i] = publicInputs[start : start+FieldElementSize]] for [n] chunks from [i]. *)
Fixpoint cut_chunks (publicInputs : string) (size : Z) (i : Z) (n : nat) : outcome (list string) :=
  match n with
  | O => Ok []
  | S n =>
    c ← str_slice publicInputs (i * size) (i * size + size);
    rest ← cut_chunks publicInputs size (i + 1) n;
    Ok (c :: rest)
  end.

(** The calls into Barretenberg, made under a recover. *)
Definition bb_verify (keyBytes proof : string) (chunks : list string) : outcome bool :=
  recovering (Plain "codes.Internal")
    (vk ← map_err (λ _, ErrInvalidVKey) (bb_ParseVerificationKey keyBytes);
     bproof ← map_err (λ _, ErrZkInvalidRequest) (bb_ParseProof proof);
     verifier ← bb_NewVerifier vk;
     match bb_VerifyWithBytes verifier bproof chunks with
     | Ok verified => Ok verified
     | Err e =>
       if decide (e = bb_ErrVerificationFailed ∨ e = bb_ErrInvalidPublicInputs ∨ e = bb_ErrInternal)
       then Ok false else Err ErrZkInvalidRequest
     | Panic => Panic
     end).

Definition ProofVerifyUltraHonk s (req : option QueryVerifyBytesRequest) : outcome bool :=
  match req with
  | None => Err ErrZkInvalidRequest
  | Some req =>
    _ ← fail_if (slen (qb_Proof req) =? 0) ErrZkInvalidRequest;
    params ← ZkGetParams s;
    _ ← fail_if (MaxUltraHonkProofSizeBytes params <? u64 (slen (qb_Proof req))) ErrProofTooLarge;
    _ ← fail_if (MaxUltraHonkPublicInputSizeBytes params <? u64 (slen (qb_PublicInputs req)))
          ErrPublicInputsTooLarge;
    vkey ← resolve_vkey s (qb_VkeyName req) (qb_VkeyId req);
    _ ← fail_if (negb (vkey_ProofSystem vkey =? PROOF_SYSTEM_ULTRA_HONK_ZK)) ErrZkInvalidRequest;
    let publicInputs := qb_PublicInputs req in
    _ ← fail_if (negb (Z.rem (slen publicInputs) FieldElementSize =? 0)) ErrZkInvalidRequest;
    let numChunks := Z.quot (slen publicInputs) FieldElementSize in
    chunks ← cut_chunks publicInputs FieldElementSize 0 (Z.to_nat numChunks);
    bb_verify (vkey_KeyBytes vkey) (qb_Proof req) chunks
  end.

Definition ProofVerifyGnark s (req : option QueryVerifyBytesRequest) : outcome bool :=
  match req with
  | None => Err ErrZkInvalidRequest
  | Some req =>
    _ ← fail_if (slen (qb_Proof req) =? 0) ErrZkInvalidRequest;
    params ← ZkGetParams s;
    _ ← fail_if (MaxGnarkProofSizeBytes params <? u64 (slen (qb_Proof req))) ErrProofTooLarge;
    _ ← fail_if (MaxGnarkPublicInputSizeBytes params <? u64 (slen (qb_PublicInputs req)))
          ErrPublicInputsTooLarge;
    vkey ← resolve_vkey s (qb_VkeyName req) (qb_VkeyId req);
    _ ← fail_if (negb (vkey_ProofSystem vkey =? PROOF_SYSTEM_GROTH16_GNARK)) ErrZkInvalidRequest;
    VerifyGnark (qb_Proof req) (vkey_KeyBytes vkey) (qb_PublicInputs req)
  end.

Definition Querier_VKey s (req : option Z) : outcome VKey :=
  id ← or_fail req ErrZkInvalidRequest; GetVKeyByID s id.

Definition Querier_VKeyByName s (req : option string) : outcome QueryVKeyByNameResponse :=
  name ← or_fail req ErrZkInvalidRequest;
  _ ← fail_if (bool_decide (name = "")) ErrZkInvalidRequest;
  id ← not_found_as ErrVKeyNotFound (coll_Get (z_VKeyNameIndex s) name);
  vkey ← GetVKeyByID s id;
  Ok (mkVKeyByName vkey id).

Definition Querier_VKeys `{!Paginate Z VKey VC} s (req : option PageRequest)
    : outcome (list VKeyWithID * PageResponse) :=
  pagination ← or_fail req ErrZkInvalidRequest;
  CollectionPaginate (z_VKeys s) pagination (λ id vkey, Ok (mkVKeyWithID id vkey)).

Definition Querier_HasVKey s (req : option string) : outcome QueryHasVKeyResponse :=
  name ← or_fail req ErrZkInvalidRequest;
  _ ← fail_if (bool_decide (name = "")) ErrZkInvalidRequest;
  match coll_Get (z_VKeyNameIndex s) name with
  | Ok id => Ok (mkHasVKey true id)
  | Err e => if decide (e = ErrNotFound) then Ok (mkHasVKey false 0) else Err e
  | Panic => Panic
  end.

Definition Querier_NextVKeyID s (req : option unit) : outcome Z :=
  _ ← or_fail req ErrZkInvalidRequest; seq_Peek (z_NextVKeyID s).

Definition Querier_Params s : outcome ZkParams := ZkGetParams s.
End queries.

(** ** Public inputs are canonical field elements *)

(** The value of an accepted input. *)
Definition input_value (inp : string) : option Z :=
  match parse_public_input inp with Ok v => v | _ => None end.

Lemma bytes_of_prefix p s : String.prefix p s = true → ∃ t, s = p +:+ t.
Proof.
  revert s. induction p as [|a p IH]; intros s; [by exists s|].
  destruct s as [|b s]; [done|]. cbn [String.prefix].
  destruct (Ascii.ascii_dec a b) as [->|]; [|done]. intros [t ->]%IH. by exists t.
Qed.

Lemma has_prefix_len s p : HasPrefix s p = true → slen p ≤ slen s.
Proof.
  intros [t ->]%bytes_of_prefix. rewrite <- !bytes_of_length, bytes_of_app, llen_app.
  pose proof (llen_nonneg (bytes_of t)). lia.
Qed.

Lemma parse_public_input_ok inp : ∃ v, parse_public_input inp = Ok v.
Proof.
  unfold parse_public_input. destruct (HasPrefix inp "0x" || HasPrefix inp "0X") eqn:E; [|eauto].
  assert (2 ≤ slen inp).
  { apply orb_true_iff in E as [E|E]; apply has_prefix_len in E; exact E. }
  unfold str_from. rewrite slice_from_ok by (rewrite bytes_of_length; lia). cbn. eauto.
Qed.

Lemma check_public_input_Ok inp :
  check_public_input inp = Ok tt ↔ ∃ v, input_value inp = Some v ∧ 0 ≤ v < bn254ScalarPrime.
Proof.
  unfold check_public_input, input_value. destruct (parse_public_input_ok inp) as [v ->].
  rewrite bind_Ok_l. destruct v as [v|]; [|naive_solver]. rewrite fail_if_Ok, orb_false_iff.
  rewrite Z.ltb_ge, Z.leb_gt. naive_solver.
Qed.

Lemma check_public_input_no_panic inp : no_panic (check_public_input inp).
Proof.
  unfold check_public_input. destruct (parse_public_input_ok inp) as [v ->]. rewrite bind_Ok_l.
  destruct v; auto with panics.
Qed.
#[export] Hint Resolve check_public_input_no_panic : panics.

(** C16. The verifier sees canonical inputs only: two accepted input lists whose
    entries agree modulo the scalar field prime denote the same integers, so
    [p + x] can never stand in for [x]. *)
Theorem public_inputs_canonical `{Ccr : !ZkCrypto} proof vk ins ins' b b' :
  Keeper_Verify proof vk ins = Ok b → Keeper_Verify proof vk ins' = Ok b' →
  Forall2 (λ i i', ∃ v v', input_value i = Some v ∧ input_value i' = Some v' ∧
                           v mod bn254ScalarPrime = v' mod bn254ScalarPrime) ins ins' →
  Forall (λ i, ∃ v, input_value i = Some v ∧ 0 ≤ v < bn254ScalarPrime) ins ∧
  input_value <$> ins = input_value <$> ins'.
Proof.
  unfold Keeper_Verify. intros [[] [H1 _]]%bind_Ok [[] [H2 _]]%bind_Ok Hmod.
  rewrite check_all_Ok in H1, H2. split.
  { eapply Forall_impl; [exact H1|]. intros i. apply check_public_input_Ok. }
  apply list_eq_Forall2. rewrite Forall2_fmap.
  induction Hmod as [|i i' ins ins' (v&v'&Ev&Ev'&E) _ IH]; [constructor|].
  rewrite Forall_cons, check_public_input_Ok in H1. rewrite Forall_cons, check_public_input_Ok in H2.
  destruct H1 as [(?&?&?) H1], H2 as [(?&?&?) H2]. simplify_eq.
  constructor; [|by apply IH]. rewrite !Z.mod_small in E by done. congruence.
Qed.

(** ** Queries on a store that follows the laws of the collections *)
Section query_laws.
Context `{Ccr : !ZkCrypto}.
Context {VC NC SQ PI G : Type}.
Context `{Cv : !CollMap Z VKey VC, Cvl : !CollMapLaws Z VKey VC, !CollKeysOk Z VKey VC}.
Context `{Cn : !CollMap string Z NC, Cnl : !CollMapLaws string Z NC, !CollKeysOk string Z NC}.
Context `{Cq : !CollSequence SQ, Cql : !CollSequenceLaws SQ}.
Context `{Cp : !CollItem ZkParams PI, Cpl : !CollItemLaws ZkParams PI}.
Abbreviation St := (ZkState VC NC SQ PI G).
Implicit Types s : St.

(** *** Size limits *)
Definition input_bytes (ins : list string) : Z := sumZ slen ins.

Lemma input_bytes_nonneg ins : 0 ≤ input_bytes ins.
Proof. apply sumZ_nonneg. intros. apply slen_nonneg. Qed.

(** The size loop returns the exact total, or reports an overflow. *)
Lemma add_input_sizes ins n0 n :
  is_u64 n0 → Forall (λ i, slen i < 2 ^ 64) ins →
  fold_outcome add_input_size n0 ins = Ok n → n = n0 + input_bytes ins ∧ is_u64 n.
Proof.
  intros Hn0 Hl. revert n0 Hn0. induction Hl as [|i ins Hi Hl IH]; intros n0 Hn0 E; cbn [fold_outcome] in E.
  { injection E as <-. unfold input_bytes. cbn. split; [lia|done]. }
  apply bind_Ok in E as (n1&E1&E). unfold add_input_size in E1. rewrite fail_if_bind in E1.
  destruct E1 as [Hov [= <-]]. pose proof (slen_nonneg i). unfold is_u64 in Hn0.
  rewrite (u64_small (slen i)) in * by (unfold is_u64; lia).
  assert (u64 (n0 + slen i) = n0 + slen i) as Es.
  { apply Z.ltb_ge in Hov. unfold u64 in *. destruct (decide (n0 + slen i < 2 ^ 64)).
    - apply Z.mod_small. lia.
    - replace (n0 + slen i) with (n0 + slen i - 2 ^ 64 + 1 * 2 ^ 64) in Hov by lia.
      rewrite Z.mod_add, Z.mod_small in Hov by lia. lia. }
  rewrite Es in E. apply IH in E as [-> Hu]; [|rewrite <- Es; apply u64_range].
  split; [|done]. unfold input_bytes. cbn [sumZ]. fold (input_bytes ins). lia.
Qed.

Lemma params_limits s p : zk_inv s → ZkGetParams s = Ok p → ZkParams_Validate p = Ok tt.
Proof. intros (_&_&_&Hv) Hp. rewrite ZkGetParams_run in Hp. by injection Hp as <-. Qed.

Lemma Validate_limits p :
  ZkParams_Validate p = Ok tt →
  limit_ok (MaxGroth16ProofSizeBytes p) ∧ limit_ok (MaxGroth16PublicInputSizeBytes p) ∧
  limit_ok (MaxUltraHonkProofSizeBytes p) ∧ limit_ok (MaxUltraHonkPublicInputSizeBytes p) ∧
  limit_ok (MaxGnarkProofSizeBytes p) ∧ limit_ok (MaxGnarkPublicInputSizeBytes p).
Proof.
  unfold ZkParams_Validate.
  rewrite !fail_if_bind, !check_limit_bind, fail_if_bind, check_limit_bind, check_limit_Ok. tauto.
Qed.

(** The size loop does not fail on a total that fits 64 bits. *)
Lemma add_input_sizes_fit ins n0 :
  0 ≤ n0 → n0 + input_bytes ins < 2 ^ 64 → fold_outcome add_input_size n0 ins = Ok (n0 + input_bytes ins).
Proof.
  revert n0. induction ins as [|i ins IH]; intros n0 Hn0 Hb; cbn [fold_outcome].
  { unfold input_bytes. cbn. by rewrite Z.add_0_r. }
  assert (input_bytes (i :: ins) = slen i + input_bytes ins) as Ei by done. rewrite Ei in *.
  pose proof (slen_nonneg i). pose proof (input_bytes_nonneg ins).
  unfold add_input_size. rewrite !(u64_small (slen i)) by (unfold is_u64; lia).
  rewrite !u64_small by (unfold is_u64; lia). rewrite (proj2 (Z.ltb_ge _ _)) by lia. cbn [fail_if].
  rewrite !bind_Ok_l, IH by lia. f_equal. lia.
Qed.

(** [GetCircomVKeyByName] or [GetCircomVKeyByID], as [ProofVerify] chooses. *)
Lemma circom_vkey_Ok s name id vk :
  (if negb (bool_decide (name = "")) then map_err (λ _, ErrVKeyNotFound) (GetCircomVKeyByName s name)
   else if negb (id =? 0) then map_err (λ _, ErrVKeyNotFound) (GetCircomVKeyByID s id)
   else Err ErrZkInvalidRequest) = Ok vk ↔
  ∃ v, resolve_vkey s name id = Ok v ∧ vkey_KeyBytes v ≠ "" ∧
       UnmarshalCircomVerificationKeyJSON (vkey_KeyBytes v) = Ok vk.
Proof.
  unfold resolve_vkey, GetCircomVKeyByName, GetCircomVKeyByID.
  assert (∀ x : outcome VKey, map_err (λ _, ErrVKeyNotFound) (vkey ← x; UnmarshalVKey (Some vkey)) = Ok vk ↔
    ∃ v, x = Ok v ∧ vkey_KeyBytes v ≠ "" ∧ UnmarshalCircomVerificationKeyJSON (vkey_KeyBytes v) = Ok vk) as H.
  { intros x. rewrite map_err_Ok, bind_Ok. f_equiv. intros v. cbn [UnmarshalVKey].
    rewrite fail_if_bind, Z.eqb_neq. split.
    - intros (?&Hne&?). split_and!; [done| |done]. by intros E; rewrite E in Hne.
    - intros (?&Hne&?). split_and!; [done|by apply slen_ne_0|done]. }
  destruct (negb (bool_decide (name = ""))); [apply H|].
  destruct (negb (id =? 0)); [apply H|]. naive_solver.
Qed.

(** C21. [ProofVerify] answers [b] exactly for a non-empty proof of at most
    [MaxGroth16ProofSizeBytes] bytes and public inputs of at most
    [MaxGroth16PublicInputSizeBytes] bytes in total, both the limits of the
    parameters in force (at most 512 KiB), whose inputs are canonical field elements,
    when [b] is the verdict of the Groth16 library for the Circom key stored under the
    requested name or, without a name, id.  Lengths are those of Go strings. *)
Theorem ProofVerify_answers s req b :
  zk_inv s → slen (qv_Proof req) < 2 ^ 64 → Forall (λ i, slen i < 2 ^ 64) (qv_PublicInputs req) →
  ProofVerify s (Some req) = Ok b ↔
  ∃ p v vk proof gp,
    ZkGetParams s = Ok p ∧
    1 ≤ slen (qv_Proof req) ≤ MaxGroth16ProofSizeBytes p ∧ MaxGroth16ProofSizeBytes p ≤ 524288 ∧
    input_bytes (qv_PublicInputs req) ≤ MaxGroth16PublicInputSizeBytes p ∧
    MaxGroth16PublicInputSizeBytes p ≤ 524288 ∧
    Forall (λ i, ∃ v, input_value i = Some v ∧ 0 ≤ v < bn254ScalarPrime) (qv_PublicInputs req) ∧
    resolve_vkey s (qv_VkeyName req) (qv_VkeyId req) = Ok v ∧ vkey_KeyBytes v ≠ "" ∧
    UnmarshalCircomVerificationKeyJSON (vkey_KeyBytes v) = Ok vk ∧
    UnmarshalCircomProofJSON (qv_Proof req) = Ok proof ∧
    ConvertCircomToGnark vk proof (qv_PublicInputs req) = Ok gp ∧ VerifyProof gp = Ok b.
Proof.
  intros Hinv Hl1 Hl2. cbn [ProofVerify]. unfold validatePublicInputsInScalarField, Keeper_Verify.
  pose proof (slen_nonneg (qv_Proof req)). pose proof (input_bytes_nonneg (qv_PublicInputs req)).
  rewrite (u64_small (slen (qv_Proof req))) by (unfold is_u64; lia).
  assert (∀ ins, check_all check_public_input ins = Ok tt ↔
    Forall (λ i, ∃ v, input_value i = Some v ∧ 0 ≤ v < bn254ScalarPrime) ins) as Hcan.
  { intros ins. rewrite check_all_Ok. apply Forall_iff. intros i. apply check_public_input_Ok. }
  rewrite !fail_if_bind. split.
  - intros (Hne&_&E). apply bind_Ok in E as (p&Hp&E). rewrite fail_if_bind in E. destruct E as [Hps E].
    apply bind_Ok in E as (n&Hn&E). rewrite fail_if_bind in E. destruct E as [His E].
    apply bind_Ok in E as (proof&Hproof&E). apply bind_Ok in E as (vk&(v&Hv)%circom_vkey_Ok&E).
    rewrite !unit_bind, recovering_Ok, Hcan in E. destruct E as (Hc&_&E). apply bind_Ok in E as (gp&Hgp&E).
    apply add_input_sizes in Hn as [-> _]; [|done..].
    pose proof (Validate_limits p (params_limits s p Hinv Hp)) as (Hg1&Hg2&_). unfold limit_ok in *.
    apply Z.eqb_neq in Hne. apply Z.ltb_ge in Hps, His.
    exists p, v, vk, proof, gp. destruct Hv as (?&?&?). split_and!; try done; lia.
  - intros (p&v&vk&proof&gp&Hp&Hps&Hm&His&Hm'&Hc&Hv&Hne&Hvk&Hproof&Hgp&E).
    split; [apply Z.eqb_neq; lia|]. split.
    { unfold resolve_vkey in Hv. repeat case_bool_decide; try done. by destruct (qv_VkeyId req =? 0). }
    rewrite Hp, bind_Ok_l, fail_if_bind. split; [apply Z.ltb_ge; lia|].
    rewrite add_input_sizes_fit, bind_Ok_l, fail_if_bind by lia. split; [apply Z.ltb_ge; lia|].
    rewrite Hproof, bind_Ok_l. apply bind_Ok. exists vk. split; [apply circom_vkey_Ok; eauto|].
    rewrite !unit_bind, recovering_Ok, Hcan, Hgp. done.
Qed.

(** *** UltraHonk and gnark *)

Lemma cut_chunks_spec p size i n :
  0 < size → 0 ≤ i → (i + Z.of_nat n) * size ≤ slen p →
  ∃ cs, cut_chunks p size i n = Ok cs ∧ length cs = n ∧ Forall (λ c, slen c = size) cs ∧
    concat (bytes_of <$> cs) = take (n * Z.to_nat size) (drop (Z.to_nat (i * size)) (bytes_of p)).
Proof.
  intros Hsz. revert i. induction n as [|n IH]; intros i Hi Hl; cbn [cut_chunks].
  { exists []. split_and!; try done. }
  destruct (IH (i + 1)) as (cs&E&Hlen&Hf&Hc); [lia|lia|].
  unfold str_slice, slice. rewrite decide_True by (rewrite bytes_of_length; nia).
  cbn [fmap outcome_fmap]. rewrite bind_Ok_l, E, bind_Ok_l. eexists. split; [done|].
  assert (length (bytes_of p) = Z.to_nat (slen p)) as Elen by (rewrite <- bytes_of_length; unfold llen; lia).
  split_and!; [cbn; lia| |].
  - constructor; [|done]. rewrite <- bytes_of_length, bytes_of_of. unfold llen.
    rewrite length_take, length_drop, Elen. nia.
  - cbn [fmap list_fmap concat]. rewrite bytes_of_of, Hc.
    replace (S n * Z.to_nat size)%nat with (Z.to_nat size + n * Z.to_nat size)%nat by lia.
    replace (Z.to_nat ((i + 1) * size)) with (Z.to_nat (i * size) + Z.to_nat size)%nat by nia.
    rewrite <- take_take_drop, drop_drop. f_equal. f_equal. lia.
Qed.

(** A library call that failed or verified, as the code reads the result. *)
Definition bb_accepts (keyBytes proof : string) (chunks : list string) (b : bool) : Prop :=
  ∃ vk bproof verifier,
    bb_ParseVerificationKey keyBytes = Ok vk ∧ bb_ParseProof proof = Ok bproof ∧
    bb_NewVerifier vk = Ok verifier ∧
    (bb_VerifyWithBytes verifier bproof chunks = Ok b ∨
     b = false ∧ ∃ e, bb_VerifyWithBytes verifier bproof chunks = Err e).

Lemma bb_verify_Ok keyBytes proof chunks b :
  bb_verify keyBytes proof chunks = Ok b → bb_accepts keyBytes proof chunks b.
Proof.
  unfold bb_verify. rewrite recovering_Ok. intros E.
  apply bind_Ok in E as (vk&Hvk%map_err_Ok&E). apply bind_Ok in E as (pr&Hpr%map_err_Ok&E).
  apply bind_Ok in E as (vf&Hvf&E). exists vk, pr, vf. split_and!; [done..|].
  destruct (bb_VerifyWithBytes vf pr chunks) as [b'|e|]; [by left; congruence| |done].
  case_decide; [|done]. right. injection E as <-. eauto.
Qed.

(** [ProofVerifyUltraHonk] answers only for UltraHonk keys and within the
    limits; the public inputs reach Barretenberg cut into field elements whose
    concatenation is the input, and a positive answer is Barretenberg's own. *)
Theorem ProofVerifyUltraHonk_answers s req b :
  zk_inv s → 0 < FieldElementSize → slen (qb_Proof req) < 2 ^ 64 → slen (qb_PublicInputs req) < 2 ^ 64 →
  ProofVerifyUltraHonk s (Some req) = Ok b →
  1 ≤ slen (qb_Proof req) ≤ 524288 ∧ slen (qb_PublicInputs req) ≤ 524288 ∧
  ∃ v chunks,
    resolve_vkey s (qb_VkeyName req) (qb_VkeyId req) = Ok v ∧
    vkey_ProofSystem v = PROOF_SYSTEM_ULTRA_HONK_ZK ∧
    concat (bytes_of <$> chunks) = bytes_of (qb_PublicInputs req) ∧
    Forall (λ c, slen c = FieldElementSize) chunks ∧
    bb_accepts (vkey_KeyBytes v) (qb_Proof req) chunks b.
Proof.
  intros Hinv Hfe Hl1 Hl2 E. cbn [ProofVerifyUltraHonk] in E.
  rewrite fail_if_bind in E. destruct E as [Hne E]. apply bind_Ok in E as (p&Hp&E).
  rewrite fail_if_bind in E. destruct E as [Hps E]. rewrite fail_if_bind in E. destruct E as [His E].
  apply bind_Ok in E as (v&Hv&E). rewrite fail_if_bind in E. destruct E as [Hsys E].
  rewrite fail_if_bind in E. destruct E as [Hrem E]. apply bind_Ok in E as (chunks&Hch&E).
  pose proof (Validate_limits p (params_limits s p Hinv Hp)) as (_&_&Hg1&Hg2&_). unfold limit_ok in *.
  pose proof (slen_nonneg (qb_Proof req)). pose proof (slen_nonneg (qb_PublicInputs req)).
  apply Z.eqb_neq in Hne. rewrite u64_small in Hps, His by (unfold is_u64; lia).
  apply Z.ltb_ge in Hps, His. apply negb_false_iff, Z.eqb_eq in Hsys, Hrem.
  rewrite Z.rem_mod_nonneg in Hrem by lia. rewrite Z.quot_div_nonneg in Hch by lia.
  set (n := Z.to_nat (slen (qb_PublicInputs req) / FieldElementSize)) in Hch.
  assert (Z.of_nat n * FieldElementSize = slen (qb_PublicInputs req)) as En.
  { unfold n. rewrite Z2Nat.id by (apply Z.div_pos; lia).
    rewrite (Z.div_mod (slen (qb_PublicInputs req)) FieldElementSize) at 2 by lia. lia. }
  destruct (cut_chunks_spec (qb_PublicInputs req) FieldElementSize 0 n) as (cs&Ecs&_&Hf&Hc); [lia..|].
  rewrite Hch in Ecs. injection Ecs as ->. split_and!; [lia..|].
  exists v, cs. split_and!; [done|done| |done|by apply bb_verify_Ok].
  rewrite Hc. cbn [Z.mul Z.to_nat drop]. apply take_ge.
  pose proof (bytes_of_length (qb_PublicInputs req)). unfold llen in *. nia.
Qed.

Lemma resolve_vkey_no_panic s name id : no_panic (resolve_vkey s name id).
Proof.
  unfold resolve_vkey. repeat case_match; [|auto with panics..].
  - rewrite GetVKeyByName_run. apply no_panic_bind; [auto with panics|]. intros i _.
    rewrite GetVKeyByID_run. auto with panics.
  - rewrite GetVKeyByID_run. auto with panics.
Qed.
Hint Resolve resolve_vkey_no_panic : panics.

Lemma ZkGetParams_no_panic s : no_panic (ZkGetParams s).
Proof. by rewrite ZkGetParams_run. Qed.
Hint Resolve ZkGetParams_no_panic : panics.

Lemma ProofVerifyUltraHonk_no_panic s req :
  0 < FieldElementSize → no_panic (ProofVerifyUltraHonk s req).
Proof.
  intros Hfe. destruct req as [req|]; cbn [ProofVerifyUltraHonk]; [|done].
  do 6 (apply no_panic_bind; [auto with panics|intros ? _]).
  apply no_panic_bind; [auto with panics|intros ? Hrem%fail_if_Ok].
  apply negb_false_iff, Z.eqb_eq in Hrem. pose proof (slen_nonneg (qb_PublicInputs req)).
  rewrite Z.rem_mod_nonneg in Hrem by lia. rewrite Z.quot_div_nonneg by lia.
  pose proof (Z.div_pos (slen (qb_PublicInputs req)) FieldElementSize).
  edestruct (cut_chunks_spec (qb_PublicInputs req) FieldElementSize 0) as (cs&->&_); [lia..| |].
  { rewrite Z2Nat.id by lia. pose proof (Z.mul_div_le (slen (qb_PublicInputs req)) FieldElementSize). lia. }
  rewrite bind_Ok_l. unfold bb_verify. auto with panics.
Qed.

(** C36. No request makes the verification queries panic: everything gnark and
    Barretenberg do runs under a recover and the slices stay in bounds; the two
    JSON parsers of circom2gnark are the only library calls outside it. *)
Theorem verification_queries_no_panic s req breq :
  0 < FieldElementSize →
  ProofVerifyUltraHonk s breq ≠ Panic ∧ ProofVerifyGnark s breq ≠ Panic ∧
  ((∀ bz, UnmarshalCircomProofJSON bz ≠ Panic) → (∀ bz, UnmarshalCircomVerificationKeyJSON bz ≠ Panic) →
   ProofVerify s req ≠ Panic).
Proof.
  intros Hfe. split_and!; [by apply ProofVerifyUltraHonk_no_panic| |intros Hj1 Hj2].
  - destruct breq as [r|]; cbn [ProofVerifyGnark]; [|done].
    do 6 (apply no_panic_bind; [auto with panics|intros ? _]). unfold VerifyGnark. auto with panics.
  - destruct req as [r|]; cbn [ProofVerify]; [|done].
    do 4 (apply no_panic_bind; [auto with panics|intros ? _]).
    apply no_panic_bind; [|intros n _].
    { generalize 0. induction (qv_PublicInputs r) as [|i l IH]; intros n; cbn [fold_outcome]; [done|].
      apply no_panic_bind; [unfold add_input_size; auto with panics|]. intros. apply IH. }
    apply no_panic_bind; [auto with panics|intros ? _]. apply no_panic_bind; [apply Hj1|intros ? _].
    apply no_panic_bind; [|intros vk _].
    { assert (∀ v, no_panic (UnmarshalVKey (Some v))) as Hu.
      { intros v. cbn [UnmarshalVKey]. apply no_panic_bind; [auto with panics|intros; apply Hj2]. }
      pose proof (resolve_vkey_no_panic s (qv_VkeyName r) (qv_VkeyId r)) as Hr. unfold resolve_vkey in Hr.
      unfold GetCircomVKeyByName, GetCircomVKeyByID. repeat case_match; auto with panics. }
    unfold validatePublicInputsInScalarField, Keeper_Verify.
    repeat (apply no_panic_bind; [auto with panics|intros ? _]). auto with panics.
Qed.
End query_laws.

(** ** The theorems at work on concrete states *)
Lemma public_inputs_canonical_witness :
  input_value <$> ["5"; "0x1f"] = input_value <$> ["0x5"; "31"].
Proof.
  pose proof (public_inputs_canonical (Ccr := model_zk) "proof" vkeyJSON
                ["5"; "0x1f"] ["0x5"; "31"] true true) as E.
  destruct E as [_ E]; [vm_compute; reflexivity..| |exact E].
  constructor; [exists 5, 5; vm_compute; done|]. constructor; [exists 31, 31; vm_compute; done|].
  constructor.
Defined.

Lemma ProofVerify_answers_witness :
  ∃ p, ZkGetParams (ex_zk1 ex_circom_key) = Ok p ∧ 1 ≤ slen "proof" ≤ MaxGroth16ProofSizeBytes p ∧
    input_bytes ["5"; "7"] ≤ MaxGroth16PublicInputSizeBytes p.
Proof.
  pose proof (ProofVerify_answers (ex_zk1 ex_circom_key) (mkQueryVerify "proof" ["5"; "7"] "email" 0) true) as E.
  destruct E as [E _]; [apply ex_zk1_inv|vm_compute; reflexivity|repeat constructor|].
  destruct E as (p&_&_&_&_&E1&E2&_&E3&_); [vm_compute; reflexivity|].
  exists p. split; [exact E1|split; [exact E2|exact E3]].
Defined.

Definition ex_honk_request : QueryVerifyBytesRequest :=
  mkQueryVerifyBytes "proof" "0123456789abcdef0123456789abcdef" "honk" 0.

Lemma ProofVerifyUltraHonk_answers_witness :
  ∃ v chunks,
    resolve_vkey (ex_zk1 ex_honk_key) (qb_VkeyName ex_honk_request) (qb_VkeyId ex_honk_request) = Ok v ∧
    concat (bytes_of <$> chunks) = bytes_of (qb_PublicInputs ex_honk_request).
Proof.
  pose proof (ProofVerifyUltraHonk_answers (ex_zk1 ex_honk_key) ex_honk_request true) as E.
  destruct E as (_&_&v&chunks&E&_&Ec&_); [apply ex_zk1_inv|vm_compute; reflexivity..|].
  exists v, chunks. split; [exact E|exact Ec].
Defined.

Lemma verification_queries_no_panic_witness :
  ProofVerifyUltraHonk (ex_zk1 ex_honk_key) (Some ex_honk_request) ≠ Panic.
Proof.
  pose proof (verification_queries_no_panic (ex_zk1 ex_honk_key) None (Some ex_honk_request)) as E.
  destruct E as [E _]; [reflexivity|exact E].
Defined.
