(* ===== verification/DkimKeeper.v ===== *)
(** * x/dkim: the keeper, its message server, genesis and migration

    Models x/dkim/keeper (keeper.go, msg_server.go, migrator.go) and
    x/dkim/migrations/v2.  The three collections are the state. *)

From S2P Require Import Prelude GoStd Sdk SdkModel ZkTypes ZkDefault ZkKeeper DkimTypes.

(** ** State *)
Record DkimState (DC RC PC : Type) := mkDkimState {
  d_DkimPubKeys : DC;
  d_RevokedKeys : RC;
  d_Params : PC;
}.
Arguments mkDkimState {DC RC PC}.
Arguments d_DkimPubKeys {DC RC PC}.
Arguments d_RevokedKeys {DC RC PC}.
Arguments d_Params {DC RC PC}.

Section keeper.
Context `{!DkimCrypto}.
Context {DC RC PC : Type}.
Context `{!PairMap DkimPubKey DC, !CollMap string bool RC, !CollItem DkimParams PC}.
(** [Keeper.authority] *)
Context (authority : string).
Abbreviation St := (DkimState DC RC PC).
Implicit Types s : St.

(** *** Access to the collections *)
Definition DkimPubKeys_Set (key : string * string) (k : DkimPubKey) : M St unit := write (λ s,
  c ← coll_Set (d_DkimPubKeys s) key k; Ok (mkDkimState c (d_RevokedKeys s) (d_Params s))).
Definition DkimPubKeys_Remove (key : string * string) : M St unit := write (λ s,
  c ← coll_Remove (d_DkimPubKeys s) key; Ok (mkDkimState c (d_RevokedKeys s) (d_Params s))).
Definition RevokedKeys_Set (key : string) (b : bool) : M St unit := write (λ s,
  c ← coll_Set (d_RevokedKeys s) key b; Ok (mkDkimState (d_DkimPubKeys s) c (d_Params s))).
Definition DkimParams_Set (p : DkimParams) : M St unit := write (λ s,
  c ← item_Set (d_Params s) p; Ok (mkDkimState (d_DkimPubKeys s) (d_RevokedKeys s) c)).

(** *** Parameters *)
Definition DkimGetParams s : outcome DkimParams :=
  match item_Get (d_Params s) with
  | Ok params => Ok params
  | Err e => if decide (e = ErrNotFound) then Ok DkimDefaultParams else Err e
  | Panic => Panic
  end.

Definition DkimSetParams (params : DkimParams) : M St unit :=
  let params := with_default_size params in
  _ ← lift (DkimParams_Validate params);
  DkimParams_Set params.

(** *** Messages *)
Definition SaveDkimPubKey (dkimKey : DkimPubKey) : M St unit :=
  DkimPubKeys_Set (dk_Domain dkimKey, dk_Selector dkimKey) dkimKey.

Definition SaveDkimPubKeys (dkimKeys : list DkimPubKey) : M St unit := for_each SaveDkimPubKey dkimKeys.

(** [msg.DkimPubkeys[i].PoseidonHash = hash.Bytes()] *)
Definition with_hash (k : DkimPubKey) : outcome DkimPubKey :=
  hash ← map_err (λ _, ErrInvalidPubKey) (ComputePoseidonHash (dk_PubKey k));
  Ok (mkDkimPubKey (dk_Domain k) (dk_PubKey k) (big_Bytes hash) (dk_Selector k) (dk_Version k) (dk_KeyType k)).

Definition AddDkimPubKeys (msg : MsgAddDkimPubKeys) : M St unit :=
  _ ← lift (fail_if (negb (bool_decide (authority = ad_Authority msg))) ErrInvalidSigner);
  s ← get_state;
  params ← lift (DkimGetParams s);
  _ ← lift (ValidateDkimPubKeysWithRevocation (ad_DkimPubkeys msg) params
              (Some (coll_Has (d_RevokedKeys s))) true);
  keys ← lift (fold_outcome (λ acc k, k' ← with_hash k; Ok (acc ++ [k'])) [] (ad_DkimPubkeys msg));
  SaveDkimPubKeys keys.

Definition RemoveDkimPubKey (msg : MsgRemoveDkimPubKey) : M St unit :=
  _ ← lift (fail_if (negb (bool_decide (authority = rd_Authority msg))) ErrInvalidSigner);
  DkimPubKeys_Remove (rd_Domain msg, rd_Selector msg).

(** The loop over the keys of the domain; [revoked] is the flag of the same name. *)
Fixpoint revoke_matching (params : DkimParams) (publicKey : RSAPublicKey) (canonicalKey : string)
    (revoked : bool) (kvs : list ((string * string) * DkimPubKey)) : M St unit :=
  match kvs with
  | [] => mret tt
  | kv :: kvs =>
    pubKeyBytes ← lift (DecodePubKeyWithLimit (dk_PubKey kv.2) (MaxPubkeySizeBytes params));
    storedKey ← lift (ParseRSAPublicKey pubKeyBytes);
    if (rsa_E storedKey =? rsa_E publicKey) && (rsa_N storedKey =? rsa_N publicKey) then
      _ ← DkimPubKeys_Remove kv.1;
      _ ← (if revoked then mret tt else RevokedKeys_Set canonicalKey true);
      revoke_matching params publicKey canonicalKey true kvs
    else revoke_matching params publicKey canonicalKey revoked kvs
  end.

Definition RevokeDkimPubKey (msg : MsgRevokeDkimPubKey) : M St unit :=
  s ← get_state;
  params ← lift (DkimGetParams s);
  publicKey ← lift (parse_private_key (rk_PrivKey msg));
  canonicalKey ← lift (CanonicalizeRSAPublicKey publicKey);
  kvs ← lift (pair_Prefixed (d_DkimPubKeys s) (rk_Domain msg));
  revoke_matching params publicKey canonicalKey false kvs.

Definition DkimUpdateParams (msg : MsgDkimUpdateParams) : M St unit :=
  _ ← lift (fail_if (negb (bool_decide (authority = du_Authority msg))) ErrInvalidSigner);
  let params := with_default_size (du_Params msg) in
  _ ← lift (map_err (λ _, ErrDkimInvalidParams) (DkimParams_Validate params));
  DkimSetParams params.

(** *** Genesis *)
Definition dkim_InitGenesis (data : DkimGenesis) : M St unit :=
  _ ← lift (DkimGenesis_Validate data);
  _ ← DkimSetParams (with_default_size (dg_Params data));
  _ ← for_each (λ revoked, RevokedKeys_Set revoked true) (dg_RevokedPubkeys data);
  for_each (λ pk, DkimPubKeys_Set (dk_Domain pk, dk_Selector pk) pk) (dg_DkimPubkeys data).

Definition dkim_ExportGenesis s : outcome DkimGenesis :=
  kvs ← or_panic (coll_Entries (d_DkimPubKeys s) : outcome (list ((string * string) * DkimPubKey)));
  params ← or_panic (DkimGetParams s);
  revoked ← or_panic (coll_Entries (d_RevokedKeys s) : outcome (list (string * bool)));
  Ok (mkDkimGenesis (map snd kvs) params (map fst revoked)).

(** *** Migration 1 to 2 *)
Definition dkim_v2_MigrateStore : M St unit := λ s,
  match item_Get (d_Params s) with
  | Panic => (s, Panic)
  | Err _ => DkimParams_Set DkimDefaultParams s
  | Ok p => DkimParams_Set (mkDkimParams (VkeyIdentifier p) (MaxPubkeySizeBytes p) DefaultPublicInputIndices) s
  end.
End keeper.

(** ** Revocation *)

(** The RSA key that a stored or submitted text stands for. *)
Definition rsa_of `{!DkimCrypto} (PubKey : string) : outcome RSAPublicKey :=
  bz ← base64_DecodeString PubKey; ParseRSAPublicKey bz.

Definition canonical `{!DkimCrypto} (K : RSAPublicKey) : string :=
  base64_EncodeToString (sha256_Sum256 (MarshalPKCS1PublicKey K)).

Section revocation.
Context `{Ccr : !DkimCrypto}.
Context {DC RC PC : Type}.
Context `{Cd : !PairMap DkimPubKey DC, Cdl : !PairMapLaws DkimPubKey DC}.
Context `{Cr : !CollMap string bool RC, Crl : !CollMapLaws string bool RC, !CollKeysOk string bool RC}.
Context `{Cp : !CollItem DkimParams PC}.
Context (authority : string).
Abbreviation St := (DkimState DC RC PC).
Implicit Types s : St.

Definition pubkeys s : gmap (string * string) DkimPubKey := coll_contents (d_DkimPubKeys s).
Definition revoked s : gmap string bool := coll_contents (d_RevokedKeys s).

Lemma DkimPubKeys_Set_run k v s :
  revoked (DkimPubKeys_Set k v s).1 = revoked s ∧
  (pubkeys (DkimPubKeys_Set k v s).1 = pubkeys s ∨
   pubkeys (DkimPubKeys_Set k v s).1 = <[k := v]> (pubkeys s)).
Proof.
  unfold DkimPubKeys_Set, write, pubkeys. destruct (decide (no_nul k.1)) as [Hk|Hk].
  - destruct (coll_Set_spec (d_DkimPubKeys s) k v (pair_key_ok k Hk)) as (c&->&E). cbn. auto.
  - destruct (pair_Set_bad (d_DkimPubKeys s) k v Hk) as [e ->]. cbn. auto.
Qed.

Lemma DkimPubKeys_Remove_run k s :
  revoked (DkimPubKeys_Remove k s).1 = revoked s ∧
  ((∃ e, (DkimPubKeys_Remove k s).2 = Err e) ∧ pubkeys (DkimPubKeys_Remove k s).1 = pubkeys s ∨
   (DkimPubKeys_Remove k s).2 = Ok tt ∧ pubkeys (DkimPubKeys_Remove k s).1 = delete k (pubkeys s)).
Proof.
  unfold DkimPubKeys_Remove, write, pubkeys. destruct (decide (no_nul k.1)) as [Hk|Hk].
  - destruct (coll_Remove_spec (d_DkimPubKeys s) k (pair_key_ok k Hk)) as (c&->&E). cbn. auto.
  - destruct (pair_Remove_bad (d_DkimPubKeys s) k Hk) as [e ->]. cbn. eauto.
Qed.

Lemma RevokedKeys_Set_run k b s : ∃ s',
  RevokedKeys_Set k b s = (s', Ok tt) ∧ pubkeys s' = pubkeys s ∧ revoked s' = <[k := b]> (revoked s).
Proof.
  unfold RevokedKeys_Set, write, revoked.
  destruct (coll_Set_spec (d_RevokedKeys s) k b (coll_keys_ok k)) as (c&->&E). cbn. eauto.
Qed.

Lemma DkimParams_Set_run p s :
  pubkeys (DkimParams_Set p s).1 = pubkeys s ∧ revoked (DkimParams_Set p s).1 = revoked s.
Proof. unfold DkimParams_Set, write. by destruct (item_Set (d_Params s) p). Qed.

(** [K] is on the revocation list and no record of the domain holds it. *)
Definition banned (dom : string) (K : RSAPublicKey) s : Prop :=
  is_Some (revoked s !! canonical K) ∧
  ∀ sel k, pubkeys s !! (dom, sel) = Some k → rsa_of (dk_PubKey k) ≠ Ok K.

Lemma banned_same dom K s s' :
  pubkeys s' = pubkeys s → revoked s' = revoked s → banned dom K s → banned dom K s'.
Proof. unfold banned. by intros -> ->. Qed.

Lemma banned_Set dom K k v s :
  rsa_of (dk_PubKey v) ≠ Ok K → banned dom K s → banned dom K (DkimPubKeys_Set k v s).1.
Proof.
  intros Hv [Hr Hp]. destruct (DkimPubKeys_Set_run k v s) as [Er [Ep|Ep]];
    unfold banned; rewrite Er, Ep; split; [done..|].
  intros sel w. rewrite lookup_insert_Some. intros [[_ <-]|[_ Hw]]; [done|by apply (Hp sel)].
Qed.

Lemma banned_Remove dom K k s : banned dom K s → banned dom K (DkimPubKeys_Remove k s).1.
Proof.
  intros [Hr Hp]. destruct (DkimPubKeys_Remove_run k s) as [Er [[_ Ep]|[_ Ep]]];
    unfold banned; rewrite Er, Ep; split; [done..|].
  intros sel w [_ Hw]%lookup_delete_Some. by apply (Hp sel).
Qed.

Lemma banned_Revoked dom K k b s : banned dom K s → banned dom K (RevokedKeys_Set k b s).1.
Proof.
  intros [Hr Hp]. destruct (RevokedKeys_Set_run k b s) as (s'&->&Ep&Er). cbn.
  unfold banned. rewrite Ep, Er. split; [|done]. destruct (decide (canonical K = k)) as [->|].
  - by rewrite lookup_insert_eq.
  - by rewrite lookup_insert_ne.
Qed.

(** A key on the revocation list does not pass validation. *)
Lemma validated_not_banned dom K params s k :
  banned dom K s →
  validate_dkim_key params (Some (coll_Has (d_RevokedKeys s))) true k = Ok tt →
  rsa_of (dk_PubKey k) ≠ Ok K.
Proof.
  intros [[b Hr] _] Hv E. unfold validate_dkim_key, DecodePubKeyWithLimit, rsa_of in *. inv_ok.
  rewrite coll_Has_spec in * by apply coll_keys_ok. unfold CanonicalizeRSAPublicKey in *. inv_ok. simplify_eq.
  fold (revoked s) in *. fold (canonical K) in *. rewrite Hr in *. done.
Qed.

Lemma with_hash_PubKey k k' : with_hash k = Ok k' → dk_PubKey k' = dk_PubKey k.
Proof. unfold with_hash. intros E. inv_ok. done. Qed.

Lemma hashed_keys (P : string → Prop) l acc l' :
  Forall (λ k, P (dk_PubKey k)) acc → Forall (λ k, P (dk_PubKey k)) l →
  fold_outcome (λ acc k, k' ← with_hash k; Ok (acc ++ [k'])) acc l = Ok l' →
  Forall (λ k, P (dk_PubKey k)) l'.
Proof.
  intros Ha Hl. revert acc Ha. induction Hl as [|k l Hk Hl IH]; intros acc Ha E; cbn [fold_outcome] in E.
  - by inv_ok.
  - inv_ok. eapply IH; [|done]. apply Forall_app. split; [done|]. apply Forall_singleton.
    by erewrite with_hash_PubKey.
Qed.

Lemma banned_Add dom K msg s : banned dom K s → banned dom K (AddDkimPubKeys authority msg s).1.
Proof.
  intros Hb. unfold AddDkimPubKeys. apply lift_keeps; [done|]. intros [] _. rewrite get_state_bind.
  apply lift_keeps; [done|]. intros params _. apply lift_keeps; [done|]. intros [] Hv.
  apply lift_keeps; [done|]. intros keys Hk. apply check_all_Ok in Hv.
  assert (Forall (λ k, rsa_of (dk_PubKey k) ≠ Ok K) keys) as Hks.
  { eapply (hashed_keys (λ pk, rsa_of pk ≠ Ok K)); [constructor| |done].
    eapply Forall_impl; [exact Hv|]. intros k. by eapply validated_not_banned. }
  unfold SaveDkimPubKeys. apply for_each_keeps; [|done]. intros k s' Hin. rewrite Forall_forall in Hks. by apply banned_Set, Hks.
Qed.

Lemma banned_revoke_matching dom K params pk ck flag kvs s :
  banned dom K s → banned dom K (revoke_matching params pk ck flag kvs s).1.
Proof.
  revert flag s. induction kvs as [|kv kvs IH]; intros flag s Hb; cbn [revoke_matching]; [done|].
  apply lift_keeps; [done|]. intros bz _. apply lift_keeps; [done|]. intros K' _.
  case_match; [|by apply IH]. apply bind_keeps; [by apply banned_Remove|]. intros s1 [] E1.
  assert (banned dom K s1) as Hb1 by (pose proof (banned_Remove dom K kv.1 s Hb) as H'; by rewrite E1 in H').
  apply bind_keeps; [destruct flag; [done|by apply banned_Revoked]|]. intros s2 [] E2. apply IH.
  destruct flag; [by injection E2 as <-|]. pose proof (banned_Revoked dom K ck true s1 Hb1) as H'. by rewrite E2 in H'.
Qed.

(** Every message of the module, and the migration. *)
Inductive DkimMsg :=
| DkimAdd (m : MsgAddDkimPubKeys)
| DkimRemove (m : MsgRemoveDkimPubKey)
| DkimRevoke (m : MsgRevokeDkimPubKey)
| DkimUpdate (m : MsgDkimUpdateParams)
| DkimMigrate.

Definition dkim_handle (m : DkimMsg) : M St unit :=
  match m with
  | DkimAdd m => AddDkimPubKeys authority m
  | DkimRemove m => RemoveDkimPubKey authority m
  | DkimRevoke m => RevokeDkimPubKey m
  | DkimUpdate m => DkimUpdateParams authority m
  | DkimMigrate => dkim_v2_MigrateStore
  end.

Lemma banned_Params dom K p s : banned dom K s → banned dom K (DkimParams_Set p s).1.
Proof. destruct (DkimParams_Set_run p s). by apply banned_same. Qed.

Lemma banned_handle dom K m s : banned dom K s → banned dom K (dkim_handle m s).1.
Proof.
  intros Hb. destruct m; cbn [dkim_handle].
  - by apply banned_Add.
  - unfold RemoveDkimPubKey. apply lift_keeps; [done|]. intros [] _. by apply banned_Remove.
  - unfold RevokeDkimPubKey. rewrite get_state_bind. repeat (apply lift_keeps; [done|]; intros ? _).
    by apply banned_revoke_matching.
  - unfold DkimUpdateParams. do 2 (apply lift_keeps; [done|]; intros [] _).
    unfold DkimSetParams. apply lift_keeps; [done|]. intros [] _. by apply banned_Params.
  - unfold dkim_v2_MigrateStore. case_match; [by apply banned_Params..|done].
Qed.

(** States reached by messages, whether they succeed or not. *)
Inductive dkim_history s0 : St → Prop :=
| dh_start : dkim_history s0 s0
| dh_step s m : dkim_history s0 s → dkim_history s0 (dkim_handle m s).1.

Lemma banned_history dom K s s' : banned dom K s → dkim_history s s' → banned dom K s'.
Proof. intros Hb. induction 1; [done|by apply banned_handle]. Qed.

Lemma decode_limit_rsa pk n bz K :
  DecodePubKeyWithLimit pk n = Ok bz → ParseRSAPublicKey bz = Ok K → rsa_of pk = Ok K.
Proof. unfold DecodePubKeyWithLimit, rsa_of. intros. inv_ok. by rewrite H, bind_Ok_l. Qed.

(** One matching record: it is removed, and the hash is listed unless it was before. *)
Lemma remove_and_list key ck (flag : bool) s s1 s2 :
  DkimPubKeys_Remove key s = (s1, Ok tt) →
  (if flag then mret tt else RevokedKeys_Set ck true) s1 = (s2, Ok tt) →
  pubkeys s2 = delete key (pubkeys s) ∧
  (is_Some (revoked s !! ck) ∨ flag = false → is_Some (revoked s2 !! ck)).
Proof.
  intros E1 E2. destruct (DkimPubKeys_Remove_run key s) as [Er Ep]. rewrite E1 in Er, Ep. cbn [fst snd] in *.
  destruct Ep as [[[? [=]] _]|[_ Ep]]. destruct flag; [inv_ok; rewrite Er; naive_solver|].
  destruct (RevokedKeys_Set_run ck true s1) as (s3&E3&Ep3&Er3). rewrite E3 in E2.
  injection E2 as <-. rewrite Ep3, Er3. split; [done|]. by rewrite lookup_insert_eq.
Qed.

(** What a successful loop does: the records that hold [K] go, the others stay, and
    the hash of [K] is on the list if a record went or one had gone before. *)
Lemma revoke_matching_run params K flag kvs s s' :
  revoke_matching params K (canonical K) flag kvs s = (s', Ok tt) →
  (∀ key k, (key, k) ∈ kvs → rsa_of (dk_PubKey k) = Ok K → pubkeys s' !! key = None) ∧
  (∀ key, (∀ k, (key, k) ∈ kvs → rsa_of (dk_PubKey k) ≠ Ok K) → pubkeys s' !! key = pubkeys s !! key) ∧
  (∀ key, pubkeys s !! key = None → pubkeys s' !! key = None) ∧
  ((flag = true ∧ is_Some (revoked s !! canonical K) ∨
    flag = false ∧ ∃ key k, (key, k) ∈ kvs ∧ rsa_of (dk_PubKey k) = Ok K) →
   is_Some (revoked s' !! canonical K)).
Proof.
  revert flag s. induction kvs as [|[key k] kvs IH]; intros flag s E; cbn [revoke_matching] in E.
  { inv_ok. split_and!; [set_solver|done|done|]. intros [[_ ?]|(_&?&?&?&_)]; [done|set_solver]. }
  apply M_bind_Ok in E as (?&bz&[-> Hbz]%lift_Ok&E). apply M_bind_Ok in E as (?&K'&[-> HK']%lift_Ok&E).
  pose proof (decode_limit_rsa _ _ _ _ Hbz HK') as Hk. cbn [snd] in Hk.
  destruct (_ && _) eqn:Hm.
  - assert (K' = K) as -> by (destruct K', K; cbn in Hm; f_equal; lia).
    apply M_bind_Ok in E as (s1&[]&E1&E). apply M_bind_Ok in E as (s2&[]&E2&E).
    destruct (remove_and_list key (canonical K) flag s s1 s2 E1 E2) as [Ep2 Er2].
    apply IH in E as (H1&H2&H3&H4). split_and!.
    + intros key' k' [[= -> ->]|Hin]%elem_of_cons HK; [|by eapply H1].
      apply H3. rewrite Ep2. apply lookup_delete_eq.
    + intros key' Hno. rewrite H2, Ep2 by (intros ??; apply Hno; by right).
      destruct (decide (key' = key)) as [->|]; [|by rewrite lookup_delete_ne].
      exfalso. apply (Hno k); [left|done].
    + intros key' Hn. apply H3. rewrite Ep2. by apply lookup_delete_None; right.
    + intros Hor. apply H4. left. split; [done|]. apply Er2. naive_solver.
  - assert (K' ≠ K) as Hne by (intros ->; rewrite !Z.eqb_refl in Hm; done).
    apply IH in E as (H1&H2&H3&H4). split_and!.
    + intros key' k' [[= -> ->]|Hin]%elem_of_cons HK; [congruence|by eapply H1].
    + intros key' Hno. apply H2. intros ??. apply Hno. by right.
    + done.
    + intros [?|(?&key'&k'&[[= -> ->]|Hin]%elem_of_cons&?)]; apply H4; [by left|congruence|]. right. eauto.
Qed.

Lemma RevokeDkimPubKey_Ok msg K s s' :
  parse_private_key (rk_PrivKey msg) = Ok K → RevokeDkimPubKey msg s = (s', Ok tt) →
  ∃ params kvs, revoke_matching params K (canonical K) false kvs s = (s', Ok tt) ∧
    ∀ key k, (key, k) ∈ kvs ↔ key.1 = rk_Domain msg ∧ pubkeys s !! key = Some k.
Proof.
  intros HK E. unfold RevokeDkimPubKey in E. rewrite get_state_bind in E.
  apply M_bind_Ok in E as (?&params&[-> _]%lift_Ok&E).
  rewrite HK in E. do 2 (rewrite lift_bind_Ok with (a := _) in E by reflexivity).
  apply M_bind_Ok in E as (?&kvs&[-> Hkvs]%lift_Ok&E).
  exists params, kvs. split; [exact E|]. intros key k.
  destruct (decide (no_nul (rk_Domain msg))) as [Hd|Hd];
    [|destruct (pair_Prefixed_bad (d_DkimPubKeys s) _ Hd) as [? Hbad]; congruence].
  destruct (coll_Entries_spec (d_DkimPubKeys s)) as (l&Hl&Hp).
  erewrite pair_Prefixed_spec in Hkvs by done. injection Hkvs as <-.
  by rewrite list_elem_of_filter, Hp, elem_of_map_to_list.
Qed.

(** Once banned, a key is refused together with the batch it comes in. *)
Lemma banned_refused dom K m k s :
  banned dom K s → k ∈ ad_DkimPubkeys m → rsa_of (dk_PubKey k) = Ok K →
  (AddDkimPubKeys authority m s).1 = s ∧ (AddDkimPubKeys authority m s).2 ≠ Ok tt.
Proof.
  intros Hb Hin HK. unfold AddDkimPubKeys. rewrite lift_bind. case_match; [|done..].
  rewrite get_state_bind, lift_bind. case_match; [|done..]. rewrite lift_bind.
  case_match eqn:Hv; [|done..]. exfalso. destruct a1. apply check_all_Ok in Hv. rewrite Forall_forall in Hv.
  eapply validated_not_banned; [exact Hb|by apply Hv|done].
Qed.

(** C11. Revoking with a private key removes exactly the records of the domain that
    hold its public key.  If there was one, then whatever messages follow, the domain
    never holds that key again, and a batch that contains it, under any domain, is
    refused without a write. *)
Theorem dkim_revocation msg K s s1 :
  parse_private_key (rk_PrivKey msg) = Ok K →
  RevokeDkimPubKey msg s = (s1, Ok tt) →
  let holds key := ∃ k, pubkeys s !! key = Some k ∧ rsa_of (dk_PubKey k) = Ok K in
  (∀ sel, holds (rk_Domain msg, sel) → pubkeys s1 !! (rk_Domain msg, sel) = None) ∧
  (∀ key, ¬ (key.1 = rk_Domain msg ∧ holds key) → pubkeys s1 !! key = pubkeys s !! key) ∧
  ((∃ sel, holds (rk_Domain msg, sel)) → ∀ s2, dkim_history s1 s2 →
    banned (rk_Domain msg) K s2 ∧
    ∀ m k, k ∈ ad_DkimPubkeys m → rsa_of (dk_PubKey k) = Ok K →
      (AddDkimPubKeys authority m s2).1 = s2 ∧ (AddDkimPubKeys authority m s2).2 ≠ Ok tt).
Proof.
  intros HK E holds. apply (RevokeDkimPubKey_Ok msg K) in E as (params&kvs&E&Hin); [|done].
  apply revoke_matching_run in E as (H1&H2&H3&H4).
  assert (∀ sel, holds (rk_Domain msg, sel) → pubkeys s1 !! (rk_Domain msg, sel) = None) as Hgone.
  { intros sel (k&Hk&Hr). eapply H1; [|done]. by apply Hin. }
  split_and!; [done| |].
  - intros key Hno. apply H2. intros k [Hd Hk]%Hin Hr. apply Hno. split; [done|]. by exists k.
  - intros (sel&k&Hk&Hr) s2 Hh. assert (banned (rk_Domain msg) K s2) as Hb.
    { eapply banned_history; [|done]. split.
      - apply H4. right. split; [done|]. exists (rk_Domain msg, sel), k. split; [by apply Hin|done].
      - intros sel' k' Hk' Hr'. destruct (pubkeys s !! (rk_Domain msg, sel')) as [w|] eqn:Ew.
        + destruct (decide (rsa_of (dk_PubKey w) = Ok K)) as [Hw|Hw].
          * rewrite Hgone in Hk'; [done|]. by exists w.
          * rewrite H2 in Hk' by (intros ? [_ ?]%Hin; congruence). congruence.
        + by rewrite H3 in Hk'. }
    split; [done|]. intros. by eapply banned_refused.
Qed.
End revocation.

(** ** Witnesses *)
Definition ex_dkim_key (domain : string) : DkimPubKey := mkDkimPubKey domain "n" "" "s1" 0 0.
Definition ex_dkim : DkimState (pair_store DkimPubKey) (gmap string bool) (option DkimParams) :=
  mkDkimState (PairStore {[ ("a.com", "s1") := ex_dkim_key "a.com"; ("b.com", "s1") := ex_dkim_key "b.com" ]})
    ∅ (Some DkimDefaultParams).
Definition ex_revoke : MsgRevokeDkimPubKey := mkMsgRevokeDkim "anyone" "a.com" "n".
Definition ex_dkim1 := (RevokeDkimPubKey ex_revoke ex_dkim).1.

Lemma dkim_revocation_witness :
  pubkeys ex_dkim1 !! ("a.com", "s1") = None ∧
  pubkeys ex_dkim1 !! ("b.com", "s1") = Some (ex_dkim_key "b.com") ∧
  (AddDkimPubKeys "gov" (mkMsgAddDkim "gov" [ex_dkim_key "c.com"]) ex_dkim1).1 = ex_dkim1.
Proof.
  pose proof (dkim_revocation "gov" ex_revoke (mkRSA 110 65537) ex_dkim ex_dkim1) as E.
  destruct E as (E1&E2&E3); [eval_hyp..|]. split_and!.
  - apply E1. exists (ex_dkim_key "a.com"). eval_hyp.
  - etrans; [apply E2; by intros [[=] _]|eval_hyp].
  - destruct (E3 (ex_intro _ "s1" (ex_intro _ (ex_dkim_key "a.com") (conj eq_refl eq_refl))) _ (dh_start _ _)) as [_ E4].
    apply (E4 (mkMsgAddDkim "gov" [ex_dkim_key "c.com"]) (ex_dkim_key "c.com")); [left|eval_hyp].
Defined.
