(* ===== verification/DkimSubject.v ===== *)
(** * x/dkim: validation of the subject line

    Models x/dkim/types/subject_validation.go.  The regular expression of
    [decodeMIMESubject] is written out as a matcher: its runs may not hold the
    question mark that follows them, so a match at a position is unique. *)

From S2P Require Import Prelude GoStd Sdk SdkModel ZkTypes DkimTypes.

(** ** Encoded words: [=\?([^?]+)\?([BbQq])\?([^?]+)\?=] *)
Definition is_byte (z : Z) (a : Ascii.ascii) : bool := byte_val a =? z.

(** The longest run without a question mark, and what follows. *)
Fixpoint run_to_qmark (l : list Ascii.ascii) : list Ascii.ascii * list Ascii.ascii :=
  match l with
  | [] => ([], [])
  | a :: l' => if is_byte 63 a then ([], l) else let '(r, k) := run_to_qmark l' in (a :: r, k)
  end.

(** A match at the start of the text: the three groups and the rest. *)
Definition match_word (l : list Ascii.ascii) : option (string * string * string * list Ascii.ascii) :=
  l1 ← strip_bytes [61; 63] l;
  let '(charset, l2) := run_to_qmark l1 in
  l3 ← strip_bytes [63] l2;
  l4 ← strip_any [[66; 63]; [98; 63]; [81; 63]; [113; 63]] l3;
  let '(text, l5) := run_to_qmark l4 in
  l6 ← strip_bytes [63; 61] l5;
  if decide (charset = [] ∨ text = []) then None
  else Some (of_bytes charset, of_bytes (take 1 l3), of_bytes text, l6).

(** [FindAllStringSubmatch]: leftmost matches that do not overlap; every round
    consumes a byte. *)
Fixpoint find_words (fuel : nat) (l : list Ascii.ascii) : list (string * string * string) :=
  match fuel, l with
  | O, _ | _, [] => []
  | S fuel, _ :: l' =>
    match match_word l with
    | Some (w, rest) => w :: find_words fuel rest
    | None => find_words fuel l'
    end
  end.

Section subject.
Context `{!DkimCrypto}.

Definition decode_word (w : string * string * string) : option string :=
  let '(cs, enc, encodedText) := w in
  let charset := ToLowerASCII (TrimSpace cs) in
  let encoding := ToLowerASCII (TrimSpace enc) in
  if decide (charset ≠ "utf-8") then None
  else if decide (encoding ≠ "b") then None
  else match base64_DecodeString encodedText with
       | Ok decodedBytes => Some decodedBytes
       | _ => match base64_DecodeString (encodedText +:+ "==") with
              | Ok decodedBytes => Some decodedBytes
              | _ => None
              end
       end.

(** [None] is the result [("", false)]. *)
Definition decodeMIMESubject (encoded : string) : option string :=
  let encoded := TrimSpace encoded in
  if decide (encoded = "") then None else
  let matches := find_words (String.length encoded) (bytes_of encoded) in
  if decide (matches = []) then None else
  String.concat " " <$> mapM decode_word matches.

Definition validPrefixes : list string := ["Re:"; "RE:"; "re:"; "Fwd:"; "FWD:"; "fwd:"].

(** The inner loop: the text after the first prefix that matches. *)
Fixpoint remove_prefix (ps : list string) (remaining : string) : option string :=
  match ps with
  | [] => None
  | p :: ps =>
    if (slen p <=? slen remaining) &&
       bool_decide (ToLowerASCII (String.substring 0 (String.length p) remaining) = ToLowerASCII p)
    then Some (TrimSpace (of_bytes (drop (String.length p) (bytes_of remaining))))
    else remove_prefix ps remaining
  end.

(** The outer loop: every round shortens the text. *)
Fixpoint remove_prefixes (fuel : nat) (remaining : string) : string :=
  match fuel, remove_prefix validPrefixes remaining with
  | S fuel, Some r => remove_prefixes fuel r
  | _, _ => remaining
  end.

Definition ReplyNeeded : string := "[Reply Needed]".

(** The text that is searched for the tag. *)
Definition subject_text (subject : string) : option string :=
  let subject := TrimSpace subject in
  if decide (subject = "") then None else
  decoded ← match decodeMIMESubject subject with
            | Some decoded => Some decoded
            | None => if Contains subject "=?" then None else Some subject
            end;
  let subject := TrimSpace decoded in
  if decide (subject = "") then None else Some (TrimRight subject [13; 10]).

Definition ValidateForcedSubject (subject : string) : bool :=
  match subject_text subject with
  | None => false
  | Some subject =>
    match str_Index subject ReplyNeeded with
    | None => false
    | Some tagIndex =>
      let prefix := TrimSpace (String.substring 0 tagIndex subject) in
      if decide (prefix = "") then true
      else bool_decide (remove_prefixes (String.length prefix) prefix = "")
    end
  end.
End subject.

(** ** What is accepted *)

(** Reply and forward marks in any case, with spaces between them. *)
Inductive only_prefixes : string → Prop :=
| only_nothing : only_prefixes ""
| only_mark p rest :
    ToLowerASCII p = "re:" ∨ ToLowerASCII p = "fwd:" → only_prefixes (TrimSpace rest) →
    only_prefixes (p +:+ rest).

Lemma cons_app a p s : String a p +:+ s = String a (p +:+ s).
Proof. done. Qed.

Lemma string_length_app p s : String.length (p +:+ s) = (String.length p + String.length s)%nat.
Proof. induction p as [|a p IH]; [done|]. rewrite cons_app. cbn. by rewrite IH. Qed.

Lemma substring_app p s : String.substring 0 (String.length p) (p +:+ s) = p.
Proof. induction p as [|a p IH]; [by destruct s|]. rewrite cons_app. cbn. by rewrite IH. Qed.

Lemma str_Index_min a p b : ∃ n, (n ≤ String.length a)%nat ∧ str_Index (a +:+ p +:+ b) p = Some n.
Proof.
  induction a as [|c a IH].
  - exists 0%nat. split; [done|]. change ("" +:+ p +:+ b) with (p +:+ b).
    destruct (p +:+ b) eqn:E; cbn [str_Index]; rewrite <- E, (proj2 (prefix_app p _)) by eauto; done.
  - destruct IH as (n&Hn&E). rewrite cons_app. cbn [str_Index String.length].
    destruct (String.prefix p _); [exists 0%nat; split; [lia|done]|].
    exists (S n). split; [lia|]. by rewrite E.
Qed.

Lemma str_Index_Some s p n :
  str_Index s p = Some n → ∃ a b, s = a +:+ p +:+ b ∧ String.length a = n.
Proof.
  revert n. induction s as [|c s IH]; intros n; cbn [str_Index].
  - destruct (String.prefix p "") eqn:E; [|done]. intros [= <-]. apply prefix_app in E as [r E]. by exists "", r.
  - destruct (String.prefix p _) eqn:E.
    + intros [= <-]. apply prefix_app in E as [r E]. by exists "", r.
    + destruct (str_Index s p) as [m|]; [|done]. intros [= <-].
      destruct (IH m eq_refl) as (a&b&->&<-). by exists (String c a), b.
Qed.

(** The first occurrence, exactly. *)
Lemma str_Index_spec s p n :
  str_Index s p = Some n ↔ ∃ a b, s = a +:+ p +:+ b ∧ String.length a = n ∧
    ∀ a' b', s = a' +:+ p +:+ b' → (n ≤ String.length a')%nat.
Proof.
  split.
  - intros E. destruct (str_Index_Some _ _ _ E) as (a&b&Es&Hn). exists a, b. split_and!; [done..|].
    intros a' b' ->. destruct (str_Index_min a' p b') as (m&Hm&Em). congruence.
  - intros (a&b&->&<-&Hmin). destruct (str_Index_min a p b) as (m&Hm&Em). rewrite Em. f_equal.
    destruct (str_Index_Some _ _ _ Em) as (a'&b'&E&<-). specialize (Hmin a' b' E). lia.
Qed.

Lemma ToLower_length s : String.length (ToLowerASCII s) = String.length s.
Proof.
  unfold ToLowerASCII. induction s as [|a s IH]; cbn; [done|]. by rewrite IH.
Qed.

Lemma drop_bytes_app p s : of_bytes (drop (String.length p) (bytes_of (p +:+ s))) = s.
Proof. induction p as [|a p IH]; [apply of_bytes_of|]. rewrite cons_app. cbn. apply IH. Qed.

Lemma split_at_length n s : (n ≤ String.length s)%nat → ∃ p r, s = p +:+ r ∧ String.length p = n.
Proof.
  revert s. induction n as [|n IH]; intros s Hs; [by exists "", s|]. destruct s as [|a s]; cbn in Hs; [lia|].
  destruct (IH s) as (p&r&->&<-); [lia|]. by exists (String a p), r.
Qed.

Lemma string_app_inj p q r s :
  String.length p = String.length q → p +:+ r = q +:+ s → p = q ∧ r = s.
Proof.
  revert q. induction p as [|a p IH]; intros [|b q] Hl E; cbn in Hl; try done.
  rewrite !cons_app in E. injection E as -> E. injection Hl as Hl. by destruct (IH q Hl E) as [-> ->].
Qed.

(** The inner loop, one prefix. *)
Lemma remove_prefix_cons q ps r :
  (∃ p rest, r = p +:+ rest ∧ ToLowerASCII p = ToLowerASCII q ∧
     remove_prefix (q :: ps) r = Some (TrimSpace rest)) ∨
  (¬ ∃ p rest, r = p +:+ rest ∧ ToLowerASCII p = ToLowerASCII q) ∧
     remove_prefix (q :: ps) r = remove_prefix ps r.
Proof.
  cbn [remove_prefix]. destruct (decide (String.length q ≤ String.length r)%nat) as [Hl|Hl].
  - destruct (split_at_length _ _ Hl) as (p&rest&->&Hp). rewrite <- Hp, substring_app, drop_bytes_app.
    rewrite (proj2 (Z.leb_le _ _)) by (unfold slen; rewrite <- ?Hp in Hl; lia). cbn [andb].
    case_bool_decide as E; [left; by exists p, rest|right]. split; [|done].
    intros (p'&rest'&Ea&El). apply string_app_inj in Ea as [<- _]; [done|].
    rewrite Hp, <- (ToLower_length p'), El. by rewrite ToLower_length.
  - right. rewrite (proj2 (Z.leb_gt _ _)) by (unfold slen; lia). split; [|done].
    intros (p&rest&->&El). apply Hl. rewrite <- (ToLower_length q), <- El, ToLower_length.
    rewrite string_length_app. lia.
Qed.

Definition mark (p : string) : Prop := ToLowerASCII p = "re:" ∨ ToLowerASCII p = "fwd:".

(** A text starts with at most one mark. *)
Lemma mark_unique p q r s : mark p → mark q → p +:+ r = q +:+ s → p = q ∧ r = s.
Proof.
  intros Hp Hq E. apply string_app_inj; [|done].
  rewrite <- (ToLower_length p), <- (ToLower_length q).
  destruct Hp as [Hp|Hp], Hq as [Hq|Hq]; rewrite Hp, Hq; try done; exfalso;
    (destruct p as [|a p]; [done|]; destruct q as [|b q]; [done|]);
    rewrite !cons_app in E; injection E as <- _; unfold ToLowerASCII in *; cbn in Hp, Hq; congruence.
Qed.

Lemma remove_prefix_any ps r r' :
  Forall mark ps →
  remove_prefix ps r = Some r' ↔
  ∃ p rest, r = p +:+ rest ∧ mark p ∧ ToLowerASCII p ∈ map ToLowerASCII ps ∧ r' = TrimSpace rest.
Proof.
  induction 1 as [|q ps Hq _ IH]; [split; [done|set_solver]|].
  destruct (remove_prefix_cons q ps r) as [(p&rest&->&El&E)|[Hno E]]; rewrite E.
  - assert (mark p) as Hp by (unfold mark; by rewrite El). split.
    + intros [= <-]. exists p, rest. split_and!; [done..| |done]. cbn. rewrite El. left.
    + intros (p'&rest'&Ea&Hp'&_&->). by destruct (mark_unique p p' rest rest') as [_ ->].
  - rewrite IH. split; intros (p&rest&->&Hp&Hin&->); exists p, rest; (split_and!; [done..| |done]).
    + by right.
    + apply elem_of_cons in Hin as [Hin|Hin]; [|done]. exfalso. eauto.
Qed.

Lemma remove_prefix_spec r r' :
  remove_prefix validPrefixes r = Some r' ↔ ∃ p rest, r = p +:+ rest ∧ mark p ∧ r' = TrimSpace rest.
Proof.
  rewrite remove_prefix_any by (repeat constructor; first [by left|by right]).
  split; [naive_solver|]. intros (p&rest&?&Hp&?). exists p, rest. split_and!; [done..| |done].
  destruct Hp as [->| ->]; vm_compute; set_solver.
Qed.

(** The loop empties the text exactly when it is made of marks. *)
Lemma remove_prefixes_spec fuel r :
  (String.length r ≤ fuel)%nat → remove_prefixes fuel r = "" ↔ only_prefixes r.
Proof.
  revert r. induction fuel as [|fuel IH]; intros r Hl.
  { destruct r; [|cbn in Hl; lia]. split; [constructor|done]. }
  cbn [remove_prefixes]. destruct (remove_prefix validPrefixes r) as [r'|] eqn:E.
  - apply remove_prefix_spec in E as (p&rest&->&Hp&->).
    assert (0 < String.length p)%nat by (destruct p; [by destruct Hp|cbn; lia]).
    rewrite string_length_app in Hl. pose proof (TrimSpace_length rest) as Ht. unfold slen in Ht.
    rewrite IH by lia. split; [by constructor|]. inversion 1 as [Hnil|q rest' Hq Hr Ea].
    + destruct p; [cbn in *; lia|done].
    + by destruct (mark_unique q p rest' rest) as [-> ->].
  - split; [intros ->; constructor|]. destruct 1 as [|p rest Hp _]; [done|].
    assert (remove_prefix validPrefixes (p +:+ rest) = Some (TrimSpace rest)) by
      (apply remove_prefix_spec; by exists p, rest). congruence.
Qed.

Section accepts.
Context `{Ccr : !DkimCrypto}.

(** A subject is accepted exactly when its text, decoded and trimmed, holds the
    tag and nothing but reply and forward marks stand before its first occurrence. *)
Theorem ValidateForcedSubject_spec subject :
  ValidateForcedSubject subject = true ↔
  ∃ pre post, subject_text subject = Some (pre +:+ ReplyNeeded +:+ post) ∧
    (∀ pre' post', pre +:+ ReplyNeeded +:+ post = pre' +:+ ReplyNeeded +:+ post' →
       (String.length pre ≤ String.length pre')%nat) ∧
    only_prefixes (TrimSpace pre).
Proof.
  unfold ValidateForcedSubject. destruct (subject_text subject) as [t|]; [|naive_solver].
  assert (∀ pre, (if decide (TrimSpace pre = "") then true
     else bool_decide (remove_prefixes (String.length (TrimSpace pre)) (TrimSpace pre) = "")) = true
     ↔ only_prefixes (TrimSpace pre)) as Hloop.
  { intros pre. case_decide as E; [rewrite E; split; [constructor|done]|].
    by rewrite bool_decide_eq_true, remove_prefixes_spec. }
  destruct (str_Index t ReplyNeeded) as [n|] eqn:E.
  - apply str_Index_spec in E as (a&b&->&<-&Hmin). rewrite substring_app, Hloop. split; [by exists a, b|].
    intros (pre&post&[= Ea]&Hmin'&Hp). apply string_app_inj in Ea as Ea'; [by destruct Ea' as [-> _]|].
    apply Nat.le_antisymm; [by eapply Hmin|]. by eapply Hmin'.
  - split; [done|]. intros (pre&post&[= ->]&_). destruct (str_Index_min pre ReplyNeeded post) as (m&_&Em). congruence.
Qed.

(** Text outside the encoded words is not looked at. *)
Theorem subject_outside_text_ignored :
  base64_DecodeString "W1JlcGx5IE5lZWRlZF0=" = Ok ReplyNeeded →
  ValidateForcedSubject "do NOT =?utf-8?B?W1JlcGx5IE5lZWRlZF0=?= ever" = true.
Proof.
  intros E. assert (decodeMIMESubject "do NOT =?utf-8?B?W1JlcGx5IE5lZWRlZF0=?= ever" = Some ReplyNeeded) as Ed.
  { unfold decodeMIMESubject.
    replace (find_words _ _) with [("utf-8", "B", "W1JlcGx5IE5lZWRlZF0=")] by (vm_compute; reflexivity).
    rewrite !decide_False by (vm_compute; discriminate). cbn [mapM].
    assert (decode_word ("utf-8", "B", "W1JlcGx5IE5lZWRlZF0=") = Some ReplyNeeded) as ->; [|reflexivity].
    unfold decode_word. rewrite E, !decide_False by (vm_compute; tauto). reflexivity. }
  unfold ValidateForcedSubject, subject_text.
  replace (TrimSpace "do NOT =?utf-8?B?W1JlcGx5IE5lZWRlZF0=?= ever")
    with "do NOT =?utf-8?B?W1JlcGx5IE5lZWRlZF0=?= ever" by (vm_compute; reflexivity).
  rewrite Ed. vm_compute. reflexivity.
Qed.
End accepts.
