(* ===== verification/DkimQuery.v ===== *)
(** * x/dkim: queries

    Models x/dkim/keeper/query_server.go.  [Authenticate] also reads the
    verification keys of x/zk. *)

From S2P Require Import Prelude GoStd Sdk SdkModel ZkTypes ZkDefault ZkKeeper ZkQuery.
From S2P Require Import DkimTypes DkimKeeper DkimSubject.

(** ** Requests *)
Record PageRequest := mkPageRequest {
  pr_Key : string; pr_Offset : Z; pr_Limit : Z; pr_CountTotal : bool }.

Record QueryDkimPubKeysRequest := mkQueryDkimPubKeys {
  qd_Selector : string;
  qd_Domain : string;
  qd_PoseidonHash : string;
  (** nil is [None] *)
  qd_Pagination : option PageRequest;
}.

Record QueryAuthenticateRequest := mkQueryAuthenticate {
  qa_TxBytes : string;
  qa_EmailHash : string;
  qa_Proof : string;
  qa_PublicInputs : list string;
  qa_AllowedEmailHosts : list string;
}.

(** [IsSubset]: the map built from [b] holds exactly the elements of [b]. *)
Definition IsSubset (a b : list string) : bool := forallb (λ v, bool_decide (v ∈ b)) a.

(** ** Pagination *)
Record PageParams := mkPageParams {
  pp_limit : Z; pp_offset : Z; pp_useKey : bool; pp_countTotal : bool; pp_key : string }.

Definition page_params (p : option PageRequest) : PageParams :=
  match p with
  | None => mkPageParams 100 0 false false ""
  | Some p =>
    let limit := if negb (pr_Limit p =? 0) && (pr_Limit p <? 100) then pr_Limit p else 100 in
    if 0 <? slen (pr_Key p) then mkPageParams limit 0 true (pr_CountTotal p) (pr_Key p)
    else mkPageParams limit (pr_Offset p) false (pr_CountTotal p) ""
  end.

Abbreviation Entry := ((string * string) * DkimPubKey)%type.

(** The variables of the collecting loop.  [collected] stays at or below the limit
    and [skipped] at or below the offset, so neither counter can wrap. *)
Record Collected := mkCollected {
  c_results : list DkimPubKey;
  c_lastKey : option (string * string);
  c_skipped : Z;
  c_collected : Z;
  c_total : Z;
}.

Definition hash_matches (PoseidonHash : string) (k : DkimPubKey) : bool :=
  negb ((0 <? slen PoseidonHash) && negb (bool_decide (dk_PoseidonHash k = PoseidonHash))).

Fixpoint collect (hash : string) (p : PageParams) (c : Collected) (iter : list Entry) : Collected :=
  match iter with
  | [] => c
  | (key, k) :: iter =>
    if negb (hash_matches hash k) then collect hash p c iter
    else
      let total := u64 (c_total c + 1) in
      if negb (pp_useKey p) && (c_skipped c <? pp_offset p) then
        collect hash p (mkCollected (c_results c) (c_lastKey c) (c_skipped c + 1) (c_collected c) total) iter
      else if pp_limit p <=? c_collected c then
        let lastKey := match c_lastKey c with Some k => Some k | None => Some key end in
        let c' := mkCollected (c_results c) lastKey (c_skipped c) (c_collected c) total in
        if negb (pp_countTotal p) && pp_useKey p then c' else collect hash p c' iter
      else
        collect hash p (mkCollected (c_results c ++ [k]) (c_lastKey c) (c_skipped c) (c_collected c + 1) total) iter
  end.

Section query.
Context `{!ZkCrypto, !DkimCrypto}.
Context {DC RC PC : Type}.
Context `{!PairMap DkimPubKey DC, !CollMap string bool RC, !CollItem DkimParams PC}.
Context {VC NC SQ PI G : Type}.
Context `{!CollMap Z VKey VC, !CollMap string Z NC, !CollSequence SQ, !CollItem ZkParams PI, !GasMeter G}.
Abbreviation St := (DkimState DC RC PC).
Abbreviation Zk := (ZkState VC NC SQ PI G).
Implicit Types s : St.

Definition query_DkimPubKey s (Domain Selector : string) : outcome DkimPubKey :=
  coll_Get (d_DkimPubKeys s) (Domain, Selector).

(** [keyCodec.EncodeNonTerminal(make([]byte, 1024), key)] *)
Definition encode_key (key : string * string) : outcome string := pair_EncodeNonTerminal 1024 key.

(** Moves to the first key at or after the pagination key. *)
Fixpoint fast_forward (paginationKey : string) (iter : list Entry) : outcome (list Entry) :=
  match iter with
  | [] => Ok []
  | (key, k) :: rest =>
    bz ← encode_key key;
    if negb (String.ltb bz paginationKey) then Ok iter else fast_forward paginationKey rest
  end.

(** The records in the order of the iterator. *)
Definition iterate s (Domain : string) : outcome (list Entry) :=
  if decide (Domain ≠ "") then pair_Prefixed (d_DkimPubKeys s) Domain else coll_Entries (d_DkimPubKeys s).

(** The response: the records, and the next key with the total unless the lookup was direct. *)
Definition query_DkimPubKeys s (msg : QueryDkimPubKeysRequest) : outcome (list DkimPubKey * option (string * Z)) :=
  if decide (qd_Domain msg ≠ "" ∧ qd_Selector msg ≠ "") then
    k ← (coll_Get (d_DkimPubKeys s) (qd_Domain msg, qd_Selector msg) : outcome DkimPubKey);
    Ok ([k], None)
  else
    let p := page_params (qd_Pagination msg) in
    iter ← iterate s (qd_Domain msg);
    iter ← (if pp_useKey p && (0 <? slen (pp_key p)) then fast_forward (pp_key p) iter else Ok iter);
    let c := collect (qd_PoseidonHash msg) p (mkCollected [] None 0 0 0) iter in
    nextKey ← match c_lastKey c with Some key => encode_key key | None => Ok "" end;
    Ok (c_results c, Some (nextKey, c_total c)).

Definition query_Params s : outcome DkimParams := DkimGetParams s.

(** The text of the public inputs in a range. *)
Definition input_text (inputs : list string) (r : IndexRange) : outcome string :=
  part ← slice inputs (ir_Start r) (ir_End r);
  ints ← map_err (λ _, ErrInvalidPublicInput) (ConvertStringArrayToBigInt part);
  map_err (λ _, ErrInvalidPublicInput) (ConvertBigIntArrayToString ints).

(** The part under [recover]. *)
Definition verify_dkim_proof (z : Zk) (params : DkimParams) (req : QueryAuthenticateRequest) : outcome bool :=
  recovering (Plain "codes.Internal")
    (snarkProof ← UnmarshalCircomProofJSON (qa_Proof req);
     vkey ← GetCircomVKeyByID z (VkeyIdentifier params);
     Keeper_Verify snarkProof vkey (qa_PublicInputs req)).

Definition Authenticate s (z : Zk) (req : QueryAuthenticateRequest) : outcome bool :=
  params ← item_Get (d_Params s);
  let indices := dp_PublicInputIndices params in
  let inputs := qa_PublicInputs req in
  _ ← fail_if (MaxDKIMProofSizeBytes <? u64 (slen (qa_Proof req))) ErrDkimProofTooLarge;
  _ ← fail_if (u64 (llen inputs) <? MinLength indices) ErrNotEnoughPublicInputs;
  emailHash ← index inputs (EmailHashIndex indices);
  _ ← fail_if (negb (bool_decide (qa_EmailHash req = emailHash))) ErrEmailHashMismatch;
  txBytes ← input_text inputs (TxBytesRange indices);
  _ ← fail_if (negb (bool_decide (qa_TxBytes req = txBytes))) ErrTxBytesMismatch;
  dkimDomain ← input_text inputs (DkimDomainRange indices);
  dkimHash ← index inputs (DkimHashIndex indices);
  dkimHashBig ← or_fail (big_SetString dkimHash 10) ErrInvalidPublicInput;
  '(keys, _) ← query_DkimPubKeys s (mkQueryDkimPubKeys "" dkimDomain (big_Bytes dkimHashBig) None);
  _ ← fail_if (llen keys =? 0) ErrNoDkimPubKey;
  emailHost ← input_text inputs (EmailHostRange indices);
  _ ← fail_if (bool_decide (emailHost = "")) ErrEmailHostMismatch;
  _ ← fail_if (llen (qa_AllowedEmailHosts req) =? 0) ErrEmailHostMismatch;
  _ ← fail_if (negb (IsSubset [emailHost] (qa_AllowedEmailHosts req))) ErrEmailHostMismatch;
  emailSubject ← input_text inputs (EmailSubjectRange indices);
  _ ← fail_if (negb (ValidateForcedSubject emailSubject)) ErrInvalidEmailSubject;
  verify_dkim_proof z params req.
End query.

(** ** Pages *)

(** A client that follows the next keys: the concatenation of the pages. *)
Fixpoint walk_pages (fuel : nat) (query : string → outcome (list DkimPubKey * option (string * Z)))
    (key : string) : outcome (list DkimPubKey) :=
  match fuel with
  | O => Err (Plain "out of fuel")
  | S fuel =>
    '(page, next) ← query key;
    match next with
    | Some (nextKey, _) =>
      if decide (nextKey = "") then Ok page
      else rest ← walk_pages fuel query nextKey; Ok (page ++ rest)
    | None => Ok page
    end
  end.

(** The entries of a listing that pass the hash filter. *)
Abbreviation matching hash l := (filter (λ e : Entry, hash_matches hash e.2 = true) l).

Lemma filter_cons_bool hash (e : Entry) l :
  matching hash (e :: l) = if hash_matches hash e.2 then e :: matching hash l else matching hash l.
Proof. rewrite filter_cons. by destruct (hash_matches hash e.2). Qed.

(** The loop once the page is full: nothing more is collected and the first further
    match is remembered. *)
Lemma collect_full hash p c l :
  pp_limit p ≤ c_collected c → (pp_useKey p = true ∨ pp_offset p ≤ c_skipped c) →
  c_results (collect hash p c l) = c_results c ∧
  c_lastKey (collect hash p c l) =
    match c_lastKey c with Some k => Some k | None => fst <$> head (matching hash l) end.
Proof.
  revert c. induction l as [|[key k] l IH]; intros c Hf Ho; cbn [collect]; [by destruct (c_lastKey c)|].
  rewrite filter_cons_bool. cbn [snd]. destruct (hash_matches hash k); cbn [negb]; [|by apply IH].
  assert (negb (pp_useKey p) && (c_skipped c <? pp_offset p) = false) as -> by (destruct Ho as [->|]; lia).
  rewrite (proj2 (Z.leb_le _ _)) by done.
  case_match; [cbn; by destruct (c_lastKey c)|]. match goal with |- context [collect hash p ?c' l] => destruct (IH c') as [-> ->] end;
    [done|done|]. cbn. by destruct (c_lastKey c).
Qed.

(** The loop from any point: it takes the matches up to the limit. *)
Lemma collect_spec hash p c l :
  0 ≤ c_collected c ≤ pp_limit p → (pp_useKey p = true ∨ pp_offset p ≤ c_skipped c) → c_lastKey c = None →
  let room := Z.to_nat (pp_limit p - c_collected c) in
  c_results (collect hash p c l) = c_results c ++ (matching hash l).*2 ∧ (length (matching hash l) ≤ room)%nat ∧
    c_lastKey (collect hash p c l) = None ∨
  ∃ e rest, drop room (matching hash l) = e :: rest ∧
    c_results (collect hash p c l) = c_results c ++ (take room (matching hash l)).*2 ∧
    c_lastKey (collect hash p c l) = Some e.1.
Proof.
  revert c. induction l as [|[key k] l IH]; intros c Hc Ho Hn; cbn [collect].
  { left. cbn. rewrite app_nil_r. split_and!; [done|lia|done]. }
  rewrite !filter_cons_bool. cbn [snd]. destruct (hash_matches hash k) eqn:Hk; cbn [negb]; [|by apply IH].
  assert (negb (pp_useKey p) && (c_skipped c <? pp_offset p) = false) as -> by (destruct Ho as [->|]; lia).
  destruct (pp_limit p <=? c_collected c) eqn:Hfull.
  - right. assert (pp_limit p - c_collected c = 0) as -> by lia. cbn. eexists (key, k), _. split; [done|].
    rewrite app_nil_r, Hn. case_match; [done|].
    match goal with |- context [collect hash p ?c' l] => destruct (collect_full hash p c' l) as [-> ->] end; cbn; (done || lia).
  - match goal with |- context [collect hash p ?c' l] => specialize (IH c') end.
    cbn [c_collected c_results c_skipped c_lastKey] in IH. cbn zeta in IH.
    replace (Z.to_nat (pp_limit p - c_collected c)) with (S (Z.to_nat (pp_limit p - (c_collected c + 1)))) by lia.
    destruct IH as [(->&Hl&->)|(e&rest&Hd&->&->)]; [lia|done|done|left|right; exists e, rest];
      cbn; rewrite <- app_assoc; [split_and!; [done|lia|done]|done].
Qed.

(** A NUL at the end keeps the order of strings. *)
Lemma str_lt_snoc_nul x y : str_lt x y → str_lt (x +:+ NUL) (y +:+ NUL).
Proof.
  unfold str_lt, String.ltb. revert y. induction x as [|a x IH]; intros [|b y]; try done.
  - intros _. change ("" +:+ NUL) with NUL. change (String b y +:+ NUL) with (String b (y +:+ NUL)). cbn.
    destruct (Ascii.compare (byte_of 0) b) eqn:E; [by destruct y|done|]. by destruct b as [[] [] [] [] [] [] [] []].
  - change (String a x +:+ NUL) with (String a (x +:+ NUL)). change (String b y +:+ NUL) with (String b (y +:+ NUL)).
    cbn. destruct (Ascii.compare a b); [apply IH|done|done].
Qed.

Section pages.
Context `{Ccr : !ZkCrypto, Cdk : !DkimCrypto}.
Context {DC RC PC : Type}.
Context `{Cd : !PairMap DkimPubKey DC, Cdl : !PairMapLaws DkimPubKey DC}.
Context `{Cr : !CollMap string bool RC, Cp : !CollItem DkimParams PC}.
Abbreviation St := (DkimState DC RC PC).
Implicit Types s : St.

(** The key fits the buffer of the pagination code. *)
Definition key_fits (key : string * string) : Prop :=
  no_nul key.1 ∧ no_nul key.2 ∧ slen key.1 + slen key.2 + 2 ≤ 1024.

Lemma encode_key_fits key : key_fits key → encode_key (DC := DC) key = Ok (pair_key key +:+ NUL).
Proof. intros (?&?&?). by apply pair_EncodeNonTerminal_spec. Qed.

Abbreviation sorted l := (StronglySorted (λ a b : Entry, str_lt (pair_key a.1) (pair_key b.1)) l).

(** Moving to the key of an entry leaves the listing from that entry on. *)
Lemma fast_forward_to pre e post :
  Forall (λ e : Entry, key_fits e.1) (pre ++ e :: post) → sorted (pre ++ e :: post) →
  fast_forward (DC := DC) (pair_key e.1 +:+ NUL) (pre ++ e :: post) = Ok (e :: post).
Proof.
  induction pre as [|[key k] pre IH]; cbn [app fast_forward]; intros Hf Hs.
  - destruct e as [key k]. cbn [fast_forward fst]. rewrite encode_key_fits, bind_Ok_l by (by inversion Hf).
    destruct (String.ltb _ _) eqn:E; [|done]. by apply (irreflexivity str_lt) in E.
  - apply Forall_cons in Hf as [Hk Hf]. inversion Hs as [|?? Hs' Hlt]; subst.
    rewrite encode_key_fits, bind_Ok_l by done. rewrite Forall_forall in Hlt.
    assert (str_lt (pair_key key) (pair_key e.1)) as Hke by (apply (Hlt e); set_solver).
    apply str_lt_snoc_nul in Hke. unfold str_lt in Hke. rewrite Hke. by apply IH.
Qed.

Lemma iterate_sorted s dom l : iterate s dom = Ok l → sorted l.
Proof.
  unfold iterate. case_decide.
  - intros E. destruct (decide (no_nul dom)) as [Hd|Hd];
      [|destruct (pair_Prefixed_bad (d_DkimPubKeys s) dom Hd) as [? Hbad]; congruence].
    destruct (coll_Entries_spec (d_DkimPubKeys s)) as (l0&El&_).
    erewrite pair_Prefixed_spec in E by done. injection E as <-. apply StronglySorted_filter.
    by apply (pair_Entries_sorted (d_DkimPubKeys s)).
  - apply pair_Entries_sorted.
Qed.

Definition page_query s (dom hash : string) (limit : Z) (countTotal : bool) (key : string) :=
  query_DkimPubKeys s (mkQueryDkimPubKeys "" dom hash (Some (mkPageRequest key 0 limit countTotal))).

(** The pages are asked for at the start or at the key of an entry. *)
Definition page_start (key : string) (pre from : list Entry) : Prop :=
  key = "" ∧ pre = [] ∨ ∃ e post, from = e :: post ∧ key = pair_key e.1 +:+ NUL.

Lemma snoc_nul_nonempty x : x +:+ NUL ≠ "".
Proof. by destruct x. Qed.

Lemma page_params_limit key limit ct :
  0 ≤ limit → ∃ n o, page_params (Some (mkPageRequest key 0 limit ct)) = mkPageParams n 0 o ct key ∧
    1 ≤ n ≤ 100 ∧ o = (0 <? slen key).
Proof.
  intros Hl. unfold page_params. cbn [pr_Limit pr_Key pr_Offset pr_CountTotal].
  destruct (0 <? slen key) eqn:E; [|assert (key = "") as -> by (by destruct key)];
    eexists _, _; (split; [done|]); (split; [|done]); destruct (negb _ && _) eqn:?; lia.
Qed.

(** One page: the first matches from the position on, and where the next page starts. *)
Lemma page_run s dom hash limit ct key pre from :
  0 ≤ limit → iterate s dom = Ok (pre ++ from) → Forall (λ e : Entry, key_fits e.1) (pre ++ from) →
  page_start key pre from → ∃ n page next total, (0 < n)%nat ∧
  page_query s dom hash limit ct key = Ok (page, Some (next, total)) ∧
  (page = (matching hash from).*2 ∧ next = "" ∨
   ∃ e mid post, from = mid ++ e :: post ∧ page = (matching hash mid).*2 ∧
     length (matching hash mid) = n ∧ next = pair_key e.1 +:+ NUL).
Proof.
  intros Hl Hit Hfit Hst. unfold page_query, query_DkimPubKeys. cbn [qd_Selector qd_Domain qd_Pagination qd_PoseidonHash].
  rewrite decide_False by naive_solver. destruct (page_params_limit key limit ct Hl) as (n&o&->&Hn&->).
  cbn [pp_useKey pp_key]. rewrite Hit, bind_Ok_l. set (p := mkPageParams n 0 (0 <? slen key) ct key).
  assert ((if (0 <? slen key) && (0 <? slen key) then fast_forward (DC := DC) key (pre ++ from) else Ok (pre ++ from))
          = Ok from) as ->.
  { destruct Hst as [[-> ->]|(e&post&->&->)]; [done|].
    rewrite (proj2 (Z.ltb_lt _ _)) by (pose proof (slen_nonneg (pair_key e.1 +:+ NUL));
      pose proof (slen_ne_0 _ (snoc_nul_nonempty (pair_key e.1))); lia).
    apply fast_forward_to; [done|]. by apply (iterate_sorted s dom). }
  rewrite bind_Ok_l. exists (Z.to_nat n).
  destruct (collect_spec hash p (mkCollected [] None 0 0 0) from) as [(->&_&->)|(e&rest&Hd&->&->)];
    [cbn; lia|right; cbn; lia|done| |]; cbn [c_results app].
  - eexists _, "", _. split; [lia|]. split; [done|]. by left.
  - cbn [c_collected p pp_limit] in *. rewrite Z.sub_0_r in *.
    pose proof (f_equal length Hd) as Hlen. rewrite length_drop in Hlen. cbn in Hlen.
    apply filter_split in Hd as (mid&post&->&Hmid&_). rewrite <- Hmid, encode_key_fits by
      (rewrite !Forall_app in Hfit; destruct Hfit as (_&_&Hfit); by apply Forall_cons in Hfit as [? _]).
    eexists _, _, _. split; [lia|]. split; [done|]. right. exists e, mid, post. split_and!; [done..| |done].
    rewrite Hmid, length_take. lia.
Qed.

Lemma walk_from s dom hash limit ct fuel key pre from :
  0 ≤ limit → iterate s dom = Ok (pre ++ from) → Forall (λ e : Entry, key_fits e.1) (pre ++ from) →
  page_start key pre from → (length from < fuel)%nat →
  walk_pages fuel (page_query s dom hash limit ct) key = Ok ((matching hash from).*2).
Proof.
  intros Hl. revert key pre from. induction fuel as [|fuel IH]; intros key pre from Hit Hfit Hst Hfuel; [lia|].
  cbn [walk_pages]. destruct (page_run s dom hash limit ct key pre from Hl Hit Hfit Hst)
    as (n&page&next&total&Hn&->&Hor). rewrite bind_Ok_l.
  destruct Hor as [[-> ->]|(e&mid&post&->&->&Hlen&->)]; [done|].
  rewrite decide_False by apply snoc_nul_nonempty.
  assert (0 < length mid)%nat by (destruct mid; cbn in *; lia).
  rewrite length_app in Hfuel. rewrite (IH _ (pre ++ mid) (e :: post)).
  - by rewrite bind_Ok_l, filter_app, fmap_app.
  - by rewrite <- app_assoc.
  - by rewrite <- app_assoc.
  - right. eauto.
  - lia.
Qed.

(** The records of a domain, or all records for the empty domain, in key order. *)
Lemma iterate_run s dom : no_nul dom →
  ∃ l, iterate s dom = Ok l ∧
    l ≡ₚ map_to_list (filter (λ kv, dom = "" ∨ kv.1.1 = dom) (pubkeys s)).
Proof.
  intros Hd. destruct (coll_Entries_spec (d_DkimPubKeys s)) as (l&El&Hp). unfold iterate. case_decide as Hne.
  - eexists. split; [by apply pair_Prefixed_spec|]. rewrite Hp.
    apply NoDup_Permutation; [apply NoDup_filter, NoDup_map_to_list|apply NoDup_map_to_list|].
    intros [key k]. rewrite list_elem_of_filter, !elem_of_map_to_list, map_lookup_filter_Some. naive_solver.
  - assert (dom = "") as -> by (by destruct dom). exists l. split; [done|]. rewrite Hp.
    rewrite map_filter_id; [done|]. naive_solver.
Qed.

(** C25. Following the next keys page by page returns every record of the domain
    that passes the hash filter exactly once and in key order, whatever the page size. *)
Theorem dkim_pages s dom hash limit countTotal fuel :
  0 ≤ limit → no_nul dom → (∀ key k, pubkeys s !! key = Some k → key_fits key) →
  (size (pubkeys s) < fuel)%nat →
  ∃ l, walk_pages fuel (page_query s dom hash limit countTotal) "" = Ok (l.*2) ∧ sorted l ∧
    ∀ key k, (key, k) ∈ l ↔
      pubkeys s !! key = Some k ∧ (dom = "" ∨ key.1 = dom) ∧ (hash = "" ∨ dk_PoseidonHash k = hash).
Proof.
  intros Hl Hd Hfit Hfuel. destruct (iterate_run s dom Hd) as (l&Hit&Hp). exists (matching hash l). split_and!.
  - apply (walk_from s dom hash limit countTotal fuel "" [] l Hl Hit).
    + cbn. rewrite Hp. apply Forall_forall. intros [key k] Hin%elem_of_map_to_list.
      apply map_lookup_filter_Some in Hin as [Hk _]. by eapply Hfit.
    + by left.
    + rewrite Hp, length_map_to_list. eapply Nat.le_lt_trans; [|exact Hfuel].
      apply map_size_filter.
  - apply StronglySorted_filter. by apply (iterate_sorted s dom).
  - intros key k. rewrite list_elem_of_filter, Hp, elem_of_map_to_list, map_lookup_filter_Some. cbn [fst snd].
    assert (hash_matches hash k = true ↔ hash = "" ∨ dk_PoseidonHash k = hash) as ->; [|naive_solver].
    unfold hash_matches. destruct (decide (hash = "")) as [->|Hne]; [naive_solver|].
    rewrite (proj2 (Z.ltb_lt 0 (slen hash))) by (pose proof (slen_nonneg hash); pose proof (slen_ne_0 _ Hne); lia).
    cbn. rewrite negb_involutive, bool_decide_eq_true. naive_solver.
Qed.
End pages.

(** ** Authentication *)
Section authenticate.
Context `{Ccr : !ZkCrypto, Cdk : !DkimCrypto}.
Context {DC RC PC : Type}.
Context `{Cd : !PairMap DkimPubKey DC, Cdl : !PairMapLaws DkimPubKey DC}.
Context `{Cr : !CollMap string bool RC, Cp : !CollItem DkimParams PC, Cpl : !CollItemLaws DkimParams PC}.
Context {VC NC SQ PI G : Type}.
Context `{Cv : !CollMap Z VKey VC, Cn : !CollMap string Z NC, Cq : !CollSequence SQ}.
Context `{Cz : !CollItem ZkParams PI, Cg : !GasMeter G}.
Abbreviation St := (DkimState DC RC PC).
Abbreviation Zk := (ZkState VC NC SQ PI G).
Implicit Types (s : St) (z : Zk).

(** Every record that the lookup returns is stored, in the domain and with the hash
    when these are given. *)
Lemma query_DkimPubKeys_stored s dom hash keys next k :
  query_DkimPubKeys s (mkQueryDkimPubKeys "" dom hash None) = Ok (keys, next) → k ∈ keys →
  ∃ key, pubkeys s !! key = Some k ∧ (dom = "" ∨ key.1 = dom) ∧ (hash = "" ∨ dk_PoseidonHash k = hash).
Proof.
  unfold query_DkimPubKeys. cbn [qd_Selector qd_Domain qd_Pagination qd_PoseidonHash].
  rewrite decide_False by naive_solver. cbn [page_params pp_useKey andb].
  intros (l&Hit&E)%bind_Ok Hk. rewrite bind_Ok_l in E. apply bind_Ok in E as (nk&_&E). injection E as <- _.
  assert (k ∈ (matching hash l).*2) as Hin.
  { destruct (collect_spec hash (page_params None) (mkCollected [] None 0 0 0) l) as [(Er&_)|(e&rest&Hd&Er&_)];
      [cbn; lia|right; cbn; lia|done| |]; cbn [page_params] in Er; rewrite Er in Hk; cbn [c_results app] in Hk; [done|].
    apply list_elem_of_fmap in Hk as (x&->&Hx). apply list_elem_of_fmap_2. by eapply subseteq_take. }
  apply list_elem_of_fmap in Hin as ([key k']&->&[Hm Hin]%list_elem_of_filter). cbn [snd] in *.
  assert (no_nul dom) as Hd.
  { destruct (decide (no_nul dom)) as [|Hd]; [done|]. destruct (pair_Prefixed_bad (d_DkimPubKeys s) dom Hd) as [e He].
    unfold iterate in Hit. case_decide as Hne; [congruence|].
    assert (dom = "") as -> by (by destruct dom). destruct Hd. constructor. }
  destruct (iterate_run s dom Hd) as (l'&Hit'&Hp). rewrite Hit in Hit'. injection Hit' as <-.
  rewrite Hp in Hin. apply elem_of_map_to_list, map_lookup_filter_Some in Hin as [Hst Hdom]. cbn [fst] in Hdom.
  exists key. split_and!; [done..|]. destruct (decide (hash = "")); [by left|right].
  unfold hash_matches in Hm. rewrite (proj2 (Z.ltb_lt 0 (slen hash))) in Hm by
    (pose proof (slen_nonneg hash); pose proof (slen_ne_0 hash); naive_solver lia).
  cbn in Hm. by rewrite negb_involutive, bool_decide_eq_true in Hm.
Qed.

(** C14. [Authenticate] answers only when the request agrees with the public inputs:
    the transaction bytes, the email hash, a stored record for the domain and key hash,
    an allowed host and an accepted subject; and the answer is the verifier's. *)
Theorem Authenticate_answers s z req b :
  Authenticate s z req = Ok b →
  ∃ params, item_Get (d_Params s) = Ok params ∧
  let ix := dp_PublicInputIndices params in let ins := qa_PublicInputs req in
  u64 (slen (qa_Proof req)) ≤ MaxDKIMProofSizeBytes ∧
  index ins (EmailHashIndex ix) = Ok (qa_EmailHash req) ∧
  input_text ins (TxBytesRange ix) = Ok (qa_TxBytes req) ∧
  (∃ dom hashText hash key k, input_text ins (DkimDomainRange ix) = Ok dom ∧
     index ins (DkimHashIndex ix) = Ok hashText ∧ big_SetString hashText 10 = Some hash ∧
     pubkeys s !! key = Some k ∧ (dom = "" ∨ key.1 = dom) ∧
     (big_Bytes hash = "" ∨ dk_PoseidonHash k = big_Bytes hash)) ∧
  (∃ host, input_text ins (EmailHostRange ix) = Ok host ∧ host ≠ "" ∧ host ∈ qa_AllowedEmailHosts req) ∧
  (∃ subject, input_text ins (EmailSubjectRange ix) = Ok subject ∧ ValidateForcedSubject subject = true) ∧
  (∃ proof v vk, UnmarshalCircomProofJSON (qa_Proof req) = Ok proof ∧
     GetVKeyByID z (VkeyIdentifier params) = Ok v ∧ UnmarshalVKey (Some v) = Ok vk ∧
     Keeper_Verify proof vk ins = Ok b).
Proof.
  intros (params&Hp&E)%bind_Ok. exists params. split; [done|]. cbn zeta in *.
  apply fail_if_bind in E as [Hsize E]. apply fail_if_bind in E as [_ E].
  apply bind_Ok in E as (eh&Heh&E). apply fail_if_bind in E as [Hme E].
  apply bind_Ok in E as (tx&Htx&E). apply fail_if_bind in E as [Hmt E].
  apply bind_Ok in E as (dom&Hdom&E). apply bind_Ok in E as (ht&Hht&E). apply bind_Ok in E as (h&Hh&E).
  apply or_fail_Ok in Hh. apply bind_Ok in E as ([keys next]&Hq&E). apply fail_if_bind in E as [Hlen E].
  apply bind_Ok in E as (host&Hhost&E). apply fail_if_bind in E as [Hne E]. apply fail_if_bind in E as [_ E].
  apply fail_if_bind in E as [Hsub E]. apply bind_Ok in E as (subj&Hsubj&E). apply fail_if_bind in E as [Hv E].
  apply negb_false_iff in Hme, Hmt, Hsub, Hv. apply bool_decide_eq_true in Hme, Hmt. subst eh tx.
  destruct keys as [|k keys]; [done|].
  destruct (query_DkimPubKeys_stored _ _ _ _ _ k Hq) as (key&?&?&?); [left|].
  apply recovering_Ok in E. apply bind_Ok in E as (proof&Hproof&E). apply bind_Ok in E as (vk&Hvk&E).
  unfold GetCircomVKeyByID in Hvk. apply bind_Ok in Hvk as (v&Hvk&Hu).
  split_and!; [by apply Z.ltb_ge in Hsize|done|done| | | |].
  - by exists dom, ht, h, key, k.
  - exists host. split_and!; [done|by apply bool_decide_eq_false in Hne|].
    cbn in Hsub. rewrite andb_true_r in Hsub. by apply bool_decide_eq_true in Hsub.
  - by exists subj.
  - by exists proof, v, vk.
Qed.

(** The stored parameters, if any, name inputs within the required length. *)
Definition indices_ok (p : PublicInputIndices) : Prop :=
  PublicInputIndices_Validate p = Ok tt ∧ 0 ≤ EmailHashIndex p ∧ 0 ≤ DkimHashIndex p ∧
  0 ≤ ir_Start (DkimDomainRange p) ∧ 0 ≤ ir_Start (TxBytesRange p) ∧
  0 ≤ ir_Start (EmailHostRange p) ∧ 0 ≤ ir_Start (EmailSubjectRange p).

Lemma validated_ranges p : PublicInputIndices_Validate p = Ok tt →
  EmailHashIndex p < MinLength p ∧ DkimHashIndex p < MinLength p ∧
  ∀ r, r ∈ [DkimDomainRange p; TxBytesRange p; EmailHostRange p; EmailSubjectRange p] →
    ir_Start r < ir_End r ∧ ir_End r ≤ MinLength p.
Proof.
  unfold PublicInputIndices_Validate, IndexRange_Validate. intros E. inv_ok. split_and!; [lia..|].
  intros r Hr. rewrite !elem_of_cons, elem_of_nil in Hr. destruct_or! Hr; subst; try done; lia.
Qed.

Lemma index_no_panic {A} (l : list A) i : 0 ≤ i < llen l → no_panic (index l i).
Proof.
  intros. unfold index, llen in *. rewrite decide_True by lia.
  destruct (lookup_lt_is_Some_2 l (Z.to_nat i)) as [x ->]; [lia|done].
Qed.

Lemma input_text_no_panic ins r : 0 ≤ ir_Start r ≤ ir_End r → ir_End r ≤ llen ins → no_panic (input_text ins r).
Proof.
  intros. unfold input_text, slice. rewrite decide_True, bind_Ok_l by lia.
  apply no_panic_bind; [|intros; by apply no_panic_map_err]. apply no_panic_map_err.
  apply no_panic_fold. intros. auto with panics.
Qed.

Lemma query_DkimPubKeys_no_panic s dom hash :
  (∀ key k, pubkeys s !! key = Some k → key_fits key) →
  no_panic (query_DkimPubKeys s (mkQueryDkimPubKeys "" dom hash None)).
Proof.
  intros Hfit. unfold query_DkimPubKeys. cbn [qd_Selector qd_Domain qd_Pagination qd_PoseidonHash].
  rewrite decide_False by naive_solver. cbn [page_params pp_useKey andb].
  destruct (decide (no_nul dom)) as [Hd|Hd].
  - destruct (iterate_run s dom Hd) as (l&->&Hp). rewrite !bind_Ok_l.
    apply no_panic_bind; [|intros; apply no_panic_Ok].
    destruct (collect_spec hash (page_params None) (mkCollected [] None 0 0 0) l) as [(_&_&E)|(e&rest&Hdr&_&E)];
      [cbn; lia|right; cbn; lia|done| |]; cbn [page_params] in E; rewrite E; [done|].
    apply filter_split in Hdr as (pre&post&->&_). rewrite encode_key_fits; [done|].
    destruct e as [key k]. assert ((key, k) ∈ pre ++ (key, k) :: post) as Hin by set_solver.
    rewrite Hp in Hin. apply elem_of_map_to_list, map_lookup_filter_Some in Hin as [Hk _]. by eapply Hfit.
  - unfold iterate. case_decide as Hne.
    + by destruct (pair_Prefixed_bad (d_DkimPubKeys s) dom Hd) as [e ->].
    + assert (dom = "") as -> by (by destruct dom). destruct Hd. constructor.
Qed.

(** With validated parameters and keys that fit the pagination buffer, no
    request makes [Authenticate] panic. *)
Theorem Authenticate_no_panic s z req :
  (∀ params, item_contents (d_Params s) = Some params → indices_ok (dp_PublicInputIndices params)) →
  (∀ key k, pubkeys s !! key = Some k → key_fits key) → llen (qa_PublicInputs req) < 2 ^ 64 →
  Authenticate s z req ≠ Panic.
Proof.
  intros Hix Hfit Hlen. change (no_panic (Authenticate s z req)). unfold Authenticate.
  rewrite item_Get_spec. destruct (item_contents (d_Params s)) as [params|]; [|done]. cbn [or_fail]. rewrite bind_Ok_l.
  destruct (Hix params eq_refl) as (Hv&?&?&?&?&?&?). apply validated_ranges in Hv as (?&?&Hr).
  pose proof (llen_nonneg (qa_PublicInputs req)).
  apply no_panic_bind; [apply no_panic_fail_if|]. intros [] _.
  apply no_panic_bind; [apply no_panic_fail_if|]. intros [] Hmin%fail_if_Ok%Z.ltb_ge.
  rewrite u64_small in Hmin by (split; lia).
  assert (∀ r, r ∈ [DkimDomainRange (dp_PublicInputIndices params); TxBytesRange (dp_PublicInputIndices params);
    EmailHostRange (dp_PublicInputIndices params); EmailSubjectRange (dp_PublicInputIndices params)] →
    0 ≤ ir_Start r → no_panic (input_text (qa_PublicInputs req) r)) as Htext.
  { intros r Hin Hs. destruct (Hr r Hin). apply input_text_no_panic; lia. }
  repeat first
    [ apply no_panic_bind; [first [apply no_panic_fail_if | apply no_panic_or_fail | apply index_no_panic; lia
        | apply Htext; [set_solver|done] | by apply query_DkimPubKeys_no_panic]|]; intros ? _
    | case_match ].
  apply no_panic_recovering.
Qed.
End authenticate.

(** ** Witnesses *)
Definition ex_dkim_params : DkimParams := mkDkimParams 1 512
  (mkIndices 6 0 (mkIndexRange 1 2) 2 (mkIndexRange 3 4) (mkIndexRange 4 5) (mkIndexRange 5 6)).
Definition ex_dkim2 : DkimState (pair_store DkimPubKey) (gmap string bool) (option DkimParams) :=
  mkDkimState (PairStore {[ ("a.com", "s1") := mkDkimPubKey "a.com" "n" (big_Bytes 7) "s1" 0 0;
                            ("a.com", "s2") := mkDkimPubKey "a.com" "m" (big_Bytes 8) "s2" 0 0 ]})
    ∅ (Some ex_dkim_params).
(** The elements that pack a.com, tx, b.com and the tag. *)
Definition ex_auth : QueryAuthenticateRequest := mkQueryAuthenticate "tx" "42" "proof"
  ["42"; "470020206177"; "7"; "30836"; "470020206178"; "1894218288748433466055627131671131"] ["b.com"].

Lemma ex_dkim2_fits key k : pubkeys ex_dkim2 !! key = Some k → key_fits key.
Proof.
  unfold pubkeys. cbn. unfold pair_live. intros [Hk _]%map_lookup_filter_Some. cbn [pair_gmap] in Hk.
  apply lookup_insert_Some in Hk as [[<- _]|[_ Hk]]; [|apply lookup_singleton_Some in Hk as [<- _]];
    (split_and!; [repeat constructor; discriminate..|vm_compute; discriminate]).
Qed.

Lemma dkim_pages_witness :
  ∃ l, walk_pages 4 (page_query ex_dkim2 "a.com" "" 1 false) "" = Ok (l.*2) ∧
    (("a.com", "s2"), mkDkimPubKey "a.com" "m" (big_Bytes 8) "s2" 0 0) ∈ l.
Proof.
  destruct (dkim_pages ex_dkim2 "a.com" "" 1 false 4) as (l&E&_&Hin).
  - done.
  - repeat constructor; discriminate.
  - apply ex_dkim2_fits.
  - vm_compute. lia.
  - exists l. split; [exact E|]. apply Hin. split_and!; [vm_compute; reflexivity|by right|by left].
Defined.

Lemma Authenticate_answers_witness :
  Authenticate ex_dkim2 (ex_zk1 ex_circom_key) ex_auth = Ok true ∧
  ∃ params, item_Get (d_Params ex_dkim2) = Ok params.
Proof.
  assert (Authenticate ex_dkim2 (ex_zk1 ex_circom_key) ex_auth = Ok true) as E by (vm_compute; reflexivity).
  split; [exact E|]. pose proof (Authenticate_answers ex_dkim2 (ex_zk1 ex_circom_key) ex_auth true E) as H.
  destruct H as (params&Hp&_). exists params. exact Hp.
Defined.

Lemma Authenticate_no_panic_witness : Authenticate ex_dkim2 (ex_zk1 ex_circom_key) ex_auth ≠ Panic.
Proof.
  apply (Authenticate_no_panic ex_dkim2 (ex_zk1 ex_circom_key) ex_auth).
  - intros params [= <-]. vm_compute. intuition discriminate.
  - apply ex_dkim2_fits.
  - vm_compute. reflexivity.
Defined.
