(* ===== verification/Jwk.v ===== *)
(** * x/jwk: audiences, claims and token verification

    Models x/jwk: the message server and keeper (audience.go,
    msg_server_audience.go, params.go), messages and their validation, genesis,
    the migrations and the queries.  JWK parsing, JWS and JWT verification are the
    class [JwkCrypto]; stored values are encoded by the generated code of [ProtoJwk.v]. *)

From S2P Require Import Prelude GoStd ProtoWire ProtoCodec ProtoJwk Sdk SdkModel ZkTypes DkimTypes.

Definition ErrInvalidJWK : goerr := Registered "jwk" 1100.

(** ** Data; the records are those of [ProtoJwk.v] *)
(** The Go types a raw key can have. *)
Inductive RawKey :=
| RawRSAPublic (N : Z) | RawRSAPrivate
| RawECDSAPublic | RawECDSAPrivate
| RawEd25519Public | RawEd25519Private
| RawUnknown.

(** The value of a private claim, by the cases of the type switch: its text, or for
    other types the result of [json.Marshal] and the fallback text. *)
Inductive ClaimValue :=
| ClaimText (s : string)
| ClaimOther (json : option string) (text : string).

Class JwkCrypto := {
  JwkKey : Type;
  jwk_ParseKey : string → outcome JwkKey;
  jwk_Raw : JwkKey → outcome RawKey;
  jwk_Algorithm : JwkKey → string;
  jwk_KeyType : JwkKey → string;
  (** [SignatureAlgorithm.Accept] *)
  jwa_Accept : string → outcome string;
  jwk_sha256 : string → string;
  (** [jws.Verify] with [WithKey] and [WithCompact] *)
  jws_Verify : string → string → JwkKey → outcome string;
  JwtToken : Type;
  (** [jwt.Parse] with the key, audience, subject and clock, validating *)
  jwt_Parse : string → string → JwkKey → string → string → Z → outcome JwtToken;
  tok_Issuer : JwtToken → string;
  tok_Subject : JwtToken → string;
  tok_Audience : JwtToken → list string;
  (** times in Unix seconds; [None] is the zero time *)
  tok_Expiration : JwtToken → option Z;
  tok_NotBefore : JwtToken → option Z;
  tok_IssuedAt : JwtToken → option Z;
  tok_JwtID : JwtToken → string;
  (** the private claims in the order of one iteration over the map *)
  tok_PrivateClaims : JwtToken → list (string * ClaimValue);
}.

(** ** The codec of the store: the generated methods *)
Definition audience_Marshal (a : Audience) : outcome string := of_bytes <$> msg_Marshal jwk_Audience_fields a.
Definition audience_Unmarshal (b : string) : outcome Audience :=
  msg_Unmarshal jwk_Audience_fields jwk_Audience_zero (bytes_of b).
Definition claim_Marshal (c : AudienceClaim) : outcome string := of_bytes <$> msg_Marshal jwk_AudienceClaim_fields c.
Definition claim_Unmarshal (b : string) : outcome AudienceClaim :=
  msg_Unmarshal jwk_AudienceClaim_fields jwk_AudienceClaim_zero (bytes_of b).

Lemma audience_roundtrip a b : audience_Marshal a = Ok b → audience_Unmarshal b = Ok a.
Proof.
  intros (d&E&[= <-])%bind_Ok. unfold audience_Unmarshal. rewrite bytes_of_of.
  apply (marshal_unmarshal jwk_Audience_fields jwk_Audience_zero _ a); [strings_only|done].
Qed.
Lemma claim_roundtrip c b : claim_Marshal c = Ok b → claim_Unmarshal b = Ok c.
Proof.
  intros (d&E&[= <-])%bind_Ok. unfold claim_Unmarshal. rewrite bytes_of_of.
  apply (marshal_unmarshal jwk_AudienceClaim_fields jwk_AudienceClaim_zero _ c); [strings_only|done].
Qed.

(** [cdc.MustMarshal] and [cdc.MustUnmarshal] *)
Definition must_marshal {A} (x : outcome A) : outcome A := match x with Ok a => Ok a | _ => Panic end.
Definition must_unmarshal {A} (x : outcome A) : outcome A := match x with Ok a => Ok a | _ => Panic end.

(** ** Keys *)
Definition AudienceKeyPrefix : string := "Audience/value/".
Definition AudienceClaimKeyPrefix : string := "AudienceClaim/value/".
Definition AudienceKey (aud : string) : string := aud +:+ "/".
Definition AudienceClaimKey (hash : string) : string := hash +:+ "/".

(** ** Validation *)
Definition MaxJWKKeySize : Z := 2048.
Definition MaxAudSize : Z := 512.
Definition MaxRSAKeyBits : Z := 4096.

Section validation.
Context `{!JwkCrypto, !AddressCodec}.

Definition ValidateJWKKeySize (key : JwkKey) : outcome unit :=
  rawKey ← map_err (λ _, ErrInvalidJWK) (jwk_Raw key);
  match rawKey with
  | RawRSAPublic N => fail_if (MaxRSAKeyBits <? BitLen N) ErrInvalidJWK
  | RawRSAPrivate | RawECDSAPrivate | RawEd25519Private => Err ErrInvalidJWK
  | RawECDSAPublic | RawEd25519Public | RawUnknown => Ok tt
  end.

Definition rsa_algs : list string := ["RS256"; "RS384"; "RS512"; "PS256"; "PS384"; "PS512"].
Definition ecdsa_algs : list string := ["ES256"; "ES384"; "ES512"].

Definition validateJWKKeyTypeAlgConsistency (key : JwkKey) (sigAlg : string) : outcome unit :=
  let kty := jwk_KeyType key in
  let mismatch := Plain "algorithm and key type" in
  if decide (sigAlg ∈ rsa_algs) then fail_if (negb (bool_decide (kty = "RSA"))) mismatch
  else if decide (sigAlg ∈ ecdsa_algs) then fail_if (negb (bool_decide (kty = "EC"))) mismatch
  else if decide (sigAlg = "EdDSA") then fail_if (negb (bool_decide (kty = "OKP"))) mismatch
  else Ok tt.

(** The symmetric algorithms and the unsigned one. *)
Definition refused_algs : list string := ["HS256"; "HS384"; "HS512"; "none"].

(** The checks on a key that [MsgCreateAudience] and [MsgUpdateAudience] share. *)
Definition validate_jwk (Key : string) : outcome unit :=
  key ← map_err (λ _, ErrInvalidJWK) (jwk_ParseKey Key);
  _ ← ValidateJWKKeySize key;
  sigAlg ← jwa_Accept (jwk_Algorithm key);
  _ ← fail_if (bool_decide (sigAlg ∈ refused_algs)) (Plain "invalid algorithm");
  map_err (λ _, ErrInvalidJWK) (validateJWKKeyTypeAlgConsistency key sigAlg).

Definition valid_address (a : string) : outcome unit :=
  _ ← map_err (λ _, ErrInvalidAddress) (AccAddressFromBech32 a); Ok tt.

Definition MsgCreateAudience_ValidateBasic (msg : MsgCreateAudience) : outcome unit :=
  _ ← valid_address (cr_Admin msg);
  _ ← fail_if (MaxJWKKeySize <? slen (cr_Key msg)) ErrInvalidJWK;
  _ ← fail_if (MaxAudSize <? slen (cr_Aud msg)) ErrInvalidRequest;
  validate_jwk (cr_Key msg).

Definition MsgUpdateAudience_ValidateBasic (msg : MsgUpdateAudience) : outcome unit :=
  _ ← valid_address (ua_NewAdmin msg);
  _ ← valid_address (ua_Admin msg);
  _ ← fail_if (MaxJWKKeySize <? slen (ua_Key msg)) ErrInvalidJWK;
  _ ← fail_if (MaxAudSize <? slen (ua_Aud msg)) ErrInvalidRequest;
  _ ← fail_if (MaxAudSize <? slen (ua_NewAud msg)) ErrInvalidRequest;
  validate_jwk (ua_Key msg).

Definition MsgDeleteAudience_ValidateBasic (msg : MsgDeleteAudience) : outcome unit :=
  valid_address (da_Admin msg).

Definition MsgAudienceClaim_ValidateBasic (msg : MsgAudienceClaim) : outcome unit :=
  _ ← valid_address (mc_Admin msg);
  fail_if (negb (slen (mc_AudHash msg) =? 32)) ErrInvalidRequest.

(** *** Parameters *)
Definition JwkDefaultParams : JwkParams := mkJwkParams 30000000000 10000.

Definition validateDeploymentGas (v : Z) : outcome unit := fail_if (v =? 0) ErrInvalidRequest.

Definition validateTimeOffset (v : Z) : outcome unit :=
  _ ← fail_if (v =? 0) ErrInvalidRequest;
  fail_if (2 ^ 63 - 1 <? v) ErrInvalidRequest.

Definition JwkParams_Validate (p : JwkParams) : outcome unit :=
  _ ← validateDeploymentGas (DeploymentGas p);
  validateTimeOffset (TimeOffset p).

(** *** Genesis *)
Definition genesis_jwk_ok (Key : string) : outcome unit :=
  if decide (Key = "") then Ok tt else
  _ ← fail_if (MaxJWKKeySize <? slen Key) ErrInvalidJWK;
  parsedKey ← map_err (λ _, ErrInvalidJWK) (jwk_ParseKey Key);
  sigAlg ← map_err (λ _, ErrInvalidJWK) (jwa_Accept (jwk_Algorithm parsedKey));
  _ ← fail_if (bool_decide (sigAlg ∈ refused_algs)) ErrInvalidJWK;
  _ ← map_err (λ _, ErrInvalidJWK) (ValidateJWKKeySize parsedKey);
  map_err (λ _, ErrInvalidJWK) (validateJWKKeyTypeAlgConsistency parsedKey sigAlg).

(** The loop with the set of keys seen so far. *)
Fixpoint genesis_audiences_ok (seen : list string) (l : list Audience) : outcome unit :=
  match l with
  | [] => Ok tt
  | elem :: l =>
    _ ← valid_address (au_Admin elem);
    let index := AudienceKey (au_Aud elem) in
    _ ← fail_if (bool_decide (index ∈ seen)) (Plain "duplicated index for audience");
    _ ← genesis_jwk_ok (au_Key elem);
    genesis_audiences_ok (index :: seen) l
  end.

Definition JwkDefaultGenesis : JwkGenesis := mkJwkGenesis [] JwkDefaultParams.

Definition JwkGenesis_Validate (gs : JwkGenesis) : outcome unit :=
  _ ← genesis_audiences_ok [] (jg_AudienceList gs);
  JwkParams_Validate (jg_Params gs).
End validation.

(** ** State *)
Record JwkState (S P G : Type) := mkJwkState { j_store : S; j_params : P; j_gas : G }.
Arguments mkJwkState {S P G}.
Arguments j_store {S P G}.
Arguments j_params {S P G}.
Arguments j_gas {S P G}.

Definition ParamStoreKeyTimeOffset : string := "TimeOffset".
Definition ParamStoreKeyDeploymentGas : string := "DeploymentGas".

(** [status.Error(codes.X, ...)] *)
Definition status (code : string) : goerr := Plain code.

Section keeper.
Context `{!JwkCrypto, !AddressCodec}.
Context {S P G : Type} `{!KVStore S, !Subspace P, !GasMeter G}.
Abbreviation St := (JwkState S P G).
Implicit Types s : St.

(** *** Access to the store through the two prefix stores *)
Definition store_Set (key value : string) : M St unit := modify (λ s,
  mkJwkState (kv_set (j_store s) key value) (j_params s) (j_gas s)).
Definition store_Delete (key : string) : M St unit := modify (λ s,
  mkJwkState (kv_delete (j_store s) key) (j_params s) (j_gas s)).

Definition claim_key (hash : string) : string := AudienceClaimKeyPrefix +:+ AudienceClaimKey hash.
Definition audience_key (aud : string) : string := AudienceKeyPrefix +:+ AudienceKey aud.

Definition SetAudienceClaim (hash : string) (signer : AccAddress) : M St unit :=
  b ← lift (must_marshal (claim_Marshal (mkAudienceClaim (AccAddress_String signer))));
  store_Set (claim_key hash) b.

Definition GetAudienceClaim s (hash : string) : outcome (option AudienceClaim) :=
  match kv_get (j_store s) (claim_key hash) with
  | None => Ok None
  | Some b => Some <$> must_unmarshal (claim_Unmarshal b)
  end.

Definition RemoveAudienceClaim (audHash : string) : M St unit := store_Delete (claim_key audHash).

Definition SetAudience (audience : Audience) : M St unit :=
  b ← lift (must_marshal (audience_Marshal audience));
  store_Set (audience_key (au_Aud audience)) b.

Definition GetAudience s (aud : string) : outcome (option Audience) :=
  match kv_get (j_store s) (audience_key aud) with
  | None => Ok None
  | Some b => Some <$> must_unmarshal (audience_Unmarshal b)
  end.

Definition RemoveAudience (aud : string) : M St unit := store_Delete (audience_key aud).

Definition GetAllAudience s : outcome (list Audience) :=
  fold_outcome (λ list kv, val ← must_unmarshal (audience_Unmarshal kv.2); Ok (list ++ [val])) []
    (kv_prefix_iter (j_store s) AudienceKeyPrefix).

(** *** Parameters *)
Definition GetTimeOffset s : outcome Z := sub_Get (j_params s) ParamStoreKeyTimeOffset.
Definition GetDeploymentGas s : outcome Z := sub_Get (j_params s) ParamStoreKeyDeploymentGas.

Definition JwkGetParams s : outcome JwkParams :=
  timeOffset ← GetTimeOffset s;
  deploymentGas ← GetDeploymentGas s;
  Ok (mkJwkParams timeOffset deploymentGas).

(** [SetParamSet]: each pair is validated, a failure panics, and stored. *)
Definition set_param (key : string) (validate : Z → outcome unit) (v : Z) : M St unit := write (λ s,
  match validate v with
  | Ok _ => Ok (mkJwkState (j_store s) (sub_Set (j_params s) key v) (j_gas s))
  | _ => Panic
  end).

Definition JwkSetParams (params : JwkParams) : M St unit :=
  _ ← set_param ParamStoreKeyDeploymentGas validateDeploymentGas (DeploymentGas params);
  set_param ParamStoreKeyTimeOffset validateTimeOffset (TimeOffset params).

Definition JwkConsume (amount : Z) : M St unit := write (λ s,
  g ← ConsumeGas (j_gas s) amount; Ok (mkJwkState (j_store s) (j_params s) g)).

(** *** Messages *)
Definition CreateAudienceClaim (msg : MsgAudienceClaim) : M St unit :=
  s ← get_state;
  found ← lift (GetAudienceClaim s (mc_AudHash msg));
  _ ← lift (fail_if (bool_decide (is_Some found)) ErrInvalidRequest);
  gas ← lift (GetDeploymentGas s);
  _ ← JwkConsume gas;
  addr ← lift (AccAddressFromBech32 (mc_Admin msg));
  SetAudienceClaim (mc_AudHash msg) addr.

Definition DeleteAudienceClaim (msg : MsgAudienceClaim) : M St unit :=
  s ← get_state;
  found ← lift (GetAudienceClaim s (mc_AudHash msg));
  valFound ← lift (or_fail found ErrKeyNotFound);
  _ ← lift (fail_if (negb (bool_decide (mc_Admin msg = ac_Signer valFound))) ErrUnauthorized);
  RemoveAudienceClaim (mc_AudHash msg).

(** The name must not be taken and its claim must belong to the admin. *)
Definition check_claim s (aud admin : string) : outcome unit :=
  found ← GetAudience s aud;
  _ ← fail_if (bool_decide (is_Some found)) ErrInvalidRequest;
  foundClaim ← GetAudienceClaim s (jwk_sha256 aud);
  claim ← or_fail foundClaim ErrSdkNotFound;
  fail_if (negb (bool_decide (ac_Signer claim = admin))) ErrorInvalidSigner.

Definition CreateAudience (msg : MsgCreateAudience) : M St Audience :=
  s ← get_state;
  _ ← lift (check_claim s (cr_Aud msg) (cr_Admin msg));
  let audience := mkAudience (cr_Admin msg) (cr_Aud msg) (cr_Key msg) in
  _ ← SetAudience audience;
  mret audience.

(** The audience, which must exist and belong to the admin. *)
Definition owned_audience s (aud admin : string) : outcome Audience :=
  found ← GetAudience s aud;
  valFound ← or_fail found ErrKeyNotFound;
  _ ← fail_if (negb (bool_decide (admin = au_Admin valFound))) ErrUnauthorized;
  Ok valFound.

(** [if msg.NewAud != "" { ... }]: the name in force afterwards. *)
Definition rename_audience (msg : MsgUpdateAudience) (valFound : Audience) : M St string :=
  if decide (ua_NewAud msg ≠ "") then
    s ← get_state;
    _ ← lift (check_claim s (ua_NewAud msg) (ua_Admin msg));
    _ ← RemoveAudience (au_Aud valFound);
    _ ← RemoveAudienceClaim (jwk_sha256 (au_Aud valFound));
    mret (ua_NewAud msg)
  else mret (ua_Aud msg).

(** [if msg.NewAdmin != msg.Admin { ... }] *)
Definition transfer_claim (msg : MsgUpdateAudience) (effectiveAud : string) : M St unit :=
  if decide (ua_NewAdmin msg ≠ ua_Admin msg) then
    newAdminAddr ← lift (map_err (λ _, ErrInvalidAddress) (AccAddressFromBech32 (ua_NewAdmin msg)));
    _ ← RemoveAudienceClaim (jwk_sha256 effectiveAud);
    SetAudienceClaim (jwk_sha256 effectiveAud) newAdminAddr
  else mret tt.

Definition UpdateAudience (msg : MsgUpdateAudience) : M St Audience :=
  s ← get_state;
  valFound ← lift (owned_audience s (ua_Aud msg) (ua_Admin msg));
  aud ← rename_audience msg valFound;
  let audience := mkAudience (ua_NewAdmin msg) aud (ua_Key msg) in
  _ ← transfer_claim msg aud;
  _ ← SetAudience audience;
  mret audience.

Definition DeleteAudience (msg : MsgDeleteAudience) : M St unit :=
  s ← get_state;
  _ ← lift (owned_audience s (da_Aud msg) (da_Admin msg));
  _ ← RemoveAudience (da_Aud msg);
  RemoveAudienceClaim (jwk_sha256 (da_Aud msg)).

(** *** Genesis *)
Definition jwk_InitGenesis (gs : JwkGenesis) : M St unit :=
  _ ← for_each SetAudience (jg_AudienceList gs);
  JwkSetParams (jg_Params gs).

Definition jwk_ExportGenesis s : outcome JwkGenesis :=
  params ← JwkGetParams s;
  list ← GetAllAudience s;
  Ok (mkJwkGenesis list params).

(** *** Migrations; the third one writes without a validation *)
Definition jwk_v1_MigrateStore : M St unit := JwkSetParams JwkDefaultParams.

Definition jwk_v3_MigrateStore : M St unit := modify (λ s,
  mkJwkState (j_store s) (sub_Set (j_params s) ParamStoreKeyTimeOffset 30000000000) (j_gas s)).
End keeper.

(** ** Who may write what *)
Section access.
Context `{Ccr : !JwkCrypto, Cad : !AddressCodec}.
Context {S P G : Type} `{Ck : !KVStore S, Ckl : !KVStoreLaws S, Cp : !Subspace P, Cg : !GasMeter G}.
Abbreviation St := (JwkState S P G).
Implicit Types s : St.

Definition contents s : gmap string string := kv_contents (j_store s).

(** Every entry is an audience under its own name or a claim. *)
Definition entry_ok (k v : string) : Prop :=
  (∃ a, k = audience_key (au_Aud a) ∧ audience_Marshal a = Ok v) ∨
  (∃ h c, k = claim_key h ∧ claim_Marshal c = Ok v).
Definition jwk_wf s : Prop := map_Forall entry_ok (contents s).

Inductive JwkMsg :=
| JwkCreateClaim (m : MsgAudienceClaim)
| JwkDeleteClaim (m : MsgAudienceClaim)
| JwkCreate (m : MsgCreateAudience)
| JwkUpdate (m : MsgUpdateAudience)
| JwkDelete (m : MsgDeleteAudience).

Definition jwk_signer (m : JwkMsg) : string :=
  match m with
  | JwkCreateClaim m | JwkDeleteClaim m => mc_Admin m
  | JwkCreate m => cr_Admin m
  | JwkUpdate m => ua_Admin m
  | JwkDelete m => da_Admin m
  end.

Definition jwk_handle (m : JwkMsg) s : St :=
  match m with
  | JwkCreateClaim m => (CreateAudienceClaim m s).1
  | JwkDeleteClaim m => (DeleteAudienceClaim m s).1
  | JwkCreate m => (CreateAudience m s).1
  | JwkUpdate m => (UpdateAudience m s).1
  | JwkDelete m => (DeleteAudience m s).1
  end.

Definition owns_audience s (who aud : string) : Prop :=
  ∃ a, GetAudience s aud = Ok (Some a) ∧ au_Admin a = who.
Definition owns_claim s (who h : string) : Prop :=
  ∃ c, GetAudienceClaim s h = Ok (Some c) ∧ ac_Signer c = who.

(** The right to change the audience of a name, and the claim of a hash *)
Definition may_write_audience s (who aud : string) : Prop :=
  owns_audience s who aud ∨ GetAudience s aud = Ok None ∧ owns_claim s who (jwk_sha256 aud).
Definition may_write_claim s (who h : string) : Prop :=
  GetAudienceClaim s h = Ok None ∨ owns_claim s who h ∨ ∃ aud, h = jwk_sha256 aud ∧ owns_audience s who aud.

Definition may_write s (who k : string) : Prop :=
  (∃ aud, k = audience_key aud ∧ may_write_audience s who aud) ∨
  (∃ h, k = claim_key h ∧ may_write_claim s who h).

(** What every step of a handler keeps: entries stay well-formed and only keys that
    the signer may write in the state [s0] differ from it. *)
Definition guarded s0 who s : Prop :=
  jwk_wf s ∧ ∀ k, contents s !! k ≠ contents s0 !! k → may_write s0 who k.

Lemma guarded_refl s who : jwk_wf s → guarded s who s.
Proof. by intros. Qed.

Lemma guarded_Set s0 who s k v :
  entry_ok k v → may_write s0 who k → guarded s0 who s → guarded s0 who (store_Set k v s).1.
Proof.
  intros He Hw [Hwf Hk]. unfold guarded, jwk_wf, contents, store_Set. cbn. rewrite kv_set_spec. split.
  - by apply map_Forall_insert_2.
  - intros k'. destruct (decide (k' = k)) as [->|]; [done|]. rewrite lookup_insert_ne by done. apply Hk.
Qed.

Lemma guarded_Delete s0 who s k :
  may_write s0 who k → guarded s0 who s → guarded s0 who (store_Delete k s).1.
Proof.
  intros Hw [Hwf Hk]. unfold guarded, jwk_wf, contents, store_Delete. cbn. rewrite kv_delete_spec. split.
  - by apply map_Forall_delete.
  - intros k'. destruct (decide (k' = k)) as [->|]; [done|]. rewrite lookup_delete_ne by done. apply Hk.
Qed.

Lemma guarded_Consume s0 who s n : guarded s0 who s → guarded s0 who (JwkConsume n s).1.
Proof. unfold JwkConsume, write. by destruct (ConsumeGas (j_gas s) n). Qed.

(** A write followed by the rest of the handler. *)
Lemma guarded_modify {A} s0 who (f : St → St) (k : unit → M St A) s :
  guarded s0 who (k tt (f s)).1 → guarded s0 who ((modify f ≫= k) s).1.
Proof. done. Qed.

Lemma must_marshal_Ok {A} (x : outcome A) a : must_marshal x = Ok a → x = Ok a.
Proof. by destruct x. Qed.

Lemma guarded_SetAudience s0 who s a :
  may_write s0 who (audience_key (au_Aud a)) → guarded s0 who s → guarded s0 who (SetAudience a s).1.
Proof.
  intros Hw Hg. unfold SetAudience. apply lift_keeps; [done|]. intros v Hv%must_marshal_Ok.
  apply guarded_Set; [|done..]. left. eauto.
Qed.
Lemma guarded_SetAudienceClaim s0 who s h addr :
  may_write s0 who (claim_key h) → guarded s0 who s → guarded s0 who (SetAudienceClaim h addr s).1.
Proof.
  intros Hw Hg. unfold SetAudienceClaim. apply lift_keeps; [done|]. intros v Hv%must_marshal_Ok.
  apply guarded_Set; [|done..]. right. eauto.
Qed.

Lemma check_claim_Ok s aud admin :
  check_claim s aud admin = Ok tt → GetAudience s aud = Ok None ∧ owns_claim s admin (jwk_sha256 aud).
Proof.
  unfold check_claim. intros (o&Ho&E)%bind_Ok. apply fail_if_bind in E as [Hn%bool_decide_eq_false E].
  apply bind_Ok in E as (oc&Hc&E). apply bind_Ok in E as (c&->%or_fail_Ok&E).
  apply fail_if_Ok, negb_false_iff, bool_decide_eq_true in E.
  destruct o; [by destruct Hn|]. split; [done|]. by exists c.
Qed.

Lemma owned_audience_Ok s aud admin a :
  owned_audience s aud admin = Ok a → owns_audience s admin aud ∧ GetAudience s aud = Ok (Some a).
Proof.
  unfold owned_audience. intros (o&Ho&E)%bind_Ok. apply bind_Ok in E as (a'&->%or_fail_Ok&E).
  apply fail_if_bind in E as [Hn%negb_false_iff%bool_decide_eq_true [= ->]]. split; [|done]. by exists a.
Qed.

Lemma slash_inj a b : a +:+ "/" = b +:+ "/" → a = b.
Proof.
  intros E. apply (f_equal bytes_of) in E. rewrite !bytes_of_app in E. apply app_inj_tail in E as [E _].
  by rewrite <- (of_bytes_of a), E, of_bytes_of.
Qed.

Lemma audience_key_inj a b : audience_key a = audience_key b → a = b.
Proof. intros E. apply slash_inj. by injection E. Qed.
Lemma claim_key_inj a b : claim_key a = claim_key b → a = b.
Proof. intros E. apply slash_inj. by injection E. Qed.
Lemma audience_claim_key a h : audience_key a ≠ claim_key h.
Proof. intros E. discriminate E. Qed.

(** Reading in a well-formed store *)
Lemma GetAudience_Some s aud a : jwk_wf s → GetAudience s aud = Ok (Some a) →
  au_Aud a = aud ∧ ∃ v, contents s !! audience_key aud = Some v ∧ audience_Marshal a = Ok v.
Proof.
  intros Hwf. unfold GetAudience. rewrite kv_get_spec. fold (contents s).
  destruct (contents s !! audience_key aud) as [b|] eqn:E; [|done].
  destruct (Hwf _ _ E) as [(a'&Hk%audience_key_inj&Ha)|(h&c&Hk%audience_claim_key&_)]; [|done].
  rewrite (audience_roundtrip a') by done. cbn. intros [= <-]. split; [done|]. by exists b.
Qed.

Lemma GetAudience_total s aud : jwk_wf s → ∃ o, GetAudience s aud = Ok o.
Proof.
  intros Hwf. unfold GetAudience. rewrite kv_get_spec. fold (contents s).
  destruct (contents s !! audience_key aud) as [b|] eqn:E; [|eauto].
  destruct (Hwf _ _ E) as [(a'&Hk%audience_key_inj&Ha)|(h&c&Hk%audience_claim_key&_)]; [|done].
  rewrite (audience_roundtrip a') by done. cbn. eauto.
Qed.

(** The name in force after a rename may be written, and so may its claim. *)
Lemma rename_guarded m a s :
  jwk_wf s → owns_audience s (ua_Admin m) (ua_Aud m) → au_Aud a = ua_Aud m →
  guarded s (ua_Admin m) (rename_audience m a s).1 ∧
  ∀ s' aud, rename_audience m a s = (s', Ok aud) →
    may_write s (ua_Admin m) (audience_key aud) ∧ may_write s (ua_Admin m) (claim_key (jwk_sha256 aud)).
Proof.
  intros Hwf Hown Ha. unfold rename_audience. rewrite Ha.
  assert (may_write s (ua_Admin m) (audience_key (ua_Aud m)) ∧
          may_write s (ua_Admin m) (claim_key (jwk_sha256 (ua_Aud m)))) as [Hwa Hwc].
  { split; [left|right]; eexists; (split; [done|]); [by left|]. do 2 right. by eexists. }
  case_decide; [|split; [by apply guarded_refl|by intros ?? [= <- <-]]]. rewrite get_state_bind. split.
  - apply lift_keeps; [by apply guarded_refl|]. intros [] _.
    apply guarded_modify, guarded_modify, guarded_Delete; [done|]. apply guarded_Delete; [done|by apply guarded_refl].
  - intros s' aud E. apply M_bind_Ok in E as (?&[]&[-> [Hn Hc]%check_claim_Ok]%lift_Ok&[= _ <-]).
    split; [left|right]; eexists; (split; [done|]); [by right|]. right. by left.
Qed.

Lemma transfer_guarded m s0 aud s :
  may_write s0 (ua_Admin m) (claim_key (jwk_sha256 aud)) → guarded s0 (ua_Admin m) s →
  guarded s0 (ua_Admin m) (transfer_claim m aud s).1.
Proof.
  intros Hw Hg. unfold transfer_claim. case_decide; [|done]. apply lift_keeps; [done|]. intros addr _.
  apply guarded_modify, guarded_SetAudienceClaim; [done|by apply guarded_Delete].
Qed.

Lemma guarded_update m s : jwk_wf s → guarded s (ua_Admin m) (UpdateAudience m s).1.
Proof.
  intros Hwf. unfold UpdateAudience. rewrite get_state_bind.
  apply lift_keeps; [by apply guarded_refl|]. intros a [Hown Ha]%owned_audience_Ok.
  destruct (GetAudience_Some s (ua_Aud m) a Hwf Ha) as [Hn _].
  destruct (rename_guarded m a s Hwf Hown Hn) as [Hg Hw]. apply bind_keeps; [done|]. intros s1 aud E1.
  rewrite E1 in Hg. destruct (Hw _ _ E1) as [Hwa Hwc]. pose proof (transfer_guarded m s aud s1 Hwc Hg) as Hg2.
  apply bind_keeps; [done|]. intros s2 [] E2. rewrite E2 in Hg2.
  pose proof (guarded_SetAudience s (ua_Admin m) s2 (mkAudience (ua_NewAdmin m) aud (ua_Key m)) Hwa Hg2) as Hg3.
  apply bind_keeps; [done|]. intros s3 [] E3. by rewrite E3 in Hg3.
Qed.

Lemma handle_guarded m s : jwk_wf s → guarded s (jwk_signer m) (jwk_handle m s).
Proof.
  intros Hwf. pose proof (guarded_refl s (jwk_signer m) Hwf) as Hg.
  destruct m as [m|m|m|m|m]; cbn [jwk_handle jwk_signer] in *; [| | |by apply guarded_update|].
  - unfold CreateAudienceClaim. rewrite get_state_bind. apply lift_keeps; [done|]. intros o Ho.
    apply lift_keeps; [done|]. intros [] Hn%fail_if_Ok%bool_decide_eq_false. apply lift_keeps; [done|]. intros gas _.
    pose proof (guarded_Consume s (mc_Admin m) s gas Hg) as Hg1. apply bind_keeps; [done|]. intros s1 [] E1.
    rewrite E1 in Hg1. apply lift_keeps; [done|]. intros addr _. apply guarded_SetAudienceClaim; [|done].
    right. eexists. split; [done|]. left. destruct o; [by destruct Hn|done].
  - unfold DeleteAudienceClaim. rewrite get_state_bind. apply lift_keeps; [done|]. intros o Ho.
    apply lift_keeps; [done|]. intros c ->%or_fail_Ok. apply lift_keeps; [done|].
    intros [] Hn%fail_if_Ok%negb_false_iff%bool_decide_eq_true. apply guarded_Delete; [|done].
    right. eexists. split; [done|]. right. left. by exists c.
  - unfold CreateAudience. rewrite get_state_bind. apply lift_keeps; [done|]. intros [] [Hn Hc]%check_claim_Ok.
    assert (guarded s (cr_Admin m) (SetAudience (mkAudience (cr_Admin m) (cr_Aud m) (cr_Key m)) s).1) as Hg1.
    { apply guarded_SetAudience; [|done]. left. eexists. split; [done|]. by right. }
    apply bind_keeps; [done|]. intros s1 [] E1. by rewrite E1 in Hg1.
  - unfold DeleteAudience. rewrite get_state_bind. apply lift_keeps; [done|]. intros a [Hown _]%owned_audience_Ok.
    apply guarded_modify, guarded_Delete; [|apply guarded_Delete; [|done]].
    + right. eexists. split; [done|]. right. right. by eexists.
    + left. eexists. split; [done|]. by left.
Qed.

(** States reached by messages, whether they succeed or not. *)
Inductive jwk_history s0 : St → Prop :=
| jh_start : jwk_history s0 s0
| jh_msg s m : jwk_history s0 s → jwk_history s0 (jwk_handle m s).

Lemma jwk_wf_history s0 s : jwk_wf s0 → jwk_history s0 s → jwk_wf s.
Proof. intros Hwf. induction 1 as [|s m _ IH]; [done|]. by apply (handle_guarded m s IH). Qed.

(** C7. In every reachable state a message changes the audience of a name only if its
    signer administers it or, for a free name, holds the claim of its hash; and the claim
    of a hash only if it is free, the signer holds it, or administers an audience with that hash. *)
Theorem jwk_authorized s0 s m :
  jwk_wf s0 → jwk_history s0 s →
  jwk_wf (jwk_handle m s) ∧
  (∀ aud, GetAudience (jwk_handle m s) aud ≠ GetAudience s aud → may_write_audience s (jwk_signer m) aud) ∧
  (∀ h, GetAudienceClaim (jwk_handle m s) h ≠ GetAudienceClaim s h → may_write_claim s (jwk_signer m) h).
Proof.
  intros H0 Hh. pose proof (jwk_wf_history s0 s H0 Hh) as Hwf. destruct (handle_guarded m s Hwf) as [Hwf' Hk].
  split_and!; [done| |].
  - intros aud Hne. destruct (Hk (audience_key aud)) as [(aud'&<-%audience_key_inj&?)|(h&E%audience_claim_key&_)]; [|done..].
    unfold contents. contradict Hne. unfold GetAudience. by rewrite !kv_get_spec, Hne.
  - intros h Hne. destruct (Hk (claim_key h)) as [(aud&E&_)|(h'&<-%claim_key_inj&?)]; [| |done].
    + unfold contents. contradict Hne. unfold GetAudienceClaim. by rewrite !kv_get_spec, Hne.
    + by destruct (audience_claim_key aud h).
Qed.

(** Reads after writes *)
Lemma GetAudience_set s x v y :
  GetAudience (store_Set (audience_key x) v s).1 y =
  if decide (x = y) then Some <$> must_unmarshal (audience_Unmarshal v) else GetAudience s y.
Proof.
  unfold GetAudience, store_Set. cbn. rewrite !kv_get_spec, kv_set_spec, lookup_insert.
  by repeat case_decide; subst; [|destruct (audience_key_inj x y)|..].
Qed.
Lemma GetAudience_delete s x y :
  GetAudience (store_Delete (audience_key x) s).1 y = if decide (x = y) then Ok None else GetAudience s y.
Proof.
  unfold GetAudience, store_Delete. cbn. rewrite !kv_get_spec, kv_delete_spec, lookup_delete.
  repeat case_decide; subst; [done|by destruct (audience_key_inj x y)|done..].
Qed.
Lemma GetAudience_delete_claim s x y : GetAudience (store_Delete (claim_key x) s).1 y = GetAudience s y.
Proof.
  unfold GetAudience, store_Delete. cbn. rewrite !kv_get_spec, kv_delete_spec.
  by rewrite lookup_delete_ne by (intros E; by destruct (audience_claim_key y x)).
Qed.
Lemma GetAudience_set_claim s x v y : GetAudience (store_Set (claim_key x) v s).1 y = GetAudience s y.
Proof.
  unfold GetAudience, store_Set. cbn. rewrite !kv_get_spec, kv_set_spec.
  by rewrite lookup_insert_ne by (intros E; by destruct (audience_claim_key y x)).
Qed.
Lemma GetAudienceClaim_set s x v y :
  GetAudienceClaim (store_Set (claim_key x) v s).1 y =
  if decide (x = y) then Some <$> must_unmarshal (claim_Unmarshal v) else GetAudienceClaim s y.
Proof.
  unfold GetAudienceClaim, store_Set. cbn. rewrite !kv_get_spec, kv_set_spec, lookup_insert.
  by repeat case_decide; subst; [|destruct (claim_key_inj x y)|..].
Qed.
Lemma GetAudienceClaim_delete s x y :
  GetAudienceClaim (store_Delete (claim_key x) s).1 y = if decide (x = y) then Ok None else GetAudienceClaim s y.
Proof.
  unfold GetAudienceClaim, store_Delete. cbn. rewrite !kv_get_spec, kv_delete_spec, lookup_delete.
  repeat case_decide; subst; [done|by destruct (claim_key_inj x y)|done..].
Qed.
Lemma GetAudienceClaim_delete_audience s x y :
  GetAudienceClaim (store_Delete (audience_key x) s).1 y = GetAudienceClaim s y.
Proof.
  unfold GetAudienceClaim, store_Delete. cbn. rewrite !kv_get_spec, kv_delete_spec.
  by rewrite lookup_delete_ne by apply audience_claim_key.
Qed.
Lemma GetAudienceClaim_set_audience s x v y :
  GetAudienceClaim (store_Set (audience_key x) v s).1 y = GetAudienceClaim s y.
Proof.
  unfold GetAudienceClaim, store_Set. cbn. rewrite !kv_get_spec, kv_set_spec.
  by rewrite lookup_insert_ne by apply audience_claim_key.
Qed.
Create Rewrite HintDb jwk_reads.
#[local] Hint Rewrite GetAudience_set GetAudience_delete GetAudience_delete_claim GetAudience_set_claim
  GetAudienceClaim_set GetAudienceClaim_delete GetAudienceClaim_delete_audience
  GetAudienceClaim_set_audience : jwk_reads.

(** The three parts of a successful update, as state transformers *)
Definition renamed (m : MsgUpdateAudience) s : St :=
  if decide (ua_NewAud m ≠ "") then
    (store_Delete (claim_key (jwk_sha256 (ua_Aud m))) (store_Delete (audience_key (ua_Aud m)) s).1).1
  else s.
Definition new_name (m : MsgUpdateAudience) : string :=
  if decide (ua_NewAud m ≠ "") then ua_NewAud m else ua_Aud m.
Definition transferred (m : MsgUpdateAudience) (claim : string) s : St :=
  if decide (ua_NewAdmin m ≠ ua_Admin m) then
    let h := jwk_sha256 (new_name m) in (store_Set (claim_key h) claim (store_Delete (claim_key h) s).1).1
  else s.

Lemma UpdateAudience_run m s s' a :
  jwk_wf s → UpdateAudience m s = (s', Ok a) →
  a = mkAudience (ua_NewAdmin m) (new_name m) (ua_Key m) ∧
  (ua_NewAud m ≠ "" → GetAudience s (ua_NewAud m) = Ok None) ∧
  owns_audience s (ua_Admin m) (ua_Aud m) ∧
  ∃ addr claim v, audience_Unmarshal v = Ok a ∧
    (ua_NewAdmin m ≠ ua_Admin m → AccAddressFromBech32 (ua_NewAdmin m) = Ok addr ∧
       claim_Unmarshal claim = Ok (mkAudienceClaim (AccAddress_String addr))) ∧
    s' = (store_Set (audience_key (new_name m)) v (transferred m claim (renamed m s))).1.
Proof.
  intros Hwf E. unfold UpdateAudience in E. rewrite get_state_bind in E.
  apply M_bind_Ok in E as (?&v&[-> [Hown Hv]%owned_audience_Ok]%lift_Ok&E).
  destruct (GetAudience_Some s _ v Hwf Hv) as [Hn _].
  apply M_bind_Ok in E as (s1&aud&E1&E). apply M_bind_Ok in E as (s2&[]&E2&E).
  apply M_bind_Ok in E as (s3&[]&E3&[= <- <-]). unfold SetAudience in E3.
  apply M_bind_Ok in E3 as (?&v'&[-> Hv'%must_marshal_Ok%audience_roundtrip]%lift_Ok&[= <-]).
  assert (s1 = renamed m s ∧ aud = new_name m ∧ (ua_NewAud m ≠ "" → GetAudience s (ua_NewAud m) = Ok None))
    as (->&->&Hfree).
  { unfold rename_audience, renamed, new_name in *. rewrite Hn in E1. case_decide; [|by injection E1 as <- <-].
    rewrite get_state_bind in E1. apply M_bind_Ok in E1 as (?&[]&[-> [Hf _]%check_claim_Ok]%lift_Ok&[= <- <-]). done. }
  split_and!; [done..|]. unfold transfer_claim, transferred in *. case_decide.
  - apply M_bind_Ok in E2 as (?&addr&[-> Ha%map_err_Ok]%lift_Ok&E2). apply M_bind_Ok in E2 as (?&[]&[= <-]&E2).
    unfold SetAudienceClaim in E2. apply M_bind_Ok in E2 as (?&c&[-> Hc%must_marshal_Ok%claim_roundtrip]%lift_Ok&[= <-]).
    by exists addr, c, v'.
  - injection E2 as <-. by exists "", "", v'.
Qed.

(** C28. The whole effect of a successful update on audiences and claims. The new record
    is stored under the name in force and returned; a rename was to a free name and leaves
    nothing under the old one; every other audience is as before. The claim on the name in
    force goes to the new admin when the admin changes, whose address was decoded; the claim
    on the old name goes away with a rename; every other claim is as before, so that an update
    that changes neither name nor admin touches no claim at all. *)
Theorem UpdateAudience_moves m s s' a :
  jwk_wf s → UpdateAudience m s = (s', Ok a) →
  a = mkAudience (ua_NewAdmin m) (new_name m) (ua_Key m) ∧
  (ua_NewAud m ≠ "" → GetAudience s (ua_NewAud m) = Ok None) ∧
  (∀ aud, GetAudience s' aud =
     if decide (aud = new_name m) then Ok (Some a)
     else if decide (ua_NewAud m ≠ "" ∧ aud = ua_Aud m) then Ok None else GetAudience s aud) ∧
  ∃ addr, (ua_NewAdmin m ≠ ua_Admin m → AccAddressFromBech32 (ua_NewAdmin m) = Ok addr) ∧
  ∀ h, GetAudienceClaim s' h =
     if decide (ua_NewAdmin m ≠ ua_Admin m ∧ h = jwk_sha256 (new_name m))
     then Ok (Some (mkAudienceClaim (AccAddress_String addr)))
     else if decide (ua_NewAud m ≠ "" ∧ h = jwk_sha256 (ua_Aud m)) then Ok None else GetAudienceClaim s h.
Proof.
  intros Hwf E. apply UpdateAudience_run in E as (->&Hfree&_&addr&claim&b&Hb&Haddr&->); [|done].
  split; [done|]. split; [done|]. unfold transferred, renamed.
  assert (new_name m = if decide (ua_NewAud m ≠ "") then ua_NewAud m else ua_Aud m) as Hnm by done.
  revert Hnm Hb. generalize (new_name m). intros n Hn Hb. split; [|exists addr; split; [by intros Ht; apply Haddr|]];
  destruct (decide (ua_NewAud m ≠ "")) as [Hr|Hr], (decide (ua_NewAdmin m ≠ ua_Admin m)) as [Ht|Ht]; subst n;
    try (destruct (Haddr Ht) as [Ha Hc]);
    intros x; autorewrite with jwk_reads; rewrite ?Hb, ?Hc; repeat case_decide; naive_solver congruence.
Qed.
End access.

(** ** Genesis *)
Section genesis.
Context `{Ccr : !JwkCrypto, Cad : !AddressCodec}.
Context {S P G : Type} `{Ck : !KVStore S, Ckl : !KVStoreLaws S, Cp : !Subspace P, Cpl : !SubspaceLaws P, Cg : !GasMeter G}.
Abbreviation St := (JwkState S P G).
Implicit Types s : St.

(** The audiences of the list have an encoding, as those in the store do. *)
Definition encoded (a : Audience) (kv : string * string) : Prop :=
  kv.1 = audience_key (au_Aud a) ∧ audience_Marshal a = Ok kv.2.
Definition is_audience_key (k : string) : Prop := String.prefix AudienceKeyPrefix k = true.

Lemma audience_key_is aud : is_audience_key (audience_key aud).
Proof. apply prefix_app. by exists (AudienceKey aud). Qed.

Lemma collect_audiences acc l kvs : Forall2 encoded l kvs →
  fold_outcome (λ list (kv : string * string), val ← must_unmarshal (audience_Unmarshal kv.2); Ok (list ++ [val]))
    acc kvs = Ok (acc ++ l).
Proof.
  intros H. revert acc. induction H as [|a kv l kvs [_ Ha] _ IH]; intros acc; cbn [fold_outcome].
  - by rewrite app_nil_r.
  - rewrite (audience_roundtrip a) by done. cbn [must_unmarshal]. rewrite !bind_Ok_l, IH. by rewrite <- app_assoc.
Qed.

Lemma pairs_of_entries (kvs : list (string * string)) :
  Forall (λ kv, ∃ a, encoded a kv) kvs → ∃ l, Forall2 encoded l kvs.
Proof.
  induction 1 as [|kv kvs [a Ha] _ [l IH]]; [by exists []|]. exists (a :: l). by constructor.
Qed.

Lemma GetAllAudience_run s : jwk_wf s →
  ∃ l kvs, GetAllAudience s = Ok l ∧ Forall2 encoded l kvs ∧
    kvs ≡ₚ map_to_list (filter (λ kv, is_audience_key kv.1) (contents s)).
Proof.
  intros Hwf. unfold GetAllAudience. pose proof (kv_prefix_iter_spec (j_store s) AudienceKeyPrefix) as Hp.
  destruct (pairs_of_entries (kv_prefix_iter (j_store s) AudienceKeyPrefix)) as [l El].
  - rewrite Hp. apply Forall_forall. intros [k v] [Hk Hpre]%elem_of_map_to_list%map_lookup_filter_Some.
    destruct (Hwf k v Hk) as [(a&->&Ha)|(h&c&->&_)]; [by exists a|discriminate Hpre].
  - exists l, (kv_prefix_iter (j_store s) AudienceKeyPrefix). by rewrite (collect_audiences [] l).
Qed.

Lemma SetAudience_all l kvs s : Forall2 encoded l kvs →
  ∃ s', for_each SetAudience l s = (s', Ok tt) ∧ j_params s' = j_params s ∧
    contents s' = foldl (λ m kv, <[kv.1 := kv.2]> m) (contents s) kvs.
Proof.
  intros H. revert s. induction H as [|a [k v] l kvs [Ek Ha] _ IH]; intros s; cbn [for_each foldl]; [by exists s|].
  cbn [fst snd] in *. subst k. destruct (IH (store_Set (audience_key (au_Aud a)) v s).1) as (s'&E&Ep&Ec).
  exists s'. split_and!; [|exact Ep|rewrite Ec; unfold contents, store_Set; cbn; by rewrite kv_set_spec].
  unfold SetAudience. rewrite Ha. exact E.
Qed.

Lemma JwkSetParams_run p s : JwkParams_Validate p = Ok tt →
  ∃ s', JwkSetParams p s = (s', Ok tt) ∧ j_store s' = j_store s ∧ JwkGetParams s' = Ok p.
Proof.
  intros [H1 H2]%unit_bind. destruct p as [t d]. unfold JwkSetParams, set_param.
  eexists. cbn [DeploymentGas TimeOffset] in *. split; [|split].
  - erewrite M_bind_Ok_l by (unfold write; rewrite H1; reflexivity). unfold write. rewrite H2. reflexivity.
  - done.
  - unfold JwkGetParams, GetTimeOffset, GetDeploymentGas. cbn [j_params]. rewrite !sub_Get_spec, !sub_Set_spec.
    by rewrite lookup_insert_eq, lookup_insert_ne, lookup_insert_eq.
Qed.

(** Importing the exported genesis into an empty store gives back every audience and
    the parameters, and no claim: the claims are not part of the genesis state. *)
Theorem jwk_genesis_roundtrip s s0 p :
  jwk_wf s → JwkGetParams s = Ok p → JwkParams_Validate p = Ok tt → contents s0 = ∅ →
  ∃ gs s', jwk_ExportGenesis s = Ok gs ∧ jwk_InitGenesis gs s0 = (s', Ok tt) ∧ JwkGetParams s' = Ok p ∧
    (∀ aud, GetAudience s' aud = GetAudience s aud) ∧ (∀ h, GetAudienceClaim s' h = Ok None).
Proof.
  intros Hwf Hp Hv H0. destruct (GetAllAudience_run s Hwf) as (l&kvs&El&Henc&Hl). exists (mkJwkGenesis l p).
  assert ((λ kv : string * string, (kv.1, kv.2)) <$> kvs = kvs) as Hid.
  { rewrite <- (list_fmap_id kvs) at 2. apply list_fmap_ext. by intros ? [] _. }
  destruct (SetAudience_all l kvs s0 Henc) as (s1&E1&_&Ec). destruct (JwkSetParams_run p s1 Hv) as (s2&E2&Es&Ep).
  assert (contents s2 = filter (λ kv, is_audience_key kv.1) (contents s)) as Hc.
  { unfold contents at 1. rewrite Es. change (kv_contents (j_store s1)) with (contents s1).
    rewrite Ec, H0, (foldl_insert_to_list fst snd), Hid, (right_id_L ∅ (∪)).
    rewrite <- (list_to_map_to_list (filter _ (contents s))). apply list_to_map_proper;
    rewrite reverse_Permutation, ?Hl; [apply NoDup_fst_map_to_list|done]. }
  exists s2. split_and!; [|by unfold jwk_InitGenesis; erewrite M_bind_Ok_l|done|..].
  - unfold jwk_ExportGenesis. by rewrite Hp, bind_Ok_l, El.
  - intros aud. unfold GetAudience. rewrite !kv_get_spec. fold (contents s2) (contents s). rewrite Hc.
    assert (filter (λ kv, is_audience_key kv.1) (contents s) !! audience_key aud = contents s !! audience_key aud)
      as ->; [|done]. destruct (contents s !! audience_key aud) as [b|] eqn:E.
    + apply map_lookup_filter_Some. split; [done|]. apply audience_key_is.
    + by apply map_lookup_filter_None; left.
  - intros h. unfold GetAudienceClaim. rewrite kv_get_spec. fold (contents s2). rewrite Hc.
    assert (filter (λ kv, is_audience_key kv.1) (contents s) !! claim_key h = None) as ->; [|done].
    apply map_lookup_filter_None. right. intros x _ Hx. discriminate Hx.
Qed.
End genesis.

(** ** Validated keys *)
Section keys.
Context `{Ccr : !JwkCrypto, Cad : !AddressCodec}.

(** A key that may be stored: public, of a bounded size, for an asymmetric algorithm of
    its own key type. *)
Definition storable (key : JwkKey) (sigAlg : string) : Prop :=
  (∃ raw, jwk_Raw key = Ok raw ∧
     match raw with
     | RawRSAPublic N => BitLen N ≤ 4096
     | RawRSAPrivate | RawECDSAPrivate | RawEd25519Private => False
     | _ => True
     end) ∧
  (sigAlg ∉ refused_algs) ∧
  (sigAlg ∈ rsa_algs → jwk_KeyType key = "RSA") ∧
  (sigAlg ∈ ecdsa_algs → jwk_KeyType key = "EC") ∧
  (sigAlg = "EdDSA" → jwk_KeyType key = "OKP").

Lemma ValidateJWKKeySize_Ok key : ValidateJWKKeySize key = Ok tt ↔
  (∃ raw, jwk_Raw key = Ok raw ∧
     match raw with
     | RawRSAPublic N => BitLen N ≤ 4096
     | RawRSAPrivate | RawECDSAPrivate | RawEd25519Private => False
     | _ => True
     end).
Proof.
  unfold ValidateJWKKeySize. rewrite bind_Ok. setoid_rewrite map_err_Ok.
  apply exist_proper. intros raw. apply and_iff_compat_l.
  destruct raw; try done. rewrite fail_if_Ok, Z.ltb_ge. done.
Qed.

Lemma key_type_Ok key alg : validateJWKKeyTypeAlgConsistency key alg = Ok tt ↔
  (alg ∈ rsa_algs → jwk_KeyType key = "RSA") ∧ (alg ∈ ecdsa_algs → jwk_KeyType key = "EC") ∧
  (alg = "EdDSA" → jwk_KeyType key = "OKP").
Proof.
  assert (alg ∈ rsa_algs → (alg ∉ ecdsa_algs) ∧ alg ≠ "EdDSA") by (unfold rsa_algs, ecdsa_algs; set_solver).
  assert (alg ∈ ecdsa_algs → alg ≠ "EdDSA") by (unfold ecdsa_algs; set_solver).
  unfold validateJWKKeyTypeAlgConsistency. repeat case_decide;
    rewrite ?fail_if_Ok, ?negb_false_iff, ?bool_decide_eq_true; tauto.
Qed.

(** A key passes the validation of the messages exactly when it parses to a
    storable key for the algorithm it names. *)
Theorem validate_jwk_spec Key :
  validate_jwk Key = Ok tt ↔
  ∃ key sigAlg, jwk_ParseKey Key = Ok key ∧ jwa_Accept (jwk_Algorithm key) = Ok sigAlg ∧ storable key sigAlg.
Proof.
  unfold validate_jwk, storable. rewrite bind_Ok. setoid_rewrite map_err_Ok. apply exist_proper. intros key.
  rewrite unit_bind, bind_Ok, ValidateJWKKeySize_Ok.
  setoid_rewrite fail_if_bind. setoid_rewrite bool_decide_eq_false. setoid_rewrite map_err_Ok.
  setoid_rewrite key_type_Ok. naive_solver.
Qed.
End keys.

(** ** A toy instance and witnesses *)
#[global] Instance model_jwk : JwkCrypto := {|
  JwkKey := string;
  jwk_ParseKey s := if decide (s = "") then Err (Foreign "jwk") else Ok s;
  jwk_Raw _ := Ok RawECDSAPublic;
  jwk_Algorithm _ := "ES256";
  jwk_KeyType _ := "EC";
  jwa_Accept s := Ok s;
  jwk_sha256 s := s;
  jws_Verify sig _ _ := Ok sig;
  JwtToken := list (string * ClaimValue);
  jwt_Parse _ _ _ _ sub _ := Ok [("sub2", ClaimText sub)];
  tok_Issuer _ := "iss";
  tok_Subject _ := "";
  tok_Audience _ := [];
  tok_Expiration _ := Some 5;
  tok_NotBefore _ := None;
  tok_IssuedAt _ := None;
  tok_JwtID _ := "";
  tok_PrivateClaims t := t;
|}.

Definition ex_jwk0 : JwkState (gmap string string) (gmap string Z) Z :=
  mkJwkState ∅ {[ "TimeOffset" := 30000000000; "DeploymentGas" := 10000 ]} 1000000.
(** Alice claims a name and creates its audience. *)
Definition ex_jwk1 := jwk_handle (JwkCreateClaim (mkMsgAudienceClaim "xion1alice" "app")) ex_jwk0.
Definition ex_jwk2 := jwk_handle (JwkCreate (mkCreateAudience "xion1alice" "app" "key")) ex_jwk1.

Lemma ex_jwk0_wf : jwk_wf ex_jwk0.
Proof. change (map_Forall entry_ok (∅ : gmap string string)). apply map_Forall_empty. Qed.
Lemma ex_jwk2_history : jwk_history ex_jwk0 ex_jwk2.
Proof. repeat constructor. Qed.

Lemma jwk_authorized_witness :
  may_write_audience ex_jwk2 "xion1alice" "app" ∧ may_write_claim ex_jwk2 "xion1alice" "app".
Proof.
  pose proof (jwk_authorized ex_jwk0 ex_jwk2 (JwkDelete (mkDeleteAudience "xion1alice" "app"))
    ex_jwk0_wf ex_jwk2_history) as H. destruct H as (_&H1&H2).
  split; [apply H1|apply H2]; vm_compute; discriminate.
Defined.

(** The audience goes to another admin, with its claim. *)
Lemma UpdateAudience_moves_witness :
  let m := mkUpdateAudience "xion1bob" "" "xion1alice" "app" "key2" in
  GetAudienceClaim (UpdateAudience m ex_jwk2).1 "app" = Ok (Some (mkAudienceClaim "xion1bob")).
Proof.
  intros m. pose proof (UpdateAudience_moves m ex_jwk2 (UpdateAudience m ex_jwk2).1
    (mkAudience "xion1bob" "app" "key2")) as H. destruct H as (_&_&_&addr&Ha&H).
  - apply (jwk_wf_history ex_jwk0); [apply ex_jwk0_wf|apply ex_jwk2_history].
  - eval_hyp.
  - specialize (Ha ltac:(discriminate)). vm_compute in Ha. injection Ha as <-. exact (H "app").
Defined.

Lemma jwk_genesis_roundtrip_witness :
  ∃ gs s', jwk_ExportGenesis ex_jwk2 = Ok gs ∧ jwk_InitGenesis gs ex_jwk0 = (s', Ok tt) ∧
    GetAudienceClaim s' "app" = Ok None.
Proof.
  destruct (jwk_genesis_roundtrip ex_jwk2 ex_jwk0 (mkJwkParams 30000000000 10000)) as (gs&s'&E1&E2&_&_&E3);
    [apply (jwk_wf_history ex_jwk0); [apply ex_jwk0_wf|apply ex_jwk2_history]|eval_hyp..|].
  exists gs, s'. split; [exact E1|]. split; [exact E2|apply E3].
Defined.
