(* ===== verification/JwkQuery.v ===== *)
(** * x/jwk: queries

    Models x/jwk/keeper (query_audience.go, query_params.go, query_decode_jwt.go,
    query_validate_jwt.go, query_verify_jws.go). *)

From stdpp Require Import pretty.
From S2P Require Import Prelude GoStd GoJson Sdk SdkModel ZkTypes DkimTypes ProtoWire ProtoCodec ProtoJwk Jwk.

Definition JWSVerifyBaseGas : Z := 50000.
Definition JWSVerifyPerByteGas : Z := 10.

(** ** Claims *)

(** The type switch on the value of a private claim *)
Definition claim_text (v : ClaimValue) : string :=
  match v with
  | ClaimText s => s
  | ClaimOther (Some json) _ => json
  | ClaimOther None text => text
  end.

(** [sort.SliceStable] by key: an element goes before the first one that is not smaller. *)
Fixpoint insert_claim (c : JWTClaim) (l : list JWTClaim) : list JWTClaim :=
  match l with
  | [] => [c]
  | d :: l' => if String.ltb (cl_Key d) (cl_Key c) then d :: insert_claim c l' else c :: l
  end.
Definition sort_claims (l : list JWTClaim) : list JWTClaim := foldr insert_claim [] l.

(** [query.Paginate] of the SDK over the entries of a prefix store in the order of their
    keys; a nil request is [None], and the limit of a request that does not set one is
    the default of the SDK, which is 100. *)
Class KVPaginate := {
  PageRequest : Type;
  PageResponse : Type;
  page_Limit : PageRequest → Z;
  kv_Paginate {T} : list (string * string) → option PageRequest → (string → string → outcome T) →
    outcome (list T * PageResponse);
}.
Definition effective_limit `{!KVPaginate} (req : option PageRequest) : Z :=
  match req with Some p => if page_Limit p =? 0 then 100 else page_Limit p | None => 100 end.
(** The results are those of some of the entries, each taken once. *)
Class KVPaginateLaws `{!KVPaginate} := {
  kv_Paginate_Ok T entries req (f : string → string → outcome T) ts res :
    kv_Paginate entries req f = Ok (ts, res) →
    llen ts ≤ effective_limit req ∧ ∃ page, page ⊆+ entries ∧ Forall2 (λ kv t, f kv.1 kv.2 = Ok t) page ts;
}.

Section queries.
Context `{Ccr : !JwkCrypto}.
Context {S P G : Type} `{!KVStore S, !Subspace P, !GasMeter G}.
Abbreviation St := (JwkState S P G).
Implicit Types s : St.

Definition private_claims (token : JwtToken) : list JWTClaim :=
  (λ kv : string * ClaimValue, mkJWTClaim kv.1 (claim_text kv.2)) <$> tok_PrivateClaims token.

Definition text_claim (key v : string) : list JWTClaim :=
  if decide (v ≠ "") then [mkJWTClaim key v] else [].
Definition time_claim (key : string) (t : option Z) : list JWTClaim :=
  match t with Some unix => [mkJWTClaim key (pretty unix)] | None => [] end.

Definition standard_claims (token : JwtToken) : list JWTClaim :=
  text_claim "iss" (tok_Issuer token) ++
  text_claim "sub" (tok_Subject token) ++
  (if decide (tok_Audience token = []) then []
   else [mkJWTClaim "aud" (json_Marshal_strings (tok_Audience token))]) ++
  time_claim "exp" (tok_Expiration token) ++
  time_claim "nbf" (tok_NotBefore token) ++
  time_claim "iat" (tok_IssuedAt token) ++
  text_claim "jti" (tok_JwtID token).

(** ** Verification *)

(** The key of an audience, parsed and checked again *)
Definition stored_key s (aud : string) : outcome (Audience * JwkKey) :=
  found ← GetAudience s aud;
  audience ← or_fail found (status "NotFound");
  key ← jwk_ParseKey (au_Key audience);
  _ ← map_err (λ _, status "FailedPrecondition") (ValidateJWKKeySize key);
  Ok (audience, key).

(** Only the compact serialization is let through. *)
Definition check_compact (sig : string) : outcome unit :=
  _ ← fail_if (slen sig =? 0) (status "InvalidArgument");
  let trimmed := TrimLeftSpace sig in
  _ ← fail_if (slen trimmed =? 0) (status "InvalidArgument");
  b ← str_index trimmed 0;
  fail_if (b =? 123) (status "InvalidArgument").

(** [jwt.Parse] under [recover]; the clock is the block time plus the offset. *)
Definition parse_token s (blockTime : Z) (key : JwkKey) (req : QueryJWTRequest) : outcome JwtToken :=
  recovering (status "Internal")
    (timeOffset ← GetTimeOffset s;
     jwt_Parse (qj_SigBytes req) (jwk_Algorithm key) key (qj_Aud req) (qj_Sub req)
       (blockTime + i64 timeOffset)).

Definition checked_token s (blockTime : Z) (req : option QueryJWTRequest) : outcome JwtToken :=
  req ← or_fail req (status "InvalidArgument");
  '(_, key) ← stored_key s (qj_Aud req);
  _ ← check_compact (qj_SigBytes req);
  parse_token s blockTime key req.

(** All claims, standard and private, sorted by key *)
Definition decoded_claims (token : JwtToken) : list JWTClaim :=
  sort_claims (standard_claims token ++ private_claims token).

Definition DecodeJWT s (blockTime : Z) (req : option QueryJWTRequest) : outcome (list JWTClaim) :=
  token ← checked_token s blockTime req;
  Ok (decoded_claims token).

Definition ValidateJWT s (blockTime : Z) (req : option QueryJWTRequest) : outcome (list JWTClaim) :=
  token ← checked_token s blockTime req;
  Ok (sort_claims (private_claims token)).

Definition VerifyJWS (req : option QueryJWTRequest) : M St string :=
  req ← lift (or_fail req (status "InvalidArgument"));
  s ← get_state;
  '(audience, key) ← lift (stored_key s (qj_Aud req));
  let verifyGas := u64 (JWSVerifyBaseGas + JWSVerifyPerByteGas * u64 (slen (au_Key audience))) in
  _ ← JwkConsume verifyGas;
  _ ← lift (check_compact (qj_SigBytes req));
  lift (recovering (status "Internal")
          (jws_Verify (qj_SigBytes req) (jwk_Algorithm key) key)).

(** ** Lookups *)
Definition query_Audience s (aud : option string) : outcome Audience :=
  aud ← or_fail aud (status "InvalidArgument");
  found ← GetAudience s aud;
  or_fail found (status "NotFound").

Definition query_AudienceClaim s (hash : option string) : outcome AudienceClaim :=
  hash ← or_fail hash (status "InvalidArgument");
  found ← GetAudienceClaim s hash;
  or_fail found (status "NotFound").

Definition AudienceAll `{!KVPaginate} s (req : option (option PageRequest)) : outcome (list Audience * PageResponse) :=
  Pagination ← or_fail req (status "InvalidArgument");
  _ ← fail_if (match Pagination with Some p => 100 <? page_Limit p | None => false end) (status "ResourceExhausted");
  map_err (λ _, status "Internal")
    (kv_Paginate (kv_prefix_iter (j_store s) AudienceKeyPrefix) Pagination (λ _ value, audience_Unmarshal value)).

Definition query_JwkParams s (req : option unit) : outcome JwkParams :=
  _ ← or_fail req (status "InvalidArgument");
  JwkGetParams s.
End queries.

(** ** Listing the audiences *)
Section listing.
Context `{Ccr : !JwkCrypto, Cpg : !KVPaginate, Cpl : !KVPaginateLaws}.
Context {S P G : Type} `{Ck : !KVStore S, Ckl : !KVStoreLaws S}.
Abbreviation St := (JwkState S P G).
Implicit Types s : St.

Lemma audience_entries s : jwk_wf s → ∃ l, Forall2 encoded l (kv_prefix_iter (j_store s) AudienceKeyPrefix).
Proof.
  intros Hwf. apply pairs_of_entries. rewrite kv_prefix_iter_spec. apply Forall_forall.
  intros [k v] [Hk Hpre]%elem_of_map_to_list%map_lookup_filter_Some.
  destruct (Hwf k v Hk) as [(a&->&Ha)|(h&c&->&_)]; [by exists a|discriminate Hpre].
Qed.

(** A page has at most a hundred audiences, each of them once and as it is stored. *)
Theorem AudienceAll_page s req l res :
  jwk_wf s → AudienceAll s req = Ok (l, res) →
  llen l ≤ 100 ∧ NoDup (au_Aud <$> l) ∧ Forall (λ a, GetAudience s (au_Aud a) = Ok (Some a)) l.
Proof.
  intros Hwf (pg&_&E)%bind_Ok. apply fail_if_bind in E as [Hlim E].
  apply map_err_Ok, kv_Paginate_Ok in E as (Hl&page&Hsub&Hpage).
  split; [destruct pg; cbn in *; [case_match; lia|done]|].
  apply submseteq_Permutation in Hsub as [rest Hperm].
  assert (∀ kv, kv ∈ page → contents s !! kv.1 = Some kv.2 ∧ ∃ a, encoded a kv) as Hin.
  { intros [k v] Hkv. destruct (audience_entries s Hwf) as [as_ Has].
    assert ((k, v) ∈ kv_prefix_iter (j_store s) AudienceKeyPrefix) as He by (rewrite Hperm; apply elem_of_app; by left).
    split.
    - rewrite kv_prefix_iter_spec in He. by apply elem_of_map_to_list, map_lookup_filter_Some in He as [? _].
    - apply list_elem_of_lookup in He as [i Hi]. destruct (Forall2_lookup_r _ _ _ _ _ Has Hi) as (a&_&Ha). eauto. }
  assert (Forall2 (λ kv a, contents s !! kv.1 = Some kv.2 ∧ encoded a kv) page l) as Hall.
  { apply Forall2_same_length_lookup. split; [by eapply Forall2_length|]. intros i kv a Hkv Ha.
    destruct (Hin kv) as (Hc&a'&Ek&Em); [by eapply list_elem_of_lookup_2|]. split; [done|].
    pose proof (Forall2_lookup_lr _ _ _ _ _ _ Hpage Hkv Ha) as E. cbn in E. rewrite (audience_roundtrip a') in E by done.
    by injection E as <-. }
  split.
  - apply (NoDup_fmap_1 audience_key). replace (audience_key <$> (au_Aud <$> l)) with page.*1.
    + assert (NoDup (page.*1 ++ rest.*1)) as Hnd; [|by apply NoDup_app in Hnd as [? _]].
      rewrite <- fmap_app, <- Hperm, kv_prefix_iter_spec. apply NoDup_fst_map_to_list.
    + clear -Hall. induction Hall as [|kv a page l [_ [Hk _]] _ IH]; [done|]. cbn. by rewrite Hk, IH.
  - clear -Hall Ckl. induction Hall as [|kv a page l [Hc [Hk Hm]] _ IH]; constructor; [|done].
    unfold GetAudience. rewrite kv_get_spec, <- Hk. fold (contents s). rewrite Hc. by rewrite (audience_roundtrip a).
Qed.
End listing.

(** ** The order of the map does not show *)
Definition claim_le (c d : JWTClaim) : Prop := ¬ str_lt (cl_Key d) (cl_Key c).

Lemma claim_le_trans c d e : claim_le c d → claim_le d e → claim_le c e.
Proof.
  unfold claim_le. intros H1 H2 H3. destruct (str_lt_total (cl_Key c) (cl_Key d)) as [H|[H|H]]; [| |done].
  - apply H2. by trans (cl_Key c).
  - rewrite H in H3. done.
Qed.

Lemma insert_claim_perm c l : insert_claim c l ≡ₚ c :: l.
Proof.
  induction l as [|d l IH]; cbn; [done|]. destruct (String.ltb _ _); [|done]. rewrite IH. apply Permutation_swap.
Qed.

Lemma sort_claims_perm l : sort_claims l ≡ₚ l.
Proof. induction l as [|c l IH]; cbn; [done|]. by rewrite insert_claim_perm, IH. Qed.

Lemma insert_claim_sorted c l : StronglySorted claim_le l → StronglySorted claim_le (insert_claim c l).
Proof.
  induction 1 as [|d l Hs IH Hd]; cbn [insert_claim]; [by repeat constructor|].
  destruct (String.ltb (cl_Key d) (cl_Key c)) eqn:E.
  - constructor; [done|]. rewrite insert_claim_perm. constructor; [|done].
    intros H. apply (irreflexivity str_lt (cl_Key d)). by trans (cl_Key c).
  - assert (claim_le c d) as Hcd by (unfold claim_le, str_lt; by rewrite E).
    constructor; [by constructor|]. constructor; [done|].
    eapply Forall_impl; [exact Hd|]. intros e. by apply claim_le_trans.
Qed.

Lemma sort_claims_sorted l : StronglySorted claim_le (sort_claims l).
Proof. induction l as [|c l IH]; cbn; [constructor|by apply insert_claim_sorted]. Qed.

(** With distinct keys the result depends only on the set of claims. *)
Lemma sort_claims_unique l l' :
  NoDup (cl_Key <$> l) → l ≡ₚ l' → sort_claims l = sort_claims l'.
Proof.
  intros Hnd Hp. apply (StronglySorted_unique_strong claim_le); [|apply sort_claims_sorted..|].
  - intros c d Hc Hd Hcd Hdc. rewrite sort_claims_perm in Hc, Hd. rewrite <- Hp in Hd.
    destruct (str_lt_total (cl_Key c) (cl_Key d)) as [|[E|]]; [done| |done].
    apply list_elem_of_lookup in Hc as [i Hi], Hd as [j Hj].
    assert (i = j) as ->; [|congruence]. eapply (NoDup_lookup (cl_Key <$> l)); [done|..]; rewrite list_lookup_fmap.
    + by rewrite Hi.
    + rewrite Hj. cbn. by rewrite E.
  - by rewrite !sort_claims_perm.
Qed.

Section deterministic.
Context `{Ccr : !JwkCrypto}.

(** The answers do not depend on the order in which the map of private claims is
    iterated, as long as the claim names are distinct. *)
Theorem jwt_claims_deterministic token token' :
  standard_claims token' = standard_claims token →
  tok_PrivateClaims token' ≡ₚ tok_PrivateClaims token →
  NoDup (cl_Key <$> (standard_claims token ++ private_claims token)) →
  decoded_claims token' = decoded_claims token ∧
  sort_claims (private_claims token') = sort_claims (private_claims token) ∧
  StronglySorted (λ c d, str_lt (cl_Key c) (cl_Key d)) (decoded_claims token).
Proof.
  intros Hs Hp Hnd. unfold decoded_claims. rewrite Hs.
  assert (private_claims token' ≡ₚ private_claims token) as Hpp by (unfold private_claims; by rewrite Hp).
  split_and!.
  - symmetry. apply sort_claims_unique; [done|]. by rewrite Hpp.
  - symmetry. apply sort_claims_unique; [|done]. rewrite fmap_app in Hnd. by apply NoDup_app in Hnd as (_&_&?).
  - assert (NoDup (cl_Key <$> sort_claims (standard_claims token ++ private_claims token))) as Hnd'
      by (by rewrite sort_claims_perm).
    pose proof (sort_claims_sorted (standard_claims token ++ private_claims token)) as Hso. revert Hnd'.
    induction Hso as [|c l Hl IH Hc]; [constructor|]. cbn. intros [Hni Hnd']%NoDup_cons.
    constructor; [by apply IH|]. rewrite Forall_forall in *. intros d Hd. specialize (Hc d Hd).
    destruct (str_lt_total (cl_Key c) (cl_Key d)) as [|[E|]]; [done| |done].
    destruct Hni. rewrite E. by apply list_elem_of_fmap_2.
Qed.
End deterministic.

Lemma jwt_claims_deterministic_witness :
  let t := [("b", ClaimText "1"); ("a", ClaimOther None "2")] in
  let t' := [("a", ClaimOther None "2"); ("b", ClaimText "1")] in
  decoded_claims (Ccr := model_jwk) t' = decoded_claims (Ccr := model_jwk) t.
Proof.
  intros t t'. apply (jwt_claims_deterministic (Ccr := model_jwk) t t'); [reflexivity|apply Permutation_swap|].
  apply (bool_decide_unpack _). vm_compute. exact I.
Defined.

(** A model of the paging: the first entries up to the limit *)
Fixpoint model_results {T} (f : string → string → outcome T) (l : list (string * string)) : outcome (list T) :=
  match l with
  | [] => Ok []
  | kv :: l => t ← f kv.1 kv.2; ts ← model_results f l; Ok (t :: ts)
  end.
Lemma model_results_Ok {T} (f : string → string → outcome T) l ts :
  model_results f l = Ok ts → Forall2 (λ kv t, f kv.1 kv.2 = Ok t) l ts.
Proof.
  revert ts. induction l as [|kv l IH]; intros ts; [intros [= <-]; constructor|].
  intros (t&Ht&(us&Hus&[= <-])%bind_Ok)%bind_Ok. constructor; auto.
Qed.
#[local] Instance model_paginate : KVPaginate := {|
  PageRequest := Z;
  PageResponse := unit;
  page_Limit n := n;
  kv_Paginate _ entries req f :=
    let n := match req with Some n => if n =? 0 then 100 else n | None => 100 end in
    ts ← model_results f (take (Z.to_nat n) entries);
    _ ← fail_if (n <? 0) (Foreign "limit");
    Ok (ts, tt)
|}.
#[local] Instance model_paginate_laws : KVPaginateLaws.
Proof.
  split. intros T entries req f ts res (ts'&Hts&(_&Hn%fail_if_Ok%Z.ltb_ge&[= -> _])%bind_Ok)%bind_Ok.
  apply model_results_Ok in Hts as Hall. split; [|by eexists; split; [apply sublist_submseteq, sublist_take|]].
  apply Forall2_length in Hall. rewrite length_take in Hall. unfold llen. destruct req; cbn in *; lia.
Qed.

Definition ex_page : option (option PageRequest) := Some (Some (10 : Z)).

Lemma AudienceAll_page_witness :
  AudienceAll ex_jwk2 ex_page = Ok ([mkAudience "xion1alice" "app" "key"], tt) ∧
  NoDup (au_Aud <$> [mkAudience "xion1alice" "app" "key"]).
Proof.
  split; [eval_hyp|]. destruct (AudienceAll_page ex_jwk2 ex_page [mkAudience "xion1alice" "app" "key"] tt)
    as (_&H&_); [apply (jwk_wf_history ex_jwk0); [apply ex_jwk0_wf|apply ex_jwk2_history]|eval_hyp|exact H].
Defined.
