(* ===== verification/GlobalFee.v ===== *)
(** * x/globalfee: minimum gas prices

    Models x/globalfee: the fee decorator (ante/fee.go) and its utilities
    (ante/fee_utils.go), the parameters (types/params.go), genesis, the query and
    the migration. *)

From S2P Require Import Prelude GoStd Sdk SdkModel.

(** ** Parameters *)
Record GlobalFeeParams := mkGlobalFeeParams {
  MinimumGasPrices : DecCoins;
  BypassMinFeeMsgTypes : list string;
  MaxTotalBypassMinFeeMsgGasUsage : Z;
}.

Definition DefaultMinGasPrices : DecCoins := [].
(** The type URLs of the six messages *)
Definition DefaultBypassMinFeeMsgTypes : list string :=
  ["/xion.v1.MsgSend"; "/xion.v1.MsgMultiSend"; "/xion.jwk.v1.MsgDeleteAudience";
   "/xion.jwk.v1.MsgDeleteAudienceClaim"; "/cosmos.authz.v1beta1.MsgRevoke";
   "/cosmos.feegrant.v1beta1.MsgRevokeAllowance"].
Definition DefaultmaxTotalBypassMinFeeMsgGasUsage : Z := 1000000.

Definition GlobalFeeDefaultParams : GlobalFeeParams :=
  mkGlobalFeeParams DefaultMinGasPrices DefaultBypassMinFeeMsgTypes DefaultmaxTotalBypassMinFeeMsgGasUsage.

(** The three keys of the subspace *)
Record GlobalFeeSubspace := mkGlobalFeeSubspace {
  sp_MinGasPrices : option DecCoins;
  sp_BypassTypes : option (list string);
  sp_MaxGas : option Z;
}.

Section params.
Context `{!CoinsOps}.
(** [sdk.MsgTypeURL(nil)] *)
Context (nil_type_url : string).

(** The loop of [DecCoins.Validate]; [first] is [i == 0]. *)
Fixpoint validate_dec_coins (first : bool) (lowDenom : string) (seenDenoms : list string) (coins : DecCoins) : outcome unit :=
  match coins with
  | [] => Ok tt
  | coin :: coins =>
    _ ← fail_if (bool_decide (dc_Denom coin ∈ seenDenoms)) (Plain "duplicate denomination");
    _ ← fail_if (negb (ValidateDenom (dc_Denom coin))) (Foreign "sdk.ValidateDenom");
    _ ← fail_if (negb first && negb (String.ltb lowDenom (dc_Denom coin))) (Plain "denomination is not sorted");
    _ ← fail_if (dc_Amount coin <? 0) (Plain "coin amount is negative");
    validate_dec_coins false (dc_Denom coin) (dc_Denom coin :: seenDenoms) coins
  end.

Definition DecCoins_Validate (coins : DecCoins) : outcome unit :=
  if llen coins =? 0 then Ok tt else validate_dec_coins true "" [] coins.

Definition validateMinimumGasPrices (v : DecCoins) : outcome unit := DecCoins_Validate v.

Definition validateBypassMinFeeMsgTypes (types : list string) : outcome unit :=
  check_all (λ msgType,
    _ ← fail_if (bool_decide (msgType = "")) (Plain "invalid empty bypass msg type");
    fail_if (negb (HasPrefix msgType nil_type_url)) (Plain "invalid bypass msg type name")) types.

(** Only the type is checked. *)
Definition validateMaxTotalBypassMinFeeMsgGasUsage (v : Z) : outcome unit := Ok tt.

Definition GlobalFeeParams_ValidateBasic (p : GlobalFeeParams) : outcome unit :=
  _ ← validateMinimumGasPrices (MinimumGasPrices p);
  _ ← validateBypassMinFeeMsgTypes (BypassMinFeeMsgTypes p);
  validateMaxTotalBypassMinFeeMsgGasUsage (MaxTotalBypassMinFeeMsgGasUsage p).

(** [SetParamSet]: the pairs are validated and stored in turn; a failure panics. *)
Definition GlobalFee_SetParamSet (p : GlobalFeeParams) : M GlobalFeeSubspace unit :=
  let panicking (x : outcome unit) := match x with Ok u => Ok u | _ => Panic end in
  _ ← lift (panicking (validateMinimumGasPrices (MinimumGasPrices p)));
  _ ← modify (λ s, mkGlobalFeeSubspace (Some (MinimumGasPrices p)) (sp_BypassTypes s) (sp_MaxGas s));
  _ ← lift (panicking (validateBypassMinFeeMsgTypes (BypassMinFeeMsgTypes p)));
  _ ← modify (λ s, mkGlobalFeeSubspace (sp_MinGasPrices s) (Some (BypassMinFeeMsgTypes p)) (sp_MaxGas s));
  _ ← lift (panicking (validateMaxTotalBypassMinFeeMsgGasUsage (MaxTotalBypassMinFeeMsgGasUsage p)));
  modify (λ s, mkGlobalFeeSubspace (sp_MinGasPrices s) (sp_BypassTypes s) (Some (MaxTotalBypassMinFeeMsgGasUsage p))).

Definition globalfee_InitGenesis (p : GlobalFeeParams) : M GlobalFeeSubspace unit := GlobalFee_SetParamSet p.

(** [GetParamSet] panics on a missing key. *)
Definition globalfee_ExportGenesis (s : GlobalFeeSubspace) : outcome GlobalFeeParams :=
  prices ← from_option Ok Panic (sp_MinGasPrices s);
  types ← from_option Ok Panic (sp_BypassTypes s);
  gas ← from_option Ok Panic (sp_MaxGas s);
  Ok (mkGlobalFeeParams prices types gas).

Definition globalfee_v2_MigrateStore : M GlobalFeeSubspace unit :=
  s ← get_state;
  old ← lift (from_option Ok Panic (sp_MinGasPrices s));
  GlobalFee_SetParamSet (mkGlobalFeeParams old (BypassMinFeeMsgTypes GlobalFeeDefaultParams)
                           (MaxTotalBypassMinFeeMsgGasUsage GlobalFeeDefaultParams)).

(** [GrpcQuerier.Params]; a nil request is [None] and unset keys give zero values *)
Definition globalfee_Params (s : GlobalFeeSubspace) (req : option unit) : outcome GlobalFeeParams :=
  _ ← or_fail req (Plain "invalid request");
  Ok (mkGlobalFeeParams (default [] (sp_MinGasPrices s)) (default [] (sp_BypassTypes s)) (default 0 (sp_MaxGas s))).
End params.

(** ** Fee utilities *)
Section utils.
Context `{!CoinsOps, !DecCoinsOps, !MapRange}.

(** The binary search; every round at least halves the coins, so their number is fuel enough. *)
Fixpoint find_in (fuel : nat) (coins : DecCoins) (denom : string) : option DecCoin :=
  match fuel with
  | O => None
  | S fuel =>
    match coins with
    | [] => None
    | [coin] => if decide (dc_Denom coin = denom) then Some coin else None
    | _ =>
      let midIdx := Nat.div2 (length coins) in
      match coins !! midIdx with
      | None => None
      | Some coin =>
        if String.ltb denom (dc_Denom coin) then find_in fuel (take midIdx coins) denom
        else if decide (denom = dc_Denom coin) then Some coin
        else find_in fuel (drop (S midIdx) coins) denom
      end
    end
  end.

(** [None] is the result [(false, sdk.DecCoin{})]. *)
Definition Find (coins : DecCoins) (denom : string) : option DecCoin := find_in (length coins) coins denom.

(** The higher of a global fee and the local price of its denomination *)
Definition combine_fee (minGasPrices : DecCoins) (fee : DecCoin) : DecCoin :=
  match Find minGasPrices (dc_Denom fee) with
  | Some c => if dc_Amount fee <? dc_Amount c then c else fee
  | None => fee
  end.

Definition CombinedFeeRequirement (globalFees minGasPrices : DecCoins) : outcome DecCoins :=
  if llen globalFees =? 0 then Err ErrSdkNotFound
  else if llen minGasPrices =? 0 then Ok globalFees
  else
    let globalFees := DecCoins_Sort globalFees in
    let minGasPrices := DecCoins_Sort minGasPrices in
    Ok (DecCoins_Sort (combine_fee minGasPrices <$> globalFees)).

(** The body of the loop over the denominations *)
Definition max_coin (a b : DecCoins) (denom : string) : outcome DecCoin :=
  amountA ← DecCoins_AmountOf a denom;
  amountB ← DecCoins_AmountOf b denom;
  NewDecCoinFromDec denom (if amountA <? amountB then amountB else amountA).

Definition MaxCoins (a b : DecCoins) : outcome DecCoins :=
  let a := DecCoins_Sort a in
  let b := DecCoins_Sort b in
  result ← fold_outcome (λ result denom, c ← max_coin a b denom; Ok (result ++ [c])) []
             (range_keys (denoms a ++ denoms b));
  Ok (DecCoins_Sort result).

(** A loop that returns false at the first element that fails *)
Fixpoint all_of {A} (f : A → outcome bool) (l : list A) : outcome bool :=
  match l with
  | [] => Ok true
  | x :: l => b ← f x; if (b : bool) then all_of f l else Ok false
  end.

Definition DenomsSubsetOf (a b : DecCoins) : outcome bool :=
  if llen b <? llen a then Ok false
  else all_of (λ coin, amount ← DecCoins_AmountOf b (dc_Denom coin); Ok (negb (amount =? 0))) a.

Definition IsAllGT (a b : DecCoins) : outcome bool :=
  if llen a =? 0 then Ok false
  else if llen b =? 0 then Ok true
  else
    sub ← DenomsSubsetOf b a;
    if negb sub then Ok false
    else all_of (λ coinB, amountA ← DecCoins_AmountOf a (dc_Denom coinB); Ok (dc_Amount coinB <? amountA)) b.
End utils.

(** ** The fee decorator *)

(** The parts of the context and of the transaction that the decorator reads; the
    messages are given by their type URLs. *)
Record AnteCtx := mkAnteCtx { ctx_MinGasPrices : DecCoins; ctx_IsCheckTx : bool }.
Record AnteTx := mkAnteTx { tx_IsFeeTx : bool; tx_Msgs : list string; tx_Gas : Z; tx_Fee : Coins }.

Definition ErrTxDecode : goerr := Foreign "sdk.ErrTxDecode".
Definition ErrInsufficientFee : goerr := Foreign "sdk.ErrInsufficientFee".

Definition WithMinGasPrices (ctx : AnteCtx) (p : DecCoins) : AnteCtx := mkAnteCtx p (ctx_IsCheckTx ctx).

Section decorator.
Context `{!CoinsOps, !DecCoinsOps, !MapRange}.
(** [StakingKeeperBondDenom] *)
Context (bondDenom : outcome string).
Implicit Types (s : GlobalFeeSubspace) (ctx : AnteCtx).

Definition DefaultZeroGlobalFee : outcome DecCoins :=
  bondDenom ← bondDenom;
  _ ← fail_if (bool_decide (bondDenom = "")) (Plain "empty staking bond denomination");
  c ← NewDecCoinFromDec bondDenom 0;
  Ok [c].

Definition GetGlobalFee s : outcome DecCoins :=
  let globalMinGasPrices := default [] (sp_MinGasPrices s) in
  globalMinGasPrices ←
    (if llen globalMinGasPrices =? 0 then DefaultZeroGlobalFee else Ok globalMinGasPrices);
  Ok (DecCoins_Sort globalMinGasPrices).

Definition GetBypassMsgTypes s : list string := default [] (sp_BypassTypes s).

Definition ContainsOnlyBypassMinFeeMsgs s (msgs : list string) : bool :=
  forallb (λ msg, bool_decide (msg ∈ GetBypassMsgTypes s)) msgs.

Definition GetMaxTotalBypassMinFeeMsgGasUsage s : Z :=
  default DefaultmaxTotalBypassMinFeeMsgGasUsage (sp_MaxGas s).

Definition GetMinGasPrice ctx : DecCoins :=
  if DecCoins_IsZero (ctx_MinGasPrices ctx) then [] else DecCoins_Sort (ctx_MinGasPrices ctx).

Definition GetTxFeeRequired s ctx : outcome DecCoins :=
  globalFees ← GetGlobalFee s;
  if negb (ctx_IsCheckTx ctx) then Ok globalFees
  else MaxCoins (GetMinGasPrice ctx) globalFees.

(** The denominations of the fee of a bypass transaction *)
Definition check_bypass_denoms s (feeCoins : Coins) : outcome unit :=
  if Coins_IsZero feeCoins then Ok tt
  else
    globalFees ← GetGlobalFee s;
    if DecCoins_IsZero globalFees then Ok tt
    else check_all (λ feeCoin, fail_if (negb (bool_decide (coin_Denom feeCoin ∈ denoms globalFees))) ErrInvalidCoins)
           feeCoins.

(** [next] is the rest of the chain. *)
Definition FeeDecorator_AnteHandle {A} s ctx (tx : AnteTx) (simulate : bool) (next : AnteCtx → outcome A) : outcome A :=
  _ ← fail_if (negb (tx_IsFeeTx tx)) ErrTxDecode;
  if simulate then next ctx
  else if ContainsOnlyBypassMinFeeMsgs s (tx_Msgs tx) then
    _ ← fail_if (GetMaxTotalBypassMinFeeMsgGasUsage s <? tx_Gas tx) ErrInsufficientFee;
    _ ← check_bypass_denoms s (tx_Fee tx);
    if Coins_IsZero (tx_Fee tx) && negb (DecCoins_IsZero (ctx_MinGasPrices ctx))
    then next (WithMinGasPrices ctx []) else next ctx
  else
    feeRequired ← GetTxFeeRequired s ctx;
    next (WithMinGasPrices ctx feeRequired).
End decorator.

(** ** Lemmas on decimal coins *)
Lemma elem_denoms cs d : d ∈ denoms cs ↔ ∃ c, c ∈ cs ∧ dc_Denom c = d.
Proof. unfold denoms. rewrite list_elem_of_fmap. naive_solver. Qed.

Lemma dec_sorted_NoDup cs : dec_sorted cs → NoDup (denoms cs).
Proof.
  induction 1 as [|c cs _ IH Hc]; cbn; [constructor|]. constructor; [|done].
  intros (c'&Hin&E)%elem_denoms. rewrite Forall_forall in Hc. apply Hc in Hin. rewrite E in Hin.
  by apply (irreflexivity str_lt) in Hin.
Qed.

Lemma same_denom cs c c' : NoDup (denoms cs) → c ∈ cs → c' ∈ cs → dc_Denom c = dc_Denom c' → c = c'.
Proof.
  intros Hnd [i Hi]%list_elem_of_lookup [j Hj]%list_elem_of_lookup E.
  assert (i = j) as ->; [|congruence].
  eapply (NoDup_lookup (denoms cs)); [done|..]; unfold denoms; rewrite list_lookup_fmap; [by rewrite Hi|].
  rewrite Hj. cbn. by rewrite E.
Qed.

(** The linear search finds the one coin of a denomination. *)
Lemma dec_amount_elem cs c : NoDup (denoms cs) → c ∈ cs → dec_amount cs (dc_Denom c) = dc_Amount c.
Proof.
  intros Hnd Hin. unfold dec_amount. destruct (list_find _ cs) as [[i c']|] eqn:E.
  - apply list_find_Some in E as (Hi&Hc'&_). apply list_elem_of_lookup_2 in Hi.
    by rewrite (same_denom cs c c').
  - apply list_find_None in E. rewrite Forall_forall in E. by destruct (E c Hin).
Qed.

Lemma dec_amount_none cs d : d ∉ denoms cs → dec_amount cs d = 0.
Proof.
  intros Hd. unfold dec_amount. destruct (list_find _ cs) as [[i c]|] eqn:E; [|done].
  apply list_find_Some in E as (Hi&Hc&_). destruct Hd. apply elem_denoms. exists c.
  split; [by eapply list_elem_of_lookup_2|done].
Qed.

Lemma denoms_perm cs cs' : cs ≡ₚ cs' → denoms cs ≡ₚ denoms cs'.
Proof. intros H. unfold denoms. by rewrite H. Qed.

Lemma dec_amount_perm cs cs' d : NoDup (denoms cs) → cs ≡ₚ cs' → dec_amount cs d = dec_amount cs' d.
Proof.
  intros Hnd Hp. destruct (decide (d ∈ denoms cs)) as [Hin|Hin].
  - apply elem_denoms in Hin as (c&Hc&<-). rewrite dec_amount_elem by done.
    rewrite dec_amount_elem; [done|by rewrite <- (denoms_perm _ _ Hp)|by rewrite <- Hp].
  - rewrite !dec_amount_none; [done| |done]. by rewrite <- (denoms_perm _ _ Hp).
Qed.

Lemma dec_amount_nonneg cs d : Forall (λ c, 0 ≤ dc_Amount c) cs → 0 ≤ dec_amount cs d.
Proof.
  intros Hn. unfold dec_amount. destruct (list_find _ cs) as [[i c]|] eqn:E; [|done].
  apply list_find_Some in E as (Hi&_). rewrite Forall_forall in Hn. by eapply Hn, list_elem_of_lookup_2.
Qed.

(** ** The binary search *)
Lemma dec_sorted_app l c r : dec_sorted (l ++ c :: r) →
  dec_sorted l ∧ dec_sorted r ∧ (∀ x, x ∈ l → str_lt (dc_Denom x) (dc_Denom c)) ∧
  (∀ x, x ∈ r → str_lt (dc_Denom c) (dc_Denom x)).
Proof.
  unfold dec_sorted. induction l as [|x l IH]; cbn [app]; intros Hs; inversion Hs as [|?? Hs' Hf]; subst.
  - rewrite Forall_forall in Hf. split_and!; [constructor|done|by intros ? ?%not_elem_of_nil|done].
  - destruct (IH Hs') as (?&?&H1&?). rewrite Forall_forall in Hf. split_and!; [|done| |done].
    + constructor; [done|]. apply Forall_forall. intros y Hy. apply Hf. set_solver.
    + intros y [->|Hy]%elem_of_cons; [apply Hf; set_solver|by apply H1].
Qed.

Lemma find_in_spec fuel cs d c : (length cs ≤ fuel)%nat → dec_sorted cs →
  find_in fuel cs d = Some c ↔ c ∈ cs ∧ dc_Denom c = d.
Proof.
  revert cs. induction fuel as [|fuel IH]; intros cs Hl Hs.
  { destruct cs; [|cbn in Hl; lia]. cbn. set_solver. }
  destruct cs as [|x [|y cs]]; cbn [find_in]; [set_solver| |].
  { rewrite list_elem_of_singleton. case_decide; naive_solver. }
  set (l := x :: y :: cs) in *. assert (Nat.div2 (length l) < length l)%nat as Hmid by (apply Nat.lt_div2; cbn; lia).
  destruct (lookup_lt_is_Some_2 l _ Hmid) as [m Hm]. rewrite Hm.
  pose proof (take_drop_middle l _ m Hm) as Hsplit. revert Hmid Hsplit. generalize (Nat.div2 (length l)). clear Hm.
  intros mid Hmid Hsplit. rewrite <- Hsplit in Hs. apply dec_sorted_app in Hs as (Hs1&Hs2&Hlt&Hgt).
  assert (∀ z, z ∈ l ↔ z ∈ take mid l ∨ z = m ∨ z ∈ drop (S mid) l) as Hin.
  { intros z. rewrite <- Hsplit at 1. rewrite elem_of_app, elem_of_cons. done. }
  assert (length l ≤ S fuel)%nat as Hl' by done. clearbody l. rewrite Hin.
  destruct (String.ltb d (dc_Denom m)) eqn:Hd; [|case_decide as Hdm].
  - rewrite IH by (rewrite ?length_take; (done || lia)). change (str_lt d (dc_Denom m)) in Hd. split; [naive_solver|].
    intros [[?|[->|Hr]] <-]; [done| |]; exfalso; apply (irreflexivity str_lt (dc_Denom m)); [done|].
    trans (dc_Denom c); [by apply Hgt|done].
  - subst d. split; [intros [= ->]; auto|]. intros [[Hl1|[->|Hr]] E]; [|done|]; exfalso;
      apply (irreflexivity str_lt (dc_Denom m)); [rewrite <- E at 1; by apply Hlt|rewrite <- E at 2; by apply Hgt].
  - rewrite IH by (rewrite ?length_drop; (done || lia)). apply str_ltb_false in Hd as [->|Hd]; [done|].
    split; [naive_solver|]. intros [[Hl1|[->|Hr]] <-]; [|done|done]. exfalso.
    apply (irreflexivity str_lt (dc_Denom m)). trans (dc_Denom c); [done|by apply Hlt].
Qed.

(** On sorted coins the binary search returns the coin that a linear search returns. *)
Theorem Find_spec cs d : dec_sorted cs → Find cs d = snd <$> list_find (λ c, dc_Denom c = d) cs.
Proof.
  intros Hs. apply option_eq. intros c. unfold Find. rewrite find_in_spec by done. split.
  - intros [Hin <-]. destruct (list_find _ cs) as [[i c']|] eqn:E.
    + apply list_find_Some in E as (Hi&Hc'&_). cbn. f_equal. symmetry.
      apply (same_denom cs); [by apply dec_sorted_NoDup|done|by eapply list_elem_of_lookup_2|done].
    + apply list_find_None in E. rewrite Forall_forall in E. by destruct (E c Hin).
  - intros ([i c']&(Hi&Hc&_)%list_find_Some&->)%fmap_Some. cbn [snd] in *. split; [by eapply list_elem_of_lookup_2|done].
Qed.

(** ** The required prices *)
Definition dec_ok `{!CoinsOps} (cs : DecCoins) : Prop :=
  NoDup (denoms cs) ∧ Forall (λ c, ValidateDenom (dc_Denom c) = true ∧ 0 ≤ dc_Amount c) cs.

Lemma validate_dec_coins_Ok `{!CoinsOps} (first : bool) low seen cs :
  (if first then seen = [] else ∀ d, d ∈ seen → d = low ∨ str_lt d low) →
  validate_dec_coins first low seen cs = Ok tt ↔
  dec_sorted cs ∧ Forall (λ c, ValidateDenom (dc_Denom c) = true ∧ 0 ≤ dc_Amount c) cs ∧
  (first = false → Forall (λ c, str_lt low (dc_Denom c)) cs).
Proof.
  revert first low seen. induction cs as [|c cs IH]; intros first low seen Hseen; cbn [validate_dec_coins].
  { split; [|done]. intros _. split; [constructor|by split]. }
  rewrite !fail_if_bind, bool_decide_eq_false, negb_false_iff, andb_false_iff, !negb_false_iff, Z.ltb_ge, Forall_cons.
  unfold dec_sorted. split.
  - intros (Hd&Hv&Hlow&Ha&(Hs&Hf&Hlt)%IH); cycle 1.
    { destruct first; [subst seen; intros d ->%list_elem_of_singleton; by left|]. destruct Hlow as [?|Hlow]; [done|].
      intros d [->|Hin]%elem_of_cons; [by left|right]. destruct (Hseen d Hin) as [->|?]; [done|by trans low]. }
    specialize (Hlt eq_refl). split_and!; [by constructor|done..|]. intros ->. destruct Hlow as [?|Hlow]; [done|].
    constructor; [done|]. eapply Forall_impl; [exact Hlt|]. intros x Hx. cbn in Hx. by trans (dc_Denom c).
  - intros (Hs&[[Hv Ha] Hf]&Hlow). inversion Hs as [|?? Hs' Hc]; subst.
    assert (first = false → str_lt low (dc_Denom c)) as Hl by (intros E; apply Hlow in E; by inversion E).
    split_and!; [|done|by destruct first; [left|right; apply Hl]|done|].
    + destruct first; [subst; apply not_elem_of_nil|]. specialize (Hl eq_refl).
      intros [E|E]%Hseen; [|assert (str_lt low low) by (by trans (dc_Denom c)); by eapply (irreflexivity str_lt)].
      rewrite E in Hl. by eapply (irreflexivity str_lt).
    + apply IH; [|by split_and!]. intros d [->|Hin]%elem_of_cons; [by left|right].
      destruct first; [subst; by apply not_elem_of_nil in Hin|]. specialize (Hl eq_refl).
      destruct (Hseen d Hin) as [->|?]; [done|by trans low].
Qed.

Lemma DecCoins_Validate_Ok `{!CoinsOps} cs : DecCoins_Validate cs = Ok tt ↔
  dec_sorted cs ∧ Forall (λ c, ValidateDenom (dc_Denom c) = true ∧ 0 ≤ dc_Amount c) cs.
Proof.
  unfold DecCoins_Validate. destruct cs as [|c cs]; [split; [|done]; split; [constructor|done]|].
  change (llen (c :: cs) =? 0) with false. cbn iota. rewrite validate_dec_coins_Ok by done. naive_solver.
Qed.

Lemma validated_ok `{!CoinsOps} cs : validateMinimumGasPrices cs = Ok tt → dec_ok cs.
Proof. intros [Hs Hf]%DecCoins_Validate_Ok. split; [by apply dec_sorted_NoDup|done]. Qed.

Section prices.
Context `{Cc : !CoinsOps, Cd : !DecCoinsOps, Cl : !DecCoinsLaws, Cm : !MapRange, Cml : !MapRangeLaws}.

Lemma sort_ok cs : dec_ok cs → dec_ok (DecCoins_Sort cs) ∧ dec_sorted (DecCoins_Sort cs) ∧
  (∀ d, dec_amount (DecCoins_Sort cs) d = dec_amount cs d) ∧ (∀ d, d ∈ denoms (DecCoins_Sort cs) ↔ d ∈ denoms cs).
Proof.
  intros [Hnd Hok]. pose proof (DecCoins_Sort_perm cs) as Hp. split_and!.
  - split; [by rewrite (denoms_perm _ _ Hp)|by rewrite Hp].
  - by apply DecCoins_Sort_sorted.
  - intros d. symmetry. by apply dec_amount_perm.
  - intros d. by rewrite (denoms_perm _ _ Hp).
Qed.

Lemma ok_denom cs d : dec_ok cs → d ∈ denoms cs → ValidateDenom d = true.
Proof. intros [_ Hok] (c&Hc&<-)%elem_denoms. rewrite Forall_forall in Hok. by apply Hok. Qed.

Lemma max_coin_run a b d :
  dec_sorted a → dec_sorted b → dec_ok a → dec_ok b → ValidateDenom d = true →
  max_coin a b d = Ok (mkDecCoin d (dec_amount a d `max` dec_amount b d)).
Proof.
  intros Ha Hb Hoa Hob Hd. unfold max_coin. rewrite !DecCoins_AmountOf_ok, !bind_Ok_l by done.
  assert (0 ≤ dec_amount a d) by (apply dec_amount_nonneg; eapply Forall_impl; [apply Hoa|naive_solver]).
  assert (0 ≤ dec_amount b d) by (apply dec_amount_nonneg; eapply Forall_impl; [apply Hob|naive_solver]).
  destruct (dec_amount a d <? dec_amount b d) eqn:E; rewrite NewDecCoinFromDec_ok by (done || lia); do 2 f_equal; lia.
Qed.

Lemma max_coins_loop a b ds acc :
  dec_sorted a → dec_sorted b → dec_ok a → dec_ok b → Forall (λ d, ValidateDenom d = true) ds →
  fold_outcome (λ result denom, c ← max_coin a b denom; Ok (result ++ [c])) acc ds
  = Ok (acc ++ ((λ d, mkDecCoin d (dec_amount a d `max` dec_amount b d)) <$> ds)).
Proof.
  intros Ha Hb Hoa Hob Hds. revert acc. induction Hds as [|d ds Hd _ IH]; intros acc; cbn [fold_outcome fmap list_fmap].
  - by rewrite app_nil_r.
  - rewrite max_coin_run, !bind_Ok_l, IH by done. by rewrite <- app_assoc.
Qed.

Lemma MaxCoins_run a b : dec_ok a → dec_ok b →
  ∃ r, MaxCoins a b = Ok r ∧ dec_sorted r ∧ dec_ok r ∧
    (∀ d, d ∈ denoms r ↔ d ∈ denoms a ∨ d ∈ denoms b) ∧
    (∀ d, dec_amount r d = dec_amount a d `max` dec_amount b d).
Proof.
  intros Ha Hb. destruct (sort_ok a Ha) as (Hoa&Hsa&Haa&Hda), (sort_ok b Hb) as (Hob&Hsb&Hab&Hdb).
  set (ds := range_keys (denoms (DecCoins_Sort a) ++ denoms (DecCoins_Sort b))).
  assert (∀ d, d ∈ ds ↔ d ∈ denoms a ∨ d ∈ denoms b) as Hds.
  { intros d. unfold ds. by rewrite range_keys_elem, elem_of_app, Hda, Hdb. }
  assert (Forall (λ d, ValidateDenom d = true) ds) as Hv.
  { apply Forall_forall. intros d [Hd|Hd]%Hds; [by apply (ok_denom a)|by apply (ok_denom b)]. }
  set (r := (λ d, mkDecCoin d (dec_amount a d `max` dec_amount b d)) <$> ds).
  assert (denoms r = ds) as Hr by (unfold denoms, r; rewrite <- list_fmap_compose; apply list_fmap_id).
  assert (dec_ok r) as Hok.
  { split; [rewrite Hr; apply range_keys_NoDup|]. apply Forall_fmap. eapply Forall_impl; [exact Hv|].
    intros d Hd. cbn. split; [done|]. pose proof (dec_amount_nonneg a d). pose proof (dec_amount_nonneg b d).
    apply Z.le_trans with (dec_amount a d); [|lia]. apply dec_amount_nonneg.
    eapply Forall_impl; [apply Ha|naive_solver]. }
  destruct (sort_ok r Hok) as (Hor&Hsr&Har&Hdr). exists (DecCoins_Sort r). split_and!; [|done|done|..].
  - unfold MaxCoins. fold ds. rewrite max_coins_loop, bind_Ok_l by done. cbn [app]. do 2 f_equal.
    apply list_fmap_ext. intros i d _. by rewrite Haa, Hab.
  - intros d. by rewrite Hdr, Hr.
  - intros d. rewrite Har. destruct (decide (d ∈ ds)) as [Hin|Hin].
    + apply (dec_amount_elem r (mkDecCoin d _)); [apply Hok|]. apply list_elem_of_fmap. by exists d.
    + rewrite !dec_amount_none; [done|..|by rewrite Hr]; contradict Hin; apply Hds; auto.
Qed.

(** [MaxCoins] of two lists of prices with unique, valid denominations and
    amounts that are not negative succeeds, whatever the order Go iterates its
    map in: the result is sorted, has exactly the denominations of both lists,
    and for every denomination the higher of the two prices. *)
Theorem MaxCoins_spec a b : dec_ok a → dec_ok b →
  ∃ r, MaxCoins a b = Ok r ∧ dec_sorted r ∧
    (∀ d, d ∈ denoms r ↔ d ∈ denoms a ∨ d ∈ denoms b) ∧
    (∀ d, dec_amount r d = dec_amount a d `max` dec_amount b d).
Proof. intros Ha Hb. destruct (MaxCoins_run a b Ha Hb) as (r&?&?&_&?&?). by exists r. Qed.

Lemma combine_fee_run b c : dec_sorted b → Forall (λ c, 0 ≤ dc_Amount c) b → 0 ≤ dc_Amount c →
  combine_fee b c = mkDecCoin (dc_Denom c) (dc_Amount c `max` dec_amount b (dc_Denom c)).
Proof.
  intros Hs Hb Hc. unfold combine_fee. destruct (Find b (dc_Denom c)) as [x|] eqn:E.
  - apply find_in_spec in E as [Hin Hx]; [|done..]. rewrite <- Hx, dec_amount_elem by (done || by apply dec_sorted_NoDup).
    destruct (_ <? _) eqn:L, c, x; cbn in *; f_equal; (done || lia).
  - rewrite dec_amount_none.
    + rewrite Z.max_l by done. by destruct c.
    + intros (x&Hx&Hd)%elem_denoms. assert (Find b (dc_Denom c) = Some x) by (by apply find_in_spec). congruence.
Qed.

Lemma llen_cons_eqb {A} (x : A) l : (llen (x :: l) =? 0) = false.
Proof. done. Qed.

(** [CombinedFeeRequirement] refuses an empty list of global fees; else it
    keeps exactly the global denominations and raises each price to the local
    one of its denomination where that is higher. *)
Theorem CombinedFeeRequirement_spec g l : dec_ok g → dec_ok l →
  match CombinedFeeRequirement g l with
  | Ok r => g ≠ [] ∧ denoms r ≡ₚ denoms g ∧
      ∀ d, d ∈ denoms g → dec_amount r d = dec_amount g d `max` dec_amount l d
  | Err e => g = [] ∧ e = ErrSdkNotFound
  | Panic => False
  end.
Proof.
  intros Hg Hl. unfold CombinedFeeRequirement. destruct g as [|c g]; [done|]. rewrite llen_cons_eqb.
  set (gs := c :: g) in *. destruct l as [|x l].
  { split_and!; [done|done|]. intros d Hd. cbn. rewrite Z.max_l; [done|].
    apply dec_amount_nonneg. eapply Forall_impl; [apply Hg|naive_solver]. }
  rewrite llen_cons_eqb. set (ls := x :: l) in *.
  destruct (sort_ok gs Hg) as (Hog&_&Hag&Hdg), (sort_ok ls Hl) as (Hol&Hsl&Hal&_).
  assert (denoms (combine_fee (DecCoins_Sort ls) <$> DecCoins_Sort gs) = denoms (DecCoins_Sort gs)) as Hden.
  { unfold denoms. rewrite <- list_fmap_compose. apply list_fmap_ext. intros i y _. cbn. unfold combine_fee.
    destruct (Find _ _) as [z|] eqn:E; [|done]. apply find_in_spec in E as [_ E]; [|done..]. by destruct (_ <? _). }
  split_and!; [done| |].
  { by rewrite (denoms_perm _ _ (DecCoins_Sort_perm _)), Hden, (denoms_perm _ _ (DecCoins_Sort_perm _)). }
  intros d Hd. rewrite <- Hdg in Hd. apply elem_denoms in Hd as (y&Hy&<-).
  rewrite <- (dec_amount_perm (combine_fee (DecCoins_Sort ls) <$> DecCoins_Sort gs));
    [|rewrite Hden; apply Hog|symmetry; apply DecCoins_Sort_perm].
  rewrite <- Hag, (dec_amount_elem (DecCoins_Sort gs)), <- Hal by (done || apply Hog).
  assert (Hrun : combine_fee (DecCoins_Sort ls) y =
    mkDecCoin (dc_Denom y) (dc_Amount y `max` dec_amount (DecCoins_Sort ls) (dc_Denom y))).
  { destruct Hog as [_ Hog], Hol as [_ Hol]. rewrite Forall_forall in Hog.
    apply combine_fee_run; [done|eapply Forall_impl; [exact Hol|naive_solver]|by apply Hog]. }
  pose proof (dec_amount_elem (combine_fee (DecCoins_Sort ls) <$> DecCoins_Sort gs) (combine_fee (DecCoins_Sort ls) y)) as Hc.
  rewrite Hrun in Hc. cbn in Hc. apply Hc; [rewrite Hden; apply Hog|].
  rewrite <- Hrun. apply list_elem_of_fmap. by exists y.
Qed.
End prices.

(** ** The fee floor *)
Section floor.
Context `{Cc : !CoinsOps, Cd : !DecCoinsOps, Cl : !DecCoinsLaws, Cm : !MapRange, Cml : !MapRangeLaws}.
Context (bondDenom : outcome string).
Implicit Types (s : GlobalFeeSubspace) (ctx : AnteCtx).

Lemma GetGlobalFee_run s g : sp_MinGasPrices s = Some g → g ≠ [] → GetGlobalFee bondDenom s = Ok (DecCoins_Sort g).
Proof. intros Hs Hg. unfold GetGlobalFee. rewrite Hs. by destruct g as [|c g]. Qed.

Lemma DecCoins_IsZero_true cs : DecCoins_IsZero cs = true ↔ Forall (λ c, dc_Amount c = 0) cs.
Proof. unfold DecCoins_IsZero. induction cs; cbn; [done|]. rewrite andb_true_iff, Z.eqb_eq, Forall_cons. naive_solver. Qed.

Lemma DecCoins_IsZero_amount cs d : DecCoins_IsZero cs = true → dec_amount cs d = 0.
Proof.
  rewrite DecCoins_IsZero_true, Forall_forall. intros Hz. unfold dec_amount.
  destruct (list_find _ cs) as [[i c]|] eqn:E; [|done]. apply list_find_Some in E as (Hi&_).
  by apply list_elem_of_lookup_2, Hz in Hi.
Qed.

Lemma GetMinGasPrice_run ctx : dec_ok (ctx_MinGasPrices ctx) →
  dec_ok (GetMinGasPrice ctx) ∧ ∀ d, dec_amount (GetMinGasPrice ctx) d = dec_amount (ctx_MinGasPrices ctx) d.
Proof.
  intros Hok. unfold GetMinGasPrice. destruct (DecCoins_IsZero _) eqn:E.
  - split; [repeat constructor|]. intros d. symmetry. by apply DecCoins_IsZero_amount.
  - destruct (sort_ok _ Hok) as (?&_&?&_). done.
Qed.

Lemma dec_amount_IsZero cs d : DecCoins_IsZero cs = true → dec_amount cs d = 0.
Proof.
  unfold DecCoins_IsZero, dec_amount. rewrite forallb_forall. intros Hz.
  destruct (list_find _ cs) as [[i c]|] eqn:E; [|done]. apply list_find_Some in E as (Hi&_).
  apply Z.eqb_eq, Hz, list_elem_of_In. by eapply list_elem_of_lookup_2.
Qed.

Lemma GetTxFeeRequired_run s ctx g :
  sp_MinGasPrices s = Some g → g ≠ [] → dec_ok g → dec_ok (ctx_MinGasPrices ctx) →
  ∃ r, GetTxFeeRequired bondDenom s ctx = Ok r ∧ dec_sorted r ∧
    ∀ d, dec_amount r d = if ctx_IsCheckTx ctx then dec_amount (ctx_MinGasPrices ctx) d `max` dec_amount g d
                          else dec_amount g d.
Proof.
  intros Hs Hne Hg Hl. unfold GetTxFeeRequired. rewrite (GetGlobalFee_run s g), bind_Ok_l by done.
  destruct (sort_ok g Hg) as (Hog&Hsg&Hag&_). destruct (ctx_IsCheckTx ctx); cbn [negb]; [|by exists (DecCoins_Sort g)].
  destruct (GetMinGasPrice_run ctx Hl) as [Hom Ham].
  destruct (MaxCoins_run (GetMinGasPrice ctx) (DecCoins_Sort g) Hom Hog) as (r&?&?&_&_&Hr).
  exists r. split_and!; [done..|]. intros d. by rewrite Hr, Ham, Hag.
Qed.

Lemma check_bypass_denoms_run s fee g : sp_MinGasPrices s = Some g → g ≠ [] → dec_ok g →
  check_bypass_denoms bondDenom s fee =
  if decide (Coins_IsZero fee = true ∨ DecCoins_IsZero g = true ∨ Forall (λ c, coin_Denom c ∈ denoms g) fee)
  then Ok tt else Err ErrInvalidCoins.
Proof.
  intros Hs Hne Hg. unfold check_bypass_denoms. destruct (Coins_IsZero fee); [by rewrite decide_True by auto|].
  rewrite (GetGlobalFee_run s g), bind_Ok_l by done.
  assert (DecCoins_IsZero (DecCoins_Sort g) = DecCoins_IsZero g) as ->.
  { apply eq_true_iff_eq. by rewrite !DecCoins_IsZero_true, DecCoins_Sort_perm. }
  destruct (DecCoins_IsZero g); [by rewrite decide_True by auto|]. rewrite check_all_single.
  assert (∀ c, negb (bool_decide (coin_Denom c ∈ denoms (DecCoins_Sort g))) = false ↔ coin_Denom c ∈ denoms g) as He.
  { intros c. rewrite negb_false_iff, bool_decide_eq_true. apply (sort_ok g Hg). }
  apply decide_ext. rewrite !Forall_forall. setoid_rewrite He. naive_solver.
Qed.

(** C9. What the fee decorator hands on. With a non-empty list of valid global
    prices and valid prices of the node, a transaction that is not a fee transaction is
    refused and a simulated one passes with the prices of the node. A transaction with
    only bypass messages passes exactly when its gas stays within the limit and the
    fee it offers, if any, is in denominations of the global prices; it keeps the
    prices of the node, which are dropped only for a fee of zero. Any other
    transaction is handed on with the prices that the fee checker behind will
    compare its fee with: exactly the global ones when a block is executed, and for
    every denomination the higher of the global and the node's own price when the
    transaction is checked for the pool. The decorator itself compares no fee. *)
Theorem FeeDecorator_floor {A} s ctx tx g simulate (next : AnteCtx → outcome A) :
  sp_MinGasPrices s = Some g → g ≠ [] → validateMinimumGasPrices g = Ok tt → dec_ok (ctx_MinGasPrices ctx) →
  let result := FeeDecorator_AnteHandle bondDenom s ctx tx simulate next in
  if negb (tx_IsFeeTx tx) then result = Err ErrTxDecode
  else if simulate then result = next ctx
  else if ContainsOnlyBypassMinFeeMsgs s (tx_Msgs tx) then
    if decide (GetMaxTotalBypassMinFeeMsgGasUsage s < tx_Gas tx) then result = Err ErrInsufficientFee
    else if decide (Coins_IsZero (tx_Fee tx) = true ∨ DecCoins_IsZero g = true ∨
                    Forall (λ c, coin_Denom c ∈ denoms g) (tx_Fee tx))
    then ∃ ctx', result = next ctx' ∧ ctx_IsCheckTx ctx' = ctx_IsCheckTx ctx ∧
           (∀ d, dec_amount (ctx_MinGasPrices ctx') d =
                 if Coins_IsZero (tx_Fee tx) then 0 else dec_amount (ctx_MinGasPrices ctx) d)
    else result = Err ErrInvalidCoins
  else ∃ ctx', result = next ctx' ∧ ctx_IsCheckTx ctx' = ctx_IsCheckTx ctx ∧ dec_sorted (ctx_MinGasPrices ctx') ∧
         ∀ d, dec_amount (ctx_MinGasPrices ctx') d =
           if ctx_IsCheckTx ctx then dec_amount (ctx_MinGasPrices ctx) d `max` dec_amount g d else dec_amount g d.
Proof.
  intros Hs Hne Hg%validated_ok Hl. cbv zeta. unfold FeeDecorator_AnteHandle.
  destruct (tx_IsFeeTx tx); [|done]. cbn [negb fail_if]. rewrite bind_Ok_l. destruct simulate; [done|].
  destruct (ContainsOnlyBypassMinFeeMsgs s (tx_Msgs tx)).
  - rewrite (check_bypass_denoms_run s (tx_Fee tx) g) by done.
    destruct (Z.ltb_spec (GetMaxTotalBypassMinFeeMsgGasUsage s) (tx_Gas tx));
      [by rewrite decide_True by lia|rewrite decide_False by lia]. cbn [fail_if]. rewrite bind_Ok_l.
    case_decide as Hden; [|done]. rewrite bind_Ok_l.
    destruct (Coins_IsZero (tx_Fee tx)), (DecCoins_IsZero (ctx_MinGasPrices ctx)) eqn:Ez; cbn [andb negb].
    + exists ctx. split_and!; [done..|]. intros d. by apply dec_amount_IsZero.
    + by exists (WithMinGasPrices ctx []).
    + by exists ctx.
    + by exists ctx.
  - destruct (GetTxFeeRequired_run s ctx g Hs Hne Hg Hl) as (r&->&?&?). by exists (WithMinGasPrices ctx r).
Qed.
End floor.

(** ** Genesis and migration *)
Section genesis.
Context `{Cc : !CoinsOps}.
Context (nil_type_url : string).

Lemma SetParamSet_run p s : GlobalFeeParams_ValidateBasic nil_type_url p = Ok tt →
  GlobalFee_SetParamSet nil_type_url p s =
  (mkGlobalFeeSubspace (Some (MinimumGasPrices p)) (Some (BypassMinFeeMsgTypes p)) (Some (MaxTotalBypassMinFeeMsgGasUsage p)),
   Ok tt).
Proof.
  intros [Hp Hb]%unit_bind. apply unit_bind in Hb as [Hb _]. unfold GlobalFee_SetParamSet. by rewrite Hp, Hb.
Qed.

(** Parameters that pass [ValidateBasic] are imported and come back unchanged from
    the export and from the query; others stop the import with a panic. *)
Theorem globalfee_genesis_roundtrip p s :
  match GlobalFeeParams_ValidateBasic nil_type_url p with
  | Ok _ => ∃ s', globalfee_InitGenesis nil_type_url p s = (s', Ok tt) ∧
      globalfee_ExportGenesis s' = Ok p ∧ globalfee_Params s' (Some ()) = Ok p
  | _ => (globalfee_InitGenesis nil_type_url p s).2 = Panic
  end.
Proof.
  destruct (GlobalFeeParams_ValidateBasic nil_type_url p) as [[]|e|] eqn:E.
  - eexists. split; [by apply SetParamSet_run|]. by destruct p.
  - unfold GlobalFeeParams_ValidateBasic, globalfee_InitGenesis, GlobalFee_SetParamSet in *.
    destruct (validateMinimumGasPrices _); [|done..]. by destruct (validateBypassMinFeeMsgTypes _ _).
  - unfold GlobalFeeParams_ValidateBasic, globalfee_InitGenesis, GlobalFee_SetParamSet in *.
    destruct (validateMinimumGasPrices _); [|done..]. by destruct (validateBypassMinFeeMsgTypes _ _).
Qed.

Lemma default_types_ok : Forall (λ t, HasPrefix t nil_type_url = true) DefaultBypassMinFeeMsgTypes →
  validateBypassMinFeeMsgTypes nil_type_url DefaultBypassMinFeeMsgTypes = Ok tt.
Proof.
  intros Hn. apply check_all_Ok.
  rewrite Forall_forall in *. intros t Ht. apply fail_if_bind. rewrite fail_if_Ok, (Hn t Ht). split; [|done].
  rewrite bool_decide_eq_false. intros ->. repeat (apply elem_of_cons in Ht as [?|Ht]; [done|]). by apply not_elem_of_nil in Ht.
Qed.

(** The migration keeps valid prices and gives the other two parameters their defaults. *)
Lemma globalfee_v2_migration s g : sp_MinGasPrices s = Some g → validateMinimumGasPrices g = Ok tt →
  Forall (λ t, HasPrefix t nil_type_url = true) DefaultBypassMinFeeMsgTypes →
  globalfee_v2_MigrateStore nil_type_url s =
  (mkGlobalFeeSubspace (Some g) (Some DefaultBypassMinFeeMsgTypes) (Some DefaultmaxTotalBypassMinFeeMsgGasUsage), Ok tt).
Proof.
  intros Hs Hg Hn. unfold globalfee_v2_MigrateStore. rewrite get_state_bind, Hs. cbn [from_option].
  rewrite lift_bind_Ok with (a := g) by done. apply SetParamSet_run.
  unfold GlobalFeeParams_ValidateBasic. cbn [MinimumGasPrices BypassMinFeeMsgTypes]. rewrite Hg, bind_Ok_l.
  cbn [GlobalFeeDefaultParams BypassMinFeeMsgTypes]. by rewrite default_types_ok.
Qed.
End genesis.

(** ** Witnesses *)
Definition wit_global : DecCoins := [mkDecCoin "aaa" 5; mkDecCoin "uxion" 10].
Definition wit_local : DecCoins := [mkDecCoin "uxion" 20; mkDecCoin "ccc" 1].
Definition wit_subspace : GlobalFeeSubspace :=
  mkGlobalFeeSubspace (Some wit_global) (Some DefaultBypassMinFeeMsgTypes) (Some 1000).

Lemma wit_local_ok : dec_ok wit_local.
Proof. split; [by apply (bool_decide_eq_true_1 (NoDup (denoms wit_local)))|repeat constructor; cbn; lia]. Qed.

Lemma wit_global_ok : dec_ok wit_global.
Proof. apply validated_ok. by vm_compute. Qed.

Lemma Find_spec_witness :
  Find wit_global "uxion" = snd <$> list_find (λ c, dc_Denom c = "uxion") wit_global ∧
  Find wit_global "uxion" = Some (mkDecCoin "uxion" 10).
Proof. split; [|by vm_compute]. apply (Find_spec wit_global "uxion"). repeat constructor. Defined.

Lemma MaxCoins_spec_witness :
  (∃ r, MaxCoins wit_local wit_global = Ok r ∧ dec_sorted r ∧
    (∀ d, d ∈ denoms r ↔ d ∈ denoms wit_local ∨ d ∈ denoms wit_global) ∧
    (∀ d, dec_amount r d = dec_amount wit_local d `max` dec_amount wit_global d)) ∧
  MaxCoins wit_local wit_global = Ok [mkDecCoin "aaa" 5; mkDecCoin "ccc" 1; mkDecCoin "uxion" 20].
Proof. split; [exact (MaxCoins_spec wit_local wit_global wit_local_ok wit_global_ok)|by vm_compute]. Defined.

(** A transaction with another message, then one that pays no fee and only sends *)
Lemma FeeDecorator_floor_witness :
  (∃ ctx', FeeDecorator_AnteHandle (Ok "uxion") wit_subspace (mkAnteCtx wit_local true)
      (mkAnteTx true ["/cosmos.bank.v1beta1.MsgSend"] 500 []) false Ok
      = Ok ctx' ∧ ctx_IsCheckTx ctx' = true ∧ dec_sorted (ctx_MinGasPrices ctx') ∧
    ∀ d, dec_amount (ctx_MinGasPrices ctx') d = dec_amount wit_local d `max` dec_amount wit_global d) ∧
  FeeDecorator_AnteHandle (Ok "uxion") wit_subspace (mkAnteCtx wit_local true)
      (mkAnteTx true ["/xion.v1.MsgSend"] 500 []) false Ok = Ok (mkAnteCtx [] true).
Proof.
  split; [|by vm_compute].
  exact (FeeDecorator_floor (Ok "uxion") wit_subspace (mkAnteCtx wit_local true)
    (mkAnteTx true ["/cosmos.bank.v1beta1.MsgSend"] 500 []) wit_global false Ok eq_refl ltac:(done) eq_refl wit_local_ok).
Defined.
