(* ===== verification/Mint.v ===== *)
(** * Minting

    Models x/mint/types: the minter, its parameters, their validation and the
    genesis state; and the mint function of x/xion/keeper/mint.go, which
    replaces the SDK's inflation by a provision that the collected fees pay
    first: what is missing is minted, what is left over is burned. *)

From S2P Require Import Prelude GoStd Sdk SdkModel.

(** ** The minter and its parameters *)
Record Minter := mkMinter { Inflation : LegacyDec; AnnualProvisions : LegacyDec }.

Record MintParams := mkMintParams {
  MintDenom : string;
  InflationRateChange : LegacyDec;
  InflationMax : LegacyDec;
  InflationMin : LegacyDec;
  GoalBonded : LegacyDec;
  BlocksPerYear : Z;
}.

#[global] Instance Minter_eq_dec : EqDecision Minter.
Proof. solve_decision. Defined.
#[global] Instance MintParams_eq_dec : EqDecision MintParams.
Proof. solve_decision. Defined.

Record MintGenesis := mkMintGenesis { mg_Minter : Minter; mg_Params : MintParams }.
Record MsgUpdateMintParams := mkMsgUpdateMintParams { um_Authority : string; um_Params : MintParams }.

(** [LegacyNewDecWithPrec] of an [int64] with at most 18 digits *)
Definition LegacyNewDecWithPrec (i prec : Z) : Z := i * 10 ^ (18 - prec).
(** Using a nil decimal panics. *)
Definition deref (d : LegacyDec) : outcome Z := from_option Ok Panic d.

Definition NewMinter (inflation annualProvisions : LegacyDec) : Minter := mkMinter inflation annualProvisions.
Definition InitialMinter (inflation : LegacyDec) : Minter := NewMinter inflation (Some 0).
Definition DefaultInitialMinter : Minter := InitialMinter (Some (LegacyNewDecWithPrec 13 2)).

Definition ValidateMinter (minter : Minter) : outcome unit :=
  i ← deref (Inflation minter);
  fail_if (i <? 0) (Plain "mint parameter Inflation should be positive").

(** [sdk.DefaultBondDenom] *)
Definition DefaultBondDenom : string := "stake".

Definition MintDefaultParams : MintParams :=
  mkMintParams DefaultBondDenom (Some (LegacyNewDecWithPrec 13 2)) (Some (LegacyNewDecWithPrec 20 2))
    (Some (LegacyNewDecWithPrec 7 2)) (Some (LegacyNewDecWithPrec 67 2)) (60 * 60 * 8766 / 5).

Section params.
Context `{!CoinsOps}.

Definition validateMintDenom (v : string) : outcome unit :=
  _ ← fail_if (bool_decide (TrimSpace v = "")) (Plain "mint denom cannot be blank");
  fail_if (negb (ValidateDenom v)) (Foreign "sdk.ValidateDenom").

(** The body that the next three functions repeat: a value between zero and one *)
Definition validate_rate (name : string) (v : LegacyDec) : outcome unit :=
  v ← or_fail v (Plain (name +:+ " cannot be nil"));
  _ ← fail_if (v <? 0) (Plain (name +:+ " cannot be negative"));
  fail_if (dec_one <? v) (Plain (name +:+ " too large")).

Definition validateInflationRateChange : LegacyDec → outcome unit := validate_rate "inflation rate change".
Definition validateInflationMax : LegacyDec → outcome unit := validate_rate "max inflation".
Definition validateInflationMin : LegacyDec → outcome unit := validate_rate "min inflation".

Definition validateGoalBonded (v : LegacyDec) : outcome unit :=
  v ← or_fail v (Plain "goal bonded cannot be nil");
  _ ← fail_if ((v <? 0) || (v =? 0)) (Plain "goal bonded must be positive");
  fail_if (dec_one <? v) (Plain "goal bonded too large").

Definition validateBlocksPerYear (v : Z) : outcome unit :=
  fail_if (v =? 0) (Plain "blocks per year must be positive").

Definition MintParams_Validate (p : MintParams) : outcome unit :=
  _ ← validateMintDenom (MintDenom p);
  _ ← validateInflationRateChange (InflationRateChange p);
  _ ← validateInflationMax (InflationMax p);
  _ ← validateInflationMin (InflationMin p);
  _ ← validateGoalBonded (GoalBonded p);
  _ ← validateBlocksPerYear (BlocksPerYear p);
  max ← deref (InflationMax p);
  min ← deref (InflationMin p);
  fail_if (max <? min) (Plain "max inflation must be greater than or equal to min inflation").

Definition mint_ValidateGenesis (data : MintGenesis) : outcome unit :=
  _ ← MintParams_Validate (mg_Params data);
  ValidateMinter (mg_Minter data).

Definition mint_DefaultGenesisState : MintGenesis := mkMintGenesis DefaultInitialMinter MintDefaultParams.

Definition MsgUpdateMintParams_ValidateBasic `{!AddressCodec} (m : MsgUpdateMintParams) : outcome unit :=
  _ ← AccAddressFromBech32 (um_Authority m);
  MintParams_Validate (um_Params m).
End params.

(** ** Inflation and provisions *)
Section minter.
Context `{!CoinsOps, !DecOps}.
Implicit Types (m : Minter) (params : MintParams).

Definition NextInflationRate m params (bondedRatio : Z) : outcome Z :=
  goal ← deref (GoalBonded params);
  q ← Dec_Quo bondedRatio goal;
  d ← Dec_Sub dec_one q;
  rate ← deref (InflationRateChange params);
  inflationRateChangePerYear ← Dec_Mul d rate;
  blocksPerYear ← Int_ToLegacyDec (BlocksPerYear params);
  inflationRateChange ← Dec_Quo inflationRateChangePerYear blocksPerYear;
  inflation ← deref (Inflation m);
  inflation ← Dec_Add inflation inflationRateChange;
  max ← deref (InflationMax params);
  let inflation := if max <? inflation then max else inflation in
  min ← deref (InflationMin params);
  Ok (if inflation <? min then min else inflation).

Definition DefaultInflationCalculationFn m params (bondedRatio : Z) : outcome Z := NextInflationRate m params bondedRatio.

Definition NextAnnualProvisions m (totalSupply : Z) : outcome Z :=
  i ← deref (Inflation m); Dec_MulInt i totalSupply.

Definition BlockProvision m params : outcome Coin :=
  provisions ← deref (AnnualProvisions m);
  provisionAmt ← Dec_QuoInt provisions (BlocksPerYear params);
  amount ← Dec_TruncateInt provisionAmt;
  NewCoin (MintDenom params) amount.
End minter.

(** ** The mint function *)

(** The methods of the SDK's minter that the mint function calls; x/mint/types is
    the repository's copy of them. *)
Class SdkMinter := {
  sdk_NextAnnualProvisions : Minter → MintParams → Z → outcome Z;
  sdk_BlockProvision : Minter → MintParams → outcome Coin;
}.

Class SdkMinterLaws `{!CoinsOps} `{!SdkMinter} := {
  sdk_NextAnnualProvisions_ok m p i t :
    Inflation m = Some i → dec_range (i * t) → sdk_NextAnnualProvisions m p t = Ok (i * t);
  sdk_BlockProvision_ok m p a :
    AnnualProvisions m = Some a → 0 ≤ a → dec_range a → 0 < BlocksPerYear p → ValidateDenom (MintDenom p) = true →
    sdk_BlockProvision m p = Ok (mkCoin (MintDenom p) (a / BlocksPerYear p / dec_one));
}.

#[global] Instance repo_minter `{!CoinsOps, !DecOps} : SdkMinter := {|
  sdk_NextAnnualProvisions m _ := NextAnnualProvisions m;
  sdk_BlockProvision := BlockProvision;
|}.

Section mint.
Context {CM CP B : Type} `{!CollItem Minter CM, !CollItem MintParams CP, !MintBank B, !CoinsOps, !CoinArith, !SdkMinter}.
(** The staking module: [BondedRatio], [TotalBondedTokens] *)
Context (BondedRatio TotalBondedTokens : outcome Z).

Record MintState := mkMintState { ms_Minter : CM; ms_Params : CP; ms_Bank : B }.

Definition set_bank (b : B) (s : MintState) : MintState := mkMintState (ms_Minter s) (ms_Params s) b.
Definition set_minter (m : Minter) : M MintState unit :=
  write (λ s, c ← item_Set (ms_Minter s) m; Ok (mkMintState c (ms_Params s) (ms_Bank s))).
Definition with_bank {A} (m : M B A) : M MintState A := zoom ms_Bank set_bank m.

(** Mints what the collected fees lack, or burns what they exceed the provision by. *)
Definition settle_provision (feeCollectorName : string) (collectedFeeCoin neededCoin : Coin) : M MintState unit :=
  lt ← lift (Coin_IsLT collectedFeeCoin neededCoin);
  if lt : bool then
    mintedCoin ← lift (Coin_Sub neededCoin collectedFeeCoin);
    mintedCoins ← lift (NewCoins1 mintedCoin);
    _ ← with_bank (mint_MintCoins mintedCoins);
    with_bank (mint_AddCollectedFees mintedCoins)
  else
    burnedCoin ← lift (Coin_Sub collectedFeeCoin neededCoin);
    burnedCoins ← lift (NewCoins1 burnedCoin);
    with_bank (BurnCoins feeCollectorName burnedCoins).

Definition StakedInflationMintFn (feeCollectorName : string) (ic : Minter → MintParams → Z → outcome Z) : M MintState unit :=
  s ← get_state;
  minter ← lift (item_Get (ms_Minter s));
  params ← lift (item_Get (ms_Params s));
  collectedFeeCoin ← gets (λ s, GetBalance (ms_Bank s) (GetModuleAccountAddress feeCollectorName) (MintDenom params));
  bondedRatio ← lift BondedRatio;
  inflation ← lift (ic minter params bondedRatio);
  let minter := mkMinter (Some inflation) (AnnualProvisions minter) in
  bondedTokenSupply ← lift TotalBondedTokens;
  provisions ← lift (sdk_NextAnnualProvisions minter params bondedTokenSupply);
  let minter := mkMinter (Inflation minter) (Some provisions) in
  _ ← set_minter minter;
  neededCoin ← lift (sdk_BlockProvision minter params);
  _ ← lift (NewCoin (MintDenom params) 0);
  settle_provision feeCollectorName collectedFeeCoin neededCoin.
End mint.
#[global] Arguments mkMintState {_ _ _} _ _ _.
#[global] Arguments ms_Minter {_ _ _} _.
#[global] Arguments ms_Params {_ _ _} _.
#[global] Arguments ms_Bank {_ _ _} _.
#[global] Arguments MintState : clear implicits.

(** ** Parameters *)
Lemma validate_rate_Ok name v : validate_rate name v = Ok tt ↔ ∃ x, v = Some x ∧ 0 ≤ x ≤ dec_one.
Proof.
  unfold validate_rate. destruct v as [x|]; cbn; [|naive_solver]. rewrite fail_if_bind, fail_if_Ok, !Z.ltb_ge. naive_solver.
Qed.

(** The values a valid set of parameters has *)
Record params_ok `{!CoinsOps} (p : MintParams) (rate max min goal : Z) : Prop := {
  po_denom : ValidateDenom (MintDenom p) = true;
  po_rate : InflationRateChange p = Some rate ∧ 0 ≤ rate ≤ dec_one;
  po_max : InflationMax p = Some max ∧ max ≤ dec_one;
  po_min : InflationMin p = Some min ∧ 0 ≤ min ≤ max;
  po_goal : GoalBonded p = Some goal ∧ 0 < goal ≤ dec_one;
  po_blocks : BlocksPerYear p ≠ 0;
}.

Lemma MintParams_Validate_Ok `{!CoinsOps} p : MintParams_Validate p = Ok tt → ∃ rate max min goal, params_ok p rate max min goal.
Proof.
  unfold MintParams_Validate. intros [Hd K1]%unit_bind.
  apply unit_bind in K1 as [(rate&?&?)%validate_rate_Ok K2]. apply unit_bind in K2 as [(max&Hmax&?)%validate_rate_Ok K3].
  apply unit_bind in K3 as [(min&Hmin&?)%validate_rate_Ok K4]. apply unit_bind in K4 as [Hg K5]. apply unit_bind in K5 as [Hb K6].
  rewrite Hmax, Hmin in K6. cbn in K6. apply fail_if_Ok in K6. apply fail_if_Ok in Hb.
  apply bind_Ok in Hg as (goal&Hg%or_fail_Ok&Hg2). apply fail_if_bind in Hg2 as [Hg2 Hg3%fail_if_Ok].
  apply unit_bind in Hd as [_ Hd%fail_if_Ok]. apply negb_false_iff in Hd.
  exists rate, max, min, goal. split; try split; (done || lia).
Qed.

Lemma mint_DefaultGenesisState_valid `{!CoinsOps} :
  ValidateDenom DefaultBondDenom = true → mint_ValidateGenesis mint_DefaultGenesisState = Ok tt.
Proof.
  intros Hd. unfold mint_ValidateGenesis, MintParams_Validate, validateMintDenom. cbn [mg_Params mint_DefaultGenesisState MintDenom MintDefaultParams].
  rewrite Hd. by vm_compute.
Qed.

(** ** The inflation rate *)
Lemma rounded_le r b x k : 0 < b → 3 * Z.abs (r * b - x) ≤ 2 * b → x ≤ k * b → r ≤ k.
Proof. intros. nia. Qed.

Lemma rounded_ge r b x k : 0 < b → 3 * Z.abs (r * b - x) ≤ 2 * b → k * b ≤ x → k ≤ r.
Proof. intros. nia. Qed.

(** Three roundings, of the quotient [q] of [a] and [g], of the product [y] with
    the rate [r] and of the share [c] of one of [B] blocks, move the result by at most two units. *)
Lemma rate_rounding P a g r B q y c :
  0 < P → 0 < g → 0 ≤ r ≤ P → 1 ≤ B →
  3 * Z.abs (q * g - a * P) ≤ 2 * g → 3 * Z.abs (y * P - (P - q) * r) ≤ 2 * P →
  3 * Z.abs (c * (B * P) - y * P) ≤ 2 * (B * P) →
  Z.abs (c * (g * B) - (g - a) * r) ≤ 2 * (g * B).
Proof.
  intros HP Hg Hr HB H1 H2 H3.
  assert (P * (c * (g * B) - (g - a) * r) =
    g * (c * (B * P) - y * P) + g * (y * P - (P - q) * r) - r * (q * g - a * P)) as E by ring.
  set (e1 := q * g - a * P) in *. set (e2 := y * P - (P - q) * r) in *. set (e3 := c * (B * P) - y * P) in *.
  assert (3 * Z.abs (g * e3) ≤ 2 * (g * (B * P))) by (rewrite Z.abs_mul, (Z.abs_eq g) by lia; nia).
  assert (3 * Z.abs (g * e2) ≤ 2 * (g * P)) by (rewrite Z.abs_mul, (Z.abs_eq g) by lia; nia).
  assert (3 * Z.abs (r * e1) ≤ 2 * (g * P)).
  { rewrite Z.abs_mul, (Z.abs_eq r) by lia. clear - H1 Hr Hg HP. nia. }
  assert (g * P ≤ g * (B * P)) by (apply Z.mul_le_mono_nonneg_l; nia).
  set (w := c * (g * B) - (g - a) * r) in *.
  assert (Z.abs (P * w) ≤ 2 * (g * (B * P))) as Hw by lia.
  rewrite Z.abs_mul, (Z.abs_eq P) in Hw by lia.
  apply (Z.mul_le_mono_pos_l _ _ P); [done|]. lia.
Qed.

(** Every intermediate value of the rate stays below this bound. *)
Lemma dec_range_le z : Z.abs z ≤ dec_one * dec_one * dec_one + dec_one * dec_one → dec_range z.
Proof. unfold dec_range, dec_one. intros. eapply Z.le_lt_trans; [eassumption|]. by vm_compute. Qed.

Lemma dec_one_pos : 0 < dec_one.
Proof. done. Qed.

Lemma sub_in_range P q : 0 < P → 0 ≤ q → q ≤ P * P → Z.abs (P - q) ≤ P * P * P + P * P.
Proof. intros HP H0 Hq. assert (P ≤ P * P) by nia. assert (0 ≤ P * P * P) by nia. lia. Qed.

Section inflation.
Context `{Cc : !CoinsOps, Cd : !DecOps, Cl : !DecLaws}.
#[local] Opaque dec_one.

(** The change of the rate is bounded and has the sign of the distance from the goal. *)
Lemma rate_change_run p rate max min goal ratio :
  params_ok p rate max min goal → 0 ≤ ratio ≤ dec_one → is_u64 (BlocksPerYear p) →
  ∃ q y c, Dec_Quo ratio goal = Ok q ∧ Dec_Sub dec_one q = Ok (dec_one - q) ∧ Dec_Mul (dec_one - q) rate = Ok y ∧
    Int_ToLegacyDec (BlocksPerYear p) = Ok (BlocksPerYear p * dec_one) ∧
    Dec_Quo y (BlocksPerYear p * dec_one) = Ok c ∧
    Z.abs c ≤ dec_one * dec_one ∧ (ratio ≤ goal → 0 ≤ c) ∧ (goal ≤ ratio → c ≤ 0) ∧
    Z.abs (c * (goal * BlocksPerYear p) - (goal - ratio) * rate) ≤ 2 * (goal * BlocksPerYear p).
Proof.
  intros [_ [_ Hr] _ _ [_ Hg] Hb] Hratio Hu. unfold is_u64 in Hu. pose proof dec_one_pos as HP.
  assert (0 < BlocksPerYear p * dec_one) as HB by nia. assert (0 ≤ dec_one * dec_one) as HPP by nia.
  destruct (Dec_Quo_ok ratio goal) as (q&Hq&Hqr); [lia|apply dec_range_le; nia|].
  rewrite (Z.abs_eq goal) in Hqr by lia.
  assert (0 ≤ q) by (apply (rounded_ge _ _ _ _ (proj1 Hg) Hqr); nia).
  assert (q ≤ dec_one * dec_one) by (apply (rounded_le _ _ _ _ (proj1 Hg) Hqr); nia).
  assert (ratio ≤ goal → q ≤ dec_one) as Hlow by (intros; apply (rounded_le _ _ _ _ (proj1 Hg) Hqr); nia).
  assert (goal ≤ ratio → dec_one ≤ q) as Hhigh by (intros; apply (rounded_ge _ _ _ _ (proj1 Hg) Hqr); nia).
  assert (Z.abs ((dec_one - q) * rate) ≤ dec_one * dec_one * dec_one) as Hd.
  { rewrite Z.abs_mul, (Z.abs_eq rate) by lia. apply Z.mul_le_mono_nonneg; nia. }
  destruct (Dec_Mul_ok (dec_one - q) rate) as (y&Hy&Hyr); [apply dec_range_le; lia|].
  assert (3 * Z.abs (y * dec_one - (dec_one - q) * rate) ≤ 2 * dec_one) as Hyr' by lia. clear Hyr.
  assert (Z.abs y ≤ dec_one * dec_one) as Hya.
  { apply Z.abs_le. split; [apply (rounded_ge _ _ _ _ HP Hyr')|apply (rounded_le _ _ _ _ HP Hyr')]; lia. }
  assert (ratio ≤ goal → 0 ≤ y) as Hylow.
  { intros ?%Hlow. apply (rounded_ge _ _ _ _ HP Hyr'). rewrite Z.mul_0_l. apply Z.mul_nonneg_nonneg; lia. }
  assert (goal ≤ ratio → y ≤ 0) as Hyhigh.
  { intros ?%Hhigh. apply (rounded_le _ _ _ _ HP Hyr'). rewrite Z.mul_0_l. apply Z.mul_nonpos_nonneg; lia. }
  assert (Z.abs (y * dec_one) ≤ dec_one * dec_one * dec_one) as Hyd.
  { rewrite Z.abs_mul, (Z.abs_eq dec_one) by lia. apply Z.mul_le_mono_nonneg_r; [lia|exact Hya]. }
  destruct (Dec_Quo_ok y (BlocksPerYear p * dec_one)) as (c&Hc&Hcr);
    [clear - HB; lia|apply dec_range_le; clear - Hyd HPP; lia|].
  rewrite (Z.abs_eq (_ * dec_one)) in Hcr by (clear - HB; lia).
  exists q, y, c. split_and!; try done.
  - apply Dec_Sub_ok, dec_range_le. eapply sub_in_range; eassumption.
  - apply Int_ToLegacyDec_ok. unfold int_range. clear - Hu. lia.
  - assert (Z.abs (y * dec_one) ≤ dec_one * dec_one * (BlocksPerYear p * dec_one)) as Hyb.
    { etrans; [exact Hyd|]. apply Z.mul_le_mono_nonneg_l; [exact HPP|]. clear - Hb Hu HP. nia. }
    apply Z.abs_le. apply Z.abs_le in Hyb. clear - Hyb HB Hcr.
    split; [apply (rounded_ge _ _ _ _ HB Hcr); rewrite Z.mul_opp_l|apply (rounded_le _ _ _ _ HB Hcr)]; apply Hyb.
  - intros ?%Hylow. apply (rounded_ge _ _ _ _ HB Hcr). rewrite Z.mul_0_l. apply Z.mul_nonneg_nonneg; [done|]. clear - HP. lia.
  - intros ?%Hyhigh. apply (rounded_le _ _ _ _ HB Hcr). rewrite Z.mul_0_l. apply Z.mul_nonpos_nonneg; [done|]. clear - HP. lia.
  - eapply rate_rounding; [exact HP|apply Hg|exact Hr|clear - Hb Hu; lia|exact Hqr|exact Hyr'|exact Hcr].
Qed.

(** C23. With valid parameters the next inflation rate is always computed. It is the
    old rate plus a change, cut at the minimum and the maximum; the change has the sign of
    the distance of the bonded ratio from the goal and is, up to two units of the
    eighteenth decimal, one block's share of [(1 - ratio / goal)] times the yearly change,
    that is [(goal - ratio) * rate / (goal * BlocksPerYear)]. *)
Theorem NextInflationRate_spec m p i ratio :
  MintParams_Validate p = Ok tt → is_u64 (BlocksPerYear p) →
  Inflation m = Some i → 0 ≤ i ≤ dec_one → 0 ≤ ratio ≤ dec_one →
  ∃ r max min goal rate change, NextInflationRate m p ratio = Ok r ∧
    InflationMax p = Some max ∧ InflationMin p = Some min ∧ GoalBonded p = Some goal ∧
    InflationRateChange p = Some rate ∧
    r = min `max` ((i + change) `min` max) ∧ min ≤ r ≤ max ∧
    (ratio ≤ goal → 0 ≤ change) ∧ (goal ≤ ratio → change ≤ 0) ∧
    Z.abs (change * (goal * BlocksPerYear p) - (goal - ratio) * rate) ≤ 2 * (goal * BlocksPerYear p).
Proof.
  intros (rate&max&min&goal&Hp)%MintParams_Validate_Ok Hu Hi Hir Hratio. pose proof dec_one_pos as HP.
  destruct (rate_change_run p rate max min goal ratio Hp Hratio Hu) as (q&y&c&Hq&Hs&Hy&Hb&Hc&Hca&Hlow&Hhigh&Hex).
  destruct Hp as [_ [Hrate _] [Hmax _] [Hmin Hmm] [Hgoal _] _].
  eexists _, max, min, goal, rate, c. split.
  - unfold NextInflationRate. rewrite Hgoal, Hrate, Hi, Hmax, Hmin. cbn [deref from_option].
    rewrite !bind_Ok_l, Hq, bind_Ok_l, Hs, bind_Ok_l, !bind_Ok_l, Hy, bind_Ok_l, Hb, bind_Ok_l, Hc, !bind_Ok_l.
    rewrite Dec_Add_ok, !bind_Ok_l by (apply dec_range_le; nia). reflexivity.
  - split_and!; try done; clear Hex; repeat case_match; lia.
Qed.
End inflation.

(** The repository's minter keeps the promises the mint function relies on. *)
#[global] Instance repo_minter_laws `{Cc : !CoinsOps, Ccl : !CoinsLaws, Cd : !DecOps, Cl : !DecLaws} : SdkMinterLaws.
Proof.
  split; cbn; intros m p x.
  - intros t Hi Hr. unfold NextAnnualProvisions. rewrite Hi. cbn [deref from_option]. rewrite bind_Ok_l. by apply Dec_MulInt_ok.
  - intros Ha H0 Hr Hb Hd. unfold BlockProvision. rewrite Ha. cbn [deref from_option].
    rewrite bind_Ok_l, Dec_QuoInt_ok, bind_Ok_l, Z.quot_div_nonneg by lia.
    assert (0 ≤ x / BlocksPerYear p ≤ x) by (split; [by apply Z.div_pos|apply Z.div_le_upper_bound; nia]).
    assert (0 ≤ x / BlocksPerYear p / dec_one) by (apply Z.div_pos; [lia|done]).
    assert (x / BlocksPerYear p ÷ dec_one = x / BlocksPerYear p / dec_one) as Hq by (apply Z.quot_div_nonneg; [lia|done]).
    rewrite Dec_TruncateInt_ok, Hq, bind_Ok_l; [by apply NewCoin_ok|].
    rewrite Hq. unfold int_range, dec_range in *. rewrite Z.abs_eq by done.
    apply Z.div_lt_upper_bound; [done|]. unfold dec_one. lia.
Qed.

(** ** The mint function settles the provision *)
Section settle.
Context {CM CP B : Type} `{Im : !CollItem Minter CM, Iml : !CollItemLaws Minter CM, Ip : !CollItem MintParams CP,
  Ipl : !CollItemLaws MintParams CP, Bk : !MintBank B, Cc : !CoinsOps, Bl : !MintBankLaws B, Ccl : !CoinsLaws,
  Ca : !CoinArith, Cal : !CoinArithLaws, Sm : !SdkMinter, Sml : !SdkMinterLaws}.
Context (BondedRatio TotalBondedTokens : outcome Z).
Implicit Types (s : MintState CM CP B).

Abbreviation collector := (GetModuleAccountAddress mint_feeCollectorName).

(** Balances are not negative and no supply is near the end of the integers. *)
Definition bank_ok (b : B) : Prop :=
  (∀ a d, 0 ≤ mb_balance b a d ≤ mb_supply b d) ∧ ∀ d, mb_supply b d < 2 ^ 255.

(** What the block leaves behind: the collector holds exactly [needed] of [denom],
    the supply follows, and nothing else moves. *)
Definition settled (b b' : B) (denom : string) (needed : Z) : Prop :=
  mb_balance b' collector denom = needed ∧
  mb_supply b' denom = mb_supply b denom + needed - mb_balance b collector denom ∧
  (∀ a d, a ≠ collector ∨ d ≠ denom → mb_balance b' a d = mb_balance b a d) ∧
  (∀ d, d ≠ denom → mb_supply b' d = mb_supply b d).

Lemma amount_coins1 denom x d : amount_of (if x =? 0 then [] else [mkCoin denom x]) d = if decide (denom = d) then x else 0.
Proof.
  destruct (x =? 0) eqn:E; [rewrite amount_of_nil; case_decide; lia|].
  rewrite amount_of_cons, amount_of_nil. cbn. case_decide; lia.
Qed.

Lemma coins1_valid denom x : ValidateDenom denom = true → 0 ≤ x < 2 ^ 256 →
  coins_valid (if x =? 0 then [] else [mkCoin denom x]).
Proof.
  intros Hd Hx. destruct (x =? 0) eqn:E; [apply coins_valid_nil|]. apply coins_valid_cons. cbn.
  repeat split; try (done || lia); constructor.
Qed.

Lemma settle_run s denom needed :
  bank_ok (ms_Bank s) → ValidateDenom denom = true → 0 ≤ needed < 2 ^ 255 →
  ∃ b', settle_provision mint_feeCollectorName (GetBalance (ms_Bank s) collector denom) (mkCoin denom needed) s
        = (set_bank b' s, Ok tt) ∧ settled (ms_Bank s) b' denom needed.
Proof.
  intros [Hbal Hsup] Hd Hn. set (b := ms_Bank s) in *. unfold settle_provision. rewrite GetBalance_spec, Coin_IsLT_ok.
  pose proof (Hbal collector denom) as Hcol. pose proof (Hsup denom) as Hsd. rewrite lift_bind.
  destruct (mb_balance b collector denom <? needed) eqn:E.
  - rewrite Coin_Sub_ok, lift_bind, NewCoins1_ok, lift_bind by (done || unfold int_range; lia).
    set (cs := if _ =? 0 then [] else _).
    assert (coins_valid cs) as Hv by (apply coins1_valid; [done|lia]).
    assert (∀ d, amount_of cs d = if decide (denom = d) then needed - mb_balance b collector denom else 0) as Hcs
      by (intros; apply amount_coins1). clearbody cs.
    destruct (mint_MintCoins_ok b cs Hv) as (b1&Hm&Hs1&Hb1).
    { intros d. rewrite Hcs. pose proof (Hsup d). case_decide; [subst|]; lia. }
    destruct (mint_AddCollectedFees_ok b1 cs Hv) as (b2&Ha&Hs2&Hb2).
    { intros d. rewrite Hb1, Hcs. unfold at_addr. pose proof (Hbal (GetModuleAccountAddress mint_ModuleName) d).
      repeat case_decide; (done || lia). }
    exists b2. split.
    + unfold with_bank, zoom at 1. fold b.
      rewrite M_bind_Ok_l with (s' := set_bank b1 s) (a := tt) by (unfold zoom; fold b; by rewrite Hm).
      unfold with_bank, zoom. cbn [ms_Bank set_bank]. by rewrite Ha.
    + unfold settled. split_and!.
      * rewrite Hb2, Hb1, Hcs. unfold at_addr. repeat case_decide; (done || lia).
      * rewrite Hs2, Hs1, Hcs, decide_True by done. lia.
      * intros a d Hne. rewrite Hb2, Hb1, Hcs. unfold at_addr. repeat case_decide; subst; try lia; naive_solver.
      * intros d Hne. rewrite Hs2, Hs1, Hcs, decide_False by done. lia.
  - rewrite Coin_Sub_ok, lift_bind, NewCoins1_ok, lift_bind by (done || unfold int_range; lia).
    set (cs := if _ =? 0 then [] else _).
    assert (coins_valid cs) as Hv by (apply coins1_valid; [done|lia]).
    assert (∀ d, amount_of cs d = if decide (denom = d) then mb_balance b collector denom - needed else 0) as Hcs
      by (intros; apply amount_coins1). clearbody cs.
    destruct (BurnCoins_ok b cs Hv) as (b1&Hm&Hs1&Hb1).
    { intros d. rewrite Hcs. pose proof (Hbal collector d). case_decide; [subst|]; lia. }
    exists b1. split; [unfold with_bank, zoom; fold b; by rewrite Hm|]. unfold settled. split_and!.
    + rewrite Hb1, Hcs. unfold at_addr. rewrite !decide_True by done. lia.
    + rewrite Hs1, Hcs, decide_True by done. lia.
    + intros a d Hne. rewrite Hb1, Hcs. unfold at_addr. repeat case_decide; subst; try lia; naive_solver.
    + intros d Hne. rewrite Hs1, Hcs, decide_False by done. lia.
Qed.

(** C3. The mint function of a block always completes, given valid parameters, an
    inflation rate between zero and one and a bank within its range: it stores
    the new rate and the provision of a year, and whatever fees were collected
    it leaves exactly the provision of one block with the fee collector, minting
    what was missing or burning the rest; the supply changes by the difference
    and no other balance changes. *)
Theorem StakedInflationMintFn_settles s ic minter params ratio i tokens :
  item_contents (ms_Minter s) = Some minter → item_contents (ms_Params s) = Some params →
  MintParams_Validate params = Ok tt → is_u64 (BlocksPerYear params) →
  BondedRatio = Ok ratio → ic minter params ratio = Ok i → 0 ≤ i ≤ dec_one →
  TotalBondedTokens = Ok tokens → 0 ≤ tokens < 2 ^ 254 → bank_ok (ms_Bank s) →
  ∃ s', StakedInflationMintFn BondedRatio TotalBondedTokens mint_feeCollectorName ic s = (s', Ok tt) ∧
    item_contents (ms_Minter s') = Some (mkMinter (Some i) (Some (i * tokens))) ∧
    ms_Params s' = ms_Params s ∧
    settled (ms_Bank s) (ms_Bank s') (MintDenom params) (i * tokens / BlocksPerYear params / dec_one).
Proof.
  intros Hm Hp (rate&max&min&goal&Hok)%MintParams_Validate_Ok Hu Hr Hic Hi Ht Htr Hb. unfold is_u64 in Hu.
  pose proof (po_blocks _ _ _ _ _ Hok) as Hblocks. pose proof (po_denom _ _ _ _ _ Hok) as Hden.
  assert (0 ≤ i * tokens ≤ dec_one * 2 ^ 254) as Hit by (split; [lia|apply Z.mul_le_mono_nonneg; lia]).
  assert (dec_range (i * tokens)) as Hrange.
  { unfold dec_range. rewrite Z.abs_eq by lia. eapply Z.le_lt_trans; [apply Hit|]. by vm_compute. }
  set (needed := i * tokens / BlocksPerYear params / dec_one).
  assert (0 ≤ needed < 2 ^ 255) as Hneed.
  { assert (0 ≤ i * tokens / BlocksPerYear params ≤ dec_one * 2 ^ 254) as Hq
      by (split; [apply Z.div_pos; lia|apply Z.div_le_upper_bound; nia]).
    split; [apply Z.div_pos; [lia|done]|]. apply Z.div_lt_upper_bound; [done|]. unfold dec_one in *. lia. }
  set (minter' := mkMinter (Some i) (Some (i * tokens))).
  destruct (item_Set_spec (ms_Minter s) minter') as (c&Hset&Hc).
  destruct (settle_run (mkMintState c (ms_Params s) (ms_Bank s)) (MintDenom params) needed Hb Hden Hneed) as (b'&Hrun&Hs').
  exists (mkMintState c (ms_Params s) b'). split_and!; [|done|done|exact Hs'].
  unfold StakedInflationMintFn. rewrite get_state_bind.
  rewrite (lift_bind_Ok _ _ _ minter) by (by rewrite item_Get_spec, Hm).
  rewrite (lift_bind_Ok _ _ _ params) by (by rewrite item_Get_spec, Hp).
  rewrite M_bind_Ok_l with (s' := s) (a := GetBalance (ms_Bank s) collector (MintDenom params)) by done.
  rewrite (lift_bind_Ok _ _ _ ratio), (lift_bind_Ok _ _ _ i), (lift_bind_Ok _ _ _ tokens) by done.
  rewrite (lift_bind_Ok _ _ _ (i * tokens)) by (by apply sdk_NextAnnualProvisions_ok). cbn [Inflation]. fold minter'.
  rewrite M_bind_Ok_l with (s' := mkMintState c (ms_Params s) (ms_Bank s)) (a := tt)
    by (unfold set_minter, write; by rewrite Hset).
  rewrite (lift_bind_Ok _ _ _ (mkCoin (MintDenom params) needed)) by (apply sdk_BlockProvision_ok; (done || lia)).
  rewrite (lift_bind_Ok _ _ _ (mkCoin (MintDenom params) 0)) by (by apply NewCoin_ok). exact Hrun.
Qed.
End settle.

(** ** Witnesses *)
(** A tenth of the stake is bonded: the rate rises. *)
Lemma NextInflationRate_spec_witness :
  ∃ r max min goal rate change, NextInflationRate DefaultInitialMinter MintDefaultParams (10 ^ 17) = Ok r ∧
    InflationMax MintDefaultParams = Some max ∧ InflationMin MintDefaultParams = Some min ∧
    GoalBonded MintDefaultParams = Some goal ∧ InflationRateChange MintDefaultParams = Some rate ∧
    r = min `max` ((13 * 10 ^ 16 + change) `min` max) ∧ min ≤ r ≤ max ∧
    (10 ^ 17 ≤ goal → 0 ≤ change) ∧ (goal ≤ 10 ^ 17 → change ≤ 0) ∧
    Z.abs (change * (goal * BlocksPerYear MintDefaultParams) - (goal - 10 ^ 17) * rate)
      ≤ 2 * (goal * BlocksPerYear MintDefaultParams).
Proof.
  apply (NextInflationRate_spec DefaultInitialMinter MintDefaultParams (13 * 10 ^ 16) (10 ^ 17)); try eval_hyp;
    split; by vm_compute.
Defined.

Definition wit_bank : model_bank := <[(module_address "fee_collector", "stake") := 10000]> ∅.

Lemma wit_bank_ok : bank_ok wit_bank.
Proof.
  assert (∀ d, model_supply wit_bank d = if decide ("stake" = d) then 10000 else 0) as Hs.
  { intros d. unfold wit_bank. rewrite model_supply_insert. change (model_supply ∅ d) with 0. rewrite lookup_empty. cbn. case_decide; lia. }
  split; [|intros d; cbn [mb_supply model_mint_bank_laws]; rewrite Hs; case_decide; lia].
  intros a d. cbn [mb_supply mb_balance model_mint_bank_laws]. rewrite Hs. unfold model_balance, wit_bank.
  destruct (decide ((module_address "fee_collector", "stake") = (a, d))) as [[= <- <-]|Hne].
  - rewrite lookup_insert_eq, decide_True by done. cbn. lia.
  - rewrite lookup_insert_ne, lookup_empty by done. cbn. case_decide; lia.
Qed.

(** Ten percent on 10^12 bonded tokens: the collected 10000 fall short, the rest is minted. *)
Definition wit_mint_state : MintState (option Minter) (option MintParams) model_bank :=
  mkMintState (Some DefaultInitialMinter) (Some MintDefaultParams) wit_bank.

Lemma StakedInflationMintFn_settles_witness :
  (∃ s', StakedInflationMintFn (Ok 0) (Ok (10 ^ 12)) mint_feeCollectorName (λ _ _ _, Ok (10 ^ 17)) wit_mint_state = (s', Ok tt) ∧
    item_contents (ms_Minter s') = Some (mkMinter (Some (10 ^ 17)) (Some (10 ^ 17 * 10 ^ 12))) ∧
    ms_Params s' = ms_Params wit_mint_state ∧
    settled wit_bank (ms_Bank s') "stake" (10 ^ 17 * 10 ^ 12 / 6311520 / dec_one)) ∧
  10 ^ 17 * 10 ^ 12 / 6311520 / dec_one = 15844.
Proof.
  split; [|by vm_compute].
  apply (StakedInflationMintFn_settles (Ok 0) (Ok (10 ^ 12)) wit_mint_state (λ _ _ _, Ok (10 ^ 17)) DefaultInitialMinter
    MintDefaultParams 0 (10 ^ 17) (10 ^ 12)); [reflexivity..| | | | | | | |exact wit_bank_ok]; try eval_hyp; split; by vm_compute.
Defined.
