(* ===== verification/Feegrant.v ===== *)
(** * x/xion: fee allowances

    Models x/xion/types/feegrant.go: the three allowances that xion adds to the
    fee grants of the SDK.  [AuthzAllowance] pays for messages that a grantee
    executes through authz, [ContractsAllowance] for calls of listed contracts,
    and [MultiAnyAllowance] tries a list of allowances in order. *)

From S2P Require Import Prelude GoStd Sdk SdkModel PlatformFee.

(** ** Data *)
Unset Elimination Schemes.

(** A message: the two types the allowances look into, and the rest by type URL.
    [exec_Msgs] is what [GetMessages] returns, [None] if it fails. *)
Inductive Msg :=
  | MsgExec (exec_Grantee : string) (exec_Msgs : option (list Msg))
  | MsgExecuteContract (exec_Contract : string)
  | MsgOther (url : string).

(** A pointer to a [types.Any]: nil, without a cached allowance, or with one. *)
Inductive any (A : Type) := AnyNil | AnyUncached | AnyOf (a : A).
#[global] Arguments AnyNil {_}.
#[global] Arguments AnyUncached {_}.
#[global] Arguments AnyOf {_} _.

(** [X] are the allowances of the SDK. *)
Inductive Allowance (X : Type) :=
  | SdkAllowance (x : X)
  | AuthzAllowance (inner : any (Allowance X)) (AuthzGrantee : string)
  | ContractsAllowance (inner : any (Allowance X)) (ContractAddresses : list string)
  | MultiAnyAllowance (Allowances : list (any (Allowance X))).
Set Elimination Schemes.
#[global] Arguments SdkAllowance {_} _.
#[global] Arguments AuthzAllowance {_} _ _.
#[global] Arguments ContractsAllowance {_} _ _.
#[global] Arguments MultiAnyAllowance {_} _.

(** Induction on an allowance, with the hypothesis for the allowances it holds *)
Section induction.
Context {X : Type} (P : Allowance X → Prop).

Definition any_holds (p : any (Allowance X)) : Prop := match p with AnyOf a => P a | _ => True end.

Hypothesis (Hsdk : ∀ x, P (SdkAllowance x))
  (Hauthz : ∀ inner g, any_holds inner → P (AuthzAllowance inner g))
  (Hcontracts : ∀ inner addrs, any_holds inner → P (ContractsAllowance inner addrs))
  (Hmulti : ∀ l, Forall any_holds l → P (MultiAnyAllowance l)).

Fixpoint Allowance_ind (a : Allowance X) : P a :=
  let holds (p : any (Allowance X)) : any_holds p :=
    match p with AnyOf a => Allowance_ind a | AnyNil => I | AnyUncached => I end in
  match a with
  | SdkAllowance x => Hsdk x
  | AuthzAllowance inner g => Hauthz inner g (holds inner)
  | ContractsAllowance inner addrs => Hcontracts inner addrs (holds inner)
  | MultiAnyAllowance l =>
    Hmulti l ((fix all (l : list (any (Allowance X))) : Forall any_holds l :=
                 match l with [] => Forall_nil_2 _ | p :: l => Forall_cons_2 _ p l (holds p) (all l) end) l)
  end.
End induction.

(** What [Accept] returns: an error, which may come with [remove]; or no error and
    [remove]; or no error and the charged allowance. *)
Inductive AcceptResult (A : Type) := Refused (remove : bool) (e : goerr) | Spent | Charged (a : A).
#[global] Arguments Refused {_} _ _.
#[global] Arguments Spent {_}.
#[global] Arguments Charged {_} _.

(** The allowances of the SDK, x/feegrant; [G] is the gas meter of the context. *)
Class SdkAllowances (X G : Type) := {
  sdk_Accept : X → Coins → list Msg → M G (AcceptResult X);
  sdk_ValidateBasic : X → outcome unit;
  (** the expiration as an instant, [None] for a nil pointer *)
  sdk_ExpiresAt : X → outcome (option Z);
}.

(** [types.NewAnyWithValue] succeeds. *)
Class AnyPacker (X : Type) := packs : Allowance X → bool.

Definition ErrMessageNotAllowed : goerr := Foreign "feegrant.ErrMessageNotAllowed".
Definition ErrNoAllowance : goerr := Foreign "feegrant.ErrNoAllowance".
Definition ErrPackAny : goerr := Foreign "sdk.ErrPackAny".

Definition gasCostPerIteration : Z := 10.
Definition maxMultiAnyAllowanceDepth : nat := 5.

Section feegrant.
Context {X G : Type} `{!SdkAllowances X G, !AnyPacker X, !GasMeter G, !AddressCodec}.
Implicit Types (a : Allowance X) (msgs : list Msg).
Abbreviation result := (AcceptResult (Allowance X)).

Definition consume_iteration : M G unit := write (λ g, ConsumeGas g gasCostPerIteration).

(** [GetAllowance], then the rest of the caller *)
Definition GetAllowance {B} (p : any (Allowance X)) (k : Allowance X → outcome B) : outcome B :=
  match p with
  | AnyNil => Panic
  | AnyUncached => Err ErrNoAllowance
  | AnyOf a => k a
  end.

(** ** Accept *)

(** [None] is the result [(nil, false)]. *)
Fixpoint allMsgTypesAuthz (grantee : string) (subMsgs : list Msg) msgs : M G (option (list Msg)) :=
  match msgs with
  | [] => mret (Some subMsgs)
  | msg :: msgs =>
    _ ← consume_iteration;
    match msg with
    | MsgExec g ms =>
      if bool_decide (g ≠ grantee) then mret None
      else match ms with
           | None => mret None
           | Some ms => allMsgTypesAuthz grantee (subMsgs ++ ms) msgs
           end
    | _ => mret None
    end
  end.

(** The map has the listed addresses for keys, so it is read as the list. *)
Definition allowedContractsToMap (addrs : list string) : M G (list string) :=
  _ ← for_each (λ _, consume_iteration) addrs; mret addrs.

Fixpoint all_wasm_execs (addrs : list string) msgs : M G bool :=
  match msgs with
  | [] => mret true
  | msg :: msgs =>
    _ ← consume_iteration;
    match msg with
    | MsgExecuteContract c => if bool_decide (c ∉ addrs) then mret false else all_wasm_execs addrs msgs
    | _ => mret false
    end
  end.

Definition allMsgsValidWasmExecs (addrs : list string) msgs : M G bool :=
  addrsMap ← allowedContractsToMap addrs; all_wasm_execs addrsMap msgs.

(** The end of the two wrapping [Accept]s: the charged allowance is packed again. *)
Definition SetAllowance (wrap : any (Allowance X) → Allowance X) (r : result) : result :=
  match r with
  | Charged a => if packs a then Charged (wrap (AnyOf a)) else Refused false ErrPackAny
  | _ => r
  end.

(** The loop of [MultiAnyAllowance.Accept]; [accept] is the recursive call and
    [tried] are the allowances before the current one, which all refused. *)
Section multi.
Context (accept : Allowance X → M G result).

Fixpoint multi_accept (tried l : list (any (Allowance X))) : M G result :=
  match l with
  | [] => mret (Refused false ErrNoValidAllowances)
  | p :: l =>
    match p with
    | AnyNil => lift Panic
    | AnyUncached => mret (Refused false ErrNoAllowance)
    | AnyOf allowance =>
      _ ← consume_iteration;
      r ← accept allowance;
      match r with
      | Refused _ _ => multi_accept (tried ++ [p]) l
      | Charged allowance =>
        mret (if packs allowance then Charged (MultiAnyAllowance (tried ++ AnyOf allowance :: l)) else Refused false ErrPackAny)
      | Spent => mret (if llen (tried ++ l) =? 0 then Spent else Charged (MultiAnyAllowance (tried ++ l)))
      end
    end
  end.
End multi.

Definition AuthzAllowance_Accept (accept : Allowance X → list Msg → M G result) (inner : any (Allowance X))
    (grantee : string) msgs : M G result :=
  subMsgs ← allMsgTypesAuthz grantee [] msgs;
  match subMsgs with
  | None => mret (Refused false ErrMessageNotAllowed)
  | Some subMsgs =>
    match inner with
    | AnyNil => lift Panic
    | AnyUncached => mret (Refused false ErrNoAllowance)
    | AnyOf allowance =>
      r ← accept allowance subMsgs;
      mret (SetAllowance (λ p, AuthzAllowance p grantee) r)
    end
  end.

Definition ContractsAllowance_Accept (accept : Allowance X → list Msg → M G result) (inner : any (Allowance X))
    (addrs : list string) msgs : M G result :=
  ok ← allMsgsValidWasmExecs addrs msgs;
  if negb ok then mret (Refused false ErrMessageNotAllowed)
  else
    match inner with
    | AnyNil => lift Panic
    | AnyUncached => mret (Refused false ErrNoAllowance)
    | AnyOf allowance =>
      r ← accept allowance msgs;
      mret (SetAllowance (λ p, ContractsAllowance p addrs) r)
    end.

Fixpoint Accept a (fee : Coins) msgs {struct a} : M G result :=
  match a with
  | SdkAllowance x =>
    r ← sdk_Accept x fee msgs;
    mret (match r with Charged x => Charged (SdkAllowance x) | Spent => Spent | Refused b e => Refused b e end)
  | AuthzAllowance inner grantee => AuthzAllowance_Accept (λ a, Accept a fee) inner grantee msgs
  | ContractsAllowance inner addrs => ContractsAllowance_Accept (λ a, Accept a fee) inner addrs msgs
  | MultiAnyAllowance allowances => multi_accept (λ a, Accept a fee msgs) [] allowances
  end.

(** ** Expiration and validation *)
Definition EqTime (a b : option Z) : bool :=
  match a, b with
  | Some a, Some b => a =? b
  | None, None => true
  | _, _ => false
  end.

(** The loop of [MultiAnyAllowance.ExpiresAt]; [expiration] is [None] until it is set. *)
Section expires.
Context (expires_at : Allowance X → outcome (option Z)).

Fixpoint multi_expires (expiration : option (option Z)) (l : list (any (Allowance X))) : outcome (option Z) :=
  match l with
  | [] => Ok (default None expiration)
  | p :: l =>
    newExpiration ← GetAllowance p expires_at;
    match expiration with
    | Some t =>
      _ ← fail_if (negb (EqTime t newExpiration)) ErrInconsistentExpiry;
      multi_expires (Some t) l
    | None => multi_expires (Some newExpiration) l
    end
  end.
End expires.

Fixpoint ExpiresAt a : outcome (option Z) :=
  match a with
  | SdkAllowance x => sdk_ExpiresAt x
  | AuthzAllowance inner _ => GetAllowance inner ExpiresAt
  | ContractsAllowance inner _ => GetAllowance inner ExpiresAt
  | MultiAnyAllowance allowances => multi_expires ExpiresAt None allowances
  end.

(** The loop of [validateBasicDepth] over the members *)
Section members.
Context (validate : nat → Allowance X → outcome unit) (depth : nat).

Fixpoint validate_members (l : list (any (Allowance X))) : outcome unit :=
  match l with
  | [] => Ok tt
  | p :: l =>
    _ ← GetAllowance p (λ allowance,
          match allowance with
          | MultiAnyAllowance _ => validate (S depth) allowance
          | _ => validate 0%nat allowance
          end);
    validate_members l
  end.
End members.

Definition AuthzAllowance_ValidateBasic (validate : Allowance X → outcome unit) (inner : any (Allowance X))
    (grantee : string) : outcome unit :=
  match inner with
  | AnyNil => Err ErrNoAllowance
  | _ =>
    _ ← AccAddressFromBech32 grantee;
    GetAllowance inner validate
  end.

Definition ContractsAllowance_ValidateBasic (validate : Allowance X → outcome unit) (inner : any (Allowance X))
    (addrs : list string) : outcome unit :=
  match inner with
  | AnyNil => Err ErrNoAllowance
  | _ =>
    _ ← fail_if (llen addrs <? 1) ErrNoAllowedContracts;
    _ ← check_all (λ addr, _ ← AccAddressFromBech32 addr; Ok tt) addrs;
    GetAllowance inner validate
  end.

(** [ValidateBasic] of every allowance, at a depth that only [MultiAnyAllowance] uses *)
Fixpoint validateBasicDepth (depth : nat) a : outcome unit :=
  match a with
  | SdkAllowance x => sdk_ValidateBasic x
  | AuthzAllowance inner grantee => AuthzAllowance_ValidateBasic (validateBasicDepth 0) inner grantee
  | ContractsAllowance inner addrs => ContractsAllowance_ValidateBasic (validateBasicDepth 0) inner addrs
  | MultiAnyAllowance allowances =>
    _ ← fail_if (maxMultiAnyAllowanceDepth <? depth)%nat ErrInvalidRequest;
    _ ← fail_if (llen allowances =? 0) ErrNoAllowance;
    _ ← validate_members validateBasicDepth depth allowances;
    _ ← ExpiresAt a;
    Ok tt
  end.

Definition ValidateBasic (a : Allowance X) : outcome unit := validateBasicDepth 0 a.

(** ** Constructors; a failed packing is an error *)
Definition new_any a : outcome (any (Allowance X)) := if packs a then Ok (AnyOf a) else Err (Foreign "NewAnyWithValue").

Definition NewAuthzAllowance a (authzGrantee : string) : outcome (Allowance X) :=
  p ← new_any a; Ok (AuthzAllowance p (AccAddress_String authzGrantee)).

Definition NewContractsAllowance a (allowed : list string) : outcome (Allowance X) :=
  p ← new_any a; Ok (ContractsAllowance p (AccAddress_String <$> allowed)).

Definition NewMultiAnyAllowance (allowances : list (Allowance X)) : outcome (Allowance X) :=
  ps ← fold_outcome (λ ps a, p ← new_any a; Ok (ps ++ [p])) [] allowances;
  Ok (MultiAnyAllowance ps).
End feegrant.

(** ** What an accepted fee may change *)
Section charges.
Context {X G : Type} `{Sa : !SdkAllowances X G, Ap : !AnyPacker X, Gm : !GasMeter G}.
Implicit Types (a : Allowance X) (msgs : list Msg) (r : AcceptResult (Allowance X)).

Definition refusal {A} (r : AcceptResult A) : Prop := match r with Refused _ _ => True | _ => False end.

(** The member charged is one that the earlier ones left the fee to. *)
Definition refuses (fee : Coins) msgs (p : any (Allowance X)) : Prop :=
  ∃ a g g' r, p = AnyOf a ∧ Accept a fee msgs g = (g', Ok r) ∧ refusal r.

(** The result of a list whose middle member was charged or spent *)
Definition multi_result (l1 l2 : list (any (Allowance X))) r : AcceptResult (Allowance X) :=
  match r with
  | Charged a => Charged (MultiAnyAllowance (l1 ++ AnyOf a :: l2))
  | Spent => if bool_decide (l1 ++ l2 = []) then Spent else Charged (MultiAnyAllowance (l1 ++ l2))
  | Refused b e => Refused b e
  end.

(** [charges fee a msgs r]: the fee for [msgs] is taken from exactly one SDK
    allowance in [a], under every restriction on the way to it. *)
Inductive charges (fee : Coins) : Allowance X → list Msg → AcceptResult (Allowance X) → Prop :=
  | charges_spent x msgs g g' :
      sdk_Accept x fee msgs g = (g', Ok Spent) → charges fee (SdkAllowance x) msgs Spent
  | charges_sdk x x' msgs g g' :
      sdk_Accept x fee msgs g = (g', Ok (Charged x')) → charges fee (SdkAllowance x) msgs (Charged (SdkAllowance x'))
  | charges_authz a grantee msgs subs r :
      Forall2 (λ m sub, m = MsgExec grantee (Some sub)) msgs subs → charges fee a (concat subs) r →
      charges fee (AuthzAllowance (AnyOf a) grantee) msgs
        (match r with Charged a' => Charged (AuthzAllowance (AnyOf a') grantee) | _ => r end)
  | charges_contracts a addrs msgs r :
      Forall (λ m, ∃ c, m = MsgExecuteContract c ∧ c ∈ addrs) msgs → charges fee a msgs r →
      charges fee (ContractsAllowance (AnyOf a) addrs) msgs
        (match r with Charged a' => Charged (ContractsAllowance (AnyOf a') addrs) | _ => r end)
  | charges_multi l1 a l2 msgs r :
      Forall (refuses fee msgs) l1 → charges fee a msgs r →
      charges fee (MultiAnyAllowance (l1 ++ AnyOf a :: l2)) msgs (multi_result l1 l2 r).

Lemma allMsgTypesAuthz_Ok grantee acc msgs g g' subs :
  allMsgTypesAuthz grantee acc msgs g = (g', Ok (Some subs)) →
  ∃ parts, Forall2 (λ m sub, m = MsgExec grantee (Some sub)) msgs parts ∧ subs = acc ++ concat parts.
Proof.
  revert acc g. induction msgs as [|m msgs IH]; intros acc g; cbn [allMsgTypesAuthz].
  - intros [= _ ->]. exists []. split; [constructor|by rewrite app_nil_r].
  - intros (g1&u&_&H)%M_bind_Ok. destruct m as [gr [ms|]|c|t]; [|by repeat case_match|done|done].
    destruct (bool_decide (gr ≠ grantee)) eqn:E; [done|]. apply bool_decide_eq_false, dec_stable in E as ->.
    apply IH in H as (parts&Hp&->). exists (ms :: parts). split; [by constructor|]. cbn. by rewrite app_assoc.
Qed.

Lemma allMsgsValidWasmExecs_true addrs msgs g g' :
  allMsgsValidWasmExecs addrs msgs g = (g', Ok true) → Forall (λ m, ∃ c, m = MsgExecuteContract c ∧ c ∈ addrs) msgs.
Proof.
  intros (g1&as'&Hm&H)%M_bind_Ok. apply M_bind_Ok in Hm as (g2&u&_&[_ ->]%M_ret_Ok).
  revert g1 H. induction msgs as [|m msgs IH]; intros g1; cbn [all_wasm_execs]; [constructor|].
  intros (g3&u'&_&H)%M_bind_Ok. destruct m as [|c|]; [done| |done]. case_bool_decide as Hc; [done|].
  constructor; [by exists c|by eapply IH].
Qed.

Lemma multi_accept_charges fee msgs tried l g g' r :
  Forall (any_holds (λ a, ∀ g g' r, Accept a fee msgs g = (g', Ok r) → ¬ refusal r → charges fee a msgs r)) l →
  Forall (refuses fee msgs) tried → ¬ refusal r →
  multi_accept (λ a, Accept a fee msgs) tried l g = (g', Ok r) → charges fee (MultiAnyAllowance (tried ++ l)) msgs r.
Proof.
  intros Hl. revert tried g. induction Hl as [|p l Hp Hl IH]; intros tried g Ht Hr; cbn [multi_accept].
  - intros [= _ <-]. by destruct Hr.
  - destruct p as [| |a]; [done|by intros [= _ <-]; destruct Hr|].
    intros (g1&u&_&(g2&r1&Ha&H)%M_bind_Ok)%M_bind_Ok. cbn in Hp.
    destruct r1 as [b e| |a'].
    + rewrite cons_middle, app_assoc. eapply IH; [|done|done]. apply Forall_app. split; [done|]. constructor; [|done].
      by exists a, g1, g2, (Refused b e).
    + apply M_ret_Ok in H as [_ ->]. change (charges fee (MultiAnyAllowance (tried ++ AnyOf a :: l)) msgs
        (if llen (tried ++ l) =? 0 then Spent else Charged (MultiAnyAllowance (tried ++ l)))).
      replace (if _ =? 0 then _ else _) with (multi_result tried l Spent);
        [by apply charges_multi; [|eapply Hp; [done|by intros []]]|].
      cbn. unfold llen. by destruct (tried ++ l).
    + apply M_ret_Ok in H as [_ ->]. destruct (packs a'); [|by destruct Hr].
      apply (charges_multi fee tried a l msgs (Charged a')); [done|]. eapply Hp; [done|by intros []].
Qed.

Lemma Accept_run_charges a fee msgs g g' r :
  Accept a fee msgs g = (g', Ok r) → ¬ refusal r → charges fee a msgs r.
Proof.
  revert msgs g g' r. induction a as [x|inner gr IH|inner addrs IH|l IH] using Allowance_ind; intros msgs g g' r; cbn [Accept]; unfold AuthzAllowance_Accept, ContractsAllowance_Accept.
  - intros (g1&r1&Hx&[_ ->]%M_ret_Ok)%M_bind_Ok Hr. destruct r1 as [b e| |x']; [by destruct Hr|by econstructor..].
  - intros (g1&[subs|]&Hs&H)%M_bind_Ok Hr; [|apply M_ret_Ok in H as [_ ->]; by destruct Hr].
    apply allMsgTypesAuthz_Ok in Hs as (parts&Hparts&->). cbn [app] in H.
    destruct inner as [| |a]; [done|apply M_ret_Ok in H as [_ ->]; by destruct Hr|].
    apply M_bind_Ok in H as (g2&r1&Ha&[_ ->]%M_ret_Ok).
    destruct r1 as [b e| |a']; [by destruct Hr|by eapply (charges_authz _ a gr msgs parts Spent), IH, id|].
    cbn in Hr |- *. destruct (packs a'); [|by destruct Hr]. by eapply (charges_authz _ a gr msgs parts (Charged a')), IH, id.
  - intros (g1&[]&Hs&H)%M_bind_Ok Hr; [|apply M_ret_Ok in H as [_ ->]; by destruct Hr].
    apply allMsgsValidWasmExecs_true in Hs. cbn [negb] in H.
    destruct inner as [| |a]; [done|apply M_ret_Ok in H as [_ ->]; by destruct Hr|].
    apply M_bind_Ok in H as (g2&r1&Ha&[_ ->]%M_ret_Ok).
    destruct r1 as [b e| |a']; [by destruct Hr|by eapply (charges_contracts _ a addrs msgs Spent), IH, id|].
    cbn in Hr |- *. destruct (packs a'); [|by destruct Hr]. by eapply (charges_contracts _ a addrs msgs (Charged a')), IH, id.
  - intros H Hr. eapply (multi_accept_charges fee msgs []); [|constructor|done|done].
    eapply Forall_impl; [exact IH|]. intros [| |a]; cbn; eauto.
Qed.

(** C6. Whatever the nesting, an accepted fee is charged to exactly one allowance
    of the SDK: one that accepted it for the messages it was shown, reached
    through authz allowances whose grantee executes every message, contract
    allowances that list every contract called, and lists in which all earlier
    members refused. Only that allowance changes; if it is spent it leaves its
    list, and the whole is spent when nothing is left. *)
Theorem Accept_charges a fee msgs g g' r :
  Accept a fee msgs g = (g', Ok r) → ¬ refusal r → charges fee a msgs r.
Proof. apply Accept_run_charges. Qed.
End charges.

(** ** Validity *)

(** What the SDK's allowances promise: charging a valid one does not change its
    expiration.  That it stays valid is not promised: a periodic allowance with several
    denominations can lose one from its basic limit and keep it in its period limit. *)
Class SdkAllowancesLaws (X G : Type) `{!SdkAllowances X G} := {
  sdk_Accept_expires x fee msgs g g' x' :
    sdk_ValidateBasic x = Ok tt → sdk_Accept x fee msgs g = (g', Ok (Charged x')) → sdk_ExpiresAt x' = sdk_ExpiresAt x;
}.

Section validity.
Context {X G : Type} `{Sa : !SdkAllowances X G, Sl : !SdkAllowancesLaws X G, Ap : !AnyPacker X, Gm : !GasMeter G, Ac : !AddressCodec}.
Implicit Types (a : Allowance X) (l : list (any (Allowance X))).

Lemma EqTime_true t t' : EqTime t t' = true ↔ t = t'.
Proof. destruct t, t'; cbn; rewrite ?Z.eqb_eq; naive_solver. Qed.

(** A member with the given expiration *)
Definition expires (t : option Z) (p : any (Allowance X)) : Prop := ∃ a, p = AnyOf a ∧ ExpiresAt a = Ok t.

Lemma GetAllowance_Ok {B} p (k : Allowance X → outcome B) b : GetAllowance p k = Ok b ↔ ∃ a, p = AnyOf a ∧ k a = Ok b.
Proof. destruct p; cbn; naive_solver. Qed.

Lemma multi_expires_Some t0 l t : multi_expires ExpiresAt (Some t0) l = Ok t ↔ t = t0 ∧ Forall (expires t0) l.
Proof.
  induction l as [|p l IH]; cbn [multi_expires]; [rewrite Forall_nil; naive_solver|].
  rewrite bind_Ok, Forall_cons. split.
  - intros (t1&(a&->&Ha)%GetAllowance_Ok&[Ht%negb_false_iff%EqTime_true [-> Hl]%IH]%fail_if_bind). subst t1.
    split_and!; [done|by exists a|done].
  - intros (->&(a&->&Ha)&Hl). exists t0. split; [by apply GetAllowance_Ok; exists a|]. apply fail_if_bind.
    split; [by apply negb_false_iff, EqTime_true|by apply IH].
Qed.

Lemma multi_expires_Ok l t : l ≠ [] → multi_expires ExpiresAt None l = Ok t ↔ Forall (expires t) l.
Proof.
  destruct l as [|p l]; [done|]. intros _. cbn [multi_expires]. rewrite bind_Ok, Forall_cons. split.
  - intros (t1&(a&->&Ha)%GetAllowance_Ok&[-> Hl]%multi_expires_Some). split; [by exists a|done].
  - intros [(a&->&Ha) Hl]. exists t. split; [by apply GetAllowance_Ok; exists a|]. by apply multi_expires_Some.
Qed.

Definition is_multi a : bool := match a with MultiAnyAllowance _ => true | _ => false end.

Definition member_valid (depth : nat) (p : any (Allowance X)) : Prop :=
  ∃ a, p = AnyOf a ∧ validateBasicDepth (if is_multi a then S depth else 0) a = Ok tt.

Lemma validate_members_Ok depth l :
  validate_members validateBasicDepth depth l = Ok tt ↔ Forall (member_valid depth) l.
Proof.
  induction l as [|p l IH]; cbn [validate_members]; [by rewrite Forall_nil|].
  rewrite unit_bind, GetAllowance_Ok, Forall_cons, IH. unfold member_valid.
  split; intros [(a&->&Ha) ?]; (split; [|done]); exists a; (split; [done|]); by destruct a.
Qed.

Lemma validate_multi_Ok depth l :
  validateBasicDepth depth (MultiAnyAllowance l) = Ok tt ↔
  (depth ≤ maxMultiAnyAllowanceDepth)%nat ∧ l ≠ [] ∧ Forall (member_valid depth) l ∧ ∃ t, Forall (expires t) l.
Proof.
  cbn [validateBasicDepth]. rewrite !fail_if_bind, Nat.ltb_ge, unit_bind, validate_members_Ok, bind_Ok.
  assert ((llen l =? 0) = false ↔ l ≠ []) as -> by (destruct l; naive_solver).
  split.
  - intros (?&Hl&?&t&Ht&_). split_and!; [done..|]. exists t. by apply multi_expires_Ok.
  - intros (?&Hl&?&t&Ht). split_and!; [done..|]. exists t. split; [|done]. cbn [ExpiresAt]. by apply multi_expires_Ok.
Qed.










End validity.

(** ** Nesting *)
Section nesting.
Context {X G : Type} `{Sa : !SdkAllowances X G, Ap : !AnyPacker X, Gm : !GasMeter G, Ac : !AddressCodec}.
Implicit Types (a : Allowance X) (l : list (any (Allowance X))).

(** The longest chain of lists that hold each other directly *)
Fixpoint multi_depth a : nat :=
  match a with
  | MultiAnyAllowance l => S (foldr (λ p n, Nat.max (match p with AnyOf a => multi_depth a | _ => 0 end) n) 0%nat l)
  | _ => 0
  end.

(** The number of lists on the longest path, through other allowances too *)
Fixpoint multi_levels a : nat :=
  match a with
  | SdkAllowance _ => 0
  | AuthzAllowance inner _ | ContractsAllowance inner _ => match inner with AnyOf a => multi_levels a | _ => 0 end
  | MultiAnyAllowance l => S (foldr (λ p n, Nat.max (match p with AnyOf a => multi_levels a | _ => 0 end) n) 0%nat l)
  end.

Lemma validate_depth a depth : (depth ≤ maxMultiAnyAllowanceDepth)%nat → validateBasicDepth depth a = Ok tt →
  (depth + multi_depth a ≤ S maxMultiAnyAllowanceDepth)%nat.
Proof.
  revert depth. induction a as [x|inner g _|inner addrs _|l IH] using Allowance_ind; intros depth Hd Hv; cbn [multi_depth]; [lia..|].
  apply validate_multi_Ok in Hv as (_&_&Hm&_).
  assert (foldr (λ p n, Nat.max (match p with AnyOf a => multi_depth a | _ => 0 end) n) 0%nat l + depth ≤ maxMultiAnyAllowanceDepth)%nat; [|lia].
  induction Hm as [|p l (a&->&Ha) Hm IHl]; cbn [foldr]; [lia|]. inversion IH as [|?? IHa IH']; subst. specialize (IHl IH').
  assert (multi_depth a + depth ≤ maxMultiAnyAllowanceDepth)%nat; [|lia]. cbn in IHa.
  destruct (is_multi a) eqn:E; [|destruct a; cbn in *; (done || lia)].
  assert (S depth ≤ maxMultiAnyAllowanceDepth)%nat as Hd'.
  { destruct a; try done. by apply validate_multi_Ok in Ha as [? _]. }
  specialize (IHa (S depth) Hd' Ha). lia.
Qed.

(** Lists and authz allowances in turn *)
Fixpoint tower (x : X) (grantee : string) (n : nat) : Allowance X :=
  match n with
  | O => SdkAllowance x
  | S n => MultiAnyAllowance [AnyOf (AuthzAllowance (AnyOf (tower x grantee n)) grantee)]
  end.

Lemma tower_valid x grantee addr t n :
  sdk_ValidateBasic x = Ok tt → sdk_ExpiresAt x = Ok t → AccAddressFromBech32 grantee = Ok addr →
  ValidateBasic (tower x grantee n) = Ok tt ∧ ExpiresAt (tower x grantee n) = Ok t ∧ multi_levels (tower x grantee n) = n.
Proof.
  intros Hx Ht Hg. unfold ValidateBasic. induction n as [|n (Hv&He&Hl)]; [done|]. cbn [tower]. split_and!.
  - apply validate_multi_Ok. split_and!; [lia|done| |exists t]; (constructor; [|constructor]); eexists; (split; [done|]);
      cbn; [by rewrite Hg|done].
  - cbn [ExpiresAt multi_expires GetAllowance]. by rewrite He.
  - cbn [multi_levels foldr]. rewrite Hl. lia.
Qed.

(** The depth limit. [ValidateBasic] accepts at most six lists that hold each
    other directly. An allowance of another kind between two lists starts the
    count again: for every depth there is a valid allowance with that many lists
    on one path. *)
Theorem MultiAnyAllowance_depth x grantee addr t :
  sdk_ValidateBasic x = Ok tt → sdk_ExpiresAt x = Ok t → AccAddressFromBech32 grantee = Ok addr →
  (∀ a, ValidateBasic a = Ok tt → (multi_depth a ≤ S maxMultiAnyAllowanceDepth)%nat) ∧
  ∀ n, ∃ a, ValidateBasic a = Ok tt ∧ multi_levels a = n.
Proof.
  intros Hx Ht Hg. split.
  - intros a Hv. apply validate_depth in Hv; lia.
  - intros n. exists (tower x grantee n). destruct (tower_valid x grantee addr t n Hx Ht Hg) as (?&_&?). done.
Qed.
End nesting.

(** ** Witnesses: allowances with a limit in uxion and an expiration *)
#[local] Instance wit_packs : AnyPacker (Z * option Z) := λ _, true.
#[local] Instance wit_allowances : SdkAllowances (Z * option Z) Z := {|
  sdk_Accept x fee msgs g :=
    let left := x.1 - amount_of fee "uxion" in
    (g, Ok (if left <? 0 then Refused false (Foreign "feegrant.ErrFeeLimitExceeded")
            else if left =? 0 then Spent else Charged (left, x.2)));
  sdk_ValidateBasic x := fail_if (x.1 <=? 0) ErrInvalidCoins;
  sdk_ExpiresAt x := Ok x.2;
|}.

#[local] Instance wit_allowances_laws : SdkAllowancesLaws (Z * option Z) Z.
Proof.
  split; cbn; intros x fee msgs g g' x'; set (left := x.1 - amount_of fee "uxion"); clearbody left;
    destruct (left <? 0) eqn:E1, (left =? 0) eqn:E2; intros _ E; by simplify_eq.
Qed.

(** The first member is too small, the second is charged. *)
Definition wit_multi : Allowance (Z * option Z) :=
  MultiAnyAllowance
    [AnyOf (SdkAllowance (5, Some 99));
     AnyOf (AuthzAllowance (AnyOf (ContractsAllowance (AnyOf (SdkAllowance (50, Some 99))) ["xion1c1"])) "xion1app")].
Definition wit_msgs : list Msg := [MsgExec "xion1app" (Some [MsgExecuteContract "xion1c1"; MsgExecuteContract "xion1c1"])].
Definition wit_fee : Coins := [mkCoin "uxion" 20].
Definition wit_charged : Allowance (Z * option Z) :=
  MultiAnyAllowance
    [AnyOf (SdkAllowance (5, Some 99));
     AnyOf (AuthzAllowance (AnyOf (ContractsAllowance (AnyOf (SdkAllowance (30, Some 99))) ["xion1c1"])) "xion1app")].

Lemma Accept_charges_witness :
  Accept wit_multi wit_fee wit_msgs 1000 = (940, Ok (Charged wit_charged)) ∧
  charges wit_fee wit_multi wit_msgs (Charged wit_charged).
Proof.
  assert (Accept wit_multi wit_fee wit_msgs 1000 = (940, Ok (Charged wit_charged))) as E by (by vm_compute).
  split; [exact E|]. apply (Accept_charges wit_multi wit_fee wit_msgs 1000 940); [exact E|by intros []].
Defined.


Lemma MultiAnyAllowance_depth_witness :
  (∀ a : Allowance (Z * option Z), ValidateBasic a = Ok tt → (multi_depth a ≤ 6)%nat) ∧
  ∀ n, ∃ a : Allowance (Z * option Z), ValidateBasic a = Ok tt ∧ multi_levels a = n.
Proof. apply (MultiAnyAllowance_depth (5, None) "xion1app" (ok_or "" (AccAddressFromBech32 "xion1app")) None); by vm_compute. Defined.
