(* ===== verification/WebAuthn.v ===== *)
(** * x/xion: verification of WebAuthn responses

    Models x/xion/types/webauthn.go and the two WebAuthn queries of
    x/xion/keeper/grpc_query.go.  The library go-webauthn, the JSON, CBOR and
    X.509 decoders and the URL parser are an interface. *)

From S2P Require Import Prelude GoStd Sdk SdkModel PlatformFee.

(** ** Data *)
Definition MaxWebAuthDataSize : Z := 64 * 1024.
Definition attestationFormatNone : string := "none".

(** The values an attestation statement is searched for: the elements of a list
    are byte slices or something else. *)
Inductive AttElem := ElemBytes (b : string) | ElemOther.
Inductive AttValue := AttString (s : string) | AttList (l : list AttElem) | AttOther.
#[global] Instance AttElem_eq_dec : EqDecision AttElem.
Proof. solve_decision. Defined.
#[global] Instance AttValue_eq_dec : EqDecision AttValue.
Proof. solve_decision. Defined.
Abbreviation AttStatement := (gmap string AttValue).

(** [protocol.ParsedCredentialCreationData]: the parts the code reads or writes and the rest *)
Record ParsedCreation (R : Type) := mkParsedCreation {
  pc_AttStatement : option AttStatement;
  pc_Format : string;
  pc_ClientDataJSON : string;
  pc_Rest : R;
}.
#[global] Arguments mkParsedCreation {_} _ _ _ _.
#[global] Arguments pc_AttStatement {_} _.
#[global] Arguments pc_Format {_} _.
#[global] Arguments pc_ClientDataJSON {_} _.
#[global] Arguments pc_Rest {_} _.

Record URL := mkURL { url_Host : string; url_String : string }.

Inductive VerificationRequirement := VerificationRequired | VerificationPreferred | VerificationUnset.

Record Config := mkConfig {
  RPID : string;
  RPDisplayName : string;
  RPOrigins : list string;
  RPTopOrigins : list string;
  RPTopOriginIgnore : bool;
  AttestationPreference : string;
  sel_UserVerification : VerificationRequirement;
  sel_ResidentKeyPreferred : bool;
}.

(** COSE algorithm identifiers *)
Definition AlgES256K : Z := -47.
Definition AlgES256 : Z := -7.
Definition AlgEdDSA : Z := -8.
Definition AlgRS256 : Z := -257.

(** [Expires] is the zero time or an instant. *)
Record SessionData := mkSessionData {
  sd_Challenge : string;
  sd_UserID : string;
  sd_UserVerification : VerificationRequirement;
  sd_RelyingPartyID : string;
  sd_AllowedCredentialIDs : list string;
  sd_CredParams : list Z;
  sd_Expires : option Z;
}.

Record Certificate := mkCertificate { NotBefore : Z; NotAfter : Z }.

(** [C] is [webauthn.Credential], [A] is [protocol.ParsedCredentialAssertionData]. *)
Record SmartContractUser (C : Type) := mkSmartContractUser { scu_Address : string; scu_Credential : option C }.
#[global] Arguments mkSmartContractUser {_} _ _.
#[global] Arguments scu_Address {_} _.
#[global] Arguments scu_Credential {_} _.

Definition WebAuthnID {C} (u : SmartContractUser C) : string := scu_Address u.
Definition WebAuthnName {C} (u : SmartContractUser C) : string := scu_Address u.
Definition WebAuthnDisplayName {C} (u : SmartContractUser C) : string := WebAuthnName u.
(** A nil credential is dereferenced. *)
Definition WebAuthnCredentials {C} (u : SmartContractUser C) : outcome (list C) :=
  c ← from_option Ok Panic (scu_Credential u); Ok [c].

Class WebAuthnLib (R C A : Type) := {
  url_Parse : string → outcome URL;
  (** [json.NewDecoder(body).Decode] and the two unmarshallings of [validateCredentialCreation]:
      the client data and the attestation object of the response, then its raw authenticator data *)
  decode_creation : string → outcome (string * string);
  unmarshal_client_data : string → outcome unit;
  unmarshal_attestation : string → outcome string;
  (** the authenticator data of an assertion *)
  decode_assertion : string → outcome string;
  ParseCredentialCreationResponseBody : string → outcome (ParsedCreation R);
  ParseCredentialRequestResponseBody : string → outcome A;
  webauthn_New : Config → outcome unit;
  creation_Verify : ParsedCreation R → string → bool → bool → string → list string → list string → bool → list Z → outcome unit;
  NewCredential : string → ParsedCreation R → outcome C;
  ValidateLogin : Config → SmartContractUser C → SessionData → A → outcome C;
  credential_ID : C → string;
  marshal_credential : C → outcome string;
  unmarshal_credential : string → outcome C;
  x509_ParseCertificate : string → outcome Certificate;
  Sum256 : string → string;
}.

Definition ErrBadRequest : goerr := Foreign "protocol.ErrBadRequest".
Definition ErrInvalidAttestation : goerr := Foreign "protocol.ErrInvalidAttestation".

Record VerifyRegisterRequest := mkVerifyRegisterRequest {
  vr_Addr : string; vr_Challenge : string; vr_Rp : string; vr_Data : string;
}.
Record VerifyAuthenticateRequest := mkVerifyAuthenticateRequest {
  va_Addr : string; va_Challenge : string; va_Rp : string; va_Credential : string; va_Data : string;
}.

Section webauthn.
Context {R C A : Type} `{!WebAuthnLib R C A}.

(** ** Certificates *)
Definition check_cert (blockTime : Z) (certRaw : AttElem) : outcome unit :=
  match certRaw with
  | ElemBytes certBytes =>
    cert ← map_err (λ _, ErrInvalidAttestation) (x509_ParseCertificate certBytes);
    fail_if ((blockTime <? NotBefore cert) || (NotAfter cert <? blockTime)) ErrInvalidAttestation
  | ElemOther => Ok tt
  end.

Definition validateCertificatesWithBlockTime (parsed : ParsedCreation R) (blockTime : Z) : outcome unit :=
  match pc_AttStatement parsed with
  | None => Ok tt
  | Some attStmt =>
    if bool_decide (pc_Format parsed = attestationFormatNone) then Ok tt
    else if bool_decide (attStmt !! "fmt" = Some (AttString attestationFormatNone)) then Ok tt
    else match attStmt !! "x5c" with
         | Some (AttList l) => check_all (check_cert blockTime) l
         | _ => Ok tt
         end
  end.

(** ** Registration *)
Definition strip_attestation (p : ParsedCreation R) : ParsedCreation R :=
  mkParsedCreation None attestationFormatNone (pc_ClientDataJSON p) (pc_Rest p).

Definition CreateCredential (webauth : Config) (blockTime : Z) (user : SmartContractUser C) (session : SessionData)
    (parsed : ParsedCreation R) : outcome C :=
  _ ← fail_if (bool_decide (WebAuthnID user ≠ sd_UserID session)) ErrBadRequest;
  _ ← fail_if (match sd_Expires session with Some t => t <? blockTime | None => false end) ErrBadRequest;
  let shouldVerifyUser := match sd_UserVerification session with VerificationRequired => true | _ => false end in
  _ ← validateCertificatesWithBlockTime parsed blockTime;
  let parsed := strip_attestation parsed in
  _ ← creation_Verify parsed (sd_Challenge session) shouldVerifyUser false (RPID webauth) (RPOrigins webauth)
        (RPTopOrigins webauth) (RPTopOriginIgnore webauth) (sd_CredParams session);
  NewCredential (Sum256 (pc_ClientDataJSON parsed)) parsed.

Definition registration_config (rp : URL) : Config :=
  mkConfig (url_Host rp) (url_String rp) [url_String rp] [url_String rp] true "none" VerificationPreferred true.

Definition registration_session (rp : URL) (contractAddr challenge : string) : SessionData :=
  mkSessionData challenge contractAddr VerificationPreferred (url_Host rp) [] [AlgES256K; AlgES256; AlgEdDSA; AlgRS256] None.

Definition VerifyRegistration (blockTime : Z) (rp : URL) (contractAddr challenge : string) (data : ParsedCreation R) : outcome C :=
  let config := registration_config rp in
  _ ← webauthn_New config;
  let user := mkSmartContractUser contractAddr None in
  CreateCredential config blockTime user (registration_session rp contractAddr challenge) data.

(** ** Authentication *)
Definition authentication_config (rp : URL) : Config :=
  mkConfig (url_Host rp) (url_String rp) [url_String rp] [] false "" VerificationUnset false.

Definition VerifyAuthentication (rp : URL) (contractAddr challenge : string) (credential : C) (data : A) : outcome bool :=
  let config := authentication_config rp in
  _ ← webauthn_New config;
  let user := mkSmartContractUser contractAddr (Some credential) in
  let session := mkSessionData challenge (WebAuthnID user) VerificationPreferred "" [credential_ID credential] [] None in
  _ ← ValidateLogin config user session data;
  Ok true.

(** ** The queries *)

(** The flag bit 7: extension data included *)
Definition HasExtensions (flags : Z) : bool := Z.testbit flags 7.

Definition validateAttestation (rawAuthData : string) : outcome unit :=
  let minAuthDataLength := 37 in
  _ ← fail_if (slen rawAuthData <? minAuthDataLength) (Plain "expected data greater than 37 bytes");
  flags ← from_option (λ a, Ok (byte_val a)) Panic (String.get 32 rawAuthData);
  let remaining := slen rawAuthData - minAuthDataLength in
  if HasExtensions flags then
    fail_if (negb (remaining =? 0) && (slen rawAuthData <? slen rawAuthData - remaining))
      (Plain "raw auth data seems to be malformed")
  else Ok tt.

Definition validateCredentialCreation (body : string) : outcome unit :=
  ccr ← decode_creation body;
  _ ← unmarshal_client_data ccr.1;
  rawAuthData ← unmarshal_attestation ccr.2;
  validateAttestation rawAuthData.

Definition validateCredentialRequest (body : string) : outcome unit :=
  raw ← decode_assertion body; validateAttestation raw.

Definition WebAuthNVerifyRegister (blockTime : Z) (request : VerifyRegisterRequest) : outcome string :=
  _ ← fail_if (MaxWebAuthDataSize <? slen (vr_Data request)) ErrWebAuthDataTooLarge;
  recovering ErrNoValidWebAuth (
    rp ← url_Parse (vr_Rp request);
    _ ← map_err (λ _, ErrNoValidWebAuth) (validateCredentialCreation (vr_Data request));
    data ← map_err (λ _, ErrNoValidWebAuth) (ParseCredentialCreationResponseBody (vr_Data request));
    credential ← map_err (λ _, ErrNoValidWebAuth)
                   (VerifyRegistration blockTime rp (vr_Addr request) (vr_Challenge request) data);
    marshal_credential credential).

Definition WebAuthNVerifyAuthenticate (request : VerifyAuthenticateRequest) : outcome unit :=
  _ ← fail_if (MaxWebAuthDataSize <? slen (va_Data request)) ErrWebAuthDataTooLarge;
  _ ← fail_if (MaxWebAuthDataSize <? slen (va_Credential request)) ErrWebAuthDataTooLarge;
  recovering ErrNoValidWebAuth (
    rp ← url_Parse (va_Rp request);
    _ ← map_err (λ _, ErrNoValidWebAuth) (validateCredentialRequest (va_Data request));
    data ← map_err (λ _, ErrNoValidWebAuth) (ParseCredentialRequestResponseBody (va_Data request));
    credential ← unmarshal_credential (va_Credential request);
    _ ← VerifyAuthentication rp (va_Addr request) (va_Challenge request) credential data;
    Ok tt).
End webauthn.

(** ** What an accepted registration shows *)
Section answers.
Context {R C A : Type} `{Wl : !WebAuthnLib R C A}.

(** The certificate check passes for every certificate of the chain at block time. *)
Definition certs_valid (parsed : ParsedCreation R) (blockTime : Z) : Prop :=
  ∀ st l b, pc_AttStatement parsed = Some st → pc_Format parsed ≠ attestationFormatNone →
    st !! "fmt" ≠ Some (AttString attestationFormatNone) → st !! "x5c" = Some (AttList l) → ElemBytes b ∈ l →
    ∃ cert, x509_ParseCertificate b = Ok cert ∧ NotBefore cert ≤ blockTime ≤ NotAfter cert.

Lemma check_cert_Ok blockTime e : check_cert blockTime e = Ok tt ↔
  ∀ b, e = ElemBytes b → ∃ cert, x509_ParseCertificate b = Ok cert ∧ NotBefore cert ≤ blockTime ≤ NotAfter cert.
Proof.
  destruct e as [b|]; cbn; [|naive_solver]. rewrite bind_Ok. setoid_rewrite map_err_Ok. setoid_rewrite fail_if_Ok.
  setoid_rewrite orb_false_iff. setoid_rewrite Z.ltb_ge. naive_solver.
Qed.

Lemma validateCertificates_Ok parsed blockTime :
  validateCertificatesWithBlockTime parsed blockTime = Ok tt ↔ certs_valid parsed blockTime.
Proof.
  unfold validateCertificatesWithBlockTime, certs_valid. destruct (pc_AttStatement parsed) as [st|]; [|naive_solver].
  case_bool_decide as Hf; [naive_solver|]. case_bool_decide as Hn; [naive_solver|].
  destruct (st !! "x5c") as [[|l|]|] eqn:Hx; [naive_solver| |naive_solver..].
  rewrite check_all_Ok, Forall_forall. setoid_rewrite check_cert_Ok. split.
  - intros H st' l' b [= <-] _ _ Hl Hb. simplify_eq. by eapply H.
  - intros H e He b ->. by eapply H.
Qed.

(** The check for malformed extensions never fires: a length is never below itself. *)
Lemma validateAttestation_Ok raw : validateAttestation raw = Ok tt ↔ 37 ≤ slen raw.
Proof.
  unfold validateAttestation. rewrite fail_if_bind, Z.ltb_ge. split; [naive_solver|]. intros Hl. split; [done|].
  destruct (String.get 32 raw) as [a|] eqn:E.
  - cbn. case_match; [|done]. apply fail_if_Ok, andb_false_iff. right. apply Z.ltb_ge. lia.
  - exfalso. assert (∀ n s, String.get n s = None → (String.length s ≤ n)%nat) as Hget.
    { intros n s. revert n. induction s as [|c s IH]; intros [|n]; cbn; [lia..|done|]. intros H%IH. lia. }
    apply Hget in E. unfold slen in Hl. lia.
Qed.

(** The creation data was well formed before it was parsed. *)
Definition creation_shape (body : string) : Prop :=
  ∃ client att raw, decode_creation body = Ok (client, att) ∧ unmarshal_client_data client = Ok tt ∧
    unmarshal_attestation att = Ok raw ∧ 37 ≤ slen raw.

Lemma validateCredentialCreation_Ok body : validateCredentialCreation body = Ok tt ↔ creation_shape body.
Proof.
  unfold validateCredentialCreation, creation_shape. rewrite bind_Ok. setoid_rewrite unit_bind. setoid_rewrite bind_Ok.
  setoid_rewrite validateAttestation_Ok. split.
  - intros ([client att]&?&?&raw&?&?). by exists client, att, raw.
  - intros (client&att&raw&?&?&?&?). exists (client, att). naive_solver.
Qed.

(** The registration is checked against the host and origin of the request with its
    challenge, without the attestation statement. *)
Definition registered (blockTime : Z) (rp : URL) (challenge : string) (data : ParsedCreation R) (cred : C) : Prop :=
  webauthn_New (registration_config rp) = Ok tt ∧ certs_valid data blockTime ∧
  creation_Verify (strip_attestation data) challenge false false (url_Host rp) [url_String rp] [url_String rp] true
    [AlgES256K; AlgES256; AlgEdDSA; AlgRS256] = Ok tt ∧
  NewCredential (Sum256 (pc_ClientDataJSON data)) (strip_attestation data) = Ok cred.

Lemma VerifyRegistration_Ok blockTime rp addr challenge data cred :
  VerifyRegistration blockTime rp addr challenge data = Ok cred ↔ registered blockTime rp challenge data cred.
Proof.
  unfold VerifyRegistration, CreateCredential, registered. rewrite unit_bind. cbn [WebAuthnID scu_Address sd_UserID registration_session
    sd_Expires]. rewrite bool_decide_false by (by intros []). rewrite !fail_if_false_bind, !unit_bind, validateCertificates_Ok. done.
Qed.

(** C30. The registration query never panics, and it answers with a credential exactly
    when the data has at most 64 KB and the shape of a creation response with at
    least 37 bytes of authenticator data, every certificate of its statement is
    valid at the time of the block, and the library verifies the response, with
    the attestation statement removed, against the request's challenge, host and
    origin for one of the four signature algorithms. *)
Theorem WebAuthNVerifyRegister_answers blockTime request :
  WebAuthNVerifyRegister blockTime request ≠ Panic ∧
  ∀ out, WebAuthNVerifyRegister blockTime request = Ok out ↔
    slen (vr_Data request) ≤ MaxWebAuthDataSize ∧ creation_shape (vr_Data request) ∧
    ∃ rp data cred, url_Parse (vr_Rp request) = Ok rp ∧
      ParseCredentialCreationResponseBody (vr_Data request) = Ok data ∧
      registered blockTime rp (vr_Challenge request) data cred ∧ marshal_credential cred = Ok out.
Proof.
  split.
  - unfold WebAuthNVerifyRegister. destruct (_ <? _); [done|]. apply recovering_no_panic.
  - intros out. unfold WebAuthNVerifyRegister. rewrite fail_if_bind, Z.ltb_ge, recovering_Ok, bind_Ok.
    setoid_rewrite unit_bind. setoid_rewrite map_err_Ok. setoid_rewrite validateCredentialCreation_Ok.
    setoid_rewrite bind_Ok. setoid_rewrite map_err_Ok. setoid_rewrite bind_Ok. setoid_rewrite map_err_Ok.
    setoid_rewrite VerifyRegistration_Ok. naive_solver.
Qed.

(** The authentication query never panics, and it succeeds exactly when data and
    credential have at most 64 KB each, the authenticator data has at least 37
    bytes, and the library accepts the login of the given credential, the only
    one allowed, with the request's challenge, host and origin. *)
Theorem WebAuthNVerifyAuthenticate_answers request :
  WebAuthNVerifyAuthenticate request ≠ Panic ∧
  (WebAuthNVerifyAuthenticate request = Ok tt ↔
    slen (va_Data request) ≤ MaxWebAuthDataSize ∧ slen (va_Credential request) ≤ MaxWebAuthDataSize ∧
    ∃ rp raw data cred cred', url_Parse (va_Rp request) = Ok rp ∧
      decode_assertion (va_Data request) = Ok raw ∧ 37 ≤ slen raw ∧
      ParseCredentialRequestResponseBody (va_Data request) = Ok data ∧
      unmarshal_credential (va_Credential request) = Ok cred ∧
      webauthn_New (authentication_config rp) = Ok tt ∧
      ValidateLogin (authentication_config rp) (mkSmartContractUser (va_Addr request) (Some cred))
        (mkSessionData (va_Challenge request) (va_Addr request) VerificationPreferred "" [credential_ID cred] [] None) data
      = Ok cred').
Proof.
  split.
  - unfold WebAuthNVerifyAuthenticate. destruct (_ <? slen (va_Data request)); [done|]. rewrite fail_if_false_bind.
    destruct (_ <? _); [done|]. apply recovering_no_panic.
  - unfold WebAuthNVerifyAuthenticate, validateCredentialRequest, VerifyAuthentication.
    rewrite !fail_if_bind, !Z.ltb_ge, recovering_Ok, bind_Ok. setoid_rewrite unit_bind. setoid_rewrite map_err_Ok.
    setoid_rewrite bind_Ok. setoid_rewrite validateAttestation_Ok. setoid_rewrite map_err_Ok. setoid_rewrite bind_Ok.
    setoid_rewrite bind_Ok. setoid_rewrite unit_bind. setoid_rewrite bind_Ok. cbn [WebAuthnID scu_Address]. naive_solver.
Qed.
End answers.
