(* ===== verification/Indexer.v ===== *)
(** * indexer: the index of grants and allowances

    Models indexer/authz_handler.go, feegrant_handler.go, safe_handlers.go and the
    listener of streaming.go: the change set of every committed block is replayed
    on two indexed maps, so that they mirror the authz grants and the fee
    allowances in the stores of the chain. *)

From S2P Require Import Prelude GoStd Sdk SdkModel.

(** ** Data *)

(** [storetypes.StoreKVPair] *)
Record StoreKVPair := mkStoreKVPair { kv_StoreKey : string; kv_Delete : bool; kv_Key : string; kv_Value : string }.

(** granter, grantee and message type; granter and grantee.  A nil address is empty. *)
Abbreviation GrantTriple := (string * string * string)%type.
Abbreviation AllowancePair := (string * string)%type.

Definition authz_ModuleName : string := "authz".
Definition feegrant_ModuleName : string := "feegrant".
(** [authzkeeper.GrantKey] and [feegrant.FeeAllowanceKeyPrefix] *)
Definition GrantKey : string := String (byte_of 1) "".
Definition FeeAllowanceKeyPrefix : string := String (byte_of 0) "".

(** The codecs: [GA] is [authz.Grant], [GF] is [feegrant.Grant]. *)
Class IndexerCodec (GA GF : Type) := {
  (** [collections.TripleKeyCodec] of two addresses and a string *)
  triple_Encode : GrantTriple → string;
  triple_Decode : string → option GrantTriple;
  (** [feegrant.ParseAddressesFromFeeAllowanceKey]: granter and grantee *)
  fee_key : AllowancePair → string;
  ParseAddressesFromFeeAllowanceKey : string → outcome AllowancePair;
  authz_Unmarshal : string → outcome GA;
  feegrant_Unmarshal : string → outcome GF;
}.

(** The addresses are those the modules store, of one to 255 bytes: the length of an
    address is one byte of its key. *)
Class IndexerCodecLaws (GA GF : Type) `{!IndexerCodec GA GF} := {
  triple_Decode_Encode t : triple_Decode (triple_Encode t) = Some t;
  fee_key_prefix k : ∃ rest, fee_key k = FeeAllowanceKeyPrefix +:+ rest;
  fee_key_Parse k : ParseAddressesFromFeeAllowanceKey (fee_key k) = Ok k;
  (** decoders return errors *)
  authz_Unmarshal_no_panic v : authz_Unmarshal v ≠ Panic;
  feegrant_Unmarshal_no_panic v : feegrant_Unmarshal v ≠ Panic;
}.

(** [if err != nil { log; return nil }] *)
Definition skip_err {S A} (x : outcome A) (k : A → M S unit) : M S unit :=
  match x with
  | Ok a => k a
  | Err _ => mret tt
  | Panic => lift Panic
  end.

(** ** Handlers *)
Section handlers.
Context {GA GF CA CF : Type} `{!IndexerCodec GA GF, !CollMap GrantTriple GA CA, !CollMap AllowancePair GF CF}.

(** A key that does not decode gives nil addresses and an empty message type. *)
Definition parseGrantStoreKey (key : string) : GrantTriple :=
  match key with
  | "" => ("", "", "")
  | String _ keyWithoutPrefix => default ("", "", "") (triple_Decode keyWithoutPrefix)
  end.

Definition AuthzHandler_GetGrant (c : CA) (granter grantee msgType : string) : outcome GA :=
  coll_Get c (granter, grantee, msgType).

Definition AuthzHandler_SetGrant (granter grantee msgType : string) (grant : GA) : M CA unit :=
  write (λ c, coll_Set c (granter, grantee, msgType) grant).

Definition AuthzHandler_HandleUpdate (pair : StoreKVPair) : M CA unit :=
  let '(granterAddr, granteeAddr, msgType) := parseGrantStoreKey (kv_Key pair) in
  if kv_Delete pair then
    c ← get_state;
    has ← lift (coll_Has c (granterAddr, granteeAddr, msgType));
    if negb has then mret tt
    else write (λ c, coll_Remove c (granterAddr, granteeAddr, msgType))
  else
    grant ← lift (authz_Unmarshal (kv_Value pair));
    AuthzHandler_SetGrant granterAddr granteeAddr msgType grant.

Definition SafeAuthzHandlerUpdate (pair : StoreKVPair) : M CA unit :=
  let '(granterAddr, granteeAddr, msgType) := parseGrantStoreKey (kv_Key pair) in
  c ← get_state;
  if kv_Delete pair then
    skip_err (coll_Has c (granterAddr, granteeAddr, msgType)) (λ has,
      if negb has then mret tt
      else skip_err (coll_Remove c (granterAddr, granteeAddr, msgType)) (λ c, modify (λ _, c)))
  else
    skip_err (authz_Unmarshal (kv_Value pair)) (λ grant,
      skip_err (coll_Set c (granterAddr, granteeAddr, msgType) grant) (λ c, modify (λ _, c))).

Definition FeeGrantHandler_GetGrant (c : CF) (granter grantee : string) : outcome GF := coll_Get c (granter, grantee).

Definition FeeGrantHandler_SetGrant (granter grantee : string) (grant : GF) : M CF unit :=
  write (λ c, coll_Set c (granter, grantee) grant).

Definition FeeGrantHandler_HandleUpdate (pair : StoreKVPair) : M CF unit :=
  addrs ← lift (ParseAddressesFromFeeAllowanceKey (kv_Key pair));
  let '(granterAddr, granteeAddr) := addrs : AllowancePair in
  if kv_Delete pair then
    c ← get_state;
    has ← lift (coll_Has c (granterAddr, granteeAddr));
    if negb has then mret tt
    else write (λ c, coll_Remove c (granterAddr, granteeAddr))
  else
    grant ← lift (feegrant_Unmarshal (kv_Value pair));
    FeeGrantHandler_SetGrant granterAddr granteeAddr grant.

(** The parser runs under [recover]; after a panic the addresses are nil and the entry is skipped. *)
Definition SafeFeeGrantHandlerUpdate (pair : StoreKVPair) : M CF unit :=
  if slen (kv_Key pair) <? 5 then mret tt
  else
    match ParseAddressesFromFeeAllowanceKey (kv_Key pair) with
    | Ok (granterAddr, granteeAddr) =>
      c ← get_state;
      if kv_Delete pair then
        skip_err (coll_Has c (granterAddr, granteeAddr)) (λ has,
          if negb has then mret tt
          else skip_err (coll_Remove c (granterAddr, granteeAddr)) (λ c, modify (λ _, c)))
      else
        skip_err (feegrant_Unmarshal (kv_Value pair)) (λ grant,
          skip_err (coll_Set c (granterAddr, granteeAddr) grant) (λ c, modify (λ _, c)))
    | _ => mret tt
    end.

(** ** The listener *)
Record IndexState := mkIndexState { ix_authz : CA; ix_feegrant : CF }.

(** An error of a handler is logged. *)
Definition log_error {S} (m : M S unit) : M S unit := λ s,
  match m s with (s', Err _) => (s', Ok tt) | r => r end.

Definition index_pair (pair : StoreKVPair) : M IndexState unit :=
  if bool_decide (kv_StoreKey pair = authz_ModuleName) then
    if HasPrefix (kv_Key pair) GrantKey then
      log_error (zoom ix_authz (λ c s, mkIndexState c (ix_feegrant s)) (SafeAuthzHandlerUpdate pair))
    else mret tt
  else if bool_decide (kv_StoreKey pair = feegrant_ModuleName) then
    if HasPrefix (kv_Key pair) FeeAllowanceKeyPrefix then
      log_error (zoom ix_feegrant (λ c s, mkIndexState (ix_authz s) c) (SafeFeeGrantHandlerUpdate pair))
    else mret tt
  else mret tt.

Definition ListenCommit (changeSet : list StoreKVPair) : M IndexState unit := for_each index_pair changeSet.
Definition ListenFinalizeBlock : M IndexState unit := mret tt.
End handlers.
#[global] Arguments IndexState : clear implicits.
#[global] Arguments mkIndexState {_ _} _ _.
#[global] Arguments ix_authz {_ _} _.
#[global] Arguments ix_feegrant {_ _} _.

(** ** The index mirrors the stores of the chain *)

(** The two stores as the chain holds them *)
Record ChainStores := mkChainStores { ch_authz : gmap string string; ch_feegrant : gmap string string }.

Definition commit_pair (pair : StoreKVPair) (m : gmap string string) : gmap string string :=
  if kv_Delete pair then delete (kv_Key pair) m else <[kv_Key pair := kv_Value pair]> m.

Definition apply_change (ch : ChainStores) (pair : StoreKVPair) : ChainStores :=
  if decide (kv_StoreKey pair = authz_ModuleName) then mkChainStores (commit_pair pair (ch_authz ch)) (ch_feegrant ch)
  else if decide (kv_StoreKey pair = feegrant_ModuleName)
       then mkChainStores (ch_authz ch) (commit_pair pair (ch_feegrant ch)) else ch.

Definition ok_value {A} (x : outcome A) : option A := match x with Ok a => Some a | _ => None end.

Section mirror.
Context {GA GF CA CF : Type} `{Ic : !IndexerCodec GA GF, Il : !IndexerCodecLaws GA GF,
  Ma : !CollMap GrantTriple GA CA, Mal : !CollMapLaws GrantTriple GA CA, Mak : !CollKeysOk GrantTriple GA CA,
  Mf : !CollMap AllowancePair GF CF, Mfl : !CollMapLaws AllowancePair GF CF, Mfk : !CollKeysOk AllowancePair GF CF}.
Implicit Types (st : IndexState CA CF).

Definition grant_store_key (t : GrantTriple) : string := GrantKey +:+ triple_Encode t.

(** Every entry of the maps is the decoded value of its key in the store. *)
Definition mirrors (ch : ChainStores) st : Prop :=
  (∀ t, coll_contents (ix_authz st) !! t = ch_authz ch !! grant_store_key t ≫= λ v, ok_value (authz_Unmarshal v)) ∧
  (∀ k, coll_contents (ix_feegrant st) !! k = ch_feegrant ch !! fee_key k ≫= λ v, ok_value (feegrant_Unmarshal v)).

(** A change as the authz and feegrant modules write it: the key of a grant and a value that decodes *)
Definition indexable (pair : StoreKVPair) : Prop :=
  (kv_StoreKey pair = authz_ModuleName → HasPrefix (kv_Key pair) GrantKey = true →
     (∃ t, kv_Key pair = grant_store_key t) ∧ (kv_Delete pair = false → ∃ g, authz_Unmarshal (kv_Value pair) = Ok g)) ∧
  (kv_StoreKey pair = feegrant_ModuleName → HasPrefix (kv_Key pair) FeeAllowanceKeyPrefix = true →
     (∃ k, kv_Key pair = fee_key k) ∧ 5 ≤ slen (kv_Key pair) ∧
     (kv_Delete pair = false → ∃ g, feegrant_Unmarshal (kv_Value pair) = Ok g)).

Lemma grant_store_key_inj t t' : grant_store_key t = grant_store_key t' → t = t'.
Proof.
  unfold grant_store_key. change (GrantKey +:+ ?s) with (String (byte_of 1) s). intros [= E].
  assert (Some t = Some t') as [= ->]; [|done]. by rewrite <- !(triple_Decode_Encode (GA := GA) (GF := GF)), E.
Qed.

Lemma fee_key_inj k k' : fee_key k = fee_key k' → k = k'.
Proof.
  intros E. assert (Ok k = Ok k') as [= ->]; [|done]. by rewrite <- !(fee_key_Parse (GA := GA) (GF := GF)), E.
Qed.

Lemma parse_grant_store_key t : parseGrantStoreKey (grant_store_key t) = t.
Proof.
  unfold grant_store_key. change (GrantKey +:+ ?s) with (String (byte_of 1) s). cbn.
  by rewrite triple_Decode_Encode.
Qed.

(** Both handlers end in the same update of a map. *)
Lemma map_update_run {K V C : Type} `{Countable K} `{Mc : !CollMap K V C, Ml : !CollMapLaws K V C, Mk : !CollKeysOk K V C}
    (del : bool) (decoded : outcome V) (k : K) (c : C) :
  (del = false → ∃ g, decoded = Ok g) →
  ∃ c', (c ← get_state;
         if del then
           skip_err (coll_Has c k) (λ has, if negb has then mret tt else skip_err (coll_Remove c k) (λ c, modify (λ _, c)))
         else skip_err decoded (λ g, skip_err (coll_Set c k g) (λ c, modify (λ _, c)))) c = (c', Ok tt) ∧
    ∀ k', coll_contents c' !! k' =
      if decide (k' = k) then (if del then None else ok_value decoded) else coll_contents c !! k'.
Proof.
  intros Hd. rewrite get_state_bind. destruct del.
  - rewrite coll_Has_spec by apply coll_keys_ok. cbn [skip_err]. case_bool_decide as Hin; cbn [negb].
    + destruct (coll_Remove_spec c k (coll_keys_ok k)) as (c'&->&Hc'). exists c'. split; [done|]. intros k'. rewrite Hc'.
      case_decide as E; [subst; apply lookup_delete_eq|by apply lookup_delete_ne].
    + exists c. split; [done|]. intros k'. case_decide as E; [|done]. subst. by apply eq_None_not_Some.
  - destruct (Hd eq_refl) as [g ->]. cbn [skip_err]. destruct (coll_Set_spec c k g (coll_keys_ok k)) as (c'&->&Hc').
    exists c'. split; [done|]. intros k'. rewrite Hc'. case_decide as E; [subst; by rewrite lookup_insert_eq|by apply lookup_insert_ne].
Qed.

Lemma SafeAuthz_run pair t (c : CA) :
  kv_Key pair = grant_store_key t → (kv_Delete pair = false → ∃ g, authz_Unmarshal (kv_Value pair) = Ok g) →
  ∃ c', SafeAuthzHandlerUpdate pair c = (c', Ok tt) ∧
    ∀ t', coll_contents c' !! t' =
      if decide (t' = t) then (if kv_Delete pair then None else ok_value (authz_Unmarshal (kv_Value pair)))
      else coll_contents c !! t'.
Proof.
  intros Hk Hv. unfold SafeAuthzHandlerUpdate. rewrite Hk, parse_grant_store_key. destruct t as [[g1 g2] mt].
  by apply map_update_run.
Qed.

Lemma SafeFeeGrant_run pair k (c : CF) :
  kv_Key pair = fee_key k → 5 ≤ slen (kv_Key pair) →
  (kv_Delete pair = false → ∃ g, feegrant_Unmarshal (kv_Value pair) = Ok g) →
  ∃ c', SafeFeeGrantHandlerUpdate pair c = (c', Ok tt) ∧
    ∀ k', coll_contents c' !! k' =
      if decide (k' = k) then (if kv_Delete pair then None else ok_value (feegrant_Unmarshal (kv_Value pair)))
      else coll_contents c !! k'.
Proof.
  intros Hk Hl Hv. unfold SafeFeeGrantHandlerUpdate. rewrite (proj2 (Z.ltb_ge _ _) Hl), Hk, fee_key_Parse.
  destruct k as [g1 g2]. by apply map_update_run.
Qed.

Lemma commit_pair_lookup pair m key : commit_pair pair m !! key =
  if decide (key = kv_Key pair) then (if kv_Delete pair then None else Some (kv_Value pair)) else m !! key.
Proof.
  unfold commit_pair. destruct (kv_Delete pair); case_decide; subst;
    rewrite ?lookup_delete_eq, ?lookup_insert_eq, ?lookup_delete_ne, ?lookup_insert_ne by done; done.
Qed.

Lemma index_pair_mirrors ch st pair : indexable pair → mirrors ch st →
  ∃ st', index_pair pair st = (st', Ok tt) ∧ mirrors (apply_change ch pair) st'.
Proof.
  intros [Ha Hf] [Hma Hmf]. unfold index_pair, apply_change.
  case_bool_decide as Es; [rewrite decide_True by done|rewrite decide_False by done].
  - destruct (HasPrefix (kv_Key pair) GrantKey) eqn:Hp.
    + destruct (Ha Es eq_refl) as [[t Hk] Hv]. destruct (SafeAuthz_run pair t (ix_authz st) Hk Hv) as (c'&Hrun&Hc').
      exists (mkIndexState c' (ix_feegrant st)). split; [unfold log_error, zoom; by rewrite Hrun|].
      split; [|exact Hmf]. intros t'. cbn [ix_authz ch_authz]. rewrite Hc', commit_pair_lookup, Hk.
      destruct (decide (t' = t)) as [->|Hne]; [rewrite !decide_True by done; by destruct (kv_Delete pair)|].
      rewrite !decide_False by (done || by intros E%grant_store_key_inj). apply Hma.
    + exists st. split; [done|]. split; [|exact Hmf]. intros t. cbn [ch_authz]. rewrite commit_pair_lookup.
      rewrite decide_False; [apply Hma|]. intros E. rewrite <- E in Hp. unfold HasPrefix in Hp.
      assert (String.prefix GrantKey (grant_store_key t) = true) by (apply prefix_app; by eexists). congruence.
  - case_bool_decide as Ef; [rewrite decide_True by done|rewrite decide_False by done; by exists st].
    destruct (HasPrefix (kv_Key pair) FeeAllowanceKeyPrefix) eqn:Hp.
    + destruct (Hf Ef eq_refl) as ([k Hk]&Hl&Hv). destruct (SafeFeeGrant_run pair k (ix_feegrant st) Hk Hl Hv) as (c'&Hrun&Hc').
      exists (mkIndexState (ix_authz st) c'). split; [unfold log_error, zoom; by rewrite Hrun|].
      split; [exact Hma|]. intros k'. cbn [ix_feegrant ch_feegrant]. rewrite Hc', commit_pair_lookup, Hk.
      destruct (decide (k' = k)) as [->|Hne]; [rewrite !decide_True by done; by destruct (kv_Delete pair)|].
      rewrite !decide_False by (done || by intros E%fee_key_inj). apply Hmf.
    + exists st. split; [done|]. split; [exact Hma|]. intros k. cbn [ch_feegrant]. rewrite commit_pair_lookup.
      rewrite decide_False; [apply Hmf|]. intros E. rewrite <- E in Hp. unfold HasPrefix in Hp.
      assert (String.prefix FeeAllowanceKeyPrefix (fee_key k) = true) by (apply prefix_app, fee_key_prefix). congruence.
Qed.

(** C12. The index mirrors the chain. If the maps hold exactly the decoded grants and
    allowances of the two stores and the changes of a block are ones the authz
    and feegrant modules make, then the listener succeeds and the maps hold
    exactly those of the stores after the block. *)
Theorem ListenCommit_mirrors ch st changes : Forall indexable changes → mirrors ch st →
  ∃ st', ListenCommit changes st = (st', Ok tt) ∧ mirrors (foldl apply_change ch changes) st'.
Proof.
  intros Hc. revert ch st. induction Hc as [|p l Hp _ IH]; intros ch st Hm; cbn [foldl]; [by exists st|].
  destruct (index_pair_mirrors ch st p Hp Hm) as (st1&H1&Hm1). destruct (IH _ _ Hm1) as (st2&H2&Hm2).
  exists st2. split; [|done]. unfold ListenCommit. cbn [for_each]. by erewrite M_bind_Ok_l by exact H1.
Qed.

(** ** The listener never stops the node *)
Lemma map_update_Ok {K V C : Type} `{Countable K} `{Mc : !CollMap K V C, Ml : !CollMapLaws K V C, Mk : !CollKeysOk K V C}
    (del : bool) (decoded : outcome V) (k : K) (c : C) : decoded ≠ Panic →
  ((c ← get_state;
    if del then
      skip_err (coll_Has c k) (λ has, if negb has then mret tt else skip_err (coll_Remove c k) (λ c, modify (λ _, c)))
    else skip_err decoded (λ g, skip_err (coll_Set c k g) (λ c, modify (λ _, c)))) c).2 = Ok tt.
Proof.
  intros Hd. destruct decoded as [g|e|]; [|destruct del|done].
  - destruct (map_update_run del (Ok g) k c) as (c'&->&_); [by eauto|done].
  - destruct (map_update_run true (Err e) k c) as (c'&->&_); done.
  - done.
Qed.

Lemma log_zoom_Ok {S T} (get : S → T) set (m : M T unit) s :
  (m (get s)).2 = Ok tt → (log_error (zoom get set m) s).2 = Ok tt.
Proof. unfold log_error, zoom. destruct (m (get s)) as [t r]. cbn. by intros ->. Qed.

Lemma index_pair_Ok pair st : (index_pair pair st).2 = Ok tt.
Proof.
  unfold index_pair. repeat case_bool_decide; [case_match|case_match|done]; try done; apply log_zoom_Ok.
  - unfold SafeAuthzHandlerUpdate. destruct (parseGrantStoreKey (kv_Key pair)) as [[g1 g2] mt].
    apply map_update_Ok, authz_Unmarshal_no_panic.
  - unfold SafeFeeGrantHandlerUpdate. destruct (_ <? 5); [done|].
    destruct (ParseAddressesFromFeeAllowanceKey (kv_Key pair)) as [[g1 g2]| |]; [|done..].
    apply map_update_Ok, feegrant_Unmarshal_no_panic.
Qed.

(** C29. Whatever a change set holds, malformed keys and values included, the listener
    returns without error and without a panic: the index never stops the commit
    of a block. *)
Theorem ListenCommit_never_fails st changes : (ListenCommit changes st).2 = Ok tt.
Proof.
  unfold ListenCommit. revert st. induction changes as [|p l IH]; intros st; cbn [for_each]; [done|].
  rewrite M_bind_step, index_pair_Ok. apply IH.
Qed.

(** A grant under a key that does not decode is indexed all the same, under nil
    addresses and an empty message type; a malformed allowance key is skipped. *)
Lemma malformed_grant_indexed st pair g :
  kv_StoreKey pair = authz_ModuleName → HasPrefix (kv_Key pair) GrantKey = true → kv_Delete pair = false →
  parseGrantStoreKey (kv_Key pair) = ("", "", "") → authz_Unmarshal (kv_Value pair) = Ok g →
  ∃ st', index_pair pair st = (st', Ok tt) ∧ coll_contents (ix_authz st') !! ("", "", "") = Some g.
Proof.
  intros Es Hp Hd Hk Hg. unfold index_pair. rewrite bool_decide_true, Hp by done.
  destruct (map_update_run (Mc := Ma) false (Ok g) ("", "", "") (ix_authz st)) as (c'&Hrun&Hc'); [by eauto|].
  exists (mkIndexState c' (ix_feegrant st)). split.
  - unfold log_error, zoom, SafeAuthzHandlerUpdate. by rewrite Hk, Hd, Hg, Hrun.
  - cbn [ix_authz]. rewrite Hc'. by rewrite decide_True.
Qed.
End mirror.

(** ** Witnesses *)
#[local] Instance wit_codec : IndexerCodec string string := {|
  triple_Encode := model_marshal;
  triple_Decode := model_unmarshal;
  fee_key k := FeeAllowanceKeyPrefix +:+ model_marshal k;
  ParseAddressesFromFeeAllowanceKey key :=
    match key with
    | "" => Panic
    | String _ rest => from_option Ok Panic (model_unmarshal rest)
    end;
  authz_Unmarshal v := if decide (v = "") then Err (Plain "empty") else Ok v;
  feegrant_Unmarshal v := if decide (v = "") then Err (Plain "empty") else Ok v;
|}.

#[local] Instance wit_codec_laws : IndexerCodecLaws string string.
Proof.
  split; cbn [triple_Decode triple_Encode fee_key ParseAddressesFromFeeAllowanceKey authz_Unmarshal feegrant_Unmarshal wit_codec].
  - intros t. apply model_codec_roundtrip.
  - intros k. by eexists.
  - intros k. change (FeeAllowanceKeyPrefix +:+ ?s) with (String (byte_of 0) s). cbn -[model_unmarshal model_marshal].
    by rewrite model_codec_roundtrip.
  - intros v. by case_decide.
  - intros v. by case_decide.
Qed.

Definition wit_triple : GrantTriple := ("a", "b", "m").
Definition wit_changes : list StoreKVPair :=
  [mkStoreKVPair "authz" false (grant_store_key (GA := string) (GF := string) wit_triple) "grant";
   mkStoreKVPair "feegrant" false (fee_key (GA := string) (GF := string) ("a", "b")) "f";
   mkStoreKVPair "authz" true (grant_store_key (GA := string) (GF := string) wit_triple) ""].
Definition wit_index : IndexState (gmap GrantTriple string) (gmap AllowancePair string) := mkIndexState ∅ ∅.

Lemma wit_authz_indexable del v : v ≠ "" ∨ del = true → indexable (GA := string) (GF := string) (mkStoreKVPair "authz" del (grant_store_key (GA := string) (GF := string) wit_triple) v).
Proof.
  intros Hv. split; [|intros Hs; discriminate Hs]. intros _ _. split; [exists wit_triple; reflexivity|].
  cbn [kv_Delete kv_Value]. intros Hd. exists v. cbn. rewrite decide_False; [reflexivity|]. destruct Hv as [Hv|Hv]; [exact Hv|congruence].
Qed.

Lemma wit_feegrant_indexable k v : v ≠ "" → 5 ≤ slen (fee_key (GA := string) (GF := string) k) →
  indexable (GA := string) (GF := string) (mkStoreKVPair "feegrant" false (fee_key (GA := string) (GF := string) k) v).
Proof.
  intros Hv Hl. split; [intros Hs; discriminate Hs|]. intros _ _. split; [exists k; reflexivity|]. split; [exact Hl|].
  intros _. exists v. cbn. rewrite decide_False by exact Hv. reflexivity.
Qed.

Lemma ListenCommit_mirrors_witness :
  ∃ st', ListenCommit wit_changes wit_index = (st', Ok tt) ∧
    mirrors (foldl apply_change (mkChainStores ∅ ∅) wit_changes) st'.
Proof.
  apply (ListenCommit_mirrors (mkChainStores ∅ ∅) wit_index wit_changes).
  - apply Forall_cons_2; [apply wit_authz_indexable; by left|].
    apply Forall_cons_2; [apply wit_feegrant_indexable; [done|by vm_compute]|].
    apply Forall_cons_2; [apply wit_authz_indexable; by right|apply Forall_nil_2].
  - split; intros; reflexivity.
Defined.

(** A key that does not decode and a value that does not *)
Lemma ListenCommit_never_fails_witness :
  (ListenCommit [mkStoreKVPair "authz" false (GrantKey +:+ "junk") "grant"; mkStoreKVPair "feegrant" false (FeeAllowanceKeyPrefix +:+ "junk") ""]
     wit_index).2 = Ok tt.
Proof. apply (ListenCommit_never_fails wit_index). Defined.
