(* ===== verification/IndexerInit.v ===== *)
(** * indexer: start-up

    Models indexer/safe_init.go, noop_service.go and the constructors of streaming.go,
    authz_handler.go and feegrant_handler.go: opening the database, building the two
    schemas, and the service that stands in when this fails. *)

From S2P Require Import Prelude GoStd Sdk SdkModel Indexer.

(** ** [path/filepath] *)

(** The elements between the slashes *)
Fixpoint path_elems (cur : string) (s : string) : list string :=
  match s with
  | "" => [cur]
  | String a s => if decide (a = byte_of 47) then cur :: path_elems "" s else path_elems (cur +:+ String a "") s
  end.

(** One element onto the stack of those kept, of a path that starts with a slash or not *)
Definition push_elem (rooted : bool) (kept : list string) (e : string) : list string :=
  if decide (e = "" ∨ e = ".") then kept
  else if decide (e = "..") then
    match kept with
    | [] => if rooted then [] else [".."]
    | top :: rest => if decide (top = "..") then ".." :: kept else rest
    end
  else e :: kept.

Definition filepath_Clean (path : string) : string :=
  let rooted := HasPrefix path "/" in
  let kept := reverse (foldl (push_elem rooted) [] (path_elems "" path)) in
  match kept with
  | [] => if rooted then "/" else "."
  | e :: es => (if rooted then "/" else "") +:+ foldl (λ s e, s +:+ "/" +:+ e) e es
  end.

(** [filepath.Join] of two elements: empty ones are left out *)
Definition filepath_Join (a b : string) : string :=
  match filter (λ s, s ≠ "") [a; b] with
  | [] => ""
  | [s] => filepath_Clean s
  | s :: t :: _ => filepath_Clean (s +:+ "/" +:+ t)
  end.

(** ** The dependencies: the database and the schemas of the collections *)
Class IndexerDeps (DB Cdc : Type) := {
  (** [db.NewPebbleDB(name, dir, nil)] *)
  NewPebbleDB : string → string → outcome DB;
  (** [SchemaBuilder.Build] on the prefixes and names that were registered *)
  schema_Build : list (string * string) → outcome unit;
}.

(** The database reports a failure as an error.  A schema is refused when a prefix or a
    name is used twice or a prefix starts another one. *)
Class IndexerDepsLaws (DB Cdc : Type) `{!IndexerDeps DB Cdc} := {
  NewPebbleDB_no_panic name dir : NewPebbleDB name dir ≠ Panic;
  schema_Build_Ok l : NoDup l.*2 →
    (∀ i j p q, l.*1 !! i = Some p → l.*1 !! j = Some q → String.prefix p q = true → i = j) → schema_Build l = Ok tt;
}.

(** [collections.NewPrefix(n)] *)
Definition NewPrefix (n : Z) : string := String (byte_of n) "".
Definition AuthzStorePrefix : string := "authz".
Definition FeeGrantStorePrefix : string := "feegrant".
Definition AuthzPrefix : string := NewPrefix 0.
Definition AuthzGranteeIndexPrefix : string := NewPrefix 1.
Definition FeeGrantsPrefix : string := NewPrefix 0.
Definition FeeGrantGranteeIndexPrefix : string := NewPrefix 1.

Section start.
Context {DB Cdc : Type} `{!EqDecision DB, !IndexerDeps DB Cdc}.

(** A handler: the prefix of its part of the database, and its schema *)
Record Handler := mkHandler { h_db : DB; h_prefix : string; h_schema : list (string * string) }.

Record StreamService := mkStreamService { ss_db : DB; ss_authzHandler : Handler; ss_feeGrantHandler : Handler }.

Inductive IndexerService := Stream (ss : StreamService) | NoOp.

(** The databases that are open *)
Abbreviation Open := (list DB).

Definition newAuthzIndexes : list (string * string) := [(AuthzGranteeIndexPrefix, "authz_by_grantee")].
Definition newFeeGrantIndexes : list (string * string) := [(FeeGrantGranteeIndexPrefix, "feegrant_by_grantee")].

Definition NewAuthzHandler (db : DB) (prefix : string) : outcome Handler :=
  let sb := newAuthzIndexes ++ [(AuthzPrefix, "authorizations")] in
  _ ← schema_Build sb;
  Ok (mkHandler db prefix sb).

Definition NewFeeGrantHandler (db : DB) (prefix : string) : outcome Handler :=
  let sb := newFeeGrantIndexes ++ [(FeeGrantsPrefix, "feegrant")] in
  _ ← schema_Build sb;
  Ok (mkHandler db prefix sb).

(** [storeDB.Close()] *)
Definition close_db (db : DB) : M Open unit := modify (λ open, filter (λ d, d ≠ db) open).

(** [if err != nil { ...; return NewNoOpStreamService(logger) }] *)
Definition or_degrade {A} (x : outcome A) (cleanup : M Open unit) (k : A → M Open IndexerService) : M Open IndexerService :=
  match x with
  | Ok a => k a
  | Err _ => _ ← cleanup; mret NoOp
  | Panic => lift Panic
  end.

Definition NewSafeIndexer (homeDir : string) (cdc : option Cdc) : M Open IndexerService :=
  match cdc with
  | None => mret NoOp
  | Some _ =>
    let dataDir := filepath_Join homeDir "data" in
    or_degrade (NewPebbleDB "xion_indexer" dataDir) (mret tt) (λ storeDB,
      _ ← modify (λ open, storeDB :: open);
      or_degrade (NewAuthzHandler storeDB AuthzStorePrefix) (close_db storeDB) (λ authzHandler,
        or_degrade (NewFeeGrantHandler storeDB FeeGrantStorePrefix) (close_db storeDB) (λ feeGrantHandler,
          mret (Stream (mkStreamService storeDB authzHandler feeGrantHandler)))))
  end.

Definition NewWithDB (store : DB) : outcome StreamService :=
  authzHandler ← or_panic (NewAuthzHandler store AuthzStorePrefix);
  feeGrantHandler ← or_panic (NewFeeGrantHandler store FeeGrantStorePrefix);
  Ok (mkStreamService store authzHandler feeGrantHandler).

Definition New (homeDir : string) : M Open StreamService :=
  let dataDir := filepath_Join homeDir "data" in
  storeDB ← lift (or_panic (NewPebbleDB "xion_indexer" dataDir));
  _ ← modify (λ open, storeDB :: open);
  lift (NewWithDB storeDB).

(** ** The service: the stand-in accepts every block and does nothing *)
Section listen.
Context {GA GF CA CF : Type} `{!IndexerCodec GA GF, !CollMap GrantTriple GA CA, !CollMap AllowancePair GF CF}.

Definition service_ListenCommit (svc : IndexerService) (changeSet : list StoreKVPair) : M (IndexState CA CF) unit :=
  match svc with
  | Stream _ => ListenCommit changeSet
  | NoOp => mret tt
  end.
End listen.

Definition Close (svc : IndexerService) : M Open unit :=
  match svc with
  | Stream ss => close_db (ss_db ss)
  | NoOp => mret tt
  end.
End start.

(** ** Start-up succeeds or degrades *)
Section correct.
Context {DB Cdc : Type} `{Ceq : !EqDecision DB, Cdeps : !IndexerDeps DB Cdc, Claws : !IndexerDepsLaws DB Cdc}.

Lemma single_byte_prefix a b : String.prefix (String a "") (String b "") = true → a = b.
Proof. cbn. by destruct (Ascii.ascii_dec a b). Qed.

(** Two collections with one-byte prefixes *)
Lemma schema_two a b n1 n2 : a ≠ b → n1 ≠ n2 → schema_Build [(String a "", n1); (String b "", n2)] = Ok tt.
Proof.
  intros Hab Hn. apply schema_Build_Ok; cbn.
  - apply NoDup_cons. split; [by intros ?%list_elem_of_singleton|apply NoDup_singleton].
  - intros [|[|i]] [|[|j]] p q [= <-] [= <-] E%single_byte_prefix; congruence.
Qed.

Lemma NewAuthzHandler_Ok db p : ∃ h, NewAuthzHandler db p = Ok h.
Proof.
  unfold NewAuthzHandler, newAuthzIndexes, AuthzGranteeIndexPrefix, AuthzPrefix, NewPrefix. cbn [app].
  rewrite schema_two by done. by eexists.
Qed.
Lemma NewFeeGrantHandler_Ok db p : ∃ h, NewFeeGrantHandler db p = Ok h.
Proof.
  unfold NewFeeGrantHandler, newFeeGrantIndexes, FeeGrantGranteeIndexPrefix, FeeGrantsPrefix, NewPrefix. cbn [app].
  rewrite schema_two by done. by eexists.
Qed.

(** [NewSafeIndexer] always gives a service.  It is the stand-in exactly when there is no
    codec or the database cannot be opened, and then no database is left open; otherwise
    it is the service of [New] in the same state. *)
Theorem NewSafeIndexer_spec homeDir cdc open :
  ∃ svc open', NewSafeIndexer homeDir cdc open = (open', Ok svc) ∧
    (svc = NoOp ↔ cdc = None ∨ ∃ e, NewPebbleDB "xion_indexer" (filepath_Join homeDir "data") = Err e) ∧
    (svc = NoOp → open' = open) ∧
    (∀ ss, svc = Stream ss → New homeDir open = (open', Ok ss)).
Proof.
  unfold NewSafeIndexer, New. destruct cdc as [c|]; [|by exists NoOp, open; naive_solver].
  pose proof (NewPebbleDB_no_panic "xion_indexer" (filepath_Join homeDir "data")) as Hp.
  destruct (NewPebbleDB _ _) as [db|e|]; [|exists NoOp, open; naive_solver|done].
  destruct (NewAuthzHandler_Ok db AuthzStorePrefix) as [h1 E1]. destruct (NewFeeGrantHandler_Ok db FeeGrantStorePrefix) as [h2 E2].
  exists (Stream (mkStreamService db h1 h2)), (db :: open). unfold NewWithDB.
  cbn -[NewAuthzHandler NewFeeGrantHandler]. rewrite E1. cbn -[NewFeeGrantHandler]. rewrite E2. cbn.
  split_and!; [done|split; [done|by intros [?|[? ?]]]|done|]. intros ss [= <-].
  unfold mbind, M_bind, lift, modify. cbn -[NewAuthzHandler NewFeeGrantHandler]. by rewrite E1, E2.
Qed.
End correct.

(** ** A model of the dependencies: one directory cannot be opened *)
#[local] Instance model_indexer_deps : IndexerDeps string unit := {|
  NewPebbleDB name dir := if decide (dir = "/locked/data") then Err (Foreign "lock") else Ok (dir +:+ "/" +:+ name);
  schema_Build l := if decide (NoDup l.*2) then Ok tt else Err (Foreign "schema");
|}.
#[local] Instance model_indexer_deps_laws : IndexerDepsLaws string unit.
Proof. split; [intros name dir; cbn; by case_decide|intros l Hl _; cbn; by rewrite decide_True]. Qed.

Lemma NewSafeIndexer_spec_witness :
  NewSafeIndexer "/locked//home/.." (Some tt) ["other"] = (["other"], Ok NoOp) ∧
  ∃ ss, NewSafeIndexer "/home/xion" (Some tt) [] = (["/home/xion/data/xion_indexer"], Ok (Stream ss)).
Proof.
  split.
  - destruct (NewSafeIndexer_spec "/locked//home/.." (Some tt) ["other"]) as (svc&open'&E&H1&H2&_).
    assert (svc = NoOp) as -> by (apply H1; right; exists (Foreign "lock"); vm_compute; reflexivity).
    by rewrite E, H2.
  - eexists. vm_compute. reflexivity.
Defined.
