(* ===== verification/IndexerQuery.v ===== *)
(** * indexer: queries

    Models indexer/authz_querier.go, feegrant_querier.go and the raw iteration of
    multi_raw.go: the grants of a granter, of a grantee page by page, and the fee
    allowances. *)

From S2P Require Import Prelude GoStd Sdk SdkModel Indexer.

(** ** Requests and responses *)

(** [query.PageRequest]; a nil pointer is [None] where it is used. *)
Record IndexPage := mkIndexPage { pg_Key : string; pg_Offset : Z; pg_Limit : Z; pg_CountTotal : bool }.
(** [query.PageResponse]; no next key is [None]. *)
Record IndexPageResponse := mkIndexPageResponse { pr_NextKey : option string; pr_Total : Z }.

Record GrantsRequest := mkGrantsRequest { gr_Granter : string; gr_Grantee : string; gr_Pagination : option IndexPage }.
Record AddressRequest := mkAddressRequest { ar_Address : string; ar_Pagination : option IndexPage }.

(** [authz.GrantAuthorization]; [AN] is a packed authorization. *)
Record GrantAuthorization (AN : Type) := mkGrantAuthorization {
  ga_Granter : string; ga_Grantee : string; ga_Authorization : AN; ga_Expiration : option Z;
}.
#[global] Arguments mkGrantAuthorization {_} _ _ _ _.

(** [query.DefaultLimit] *)
Definition DefaultLimit : Z := 100.

(** The prefix of a pagination over the grants *)
Inductive GrantPrefix := NoPrefix | TriplePrefix (k1 : string) | TripleSuperPrefix (k1 k2 : string).

(** [address.Codec] *)
Class AddrCodec := {
  StringToBytes : string → outcome string;
  BytesToString : string → outcome string;
}.

Class GrantValue (GA AU AN : Type) := {
  GetAuthorization : GA → outcome AU;
  NewAnyWithValue : AU → outcome AN;
  grant_Expiration : GA → option Z;
}.

(** The index by grantee and the paginations of the SDK over the two maps *)
Class GrantIndexes (GA CA : Type) := {
  (** [Indexes.Grantee.Iterate] over the keys of one grantee *)
  Grantee_Iterate : CA → string → outcome (list GrantTriple);
  (** [IterateRaw] of the keys of the index, from a start in bytes, ascending *)
  refKeys_IterateRaw : CA → string → outcome (list GrantTriple);
  (** [KeyCodec().EncodeNonTerminal] into a buffer of the given length *)
  index_EncodeNonTerminal : Z → GrantTriple → outcome string;
  grants_Paginate : CA → GrantPrefix → option IndexPage → outcome (list (GrantTriple * GA) * IndexPageResponse);
}.

(** Over the allowances of a granter, and over the index by grantee *)
Class AllowanceIndexes (GF CF : Type) := {
  allowances_Paginate : CF → string → option IndexPage → outcome (list (AllowancePair * GF) * IndexPageResponse);
  allowance_keys_Paginate : CF → string → option IndexPage → outcome (list AllowancePair * IndexPageResponse);
}.

Section queries.
Context {GA GF AU AN CA CF : Type} `{!AddrCodec, !GrantValue GA AU AN, !CollMap GrantTriple GA CA,
  !CollMap AllowancePair GF CF, !GrantIndexes GA CA, !AllowanceIndexes GF CF}.
Implicit Types (c : CA) (f : CF).

(** ** Parameters *)

(** An address that is not given is nil. *)
Definition optional_address (s : string) : outcome string :=
  if bool_decide (s = "") then Ok "" else StringToBytes s.

Definition ParseGrantsRequestParams (req : GrantsRequest) : outcome (string * string * GrantPrefix) :=
  granterAddr ← optional_address (gr_Granter req);
  granteeAddr ← optional_address (gr_Grantee req);
  let prefixOpt :=
    if bool_decide (gr_Granter req ≠ "") && bool_decide (gr_Grantee req ≠ "") then TripleSuperPrefix granterAddr granteeAddr
    else if bool_decide (gr_Granter req ≠ "") then TriplePrefix granterAddr else NoPrefix in
  Ok (granterAddr, granteeAddr, prefixOpt).

Definition ParseGranterRequestParams (req : AddressRequest) : outcome string := StringToBytes (ar_Address req).
Definition ParseGranteeRequestParams (req : AddressRequest) : outcome string := StringToBytes (ar_Address req).
Definition ParseAllowanceRequestParams (granter grantee : string) : outcome (string * string) :=
  granterAddr ← StringToBytes granter; granteeAddr ← StringToBytes grantee; Ok (granterAddr, granteeAddr).
Definition ParseAllowancesRequestParams (req : AddressRequest) : outcome string := StringToBytes (ar_Address req).
Definition ParseAllowancesByGranterRequestParams (req : AddressRequest) : outcome string := StringToBytes (ar_Address req).

(** ** Grants *)
Definition pack_authorization (grant : GA) : outcome AN :=
  auth ← GetAuthorization grant;
  map_err (λ _, Foreign "codes.Internal") (NewAnyWithValue auth).

Definition TransformGrantToAuthorization (primaryKey : GrantTriple) (grant : GA) : outcome (GrantAuthorization AN) :=
  anyValue ← pack_authorization grant;
  granter ← BytesToString primaryKey.1.1;
  grantee ← BytesToString primaryKey.1.2;
  Ok (mkGrantAuthorization granter grantee anyValue (grant_Expiration grant)).

(** The callback of a pagination over its results *)
Fixpoint map_results {A B} (g : A → outcome B) (l : list A) : outcome (list B) :=
  match l with
  | [] => Ok []
  | x :: l => y ← g x; ys ← map_results g l; Ok (y :: ys)
  end.

Definition Grants c (req : GrantsRequest) : outcome (list GA * IndexPageResponse) :=
  granterAddr ← optional_address (gr_Granter req);
  granteeAddr ← optional_address (gr_Grantee req);
  let prefixOpt :=
    if bool_decide (gr_Granter req ≠ "") && bool_decide (gr_Grantee req ≠ "") then TripleSuperPrefix granterAddr granteeAddr
    else if bool_decide (gr_Granter req ≠ "") then TriplePrefix granterAddr else NoPrefix in
  res ← grants_Paginate c prefixOpt (gr_Pagination req);
  Ok (snd <$> (res.1 : list (GrantTriple * GA)), res.2).

Definition GranterGrants c (req : AddressRequest) : outcome (list (GrantAuthorization AN) * IndexPageResponse) :=
  granterAddr ← StringToBytes (ar_Address req);
  res ← grants_Paginate c (TriplePrefix granterAddr) (ar_Pagination req);
  grants ← map_results (λ kv, TransformGrantToAuthorization kv.1 kv.2) res.1;
  Ok (grants, res.2).

(** ** The grants of a grantee *)

(** One entry of a page: the grant is read from the map by its primary key. *)
Definition grantee_entry c (grantee : string) (primaryKey : GrantTriple) : outcome (GrantAuthorization AN) :=
  grant ← coll_Get c primaryKey;
  anyValue ← pack_authorization grant;
  granter ← BytesToString primaryKey.1.1;
  Ok (mkGrantAuthorization granter grantee anyValue (grant_Expiration grant)).

(** The loop that collects a page: [entry] may skip a key, which does not count.
    The second result is where the iterator stands. *)
Fixpoint collect_grants (entry : GrantTriple → outcome (option (GrantAuthorization AN))) (limit count : Z)
    (grants : list (GrantAuthorization AN)) (iter : list GrantTriple)
    : outcome (list (GrantAuthorization AN) * list GrantTriple) :=
  match iter with
  | [] => Ok (grants, [])
  | key :: iter' =>
    if count <? limit then
      e ← entry key;
      match e with
      | None => collect_grants entry limit count grants iter'
      | Some g => collect_grants entry limit (count + 1) (grants ++ [g]) iter'
      end
    else Ok (grants, iter)
  end.

Definition encode_index_key (key : GrantTriple) : outcome string := index_EncodeNonTerminal 128 key.

Definition next_key (iter : list GrantTriple) : outcome (option string) :=
  match iter with
  | [] => Ok None
  | key :: _ => k ← encode_index_key key; Ok (Some k)
  end.

(** The fast-forward to a pagination key *)
Fixpoint skip_to_key (key : string) (iter : list GrantTriple) : outcome (list GrantTriple) :=
  match iter with
  | [] => Ok []
  | fullKey :: iter' =>
    keyBytes ← encode_index_key fullKey;
    if String.ltb keyBytes key then skip_to_key key iter' else Ok iter
  end.

Definition page_limit (p : option IndexPage) : Z :=
  match p with Some p => if 0 <? pg_Limit p then pg_Limit p else DefaultLimit | None => DefaultLimit end.
Definition page_countTotal (p : option IndexPage) : bool := match p with Some p => pg_CountTotal p | None => false end.

(** [MultiIterateRaw] reaches the keys of the index by reflection. *)
Definition MultiIterateRaw c (start : string) : outcome (list GrantTriple) := refKeys_IterateRaw c start.

Definition granteeGrantsWithRawIteration c (grantee granteeAddr : string) (p : IndexPage)
    : outcome (list (GrantAuthorization AN) * IndexPageResponse) :=
  iter ← MultiIterateRaw c (pg_Key p);
  res ← collect_grants (λ key, if bool_decide (key.1.2 ≠ granteeAddr) then Ok None
                        else g ← grantee_entry c grantee key; Ok (Some g))
          (page_limit (Some p)) 0 [] iter;
  let '(grants, iter) := res : list (GrantAuthorization AN) * list GrantTriple in
  nextKey ← next_key iter;
  let total := if pg_CountTotal p then llen grants + llen (filter (λ key : GrantTriple, key.1.2 = granteeAddr) iter) else 0 in
  Ok (grants, mkIndexPageResponse nextKey total).

(** The page from where the iterator stands *)
Definition grantee_page c (grantee : string) (p : option IndexPage) (iter : list GrantTriple)
    : outcome (list (GrantAuthorization AN) * IndexPageResponse) :=
  res ← collect_grants (λ key, g ← grantee_entry c grantee key; Ok (Some g)) (page_limit p) 0 [] iter;
  let '(grants, iter) := res : list (GrantAuthorization AN) * list GrantTriple in
  nextKey ← next_key iter;
  let total := if page_countTotal p then llen grants + llen iter else 0 in
  Ok (grants, mkIndexPageResponse nextKey total).

(** Moves the iterator to the pagination key or past the offset. *)
Definition grantee_page_start (p : option IndexPage) (iter : list GrantTriple) : outcome (list GrantTriple) :=
  match p with
  | None => Ok iter
  | Some p =>
    if 0 <? slen (pg_Key p) then skip_to_key (pg_Key p) iter
    else Ok (drop (Z.to_nat (pg_Offset p)) iter)
  end.

Definition GranteeGrants c (req : AddressRequest) : outcome (list (GrantAuthorization AN) * IndexPageResponse) :=
  granteeAddr ← StringToBytes (ar_Address req);
  let standard :=
    iter ← Grantee_Iterate c granteeAddr;
    iter ← grantee_page_start (ar_Pagination req) iter;
    grantee_page c (ar_Address req) (ar_Pagination req) iter in
  match ar_Pagination req with
  | Some p => if 0 <? slen (pg_Key p) then granteeGrantsWithRawIteration c (ar_Address req) granteeAddr p else standard
  | None => standard
  end.

(** ** Allowances *)
Definition query_Allowance f (granter grantee : string) : outcome (option GF) :=
  granterAddr ← StringToBytes granter;
  granteeAddr ← StringToBytes grantee;
  match coll_Get f (granterAddr, granteeAddr) with
  | Ok grant => Ok (Some grant)
  | Err e => if decide (e = ErrNotFound) then Ok None else Err e
  | Panic => Panic
  end.

Definition query_Allowances f (req : AddressRequest) : outcome (list GF * IndexPageResponse) :=
  granteeAddr ← StringToBytes (ar_Address req);
  res ← allowance_keys_Paginate f granteeAddr (ar_Pagination req);
  (** the keys of the index are reversed *)
  allowances ← map_results (λ key : AllowancePair, coll_Get f (key.2, key.1)) res.1;
  Ok (allowances, res.2).

Definition query_AllowancesByGranter f (req : AddressRequest) : outcome (list GF * IndexPageResponse) :=
  granterAddr ← StringToBytes (ar_Address req);
  res ← allowances_Paginate f granterAddr (ar_Pagination req);
  Ok (snd <$> (res.1 : list (AllowancePair * GF)), res.2).
End queries.

(** ** What the index promises *)
Class GrantIndexesLaws (GA CA : Type) `{!CollMap GrantTriple GA CA, !CollMapLaws GrantTriple GA CA, !GrantIndexes GA CA} := {
  (** the bytes a key of the index is stored under *)
  index_bytes : GrantTriple → string;
  index_keys : CA → list GrantTriple;
  index_keys_elem c t : t ∈ index_keys c ↔ is_Some (coll_contents c !! t);
  index_keys_sorted c : StronglySorted (λ a b, str_lt (index_bytes a) (index_bytes b)) (index_keys c);
  Grantee_Iterate_spec c g : Grantee_Iterate c g = Ok (filter (λ t, t.1.2 = g) (index_keys c));
  refKeys_IterateRaw_spec c start :
    refKeys_IterateRaw c start = Ok (filter (λ t, ¬ str_lt (index_bytes t) start) (index_keys c));
  (** in a non-terminal position the string at the end, the type of the message, is followed by
      a delimiter, a NUL, which it may not contain; nothing is said of a buffer that is too short *)
  index_EncodeNonTerminal_ok n t : no_nul t.2 → slen (index_bytes t) < n → index_EncodeNonTerminal n t = Ok (index_bytes t +:+ NUL);
  (** a pagination visits entries of the map below its prefix *)
  grants_Paginate_spec c p page l r k v : grants_Paginate c p page = Ok (l, r) → (k, v) ∈ l →
    coll_contents c !! k = Some v ∧
    match p with NoPrefix => True | TriplePrefix a => k.1.1 = a | TripleSuperPrefix a b => k.1 = (a, b) end;
}.

Class AllowanceIndexesLaws (GF CF : Type) `{!CollMap AllowancePair GF CF, !CollMapLaws AllowancePair GF CF,
    !AllowanceIndexes GF CF} := {
  allowances_Paginate_spec f g page l r k v : allowances_Paginate f g page = Ok (l, r) → (k, v) ∈ l →
    coll_contents f !! k = Some v ∧ k.1 = g;
  allowance_keys_Paginate_spec f g page l r k : allowance_keys_Paginate f g page = Ok (l, r) → k ∈ l →
    k.1 = g ∧ is_Some (coll_contents f !! (k.2, k.1));
}.

(** ** Lemmas on bytes and pages *)
Lemma str_lt_nul x : str_lt x (x +:+ NUL).
Proof.
  unfold str_lt, String.ltb. induction x as [|a x IH]; [done|]. change (String a x +:+ NUL) with (String a (x +:+ NUL)).
  cbn. unfold Ascii.compare. by rewrite N.compare_refl.
Qed.

(** No string lies between a string and the same string with a NUL at its end. *)
Lemma str_lt_nul_le x y : str_lt x y → ¬ str_lt y (x +:+ NUL).
Proof.
  unfold str_lt, String.ltb. revert y. induction x as [|a x IH]; intros [|b y]; try done.
  - intros _. change ("" +:+ NUL) with NUL. cbn. destruct b as [[] [] [] [] [] [] [] []]; cbn; try done. by destruct y.
  - change (String a x +:+ NUL) with (String a (x +:+ NUL)). cbn. pose proof (Ascii.compare_antisym a b) as Ha.
    destruct (Ascii.compare a b), (Ascii.compare b a); cbn in Ha; try done. apply IH.
Qed.

Section pages.
Context {GA AU AN CA : Type} `{Ac : !AddrCodec, Gv : !GrantValue GA AU AN, Ma : !CollMap GrantTriple GA CA,
  Mal : !CollMapLaws GrantTriple GA CA, Gi : !GrantIndexes GA CA, Gl : !GrantIndexesLaws GA CA}.
Implicit Types (c : CA) (l : list GrantTriple).

(** A key of the index, with its delimiter, fits the buffer of 128 bytes that page keys are
    encoded in.  With addresses of 20 bytes there are 64 bytes for the type of the message, with the
    32 bytes of contract addresses on both sides there are 28. *)
Definition key_fits (t : GrantTriple) : Prop := no_nul t.2 ∧ slen (index_bytes t) < 128.
Definition keys_fit c : Prop := Forall key_fits (index_keys c).

(** The grants of a grantee in the order of the index *)
Definition granted c (addr : string) : list GrantTriple := filter (λ t, t.1.2 = addr) (index_keys c).

Lemma collect_grants_all (f : GrantTriple → outcome (GrantAuthorization AN)) limit count acc l : count ≤ limit →
  collect_grants (λ key, g ← f key; Ok (Some g)) limit count acc l =
  (gs ← map_results f (take (Z.to_nat (limit - count)) l); Ok (acc ++ gs, drop (Z.to_nat (limit - count)) l)).
Proof.
  revert count acc. induction l as [|k l IH]; intros count acc Hc; cbn [collect_grants].
  - rewrite take_nil, drop_nil. cbn. by rewrite app_nil_r.
  - destruct (count <? limit) eqn:E.
    + replace (Z.to_nat (limit - count)) with (S (Z.to_nat (limit - (count + 1)))) by lia. cbn [take drop map_results].
      destruct (f k) as [g| |]; [|done..]. rewrite !bind_Ok_l, IH by lia. cbn.
      destruct (map_results f _); cbn; [by rewrite <- app_assoc|done..].
    + replace (Z.to_nat (limit - count)) with O by lia. cbn. by rewrite app_nil_r.
Qed.

(** The raw iteration collects the grants of the grantee and leaves a part of the index. *)
Lemma collect_filtered (f : GrantTriple → outcome (GrantAuthorization AN)) addr limit count acc l : count ≤ limit →
  ∃ rest, rest ⊆ l ∧
  collect_grants (λ key, if bool_decide (key.1.2 ≠ addr) then Ok None else g ← f key; Ok (Some g)) limit count acc l =
  (gs ← map_results f (take (Z.to_nat (limit - count)) (filter (λ t, t.1.2 = addr) l)); Ok (acc ++ gs, rest)).
Proof.
  revert count acc. induction l as [|k l IH]; intros count acc Hc; cbn [collect_grants].
  - exists []. rewrite filter_nil, take_nil. split; [done|]. cbn. by rewrite app_nil_r.
  - destruct (count <? limit) eqn:E.
    + rewrite filter_cons. case_bool_decide as Hk.
      * rewrite bind_Ok_l, decide_False by done. destruct (IH count acc Hc) as (rest&Hr&->). exists rest. split; [set_solver|done].
      * rewrite decide_True by done.
        replace (Z.to_nat (limit - count)) with (S (Z.to_nat (limit - (count + 1)))) by lia. cbn [take map_results].
        destruct (f k) as [g| |] eqn:Hf; [|exists []; split; [set_solver|done]..]. rewrite !bind_Ok_l.
        destruct (IH (count + 1) (acc ++ [g])) as (rest&Hr&->); [lia|]. exists rest. split; [set_solver|].
        destruct (map_results f _); cbn; [by rewrite <- app_assoc|done..].
    + exists (k :: l). split; [done|]. replace (Z.to_nat (limit - count)) with O by lia.
      rewrite take_0. cbn. by rewrite app_nil_r.
Qed.

Lemma map_results_length {A B} (f : A → outcome B) (l : list A) r : map_results f l = Ok r → length r = length l.
Proof.
  revert r. induction l as [|x l IH]; intros r; cbn [map_results]; [by intros [= <-]|].
  intros (y&_&(ys&Hys&[= <-])%bind_Ok)%bind_Ok. cbn. by rewrite (IH ys).
Qed.

Lemma filter_all {A} (P : A → Prop) `{∀ x, Decision (P x)} (l : list A) : (∀ x, x ∈ l → P x) → filter P l = l.
Proof.
  induction l as [|x l IH]; intros Hl; [done|]. rewrite filter_cons, decide_True by (apply Hl; left). f_equal. apply IH.
  intros y Hy. apply Hl. by right.
Qed.

Lemma filter_none {A} (P : A → Prop) `{∀ x, Decision (P x)} (l : list A) : (∀ x, x ∈ l → ¬ P x) → filter P l = [].
Proof.
  induction l as [|x l IH]; intros Hl; [done|]. rewrite filter_cons, decide_False by (apply Hl; left). apply IH.
  intros y Hy. apply Hl. by right.
Qed.

(** The raw iteration from the page key of an entry goes on after that entry. *)
Lemma raw_from_key c addr pre t post : granted c addr = pre ++ t :: post →
  filter (λ k, k.1.2 = addr) (filter (λ k, ¬ str_lt (index_bytes k) (index_bytes t +:+ NUL)) (index_keys c)) = post.
Proof.
  intros Hg. pose proof (StronglySorted_filter _ (λ k, k.1.2 = addr) _ (index_keys_sorted c)) as Hs. fold (granted c addr) in Hs.
  trans (filter (λ k, ¬ str_lt (index_bytes k) (index_bytes t +:+ NUL)) (granted c addr)).
  { unfold granted. rewrite !list_filter_filter. apply list_filter_iff. naive_solver. }
  rewrite Hg in Hs |- *. apply StronglySorted_app in Hs as (Hlt&_&Hs). inversion Hs as [|?? _ Hgt]; subst.
  rewrite Forall_forall in Hgt. pose proof (str_lt_nul (index_bytes t)).
  rewrite filter_app, filter_none, filter_cons, decide_False, filter_all; [done|..].
  - intros x Hx. apply str_lt_nul_le. by apply Hgt.
  - by intros [].
  - intros x Hx Hn. apply Hn. trans (index_bytes t); [|done]. apply Hlt; [done|by left].
Qed.

Lemma encode_index_key_fits t : key_fits t → encode_index_key t = Ok (index_bytes t +:+ NUL).
Proof. intros []. unfold encode_index_key. by apply index_EncodeNonTerminal_ok. Qed.

Lemma next_key_spec l k : next_key (drop k l) =
  match l !! k with None => Ok None | Some t => key ← encode_index_key t; Ok (Some key) end.
Proof.
  destruct (l !! k) as [t|] eqn:E; [by rewrite (drop_S _ _ _ E)|]. by rewrite drop_ge by (by apply lookup_ge_None).
Qed.

Lemma next_key_fits c rest : keys_fit c → rest ⊆ index_keys c → ∃ k, next_key rest = Ok k.
Proof.
  unfold keys_fit. rewrite Forall_forall. intros Hfit Hr. destruct rest as [|t rest]; [by exists None|].
  cbn. rewrite encode_index_key_fits; [by eexists|]. apply Hfit, Hr. by left.
Qed.

(** The answer without a page key, up to the encoding of the next one *)
Lemma first_page c grantee addr p :
  StringToBytes grantee = Ok addr → pg_Key p = "" →
  let start := drop (Z.to_nat (pg_Offset p)) (granted c addr) in
  let n := Z.to_nat (page_limit (Some p)) in
  GranteeGrants c (mkAddressRequest grantee (Some p)) =
    (gs ← map_results (grantee_entry c grantee) (take n start);
     nextKey ← match start !! n with None => Ok None | Some t => key ← encode_index_key t; Ok (Some key) end;
     Ok (gs, mkIndexPageResponse nextKey (if pg_CountTotal p then llen start else 0))).
Proof.
  intros Ha Hk start n. assert (0 ≤ page_limit (Some p)) as Hlim.
  { unfold page_limit, DefaultLimit. destruct (0 <? pg_Limit p) eqn:E; lia. }
  unfold GranteeGrants. cbn [ar_Address ar_Pagination]. rewrite Ha, bind_Ok_l, Hk. change (0 <? slen "") with false. cbn iota.
  rewrite Grantee_Iterate_spec, bind_Ok_l. unfold grantee_page_start. rewrite Hk. change (0 <? slen "") with false. cbn iota.
  rewrite bind_Ok_l. fold (granted c addr) start. unfold grantee_page. rewrite collect_grants_all, Z.sub_0_r by done. fold n.
  destruct (map_results _ (take n start)) as [gs| |] eqn:Hgs; [|done..]. rewrite !bind_Ok_l. cbn [app].
  rewrite next_key_spec. destruct (match start !! n with None => _ | Some t => _ end) as [nk| |]; [|done..]. rewrite !bind_Ok_l.
  do 3 f_equal. apply map_results_length in Hgs. cbn. destruct (pg_CountTotal p); [|done].
  unfold llen. rewrite Hgs, length_take, length_drop. lia.
Qed.

(** The grants that the raw iteration returns from the page key of an entry, if a next key, which
    may be that of another grantee, can be encoded *)
Lemma next_page c grantee addr pre t post limit total :
  StringToBytes grantee = Ok addr → granted c addr = pre ++ t :: post →
  ∃ rest, rest ⊆ index_keys c ∧
  (fst <$> GranteeGrants c (mkAddressRequest grantee (Some (mkIndexPage (index_bytes t +:+ NUL) 0 limit total)))) =
  (gs ← map_results (grantee_entry c grantee) (take (Z.to_nat (if 0 <? limit then limit else DefaultLimit)) post);
   _ ← next_key rest; Ok gs).
Proof.
  intros Ha Hg. unfold GranteeGrants. cbn [ar_Address ar_Pagination pg_Key].
  rewrite Ha, bind_Ok_l. assert ((0 <? slen (index_bytes t +:+ NUL)) = true) as ->.
  { unfold slen. by destruct (index_bytes t). }
  unfold granteeGrantsWithRawIteration, MultiIterateRaw. rewrite refKeys_IterateRaw_spec, bind_Ok_l. cbn [pg_Key].
  destruct (collect_filtered (grantee_entry c grantee) addr (page_limit (Some (mkIndexPage (index_bytes t +:+ NUL) 0 limit total))) 0 []
    (filter (λ k, ¬ str_lt (index_bytes k) (index_bytes t +:+ NUL)) (index_keys c))) as (rest&Hr&E).
  { unfold page_limit, DefaultLimit. cbn. case_match; lia. }
  exists rest. split; [intros x Hx; by apply Hr, list_elem_of_filter in Hx as [_ Hx]|].
  rewrite E, Z.sub_0_r, (raw_from_key c addr pre t post Hg). cbn [page_limit pg_Limit].
  destruct (map_results (grantee_entry c grantee) (take _ post)) as [gs| |]; [|done..].
  rewrite !bind_Ok_l. by destruct (next_key rest).
Qed.

(** C27. The pages of a grantee. Without a page key, and when the last grant is reached or the
    key of the first grant not returned fits a buffer of 128 bytes, the query returns the grants
    after the offset up to the limit, in the order of the index, and that key as next key. When
    the key cannot be encoded in the buffer, the request fails although its grants were
    collected. A following query with the next key returns, if it returns, the grants after
    the one the key belongs to: that grant is on neither page; and it returns them when all keys of
    the index fit the buffer. *)
Theorem GranteeGrants_pages c grantee addr p :
  StringToBytes grantee = Ok addr → pg_Key p = "" →
  let start := drop (Z.to_nat (pg_Offset p)) (granted c addr) in
  let n := Z.to_nat (page_limit (Some p)) in
  let first := GranteeGrants c (mkAddressRequest grantee (Some p)) in
  let page nextKey := gs ← map_results (grantee_entry c grantee) (take n start);
                      Ok (gs, mkIndexPageResponse nextKey (if pg_CountTotal p then llen start else 0)) in
  match start !! n with
  | None => first = page None
  | Some lost =>
    (key_fits lost → first = page (Some (index_bytes lost +:+ NUL))) ∧
    (is_ok (index_EncodeNonTerminal 128 lost) = false → is_ok first = false) ∧
    ∀ limit total,
      let next := fst <$> GranteeGrants c (mkAddressRequest grantee (Some (mkIndexPage (index_bytes lost +:+ NUL) 0 limit total))) in
      let behind := map_results (grantee_entry c grantee)
                      (take (Z.to_nat (if 0 <? limit then limit else DefaultLimit)) (drop (S n) start)) in
      (∀ gs, next = Ok gs → behind = Ok gs) ∧ (keys_fit c → next = behind)
  end.
Proof.
  intros Ha Hk start n first page. pose proof (first_page c grantee addr p Ha Hk) as Hfirst. cbv zeta in Hfirst.
  fold start n first in Hfirst. destruct (start !! n) as [lost|] eqn:Hlost; [|exact Hfirst].
  split_and!.
  - intros Hfit. by rewrite Hfirst, encode_index_key_fits.
  - intros Hp. rewrite Hfirst. unfold encode_index_key.
    by destruct (map_results (grantee_entry c grantee) (take n start)), (index_EncodeNonTerminal 128 lost).
  - intros limit total. cbv zeta.
    destruct (next_page c grantee addr (take (Z.to_nat (pg_Offset p) + n) (granted c addr)) lost
      (drop (S n) start) limit total Ha) as (rest&Hr&->).
    { unfold start in *. rewrite drop_drop. rewrite lookup_drop in Hlost.
      rewrite <- (take_drop_middle _ _ _ Hlost) at 1. f_equal. f_equal. f_equal. lia. }
    destruct (map_results (grantee_entry c grantee) (take _ (drop _ start))) as [gs| |]; [|cbn; naive_solver..].
    rewrite bind_Ok_l. split.
    + intros gs' (k&_&E)%bind_Ok. exact E.
    + intros Hfit. by destruct (next_key_fits c rest Hfit Hr) as [k ->].
Qed.
End pages.

(** ** The other queries *)
Section other_queries.
Context {GA GF AU AN CA CF : Type} `{Ac : !AddrCodec, Gv : !GrantValue GA AU AN, Ma : !CollMap GrantTriple GA CA,
  Mal : !CollMapLaws GrantTriple GA CA, Gi : !GrantIndexes GA CA, Gl : !GrantIndexesLaws GA CA,
  Mf : !CollMap AllowancePair GF CF, Mfl : !CollMapLaws AllowancePair GF CF, Mfk : !CollKeysOk AllowancePair GF CF,
  Ai : !AllowanceIndexes GF CF, Ail : !AllowanceIndexesLaws GF CF}.
Implicit Types (c : CA) (f : CF).

Lemma map_results_elem {A B} (g : A → outcome B) (l : list A) r y : map_results g l = Ok r → y ∈ r → ∃ x, x ∈ l ∧ g x = Ok y.
Proof.
  revert r. induction l as [|x l IH]; intros r; cbn [map_results]; [intros [= <-] []%not_elem_of_nil|].
  intros (z&Hz&(zs&Hzs&[= <-])%bind_Ok)%bind_Ok [->|Hy]%elem_of_cons.
  - exists x. split; [left|done].
  - destruct (IH zs Hzs Hy) as (x'&?&?). exists x'. split; [by right|done].
Qed.

(** A query for the grants of a granter returns only grants that the map holds for it. *)
Theorem GranterGrants_sound c req gs r g :
  GranterGrants c req = Ok (gs, r) → g ∈ gs →
  ∃ addr k v, StringToBytes (ar_Address req) = Ok addr ∧ k.1.1 = addr ∧ coll_contents c !! k = Some v ∧
    TransformGrantToAuthorization k v = Ok g.
Proof.
  intros (addr&Ha&([l pr]&Hp&(gs'&Hgs&[= -> _])%bind_Ok)%bind_Ok)%bind_Ok Hg. cbn [fst] in Hgs.
  destruct (map_results_elem _ _ _ _ Hgs Hg) as ([k v]&Hkv&Ht).
  destruct (grants_Paginate_spec _ _ _ _ _ k v Hp Hkv) as [Hc Hk]. by exists addr, k, v.
Qed.

(** [Grants] with a grantee but no granter filters nothing: every grantee that is a
    valid address gets the answer to the request without one. *)
Theorem Grants_ignores_grantee c grantee addr page :
  StringToBytes grantee = Ok addr →
  Grants c (mkGrantsRequest "" grantee page) = Grants c (mkGrantsRequest "" "" page).
Proof.
  intros Ha. unfold Grants, optional_address. cbn [gr_Granter gr_Grantee gr_Pagination].
  destruct (decide (grantee = "")) as [->|Hne]; [done|]. rewrite (bool_decide_false (grantee = "")) by done. by rewrite Ha.
Qed.

(** From the store of the chain to the answer: when the index mirrors the stores,
    the allowance query returns the allowance the chain holds for the pair, or
    nothing, without an error, when it holds none. *)
Theorem Allowance_mirrors `{Ic : !IndexerCodec GA GF} ch (st : IndexState CA CF) granter grantee a b :
  mirrors ch st → StringToBytes granter = Ok a → StringToBytes grantee = Ok b →
  query_Allowance (ix_feegrant st) granter grantee =
  Ok (ch_feegrant ch !! fee_key (a, b) ≫= λ v, ok_value (feegrant_Unmarshal v)).
Proof.
  intros [_ Hm] Ha Hb. unfold query_Allowance. rewrite Ha, Hb, !bind_Ok_l, coll_Get_spec, <- Hm by apply coll_keys_ok.
  by destruct (coll_contents (ix_feegrant st) !! (a, b)).
Qed.
End other_queries.

(** ** Witnesses *)
Definition wit_index_bytes (t : GrantTriple) : string := model_marshal t.
Definition wit_index_keys (c : gmap GrantTriple string) : list GrantTriple := sort_by wit_index_bytes (map_to_list c).*1.

#[local] Instance wit_addr : AddrCodec := {| StringToBytes := AccAddressFromBech32; BytesToString a := Ok (AccAddress_String a) |}.
#[local] Instance wit_value : GrantValue string string string :=
  {| GetAuthorization := Ok; NewAnyWithValue := Ok; grant_Expiration _ := None |}.
Definition under_prefix (p : GrantPrefix) (k : GrantTriple) : bool :=
  match p with
  | NoPrefix => true
  | TriplePrefix a => bool_decide (k.1.1 = a)
  | TripleSuperPrefix a b => bool_decide (k.1 = (a, b))
  end.

#[local] Instance wit_indexes : GrantIndexes string (gmap GrantTriple string) := {|
  Grantee_Iterate c g := Ok (filter (λ t, t.1.2 = g) (wit_index_keys c));
  refKeys_IterateRaw c start := Ok (filter (λ t, ¬ str_lt (wit_index_bytes t) start) (wit_index_keys c));
  index_EncodeNonTerminal n t := if slen (wit_index_bytes t) <? n then Ok (wit_index_bytes t +:+ NUL) else Panic;
  grants_Paginate c p _ := Ok (filter (λ kv, under_prefix p kv.1 = true) (map_to_list c), mkIndexPageResponse None 0);
|}.

#[local] Instance wit_indexes_laws : GrantIndexesLaws string (gmap GrantTriple string).
Proof.
  refine {| index_bytes := wit_index_bytes; index_keys := wit_index_keys |}.
  - intros c t. unfold wit_index_keys. rewrite sort_by_perm, list_elem_of_fmap. cbn [coll_contents model_coll_laws]. split.
    + intros ([k v]&->&Hkv%elem_of_map_to_list). by exists v.
    + intros [v Hv]. exists (t, v). split; [done|by apply elem_of_map_to_list].
  - intros c. apply sort_by_sorted. apply NoDup_fmap_2; [|apply NoDup_fst_map_to_list].
    intros t t' E. unfold wit_index_bytes in E. assert (Some t = Some t') as [= ->]; [|done].
    by rewrite <- !model_codec_roundtrip, E.
  - done.
  - done.
  - intros n t _ Hn. cbn. by rewrite (proj2 (Z.ltb_lt _ _) Hn).
  - intros c p page l r k v [= <- _] [Hp Hkv]%list_elem_of_filter. split; [by apply elem_of_map_to_list|].
    destruct p; cbn in *; [done|by apply bool_decide_eq_true in Hp..].
Defined.

(** Three grants to "b" and one to "x"; pages of one grant *)
Definition wit_grants : gmap GrantTriple string :=
  {[("a", "b", "") := "g1"; ("c", "b", "") := "g2"; ("d", "b", "") := "g3"; ("e", "x", "") := "g4"]}.
Definition wit_page : IndexPage := mkIndexPage "" 0 1 true.

Lemma GranteeGrants_pages_witness :
  fst <$> GranteeGrants wit_grants (mkAddressRequest "xion1b" (Some wit_page)) =
    Ok [mkGrantAuthorization "xion1d" "xion1b" "g3" None].
Proof.
  pose proof (GranteeGrants_pages wit_grants "xion1b" "b" wit_page ltac:(by vm_compute) eq_refl) as H.
  cbv zeta in H. destruct (_ !! _) as [lost|] eqn:E in H; [|by vm_compute in E].
  destruct H as [H _]. rewrite H; [by vm_compute|].
  vm_compute in E. injection E as <-. apply (bool_decide_eq_true_1 (key_fits _)). by vm_compute.
Defined.

(** A grant with the type of a message of 160 bytes: the page before it is lost. *)
Definition wit_long : string := String.concat "" (replicate 10 "/a.very.long.url").
Lemma wit_page_lost :
  GranteeGrants (<[("c", "b", wit_long) := "g5"]> (<[("a", "b", "") := "g1"]> ∅)) (mkAddressRequest "xion1b" (Some wit_page)) = Panic.
Proof. by vm_compute. Qed.

(** One of the three grants is on neither of the two pages. *)
Lemma wit_pages_lose_a_grant :
  match GranteeGrants wit_grants (mkAddressRequest "xion1b" (Some wit_page)) with
  | Ok (gs, mkIndexPageResponse (Some key) total) =>
    gs = [mkGrantAuthorization "xion1d" "xion1b" "g3" None] ∧ total = 3 ∧
    (fst <$> GranteeGrants wit_grants (mkAddressRequest "xion1b" (Some (mkIndexPage key 0 100 false))))
    = Ok [mkGrantAuthorization "xion1c" "xion1b" "g2" None]
  | _ => False
  end.
Proof. vm_compute. split_and!; reflexivity. Qed.

Lemma Grants_ignores_grantee_witness :
  Grants wit_grants (mkGrantsRequest "" "xion1b" None) = Grants wit_grants (mkGrantsRequest "" "" None).
Proof. apply (Grants_ignores_grantee wit_grants "xion1b" "b" None). by vm_compute. Defined.

#[local] Existing Instances wit_codec wit_codec_laws.
Definition wit_chain : ChainStores := mkChainStores ∅ {[fee_key (GA := string) (GF := string) ("a", "b") := "f"]}.
Definition wit_mirror : IndexState (gmap GrantTriple string) (gmap AllowancePair string) := mkIndexState ∅ {[("a", "b") := "f"]}.

Lemma wit_mirrors : mirrors wit_chain wit_mirror.
Proof.
  split; [by intros t|]. intros k. cbn [ix_feegrant wit_mirror ch_feegrant wit_chain coll_contents model_coll_laws].
  destruct (decide (k = ("a", "b"))) as [->|Hne]; [by rewrite !lookup_singleton_eq|].
  rewrite !lookup_singleton_ne; [done| |done]. intros E. by apply (fee_key_inj (GA := string) (GF := string)) in E.
Qed.

Lemma Allowance_mirrors_witness :
  query_Allowance (ix_feegrant wit_mirror) "xion1a" "xion1b" =
  Ok (ch_feegrant wit_chain !! fee_key ("a", "b") ≫= λ v, ok_value (feegrant_Unmarshal v)).
Proof. apply (Allowance_mirrors wit_chain wit_mirror "xion1a" "xion1b" "a" "b" wit_mirrors); by vm_compute. Defined.
