(* ===== verification/FeeAbs.v ===== *)
(** * x/feeabs/types: what is left of the fee-abstraction module

    Store keys, epochs, parameters, the genesis state and the checks of the three
    messages.  The repository has no keeper for this module. *)

From S2P Require Import Prelude GoStd Sdk SdkModel.

(** ** Store keys *)
Definition OsmosisTwapExchangeRate : string := String (byte_of 1) "".
Definition KeyHostChainConfigByFeeAbs : string := String (byte_of 3) "".
Definition KeyHostChainConfigByOsmosis : string := String (byte_of 4) "".

Definition GetKeyHostZoneConfigByFeeabsIBCDenom (feeabsIbcDenom : string) : string :=
  KeyHostChainConfigByFeeAbs +:+ feeabsIbcDenom.
Definition GetKeyHostZoneConfigByOsmosisIBCDenom (osmosisIbcDenom : string) : string :=
  KeyHostChainConfigByOsmosis +:+ osmosisIbcDenom.
Definition GetKeyTwapExchangeRate (ibcDenom : string) : string := OsmosisTwapExchangeRate +:+ ibcDenom.

(** ** Epochs: durations in nanoseconds, the zero time is 0 *)
Record EpochInfo := mkEpochInfo {
  ep_Identifier : string; ep_StartTime : Z; ep_Duration : Z; ep_CurrentEpoch : Z;
  ep_CurrentEpochStartTime : Z; ep_EpochCountingStarted : bool; ep_CurrentEpochStartHeight : Z }.

Definition EpochInfo_Validate (epoch : EpochInfo) : outcome unit :=
  _ ← fail_if (bool_decide (ep_Identifier epoch = "")) (Plain "epoch identifier should NOT be empty");
  _ ← fail_if (ep_Duration epoch =? 0) (Plain "epoch duration should NOT be 0");
  _ ← fail_if (ep_CurrentEpoch epoch <? 0) (Plain "epoch CurrentEpoch must be non-negative");
  fail_if (ep_CurrentEpochStartHeight epoch <? 0) (Plain "epoch CurrentEpoch must be non-negative").

Definition NewGenesisEpochInfo (identifier : string) (duration : Z) : EpochInfo :=
  mkEpochInfo identifier 0 duration 0 0 false 0.

Definition time_Minute : Z := 60 * 10 ^ 9.
Definition DefaultSwapPeriod : Z := time_Minute * 2.
Definition DefaultQueryPeriod : Z := time_Minute * 1.

(** ** Parameters and genesis *)
Record FeeAbsParams := mkFeeAbsParams {
  fa_OsmosisQueryTwapPath : string; fa_NativeIbcedInOsmosis : string; fa_ChainName : string;
  fa_IbcTransferChannel : string; fa_IbcQueryIcqChannel : string; fa_OsmosisCrosschainSwapAddress : string }.

(** What an [interface{}] may hold, as far as the check tells values apart *)
Inductive any_param := AnyString (s : string) | AnyOther.

Definition feeabs_validateString (i : any_param) : outcome unit :=
  match i with AnyString _ => Ok tt | AnyOther => Err (Plain "invalid parameter type string") end.

Definition FeeAbsParams_Validate (p : FeeAbsParams) : outcome unit :=
  _ ← feeabs_validateString (AnyString (fa_OsmosisQueryTwapPath p));
  _ ← feeabs_validateString (AnyString (fa_NativeIbcedInOsmosis p));
  _ ← feeabs_validateString (AnyString (fa_ChainName p));
  _ ← feeabs_validateString (AnyString (fa_IbcTransferChannel p));
  _ ← feeabs_validateString (AnyString (fa_IbcQueryIcqChannel p));
  feeabs_validateString (AnyString (fa_OsmosisCrosschainSwapAddress p)).

Definition NativeIbced : string := "ibc/C053D637CCA2A2BA030E2C5EE1B28A16F71CCB0E45E8BE52766DC1B241B77878".
Definition DefaultOsmosisQueryTwapPath : string := "/osmosis.twap.v1beta1.Query/ArithmeticTwapToNow".
Definition DefaultChainName : string := "feeappd-t1".

Definition FeeAbsDefaultParams : FeeAbsParams :=
  mkFeeAbsParams DefaultOsmosisQueryTwapPath NativeIbced DefaultChainName "" "" "".

Record FeeAbsGenesis := mkFeeAbsGenesis { fg_Params : FeeAbsParams; fg_Epochs : list EpochInfo; fg_PortId : string }.

Definition FeeAbsDefaultGenesis : FeeAbsGenesis :=
  mkFeeAbsGenesis (mkFeeAbsParams DefaultOsmosisQueryTwapPath NativeIbced DefaultChainName "" "" "")
    [NewGenesisEpochInfo "query" DefaultQueryPeriod; NewGenesisEpochInfo "swap" DefaultSwapPeriod] "feeabs".

Definition FeeAbsGenesis_Validate (gs : FeeAbsGenesis) : outcome unit :=
  _ ← map_err (λ _, Plain "invalid params") (FeeAbsParams_Validate (fg_Params gs));
  check_all EpochInfo_Validate (fg_Epochs gs).

(** ** Messages: the sender of each *)
Section messages.
Context `{!AddressCodec}.

Record MsgSwapCrossChain := mkMsgSwapCrossChain { msc_Sender : string; msc_IbcDenom : string }.

(** The same for [MsgSendQueryIbcDenomTWAP] and [MsgFundFeeAbsModuleAccount] *)
Definition feeabs_ValidateBasic (sender : string) : outcome unit :=
  _ ← AccAddressFromBech32 sender; Ok tt.

Definition feeabs_GetSigners (sender : string) : outcome (list AccAddress) :=
  match AccAddressFromBech32 sender with Ok a => Ok [a] | _ => Panic end.

Definition NewMsgSwapCrossChain (sender : AccAddress) (ibcDenom : string) : MsgSwapCrossChain :=
  mkMsgSwapCrossChain (AccAddress_String sender) ibcDenom.

(** A message built from an address that was parsed passes its check and is signed by
    that address. *)
Theorem feeabs_signer `{!AddressLaws} bech a denom :
  AccAddressFromBech32 bech = Ok a →
  feeabs_ValidateBasic (msc_Sender (NewMsgSwapCrossChain a denom)) = Ok tt ∧
  feeabs_GetSigners (msc_Sender (NewMsgSwapCrossChain a denom)) = Ok [a].
Proof.
  intros Ha. unfold feeabs_ValidateBasic, feeabs_GetSigners, NewMsgSwapCrossChain. cbn.
  by rewrite (AccAddress_roundtrip bech a Ha).
Qed.
End messages.

(** ** Theorems *)

(** Keys for different uses or different denominations are different. *)
Theorem feeabs_keys_disjoint d d' :
  GetKeyHostZoneConfigByFeeabsIBCDenom d ≠ GetKeyHostZoneConfigByOsmosisIBCDenom d' ∧
  GetKeyHostZoneConfigByFeeabsIBCDenom d ≠ GetKeyTwapExchangeRate d' ∧
  GetKeyHostZoneConfigByOsmosisIBCDenom d ≠ GetKeyTwapExchangeRate d' ∧
  (GetKeyHostZoneConfigByFeeabsIBCDenom d = GetKeyHostZoneConfigByFeeabsIBCDenom d' → d = d') ∧
  (GetKeyHostZoneConfigByOsmosisIBCDenom d = GetKeyHostZoneConfigByOsmosisIBCDenom d' → d = d') ∧
  (GetKeyTwapExchangeRate d = GetKeyTwapExchangeRate d' → d = d').
Proof. split_and!; cbn; intros [= ?]; done. Qed.

(** The genesis check accepts exactly the states whose epochs are named, have a
    non-zero duration, and count from a non-negative epoch and height: the parameters are
    never refused, and a negative duration is accepted. *)
Theorem FeeAbsGenesis_Validate_spec gs :
  FeeAbsGenesis_Validate gs = Ok tt ↔
  Forall (λ e, ep_Identifier e ≠ "" ∧ ep_Duration e ≠ 0 ∧ 0 ≤ ep_CurrentEpoch e ∧ 0 ≤ ep_CurrentEpochStartHeight e)
    (fg_Epochs gs).
Proof.
  unfold FeeAbsGenesis_Validate. cbn [FeeAbsParams_Validate feeabs_validateString map_err].
  rewrite unit_bind, check_all_Ok. trans (Forall (λ e, EpochInfo_Validate e = Ok tt) (fg_Epochs gs)); [naive_solver|].
  apply Forall_iff. intros e. unfold EpochInfo_Validate. rewrite !fail_if_bind, fail_if_Ok, bool_decide_eq_false.
  rewrite Z.eqb_neq, !Z.ltb_ge. done.
Qed.

Theorem FeeAbsDefaultGenesis_valid : FeeAbsGenesis_Validate FeeAbsDefaultGenesis = Ok tt.
Proof. by vm_compute. Qed.

(** ** Witness *)
Lemma feeabs_signer_witness :
  feeabs_ValidateBasic (msc_Sender (NewMsgSwapCrossChain (ok_or "" (AccAddressFromBech32 "xion1abc")) "ibc/1")) = Ok tt ∧
  feeabs_GetSigners (msc_Sender (NewMsgSwapCrossChain (ok_or "" (AccAddressFromBech32 "xion1abc")) "ibc/1"))
  = Ok [ok_or "" (AccAddressFromBech32 "xion1abc")].
Proof. apply (feeabs_signer "xion1abc" _ "ibc/1"). eval_hyp. Defined.
