(* ===== verification/WasmBindings.v ===== *)
(** * wasmbindings: the queries that contracts may make

    The whitelist of query paths with the response type of each, and the two
    queriers behind it: [StargateQuerier] answers with JSON, [GrpcQuerier] with the
    decoded message.  The query router and the protobuf codecs are parameters. *)

From S2P Require Import Prelude.

Definition ErrUnsupportedRequest : goerr := Foreign "wasmvm.UnsupportedRequest".
Definition ErrUnknown : goerr := Foreign "wasmvm.Unknown".

(** ** The whitelist *)

(** What the [sync.Map] holds: the factory of a response type, given by the name of
    the type, or a value of another type. *)
Inductive WhitelistEntry :=
| ProtoMessageFactory (response : string)
| OtherValue.

Abbreviation Whitelist := (gmap string WhitelistEntry).

Definition setWhitelistedQuery (queryPath : string) (factory : string) (w : Whitelist) : Whitelist :=
  <[queryPath := ProtoMessageFactory factory]> w.

(** The calls of [init], in order *)
Definition whitelisted_queries : list (string * string) :=
  [("/cosmos.auth.v1beta1.Query/Account", "authtypes.QueryAccountResponse");
   ("/cosmos.auth.v1beta1.Query/Params", "authtypes.QueryParamsResponse");
   ("/cosmos.auth.v1beta1.Query/ModuleAccounts", "authtypes.QueryModuleAccountsResponse");
   ("/cosmos.authz.v1beta1.Query/Grants", "authztypes.QueryGrantsResponse");
   ("/cosmos.bank.v1beta1.Query/Balance", "banktypes.QueryBalanceResponse");
   ("/cosmos.bank.v1beta1.Query/DenomMetadata", "banktypes.QueryDenomMetadataResponse");
   ("/cosmos.bank.v1beta1.Query/DenomsMetadata", "banktypes.QueryDenomsMetadataResponse");
   ("/cosmos.bank.v1beta1.Query/Params", "banktypes.QueryParamsResponse");
   ("/cosmos.bank.v1beta1.Query/SupplyOf", "banktypes.QuerySupplyOfResponse");
   ("/cosmos.distribution.v1beta1.Query/Params", "distributiontypes.QueryParamsResponse");
   ("/cosmos.distribution.v1beta1.Query/DelegatorWithdrawAddress", "distributiontypes.QueryDelegatorWithdrawAddressResponse");
   ("/cosmos.distribution.v1beta1.Query/ValidatorCommission", "distributiontypes.QueryValidatorCommissionResponse");
   ("/cosmos.feegrant.v1beta1.Query/Allowance", "feegranttypes.QueryAllowanceResponse");
   ("/cosmos.feegrant.v1beta1.Query/AllowancesByGranter", "feegranttypes.QueryAllowancesByGranterResponse");
   ("/cosmos.gov.v1beta1.Query/Deposit", "govtypesv1.QueryDepositResponse");
   ("/cosmos.gov.v1beta1.Query/Params", "govtypesv1.QueryParamsResponse");
   ("/cosmos.gov.v1beta1.Query/Vote", "govtypesv1.QueryVoteResponse");
   ("/cosmos.slashing.v1beta1.Query/Params", "slashingtypes.QueryParamsResponse");
   ("/cosmos.slashing.v1beta1.Query/SigningInfo", "slashingtypes.QuerySigningInfoResponse");
   ("/cosmos.staking.v1beta1.Query/Delegation", "stakingtypes.QueryDelegationResponse");
   ("/cosmos.staking.v1beta1.Query/Params", "stakingtypes.QueryParamsResponse");
   ("/cosmos.staking.v1beta1.Query/Validator", "stakingtypes.QueryValidatorResponse");
   ("/xion.v1.Query/WebAuthNVerifyRegister", "xiontypes.QueryWebAuthNVerifyRegisterResponse");
   ("/xion.v1.Query/WebAuthNVerifyAuthenticate", "xiontypes.QueryWebAuthNVerifyAuthenticateResponse");
   ("/xion.jwk.v1.Query/AudienceAll", "jwktypes.QueryAllAudienceResponse");
   ("/xion.jwk.v1.Query/Audience", "jwktypes.QueryGetAudienceResponse");
   ("/xion.jwk.v1.Query/Params", "jwktypes.QueryParamsResponse");
   ("/xion.jwk.v1.Query/ValidateJWT", "jwktypes.QueryValidateJWTResponse");
   ("/xion.dkim.v1.Query/DkimPubKeys", "dkimtypes.QueryDkimPubKeysResponse");
   ("/xion.dkim.v1.Query/Params", "dkimtypes.QueryParamsResponse");
   ("/xion.dkim.v1.Query/DkimPubKey", "dkimtypes.QueryDkimPubKeyResponse");
   ("/xion.dkim.v1.Query/Authenticate", "dkimtypes.AuthenticateResponse");
   ("/xion.zk.v1.Query/ProofVerify", "zktypes.ProofVerifyResponse");
   ("/xion.zk.v1.Query/ProofVerifyUltraHonk", "zktypes.ProofVerifyUltraHonkResponse");
   ("/xion.zk.v1.Query/ProofVerifyGnark", "zktypes.ProofVerifyGnarkResponse")].

Definition stargateWhitelist : Whitelist :=
  foldl (λ w '(path, response), setWhitelistedQuery path response w) ∅ whitelisted_queries.

(** A fresh message is given by its type. *)
Definition GetWhitelistedQuery (w : Whitelist) (queryPath : string) : outcome string :=
  entry ← or_fail (w !! queryPath) ErrUnsupportedRequest;
  match entry with
  | ProtoMessageFactory response => Ok response
  | OtherValue => Err ErrUnknown
  end.

(** ** The queriers *)

(** The state [S] is the one of the query context; a [nil] value is [None]. *)
Class QueryRouter (S : Type) := Route : string → option (S → string → string → outcome (option string)).

(** Decoding into an empty message of the type named, by gogoproto and by the
    application codec, and the JSON of the latter. *)
Class ResponseCodec (P : Type) := {
  proto_Unmarshal : string → string → outcome P;
  cdc_Unmarshal : string → string → outcome P;
  cdc_MarshalJSON : P → outcome string;
}.

Section queriers.
Context {S P : Type} `{!QueryRouter S, !ResponseCodec P}.
Implicit Types (w : Whitelist) (ctx : S).

Definition ConvertProtoToJSONMarshal (protoResponseType bz : string) : outcome string :=
  msg ← map_err (λ _, ErrUnknown) (cdc_Unmarshal protoResponseType bz);
  map_err (λ _, ErrUnknown) (cdc_MarshalJSON msg).

Definition StargateQuerier w ctx (path data : string) : outcome string :=
  protoResponseType ← GetWhitelistedQuery w path;
  route ← or_fail (Route path) ErrUnsupportedRequest;
  res ← route ctx data path;
  value ← or_fail res (Plain "res returned from abci query route is nil");
  ConvertProtoToJSONMarshal protoResponseType value.

Definition GrpcQuerier w ctx (path data : string) : outcome P :=
  protoResponse ← GetWhitelistedQuery w path;
  route ← or_fail (Route path) ErrUnsupportedRequest;
  res ← route ctx data path;
  value ← or_fail res (Plain "res returned from abci query route is nil");
  proto_Unmarshal protoResponse value.
End queriers.

(** ** The whitelist holds the table and nothing else *)
Lemma whitelisted_paths_NoDup : NoDup whitelisted_queries.*1.
Proof. apply (bool_decide_eq_true_1 (NoDup whitelisted_queries.*1)). by vm_compute. Qed.

Lemma stargateWhitelist_lookup path entry :
  stargateWhitelist !! path = Some entry ↔
  ∃ response, entry = ProtoMessageFactory response ∧ (path, response) ∈ whitelisted_queries.
Proof.
  unfold stargateWhitelist, setWhitelistedQuery. pose proof whitelisted_paths_NoDup as Hnd. revert Hnd.
  generalize whitelisted_queries. intros l Hnd.
  assert (∀ w : Whitelist, foldl (λ w '(path, response), <[path := ProtoMessageFactory response]> w) w l
    = foldl (λ w x, <[x.1 := ProtoMessageFactory x.2]> w) w l) as ->.
  { clear. induction l as [|[] l IH]; intros w; [done|]. apply IH. }
  rewrite (foldl_insert_to_list (λ x, x.1) (λ x, ProtoMessageFactory x.2)), (right_id_L ∅ (∪)), <- elem_of_list_to_map.
  - rewrite elem_of_reverse, list_elem_of_fmap. split; [intros ([p r]&[= -> ->]&?); eauto|].
    intros (r&->&?). by exists (path, r).
  - rewrite fmap_reverse, <- list_fmap_compose. by rewrite reverse_Permutation.
Qed.

#[local] Opaque stargateWhitelist whitelisted_queries.

Lemma GetWhitelistedQuery_Ok path response :
  GetWhitelistedQuery stargateWhitelist path = Ok response ↔ (path, response) ∈ whitelisted_queries.
Proof.
  unfold GetWhitelistedQuery. rewrite bind_Ok. setoid_rewrite or_fail_Ok. setoid_rewrite stargateWhitelist_lookup.
  split; [intros (?&(r&->&?)&[= ->]); done|]. intros H. exists (ProtoMessageFactory response). eauto.
Qed.

(** A contract gets the response type of a listed path, and every other path is
    refused as unsupported: the set-up never leaves an entry of another type. *)
Theorem GetWhitelistedQuery_spec path :
  match GetWhitelistedQuery stargateWhitelist path with
  | Ok response => (path, response) ∈ whitelisted_queries
  | Err e => e = ErrUnsupportedRequest ∧ path ∉ whitelisted_queries.*1
  | Panic => False
  end.
Proof.
  unfold GetWhitelistedQuery. destruct (stargateWhitelist !! path) as [entry|] eqn:E; cbn [or_fail].
  - rewrite bind_Ok_l. by apply stargateWhitelist_lookup in E as (r&->&?).
  - cbn. split; [done|]. intros ([p r]&->&Hin)%list_elem_of_fmap.
    apply (eq_None_not_Some (stargateWhitelist !! (p, r).1)); [exact E|].
    exists (ProtoMessageFactory r). apply stargateWhitelist_lookup. exists r. split; [reflexivity|exact Hin].
Qed.

(** ** What the queriers answer *)
Section answers.
Context {S P : Type} `{HR : !QueryRouter S, HC : !ResponseCodec P}.

(** The router answers the query for a listed path with a value. *)
Definition routed (ctx : S) (path data response value : string) : Prop :=
  (path, response) ∈ whitelisted_queries ∧
  ∃ route, Route path = Some route ∧ route ctx data path = Ok (Some value).

Lemma querier_Ok {A} (ctx : S) path data (k : string → string → outcome A) a :
  (response ← GetWhitelistedQuery stargateWhitelist path;
   route ← or_fail (Route path) ErrUnsupportedRequest;
   res ← route ctx data path;
   value ← or_fail res (Plain "res returned from abci query route is nil");
   k response value) = Ok a ↔
  ∃ response value, routed ctx path data response value ∧ k response value = Ok a.
Proof.
  unfold routed. split.
  - intros H. inv_ok. subst. rewrite GetWhitelistedQuery_Ok in *. naive_solver.
  - intros (r&v&(Hr&f&Hf&Hv)&Hk). apply GetWhitelistedQuery_Ok in Hr. rewrite Hr, bind_Ok_l, Hf. cbn [or_fail]. by rewrite bind_Ok_l, Hv.
Qed.

(** C35. A contract gets an answer exactly for a listed path that the router answers, and
    the answer is the decoding of the router's bytes at the response type listed for
    that path; the two queriers differ in the decoder and in the JSON only. *)
Theorem queriers_answer ctx path data :
  (∀ bz, StargateQuerier stargateWhitelist ctx path data = Ok bz ↔
     ∃ response value msg, routed ctx path data response value ∧
       cdc_Unmarshal response value = Ok msg ∧ cdc_MarshalJSON msg = Ok bz) ∧
  (∀ msg, GrpcQuerier stargateWhitelist ctx path data = Ok msg ↔
     ∃ response value, routed ctx path data response value ∧ proto_Unmarshal response value = Ok msg).
Proof.
  split; intros a; unfold StargateQuerier, GrpcQuerier; rewrite querier_Ok; [|done].
  unfold ConvertProtoToJSONMarshal. setoid_rewrite bind_Ok. setoid_rewrite map_err_Ok. naive_solver.
Qed.

(** A path that is not listed never reaches the router. *)
Theorem unlisted_not_routed ctx path data :
  path ∉ whitelisted_queries.*1 →
  StargateQuerier stargateWhitelist ctx path data = Err ErrUnsupportedRequest ∧
  GrpcQuerier stargateWhitelist ctx path data = Err ErrUnsupportedRequest.
Proof.
  intros Hp. assert (stargateWhitelist !! path = None) as E.
  { apply eq_None_not_Some. intros [e (r&->&Hr)%stargateWhitelist_lookup]. apply Hp, list_elem_of_fmap. by exists (path, r). }
  unfold StargateQuerier, GrpcQuerier, GetWhitelistedQuery. rewrite E. split; reflexivity.
Qed.
End answers.

(** ** Witness *)
#[local] Instance wit_router : QueryRouter unit := λ _, Some (λ _ _ _, Ok (Some "value")).
#[local] Instance wit_codec : ResponseCodec string :=
  { proto_Unmarshal _ v := Ok v; cdc_Unmarshal _ v := Ok v; cdc_MarshalJSON m := Ok m }.

Lemma unlisted_not_routed_witness :
  StargateQuerier stargateWhitelist () "/cosmos.bank.v1beta1.Query/AllBalances" "" = Err ErrUnsupportedRequest ∧
  GrpcQuerier stargateWhitelist () "/cosmos.bank.v1beta1.Query/AllBalances" "" = Err ErrUnsupportedRequest.
Proof.
  apply (unlisted_not_routed () "/cosmos.bank.v1beta1.Query/AllBalances" "").
  apply (bool_decide_eq_true_1 ("/cosmos.bank.v1beta1.Query/AllBalances" ∉ whitelisted_queries.*1)). by vm_compute.
Defined.
