(* ===== verification/App.v ===== *)
(** * app: the chain of ante decorators, the blocked addresses and the upgrade handler

    [app/ante.go] checks its options and chains the decorators of the dependencies
    around the fee decorator of this repository; [app/app.go] derives the addresses
    that may not receive coins from the module accounts; [app/upgrades.go] registers
    the upgrade.  The decorators of the dependencies are parameters. *)

From S2P Require Import Prelude GoStd Sdk SdkModel GlobalFee.

Definition ErrLogic : goerr := Foreign "sdk.ErrLogic".

(** ** Decorators *)

(** A context is the part the fee decorator works on and the rest; a transaction likewise. *)
Record ChainCtx (C : Type) := mkChainCtx { cc_fee : AnteCtx; cc_rest : C }.
Arguments mkChainCtx {C}.
Arguments cc_fee {C}.
Arguments cc_rest {C}.
Record ChainTx (T : Type) := mkChainTx { ct_fee : AnteTx; ct_rest : T }.
Arguments mkChainTx {T}.
Arguments ct_fee {T}.
Arguments ct_rest {T}.

(** [sdk.AnteHandler] and [sdk.AnteDecorator] over stores of type [S] *)
Definition AnteHandler (S C T : Type) : Type := ChainCtx C → ChainTx T → bool → M S (ChainCtx C).
Definition AnteDecorator (S C T : Type) : Type :=
  ChainCtx C → ChainTx T → bool → AnteHandler S C T → M S (ChainCtx C).
(** [ante.TxFeeChecker] *)
Definition TxFeeChecker (S C T : Type) : Type := ChainCtx C → ChainTx T → M S Coins.

(** The decorators the chain is built from, the stores the fee decorator reads, and
    [sdk.ChainAnteDecorators]; the keepers they close over live in the stores. *)
Class AnteDecorators (S C T : Type) := {
  SetUpContextDecorator : AnteDecorator S C T;
  LimitSimulationGasDecorator : option Z → AnteDecorator S C T;
  CountTXDecorator : AnteDecorator S C T;
  CircuitBreakerDecorator : AnteDecorator S C T;
  ExtensionOptionsDecorator : AnteDecorator S C T;
  ValidateBasicDecorator : AnteDecorator S C T;
  TxTimeoutHeightDecorator : AnteDecorator S C T;
  ValidateMemoDecorator : AnteDecorator S C T;
  ConsumeGasForTxSizeDecorator : AnteDecorator S C T;
  DeductFeeDecorator : option (TxFeeChecker S C T) → AnteDecorator S C T;
  SetPubKeyDecorator : AnteDecorator S C T;
  ValidateSigCountDecorator : AnteDecorator S C T;
  SigGasConsumeDecorator : AnteDecorator S C T;
  BeforeTxDecorator : AnteDecorator S C T;
  IncrementSequenceDecorator : AnteDecorator S C T;
  RedundantRelayDecorator : AnteDecorator S C T;
  ChainAnteDecorators : list (AnteDecorator S C T) → AnteHandler S C T;
  StakingKeeper_BondDenom : S → outcome string;
  globalfee_subspace : S → GlobalFeeSubspace;
}.

(** ** NewAnteHandler *)

(** For the interfaces and pointers that are only compared with [nil]: are they set? *)
Record HandlerOptions (S C T : Type) := mkHandlerOptions {
  opt_AccountKeeper : bool;
  opt_BankKeeper : bool;
  opt_StakingKeeper : bool;
  opt_SignModeHandler : bool;
  (** the simulation gas limit of the node configuration, itself a pointer *)
  opt_NodeConfig : option (option Z);
  opt_GlobalFeeSubspace_Name : string;
  opt_TXCounterStoreService : bool;
  opt_CircuitKeeper : bool;
  opt_TxFeeChecker : option (TxFeeChecker S C T);
}.
Arguments mkHandlerOptions {S C T}.
Arguments opt_AccountKeeper {S C T}.
Arguments opt_BankKeeper {S C T}.
Arguments opt_StakingKeeper {S C T}.
Arguments opt_SignModeHandler {S C T}.
Arguments opt_NodeConfig {S C T}.
Arguments opt_GlobalFeeSubspace_Name {S C T}.
Arguments opt_TXCounterStoreService {S C T}.
Arguments opt_CircuitKeeper {S C T}.
Arguments opt_TxFeeChecker {S C T}.

Section handler.
Context `{!CoinsOps, !DecCoinsOps, !MapRange} {S C T : Type} `{!AnteDecorators S C T}.

(** The closure over the staking keeper: an error is a panic. *)
Definition bondDenom_closure (s : S) : outcome string :=
  match StakingKeeper_BondDenom s with Ok d => Ok d | _ => Panic end.

(** The fee decorator in the chain: it calls [next] last on every path that does not fail. *)
Definition NewFeeDecorator : AnteDecorator S C T := λ ctx tx simulate next,
  s ← get_state;
  ctx' ← lift (FeeDecorator_AnteHandle (bondDenom_closure s) (globalfee_subspace s) (cc_fee ctx) (ct_fee tx) simulate Ok);
  next (mkChainCtx ctx' (cc_rest ctx)) tx simulate.

Definition anteDecorators (simulationGasLimit : option Z) (checker : option (TxFeeChecker S C T)) : list (AnteDecorator S C T) :=
  [SetUpContextDecorator;
   LimitSimulationGasDecorator simulationGasLimit;
   CountTXDecorator;
   CircuitBreakerDecorator;
   ExtensionOptionsDecorator;
   NewFeeDecorator;
   ValidateBasicDecorator;
   TxTimeoutHeightDecorator;
   ValidateMemoDecorator;
   ConsumeGasForTxSizeDecorator;
   DeductFeeDecorator checker;
   SetPubKeyDecorator;
   ValidateSigCountDecorator;
   SigGasConsumeDecorator;
   BeforeTxDecorator;
   IncrementSequenceDecorator;
   RedundantRelayDecorator].

Definition NewAnteHandler (options : HandlerOptions S C T) : outcome (AnteHandler S C T) :=
  _ ← fail_if (negb (opt_AccountKeeper options)) ErrLogic;
  _ ← fail_if (negb (opt_BankKeeper options)) ErrLogic;
  _ ← fail_if (negb (opt_StakingKeeper options)) ErrLogic;
  _ ← fail_if (negb (opt_SignModeHandler options)) ErrLogic;
  nodeConfig ← or_fail (opt_NodeConfig options) ErrLogic;
  _ ← fail_if (bool_decide (opt_GlobalFeeSubspace_Name options = "")) ErrSdkNotFound;
  _ ← fail_if (negb (opt_TXCounterStoreService options)) ErrLogic;
  _ ← fail_if (negb (opt_CircuitKeeper options)) ErrLogic;
  Ok (ChainAnteDecorators (anteDecorators nodeConfig (opt_TxFeeChecker options))).

(** The handler of the application: no [TxFeeChecker], every other option set; the
    account, bank, staking and circuit keepers are those of the application. *)
Definition setAnteHandler (signModeHandler : bool) (simulationGasLimit : option Z) (subspace_Name : string) :
    outcome (AnteHandler S C T) :=
  match NewAnteHandler (mkHandlerOptions true true true signModeHandler (Some simulationGasLimit) subspace_Name true true None) with
  | Ok h => Ok h
  | _ => Panic
  end.
End handler.

(** ** NewPostHandler *)

(** [sdk.PostHandler]: the last argument says whether the messages succeeded. *)
Definition PostHandler (S C T : Type) : Type := ChainCtx C → ChainTx T → bool → bool → M S (ChainCtx C).
Definition PostDecorator (S C T : Type) : Type :=
  ChainCtx C → ChainTx T → bool → bool → PostHandler S C T → M S (ChainCtx C).
Class PostDecorators (S C T : Type) := {
  AfterTxDecorator : PostDecorator S C T;
  ChainPostDecorators : list (PostDecorator S C T) → PostHandler S C T;
}.

Section post.
Context {S C T : Type} `{!PostDecorators S C T}.
Definition NewPostHandler (AccountKeeper : bool) : outcome (PostHandler S C T) :=
  _ ← fail_if (negb AccountKeeper) ErrLogic;
  Ok (ChainPostDecorators [AfterTxDecorator]).

(** The account keeper of the application is set. *)
Definition setPostHandler : outcome (PostHandler S C T) :=
  match NewPostHandler true with Ok h => Ok h | _ => Panic end.
End post.

(** Every decorator calls the next one, the last returns its context. *)
Class PostLaws (S C T : Type) `{!PostDecorators S C T} := {
  ChainPostDecorators_spec d ds ctx tx simulate success s :
    ChainPostDecorators (d :: ds) ctx tx simulate success s =
    d ctx tx simulate success
      (foldr (λ d next ctx tx simulate success, d ctx tx simulate success next) (λ ctx _ _ _, mret ctx) ds) s;
}.

(** After every transaction, successful or not, the abstract account is told and nothing else runs. *)
Lemma post_handler_runs {S C T} `{!PostDecorators S C T, !PostLaws S C T} :
  ∃ h, (setPostHandler : outcome (PostHandler S C T)) = Ok h ∧
    ∀ ctx tx simulate success s, h ctx tx simulate success s = AfterTxDecorator ctx tx simulate success (λ ctx _ _ _, mret ctx) s.
Proof. eexists. split; [done|]. intros. by rewrite ChainPostDecorators_spec. Qed.

(** ** What the chain relies on *)

(** A decorator that passes on the prices, the mode and the stores the fee decorator
    reads: it succeeds only by calling the rest of the chain. *)
Definition fee_transparent {S C T} `{!AnteDecorators S C T} (d : AnteDecorator S C T) : Prop :=
  ∀ ctx tx simulate next s s' r,
    d ctx tx simulate next s = (s', Ok r) →
    ∃ rest s1, next (mkChainCtx (cc_fee ctx) rest) tx simulate s1 = (s', Ok r) ∧
      globalfee_subspace s1 = globalfee_subspace s.

(** One coin of the fee covers the gas at the price of its denomination. *)
Definition pays (price : string → Z) (tx : AnteTx) : Prop :=
  ∃ c, c ∈ tx_Fee tx ∧ 0 < price (coin_Denom c) * tx_Gas tx ≤ coin_Amount c * dec_one.

Class AnteLaws (S C T : Type) `{!AnteDecorators S C T} := {
  (** every decorator calls the next one, the last returns its context *)
  ChainAnteDecorators_spec d ds ctx tx simulate s :
    ChainAnteDecorators (d :: ds) ctx tx simulate s =
    d ctx tx simulate (foldr (λ d next ctx tx simulate, d ctx tx simulate next) (λ ctx _ _, mret ctx) ds) s;
  SetUpContext_transparent : fee_transparent SetUpContextDecorator;
  LimitSimulationGas_transparent l : fee_transparent (LimitSimulationGasDecorator l);
  CountTX_transparent : fee_transparent CountTXDecorator;
  CircuitBreaker_transparent : fee_transparent CircuitBreakerDecorator;
  ExtensionOptions_transparent : fee_transparent ExtensionOptionsDecorator;
  ValidateBasic_transparent : fee_transparent ValidateBasicDecorator;
  TxTimeoutHeight_transparent : fee_transparent TxTimeoutHeightDecorator;
  ValidateMemo_transparent : fee_transparent ValidateMemoDecorator;
  ConsumeGasForTxSize_transparent : fee_transparent ConsumeGasForTxSizeDecorator;
  (** the default checker compares the fee with the prices of the context in [CheckTx];
      the gas limit is converted to [int64] for that *)
  DeductFee_checks ctx tx next s s' r :
    DeductFeeDecorator None ctx tx false next s = (s', Ok r) →
    ctx_IsCheckTx (cc_fee ctx) = true → DecCoins_IsZero (ctx_MinGasPrices (cc_fee ctx)) = false →
    dec_sorted (ctx_MinGasPrices (cc_fee ctx)) → 0 ≤ tx_Gas (ct_fee tx) < 2 ^ 63 →
    pays (dec_amount (ctx_MinGasPrices (cc_fee ctx))) (ct_fee tx);
}.

Lemma DecCoins_nonzero cs : DecCoins_IsZero cs = false → NoDup (denoms cs) → ∃ d, dec_amount cs d ≠ 0.
Proof.
  intros Hz Hnd. apply not_true_iff_false in Hz. destruct (decide (Exists (λ c, dc_Amount c ≠ 0) cs)) as [He|He].
  - apply Exists_exists in He as (c&Hc&?). exists (dc_Denom c). by rewrite dec_amount_elem.
  - destruct Hz. apply forallb_forall. intros c Hc%list_elem_of_In. apply Z.eqb_eq, dec_stable. intros Hne.
    apply He, Exists_exists. eauto.
Qed.

(** [through H] passes a successful run through the next decorator, given its law. *)
Ltac through law H :=
  let rest := fresh "rest" in let s1 := fresh "s" in let Hs := fresh "Hsub" in
  apply law in H as (rest&s1&H&Hs); cbn [foldr cc_fee] in H.

Section enforce.
Context `{Cc : !CoinsOps, Cd : !DecCoinsOps, Cl : !DecCoinsLaws, Cm : !MapRange, Cml : !MapRangeLaws}.
Context {S C T : Type} `{Ca : !AnteDecorators S C T, Cal : !AnteLaws S C T}.
Implicit Types (ctx : ChainCtx C) (tx : ChainTx T) (s : S).

Lemma NewAnteHandler_Ok (o : HandlerOptions S C T) h :
  NewAnteHandler o = Ok h → ∃ l, opt_NodeConfig o = Some l ∧ h = ChainAnteDecorators (anteDecorators l (opt_TxFeeChecker o)).
Proof. unfold NewAnteHandler. intros H. inv_ok. eauto. Qed.

(** The prices that the deduction of the fee sees are those the fee decorator has set. *)
Lemma chain_reaches_deduction l ctx tx s s' r :
  ChainAnteDecorators (anteDecorators l None) ctx tx false s = (s', Ok r) →
  ∃ fee rest next s1 bond,
    FeeDecorator_AnteHandle bond (globalfee_subspace s) (cc_fee ctx) (ct_fee tx) false Ok = Ok fee ∧
    DeductFeeDecorator None (mkChainCtx fee rest) tx false next s1 = (s', Ok r).
Proof.
  unfold anteDecorators. rewrite ChainAnteDecorators_spec. intros H.
  through SetUpContext_transparent H. through LimitSimulationGas_transparent H.
  through CountTX_transparent H. through CircuitBreaker_transparent H. through ExtensionOptions_transparent H.
  unfold NewFeeDecorator in H at 1. rewrite get_state_bind in H. apply M_bind_Ok in H as (s5&fee&Hfee&H).
  apply lift_Ok in Hfee as [-> Hfee]. cbn [cc_rest cc_fee] in *.
  through ValidateBasic_transparent H. through TxTimeoutHeight_transparent H.
  through ValidateMemo_transparent H. through ConsumeGasForTxSize_transparent H.
  eexists fee, _, _, _, _. split; [|exact H]. rewrite <- Hfee. f_equal. congruence.
Qed.

(** C10. A transaction that the application's ante handler admits to the mempool and that
    is not made of bypass messages only pays, in one denomination, the higher of the
    node's own price and the global price for all its gas: the fee decorator stands
    before the decorator that deducts the fee, and nothing between them touches the
    prices. *)
Theorem ante_enforces_global_fee o h ctx tx s s' r g :
  NewAnteHandler o = Ok h → opt_TxFeeChecker o = None →
  sp_MinGasPrices (globalfee_subspace s) = Some g → validateMinimumGasPrices g = Ok tt → DecCoins_IsZero g = false →
  dec_ok (ctx_MinGasPrices (cc_fee ctx)) → ctx_IsCheckTx (cc_fee ctx) = true →
  ContainsOnlyBypassMinFeeMsgs (globalfee_subspace s) (tx_Msgs (ct_fee tx)) = false →
  0 ≤ tx_Gas (ct_fee tx) < 2 ^ 63 →
  h ctx tx false s = (s', Ok r) →
  pays (λ d, dec_amount (ctx_MinGasPrices (cc_fee ctx)) d `max` dec_amount g d) (ct_fee tx).
Proof.
  intros (l&_&->)%NewAnteHandler_Ok -> Hsub Hg%validated_ok Hz Hl Hc Hby Hgas H.
  destruct (chain_reaches_deduction _ _ _ _ _ _ H) as (fee&rest&next&s1&bond&Hfee&Hded).
  unfold FeeDecorator_AnteHandle in Hfee. rewrite Hby in Hfee. apply fail_if_bind in Hfee as [_ Hfee].
  assert (g ≠ []) as Hne by (by intros ->).
  destruct (GetTxFeeRequired_run bond (globalfee_subspace s) (cc_fee ctx) g Hsub Hne Hg Hl) as (p&Hp&Hs&Ha).
  rewrite Hp, bind_Ok_l in Hfee. injection Hfee as <-. rewrite Hc in Ha.
  assert (DecCoins_IsZero p = false) as Hpz.
  { apply not_true_iff_false. intros Hpz. destruct (DecCoins_nonzero g Hz (proj1 Hg)) as [d Hd].
    pose proof (dec_amount_IsZero _ d Hpz) as E. rewrite Ha in E.
    pose proof (dec_amount_nonneg g d (Forall_impl _ _ _ (proj2 Hg) (λ c H, proj2 H))). lia. }
  destruct (DeductFee_checks _ _ _ _ _ _ Hded Hc Hpz Hs Hgas) as (c&Hin&Hpay). exists c. cbn in Hpay. by rewrite Ha in Hpay.
Qed.
End enforce.

(** ** Addresses that may not receive coins *)

(** The names of the module accounts, from the packages that define them, and the
    three permissions. *)
Class ModuleNames := {
  auth_FeeCollectorName : string; distr_ModuleName : string; minttypes_ModuleName : string;
  staking_BondedPoolName : string; staking_NotBondedPoolName : string; gov_ModuleName : string;
  nft_ModuleName : string; ibctransfer_ModuleName : string; ica_ModuleName : string;
  wasm_ModuleName : string; tokenfactory_ModuleName : string; globalfee_ModuleName : string;
  aa_ModuleName : string; xion_ModuleName : string; jwk_ModuleName : string; packetforward_ModuleName : string;
  auth_Minter : string; auth_Burner : string; auth_Staking : string;
  NewModuleAddress : string → AccAddress;
}.

Section blocked.
Context `{!ModuleNames, !AddressCodec}.

Definition maccPerms : list (string * list string) :=
  [(auth_FeeCollectorName, [auth_Burner]);
   (distr_ModuleName, []);
   (minttypes_ModuleName, [auth_Minter]);
   (staking_BondedPoolName, [auth_Burner; auth_Staking]);
   (staking_NotBondedPoolName, [auth_Burner; auth_Staking]);
   (gov_ModuleName, [auth_Burner]);
   (nft_ModuleName, []);
   (ibctransfer_ModuleName, [auth_Minter; auth_Burner]);
   (ica_ModuleName, []);
   (wasm_ModuleName, [auth_Burner]);
   (tokenfactory_ModuleName, [auth_Minter; auth_Burner]);
   (globalfee_ModuleName, []);
   (aa_ModuleName, []);
   (xion_ModuleName, []);
   (jwk_ModuleName, []);
   (packetforward_ModuleName, [])].

Definition GetMaccPerms : gmap string (list string) :=
  foldr (λ '(k, v) m, <[k := v]> m) ∅ maccPerms.

(** A [map[string]bool] whose values are all true *)
Definition BlockedAddresses : gset string :=
  let modAccAddrs := set_map (λ acc, AccAddress_String (NewModuleAddress acc)) (dom GetMaccPerms) in
  modAccAddrs ∖ {[ AccAddress_String (NewModuleAddress gov_ModuleName) ]}.

Lemma dom_GetMaccPerms m : m ∈ dom GetMaccPerms ↔ m ∈ maccPerms.*1.
Proof.
  unfold GetMaccPerms. generalize maccPerms. intros l. induction l as [|[k v] l IH]; cbn [foldr fmap list_fmap fst].
  - rewrite dom_empty. set_solver.
  - rewrite dom_insert, elem_of_union, elem_of_singleton, IH, elem_of_cons. done.
Qed.

(** Exactly the module accounts other than the one of governance are blocked. *)
Theorem BlockedAddresses_spec a :
  a ∈ BlockedAddresses ↔
  a ≠ AccAddress_String (NewModuleAddress gov_ModuleName) ∧
  ∃ m, m ∈ maccPerms.*1 ∧ a = AccAddress_String (NewModuleAddress m).
Proof.
  unfold BlockedAddresses. rewrite elem_of_difference, elem_of_singleton, elem_of_map.
  setoid_rewrite dom_GetMaccPerms. naive_solver.
Qed.
End blocked.

(** ** Upgrades *)

(** [upgradetypes.Plan] as the code reads it, the answers of the upgrade keeper, and
    the effect of [UpgradeStoreLoader] given by the height and the stores to add,
    rename and delete. *)
Record Plan := mkPlan { plan_Name : string; plan_Height : Z }.
Record StoreUpgrades := mkStoreUpgrades { su_Added : list string; su_Renamed : list (string * string); su_Deleted : list string }.

Class UpgradeKeeper := {
  ReadUpgradeInfoFromDisk : outcome Plan;
  IsSkipHeight : Z → bool;
}.

(** The application while it starts: the handlers set by name, and the store loader if
    one was set. *)
Record UpgradeApp (H : Type) := mkUpgradeApp {
  upgrade_handlers : gmap string H;
  store_loader : option (Z * StoreUpgrades);
}.
Arguments mkUpgradeApp {H}.
Arguments upgrade_handlers {H}.
Arguments store_loader {H}.

Definition UpgradeName : string := "v30".

Section upgrade.
Context `{!UpgradeKeeper} {S VM : Type}.

Definition NextStoreLoader (upgradeInfo : Plan) : Z * StoreUpgrades :=
  (plan_Height upgradeInfo, mkStoreUpgrades [] [] []).

(** [run] is [ModuleManager.RunMigrations]. *)
Definition NextUpgradeHandler (run : VM → M S VM) (fromVM : VM) : M S VM := λ s,
  match run fromVM s with (s', Err _) => (s', Panic) | r => r end.

Definition RegisterUpgradeHandlers (run : VM → M S VM) (app : UpgradeApp (VM → M S VM)) : UpgradeApp (VM → M S VM) * outcome unit :=
  match ReadUpgradeInfoFromDisk with
  | Ok upgradeInfo =>
    let app := mkUpgradeApp (<[UpgradeName := NextUpgradeHandler run]> (upgrade_handlers app)) (store_loader app) in
    if bool_decide (plan_Name upgradeInfo = UpgradeName) && negb (IsSkipHeight (plan_Height upgradeInfo))
    then (mkUpgradeApp (upgrade_handlers app) (Some (NextStoreLoader upgradeInfo)), Ok tt)
    else (app, Ok tt)
  | _ => (app, Panic)
  end.

(** The handler of this upgrade is registered on every start that can read the upgrade
    information; the store loader changes only when that information names this upgrade
    at a height that is not skipped, and it then changes no store. *)
Theorem RegisterUpgradeHandlers_spec run app info :
  ReadUpgradeInfoFromDisk = Ok info →
  ∃ app', RegisterUpgradeHandlers run app = (app', Ok tt) ∧
    upgrade_handlers app' !! UpgradeName = Some (NextUpgradeHandler run) ∧
    (∀ n, n ≠ UpgradeName → upgrade_handlers app' !! n = upgrade_handlers app !! n) ∧
    (store_loader app' = store_loader app ∨
     plan_Name info = UpgradeName ∧ IsSkipHeight (plan_Height info) = false ∧
     store_loader app' = Some (plan_Height info, mkStoreUpgrades [] [] [])).
Proof.
  intros E. unfold RegisterUpgradeHandlers. rewrite E.
  case_bool_decide as Hn; [destruct (IsSkipHeight _) eqn:Hs|]; cbn [andb negb];
    (eexists; split; [done|]; cbn; split_and!;
       [by rewrite lookup_insert_eq|intros; by rewrite lookup_insert_ne|naive_solver]).
Qed.
End upgrade.

(** ** The options of the ante handler *)
Section options.
Context `{!CoinsOps, !DecCoinsOps, !MapRange} {S C T : Type} `{!AnteDecorators S C T}.

Definition options_complete (o : HandlerOptions S C T) : Prop :=
  opt_AccountKeeper o = true ∧ opt_BankKeeper o = true ∧ opt_StakingKeeper o = true ∧ opt_SignModeHandler o = true ∧
  opt_NodeConfig o ≠ None ∧ opt_GlobalFeeSubspace_Name o ≠ "" ∧ opt_TXCounterStoreService o = true ∧
  opt_CircuitKeeper o = true.

(** The handler is built exactly when every required option is set; a missing fee
    subspace has its own error. *)
Theorem NewAnteHandler_options o :
  match NewAnteHandler o with
  | Ok _ => options_complete o
  | Err e => ¬ options_complete o ∧
      e = (if opt_AccountKeeper o && opt_BankKeeper o && opt_StakingKeeper o && opt_SignModeHandler o
              && bool_decide (opt_NodeConfig o ≠ None) && bool_decide (opt_GlobalFeeSubspace_Name o = "")
           then ErrSdkNotFound else ErrLogic)
  | Panic => False
  end.
Proof.
  unfold NewAnteHandler, options_complete.
  destruct o as [[] [] [] [] [l|] name [] [] ck]; cbn; try naive_solver;
    case_bool_decide; cbn; naive_solver.
Qed.
End options.

(** ** Witnesses *)

(** Decorators that only pass on, and a deduction that checks the fee as the default
    checker does *)
Definition wit_pass : AnteDecorator GlobalFeeSubspace unit unit := λ ctx tx simulate next, next ctx tx simulate.

Definition wit_pays (ctx : AnteCtx) (tx : AnteTx) : bool :=
  existsb (λ c, let p := dec_amount (ctx_MinGasPrices ctx) (coin_Denom c) * tx_Gas tx in
                (0 <? p) && (p <=? coin_Amount c * dec_one)) (tx_Fee tx).

Definition wit_deduct : AnteDecorator GlobalFeeSubspace unit unit := λ ctx tx simulate next,
  _ ← lift (fail_if (negb (wit_pays (cc_fee ctx) (ct_fee tx))) ErrInsufficientFee);
  next ctx tx simulate.

#[local] Instance wit_decorators : AnteDecorators GlobalFeeSubspace unit unit := {|
  SetUpContextDecorator := wit_pass; LimitSimulationGasDecorator _ := wit_pass; CountTXDecorator := wit_pass;
  CircuitBreakerDecorator := wit_pass; ExtensionOptionsDecorator := wit_pass; ValidateBasicDecorator := wit_pass;
  TxTimeoutHeightDecorator := wit_pass; ValidateMemoDecorator := wit_pass; ConsumeGasForTxSizeDecorator := wit_pass;
  DeductFeeDecorator _ := wit_deduct; SetPubKeyDecorator := wit_pass; ValidateSigCountDecorator := wit_pass;
  SigGasConsumeDecorator := wit_pass; BeforeTxDecorator := wit_pass; IncrementSequenceDecorator := wit_pass;
  RedundantRelayDecorator := wit_pass;
  ChainAnteDecorators ds := foldr (λ d next ctx tx simulate, d ctx tx simulate next) (λ ctx _ _, mret ctx) ds;
  StakingKeeper_BondDenom _ := Ok "uxion"; globalfee_subspace s := s |}.

Lemma wit_pass_transparent : fee_transparent wit_pass.
Proof. intros [? ?] tx simulate next s s' r H. eauto. Qed.

#[local] Instance wit_ante_laws : AnteLaws GlobalFeeSubspace unit unit.
Proof.
  split; intros; try exact wit_pass_transparent; [done|].
  cbn in H. unfold wit_deduct in H. apply M_bind_Ok in H as (?&?&[_ H]%lift_Ok&_).
  apply fail_if_Ok, negb_false_iff, existsb_exists in H as (c&Hc%list_elem_of_In&Hp).
  exists c. split; [done|]. apply andb_true_iff in Hp as [?%Z.ltb_lt ?%Z.leb_le]. done.
Qed.

Definition wit_options : HandlerOptions GlobalFeeSubspace unit unit :=
  mkHandlerOptions true true true true (Some None) "globalfee" true true None.
Definition wit_ctx : ChainCtx unit := mkChainCtx (mkAnteCtx wit_local true) ().
(** twenty times [10^-18] for each of the 500 units of gas, rounded up *)
Definition wit_tx : ChainTx unit :=
  mkChainTx (mkAnteTx true ["/cosmos.bank.v1beta1.MsgSend"] 500 [mkCoin "uxion" 1]) ().

Lemma ante_enforces_global_fee_witness :
  (∃ h r, NewAnteHandler wit_options = Ok h ∧ h wit_ctx wit_tx false wit_subspace = (wit_subspace, Ok r)) ∧
  pays (λ d, dec_amount wit_local d `max` dec_amount wit_global d) (ct_fee wit_tx).
Proof.
  split; [eexists _, _; split; [reflexivity|by vm_compute]|].
  refine (ante_enforces_global_fee wit_options _ wit_ctx wit_tx wit_subspace wit_subspace _ wit_global
    eq_refl eq_refl eq_refl _ eq_refl wit_local_ok eq_refl _ _ _); by vm_compute.
Defined.

#[local] Instance wit_upgrade : UpgradeKeeper :=
  {| ReadUpgradeInfoFromDisk := Ok (mkPlan "v30" 7); IsSkipHeight _ := false |}.

Lemma RegisterUpgradeHandlers_witness :
  ∃ app', RegisterUpgradeHandlers (λ vm : Z, mret vm : M unit Z) (mkUpgradeApp ∅ None) = (app', Ok tt) ∧
    upgrade_handlers app' !! UpgradeName = Some (NextUpgradeHandler (λ vm : Z, mret vm : M unit Z)) ∧
    (∀ n, n ≠ UpgradeName → upgrade_handlers app' !! n = (∅ : gmap string (Z → M unit Z)) !! n) ∧
    (store_loader app' = None ∨
     "v30" = UpgradeName ∧ false = false ∧ store_loader app' = Some (7, mkStoreUpgrades [] [] [])).
Proof. exact (RegisterUpgradeHandlers_spec (λ vm : Z, mret vm : M unit Z) (mkUpgradeApp ∅ None) (mkPlan "v30" 7) eq_refl). Defined.
