(* ===== verification/AppExport.v ===== *)
(** * app/export.go: exporting the state for a new genesis

    The whole of [prepForZeroHeightGenesis] and [ExportAppStateAndValidators], over the
    keepers of the Cosmos SDK as parameters.  [log.Fatal] ends the process and is a
    panic here; what was written before it is never exported. *)

From S2P Require Import Prelude GoStd Sdk SdkModel.

(** ** The staking and slashing data that the export rewrites *)

(** An entry of an unbonding delegation or of a redelegation *)
Record UnbondingEntry := mkUnbondingEntry { CreationHeight : Z; entry_rest : string }.

(** Redelegations and unbonding delegations, with the store key of the triple or pair
    of addresses they are kept under *)
Record Unbonding := mkUnbonding { unb_Key : string; unb_Entries : list UnbondingEntry }.
Record StakingValidator := mkStakingValidator {
  val_Operator : string; val_UnbondingHeight : Z; val_Jailed : bool; val_rest : string }.
Record SigningInfo := mkSigningInfo { info_StartHeight : Z; info_rest : string }.
Record Delegation := mkDelegation { del_DelegatorAddress : string; del_ValidatorAddress : string }.

(** The elements an iterator hands to its callback, and how it ends *)
Definition visit (S A : Type) : Type := S → list A * outcome unit.

(** Iterators of the keepers with a callback that never stops them *)
Definition iterate_over {S A} (v : visit S A) (f : A → M S unit) : M S unit := λ s,
  (for_each f (v s).1 ≫= λ _, lift (v s).2) s.

(** [if err != nil { panic(err) }] *)
Definition panic_on_err {S A} (m : M S A) : M S A := λ s,
  match m s with (s', Err _) => (s', Panic) | r => r end.

(** [_, _ = f()] *)
Definition ignore_err {S A} (m : M S A) : M S unit := λ s,
  match m s with (s', Panic) => (s', Panic) | (s', _) => (s', Ok tt) end.

Class ExportKeepers (S : Type) := {
  ValAddressFromBech32 : string → outcome string;
  ValAddress_String : string → string;
  ValidatorAddressCodec_StringToBytes : string → outcome string;
  exp_AccAddressFromBech32 : string → outcome AccAddress;
  CrisisKeeper_AssertInvariants : M S unit;
  WithdrawValidatorCommission : string → M S unit;
  GetAllDelegations : S → outcome (list Delegation);
  WithdrawDelegationRewards : AccAddress → string → M S unit;
  DeleteAllValidatorSlashEvents : M S unit;
  DeleteAllValidatorHistoricalRewards : M S unit;
  GetValidatorOutstandingRewardsCoins : S → string → outcome DecCoins;
  (** the community pool of the fee pool *)
  FeePool_Get : S → outcome DecCoins;
  FeePool_Set : DecCoins → M S unit;
  DecCoins_Add : DecCoins → DecCoins → outcome DecCoins;
  (** the hooks of distribution, at the block height of the context *)
  Hooks_AfterValidatorCreated : Z → string → M S unit;
  Hooks_BeforeDelegationCreated : Z → AccAddress → string → M S unit;
  Hooks_AfterDelegationModified : Z → AccAddress → string → M S unit;
  IterateValidators : visit S StakingValidator;
  IterateRedelegations : visit S Unbonding;
  SetRedelegation : Unbonding → M S unit;
  IterateUnbondingDelegations : visit S Unbonding;
  SetUnbondingDelegation : Unbonding → M S unit;
  (** the addresses of the validators, in descending order of their keys *)
  validator_addresses : S → list string;
  GetValidator : S → string → outcome StakingValidator;
  SetValidator : StakingValidator → M S unit;
  iterator_Close : S → outcome unit;
  ApplyAndReturnValidatorSetUpdates : M S unit;
  IterateValidatorSigningInfos : visit S (string * SigningInfo);
  SetValidatorSigningInfo : string → SigningInfo → M S unit;
}.

Section export.
Context {S : Type} `{!ExportKeepers S}.

Definition reset_entries (u : Unbonding) : Unbonding :=
  mkUnbonding (unb_Key u) ((λ e, mkUnbondingEntry 0 (entry_rest e)) <$> unb_Entries u).

Definition check_jail_allowed (jailAllowedAddrs : list string) : M S unit :=
  for_each (λ addr, panic_on_err (_ ← lift (ValAddressFromBech32 addr); mret tt)) jailAllowedAddrs.

Definition withdraw_commission (val : StakingValidator) : M S unit :=
  valBz ← panic_on_err (lift (ValidatorAddressCodec_StringToBytes (val_Operator val)));
  ignore_err (WithdrawValidatorCommission valBz).

Definition withdraw_rewards (delegation : Delegation) : M S unit :=
  valAddr ← panic_on_err (lift (ValAddressFromBech32 (del_ValidatorAddress delegation)));
  delAddr ← panic_on_err (lift (exp_AccAddressFromBech32 (del_DelegatorAddress delegation)));
  panic_on_err (WithdrawDelegationRewards delAddr valAddr).

Definition reinit_validator (height : Z) (val : StakingValidator) : M S unit :=
  valBz ← panic_on_err (lift (ValidatorAddressCodec_StringToBytes (val_Operator val)));
  s ← get_state;
  scraps ← panic_on_err (lift (GetValidatorOutstandingRewardsCoins s valBz));
  communityPool ← panic_on_err (lift (FeePool_Get s));
  communityPool ← lift (DecCoins_Add communityPool scraps);
  _ ← panic_on_err (FeePool_Set communityPool);
  panic_on_err (Hooks_AfterValidatorCreated height valBz).

Definition reinit_delegation (height : Z) (del : Delegation) : M S unit :=
  valAddr ← panic_on_err (lift (ValAddressFromBech32 (del_ValidatorAddress del)));
  delAddr ← panic_on_err (lift (exp_AccAddressFromBech32 (del_DelegatorAddress del)));
  _ ← panic_on_err (Hooks_BeforeDelegationCreated height delAddr valAddr);
  panic_on_err (Hooks_AfterDelegationModified height delAddr valAddr).

Definition reset_validator (jailAllowedAddrs : list string) (addr : string) : M S unit :=
  s ← get_state;
  validator ← panic_on_err (lift (GetValidator s addr));
  let jailed := if negb (llen jailAllowedAddrs =? 0) && negb (bool_decide (ValAddress_String addr ∈ jailAllowedAddrs))
                then true else val_Jailed validator in
  panic_on_err (SetValidator (mkStakingValidator (val_Operator validator) 0 jailed (val_rest validator))).

(** From the reset of the validators to the end: an iterator that cannot be closed is
    logged, and the slashing state is then left as it is. *)
Definition reset_validators_and_slashing (jailAllowedAddrs : list string) : M S unit :=
  s ← get_state;
  _ ← for_each (reset_validator jailAllowedAddrs) (validator_addresses s);
  s ← get_state;
  match iterator_Close s with
  | Err _ => mret tt
  | Panic => lift Panic
  | Ok _ =>
    _ ← panic_on_err ApplyAndReturnValidatorSetUpdates;
    panic_on_err (iterate_over IterateValidatorSigningInfos
            (λ '(addr, info), panic_on_err (SetValidatorSigningInfo addr (mkSigningInfo 0 (info_rest info)))))
  end.

(** The error of the iteration over unbonding delegations is assigned and not read. *)
Definition prepForZeroHeightGenesis (jailAllowedAddrs : list string) : M S unit :=
  _ ← check_jail_allowed jailAllowedAddrs;
  _ ← CrisisKeeper_AssertInvariants;
  _ ← panic_on_err (iterate_over IterateValidators withdraw_commission);
  s ← get_state;
  dels ← panic_on_err (lift (GetAllDelegations s));
  _ ← for_each withdraw_rewards dels;
  _ ← DeleteAllValidatorSlashEvents;
  _ ← DeleteAllValidatorHistoricalRewards;
  _ ← panic_on_err (iterate_over IterateValidators (reinit_validator 0));
  _ ← for_each (reinit_delegation 0) dels;
  _ ← panic_on_err (iterate_over IterateRedelegations (λ red, panic_on_err (SetRedelegation (reset_entries red))));
  _ ← ignore_err (iterate_over IterateUnbondingDelegations (λ ubd, panic_on_err (SetUnbondingDelegation (reset_entries ubd))));
  reset_validators_and_slashing jailAllowedAddrs.

(** ** The exported application *)
Record ExportedApp := mkExportedApp { exp_AppState : string; exp_Validators : list string; exp_Height : Z; exp_ConsensusParams : string }.

(** [genesis] is [ExportGenesisForModules] followed by [json.MarshalIndent], [validators]
    is [staking.WriteValidators]; an error of the latter is returned with the rest. *)
Definition ExportAppStateAndValidators (genesis : list string → S → outcome string) (validators : S → outcome (list string))
    (consensusParams : S → string) (lastBlockHeight : Z) (forZeroHeight : bool) (jailAllowedAddrs modulesToExport : list string) :
    M S ExportedApp :=
  _ ← (if forZeroHeight then prepForZeroHeightGenesis jailAllowedAddrs else mret tt);
  let height := if forZeroHeight then 0 else lastBlockHeight + 1 in
  s ← get_state;
  appState ← lift (genesis modulesToExport s);
  vs ← lift (validators s);
  mret (mkExportedApp appState vs height (consensusParams s)).
End export.

(** ** The documented behaviour of the keepers *)

(** The four stores the last part rewrites *)
Record ExportView := mkExportView {
  ev_reds : gmap string Unbonding; ev_ubds : gmap string Unbonding;
  ev_vals : gmap string StakingValidator; ev_infos : gmap string SigningInfo }.

(** An iterator that ends without an error and visits the map *)
Definition visits {S A K V} `{Countable K} (v : visit S A) (pair : A → K * V) (m : S → gmap K V) : Prop :=
  ∀ s, (v s).2 = Ok tt ∧ (pair <$> (v s).1) ≡ₚ map_to_list (m s).

Class ExportLaws (S : Type) `{!ExportKeepers S} := {
  ex_view : S → ExportView;
  val_address : StakingValidator → string;
  IterateRedelegations_visits : visits IterateRedelegations (λ r, (unb_Key r, r)) (ev_reds ∘ ex_view);
  IterateUnbondingDelegations_visits : visits IterateUnbondingDelegations (λ r, (unb_Key r, r)) (ev_ubds ∘ ex_view);
  IterateValidatorSigningInfos_visits : visits IterateValidatorSigningInfos (λ p, p) (ev_infos ∘ ex_view);
  SetRedelegation_ok r s s' u : SetRedelegation r s = (s', Ok u) →
    ex_view s' = mkExportView (<[unb_Key r := r]> (ev_reds (ex_view s))) (ev_ubds (ex_view s)) (ev_vals (ex_view s)) (ev_infos (ex_view s));
  SetUnbondingDelegation_ok r s s' u : SetUnbondingDelegation r s = (s', Ok u) →
    ex_view s' = mkExportView (ev_reds (ex_view s)) (<[unb_Key r := r]> (ev_ubds (ex_view s))) (ev_vals (ex_view s)) (ev_infos (ex_view s));
  validator_addresses_spec s a : a ∈ validator_addresses s ↔ is_Some (ev_vals (ex_view s) !! a);
  GetValidator_ok s a : GetValidator s a = or_fail (ev_vals (ex_view s) !! a) ErrNotFound;
  val_address_spec s a v : ev_vals (ex_view s) !! a = Some v → val_address v = a;
  (** the address is the operator's *)
  val_address_Operator v w : val_Operator v = val_Operator w → val_address v = val_address w;
  SetValidator_ok v s s' u : SetValidator v s = (s', Ok u) →
    ex_view s' = mkExportView (ev_reds (ex_view s)) (ev_ubds (ex_view s)) (<[val_address v := v]> (ev_vals (ex_view s))) (ev_infos (ex_view s));
  SetValidatorSigningInfo_ok a i s s' u : SetValidatorSigningInfo a i s = (s', Ok u) →
    ex_view s' = mkExportView (ev_reds (ex_view s)) (ev_ubds (ex_view s)) (ev_vals (ex_view s)) (<[a := i]> (ev_infos (ex_view s)));
  (** the update of the validator set bonds and unbonds; it jails no one and releases no one.
      Nothing is said of the signing infos: the hooks of slashing, which app.go installs, write
      the current height there for a validator that becomes bonded. *)
  Apply_ok s s' u : ApplyAndReturnValidatorSetUpdates s = (s', Ok u) →
    ∀ a v, ev_vals (ex_view s') !! a = Some v →
      ∃ w, ev_vals (ex_view s) !! a = Some w ∧ val_Jailed v = val_Jailed w;
  Apply_unbondings s s' u : ApplyAndReturnValidatorSetUpdates s = (s', Ok u) →
    ev_reds (ex_view s') = ev_reds (ex_view s) ∧ ev_ubds (ex_view s') = ev_ubds (ex_view s);
}.

(** ** Loops *)
Lemma panic_on_err_Ok {S A} (m : M S A) s s' a : panic_on_err m s = (s', Ok a) → m s = (s', Ok a).
Proof. unfold panic_on_err. destruct (m s) as [? []]; naive_solver. Qed.

Lemma panic_on_err_no_err {S A} (m : M S A) s e : (panic_on_err m s).2 ≠ Err e.
Proof. unfold panic_on_err. by destruct (m s) as [? []]. Qed.

Lemma ignore_err_iterate_over {S A} (v : visit S A) f s s' :
  (v s).2 = Ok tt → ignore_err (iterate_over v (λ x, panic_on_err (f x))) s = (s', Ok tt) → for_each (λ x, panic_on_err (f x)) (v s).1 s = (s', Ok tt).
Proof.
  unfold ignore_err, iterate_over. intros ->. generalize (v s).1. intros l. rewrite M_bind_step.
  assert (∀ s e, (for_each (λ x, panic_on_err (f x)) l s).2 ≠ Err e) as Hne.
  { clear. induction l as [|x l IH]; intros s e; [done|]. cbn [for_each]. rewrite M_bind_step.
    pose proof (panic_on_err_no_err (f x) s) as Hm. destruct (panic_on_err (f x) s).2; cbn; [apply IH|naive_solver|done]. }
  specialize (Hne s). destruct (for_each _ l s) as [s1 [[]|e|]]; cbn in *; naive_solver.
Qed.

Lemma iterate_over_Ok {S A} (v : visit S A) f s s' u :
  iterate_over v f s = (s', Ok u) → for_each f (v s).1 s = (s', Ok tt).
Proof. unfold iterate_over. intros (?&[]&?&?)%M_bind_Ok. by inv_ok. Qed.

(** A property of every successful step holds along the loop. *)
Lemma for_each_Ok_inv {S A} (P : S → Prop) (f : A → M S unit) l s s' :
  (∀ x s s', x ∈ l → P s → f x s = (s', Ok tt) → P s') → P s → for_each f l s = (s', Ok tt) → P s'.
Proof.
  revert s. induction l as [|x l IH]; intros s Hf Hs; cbn [for_each].
  - intros [-> _]%M_ret_Ok. done.
  - intros (s1&[]&Hx&Hl)%M_bind_Ok. eapply IH; [|by eapply Hf; [left|..]|done]. intros y ?? Hy. apply Hf. by right.
Qed.

(** A loop that stores a new value under every key it visits leaves only such values
    under those keys. *)
Lemma for_each_stores {S A K V} `{Countable K} (m : S → gmap K V) (key : A → K) (Q : K → V → Prop) (f : A → M S unit) l s s' :
  (∀ x s s', x ∈ l → f x s = (s', Ok tt) → ∃ v, Q (key x) v ∧ m s' = <[key x := v]> (m s)) →
  for_each f l s = (s', Ok tt) →
  ∀ k v, m s' !! k = Some v → Q k v ∨ (k ∉ key <$> l) ∧ m s !! k = Some v.
Proof.
  revert s. induction l as [|x l IH]; intros s Hf; cbn [for_each fmap list_fmap].
  - intros [-> _]%M_ret_Ok k v ?. right. split; [apply not_elem_of_nil|done].
  - intros (s1&[]&Hx&Hl)%M_bind_Ok k v Hk. destruct (Hf x s s1 (list_elem_of_here _ _) Hx) as (w&Hw&E).
    destruct (IH s1 (λ y s s' Hy, Hf y s s' (list_elem_of_further _ _ _ Hy)) Hl k v Hk) as [?|[Hn Hs1]]; [auto|].
    rewrite E in Hs1. destruct (decide (key x = k)) as [<-|Hne].
    + rewrite lookup_insert_eq in Hs1. injection Hs1 as <-. auto.
    + rewrite lookup_insert_ne in Hs1 by done. right. split; [|done]. rewrite elem_of_cons. naive_solver.
Qed.

(** The same over a visited map: every value is a new one. *)
Lemma visited_stores {S A K V} `{Countable K} (v : visit S A) (pair : A → K * V) (m : S → gmap K V) (Q : V → Prop) f s s' :
  visits v pair m →
  (∀ x s s', f x s = (s', Ok tt) → ∃ w, Q w ∧ m s' = <[(pair x).1 := w]> (m s)) →
  for_each f (v s).1 s = (s', Ok tt) → map_Forall (λ _, Q) (m s').
Proof.
  intros Hv Hf Hl k w Hk. destruct (Hv s) as [_ Hp].
  destruct (for_each_stores m (λ x, (pair x).1) (λ _, Q) f _ s s' (λ x s s' _, Hf x s s') Hl k w Hk) as [?|[Hn Hs]]; [done|].
  destruct Hn. apply elem_of_map_to_list in Hs. rewrite <- Hp in Hs. apply list_elem_of_fmap in Hs as (x&E&Hx).
  apply list_elem_of_fmap. exists x. by rewrite <- E.
Qed.

(** ** The state that is exported for height zero *)
Section zero.
Context {S : Type} `{Ck : !ExportKeepers S, Cl : !ExportLaws S}.
Implicit Types (s : S) (u : Unbonding).

Definition heights_reset u : Prop := Forall (λ e, CreationHeight e = 0) (unb_Entries u).

Lemma reset_entries_reset u : heights_reset (reset_entries u).
Proof. unfold heights_reset, reset_entries. cbn. apply Forall_fmap. by apply Forall_forall. Qed.

(** A validator that the list does not allow is in jail. *)
Definition jailed_unless (allowed : list string) (a : string) (v : StakingValidator) : Prop :=
  allowed ≠ [] → ValAddress_String a ∉ allowed → val_Jailed v = true.

Lemma redelegations_reset s s' :
  panic_on_err (iterate_over IterateRedelegations (λ red, panic_on_err (SetRedelegation (reset_entries red)))) s = (s', Ok tt) →
  map_Forall (λ _, heights_reset) (ev_reds (ex_view s')).
Proof.
  intros H%panic_on_err_Ok%iterate_over_Ok. revert H.
  apply (visited_stores IterateRedelegations (λ r, (unb_Key r, r)) (ev_reds ∘ ex_view)); [apply IterateRedelegations_visits|].
  intros r s1 s2 H%panic_on_err_Ok%SetRedelegation_ok. exists (reset_entries r). split; [apply reset_entries_reset|]. cbn. by rewrite H.
Qed.

Lemma unbondings_reset s s' :
  ignore_err (iterate_over IterateUnbondingDelegations (λ ubd, panic_on_err (SetUnbondingDelegation (reset_entries ubd)))) s = (s', Ok tt) →
  map_Forall (λ _, heights_reset) (ev_ubds (ex_view s')) ∧ ev_reds (ex_view s') = ev_reds (ex_view s).
Proof.
  intros H%ignore_err_iterate_over; [|apply IterateUnbondingDelegations_visits]. split; revert H.
  - apply (visited_stores IterateUnbondingDelegations (λ r, (unb_Key r, r)) (ev_ubds ∘ ex_view)); [apply IterateUnbondingDelegations_visits|].
    intros r s1 s2 H%panic_on_err_Ok%SetUnbondingDelegation_ok. exists (reset_entries r).
    split; [apply reset_entries_reset|]. cbn. by rewrite H.
  - apply (for_each_Ok_inv (λ s', ev_reds (ex_view s') = ev_reds (ex_view s))); [|done].
    intros r s1 s2 _ <- H%panic_on_err_Ok%SetUnbondingDelegation_ok. by rewrite H.
Qed.

Lemma reset_validator_Ok allowed a s s' : reset_validator allowed a s = (s', Ok tt) →
  ∃ v, val_UnbondingHeight v = 0 ∧ jailed_unless allowed a v ∧
    ex_view s' = mkExportView (ev_reds (ex_view s)) (ev_ubds (ex_view s)) (<[a := v]> (ev_vals (ex_view s))) (ev_infos (ex_view s)).
Proof.
  unfold reset_validator. rewrite get_state_bind. intros (s1&v&[-> Hv]%panic_on_err_Ok%lift_Ok&H%panic_on_err_Ok)%M_bind_Ok.
  rewrite GetValidator_ok in Hv. apply or_fail_Ok in Hv. pose proof (val_address_spec _ _ _ Hv) as Ha.
  apply SetValidator_ok in H. rewrite (val_address_Operator _ v), Ha in H by done.
  eexists. split_and!; [..|exact H]; [done|]. intros Hne Hn. cbn.
  rewrite (bool_decide_eq_false_2 _ Hn). destruct allowed; [done|]. by cbn.
Qed.

Lemma reset_validator_stores allowed a s s' : reset_validator allowed a s = (s', Ok tt) →
  ∃ v, (val_UnbondingHeight v = 0 ∧ jailed_unless allowed a v) ∧
    (ev_vals ∘ ex_view) s' = <[a := v]> ((ev_vals ∘ ex_view) s).
Proof. intros (v&?&?&E)%reset_validator_Ok. exists v. cbn. by rewrite E. Qed.

Lemma validators_reset allowed s s' :
  for_each (reset_validator allowed) (validator_addresses s) s = (s', Ok tt) →
  ev_reds (ex_view s') = ev_reds (ex_view s) ∧ ev_ubds (ex_view s') = ev_ubds (ex_view s) ∧
  ∀ a v, ev_vals (ex_view s') !! a = Some v → val_UnbondingHeight v = 0 ∧ jailed_unless allowed a v.
Proof.
  intros H. split_and!.
  - revert H. apply (for_each_Ok_inv (λ s', ev_reds (ex_view s') = ev_reds (ex_view s))); [|done].
    intros a s1 s2 _ <- (v&_&_&E)%reset_validator_Ok. by rewrite E.
  - revert H. apply (for_each_Ok_inv (λ s', ev_ubds (ex_view s') = ev_ubds (ex_view s))); [|done].
    intros a s1 s2 _ <- (v&_&_&E)%reset_validator_Ok. by rewrite E.
  - intros a v Hv.
    destruct (for_each_stores (ev_vals ∘ ex_view) (λ a, a) (λ a v, val_UnbondingHeight v = 0 ∧ jailed_unless allowed a v)
      _ _ s s' (λ a s s' _, reset_validator_stores allowed a s s') H a v Hv) as [?|[Hn Hs]]; [done|].
    rewrite list_fmap_id in Hn.
    destruct Hn. apply validator_addresses_spec. eauto.
Qed.
(** What the last part leaves when the iterator can be closed *)
Lemma last_part_reset allowed s s' :
  reset_validators_and_slashing allowed s = (s', Ok tt) → (∀ s, iterator_Close s = Ok tt) →
  ev_reds (ex_view s') = ev_reds (ex_view s) ∧ ev_ubds (ex_view s') = ev_ubds (ex_view s) ∧
  (∀ a v, ev_vals (ex_view s') !! a = Some v → jailed_unless allowed a v) ∧
  map_Forall (λ _ i, info_StartHeight i = 0) (ev_infos (ex_view s')).
Proof.
  unfold reset_validators_and_slashing. rewrite get_state_bind. intros H Hc.
  apply M_bind_Ok in H as (s1&[]&H1&H). rewrite get_state_bind, Hc in H. apply M_bind_Ok in H as (s2&[]&H2%panic_on_err_Ok&H3).
  apply panic_on_err_Ok, iterate_over_Ok in H3. apply validators_reset in H1 as (Hr&Hu&Hv).
  destruct (Apply_unbondings _ _ _ H2) as [Hr2 Hu2]. pose proof (Apply_ok _ _ _ H2) as Hj.
  assert (ev_reds (ex_view s') = ev_reds (ex_view s2) ∧ ev_ubds (ex_view s') = ev_ubds (ex_view s2) ∧
          ev_vals (ex_view s') = ev_vals (ex_view s2)) as (->&->&->).
  { revert H3. apply (for_each_Ok_inv (λ s', ev_reds (ex_view s') = ev_reds (ex_view s2) ∧
      ev_ubds (ex_view s') = ev_ubds (ex_view s2) ∧ ev_vals (ex_view s') = ev_vals (ex_view s2))); [|done].
    intros [a i] s3 s4 _ (<-&<-&<-) H%panic_on_err_Ok%SetValidatorSigningInfo_ok. by rewrite H. }
  rewrite Hr2, Hu2, Hr, Hu. split_and!; [done..| |].
  - intros a v Hav. destruct (Hj a v Hav) as (w&Hw&E). destruct (Hv a w Hw) as [_ Hjw].
    intros Hne Hn. rewrite E. by apply Hjw.
  - revert H3. apply (visited_stores IterateValidatorSigningInfos (λ p, p) (ev_infos ∘ ex_view));
      [apply IterateValidatorSigningInfos_visits|].
    intros [a i] s3 s4 H%panic_on_err_Ok%SetValidatorSigningInfo_ok. exists (mkSigningInfo 0 (info_rest i)).
    split; [done|]. cbn. by rewrite H.
Qed.

(** C39. When the preparation for height zero completes, and the iterator over the validators
    can be closed, no redelegation, unbonding delegation or signing information refers to a
    block of the old chain, whatever the hooks wrote while the validator set was updated; and
    when a list of allowed validators is given every other validator is in jail. *)
Theorem prepForZeroHeightGenesis_resets allowed s s' :
  prepForZeroHeightGenesis allowed s = (s', Ok tt) → (∀ s, iterator_Close s = Ok tt) →
  map_Forall (λ _, heights_reset) (ev_reds (ex_view s')) ∧
  map_Forall (λ _, heights_reset) (ev_ubds (ex_view s')) ∧
  (∀ a v, ev_vals (ex_view s') !! a = Some v → jailed_unless allowed a v) ∧
  map_Forall (λ _ i, info_StartHeight i = 0) (ev_infos (ex_view s')).
Proof.
  unfold prepForZeroHeightGenesis. intros H Hc.
  apply M_bind_Ok in H as (s1&[]&_&H). apply M_bind_Ok in H as (s2&[]&_&H). apply M_bind_Ok in H as (s3&[]&_&H).
  rewrite get_state_bind in H. apply M_bind_Ok in H as (s4&dels&_&H).
  do 5 apply M_bind_Ok in H as (?&[]&_&H).
  apply M_bind_Ok in H as (s5&[]&Hr&H). apply M_bind_Ok in H as (s6&[]&Hu&H).
  apply redelegations_reset in Hr. apply unbondings_reset in Hu as [Hu E]. rewrite <- E in Hr.
  destruct (last_part_reset allowed s6 s' H Hc) as (->&->&Hv&Hi). done.
Qed.

(** An iterator that cannot be closed: the rest of the preparation is skipped, and the
    validator set and the signing information keep the heights of the old chain. *)
Theorem close_error_skips_slashing allowed s :
  (∀ s, ∃ e, iterator_Close s = Err e) →
  reset_validators_and_slashing allowed s = for_each (reset_validator allowed) (validator_addresses s) s.
Proof.
  intros Hc. unfold reset_validators_and_slashing. rewrite get_state_bind, M_bind_step.
  destruct (for_each _ _ s) as [s1 [[]|e|]]; cbn; [|done..]. rewrite get_state_bind.
  by destruct (Hc s1) as [e ->].
Qed.
End zero.

(** ** Witness: a keeper whose update of the validator set writes a signing info, as the hooks do *)

(** A store whose records lie under their own keys *)
Definition keyed {V} (key : V → string) (m : gmap string V) : gmap string V := filter (λ p, key p.2 = p.1) m.

Lemma keyed_insert {V} (key : V → string) v m : keyed key (<[key v := v]> m) = <[key v := v]> (keyed key m).
Proof. unfold keyed. by rewrite map_filter_insert_True. Qed.

Lemma keyed_pairs {V} (key : V → string) m :
  (λ v, (key v, v)) <$> (map_to_list (keyed key m)).*2 = map_to_list (keyed key m).
Proof.
  rewrite <- list_fmap_compose. trans (id <$> map_to_list (keyed key m)); [|apply list_fmap_id]. apply list_fmap_ext. intros i [k v] Hi.
  apply list_elem_of_lookup_2, elem_of_map_to_list, map_lookup_filter_Some in Hi as [_ E]. cbn in *. by rewrite E.
Qed.

#[local] Instance wit_export : ExportKeepers ExportView := {|
  ValAddressFromBech32 := Ok; ValAddress_String a := a; ValidatorAddressCodec_StringToBytes := Ok;
  exp_AccAddressFromBech32 := Ok; CrisisKeeper_AssertInvariants := mret tt; WithdrawValidatorCommission _ := mret tt;
  GetAllDelegations _ := Ok []; WithdrawDelegationRewards _ _ := mret tt;
  DeleteAllValidatorSlashEvents := mret tt; DeleteAllValidatorHistoricalRewards := mret tt;
  GetValidatorOutstandingRewardsCoins _ _ := Ok []; FeePool_Get _ := Ok []; FeePool_Set _ := mret tt;
  DecCoins_Add a _ := Ok a; Hooks_AfterValidatorCreated _ _ := mret tt; Hooks_BeforeDelegationCreated _ _ _ := mret tt;
  Hooks_AfterDelegationModified _ _ _ := mret tt;
  IterateValidators s := ((map_to_list (keyed val_Operator (ev_vals s))).*2, Ok tt);
  IterateRedelegations s := ((map_to_list (keyed unb_Key (ev_reds s))).*2, Ok tt);
  SetRedelegation r := modify (λ s, mkExportView (<[unb_Key r := r]> (ev_reds s)) (ev_ubds s) (ev_vals s) (ev_infos s));
  IterateUnbondingDelegations s := ((map_to_list (keyed unb_Key (ev_ubds s))).*2, Ok tt);
  SetUnbondingDelegation r := modify (λ s, mkExportView (ev_reds s) (<[unb_Key r := r]> (ev_ubds s)) (ev_vals s) (ev_infos s));
  validator_addresses s := (map_to_list (keyed val_Operator (ev_vals s))).*1;
  GetValidator s a := or_fail (keyed val_Operator (ev_vals s) !! a) ErrNotFound;
  SetValidator v := modify (λ s, mkExportView (ev_reds s) (ev_ubds s) (<[val_Operator v := v]> (ev_vals s)) (ev_infos s));
  iterator_Close _ := Ok tt;
  ApplyAndReturnValidatorSetUpdates := modify (λ s, mkExportView (ev_reds s) (ev_ubds s) (ev_vals s)
    (<["c2" := mkSigningInfo 42 "bonded"]> (ev_infos s)));
  IterateValidatorSigningInfos s := (map_to_list (ev_infos s), Ok tt);
  SetValidatorSigningInfo a i := modify (λ s, mkExportView (ev_reds s) (ev_ubds s) (ev_vals s) (<[a := i]> (ev_infos s))) |}.

#[local] Instance wit_export_laws : ExportLaws ExportView.
Proof.
  unshelve econstructor.
  { intros s. exact (mkExportView (keyed unb_Key (ev_reds s)) (keyed unb_Key (ev_ubds s)) (keyed val_Operator (ev_vals s)) (ev_infos s)). }
  { exact val_Operator. }
  all: cbn.
  1, 2: intros s; split; [done|]; cbn; by rewrite keyed_pairs.
  1: intros s; split; [done|]; cbn; by rewrite list_fmap_id.
  all: try (intros * H; apply modify_Ok in H as ->; cbn; by rewrite ?keyed_insert).
  - intros s a. rewrite list_elem_of_fmap. split; [intros ([k v]&->&?%elem_of_map_to_list); eauto|].
    intros [v Hv]. exists (a, v). by rewrite elem_of_map_to_list.
  - done.
  - intros s a v [_ E]%map_lookup_filter_Some. done.
  - done.
  - intros s s' u ->%modify_Ok. cbn. eauto.
Qed.

Definition wit_unbonding : Unbonding := mkUnbonding "d1" [mkUnbondingEntry 40 "x"; mkUnbondingEntry 41 "y"].
Definition wit_staking : ExportView := mkExportView {["d1" := wit_unbonding]} {["d1" := wit_unbonding]}
  {["v1" := mkStakingValidator "v1" 7 false ""; "v2" := mkStakingValidator "v2" 8 false ""]} {["c1" := mkSigningInfo 9 ""]}.

Lemma prepForZeroHeightGenesis_resets_witness : ∃ s',
  prepForZeroHeightGenesis ["v1"] wit_staking = (s', Ok tt) ∧
  map_Forall (λ _, heights_reset) (ev_reds (ex_view s')) ∧
  map_Forall (λ _, heights_reset) (ev_ubds (ex_view s')) ∧
  (∀ a v, ev_vals (ex_view s') !! a = Some v → jailed_unless ["v1"] a v) ∧
  map_Forall (λ _ i, info_StartHeight i = 0) (ev_infos (ex_view s')).
Proof.
  exists (prepForZeroHeightGenesis ["v1"] wit_staking).1.
  assert (prepForZeroHeightGenesis ["v1"] wit_staking = ((prepForZeroHeightGenesis ["v1"] wit_staking).1, Ok tt)) as H by eval_hyp.
  split; [exact H|]. exact (prepForZeroHeightGenesis_resets ["v1"] wit_staking _ H (λ _, eq_refl)).
Defined.
