(* ===== verification/ProtoZk.v ===== *)
(** * x/zk/types: the generated code of the messages

    For each [.pb.go] file the fields of every message, which determine its generated
    methods.  The types are those of [ZkTypes.v] and [ZkQuery.v] where these have them. *)

From S2P Require Import Prelude GoStd ProtoWire ProtoCodec Sdk SdkModel ZkTypes ZkKeeper ZkQuery.

(** *** [x/zk/types/params.pb.go] *)
Definition zk_Params_fields : list (Field ZkParams) := [
  int_field id 1 MaxVkeySizeBytes (λ v m, mkZkParams v (UploadChunkSize m) (UploadChunkGas m)
    (MaxGroth16ProofSizeBytes m) (MaxGroth16PublicInputSizeBytes m) (MaxUltraHonkProofSizeBytes m)
    (MaxUltraHonkPublicInputSizeBytes m) (MaxGnarkProofSizeBytes m) (MaxGnarkPublicInputSizeBytes m));
  int_field id 2 UploadChunkSize (λ v m, mkZkParams (MaxVkeySizeBytes m) v (UploadChunkGas m)
    (MaxGroth16ProofSizeBytes m) (MaxGroth16PublicInputSizeBytes m) (MaxUltraHonkProofSizeBytes m)
    (MaxUltraHonkPublicInputSizeBytes m) (MaxGnarkProofSizeBytes m) (MaxGnarkPublicInputSizeBytes m));
  int_field id 3 UploadChunkGas (λ v m, mkZkParams (MaxVkeySizeBytes m) (UploadChunkSize m) v
    (MaxGroth16ProofSizeBytes m) (MaxGroth16PublicInputSizeBytes m) (MaxUltraHonkProofSizeBytes m)
    (MaxUltraHonkPublicInputSizeBytes m) (MaxGnarkProofSizeBytes m) (MaxGnarkPublicInputSizeBytes m));
  int_field id 4 MaxGroth16ProofSizeBytes (λ v m, mkZkParams (MaxVkeySizeBytes m) (UploadChunkSize m) (UploadChunkGas
    m) v (MaxGroth16PublicInputSizeBytes m) (MaxUltraHonkProofSizeBytes m) (MaxUltraHonkPublicInputSizeBytes m)
    (MaxGnarkProofSizeBytes m) (MaxGnarkPublicInputSizeBytes m));
  int_field id 5 MaxGroth16PublicInputSizeBytes (λ v m, mkZkParams (MaxVkeySizeBytes m) (UploadChunkSize m)
    (UploadChunkGas m) (MaxGroth16ProofSizeBytes m) v (MaxUltraHonkProofSizeBytes m) (MaxUltraHonkPublicInputSizeBytes
    m) (MaxGnarkProofSizeBytes m) (MaxGnarkPublicInputSizeBytes m));
  int_field id 6 MaxUltraHonkProofSizeBytes (λ v m, mkZkParams (MaxVkeySizeBytes m) (UploadChunkSize m)
    (UploadChunkGas m) (MaxGroth16ProofSizeBytes m) (MaxGroth16PublicInputSizeBytes m) v
    (MaxUltraHonkPublicInputSizeBytes m) (MaxGnarkProofSizeBytes m) (MaxGnarkPublicInputSizeBytes m));
  int_field id 7 MaxUltraHonkPublicInputSizeBytes (λ v m, mkZkParams (MaxVkeySizeBytes m) (UploadChunkSize m)
    (UploadChunkGas m) (MaxGroth16ProofSizeBytes m) (MaxGroth16PublicInputSizeBytes m) (MaxUltraHonkProofSizeBytes m)
    v (MaxGnarkProofSizeBytes m) (MaxGnarkPublicInputSizeBytes m));
  int_field id 8 MaxGnarkProofSizeBytes (λ v m, mkZkParams (MaxVkeySizeBytes m) (UploadChunkSize m) (UploadChunkGas m)
    (MaxGroth16ProofSizeBytes m) (MaxGroth16PublicInputSizeBytes m) (MaxUltraHonkProofSizeBytes m)
    (MaxUltraHonkPublicInputSizeBytes m) v (MaxGnarkPublicInputSizeBytes m));
  int_field id 9 MaxGnarkPublicInputSizeBytes (λ v m, mkZkParams (MaxVkeySizeBytes m) (UploadChunkSize m)
    (UploadChunkGas m) (MaxGroth16ProofSizeBytes m) (MaxGroth16PublicInputSizeBytes m) (MaxUltraHonkProofSizeBytes m)
    (MaxUltraHonkPublicInputSizeBytes m) (MaxGnarkProofSizeBytes m) v)].
Definition zk_Params_zero : ZkParams := mkZkParams 0 0 0 0 0 0 0 0 0.
#[global] Instance zk_Params_spec : MsgSpec zk_Params_fields zk_Params_zero.
Proof. msg_spec. Defined.

(** *** [x/zk/types/query.pb.go] *)
Record zk_SnarkJsProof := mk_zk_SnarkJsProof { zk_SnarkJsProof_PiA : list string; zk_SnarkJsProof_PiB : list string;
  zk_SnarkJsProof_PiC : list string }.
Definition zk_SnarkJsProof_fields : list (Field zk_SnarkJsProof) := [
  strings_field 1 zk_SnarkJsProof_PiA (λ v m, mk_zk_SnarkJsProof v (zk_SnarkJsProof_PiB m) (zk_SnarkJsProof_PiC m));
  strings_field 2 zk_SnarkJsProof_PiB (λ v m, mk_zk_SnarkJsProof (zk_SnarkJsProof_PiA m) v (zk_SnarkJsProof_PiC m));
  strings_field 3 zk_SnarkJsProof_PiC (λ v m, mk_zk_SnarkJsProof (zk_SnarkJsProof_PiA m) (zk_SnarkJsProof_PiB m) v)].
Definition zk_SnarkJsProof_zero : zk_SnarkJsProof := mk_zk_SnarkJsProof [] [] [].
#[global] Instance zk_SnarkJsProof_spec : MsgSpec zk_SnarkJsProof_fields zk_SnarkJsProof_zero.
Proof. msg_spec. Defined.

Definition zk_QueryVerifyRequest_fields : list (Field QueryVerifyRequest) := [
  string_field 1 qv_Proof (λ v m, mkQueryVerify v (qv_PublicInputs m) (qv_VkeyName m) (qv_VkeyId m));
  strings_field 2 qv_PublicInputs (λ v m, mkQueryVerify (qv_Proof m) v (qv_VkeyName m) (qv_VkeyId m));
  string_field 3 qv_VkeyName (λ v m, mkQueryVerify (qv_Proof m) (qv_PublicInputs m) v (qv_VkeyId m));
  int_field id 4 qv_VkeyId (λ v m, mkQueryVerify (qv_Proof m) (qv_PublicInputs m) (qv_VkeyName m) v)].
Definition zk_QueryVerifyRequest_zero : QueryVerifyRequest := mkQueryVerify "" [] "" 0.
#[global] Instance zk_QueryVerifyRequest_spec : MsgSpec zk_QueryVerifyRequest_fields zk_QueryVerifyRequest_zero.
Proof. msg_spec. Defined.

Record zk_ProofVerifyResponse := mk_zk_ProofVerifyResponse { zk_ProofVerifyResponse_Verified : bool }.
Definition zk_ProofVerifyResponse_fields : list (Field zk_ProofVerifyResponse) := [
  bool_field 1 zk_ProofVerifyResponse_Verified (λ v _, mk_zk_ProofVerifyResponse v)].
Definition zk_ProofVerifyResponse_zero : zk_ProofVerifyResponse := mk_zk_ProofVerifyResponse false.
#[global] Instance zk_ProofVerifyResponse_spec : MsgSpec zk_ProofVerifyResponse_fields zk_ProofVerifyResponse_zero.
Proof. msg_spec. Defined.

Record zk_ProofVerifyUltraHonkResponse := mk_zk_ProofVerifyUltraHonkResponse {
  zk_ProofVerifyUltraHonkResponse_Verified : bool }.
Definition zk_ProofVerifyUltraHonkResponse_fields : list (Field zk_ProofVerifyUltraHonkResponse) := [
  bool_field 1 zk_ProofVerifyUltraHonkResponse_Verified (λ v _, mk_zk_ProofVerifyUltraHonkResponse v)].
Definition zk_ProofVerifyUltraHonkResponse_zero : zk_ProofVerifyUltraHonkResponse := mk_zk_ProofVerifyUltraHonkResponse false.
#[global] Instance zk_ProofVerifyUltraHonkResponse_spec : MsgSpec zk_ProofVerifyUltraHonkResponse_fields zk_ProofVerifyUltraHonkResponse_zero.
Proof. msg_spec. Defined.

Record zk_ProofVerifyGnarkResponse := mk_zk_ProofVerifyGnarkResponse { zk_ProofVerifyGnarkResponse_Verified : bool }.
Definition zk_ProofVerifyGnarkResponse_fields : list (Field zk_ProofVerifyGnarkResponse) := [
  bool_field 1 zk_ProofVerifyGnarkResponse_Verified (λ v _, mk_zk_ProofVerifyGnarkResponse v)].
Definition zk_ProofVerifyGnarkResponse_zero : zk_ProofVerifyGnarkResponse := mk_zk_ProofVerifyGnarkResponse false.
#[global] Instance zk_ProofVerifyGnarkResponse_spec : MsgSpec zk_ProofVerifyGnarkResponse_fields zk_ProofVerifyGnarkResponse_zero.
Proof. msg_spec. Defined.

Definition zk_QueryVerifyUltraHonkRequest_fields : list (Field QueryVerifyBytesRequest) := [
  string_field 1 qb_Proof (λ v m, mkQueryVerifyBytes v (qb_PublicInputs m) (qb_VkeyName m) (qb_VkeyId m));
  string_field 2 qb_PublicInputs (λ v m, mkQueryVerifyBytes (qb_Proof m) v (qb_VkeyName m) (qb_VkeyId m));
  string_field 3 qb_VkeyName (λ v m, mkQueryVerifyBytes (qb_Proof m) (qb_PublicInputs m) v (qb_VkeyId m));
  int_field id 4 qb_VkeyId (λ v m, mkQueryVerifyBytes (qb_Proof m) (qb_PublicInputs m) (qb_VkeyName m) v)].
Definition zk_QueryVerifyUltraHonkRequest_zero : QueryVerifyBytesRequest := mkQueryVerifyBytes "" "" "" 0.
#[global] Instance zk_QueryVerifyUltraHonkRequest_spec : MsgSpec zk_QueryVerifyUltraHonkRequest_fields zk_QueryVerifyUltraHonkRequest_zero.
Proof. msg_spec. Defined.

Definition zk_QueryVerifyGnarkRequest_fields : list (Field QueryVerifyBytesRequest) := [
  string_field 1 qb_Proof (λ v m, mkQueryVerifyBytes v (qb_PublicInputs m) (qb_VkeyName m) (qb_VkeyId m));
  string_field 2 qb_PublicInputs (λ v m, mkQueryVerifyBytes (qb_Proof m) v (qb_VkeyName m) (qb_VkeyId m));
  string_field 3 qb_VkeyName (λ v m, mkQueryVerifyBytes (qb_Proof m) (qb_PublicInputs m) v (qb_VkeyId m));
  int_field id 4 qb_VkeyId (λ v m, mkQueryVerifyBytes (qb_Proof m) (qb_PublicInputs m) (qb_VkeyName m) v)].
Definition zk_QueryVerifyGnarkRequest_zero : QueryVerifyBytesRequest := mkQueryVerifyBytes "" "" "" 0.
#[global] Instance zk_QueryVerifyGnarkRequest_spec : MsgSpec zk_QueryVerifyGnarkRequest_fields zk_QueryVerifyGnarkRequest_zero.
Proof. msg_spec. Defined.

Definition zk_VKey_fields : list (Field VKey) := [
  string_field 1 vkey_KeyBytes (λ v m, mkVKey v (vkey_Name m) (vkey_Description m) (vkey_Authority m)
    (vkey_ProofSystem m) (vkey_CircuitHash m));
  string_field 2 vkey_Name (λ v m, mkVKey (vkey_KeyBytes m) v (vkey_Description m) (vkey_Authority m)
    (vkey_ProofSystem m) (vkey_CircuitHash m));
  string_field 3 vkey_Description (λ v m, mkVKey (vkey_KeyBytes m) (vkey_Name m) v (vkey_Authority m)
    (vkey_ProofSystem m) (vkey_CircuitHash m));
  string_field 4 vkey_CircuitHash (λ v m, mkVKey (vkey_KeyBytes m) (vkey_Name m) (vkey_Description m) (vkey_Authority
    m) (vkey_ProofSystem m) v);
  string_field 5 vkey_Authority (λ v m, mkVKey (vkey_KeyBytes m) (vkey_Name m) (vkey_Description m) v
    (vkey_ProofSystem m) (vkey_CircuitHash m));
  int_field i32 6 vkey_ProofSystem (λ v m, mkVKey (vkey_KeyBytes m) (vkey_Name m) (vkey_Description m) (vkey_Authority
    m) v (vkey_CircuitHash m))].
Definition zk_VKey_zero : VKey := mkVKey "" "" "" "" 0 "".
#[global] Instance zk_VKey_spec : MsgSpec zk_VKey_fields zk_VKey_zero.
Proof. msg_spec. Defined.

Record zk_QueryVKeyRequest := mk_zk_QueryVKeyRequest { zk_QueryVKeyRequest_Id : Z }.
Definition zk_QueryVKeyRequest_fields : list (Field zk_QueryVKeyRequest) := [
  int_field id 1 zk_QueryVKeyRequest_Id (λ v _, mk_zk_QueryVKeyRequest v)].
Definition zk_QueryVKeyRequest_zero : zk_QueryVKeyRequest := mk_zk_QueryVKeyRequest 0.
#[global] Instance zk_QueryVKeyRequest_spec : MsgSpec zk_QueryVKeyRequest_fields zk_QueryVKeyRequest_zero.
Proof. msg_spec. Defined.

Record zk_QueryVKeyResponse := mk_zk_QueryVKeyResponse { zk_QueryVKeyResponse_Vkey : VKey }.
Definition zk_QueryVKeyResponse_fields : list (Field zk_QueryVKeyResponse) := [
  message_field (msg_codec zk_VKey_fields) 1 zk_QueryVKeyResponse_Vkey (λ v _, mk_zk_QueryVKeyResponse v)].
Definition zk_QueryVKeyResponse_zero : zk_QueryVKeyResponse := mk_zk_QueryVKeyResponse zk_VKey_zero.
#[global] Instance zk_QueryVKeyResponse_spec : MsgSpec zk_QueryVKeyResponse_fields zk_QueryVKeyResponse_zero.
Proof. msg_spec. Defined.

Record zk_QueryVKeyByNameRequest := mk_zk_QueryVKeyByNameRequest { zk_QueryVKeyByNameRequest_Name : string }.
Definition zk_QueryVKeyByNameRequest_fields : list (Field zk_QueryVKeyByNameRequest) := [
  string_field 1 zk_QueryVKeyByNameRequest_Name (λ v _, mk_zk_QueryVKeyByNameRequest v)].
Definition zk_QueryVKeyByNameRequest_zero : zk_QueryVKeyByNameRequest := mk_zk_QueryVKeyByNameRequest "".
#[global] Instance zk_QueryVKeyByNameRequest_spec : MsgSpec zk_QueryVKeyByNameRequest_fields zk_QueryVKeyByNameRequest_zero.
Proof. msg_spec. Defined.

Definition zk_QueryVKeyByNameResponse_fields : list (Field QueryVKeyByNameResponse) := [
  message_field (msg_codec zk_VKey_fields) 1 vn_Vkey (λ v m, mkVKeyByName v (vn_Id m));
  int_field id 2 vn_Id (λ v m, mkVKeyByName (vn_Vkey m) v)].
Definition zk_QueryVKeyByNameResponse_zero : QueryVKeyByNameResponse := mkVKeyByName zk_VKey_zero 0.
#[global] Instance zk_QueryVKeyByNameResponse_spec : MsgSpec zk_QueryVKeyByNameResponse_fields zk_QueryVKeyByNameResponse_zero.
Proof. msg_spec. Defined.

Definition zk_VKeyWithID_fields : list (Field VKeyWithID) := [
  int_field id 1 vi_Id (λ v m, mkVKeyWithID v (vi_Vkey m));
  message_field (msg_codec zk_VKey_fields) 2 vi_Vkey (λ v m, mkVKeyWithID (vi_Id m) v)].
Definition zk_VKeyWithID_zero : VKeyWithID := mkVKeyWithID 0 zk_VKey_zero.
#[global] Instance zk_VKeyWithID_spec : MsgSpec zk_VKeyWithID_fields zk_VKeyWithID_zero.
Proof. msg_spec. Defined.

Record zk_QueryHasVKeyRequest := mk_zk_QueryHasVKeyRequest { zk_QueryHasVKeyRequest_Name : string }.
Definition zk_QueryHasVKeyRequest_fields : list (Field zk_QueryHasVKeyRequest) := [
  string_field 1 zk_QueryHasVKeyRequest_Name (λ v _, mk_zk_QueryHasVKeyRequest v)].
Definition zk_QueryHasVKeyRequest_zero : zk_QueryHasVKeyRequest := mk_zk_QueryHasVKeyRequest "".
#[global] Instance zk_QueryHasVKeyRequest_spec : MsgSpec zk_QueryHasVKeyRequest_fields zk_QueryHasVKeyRequest_zero.
Proof. msg_spec. Defined.

Definition zk_QueryHasVKeyResponse_fields : list (Field QueryHasVKeyResponse) := [
  bool_field 1 hv_Exists (λ v m, mkHasVKey v (hv_Id m));
  int_field id 2 hv_Id (λ v m, mkHasVKey (hv_Exists m) v)].
Definition zk_QueryHasVKeyResponse_zero : QueryHasVKeyResponse := mkHasVKey false 0.
#[global] Instance zk_QueryHasVKeyResponse_spec : MsgSpec zk_QueryHasVKeyResponse_fields zk_QueryHasVKeyResponse_zero.
Proof. msg_spec. Defined.

Record zk_QueryNextVKeyIDResponse := mk_zk_QueryNextVKeyIDResponse { zk_QueryNextVKeyIDResponse_NextId : Z }.
Definition zk_QueryNextVKeyIDResponse_fields : list (Field zk_QueryNextVKeyIDResponse) := [
  int_field id 1 zk_QueryNextVKeyIDResponse_NextId (λ v _, mk_zk_QueryNextVKeyIDResponse v)].
Definition zk_QueryNextVKeyIDResponse_zero : zk_QueryNextVKeyIDResponse := mk_zk_QueryNextVKeyIDResponse 0.
#[global] Instance zk_QueryNextVKeyIDResponse_spec : MsgSpec zk_QueryNextVKeyIDResponse_fields zk_QueryNextVKeyIDResponse_zero.
Proof. msg_spec. Defined.

Record zk_QueryParamsResponse := mk_zk_QueryParamsResponse { zk_QueryParamsResponse_Params : ZkParams }.
Definition zk_QueryParamsResponse_fields : list (Field zk_QueryParamsResponse) := [
  message_field (msg_codec zk_Params_fields) 1 zk_QueryParamsResponse_Params (λ v _, mk_zk_QueryParamsResponse v)].
Definition zk_QueryParamsResponse_zero : zk_QueryParamsResponse := mk_zk_QueryParamsResponse zk_Params_zero.
#[global] Instance zk_QueryParamsResponse_spec : MsgSpec zk_QueryParamsResponse_fields zk_QueryParamsResponse_zero.
Proof. msg_spec. Defined.

(** *** [x/zk/types/genesis.pb.go] *)
Definition zk_GenesisState_fields : list (Field ZkGenesis) := [
  messages_field (msg_codec zk_VKeyWithID_fields) zk_VKeyWithID_zero 1 zg_Vkeys (λ v m, mkZkGenesis v (zg_Params m));
  message_field (msg_codec zk_Params_fields) 2 zg_Params (λ v m, mkZkGenesis (zg_Vkeys m) v)].
Definition zk_GenesisState_zero : ZkGenesis := mkZkGenesis [] zk_Params_zero.
#[global] Instance zk_GenesisState_spec : MsgSpec zk_GenesisState_fields zk_GenesisState_zero.
Proof. msg_spec. Defined.

(** *** [x/zk/types/tx.pb.go] *)
Definition zk_MsgAddVKey_fields : list (Field MsgAddVKey) := [
  string_field 1 av_Authority (λ v m, mkMsgAddVKey v (av_Name m) (av_VkeyBytes m) (av_Description m) (av_ProofSystem
    m));
  string_field 2 av_Name (λ v m, mkMsgAddVKey (av_Authority m) v (av_VkeyBytes m) (av_Description m) (av_ProofSystem
    m));
  string_field 3 av_Description (λ v m, mkMsgAddVKey (av_Authority m) (av_Name m) (av_VkeyBytes m) v (av_ProofSystem
    m));
  string_field 4 av_VkeyBytes (λ v m, mkMsgAddVKey (av_Authority m) (av_Name m) v (av_Description m) (av_ProofSystem
    m));
  int_field i32 5 av_ProofSystem (λ v m, mkMsgAddVKey (av_Authority m) (av_Name m) (av_VkeyBytes m) (av_Description m)
    v)].
Definition zk_MsgAddVKey_zero : MsgAddVKey := mkMsgAddVKey "" "" "" "" 0.
#[global] Instance zk_MsgAddVKey_spec : MsgSpec zk_MsgAddVKey_fields zk_MsgAddVKey_zero.
Proof. msg_spec. Defined.

Record zk_MsgAddVKeyResponse := mk_zk_MsgAddVKeyResponse { zk_MsgAddVKeyResponse_Id : Z }.
Definition zk_MsgAddVKeyResponse_fields : list (Field zk_MsgAddVKeyResponse) := [
  int_field id 1 zk_MsgAddVKeyResponse_Id (λ v _, mk_zk_MsgAddVKeyResponse v)].
Definition zk_MsgAddVKeyResponse_zero : zk_MsgAddVKeyResponse := mk_zk_MsgAddVKeyResponse 0.
#[global] Instance zk_MsgAddVKeyResponse_spec : MsgSpec zk_MsgAddVKeyResponse_fields zk_MsgAddVKeyResponse_zero.
Proof. msg_spec. Defined.

Definition zk_MsgUpdateVKey_fields : list (Field MsgAddVKey) := [
  string_field 1 av_Authority (λ v m, mkMsgAddVKey v (av_Name m) (av_VkeyBytes m) (av_Description m) (av_ProofSystem
    m));
  string_field 2 av_Name (λ v m, mkMsgAddVKey (av_Authority m) v (av_VkeyBytes m) (av_Description m) (av_ProofSystem
    m));
  string_field 3 av_Description (λ v m, mkMsgAddVKey (av_Authority m) (av_Name m) (av_VkeyBytes m) v (av_ProofSystem
    m));
  string_field 4 av_VkeyBytes (λ v m, mkMsgAddVKey (av_Authority m) (av_Name m) v (av_Description m) (av_ProofSystem
    m));
  int_field i32 5 av_ProofSystem (λ v m, mkMsgAddVKey (av_Authority m) (av_Name m) (av_VkeyBytes m) (av_Description m)
    v)].
Definition zk_MsgUpdateVKey_zero : MsgAddVKey := mkMsgAddVKey "" "" "" "" 0.
#[global] Instance zk_MsgUpdateVKey_spec : MsgSpec zk_MsgUpdateVKey_fields zk_MsgUpdateVKey_zero.
Proof. msg_spec. Defined.

Definition zk_MsgRemoveVKey_fields : list (Field MsgRemoveVKey) := [
  string_field 1 rv_Authority (λ v m, mkMsgRemoveVKey v (rv_Name m));
  string_field 2 rv_Name (λ v m, mkMsgRemoveVKey (rv_Authority m) v)].
Definition zk_MsgRemoveVKey_zero : MsgRemoveVKey := mkMsgRemoveVKey "" "".
#[global] Instance zk_MsgRemoveVKey_spec : MsgSpec zk_MsgRemoveVKey_fields zk_MsgRemoveVKey_zero.
Proof. msg_spec. Defined.

Definition zk_MsgUpdateParams_fields : list (Field MsgZkUpdateParams) := [
  string_field 1 up_Authority (λ v m, mkMsgZkUpdateParams v (up_Params m));
  message_field (msg_codec zk_Params_fields) 2 up_Params (λ v m, mkMsgZkUpdateParams (up_Authority m) v)].
Definition zk_MsgUpdateParams_zero : MsgZkUpdateParams := mkMsgZkUpdateParams "" zk_Params_zero.
#[global] Instance zk_MsgUpdateParams_spec : MsgSpec zk_MsgUpdateParams_fields zk_MsgUpdateParams_zero.
Proof. msg_spec. Defined.

(** ** The message types *)
Definition zk_messages : list Message := [ message zk_Params_fields zk_Params_zero;
  message zk_SnarkJsProof_fields zk_SnarkJsProof_zero;
  message zk_QueryVerifyRequest_fields zk_QueryVerifyRequest_zero;
  message zk_ProofVerifyResponse_fields zk_ProofVerifyResponse_zero;
  message zk_ProofVerifyUltraHonkResponse_fields zk_ProofVerifyUltraHonkResponse_zero;
  message zk_ProofVerifyGnarkResponse_fields zk_ProofVerifyGnarkResponse_zero;
  message zk_QueryVerifyUltraHonkRequest_fields zk_QueryVerifyUltraHonkRequest_zero;
  message zk_QueryVerifyGnarkRequest_fields zk_QueryVerifyGnarkRequest_zero; message zk_VKey_fields zk_VKey_zero;
  message zk_QueryVKeyRequest_fields zk_QueryVKeyRequest_zero;
  message zk_QueryVKeyResponse_fields zk_QueryVKeyResponse_zero;
  message zk_QueryVKeyByNameRequest_fields zk_QueryVKeyByNameRequest_zero;
  message zk_QueryVKeyByNameResponse_fields zk_QueryVKeyByNameResponse_zero;
  message zk_VKeyWithID_fields zk_VKeyWithID_zero; message zk_QueryHasVKeyRequest_fields zk_QueryHasVKeyRequest_zero;
  message zk_QueryHasVKeyResponse_fields zk_QueryHasVKeyResponse_zero;
  message zk_QueryNextVKeyIDResponse_fields zk_QueryNextVKeyIDResponse_zero;
  message zk_QueryParamsResponse_fields zk_QueryParamsResponse_zero;
  message zk_GenesisState_fields zk_GenesisState_zero; message zk_MsgAddVKey_fields zk_MsgAddVKey_zero;
  message zk_MsgAddVKeyResponse_fields zk_MsgAddVKeyResponse_zero;
  message zk_MsgUpdateVKey_fields zk_MsgUpdateVKey_zero; message zk_MsgRemoveVKey_fields zk_MsgRemoveVKey_zero;
  message zk_MsgUpdateParams_fields zk_MsgUpdateParams_zero ].

Lemma zk_messages_ok : Forall message_ok zk_messages.
Proof. messages_ok. Qed.

(** ** Messages that embed types of the dependencies *)
Section imported.
Context {PageRequest PageResponse : Type} `{IPageRequest : !ImportedMsg PageRequest, IPageResponse : !ImportedMsg PageResponse}.
Context `{LPageRequest : !ImportedLaws PageRequest, LPageResponse : !ImportedLaws PageResponse}.

(** *** [x/zk/types/query.pb.go] *)
Record zk_QueryVKeysRequest := mk_zk_QueryVKeysRequest { zk_QueryVKeysRequest_Pagination : option PageRequest }.
Definition zk_QueryVKeysRequest_fields : list (Field zk_QueryVKeysRequest) := [
  pointer_field im_codec im_zero 1 zk_QueryVKeysRequest_Pagination (λ v _, mk_zk_QueryVKeysRequest v)].
Definition zk_QueryVKeysRequest_zero : zk_QueryVKeysRequest := mk_zk_QueryVKeysRequest None.
#[global] Instance zk_QueryVKeysRequest_spec : MsgSpec zk_QueryVKeysRequest_fields zk_QueryVKeysRequest_zero.
Proof. msg_spec. Defined.

Record zk_QueryVKeysResponse := mk_zk_QueryVKeysResponse { zk_QueryVKeysResponse_Vkeys : list VKeyWithID;
  zk_QueryVKeysResponse_Pagination : option PageResponse }.
Definition zk_QueryVKeysResponse_fields : list (Field zk_QueryVKeysResponse) := [
  messages_field (msg_codec zk_VKeyWithID_fields) zk_VKeyWithID_zero 1 zk_QueryVKeysResponse_Vkeys (λ v m,
    mk_zk_QueryVKeysResponse v (zk_QueryVKeysResponse_Pagination m));
  pointer_field im_codec im_zero 2 zk_QueryVKeysResponse_Pagination (λ v m, mk_zk_QueryVKeysResponse
    (zk_QueryVKeysResponse_Vkeys m) v)].
Definition zk_QueryVKeysResponse_zero : zk_QueryVKeysResponse := mk_zk_QueryVKeysResponse [] None.
#[global] Instance zk_QueryVKeysResponse_spec : MsgSpec zk_QueryVKeysResponse_fields zk_QueryVKeysResponse_zero.
Proof. msg_spec. Defined.

Definition zk_messages_imported : list Message := [ message zk_QueryVKeysRequest_fields zk_QueryVKeysRequest_zero;
  message zk_QueryVKeysResponse_fields zk_QueryVKeysResponse_zero ].

Lemma zk_messages_imported_ok : Forall message_ok zk_messages_imported.
Proof. messages_ok. Qed.
End imported.
