(* ===== verification/ProtoDkim.v ===== *)
(** * x/dkim/types: the generated code of the messages

    As [ProtoZk.v]; the types are those of [DkimTypes.v] and [DkimQuery.v]. *)

From S2P Require Import Prelude GoStd ProtoWire ProtoCodec Sdk SdkModel ZkTypes DkimTypes DkimKeeper DkimSubject DkimQuery.

(** *** [x/dkim/types/state.pb.go] *)
Definition dkim_DkimPubKey_fields : list (Field DkimPubKey) := [
  string_field 1 dk_Domain (λ v m, mkDkimPubKey v (dk_PubKey m) (dk_PoseidonHash m) (dk_Selector m) (dk_Version m)
    (dk_KeyType m));
  string_field 2 dk_PubKey (λ v m, mkDkimPubKey (dk_Domain m) v (dk_PoseidonHash m) (dk_Selector m) (dk_Version m)
    (dk_KeyType m));
  string_field 3 dk_PoseidonHash (λ v m, mkDkimPubKey (dk_Domain m) (dk_PubKey m) v (dk_Selector m) (dk_Version m)
    (dk_KeyType m));
  string_field 4 dk_Selector (λ v m, mkDkimPubKey (dk_Domain m) (dk_PubKey m) (dk_PoseidonHash m) v (dk_Version m)
    (dk_KeyType m));
  int_field i32 5 dk_Version (λ v m, mkDkimPubKey (dk_Domain m) (dk_PubKey m) (dk_PoseidonHash m) (dk_Selector m) v
    (dk_KeyType m));
  int_field i32 6 dk_KeyType (λ v m, mkDkimPubKey (dk_Domain m) (dk_PubKey m) (dk_PoseidonHash m) (dk_Selector m)
    (dk_Version m) v)].
Definition dkim_DkimPubKey_zero : DkimPubKey := mkDkimPubKey "" "" "" "" 0 0.
#[global] Instance dkim_DkimPubKey_spec : MsgSpec dkim_DkimPubKey_fields dkim_DkimPubKey_zero.
Proof. msg_spec. Defined.

(** *** [x/dkim/types/genesis.pb.go] *)
Definition dkim_IndexRange_fields : list (Field IndexRange) := [
  int_field id 1 ir_Start (λ v m, mkIndexRange v (ir_End m));
  int_field id 2 ir_End (λ v m, mkIndexRange (ir_Start m) v)].
Definition dkim_IndexRange_zero : IndexRange := mkIndexRange 0 0.
#[global] Instance dkim_IndexRange_spec : MsgSpec dkim_IndexRange_fields dkim_IndexRange_zero.
Proof. msg_spec. Defined.

Definition dkim_PublicInputIndices_fields : list (Field PublicInputIndices) := [
  int_field id 1 MinLength (λ v m, mkIndices v (EmailHashIndex m) (DkimDomainRange m) (DkimHashIndex m) (TxBytesRange
    m) (EmailHostRange m) (EmailSubjectRange m));
  int_field id 2 EmailHashIndex (λ v m, mkIndices (MinLength m) v (DkimDomainRange m) (DkimHashIndex m) (TxBytesRange
    m) (EmailHostRange m) (EmailSubjectRange m));
  message_field (msg_codec dkim_IndexRange_fields) 3 DkimDomainRange (λ v m, mkIndices (MinLength m) (EmailHashIndex
    m) v (DkimHashIndex m) (TxBytesRange m) (EmailHostRange m) (EmailSubjectRange m));
  int_field id 4 DkimHashIndex (λ v m, mkIndices (MinLength m) (EmailHashIndex m) (DkimDomainRange m) v (TxBytesRange
    m) (EmailHostRange m) (EmailSubjectRange m));
  message_field (msg_codec dkim_IndexRange_fields) 5 TxBytesRange (λ v m, mkIndices (MinLength m) (EmailHashIndex m)
    (DkimDomainRange m) (DkimHashIndex m) v (EmailHostRange m) (EmailSubjectRange m));
  message_field (msg_codec dkim_IndexRange_fields) 6 EmailHostRange (λ v m, mkIndices (MinLength m) (EmailHashIndex m)
    (DkimDomainRange m) (DkimHashIndex m) (TxBytesRange m) v (EmailSubjectRange m));
  message_field (msg_codec dkim_IndexRange_fields) 7 EmailSubjectRange (λ v m, mkIndices (MinLength m) (EmailHashIndex
    m) (DkimDomainRange m) (DkimHashIndex m) (TxBytesRange m) (EmailHostRange m) v)].
Definition dkim_PublicInputIndices_zero : PublicInputIndices := mkIndices 0 0 dkim_IndexRange_zero 0 dkim_IndexRange_zero dkim_IndexRange_zero dkim_IndexRange_zero.
#[global] Instance dkim_PublicInputIndices_spec : MsgSpec dkim_PublicInputIndices_fields dkim_PublicInputIndices_zero.
Proof. msg_spec. Defined.

Definition dkim_Params_fields : list (Field DkimParams) := [
  int_field id 1 VkeyIdentifier (λ v m, mkDkimParams v (MaxPubkeySizeBytes m) (dp_PublicInputIndices m));
  int_field id 2 MaxPubkeySizeBytes (λ v m, mkDkimParams (VkeyIdentifier m) v (dp_PublicInputIndices m));
  message_field (msg_codec dkim_PublicInputIndices_fields) 3 dp_PublicInputIndices (λ v m, mkDkimParams
    (VkeyIdentifier m) (MaxPubkeySizeBytes m) v)].
Definition dkim_Params_zero : DkimParams := mkDkimParams 0 0 dkim_PublicInputIndices_zero.
#[global] Instance dkim_Params_spec : MsgSpec dkim_Params_fields dkim_Params_zero.
Proof. msg_spec. Defined.

Definition dkim_GenesisState_fields : list (Field DkimGenesis) := [
  message_field (msg_codec dkim_Params_fields) 1 dg_Params (λ v m, mkDkimGenesis (dg_DkimPubkeys m) v
    (dg_RevokedPubkeys m));
  messages_field (msg_codec dkim_DkimPubKey_fields) dkim_DkimPubKey_zero 2 dg_DkimPubkeys (λ v m, mkDkimGenesis v
    (dg_Params m) (dg_RevokedPubkeys m));
  strings_field 3 dg_RevokedPubkeys (λ v m, mkDkimGenesis (dg_DkimPubkeys m) (dg_Params m) v)].
Definition dkim_GenesisState_zero : DkimGenesis := mkDkimGenesis [] dkim_Params_zero [].
#[global] Instance dkim_GenesisState_spec : MsgSpec dkim_GenesisState_fields dkim_GenesisState_zero.
Proof. msg_spec. Defined.

(** *** [x/dkim/types/tx.pb.go] *)
Definition dkim_MsgUpdateParams_fields : list (Field MsgDkimUpdateParams) := [
  string_field 1 du_Authority (λ v m, mkMsgDkimUpdateParams v (du_Params m));
  message_field (msg_codec dkim_Params_fields) 2 du_Params (λ v m, mkMsgDkimUpdateParams (du_Authority m) v)].
Definition dkim_MsgUpdateParams_zero : MsgDkimUpdateParams := mkMsgDkimUpdateParams "" dkim_Params_zero.
#[global] Instance dkim_MsgUpdateParams_spec : MsgSpec dkim_MsgUpdateParams_fields dkim_MsgUpdateParams_zero.
Proof. msg_spec. Defined.

Definition dkim_MsgAddDkimPubKeys_fields : list (Field MsgAddDkimPubKeys) := [
  string_field 1 ad_Authority (λ v m, mkMsgAddDkim v (ad_DkimPubkeys m));
  messages_field (msg_codec dkim_DkimPubKey_fields) dkim_DkimPubKey_zero 2 ad_DkimPubkeys (λ v m, mkMsgAddDkim
    (ad_Authority m) v)].
Definition dkim_MsgAddDkimPubKeys_zero : MsgAddDkimPubKeys := mkMsgAddDkim "" [].
#[global] Instance dkim_MsgAddDkimPubKeys_spec : MsgSpec dkim_MsgAddDkimPubKeys_fields dkim_MsgAddDkimPubKeys_zero.
Proof. msg_spec. Defined.

Definition dkim_MsgRemoveDkimPubKey_fields : list (Field MsgRemoveDkimPubKey) := [
  string_field 1 rd_Authority (λ v m, mkMsgRemoveDkim v (rd_Domain m) (rd_Selector m));
  string_field 2 rd_Selector (λ v m, mkMsgRemoveDkim (rd_Authority m) (rd_Domain m) v);
  string_field 3 rd_Domain (λ v m, mkMsgRemoveDkim (rd_Authority m) v (rd_Selector m))].
Definition dkim_MsgRemoveDkimPubKey_zero : MsgRemoveDkimPubKey := mkMsgRemoveDkim "" "" "".
#[global] Instance dkim_MsgRemoveDkimPubKey_spec : MsgSpec dkim_MsgRemoveDkimPubKey_fields dkim_MsgRemoveDkimPubKey_zero.
Proof. msg_spec. Defined.

Definition dkim_MsgRevokeDkimPubKey_fields : list (Field MsgRevokeDkimPubKey) := [
  string_field 1 rk_Signer (λ v m, mkMsgRevokeDkim v (rk_Domain m) (rk_PrivKey m));
  string_field 2 rk_Domain (λ v m, mkMsgRevokeDkim (rk_Signer m) v (rk_PrivKey m));
  string_field 3 rk_PrivKey (λ v m, mkMsgRevokeDkim (rk_Signer m) (rk_Domain m) v)].
Definition dkim_MsgRevokeDkimPubKey_zero : MsgRevokeDkimPubKey := mkMsgRevokeDkim "" "" "".
#[global] Instance dkim_MsgRevokeDkimPubKey_spec : MsgSpec dkim_MsgRevokeDkimPubKey_fields dkim_MsgRevokeDkimPubKey_zero.
Proof. msg_spec. Defined.

(** *** [x/dkim/types/query.pb.go] *)
Record dkim_QueryDkimPubKeyRequest := mk_dkim_QueryDkimPubKeyRequest { dkim_QueryDkimPubKeyRequest_Selector : string;
  dkim_QueryDkimPubKeyRequest_Domain : string }.
Definition dkim_QueryDkimPubKeyRequest_fields : list (Field dkim_QueryDkimPubKeyRequest) := [
  string_field 1 dkim_QueryDkimPubKeyRequest_Selector (λ v m, mk_dkim_QueryDkimPubKeyRequest v
    (dkim_QueryDkimPubKeyRequest_Domain m));
  string_field 2 dkim_QueryDkimPubKeyRequest_Domain (λ v m, mk_dkim_QueryDkimPubKeyRequest
    (dkim_QueryDkimPubKeyRequest_Selector m) v)].
Definition dkim_QueryDkimPubKeyRequest_zero : dkim_QueryDkimPubKeyRequest := mk_dkim_QueryDkimPubKeyRequest "" "".
#[global] Instance dkim_QueryDkimPubKeyRequest_spec : MsgSpec dkim_QueryDkimPubKeyRequest_fields dkim_QueryDkimPubKeyRequest_zero.
Proof. msg_spec. Defined.

Record dkim_QueryDkimPubKeyResponse := mk_dkim_QueryDkimPubKeyResponse {
  dkim_QueryDkimPubKeyResponse_DkimPubKey : option DkimPubKey }.
Definition dkim_QueryDkimPubKeyResponse_fields : list (Field dkim_QueryDkimPubKeyResponse) := [
  pointer_field (msg_codec dkim_DkimPubKey_fields) dkim_DkimPubKey_zero 1 dkim_QueryDkimPubKeyResponse_DkimPubKey (λ v
    _, mk_dkim_QueryDkimPubKeyResponse v)].
Definition dkim_QueryDkimPubKeyResponse_zero : dkim_QueryDkimPubKeyResponse := mk_dkim_QueryDkimPubKeyResponse None.
#[global] Instance dkim_QueryDkimPubKeyResponse_spec : MsgSpec dkim_QueryDkimPubKeyResponse_fields dkim_QueryDkimPubKeyResponse_zero.
Proof. msg_spec. Defined.

Definition dkim_QueryAuthenticateRequest_fields : list (Field QueryAuthenticateRequest) := [
  string_field 1 qa_TxBytes (λ v m, mkQueryAuthenticate v (qa_EmailHash m) (qa_Proof m) (qa_PublicInputs m)
    (qa_AllowedEmailHosts m));
  string_field 2 qa_EmailHash (λ v m, mkQueryAuthenticate (qa_TxBytes m) v (qa_Proof m) (qa_PublicInputs m)
    (qa_AllowedEmailHosts m));
  string_field 3 qa_Proof (λ v m, mkQueryAuthenticate (qa_TxBytes m) (qa_EmailHash m) v (qa_PublicInputs m)
    (qa_AllowedEmailHosts m));
  strings_field 4 qa_PublicInputs (λ v m, mkQueryAuthenticate (qa_TxBytes m) (qa_EmailHash m) (qa_Proof m) v
    (qa_AllowedEmailHosts m));
  strings_field 5 qa_AllowedEmailHosts (λ v m, mkQueryAuthenticate (qa_TxBytes m) (qa_EmailHash m) (qa_Proof m)
    (qa_PublicInputs m) v)].
Definition dkim_QueryAuthenticateRequest_zero : QueryAuthenticateRequest := mkQueryAuthenticate "" "" "" [] [].
#[global] Instance dkim_QueryAuthenticateRequest_spec : MsgSpec dkim_QueryAuthenticateRequest_fields dkim_QueryAuthenticateRequest_zero.
Proof. msg_spec. Defined.

Record dkim_AuthenticateResponse := mk_dkim_AuthenticateResponse { dkim_AuthenticateResponse_Verified : bool }.
Definition dkim_AuthenticateResponse_fields : list (Field dkim_AuthenticateResponse) := [
  bool_field 1 dkim_AuthenticateResponse_Verified (λ v _, mk_dkim_AuthenticateResponse v)].
Definition dkim_AuthenticateResponse_zero : dkim_AuthenticateResponse := mk_dkim_AuthenticateResponse false.
#[global] Instance dkim_AuthenticateResponse_spec : MsgSpec dkim_AuthenticateResponse_fields dkim_AuthenticateResponse_zero.
Proof. msg_spec. Defined.

Record dkim_QueryParamsResponse := mk_dkim_QueryParamsResponse { dkim_QueryParamsResponse_Params : option DkimParams
  }.
Definition dkim_QueryParamsResponse_fields : list (Field dkim_QueryParamsResponse) := [
  pointer_field (msg_codec dkim_Params_fields) dkim_Params_zero 1 dkim_QueryParamsResponse_Params (λ v _,
    mk_dkim_QueryParamsResponse v)].
Definition dkim_QueryParamsResponse_zero : dkim_QueryParamsResponse := mk_dkim_QueryParamsResponse None.
#[global] Instance dkim_QueryParamsResponse_spec : MsgSpec dkim_QueryParamsResponse_fields dkim_QueryParamsResponse_zero.
Proof. msg_spec. Defined.

(** ** The message types *)
Definition dkim_messages : list Message := [ message dkim_DkimPubKey_fields dkim_DkimPubKey_zero;
  message dkim_IndexRange_fields dkim_IndexRange_zero;
  message dkim_PublicInputIndices_fields dkim_PublicInputIndices_zero; message dkim_Params_fields dkim_Params_zero;
  message dkim_GenesisState_fields dkim_GenesisState_zero;
  message dkim_MsgUpdateParams_fields dkim_MsgUpdateParams_zero;
  message dkim_MsgAddDkimPubKeys_fields dkim_MsgAddDkimPubKeys_zero;
  message dkim_MsgRemoveDkimPubKey_fields dkim_MsgRemoveDkimPubKey_zero;
  message dkim_MsgRevokeDkimPubKey_fields dkim_MsgRevokeDkimPubKey_zero;
  message dkim_QueryDkimPubKeyRequest_fields dkim_QueryDkimPubKeyRequest_zero;
  message dkim_QueryDkimPubKeyResponse_fields dkim_QueryDkimPubKeyResponse_zero;
  message dkim_QueryAuthenticateRequest_fields dkim_QueryAuthenticateRequest_zero;
  message dkim_AuthenticateResponse_fields dkim_AuthenticateResponse_zero;
  message dkim_QueryParamsResponse_fields dkim_QueryParamsResponse_zero ].

Lemma dkim_messages_ok : Forall message_ok dkim_messages.
Proof. messages_ok. Qed.

(** ** Messages that embed types of the dependencies *)
Section imported.
Context {PageRequest PageResponse : Type} `{IPageRequest : !ImportedMsg PageRequest, IPageResponse : !ImportedMsg PageResponse}.
Context `{LPageRequest : !ImportedLaws PageRequest, LPageResponse : !ImportedLaws PageResponse}.

(** *** [x/dkim/types/query.pb.go] *)
Record dkim_QueryDkimPubKeysRequest := mk_dkim_QueryDkimPubKeysRequest {
  dkim_QueryDkimPubKeysRequest_Selector : string; dkim_QueryDkimPubKeysRequest_Domain : string;
  dkim_QueryDkimPubKeysRequest_PoseidonHash : string; dkim_QueryDkimPubKeysRequest_Pagination : option PageRequest }.
Definition dkim_QueryDkimPubKeysRequest_fields : list (Field dkim_QueryDkimPubKeysRequest) := [
  string_field 1 dkim_QueryDkimPubKeysRequest_Selector (λ v m, mk_dkim_QueryDkimPubKeysRequest v
    (dkim_QueryDkimPubKeysRequest_Domain m) (dkim_QueryDkimPubKeysRequest_PoseidonHash m)
    (dkim_QueryDkimPubKeysRequest_Pagination m));
  string_field 2 dkim_QueryDkimPubKeysRequest_Domain (λ v m, mk_dkim_QueryDkimPubKeysRequest
    (dkim_QueryDkimPubKeysRequest_Selector m) v (dkim_QueryDkimPubKeysRequest_PoseidonHash m)
    (dkim_QueryDkimPubKeysRequest_Pagination m));
  string_field 3 dkim_QueryDkimPubKeysRequest_PoseidonHash (λ v m, mk_dkim_QueryDkimPubKeysRequest
    (dkim_QueryDkimPubKeysRequest_Selector m) (dkim_QueryDkimPubKeysRequest_Domain m) v
    (dkim_QueryDkimPubKeysRequest_Pagination m));
  pointer_field im_codec im_zero 4 dkim_QueryDkimPubKeysRequest_Pagination (λ v m, mk_dkim_QueryDkimPubKeysRequest
    (dkim_QueryDkimPubKeysRequest_Selector m) (dkim_QueryDkimPubKeysRequest_Domain m)
    (dkim_QueryDkimPubKeysRequest_PoseidonHash m) v)].
Definition dkim_QueryDkimPubKeysRequest_zero : dkim_QueryDkimPubKeysRequest := mk_dkim_QueryDkimPubKeysRequest "" "" "" None.
#[global] Instance dkim_QueryDkimPubKeysRequest_spec : MsgSpec dkim_QueryDkimPubKeysRequest_fields dkim_QueryDkimPubKeysRequest_zero.
Proof. msg_spec. Defined.

Record dkim_QueryDkimPubKeysResponse := mk_dkim_QueryDkimPubKeysResponse {
  dkim_QueryDkimPubKeysResponse_DkimPubKeys : list DkimPubKey;
  dkim_QueryDkimPubKeysResponse_Pagination : option PageResponse }.
Definition dkim_QueryDkimPubKeysResponse_fields : list (Field dkim_QueryDkimPubKeysResponse) := [
  messages_field (msg_codec dkim_DkimPubKey_fields) dkim_DkimPubKey_zero 1 dkim_QueryDkimPubKeysResponse_DkimPubKeys
    (λ v m, mk_dkim_QueryDkimPubKeysResponse v (dkim_QueryDkimPubKeysResponse_Pagination m));
  pointer_field im_codec im_zero 3 dkim_QueryDkimPubKeysResponse_Pagination (λ v m, mk_dkim_QueryDkimPubKeysResponse
    (dkim_QueryDkimPubKeysResponse_DkimPubKeys m) v)].
Definition dkim_QueryDkimPubKeysResponse_zero : dkim_QueryDkimPubKeysResponse := mk_dkim_QueryDkimPubKeysResponse [] None.
#[global] Instance dkim_QueryDkimPubKeysResponse_spec : MsgSpec dkim_QueryDkimPubKeysResponse_fields dkim_QueryDkimPubKeysResponse_zero.
Proof. msg_spec. Defined.

Definition dkim_messages_imported : list Message := [
  message dkim_QueryDkimPubKeysRequest_fields dkim_QueryDkimPubKeysRequest_zero;
  message dkim_QueryDkimPubKeysResponse_fields dkim_QueryDkimPubKeysResponse_zero ].

Lemma dkim_messages_imported_ok : Forall message_ok dkim_messages_imported.
Proof. messages_ok. Qed.
End imported.
