(* ===== verification/ProtoXion.v ===== *)
(** * x/xion/types: the generated code of the messages

    As [ProtoZk.v]; the types are those of [PlatformFee.v] and [WebAuthn.v].  Coins, inputs,
    outputs and [Any] are message types of the Cosmos SDK. *)

From S2P Require Import Prelude GoStd ProtoWire ProtoCodec Sdk SdkModel PlatformFee WebAuthn.

(** *** [x/xion/types/tx.pb.go] *)
Definition xion_MsgSetPlatformPercentage_fields : list (Field MsgSetPlatformPercentage) := [
  string_field 1 pct_Authority (λ v m, mkMsgSetPct v (pct_PlatformPercentage m));
  int_field u32 2 pct_PlatformPercentage (λ v m, mkMsgSetPct (pct_Authority m) v)].
Definition xion_MsgSetPlatformPercentage_zero : MsgSetPlatformPercentage := mkMsgSetPct "" 0.
#[global] Instance xion_MsgSetPlatformPercentage_spec : MsgSpec xion_MsgSetPlatformPercentage_fields xion_MsgSetPlatformPercentage_zero.
Proof. msg_spec. Defined.

(** *** [x/xion/types/query.pb.go] *)
Definition xion_QueryWebAuthNVerifyRegisterRequest_fields : list (Field VerifyRegisterRequest) := [
  string_field 1 vr_Addr (λ v m, mkVerifyRegisterRequest v (vr_Challenge m) (vr_Rp m) (vr_Data m));
  string_field 2 vr_Challenge (λ v m, mkVerifyRegisterRequest (vr_Addr m) v (vr_Rp m) (vr_Data m));
  string_field 3 vr_Rp (λ v m, mkVerifyRegisterRequest (vr_Addr m) (vr_Challenge m) v (vr_Data m));
  string_field 4 vr_Data (λ v m, mkVerifyRegisterRequest (vr_Addr m) (vr_Challenge m) (vr_Rp m) v)].
Definition xion_QueryWebAuthNVerifyRegisterRequest_zero : VerifyRegisterRequest := mkVerifyRegisterRequest "" "" "" "".
#[global] Instance xion_QueryWebAuthNVerifyRegisterRequest_spec : MsgSpec xion_QueryWebAuthNVerifyRegisterRequest_fields xion_QueryWebAuthNVerifyRegisterRequest_zero.
Proof. msg_spec. Defined.

Record xion_QueryWebAuthNVerifyRegisterResponse := mk_xion_QueryWebAuthNVerifyRegisterResponse {
  xion_QueryWebAuthNVerifyRegisterResponse_Credential : string }.
Definition xion_QueryWebAuthNVerifyRegisterResponse_fields : list (Field xion_QueryWebAuthNVerifyRegisterResponse) := [
  string_field 1 xion_QueryWebAuthNVerifyRegisterResponse_Credential (λ v _,
    mk_xion_QueryWebAuthNVerifyRegisterResponse v)].
Definition xion_QueryWebAuthNVerifyRegisterResponse_zero : xion_QueryWebAuthNVerifyRegisterResponse := mk_xion_QueryWebAuthNVerifyRegisterResponse "".
#[global] Instance xion_QueryWebAuthNVerifyRegisterResponse_spec : MsgSpec xion_QueryWebAuthNVerifyRegisterResponse_fields xion_QueryWebAuthNVerifyRegisterResponse_zero.
Proof. msg_spec. Defined.

Definition xion_QueryWebAuthNVerifyAuthenticateRequest_fields : list (Field VerifyAuthenticateRequest) := [
  string_field 1 va_Addr (λ v m, mkVerifyAuthenticateRequest v (va_Challenge m) (va_Rp m) (va_Credential m) (va_Data
    m));
  string_field 2 va_Challenge (λ v m, mkVerifyAuthenticateRequest (va_Addr m) v (va_Rp m) (va_Credential m) (va_Data
    m));
  string_field 3 va_Rp (λ v m, mkVerifyAuthenticateRequest (va_Addr m) (va_Challenge m) v (va_Credential m) (va_Data
    m));
  string_field 4 va_Credential (λ v m, mkVerifyAuthenticateRequest (va_Addr m) (va_Challenge m) (va_Rp m) v (va_Data
    m));
  string_field 5 va_Data (λ v m, mkVerifyAuthenticateRequest (va_Addr m) (va_Challenge m) (va_Rp m) (va_Credential m)
    v)].
Definition xion_QueryWebAuthNVerifyAuthenticateRequest_zero : VerifyAuthenticateRequest := mkVerifyAuthenticateRequest "" "" "" "" "".
#[global] Instance xion_QueryWebAuthNVerifyAuthenticateRequest_spec : MsgSpec xion_QueryWebAuthNVerifyAuthenticateRequest_fields xion_QueryWebAuthNVerifyAuthenticateRequest_zero.
Proof. msg_spec. Defined.

Record xion_QueryPlatformPercentageResponse := mk_xion_QueryPlatformPercentageResponse {
  xion_QueryPlatformPercentageResponse_PlatformPercentage : Z }.
Definition xion_QueryPlatformPercentageResponse_fields : list (Field xion_QueryPlatformPercentageResponse) := [
  int_field id 1 xion_QueryPlatformPercentageResponse_PlatformPercentage (λ v _,
    mk_xion_QueryPlatformPercentageResponse v)].
Definition xion_QueryPlatformPercentageResponse_zero : xion_QueryPlatformPercentageResponse := mk_xion_QueryPlatformPercentageResponse 0.
#[global] Instance xion_QueryPlatformPercentageResponse_spec : MsgSpec xion_QueryPlatformPercentageResponse_fields xion_QueryPlatformPercentageResponse_zero.
Proof. msg_spec. Defined.

(** ** The message types *)
Definition xion_messages : list Message := [
  message xion_MsgSetPlatformPercentage_fields xion_MsgSetPlatformPercentage_zero;
  message xion_QueryWebAuthNVerifyRegisterRequest_fields xion_QueryWebAuthNVerifyRegisterRequest_zero;
  message xion_QueryWebAuthNVerifyRegisterResponse_fields xion_QueryWebAuthNVerifyRegisterResponse_zero;
  message xion_QueryWebAuthNVerifyAuthenticateRequest_fields xion_QueryWebAuthNVerifyAuthenticateRequest_zero;
  message xion_QueryPlatformPercentageResponse_fields xion_QueryPlatformPercentageResponse_zero ].

Lemma xion_messages_ok : Forall message_ok xion_messages.
Proof. messages_ok. Qed.

(** ** Messages that embed types of the dependencies *)
Section imported.
Context {Any : Type} `{ICoin : !ImportedMsg Coin, IInput : !ImportedMsg Input, IOutput : !ImportedMsg Output, IAny : !ImportedMsg Any}.
Context `{LCoin : !ImportedLaws Coin, LInput : !ImportedLaws Input, LOutput : !ImportedLaws Output, LAny : !ImportedLaws Any}.

(** *** [x/xion/types/tx.pb.go] *)
Definition xion_MsgSend_fields : list (Field MsgSend) := [
  string_field 1 send_FromAddress (λ v m, mkMsgSend v (send_ToAddress m) (send_Amount m));
  string_field 2 send_ToAddress (λ v m, mkMsgSend (send_FromAddress m) v (send_Amount m));
  messages_field im_codec im_zero 3 send_Amount (λ v m, mkMsgSend (send_FromAddress m) (send_ToAddress m) v)].
Definition xion_MsgSend_zero : MsgSend := mkMsgSend "" "" [].
#[global] Instance xion_MsgSend_spec : MsgSpec xion_MsgSend_fields xion_MsgSend_zero.
Proof. msg_spec. Defined.

Definition xion_MsgMultiSend_fields : list (Field MsgMultiSend) := [
  messages_field im_codec im_zero 1 ms_Inputs (λ v m, mkMsgMultiSend v (ms_Outputs m));
  messages_field im_codec im_zero 2 ms_Outputs (λ v m, mkMsgMultiSend (ms_Inputs m) v)].
Definition xion_MsgMultiSend_zero : MsgMultiSend := mkMsgMultiSend [] [].
#[global] Instance xion_MsgMultiSend_spec : MsgSpec xion_MsgMultiSend_fields xion_MsgMultiSend_zero.
Proof. msg_spec. Defined.

Definition xion_MsgSetPlatformMinimum_fields : list (Field MsgSetPlatformMinimum) := [
  string_field 1 min_Authority (λ v m, mkMsgSetMin v (min_Minimums m));
  messages_field im_codec im_zero 3 min_Minimums (λ v m, mkMsgSetMin (min_Authority m) v)].
Definition xion_MsgSetPlatformMinimum_zero : MsgSetPlatformMinimum := mkMsgSetMin "" [].
#[global] Instance xion_MsgSetPlatformMinimum_spec : MsgSpec xion_MsgSetPlatformMinimum_fields xion_MsgSetPlatformMinimum_zero.
Proof. msg_spec. Defined.

(** *** [x/xion/types/genesis.pb.go] *)
Definition xion_GenesisState_fields : list (Field XionGenesis) := [
  int_field u32 1 gs_PlatformPercentage (λ v m, mkXionGenesis v (gs_PlatformMinimums m));
  messages_field im_codec im_zero 2 gs_PlatformMinimums (λ v m, mkXionGenesis (gs_PlatformPercentage m) v)].
Definition xion_GenesisState_zero : XionGenesis := mkXionGenesis 0 [].
#[global] Instance xion_GenesisState_spec : MsgSpec xion_GenesisState_fields xion_GenesisState_zero.
Proof. msg_spec. Defined.

(** *** [x/xion/types/query.pb.go] *)
Record xion_QueryPlatformMinimumResponse := mk_xion_QueryPlatformMinimumResponse {
  xion_QueryPlatformMinimumResponse_Minimums : list Coin }.
Definition xion_QueryPlatformMinimumResponse_fields : list (Field xion_QueryPlatformMinimumResponse) := [
  messages_field im_codec im_zero 3 xion_QueryPlatformMinimumResponse_Minimums (λ v _,
    mk_xion_QueryPlatformMinimumResponse v)].
Definition xion_QueryPlatformMinimumResponse_zero : xion_QueryPlatformMinimumResponse := mk_xion_QueryPlatformMinimumResponse [].
#[global] Instance xion_QueryPlatformMinimumResponse_spec : MsgSpec xion_QueryPlatformMinimumResponse_fields xion_QueryPlatformMinimumResponse_zero.
Proof. msg_spec. Defined.

(** *** [x/xion/types/feegrant.pb.go] *)
Record xion_AuthzAllowance := mk_xion_AuthzAllowance { xion_AuthzAllowance_Allowance : option Any;
  xion_AuthzAllowance_AuthzGrantee : string }.
Definition xion_AuthzAllowance_fields : list (Field xion_AuthzAllowance) := [
  pointer_field im_codec im_zero 1 xion_AuthzAllowance_Allowance (λ v m, mk_xion_AuthzAllowance v
    (xion_AuthzAllowance_AuthzGrantee m));
  string_field 2 xion_AuthzAllowance_AuthzGrantee (λ v m, mk_xion_AuthzAllowance (xion_AuthzAllowance_Allowance m) v)].
Definition xion_AuthzAllowance_zero : xion_AuthzAllowance := mk_xion_AuthzAllowance None "".
#[global] Instance xion_AuthzAllowance_spec : MsgSpec xion_AuthzAllowance_fields xion_AuthzAllowance_zero.
Proof. msg_spec. Defined.

Record xion_ContractsAllowance := mk_xion_ContractsAllowance { xion_ContractsAllowance_Allowance : option Any;
  xion_ContractsAllowance_ContractAddresses : list string }.
Definition xion_ContractsAllowance_fields : list (Field xion_ContractsAllowance) := [
  pointer_field im_codec im_zero 1 xion_ContractsAllowance_Allowance (λ v m, mk_xion_ContractsAllowance v
    (xion_ContractsAllowance_ContractAddresses m));
  strings_field 2 xion_ContractsAllowance_ContractAddresses (λ v m, mk_xion_ContractsAllowance
    (xion_ContractsAllowance_Allowance m) v)].
Definition xion_ContractsAllowance_zero : xion_ContractsAllowance := mk_xion_ContractsAllowance None [].
#[global] Instance xion_ContractsAllowance_spec : MsgSpec xion_ContractsAllowance_fields xion_ContractsAllowance_zero.
Proof. msg_spec. Defined.

Record xion_MultiAnyAllowance := mk_xion_MultiAnyAllowance { xion_MultiAnyAllowance_Allowances : list Any }.
Definition xion_MultiAnyAllowance_fields : list (Field xion_MultiAnyAllowance) := [
  messages_field im_codec im_zero 1 xion_MultiAnyAllowance_Allowances (λ v _, mk_xion_MultiAnyAllowance v)].
Definition xion_MultiAnyAllowance_zero : xion_MultiAnyAllowance := mk_xion_MultiAnyAllowance [].
#[global] Instance xion_MultiAnyAllowance_spec : MsgSpec xion_MultiAnyAllowance_fields xion_MultiAnyAllowance_zero.
Proof. msg_spec. Defined.

Definition xion_messages_imported : list Message := [ message xion_MsgSend_fields xion_MsgSend_zero;
  message xion_MsgMultiSend_fields xion_MsgMultiSend_zero;
  message xion_MsgSetPlatformMinimum_fields xion_MsgSetPlatformMinimum_zero;
  message xion_GenesisState_fields xion_GenesisState_zero;
  message xion_QueryPlatformMinimumResponse_fields xion_QueryPlatformMinimumResponse_zero;
  message xion_AuthzAllowance_fields xion_AuthzAllowance_zero;
  message xion_ContractsAllowance_fields xion_ContractsAllowance_zero;
  message xion_MultiAnyAllowance_fields xion_MultiAnyAllowance_zero ].

Lemma xion_messages_imported_ok : Forall message_ok xion_messages_imported.
Proof. messages_ok. Qed.
End imported.
