(* ===== verification/ProtoMint.v ===== *)
(** * x/mint/types and x/globalfee/types: the generated code of the messages

    As [ProtoZk.v]; the types are those of [Mint.v] and [GlobalFee.v].  [LegacyDec] and
    [DecCoin] come from the Cosmos SDK. *)

From S2P Require Import Prelude GoStd ProtoWire ProtoCodec Sdk SdkModel GlobalFee Mint.

(** ** Messages that embed types of the dependencies *)
Section imported.
Context `{IDecCoin : !ImportedMsg DecCoin}.
Context `{LDecCoin : !ImportedLaws DecCoin}.
Context (dec_codec : CustomCodec LegacyDec) `{Sdec_codec : !CustomCodecSpec dec_codec}.

(** *** [x/mint/types/mint.pb.go] *)
Definition mint_Minter_fields : list (Field Minter) := [
  custom_field dec_codec 1 Inflation (λ v m, mkMinter v (AnnualProvisions m));
  custom_field dec_codec 2 AnnualProvisions (λ v m, mkMinter (Inflation m) v)].
Definition mint_Minter_zero : Minter := mkMinter None None.
#[global] Instance mint_Minter_spec : MsgSpec mint_Minter_fields mint_Minter_zero.
Proof. msg_spec. Defined.

Definition mint_Params_fields : list (Field MintParams) := [
  string_field 1 MintDenom (λ v m, mkMintParams v (InflationRateChange m) (InflationMax m) (InflationMin m)
    (GoalBonded m) (BlocksPerYear m));
  custom_field dec_codec 2 InflationRateChange (λ v m, mkMintParams (MintDenom m) v (InflationMax m) (InflationMin m)
    (GoalBonded m) (BlocksPerYear m));
  custom_field dec_codec 3 InflationMax (λ v m, mkMintParams (MintDenom m) (InflationRateChange m) v (InflationMin m)
    (GoalBonded m) (BlocksPerYear m));
  custom_field dec_codec 4 InflationMin (λ v m, mkMintParams (MintDenom m) (InflationRateChange m) (InflationMax m) v
    (GoalBonded m) (BlocksPerYear m));
  custom_field dec_codec 5 GoalBonded (λ v m, mkMintParams (MintDenom m) (InflationRateChange m) (InflationMax m)
    (InflationMin m) v (BlocksPerYear m));
  int_field id 6 BlocksPerYear (λ v m, mkMintParams (MintDenom m) (InflationRateChange m) (InflationMax m)
    (InflationMin m) (GoalBonded m) v)].
Definition mint_Params_zero : MintParams := mkMintParams "" None None None None 0.
#[global] Instance mint_Params_spec : MsgSpec mint_Params_fields mint_Params_zero.
Proof. msg_spec. Defined.

(** *** [x/mint/types/genesis.pb.go] *)
Definition mint_GenesisState_fields : list (Field MintGenesis) := [
  message_field (msg_codec mint_Minter_fields) 1 mg_Minter (λ v m, mkMintGenesis v (mg_Params m));
  message_field (msg_codec mint_Params_fields) 2 mg_Params (λ v m, mkMintGenesis (mg_Minter m) v)].
Definition mint_GenesisState_zero : MintGenesis := mkMintGenesis mint_Minter_zero mint_Params_zero.
#[global] Instance mint_GenesisState_spec : MsgSpec mint_GenesisState_fields mint_GenesisState_zero.
Proof. msg_spec. Defined.

(** *** [x/mint/types/event.pb.go] *)
Record mint_MintIncentiveTokens := mk_mint_MintIncentiveTokens { mint_MintIncentiveTokens_BondedRatio : LegacyDec;
  mint_MintIncentiveTokens_Inflation : LegacyDec; mint_MintIncentiveTokens_AnnualProvisions : LegacyDec;
  mint_MintIncentiveTokens_NeededAmount : Z; mint_MintIncentiveTokens_CollectedAmount : Z;
  mint_MintIncentiveTokens_MintedAmount : Z; mint_MintIncentiveTokens_BurnedAmount : Z }.
Definition mint_MintIncentiveTokens_fields : list (Field mint_MintIncentiveTokens) := [
  custom_field dec_codec 1 mint_MintIncentiveTokens_BondedRatio (λ v m, mk_mint_MintIncentiveTokens v
    (mint_MintIncentiveTokens_Inflation m) (mint_MintIncentiveTokens_AnnualProvisions m)
    (mint_MintIncentiveTokens_NeededAmount m) (mint_MintIncentiveTokens_CollectedAmount m)
    (mint_MintIncentiveTokens_MintedAmount m) (mint_MintIncentiveTokens_BurnedAmount m));
  custom_field dec_codec 2 mint_MintIncentiveTokens_Inflation (λ v m, mk_mint_MintIncentiveTokens
    (mint_MintIncentiveTokens_BondedRatio m) v (mint_MintIncentiveTokens_AnnualProvisions m)
    (mint_MintIncentiveTokens_NeededAmount m) (mint_MintIncentiveTokens_CollectedAmount m)
    (mint_MintIncentiveTokens_MintedAmount m) (mint_MintIncentiveTokens_BurnedAmount m));
  custom_field dec_codec 3 mint_MintIncentiveTokens_AnnualProvisions (λ v m, mk_mint_MintIncentiveTokens
    (mint_MintIncentiveTokens_BondedRatio m) (mint_MintIncentiveTokens_Inflation m) v
    (mint_MintIncentiveTokens_NeededAmount m) (mint_MintIncentiveTokens_CollectedAmount m)
    (mint_MintIncentiveTokens_MintedAmount m) (mint_MintIncentiveTokens_BurnedAmount m));
  int_field id 4 mint_MintIncentiveTokens_NeededAmount (λ v m, mk_mint_MintIncentiveTokens
    (mint_MintIncentiveTokens_BondedRatio m) (mint_MintIncentiveTokens_Inflation m)
    (mint_MintIncentiveTokens_AnnualProvisions m) v (mint_MintIncentiveTokens_CollectedAmount m)
    (mint_MintIncentiveTokens_MintedAmount m) (mint_MintIncentiveTokens_BurnedAmount m));
  int_field id 5 mint_MintIncentiveTokens_CollectedAmount (λ v m, mk_mint_MintIncentiveTokens
    (mint_MintIncentiveTokens_BondedRatio m) (mint_MintIncentiveTokens_Inflation m)
    (mint_MintIncentiveTokens_AnnualProvisions m) (mint_MintIncentiveTokens_NeededAmount m) v
    (mint_MintIncentiveTokens_MintedAmount m) (mint_MintIncentiveTokens_BurnedAmount m));
  int_field id 6 mint_MintIncentiveTokens_MintedAmount (λ v m, mk_mint_MintIncentiveTokens
    (mint_MintIncentiveTokens_BondedRatio m) (mint_MintIncentiveTokens_Inflation m)
    (mint_MintIncentiveTokens_AnnualProvisions m) (mint_MintIncentiveTokens_NeededAmount m)
    (mint_MintIncentiveTokens_CollectedAmount m) v (mint_MintIncentiveTokens_BurnedAmount m));
  int_field id 7 mint_MintIncentiveTokens_BurnedAmount (λ v m, mk_mint_MintIncentiveTokens
    (mint_MintIncentiveTokens_BondedRatio m) (mint_MintIncentiveTokens_Inflation m)
    (mint_MintIncentiveTokens_AnnualProvisions m) (mint_MintIncentiveTokens_NeededAmount m)
    (mint_MintIncentiveTokens_CollectedAmount m) (mint_MintIncentiveTokens_MintedAmount m) v)].
Definition mint_MintIncentiveTokens_zero : mint_MintIncentiveTokens := mk_mint_MintIncentiveTokens None None None 0 0 0 0.
#[global] Instance mint_MintIncentiveTokens_spec : MsgSpec mint_MintIncentiveTokens_fields mint_MintIncentiveTokens_zero.
Proof. msg_spec. Defined.

(** *** [x/mint/types/tx.pb.go] *)
Definition mint_MsgUpdateParams_fields : list (Field MsgUpdateMintParams) := [
  string_field 1 um_Authority (λ v m, mkMsgUpdateMintParams v (um_Params m));
  message_field (msg_codec mint_Params_fields) 2 um_Params (λ v m, mkMsgUpdateMintParams (um_Authority m) v)].
Definition mint_MsgUpdateParams_zero : MsgUpdateMintParams := mkMsgUpdateMintParams "" mint_Params_zero.
#[global] Instance mint_MsgUpdateParams_spec : MsgSpec mint_MsgUpdateParams_fields mint_MsgUpdateParams_zero.
Proof. msg_spec. Defined.

(** *** [x/mint/types/query.pb.go] *)
Record mint_QueryParamsResponse := mk_mint_QueryParamsResponse { mint_QueryParamsResponse_Params : MintParams }.
Definition mint_QueryParamsResponse_fields : list (Field mint_QueryParamsResponse) := [
  message_field (msg_codec mint_Params_fields) 1 mint_QueryParamsResponse_Params (λ v _, mk_mint_QueryParamsResponse
    v)].
Definition mint_QueryParamsResponse_zero : mint_QueryParamsResponse := mk_mint_QueryParamsResponse mint_Params_zero.
#[global] Instance mint_QueryParamsResponse_spec : MsgSpec mint_QueryParamsResponse_fields mint_QueryParamsResponse_zero.
Proof. msg_spec. Defined.

Record mint_QueryInflationResponse := mk_mint_QueryInflationResponse {
  mint_QueryInflationResponse_Inflation : LegacyDec }.
Definition mint_QueryInflationResponse_fields : list (Field mint_QueryInflationResponse) := [
  custom_field dec_codec 1 mint_QueryInflationResponse_Inflation (λ v _, mk_mint_QueryInflationResponse v)].
Definition mint_QueryInflationResponse_zero : mint_QueryInflationResponse := mk_mint_QueryInflationResponse None.
#[global] Instance mint_QueryInflationResponse_spec : MsgSpec mint_QueryInflationResponse_fields mint_QueryInflationResponse_zero.
Proof. msg_spec. Defined.

Record mint_QueryAnnualProvisionsResponse := mk_mint_QueryAnnualProvisionsResponse {
  mint_QueryAnnualProvisionsResponse_AnnualProvisions : LegacyDec }.
Definition mint_QueryAnnualProvisionsResponse_fields : list (Field mint_QueryAnnualProvisionsResponse) := [
  custom_field dec_codec 1 mint_QueryAnnualProvisionsResponse_AnnualProvisions (λ v _,
    mk_mint_QueryAnnualProvisionsResponse v)].
Definition mint_QueryAnnualProvisionsResponse_zero : mint_QueryAnnualProvisionsResponse := mk_mint_QueryAnnualProvisionsResponse None.
#[global] Instance mint_QueryAnnualProvisionsResponse_spec : MsgSpec mint_QueryAnnualProvisionsResponse_fields mint_QueryAnnualProvisionsResponse_zero.
Proof. msg_spec. Defined.

(** *** [x/globalfee/types/genesis.pb.go] *)
Definition globalfee_Params_fields : list (Field GlobalFeeParams) := [
  messages_field im_codec im_zero 1 MinimumGasPrices (λ v m, mkGlobalFeeParams v (BypassMinFeeMsgTypes m)
    (MaxTotalBypassMinFeeMsgGasUsage m));
  strings_field 2 BypassMinFeeMsgTypes (λ v m, mkGlobalFeeParams (MinimumGasPrices m) v
    (MaxTotalBypassMinFeeMsgGasUsage m));
  int_field id 3 MaxTotalBypassMinFeeMsgGasUsage (λ v m, mkGlobalFeeParams (MinimumGasPrices m) (BypassMinFeeMsgTypes
    m) v)].
Definition globalfee_Params_zero : GlobalFeeParams := mkGlobalFeeParams [] [] 0.
#[global] Instance globalfee_Params_spec : MsgSpec globalfee_Params_fields globalfee_Params_zero.
Proof. msg_spec. Defined.

Record globalfee_GenesisState := mk_globalfee_GenesisState { globalfee_GenesisState_Params : GlobalFeeParams }.
Definition globalfee_GenesisState_fields : list (Field globalfee_GenesisState) := [
  message_field (msg_codec globalfee_Params_fields) 1 globalfee_GenesisState_Params (λ v _, mk_globalfee_GenesisState
    v)].
Definition globalfee_GenesisState_zero : globalfee_GenesisState := mk_globalfee_GenesisState globalfee_Params_zero.
#[global] Instance globalfee_GenesisState_spec : MsgSpec globalfee_GenesisState_fields globalfee_GenesisState_zero.
Proof. msg_spec. Defined.

(** *** [x/globalfee/types/query.pb.go] *)
Record globalfee_QueryParamsResponse := mk_globalfee_QueryParamsResponse {
  globalfee_QueryParamsResponse_Params : GlobalFeeParams }.
Definition globalfee_QueryParamsResponse_fields : list (Field globalfee_QueryParamsResponse) := [
  message_field (msg_codec globalfee_Params_fields) 1 globalfee_QueryParamsResponse_Params (λ v _,
    mk_globalfee_QueryParamsResponse v)].
Definition globalfee_QueryParamsResponse_zero : globalfee_QueryParamsResponse := mk_globalfee_QueryParamsResponse globalfee_Params_zero.
#[global] Instance globalfee_QueryParamsResponse_spec : MsgSpec globalfee_QueryParamsResponse_fields globalfee_QueryParamsResponse_zero.
Proof. msg_spec. Defined.

Definition mint_messages_imported : list Message := [ message mint_Minter_fields mint_Minter_zero;
  message mint_Params_fields mint_Params_zero; message mint_GenesisState_fields mint_GenesisState_zero;
  message mint_MintIncentiveTokens_fields mint_MintIncentiveTokens_zero;
  message mint_MsgUpdateParams_fields mint_MsgUpdateParams_zero;
  message mint_QueryParamsResponse_fields mint_QueryParamsResponse_zero;
  message mint_QueryInflationResponse_fields mint_QueryInflationResponse_zero;
  message mint_QueryAnnualProvisionsResponse_fields mint_QueryAnnualProvisionsResponse_zero;
  message globalfee_Params_fields globalfee_Params_zero;
  message globalfee_GenesisState_fields globalfee_GenesisState_zero;
  message globalfee_QueryParamsResponse_fields globalfee_QueryParamsResponse_zero ].

Lemma mint_messages_imported_ok : Forall message_ok mint_messages_imported.
Proof. messages_ok. Qed.
End imported.
