(* ===== verification/ProtoFeeAbs.v ===== *)
(** * x/feeabs/types: the generated code of the messages

    As [ProtoZk.v]; the types are those of [FeeAbs.v].  Times, durations, decimals and the
    requests of the ABCI come from dependencies. *)

From S2P Require Import Prelude GoStd ProtoWire ProtoCodec Sdk SdkModel FeeAbs.

(** *** [x/feeabs/types/params.pb.go] *)
Definition feeabs_Params_fields : list (Field FeeAbsParams) := [
  string_field 1 fa_NativeIbcedInOsmosis (λ v m, mkFeeAbsParams (fa_OsmosisQueryTwapPath m) v (fa_ChainName m)
    (fa_IbcTransferChannel m) (fa_IbcQueryIcqChannel m) (fa_OsmosisCrosschainSwapAddress m));
  string_field 2 fa_OsmosisQueryTwapPath (λ v m, mkFeeAbsParams v (fa_NativeIbcedInOsmosis m) (fa_ChainName m)
    (fa_IbcTransferChannel m) (fa_IbcQueryIcqChannel m) (fa_OsmosisCrosschainSwapAddress m));
  string_field 3 fa_ChainName (λ v m, mkFeeAbsParams (fa_OsmosisQueryTwapPath m) (fa_NativeIbcedInOsmosis m) v
    (fa_IbcTransferChannel m) (fa_IbcQueryIcqChannel m) (fa_OsmosisCrosschainSwapAddress m));
  string_field 4 fa_IbcTransferChannel (λ v m, mkFeeAbsParams (fa_OsmosisQueryTwapPath m) (fa_NativeIbcedInOsmosis m)
    (fa_ChainName m) v (fa_IbcQueryIcqChannel m) (fa_OsmosisCrosschainSwapAddress m));
  string_field 5 fa_IbcQueryIcqChannel (λ v m, mkFeeAbsParams (fa_OsmosisQueryTwapPath m) (fa_NativeIbcedInOsmosis m)
    (fa_ChainName m) (fa_IbcTransferChannel m) v (fa_OsmosisCrosschainSwapAddress m));
  string_field 6 fa_OsmosisCrosschainSwapAddress (λ v m, mkFeeAbsParams (fa_OsmosisQueryTwapPath m)
    (fa_NativeIbcedInOsmosis m) (fa_ChainName m) (fa_IbcTransferChannel m) (fa_IbcQueryIcqChannel m) v)].
Definition feeabs_Params_zero : FeeAbsParams := mkFeeAbsParams "" "" "" "" "" "".
#[global] Instance feeabs_Params_spec : MsgSpec feeabs_Params_fields feeabs_Params_zero.
Proof. msg_spec. Defined.

(** *** [x/feeabs/types/epoch.pb.go] *)
Record feeabs_ExponentialBackoff := mk_feeabs_ExponentialBackoff { feeabs_ExponentialBackoff_Jump : Z;
  feeabs_ExponentialBackoff_FutureEpoch : Z }.
Definition feeabs_ExponentialBackoff_fields : list (Field feeabs_ExponentialBackoff) := [
  int_field i64 1 feeabs_ExponentialBackoff_Jump (λ v m, mk_feeabs_ExponentialBackoff v
    (feeabs_ExponentialBackoff_FutureEpoch m));
  int_field i64 2 feeabs_ExponentialBackoff_FutureEpoch (λ v m, mk_feeabs_ExponentialBackoff
    (feeabs_ExponentialBackoff_Jump m) v)].
Definition feeabs_ExponentialBackoff_zero : feeabs_ExponentialBackoff := mk_feeabs_ExponentialBackoff 0 0.
#[global] Instance feeabs_ExponentialBackoff_spec : MsgSpec feeabs_ExponentialBackoff_fields feeabs_ExponentialBackoff_zero.
Proof. msg_spec. Defined.

(** *** [x/feeabs/types/proposal.pb.go] *)
Record feeabs_HostChainFeeAbsConfig := mk_feeabs_HostChainFeeAbsConfig {
  feeabs_HostChainFeeAbsConfig_IbcDenom : string; feeabs_HostChainFeeAbsConfig_OsmosisPoolTokenDenomIn : string;
  feeabs_HostChainFeeAbsConfig_PoolId : Z; feeabs_HostChainFeeAbsConfig_Status : Z }.
Definition feeabs_HostChainFeeAbsConfig_fields : list (Field feeabs_HostChainFeeAbsConfig) := [
  string_field 1 feeabs_HostChainFeeAbsConfig_IbcDenom (λ v m, mk_feeabs_HostChainFeeAbsConfig v
    (feeabs_HostChainFeeAbsConfig_OsmosisPoolTokenDenomIn m) (feeabs_HostChainFeeAbsConfig_PoolId m)
    (feeabs_HostChainFeeAbsConfig_Status m));
  string_field 2 feeabs_HostChainFeeAbsConfig_OsmosisPoolTokenDenomIn (λ v m, mk_feeabs_HostChainFeeAbsConfig
    (feeabs_HostChainFeeAbsConfig_IbcDenom m) v (feeabs_HostChainFeeAbsConfig_PoolId m)
    (feeabs_HostChainFeeAbsConfig_Status m));
  int_field id 3 feeabs_HostChainFeeAbsConfig_PoolId (λ v m, mk_feeabs_HostChainFeeAbsConfig
    (feeabs_HostChainFeeAbsConfig_IbcDenom m) (feeabs_HostChainFeeAbsConfig_OsmosisPoolTokenDenomIn m) v
    (feeabs_HostChainFeeAbsConfig_Status m));
  int_field i32 4 feeabs_HostChainFeeAbsConfig_Status (λ v m, mk_feeabs_HostChainFeeAbsConfig
    (feeabs_HostChainFeeAbsConfig_IbcDenom m) (feeabs_HostChainFeeAbsConfig_OsmosisPoolTokenDenomIn m)
    (feeabs_HostChainFeeAbsConfig_PoolId m) v)].
Definition feeabs_HostChainFeeAbsConfig_zero : feeabs_HostChainFeeAbsConfig := mk_feeabs_HostChainFeeAbsConfig "" "" 0 0.
#[global] Instance feeabs_HostChainFeeAbsConfig_spec : MsgSpec feeabs_HostChainFeeAbsConfig_fields feeabs_HostChainFeeAbsConfig_zero.
Proof. msg_spec. Defined.

Record feeabs_AddHostZoneProposal := mk_feeabs_AddHostZoneProposal { feeabs_AddHostZoneProposal_Title : string;
  feeabs_AddHostZoneProposal_Description : string;
  feeabs_AddHostZoneProposal_HostChainConfig : option feeabs_HostChainFeeAbsConfig }.
Definition feeabs_AddHostZoneProposal_fields : list (Field feeabs_AddHostZoneProposal) := [
  string_field 1 feeabs_AddHostZoneProposal_Title (λ v m, mk_feeabs_AddHostZoneProposal v
    (feeabs_AddHostZoneProposal_Description m) (feeabs_AddHostZoneProposal_HostChainConfig m));
  string_field 2 feeabs_AddHostZoneProposal_Description (λ v m, mk_feeabs_AddHostZoneProposal
    (feeabs_AddHostZoneProposal_Title m) v (feeabs_AddHostZoneProposal_HostChainConfig m));
  pointer_field (msg_codec feeabs_HostChainFeeAbsConfig_fields) feeabs_HostChainFeeAbsConfig_zero 3
    feeabs_AddHostZoneProposal_HostChainConfig (λ v m, mk_feeabs_AddHostZoneProposal (feeabs_AddHostZoneProposal_Title
    m) (feeabs_AddHostZoneProposal_Description m) v)].
Definition feeabs_AddHostZoneProposal_zero : feeabs_AddHostZoneProposal := mk_feeabs_AddHostZoneProposal "" "" None.
#[global] Instance feeabs_AddHostZoneProposal_spec : MsgSpec feeabs_AddHostZoneProposal_fields feeabs_AddHostZoneProposal_zero.
Proof. msg_spec. Defined.

Record feeabs_DeleteHostZoneProposal := mk_feeabs_DeleteHostZoneProposal {
  feeabs_DeleteHostZoneProposal_Title : string; feeabs_DeleteHostZoneProposal_Description : string;
  feeabs_DeleteHostZoneProposal_IbcDenom : string }.
Definition feeabs_DeleteHostZoneProposal_fields : list (Field feeabs_DeleteHostZoneProposal) := [
  string_field 1 feeabs_DeleteHostZoneProposal_Title (λ v m, mk_feeabs_DeleteHostZoneProposal v
    (feeabs_DeleteHostZoneProposal_Description m) (feeabs_DeleteHostZoneProposal_IbcDenom m));
  string_field 2 feeabs_DeleteHostZoneProposal_Description (λ v m, mk_feeabs_DeleteHostZoneProposal
    (feeabs_DeleteHostZoneProposal_Title m) v (feeabs_DeleteHostZoneProposal_IbcDenom m));
  string_field 3 feeabs_DeleteHostZoneProposal_IbcDenom (λ v m, mk_feeabs_DeleteHostZoneProposal
    (feeabs_DeleteHostZoneProposal_Title m) (feeabs_DeleteHostZoneProposal_Description m) v)].
Definition feeabs_DeleteHostZoneProposal_zero : feeabs_DeleteHostZoneProposal := mk_feeabs_DeleteHostZoneProposal "" "" "".
#[global] Instance feeabs_DeleteHostZoneProposal_spec : MsgSpec feeabs_DeleteHostZoneProposal_fields feeabs_DeleteHostZoneProposal_zero.
Proof. msg_spec. Defined.

Record feeabs_SetHostZoneProposal := mk_feeabs_SetHostZoneProposal { feeabs_SetHostZoneProposal_Title : string;
  feeabs_SetHostZoneProposal_Description : string;
  feeabs_SetHostZoneProposal_HostChainConfig : option feeabs_HostChainFeeAbsConfig }.
Definition feeabs_SetHostZoneProposal_fields : list (Field feeabs_SetHostZoneProposal) := [
  string_field 1 feeabs_SetHostZoneProposal_Title (λ v m, mk_feeabs_SetHostZoneProposal v
    (feeabs_SetHostZoneProposal_Description m) (feeabs_SetHostZoneProposal_HostChainConfig m));
  string_field 2 feeabs_SetHostZoneProposal_Description (λ v m, mk_feeabs_SetHostZoneProposal
    (feeabs_SetHostZoneProposal_Title m) v (feeabs_SetHostZoneProposal_HostChainConfig m));
  pointer_field (msg_codec feeabs_HostChainFeeAbsConfig_fields) feeabs_HostChainFeeAbsConfig_zero 3
    feeabs_SetHostZoneProposal_HostChainConfig (λ v m, mk_feeabs_SetHostZoneProposal (feeabs_SetHostZoneProposal_Title
    m) (feeabs_SetHostZoneProposal_Description m) v)].
Definition feeabs_SetHostZoneProposal_zero : feeabs_SetHostZoneProposal := mk_feeabs_SetHostZoneProposal "" "" None.
#[global] Instance feeabs_SetHostZoneProposal_spec : MsgSpec feeabs_SetHostZoneProposal_fields feeabs_SetHostZoneProposal_zero.
Proof. msg_spec. Defined.

(** *** [x/feeabs/types/tx.pb.go] *)
Record feeabs_MsgSendQueryIbcDenomTWAP := mk_feeabs_MsgSendQueryIbcDenomTWAP {
  feeabs_MsgSendQueryIbcDenomTWAP_Sender : string }.
Definition feeabs_MsgSendQueryIbcDenomTWAP_fields : list (Field feeabs_MsgSendQueryIbcDenomTWAP) := [
  string_field 1 feeabs_MsgSendQueryIbcDenomTWAP_Sender (λ v _, mk_feeabs_MsgSendQueryIbcDenomTWAP v)].
Definition feeabs_MsgSendQueryIbcDenomTWAP_zero : feeabs_MsgSendQueryIbcDenomTWAP := mk_feeabs_MsgSendQueryIbcDenomTWAP "".
#[global] Instance feeabs_MsgSendQueryIbcDenomTWAP_spec : MsgSpec feeabs_MsgSendQueryIbcDenomTWAP_fields feeabs_MsgSendQueryIbcDenomTWAP_zero.
Proof. msg_spec. Defined.

Definition feeabs_MsgSwapCrossChain_fields : list (Field MsgSwapCrossChain) := [
  string_field 1 msc_Sender (λ v m, mkMsgSwapCrossChain v (msc_IbcDenom m));
  string_field 2 msc_IbcDenom (λ v m, mkMsgSwapCrossChain (msc_Sender m) v)].
Definition feeabs_MsgSwapCrossChain_zero : MsgSwapCrossChain := mkMsgSwapCrossChain "" "".
#[global] Instance feeabs_MsgSwapCrossChain_spec : MsgSpec feeabs_MsgSwapCrossChain_fields feeabs_MsgSwapCrossChain_zero.
Proof. msg_spec. Defined.

Record feeabs_MsgUpdateParams := mk_feeabs_MsgUpdateParams { feeabs_MsgUpdateParams_Authority : string;
  feeabs_MsgUpdateParams_Params : FeeAbsParams }.
Definition feeabs_MsgUpdateParams_fields : list (Field feeabs_MsgUpdateParams) := [
  string_field 1 feeabs_MsgUpdateParams_Authority (λ v m, mk_feeabs_MsgUpdateParams v (feeabs_MsgUpdateParams_Params
    m));
  message_field (msg_codec feeabs_Params_fields) 2 feeabs_MsgUpdateParams_Params (λ v m, mk_feeabs_MsgUpdateParams
    (feeabs_MsgUpdateParams_Authority m) v)].
Definition feeabs_MsgUpdateParams_zero : feeabs_MsgUpdateParams := mk_feeabs_MsgUpdateParams "" feeabs_Params_zero.
#[global] Instance feeabs_MsgUpdateParams_spec : MsgSpec feeabs_MsgUpdateParams_fields feeabs_MsgUpdateParams_zero.
Proof. msg_spec. Defined.

Record feeabs_MsgAddHostZone := mk_feeabs_MsgAddHostZone { feeabs_MsgAddHostZone_Authority : string;
  feeabs_MsgAddHostZone_HostChainConfig : feeabs_HostChainFeeAbsConfig }.
Definition feeabs_MsgAddHostZone_fields : list (Field feeabs_MsgAddHostZone) := [
  string_field 1 feeabs_MsgAddHostZone_Authority (λ v m, mk_feeabs_MsgAddHostZone v
    (feeabs_MsgAddHostZone_HostChainConfig m));
  message_field (msg_codec feeabs_HostChainFeeAbsConfig_fields) 2 feeabs_MsgAddHostZone_HostChainConfig (λ v m,
    mk_feeabs_MsgAddHostZone (feeabs_MsgAddHostZone_Authority m) v)].
Definition feeabs_MsgAddHostZone_zero : feeabs_MsgAddHostZone := mk_feeabs_MsgAddHostZone "" feeabs_HostChainFeeAbsConfig_zero.
#[global] Instance feeabs_MsgAddHostZone_spec : MsgSpec feeabs_MsgAddHostZone_fields feeabs_MsgAddHostZone_zero.
Proof. msg_spec. Defined.

Record feeabs_MsgUpdateHostZone := mk_feeabs_MsgUpdateHostZone { feeabs_MsgUpdateHostZone_Authority : string;
  feeabs_MsgUpdateHostZone_HostChainConfig : feeabs_HostChainFeeAbsConfig }.
Definition feeabs_MsgUpdateHostZone_fields : list (Field feeabs_MsgUpdateHostZone) := [
  string_field 1 feeabs_MsgUpdateHostZone_Authority (λ v m, mk_feeabs_MsgUpdateHostZone v
    (feeabs_MsgUpdateHostZone_HostChainConfig m));
  message_field (msg_codec feeabs_HostChainFeeAbsConfig_fields) 2 feeabs_MsgUpdateHostZone_HostChainConfig (λ v m,
    mk_feeabs_MsgUpdateHostZone (feeabs_MsgUpdateHostZone_Authority m) v)].
Definition feeabs_MsgUpdateHostZone_zero : feeabs_MsgUpdateHostZone := mk_feeabs_MsgUpdateHostZone "" feeabs_HostChainFeeAbsConfig_zero.
#[global] Instance feeabs_MsgUpdateHostZone_spec : MsgSpec feeabs_MsgUpdateHostZone_fields feeabs_MsgUpdateHostZone_zero.
Proof. msg_spec. Defined.

Record feeabs_MsgRemoveHostZone := mk_feeabs_MsgRemoveHostZone { feeabs_MsgRemoveHostZone_Authority : string;
  feeabs_MsgRemoveHostZone_IbcDenom : string }.
Definition feeabs_MsgRemoveHostZone_fields : list (Field feeabs_MsgRemoveHostZone) := [
  string_field 1 feeabs_MsgRemoveHostZone_Authority (λ v m, mk_feeabs_MsgRemoveHostZone v
    (feeabs_MsgRemoveHostZone_IbcDenom m));
  string_field 2 feeabs_MsgRemoveHostZone_IbcDenom (λ v m, mk_feeabs_MsgRemoveHostZone
    (feeabs_MsgRemoveHostZone_Authority m) v)].
Definition feeabs_MsgRemoveHostZone_zero : feeabs_MsgRemoveHostZone := mk_feeabs_MsgRemoveHostZone "" "".
#[global] Instance feeabs_MsgRemoveHostZone_spec : MsgSpec feeabs_MsgRemoveHostZone_fields feeabs_MsgRemoveHostZone_zero.
Proof. msg_spec. Defined.

(** *** [x/feeabs/types/query.pb.go] *)
Record feeabs_QueryHostChainConfigRequest := mk_feeabs_QueryHostChainConfigRequest {
  feeabs_QueryHostChainConfigRequest_IbcDenom : string }.
Definition feeabs_QueryHostChainConfigRequest_fields : list (Field feeabs_QueryHostChainConfigRequest) := [
  string_field 1 feeabs_QueryHostChainConfigRequest_IbcDenom (λ v _, mk_feeabs_QueryHostChainConfigRequest v)].
Definition feeabs_QueryHostChainConfigRequest_zero : feeabs_QueryHostChainConfigRequest := mk_feeabs_QueryHostChainConfigRequest "".
#[global] Instance feeabs_QueryHostChainConfigRequest_spec : MsgSpec feeabs_QueryHostChainConfigRequest_fields feeabs_QueryHostChainConfigRequest_zero.
Proof. msg_spec. Defined.

Record feeabs_QueryHostChainConfigResponse := mk_feeabs_QueryHostChainConfigResponse {
  feeabs_QueryHostChainConfigResponse_HostChainConfig : feeabs_HostChainFeeAbsConfig }.
Definition feeabs_QueryHostChainConfigResponse_fields : list (Field feeabs_QueryHostChainConfigResponse) := [
  message_field (msg_codec feeabs_HostChainFeeAbsConfig_fields) 1 feeabs_QueryHostChainConfigResponse_HostChainConfig
    (λ v _, mk_feeabs_QueryHostChainConfigResponse v)].
Definition feeabs_QueryHostChainConfigResponse_zero : feeabs_QueryHostChainConfigResponse := mk_feeabs_QueryHostChainConfigResponse feeabs_HostChainFeeAbsConfig_zero.
#[global] Instance feeabs_QueryHostChainConfigResponse_spec : MsgSpec feeabs_QueryHostChainConfigResponse_fields feeabs_QueryHostChainConfigResponse_zero.
Proof. msg_spec. Defined.

Record feeabs_QueryOsmosisArithmeticTwapRequest := mk_feeabs_QueryOsmosisArithmeticTwapRequest {
  feeabs_QueryOsmosisArithmeticTwapRequest_IbcDenom : string }.
Definition feeabs_QueryOsmosisArithmeticTwapRequest_fields : list (Field feeabs_QueryOsmosisArithmeticTwapRequest) := [
  string_field 1 feeabs_QueryOsmosisArithmeticTwapRequest_IbcDenom (λ v _, mk_feeabs_QueryOsmosisArithmeticTwapRequest
    v)].
Definition feeabs_QueryOsmosisArithmeticTwapRequest_zero : feeabs_QueryOsmosisArithmeticTwapRequest := mk_feeabs_QueryOsmosisArithmeticTwapRequest "".
#[global] Instance feeabs_QueryOsmosisArithmeticTwapRequest_spec : MsgSpec feeabs_QueryOsmosisArithmeticTwapRequest_fields feeabs_QueryOsmosisArithmeticTwapRequest_zero.
Proof. msg_spec. Defined.

Record feeabs_QueryAllHostChainConfigResponse := mk_feeabs_QueryAllHostChainConfigResponse {
  feeabs_QueryAllHostChainConfigResponse_AllHostChainConfig : list feeabs_HostChainFeeAbsConfig }.
Definition feeabs_QueryAllHostChainConfigResponse_fields : list (Field feeabs_QueryAllHostChainConfigResponse) := [
  messages_field (msg_codec feeabs_HostChainFeeAbsConfig_fields) feeabs_HostChainFeeAbsConfig_zero 1
    feeabs_QueryAllHostChainConfigResponse_AllHostChainConfig (λ v _, mk_feeabs_QueryAllHostChainConfigResponse v)].
Definition feeabs_QueryAllHostChainConfigResponse_zero : feeabs_QueryAllHostChainConfigResponse := mk_feeabs_QueryAllHostChainConfigResponse [].
#[global] Instance feeabs_QueryAllHostChainConfigResponse_spec : MsgSpec feeabs_QueryAllHostChainConfigResponse_fields feeabs_QueryAllHostChainConfigResponse_zero.
Proof. msg_spec. Defined.

(** *** [x/feeabs/types/osmosisibc.pb.go] *)
Record feeabs_InterchainQueryRequest := mk_feeabs_InterchainQueryRequest {
  feeabs_InterchainQueryRequest_Data : string; feeabs_InterchainQueryRequest_Path : string }.
Definition feeabs_InterchainQueryRequest_fields : list (Field feeabs_InterchainQueryRequest) := [
  string_field 1 feeabs_InterchainQueryRequest_Data (λ v m, mk_feeabs_InterchainQueryRequest v
    (feeabs_InterchainQueryRequest_Path m));
  string_field 2 feeabs_InterchainQueryRequest_Path (λ v m, mk_feeabs_InterchainQueryRequest
    (feeabs_InterchainQueryRequest_Data m) v)].
Definition feeabs_InterchainQueryRequest_zero : feeabs_InterchainQueryRequest := mk_feeabs_InterchainQueryRequest "" "".
#[global] Instance feeabs_InterchainQueryRequest_spec : MsgSpec feeabs_InterchainQueryRequest_fields feeabs_InterchainQueryRequest_zero.
Proof. msg_spec. Defined.

Record feeabs_InterchainQueryPacketData := mk_feeabs_InterchainQueryPacketData {
  feeabs_InterchainQueryPacketData_Data : string; feeabs_InterchainQueryPacketData_Memo : string }.
Definition feeabs_InterchainQueryPacketData_fields : list (Field feeabs_InterchainQueryPacketData) := [
  string_field 1 feeabs_InterchainQueryPacketData_Data (λ v m, mk_feeabs_InterchainQueryPacketData v
    (feeabs_InterchainQueryPacketData_Memo m));
  string_field 2 feeabs_InterchainQueryPacketData_Memo (λ v m, mk_feeabs_InterchainQueryPacketData
    (feeabs_InterchainQueryPacketData_Data m) v)].
Definition feeabs_InterchainQueryPacketData_zero : feeabs_InterchainQueryPacketData := mk_feeabs_InterchainQueryPacketData "" "".
#[global] Instance feeabs_InterchainQueryPacketData_spec : MsgSpec feeabs_InterchainQueryPacketData_fields feeabs_InterchainQueryPacketData_zero.
Proof. msg_spec. Defined.

Record feeabs_InterchainQueryPacketAck := mk_feeabs_InterchainQueryPacketAck {
  feeabs_InterchainQueryPacketAck_Data : string }.
Definition feeabs_InterchainQueryPacketAck_fields : list (Field feeabs_InterchainQueryPacketAck) := [
  string_field 1 feeabs_InterchainQueryPacketAck_Data (λ v _, mk_feeabs_InterchainQueryPacketAck v)].
Definition feeabs_InterchainQueryPacketAck_zero : feeabs_InterchainQueryPacketAck := mk_feeabs_InterchainQueryPacketAck "".
#[global] Instance feeabs_InterchainQueryPacketAck_spec : MsgSpec feeabs_InterchainQueryPacketAck_fields feeabs_InterchainQueryPacketAck_zero.
Proof. msg_spec. Defined.

Record feeabs_InterchainQueryRequestPacket := mk_feeabs_InterchainQueryRequestPacket {
  feeabs_InterchainQueryRequestPacket_Requests : list feeabs_InterchainQueryRequest }.
Definition feeabs_InterchainQueryRequestPacket_fields : list (Field feeabs_InterchainQueryRequestPacket) := [
  messages_field (msg_codec feeabs_InterchainQueryRequest_fields) feeabs_InterchainQueryRequest_zero 1
    feeabs_InterchainQueryRequestPacket_Requests (λ v _, mk_feeabs_InterchainQueryRequestPacket v)].
Definition feeabs_InterchainQueryRequestPacket_zero : feeabs_InterchainQueryRequestPacket := mk_feeabs_InterchainQueryRequestPacket [].
#[global] Instance feeabs_InterchainQueryRequestPacket_spec : MsgSpec feeabs_InterchainQueryRequestPacket_fields feeabs_InterchainQueryRequestPacket_zero.
Proof. msg_spec. Defined.

(** ** The message types *)
Definition feeabs_messages : list Message := [ message feeabs_Params_fields feeabs_Params_zero;
  message feeabs_ExponentialBackoff_fields feeabs_ExponentialBackoff_zero;
  message feeabs_HostChainFeeAbsConfig_fields feeabs_HostChainFeeAbsConfig_zero;
  message feeabs_AddHostZoneProposal_fields feeabs_AddHostZoneProposal_zero;
  message feeabs_DeleteHostZoneProposal_fields feeabs_DeleteHostZoneProposal_zero;
  message feeabs_SetHostZoneProposal_fields feeabs_SetHostZoneProposal_zero;
  message feeabs_MsgSendQueryIbcDenomTWAP_fields feeabs_MsgSendQueryIbcDenomTWAP_zero;
  message feeabs_MsgSwapCrossChain_fields feeabs_MsgSwapCrossChain_zero;
  message feeabs_MsgUpdateParams_fields feeabs_MsgUpdateParams_zero;
  message feeabs_MsgAddHostZone_fields feeabs_MsgAddHostZone_zero;
  message feeabs_MsgUpdateHostZone_fields feeabs_MsgUpdateHostZone_zero;
  message feeabs_MsgRemoveHostZone_fields feeabs_MsgRemoveHostZone_zero;
  message feeabs_QueryHostChainConfigRequest_fields feeabs_QueryHostChainConfigRequest_zero;
  message feeabs_QueryHostChainConfigResponse_fields feeabs_QueryHostChainConfigResponse_zero;
  message feeabs_QueryOsmosisArithmeticTwapRequest_fields feeabs_QueryOsmosisArithmeticTwapRequest_zero;
  message feeabs_QueryAllHostChainConfigResponse_fields feeabs_QueryAllHostChainConfigResponse_zero;
  message feeabs_InterchainQueryRequest_fields feeabs_InterchainQueryRequest_zero;
  message feeabs_InterchainQueryPacketData_fields feeabs_InterchainQueryPacketData_zero;
  message feeabs_InterchainQueryPacketAck_fields feeabs_InterchainQueryPacketAck_zero;
  message feeabs_InterchainQueryRequestPacket_fields feeabs_InterchainQueryRequestPacket_zero ].

Lemma feeabs_messages_ok : Forall message_ok feeabs_messages.
Proof. messages_ok. Qed.

(** ** Messages that embed types of the dependencies *)
Section imported.
Context {RequestQuery ResponseQuery : Type} `{ICoin : !ImportedMsg Coin, IRequestQuery : !ImportedMsg RequestQuery, IResponseQuery : !ImportedMsg ResponseQuery}.
Context `{LCoin : !ImportedLaws Coin, LRequestQuery : !ImportedLaws RequestQuery, LResponseQuery : !ImportedLaws ResponseQuery}.
Context (dec_codec : CustomCodec LegacyDec) `{Sdec_codec : !CustomCodecSpec dec_codec}.
Context (time_codec : CustomCodec Z) `{Stime_codec : !CustomCodecSpec time_codec}.
Context (duration_codec : CustomCodec Z) `{Sduration_codec : !CustomCodecSpec duration_codec}.

(** *** [x/feeabs/types/epoch.pb.go] *)
Definition feeabs_EpochInfo_fields : list (Field EpochInfo) := [
  string_field 1 ep_Identifier (λ v m, mkEpochInfo v (ep_StartTime m) (ep_Duration m) (ep_CurrentEpoch m)
    (ep_CurrentEpochStartTime m) (ep_EpochCountingStarted m) (ep_CurrentEpochStartHeight m));
  custom_field time_codec 2 ep_StartTime (λ v m, mkEpochInfo (ep_Identifier m) v (ep_Duration m) (ep_CurrentEpoch m)
    (ep_CurrentEpochStartTime m) (ep_EpochCountingStarted m) (ep_CurrentEpochStartHeight m));
  custom_field duration_codec 3 ep_Duration (λ v m, mkEpochInfo (ep_Identifier m) (ep_StartTime m) v (ep_CurrentEpoch
    m) (ep_CurrentEpochStartTime m) (ep_EpochCountingStarted m) (ep_CurrentEpochStartHeight m));
  int_field i64 4 ep_CurrentEpoch (λ v m, mkEpochInfo (ep_Identifier m) (ep_StartTime m) (ep_Duration m) v
    (ep_CurrentEpochStartTime m) (ep_EpochCountingStarted m) (ep_CurrentEpochStartHeight m));
  custom_field time_codec 5 ep_CurrentEpochStartTime (λ v m, mkEpochInfo (ep_Identifier m) (ep_StartTime m)
    (ep_Duration m) (ep_CurrentEpoch m) v (ep_EpochCountingStarted m) (ep_CurrentEpochStartHeight m));
  bool_field 6 ep_EpochCountingStarted (λ v m, mkEpochInfo (ep_Identifier m) (ep_StartTime m) (ep_Duration m)
    (ep_CurrentEpoch m) (ep_CurrentEpochStartTime m) v (ep_CurrentEpochStartHeight m));
  int_field i64 8 ep_CurrentEpochStartHeight (λ v m, mkEpochInfo (ep_Identifier m) (ep_StartTime m) (ep_Duration m)
    (ep_CurrentEpoch m) (ep_CurrentEpochStartTime m) (ep_EpochCountingStarted m) v)].
Definition feeabs_EpochInfo_zero : EpochInfo := mkEpochInfo "" 0 0 0 0 false 0.
#[global] Instance feeabs_EpochInfo_spec : MsgSpec feeabs_EpochInfo_fields feeabs_EpochInfo_zero.
Proof. msg_spec. Defined.

(** *** [x/feeabs/types/genesis.pb.go] *)
Definition feeabs_GenesisState_fields : list (Field FeeAbsGenesis) := [
  message_field (msg_codec feeabs_Params_fields) 1 fg_Params (λ v m, mkFeeAbsGenesis v (fg_Epochs m) (fg_PortId m));
  messages_field (msg_codec feeabs_EpochInfo_fields) feeabs_EpochInfo_zero 2 fg_Epochs (λ v m, mkFeeAbsGenesis
    (fg_Params m) v (fg_PortId m));
  string_field 3 fg_PortId (λ v m, mkFeeAbsGenesis (fg_Params m) (fg_Epochs m) v)].
Definition feeabs_GenesisState_zero : FeeAbsGenesis := mkFeeAbsGenesis feeabs_Params_zero [] "".
#[global] Instance feeabs_GenesisState_spec : MsgSpec feeabs_GenesisState_fields feeabs_GenesisState_zero.
Proof. msg_spec. Defined.

(** *** [x/feeabs/types/tx.pb.go] *)
Record feeabs_MsgFundFeeAbsModuleAccount := mk_feeabs_MsgFundFeeAbsModuleAccount {
  feeabs_MsgFundFeeAbsModuleAccount_Sender : string; feeabs_MsgFundFeeAbsModuleAccount_Amount : list Coin }.
Definition feeabs_MsgFundFeeAbsModuleAccount_fields : list (Field feeabs_MsgFundFeeAbsModuleAccount) := [
  string_field 1 feeabs_MsgFundFeeAbsModuleAccount_Sender (λ v m, mk_feeabs_MsgFundFeeAbsModuleAccount v
    (feeabs_MsgFundFeeAbsModuleAccount_Amount m));
  messages_field im_codec im_zero 2 feeabs_MsgFundFeeAbsModuleAccount_Amount (λ v m,
    mk_feeabs_MsgFundFeeAbsModuleAccount (feeabs_MsgFundFeeAbsModuleAccount_Sender m) v)].
Definition feeabs_MsgFundFeeAbsModuleAccount_zero : feeabs_MsgFundFeeAbsModuleAccount := mk_feeabs_MsgFundFeeAbsModuleAccount "" [].
#[global] Instance feeabs_MsgFundFeeAbsModuleAccount_spec : MsgSpec feeabs_MsgFundFeeAbsModuleAccount_fields feeabs_MsgFundFeeAbsModuleAccount_zero.
Proof. msg_spec. Defined.

(** *** [x/feeabs/types/query.pb.go] *)
Record feeabs_QueryOsmosisArithmeticTwapResponse := mk_feeabs_QueryOsmosisArithmeticTwapResponse {
  feeabs_QueryOsmosisArithmeticTwapResponse_ArithmeticTwap : LegacyDec }.
Definition feeabs_QueryOsmosisArithmeticTwapResponse_fields : list (Field feeabs_QueryOsmosisArithmeticTwapResponse) := [
  custom_field dec_codec 1 feeabs_QueryOsmosisArithmeticTwapResponse_ArithmeticTwap (λ v _,
    mk_feeabs_QueryOsmosisArithmeticTwapResponse v)].
Definition feeabs_QueryOsmosisArithmeticTwapResponse_zero : feeabs_QueryOsmosisArithmeticTwapResponse := mk_feeabs_QueryOsmosisArithmeticTwapResponse None.
#[global] Instance feeabs_QueryOsmosisArithmeticTwapResponse_spec : MsgSpec feeabs_QueryOsmosisArithmeticTwapResponse_fields feeabs_QueryOsmosisArithmeticTwapResponse_zero.
Proof. msg_spec. Defined.

Record feeabs_QueryFeeabsModuleBalancesResponse := mk_feeabs_QueryFeeabsModuleBalancesResponse {
  feeabs_QueryFeeabsModuleBalancesResponse_Balances : list Coin;
  feeabs_QueryFeeabsModuleBalancesResponse_Address : string }.
Definition feeabs_QueryFeeabsModuleBalancesResponse_fields : list (Field feeabs_QueryFeeabsModuleBalancesResponse) := [
  messages_field im_codec im_zero 1 feeabs_QueryFeeabsModuleBalancesResponse_Balances (λ v m,
    mk_feeabs_QueryFeeabsModuleBalancesResponse v (feeabs_QueryFeeabsModuleBalancesResponse_Address m));
  string_field 2 feeabs_QueryFeeabsModuleBalancesResponse_Address (λ v m, mk_feeabs_QueryFeeabsModuleBalancesResponse
    (feeabs_QueryFeeabsModuleBalancesResponse_Balances m) v)].
Definition feeabs_QueryFeeabsModuleBalancesResponse_zero : feeabs_QueryFeeabsModuleBalancesResponse := mk_feeabs_QueryFeeabsModuleBalancesResponse [] "".
#[global] Instance feeabs_QueryFeeabsModuleBalancesResponse_spec : MsgSpec feeabs_QueryFeeabsModuleBalancesResponse_fields feeabs_QueryFeeabsModuleBalancesResponse_zero.
Proof. msg_spec. Defined.

(** *** [x/feeabs/types/osmosisibc.pb.go] *)
Record feeabs_QueryArithmeticTwapToNowRequest := mk_feeabs_QueryArithmeticTwapToNowRequest {
  feeabs_QueryArithmeticTwapToNowRequest_PoolId : Z; feeabs_QueryArithmeticTwapToNowRequest_BaseAsset : string;
  feeabs_QueryArithmeticTwapToNowRequest_QuoteAsset : string; feeabs_QueryArithmeticTwapToNowRequest_StartTime : Z }.
Definition feeabs_QueryArithmeticTwapToNowRequest_fields : list (Field feeabs_QueryArithmeticTwapToNowRequest) := [
  int_field id 1 feeabs_QueryArithmeticTwapToNowRequest_PoolId (λ v m, mk_feeabs_QueryArithmeticTwapToNowRequest v
    (feeabs_QueryArithmeticTwapToNowRequest_BaseAsset m) (feeabs_QueryArithmeticTwapToNowRequest_QuoteAsset m)
    (feeabs_QueryArithmeticTwapToNowRequest_StartTime m));
  string_field 2 feeabs_QueryArithmeticTwapToNowRequest_BaseAsset (λ v m, mk_feeabs_QueryArithmeticTwapToNowRequest
    (feeabs_QueryArithmeticTwapToNowRequest_PoolId m) v (feeabs_QueryArithmeticTwapToNowRequest_QuoteAsset m)
    (feeabs_QueryArithmeticTwapToNowRequest_StartTime m));
  string_field 3 feeabs_QueryArithmeticTwapToNowRequest_QuoteAsset (λ v m, mk_feeabs_QueryArithmeticTwapToNowRequest
    (feeabs_QueryArithmeticTwapToNowRequest_PoolId m) (feeabs_QueryArithmeticTwapToNowRequest_BaseAsset m) v
    (feeabs_QueryArithmeticTwapToNowRequest_StartTime m));
  custom_field time_codec 4 feeabs_QueryArithmeticTwapToNowRequest_StartTime (λ v m,
    mk_feeabs_QueryArithmeticTwapToNowRequest (feeabs_QueryArithmeticTwapToNowRequest_PoolId m)
    (feeabs_QueryArithmeticTwapToNowRequest_BaseAsset m) (feeabs_QueryArithmeticTwapToNowRequest_QuoteAsset m) v)].
Definition feeabs_QueryArithmeticTwapToNowRequest_zero : feeabs_QueryArithmeticTwapToNowRequest := mk_feeabs_QueryArithmeticTwapToNowRequest 0 "" "" 0.
#[global] Instance feeabs_QueryArithmeticTwapToNowRequest_spec : MsgSpec feeabs_QueryArithmeticTwapToNowRequest_fields feeabs_QueryArithmeticTwapToNowRequest_zero.
Proof. msg_spec. Defined.

Record feeabs_QueryArithmeticTwapToNowResponse := mk_feeabs_QueryArithmeticTwapToNowResponse {
  feeabs_QueryArithmeticTwapToNowResponse_ArithmeticTwap : LegacyDec }.
Definition feeabs_QueryArithmeticTwapToNowResponse_fields : list (Field feeabs_QueryArithmeticTwapToNowResponse) := [
  custom_field dec_codec 1 feeabs_QueryArithmeticTwapToNowResponse_ArithmeticTwap (λ v _,
    mk_feeabs_QueryArithmeticTwapToNowResponse v)].
Definition feeabs_QueryArithmeticTwapToNowResponse_zero : feeabs_QueryArithmeticTwapToNowResponse := mk_feeabs_QueryArithmeticTwapToNowResponse None.
#[global] Instance feeabs_QueryArithmeticTwapToNowResponse_spec : MsgSpec feeabs_QueryArithmeticTwapToNowResponse_fields feeabs_QueryArithmeticTwapToNowResponse_zero.
Proof. msg_spec. Defined.

Record feeabs_CosmosQuery := mk_feeabs_CosmosQuery { feeabs_CosmosQuery_Requests : list RequestQuery }.
Definition feeabs_CosmosQuery_fields : list (Field feeabs_CosmosQuery) := [
  messages_field im_codec im_zero 1 feeabs_CosmosQuery_Requests (λ v _, mk_feeabs_CosmosQuery v)].
Definition feeabs_CosmosQuery_zero : feeabs_CosmosQuery := mk_feeabs_CosmosQuery [].
#[global] Instance feeabs_CosmosQuery_spec : MsgSpec feeabs_CosmosQuery_fields feeabs_CosmosQuery_zero.
Proof. msg_spec. Defined.

Record feeabs_CosmosResponse := mk_feeabs_CosmosResponse { feeabs_CosmosResponse_Responses : list ResponseQuery }.
Definition feeabs_CosmosResponse_fields : list (Field feeabs_CosmosResponse) := [
  messages_field im_codec im_zero 1 feeabs_CosmosResponse_Responses (λ v _, mk_feeabs_CosmosResponse v)].
Definition feeabs_CosmosResponse_zero : feeabs_CosmosResponse := mk_feeabs_CosmosResponse [].
#[global] Instance feeabs_CosmosResponse_spec : MsgSpec feeabs_CosmosResponse_fields feeabs_CosmosResponse_zero.
Proof. msg_spec. Defined.

Definition feeabs_messages_imported : list Message := [ message feeabs_EpochInfo_fields feeabs_EpochInfo_zero;
  message feeabs_GenesisState_fields feeabs_GenesisState_zero;
  message feeabs_MsgFundFeeAbsModuleAccount_fields feeabs_MsgFundFeeAbsModuleAccount_zero;
  message feeabs_QueryOsmosisArithmeticTwapResponse_fields feeabs_QueryOsmosisArithmeticTwapResponse_zero;
  message feeabs_QueryFeeabsModuleBalancesResponse_fields feeabs_QueryFeeabsModuleBalancesResponse_zero;
  message feeabs_QueryArithmeticTwapToNowRequest_fields feeabs_QueryArithmeticTwapToNowRequest_zero;
  message feeabs_QueryArithmeticTwapToNowResponse_fields feeabs_QueryArithmeticTwapToNowResponse_zero;
  message feeabs_CosmosQuery_fields feeabs_CosmosQuery_zero;
  message feeabs_CosmosResponse_fields feeabs_CosmosResponse_zero ].

Lemma feeabs_messages_imported_ok : Forall message_ok feeabs_messages_imported.
Proof. messages_ok. Qed.
End imported.
