(* ===== verification/ProtoIndexer.v ===== *)
(** * indexer: the generated code of the query messages

    As [ProtoZk.v], for the two query services of the indexer.  Grants and pages are
    message types of the Cosmos SDK. *)

From S2P Require Import Prelude GoStd ProtoWire ProtoCodec.

(** *** [indexer/feegrant/query.pb.go] *)
Record feegrant_QueryAllowanceRequest := mk_feegrant_QueryAllowanceRequest {
  feegrant_QueryAllowanceRequest_Granter : string; feegrant_QueryAllowanceRequest_Grantee : string }.
Definition feegrant_QueryAllowanceRequest_fields : list (Field feegrant_QueryAllowanceRequest) := [
  string_field 1 feegrant_QueryAllowanceRequest_Granter (λ v m, mk_feegrant_QueryAllowanceRequest v
    (feegrant_QueryAllowanceRequest_Grantee m));
  string_field 2 feegrant_QueryAllowanceRequest_Grantee (λ v m, mk_feegrant_QueryAllowanceRequest
    (feegrant_QueryAllowanceRequest_Granter m) v)].
Definition feegrant_QueryAllowanceRequest_zero : feegrant_QueryAllowanceRequest := mk_feegrant_QueryAllowanceRequest "" "".
#[global] Instance feegrant_QueryAllowanceRequest_spec : MsgSpec feegrant_QueryAllowanceRequest_fields feegrant_QueryAllowanceRequest_zero.
Proof. msg_spec. Defined.

(** ** The message types *)
Definition indexer_messages : list Message := [
  message feegrant_QueryAllowanceRequest_fields feegrant_QueryAllowanceRequest_zero ].

Lemma indexer_messages_ok : Forall message_ok indexer_messages.
Proof. messages_ok. Qed.

(** ** Messages that embed types of the dependencies *)
Section imported.
Context {PageRequest AuthzGrant PageResponse GrantAuthorization FeeGrant : Type} `{IPageRequest : !ImportedMsg PageRequest, IAuthzGrant : !ImportedMsg AuthzGrant, IPageResponse : !ImportedMsg PageResponse, IGrantAuthorization : !ImportedMsg GrantAuthorization, IFeeGrant : !ImportedMsg FeeGrant}.
Context `{LPageRequest : !ImportedLaws PageRequest, LAuthzGrant : !ImportedLaws AuthzGrant, LPageResponse : !ImportedLaws PageResponse, LGrantAuthorization : !ImportedLaws GrantAuthorization, LFeeGrant : !ImportedLaws FeeGrant}.

(** *** [indexer/authz/query.pb.go] *)
Record authz_QueryGrantsRequest := mk_authz_QueryGrantsRequest { authz_QueryGrantsRequest_Granter : string;
  authz_QueryGrantsRequest_Grantee : string; authz_QueryGrantsRequest_MsgTypeUrl : string;
  authz_QueryGrantsRequest_Pagination : option PageRequest }.
Definition authz_QueryGrantsRequest_fields : list (Field authz_QueryGrantsRequest) := [
  string_field 1 authz_QueryGrantsRequest_Granter (λ v m, mk_authz_QueryGrantsRequest v
    (authz_QueryGrantsRequest_Grantee m) (authz_QueryGrantsRequest_MsgTypeUrl m) (authz_QueryGrantsRequest_Pagination
    m));
  string_field 2 authz_QueryGrantsRequest_Grantee (λ v m, mk_authz_QueryGrantsRequest
    (authz_QueryGrantsRequest_Granter m) v (authz_QueryGrantsRequest_MsgTypeUrl m)
    (authz_QueryGrantsRequest_Pagination m));
  string_field 3 authz_QueryGrantsRequest_MsgTypeUrl (λ v m, mk_authz_QueryGrantsRequest
    (authz_QueryGrantsRequest_Granter m) (authz_QueryGrantsRequest_Grantee m) v (authz_QueryGrantsRequest_Pagination
    m));
  pointer_field im_codec im_zero 4 authz_QueryGrantsRequest_Pagination (λ v m, mk_authz_QueryGrantsRequest
    (authz_QueryGrantsRequest_Granter m) (authz_QueryGrantsRequest_Grantee m) (authz_QueryGrantsRequest_MsgTypeUrl m)
    v)].
Definition authz_QueryGrantsRequest_zero : authz_QueryGrantsRequest := mk_authz_QueryGrantsRequest "" "" "" None.
#[global] Instance authz_QueryGrantsRequest_spec : MsgSpec authz_QueryGrantsRequest_fields authz_QueryGrantsRequest_zero.
Proof. msg_spec. Defined.

Record authz_QueryGrantsResponse := mk_authz_QueryGrantsResponse { authz_QueryGrantsResponse_Grants : list AuthzGrant;
  authz_QueryGrantsResponse_Pagination : option PageResponse }.
Definition authz_QueryGrantsResponse_fields : list (Field authz_QueryGrantsResponse) := [
  messages_field im_codec im_zero 1 authz_QueryGrantsResponse_Grants (λ v m, mk_authz_QueryGrantsResponse v
    (authz_QueryGrantsResponse_Pagination m));
  pointer_field im_codec im_zero 2 authz_QueryGrantsResponse_Pagination (λ v m, mk_authz_QueryGrantsResponse
    (authz_QueryGrantsResponse_Grants m) v)].
Definition authz_QueryGrantsResponse_zero : authz_QueryGrantsResponse := mk_authz_QueryGrantsResponse [] None.
#[global] Instance authz_QueryGrantsResponse_spec : MsgSpec authz_QueryGrantsResponse_fields authz_QueryGrantsResponse_zero.
Proof. msg_spec. Defined.

Record authz_QueryGranterGrantsRequest := mk_authz_QueryGranterGrantsRequest {
  authz_QueryGranterGrantsRequest_Granter : string; authz_QueryGranterGrantsRequest_Pagination : option PageRequest }.
Definition authz_QueryGranterGrantsRequest_fields : list (Field authz_QueryGranterGrantsRequest) := [
  string_field 1 authz_QueryGranterGrantsRequest_Granter (λ v m, mk_authz_QueryGranterGrantsRequest v
    (authz_QueryGranterGrantsRequest_Pagination m));
  pointer_field im_codec im_zero 2 authz_QueryGranterGrantsRequest_Pagination (λ v m,
    mk_authz_QueryGranterGrantsRequest (authz_QueryGranterGrantsRequest_Granter m) v)].
Definition authz_QueryGranterGrantsRequest_zero : authz_QueryGranterGrantsRequest := mk_authz_QueryGranterGrantsRequest "" None.
#[global] Instance authz_QueryGranterGrantsRequest_spec : MsgSpec authz_QueryGranterGrantsRequest_fields authz_QueryGranterGrantsRequest_zero.
Proof. msg_spec. Defined.

Record authz_QueryGranterGrantsResponse := mk_authz_QueryGranterGrantsResponse {
  authz_QueryGranterGrantsResponse_Grants : list GrantAuthorization;
  authz_QueryGranterGrantsResponse_Pagination : option PageResponse }.
Definition authz_QueryGranterGrantsResponse_fields : list (Field authz_QueryGranterGrantsResponse) := [
  messages_field im_codec im_zero 1 authz_QueryGranterGrantsResponse_Grants (λ v m,
    mk_authz_QueryGranterGrantsResponse v (authz_QueryGranterGrantsResponse_Pagination m));
  pointer_field im_codec im_zero 2 authz_QueryGranterGrantsResponse_Pagination (λ v m,
    mk_authz_QueryGranterGrantsResponse (authz_QueryGranterGrantsResponse_Grants m) v)].
Definition authz_QueryGranterGrantsResponse_zero : authz_QueryGranterGrantsResponse := mk_authz_QueryGranterGrantsResponse [] None.
#[global] Instance authz_QueryGranterGrantsResponse_spec : MsgSpec authz_QueryGranterGrantsResponse_fields authz_QueryGranterGrantsResponse_zero.
Proof. msg_spec. Defined.

Record authz_QueryGranteeGrantsRequest := mk_authz_QueryGranteeGrantsRequest {
  authz_QueryGranteeGrantsRequest_Grantee : string; authz_QueryGranteeGrantsRequest_Pagination : option PageRequest }.
Definition authz_QueryGranteeGrantsRequest_fields : list (Field authz_QueryGranteeGrantsRequest) := [
  string_field 1 authz_QueryGranteeGrantsRequest_Grantee (λ v m, mk_authz_QueryGranteeGrantsRequest v
    (authz_QueryGranteeGrantsRequest_Pagination m));
  pointer_field im_codec im_zero 2 authz_QueryGranteeGrantsRequest_Pagination (λ v m,
    mk_authz_QueryGranteeGrantsRequest (authz_QueryGranteeGrantsRequest_Grantee m) v)].
Definition authz_QueryGranteeGrantsRequest_zero : authz_QueryGranteeGrantsRequest := mk_authz_QueryGranteeGrantsRequest "" None.
#[global] Instance authz_QueryGranteeGrantsRequest_spec : MsgSpec authz_QueryGranteeGrantsRequest_fields authz_QueryGranteeGrantsRequest_zero.
Proof. msg_spec. Defined.

Record authz_QueryGranteeGrantsResponse := mk_authz_QueryGranteeGrantsResponse {
  authz_QueryGranteeGrantsResponse_Grants : list GrantAuthorization;
  authz_QueryGranteeGrantsResponse_Pagination : option PageResponse }.
Definition authz_QueryGranteeGrantsResponse_fields : list (Field authz_QueryGranteeGrantsResponse) := [
  messages_field im_codec im_zero 1 authz_QueryGranteeGrantsResponse_Grants (λ v m,
    mk_authz_QueryGranteeGrantsResponse v (authz_QueryGranteeGrantsResponse_Pagination m));
  pointer_field im_codec im_zero 2 authz_QueryGranteeGrantsResponse_Pagination (λ v m,
    mk_authz_QueryGranteeGrantsResponse (authz_QueryGranteeGrantsResponse_Grants m) v)].
Definition authz_QueryGranteeGrantsResponse_zero : authz_QueryGranteeGrantsResponse := mk_authz_QueryGranteeGrantsResponse [] None.
#[global] Instance authz_QueryGranteeGrantsResponse_spec : MsgSpec authz_QueryGranteeGrantsResponse_fields authz_QueryGranteeGrantsResponse_zero.
Proof. msg_spec. Defined.

(** *** [indexer/feegrant/query.pb.go] *)
Record feegrant_QueryAllowanceResponse := mk_feegrant_QueryAllowanceResponse {
  feegrant_QueryAllowanceResponse_Allowance : option FeeGrant }.
Definition feegrant_QueryAllowanceResponse_fields : list (Field feegrant_QueryAllowanceResponse) := [
  pointer_field im_codec im_zero 1 feegrant_QueryAllowanceResponse_Allowance (λ v _,
    mk_feegrant_QueryAllowanceResponse v)].
Definition feegrant_QueryAllowanceResponse_zero : feegrant_QueryAllowanceResponse := mk_feegrant_QueryAllowanceResponse None.
#[global] Instance feegrant_QueryAllowanceResponse_spec : MsgSpec feegrant_QueryAllowanceResponse_fields feegrant_QueryAllowanceResponse_zero.
Proof. msg_spec. Defined.

Record feegrant_QueryAllowancesRequest := mk_feegrant_QueryAllowancesRequest {
  feegrant_QueryAllowancesRequest_Grantee : string; feegrant_QueryAllowancesRequest_Pagination : option PageRequest }.
Definition feegrant_QueryAllowancesRequest_fields : list (Field feegrant_QueryAllowancesRequest) := [
  string_field 1 feegrant_QueryAllowancesRequest_Grantee (λ v m, mk_feegrant_QueryAllowancesRequest v
    (feegrant_QueryAllowancesRequest_Pagination m));
  pointer_field im_codec im_zero 2 feegrant_QueryAllowancesRequest_Pagination (λ v m,
    mk_feegrant_QueryAllowancesRequest (feegrant_QueryAllowancesRequest_Grantee m) v)].
Definition feegrant_QueryAllowancesRequest_zero : feegrant_QueryAllowancesRequest := mk_feegrant_QueryAllowancesRequest "" None.
#[global] Instance feegrant_QueryAllowancesRequest_spec : MsgSpec feegrant_QueryAllowancesRequest_fields feegrant_QueryAllowancesRequest_zero.
Proof. msg_spec. Defined.

Record feegrant_QueryAllowancesResponse := mk_feegrant_QueryAllowancesResponse {
  feegrant_QueryAllowancesResponse_Allowances : list FeeGrant;
  feegrant_QueryAllowancesResponse_Pagination : option PageResponse }.
Definition feegrant_QueryAllowancesResponse_fields : list (Field feegrant_QueryAllowancesResponse) := [
  messages_field im_codec im_zero 1 feegrant_QueryAllowancesResponse_Allowances (λ v m,
    mk_feegrant_QueryAllowancesResponse v (feegrant_QueryAllowancesResponse_Pagination m));
  pointer_field im_codec im_zero 2 feegrant_QueryAllowancesResponse_Pagination (λ v m,
    mk_feegrant_QueryAllowancesResponse (feegrant_QueryAllowancesResponse_Allowances m) v)].
Definition feegrant_QueryAllowancesResponse_zero : feegrant_QueryAllowancesResponse := mk_feegrant_QueryAllowancesResponse [] None.
#[global] Instance feegrant_QueryAllowancesResponse_spec : MsgSpec feegrant_QueryAllowancesResponse_fields feegrant_QueryAllowancesResponse_zero.
Proof. msg_spec. Defined.

Record feegrant_QueryAllowancesByGranterRequest := mk_feegrant_QueryAllowancesByGranterRequest {
  feegrant_QueryAllowancesByGranterRequest_Granter : string;
  feegrant_QueryAllowancesByGranterRequest_Pagination : option PageRequest }.
Definition feegrant_QueryAllowancesByGranterRequest_fields : list (Field feegrant_QueryAllowancesByGranterRequest) := [
  string_field 1 feegrant_QueryAllowancesByGranterRequest_Granter (λ v m, mk_feegrant_QueryAllowancesByGranterRequest
    v (feegrant_QueryAllowancesByGranterRequest_Pagination m));
  pointer_field im_codec im_zero 2 feegrant_QueryAllowancesByGranterRequest_Pagination (λ v m,
    mk_feegrant_QueryAllowancesByGranterRequest (feegrant_QueryAllowancesByGranterRequest_Granter m) v)].
Definition feegrant_QueryAllowancesByGranterRequest_zero : feegrant_QueryAllowancesByGranterRequest := mk_feegrant_QueryAllowancesByGranterRequest "" None.
#[global] Instance feegrant_QueryAllowancesByGranterRequest_spec : MsgSpec feegrant_QueryAllowancesByGranterRequest_fields feegrant_QueryAllowancesByGranterRequest_zero.
Proof. msg_spec. Defined.

Record feegrant_QueryAllowancesByGranterResponse := mk_feegrant_QueryAllowancesByGranterResponse {
  feegrant_QueryAllowancesByGranterResponse_Allowances : list FeeGrant;
  feegrant_QueryAllowancesByGranterResponse_Pagination : option PageResponse }.
Definition feegrant_QueryAllowancesByGranterResponse_fields : list (Field feegrant_QueryAllowancesByGranterResponse) := [
  messages_field im_codec im_zero 1 feegrant_QueryAllowancesByGranterResponse_Allowances (λ v m,
    mk_feegrant_QueryAllowancesByGranterResponse v (feegrant_QueryAllowancesByGranterResponse_Pagination m));
  pointer_field im_codec im_zero 2 feegrant_QueryAllowancesByGranterResponse_Pagination (λ v m,
    mk_feegrant_QueryAllowancesByGranterResponse (feegrant_QueryAllowancesByGranterResponse_Allowances m) v)].
Definition feegrant_QueryAllowancesByGranterResponse_zero : feegrant_QueryAllowancesByGranterResponse := mk_feegrant_QueryAllowancesByGranterResponse [] None.
#[global] Instance feegrant_QueryAllowancesByGranterResponse_spec : MsgSpec feegrant_QueryAllowancesByGranterResponse_fields feegrant_QueryAllowancesByGranterResponse_zero.
Proof. msg_spec. Defined.

Definition indexer_messages_imported : list Message := [
  message authz_QueryGrantsRequest_fields authz_QueryGrantsRequest_zero;
  message authz_QueryGrantsResponse_fields authz_QueryGrantsResponse_zero;
  message authz_QueryGranterGrantsRequest_fields authz_QueryGranterGrantsRequest_zero;
  message authz_QueryGranterGrantsResponse_fields authz_QueryGranterGrantsResponse_zero;
  message authz_QueryGranteeGrantsRequest_fields authz_QueryGranteeGrantsRequest_zero;
  message authz_QueryGranteeGrantsResponse_fields authz_QueryGranteeGrantsResponse_zero;
  message feegrant_QueryAllowanceResponse_fields feegrant_QueryAllowanceResponse_zero;
  message feegrant_QueryAllowancesRequest_fields feegrant_QueryAllowancesRequest_zero;
  message feegrant_QueryAllowancesResponse_fields feegrant_QueryAllowancesResponse_zero;
  message feegrant_QueryAllowancesByGranterRequest_fields feegrant_QueryAllowancesByGranterRequest_zero;
  message feegrant_QueryAllowancesByGranterResponse_fields feegrant_QueryAllowancesByGranterResponse_zero ].

Lemma indexer_messages_imported_ok : Forall message_ok indexer_messages_imported.
Proof. messages_ok. Qed.
End imported.
