(* ===== verification/ApiJwk.v ===== *)
(** * src/api/xion/jwk: the messages

    As the [Proto] file of the module, for the second set of messages: the fields of every
    message for [ProtoMethods] and for reflection, and its agreement with the message of the
    first set. *)

From S2P Require Import Prelude GoStd ProtoWire ProtoCodec PulsarWire PulsarCodec PulsarReflect PulsarLists PulsarAgree.
From S2P Require Import ProtoJwk.

Section api.
Context {I : Type} `{Rt : !PulsarRuntime, Op : !ProtoOptions, RtL : !PulsarRuntimeLaws, OpL : !ProtoOptionsLaws}.
Context {PageRequest PageResponse : Type} `{IPageRequest : !ImportedMsg PageRequest,
  IPageResponse : !ImportedMsg PageResponse}.
Context `{LPageRequest : !ImportedLaws PageRequest, LPageResponse : !ImportedLaws PageResponse}.
(** The message types of the dependencies in this set, and the counterparts of values *)
Context {PageRequest_api PageResponse_api : Type} `{IAPageRequest : !ImportedApi PageRequest_api,
  IAPageResponse : !ImportedApi PageResponse_api}.
Context `{LAPageRequest : !ImportedApiLaws PageRequest_api, LAPageResponse : !ImportedApiLaws PageResponse_api}.
Context (PageRequest_conv : PageRequest → PageRequest_api) (PageResponse_conv : PageResponse → PageResponse_api).
Context `{CAPageRequest : !CodecAgrees im_codec im_zero ia_methods ia_zero PageRequest_conv,
  CAPageResponse : !CodecAgrees im_codec im_zero ia_methods ia_zero PageResponse_conv}.

(** ** Data: the fields that are known *)
Record api_jwk_Audience := mk_api_jwk_Audience { api_jwk_Audience_Aud : string; api_jwk_Audience_Key : string;
  api_jwk_Audience_Admin : string }.
Record api_jwk_AudienceClaim := mk_api_jwk_AudienceClaim { api_jwk_AudienceClaim_Signer : string }.
Record api_jwk_Params := mk_api_jwk_Params { api_jwk_Params_TimeOffset : Z; api_jwk_Params_DeploymentGas : Z }.
Record api_jwk_GenesisState := mk_api_jwk_GenesisState { api_jwk_GenesisState_Params : option (Pulsar api_jwk_Params);
  api_jwk_GenesisState_AudienceList : list (Pulsar api_jwk_Audience) }.
Record api_jwk_QueryParamsResponse := mk_api_jwk_QueryParamsResponse {
  api_jwk_QueryParamsResponse_Params : option (Pulsar api_jwk_Params) }.
Record api_jwk_QueryAudienceClaimRequest := mk_api_jwk_QueryAudienceClaimRequest {
  api_jwk_QueryAudienceClaimRequest_Hash : string }.
Record api_jwk_QueryAudienceClaimResponse := mk_api_jwk_QueryAudienceClaimResponse {
  api_jwk_QueryAudienceClaimResponse_Claim : option (Pulsar api_jwk_AudienceClaim) }.
Record api_jwk_QueryGetAudienceClaimRequest := mk_api_jwk_QueryGetAudienceClaimRequest {
  api_jwk_QueryGetAudienceClaimRequest_Hash : string }.
Record api_jwk_QueryGetAudienceClaimResponse := mk_api_jwk_QueryGetAudienceClaimResponse {
  api_jwk_QueryGetAudienceClaimResponse_Claim : option (Pulsar api_jwk_AudienceClaim) }.
Record api_jwk_QueryAudienceRequest := mk_api_jwk_QueryAudienceRequest { api_jwk_QueryAudienceRequest_Aud : string }.
Record api_jwk_QueryAudienceResponse := mk_api_jwk_QueryAudienceResponse {
  api_jwk_QueryAudienceResponse_Audience : option (Pulsar api_jwk_Audience) }.
Record api_jwk_QueryGetAudienceRequest := mk_api_jwk_QueryGetAudienceRequest {
  api_jwk_QueryGetAudienceRequest_Aud : string }.
Record api_jwk_QueryGetAudienceResponse := mk_api_jwk_QueryGetAudienceResponse {
  api_jwk_QueryGetAudienceResponse_Audience : option (Pulsar api_jwk_Audience) }.
Record api_jwk_QueryAudienceAllRequest := mk_api_jwk_QueryAudienceAllRequest {
  api_jwk_QueryAudienceAllRequest_Pagination : option PageRequest_api }.
Record api_jwk_QueryAudienceAllResponse := mk_api_jwk_QueryAudienceAllResponse {
  api_jwk_QueryAudienceAllResponse_Audience : list (Pulsar api_jwk_Audience);
  api_jwk_QueryAudienceAllResponse_Pagination : option PageResponse_api }.
Record api_jwk_QueryAllAudienceRequest := mk_api_jwk_QueryAllAudienceRequest {
  api_jwk_QueryAllAudienceRequest_Pagination : option PageRequest_api }.
Record api_jwk_QueryAllAudienceResponse := mk_api_jwk_QueryAllAudienceResponse {
  api_jwk_QueryAllAudienceResponse_Audience : list (Pulsar api_jwk_Audience);
  api_jwk_QueryAllAudienceResponse_Pagination : option PageResponse_api }.
Record api_jwk_QueryValidateJWTRequest := mk_api_jwk_QueryValidateJWTRequest {
  api_jwk_QueryValidateJWTRequest_Aud : string; api_jwk_QueryValidateJWTRequest_Sub : string;
  api_jwk_QueryValidateJWTRequest_SigBytes : string }.
Record api_jwk_PrivateClaim := mk_api_jwk_PrivateClaim { api_jwk_PrivateClaim_Key : string;
  api_jwk_PrivateClaim_Value : string }.
Record api_jwk_QueryValidateJWTResponse := mk_api_jwk_QueryValidateJWTResponse {
  api_jwk_QueryValidateJWTResponse_PrivateClaims : list (Pulsar api_jwk_PrivateClaim) }.
Record api_jwk_QueryVerifyJWSRequest := mk_api_jwk_QueryVerifyJWSRequest { api_jwk_QueryVerifyJWSRequest_Aud : string;
  api_jwk_QueryVerifyJWSRequest_SigBytes : string }.
Record api_jwk_QueryVerifyJWSResponse := mk_api_jwk_QueryVerifyJWSResponse {
  api_jwk_QueryVerifyJWSResponse_Payload : string }.
Record api_jwk_QueryDecodeJWTRequest := mk_api_jwk_QueryDecodeJWTRequest { api_jwk_QueryDecodeJWTRequest_Aud : string;
  api_jwk_QueryDecodeJWTRequest_Sub : string; api_jwk_QueryDecodeJWTRequest_SigBytes : string }.
Record api_jwk_JWTClaim := mk_api_jwk_JWTClaim { api_jwk_JWTClaim_Key : string; api_jwk_JWTClaim_Value : string }.
Record api_jwk_QueryDecodeJWTResponse := mk_api_jwk_QueryDecodeJWTResponse {
  api_jwk_QueryDecodeJWTResponse_Claims : list (Pulsar api_jwk_JWTClaim) }.
Record api_jwk_MsgCreateAudienceClaim := mk_api_jwk_MsgCreateAudienceClaim {
  api_jwk_MsgCreateAudienceClaim_Admin : string; api_jwk_MsgCreateAudienceClaim_AudHash : string }.
Record api_jwk_MsgDeleteAudienceClaim := mk_api_jwk_MsgDeleteAudienceClaim {
  api_jwk_MsgDeleteAudienceClaim_Admin : string; api_jwk_MsgDeleteAudienceClaim_AudHash : string }.
Record api_jwk_MsgCreateAudience := mk_api_jwk_MsgCreateAudience { api_jwk_MsgCreateAudience_Admin : string;
  api_jwk_MsgCreateAudience_Aud : string; api_jwk_MsgCreateAudience_Key : string }.
Record api_jwk_MsgCreateAudienceResponse := mk_api_jwk_MsgCreateAudienceResponse {
  api_jwk_MsgCreateAudienceResponse_Audience : option (Pulsar api_jwk_Audience) }.
Record api_jwk_MsgUpdateAudience := mk_api_jwk_MsgUpdateAudience { api_jwk_MsgUpdateAudience_Admin : string;
  api_jwk_MsgUpdateAudience_NewAdmin : string; api_jwk_MsgUpdateAudience_Aud : string;
  api_jwk_MsgUpdateAudience_Key : string; api_jwk_MsgUpdateAudience_NewAud : string }.
Record api_jwk_MsgUpdateAudienceResponse := mk_api_jwk_MsgUpdateAudienceResponse {
  api_jwk_MsgUpdateAudienceResponse_Audience : option (Pulsar api_jwk_Audience) }.
Record api_jwk_MsgDeleteAudience := mk_api_jwk_MsgDeleteAudience { api_jwk_MsgDeleteAudience_Admin : string;
  api_jwk_MsgDeleteAudience_Aud : string }.

Context `{!GoPointer I (Pulsar api_jwk_Params), !GoPointer I (Pulsar api_jwk_Audience),
  !GoPointer I (Pulsar api_jwk_AudienceClaim), !GoPointer I PageRequest_api, !GoPointer I PageResponse_api,
  !GoPointer I (Pulsar api_jwk_PrivateClaim), !GoPointer I (Pulsar api_jwk_JWTClaim)}.

(** ** [api/xion/jwk/v1/audience.pulsar.go] *)
Definition api_jwk_Audience_fields : list (Field api_jwk_Audience) := [
  pl_string_field 1 api_jwk_Audience_Aud (λ v m, mk_api_jwk_Audience v (api_jwk_Audience_Key m)
    (api_jwk_Audience_Admin m));
  pl_string_field 2 api_jwk_Audience_Key (λ v m, mk_api_jwk_Audience (api_jwk_Audience_Aud m) v
    (api_jwk_Audience_Admin m));
  pl_string_field 3 api_jwk_Audience_Admin (λ v m, mk_api_jwk_Audience (api_jwk_Audience_Aud m) (api_jwk_Audience_Key
    m) v)].
Definition api_jwk_Audience_zero : api_jwk_Audience := mk_api_jwk_Audience "" "" "".
#[global] Instance api_jwk_Audience_spec : PulsarSpec api_jwk_Audience_fields api_jwk_Audience_zero.
Proof. pulsar_spec. Defined.
Definition api_jwk_Audience_reflect : list (RField I api_jwk_Audience) := [
  r_string "xion.jwk.v1.Audience.aud" api_jwk_Audience_Aud (λ v m, mk_api_jwk_Audience v (api_jwk_Audience_Key m)
    (api_jwk_Audience_Admin m));
  r_string "xion.jwk.v1.Audience.key" api_jwk_Audience_Key (λ v m, mk_api_jwk_Audience (api_jwk_Audience_Aud m) v
    (api_jwk_Audience_Admin m));
  r_string "xion.jwk.v1.Audience.admin" api_jwk_Audience_Admin (λ v m, mk_api_jwk_Audience (api_jwk_Audience_Aud m)
    (api_jwk_Audience_Key m) v)].
#[global] Instance api_jwk_Audience_reflect_spec : ReflectSpec api_jwk_Audience_reflect api_jwk_Audience_zero.
Proof. reflect_spec. Defined.
Definition to_api_jwk_Audience (m : Audience) : api_jwk_Audience := mk_api_jwk_Audience (au_Aud m) (au_Key m)
  (au_Admin m).
#[global] Instance api_jwk_Audience_agrees : MessageAgrees jwk_Audience_fields jwk_Audience_zero
  api_jwk_Audience_fields api_jwk_Audience_zero to_api_jwk_Audience.
Proof. message_agree. Defined.

Definition api_jwk_AudienceClaim_fields : list (Field api_jwk_AudienceClaim) := [
  pl_string_field 1 api_jwk_AudienceClaim_Signer (λ v _, mk_api_jwk_AudienceClaim v)].
Definition api_jwk_AudienceClaim_zero : api_jwk_AudienceClaim := mk_api_jwk_AudienceClaim "".
#[global] Instance api_jwk_AudienceClaim_spec : PulsarSpec api_jwk_AudienceClaim_fields api_jwk_AudienceClaim_zero.
Proof. pulsar_spec. Defined.
Definition api_jwk_AudienceClaim_reflect : list (RField I api_jwk_AudienceClaim) := [
  r_string "xion.jwk.v1.AudienceClaim.signer" api_jwk_AudienceClaim_Signer (λ v _, mk_api_jwk_AudienceClaim v)].
#[global] Instance api_jwk_AudienceClaim_reflect_spec : ReflectSpec api_jwk_AudienceClaim_reflect
  api_jwk_AudienceClaim_zero.
Proof. reflect_spec. Defined.
Definition to_api_jwk_AudienceClaim (m : AudienceClaim) : api_jwk_AudienceClaim := mk_api_jwk_AudienceClaim
  (ac_Signer m).
#[global] Instance api_jwk_AudienceClaim_agrees : MessageAgrees jwk_AudienceClaim_fields jwk_AudienceClaim_zero
  api_jwk_AudienceClaim_fields api_jwk_AudienceClaim_zero to_api_jwk_AudienceClaim.
Proof. message_agree. Defined.

(** ** [api/xion/jwk/v1/params.pulsar.go] *)
Definition api_jwk_Params_fields : list (Field api_jwk_Params) := [
  pl_int_field id 1 api_jwk_Params_TimeOffset (λ v m, mk_api_jwk_Params v (api_jwk_Params_DeploymentGas m));
  pl_int_field id 2 api_jwk_Params_DeploymentGas (λ v m, mk_api_jwk_Params (api_jwk_Params_TimeOffset m) v)].
Definition api_jwk_Params_zero : api_jwk_Params := mk_api_jwk_Params 0 0.
#[global] Instance api_jwk_Params_spec : PulsarSpec api_jwk_Params_fields api_jwk_Params_zero.
Proof. pulsar_spec. Defined.
Definition api_jwk_Params_reflect : list (RField I api_jwk_Params) := [
  r_uint64 "xion.jwk.v1.Params.time_offset" api_jwk_Params_TimeOffset (λ v m, mk_api_jwk_Params v
    (api_jwk_Params_DeploymentGas m));
  r_uint64 "xion.jwk.v1.Params.deployment_gas" api_jwk_Params_DeploymentGas (λ v m, mk_api_jwk_Params
    (api_jwk_Params_TimeOffset m) v)].
#[global] Instance api_jwk_Params_reflect_spec : ReflectSpec api_jwk_Params_reflect api_jwk_Params_zero.
Proof. reflect_spec. Defined.
Definition to_api_jwk_Params (m : JwkParams) : api_jwk_Params := mk_api_jwk_Params (TimeOffset m) (DeploymentGas m).
#[global] Instance api_jwk_Params_agrees : MessageAgrees jwk_Params_fields jwk_Params_zero api_jwk_Params_fields
  api_jwk_Params_zero to_api_jwk_Params.
Proof. message_agree. Defined.

(** ** [api/xion/jwk/v1/genesis.pulsar.go] *)
Definition api_jwk_GenesisState_fields : list (Field api_jwk_GenesisState) := [
  pl_pointer_field (ProtoMethods api_jwk_Params_fields) (fresh api_jwk_Params_zero) 1 api_jwk_GenesisState_Params (λ v
    m, mk_api_jwk_GenesisState v (api_jwk_GenesisState_AudienceList m));
  pl_messages_field (ProtoMethods api_jwk_Audience_fields) (fresh api_jwk_Audience_zero) 2
    api_jwk_GenesisState_AudienceList (λ v m, mk_api_jwk_GenesisState (api_jwk_GenesisState_Params m) v)].
Definition api_jwk_GenesisState_zero : api_jwk_GenesisState := mk_api_jwk_GenesisState None [].
#[global] Instance api_jwk_GenesisState_spec : PulsarSpec api_jwk_GenesisState_fields api_jwk_GenesisState_zero.
Proof. pulsar_spec. Defined.
Definition api_jwk_GenesisState_reflect : list (RField I api_jwk_GenesisState) := [
  r_message (fresh api_jwk_Params_zero) "xion.jwk.v1.GenesisState.params" api_jwk_GenesisState_Params (λ v m,
    mk_api_jwk_GenesisState v (api_jwk_GenesisState_AudienceList m));
  r_messages "_GenesisState_2_list" "xion.jwk.v1.GenesisState.audience_list" api_jwk_GenesisState_AudienceList (λ v m,
    mk_api_jwk_GenesisState (api_jwk_GenesisState_Params m) v)].
#[global] Instance api_jwk_GenesisState_reflect_spec : ReflectSpec api_jwk_GenesisState_reflect
  api_jwk_GenesisState_zero.
Proof. reflect_spec. Defined.
Definition api_jwk_GenesisState_2_list : ListKind I (option (Pulsar api_jwk_Audience)) := message_list (fresh api_jwk_Audience_zero).
Definition to_api_jwk_GenesisState (m : JwkGenesis) : api_jwk_GenesisState := mk_api_jwk_GenesisState
  (Some ((api to_api_jwk_Params) (jg_Params m))) ((api to_api_jwk_Audience) <$> jg_AudienceList m).
#[global] Instance api_jwk_GenesisState_agrees : MessageAgrees jwk_GenesisState_fields jwk_GenesisState_zero
  api_jwk_GenesisState_fields api_jwk_GenesisState_zero to_api_jwk_GenesisState.
Proof. message_agree. Defined.

(** ** [api/xion/jwk/v1/query.pulsar.go] *)
Definition api_jwk_QueryParamsResponse_fields : list (Field api_jwk_QueryParamsResponse) := [
  pl_pointer_field (ProtoMethods api_jwk_Params_fields) (fresh api_jwk_Params_zero) 1
    api_jwk_QueryParamsResponse_Params (λ v _, mk_api_jwk_QueryParamsResponse v)].
Definition api_jwk_QueryParamsResponse_zero : api_jwk_QueryParamsResponse := mk_api_jwk_QueryParamsResponse None.
#[global] Instance api_jwk_QueryParamsResponse_spec : PulsarSpec api_jwk_QueryParamsResponse_fields api_jwk_QueryParamsResponse_zero.
Proof. pulsar_spec. Defined.
Definition api_jwk_QueryParamsResponse_reflect : list (RField I api_jwk_QueryParamsResponse) := [
  r_message (fresh api_jwk_Params_zero) "xion.jwk.v1.QueryParamsResponse.params" api_jwk_QueryParamsResponse_Params (λ
    v _, mk_api_jwk_QueryParamsResponse v)].
#[global] Instance api_jwk_QueryParamsResponse_reflect_spec : ReflectSpec api_jwk_QueryParamsResponse_reflect
  api_jwk_QueryParamsResponse_zero.
Proof. reflect_spec. Defined.
Definition to_api_jwk_QueryParamsResponse (m : jwk_QueryParamsResponse) : api_jwk_QueryParamsResponse :=
  mk_api_jwk_QueryParamsResponse (Some ((api to_api_jwk_Params) (jwk_QueryParamsResponse_Params m))).
#[global] Instance api_jwk_QueryParamsResponse_agrees : MessageAgrees jwk_QueryParamsResponse_fields
  jwk_QueryParamsResponse_zero api_jwk_QueryParamsResponse_fields api_jwk_QueryParamsResponse_zero
  to_api_jwk_QueryParamsResponse.
Proof. message_agree. Defined.

Definition api_jwk_QueryAudienceClaimRequest_fields : list (Field api_jwk_QueryAudienceClaimRequest) := [
  pl_string_field 1 api_jwk_QueryAudienceClaimRequest_Hash (λ v _, mk_api_jwk_QueryAudienceClaimRequest v)].
Definition api_jwk_QueryAudienceClaimRequest_zero : api_jwk_QueryAudienceClaimRequest := mk_api_jwk_QueryAudienceClaimRequest "".
#[global] Instance api_jwk_QueryAudienceClaimRequest_spec : PulsarSpec api_jwk_QueryAudienceClaimRequest_fields api_jwk_QueryAudienceClaimRequest_zero.
Proof. pulsar_spec. Defined.
Definition api_jwk_QueryAudienceClaimRequest_reflect : list (RField I api_jwk_QueryAudienceClaimRequest) := [
  r_bytes "xion.jwk.v1.QueryAudienceClaimRequest.hash" api_jwk_QueryAudienceClaimRequest_Hash (λ v _,
    mk_api_jwk_QueryAudienceClaimRequest v)].
#[global] Instance api_jwk_QueryAudienceClaimRequest_reflect_spec : ReflectSpec
  api_jwk_QueryAudienceClaimRequest_reflect api_jwk_QueryAudienceClaimRequest_zero.
Proof. reflect_spec. Defined.
Definition to_api_jwk_QueryAudienceClaimRequest (m : jwk_QueryAudienceClaimRequest) :
  api_jwk_QueryAudienceClaimRequest := mk_api_jwk_QueryAudienceClaimRequest (jwk_QueryAudienceClaimRequest_Hash m).
#[global] Instance api_jwk_QueryAudienceClaimRequest_agrees : MessageAgrees jwk_QueryAudienceClaimRequest_fields
  jwk_QueryAudienceClaimRequest_zero api_jwk_QueryAudienceClaimRequest_fields api_jwk_QueryAudienceClaimRequest_zero
  to_api_jwk_QueryAudienceClaimRequest.
Proof. message_agree. Defined.

Definition api_jwk_QueryAudienceClaimResponse_fields : list (Field api_jwk_QueryAudienceClaimResponse) := [
  pl_pointer_field (ProtoMethods api_jwk_AudienceClaim_fields) (fresh api_jwk_AudienceClaim_zero) 1
    api_jwk_QueryAudienceClaimResponse_Claim (λ v _, mk_api_jwk_QueryAudienceClaimResponse v)].
Definition api_jwk_QueryAudienceClaimResponse_zero : api_jwk_QueryAudienceClaimResponse := mk_api_jwk_QueryAudienceClaimResponse None.
#[global] Instance api_jwk_QueryAudienceClaimResponse_spec : PulsarSpec api_jwk_QueryAudienceClaimResponse_fields api_jwk_QueryAudienceClaimResponse_zero.
Proof. pulsar_spec. Defined.
Definition api_jwk_QueryAudienceClaimResponse_reflect : list (RField I api_jwk_QueryAudienceClaimResponse) := [
  r_message (fresh api_jwk_AudienceClaim_zero) "xion.jwk.v1.QueryAudienceClaimResponse.claim"
    api_jwk_QueryAudienceClaimResponse_Claim (λ v _, mk_api_jwk_QueryAudienceClaimResponse v)].
#[global] Instance api_jwk_QueryAudienceClaimResponse_reflect_spec : ReflectSpec
  api_jwk_QueryAudienceClaimResponse_reflect api_jwk_QueryAudienceClaimResponse_zero.
Proof. reflect_spec. Defined.
Definition to_api_jwk_QueryAudienceClaimResponse (m : jwk_QueryAudienceClaimResponse) :
  api_jwk_QueryAudienceClaimResponse := mk_api_jwk_QueryAudienceClaimResponse
  ((api to_api_jwk_AudienceClaim) <$> jwk_QueryAudienceClaimResponse_Claim m).
#[global] Instance api_jwk_QueryAudienceClaimResponse_agrees : MessageAgrees jwk_QueryAudienceClaimResponse_fields
  jwk_QueryAudienceClaimResponse_zero api_jwk_QueryAudienceClaimResponse_fields
  api_jwk_QueryAudienceClaimResponse_zero to_api_jwk_QueryAudienceClaimResponse.
Proof. message_agree. Defined.

Definition api_jwk_QueryGetAudienceClaimRequest_fields : list (Field api_jwk_QueryGetAudienceClaimRequest) := [
  pl_string_field 1 api_jwk_QueryGetAudienceClaimRequest_Hash (λ v _, mk_api_jwk_QueryGetAudienceClaimRequest v)].
Definition api_jwk_QueryGetAudienceClaimRequest_zero : api_jwk_QueryGetAudienceClaimRequest := mk_api_jwk_QueryGetAudienceClaimRequest "".
#[global] Instance api_jwk_QueryGetAudienceClaimRequest_spec : PulsarSpec api_jwk_QueryGetAudienceClaimRequest_fields api_jwk_QueryGetAudienceClaimRequest_zero.
Proof. pulsar_spec. Defined.
Definition api_jwk_QueryGetAudienceClaimRequest_reflect : list (RField I api_jwk_QueryGetAudienceClaimRequest) := [
  r_bytes "xion.jwk.v1.QueryGetAudienceClaimRequest.hash" api_jwk_QueryGetAudienceClaimRequest_Hash (λ v _,
    mk_api_jwk_QueryGetAudienceClaimRequest v)].
#[global] Instance api_jwk_QueryGetAudienceClaimRequest_reflect_spec : ReflectSpec
  api_jwk_QueryGetAudienceClaimRequest_reflect api_jwk_QueryGetAudienceClaimRequest_zero.
Proof. reflect_spec. Defined.
Definition to_api_jwk_QueryGetAudienceClaimRequest (m : jwk_QueryGetAudienceClaimRequest) :
  api_jwk_QueryGetAudienceClaimRequest := mk_api_jwk_QueryGetAudienceClaimRequest
  (jwk_QueryGetAudienceClaimRequest_Hash m).
#[global] Instance api_jwk_QueryGetAudienceClaimRequest_agrees : MessageAgrees jwk_QueryGetAudienceClaimRequest_fields
  jwk_QueryGetAudienceClaimRequest_zero api_jwk_QueryGetAudienceClaimRequest_fields
  api_jwk_QueryGetAudienceClaimRequest_zero to_api_jwk_QueryGetAudienceClaimRequest.
Proof. message_agree. Defined.

Definition api_jwk_QueryGetAudienceClaimResponse_fields : list (Field api_jwk_QueryGetAudienceClaimResponse) := [
  pl_pointer_field (ProtoMethods api_jwk_AudienceClaim_fields) (fresh api_jwk_AudienceClaim_zero) 1
    api_jwk_QueryGetAudienceClaimResponse_Claim (λ v _, mk_api_jwk_QueryGetAudienceClaimResponse v)].
Definition api_jwk_QueryGetAudienceClaimResponse_zero : api_jwk_QueryGetAudienceClaimResponse := mk_api_jwk_QueryGetAudienceClaimResponse None.
#[global] Instance api_jwk_QueryGetAudienceClaimResponse_spec : PulsarSpec api_jwk_QueryGetAudienceClaimResponse_fields api_jwk_QueryGetAudienceClaimResponse_zero.
Proof. pulsar_spec. Defined.
Definition api_jwk_QueryGetAudienceClaimResponse_reflect : list (RField I api_jwk_QueryGetAudienceClaimResponse) := [
  r_message (fresh api_jwk_AudienceClaim_zero) "xion.jwk.v1.QueryGetAudienceClaimResponse.claim"
    api_jwk_QueryGetAudienceClaimResponse_Claim (λ v _, mk_api_jwk_QueryGetAudienceClaimResponse v)].
#[global] Instance api_jwk_QueryGetAudienceClaimResponse_reflect_spec : ReflectSpec
  api_jwk_QueryGetAudienceClaimResponse_reflect api_jwk_QueryGetAudienceClaimResponse_zero.
Proof. reflect_spec. Defined.
Definition to_api_jwk_QueryGetAudienceClaimResponse (m : jwk_QueryGetAudienceClaimResponse) :
  api_jwk_QueryGetAudienceClaimResponse := mk_api_jwk_QueryGetAudienceClaimResponse
  ((api to_api_jwk_AudienceClaim) <$> jwk_QueryGetAudienceClaimResponse_Claim m).
#[global] Instance api_jwk_QueryGetAudienceClaimResponse_agrees : MessageAgrees
  jwk_QueryGetAudienceClaimResponse_fields jwk_QueryGetAudienceClaimResponse_zero
  api_jwk_QueryGetAudienceClaimResponse_fields api_jwk_QueryGetAudienceClaimResponse_zero
  to_api_jwk_QueryGetAudienceClaimResponse.
Proof. message_agree. Defined.

Definition api_jwk_QueryAudienceRequest_fields : list (Field api_jwk_QueryAudienceRequest) := [
  pl_string_field 1 api_jwk_QueryAudienceRequest_Aud (λ v _, mk_api_jwk_QueryAudienceRequest v)].
Definition api_jwk_QueryAudienceRequest_zero : api_jwk_QueryAudienceRequest := mk_api_jwk_QueryAudienceRequest "".
#[global] Instance api_jwk_QueryAudienceRequest_spec : PulsarSpec api_jwk_QueryAudienceRequest_fields api_jwk_QueryAudienceRequest_zero.
Proof. pulsar_spec. Defined.
Definition api_jwk_QueryAudienceRequest_reflect : list (RField I api_jwk_QueryAudienceRequest) := [
  r_string "xion.jwk.v1.QueryAudienceRequest.aud" api_jwk_QueryAudienceRequest_Aud (λ v _,
    mk_api_jwk_QueryAudienceRequest v)].
#[global] Instance api_jwk_QueryAudienceRequest_reflect_spec : ReflectSpec api_jwk_QueryAudienceRequest_reflect
  api_jwk_QueryAudienceRequest_zero.
Proof. reflect_spec. Defined.
Definition to_api_jwk_QueryAudienceRequest (m : jwk_QueryAudienceRequest) : api_jwk_QueryAudienceRequest :=
  mk_api_jwk_QueryAudienceRequest (jwk_QueryAudienceRequest_Aud m).
#[global] Instance api_jwk_QueryAudienceRequest_agrees : MessageAgrees jwk_QueryAudienceRequest_fields
  jwk_QueryAudienceRequest_zero api_jwk_QueryAudienceRequest_fields api_jwk_QueryAudienceRequest_zero
  to_api_jwk_QueryAudienceRequest.
Proof. message_agree. Defined.

Definition api_jwk_QueryAudienceResponse_fields : list (Field api_jwk_QueryAudienceResponse) := [
  pl_pointer_field (ProtoMethods api_jwk_Audience_fields) (fresh api_jwk_Audience_zero) 1
    api_jwk_QueryAudienceResponse_Audience (λ v _, mk_api_jwk_QueryAudienceResponse v)].
Definition api_jwk_QueryAudienceResponse_zero : api_jwk_QueryAudienceResponse := mk_api_jwk_QueryAudienceResponse None.
#[global] Instance api_jwk_QueryAudienceResponse_spec : PulsarSpec api_jwk_QueryAudienceResponse_fields api_jwk_QueryAudienceResponse_zero.
Proof. pulsar_spec. Defined.
Definition api_jwk_QueryAudienceResponse_reflect : list (RField I api_jwk_QueryAudienceResponse) := [
  r_message (fresh api_jwk_Audience_zero) "xion.jwk.v1.QueryAudienceResponse.audience"
    api_jwk_QueryAudienceResponse_Audience (λ v _, mk_api_jwk_QueryAudienceResponse v)].
#[global] Instance api_jwk_QueryAudienceResponse_reflect_spec : ReflectSpec api_jwk_QueryAudienceResponse_reflect
  api_jwk_QueryAudienceResponse_zero.
Proof. reflect_spec. Defined.
Definition to_api_jwk_QueryAudienceResponse (m : jwk_QueryAudienceResponse) : api_jwk_QueryAudienceResponse :=
  mk_api_jwk_QueryAudienceResponse (Some ((api to_api_jwk_Audience) (jwk_QueryAudienceResponse_Audience m))).
#[global] Instance api_jwk_QueryAudienceResponse_agrees : MessageAgrees jwk_QueryAudienceResponse_fields
  jwk_QueryAudienceResponse_zero api_jwk_QueryAudienceResponse_fields api_jwk_QueryAudienceResponse_zero
  to_api_jwk_QueryAudienceResponse.
Proof. message_agree. Defined.

Definition api_jwk_QueryGetAudienceRequest_fields : list (Field api_jwk_QueryGetAudienceRequest) := [
  pl_string_field 1 api_jwk_QueryGetAudienceRequest_Aud (λ v _, mk_api_jwk_QueryGetAudienceRequest v)].
Definition api_jwk_QueryGetAudienceRequest_zero : api_jwk_QueryGetAudienceRequest := mk_api_jwk_QueryGetAudienceRequest "".
#[global] Instance api_jwk_QueryGetAudienceRequest_spec : PulsarSpec api_jwk_QueryGetAudienceRequest_fields api_jwk_QueryGetAudienceRequest_zero.
Proof. pulsar_spec. Defined.
Definition api_jwk_QueryGetAudienceRequest_reflect : list (RField I api_jwk_QueryGetAudienceRequest) := [
  r_string "xion.jwk.v1.QueryGetAudienceRequest.aud" api_jwk_QueryGetAudienceRequest_Aud (λ v _,
    mk_api_jwk_QueryGetAudienceRequest v)].
#[global] Instance api_jwk_QueryGetAudienceRequest_reflect_spec : ReflectSpec api_jwk_QueryGetAudienceRequest_reflect
  api_jwk_QueryGetAudienceRequest_zero.
Proof. reflect_spec. Defined.
Definition to_api_jwk_QueryGetAudienceRequest (m : jwk_QueryGetAudienceRequest) : api_jwk_QueryGetAudienceRequest :=
  mk_api_jwk_QueryGetAudienceRequest (jwk_QueryGetAudienceRequest_Aud m).
#[global] Instance api_jwk_QueryGetAudienceRequest_agrees : MessageAgrees jwk_QueryGetAudienceRequest_fields
  jwk_QueryGetAudienceRequest_zero api_jwk_QueryGetAudienceRequest_fields api_jwk_QueryGetAudienceRequest_zero
  to_api_jwk_QueryGetAudienceRequest.
Proof. message_agree. Defined.

Definition api_jwk_QueryGetAudienceResponse_fields : list (Field api_jwk_QueryGetAudienceResponse) := [
  pl_pointer_field (ProtoMethods api_jwk_Audience_fields) (fresh api_jwk_Audience_zero) 1
    api_jwk_QueryGetAudienceResponse_Audience (λ v _, mk_api_jwk_QueryGetAudienceResponse v)].
Definition api_jwk_QueryGetAudienceResponse_zero : api_jwk_QueryGetAudienceResponse := mk_api_jwk_QueryGetAudienceResponse None.
#[global] Instance api_jwk_QueryGetAudienceResponse_spec : PulsarSpec api_jwk_QueryGetAudienceResponse_fields api_jwk_QueryGetAudienceResponse_zero.
Proof. pulsar_spec. Defined.
Definition api_jwk_QueryGetAudienceResponse_reflect : list (RField I api_jwk_QueryGetAudienceResponse) := [
  r_message (fresh api_jwk_Audience_zero) "xion.jwk.v1.QueryGetAudienceResponse.audience"
    api_jwk_QueryGetAudienceResponse_Audience (λ v _, mk_api_jwk_QueryGetAudienceResponse v)].
#[global] Instance api_jwk_QueryGetAudienceResponse_reflect_spec : ReflectSpec
  api_jwk_QueryGetAudienceResponse_reflect api_jwk_QueryGetAudienceResponse_zero.
Proof. reflect_spec. Defined.
Definition to_api_jwk_QueryGetAudienceResponse (m : jwk_QueryGetAudienceResponse) : api_jwk_QueryGetAudienceResponse
  := mk_api_jwk_QueryGetAudienceResponse (Some ((api to_api_jwk_Audience) (jwk_QueryGetAudienceResponse_Audience m))).
#[global] Instance api_jwk_QueryGetAudienceResponse_agrees : MessageAgrees jwk_QueryGetAudienceResponse_fields
  jwk_QueryGetAudienceResponse_zero api_jwk_QueryGetAudienceResponse_fields api_jwk_QueryGetAudienceResponse_zero
  to_api_jwk_QueryGetAudienceResponse.
Proof. message_agree. Defined.

Definition api_jwk_QueryAudienceAllRequest_fields : list (Field api_jwk_QueryAudienceAllRequest) := [
  pl_pointer_field ia_methods ia_zero 1 api_jwk_QueryAudienceAllRequest_Pagination (λ v _,
    mk_api_jwk_QueryAudienceAllRequest v)].
Definition api_jwk_QueryAudienceAllRequest_zero : api_jwk_QueryAudienceAllRequest := mk_api_jwk_QueryAudienceAllRequest None.
#[global] Instance api_jwk_QueryAudienceAllRequest_spec : PulsarSpec api_jwk_QueryAudienceAllRequest_fields api_jwk_QueryAudienceAllRequest_zero.
Proof. pulsar_spec. Defined.
Definition api_jwk_QueryAudienceAllRequest_reflect : list (RField I api_jwk_QueryAudienceAllRequest) := [
  r_message ia_zero "xion.jwk.v1.QueryAudienceAllRequest.pagination" api_jwk_QueryAudienceAllRequest_Pagination (λ v
    _, mk_api_jwk_QueryAudienceAllRequest v)].
#[global] Instance api_jwk_QueryAudienceAllRequest_reflect_spec : ReflectSpec api_jwk_QueryAudienceAllRequest_reflect
  api_jwk_QueryAudienceAllRequest_zero.
Proof. reflect_spec. Defined.
Definition to_api_jwk_QueryAudienceAllRequest (m : jwk_QueryAudienceAllRequest) : api_jwk_QueryAudienceAllRequest :=
  mk_api_jwk_QueryAudienceAllRequest (PageRequest_conv <$> jwk_QueryAudienceAllRequest_Pagination m).
#[global] Instance api_jwk_QueryAudienceAllRequest_agrees : MessageAgrees jwk_QueryAudienceAllRequest_fields
  jwk_QueryAudienceAllRequest_zero api_jwk_QueryAudienceAllRequest_fields api_jwk_QueryAudienceAllRequest_zero
  to_api_jwk_QueryAudienceAllRequest.
Proof. message_agree. Defined.

Definition api_jwk_QueryAudienceAllResponse_fields : list (Field api_jwk_QueryAudienceAllResponse) := [
  pl_messages_field (ProtoMethods api_jwk_Audience_fields) (fresh api_jwk_Audience_zero) 1
    api_jwk_QueryAudienceAllResponse_Audience (λ v m, mk_api_jwk_QueryAudienceAllResponse v
    (api_jwk_QueryAudienceAllResponse_Pagination m));
  pl_pointer_field ia_methods ia_zero 2 api_jwk_QueryAudienceAllResponse_Pagination (λ v m,
    mk_api_jwk_QueryAudienceAllResponse (api_jwk_QueryAudienceAllResponse_Audience m) v)].
Definition api_jwk_QueryAudienceAllResponse_zero : api_jwk_QueryAudienceAllResponse := mk_api_jwk_QueryAudienceAllResponse [] None.
#[global] Instance api_jwk_QueryAudienceAllResponse_spec : PulsarSpec api_jwk_QueryAudienceAllResponse_fields api_jwk_QueryAudienceAllResponse_zero.
Proof. pulsar_spec. Defined.
Definition api_jwk_QueryAudienceAllResponse_reflect : list (RField I api_jwk_QueryAudienceAllResponse) := [
  r_messages "_QueryAudienceAllResponse_1_list" "xion.jwk.v1.QueryAudienceAllResponse.audience"
    api_jwk_QueryAudienceAllResponse_Audience (λ v m, mk_api_jwk_QueryAudienceAllResponse v
    (api_jwk_QueryAudienceAllResponse_Pagination m));
  r_message ia_zero "xion.jwk.v1.QueryAudienceAllResponse.pagination" api_jwk_QueryAudienceAllResponse_Pagination (λ v
    m, mk_api_jwk_QueryAudienceAllResponse (api_jwk_QueryAudienceAllResponse_Audience m) v)].
#[global] Instance api_jwk_QueryAudienceAllResponse_reflect_spec : ReflectSpec
  api_jwk_QueryAudienceAllResponse_reflect api_jwk_QueryAudienceAllResponse_zero.
Proof. reflect_spec. Defined.
Definition api_jwk_QueryAudienceAllResponse_1_list : ListKind I (option (Pulsar api_jwk_Audience)) := message_list (fresh api_jwk_Audience_zero).
Definition to_api_jwk_QueryAudienceAllResponse (m : jwk_QueryAudienceAllResponse) : api_jwk_QueryAudienceAllResponse
  := mk_api_jwk_QueryAudienceAllResponse ((api to_api_jwk_Audience) <$> jwk_QueryAudienceAllResponse_Audience m)
  (PageResponse_conv <$> jwk_QueryAudienceAllResponse_Pagination m).
#[global] Instance api_jwk_QueryAudienceAllResponse_agrees : MessageAgrees jwk_QueryAudienceAllResponse_fields
  jwk_QueryAudienceAllResponse_zero api_jwk_QueryAudienceAllResponse_fields api_jwk_QueryAudienceAllResponse_zero
  to_api_jwk_QueryAudienceAllResponse.
Proof. message_agree. Defined.

Definition api_jwk_QueryAllAudienceRequest_fields : list (Field api_jwk_QueryAllAudienceRequest) := [
  pl_pointer_field ia_methods ia_zero 1 api_jwk_QueryAllAudienceRequest_Pagination (λ v _,
    mk_api_jwk_QueryAllAudienceRequest v)].
Definition api_jwk_QueryAllAudienceRequest_zero : api_jwk_QueryAllAudienceRequest := mk_api_jwk_QueryAllAudienceRequest None.
#[global] Instance api_jwk_QueryAllAudienceRequest_spec : PulsarSpec api_jwk_QueryAllAudienceRequest_fields api_jwk_QueryAllAudienceRequest_zero.
Proof. pulsar_spec. Defined.
Definition api_jwk_QueryAllAudienceRequest_reflect : list (RField I api_jwk_QueryAllAudienceRequest) := [
  r_message ia_zero "xion.jwk.v1.QueryAllAudienceRequest.pagination" api_jwk_QueryAllAudienceRequest_Pagination (λ v
    _, mk_api_jwk_QueryAllAudienceRequest v)].
#[global] Instance api_jwk_QueryAllAudienceRequest_reflect_spec : ReflectSpec api_jwk_QueryAllAudienceRequest_reflect
  api_jwk_QueryAllAudienceRequest_zero.
Proof. reflect_spec. Defined.
Definition to_api_jwk_QueryAllAudienceRequest (m : jwk_QueryAllAudienceRequest) : api_jwk_QueryAllAudienceRequest :=
  mk_api_jwk_QueryAllAudienceRequest (PageRequest_conv <$> jwk_QueryAllAudienceRequest_Pagination m).
#[global] Instance api_jwk_QueryAllAudienceRequest_agrees : MessageAgrees jwk_QueryAllAudienceRequest_fields
  jwk_QueryAllAudienceRequest_zero api_jwk_QueryAllAudienceRequest_fields api_jwk_QueryAllAudienceRequest_zero
  to_api_jwk_QueryAllAudienceRequest.
Proof. message_agree. Defined.

Definition api_jwk_QueryAllAudienceResponse_fields : list (Field api_jwk_QueryAllAudienceResponse) := [
  pl_messages_field (ProtoMethods api_jwk_Audience_fields) (fresh api_jwk_Audience_zero) 1
    api_jwk_QueryAllAudienceResponse_Audience (λ v m, mk_api_jwk_QueryAllAudienceResponse v
    (api_jwk_QueryAllAudienceResponse_Pagination m));
  pl_pointer_field ia_methods ia_zero 2 api_jwk_QueryAllAudienceResponse_Pagination (λ v m,
    mk_api_jwk_QueryAllAudienceResponse (api_jwk_QueryAllAudienceResponse_Audience m) v)].
Definition api_jwk_QueryAllAudienceResponse_zero : api_jwk_QueryAllAudienceResponse := mk_api_jwk_QueryAllAudienceResponse [] None.
#[global] Instance api_jwk_QueryAllAudienceResponse_spec : PulsarSpec api_jwk_QueryAllAudienceResponse_fields api_jwk_QueryAllAudienceResponse_zero.
Proof. pulsar_spec. Defined.
Definition api_jwk_QueryAllAudienceResponse_reflect : list (RField I api_jwk_QueryAllAudienceResponse) := [
  r_messages "_QueryAllAudienceResponse_1_list" "xion.jwk.v1.QueryAllAudienceResponse.audience"
    api_jwk_QueryAllAudienceResponse_Audience (λ v m, mk_api_jwk_QueryAllAudienceResponse v
    (api_jwk_QueryAllAudienceResponse_Pagination m));
  r_message ia_zero "xion.jwk.v1.QueryAllAudienceResponse.pagination" api_jwk_QueryAllAudienceResponse_Pagination (λ v
    m, mk_api_jwk_QueryAllAudienceResponse (api_jwk_QueryAllAudienceResponse_Audience m) v)].
#[global] Instance api_jwk_QueryAllAudienceResponse_reflect_spec : ReflectSpec
  api_jwk_QueryAllAudienceResponse_reflect api_jwk_QueryAllAudienceResponse_zero.
Proof. reflect_spec. Defined.
Definition api_jwk_QueryAllAudienceResponse_1_list : ListKind I (option (Pulsar api_jwk_Audience)) := message_list (fresh api_jwk_Audience_zero).
Definition to_api_jwk_QueryAllAudienceResponse (m : jwk_QueryAllAudienceResponse) : api_jwk_QueryAllAudienceResponse
  := mk_api_jwk_QueryAllAudienceResponse ((api to_api_jwk_Audience) <$> jwk_QueryAllAudienceResponse_Audience m)
  (PageResponse_conv <$> jwk_QueryAllAudienceResponse_Pagination m).
#[global] Instance api_jwk_QueryAllAudienceResponse_agrees : MessageAgrees jwk_QueryAllAudienceResponse_fields
  jwk_QueryAllAudienceResponse_zero api_jwk_QueryAllAudienceResponse_fields api_jwk_QueryAllAudienceResponse_zero
  to_api_jwk_QueryAllAudienceResponse.
Proof. message_agree. Defined.

Definition api_jwk_QueryValidateJWTRequest_fields : list (Field api_jwk_QueryValidateJWTRequest) := [
  pl_string_field 1 api_jwk_QueryValidateJWTRequest_Aud (λ v m, mk_api_jwk_QueryValidateJWTRequest v
    (api_jwk_QueryValidateJWTRequest_Sub m) (api_jwk_QueryValidateJWTRequest_SigBytes m));
  pl_string_field 2 api_jwk_QueryValidateJWTRequest_Sub (λ v m, mk_api_jwk_QueryValidateJWTRequest
    (api_jwk_QueryValidateJWTRequest_Aud m) v (api_jwk_QueryValidateJWTRequest_SigBytes m));
  pl_string_field 3 api_jwk_QueryValidateJWTRequest_SigBytes (λ v m, mk_api_jwk_QueryValidateJWTRequest
    (api_jwk_QueryValidateJWTRequest_Aud m) (api_jwk_QueryValidateJWTRequest_Sub m) v)].
Definition api_jwk_QueryValidateJWTRequest_zero : api_jwk_QueryValidateJWTRequest := mk_api_jwk_QueryValidateJWTRequest "" "" "".
#[global] Instance api_jwk_QueryValidateJWTRequest_spec : PulsarSpec api_jwk_QueryValidateJWTRequest_fields api_jwk_QueryValidateJWTRequest_zero.
Proof. pulsar_spec. Defined.
Definition api_jwk_QueryValidateJWTRequest_reflect : list (RField I api_jwk_QueryValidateJWTRequest) := [
  r_string "xion.jwk.v1.QueryValidateJWTRequest.aud" api_jwk_QueryValidateJWTRequest_Aud (λ v m,
    mk_api_jwk_QueryValidateJWTRequest v (api_jwk_QueryValidateJWTRequest_Sub m)
    (api_jwk_QueryValidateJWTRequest_SigBytes m));
  r_string "xion.jwk.v1.QueryValidateJWTRequest.sub" api_jwk_QueryValidateJWTRequest_Sub (λ v m,
    mk_api_jwk_QueryValidateJWTRequest (api_jwk_QueryValidateJWTRequest_Aud m) v
    (api_jwk_QueryValidateJWTRequest_SigBytes m));
  r_string "xion.jwk.v1.QueryValidateJWTRequest.sig_bytes" api_jwk_QueryValidateJWTRequest_SigBytes (λ v m,
    mk_api_jwk_QueryValidateJWTRequest (api_jwk_QueryValidateJWTRequest_Aud m) (api_jwk_QueryValidateJWTRequest_Sub m)
    v)].
#[global] Instance api_jwk_QueryValidateJWTRequest_reflect_spec : ReflectSpec api_jwk_QueryValidateJWTRequest_reflect
  api_jwk_QueryValidateJWTRequest_zero.
Proof. reflect_spec. Defined.
Definition to_api_jwk_QueryValidateJWTRequest (m : QueryJWTRequest) : api_jwk_QueryValidateJWTRequest :=
  mk_api_jwk_QueryValidateJWTRequest (qj_Aud m) (qj_Sub m) (qj_SigBytes m).
#[global] Instance api_jwk_QueryValidateJWTRequest_agrees : MessageAgrees jwk_QueryValidateJWTRequest_fields
  jwk_QueryValidateJWTRequest_zero api_jwk_QueryValidateJWTRequest_fields api_jwk_QueryValidateJWTRequest_zero
  to_api_jwk_QueryValidateJWTRequest.
Proof. message_agree. Defined.

Definition api_jwk_PrivateClaim_fields : list (Field api_jwk_PrivateClaim) := [
  pl_string_field 1 api_jwk_PrivateClaim_Key (λ v m, mk_api_jwk_PrivateClaim v (api_jwk_PrivateClaim_Value m));
  pl_string_field 2 api_jwk_PrivateClaim_Value (λ v m, mk_api_jwk_PrivateClaim (api_jwk_PrivateClaim_Key m) v)].
Definition api_jwk_PrivateClaim_zero : api_jwk_PrivateClaim := mk_api_jwk_PrivateClaim "" "".
#[global] Instance api_jwk_PrivateClaim_spec : PulsarSpec api_jwk_PrivateClaim_fields api_jwk_PrivateClaim_zero.
Proof. pulsar_spec. Defined.
Definition api_jwk_PrivateClaim_reflect : list (RField I api_jwk_PrivateClaim) := [
  r_string "xion.jwk.v1.PrivateClaim.key" api_jwk_PrivateClaim_Key (λ v m, mk_api_jwk_PrivateClaim v
    (api_jwk_PrivateClaim_Value m));
  r_string "xion.jwk.v1.PrivateClaim.value" api_jwk_PrivateClaim_Value (λ v m, mk_api_jwk_PrivateClaim
    (api_jwk_PrivateClaim_Key m) v)].
#[global] Instance api_jwk_PrivateClaim_reflect_spec : ReflectSpec api_jwk_PrivateClaim_reflect
  api_jwk_PrivateClaim_zero.
Proof. reflect_spec. Defined.
Definition to_api_jwk_PrivateClaim (m : JWTClaim) : api_jwk_PrivateClaim := mk_api_jwk_PrivateClaim (cl_Key m)
  (cl_Value m).
#[global] Instance api_jwk_PrivateClaim_agrees : MessageAgrees jwk_PrivateClaim_fields jwk_PrivateClaim_zero
  api_jwk_PrivateClaim_fields api_jwk_PrivateClaim_zero to_api_jwk_PrivateClaim.
Proof. message_agree. Defined.

Definition api_jwk_QueryValidateJWTResponse_fields : list (Field api_jwk_QueryValidateJWTResponse) := [
  pl_messages_field (ProtoMethods api_jwk_PrivateClaim_fields) (fresh api_jwk_PrivateClaim_zero) 1
    api_jwk_QueryValidateJWTResponse_PrivateClaims (λ v _, mk_api_jwk_QueryValidateJWTResponse v)].
Definition api_jwk_QueryValidateJWTResponse_zero : api_jwk_QueryValidateJWTResponse := mk_api_jwk_QueryValidateJWTResponse [].
#[global] Instance api_jwk_QueryValidateJWTResponse_spec : PulsarSpec api_jwk_QueryValidateJWTResponse_fields api_jwk_QueryValidateJWTResponse_zero.
Proof. pulsar_spec. Defined.
Definition api_jwk_QueryValidateJWTResponse_reflect : list (RField I api_jwk_QueryValidateJWTResponse) := [
  r_messages "_QueryValidateJWTResponse_1_list" "xion.jwk.v1.QueryValidateJWTResponse.private_claims"
    api_jwk_QueryValidateJWTResponse_PrivateClaims (λ v _, mk_api_jwk_QueryValidateJWTResponse v)].
#[global] Instance api_jwk_QueryValidateJWTResponse_reflect_spec : ReflectSpec
  api_jwk_QueryValidateJWTResponse_reflect api_jwk_QueryValidateJWTResponse_zero.
Proof. reflect_spec. Defined.
Definition api_jwk_QueryValidateJWTResponse_1_list : ListKind I (option (Pulsar api_jwk_PrivateClaim)) := message_list (fresh api_jwk_PrivateClaim_zero).
Definition to_api_jwk_QueryValidateJWTResponse (m : jwk_QueryValidateJWTResponse) : api_jwk_QueryValidateJWTResponse
  := mk_api_jwk_QueryValidateJWTResponse
  ((api to_api_jwk_PrivateClaim) <$> jwk_QueryValidateJWTResponse_PrivateClaims m).
#[global] Instance api_jwk_QueryValidateJWTResponse_agrees : MessageAgrees jwk_QueryValidateJWTResponse_fields
  jwk_QueryValidateJWTResponse_zero api_jwk_QueryValidateJWTResponse_fields api_jwk_QueryValidateJWTResponse_zero
  to_api_jwk_QueryValidateJWTResponse.
Proof. message_agree. Defined.

Definition api_jwk_QueryVerifyJWSRequest_fields : list (Field api_jwk_QueryVerifyJWSRequest) := [
  pl_string_field 1 api_jwk_QueryVerifyJWSRequest_Aud (λ v m, mk_api_jwk_QueryVerifyJWSRequest v
    (api_jwk_QueryVerifyJWSRequest_SigBytes m));
  pl_string_field 2 api_jwk_QueryVerifyJWSRequest_SigBytes (λ v m, mk_api_jwk_QueryVerifyJWSRequest
    (api_jwk_QueryVerifyJWSRequest_Aud m) v)].
Definition api_jwk_QueryVerifyJWSRequest_zero : api_jwk_QueryVerifyJWSRequest := mk_api_jwk_QueryVerifyJWSRequest "" "".
#[global] Instance api_jwk_QueryVerifyJWSRequest_spec : PulsarSpec api_jwk_QueryVerifyJWSRequest_fields api_jwk_QueryVerifyJWSRequest_zero.
Proof. pulsar_spec. Defined.
Definition api_jwk_QueryVerifyJWSRequest_reflect : list (RField I api_jwk_QueryVerifyJWSRequest) := [
  r_string "xion.jwk.v1.QueryVerifyJWSRequest.aud" api_jwk_QueryVerifyJWSRequest_Aud (λ v m,
    mk_api_jwk_QueryVerifyJWSRequest v (api_jwk_QueryVerifyJWSRequest_SigBytes m));
  r_string "xion.jwk.v1.QueryVerifyJWSRequest.sig_bytes" api_jwk_QueryVerifyJWSRequest_SigBytes (λ v m,
    mk_api_jwk_QueryVerifyJWSRequest (api_jwk_QueryVerifyJWSRequest_Aud m) v)].
#[global] Instance api_jwk_QueryVerifyJWSRequest_reflect_spec : ReflectSpec api_jwk_QueryVerifyJWSRequest_reflect
  api_jwk_QueryVerifyJWSRequest_zero.
Proof. reflect_spec. Defined.
Definition to_api_jwk_QueryVerifyJWSRequest (m : jwk_QueryVerifyJWSRequest) : api_jwk_QueryVerifyJWSRequest :=
  mk_api_jwk_QueryVerifyJWSRequest (jwk_QueryVerifyJWSRequest_Aud m) (jwk_QueryVerifyJWSRequest_SigBytes m).
#[global] Instance api_jwk_QueryVerifyJWSRequest_agrees : MessageAgrees jwk_QueryVerifyJWSRequest_fields
  jwk_QueryVerifyJWSRequest_zero api_jwk_QueryVerifyJWSRequest_fields api_jwk_QueryVerifyJWSRequest_zero
  to_api_jwk_QueryVerifyJWSRequest.
Proof. message_agree. Defined.

Definition api_jwk_QueryVerifyJWSResponse_fields : list (Field api_jwk_QueryVerifyJWSResponse) := [
  pl_string_field 1 api_jwk_QueryVerifyJWSResponse_Payload (λ v _, mk_api_jwk_QueryVerifyJWSResponse v)].
Definition api_jwk_QueryVerifyJWSResponse_zero : api_jwk_QueryVerifyJWSResponse := mk_api_jwk_QueryVerifyJWSResponse "".
#[global] Instance api_jwk_QueryVerifyJWSResponse_spec : PulsarSpec api_jwk_QueryVerifyJWSResponse_fields api_jwk_QueryVerifyJWSResponse_zero.
Proof. pulsar_spec. Defined.
Definition api_jwk_QueryVerifyJWSResponse_reflect : list (RField I api_jwk_QueryVerifyJWSResponse) := [
  r_bytes "xion.jwk.v1.QueryVerifyJWSResponse.payload" api_jwk_QueryVerifyJWSResponse_Payload (λ v _,
    mk_api_jwk_QueryVerifyJWSResponse v)].
#[global] Instance api_jwk_QueryVerifyJWSResponse_reflect_spec : ReflectSpec api_jwk_QueryVerifyJWSResponse_reflect
  api_jwk_QueryVerifyJWSResponse_zero.
Proof. reflect_spec. Defined.
Definition to_api_jwk_QueryVerifyJWSResponse (m : jwk_QueryVerifyJWSResponse) : api_jwk_QueryVerifyJWSResponse :=
  mk_api_jwk_QueryVerifyJWSResponse (jwk_QueryVerifyJWSResponse_Payload m).
#[global] Instance api_jwk_QueryVerifyJWSResponse_agrees : MessageAgrees jwk_QueryVerifyJWSResponse_fields
  jwk_QueryVerifyJWSResponse_zero api_jwk_QueryVerifyJWSResponse_fields api_jwk_QueryVerifyJWSResponse_zero
  to_api_jwk_QueryVerifyJWSResponse.
Proof. message_agree. Defined.

Definition api_jwk_QueryDecodeJWTRequest_fields : list (Field api_jwk_QueryDecodeJWTRequest) := [
  pl_string_field 1 api_jwk_QueryDecodeJWTRequest_Aud (λ v m, mk_api_jwk_QueryDecodeJWTRequest v
    (api_jwk_QueryDecodeJWTRequest_Sub m) (api_jwk_QueryDecodeJWTRequest_SigBytes m));
  pl_string_field 2 api_jwk_QueryDecodeJWTRequest_Sub (λ v m, mk_api_jwk_QueryDecodeJWTRequest
    (api_jwk_QueryDecodeJWTRequest_Aud m) v (api_jwk_QueryDecodeJWTRequest_SigBytes m));
  pl_string_field 3 api_jwk_QueryDecodeJWTRequest_SigBytes (λ v m, mk_api_jwk_QueryDecodeJWTRequest
    (api_jwk_QueryDecodeJWTRequest_Aud m) (api_jwk_QueryDecodeJWTRequest_Sub m) v)].
Definition api_jwk_QueryDecodeJWTRequest_zero : api_jwk_QueryDecodeJWTRequest := mk_api_jwk_QueryDecodeJWTRequest "" "" "".
#[global] Instance api_jwk_QueryDecodeJWTRequest_spec : PulsarSpec api_jwk_QueryDecodeJWTRequest_fields api_jwk_QueryDecodeJWTRequest_zero.
Proof. pulsar_spec. Defined.
Definition api_jwk_QueryDecodeJWTRequest_reflect : list (RField I api_jwk_QueryDecodeJWTRequest) := [
  r_string "xion.jwk.v1.QueryDecodeJWTRequest.aud" api_jwk_QueryDecodeJWTRequest_Aud (λ v m,
    mk_api_jwk_QueryDecodeJWTRequest v (api_jwk_QueryDecodeJWTRequest_Sub m) (api_jwk_QueryDecodeJWTRequest_SigBytes
    m));
  r_string "xion.jwk.v1.QueryDecodeJWTRequest.sub" api_jwk_QueryDecodeJWTRequest_Sub (λ v m,
    mk_api_jwk_QueryDecodeJWTRequest (api_jwk_QueryDecodeJWTRequest_Aud m) v (api_jwk_QueryDecodeJWTRequest_SigBytes
    m));
  r_string "xion.jwk.v1.QueryDecodeJWTRequest.sig_bytes" api_jwk_QueryDecodeJWTRequest_SigBytes (λ v m,
    mk_api_jwk_QueryDecodeJWTRequest (api_jwk_QueryDecodeJWTRequest_Aud m) (api_jwk_QueryDecodeJWTRequest_Sub m) v)].
#[global] Instance api_jwk_QueryDecodeJWTRequest_reflect_spec : ReflectSpec api_jwk_QueryDecodeJWTRequest_reflect
  api_jwk_QueryDecodeJWTRequest_zero.
Proof. reflect_spec. Defined.
Definition to_api_jwk_QueryDecodeJWTRequest (m : QueryJWTRequest) : api_jwk_QueryDecodeJWTRequest :=
  mk_api_jwk_QueryDecodeJWTRequest (qj_Aud m) (qj_Sub m) (qj_SigBytes m).
#[global] Instance api_jwk_QueryDecodeJWTRequest_agrees : MessageAgrees jwk_QueryDecodeJWTRequest_fields
  jwk_QueryDecodeJWTRequest_zero api_jwk_QueryDecodeJWTRequest_fields api_jwk_QueryDecodeJWTRequest_zero
  to_api_jwk_QueryDecodeJWTRequest.
Proof. message_agree. Defined.

Definition api_jwk_JWTClaim_fields : list (Field api_jwk_JWTClaim) := [
  pl_string_field 1 api_jwk_JWTClaim_Key (λ v m, mk_api_jwk_JWTClaim v (api_jwk_JWTClaim_Value m));
  pl_string_field 2 api_jwk_JWTClaim_Value (λ v m, mk_api_jwk_JWTClaim (api_jwk_JWTClaim_Key m) v)].
Definition api_jwk_JWTClaim_zero : api_jwk_JWTClaim := mk_api_jwk_JWTClaim "" "".
#[global] Instance api_jwk_JWTClaim_spec : PulsarSpec api_jwk_JWTClaim_fields api_jwk_JWTClaim_zero.
Proof. pulsar_spec. Defined.
Definition api_jwk_JWTClaim_reflect : list (RField I api_jwk_JWTClaim) := [
  r_string "xion.jwk.v1.JWTClaim.key" api_jwk_JWTClaim_Key (λ v m, mk_api_jwk_JWTClaim v (api_jwk_JWTClaim_Value m));
  r_string "xion.jwk.v1.JWTClaim.value" api_jwk_JWTClaim_Value (λ v m, mk_api_jwk_JWTClaim (api_jwk_JWTClaim_Key m) v)].
#[global] Instance api_jwk_JWTClaim_reflect_spec : ReflectSpec api_jwk_JWTClaim_reflect api_jwk_JWTClaim_zero.
Proof. reflect_spec. Defined.
Definition to_api_jwk_JWTClaim (m : JWTClaim) : api_jwk_JWTClaim := mk_api_jwk_JWTClaim (cl_Key m) (cl_Value m).
#[global] Instance api_jwk_JWTClaim_agrees : MessageAgrees jwk_JWTClaim_fields jwk_JWTClaim_zero
  api_jwk_JWTClaim_fields api_jwk_JWTClaim_zero to_api_jwk_JWTClaim.
Proof. message_agree. Defined.

Definition api_jwk_QueryDecodeJWTResponse_fields : list (Field api_jwk_QueryDecodeJWTResponse) := [
  pl_messages_field (ProtoMethods api_jwk_JWTClaim_fields) (fresh api_jwk_JWTClaim_zero) 1
    api_jwk_QueryDecodeJWTResponse_Claims (λ v _, mk_api_jwk_QueryDecodeJWTResponse v)].
Definition api_jwk_QueryDecodeJWTResponse_zero : api_jwk_QueryDecodeJWTResponse := mk_api_jwk_QueryDecodeJWTResponse [].
#[global] Instance api_jwk_QueryDecodeJWTResponse_spec : PulsarSpec api_jwk_QueryDecodeJWTResponse_fields api_jwk_QueryDecodeJWTResponse_zero.
Proof. pulsar_spec. Defined.
Definition api_jwk_QueryDecodeJWTResponse_reflect : list (RField I api_jwk_QueryDecodeJWTResponse) := [
  r_messages "_QueryDecodeJWTResponse_1_list" "xion.jwk.v1.QueryDecodeJWTResponse.claims"
    api_jwk_QueryDecodeJWTResponse_Claims (λ v _, mk_api_jwk_QueryDecodeJWTResponse v)].
#[global] Instance api_jwk_QueryDecodeJWTResponse_reflect_spec : ReflectSpec api_jwk_QueryDecodeJWTResponse_reflect
  api_jwk_QueryDecodeJWTResponse_zero.
Proof. reflect_spec. Defined.
Definition api_jwk_QueryDecodeJWTResponse_1_list : ListKind I (option (Pulsar api_jwk_JWTClaim)) := message_list (fresh api_jwk_JWTClaim_zero).
Definition to_api_jwk_QueryDecodeJWTResponse (m : jwk_QueryDecodeJWTResponse) : api_jwk_QueryDecodeJWTResponse :=
  mk_api_jwk_QueryDecodeJWTResponse ((api to_api_jwk_JWTClaim) <$> jwk_QueryDecodeJWTResponse_Claims m).
#[global] Instance api_jwk_QueryDecodeJWTResponse_agrees : MessageAgrees jwk_QueryDecodeJWTResponse_fields
  jwk_QueryDecodeJWTResponse_zero api_jwk_QueryDecodeJWTResponse_fields api_jwk_QueryDecodeJWTResponse_zero
  to_api_jwk_QueryDecodeJWTResponse.
Proof. message_agree. Defined.

(** ** [api/xion/jwk/v1/tx.pulsar.go] *)
Definition api_jwk_MsgCreateAudienceClaim_fields : list (Field api_jwk_MsgCreateAudienceClaim) := [
  pl_string_field 1 api_jwk_MsgCreateAudienceClaim_Admin (λ v m, mk_api_jwk_MsgCreateAudienceClaim v
    (api_jwk_MsgCreateAudienceClaim_AudHash m));
  pl_string_field 2 api_jwk_MsgCreateAudienceClaim_AudHash (λ v m, mk_api_jwk_MsgCreateAudienceClaim
    (api_jwk_MsgCreateAudienceClaim_Admin m) v)].
Definition api_jwk_MsgCreateAudienceClaim_zero : api_jwk_MsgCreateAudienceClaim := mk_api_jwk_MsgCreateAudienceClaim "" "".
#[global] Instance api_jwk_MsgCreateAudienceClaim_spec : PulsarSpec api_jwk_MsgCreateAudienceClaim_fields api_jwk_MsgCreateAudienceClaim_zero.
Proof. pulsar_spec. Defined.
Definition api_jwk_MsgCreateAudienceClaim_reflect : list (RField I api_jwk_MsgCreateAudienceClaim) := [
  r_string "xion.jwk.v1.MsgCreateAudienceClaim.admin" api_jwk_MsgCreateAudienceClaim_Admin (λ v m,
    mk_api_jwk_MsgCreateAudienceClaim v (api_jwk_MsgCreateAudienceClaim_AudHash m));
  r_bytes "xion.jwk.v1.MsgCreateAudienceClaim.aud_hash" api_jwk_MsgCreateAudienceClaim_AudHash (λ v m,
    mk_api_jwk_MsgCreateAudienceClaim (api_jwk_MsgCreateAudienceClaim_Admin m) v)].
#[global] Instance api_jwk_MsgCreateAudienceClaim_reflect_spec : ReflectSpec api_jwk_MsgCreateAudienceClaim_reflect
  api_jwk_MsgCreateAudienceClaim_zero.
Proof. reflect_spec. Defined.
Definition to_api_jwk_MsgCreateAudienceClaim (m : MsgAudienceClaim) : api_jwk_MsgCreateAudienceClaim :=
  mk_api_jwk_MsgCreateAudienceClaim (mc_Admin m) (mc_AudHash m).
#[global] Instance api_jwk_MsgCreateAudienceClaim_agrees : MessageAgrees jwk_MsgCreateAudienceClaim_fields
  jwk_MsgCreateAudienceClaim_zero api_jwk_MsgCreateAudienceClaim_fields api_jwk_MsgCreateAudienceClaim_zero
  to_api_jwk_MsgCreateAudienceClaim.
Proof. message_agree. Defined.

Definition api_jwk_MsgDeleteAudienceClaim_fields : list (Field api_jwk_MsgDeleteAudienceClaim) := [
  pl_string_field 1 api_jwk_MsgDeleteAudienceClaim_Admin (λ v m, mk_api_jwk_MsgDeleteAudienceClaim v
    (api_jwk_MsgDeleteAudienceClaim_AudHash m));
  pl_string_field 2 api_jwk_MsgDeleteAudienceClaim_AudHash (λ v m, mk_api_jwk_MsgDeleteAudienceClaim
    (api_jwk_MsgDeleteAudienceClaim_Admin m) v)].
Definition api_jwk_MsgDeleteAudienceClaim_zero : api_jwk_MsgDeleteAudienceClaim := mk_api_jwk_MsgDeleteAudienceClaim "" "".
#[global] Instance api_jwk_MsgDeleteAudienceClaim_spec : PulsarSpec api_jwk_MsgDeleteAudienceClaim_fields api_jwk_MsgDeleteAudienceClaim_zero.
Proof. pulsar_spec. Defined.
Definition api_jwk_MsgDeleteAudienceClaim_reflect : list (RField I api_jwk_MsgDeleteAudienceClaim) := [
  r_string "xion.jwk.v1.MsgDeleteAudienceClaim.admin" api_jwk_MsgDeleteAudienceClaim_Admin (λ v m,
    mk_api_jwk_MsgDeleteAudienceClaim v (api_jwk_MsgDeleteAudienceClaim_AudHash m));
  r_bytes "xion.jwk.v1.MsgDeleteAudienceClaim.aud_hash" api_jwk_MsgDeleteAudienceClaim_AudHash (λ v m,
    mk_api_jwk_MsgDeleteAudienceClaim (api_jwk_MsgDeleteAudienceClaim_Admin m) v)].
#[global] Instance api_jwk_MsgDeleteAudienceClaim_reflect_spec : ReflectSpec api_jwk_MsgDeleteAudienceClaim_reflect
  api_jwk_MsgDeleteAudienceClaim_zero.
Proof. reflect_spec. Defined.
Definition to_api_jwk_MsgDeleteAudienceClaim (m : MsgAudienceClaim) : api_jwk_MsgDeleteAudienceClaim :=
  mk_api_jwk_MsgDeleteAudienceClaim (mc_Admin m) (mc_AudHash m).
#[global] Instance api_jwk_MsgDeleteAudienceClaim_agrees : MessageAgrees jwk_MsgDeleteAudienceClaim_fields
  jwk_MsgDeleteAudienceClaim_zero api_jwk_MsgDeleteAudienceClaim_fields api_jwk_MsgDeleteAudienceClaim_zero
  to_api_jwk_MsgDeleteAudienceClaim.
Proof. message_agree. Defined.

Definition api_jwk_MsgCreateAudience_fields : list (Field api_jwk_MsgCreateAudience) := [
  pl_string_field 1 api_jwk_MsgCreateAudience_Admin (λ v m, mk_api_jwk_MsgCreateAudience v
    (api_jwk_MsgCreateAudience_Aud m) (api_jwk_MsgCreateAudience_Key m));
  pl_string_field 2 api_jwk_MsgCreateAudience_Aud (λ v m, mk_api_jwk_MsgCreateAudience
    (api_jwk_MsgCreateAudience_Admin m) v (api_jwk_MsgCreateAudience_Key m));
  pl_string_field 3 api_jwk_MsgCreateAudience_Key (λ v m, mk_api_jwk_MsgCreateAudience
    (api_jwk_MsgCreateAudience_Admin m) (api_jwk_MsgCreateAudience_Aud m) v)].
Definition api_jwk_MsgCreateAudience_zero : api_jwk_MsgCreateAudience := mk_api_jwk_MsgCreateAudience "" "" "".
#[global] Instance api_jwk_MsgCreateAudience_spec : PulsarSpec api_jwk_MsgCreateAudience_fields api_jwk_MsgCreateAudience_zero.
Proof. pulsar_spec. Defined.
Definition api_jwk_MsgCreateAudience_reflect : list (RField I api_jwk_MsgCreateAudience) := [
  r_string "xion.jwk.v1.MsgCreateAudience.admin" api_jwk_MsgCreateAudience_Admin (λ v m, mk_api_jwk_MsgCreateAudience
    v (api_jwk_MsgCreateAudience_Aud m) (api_jwk_MsgCreateAudience_Key m));
  r_string "xion.jwk.v1.MsgCreateAudience.aud" api_jwk_MsgCreateAudience_Aud (λ v m, mk_api_jwk_MsgCreateAudience
    (api_jwk_MsgCreateAudience_Admin m) v (api_jwk_MsgCreateAudience_Key m));
  r_string "xion.jwk.v1.MsgCreateAudience.key" api_jwk_MsgCreateAudience_Key (λ v m, mk_api_jwk_MsgCreateAudience
    (api_jwk_MsgCreateAudience_Admin m) (api_jwk_MsgCreateAudience_Aud m) v)].
#[global] Instance api_jwk_MsgCreateAudience_reflect_spec : ReflectSpec api_jwk_MsgCreateAudience_reflect
  api_jwk_MsgCreateAudience_zero.
Proof. reflect_spec. Defined.
Definition to_api_jwk_MsgCreateAudience (m : MsgCreateAudience) : api_jwk_MsgCreateAudience :=
  mk_api_jwk_MsgCreateAudience (cr_Admin m) (cr_Aud m) (cr_Key m).
#[global] Instance api_jwk_MsgCreateAudience_agrees : MessageAgrees jwk_MsgCreateAudience_fields
  jwk_MsgCreateAudience_zero api_jwk_MsgCreateAudience_fields api_jwk_MsgCreateAudience_zero
  to_api_jwk_MsgCreateAudience.
Proof. message_agree. Defined.

Definition api_jwk_MsgCreateAudienceResponse_fields : list (Field api_jwk_MsgCreateAudienceResponse) := [
  pl_pointer_field (ProtoMethods api_jwk_Audience_fields) (fresh api_jwk_Audience_zero) 1
    api_jwk_MsgCreateAudienceResponse_Audience (λ v _, mk_api_jwk_MsgCreateAudienceResponse v)].
Definition api_jwk_MsgCreateAudienceResponse_zero : api_jwk_MsgCreateAudienceResponse := mk_api_jwk_MsgCreateAudienceResponse None.
#[global] Instance api_jwk_MsgCreateAudienceResponse_spec : PulsarSpec api_jwk_MsgCreateAudienceResponse_fields api_jwk_MsgCreateAudienceResponse_zero.
Proof. pulsar_spec. Defined.
Definition api_jwk_MsgCreateAudienceResponse_reflect : list (RField I api_jwk_MsgCreateAudienceResponse) := [
  r_message (fresh api_jwk_Audience_zero) "xion.jwk.v1.MsgCreateAudienceResponse.audience"
    api_jwk_MsgCreateAudienceResponse_Audience (λ v _, mk_api_jwk_MsgCreateAudienceResponse v)].
#[global] Instance api_jwk_MsgCreateAudienceResponse_reflect_spec : ReflectSpec
  api_jwk_MsgCreateAudienceResponse_reflect api_jwk_MsgCreateAudienceResponse_zero.
Proof. reflect_spec. Defined.
Definition to_api_jwk_MsgCreateAudienceResponse (m : jwk_MsgCreateAudienceResponse) :
  api_jwk_MsgCreateAudienceResponse := mk_api_jwk_MsgCreateAudienceResponse
  ((api to_api_jwk_Audience) <$> jwk_MsgCreateAudienceResponse_Audience m).
#[global] Instance api_jwk_MsgCreateAudienceResponse_agrees : MessageAgrees jwk_MsgCreateAudienceResponse_fields
  jwk_MsgCreateAudienceResponse_zero api_jwk_MsgCreateAudienceResponse_fields api_jwk_MsgCreateAudienceResponse_zero
  to_api_jwk_MsgCreateAudienceResponse.
Proof. message_agree. Defined.

Definition api_jwk_MsgUpdateAudience_fields : list (Field api_jwk_MsgUpdateAudience) := [
  pl_string_field 1 api_jwk_MsgUpdateAudience_Admin (λ v m, mk_api_jwk_MsgUpdateAudience v
    (api_jwk_MsgUpdateAudience_NewAdmin m) (api_jwk_MsgUpdateAudience_Aud m) (api_jwk_MsgUpdateAudience_Key m)
    (api_jwk_MsgUpdateAudience_NewAud m));
  pl_string_field 2 api_jwk_MsgUpdateAudience_NewAdmin (λ v m, mk_api_jwk_MsgUpdateAudience
    (api_jwk_MsgUpdateAudience_Admin m) v (api_jwk_MsgUpdateAudience_Aud m) (api_jwk_MsgUpdateAudience_Key m)
    (api_jwk_MsgUpdateAudience_NewAud m));
  pl_string_field 3 api_jwk_MsgUpdateAudience_Aud (λ v m, mk_api_jwk_MsgUpdateAudience
    (api_jwk_MsgUpdateAudience_Admin m) (api_jwk_MsgUpdateAudience_NewAdmin m) v (api_jwk_MsgUpdateAudience_Key m)
    (api_jwk_MsgUpdateAudience_NewAud m));
  pl_string_field 4 api_jwk_MsgUpdateAudience_Key (λ v m, mk_api_jwk_MsgUpdateAudience
    (api_jwk_MsgUpdateAudience_Admin m) (api_jwk_MsgUpdateAudience_NewAdmin m) (api_jwk_MsgUpdateAudience_Aud m) v
    (api_jwk_MsgUpdateAudience_NewAud m));
  pl_string_field 5 api_jwk_MsgUpdateAudience_NewAud (λ v m, mk_api_jwk_MsgUpdateAudience
    (api_jwk_MsgUpdateAudience_Admin m) (api_jwk_MsgUpdateAudience_NewAdmin m) (api_jwk_MsgUpdateAudience_Aud m)
    (api_jwk_MsgUpdateAudience_Key m) v)].
Definition api_jwk_MsgUpdateAudience_zero : api_jwk_MsgUpdateAudience := mk_api_jwk_MsgUpdateAudience "" "" "" "" "".
#[global] Instance api_jwk_MsgUpdateAudience_spec : PulsarSpec api_jwk_MsgUpdateAudience_fields api_jwk_MsgUpdateAudience_zero.
Proof. pulsar_spec. Defined.
Definition api_jwk_MsgUpdateAudience_reflect : list (RField I api_jwk_MsgUpdateAudience) := [
  r_string "xion.jwk.v1.MsgUpdateAudience.admin" api_jwk_MsgUpdateAudience_Admin (λ v m, mk_api_jwk_MsgUpdateAudience
    v (api_jwk_MsgUpdateAudience_NewAdmin m) (api_jwk_MsgUpdateAudience_Aud m) (api_jwk_MsgUpdateAudience_Key m)
    (api_jwk_MsgUpdateAudience_NewAud m));
  r_string "xion.jwk.v1.MsgUpdateAudience.new_admin" api_jwk_MsgUpdateAudience_NewAdmin (λ v m,
    mk_api_jwk_MsgUpdateAudience (api_jwk_MsgUpdateAudience_Admin m) v (api_jwk_MsgUpdateAudience_Aud m)
    (api_jwk_MsgUpdateAudience_Key m) (api_jwk_MsgUpdateAudience_NewAud m));
  r_string "xion.jwk.v1.MsgUpdateAudience.aud" api_jwk_MsgUpdateAudience_Aud (λ v m, mk_api_jwk_MsgUpdateAudience
    (api_jwk_MsgUpdateAudience_Admin m) (api_jwk_MsgUpdateAudience_NewAdmin m) v (api_jwk_MsgUpdateAudience_Key m)
    (api_jwk_MsgUpdateAudience_NewAud m));
  r_string "xion.jwk.v1.MsgUpdateAudience.key" api_jwk_MsgUpdateAudience_Key (λ v m, mk_api_jwk_MsgUpdateAudience
    (api_jwk_MsgUpdateAudience_Admin m) (api_jwk_MsgUpdateAudience_NewAdmin m) (api_jwk_MsgUpdateAudience_Aud m) v
    (api_jwk_MsgUpdateAudience_NewAud m));
  r_string "xion.jwk.v1.MsgUpdateAudience.new_aud" api_jwk_MsgUpdateAudience_NewAud (λ v m,
    mk_api_jwk_MsgUpdateAudience (api_jwk_MsgUpdateAudience_Admin m) (api_jwk_MsgUpdateAudience_NewAdmin m)
    (api_jwk_MsgUpdateAudience_Aud m) (api_jwk_MsgUpdateAudience_Key m) v)].
#[global] Instance api_jwk_MsgUpdateAudience_reflect_spec : ReflectSpec api_jwk_MsgUpdateAudience_reflect
  api_jwk_MsgUpdateAudience_zero.
Proof. reflect_spec. Defined.
Definition to_api_jwk_MsgUpdateAudience (m : MsgUpdateAudience) : api_jwk_MsgUpdateAudience :=
  mk_api_jwk_MsgUpdateAudience (ua_Admin m) (ua_NewAdmin m) (ua_Aud m) (ua_Key m) (ua_NewAud m).
#[global] Instance api_jwk_MsgUpdateAudience_agrees : MessageAgrees jwk_MsgUpdateAudience_fields
  jwk_MsgUpdateAudience_zero api_jwk_MsgUpdateAudience_fields api_jwk_MsgUpdateAudience_zero
  to_api_jwk_MsgUpdateAudience.
Proof. message_agree. Defined.

Definition api_jwk_MsgUpdateAudienceResponse_fields : list (Field api_jwk_MsgUpdateAudienceResponse) := [
  pl_pointer_field (ProtoMethods api_jwk_Audience_fields) (fresh api_jwk_Audience_zero) 1
    api_jwk_MsgUpdateAudienceResponse_Audience (λ v _, mk_api_jwk_MsgUpdateAudienceResponse v)].
Definition api_jwk_MsgUpdateAudienceResponse_zero : api_jwk_MsgUpdateAudienceResponse := mk_api_jwk_MsgUpdateAudienceResponse None.
#[global] Instance api_jwk_MsgUpdateAudienceResponse_spec : PulsarSpec api_jwk_MsgUpdateAudienceResponse_fields api_jwk_MsgUpdateAudienceResponse_zero.
Proof. pulsar_spec. Defined.
Definition api_jwk_MsgUpdateAudienceResponse_reflect : list (RField I api_jwk_MsgUpdateAudienceResponse) := [
  r_message (fresh api_jwk_Audience_zero) "xion.jwk.v1.MsgUpdateAudienceResponse.audience"
    api_jwk_MsgUpdateAudienceResponse_Audience (λ v _, mk_api_jwk_MsgUpdateAudienceResponse v)].
#[global] Instance api_jwk_MsgUpdateAudienceResponse_reflect_spec : ReflectSpec
  api_jwk_MsgUpdateAudienceResponse_reflect api_jwk_MsgUpdateAudienceResponse_zero.
Proof. reflect_spec. Defined.
Definition to_api_jwk_MsgUpdateAudienceResponse (m : jwk_MsgUpdateAudienceResponse) :
  api_jwk_MsgUpdateAudienceResponse := mk_api_jwk_MsgUpdateAudienceResponse
  ((api to_api_jwk_Audience) <$> jwk_MsgUpdateAudienceResponse_Audience m).
#[global] Instance api_jwk_MsgUpdateAudienceResponse_agrees : MessageAgrees jwk_MsgUpdateAudienceResponse_fields
  jwk_MsgUpdateAudienceResponse_zero api_jwk_MsgUpdateAudienceResponse_fields api_jwk_MsgUpdateAudienceResponse_zero
  to_api_jwk_MsgUpdateAudienceResponse.
Proof. message_agree. Defined.

Definition api_jwk_MsgDeleteAudience_fields : list (Field api_jwk_MsgDeleteAudience) := [
  pl_string_field 1 api_jwk_MsgDeleteAudience_Admin (λ v m, mk_api_jwk_MsgDeleteAudience v
    (api_jwk_MsgDeleteAudience_Aud m));
  pl_string_field 2 api_jwk_MsgDeleteAudience_Aud (λ v m, mk_api_jwk_MsgDeleteAudience
    (api_jwk_MsgDeleteAudience_Admin m) v)].
Definition api_jwk_MsgDeleteAudience_zero : api_jwk_MsgDeleteAudience := mk_api_jwk_MsgDeleteAudience "" "".
#[global] Instance api_jwk_MsgDeleteAudience_spec : PulsarSpec api_jwk_MsgDeleteAudience_fields api_jwk_MsgDeleteAudience_zero.
Proof. pulsar_spec. Defined.
Definition api_jwk_MsgDeleteAudience_reflect : list (RField I api_jwk_MsgDeleteAudience) := [
  r_string "xion.jwk.v1.MsgDeleteAudience.admin" api_jwk_MsgDeleteAudience_Admin (λ v m, mk_api_jwk_MsgDeleteAudience
    v (api_jwk_MsgDeleteAudience_Aud m));
  r_string "xion.jwk.v1.MsgDeleteAudience.aud" api_jwk_MsgDeleteAudience_Aud (λ v m, mk_api_jwk_MsgDeleteAudience
    (api_jwk_MsgDeleteAudience_Admin m) v)].
#[global] Instance api_jwk_MsgDeleteAudience_reflect_spec : ReflectSpec api_jwk_MsgDeleteAudience_reflect
  api_jwk_MsgDeleteAudience_zero.
Proof. reflect_spec. Defined.
Definition to_api_jwk_MsgDeleteAudience (m : MsgDeleteAudience) : api_jwk_MsgDeleteAudience :=
  mk_api_jwk_MsgDeleteAudience (da_Admin m) (da_Aud m).
#[global] Instance api_jwk_MsgDeleteAudience_agrees : MessageAgrees jwk_MsgDeleteAudience_fields
  jwk_MsgDeleteAudience_zero api_jwk_MsgDeleteAudience_fields api_jwk_MsgDeleteAudience_zero
  to_api_jwk_MsgDeleteAudience.
Proof. message_agree. Defined.

(** ** The message types *)
Definition api_jwk_messages : list (ApiMessage I) := [
  api_message jwk_Audience_fields jwk_Audience_zero api_jwk_Audience_fields api_jwk_Audience_zero api_jwk_Audience_reflect to_api_jwk_Audience;
  api_message jwk_AudienceClaim_fields jwk_AudienceClaim_zero api_jwk_AudienceClaim_fields api_jwk_AudienceClaim_zero api_jwk_AudienceClaim_reflect to_api_jwk_AudienceClaim;
  api_message jwk_Params_fields jwk_Params_zero api_jwk_Params_fields api_jwk_Params_zero api_jwk_Params_reflect to_api_jwk_Params;
  api_message jwk_GenesisState_fields jwk_GenesisState_zero api_jwk_GenesisState_fields api_jwk_GenesisState_zero api_jwk_GenesisState_reflect to_api_jwk_GenesisState;
  api_message jwk_QueryParamsResponse_fields jwk_QueryParamsResponse_zero api_jwk_QueryParamsResponse_fields api_jwk_QueryParamsResponse_zero api_jwk_QueryParamsResponse_reflect to_api_jwk_QueryParamsResponse;
  api_message jwk_QueryAudienceClaimRequest_fields jwk_QueryAudienceClaimRequest_zero api_jwk_QueryAudienceClaimRequest_fields api_jwk_QueryAudienceClaimRequest_zero api_jwk_QueryAudienceClaimRequest_reflect to_api_jwk_QueryAudienceClaimRequest;
  api_message jwk_QueryAudienceClaimResponse_fields jwk_QueryAudienceClaimResponse_zero api_jwk_QueryAudienceClaimResponse_fields api_jwk_QueryAudienceClaimResponse_zero api_jwk_QueryAudienceClaimResponse_reflect to_api_jwk_QueryAudienceClaimResponse;
  api_message jwk_QueryGetAudienceClaimRequest_fields jwk_QueryGetAudienceClaimRequest_zero api_jwk_QueryGetAudienceClaimRequest_fields api_jwk_QueryGetAudienceClaimRequest_zero api_jwk_QueryGetAudienceClaimRequest_reflect to_api_jwk_QueryGetAudienceClaimRequest;
  api_message jwk_QueryGetAudienceClaimResponse_fields jwk_QueryGetAudienceClaimResponse_zero api_jwk_QueryGetAudienceClaimResponse_fields api_jwk_QueryGetAudienceClaimResponse_zero api_jwk_QueryGetAudienceClaimResponse_reflect to_api_jwk_QueryGetAudienceClaimResponse;
  api_message jwk_QueryAudienceRequest_fields jwk_QueryAudienceRequest_zero api_jwk_QueryAudienceRequest_fields api_jwk_QueryAudienceRequest_zero api_jwk_QueryAudienceRequest_reflect to_api_jwk_QueryAudienceRequest;
  api_message jwk_QueryAudienceResponse_fields jwk_QueryAudienceResponse_zero api_jwk_QueryAudienceResponse_fields api_jwk_QueryAudienceResponse_zero api_jwk_QueryAudienceResponse_reflect to_api_jwk_QueryAudienceResponse;
  api_message jwk_QueryGetAudienceRequest_fields jwk_QueryGetAudienceRequest_zero api_jwk_QueryGetAudienceRequest_fields api_jwk_QueryGetAudienceRequest_zero api_jwk_QueryGetAudienceRequest_reflect to_api_jwk_QueryGetAudienceRequest;
  api_message jwk_QueryGetAudienceResponse_fields jwk_QueryGetAudienceResponse_zero api_jwk_QueryGetAudienceResponse_fields api_jwk_QueryGetAudienceResponse_zero api_jwk_QueryGetAudienceResponse_reflect to_api_jwk_QueryGetAudienceResponse;
  api_message jwk_QueryAudienceAllRequest_fields jwk_QueryAudienceAllRequest_zero api_jwk_QueryAudienceAllRequest_fields api_jwk_QueryAudienceAllRequest_zero api_jwk_QueryAudienceAllRequest_reflect to_api_jwk_QueryAudienceAllRequest;
  api_message jwk_QueryAudienceAllResponse_fields jwk_QueryAudienceAllResponse_zero api_jwk_QueryAudienceAllResponse_fields api_jwk_QueryAudienceAllResponse_zero api_jwk_QueryAudienceAllResponse_reflect to_api_jwk_QueryAudienceAllResponse;
  api_message jwk_QueryAllAudienceRequest_fields jwk_QueryAllAudienceRequest_zero api_jwk_QueryAllAudienceRequest_fields api_jwk_QueryAllAudienceRequest_zero api_jwk_QueryAllAudienceRequest_reflect to_api_jwk_QueryAllAudienceRequest;
  api_message jwk_QueryAllAudienceResponse_fields jwk_QueryAllAudienceResponse_zero api_jwk_QueryAllAudienceResponse_fields api_jwk_QueryAllAudienceResponse_zero api_jwk_QueryAllAudienceResponse_reflect to_api_jwk_QueryAllAudienceResponse;
  api_message jwk_QueryValidateJWTRequest_fields jwk_QueryValidateJWTRequest_zero api_jwk_QueryValidateJWTRequest_fields api_jwk_QueryValidateJWTRequest_zero api_jwk_QueryValidateJWTRequest_reflect to_api_jwk_QueryValidateJWTRequest;
  api_message jwk_PrivateClaim_fields jwk_PrivateClaim_zero api_jwk_PrivateClaim_fields api_jwk_PrivateClaim_zero api_jwk_PrivateClaim_reflect to_api_jwk_PrivateClaim;
  api_message jwk_QueryValidateJWTResponse_fields jwk_QueryValidateJWTResponse_zero api_jwk_QueryValidateJWTResponse_fields api_jwk_QueryValidateJWTResponse_zero api_jwk_QueryValidateJWTResponse_reflect to_api_jwk_QueryValidateJWTResponse;
  api_message jwk_QueryVerifyJWSRequest_fields jwk_QueryVerifyJWSRequest_zero api_jwk_QueryVerifyJWSRequest_fields api_jwk_QueryVerifyJWSRequest_zero api_jwk_QueryVerifyJWSRequest_reflect to_api_jwk_QueryVerifyJWSRequest;
  api_message jwk_QueryVerifyJWSResponse_fields jwk_QueryVerifyJWSResponse_zero api_jwk_QueryVerifyJWSResponse_fields api_jwk_QueryVerifyJWSResponse_zero api_jwk_QueryVerifyJWSResponse_reflect to_api_jwk_QueryVerifyJWSResponse;
  api_message jwk_QueryDecodeJWTRequest_fields jwk_QueryDecodeJWTRequest_zero api_jwk_QueryDecodeJWTRequest_fields api_jwk_QueryDecodeJWTRequest_zero api_jwk_QueryDecodeJWTRequest_reflect to_api_jwk_QueryDecodeJWTRequest;
  api_message jwk_JWTClaim_fields jwk_JWTClaim_zero api_jwk_JWTClaim_fields api_jwk_JWTClaim_zero api_jwk_JWTClaim_reflect to_api_jwk_JWTClaim;
  api_message jwk_QueryDecodeJWTResponse_fields jwk_QueryDecodeJWTResponse_zero api_jwk_QueryDecodeJWTResponse_fields api_jwk_QueryDecodeJWTResponse_zero api_jwk_QueryDecodeJWTResponse_reflect to_api_jwk_QueryDecodeJWTResponse;
  api_message jwk_MsgCreateAudienceClaim_fields jwk_MsgCreateAudienceClaim_zero api_jwk_MsgCreateAudienceClaim_fields api_jwk_MsgCreateAudienceClaim_zero api_jwk_MsgCreateAudienceClaim_reflect to_api_jwk_MsgCreateAudienceClaim;
  api_message jwk_MsgDeleteAudienceClaim_fields jwk_MsgDeleteAudienceClaim_zero api_jwk_MsgDeleteAudienceClaim_fields api_jwk_MsgDeleteAudienceClaim_zero api_jwk_MsgDeleteAudienceClaim_reflect to_api_jwk_MsgDeleteAudienceClaim;
  api_message jwk_MsgCreateAudience_fields jwk_MsgCreateAudience_zero api_jwk_MsgCreateAudience_fields api_jwk_MsgCreateAudience_zero api_jwk_MsgCreateAudience_reflect to_api_jwk_MsgCreateAudience;
  api_message jwk_MsgCreateAudienceResponse_fields jwk_MsgCreateAudienceResponse_zero api_jwk_MsgCreateAudienceResponse_fields api_jwk_MsgCreateAudienceResponse_zero api_jwk_MsgCreateAudienceResponse_reflect to_api_jwk_MsgCreateAudienceResponse;
  api_message jwk_MsgUpdateAudience_fields jwk_MsgUpdateAudience_zero api_jwk_MsgUpdateAudience_fields api_jwk_MsgUpdateAudience_zero api_jwk_MsgUpdateAudience_reflect to_api_jwk_MsgUpdateAudience;
  api_message jwk_MsgUpdateAudienceResponse_fields jwk_MsgUpdateAudienceResponse_zero api_jwk_MsgUpdateAudienceResponse_fields api_jwk_MsgUpdateAudienceResponse_zero api_jwk_MsgUpdateAudienceResponse_reflect to_api_jwk_MsgUpdateAudienceResponse;
  api_message jwk_MsgDeleteAudience_fields jwk_MsgDeleteAudience_zero api_jwk_MsgDeleteAudience_fields api_jwk_MsgDeleteAudience_zero api_jwk_MsgDeleteAudience_reflect to_api_jwk_MsgDeleteAudience
  ].

Lemma api_jwk_messages_ok : Forall api_message_ok api_jwk_messages.
Proof. api_messages_ok. Qed.

(** ** The lists *)
Definition api_jwk_lists : list (ApiList I) := [ mkApiList api_jwk_GenesisState_2_list;
  mkApiList api_jwk_QueryAudienceAllResponse_1_list; mkApiList api_jwk_QueryAllAudienceResponse_1_list;
  mkApiList api_jwk_QueryValidateJWTResponse_1_list; mkApiList api_jwk_QueryDecodeJWTResponse_1_list ].
Lemma api_jwk_lists_ok : Forall api_list_ok api_jwk_lists.
Proof. repeat (apply List.Forall_cons; [apply api_list_is_ok; apply _|]). apply List.Forall_nil. Qed.
End api.
