(* ===== verification/ApiZk.v ===== *)
(** * src/api/xion/zk: the messages

    As the [Proto] file of the module, for the second set of messages: the fields of every
    message for [ProtoMethods] and for reflection, and its agreement with the message of the
    first set. *)

From S2P Require Import Prelude GoStd ProtoWire ProtoCodec PulsarWire PulsarCodec PulsarReflect PulsarLists PulsarAgree.
From S2P Require Import Sdk SdkModel ZkTypes ZkKeeper ZkQuery ProtoZk.

Section api.
Context {I : Type} `{Rt : !PulsarRuntime, Op : !ProtoOptions, RtL : !PulsarRuntimeLaws, OpL : !ProtoOptionsLaws}.
Context {PageRequest PageResponse : Type} `{IPageRequest : !ImportedMsg PageRequest,
  IPageResponse : !ImportedMsg PageResponse}.
Context `{LPageRequest : !ImportedLaws PageRequest, LPageResponse : !ImportedLaws PageResponse}.
(** The message types of the dependencies in this set, and the counterparts of values *)
Context {PageRequest_api PageResponse_api : Type} `{IAPageRequest : !ImportedApi PageRequest_api,
  IAPageResponse : !ImportedApi PageResponse_api}.
Context `{LAPageRequest : !ImportedApiLaws PageRequest_api, LAPageResponse : !ImportedApiLaws PageResponse_api}.
Context (PageRequest_conv : PageRequest → PageRequest_api) (PageResponse_conv : PageResponse → PageResponse_api).
Context `{CAPageRequest : !CodecAgrees im_codec im_zero ia_methods ia_zero PageRequest_conv,
  CAPageResponse : !CodecAgrees im_codec im_zero ia_methods ia_zero PageResponse_conv}.

(** ** Data: the fields that are known *)
Record api_zk_VKey := mk_api_zk_VKey { api_zk_VKey_KeyBytes : string; api_zk_VKey_Name : string;
  api_zk_VKey_Description : string; api_zk_VKey_CircuitHash : string; api_zk_VKey_Authority : string;
  api_zk_VKey_ProofSystem : Z }.
Record api_zk_VKeyWithID := mk_api_zk_VKeyWithID { api_zk_VKeyWithID_Id : Z;
  api_zk_VKeyWithID_Vkey : option (Pulsar api_zk_VKey) }.
Record api_zk_Params := mk_api_zk_Params { api_zk_Params_MaxVkeySizeBytes : Z; api_zk_Params_UploadChunkSize : Z;
  api_zk_Params_UploadChunkGas : Z; api_zk_Params_MaxGroth16ProofSizeBytes : Z;
  api_zk_Params_MaxGroth16PublicInputSizeBytes : Z; api_zk_Params_MaxUltraHonkProofSizeBytes : Z;
  api_zk_Params_MaxUltraHonkPublicInputSizeBytes : Z; api_zk_Params_MaxGnarkProofSizeBytes : Z;
  api_zk_Params_MaxGnarkPublicInputSizeBytes : Z }.
Record api_zk_GenesisState := mk_api_zk_GenesisState { api_zk_GenesisState_Vkeys : list (Pulsar api_zk_VKeyWithID);
  api_zk_GenesisState_Params : option (Pulsar api_zk_Params) }.
Record api_zk_SnarkJsProof := mk_api_zk_SnarkJsProof { api_zk_SnarkJsProof_PiA : list string;
  api_zk_SnarkJsProof_PiB : list string; api_zk_SnarkJsProof_PiC : list string }.
Record api_zk_QueryVerifyRequest := mk_api_zk_QueryVerifyRequest { api_zk_QueryVerifyRequest_Proof : string;
  api_zk_QueryVerifyRequest_PublicInputs : list string; api_zk_QueryVerifyRequest_VkeyName : string;
  api_zk_QueryVerifyRequest_VkeyId : Z }.
Record api_zk_ProofVerifyResponse := mk_api_zk_ProofVerifyResponse { api_zk_ProofVerifyResponse_Verified : bool }.
Record api_zk_ProofVerifyUltraHonkResponse := mk_api_zk_ProofVerifyUltraHonkResponse {
  api_zk_ProofVerifyUltraHonkResponse_Verified : bool }.
Record api_zk_ProofVerifyGnarkResponse := mk_api_zk_ProofVerifyGnarkResponse {
  api_zk_ProofVerifyGnarkResponse_Verified : bool }.
Record api_zk_QueryVerifyUltraHonkRequest := mk_api_zk_QueryVerifyUltraHonkRequest {
  api_zk_QueryVerifyUltraHonkRequest_Proof : string; api_zk_QueryVerifyUltraHonkRequest_PublicInputs : string;
  api_zk_QueryVerifyUltraHonkRequest_VkeyName : string; api_zk_QueryVerifyUltraHonkRequest_VkeyId : Z }.
Record api_zk_QueryVerifyGnarkRequest := mk_api_zk_QueryVerifyGnarkRequest {
  api_zk_QueryVerifyGnarkRequest_Proof : string; api_zk_QueryVerifyGnarkRequest_PublicInputs : string;
  api_zk_QueryVerifyGnarkRequest_VkeyName : string; api_zk_QueryVerifyGnarkRequest_VkeyId : Z }.
Record api_zk_QueryVKeyRequest := mk_api_zk_QueryVKeyRequest { api_zk_QueryVKeyRequest_Id : Z }.
Record api_zk_QueryVKeyResponse := mk_api_zk_QueryVKeyResponse {
  api_zk_QueryVKeyResponse_Vkey : option (Pulsar api_zk_VKey) }.
Record api_zk_QueryVKeyByNameRequest := mk_api_zk_QueryVKeyByNameRequest { api_zk_QueryVKeyByNameRequest_Name : string
  }.
Record api_zk_QueryVKeyByNameResponse := mk_api_zk_QueryVKeyByNameResponse {
  api_zk_QueryVKeyByNameResponse_Vkey : option (Pulsar api_zk_VKey); api_zk_QueryVKeyByNameResponse_Id : Z }.
Record api_zk_QueryVKeysRequest := mk_api_zk_QueryVKeysRequest {
  api_zk_QueryVKeysRequest_Pagination : option PageRequest_api }.
Record api_zk_QueryVKeysResponse := mk_api_zk_QueryVKeysResponse {
  api_zk_QueryVKeysResponse_Vkeys : list (Pulsar api_zk_VKeyWithID);
  api_zk_QueryVKeysResponse_Pagination : option PageResponse_api }.
Record api_zk_QueryHasVKeyRequest := mk_api_zk_QueryHasVKeyRequest { api_zk_QueryHasVKeyRequest_Name : string }.
Record api_zk_QueryHasVKeyResponse := mk_api_zk_QueryHasVKeyResponse { api_zk_QueryHasVKeyResponse_Exists : bool;
  api_zk_QueryHasVKeyResponse_Id : Z }.
Record api_zk_QueryNextVKeyIDResponse := mk_api_zk_QueryNextVKeyIDResponse { api_zk_QueryNextVKeyIDResponse_NextId : Z
  }.
Record api_zk_QueryParamsResponse := mk_api_zk_QueryParamsResponse {
  api_zk_QueryParamsResponse_Params : option (Pulsar api_zk_Params) }.
Record api_zk_MsgAddVKey := mk_api_zk_MsgAddVKey { api_zk_MsgAddVKey_Authority : string;
  api_zk_MsgAddVKey_Name : string; api_zk_MsgAddVKey_Description : string; api_zk_MsgAddVKey_VkeyBytes : string;
  api_zk_MsgAddVKey_ProofSystem : Z }.
Record api_zk_MsgAddVKeyResponse := mk_api_zk_MsgAddVKeyResponse { api_zk_MsgAddVKeyResponse_Id : Z }.
Record api_zk_MsgUpdateVKey := mk_api_zk_MsgUpdateVKey { api_zk_MsgUpdateVKey_Authority : string;
  api_zk_MsgUpdateVKey_Name : string; api_zk_MsgUpdateVKey_Description : string;
  api_zk_MsgUpdateVKey_VkeyBytes : string; api_zk_MsgUpdateVKey_ProofSystem : Z }.
Record api_zk_MsgRemoveVKey := mk_api_zk_MsgRemoveVKey { api_zk_MsgRemoveVKey_Authority : string;
  api_zk_MsgRemoveVKey_Name : string }.
Record api_zk_MsgUpdateParams := mk_api_zk_MsgUpdateParams { api_zk_MsgUpdateParams_Authority : string;
  api_zk_MsgUpdateParams_Params : option (Pulsar api_zk_Params) }.

Context `{!GoPointer I (Pulsar api_zk_VKey), !GoPointer I (Pulsar api_zk_VKeyWithID),
  !GoPointer I (Pulsar api_zk_Params), !GoPointer I PageRequest_api, !GoPointer I PageResponse_api}.
Context `{VF : !ValueFormat I}.

(** ** [api/xion/zk/v1/query.pulsar.go] *)
Definition api_zk_VKey_fields : list (Field api_zk_VKey) := [
  pl_string_field 1 api_zk_VKey_KeyBytes (λ v m, mk_api_zk_VKey v (api_zk_VKey_Name m) (api_zk_VKey_Description m)
    (api_zk_VKey_CircuitHash m) (api_zk_VKey_Authority m) (api_zk_VKey_ProofSystem m));
  pl_string_field 2 api_zk_VKey_Name (λ v m, mk_api_zk_VKey (api_zk_VKey_KeyBytes m) v (api_zk_VKey_Description m)
    (api_zk_VKey_CircuitHash m) (api_zk_VKey_Authority m) (api_zk_VKey_ProofSystem m));
  pl_string_field 3 api_zk_VKey_Description (λ v m, mk_api_zk_VKey (api_zk_VKey_KeyBytes m) (api_zk_VKey_Name m) v
    (api_zk_VKey_CircuitHash m) (api_zk_VKey_Authority m) (api_zk_VKey_ProofSystem m));
  pl_string_field 4 api_zk_VKey_CircuitHash (λ v m, mk_api_zk_VKey (api_zk_VKey_KeyBytes m) (api_zk_VKey_Name m)
    (api_zk_VKey_Description m) v (api_zk_VKey_Authority m) (api_zk_VKey_ProofSystem m));
  pl_string_field 5 api_zk_VKey_Authority (λ v m, mk_api_zk_VKey (api_zk_VKey_KeyBytes m) (api_zk_VKey_Name m)
    (api_zk_VKey_Description m) (api_zk_VKey_CircuitHash m) v (api_zk_VKey_ProofSystem m));
  pl_int_field i32 6 api_zk_VKey_ProofSystem (λ v m, mk_api_zk_VKey (api_zk_VKey_KeyBytes m) (api_zk_VKey_Name m)
    (api_zk_VKey_Description m) (api_zk_VKey_CircuitHash m) (api_zk_VKey_Authority m) v)].
Definition api_zk_VKey_zero : api_zk_VKey := mk_api_zk_VKey "" "" "" "" "" 0.
#[global] Instance api_zk_VKey_spec : PulsarSpec api_zk_VKey_fields api_zk_VKey_zero.
Proof. pulsar_spec. Defined.
Definition api_zk_VKey_reflect : list (RField I api_zk_VKey) := [
  r_bytes "xion.zk.v1.VKey.key_bytes" api_zk_VKey_KeyBytes (λ v m, mk_api_zk_VKey v (api_zk_VKey_Name m)
    (api_zk_VKey_Description m) (api_zk_VKey_CircuitHash m) (api_zk_VKey_Authority m) (api_zk_VKey_ProofSystem m));
  r_string "xion.zk.v1.VKey.name" api_zk_VKey_Name (λ v m, mk_api_zk_VKey (api_zk_VKey_KeyBytes m) v
    (api_zk_VKey_Description m) (api_zk_VKey_CircuitHash m) (api_zk_VKey_Authority m) (api_zk_VKey_ProofSystem m));
  r_string "xion.zk.v1.VKey.description" api_zk_VKey_Description (λ v m, mk_api_zk_VKey (api_zk_VKey_KeyBytes m)
    (api_zk_VKey_Name m) v (api_zk_VKey_CircuitHash m) (api_zk_VKey_Authority m) (api_zk_VKey_ProofSystem m));
  r_string "xion.zk.v1.VKey.circuit_hash" api_zk_VKey_CircuitHash (λ v m, mk_api_zk_VKey (api_zk_VKey_KeyBytes m)
    (api_zk_VKey_Name m) (api_zk_VKey_Description m) v (api_zk_VKey_Authority m) (api_zk_VKey_ProofSystem m));
  r_string "xion.zk.v1.VKey.authority" api_zk_VKey_Authority (λ v m, mk_api_zk_VKey (api_zk_VKey_KeyBytes m)
    (api_zk_VKey_Name m) (api_zk_VKey_Description m) (api_zk_VKey_CircuitHash m) v (api_zk_VKey_ProofSystem m));
  r_enum "xion.zk.v1.VKey.proof_system" api_zk_VKey_ProofSystem (λ v m, mk_api_zk_VKey (api_zk_VKey_KeyBytes m)
    (api_zk_VKey_Name m) (api_zk_VKey_Description m) (api_zk_VKey_CircuitHash m) (api_zk_VKey_Authority m) v)].
#[global] Instance api_zk_VKey_reflect_spec : ReflectSpec api_zk_VKey_reflect api_zk_VKey_zero.
Proof. reflect_spec. Defined.
Definition to_api_zk_VKey (m : VKey) : api_zk_VKey := mk_api_zk_VKey (vkey_KeyBytes m) (vkey_Name m)
  (vkey_Description m) (vkey_CircuitHash m) (vkey_Authority m) (vkey_ProofSystem m).
#[global] Instance api_zk_VKey_agrees : MessageAgrees zk_VKey_fields zk_VKey_zero api_zk_VKey_fields api_zk_VKey_zero
  to_api_zk_VKey.
Proof. message_agree. Defined.

Definition api_zk_VKeyWithID_fields : list (Field api_zk_VKeyWithID) := [
  pl_int_field id 1 api_zk_VKeyWithID_Id (λ v m, mk_api_zk_VKeyWithID v (api_zk_VKeyWithID_Vkey m));
  pl_pointer_field (ProtoMethods api_zk_VKey_fields) (fresh api_zk_VKey_zero) 2 api_zk_VKeyWithID_Vkey (λ v m,
    mk_api_zk_VKeyWithID (api_zk_VKeyWithID_Id m) v)].
Definition api_zk_VKeyWithID_zero : api_zk_VKeyWithID := mk_api_zk_VKeyWithID 0 None.
#[global] Instance api_zk_VKeyWithID_spec : PulsarSpec api_zk_VKeyWithID_fields api_zk_VKeyWithID_zero.
Proof. pulsar_spec. Defined.
Definition api_zk_VKeyWithID_reflect : list (RField I api_zk_VKeyWithID) := [
  r_uint64 "xion.zk.v1.VKeyWithID.id" api_zk_VKeyWithID_Id (λ v m, mk_api_zk_VKeyWithID v (api_zk_VKeyWithID_Vkey m));
  r_message (fresh api_zk_VKey_zero) "xion.zk.v1.VKeyWithID.vkey" api_zk_VKeyWithID_Vkey (λ v m, mk_api_zk_VKeyWithID
    (api_zk_VKeyWithID_Id m) v)].
#[global] Instance api_zk_VKeyWithID_reflect_spec : ReflectSpec api_zk_VKeyWithID_reflect api_zk_VKeyWithID_zero.
Proof. reflect_spec. Defined.
Definition to_api_zk_VKeyWithID (m : VKeyWithID) : api_zk_VKeyWithID := mk_api_zk_VKeyWithID (vi_Id m)
  (Some ((api to_api_zk_VKey) (vi_Vkey m))).
#[global] Instance api_zk_VKeyWithID_agrees : MessageAgrees zk_VKeyWithID_fields zk_VKeyWithID_zero
  api_zk_VKeyWithID_fields api_zk_VKeyWithID_zero to_api_zk_VKeyWithID.
Proof. message_agree. Defined.

(** ** [api/xion/zk/v1/params.pulsar.go] *)
Definition api_zk_Params_fields : list (Field api_zk_Params) := [
  pl_int_field id 1 api_zk_Params_MaxVkeySizeBytes (λ v m, mk_api_zk_Params v (api_zk_Params_UploadChunkSize m)
    (api_zk_Params_UploadChunkGas m) (api_zk_Params_MaxGroth16ProofSizeBytes m)
    (api_zk_Params_MaxGroth16PublicInputSizeBytes m) (api_zk_Params_MaxUltraHonkProofSizeBytes m)
    (api_zk_Params_MaxUltraHonkPublicInputSizeBytes m) (api_zk_Params_MaxGnarkProofSizeBytes m)
    (api_zk_Params_MaxGnarkPublicInputSizeBytes m));
  pl_int_field id 2 api_zk_Params_UploadChunkSize (λ v m, mk_api_zk_Params (api_zk_Params_MaxVkeySizeBytes m) v
    (api_zk_Params_UploadChunkGas m) (api_zk_Params_MaxGroth16ProofSizeBytes m)
    (api_zk_Params_MaxGroth16PublicInputSizeBytes m) (api_zk_Params_MaxUltraHonkProofSizeBytes m)
    (api_zk_Params_MaxUltraHonkPublicInputSizeBytes m) (api_zk_Params_MaxGnarkProofSizeBytes m)
    (api_zk_Params_MaxGnarkPublicInputSizeBytes m));
  pl_int_field id 3 api_zk_Params_UploadChunkGas (λ v m, mk_api_zk_Params (api_zk_Params_MaxVkeySizeBytes m)
    (api_zk_Params_UploadChunkSize m) v (api_zk_Params_MaxGroth16ProofSizeBytes m)
    (api_zk_Params_MaxGroth16PublicInputSizeBytes m) (api_zk_Params_MaxUltraHonkProofSizeBytes m)
    (api_zk_Params_MaxUltraHonkPublicInputSizeBytes m) (api_zk_Params_MaxGnarkProofSizeBytes m)
    (api_zk_Params_MaxGnarkPublicInputSizeBytes m));
  pl_int_field id 4 api_zk_Params_MaxGroth16ProofSizeBytes (λ v m, mk_api_zk_Params (api_zk_Params_MaxVkeySizeBytes m)
    (api_zk_Params_UploadChunkSize m) (api_zk_Params_UploadChunkGas m) v (api_zk_Params_MaxGroth16PublicInputSizeBytes
    m) (api_zk_Params_MaxUltraHonkProofSizeBytes m) (api_zk_Params_MaxUltraHonkPublicInputSizeBytes m)
    (api_zk_Params_MaxGnarkProofSizeBytes m) (api_zk_Params_MaxGnarkPublicInputSizeBytes m));
  pl_int_field id 5 api_zk_Params_MaxGroth16PublicInputSizeBytes (λ v m, mk_api_zk_Params
    (api_zk_Params_MaxVkeySizeBytes m) (api_zk_Params_UploadChunkSize m) (api_zk_Params_UploadChunkGas m)
    (api_zk_Params_MaxGroth16ProofSizeBytes m) v (api_zk_Params_MaxUltraHonkProofSizeBytes m)
    (api_zk_Params_MaxUltraHonkPublicInputSizeBytes m) (api_zk_Params_MaxGnarkProofSizeBytes m)
    (api_zk_Params_MaxGnarkPublicInputSizeBytes m));
  pl_int_field id 6 api_zk_Params_MaxUltraHonkProofSizeBytes (λ v m, mk_api_zk_Params (api_zk_Params_MaxVkeySizeBytes
    m) (api_zk_Params_UploadChunkSize m) (api_zk_Params_UploadChunkGas m) (api_zk_Params_MaxGroth16ProofSizeBytes m)
    (api_zk_Params_MaxGroth16PublicInputSizeBytes m) v (api_zk_Params_MaxUltraHonkPublicInputSizeBytes m)
    (api_zk_Params_MaxGnarkProofSizeBytes m) (api_zk_Params_MaxGnarkPublicInputSizeBytes m));
  pl_int_field id 7 api_zk_Params_MaxUltraHonkPublicInputSizeBytes (λ v m, mk_api_zk_Params
    (api_zk_Params_MaxVkeySizeBytes m) (api_zk_Params_UploadChunkSize m) (api_zk_Params_UploadChunkGas m)
    (api_zk_Params_MaxGroth16ProofSizeBytes m) (api_zk_Params_MaxGroth16PublicInputSizeBytes m)
    (api_zk_Params_MaxUltraHonkProofSizeBytes m) v (api_zk_Params_MaxGnarkProofSizeBytes m)
    (api_zk_Params_MaxGnarkPublicInputSizeBytes m));
  pl_int_field id 8 api_zk_Params_MaxGnarkProofSizeBytes (λ v m, mk_api_zk_Params (api_zk_Params_MaxVkeySizeBytes m)
    (api_zk_Params_UploadChunkSize m) (api_zk_Params_UploadChunkGas m) (api_zk_Params_MaxGroth16ProofSizeBytes m)
    (api_zk_Params_MaxGroth16PublicInputSizeBytes m) (api_zk_Params_MaxUltraHonkProofSizeBytes m)
    (api_zk_Params_MaxUltraHonkPublicInputSizeBytes m) v (api_zk_Params_MaxGnarkPublicInputSizeBytes m));
  pl_int_field id 9 api_zk_Params_MaxGnarkPublicInputSizeBytes (λ v m, mk_api_zk_Params
    (api_zk_Params_MaxVkeySizeBytes m) (api_zk_Params_UploadChunkSize m) (api_zk_Params_UploadChunkGas m)
    (api_zk_Params_MaxGroth16ProofSizeBytes m) (api_zk_Params_MaxGroth16PublicInputSizeBytes m)
    (api_zk_Params_MaxUltraHonkProofSizeBytes m) (api_zk_Params_MaxUltraHonkPublicInputSizeBytes m)
    (api_zk_Params_MaxGnarkProofSizeBytes m) v)].
Definition api_zk_Params_zero : api_zk_Params := mk_api_zk_Params 0 0 0 0 0 0 0 0 0.
#[global] Instance api_zk_Params_spec : PulsarSpec api_zk_Params_fields api_zk_Params_zero.
Proof. pulsar_spec. Defined.
Definition api_zk_Params_reflect : list (RField I api_zk_Params) := [
  r_uint64 "xion.zk.v1.Params.max_vkey_size_bytes" api_zk_Params_MaxVkeySizeBytes (λ v m, mk_api_zk_Params v
    (api_zk_Params_UploadChunkSize m) (api_zk_Params_UploadChunkGas m) (api_zk_Params_MaxGroth16ProofSizeBytes m)
    (api_zk_Params_MaxGroth16PublicInputSizeBytes m) (api_zk_Params_MaxUltraHonkProofSizeBytes m)
    (api_zk_Params_MaxUltraHonkPublicInputSizeBytes m) (api_zk_Params_MaxGnarkProofSizeBytes m)
    (api_zk_Params_MaxGnarkPublicInputSizeBytes m));
  r_uint64 "xion.zk.v1.Params.upload_chunk_size" api_zk_Params_UploadChunkSize (λ v m, mk_api_zk_Params
    (api_zk_Params_MaxVkeySizeBytes m) v (api_zk_Params_UploadChunkGas m) (api_zk_Params_MaxGroth16ProofSizeBytes m)
    (api_zk_Params_MaxGroth16PublicInputSizeBytes m) (api_zk_Params_MaxUltraHonkProofSizeBytes m)
    (api_zk_Params_MaxUltraHonkPublicInputSizeBytes m) (api_zk_Params_MaxGnarkProofSizeBytes m)
    (api_zk_Params_MaxGnarkPublicInputSizeBytes m));
  r_uint64 "xion.zk.v1.Params.upload_chunk_gas" api_zk_Params_UploadChunkGas (λ v m, mk_api_zk_Params
    (api_zk_Params_MaxVkeySizeBytes m) (api_zk_Params_UploadChunkSize m) v (api_zk_Params_MaxGroth16ProofSizeBytes m)
    (api_zk_Params_MaxGroth16PublicInputSizeBytes m) (api_zk_Params_MaxUltraHonkProofSizeBytes m)
    (api_zk_Params_MaxUltraHonkPublicInputSizeBytes m) (api_zk_Params_MaxGnarkProofSizeBytes m)
    (api_zk_Params_MaxGnarkPublicInputSizeBytes m));
  r_uint64 "xion.zk.v1.Params.max_groth16_proof_size_bytes" api_zk_Params_MaxGroth16ProofSizeBytes (λ v m,
    mk_api_zk_Params (api_zk_Params_MaxVkeySizeBytes m) (api_zk_Params_UploadChunkSize m)
    (api_zk_Params_UploadChunkGas m) v (api_zk_Params_MaxGroth16PublicInputSizeBytes m)
    (api_zk_Params_MaxUltraHonkProofSizeBytes m) (api_zk_Params_MaxUltraHonkPublicInputSizeBytes m)
    (api_zk_Params_MaxGnarkProofSizeBytes m) (api_zk_Params_MaxGnarkPublicInputSizeBytes m));
  r_uint64 "xion.zk.v1.Params.max_groth16_public_input_size_bytes" api_zk_Params_MaxGroth16PublicInputSizeBytes (λ v
    m, mk_api_zk_Params (api_zk_Params_MaxVkeySizeBytes m) (api_zk_Params_UploadChunkSize m)
    (api_zk_Params_UploadChunkGas m) (api_zk_Params_MaxGroth16ProofSizeBytes m) v
    (api_zk_Params_MaxUltraHonkProofSizeBytes m) (api_zk_Params_MaxUltraHonkPublicInputSizeBytes m)
    (api_zk_Params_MaxGnarkProofSizeBytes m) (api_zk_Params_MaxGnarkPublicInputSizeBytes m));
  r_uint64 "xion.zk.v1.Params.max_ultra_honk_proof_size_bytes" api_zk_Params_MaxUltraHonkProofSizeBytes (λ v m,
    mk_api_zk_Params (api_zk_Params_MaxVkeySizeBytes m) (api_zk_Params_UploadChunkSize m)
    (api_zk_Params_UploadChunkGas m) (api_zk_Params_MaxGroth16ProofSizeBytes m)
    (api_zk_Params_MaxGroth16PublicInputSizeBytes m) v (api_zk_Params_MaxUltraHonkPublicInputSizeBytes m)
    (api_zk_Params_MaxGnarkProofSizeBytes m) (api_zk_Params_MaxGnarkPublicInputSizeBytes m));
  r_uint64 "xion.zk.v1.Params.max_ultra_honk_public_input_size_bytes" api_zk_Params_MaxUltraHonkPublicInputSizeBytes
    (λ v m, mk_api_zk_Params (api_zk_Params_MaxVkeySizeBytes m) (api_zk_Params_UploadChunkSize m)
    (api_zk_Params_UploadChunkGas m) (api_zk_Params_MaxGroth16ProofSizeBytes m)
    (api_zk_Params_MaxGroth16PublicInputSizeBytes m) (api_zk_Params_MaxUltraHonkProofSizeBytes m) v
    (api_zk_Params_MaxGnarkProofSizeBytes m) (api_zk_Params_MaxGnarkPublicInputSizeBytes m));
  r_uint64 "xion.zk.v1.Params.max_gnark_proof_size_bytes" api_zk_Params_MaxGnarkProofSizeBytes (λ v m,
    mk_api_zk_Params (api_zk_Params_MaxVkeySizeBytes m) (api_zk_Params_UploadChunkSize m)
    (api_zk_Params_UploadChunkGas m) (api_zk_Params_MaxGroth16ProofSizeBytes m)
    (api_zk_Params_MaxGroth16PublicInputSizeBytes m) (api_zk_Params_MaxUltraHonkProofSizeBytes m)
    (api_zk_Params_MaxUltraHonkPublicInputSizeBytes m) v (api_zk_Params_MaxGnarkPublicInputSizeBytes m));
  r_uint64 "xion.zk.v1.Params.max_gnark_public_input_size_bytes" api_zk_Params_MaxGnarkPublicInputSizeBytes (λ v m,
    mk_api_zk_Params (api_zk_Params_MaxVkeySizeBytes m) (api_zk_Params_UploadChunkSize m)
    (api_zk_Params_UploadChunkGas m) (api_zk_Params_MaxGroth16ProofSizeBytes m)
    (api_zk_Params_MaxGroth16PublicInputSizeBytes m) (api_zk_Params_MaxUltraHonkProofSizeBytes m)
    (api_zk_Params_MaxUltraHonkPublicInputSizeBytes m) (api_zk_Params_MaxGnarkProofSizeBytes m) v)].
#[global] Instance api_zk_Params_reflect_spec : ReflectSpec api_zk_Params_reflect api_zk_Params_zero.
Proof. reflect_spec. Defined.
Definition to_api_zk_Params (m : ZkParams) : api_zk_Params := mk_api_zk_Params (MaxVkeySizeBytes m)
  (UploadChunkSize m) (UploadChunkGas m) (MaxGroth16ProofSizeBytes m) (MaxGroth16PublicInputSizeBytes m)
  (MaxUltraHonkProofSizeBytes m) (MaxUltraHonkPublicInputSizeBytes m) (MaxGnarkProofSizeBytes m)
  (MaxGnarkPublicInputSizeBytes m).
#[global] Instance api_zk_Params_agrees : MessageAgrees zk_Params_fields zk_Params_zero api_zk_Params_fields
  api_zk_Params_zero to_api_zk_Params.
Proof. message_agree. Defined.

(** ** [api/xion/zk/v1/genesis.pulsar.go] *)
Definition api_zk_GenesisState_fields : list (Field api_zk_GenesisState) := [
  pl_messages_field (ProtoMethods api_zk_VKeyWithID_fields) (fresh api_zk_VKeyWithID_zero) 1 api_zk_GenesisState_Vkeys
    (λ v m, mk_api_zk_GenesisState v (api_zk_GenesisState_Params m));
  pl_pointer_field (ProtoMethods api_zk_Params_fields) (fresh api_zk_Params_zero) 2 api_zk_GenesisState_Params (λ v m,
    mk_api_zk_GenesisState (api_zk_GenesisState_Vkeys m) v)].
Definition api_zk_GenesisState_zero : api_zk_GenesisState := mk_api_zk_GenesisState [] None.
#[global] Instance api_zk_GenesisState_spec : PulsarSpec api_zk_GenesisState_fields api_zk_GenesisState_zero.
Proof. pulsar_spec. Defined.
Definition api_zk_GenesisState_reflect : list (RField I api_zk_GenesisState) := [
  r_messages "_GenesisState_1_list" "xion.zk.v1.GenesisState.vkeys" api_zk_GenesisState_Vkeys (λ v m,
    mk_api_zk_GenesisState v (api_zk_GenesisState_Params m));
  r_message (fresh api_zk_Params_zero) "xion.zk.v1.GenesisState.params" api_zk_GenesisState_Params (λ v m,
    mk_api_zk_GenesisState (api_zk_GenesisState_Vkeys m) v)].
#[global] Instance api_zk_GenesisState_reflect_spec : ReflectSpec api_zk_GenesisState_reflect
  api_zk_GenesisState_zero.
Proof. reflect_spec. Defined.
Definition api_zk_GenesisState_1_list : ListKind I (option (Pulsar api_zk_VKeyWithID)) := message_list (fresh api_zk_VKeyWithID_zero).
Definition to_api_zk_GenesisState (m : ZkGenesis) : api_zk_GenesisState := mk_api_zk_GenesisState
  ((api to_api_zk_VKeyWithID) <$> zg_Vkeys m) (Some ((api to_api_zk_Params) (zg_Params m))).
#[global] Instance api_zk_GenesisState_agrees : MessageAgrees zk_GenesisState_fields zk_GenesisState_zero
  api_zk_GenesisState_fields api_zk_GenesisState_zero to_api_zk_GenesisState.
Proof. message_agree. Defined.

(** ** [api/xion/zk/v1/query.pulsar.go] *)
Definition api_zk_SnarkJsProof_fields : list (Field api_zk_SnarkJsProof) := [
  pl_strings_field 1 api_zk_SnarkJsProof_PiA (λ v m, mk_api_zk_SnarkJsProof v (api_zk_SnarkJsProof_PiB m)
    (api_zk_SnarkJsProof_PiC m));
  pl_strings_field 2 api_zk_SnarkJsProof_PiB (λ v m, mk_api_zk_SnarkJsProof (api_zk_SnarkJsProof_PiA m) v
    (api_zk_SnarkJsProof_PiC m));
  pl_strings_field 3 api_zk_SnarkJsProof_PiC (λ v m, mk_api_zk_SnarkJsProof (api_zk_SnarkJsProof_PiA m)
    (api_zk_SnarkJsProof_PiB m) v)].
Definition api_zk_SnarkJsProof_zero : api_zk_SnarkJsProof := mk_api_zk_SnarkJsProof [] [] [].
#[global] Instance api_zk_SnarkJsProof_spec : PulsarSpec api_zk_SnarkJsProof_fields api_zk_SnarkJsProof_zero.
Proof. pulsar_spec. Defined.
Definition api_zk_SnarkJsProof_reflect : list (RField I api_zk_SnarkJsProof) := [
  r_bytess "_SnarkJsProof_1_list" "xion.zk.v1.SnarkJsProof.pi_a" api_zk_SnarkJsProof_PiA (λ v m,
    mk_api_zk_SnarkJsProof v (api_zk_SnarkJsProof_PiB m) (api_zk_SnarkJsProof_PiC m));
  r_bytess "_SnarkJsProof_2_list" "xion.zk.v1.SnarkJsProof.pi_b" api_zk_SnarkJsProof_PiB (λ v m,
    mk_api_zk_SnarkJsProof (api_zk_SnarkJsProof_PiA m) v (api_zk_SnarkJsProof_PiC m));
  r_bytess "_SnarkJsProof_3_list" "xion.zk.v1.SnarkJsProof.pi_c" api_zk_SnarkJsProof_PiC (λ v m,
    mk_api_zk_SnarkJsProof (api_zk_SnarkJsProof_PiA m) (api_zk_SnarkJsProof_PiB m) v)].
#[global] Instance api_zk_SnarkJsProof_reflect_spec : ReflectSpec api_zk_SnarkJsProof_reflect
  api_zk_SnarkJsProof_zero.
Proof. reflect_spec. Defined.
Definition api_zk_SnarkJsProof_1_list : ListKind I string := bytes_list.
Definition api_zk_SnarkJsProof_2_list : ListKind I string := bytes_list.
Definition api_zk_SnarkJsProof_3_list : ListKind I string := bytes_list.
Definition to_api_zk_SnarkJsProof (m : zk_SnarkJsProof) : api_zk_SnarkJsProof := mk_api_zk_SnarkJsProof
  (zk_SnarkJsProof_PiA m) (zk_SnarkJsProof_PiB m) (zk_SnarkJsProof_PiC m).
#[global] Instance api_zk_SnarkJsProof_agrees : MessageAgrees zk_SnarkJsProof_fields zk_SnarkJsProof_zero
  api_zk_SnarkJsProof_fields api_zk_SnarkJsProof_zero to_api_zk_SnarkJsProof.
Proof. message_agree. Defined.

Definition api_zk_QueryVerifyRequest_fields : list (Field api_zk_QueryVerifyRequest) := [
  pl_string_field 1 api_zk_QueryVerifyRequest_Proof (λ v m, mk_api_zk_QueryVerifyRequest v
    (api_zk_QueryVerifyRequest_PublicInputs m) (api_zk_QueryVerifyRequest_VkeyName m)
    (api_zk_QueryVerifyRequest_VkeyId m));
  pl_strings_field 2 api_zk_QueryVerifyRequest_PublicInputs (λ v m, mk_api_zk_QueryVerifyRequest
    (api_zk_QueryVerifyRequest_Proof m) v (api_zk_QueryVerifyRequest_VkeyName m) (api_zk_QueryVerifyRequest_VkeyId m));
  pl_string_field 3 api_zk_QueryVerifyRequest_VkeyName (λ v m, mk_api_zk_QueryVerifyRequest
    (api_zk_QueryVerifyRequest_Proof m) (api_zk_QueryVerifyRequest_PublicInputs m) v (api_zk_QueryVerifyRequest_VkeyId
    m));
  pl_int_field id 4 api_zk_QueryVerifyRequest_VkeyId (λ v m, mk_api_zk_QueryVerifyRequest
    (api_zk_QueryVerifyRequest_Proof m) (api_zk_QueryVerifyRequest_PublicInputs m) (api_zk_QueryVerifyRequest_VkeyName
    m) v)].
Definition api_zk_QueryVerifyRequest_zero : api_zk_QueryVerifyRequest := mk_api_zk_QueryVerifyRequest "" [] "" 0.
#[global] Instance api_zk_QueryVerifyRequest_spec : PulsarSpec api_zk_QueryVerifyRequest_fields api_zk_QueryVerifyRequest_zero.
Proof. pulsar_spec. Defined.
Definition api_zk_QueryVerifyRequest_reflect : list (RField I api_zk_QueryVerifyRequest) := [
  r_bytes "xion.zk.v1.QueryVerifyRequest.proof" api_zk_QueryVerifyRequest_Proof (λ v m, mk_api_zk_QueryVerifyRequest v
    (api_zk_QueryVerifyRequest_PublicInputs m) (api_zk_QueryVerifyRequest_VkeyName m)
    (api_zk_QueryVerifyRequest_VkeyId m));
  r_strings "_QueryVerifyRequest_2_list" "xion.zk.v1.QueryVerifyRequest.public_inputs"
    api_zk_QueryVerifyRequest_PublicInputs (λ v m, mk_api_zk_QueryVerifyRequest (api_zk_QueryVerifyRequest_Proof m) v
    (api_zk_QueryVerifyRequest_VkeyName m) (api_zk_QueryVerifyRequest_VkeyId m));
  r_string "xion.zk.v1.QueryVerifyRequest.vkey_name" api_zk_QueryVerifyRequest_VkeyName (λ v m,
    mk_api_zk_QueryVerifyRequest (api_zk_QueryVerifyRequest_Proof m) (api_zk_QueryVerifyRequest_PublicInputs m) v
    (api_zk_QueryVerifyRequest_VkeyId m));
  r_uint64 "xion.zk.v1.QueryVerifyRequest.vkey_id" api_zk_QueryVerifyRequest_VkeyId (λ v m,
    mk_api_zk_QueryVerifyRequest (api_zk_QueryVerifyRequest_Proof m) (api_zk_QueryVerifyRequest_PublicInputs m)
    (api_zk_QueryVerifyRequest_VkeyName m) v)].
#[global] Instance api_zk_QueryVerifyRequest_reflect_spec : ReflectSpec api_zk_QueryVerifyRequest_reflect
  api_zk_QueryVerifyRequest_zero.
Proof. reflect_spec. Defined.
Definition api_zk_QueryVerifyRequest_2_list : ListKind I string := string_list.
Definition to_api_zk_QueryVerifyRequest (m : QueryVerifyRequest) : api_zk_QueryVerifyRequest :=
  mk_api_zk_QueryVerifyRequest (qv_Proof m) (qv_PublicInputs m) (qv_VkeyName m) (qv_VkeyId m).
#[global] Instance api_zk_QueryVerifyRequest_agrees : MessageAgrees zk_QueryVerifyRequest_fields
  zk_QueryVerifyRequest_zero api_zk_QueryVerifyRequest_fields api_zk_QueryVerifyRequest_zero
  to_api_zk_QueryVerifyRequest.
Proof. message_agree. Defined.

Definition api_zk_ProofVerifyResponse_fields : list (Field api_zk_ProofVerifyResponse) := [
  pl_bool_field 1 api_zk_ProofVerifyResponse_Verified (λ v _, mk_api_zk_ProofVerifyResponse v)].
Definition api_zk_ProofVerifyResponse_zero : api_zk_ProofVerifyResponse := mk_api_zk_ProofVerifyResponse false.
#[global] Instance api_zk_ProofVerifyResponse_spec : PulsarSpec api_zk_ProofVerifyResponse_fields api_zk_ProofVerifyResponse_zero.
Proof. pulsar_spec. Defined.
Definition api_zk_ProofVerifyResponse_reflect : list (RField I api_zk_ProofVerifyResponse) := [
  r_bool "xion.zk.v1.ProofVerifyResponse.verified" api_zk_ProofVerifyResponse_Verified (λ v _,
    mk_api_zk_ProofVerifyResponse v)].
#[global] Instance api_zk_ProofVerifyResponse_reflect_spec : ReflectSpec api_zk_ProofVerifyResponse_reflect
  api_zk_ProofVerifyResponse_zero.
Proof. reflect_spec. Defined.
Definition to_api_zk_ProofVerifyResponse (m : zk_ProofVerifyResponse) : api_zk_ProofVerifyResponse :=
  mk_api_zk_ProofVerifyResponse (zk_ProofVerifyResponse_Verified m).
#[global] Instance api_zk_ProofVerifyResponse_agrees : MessageAgrees zk_ProofVerifyResponse_fields
  zk_ProofVerifyResponse_zero api_zk_ProofVerifyResponse_fields api_zk_ProofVerifyResponse_zero
  to_api_zk_ProofVerifyResponse.
Proof. message_agree. Defined.

Definition api_zk_ProofVerifyUltraHonkResponse_fields : list (Field api_zk_ProofVerifyUltraHonkResponse) := [
  pl_bool_field 1 api_zk_ProofVerifyUltraHonkResponse_Verified (λ v _, mk_api_zk_ProofVerifyUltraHonkResponse v)].
Definition api_zk_ProofVerifyUltraHonkResponse_zero : api_zk_ProofVerifyUltraHonkResponse := mk_api_zk_ProofVerifyUltraHonkResponse false.
#[global] Instance api_zk_ProofVerifyUltraHonkResponse_spec : PulsarSpec api_zk_ProofVerifyUltraHonkResponse_fields api_zk_ProofVerifyUltraHonkResponse_zero.
Proof. pulsar_spec. Defined.
Definition api_zk_ProofVerifyUltraHonkResponse_reflect : list (RField I api_zk_ProofVerifyUltraHonkResponse) := [
  r_bool "xion.zk.v1.ProofVerifyUltraHonkResponse.verified" api_zk_ProofVerifyUltraHonkResponse_Verified (λ v _,
    mk_api_zk_ProofVerifyUltraHonkResponse v)].
#[global] Instance api_zk_ProofVerifyUltraHonkResponse_reflect_spec : ReflectSpec
  api_zk_ProofVerifyUltraHonkResponse_reflect api_zk_ProofVerifyUltraHonkResponse_zero.
Proof. reflect_spec. Defined.
Definition to_api_zk_ProofVerifyUltraHonkResponse (m : zk_ProofVerifyUltraHonkResponse) :
  api_zk_ProofVerifyUltraHonkResponse := mk_api_zk_ProofVerifyUltraHonkResponse
  (zk_ProofVerifyUltraHonkResponse_Verified m).
#[global] Instance api_zk_ProofVerifyUltraHonkResponse_agrees : MessageAgrees zk_ProofVerifyUltraHonkResponse_fields
  zk_ProofVerifyUltraHonkResponse_zero api_zk_ProofVerifyUltraHonkResponse_fields
  api_zk_ProofVerifyUltraHonkResponse_zero to_api_zk_ProofVerifyUltraHonkResponse.
Proof. message_agree. Defined.

Definition api_zk_ProofVerifyGnarkResponse_fields : list (Field api_zk_ProofVerifyGnarkResponse) := [
  pl_bool_field 1 api_zk_ProofVerifyGnarkResponse_Verified (λ v _, mk_api_zk_ProofVerifyGnarkResponse v)].
Definition api_zk_ProofVerifyGnarkResponse_zero : api_zk_ProofVerifyGnarkResponse := mk_api_zk_ProofVerifyGnarkResponse false.
#[global] Instance api_zk_ProofVerifyGnarkResponse_spec : PulsarSpec api_zk_ProofVerifyGnarkResponse_fields api_zk_ProofVerifyGnarkResponse_zero.
Proof. pulsar_spec. Defined.
Definition api_zk_ProofVerifyGnarkResponse_reflect : list (RField I api_zk_ProofVerifyGnarkResponse) := [
  r_bool "xion.zk.v1.ProofVerifyGnarkResponse.verified" api_zk_ProofVerifyGnarkResponse_Verified (λ v _,
    mk_api_zk_ProofVerifyGnarkResponse v)].
#[global] Instance api_zk_ProofVerifyGnarkResponse_reflect_spec : ReflectSpec api_zk_ProofVerifyGnarkResponse_reflect
  api_zk_ProofVerifyGnarkResponse_zero.
Proof. reflect_spec. Defined.
Definition to_api_zk_ProofVerifyGnarkResponse (m : zk_ProofVerifyGnarkResponse) : api_zk_ProofVerifyGnarkResponse :=
  mk_api_zk_ProofVerifyGnarkResponse (zk_ProofVerifyGnarkResponse_Verified m).
#[global] Instance api_zk_ProofVerifyGnarkResponse_agrees : MessageAgrees zk_ProofVerifyGnarkResponse_fields
  zk_ProofVerifyGnarkResponse_zero api_zk_ProofVerifyGnarkResponse_fields api_zk_ProofVerifyGnarkResponse_zero
  to_api_zk_ProofVerifyGnarkResponse.
Proof. message_agree. Defined.

Definition api_zk_QueryVerifyUltraHonkRequest_fields : list (Field api_zk_QueryVerifyUltraHonkRequest) := [
  pl_string_field 1 api_zk_QueryVerifyUltraHonkRequest_Proof (λ v m, mk_api_zk_QueryVerifyUltraHonkRequest v
    (api_zk_QueryVerifyUltraHonkRequest_PublicInputs m) (api_zk_QueryVerifyUltraHonkRequest_VkeyName m)
    (api_zk_QueryVerifyUltraHonkRequest_VkeyId m));
  pl_string_field 2 api_zk_QueryVerifyUltraHonkRequest_PublicInputs (λ v m, mk_api_zk_QueryVerifyUltraHonkRequest
    (api_zk_QueryVerifyUltraHonkRequest_Proof m) v (api_zk_QueryVerifyUltraHonkRequest_VkeyName m)
    (api_zk_QueryVerifyUltraHonkRequest_VkeyId m));
  pl_string_field 3 api_zk_QueryVerifyUltraHonkRequest_VkeyName (λ v m, mk_api_zk_QueryVerifyUltraHonkRequest
    (api_zk_QueryVerifyUltraHonkRequest_Proof m) (api_zk_QueryVerifyUltraHonkRequest_PublicInputs m) v
    (api_zk_QueryVerifyUltraHonkRequest_VkeyId m));
  pl_int_field id 4 api_zk_QueryVerifyUltraHonkRequest_VkeyId (λ v m, mk_api_zk_QueryVerifyUltraHonkRequest
    (api_zk_QueryVerifyUltraHonkRequest_Proof m) (api_zk_QueryVerifyUltraHonkRequest_PublicInputs m)
    (api_zk_QueryVerifyUltraHonkRequest_VkeyName m) v)].
Definition api_zk_QueryVerifyUltraHonkRequest_zero : api_zk_QueryVerifyUltraHonkRequest := mk_api_zk_QueryVerifyUltraHonkRequest "" "" "" 0.
#[global] Instance api_zk_QueryVerifyUltraHonkRequest_spec : PulsarSpec api_zk_QueryVerifyUltraHonkRequest_fields api_zk_QueryVerifyUltraHonkRequest_zero.
Proof. pulsar_spec. Defined.
Definition api_zk_QueryVerifyUltraHonkRequest_reflect : list (RField I api_zk_QueryVerifyUltraHonkRequest) := [
  r_bytes "xion.zk.v1.QueryVerifyUltraHonkRequest.proof" api_zk_QueryVerifyUltraHonkRequest_Proof (λ v m,
    mk_api_zk_QueryVerifyUltraHonkRequest v (api_zk_QueryVerifyUltraHonkRequest_PublicInputs m)
    (api_zk_QueryVerifyUltraHonkRequest_VkeyName m) (api_zk_QueryVerifyUltraHonkRequest_VkeyId m));
  r_bytes "xion.zk.v1.QueryVerifyUltraHonkRequest.public_inputs" api_zk_QueryVerifyUltraHonkRequest_PublicInputs (λ v
    m, mk_api_zk_QueryVerifyUltraHonkRequest (api_zk_QueryVerifyUltraHonkRequest_Proof m) v
    (api_zk_QueryVerifyUltraHonkRequest_VkeyName m) (api_zk_QueryVerifyUltraHonkRequest_VkeyId m));
  r_string "xion.zk.v1.QueryVerifyUltraHonkRequest.vkey_name" api_zk_QueryVerifyUltraHonkRequest_VkeyName (λ v m,
    mk_api_zk_QueryVerifyUltraHonkRequest (api_zk_QueryVerifyUltraHonkRequest_Proof m)
    (api_zk_QueryVerifyUltraHonkRequest_PublicInputs m) v (api_zk_QueryVerifyUltraHonkRequest_VkeyId m));
  r_uint64 "xion.zk.v1.QueryVerifyUltraHonkRequest.vkey_id" api_zk_QueryVerifyUltraHonkRequest_VkeyId (λ v m,
    mk_api_zk_QueryVerifyUltraHonkRequest (api_zk_QueryVerifyUltraHonkRequest_Proof m)
    (api_zk_QueryVerifyUltraHonkRequest_PublicInputs m) (api_zk_QueryVerifyUltraHonkRequest_VkeyName m) v)].
#[global] Instance api_zk_QueryVerifyUltraHonkRequest_reflect_spec : ReflectSpec
  api_zk_QueryVerifyUltraHonkRequest_reflect api_zk_QueryVerifyUltraHonkRequest_zero.
Proof. reflect_spec. Defined.
Definition to_api_zk_QueryVerifyUltraHonkRequest (m : QueryVerifyBytesRequest) : api_zk_QueryVerifyUltraHonkRequest :=
  mk_api_zk_QueryVerifyUltraHonkRequest (qb_Proof m) (qb_PublicInputs m) (qb_VkeyName m) (qb_VkeyId m).
#[global] Instance api_zk_QueryVerifyUltraHonkRequest_agrees : MessageAgrees zk_QueryVerifyUltraHonkRequest_fields
  zk_QueryVerifyUltraHonkRequest_zero api_zk_QueryVerifyUltraHonkRequest_fields
  api_zk_QueryVerifyUltraHonkRequest_zero to_api_zk_QueryVerifyUltraHonkRequest.
Proof. message_agree. Defined.

Definition api_zk_QueryVerifyGnarkRequest_fields : list (Field api_zk_QueryVerifyGnarkRequest) := [
  pl_string_field 1 api_zk_QueryVerifyGnarkRequest_Proof (λ v m, mk_api_zk_QueryVerifyGnarkRequest v
    (api_zk_QueryVerifyGnarkRequest_PublicInputs m) (api_zk_QueryVerifyGnarkRequest_VkeyName m)
    (api_zk_QueryVerifyGnarkRequest_VkeyId m));
  pl_string_field 2 api_zk_QueryVerifyGnarkRequest_PublicInputs (λ v m, mk_api_zk_QueryVerifyGnarkRequest
    (api_zk_QueryVerifyGnarkRequest_Proof m) v (api_zk_QueryVerifyGnarkRequest_VkeyName m)
    (api_zk_QueryVerifyGnarkRequest_VkeyId m));
  pl_string_field 3 api_zk_QueryVerifyGnarkRequest_VkeyName (λ v m, mk_api_zk_QueryVerifyGnarkRequest
    (api_zk_QueryVerifyGnarkRequest_Proof m) (api_zk_QueryVerifyGnarkRequest_PublicInputs m) v
    (api_zk_QueryVerifyGnarkRequest_VkeyId m));
  pl_int_field id 4 api_zk_QueryVerifyGnarkRequest_VkeyId (λ v m, mk_api_zk_QueryVerifyGnarkRequest
    (api_zk_QueryVerifyGnarkRequest_Proof m) (api_zk_QueryVerifyGnarkRequest_PublicInputs m)
    (api_zk_QueryVerifyGnarkRequest_VkeyName m) v)].
Definition api_zk_QueryVerifyGnarkRequest_zero : api_zk_QueryVerifyGnarkRequest := mk_api_zk_QueryVerifyGnarkRequest "" "" "" 0.
#[global] Instance api_zk_QueryVerifyGnarkRequest_spec : PulsarSpec api_zk_QueryVerifyGnarkRequest_fields api_zk_QueryVerifyGnarkRequest_zero.
Proof. pulsar_spec. Defined.
Definition api_zk_QueryVerifyGnarkRequest_reflect : list (RField I api_zk_QueryVerifyGnarkRequest) := [
  r_bytes "xion.zk.v1.QueryVerifyGnarkRequest.proof" api_zk_QueryVerifyGnarkRequest_Proof (λ v m,
    mk_api_zk_QueryVerifyGnarkRequest v (api_zk_QueryVerifyGnarkRequest_PublicInputs m)
    (api_zk_QueryVerifyGnarkRequest_VkeyName m) (api_zk_QueryVerifyGnarkRequest_VkeyId m));
  r_bytes "xion.zk.v1.QueryVerifyGnarkRequest.public_inputs" api_zk_QueryVerifyGnarkRequest_PublicInputs (λ v m,
    mk_api_zk_QueryVerifyGnarkRequest (api_zk_QueryVerifyGnarkRequest_Proof m) v
    (api_zk_QueryVerifyGnarkRequest_VkeyName m) (api_zk_QueryVerifyGnarkRequest_VkeyId m));
  r_string "xion.zk.v1.QueryVerifyGnarkRequest.vkey_name" api_zk_QueryVerifyGnarkRequest_VkeyName (λ v m,
    mk_api_zk_QueryVerifyGnarkRequest (api_zk_QueryVerifyGnarkRequest_Proof m)
    (api_zk_QueryVerifyGnarkRequest_PublicInputs m) v (api_zk_QueryVerifyGnarkRequest_VkeyId m));
  r_uint64 "xion.zk.v1.QueryVerifyGnarkRequest.vkey_id" api_zk_QueryVerifyGnarkRequest_VkeyId (λ v m,
    mk_api_zk_QueryVerifyGnarkRequest (api_zk_QueryVerifyGnarkRequest_Proof m)
    (api_zk_QueryVerifyGnarkRequest_PublicInputs m) (api_zk_QueryVerifyGnarkRequest_VkeyName m) v)].
#[global] Instance api_zk_QueryVerifyGnarkRequest_reflect_spec : ReflectSpec api_zk_QueryVerifyGnarkRequest_reflect
  api_zk_QueryVerifyGnarkRequest_zero.
Proof. reflect_spec. Defined.
Definition to_api_zk_QueryVerifyGnarkRequest (m : QueryVerifyBytesRequest) : api_zk_QueryVerifyGnarkRequest :=
  mk_api_zk_QueryVerifyGnarkRequest (qb_Proof m) (qb_PublicInputs m) (qb_VkeyName m) (qb_VkeyId m).
#[global] Instance api_zk_QueryVerifyGnarkRequest_agrees : MessageAgrees zk_QueryVerifyGnarkRequest_fields
  zk_QueryVerifyGnarkRequest_zero api_zk_QueryVerifyGnarkRequest_fields api_zk_QueryVerifyGnarkRequest_zero
  to_api_zk_QueryVerifyGnarkRequest.
Proof. message_agree. Defined.

Definition api_zk_QueryVKeyRequest_fields : list (Field api_zk_QueryVKeyRequest) := [
  pl_int_field id 1 api_zk_QueryVKeyRequest_Id (λ v _, mk_api_zk_QueryVKeyRequest v)].
Definition api_zk_QueryVKeyRequest_zero : api_zk_QueryVKeyRequest := mk_api_zk_QueryVKeyRequest 0.
#[global] Instance api_zk_QueryVKeyRequest_spec : PulsarSpec api_zk_QueryVKeyRequest_fields api_zk_QueryVKeyRequest_zero.
Proof. pulsar_spec. Defined.
Definition api_zk_QueryVKeyRequest_reflect : list (RField I api_zk_QueryVKeyRequest) := [
  r_uint64 "xion.zk.v1.QueryVKeyRequest.id" api_zk_QueryVKeyRequest_Id (λ v _, mk_api_zk_QueryVKeyRequest v)].
#[global] Instance api_zk_QueryVKeyRequest_reflect_spec : ReflectSpec api_zk_QueryVKeyRequest_reflect
  api_zk_QueryVKeyRequest_zero.
Proof. reflect_spec. Defined.
Definition to_api_zk_QueryVKeyRequest (m : zk_QueryVKeyRequest) : api_zk_QueryVKeyRequest :=
  mk_api_zk_QueryVKeyRequest (zk_QueryVKeyRequest_Id m).
#[global] Instance api_zk_QueryVKeyRequest_agrees : MessageAgrees zk_QueryVKeyRequest_fields zk_QueryVKeyRequest_zero
  api_zk_QueryVKeyRequest_fields api_zk_QueryVKeyRequest_zero to_api_zk_QueryVKeyRequest.
Proof. message_agree. Defined.

Definition api_zk_QueryVKeyResponse_fields : list (Field api_zk_QueryVKeyResponse) := [
  pl_pointer_field (ProtoMethods api_zk_VKey_fields) (fresh api_zk_VKey_zero) 1 api_zk_QueryVKeyResponse_Vkey (λ v _,
    mk_api_zk_QueryVKeyResponse v)].
Definition api_zk_QueryVKeyResponse_zero : api_zk_QueryVKeyResponse := mk_api_zk_QueryVKeyResponse None.
#[global] Instance api_zk_QueryVKeyResponse_spec : PulsarSpec api_zk_QueryVKeyResponse_fields api_zk_QueryVKeyResponse_zero.
Proof. pulsar_spec. Defined.
Definition api_zk_QueryVKeyResponse_reflect : list (RField I api_zk_QueryVKeyResponse) := [
  r_message (fresh api_zk_VKey_zero) "xion.zk.v1.QueryVKeyResponse.vkey" api_zk_QueryVKeyResponse_Vkey (λ v _,
    mk_api_zk_QueryVKeyResponse v)].
#[global] Instance api_zk_QueryVKeyResponse_reflect_spec : ReflectSpec api_zk_QueryVKeyResponse_reflect
  api_zk_QueryVKeyResponse_zero.
Proof. reflect_spec. Defined.
Definition to_api_zk_QueryVKeyResponse (m : zk_QueryVKeyResponse) : api_zk_QueryVKeyResponse :=
  mk_api_zk_QueryVKeyResponse (Some ((api to_api_zk_VKey) (zk_QueryVKeyResponse_Vkey m))).
#[global] Instance api_zk_QueryVKeyResponse_agrees : MessageAgrees zk_QueryVKeyResponse_fields
  zk_QueryVKeyResponse_zero api_zk_QueryVKeyResponse_fields api_zk_QueryVKeyResponse_zero to_api_zk_QueryVKeyResponse.
Proof. message_agree. Defined.

Definition api_zk_QueryVKeyByNameRequest_fields : list (Field api_zk_QueryVKeyByNameRequest) := [
  pl_string_field 1 api_zk_QueryVKeyByNameRequest_Name (λ v _, mk_api_zk_QueryVKeyByNameRequest v)].
Definition api_zk_QueryVKeyByNameRequest_zero : api_zk_QueryVKeyByNameRequest := mk_api_zk_QueryVKeyByNameRequest "".
#[global] Instance api_zk_QueryVKeyByNameRequest_spec : PulsarSpec api_zk_QueryVKeyByNameRequest_fields api_zk_QueryVKeyByNameRequest_zero.
Proof. pulsar_spec. Defined.
Definition api_zk_QueryVKeyByNameRequest_reflect : list (RField I api_zk_QueryVKeyByNameRequest) := [
  r_string "xion.zk.v1.QueryVKeyByNameRequest.name" api_zk_QueryVKeyByNameRequest_Name (λ v _,
    mk_api_zk_QueryVKeyByNameRequest v)].
#[global] Instance api_zk_QueryVKeyByNameRequest_reflect_spec : ReflectSpec api_zk_QueryVKeyByNameRequest_reflect
  api_zk_QueryVKeyByNameRequest_zero.
Proof. reflect_spec. Defined.
Definition to_api_zk_QueryVKeyByNameRequest (m : zk_QueryVKeyByNameRequest) : api_zk_QueryVKeyByNameRequest :=
  mk_api_zk_QueryVKeyByNameRequest (zk_QueryVKeyByNameRequest_Name m).
#[global] Instance api_zk_QueryVKeyByNameRequest_agrees : MessageAgrees zk_QueryVKeyByNameRequest_fields
  zk_QueryVKeyByNameRequest_zero api_zk_QueryVKeyByNameRequest_fields api_zk_QueryVKeyByNameRequest_zero
  to_api_zk_QueryVKeyByNameRequest.
Proof. message_agree. Defined.

Definition api_zk_QueryVKeyByNameResponse_fields : list (Field api_zk_QueryVKeyByNameResponse) := [
  pl_pointer_field (ProtoMethods api_zk_VKey_fields) (fresh api_zk_VKey_zero) 1 api_zk_QueryVKeyByNameResponse_Vkey (λ
    v m, mk_api_zk_QueryVKeyByNameResponse v (api_zk_QueryVKeyByNameResponse_Id m));
  pl_int_field id 2 api_zk_QueryVKeyByNameResponse_Id (λ v m, mk_api_zk_QueryVKeyByNameResponse
    (api_zk_QueryVKeyByNameResponse_Vkey m) v)].
Definition api_zk_QueryVKeyByNameResponse_zero : api_zk_QueryVKeyByNameResponse := mk_api_zk_QueryVKeyByNameResponse None 0.
#[global] Instance api_zk_QueryVKeyByNameResponse_spec : PulsarSpec api_zk_QueryVKeyByNameResponse_fields api_zk_QueryVKeyByNameResponse_zero.
Proof. pulsar_spec. Defined.
Definition api_zk_QueryVKeyByNameResponse_reflect : list (RField I api_zk_QueryVKeyByNameResponse) := [
  r_message (fresh api_zk_VKey_zero) "xion.zk.v1.QueryVKeyByNameResponse.vkey" api_zk_QueryVKeyByNameResponse_Vkey (λ
    v m, mk_api_zk_QueryVKeyByNameResponse v (api_zk_QueryVKeyByNameResponse_Id m));
  r_uint64 "xion.zk.v1.QueryVKeyByNameResponse.id" api_zk_QueryVKeyByNameResponse_Id (λ v m,
    mk_api_zk_QueryVKeyByNameResponse (api_zk_QueryVKeyByNameResponse_Vkey m) v)].
#[global] Instance api_zk_QueryVKeyByNameResponse_reflect_spec : ReflectSpec api_zk_QueryVKeyByNameResponse_reflect
  api_zk_QueryVKeyByNameResponse_zero.
Proof. reflect_spec. Defined.
Definition to_api_zk_QueryVKeyByNameResponse (m : QueryVKeyByNameResponse) : api_zk_QueryVKeyByNameResponse :=
  mk_api_zk_QueryVKeyByNameResponse (Some ((api to_api_zk_VKey) (vn_Vkey m))) (vn_Id m).
#[global] Instance api_zk_QueryVKeyByNameResponse_agrees : MessageAgrees zk_QueryVKeyByNameResponse_fields
  zk_QueryVKeyByNameResponse_zero api_zk_QueryVKeyByNameResponse_fields api_zk_QueryVKeyByNameResponse_zero
  to_api_zk_QueryVKeyByNameResponse.
Proof. message_agree. Defined.

Definition api_zk_QueryVKeysRequest_fields : list (Field api_zk_QueryVKeysRequest) := [
  pl_pointer_field ia_methods ia_zero 1 api_zk_QueryVKeysRequest_Pagination (λ v _, mk_api_zk_QueryVKeysRequest v)].
Definition api_zk_QueryVKeysRequest_zero : api_zk_QueryVKeysRequest := mk_api_zk_QueryVKeysRequest None.
#[global] Instance api_zk_QueryVKeysRequest_spec : PulsarSpec api_zk_QueryVKeysRequest_fields api_zk_QueryVKeysRequest_zero.
Proof. pulsar_spec. Defined.
Definition api_zk_QueryVKeysRequest_reflect : list (RField I api_zk_QueryVKeysRequest) := [
  r_message ia_zero "xion.zk.v1.QueryVKeysRequest.pagination" api_zk_QueryVKeysRequest_Pagination (λ v _,
    mk_api_zk_QueryVKeysRequest v)].
#[global] Instance api_zk_QueryVKeysRequest_reflect_spec : ReflectSpec api_zk_QueryVKeysRequest_reflect
  api_zk_QueryVKeysRequest_zero.
Proof. reflect_spec. Defined.
Definition to_api_zk_QueryVKeysRequest (m : zk_QueryVKeysRequest) : api_zk_QueryVKeysRequest :=
  mk_api_zk_QueryVKeysRequest (PageRequest_conv <$> zk_QueryVKeysRequest_Pagination m).
#[global] Instance api_zk_QueryVKeysRequest_agrees : MessageAgrees zk_QueryVKeysRequest_fields
  zk_QueryVKeysRequest_zero api_zk_QueryVKeysRequest_fields api_zk_QueryVKeysRequest_zero to_api_zk_QueryVKeysRequest.
Proof. message_agree. Defined.

Definition api_zk_QueryVKeysResponse_fields : list (Field api_zk_QueryVKeysResponse) := [
  pl_messages_field (ProtoMethods api_zk_VKeyWithID_fields) (fresh api_zk_VKeyWithID_zero) 1
    api_zk_QueryVKeysResponse_Vkeys (λ v m, mk_api_zk_QueryVKeysResponse v (api_zk_QueryVKeysResponse_Pagination m));
  pl_pointer_field ia_methods ia_zero 2 api_zk_QueryVKeysResponse_Pagination (λ v m, mk_api_zk_QueryVKeysResponse
    (api_zk_QueryVKeysResponse_Vkeys m) v)].
Definition api_zk_QueryVKeysResponse_zero : api_zk_QueryVKeysResponse := mk_api_zk_QueryVKeysResponse [] None.
#[global] Instance api_zk_QueryVKeysResponse_spec : PulsarSpec api_zk_QueryVKeysResponse_fields api_zk_QueryVKeysResponse_zero.
Proof. pulsar_spec. Defined.
Definition api_zk_QueryVKeysResponse_reflect : list (RField I api_zk_QueryVKeysResponse) := [
  r_messages "_QueryVKeysResponse_1_list" "xion.zk.v1.QueryVKeysResponse.vkeys" api_zk_QueryVKeysResponse_Vkeys (λ v
    m, mk_api_zk_QueryVKeysResponse v (api_zk_QueryVKeysResponse_Pagination m));
  r_message ia_zero "xion.zk.v1.QueryVKeysResponse.pagination" api_zk_QueryVKeysResponse_Pagination (λ v m,
    mk_api_zk_QueryVKeysResponse (api_zk_QueryVKeysResponse_Vkeys m) v)].
#[global] Instance api_zk_QueryVKeysResponse_reflect_spec : ReflectSpec api_zk_QueryVKeysResponse_reflect
  api_zk_QueryVKeysResponse_zero.
Proof. reflect_spec. Defined.
Definition api_zk_QueryVKeysResponse_1_list : ListKind I (option (Pulsar api_zk_VKeyWithID)) := message_list (fresh api_zk_VKeyWithID_zero).
Definition to_api_zk_QueryVKeysResponse (m : zk_QueryVKeysResponse) : api_zk_QueryVKeysResponse :=
  mk_api_zk_QueryVKeysResponse ((api to_api_zk_VKeyWithID) <$> zk_QueryVKeysResponse_Vkeys m)
  (PageResponse_conv <$> zk_QueryVKeysResponse_Pagination m).
#[global] Instance api_zk_QueryVKeysResponse_agrees : MessageAgrees zk_QueryVKeysResponse_fields
  zk_QueryVKeysResponse_zero api_zk_QueryVKeysResponse_fields api_zk_QueryVKeysResponse_zero
  to_api_zk_QueryVKeysResponse.
Proof. message_agree. Defined.

Definition api_zk_QueryHasVKeyRequest_fields : list (Field api_zk_QueryHasVKeyRequest) := [
  pl_string_field 1 api_zk_QueryHasVKeyRequest_Name (λ v _, mk_api_zk_QueryHasVKeyRequest v)].
Definition api_zk_QueryHasVKeyRequest_zero : api_zk_QueryHasVKeyRequest := mk_api_zk_QueryHasVKeyRequest "".
#[global] Instance api_zk_QueryHasVKeyRequest_spec : PulsarSpec api_zk_QueryHasVKeyRequest_fields api_zk_QueryHasVKeyRequest_zero.
Proof. pulsar_spec. Defined.
Definition api_zk_QueryHasVKeyRequest_reflect : list (RField I api_zk_QueryHasVKeyRequest) := [
  r_string "xion.zk.v1.QueryHasVKeyRequest.name" api_zk_QueryHasVKeyRequest_Name (λ v _, mk_api_zk_QueryHasVKeyRequest
    v)].
#[global] Instance api_zk_QueryHasVKeyRequest_reflect_spec : ReflectSpec api_zk_QueryHasVKeyRequest_reflect
  api_zk_QueryHasVKeyRequest_zero.
Proof. reflect_spec. Defined.
Definition to_api_zk_QueryHasVKeyRequest (m : zk_QueryHasVKeyRequest) : api_zk_QueryHasVKeyRequest :=
  mk_api_zk_QueryHasVKeyRequest (zk_QueryHasVKeyRequest_Name m).
#[global] Instance api_zk_QueryHasVKeyRequest_agrees : MessageAgrees zk_QueryHasVKeyRequest_fields
  zk_QueryHasVKeyRequest_zero api_zk_QueryHasVKeyRequest_fields api_zk_QueryHasVKeyRequest_zero
  to_api_zk_QueryHasVKeyRequest.
Proof. message_agree. Defined.

Definition api_zk_QueryHasVKeyResponse_fields : list (Field api_zk_QueryHasVKeyResponse) := [
  pl_bool_field 1 api_zk_QueryHasVKeyResponse_Exists (λ v m, mk_api_zk_QueryHasVKeyResponse v
    (api_zk_QueryHasVKeyResponse_Id m));
  pl_int_field id 2 api_zk_QueryHasVKeyResponse_Id (λ v m, mk_api_zk_QueryHasVKeyResponse
    (api_zk_QueryHasVKeyResponse_Exists m) v)].
Definition api_zk_QueryHasVKeyResponse_zero : api_zk_QueryHasVKeyResponse := mk_api_zk_QueryHasVKeyResponse false 0.
#[global] Instance api_zk_QueryHasVKeyResponse_spec : PulsarSpec api_zk_QueryHasVKeyResponse_fields api_zk_QueryHasVKeyResponse_zero.
Proof. pulsar_spec. Defined.
Definition api_zk_QueryHasVKeyResponse_reflect : list (RField I api_zk_QueryHasVKeyResponse) := [
  r_bool "xion.zk.v1.QueryHasVKeyResponse.exists" api_zk_QueryHasVKeyResponse_Exists (λ v m,
    mk_api_zk_QueryHasVKeyResponse v (api_zk_QueryHasVKeyResponse_Id m));
  r_uint64 "xion.zk.v1.QueryHasVKeyResponse.id" api_zk_QueryHasVKeyResponse_Id (λ v m, mk_api_zk_QueryHasVKeyResponse
    (api_zk_QueryHasVKeyResponse_Exists m) v)].
#[global] Instance api_zk_QueryHasVKeyResponse_reflect_spec : ReflectSpec api_zk_QueryHasVKeyResponse_reflect
  api_zk_QueryHasVKeyResponse_zero.
Proof. reflect_spec. Defined.
Definition to_api_zk_QueryHasVKeyResponse (m : QueryHasVKeyResponse) : api_zk_QueryHasVKeyResponse :=
  mk_api_zk_QueryHasVKeyResponse (hv_Exists m) (hv_Id m).
#[global] Instance api_zk_QueryHasVKeyResponse_agrees : MessageAgrees zk_QueryHasVKeyResponse_fields
  zk_QueryHasVKeyResponse_zero api_zk_QueryHasVKeyResponse_fields api_zk_QueryHasVKeyResponse_zero
  to_api_zk_QueryHasVKeyResponse.
Proof. message_agree. Defined.

Definition api_zk_QueryNextVKeyIDResponse_fields : list (Field api_zk_QueryNextVKeyIDResponse) := [
  pl_int_field id 1 api_zk_QueryNextVKeyIDResponse_NextId (λ v _, mk_api_zk_QueryNextVKeyIDResponse v)].
Definition api_zk_QueryNextVKeyIDResponse_zero : api_zk_QueryNextVKeyIDResponse := mk_api_zk_QueryNextVKeyIDResponse 0.
#[global] Instance api_zk_QueryNextVKeyIDResponse_spec : PulsarSpec api_zk_QueryNextVKeyIDResponse_fields api_zk_QueryNextVKeyIDResponse_zero.
Proof. pulsar_spec. Defined.
Definition api_zk_QueryNextVKeyIDResponse_reflect : list (RField I api_zk_QueryNextVKeyIDResponse) := [
  r_uint64 "xion.zk.v1.QueryNextVKeyIDResponse.next_id" api_zk_QueryNextVKeyIDResponse_NextId (λ v _,
    mk_api_zk_QueryNextVKeyIDResponse v)].
#[global] Instance api_zk_QueryNextVKeyIDResponse_reflect_spec : ReflectSpec api_zk_QueryNextVKeyIDResponse_reflect
  api_zk_QueryNextVKeyIDResponse_zero.
Proof. reflect_spec. Defined.
Definition to_api_zk_QueryNextVKeyIDResponse (m : zk_QueryNextVKeyIDResponse) : api_zk_QueryNextVKeyIDResponse :=
  mk_api_zk_QueryNextVKeyIDResponse (zk_QueryNextVKeyIDResponse_NextId m).
#[global] Instance api_zk_QueryNextVKeyIDResponse_agrees : MessageAgrees zk_QueryNextVKeyIDResponse_fields
  zk_QueryNextVKeyIDResponse_zero api_zk_QueryNextVKeyIDResponse_fields api_zk_QueryNextVKeyIDResponse_zero
  to_api_zk_QueryNextVKeyIDResponse.
Proof. message_agree. Defined.

Definition api_zk_QueryParamsResponse_fields : list (Field api_zk_QueryParamsResponse) := [
  pl_pointer_field (ProtoMethods api_zk_Params_fields) (fresh api_zk_Params_zero) 1 api_zk_QueryParamsResponse_Params
    (λ v _, mk_api_zk_QueryParamsResponse v)].
Definition api_zk_QueryParamsResponse_zero : api_zk_QueryParamsResponse := mk_api_zk_QueryParamsResponse None.
#[global] Instance api_zk_QueryParamsResponse_spec : PulsarSpec api_zk_QueryParamsResponse_fields api_zk_QueryParamsResponse_zero.
Proof. pulsar_spec. Defined.
Definition api_zk_QueryParamsResponse_reflect : list (RField I api_zk_QueryParamsResponse) := [
  r_message (fresh api_zk_Params_zero) "xion.zk.v1.QueryParamsResponse.params" api_zk_QueryParamsResponse_Params (λ v
    _, mk_api_zk_QueryParamsResponse v)].
#[global] Instance api_zk_QueryParamsResponse_reflect_spec : ReflectSpec api_zk_QueryParamsResponse_reflect
  api_zk_QueryParamsResponse_zero.
Proof. reflect_spec. Defined.
Definition to_api_zk_QueryParamsResponse (m : zk_QueryParamsResponse) : api_zk_QueryParamsResponse :=
  mk_api_zk_QueryParamsResponse (Some ((api to_api_zk_Params) (zk_QueryParamsResponse_Params m))).
#[global] Instance api_zk_QueryParamsResponse_agrees : MessageAgrees zk_QueryParamsResponse_fields
  zk_QueryParamsResponse_zero api_zk_QueryParamsResponse_fields api_zk_QueryParamsResponse_zero
  to_api_zk_QueryParamsResponse.
Proof. message_agree. Defined.

(** ** [api/xion/zk/v1/tx.pulsar.go] *)
Definition api_zk_MsgAddVKey_fields : list (Field api_zk_MsgAddVKey) := [
  pl_string_field 1 api_zk_MsgAddVKey_Authority (λ v m, mk_api_zk_MsgAddVKey v (api_zk_MsgAddVKey_Name m)
    (api_zk_MsgAddVKey_Description m) (api_zk_MsgAddVKey_VkeyBytes m) (api_zk_MsgAddVKey_ProofSystem m));
  pl_string_field 2 api_zk_MsgAddVKey_Name (λ v m, mk_api_zk_MsgAddVKey (api_zk_MsgAddVKey_Authority m) v
    (api_zk_MsgAddVKey_Description m) (api_zk_MsgAddVKey_VkeyBytes m) (api_zk_MsgAddVKey_ProofSystem m));
  pl_string_field 3 api_zk_MsgAddVKey_Description (λ v m, mk_api_zk_MsgAddVKey (api_zk_MsgAddVKey_Authority m)
    (api_zk_MsgAddVKey_Name m) v (api_zk_MsgAddVKey_VkeyBytes m) (api_zk_MsgAddVKey_ProofSystem m));
  pl_string_field 4 api_zk_MsgAddVKey_VkeyBytes (λ v m, mk_api_zk_MsgAddVKey (api_zk_MsgAddVKey_Authority m)
    (api_zk_MsgAddVKey_Name m) (api_zk_MsgAddVKey_Description m) v (api_zk_MsgAddVKey_ProofSystem m));
  pl_int_field i32 5 api_zk_MsgAddVKey_ProofSystem (λ v m, mk_api_zk_MsgAddVKey (api_zk_MsgAddVKey_Authority m)
    (api_zk_MsgAddVKey_Name m) (api_zk_MsgAddVKey_Description m) (api_zk_MsgAddVKey_VkeyBytes m) v)].
Definition api_zk_MsgAddVKey_zero : api_zk_MsgAddVKey := mk_api_zk_MsgAddVKey "" "" "" "" 0.
#[global] Instance api_zk_MsgAddVKey_spec : PulsarSpec api_zk_MsgAddVKey_fields api_zk_MsgAddVKey_zero.
Proof. pulsar_spec. Defined.
Definition api_zk_MsgAddVKey_reflect : list (RField I api_zk_MsgAddVKey) := [
  r_string "xion.zk.v1.MsgAddVKey.authority" api_zk_MsgAddVKey_Authority (λ v m, mk_api_zk_MsgAddVKey v
    (api_zk_MsgAddVKey_Name m) (api_zk_MsgAddVKey_Description m) (api_zk_MsgAddVKey_VkeyBytes m)
    (api_zk_MsgAddVKey_ProofSystem m));
  r_string "xion.zk.v1.MsgAddVKey.name" api_zk_MsgAddVKey_Name (λ v m, mk_api_zk_MsgAddVKey
    (api_zk_MsgAddVKey_Authority m) v (api_zk_MsgAddVKey_Description m) (api_zk_MsgAddVKey_VkeyBytes m)
    (api_zk_MsgAddVKey_ProofSystem m));
  r_string "xion.zk.v1.MsgAddVKey.description" api_zk_MsgAddVKey_Description (λ v m, mk_api_zk_MsgAddVKey
    (api_zk_MsgAddVKey_Authority m) (api_zk_MsgAddVKey_Name m) v (api_zk_MsgAddVKey_VkeyBytes m)
    (api_zk_MsgAddVKey_ProofSystem m));
  r_bytes "xion.zk.v1.MsgAddVKey.vkey_bytes" api_zk_MsgAddVKey_VkeyBytes (λ v m, mk_api_zk_MsgAddVKey
    (api_zk_MsgAddVKey_Authority m) (api_zk_MsgAddVKey_Name m) (api_zk_MsgAddVKey_Description m) v
    (api_zk_MsgAddVKey_ProofSystem m));
  r_enum "xion.zk.v1.MsgAddVKey.proof_system" api_zk_MsgAddVKey_ProofSystem (λ v m, mk_api_zk_MsgAddVKey
    (api_zk_MsgAddVKey_Authority m) (api_zk_MsgAddVKey_Name m) (api_zk_MsgAddVKey_Description m)
    (api_zk_MsgAddVKey_VkeyBytes m) v)].
#[global] Instance api_zk_MsgAddVKey_reflect_spec : ReflectSpec api_zk_MsgAddVKey_reflect api_zk_MsgAddVKey_zero.
Proof. reflect_spec. Defined.
Definition to_api_zk_MsgAddVKey (m : MsgAddVKey) : api_zk_MsgAddVKey := mk_api_zk_MsgAddVKey (av_Authority m)
  (av_Name m) (av_Description m) (av_VkeyBytes m) (av_ProofSystem m).
#[global] Instance api_zk_MsgAddVKey_agrees : MessageAgrees zk_MsgAddVKey_fields zk_MsgAddVKey_zero
  api_zk_MsgAddVKey_fields api_zk_MsgAddVKey_zero to_api_zk_MsgAddVKey.
Proof. message_agree. Defined.

Definition api_zk_MsgAddVKeyResponse_fields : list (Field api_zk_MsgAddVKeyResponse) := [
  pl_int_field id 1 api_zk_MsgAddVKeyResponse_Id (λ v _, mk_api_zk_MsgAddVKeyResponse v)].
Definition api_zk_MsgAddVKeyResponse_zero : api_zk_MsgAddVKeyResponse := mk_api_zk_MsgAddVKeyResponse 0.
#[global] Instance api_zk_MsgAddVKeyResponse_spec : PulsarSpec api_zk_MsgAddVKeyResponse_fields api_zk_MsgAddVKeyResponse_zero.
Proof. pulsar_spec. Defined.
Definition api_zk_MsgAddVKeyResponse_reflect : list (RField I api_zk_MsgAddVKeyResponse) := [
  r_uint64 "xion.zk.v1.MsgAddVKeyResponse.id" api_zk_MsgAddVKeyResponse_Id (λ v _, mk_api_zk_MsgAddVKeyResponse v)].
#[global] Instance api_zk_MsgAddVKeyResponse_reflect_spec : ReflectSpec api_zk_MsgAddVKeyResponse_reflect
  api_zk_MsgAddVKeyResponse_zero.
Proof. reflect_spec. Defined.
Definition to_api_zk_MsgAddVKeyResponse (m : zk_MsgAddVKeyResponse) : api_zk_MsgAddVKeyResponse :=
  mk_api_zk_MsgAddVKeyResponse (zk_MsgAddVKeyResponse_Id m).
#[global] Instance api_zk_MsgAddVKeyResponse_agrees : MessageAgrees zk_MsgAddVKeyResponse_fields
  zk_MsgAddVKeyResponse_zero api_zk_MsgAddVKeyResponse_fields api_zk_MsgAddVKeyResponse_zero
  to_api_zk_MsgAddVKeyResponse.
Proof. message_agree. Defined.

Definition api_zk_MsgUpdateVKey_fields : list (Field api_zk_MsgUpdateVKey) := [
  pl_string_field 1 api_zk_MsgUpdateVKey_Authority (λ v m, mk_api_zk_MsgUpdateVKey v (api_zk_MsgUpdateVKey_Name m)
    (api_zk_MsgUpdateVKey_Description m) (api_zk_MsgUpdateVKey_VkeyBytes m) (api_zk_MsgUpdateVKey_ProofSystem m));
  pl_string_field 2 api_zk_MsgUpdateVKey_Name (λ v m, mk_api_zk_MsgUpdateVKey (api_zk_MsgUpdateVKey_Authority m) v
    (api_zk_MsgUpdateVKey_Description m) (api_zk_MsgUpdateVKey_VkeyBytes m) (api_zk_MsgUpdateVKey_ProofSystem m));
  pl_string_field 3 api_zk_MsgUpdateVKey_Description (λ v m, mk_api_zk_MsgUpdateVKey (api_zk_MsgUpdateVKey_Authority
    m) (api_zk_MsgUpdateVKey_Name m) v (api_zk_MsgUpdateVKey_VkeyBytes m) (api_zk_MsgUpdateVKey_ProofSystem m));
  pl_string_field 4 api_zk_MsgUpdateVKey_VkeyBytes (λ v m, mk_api_zk_MsgUpdateVKey (api_zk_MsgUpdateVKey_Authority m)
    (api_zk_MsgUpdateVKey_Name m) (api_zk_MsgUpdateVKey_Description m) v (api_zk_MsgUpdateVKey_ProofSystem m));
  pl_int_field i32 5 api_zk_MsgUpdateVKey_ProofSystem (λ v m, mk_api_zk_MsgUpdateVKey (api_zk_MsgUpdateVKey_Authority
    m) (api_zk_MsgUpdateVKey_Name m) (api_zk_MsgUpdateVKey_Description m) (api_zk_MsgUpdateVKey_VkeyBytes m) v)].
Definition api_zk_MsgUpdateVKey_zero : api_zk_MsgUpdateVKey := mk_api_zk_MsgUpdateVKey "" "" "" "" 0.
#[global] Instance api_zk_MsgUpdateVKey_spec : PulsarSpec api_zk_MsgUpdateVKey_fields api_zk_MsgUpdateVKey_zero.
Proof. pulsar_spec. Defined.
Definition api_zk_MsgUpdateVKey_reflect : list (RField I api_zk_MsgUpdateVKey) := [
  r_string "xion.zk.v1.MsgUpdateVKey.authority" api_zk_MsgUpdateVKey_Authority (λ v m, mk_api_zk_MsgUpdateVKey v
    (api_zk_MsgUpdateVKey_Name m) (api_zk_MsgUpdateVKey_Description m) (api_zk_MsgUpdateVKey_VkeyBytes m)
    (api_zk_MsgUpdateVKey_ProofSystem m));
  r_string "xion.zk.v1.MsgUpdateVKey.name" api_zk_MsgUpdateVKey_Name (λ v m, mk_api_zk_MsgUpdateVKey
    (api_zk_MsgUpdateVKey_Authority m) v (api_zk_MsgUpdateVKey_Description m) (api_zk_MsgUpdateVKey_VkeyBytes m)
    (api_zk_MsgUpdateVKey_ProofSystem m));
  r_string "xion.zk.v1.MsgUpdateVKey.description" api_zk_MsgUpdateVKey_Description (λ v m, mk_api_zk_MsgUpdateVKey
    (api_zk_MsgUpdateVKey_Authority m) (api_zk_MsgUpdateVKey_Name m) v (api_zk_MsgUpdateVKey_VkeyBytes m)
    (api_zk_MsgUpdateVKey_ProofSystem m));
  r_bytes "xion.zk.v1.MsgUpdateVKey.vkey_bytes" api_zk_MsgUpdateVKey_VkeyBytes (λ v m, mk_api_zk_MsgUpdateVKey
    (api_zk_MsgUpdateVKey_Authority m) (api_zk_MsgUpdateVKey_Name m) (api_zk_MsgUpdateVKey_Description m) v
    (api_zk_MsgUpdateVKey_ProofSystem m));
  r_enum "xion.zk.v1.MsgUpdateVKey.proof_system" api_zk_MsgUpdateVKey_ProofSystem (λ v m, mk_api_zk_MsgUpdateVKey
    (api_zk_MsgUpdateVKey_Authority m) (api_zk_MsgUpdateVKey_Name m) (api_zk_MsgUpdateVKey_Description m)
    (api_zk_MsgUpdateVKey_VkeyBytes m) v)].
#[global] Instance api_zk_MsgUpdateVKey_reflect_spec : ReflectSpec api_zk_MsgUpdateVKey_reflect
  api_zk_MsgUpdateVKey_zero.
Proof. reflect_spec. Defined.
Definition to_api_zk_MsgUpdateVKey (m : MsgAddVKey) : api_zk_MsgUpdateVKey := mk_api_zk_MsgUpdateVKey (av_Authority m)
  (av_Name m) (av_Description m) (av_VkeyBytes m) (av_ProofSystem m).
#[global] Instance api_zk_MsgUpdateVKey_agrees : MessageAgrees zk_MsgUpdateVKey_fields zk_MsgUpdateVKey_zero
  api_zk_MsgUpdateVKey_fields api_zk_MsgUpdateVKey_zero to_api_zk_MsgUpdateVKey.
Proof. message_agree. Defined.

Definition api_zk_MsgRemoveVKey_fields : list (Field api_zk_MsgRemoveVKey) := [
  pl_string_field 1 api_zk_MsgRemoveVKey_Authority (λ v m, mk_api_zk_MsgRemoveVKey v (api_zk_MsgRemoveVKey_Name m));
  pl_string_field 2 api_zk_MsgRemoveVKey_Name (λ v m, mk_api_zk_MsgRemoveVKey (api_zk_MsgRemoveVKey_Authority m) v)].
Definition api_zk_MsgRemoveVKey_zero : api_zk_MsgRemoveVKey := mk_api_zk_MsgRemoveVKey "" "".
#[global] Instance api_zk_MsgRemoveVKey_spec : PulsarSpec api_zk_MsgRemoveVKey_fields api_zk_MsgRemoveVKey_zero.
Proof. pulsar_spec. Defined.
Definition api_zk_MsgRemoveVKey_reflect : list (RField I api_zk_MsgRemoveVKey) := [
  r_string "xion.zk.v1.MsgRemoveVKey.authority" api_zk_MsgRemoveVKey_Authority (λ v m, mk_api_zk_MsgRemoveVKey v
    (api_zk_MsgRemoveVKey_Name m));
  r_string "xion.zk.v1.MsgRemoveVKey.name" api_zk_MsgRemoveVKey_Name (λ v m, mk_api_zk_MsgRemoveVKey
    (api_zk_MsgRemoveVKey_Authority m) v)].
#[global] Instance api_zk_MsgRemoveVKey_reflect_spec : ReflectSpec api_zk_MsgRemoveVKey_reflect
  api_zk_MsgRemoveVKey_zero.
Proof. reflect_spec. Defined.
Definition to_api_zk_MsgRemoveVKey (m : MsgRemoveVKey) : api_zk_MsgRemoveVKey := mk_api_zk_MsgRemoveVKey
  (rv_Authority m) (rv_Name m).
#[global] Instance api_zk_MsgRemoveVKey_agrees : MessageAgrees zk_MsgRemoveVKey_fields zk_MsgRemoveVKey_zero
  api_zk_MsgRemoveVKey_fields api_zk_MsgRemoveVKey_zero to_api_zk_MsgRemoveVKey.
Proof. message_agree. Defined.

Definition api_zk_MsgUpdateParams_fields : list (Field api_zk_MsgUpdateParams) := [
  pl_string_field 1 api_zk_MsgUpdateParams_Authority (λ v m, mk_api_zk_MsgUpdateParams v
    (api_zk_MsgUpdateParams_Params m));
  pl_pointer_field (ProtoMethods api_zk_Params_fields) (fresh api_zk_Params_zero) 2 api_zk_MsgUpdateParams_Params (λ v
    m, mk_api_zk_MsgUpdateParams (api_zk_MsgUpdateParams_Authority m) v)].
Definition api_zk_MsgUpdateParams_zero : api_zk_MsgUpdateParams := mk_api_zk_MsgUpdateParams "" None.
#[global] Instance api_zk_MsgUpdateParams_spec : PulsarSpec api_zk_MsgUpdateParams_fields api_zk_MsgUpdateParams_zero.
Proof. pulsar_spec. Defined.
Definition api_zk_MsgUpdateParams_reflect : list (RField I api_zk_MsgUpdateParams) := [
  r_string "xion.zk.v1.MsgUpdateParams.authority" api_zk_MsgUpdateParams_Authority (λ v m, mk_api_zk_MsgUpdateParams v
    (api_zk_MsgUpdateParams_Params m));
  r_message (fresh api_zk_Params_zero) "xion.zk.v1.MsgUpdateParams.params" api_zk_MsgUpdateParams_Params (λ v m,
    mk_api_zk_MsgUpdateParams (api_zk_MsgUpdateParams_Authority m) v)].
#[global] Instance api_zk_MsgUpdateParams_reflect_spec : ReflectSpec api_zk_MsgUpdateParams_reflect
  api_zk_MsgUpdateParams_zero.
Proof. reflect_spec. Defined.
Definition to_api_zk_MsgUpdateParams (m : MsgZkUpdateParams) : api_zk_MsgUpdateParams := mk_api_zk_MsgUpdateParams
  (up_Authority m) (Some ((api to_api_zk_Params) (up_Params m))).
#[global] Instance api_zk_MsgUpdateParams_agrees : MessageAgrees zk_MsgUpdateParams_fields zk_MsgUpdateParams_zero
  api_zk_MsgUpdateParams_fields api_zk_MsgUpdateParams_zero to_api_zk_MsgUpdateParams.
Proof. message_agree. Defined.

(** ** The message types *)
Definition api_zk_messages : list (ApiMessage I) := [
  api_message zk_VKey_fields zk_VKey_zero api_zk_VKey_fields api_zk_VKey_zero api_zk_VKey_reflect to_api_zk_VKey;
  api_message zk_VKeyWithID_fields zk_VKeyWithID_zero api_zk_VKeyWithID_fields api_zk_VKeyWithID_zero api_zk_VKeyWithID_reflect to_api_zk_VKeyWithID;
  api_message zk_Params_fields zk_Params_zero api_zk_Params_fields api_zk_Params_zero api_zk_Params_reflect to_api_zk_Params;
  api_message zk_GenesisState_fields zk_GenesisState_zero api_zk_GenesisState_fields api_zk_GenesisState_zero api_zk_GenesisState_reflect to_api_zk_GenesisState;
  api_message zk_SnarkJsProof_fields zk_SnarkJsProof_zero api_zk_SnarkJsProof_fields api_zk_SnarkJsProof_zero api_zk_SnarkJsProof_reflect to_api_zk_SnarkJsProof;
  api_message zk_QueryVerifyRequest_fields zk_QueryVerifyRequest_zero api_zk_QueryVerifyRequest_fields api_zk_QueryVerifyRequest_zero api_zk_QueryVerifyRequest_reflect to_api_zk_QueryVerifyRequest;
  api_message zk_ProofVerifyResponse_fields zk_ProofVerifyResponse_zero api_zk_ProofVerifyResponse_fields api_zk_ProofVerifyResponse_zero api_zk_ProofVerifyResponse_reflect to_api_zk_ProofVerifyResponse;
  api_message zk_ProofVerifyUltraHonkResponse_fields zk_ProofVerifyUltraHonkResponse_zero api_zk_ProofVerifyUltraHonkResponse_fields api_zk_ProofVerifyUltraHonkResponse_zero api_zk_ProofVerifyUltraHonkResponse_reflect to_api_zk_ProofVerifyUltraHonkResponse;
  api_message zk_ProofVerifyGnarkResponse_fields zk_ProofVerifyGnarkResponse_zero api_zk_ProofVerifyGnarkResponse_fields api_zk_ProofVerifyGnarkResponse_zero api_zk_ProofVerifyGnarkResponse_reflect to_api_zk_ProofVerifyGnarkResponse;
  api_message zk_QueryVerifyUltraHonkRequest_fields zk_QueryVerifyUltraHonkRequest_zero api_zk_QueryVerifyUltraHonkRequest_fields api_zk_QueryVerifyUltraHonkRequest_zero api_zk_QueryVerifyUltraHonkRequest_reflect to_api_zk_QueryVerifyUltraHonkRequest;
  api_message zk_QueryVerifyGnarkRequest_fields zk_QueryVerifyGnarkRequest_zero api_zk_QueryVerifyGnarkRequest_fields api_zk_QueryVerifyGnarkRequest_zero api_zk_QueryVerifyGnarkRequest_reflect to_api_zk_QueryVerifyGnarkRequest;
  api_message zk_QueryVKeyRequest_fields zk_QueryVKeyRequest_zero api_zk_QueryVKeyRequest_fields api_zk_QueryVKeyRequest_zero api_zk_QueryVKeyRequest_reflect to_api_zk_QueryVKeyRequest;
  api_message zk_QueryVKeyResponse_fields zk_QueryVKeyResponse_zero api_zk_QueryVKeyResponse_fields api_zk_QueryVKeyResponse_zero api_zk_QueryVKeyResponse_reflect to_api_zk_QueryVKeyResponse;
  api_message zk_QueryVKeyByNameRequest_fields zk_QueryVKeyByNameRequest_zero api_zk_QueryVKeyByNameRequest_fields api_zk_QueryVKeyByNameRequest_zero api_zk_QueryVKeyByNameRequest_reflect to_api_zk_QueryVKeyByNameRequest;
  api_message zk_QueryVKeyByNameResponse_fields zk_QueryVKeyByNameResponse_zero api_zk_QueryVKeyByNameResponse_fields api_zk_QueryVKeyByNameResponse_zero api_zk_QueryVKeyByNameResponse_reflect to_api_zk_QueryVKeyByNameResponse;
  api_message zk_QueryVKeysRequest_fields zk_QueryVKeysRequest_zero api_zk_QueryVKeysRequest_fields api_zk_QueryVKeysRequest_zero api_zk_QueryVKeysRequest_reflect to_api_zk_QueryVKeysRequest;
  api_message zk_QueryVKeysResponse_fields zk_QueryVKeysResponse_zero api_zk_QueryVKeysResponse_fields api_zk_QueryVKeysResponse_zero api_zk_QueryVKeysResponse_reflect to_api_zk_QueryVKeysResponse;
  api_message zk_QueryHasVKeyRequest_fields zk_QueryHasVKeyRequest_zero api_zk_QueryHasVKeyRequest_fields api_zk_QueryHasVKeyRequest_zero api_zk_QueryHasVKeyRequest_reflect to_api_zk_QueryHasVKeyRequest;
  api_message zk_QueryHasVKeyResponse_fields zk_QueryHasVKeyResponse_zero api_zk_QueryHasVKeyResponse_fields api_zk_QueryHasVKeyResponse_zero api_zk_QueryHasVKeyResponse_reflect to_api_zk_QueryHasVKeyResponse;
  api_message zk_QueryNextVKeyIDResponse_fields zk_QueryNextVKeyIDResponse_zero api_zk_QueryNextVKeyIDResponse_fields api_zk_QueryNextVKeyIDResponse_zero api_zk_QueryNextVKeyIDResponse_reflect to_api_zk_QueryNextVKeyIDResponse;
  api_message zk_QueryParamsResponse_fields zk_QueryParamsResponse_zero api_zk_QueryParamsResponse_fields api_zk_QueryParamsResponse_zero api_zk_QueryParamsResponse_reflect to_api_zk_QueryParamsResponse;
  api_message zk_MsgAddVKey_fields zk_MsgAddVKey_zero api_zk_MsgAddVKey_fields api_zk_MsgAddVKey_zero api_zk_MsgAddVKey_reflect to_api_zk_MsgAddVKey;
  api_message zk_MsgAddVKeyResponse_fields zk_MsgAddVKeyResponse_zero api_zk_MsgAddVKeyResponse_fields api_zk_MsgAddVKeyResponse_zero api_zk_MsgAddVKeyResponse_reflect to_api_zk_MsgAddVKeyResponse;
  api_message zk_MsgUpdateVKey_fields zk_MsgUpdateVKey_zero api_zk_MsgUpdateVKey_fields api_zk_MsgUpdateVKey_zero api_zk_MsgUpdateVKey_reflect to_api_zk_MsgUpdateVKey;
  api_message zk_MsgRemoveVKey_fields zk_MsgRemoveVKey_zero api_zk_MsgRemoveVKey_fields api_zk_MsgRemoveVKey_zero api_zk_MsgRemoveVKey_reflect to_api_zk_MsgRemoveVKey;
  api_message zk_MsgUpdateParams_fields zk_MsgUpdateParams_zero api_zk_MsgUpdateParams_fields api_zk_MsgUpdateParams_zero api_zk_MsgUpdateParams_reflect to_api_zk_MsgUpdateParams
  ].

Lemma api_zk_messages_ok : Forall api_message_ok api_zk_messages.
Proof. api_messages_ok. Qed.

(** ** The lists *)
Definition api_zk_lists : list (ApiList I) := [ mkApiList api_zk_GenesisState_1_list;
  mkApiList api_zk_SnarkJsProof_1_list; mkApiList api_zk_SnarkJsProof_2_list; mkApiList api_zk_SnarkJsProof_3_list;
  mkApiList api_zk_QueryVerifyRequest_2_list; mkApiList api_zk_QueryVKeysResponse_1_list ].
Lemma api_zk_lists_ok : Forall api_list_ok api_zk_lists.
Proof. repeat (apply List.Forall_cons; [apply api_list_is_ok; apply _|]). apply List.Forall_nil. Qed.
End api.
