(* ===== verification/ApiDkim.v ===== *)
(** * src/api/xion/dkim: the messages

    As the [Proto] file of the module, for the second set of messages: the fields of every
    message for [ProtoMethods] and for reflection, and its agreement with the message of the
    first set. *)

From S2P Require Import Prelude GoStd ProtoWire ProtoCodec PulsarWire PulsarCodec PulsarReflect PulsarLists PulsarAgree.
From S2P Require Import Sdk SdkModel ZkTypes DkimTypes DkimKeeper DkimSubject DkimQuery ProtoDkim.

Section api.
Context {I : Type} `{Rt : !PulsarRuntime, Op : !ProtoOptions, RtL : !PulsarRuntimeLaws, OpL : !ProtoOptionsLaws}.
Context {PageRequest PageResponse : Type} `{IPageRequest : !ImportedMsg PageRequest,
  IPageResponse : !ImportedMsg PageResponse}.
Context `{LPageRequest : !ImportedLaws PageRequest, LPageResponse : !ImportedLaws PageResponse}.
(** The message types of the dependencies in this set, and the counterparts of values *)
Context {PageRequest_api PageResponse_api : Type} `{IAPageRequest : !ImportedApi PageRequest_api,
  IAPageResponse : !ImportedApi PageResponse_api}.
Context `{LAPageRequest : !ImportedApiLaws PageRequest_api, LAPageResponse : !ImportedApiLaws PageResponse_api}.
Context (PageRequest_conv : PageRequest → PageRequest_api) (PageResponse_conv : PageResponse → PageResponse_api).
Context `{CAPageRequest : !CodecAgrees im_codec im_zero ia_methods ia_zero PageRequest_conv,
  CAPageResponse : !CodecAgrees im_codec im_zero ia_methods ia_zero PageResponse_conv}.

(** ** Data: the fields that are known *)
Record api_dkim_IndexRange := mk_api_dkim_IndexRange { api_dkim_IndexRange_Start : Z; api_dkim_IndexRange_End : Z }.
Record api_dkim_PublicInputIndices := mk_api_dkim_PublicInputIndices { api_dkim_PublicInputIndices_MinLength : Z;
  api_dkim_PublicInputIndices_EmailHashIndex : Z;
  api_dkim_PublicInputIndices_DkimDomainRange : option (Pulsar api_dkim_IndexRange);
  api_dkim_PublicInputIndices_DkimHashIndex : Z;
  api_dkim_PublicInputIndices_TxBytesRange : option (Pulsar api_dkim_IndexRange);
  api_dkim_PublicInputIndices_EmailHostRange : option (Pulsar api_dkim_IndexRange);
  api_dkim_PublicInputIndices_EmailSubjectRange : option (Pulsar api_dkim_IndexRange) }.
Record api_dkim_Params := mk_api_dkim_Params { api_dkim_Params_VkeyIdentifier : Z;
  api_dkim_Params_MaxPubkeySizeBytes : Z;
  api_dkim_Params_PublicInputIndices : option (Pulsar api_dkim_PublicInputIndices) }.
Record api_dkim_DkimPubKey := mk_api_dkim_DkimPubKey { api_dkim_DkimPubKey_Domain : string;
  api_dkim_DkimPubKey_PubKey : string; api_dkim_DkimPubKey_PoseidonHash : string;
  api_dkim_DkimPubKey_Selector : string; api_dkim_DkimPubKey_Version : Z; api_dkim_DkimPubKey_KeyType : Z }.
Record api_dkim_GenesisState := mk_api_dkim_GenesisState {
  api_dkim_GenesisState_Params : option (Pulsar api_dkim_Params);
  api_dkim_GenesisState_DkimPubkeys : list (Pulsar api_dkim_DkimPubKey);
  api_dkim_GenesisState_RevokedPubkeys : list string }.
Record api_dkim_QueryDkimPubKeyRequest := mk_api_dkim_QueryDkimPubKeyRequest {
  api_dkim_QueryDkimPubKeyRequest_Selector : string; api_dkim_QueryDkimPubKeyRequest_Domain : string }.
Record api_dkim_QueryDkimPubKeyResponse := mk_api_dkim_QueryDkimPubKeyResponse {
  api_dkim_QueryDkimPubKeyResponse_DkimPubKey : option (Pulsar api_dkim_DkimPubKey) }.
Record api_dkim_QueryDkimPubKeysRequest := mk_api_dkim_QueryDkimPubKeysRequest {
  api_dkim_QueryDkimPubKeysRequest_Selector : string; api_dkim_QueryDkimPubKeysRequest_Domain : string;
  api_dkim_QueryDkimPubKeysRequest_PoseidonHash : string;
  api_dkim_QueryDkimPubKeysRequest_Pagination : option PageRequest_api }.
Record api_dkim_QueryDkimPubKeysResponse := mk_api_dkim_QueryDkimPubKeysResponse {
  api_dkim_QueryDkimPubKeysResponse_DkimPubKeys : list (Pulsar api_dkim_DkimPubKey);
  api_dkim_QueryDkimPubKeysResponse_Pagination : option PageResponse_api }.
Record api_dkim_QueryAuthenticateRequest := mk_api_dkim_QueryAuthenticateRequest {
  api_dkim_QueryAuthenticateRequest_TxBytes : string; api_dkim_QueryAuthenticateRequest_EmailHash : string;
  api_dkim_QueryAuthenticateRequest_Proof : string; api_dkim_QueryAuthenticateRequest_PublicInputs : list string;
  api_dkim_QueryAuthenticateRequest_AllowedEmailHosts : list string }.
Record api_dkim_AuthenticateResponse := mk_api_dkim_AuthenticateResponse {
  api_dkim_AuthenticateResponse_Verified : bool }.
Record api_dkim_QueryParamsResponse := mk_api_dkim_QueryParamsResponse {
  api_dkim_QueryParamsResponse_Params : option (Pulsar api_dkim_Params) }.
Record api_dkim_MsgUpdateParams := mk_api_dkim_MsgUpdateParams { api_dkim_MsgUpdateParams_Authority : string;
  api_dkim_MsgUpdateParams_Params : option (Pulsar api_dkim_Params) }.
Record api_dkim_MsgAddDkimPubKeys := mk_api_dkim_MsgAddDkimPubKeys { api_dkim_MsgAddDkimPubKeys_Authority : string;
  api_dkim_MsgAddDkimPubKeys_DkimPubkeys : list (Pulsar api_dkim_DkimPubKey) }.
Record api_dkim_MsgRemoveDkimPubKey := mk_api_dkim_MsgRemoveDkimPubKey {
  api_dkim_MsgRemoveDkimPubKey_Authority : string; api_dkim_MsgRemoveDkimPubKey_Selector : string;
  api_dkim_MsgRemoveDkimPubKey_Domain : string }.
Record api_dkim_MsgRevokeDkimPubKey := mk_api_dkim_MsgRevokeDkimPubKey { api_dkim_MsgRevokeDkimPubKey_Signer : string;
  api_dkim_MsgRevokeDkimPubKey_Domain : string; api_dkim_MsgRevokeDkimPubKey_PrivKey : string }.

Context `{!GoPointer I (Pulsar api_dkim_IndexRange), !GoPointer I (Pulsar api_dkim_PublicInputIndices),
  !GoPointer I (Pulsar api_dkim_Params), !GoPointer I (Pulsar api_dkim_DkimPubKey), !GoPointer I PageRequest_api,
  !GoPointer I PageResponse_api}.
Context `{VF : !ValueFormat I}.

(** ** [api/xion/dkim/v1/genesis.pulsar.go] *)
Definition api_dkim_IndexRange_fields : list (Field api_dkim_IndexRange) := [
  pl_int_field id 1 api_dkim_IndexRange_Start (λ v m, mk_api_dkim_IndexRange v (api_dkim_IndexRange_End m));
  pl_int_field id 2 api_dkim_IndexRange_End (λ v m, mk_api_dkim_IndexRange (api_dkim_IndexRange_Start m) v)].
Definition api_dkim_IndexRange_zero : api_dkim_IndexRange := mk_api_dkim_IndexRange 0 0.
#[global] Instance api_dkim_IndexRange_spec : PulsarSpec api_dkim_IndexRange_fields api_dkim_IndexRange_zero.
Proof. pulsar_spec. Defined.
Definition api_dkim_IndexRange_reflect : list (RField I api_dkim_IndexRange) := [
  r_uint64 "xion.dkim.v1.IndexRange.start" api_dkim_IndexRange_Start (λ v m, mk_api_dkim_IndexRange v
    (api_dkim_IndexRange_End m));
  r_uint64 "xion.dkim.v1.IndexRange.end" api_dkim_IndexRange_End (λ v m, mk_api_dkim_IndexRange
    (api_dkim_IndexRange_Start m) v)].
#[global] Instance api_dkim_IndexRange_reflect_spec : ReflectSpec api_dkim_IndexRange_reflect
  api_dkim_IndexRange_zero.
Proof. reflect_spec. Defined.
Definition to_api_dkim_IndexRange (m : IndexRange) : api_dkim_IndexRange := mk_api_dkim_IndexRange (ir_Start m)
  (ir_End m).
#[global] Instance api_dkim_IndexRange_agrees : MessageAgrees dkim_IndexRange_fields dkim_IndexRange_zero
  api_dkim_IndexRange_fields api_dkim_IndexRange_zero to_api_dkim_IndexRange.
Proof. message_agree. Defined.

Definition api_dkim_PublicInputIndices_fields : list (Field api_dkim_PublicInputIndices) := [
  pl_int_field id 1 api_dkim_PublicInputIndices_MinLength (λ v m, mk_api_dkim_PublicInputIndices v
    (api_dkim_PublicInputIndices_EmailHashIndex m) (api_dkim_PublicInputIndices_DkimDomainRange m)
    (api_dkim_PublicInputIndices_DkimHashIndex m) (api_dkim_PublicInputIndices_TxBytesRange m)
    (api_dkim_PublicInputIndices_EmailHostRange m) (api_dkim_PublicInputIndices_EmailSubjectRange m));
  pl_int_field id 2 api_dkim_PublicInputIndices_EmailHashIndex (λ v m, mk_api_dkim_PublicInputIndices
    (api_dkim_PublicInputIndices_MinLength m) v (api_dkim_PublicInputIndices_DkimDomainRange m)
    (api_dkim_PublicInputIndices_DkimHashIndex m) (api_dkim_PublicInputIndices_TxBytesRange m)
    (api_dkim_PublicInputIndices_EmailHostRange m) (api_dkim_PublicInputIndices_EmailSubjectRange m));
  pl_pointer_field (ProtoMethods api_dkim_IndexRange_fields) (fresh api_dkim_IndexRange_zero) 3
    api_dkim_PublicInputIndices_DkimDomainRange (λ v m, mk_api_dkim_PublicInputIndices
    (api_dkim_PublicInputIndices_MinLength m) (api_dkim_PublicInputIndices_EmailHashIndex m) v
    (api_dkim_PublicInputIndices_DkimHashIndex m) (api_dkim_PublicInputIndices_TxBytesRange m)
    (api_dkim_PublicInputIndices_EmailHostRange m) (api_dkim_PublicInputIndices_EmailSubjectRange m));
  pl_int_field id 4 api_dkim_PublicInputIndices_DkimHashIndex (λ v m, mk_api_dkim_PublicInputIndices
    (api_dkim_PublicInputIndices_MinLength m) (api_dkim_PublicInputIndices_EmailHashIndex m)
    (api_dkim_PublicInputIndices_DkimDomainRange m) v (api_dkim_PublicInputIndices_TxBytesRange m)
    (api_dkim_PublicInputIndices_EmailHostRange m) (api_dkim_PublicInputIndices_EmailSubjectRange m));
  pl_pointer_field (ProtoMethods api_dkim_IndexRange_fields) (fresh api_dkim_IndexRange_zero) 5
    api_dkim_PublicInputIndices_TxBytesRange (λ v m, mk_api_dkim_PublicInputIndices
    (api_dkim_PublicInputIndices_MinLength m) (api_dkim_PublicInputIndices_EmailHashIndex m)
    (api_dkim_PublicInputIndices_DkimDomainRange m) (api_dkim_PublicInputIndices_DkimHashIndex m) v
    (api_dkim_PublicInputIndices_EmailHostRange m) (api_dkim_PublicInputIndices_EmailSubjectRange m));
  pl_pointer_field (ProtoMethods api_dkim_IndexRange_fields) (fresh api_dkim_IndexRange_zero) 6
    api_dkim_PublicInputIndices_EmailHostRange (λ v m, mk_api_dkim_PublicInputIndices
    (api_dkim_PublicInputIndices_MinLength m) (api_dkim_PublicInputIndices_EmailHashIndex m)
    (api_dkim_PublicInputIndices_DkimDomainRange m) (api_dkim_PublicInputIndices_DkimHashIndex m)
    (api_dkim_PublicInputIndices_TxBytesRange m) v (api_dkim_PublicInputIndices_EmailSubjectRange m));
  pl_pointer_field (ProtoMethods api_dkim_IndexRange_fields) (fresh api_dkim_IndexRange_zero) 7
    api_dkim_PublicInputIndices_EmailSubjectRange (λ v m, mk_api_dkim_PublicInputIndices
    (api_dkim_PublicInputIndices_MinLength m) (api_dkim_PublicInputIndices_EmailHashIndex m)
    (api_dkim_PublicInputIndices_DkimDomainRange m) (api_dkim_PublicInputIndices_DkimHashIndex m)
    (api_dkim_PublicInputIndices_TxBytesRange m) (api_dkim_PublicInputIndices_EmailHostRange m) v)].
Definition api_dkim_PublicInputIndices_zero : api_dkim_PublicInputIndices := mk_api_dkim_PublicInputIndices 0 0 None 0 None None None.
#[global] Instance api_dkim_PublicInputIndices_spec : PulsarSpec api_dkim_PublicInputIndices_fields api_dkim_PublicInputIndices_zero.
Proof. pulsar_spec. Defined.
Definition api_dkim_PublicInputIndices_reflect : list (RField I api_dkim_PublicInputIndices) := [
  r_uint64 "xion.dkim.v1.PublicInputIndices.min_length" api_dkim_PublicInputIndices_MinLength (λ v m,
    mk_api_dkim_PublicInputIndices v (api_dkim_PublicInputIndices_EmailHashIndex m)
    (api_dkim_PublicInputIndices_DkimDomainRange m) (api_dkim_PublicInputIndices_DkimHashIndex m)
    (api_dkim_PublicInputIndices_TxBytesRange m) (api_dkim_PublicInputIndices_EmailHostRange m)
    (api_dkim_PublicInputIndices_EmailSubjectRange m));
  r_uint64 "xion.dkim.v1.PublicInputIndices.email_hash_index" api_dkim_PublicInputIndices_EmailHashIndex (λ v m,
    mk_api_dkim_PublicInputIndices (api_dkim_PublicInputIndices_MinLength m) v
    (api_dkim_PublicInputIndices_DkimDomainRange m) (api_dkim_PublicInputIndices_DkimHashIndex m)
    (api_dkim_PublicInputIndices_TxBytesRange m) (api_dkim_PublicInputIndices_EmailHostRange m)
    (api_dkim_PublicInputIndices_EmailSubjectRange m));
  r_message (fresh api_dkim_IndexRange_zero) "xion.dkim.v1.PublicInputIndices.dkim_domain_range"
    api_dkim_PublicInputIndices_DkimDomainRange (λ v m, mk_api_dkim_PublicInputIndices
    (api_dkim_PublicInputIndices_MinLength m) (api_dkim_PublicInputIndices_EmailHashIndex m) v
    (api_dkim_PublicInputIndices_DkimHashIndex m) (api_dkim_PublicInputIndices_TxBytesRange m)
    (api_dkim_PublicInputIndices_EmailHostRange m) (api_dkim_PublicInputIndices_EmailSubjectRange m));
  r_uint64 "xion.dkim.v1.PublicInputIndices.dkim_hash_index" api_dkim_PublicInputIndices_DkimHashIndex (λ v m,
    mk_api_dkim_PublicInputIndices (api_dkim_PublicInputIndices_MinLength m)
    (api_dkim_PublicInputIndices_EmailHashIndex m) (api_dkim_PublicInputIndices_DkimDomainRange m) v
    (api_dkim_PublicInputIndices_TxBytesRange m) (api_dkim_PublicInputIndices_EmailHostRange m)
    (api_dkim_PublicInputIndices_EmailSubjectRange m));
  r_message (fresh api_dkim_IndexRange_zero) "xion.dkim.v1.PublicInputIndices.tx_bytes_range"
    api_dkim_PublicInputIndices_TxBytesRange (λ v m, mk_api_dkim_PublicInputIndices
    (api_dkim_PublicInputIndices_MinLength m) (api_dkim_PublicInputIndices_EmailHashIndex m)
    (api_dkim_PublicInputIndices_DkimDomainRange m) (api_dkim_PublicInputIndices_DkimHashIndex m) v
    (api_dkim_PublicInputIndices_EmailHostRange m) (api_dkim_PublicInputIndices_EmailSubjectRange m));
  r_message (fresh api_dkim_IndexRange_zero) "xion.dkim.v1.PublicInputIndices.email_host_range"
    api_dkim_PublicInputIndices_EmailHostRange (λ v m, mk_api_dkim_PublicInputIndices
    (api_dkim_PublicInputIndices_MinLength m) (api_dkim_PublicInputIndices_EmailHashIndex m)
    (api_dkim_PublicInputIndices_DkimDomainRange m) (api_dkim_PublicInputIndices_DkimHashIndex m)
    (api_dkim_PublicInputIndices_TxBytesRange m) v (api_dkim_PublicInputIndices_EmailSubjectRange m));
  r_message (fresh api_dkim_IndexRange_zero) "xion.dkim.v1.PublicInputIndices.email_subject_range"
    api_dkim_PublicInputIndices_EmailSubjectRange (λ v m, mk_api_dkim_PublicInputIndices
    (api_dkim_PublicInputIndices_MinLength m) (api_dkim_PublicInputIndices_EmailHashIndex m)
    (api_dkim_PublicInputIndices_DkimDomainRange m) (api_dkim_PublicInputIndices_DkimHashIndex m)
    (api_dkim_PublicInputIndices_TxBytesRange m) (api_dkim_PublicInputIndices_EmailHostRange m) v)].
#[global] Instance api_dkim_PublicInputIndices_reflect_spec : ReflectSpec api_dkim_PublicInputIndices_reflect
  api_dkim_PublicInputIndices_zero.
Proof. reflect_spec. Defined.
Definition to_api_dkim_PublicInputIndices (m : PublicInputIndices) : api_dkim_PublicInputIndices :=
  mk_api_dkim_PublicInputIndices (MinLength m) (EmailHashIndex m)
  (Some ((api to_api_dkim_IndexRange) (DkimDomainRange m))) (DkimHashIndex m)
  (Some ((api to_api_dkim_IndexRange) (TxBytesRange m))) (Some ((api to_api_dkim_IndexRange) (EmailHostRange m)))
  (Some ((api to_api_dkim_IndexRange) (EmailSubjectRange m))).
#[global] Instance api_dkim_PublicInputIndices_agrees : MessageAgrees dkim_PublicInputIndices_fields
  dkim_PublicInputIndices_zero api_dkim_PublicInputIndices_fields api_dkim_PublicInputIndices_zero
  to_api_dkim_PublicInputIndices.
Proof. message_agree. Defined.

Definition api_dkim_Params_fields : list (Field api_dkim_Params) := [
  pl_int_field id 1 api_dkim_Params_VkeyIdentifier (λ v m, mk_api_dkim_Params v (api_dkim_Params_MaxPubkeySizeBytes m)
    (api_dkim_Params_PublicInputIndices m));
  pl_int_field id 2 api_dkim_Params_MaxPubkeySizeBytes (λ v m, mk_api_dkim_Params (api_dkim_Params_VkeyIdentifier m) v
    (api_dkim_Params_PublicInputIndices m));
  pl_pointer_field (ProtoMethods api_dkim_PublicInputIndices_fields) (fresh api_dkim_PublicInputIndices_zero) 3
    api_dkim_Params_PublicInputIndices (λ v m, mk_api_dkim_Params (api_dkim_Params_VkeyIdentifier m)
    (api_dkim_Params_MaxPubkeySizeBytes m) v)].
Definition api_dkim_Params_zero : api_dkim_Params := mk_api_dkim_Params 0 0 None.
#[global] Instance api_dkim_Params_spec : PulsarSpec api_dkim_Params_fields api_dkim_Params_zero.
Proof. pulsar_spec. Defined.
Definition api_dkim_Params_reflect : list (RField I api_dkim_Params) := [
  r_uint64 "xion.dkim.v1.Params.vkey_identifier" api_dkim_Params_VkeyIdentifier (λ v m, mk_api_dkim_Params v
    (api_dkim_Params_MaxPubkeySizeBytes m) (api_dkim_Params_PublicInputIndices m));
  r_uint64 "xion.dkim.v1.Params.max_pubkey_size_bytes" api_dkim_Params_MaxPubkeySizeBytes (λ v m, mk_api_dkim_Params
    (api_dkim_Params_VkeyIdentifier m) v (api_dkim_Params_PublicInputIndices m));
  r_message (fresh api_dkim_PublicInputIndices_zero) "xion.dkim.v1.Params.public_input_indices"
    api_dkim_Params_PublicInputIndices (λ v m, mk_api_dkim_Params (api_dkim_Params_VkeyIdentifier m)
    (api_dkim_Params_MaxPubkeySizeBytes m) v)].
#[global] Instance api_dkim_Params_reflect_spec : ReflectSpec api_dkim_Params_reflect api_dkim_Params_zero.
Proof. reflect_spec. Defined.
Definition to_api_dkim_Params (m : DkimParams) : api_dkim_Params := mk_api_dkim_Params (VkeyIdentifier m)
  (MaxPubkeySizeBytes m) (Some ((api to_api_dkim_PublicInputIndices) (dp_PublicInputIndices m))).
#[global] Instance api_dkim_Params_agrees : MessageAgrees dkim_Params_fields dkim_Params_zero api_dkim_Params_fields
  api_dkim_Params_zero to_api_dkim_Params.
Proof. message_agree. Defined.

(** ** [api/xion/dkim/v1/state.pulsar.go] *)
Definition api_dkim_DkimPubKey_fields : list (Field api_dkim_DkimPubKey) := [
  pl_string_field 1 api_dkim_DkimPubKey_Domain (λ v m, mk_api_dkim_DkimPubKey v (api_dkim_DkimPubKey_PubKey m)
    (api_dkim_DkimPubKey_PoseidonHash m) (api_dkim_DkimPubKey_Selector m) (api_dkim_DkimPubKey_Version m)
    (api_dkim_DkimPubKey_KeyType m));
  pl_string_field 2 api_dkim_DkimPubKey_PubKey (λ v m, mk_api_dkim_DkimPubKey (api_dkim_DkimPubKey_Domain m) v
    (api_dkim_DkimPubKey_PoseidonHash m) (api_dkim_DkimPubKey_Selector m) (api_dkim_DkimPubKey_Version m)
    (api_dkim_DkimPubKey_KeyType m));
  pl_string_field 3 api_dkim_DkimPubKey_PoseidonHash (λ v m, mk_api_dkim_DkimPubKey (api_dkim_DkimPubKey_Domain m)
    (api_dkim_DkimPubKey_PubKey m) v (api_dkim_DkimPubKey_Selector m) (api_dkim_DkimPubKey_Version m)
    (api_dkim_DkimPubKey_KeyType m));
  pl_string_field 4 api_dkim_DkimPubKey_Selector (λ v m, mk_api_dkim_DkimPubKey (api_dkim_DkimPubKey_Domain m)
    (api_dkim_DkimPubKey_PubKey m) (api_dkim_DkimPubKey_PoseidonHash m) v (api_dkim_DkimPubKey_Version m)
    (api_dkim_DkimPubKey_KeyType m));
  pl_int_field i32 5 api_dkim_DkimPubKey_Version (λ v m, mk_api_dkim_DkimPubKey (api_dkim_DkimPubKey_Domain m)
    (api_dkim_DkimPubKey_PubKey m) (api_dkim_DkimPubKey_PoseidonHash m) (api_dkim_DkimPubKey_Selector m) v
    (api_dkim_DkimPubKey_KeyType m));
  pl_int_field i32 6 api_dkim_DkimPubKey_KeyType (λ v m, mk_api_dkim_DkimPubKey (api_dkim_DkimPubKey_Domain m)
    (api_dkim_DkimPubKey_PubKey m) (api_dkim_DkimPubKey_PoseidonHash m) (api_dkim_DkimPubKey_Selector m)
    (api_dkim_DkimPubKey_Version m) v)].
Definition api_dkim_DkimPubKey_zero : api_dkim_DkimPubKey := mk_api_dkim_DkimPubKey "" "" "" "" 0 0.
#[global] Instance api_dkim_DkimPubKey_spec : PulsarSpec api_dkim_DkimPubKey_fields api_dkim_DkimPubKey_zero.
Proof. pulsar_spec. Defined.
Definition api_dkim_DkimPubKey_reflect : list (RField I api_dkim_DkimPubKey) := [
  r_string "xion.dkim.v1.DkimPubKey.domain" api_dkim_DkimPubKey_Domain (λ v m, mk_api_dkim_DkimPubKey v
    (api_dkim_DkimPubKey_PubKey m) (api_dkim_DkimPubKey_PoseidonHash m) (api_dkim_DkimPubKey_Selector m)
    (api_dkim_DkimPubKey_Version m) (api_dkim_DkimPubKey_KeyType m));
  r_string "xion.dkim.v1.DkimPubKey.pub_key" api_dkim_DkimPubKey_PubKey (λ v m, mk_api_dkim_DkimPubKey
    (api_dkim_DkimPubKey_Domain m) v (api_dkim_DkimPubKey_PoseidonHash m) (api_dkim_DkimPubKey_Selector m)
    (api_dkim_DkimPubKey_Version m) (api_dkim_DkimPubKey_KeyType m));
  r_bytes "xion.dkim.v1.DkimPubKey.poseidon_hash" api_dkim_DkimPubKey_PoseidonHash (λ v m, mk_api_dkim_DkimPubKey
    (api_dkim_DkimPubKey_Domain m) (api_dkim_DkimPubKey_PubKey m) v (api_dkim_DkimPubKey_Selector m)
    (api_dkim_DkimPubKey_Version m) (api_dkim_DkimPubKey_KeyType m));
  r_string "xion.dkim.v1.DkimPubKey.selector" api_dkim_DkimPubKey_Selector (λ v m, mk_api_dkim_DkimPubKey
    (api_dkim_DkimPubKey_Domain m) (api_dkim_DkimPubKey_PubKey m) (api_dkim_DkimPubKey_PoseidonHash m) v
    (api_dkim_DkimPubKey_Version m) (api_dkim_DkimPubKey_KeyType m));
  r_enum "xion.dkim.v1.DkimPubKey.version" api_dkim_DkimPubKey_Version (λ v m, mk_api_dkim_DkimPubKey
    (api_dkim_DkimPubKey_Domain m) (api_dkim_DkimPubKey_PubKey m) (api_dkim_DkimPubKey_PoseidonHash m)
    (api_dkim_DkimPubKey_Selector m) v (api_dkim_DkimPubKey_KeyType m));
  r_enum "xion.dkim.v1.DkimPubKey.key_type" api_dkim_DkimPubKey_KeyType (λ v m, mk_api_dkim_DkimPubKey
    (api_dkim_DkimPubKey_Domain m) (api_dkim_DkimPubKey_PubKey m) (api_dkim_DkimPubKey_PoseidonHash m)
    (api_dkim_DkimPubKey_Selector m) (api_dkim_DkimPubKey_Version m) v)].
#[global] Instance api_dkim_DkimPubKey_reflect_spec : ReflectSpec api_dkim_DkimPubKey_reflect
  api_dkim_DkimPubKey_zero.
Proof. reflect_spec. Defined.
Definition to_api_dkim_DkimPubKey (m : DkimPubKey) : api_dkim_DkimPubKey := mk_api_dkim_DkimPubKey (dk_Domain m)
  (dk_PubKey m) (dk_PoseidonHash m) (dk_Selector m) (dk_Version m) (dk_KeyType m).
#[global] Instance api_dkim_DkimPubKey_agrees : MessageAgrees dkim_DkimPubKey_fields dkim_DkimPubKey_zero
  api_dkim_DkimPubKey_fields api_dkim_DkimPubKey_zero to_api_dkim_DkimPubKey.
Proof. message_agree. Defined.

(** ** [api/xion/dkim/v1/genesis.pulsar.go] *)
Definition api_dkim_GenesisState_fields : list (Field api_dkim_GenesisState) := [
  pl_pointer_field (ProtoMethods api_dkim_Params_fields) (fresh api_dkim_Params_zero) 1 api_dkim_GenesisState_Params
    (λ v m, mk_api_dkim_GenesisState v (api_dkim_GenesisState_DkimPubkeys m) (api_dkim_GenesisState_RevokedPubkeys m));
  pl_messages_field (ProtoMethods api_dkim_DkimPubKey_fields) (fresh api_dkim_DkimPubKey_zero) 2
    api_dkim_GenesisState_DkimPubkeys (λ v m, mk_api_dkim_GenesisState (api_dkim_GenesisState_Params m) v
    (api_dkim_GenesisState_RevokedPubkeys m));
  pl_strings_field 3 api_dkim_GenesisState_RevokedPubkeys (λ v m, mk_api_dkim_GenesisState
    (api_dkim_GenesisState_Params m) (api_dkim_GenesisState_DkimPubkeys m) v)].
Definition api_dkim_GenesisState_zero : api_dkim_GenesisState := mk_api_dkim_GenesisState None [] [].
#[global] Instance api_dkim_GenesisState_spec : PulsarSpec api_dkim_GenesisState_fields api_dkim_GenesisState_zero.
Proof. pulsar_spec. Defined.
Definition api_dkim_GenesisState_reflect : list (RField I api_dkim_GenesisState) := [
  r_message (fresh api_dkim_Params_zero) "xion.dkim.v1.GenesisState.params" api_dkim_GenesisState_Params (λ v m,
    mk_api_dkim_GenesisState v (api_dkim_GenesisState_DkimPubkeys m) (api_dkim_GenesisState_RevokedPubkeys m));
  r_messages "_GenesisState_2_list" "xion.dkim.v1.GenesisState.dkim_pubkeys" api_dkim_GenesisState_DkimPubkeys (λ v m,
    mk_api_dkim_GenesisState (api_dkim_GenesisState_Params m) v (api_dkim_GenesisState_RevokedPubkeys m));
  r_strings "_GenesisState_3_list" "xion.dkim.v1.GenesisState.revoked_pubkeys" api_dkim_GenesisState_RevokedPubkeys (λ
    v m, mk_api_dkim_GenesisState (api_dkim_GenesisState_Params m) (api_dkim_GenesisState_DkimPubkeys m) v)].
#[global] Instance api_dkim_GenesisState_reflect_spec : ReflectSpec api_dkim_GenesisState_reflect
  api_dkim_GenesisState_zero.
Proof. reflect_spec. Defined.
Definition api_dkim_GenesisState_2_list : ListKind I (option (Pulsar api_dkim_DkimPubKey)) := message_list (fresh api_dkim_DkimPubKey_zero).
Definition api_dkim_GenesisState_3_list : ListKind I string := string_list.
Definition to_api_dkim_GenesisState (m : DkimGenesis) : api_dkim_GenesisState := mk_api_dkim_GenesisState
  (Some ((api to_api_dkim_Params) (dg_Params m))) ((api to_api_dkim_DkimPubKey) <$> dg_DkimPubkeys m)
  (dg_RevokedPubkeys m).
#[global] Instance api_dkim_GenesisState_agrees : MessageAgrees dkim_GenesisState_fields dkim_GenesisState_zero
  api_dkim_GenesisState_fields api_dkim_GenesisState_zero to_api_dkim_GenesisState.
Proof. message_agree. Defined.

(** ** [api/xion/dkim/v1/query.pulsar.go] *)
Definition api_dkim_QueryDkimPubKeyRequest_fields : list (Field api_dkim_QueryDkimPubKeyRequest) := [
  pl_string_field 1 api_dkim_QueryDkimPubKeyRequest_Selector (λ v m, mk_api_dkim_QueryDkimPubKeyRequest v
    (api_dkim_QueryDkimPubKeyRequest_Domain m));
  pl_string_field 2 api_dkim_QueryDkimPubKeyRequest_Domain (λ v m, mk_api_dkim_QueryDkimPubKeyRequest
    (api_dkim_QueryDkimPubKeyRequest_Selector m) v)].
Definition api_dkim_QueryDkimPubKeyRequest_zero : api_dkim_QueryDkimPubKeyRequest := mk_api_dkim_QueryDkimPubKeyRequest "" "".
#[global] Instance api_dkim_QueryDkimPubKeyRequest_spec : PulsarSpec api_dkim_QueryDkimPubKeyRequest_fields api_dkim_QueryDkimPubKeyRequest_zero.
Proof. pulsar_spec. Defined.
Definition api_dkim_QueryDkimPubKeyRequest_reflect : list (RField I api_dkim_QueryDkimPubKeyRequest) := [
  r_string "xion.dkim.v1.QueryDkimPubKeyRequest.selector" api_dkim_QueryDkimPubKeyRequest_Selector (λ v m,
    mk_api_dkim_QueryDkimPubKeyRequest v (api_dkim_QueryDkimPubKeyRequest_Domain m));
  r_string "xion.dkim.v1.QueryDkimPubKeyRequest.domain" api_dkim_QueryDkimPubKeyRequest_Domain (λ v m,
    mk_api_dkim_QueryDkimPubKeyRequest (api_dkim_QueryDkimPubKeyRequest_Selector m) v)].
#[global] Instance api_dkim_QueryDkimPubKeyRequest_reflect_spec : ReflectSpec api_dkim_QueryDkimPubKeyRequest_reflect
  api_dkim_QueryDkimPubKeyRequest_zero.
Proof. reflect_spec. Defined.
Definition to_api_dkim_QueryDkimPubKeyRequest (m : dkim_QueryDkimPubKeyRequest) : api_dkim_QueryDkimPubKeyRequest :=
  mk_api_dkim_QueryDkimPubKeyRequest (dkim_QueryDkimPubKeyRequest_Selector m) (dkim_QueryDkimPubKeyRequest_Domain m).
#[global] Instance api_dkim_QueryDkimPubKeyRequest_agrees : MessageAgrees dkim_QueryDkimPubKeyRequest_fields
  dkim_QueryDkimPubKeyRequest_zero api_dkim_QueryDkimPubKeyRequest_fields api_dkim_QueryDkimPubKeyRequest_zero
  to_api_dkim_QueryDkimPubKeyRequest.
Proof. message_agree. Defined.

Definition api_dkim_QueryDkimPubKeyResponse_fields : list (Field api_dkim_QueryDkimPubKeyResponse) := [
  pl_pointer_field (ProtoMethods api_dkim_DkimPubKey_fields) (fresh api_dkim_DkimPubKey_zero) 1
    api_dkim_QueryDkimPubKeyResponse_DkimPubKey (λ v _, mk_api_dkim_QueryDkimPubKeyResponse v)].
Definition api_dkim_QueryDkimPubKeyResponse_zero : api_dkim_QueryDkimPubKeyResponse := mk_api_dkim_QueryDkimPubKeyResponse None.
#[global] Instance api_dkim_QueryDkimPubKeyResponse_spec : PulsarSpec api_dkim_QueryDkimPubKeyResponse_fields api_dkim_QueryDkimPubKeyResponse_zero.
Proof. pulsar_spec. Defined.
Definition api_dkim_QueryDkimPubKeyResponse_reflect : list (RField I api_dkim_QueryDkimPubKeyResponse) := [
  r_message (fresh api_dkim_DkimPubKey_zero) "xion.dkim.v1.QueryDkimPubKeyResponse.dkim_pub_key"
    api_dkim_QueryDkimPubKeyResponse_DkimPubKey (λ v _, mk_api_dkim_QueryDkimPubKeyResponse v)].
#[global] Instance api_dkim_QueryDkimPubKeyResponse_reflect_spec : ReflectSpec
  api_dkim_QueryDkimPubKeyResponse_reflect api_dkim_QueryDkimPubKeyResponse_zero.
Proof. reflect_spec. Defined.
Definition to_api_dkim_QueryDkimPubKeyResponse (m : dkim_QueryDkimPubKeyResponse) : api_dkim_QueryDkimPubKeyResponse
  := mk_api_dkim_QueryDkimPubKeyResponse ((api to_api_dkim_DkimPubKey) <$> dkim_QueryDkimPubKeyResponse_DkimPubKey m).
#[global] Instance api_dkim_QueryDkimPubKeyResponse_agrees : MessageAgrees dkim_QueryDkimPubKeyResponse_fields
  dkim_QueryDkimPubKeyResponse_zero api_dkim_QueryDkimPubKeyResponse_fields api_dkim_QueryDkimPubKeyResponse_zero
  to_api_dkim_QueryDkimPubKeyResponse.
Proof. message_agree. Defined.

Definition api_dkim_QueryDkimPubKeysRequest_fields : list (Field api_dkim_QueryDkimPubKeysRequest) := [
  pl_string_field 1 api_dkim_QueryDkimPubKeysRequest_Selector (λ v m, mk_api_dkim_QueryDkimPubKeysRequest v
    (api_dkim_QueryDkimPubKeysRequest_Domain m) (api_dkim_QueryDkimPubKeysRequest_PoseidonHash m)
    (api_dkim_QueryDkimPubKeysRequest_Pagination m));
  pl_string_field 2 api_dkim_QueryDkimPubKeysRequest_Domain (λ v m, mk_api_dkim_QueryDkimPubKeysRequest
    (api_dkim_QueryDkimPubKeysRequest_Selector m) v (api_dkim_QueryDkimPubKeysRequest_PoseidonHash m)
    (api_dkim_QueryDkimPubKeysRequest_Pagination m));
  pl_string_field 3 api_dkim_QueryDkimPubKeysRequest_PoseidonHash (λ v m, mk_api_dkim_QueryDkimPubKeysRequest
    (api_dkim_QueryDkimPubKeysRequest_Selector m) (api_dkim_QueryDkimPubKeysRequest_Domain m) v
    (api_dkim_QueryDkimPubKeysRequest_Pagination m));
  pl_pointer_field ia_methods ia_zero 4 api_dkim_QueryDkimPubKeysRequest_Pagination (λ v m,
    mk_api_dkim_QueryDkimPubKeysRequest (api_dkim_QueryDkimPubKeysRequest_Selector m)
    (api_dkim_QueryDkimPubKeysRequest_Domain m) (api_dkim_QueryDkimPubKeysRequest_PoseidonHash m) v)].
Definition api_dkim_QueryDkimPubKeysRequest_zero : api_dkim_QueryDkimPubKeysRequest := mk_api_dkim_QueryDkimPubKeysRequest "" "" "" None.
#[global] Instance api_dkim_QueryDkimPubKeysRequest_spec : PulsarSpec api_dkim_QueryDkimPubKeysRequest_fields api_dkim_QueryDkimPubKeysRequest_zero.
Proof. pulsar_spec. Defined.
Definition api_dkim_QueryDkimPubKeysRequest_reflect : list (RField I api_dkim_QueryDkimPubKeysRequest) := [
  r_string "xion.dkim.v1.QueryDkimPubKeysRequest.selector" api_dkim_QueryDkimPubKeysRequest_Selector (λ v m,
    mk_api_dkim_QueryDkimPubKeysRequest v (api_dkim_QueryDkimPubKeysRequest_Domain m)
    (api_dkim_QueryDkimPubKeysRequest_PoseidonHash m) (api_dkim_QueryDkimPubKeysRequest_Pagination m));
  r_string "xion.dkim.v1.QueryDkimPubKeysRequest.domain" api_dkim_QueryDkimPubKeysRequest_Domain (λ v m,
    mk_api_dkim_QueryDkimPubKeysRequest (api_dkim_QueryDkimPubKeysRequest_Selector m) v
    (api_dkim_QueryDkimPubKeysRequest_PoseidonHash m) (api_dkim_QueryDkimPubKeysRequest_Pagination m));
  r_bytes "xion.dkim.v1.QueryDkimPubKeysRequest.poseidon_hash" api_dkim_QueryDkimPubKeysRequest_PoseidonHash (λ v m,
    mk_api_dkim_QueryDkimPubKeysRequest (api_dkim_QueryDkimPubKeysRequest_Selector m)
    (api_dkim_QueryDkimPubKeysRequest_Domain m) v (api_dkim_QueryDkimPubKeysRequest_Pagination m));
  r_message ia_zero "xion.dkim.v1.QueryDkimPubKeysRequest.pagination" api_dkim_QueryDkimPubKeysRequest_Pagination (λ v
    m, mk_api_dkim_QueryDkimPubKeysRequest (api_dkim_QueryDkimPubKeysRequest_Selector m)
    (api_dkim_QueryDkimPubKeysRequest_Domain m) (api_dkim_QueryDkimPubKeysRequest_PoseidonHash m) v)].
#[global] Instance api_dkim_QueryDkimPubKeysRequest_reflect_spec : ReflectSpec
  api_dkim_QueryDkimPubKeysRequest_reflect api_dkim_QueryDkimPubKeysRequest_zero.
Proof. reflect_spec. Defined.
Definition to_api_dkim_QueryDkimPubKeysRequest (m : dkim_QueryDkimPubKeysRequest) : api_dkim_QueryDkimPubKeysRequest
  := mk_api_dkim_QueryDkimPubKeysRequest (dkim_QueryDkimPubKeysRequest_Selector m)
  (dkim_QueryDkimPubKeysRequest_Domain m) (dkim_QueryDkimPubKeysRequest_PoseidonHash m)
  (PageRequest_conv <$> dkim_QueryDkimPubKeysRequest_Pagination m).
#[global] Instance api_dkim_QueryDkimPubKeysRequest_agrees : MessageAgrees dkim_QueryDkimPubKeysRequest_fields
  dkim_QueryDkimPubKeysRequest_zero api_dkim_QueryDkimPubKeysRequest_fields api_dkim_QueryDkimPubKeysRequest_zero
  to_api_dkim_QueryDkimPubKeysRequest.
Proof. message_agree. Defined.

Definition api_dkim_QueryDkimPubKeysResponse_fields : list (Field api_dkim_QueryDkimPubKeysResponse) := [
  pl_messages_field (ProtoMethods api_dkim_DkimPubKey_fields) (fresh api_dkim_DkimPubKey_zero) 1
    api_dkim_QueryDkimPubKeysResponse_DkimPubKeys (λ v m, mk_api_dkim_QueryDkimPubKeysResponse v
    (api_dkim_QueryDkimPubKeysResponse_Pagination m));
  pl_pointer_field ia_methods ia_zero 3 api_dkim_QueryDkimPubKeysResponse_Pagination (λ v m,
    mk_api_dkim_QueryDkimPubKeysResponse (api_dkim_QueryDkimPubKeysResponse_DkimPubKeys m) v)].
Definition api_dkim_QueryDkimPubKeysResponse_zero : api_dkim_QueryDkimPubKeysResponse := mk_api_dkim_QueryDkimPubKeysResponse [] None.
#[global] Instance api_dkim_QueryDkimPubKeysResponse_spec : PulsarSpec api_dkim_QueryDkimPubKeysResponse_fields api_dkim_QueryDkimPubKeysResponse_zero.
Proof. pulsar_spec. Defined.
Definition api_dkim_QueryDkimPubKeysResponse_reflect : list (RField I api_dkim_QueryDkimPubKeysResponse) := [
  r_messages "_QueryDkimPubKeysResponse_1_list" "xion.dkim.v1.QueryDkimPubKeysResponse.dkim_pub_keys"
    api_dkim_QueryDkimPubKeysResponse_DkimPubKeys (λ v m, mk_api_dkim_QueryDkimPubKeysResponse v
    (api_dkim_QueryDkimPubKeysResponse_Pagination m));
  r_message ia_zero "xion.dkim.v1.QueryDkimPubKeysResponse.pagination" api_dkim_QueryDkimPubKeysResponse_Pagination (λ
    v m, mk_api_dkim_QueryDkimPubKeysResponse (api_dkim_QueryDkimPubKeysResponse_DkimPubKeys m) v)].
#[global] Instance api_dkim_QueryDkimPubKeysResponse_reflect_spec : ReflectSpec
  api_dkim_QueryDkimPubKeysResponse_reflect api_dkim_QueryDkimPubKeysResponse_zero.
Proof. reflect_spec. Defined.
Definition api_dkim_QueryDkimPubKeysResponse_1_list : ListKind I (option (Pulsar api_dkim_DkimPubKey)) := message_list (fresh api_dkim_DkimPubKey_zero).
Definition to_api_dkim_QueryDkimPubKeysResponse (m : dkim_QueryDkimPubKeysResponse) :
  api_dkim_QueryDkimPubKeysResponse := mk_api_dkim_QueryDkimPubKeysResponse
  ((api to_api_dkim_DkimPubKey) <$> dkim_QueryDkimPubKeysResponse_DkimPubKeys m)
  (PageResponse_conv <$> dkim_QueryDkimPubKeysResponse_Pagination m).
#[global] Instance api_dkim_QueryDkimPubKeysResponse_agrees : MessageAgrees dkim_QueryDkimPubKeysResponse_fields
  dkim_QueryDkimPubKeysResponse_zero api_dkim_QueryDkimPubKeysResponse_fields api_dkim_QueryDkimPubKeysResponse_zero
  to_api_dkim_QueryDkimPubKeysResponse.
Proof. message_agree. Defined.

Definition api_dkim_QueryAuthenticateRequest_fields : list (Field api_dkim_QueryAuthenticateRequest) := [
  pl_string_field 1 api_dkim_QueryAuthenticateRequest_TxBytes (λ v m, mk_api_dkim_QueryAuthenticateRequest v
    (api_dkim_QueryAuthenticateRequest_EmailHash m) (api_dkim_QueryAuthenticateRequest_Proof m)
    (api_dkim_QueryAuthenticateRequest_PublicInputs m) (api_dkim_QueryAuthenticateRequest_AllowedEmailHosts m));
  pl_string_field 2 api_dkim_QueryAuthenticateRequest_EmailHash (λ v m, mk_api_dkim_QueryAuthenticateRequest
    (api_dkim_QueryAuthenticateRequest_TxBytes m) v (api_dkim_QueryAuthenticateRequest_Proof m)
    (api_dkim_QueryAuthenticateRequest_PublicInputs m) (api_dkim_QueryAuthenticateRequest_AllowedEmailHosts m));
  pl_string_field 3 api_dkim_QueryAuthenticateRequest_Proof (λ v m, mk_api_dkim_QueryAuthenticateRequest
    (api_dkim_QueryAuthenticateRequest_TxBytes m) (api_dkim_QueryAuthenticateRequest_EmailHash m) v
    (api_dkim_QueryAuthenticateRequest_PublicInputs m) (api_dkim_QueryAuthenticateRequest_AllowedEmailHosts m));
  pl_strings_field 4 api_dkim_QueryAuthenticateRequest_PublicInputs (λ v m, mk_api_dkim_QueryAuthenticateRequest
    (api_dkim_QueryAuthenticateRequest_TxBytes m) (api_dkim_QueryAuthenticateRequest_EmailHash m)
    (api_dkim_QueryAuthenticateRequest_Proof m) v (api_dkim_QueryAuthenticateRequest_AllowedEmailHosts m));
  pl_strings_field 5 api_dkim_QueryAuthenticateRequest_AllowedEmailHosts (λ v m, mk_api_dkim_QueryAuthenticateRequest
    (api_dkim_QueryAuthenticateRequest_TxBytes m) (api_dkim_QueryAuthenticateRequest_EmailHash m)
    (api_dkim_QueryAuthenticateRequest_Proof m) (api_dkim_QueryAuthenticateRequest_PublicInputs m) v)].
Definition api_dkim_QueryAuthenticateRequest_zero : api_dkim_QueryAuthenticateRequest := mk_api_dkim_QueryAuthenticateRequest "" "" "" [] [].
#[global] Instance api_dkim_QueryAuthenticateRequest_spec : PulsarSpec api_dkim_QueryAuthenticateRequest_fields api_dkim_QueryAuthenticateRequest_zero.
Proof. pulsar_spec. Defined.
Definition api_dkim_QueryAuthenticateRequest_reflect : list (RField I api_dkim_QueryAuthenticateRequest) := [
  r_bytes "xion.dkim.v1.QueryAuthenticateRequest.tx_bytes" api_dkim_QueryAuthenticateRequest_TxBytes (λ v m,
    mk_api_dkim_QueryAuthenticateRequest v (api_dkim_QueryAuthenticateRequest_EmailHash m)
    (api_dkim_QueryAuthenticateRequest_Proof m) (api_dkim_QueryAuthenticateRequest_PublicInputs m)
    (api_dkim_QueryAuthenticateRequest_AllowedEmailHosts m));
  r_string "xion.dkim.v1.QueryAuthenticateRequest.email_hash" api_dkim_QueryAuthenticateRequest_EmailHash (λ v m,
    mk_api_dkim_QueryAuthenticateRequest (api_dkim_QueryAuthenticateRequest_TxBytes m) v
    (api_dkim_QueryAuthenticateRequest_Proof m) (api_dkim_QueryAuthenticateRequest_PublicInputs m)
    (api_dkim_QueryAuthenticateRequest_AllowedEmailHosts m));
  r_bytes "xion.dkim.v1.QueryAuthenticateRequest.proof" api_dkim_QueryAuthenticateRequest_Proof (λ v m,
    mk_api_dkim_QueryAuthenticateRequest (api_dkim_QueryAuthenticateRequest_TxBytes m)
    (api_dkim_QueryAuthenticateRequest_EmailHash m) v (api_dkim_QueryAuthenticateRequest_PublicInputs m)
    (api_dkim_QueryAuthenticateRequest_AllowedEmailHosts m));
  r_strings "_QueryAuthenticateRequest_4_list" "xion.dkim.v1.QueryAuthenticateRequest.public_inputs"
    api_dkim_QueryAuthenticateRequest_PublicInputs (λ v m, mk_api_dkim_QueryAuthenticateRequest
    (api_dkim_QueryAuthenticateRequest_TxBytes m) (api_dkim_QueryAuthenticateRequest_EmailHash m)
    (api_dkim_QueryAuthenticateRequest_Proof m) v (api_dkim_QueryAuthenticateRequest_AllowedEmailHosts m));
  r_strings "_QueryAuthenticateRequest_5_list" "xion.dkim.v1.QueryAuthenticateRequest.allowed_email_hosts"
    api_dkim_QueryAuthenticateRequest_AllowedEmailHosts (λ v m, mk_api_dkim_QueryAuthenticateRequest
    (api_dkim_QueryAuthenticateRequest_TxBytes m) (api_dkim_QueryAuthenticateRequest_EmailHash m)
    (api_dkim_QueryAuthenticateRequest_Proof m) (api_dkim_QueryAuthenticateRequest_PublicInputs m) v)].
#[global] Instance api_dkim_QueryAuthenticateRequest_reflect_spec : ReflectSpec
  api_dkim_QueryAuthenticateRequest_reflect api_dkim_QueryAuthenticateRequest_zero.
Proof. reflect_spec. Defined.
Definition api_dkim_QueryAuthenticateRequest_4_list : ListKind I string := string_list.
Definition api_dkim_QueryAuthenticateRequest_5_list : ListKind I string := string_list.
Definition to_api_dkim_QueryAuthenticateRequest (m : QueryAuthenticateRequest) : api_dkim_QueryAuthenticateRequest :=
  mk_api_dkim_QueryAuthenticateRequest (qa_TxBytes m) (qa_EmailHash m) (qa_Proof m) (qa_PublicInputs m)
  (qa_AllowedEmailHosts m).
#[global] Instance api_dkim_QueryAuthenticateRequest_agrees : MessageAgrees dkim_QueryAuthenticateRequest_fields
  dkim_QueryAuthenticateRequest_zero api_dkim_QueryAuthenticateRequest_fields api_dkim_QueryAuthenticateRequest_zero
  to_api_dkim_QueryAuthenticateRequest.
Proof. message_agree. Defined.

Definition api_dkim_AuthenticateResponse_fields : list (Field api_dkim_AuthenticateResponse) := [
  pl_bool_field 1 api_dkim_AuthenticateResponse_Verified (λ v _, mk_api_dkim_AuthenticateResponse v)].
Definition api_dkim_AuthenticateResponse_zero : api_dkim_AuthenticateResponse := mk_api_dkim_AuthenticateResponse false.
#[global] Instance api_dkim_AuthenticateResponse_spec : PulsarSpec api_dkim_AuthenticateResponse_fields api_dkim_AuthenticateResponse_zero.
Proof. pulsar_spec. Defined.
Definition api_dkim_AuthenticateResponse_reflect : list (RField I api_dkim_AuthenticateResponse) := [
  r_bool "xion.dkim.v1.AuthenticateResponse.verified" api_dkim_AuthenticateResponse_Verified (λ v _,
    mk_api_dkim_AuthenticateResponse v)].
#[global] Instance api_dkim_AuthenticateResponse_reflect_spec : ReflectSpec api_dkim_AuthenticateResponse_reflect
  api_dkim_AuthenticateResponse_zero.
Proof. reflect_spec. Defined.
Definition to_api_dkim_AuthenticateResponse (m : dkim_AuthenticateResponse) : api_dkim_AuthenticateResponse :=
  mk_api_dkim_AuthenticateResponse (dkim_AuthenticateResponse_Verified m).
#[global] Instance api_dkim_AuthenticateResponse_agrees : MessageAgrees dkim_AuthenticateResponse_fields
  dkim_AuthenticateResponse_zero api_dkim_AuthenticateResponse_fields api_dkim_AuthenticateResponse_zero
  to_api_dkim_AuthenticateResponse.
Proof. message_agree. Defined.

Definition api_dkim_QueryParamsResponse_fields : list (Field api_dkim_QueryParamsResponse) := [
  pl_pointer_field (ProtoMethods api_dkim_Params_fields) (fresh api_dkim_Params_zero) 1
    api_dkim_QueryParamsResponse_Params (λ v _, mk_api_dkim_QueryParamsResponse v)].
Definition api_dkim_QueryParamsResponse_zero : api_dkim_QueryParamsResponse := mk_api_dkim_QueryParamsResponse None.
#[global] Instance api_dkim_QueryParamsResponse_spec : PulsarSpec api_dkim_QueryParamsResponse_fields api_dkim_QueryParamsResponse_zero.
Proof. pulsar_spec. Defined.
Definition api_dkim_QueryParamsResponse_reflect : list (RField I api_dkim_QueryParamsResponse) := [
  r_message (fresh api_dkim_Params_zero) "xion.dkim.v1.QueryParamsResponse.params" api_dkim_QueryParamsResponse_Params
    (λ v _, mk_api_dkim_QueryParamsResponse v)].
#[global] Instance api_dkim_QueryParamsResponse_reflect_spec : ReflectSpec api_dkim_QueryParamsResponse_reflect
  api_dkim_QueryParamsResponse_zero.
Proof. reflect_spec. Defined.
Definition to_api_dkim_QueryParamsResponse (m : dkim_QueryParamsResponse) : api_dkim_QueryParamsResponse :=
  mk_api_dkim_QueryParamsResponse ((api to_api_dkim_Params) <$> dkim_QueryParamsResponse_Params m).
#[global] Instance api_dkim_QueryParamsResponse_agrees : MessageAgrees dkim_QueryParamsResponse_fields
  dkim_QueryParamsResponse_zero api_dkim_QueryParamsResponse_fields api_dkim_QueryParamsResponse_zero
  to_api_dkim_QueryParamsResponse.
Proof. message_agree. Defined.

(** ** [api/xion/dkim/v1/tx.pulsar.go] *)
Definition api_dkim_MsgUpdateParams_fields : list (Field api_dkim_MsgUpdateParams) := [
  pl_string_field 1 api_dkim_MsgUpdateParams_Authority (λ v m, mk_api_dkim_MsgUpdateParams v
    (api_dkim_MsgUpdateParams_Params m));
  pl_pointer_field (ProtoMethods api_dkim_Params_fields) (fresh api_dkim_Params_zero) 2
    api_dkim_MsgUpdateParams_Params (λ v m, mk_api_dkim_MsgUpdateParams (api_dkim_MsgUpdateParams_Authority m) v)].
Definition api_dkim_MsgUpdateParams_zero : api_dkim_MsgUpdateParams := mk_api_dkim_MsgUpdateParams "" None.
#[global] Instance api_dkim_MsgUpdateParams_spec : PulsarSpec api_dkim_MsgUpdateParams_fields api_dkim_MsgUpdateParams_zero.
Proof. pulsar_spec. Defined.
Definition api_dkim_MsgUpdateParams_reflect : list (RField I api_dkim_MsgUpdateParams) := [
  r_string "xion.dkim.v1.MsgUpdateParams.authority" api_dkim_MsgUpdateParams_Authority (λ v m,
    mk_api_dkim_MsgUpdateParams v (api_dkim_MsgUpdateParams_Params m));
  r_message (fresh api_dkim_Params_zero) "xion.dkim.v1.MsgUpdateParams.params" api_dkim_MsgUpdateParams_Params (λ v m,
    mk_api_dkim_MsgUpdateParams (api_dkim_MsgUpdateParams_Authority m) v)].
#[global] Instance api_dkim_MsgUpdateParams_reflect_spec : ReflectSpec api_dkim_MsgUpdateParams_reflect
  api_dkim_MsgUpdateParams_zero.
Proof. reflect_spec. Defined.
Definition to_api_dkim_MsgUpdateParams (m : MsgDkimUpdateParams) : api_dkim_MsgUpdateParams :=
  mk_api_dkim_MsgUpdateParams (du_Authority m) (Some ((api to_api_dkim_Params) (du_Params m))).
#[global] Instance api_dkim_MsgUpdateParams_agrees : MessageAgrees dkim_MsgUpdateParams_fields
  dkim_MsgUpdateParams_zero api_dkim_MsgUpdateParams_fields api_dkim_MsgUpdateParams_zero to_api_dkim_MsgUpdateParams.
Proof. message_agree. Defined.

Definition api_dkim_MsgAddDkimPubKeys_fields : list (Field api_dkim_MsgAddDkimPubKeys) := [
  pl_string_field 1 api_dkim_MsgAddDkimPubKeys_Authority (λ v m, mk_api_dkim_MsgAddDkimPubKeys v
    (api_dkim_MsgAddDkimPubKeys_DkimPubkeys m));
  pl_messages_field (ProtoMethods api_dkim_DkimPubKey_fields) (fresh api_dkim_DkimPubKey_zero) 2
    api_dkim_MsgAddDkimPubKeys_DkimPubkeys (λ v m, mk_api_dkim_MsgAddDkimPubKeys (api_dkim_MsgAddDkimPubKeys_Authority
    m) v)].
Definition api_dkim_MsgAddDkimPubKeys_zero : api_dkim_MsgAddDkimPubKeys := mk_api_dkim_MsgAddDkimPubKeys "" [].
#[global] Instance api_dkim_MsgAddDkimPubKeys_spec : PulsarSpec api_dkim_MsgAddDkimPubKeys_fields api_dkim_MsgAddDkimPubKeys_zero.
Proof. pulsar_spec. Defined.
Definition api_dkim_MsgAddDkimPubKeys_reflect : list (RField I api_dkim_MsgAddDkimPubKeys) := [
  r_string "xion.dkim.v1.MsgAddDkimPubKeys.authority" api_dkim_MsgAddDkimPubKeys_Authority (λ v m,
    mk_api_dkim_MsgAddDkimPubKeys v (api_dkim_MsgAddDkimPubKeys_DkimPubkeys m));
  r_messages "_MsgAddDkimPubKeys_2_list" "xion.dkim.v1.MsgAddDkimPubKeys.dkim_pubkeys"
    api_dkim_MsgAddDkimPubKeys_DkimPubkeys (λ v m, mk_api_dkim_MsgAddDkimPubKeys (api_dkim_MsgAddDkimPubKeys_Authority
    m) v)].
#[global] Instance api_dkim_MsgAddDkimPubKeys_reflect_spec : ReflectSpec api_dkim_MsgAddDkimPubKeys_reflect
  api_dkim_MsgAddDkimPubKeys_zero.
Proof. reflect_spec. Defined.
Definition api_dkim_MsgAddDkimPubKeys_2_list : ListKind I (option (Pulsar api_dkim_DkimPubKey)) := message_list (fresh api_dkim_DkimPubKey_zero).
Definition to_api_dkim_MsgAddDkimPubKeys (m : MsgAddDkimPubKeys) : api_dkim_MsgAddDkimPubKeys :=
  mk_api_dkim_MsgAddDkimPubKeys (ad_Authority m) ((api to_api_dkim_DkimPubKey) <$> ad_DkimPubkeys m).
#[global] Instance api_dkim_MsgAddDkimPubKeys_agrees : MessageAgrees dkim_MsgAddDkimPubKeys_fields
  dkim_MsgAddDkimPubKeys_zero api_dkim_MsgAddDkimPubKeys_fields api_dkim_MsgAddDkimPubKeys_zero
  to_api_dkim_MsgAddDkimPubKeys.
Proof. message_agree. Defined.

Definition api_dkim_MsgRemoveDkimPubKey_fields : list (Field api_dkim_MsgRemoveDkimPubKey) := [
  pl_string_field 1 api_dkim_MsgRemoveDkimPubKey_Authority (λ v m, mk_api_dkim_MsgRemoveDkimPubKey v
    (api_dkim_MsgRemoveDkimPubKey_Selector m) (api_dkim_MsgRemoveDkimPubKey_Domain m));
  pl_string_field 2 api_dkim_MsgRemoveDkimPubKey_Selector (λ v m, mk_api_dkim_MsgRemoveDkimPubKey
    (api_dkim_MsgRemoveDkimPubKey_Authority m) v (api_dkim_MsgRemoveDkimPubKey_Domain m));
  pl_string_field 3 api_dkim_MsgRemoveDkimPubKey_Domain (λ v m, mk_api_dkim_MsgRemoveDkimPubKey
    (api_dkim_MsgRemoveDkimPubKey_Authority m) (api_dkim_MsgRemoveDkimPubKey_Selector m) v)].
Definition api_dkim_MsgRemoveDkimPubKey_zero : api_dkim_MsgRemoveDkimPubKey := mk_api_dkim_MsgRemoveDkimPubKey "" "" "".
#[global] Instance api_dkim_MsgRemoveDkimPubKey_spec : PulsarSpec api_dkim_MsgRemoveDkimPubKey_fields api_dkim_MsgRemoveDkimPubKey_zero.
Proof. pulsar_spec. Defined.
Definition api_dkim_MsgRemoveDkimPubKey_reflect : list (RField I api_dkim_MsgRemoveDkimPubKey) := [
  r_string "xion.dkim.v1.MsgRemoveDkimPubKey.authority" api_dkim_MsgRemoveDkimPubKey_Authority (λ v m,
    mk_api_dkim_MsgRemoveDkimPubKey v (api_dkim_MsgRemoveDkimPubKey_Selector m) (api_dkim_MsgRemoveDkimPubKey_Domain
    m));
  r_string "xion.dkim.v1.MsgRemoveDkimPubKey.selector" api_dkim_MsgRemoveDkimPubKey_Selector (λ v m,
    mk_api_dkim_MsgRemoveDkimPubKey (api_dkim_MsgRemoveDkimPubKey_Authority m) v (api_dkim_MsgRemoveDkimPubKey_Domain
    m));
  r_string "xion.dkim.v1.MsgRemoveDkimPubKey.domain" api_dkim_MsgRemoveDkimPubKey_Domain (λ v m,
    mk_api_dkim_MsgRemoveDkimPubKey (api_dkim_MsgRemoveDkimPubKey_Authority m) (api_dkim_MsgRemoveDkimPubKey_Selector
    m) v)].
#[global] Instance api_dkim_MsgRemoveDkimPubKey_reflect_spec : ReflectSpec api_dkim_MsgRemoveDkimPubKey_reflect
  api_dkim_MsgRemoveDkimPubKey_zero.
Proof. reflect_spec. Defined.
Definition to_api_dkim_MsgRemoveDkimPubKey (m : MsgRemoveDkimPubKey) : api_dkim_MsgRemoveDkimPubKey :=
  mk_api_dkim_MsgRemoveDkimPubKey (rd_Authority m) (rd_Selector m) (rd_Domain m).
#[global] Instance api_dkim_MsgRemoveDkimPubKey_agrees : MessageAgrees dkim_MsgRemoveDkimPubKey_fields
  dkim_MsgRemoveDkimPubKey_zero api_dkim_MsgRemoveDkimPubKey_fields api_dkim_MsgRemoveDkimPubKey_zero
  to_api_dkim_MsgRemoveDkimPubKey.
Proof. message_agree. Defined.

Definition api_dkim_MsgRevokeDkimPubKey_fields : list (Field api_dkim_MsgRevokeDkimPubKey) := [
  pl_string_field 1 api_dkim_MsgRevokeDkimPubKey_Signer (λ v m, mk_api_dkim_MsgRevokeDkimPubKey v
    (api_dkim_MsgRevokeDkimPubKey_Domain m) (api_dkim_MsgRevokeDkimPubKey_PrivKey m));
  pl_string_field 2 api_dkim_MsgRevokeDkimPubKey_Domain (λ v m, mk_api_dkim_MsgRevokeDkimPubKey
    (api_dkim_MsgRevokeDkimPubKey_Signer m) v (api_dkim_MsgRevokeDkimPubKey_PrivKey m));
  pl_string_field 3 api_dkim_MsgRevokeDkimPubKey_PrivKey (λ v m, mk_api_dkim_MsgRevokeDkimPubKey
    (api_dkim_MsgRevokeDkimPubKey_Signer m) (api_dkim_MsgRevokeDkimPubKey_Domain m) v)].
Definition api_dkim_MsgRevokeDkimPubKey_zero : api_dkim_MsgRevokeDkimPubKey := mk_api_dkim_MsgRevokeDkimPubKey "" "" "".
#[global] Instance api_dkim_MsgRevokeDkimPubKey_spec : PulsarSpec api_dkim_MsgRevokeDkimPubKey_fields api_dkim_MsgRevokeDkimPubKey_zero.
Proof. pulsar_spec. Defined.
Definition api_dkim_MsgRevokeDkimPubKey_reflect : list (RField I api_dkim_MsgRevokeDkimPubKey) := [
  r_string "xion.dkim.v1.MsgRevokeDkimPubKey.signer" api_dkim_MsgRevokeDkimPubKey_Signer (λ v m,
    mk_api_dkim_MsgRevokeDkimPubKey v (api_dkim_MsgRevokeDkimPubKey_Domain m) (api_dkim_MsgRevokeDkimPubKey_PrivKey
    m));
  r_string "xion.dkim.v1.MsgRevokeDkimPubKey.domain" api_dkim_MsgRevokeDkimPubKey_Domain (λ v m,
    mk_api_dkim_MsgRevokeDkimPubKey (api_dkim_MsgRevokeDkimPubKey_Signer m) v (api_dkim_MsgRevokeDkimPubKey_PrivKey
    m));
  r_bytes "xion.dkim.v1.MsgRevokeDkimPubKey.priv_key" api_dkim_MsgRevokeDkimPubKey_PrivKey (λ v m,
    mk_api_dkim_MsgRevokeDkimPubKey (api_dkim_MsgRevokeDkimPubKey_Signer m) (api_dkim_MsgRevokeDkimPubKey_Domain m) v)].
#[global] Instance api_dkim_MsgRevokeDkimPubKey_reflect_spec : ReflectSpec api_dkim_MsgRevokeDkimPubKey_reflect
  api_dkim_MsgRevokeDkimPubKey_zero.
Proof. reflect_spec. Defined.
Definition to_api_dkim_MsgRevokeDkimPubKey (m : MsgRevokeDkimPubKey) : api_dkim_MsgRevokeDkimPubKey :=
  mk_api_dkim_MsgRevokeDkimPubKey (rk_Signer m) (rk_Domain m) (rk_PrivKey m).
#[global] Instance api_dkim_MsgRevokeDkimPubKey_agrees : MessageAgrees dkim_MsgRevokeDkimPubKey_fields
  dkim_MsgRevokeDkimPubKey_zero api_dkim_MsgRevokeDkimPubKey_fields api_dkim_MsgRevokeDkimPubKey_zero
  to_api_dkim_MsgRevokeDkimPubKey.
Proof. message_agree. Defined.

(** ** The message types *)
Definition api_dkim_messages : list (ApiMessage I) := [
  api_message dkim_IndexRange_fields dkim_IndexRange_zero api_dkim_IndexRange_fields api_dkim_IndexRange_zero api_dkim_IndexRange_reflect to_api_dkim_IndexRange;
  api_message dkim_PublicInputIndices_fields dkim_PublicInputIndices_zero api_dkim_PublicInputIndices_fields api_dkim_PublicInputIndices_zero api_dkim_PublicInputIndices_reflect to_api_dkim_PublicInputIndices;
  api_message dkim_Params_fields dkim_Params_zero api_dkim_Params_fields api_dkim_Params_zero api_dkim_Params_reflect to_api_dkim_Params;
  api_message dkim_DkimPubKey_fields dkim_DkimPubKey_zero api_dkim_DkimPubKey_fields api_dkim_DkimPubKey_zero api_dkim_DkimPubKey_reflect to_api_dkim_DkimPubKey;
  api_message dkim_GenesisState_fields dkim_GenesisState_zero api_dkim_GenesisState_fields api_dkim_GenesisState_zero api_dkim_GenesisState_reflect to_api_dkim_GenesisState;
  api_message dkim_QueryDkimPubKeyRequest_fields dkim_QueryDkimPubKeyRequest_zero api_dkim_QueryDkimPubKeyRequest_fields api_dkim_QueryDkimPubKeyRequest_zero api_dkim_QueryDkimPubKeyRequest_reflect to_api_dkim_QueryDkimPubKeyRequest;
  api_message dkim_QueryDkimPubKeyResponse_fields dkim_QueryDkimPubKeyResponse_zero api_dkim_QueryDkimPubKeyResponse_fields api_dkim_QueryDkimPubKeyResponse_zero api_dkim_QueryDkimPubKeyResponse_reflect to_api_dkim_QueryDkimPubKeyResponse;
  api_message dkim_QueryDkimPubKeysRequest_fields dkim_QueryDkimPubKeysRequest_zero api_dkim_QueryDkimPubKeysRequest_fields api_dkim_QueryDkimPubKeysRequest_zero api_dkim_QueryDkimPubKeysRequest_reflect to_api_dkim_QueryDkimPubKeysRequest;
  api_message dkim_QueryDkimPubKeysResponse_fields dkim_QueryDkimPubKeysResponse_zero api_dkim_QueryDkimPubKeysResponse_fields api_dkim_QueryDkimPubKeysResponse_zero api_dkim_QueryDkimPubKeysResponse_reflect to_api_dkim_QueryDkimPubKeysResponse;
  api_message dkim_QueryAuthenticateRequest_fields dkim_QueryAuthenticateRequest_zero api_dkim_QueryAuthenticateRequest_fields api_dkim_QueryAuthenticateRequest_zero api_dkim_QueryAuthenticateRequest_reflect to_api_dkim_QueryAuthenticateRequest;
  api_message dkim_AuthenticateResponse_fields dkim_AuthenticateResponse_zero api_dkim_AuthenticateResponse_fields api_dkim_AuthenticateResponse_zero api_dkim_AuthenticateResponse_reflect to_api_dkim_AuthenticateResponse;
  api_message dkim_QueryParamsResponse_fields dkim_QueryParamsResponse_zero api_dkim_QueryParamsResponse_fields api_dkim_QueryParamsResponse_zero api_dkim_QueryParamsResponse_reflect to_api_dkim_QueryParamsResponse;
  api_message dkim_MsgUpdateParams_fields dkim_MsgUpdateParams_zero api_dkim_MsgUpdateParams_fields api_dkim_MsgUpdateParams_zero api_dkim_MsgUpdateParams_reflect to_api_dkim_MsgUpdateParams;
  api_message dkim_MsgAddDkimPubKeys_fields dkim_MsgAddDkimPubKeys_zero api_dkim_MsgAddDkimPubKeys_fields api_dkim_MsgAddDkimPubKeys_zero api_dkim_MsgAddDkimPubKeys_reflect to_api_dkim_MsgAddDkimPubKeys;
  api_message dkim_MsgRemoveDkimPubKey_fields dkim_MsgRemoveDkimPubKey_zero api_dkim_MsgRemoveDkimPubKey_fields api_dkim_MsgRemoveDkimPubKey_zero api_dkim_MsgRemoveDkimPubKey_reflect to_api_dkim_MsgRemoveDkimPubKey;
  api_message dkim_MsgRevokeDkimPubKey_fields dkim_MsgRevokeDkimPubKey_zero api_dkim_MsgRevokeDkimPubKey_fields api_dkim_MsgRevokeDkimPubKey_zero api_dkim_MsgRevokeDkimPubKey_reflect to_api_dkim_MsgRevokeDkimPubKey
  ].

Lemma api_dkim_messages_ok : Forall api_message_ok api_dkim_messages.
Proof. api_messages_ok. Qed.

(** ** The lists *)
Definition api_dkim_lists : list (ApiList I) := [ mkApiList api_dkim_GenesisState_2_list;
  mkApiList api_dkim_GenesisState_3_list; mkApiList api_dkim_QueryDkimPubKeysResponse_1_list;
  mkApiList api_dkim_QueryAuthenticateRequest_4_list; mkApiList api_dkim_QueryAuthenticateRequest_5_list;
  mkApiList api_dkim_MsgAddDkimPubKeys_2_list ].
Lemma api_dkim_lists_ok : Forall api_list_ok api_dkim_lists.
Proof. repeat (apply List.Forall_cons; [apply api_list_is_ok; apply _|]). apply List.Forall_nil. Qed.
End api.
