(* ===== verification/ApiXion.v ===== *)
(** * src/api/xion/v1: the messages

    As the [Proto] file of the module, for the second set of messages: the fields of every
    message for [ProtoMethods] and for reflection, and its agreement with the message of the
    first set. *)

From S2P Require Import Prelude GoStd ProtoWire ProtoCodec PulsarWire PulsarCodec PulsarReflect PulsarLists PulsarAgree.
From S2P Require Import Sdk SdkModel PlatformFee WebAuthn ProtoXion.

Section api.
Context {I : Type} `{Rt : !PulsarRuntime, Op : !ProtoOptions, RtL : !PulsarRuntimeLaws, OpL : !ProtoOptionsLaws}.
Context {Any : Type} `{IAny : !ImportedMsg Any, ICoin : !ImportedMsg Coin, IInput : !ImportedMsg Input,
  IOutput : !ImportedMsg Output}.
Context `{LAny : !ImportedLaws Any, LCoin : !ImportedLaws Coin, LInput : !ImportedLaws Input,
  LOutput : !ImportedLaws Output}.
(** The message types of the dependencies in this set, and the counterparts of values *)
Context {Any_api Coin_api Input_api Output_api : Type} `{IAAny : !ImportedApi Any_api, IACoin : !ImportedApi Coin_api,
  IAInput : !ImportedApi Input_api, IAOutput : !ImportedApi Output_api}.
Context `{LAAny : !ImportedApiLaws Any_api, LACoin : !ImportedApiLaws Coin_api, LAInput : !ImportedApiLaws Input_api,
  LAOutput : !ImportedApiLaws Output_api}.
Context (Any_conv : Any → Any_api) (Coin_conv : Coin → Coin_api) (Input_conv : Input → Input_api)
  (Output_conv : Output → Output_api).
Context `{CAAny : !CodecAgrees im_codec im_zero ia_methods ia_zero Any_conv,
  CACoin : !CodecAgrees im_codec im_zero ia_methods ia_zero Coin_conv,
  CAInput : !CodecAgrees im_codec im_zero ia_methods ia_zero Input_conv,
  CAOutput : !CodecAgrees im_codec im_zero ia_methods ia_zero Output_conv}.

(** ** Data: the fields that are known *)
Record api_xion_AuthzAllowance := mk_api_xion_AuthzAllowance { api_xion_AuthzAllowance_Allowance : option Any_api;
  api_xion_AuthzAllowance_AuthzGrantee : string }.
Record api_xion_ContractsAllowance := mk_api_xion_ContractsAllowance {
  api_xion_ContractsAllowance_Allowance : option Any_api; api_xion_ContractsAllowance_ContractAddresses : list string
  }.
Record api_xion_MultiAnyAllowance := mk_api_xion_MultiAnyAllowance {
  api_xion_MultiAnyAllowance_Allowances : list Any_api }.
Record api_xion_GenesisState := mk_api_xion_GenesisState { api_xion_GenesisState_PlatformPercentage : Z;
  api_xion_GenesisState_PlatformMinimums : list Coin_api }.
Record api_xion_QueryWebAuthNVerifyRegisterRequest := mk_api_xion_QueryWebAuthNVerifyRegisterRequest {
  api_xion_QueryWebAuthNVerifyRegisterRequest_Addr : string;
  api_xion_QueryWebAuthNVerifyRegisterRequest_Challenge : string;
  api_xion_QueryWebAuthNVerifyRegisterRequest_Rp : string; api_xion_QueryWebAuthNVerifyRegisterRequest_Data : string
  }.
Record api_xion_QueryWebAuthNVerifyRegisterResponse := mk_api_xion_QueryWebAuthNVerifyRegisterResponse {
  api_xion_QueryWebAuthNVerifyRegisterResponse_Credential : string }.
Record api_xion_QueryWebAuthNVerifyAuthenticateRequest := mk_api_xion_QueryWebAuthNVerifyAuthenticateRequest {
  api_xion_QueryWebAuthNVerifyAuthenticateRequest_Addr : string;
  api_xion_QueryWebAuthNVerifyAuthenticateRequest_Challenge : string;
  api_xion_QueryWebAuthNVerifyAuthenticateRequest_Rp : string;
  api_xion_QueryWebAuthNVerifyAuthenticateRequest_Credential : string;
  api_xion_QueryWebAuthNVerifyAuthenticateRequest_Data : string }.
Record api_xion_QueryPlatformPercentageResponse := mk_api_xion_QueryPlatformPercentageResponse {
  api_xion_QueryPlatformPercentageResponse_PlatformPercentage : Z }.
Record api_xion_QueryPlatformMinimumResponse := mk_api_xion_QueryPlatformMinimumResponse {
  api_xion_QueryPlatformMinimumResponse_Minimums : list Coin_api }.
Record api_xion_MsgSend := mk_api_xion_MsgSend { api_xion_MsgSend_FromAddress : string;
  api_xion_MsgSend_ToAddress : string; api_xion_MsgSend_Amount : list Coin_api }.
Record api_xion_MsgMultiSend := mk_api_xion_MsgMultiSend { api_xion_MsgMultiSend_Inputs : list Input_api;
  api_xion_MsgMultiSend_Outputs : list Output_api }.
Record api_xion_MsgSetPlatformPercentage := mk_api_xion_MsgSetPlatformPercentage {
  api_xion_MsgSetPlatformPercentage_Authority : string; api_xion_MsgSetPlatformPercentage_PlatformPercentage : Z }.
Record api_xion_MsgSetPlatformMinimum := mk_api_xion_MsgSetPlatformMinimum {
  api_xion_MsgSetPlatformMinimum_Authority : string; api_xion_MsgSetPlatformMinimum_Minimums : list Coin_api }.

Context `{!GoPointer I Any_api, !GoPointer I Coin_api, !GoPointer I Input_api, !GoPointer I Output_api}.
Context `{VF : !ValueFormat I}.

(** ** [api/xion/v1/feegrant.pulsar.go] *)
Definition api_xion_AuthzAllowance_fields : list (Field api_xion_AuthzAllowance) := [
  pl_pointer_field ia_methods ia_zero 1 api_xion_AuthzAllowance_Allowance (λ v m, mk_api_xion_AuthzAllowance v
    (api_xion_AuthzAllowance_AuthzGrantee m));
  pl_string_field 2 api_xion_AuthzAllowance_AuthzGrantee (λ v m, mk_api_xion_AuthzAllowance
    (api_xion_AuthzAllowance_Allowance m) v)].
Definition api_xion_AuthzAllowance_zero : api_xion_AuthzAllowance := mk_api_xion_AuthzAllowance None "".
#[global] Instance api_xion_AuthzAllowance_spec : PulsarSpec api_xion_AuthzAllowance_fields api_xion_AuthzAllowance_zero.
Proof. pulsar_spec. Defined.
Definition api_xion_AuthzAllowance_reflect : list (RField I api_xion_AuthzAllowance) := [
  r_message ia_zero "xion.v1.AuthzAllowance.allowance" api_xion_AuthzAllowance_Allowance (λ v m,
    mk_api_xion_AuthzAllowance v (api_xion_AuthzAllowance_AuthzGrantee m));
  r_string "xion.v1.AuthzAllowance.authz_grantee" api_xion_AuthzAllowance_AuthzGrantee (λ v m,
    mk_api_xion_AuthzAllowance (api_xion_AuthzAllowance_Allowance m) v)].
#[global] Instance api_xion_AuthzAllowance_reflect_spec : ReflectSpec api_xion_AuthzAllowance_reflect
  api_xion_AuthzAllowance_zero.
Proof. reflect_spec. Defined.
Definition to_api_xion_AuthzAllowance (m : xion_AuthzAllowance) : api_xion_AuthzAllowance :=
  mk_api_xion_AuthzAllowance (Any_conv <$> xion_AuthzAllowance_Allowance m) (xion_AuthzAllowance_AuthzGrantee m).
#[global] Instance api_xion_AuthzAllowance_agrees : MessageAgrees xion_AuthzAllowance_fields xion_AuthzAllowance_zero
  api_xion_AuthzAllowance_fields api_xion_AuthzAllowance_zero to_api_xion_AuthzAllowance.
Proof. message_agree. Defined.

Definition api_xion_ContractsAllowance_fields : list (Field api_xion_ContractsAllowance) := [
  pl_pointer_field ia_methods ia_zero 1 api_xion_ContractsAllowance_Allowance (λ v m, mk_api_xion_ContractsAllowance v
    (api_xion_ContractsAllowance_ContractAddresses m));
  pl_strings_field 2 api_xion_ContractsAllowance_ContractAddresses (λ v m, mk_api_xion_ContractsAllowance
    (api_xion_ContractsAllowance_Allowance m) v)].
Definition api_xion_ContractsAllowance_zero : api_xion_ContractsAllowance := mk_api_xion_ContractsAllowance None [].
#[global] Instance api_xion_ContractsAllowance_spec : PulsarSpec api_xion_ContractsAllowance_fields api_xion_ContractsAllowance_zero.
Proof. pulsar_spec. Defined.
Definition api_xion_ContractsAllowance_reflect : list (RField I api_xion_ContractsAllowance) := [
  r_message ia_zero "xion.v1.ContractsAllowance.allowance" api_xion_ContractsAllowance_Allowance (λ v m,
    mk_api_xion_ContractsAllowance v (api_xion_ContractsAllowance_ContractAddresses m));
  r_strings "_ContractsAllowance_2_list" "xion.v1.ContractsAllowance.contract_addresses"
    api_xion_ContractsAllowance_ContractAddresses (λ v m, mk_api_xion_ContractsAllowance
    (api_xion_ContractsAllowance_Allowance m) v)].
#[global] Instance api_xion_ContractsAllowance_reflect_spec : ReflectSpec api_xion_ContractsAllowance_reflect
  api_xion_ContractsAllowance_zero.
Proof. reflect_spec. Defined.
Definition api_xion_ContractsAllowance_2_list : ListKind I string := string_list.
Definition to_api_xion_ContractsAllowance (m : xion_ContractsAllowance) : api_xion_ContractsAllowance :=
  mk_api_xion_ContractsAllowance (Any_conv <$> xion_ContractsAllowance_Allowance m)
  (xion_ContractsAllowance_ContractAddresses m).
#[global] Instance api_xion_ContractsAllowance_agrees : MessageAgrees xion_ContractsAllowance_fields
  xion_ContractsAllowance_zero api_xion_ContractsAllowance_fields api_xion_ContractsAllowance_zero
  to_api_xion_ContractsAllowance.
Proof. message_agree. Defined.

Definition api_xion_MultiAnyAllowance_fields : list (Field api_xion_MultiAnyAllowance) := [
  pl_messages_field ia_methods ia_zero 1 api_xion_MultiAnyAllowance_Allowances (λ v _, mk_api_xion_MultiAnyAllowance
    v)].
Definition api_xion_MultiAnyAllowance_zero : api_xion_MultiAnyAllowance := mk_api_xion_MultiAnyAllowance [].
#[global] Instance api_xion_MultiAnyAllowance_spec : PulsarSpec api_xion_MultiAnyAllowance_fields api_xion_MultiAnyAllowance_zero.
Proof. pulsar_spec. Defined.
Definition api_xion_MultiAnyAllowance_reflect : list (RField I api_xion_MultiAnyAllowance) := [
  r_messages "_MultiAnyAllowance_1_list" "xion.v1.MultiAnyAllowance.allowances" api_xion_MultiAnyAllowance_Allowances
    (λ v _, mk_api_xion_MultiAnyAllowance v)].
#[global] Instance api_xion_MultiAnyAllowance_reflect_spec : ReflectSpec api_xion_MultiAnyAllowance_reflect
  api_xion_MultiAnyAllowance_zero.
Proof. reflect_spec. Defined.
Definition api_xion_MultiAnyAllowance_1_list : ListKind I (option Any_api) := message_list ia_zero.
Definition to_api_xion_MultiAnyAllowance (m : xion_MultiAnyAllowance) : api_xion_MultiAnyAllowance :=
  mk_api_xion_MultiAnyAllowance (Any_conv <$> xion_MultiAnyAllowance_Allowances m).
#[global] Instance api_xion_MultiAnyAllowance_agrees : MessageAgrees xion_MultiAnyAllowance_fields
  xion_MultiAnyAllowance_zero api_xion_MultiAnyAllowance_fields api_xion_MultiAnyAllowance_zero
  to_api_xion_MultiAnyAllowance.
Proof. message_agree. Defined.

(** ** [api/xion/v1/genesis.pulsar.go] *)
Definition api_xion_GenesisState_fields : list (Field api_xion_GenesisState) := [
  pl_int_field u32 1 api_xion_GenesisState_PlatformPercentage (λ v m, mk_api_xion_GenesisState v
    (api_xion_GenesisState_PlatformMinimums m));
  pl_messages_field ia_methods ia_zero 2 api_xion_GenesisState_PlatformMinimums (λ v m, mk_api_xion_GenesisState
    (api_xion_GenesisState_PlatformPercentage m) v)].
Definition api_xion_GenesisState_zero : api_xion_GenesisState := mk_api_xion_GenesisState 0 [].
#[global] Instance api_xion_GenesisState_spec : PulsarSpec api_xion_GenesisState_fields api_xion_GenesisState_zero.
Proof. pulsar_spec. Defined.
Definition api_xion_GenesisState_reflect : list (RField I api_xion_GenesisState) := [
  r_uint32 "xion.v1.GenesisState.platform_percentage" api_xion_GenesisState_PlatformPercentage (λ v m,
    mk_api_xion_GenesisState v (api_xion_GenesisState_PlatformMinimums m));
  r_messages "_GenesisState_2_list" "xion.v1.GenesisState.platform_minimums" api_xion_GenesisState_PlatformMinimums (λ
    v m, mk_api_xion_GenesisState (api_xion_GenesisState_PlatformPercentage m) v)].
#[global] Instance api_xion_GenesisState_reflect_spec : ReflectSpec api_xion_GenesisState_reflect
  api_xion_GenesisState_zero.
Proof. reflect_spec. Defined.
Definition api_xion_GenesisState_2_list : ListKind I (option Coin_api) := message_list ia_zero.
Definition to_api_xion_GenesisState (m : XionGenesis) : api_xion_GenesisState := mk_api_xion_GenesisState
  (gs_PlatformPercentage m) (Coin_conv <$> gs_PlatformMinimums m).
#[global] Instance api_xion_GenesisState_agrees : MessageAgrees xion_GenesisState_fields xion_GenesisState_zero
  api_xion_GenesisState_fields api_xion_GenesisState_zero to_api_xion_GenesisState.
Proof. message_agree. Defined.

(** ** [api/xion/v1/query.pulsar.go] *)
Definition api_xion_QueryWebAuthNVerifyRegisterRequest_fields : list (Field api_xion_QueryWebAuthNVerifyRegisterRequest) := [
  pl_string_field 1 api_xion_QueryWebAuthNVerifyRegisterRequest_Addr (λ v m,
    mk_api_xion_QueryWebAuthNVerifyRegisterRequest v (api_xion_QueryWebAuthNVerifyRegisterRequest_Challenge m)
    (api_xion_QueryWebAuthNVerifyRegisterRequest_Rp m) (api_xion_QueryWebAuthNVerifyRegisterRequest_Data m));
  pl_string_field 2 api_xion_QueryWebAuthNVerifyRegisterRequest_Challenge (λ v m,
    mk_api_xion_QueryWebAuthNVerifyRegisterRequest (api_xion_QueryWebAuthNVerifyRegisterRequest_Addr m) v
    (api_xion_QueryWebAuthNVerifyRegisterRequest_Rp m) (api_xion_QueryWebAuthNVerifyRegisterRequest_Data m));
  pl_string_field 3 api_xion_QueryWebAuthNVerifyRegisterRequest_Rp (λ v m,
    mk_api_xion_QueryWebAuthNVerifyRegisterRequest (api_xion_QueryWebAuthNVerifyRegisterRequest_Addr m)
    (api_xion_QueryWebAuthNVerifyRegisterRequest_Challenge m) v (api_xion_QueryWebAuthNVerifyRegisterRequest_Data m));
  pl_string_field 4 api_xion_QueryWebAuthNVerifyRegisterRequest_Data (λ v m,
    mk_api_xion_QueryWebAuthNVerifyRegisterRequest (api_xion_QueryWebAuthNVerifyRegisterRequest_Addr m)
    (api_xion_QueryWebAuthNVerifyRegisterRequest_Challenge m) (api_xion_QueryWebAuthNVerifyRegisterRequest_Rp m) v)].
Definition api_xion_QueryWebAuthNVerifyRegisterRequest_zero : api_xion_QueryWebAuthNVerifyRegisterRequest := mk_api_xion_QueryWebAuthNVerifyRegisterRequest "" "" "" "".
#[global] Instance api_xion_QueryWebAuthNVerifyRegisterRequest_spec : PulsarSpec api_xion_QueryWebAuthNVerifyRegisterRequest_fields api_xion_QueryWebAuthNVerifyRegisterRequest_zero.
Proof. pulsar_spec. Defined.
Definition api_xion_QueryWebAuthNVerifyRegisterRequest_reflect : list (RField I api_xion_QueryWebAuthNVerifyRegisterRequest) := [
  r_string "xion.v1.QueryWebAuthNVerifyRegisterRequest.addr" api_xion_QueryWebAuthNVerifyRegisterRequest_Addr (λ v m,
    mk_api_xion_QueryWebAuthNVerifyRegisterRequest v (api_xion_QueryWebAuthNVerifyRegisterRequest_Challenge m)
    (api_xion_QueryWebAuthNVerifyRegisterRequest_Rp m) (api_xion_QueryWebAuthNVerifyRegisterRequest_Data m));
  r_string "xion.v1.QueryWebAuthNVerifyRegisterRequest.challenge"
    api_xion_QueryWebAuthNVerifyRegisterRequest_Challenge (λ v m, mk_api_xion_QueryWebAuthNVerifyRegisterRequest
    (api_xion_QueryWebAuthNVerifyRegisterRequest_Addr m) v (api_xion_QueryWebAuthNVerifyRegisterRequest_Rp m)
    (api_xion_QueryWebAuthNVerifyRegisterRequest_Data m));
  r_string "xion.v1.QueryWebAuthNVerifyRegisterRequest.rp" api_xion_QueryWebAuthNVerifyRegisterRequest_Rp (λ v m,
    mk_api_xion_QueryWebAuthNVerifyRegisterRequest (api_xion_QueryWebAuthNVerifyRegisterRequest_Addr m)
    (api_xion_QueryWebAuthNVerifyRegisterRequest_Challenge m) v (api_xion_QueryWebAuthNVerifyRegisterRequest_Data m));
  r_bytes "xion.v1.QueryWebAuthNVerifyRegisterRequest.data" api_xion_QueryWebAuthNVerifyRegisterRequest_Data (λ v m,
    mk_api_xion_QueryWebAuthNVerifyRegisterRequest (api_xion_QueryWebAuthNVerifyRegisterRequest_Addr m)
    (api_xion_QueryWebAuthNVerifyRegisterRequest_Challenge m) (api_xion_QueryWebAuthNVerifyRegisterRequest_Rp m) v)].
#[global] Instance api_xion_QueryWebAuthNVerifyRegisterRequest_reflect_spec : ReflectSpec
  api_xion_QueryWebAuthNVerifyRegisterRequest_reflect api_xion_QueryWebAuthNVerifyRegisterRequest_zero.
Proof. reflect_spec. Defined.
Definition to_api_xion_QueryWebAuthNVerifyRegisterRequest (m : VerifyRegisterRequest) :
  api_xion_QueryWebAuthNVerifyRegisterRequest := mk_api_xion_QueryWebAuthNVerifyRegisterRequest (vr_Addr m)
  (vr_Challenge m) (vr_Rp m) (vr_Data m).
#[global] Instance api_xion_QueryWebAuthNVerifyRegisterRequest_agrees : MessageAgrees
  xion_QueryWebAuthNVerifyRegisterRequest_fields xion_QueryWebAuthNVerifyRegisterRequest_zero
  api_xion_QueryWebAuthNVerifyRegisterRequest_fields api_xion_QueryWebAuthNVerifyRegisterRequest_zero
  to_api_xion_QueryWebAuthNVerifyRegisterRequest.
Proof. message_agree. Defined.

Definition api_xion_QueryWebAuthNVerifyRegisterResponse_fields : list (Field api_xion_QueryWebAuthNVerifyRegisterResponse) := [
  pl_string_field 1 api_xion_QueryWebAuthNVerifyRegisterResponse_Credential (λ v _,
    mk_api_xion_QueryWebAuthNVerifyRegisterResponse v)].
Definition api_xion_QueryWebAuthNVerifyRegisterResponse_zero : api_xion_QueryWebAuthNVerifyRegisterResponse := mk_api_xion_QueryWebAuthNVerifyRegisterResponse "".
#[global] Instance api_xion_QueryWebAuthNVerifyRegisterResponse_spec : PulsarSpec api_xion_QueryWebAuthNVerifyRegisterResponse_fields api_xion_QueryWebAuthNVerifyRegisterResponse_zero.
Proof. pulsar_spec. Defined.
Definition api_xion_QueryWebAuthNVerifyRegisterResponse_reflect : list (RField I api_xion_QueryWebAuthNVerifyRegisterResponse) := [
  r_bytes "xion.v1.QueryWebAuthNVerifyRegisterResponse.credential"
    api_xion_QueryWebAuthNVerifyRegisterResponse_Credential (λ v _, mk_api_xion_QueryWebAuthNVerifyRegisterResponse v)].
#[global] Instance api_xion_QueryWebAuthNVerifyRegisterResponse_reflect_spec : ReflectSpec
  api_xion_QueryWebAuthNVerifyRegisterResponse_reflect api_xion_QueryWebAuthNVerifyRegisterResponse_zero.
Proof. reflect_spec. Defined.
Definition to_api_xion_QueryWebAuthNVerifyRegisterResponse (m : xion_QueryWebAuthNVerifyRegisterResponse) :
  api_xion_QueryWebAuthNVerifyRegisterResponse := mk_api_xion_QueryWebAuthNVerifyRegisterResponse
  (xion_QueryWebAuthNVerifyRegisterResponse_Credential m).
#[global] Instance api_xion_QueryWebAuthNVerifyRegisterResponse_agrees : MessageAgrees
  xion_QueryWebAuthNVerifyRegisterResponse_fields xion_QueryWebAuthNVerifyRegisterResponse_zero
  api_xion_QueryWebAuthNVerifyRegisterResponse_fields api_xion_QueryWebAuthNVerifyRegisterResponse_zero
  to_api_xion_QueryWebAuthNVerifyRegisterResponse.
Proof. message_agree. Defined.

Definition api_xion_QueryWebAuthNVerifyAuthenticateRequest_fields : list (Field api_xion_QueryWebAuthNVerifyAuthenticateRequest) := [
  pl_string_field 1 api_xion_QueryWebAuthNVerifyAuthenticateRequest_Addr (λ v m,
    mk_api_xion_QueryWebAuthNVerifyAuthenticateRequest v (api_xion_QueryWebAuthNVerifyAuthenticateRequest_Challenge m)
    (api_xion_QueryWebAuthNVerifyAuthenticateRequest_Rp m) (api_xion_QueryWebAuthNVerifyAuthenticateRequest_Credential
    m) (api_xion_QueryWebAuthNVerifyAuthenticateRequest_Data m));
  pl_string_field 2 api_xion_QueryWebAuthNVerifyAuthenticateRequest_Challenge (λ v m,
    mk_api_xion_QueryWebAuthNVerifyAuthenticateRequest (api_xion_QueryWebAuthNVerifyAuthenticateRequest_Addr m) v
    (api_xion_QueryWebAuthNVerifyAuthenticateRequest_Rp m) (api_xion_QueryWebAuthNVerifyAuthenticateRequest_Credential
    m) (api_xion_QueryWebAuthNVerifyAuthenticateRequest_Data m));
  pl_string_field 3 api_xion_QueryWebAuthNVerifyAuthenticateRequest_Rp (λ v m,
    mk_api_xion_QueryWebAuthNVerifyAuthenticateRequest (api_xion_QueryWebAuthNVerifyAuthenticateRequest_Addr m)
    (api_xion_QueryWebAuthNVerifyAuthenticateRequest_Challenge m) v
    (api_xion_QueryWebAuthNVerifyAuthenticateRequest_Credential m)
    (api_xion_QueryWebAuthNVerifyAuthenticateRequest_Data m));
  pl_string_field 4 api_xion_QueryWebAuthNVerifyAuthenticateRequest_Credential (λ v m,
    mk_api_xion_QueryWebAuthNVerifyAuthenticateRequest (api_xion_QueryWebAuthNVerifyAuthenticateRequest_Addr m)
    (api_xion_QueryWebAuthNVerifyAuthenticateRequest_Challenge m) (api_xion_QueryWebAuthNVerifyAuthenticateRequest_Rp
    m) v (api_xion_QueryWebAuthNVerifyAuthenticateRequest_Data m));
  pl_string_field 5 api_xion_QueryWebAuthNVerifyAuthenticateRequest_Data (λ v m,
    mk_api_xion_QueryWebAuthNVerifyAuthenticateRequest (api_xion_QueryWebAuthNVerifyAuthenticateRequest_Addr m)
    (api_xion_QueryWebAuthNVerifyAuthenticateRequest_Challenge m) (api_xion_QueryWebAuthNVerifyAuthenticateRequest_Rp
    m) (api_xion_QueryWebAuthNVerifyAuthenticateRequest_Credential m) v)].
Definition api_xion_QueryWebAuthNVerifyAuthenticateRequest_zero : api_xion_QueryWebAuthNVerifyAuthenticateRequest := mk_api_xion_QueryWebAuthNVerifyAuthenticateRequest "" "" "" "" "".
#[global] Instance api_xion_QueryWebAuthNVerifyAuthenticateRequest_spec : PulsarSpec api_xion_QueryWebAuthNVerifyAuthenticateRequest_fields api_xion_QueryWebAuthNVerifyAuthenticateRequest_zero.
Proof. pulsar_spec. Defined.
Definition api_xion_QueryWebAuthNVerifyAuthenticateRequest_reflect : list (RField I api_xion_QueryWebAuthNVerifyAuthenticateRequest) := [
  r_string "xion.v1.QueryWebAuthNVerifyAuthenticateRequest.addr" api_xion_QueryWebAuthNVerifyAuthenticateRequest_Addr
    (λ v m, mk_api_xion_QueryWebAuthNVerifyAuthenticateRequest v
    (api_xion_QueryWebAuthNVerifyAuthenticateRequest_Challenge m) (api_xion_QueryWebAuthNVerifyAuthenticateRequest_Rp
    m) (api_xion_QueryWebAuthNVerifyAuthenticateRequest_Credential m)
    (api_xion_QueryWebAuthNVerifyAuthenticateRequest_Data m));
  r_string "xion.v1.QueryWebAuthNVerifyAuthenticateRequest.challenge"
    api_xion_QueryWebAuthNVerifyAuthenticateRequest_Challenge (λ v m,
    mk_api_xion_QueryWebAuthNVerifyAuthenticateRequest (api_xion_QueryWebAuthNVerifyAuthenticateRequest_Addr m) v
    (api_xion_QueryWebAuthNVerifyAuthenticateRequest_Rp m) (api_xion_QueryWebAuthNVerifyAuthenticateRequest_Credential
    m) (api_xion_QueryWebAuthNVerifyAuthenticateRequest_Data m));
  r_string "xion.v1.QueryWebAuthNVerifyAuthenticateRequest.rp" api_xion_QueryWebAuthNVerifyAuthenticateRequest_Rp (λ v
    m, mk_api_xion_QueryWebAuthNVerifyAuthenticateRequest (api_xion_QueryWebAuthNVerifyAuthenticateRequest_Addr m)
    (api_xion_QueryWebAuthNVerifyAuthenticateRequest_Challenge m) v
    (api_xion_QueryWebAuthNVerifyAuthenticateRequest_Credential m)
    (api_xion_QueryWebAuthNVerifyAuthenticateRequest_Data m));
  r_bytes "xion.v1.QueryWebAuthNVerifyAuthenticateRequest.credential"
    api_xion_QueryWebAuthNVerifyAuthenticateRequest_Credential (λ v m,
    mk_api_xion_QueryWebAuthNVerifyAuthenticateRequest (api_xion_QueryWebAuthNVerifyAuthenticateRequest_Addr m)
    (api_xion_QueryWebAuthNVerifyAuthenticateRequest_Challenge m) (api_xion_QueryWebAuthNVerifyAuthenticateRequest_Rp
    m) v (api_xion_QueryWebAuthNVerifyAuthenticateRequest_Data m));
  r_bytes "xion.v1.QueryWebAuthNVerifyAuthenticateRequest.data" api_xion_QueryWebAuthNVerifyAuthenticateRequest_Data
    (λ v m, mk_api_xion_QueryWebAuthNVerifyAuthenticateRequest (api_xion_QueryWebAuthNVerifyAuthenticateRequest_Addr
    m) (api_xion_QueryWebAuthNVerifyAuthenticateRequest_Challenge m)
    (api_xion_QueryWebAuthNVerifyAuthenticateRequest_Rp m) (api_xion_QueryWebAuthNVerifyAuthenticateRequest_Credential
    m) v)].
#[global] Instance api_xion_QueryWebAuthNVerifyAuthenticateRequest_reflect_spec : ReflectSpec
  api_xion_QueryWebAuthNVerifyAuthenticateRequest_reflect api_xion_QueryWebAuthNVerifyAuthenticateRequest_zero.
Proof. reflect_spec. Defined.
Definition to_api_xion_QueryWebAuthNVerifyAuthenticateRequest (m : VerifyAuthenticateRequest) :
  api_xion_QueryWebAuthNVerifyAuthenticateRequest := mk_api_xion_QueryWebAuthNVerifyAuthenticateRequest (va_Addr m)
  (va_Challenge m) (va_Rp m) (va_Credential m) (va_Data m).
#[global] Instance api_xion_QueryWebAuthNVerifyAuthenticateRequest_agrees : MessageAgrees
  xion_QueryWebAuthNVerifyAuthenticateRequest_fields xion_QueryWebAuthNVerifyAuthenticateRequest_zero
  api_xion_QueryWebAuthNVerifyAuthenticateRequest_fields api_xion_QueryWebAuthNVerifyAuthenticateRequest_zero
  to_api_xion_QueryWebAuthNVerifyAuthenticateRequest.
Proof. message_agree. Defined.

Definition api_xion_QueryPlatformPercentageResponse_fields : list (Field api_xion_QueryPlatformPercentageResponse) := [
  pl_int_field id 1 api_xion_QueryPlatformPercentageResponse_PlatformPercentage (λ v _,
    mk_api_xion_QueryPlatformPercentageResponse v)].
Definition api_xion_QueryPlatformPercentageResponse_zero : api_xion_QueryPlatformPercentageResponse := mk_api_xion_QueryPlatformPercentageResponse 0.
#[global] Instance api_xion_QueryPlatformPercentageResponse_spec : PulsarSpec api_xion_QueryPlatformPercentageResponse_fields api_xion_QueryPlatformPercentageResponse_zero.
Proof. pulsar_spec. Defined.
Definition api_xion_QueryPlatformPercentageResponse_reflect : list (RField I api_xion_QueryPlatformPercentageResponse) := [
  r_uint64 "xion.v1.QueryPlatformPercentageResponse.platform_percentage"
    api_xion_QueryPlatformPercentageResponse_PlatformPercentage (λ v _, mk_api_xion_QueryPlatformPercentageResponse v)].
#[global] Instance api_xion_QueryPlatformPercentageResponse_reflect_spec : ReflectSpec
  api_xion_QueryPlatformPercentageResponse_reflect api_xion_QueryPlatformPercentageResponse_zero.
Proof. reflect_spec. Defined.
Definition to_api_xion_QueryPlatformPercentageResponse (m : xion_QueryPlatformPercentageResponse) :
  api_xion_QueryPlatformPercentageResponse := mk_api_xion_QueryPlatformPercentageResponse
  (xion_QueryPlatformPercentageResponse_PlatformPercentage m).
#[global] Instance api_xion_QueryPlatformPercentageResponse_agrees : MessageAgrees
  xion_QueryPlatformPercentageResponse_fields xion_QueryPlatformPercentageResponse_zero
  api_xion_QueryPlatformPercentageResponse_fields api_xion_QueryPlatformPercentageResponse_zero
  to_api_xion_QueryPlatformPercentageResponse.
Proof. message_agree. Defined.

Definition api_xion_QueryPlatformMinimumResponse_fields : list (Field api_xion_QueryPlatformMinimumResponse) := [
  pl_messages_field ia_methods ia_zero 3 api_xion_QueryPlatformMinimumResponse_Minimums (λ v _,
    mk_api_xion_QueryPlatformMinimumResponse v)].
Definition api_xion_QueryPlatformMinimumResponse_zero : api_xion_QueryPlatformMinimumResponse := mk_api_xion_QueryPlatformMinimumResponse [].
#[global] Instance api_xion_QueryPlatformMinimumResponse_spec : PulsarSpec api_xion_QueryPlatformMinimumResponse_fields api_xion_QueryPlatformMinimumResponse_zero.
Proof. pulsar_spec. Defined.
Definition api_xion_QueryPlatformMinimumResponse_reflect : list (RField I api_xion_QueryPlatformMinimumResponse) := [
  r_messages "_QueryPlatformMinimumResponse_3_list" "xion.v1.QueryPlatformMinimumResponse.minimums"
    api_xion_QueryPlatformMinimumResponse_Minimums (λ v _, mk_api_xion_QueryPlatformMinimumResponse v)].
#[global] Instance api_xion_QueryPlatformMinimumResponse_reflect_spec : ReflectSpec
  api_xion_QueryPlatformMinimumResponse_reflect api_xion_QueryPlatformMinimumResponse_zero.
Proof. reflect_spec. Defined.
Definition api_xion_QueryPlatformMinimumResponse_3_list : ListKind I (option Coin_api) := message_list ia_zero.
Definition to_api_xion_QueryPlatformMinimumResponse (m : xion_QueryPlatformMinimumResponse) :
  api_xion_QueryPlatformMinimumResponse := mk_api_xion_QueryPlatformMinimumResponse
  (Coin_conv <$> xion_QueryPlatformMinimumResponse_Minimums m).
#[global] Instance api_xion_QueryPlatformMinimumResponse_agrees : MessageAgrees
  xion_QueryPlatformMinimumResponse_fields xion_QueryPlatformMinimumResponse_zero
  api_xion_QueryPlatformMinimumResponse_fields api_xion_QueryPlatformMinimumResponse_zero
  to_api_xion_QueryPlatformMinimumResponse.
Proof. message_agree. Defined.

(** ** [api/xion/v1/tx.pulsar.go] *)
Definition api_xion_MsgSend_fields : list (Field api_xion_MsgSend) := [
  pl_string_field 1 api_xion_MsgSend_FromAddress (λ v m, mk_api_xion_MsgSend v (api_xion_MsgSend_ToAddress m)
    (api_xion_MsgSend_Amount m));
  pl_string_field 2 api_xion_MsgSend_ToAddress (λ v m, mk_api_xion_MsgSend (api_xion_MsgSend_FromAddress m) v
    (api_xion_MsgSend_Amount m));
  pl_messages_field ia_methods ia_zero 3 api_xion_MsgSend_Amount (λ v m, mk_api_xion_MsgSend
    (api_xion_MsgSend_FromAddress m) (api_xion_MsgSend_ToAddress m) v)].
Definition api_xion_MsgSend_zero : api_xion_MsgSend := mk_api_xion_MsgSend "" "" [].
#[global] Instance api_xion_MsgSend_spec : PulsarSpec api_xion_MsgSend_fields api_xion_MsgSend_zero.
Proof. pulsar_spec. Defined.
Definition api_xion_MsgSend_reflect : list (RField I api_xion_MsgSend) := [
  r_string "xion.v1.MsgSend.from_address" api_xion_MsgSend_FromAddress (λ v m, mk_api_xion_MsgSend v
    (api_xion_MsgSend_ToAddress m) (api_xion_MsgSend_Amount m));
  r_string "xion.v1.MsgSend.to_address" api_xion_MsgSend_ToAddress (λ v m, mk_api_xion_MsgSend
    (api_xion_MsgSend_FromAddress m) v (api_xion_MsgSend_Amount m));
  r_messages "_MsgSend_3_list" "xion.v1.MsgSend.amount" api_xion_MsgSend_Amount (λ v m, mk_api_xion_MsgSend
    (api_xion_MsgSend_FromAddress m) (api_xion_MsgSend_ToAddress m) v)].
#[global] Instance api_xion_MsgSend_reflect_spec : ReflectSpec api_xion_MsgSend_reflect api_xion_MsgSend_zero.
Proof. reflect_spec. Defined.
Definition api_xion_MsgSend_3_list : ListKind I (option Coin_api) := message_list ia_zero.
Definition to_api_xion_MsgSend (m : MsgSend) : api_xion_MsgSend := mk_api_xion_MsgSend (send_FromAddress m)
  (send_ToAddress m) (Coin_conv <$> send_Amount m).
#[global] Instance api_xion_MsgSend_agrees : MessageAgrees xion_MsgSend_fields xion_MsgSend_zero
  api_xion_MsgSend_fields api_xion_MsgSend_zero to_api_xion_MsgSend.
Proof. message_agree. Defined.

Definition api_xion_MsgMultiSend_fields : list (Field api_xion_MsgMultiSend) := [
  pl_messages_field ia_methods ia_zero 1 api_xion_MsgMultiSend_Inputs (λ v m, mk_api_xion_MsgMultiSend v
    (api_xion_MsgMultiSend_Outputs m));
  pl_messages_field ia_methods ia_zero 2 api_xion_MsgMultiSend_Outputs (λ v m, mk_api_xion_MsgMultiSend
    (api_xion_MsgMultiSend_Inputs m) v)].
Definition api_xion_MsgMultiSend_zero : api_xion_MsgMultiSend := mk_api_xion_MsgMultiSend [] [].
#[global] Instance api_xion_MsgMultiSend_spec : PulsarSpec api_xion_MsgMultiSend_fields api_xion_MsgMultiSend_zero.
Proof. pulsar_spec. Defined.
Definition api_xion_MsgMultiSend_reflect : list (RField I api_xion_MsgMultiSend) := [
  r_messages "_MsgMultiSend_1_list" "xion.v1.MsgMultiSend.inputs" api_xion_MsgMultiSend_Inputs (λ v m,
    mk_api_xion_MsgMultiSend v (api_xion_MsgMultiSend_Outputs m));
  r_messages "_MsgMultiSend_2_list" "xion.v1.MsgMultiSend.outputs" api_xion_MsgMultiSend_Outputs (λ v m,
    mk_api_xion_MsgMultiSend (api_xion_MsgMultiSend_Inputs m) v)].
#[global] Instance api_xion_MsgMultiSend_reflect_spec : ReflectSpec api_xion_MsgMultiSend_reflect
  api_xion_MsgMultiSend_zero.
Proof. reflect_spec. Defined.
Definition api_xion_MsgMultiSend_1_list : ListKind I (option Input_api) := message_list ia_zero.
Definition api_xion_MsgMultiSend_2_list : ListKind I (option Output_api) := message_list ia_zero.
Definition to_api_xion_MsgMultiSend (m : MsgMultiSend) : api_xion_MsgMultiSend := mk_api_xion_MsgMultiSend
  (Input_conv <$> ms_Inputs m) (Output_conv <$> ms_Outputs m).
#[global] Instance api_xion_MsgMultiSend_agrees : MessageAgrees xion_MsgMultiSend_fields xion_MsgMultiSend_zero
  api_xion_MsgMultiSend_fields api_xion_MsgMultiSend_zero to_api_xion_MsgMultiSend.
Proof. message_agree. Defined.

Definition api_xion_MsgSetPlatformPercentage_fields : list (Field api_xion_MsgSetPlatformPercentage) := [
  pl_string_field 1 api_xion_MsgSetPlatformPercentage_Authority (λ v m, mk_api_xion_MsgSetPlatformPercentage v
    (api_xion_MsgSetPlatformPercentage_PlatformPercentage m));
  pl_int_field u32 2 api_xion_MsgSetPlatformPercentage_PlatformPercentage (λ v m, mk_api_xion_MsgSetPlatformPercentage
    (api_xion_MsgSetPlatformPercentage_Authority m) v)].
Definition api_xion_MsgSetPlatformPercentage_zero : api_xion_MsgSetPlatformPercentage := mk_api_xion_MsgSetPlatformPercentage "" 0.
#[global] Instance api_xion_MsgSetPlatformPercentage_spec : PulsarSpec api_xion_MsgSetPlatformPercentage_fields api_xion_MsgSetPlatformPercentage_zero.
Proof. pulsar_spec. Defined.
Definition api_xion_MsgSetPlatformPercentage_reflect : list (RField I api_xion_MsgSetPlatformPercentage) := [
  r_string "xion.v1.MsgSetPlatformPercentage.authority" api_xion_MsgSetPlatformPercentage_Authority (λ v m,
    mk_api_xion_MsgSetPlatformPercentage v (api_xion_MsgSetPlatformPercentage_PlatformPercentage m));
  r_uint32 "xion.v1.MsgSetPlatformPercentage.platform_percentage" api_xion_MsgSetPlatformPercentage_PlatformPercentage
    (λ v m, mk_api_xion_MsgSetPlatformPercentage (api_xion_MsgSetPlatformPercentage_Authority m) v)].
#[global] Instance api_xion_MsgSetPlatformPercentage_reflect_spec : ReflectSpec
  api_xion_MsgSetPlatformPercentage_reflect api_xion_MsgSetPlatformPercentage_zero.
Proof. reflect_spec. Defined.
Definition to_api_xion_MsgSetPlatformPercentage (m : MsgSetPlatformPercentage) : api_xion_MsgSetPlatformPercentage :=
  mk_api_xion_MsgSetPlatformPercentage (pct_Authority m) (pct_PlatformPercentage m).
#[global] Instance api_xion_MsgSetPlatformPercentage_agrees : MessageAgrees xion_MsgSetPlatformPercentage_fields
  xion_MsgSetPlatformPercentage_zero api_xion_MsgSetPlatformPercentage_fields api_xion_MsgSetPlatformPercentage_zero
  to_api_xion_MsgSetPlatformPercentage.
Proof. message_agree. Defined.

Definition api_xion_MsgSetPlatformMinimum_fields : list (Field api_xion_MsgSetPlatformMinimum) := [
  pl_string_field 1 api_xion_MsgSetPlatformMinimum_Authority (λ v m, mk_api_xion_MsgSetPlatformMinimum v
    (api_xion_MsgSetPlatformMinimum_Minimums m));
  pl_messages_field ia_methods ia_zero 3 api_xion_MsgSetPlatformMinimum_Minimums (λ v m,
    mk_api_xion_MsgSetPlatformMinimum (api_xion_MsgSetPlatformMinimum_Authority m) v)].
Definition api_xion_MsgSetPlatformMinimum_zero : api_xion_MsgSetPlatformMinimum := mk_api_xion_MsgSetPlatformMinimum "" [].
#[global] Instance api_xion_MsgSetPlatformMinimum_spec : PulsarSpec api_xion_MsgSetPlatformMinimum_fields api_xion_MsgSetPlatformMinimum_zero.
Proof. pulsar_spec. Defined.
Definition api_xion_MsgSetPlatformMinimum_reflect : list (RField I api_xion_MsgSetPlatformMinimum) := [
  r_string "xion.v1.MsgSetPlatformMinimum.authority" api_xion_MsgSetPlatformMinimum_Authority (λ v m,
    mk_api_xion_MsgSetPlatformMinimum v (api_xion_MsgSetPlatformMinimum_Minimums m));
  r_messages "_MsgSetPlatformMinimum_3_list" "xion.v1.MsgSetPlatformMinimum.minimums"
    api_xion_MsgSetPlatformMinimum_Minimums (λ v m, mk_api_xion_MsgSetPlatformMinimum
    (api_xion_MsgSetPlatformMinimum_Authority m) v)].
#[global] Instance api_xion_MsgSetPlatformMinimum_reflect_spec : ReflectSpec api_xion_MsgSetPlatformMinimum_reflect
  api_xion_MsgSetPlatformMinimum_zero.
Proof. reflect_spec. Defined.
Definition api_xion_MsgSetPlatformMinimum_3_list : ListKind I (option Coin_api) := message_list ia_zero.
Definition to_api_xion_MsgSetPlatformMinimum (m : MsgSetPlatformMinimum) : api_xion_MsgSetPlatformMinimum :=
  mk_api_xion_MsgSetPlatformMinimum (min_Authority m) (Coin_conv <$> min_Minimums m).
#[global] Instance api_xion_MsgSetPlatformMinimum_agrees : MessageAgrees xion_MsgSetPlatformMinimum_fields
  xion_MsgSetPlatformMinimum_zero api_xion_MsgSetPlatformMinimum_fields api_xion_MsgSetPlatformMinimum_zero
  to_api_xion_MsgSetPlatformMinimum.
Proof. message_agree. Defined.

(** ** The message types *)
Definition api_xion_messages : list (ApiMessage I) := [
  api_message xion_AuthzAllowance_fields xion_AuthzAllowance_zero api_xion_AuthzAllowance_fields api_xion_AuthzAllowance_zero api_xion_AuthzAllowance_reflect to_api_xion_AuthzAllowance;
  api_message xion_ContractsAllowance_fields xion_ContractsAllowance_zero api_xion_ContractsAllowance_fields api_xion_ContractsAllowance_zero api_xion_ContractsAllowance_reflect to_api_xion_ContractsAllowance;
  api_message xion_MultiAnyAllowance_fields xion_MultiAnyAllowance_zero api_xion_MultiAnyAllowance_fields api_xion_MultiAnyAllowance_zero api_xion_MultiAnyAllowance_reflect to_api_xion_MultiAnyAllowance;
  api_message xion_GenesisState_fields xion_GenesisState_zero api_xion_GenesisState_fields api_xion_GenesisState_zero api_xion_GenesisState_reflect to_api_xion_GenesisState;
  api_message xion_QueryWebAuthNVerifyRegisterRequest_fields xion_QueryWebAuthNVerifyRegisterRequest_zero api_xion_QueryWebAuthNVerifyRegisterRequest_fields api_xion_QueryWebAuthNVerifyRegisterRequest_zero api_xion_QueryWebAuthNVerifyRegisterRequest_reflect to_api_xion_QueryWebAuthNVerifyRegisterRequest;
  api_message xion_QueryWebAuthNVerifyRegisterResponse_fields xion_QueryWebAuthNVerifyRegisterResponse_zero api_xion_QueryWebAuthNVerifyRegisterResponse_fields api_xion_QueryWebAuthNVerifyRegisterResponse_zero api_xion_QueryWebAuthNVerifyRegisterResponse_reflect to_api_xion_QueryWebAuthNVerifyRegisterResponse;
  api_message xion_QueryWebAuthNVerifyAuthenticateRequest_fields xion_QueryWebAuthNVerifyAuthenticateRequest_zero api_xion_QueryWebAuthNVerifyAuthenticateRequest_fields api_xion_QueryWebAuthNVerifyAuthenticateRequest_zero api_xion_QueryWebAuthNVerifyAuthenticateRequest_reflect to_api_xion_QueryWebAuthNVerifyAuthenticateRequest;
  api_message xion_QueryPlatformPercentageResponse_fields xion_QueryPlatformPercentageResponse_zero api_xion_QueryPlatformPercentageResponse_fields api_xion_QueryPlatformPercentageResponse_zero api_xion_QueryPlatformPercentageResponse_reflect to_api_xion_QueryPlatformPercentageResponse;
  api_message xion_QueryPlatformMinimumResponse_fields xion_QueryPlatformMinimumResponse_zero api_xion_QueryPlatformMinimumResponse_fields api_xion_QueryPlatformMinimumResponse_zero api_xion_QueryPlatformMinimumResponse_reflect to_api_xion_QueryPlatformMinimumResponse;
  api_message xion_MsgSend_fields xion_MsgSend_zero api_xion_MsgSend_fields api_xion_MsgSend_zero api_xion_MsgSend_reflect to_api_xion_MsgSend;
  api_message xion_MsgMultiSend_fields xion_MsgMultiSend_zero api_xion_MsgMultiSend_fields api_xion_MsgMultiSend_zero api_xion_MsgMultiSend_reflect to_api_xion_MsgMultiSend;
  api_message xion_MsgSetPlatformPercentage_fields xion_MsgSetPlatformPercentage_zero api_xion_MsgSetPlatformPercentage_fields api_xion_MsgSetPlatformPercentage_zero api_xion_MsgSetPlatformPercentage_reflect to_api_xion_MsgSetPlatformPercentage;
  api_message xion_MsgSetPlatformMinimum_fields xion_MsgSetPlatformMinimum_zero api_xion_MsgSetPlatformMinimum_fields api_xion_MsgSetPlatformMinimum_zero api_xion_MsgSetPlatformMinimum_reflect to_api_xion_MsgSetPlatformMinimum
  ].

Lemma api_xion_messages_ok : Forall api_message_ok api_xion_messages.
Proof. api_messages_ok. Qed.

(** ** The lists *)
Definition api_xion_lists : list (ApiList I) := [ mkApiList api_xion_ContractsAllowance_2_list;
  mkApiList api_xion_MultiAnyAllowance_1_list; mkApiList api_xion_GenesisState_2_list;
  mkApiList api_xion_QueryPlatformMinimumResponse_3_list; mkApiList api_xion_MsgSend_3_list;
  mkApiList api_xion_MsgMultiSend_1_list; mkApiList api_xion_MsgMultiSend_2_list;
  mkApiList api_xion_MsgSetPlatformMinimum_3_list ].
Lemma api_xion_lists_ok : Forall api_list_ok api_xion_lists.
Proof. repeat (apply List.Forall_cons; [apply api_list_is_ok; apply _|]). apply List.Forall_nil. Qed.
End api.
