(* ===== verification/ApiMint.v ===== *)
(** * src/api/xion/mint and src/api/xion/globalfee: the messages

    As the [Proto] file of the module, for the second set of messages: the fields of every
    message for [ProtoMethods] and for reflection, and its agreement with the message of the
    first set. *)

From S2P Require Import Prelude GoStd ProtoWire ProtoCodec PulsarWire PulsarCodec PulsarReflect PulsarLists PulsarAgree.
From S2P Require Import Sdk SdkModel GlobalFee Mint ProtoMint.

Section api.
Context {I : Type} `{Rt : !PulsarRuntime, Op : !ProtoOptions, RtL : !PulsarRuntimeLaws, OpL : !ProtoOptionsLaws}.
Context `{IDecCoin : !ImportedMsg DecCoin}.
Context `{LDecCoin : !ImportedLaws DecCoin}.
Context (dec_codec : CustomCodec LegacyDec) `{Sdec_codec : !CustomCodecSpec dec_codec, Tdec : !CustomText dec_codec}.
(** The message types of the dependencies in this set, and the counterparts of values *)
Context {DecCoin_api : Type} `{IADecCoin : !ImportedApi DecCoin_api}.
Context `{LADecCoin : !ImportedApiLaws DecCoin_api}.
Context (DecCoin_conv : DecCoin → DecCoin_api).
Context `{CADecCoin : !CodecAgrees im_codec im_zero ia_methods ia_zero DecCoin_conv}.

(** ** Data: the fields that are known *)
Record api_globalfee_Params := mk_api_globalfee_Params { api_globalfee_Params_MinimumGasPrices : list DecCoin_api;
  api_globalfee_Params_BypassMinFeeMsgTypes : list string; api_globalfee_Params_MaxTotalBypassMinFeeMsgGasUsage : Z }.
Record api_globalfee_GenesisState := mk_api_globalfee_GenesisState {
  api_globalfee_GenesisState_Params : option (Pulsar api_globalfee_Params) }.
Record api_globalfee_QueryParamsResponse := mk_api_globalfee_QueryParamsResponse {
  api_globalfee_QueryParamsResponse_Params : option (Pulsar api_globalfee_Params) }.
Record api_mint_MintIncentiveTokens := mk_api_mint_MintIncentiveTokens {
  api_mint_MintIncentiveTokens_BondedRatio : string; api_mint_MintIncentiveTokens_Inflation : string;
  api_mint_MintIncentiveTokens_AnnualProvisions : string; api_mint_MintIncentiveTokens_NeededAmount : Z;
  api_mint_MintIncentiveTokens_CollectedAmount : Z; api_mint_MintIncentiveTokens_MintedAmount : Z;
  api_mint_MintIncentiveTokens_BurnedAmount : Z }.
Record api_mint_Minter := mk_api_mint_Minter { api_mint_Minter_Inflation : string;
  api_mint_Minter_AnnualProvisions : string }.
Record api_mint_Params := mk_api_mint_Params { api_mint_Params_MintDenom : string;
  api_mint_Params_InflationRateChange : string; api_mint_Params_InflationMax : string;
  api_mint_Params_InflationMin : string; api_mint_Params_GoalBonded : string; api_mint_Params_BlocksPerYear : Z }.
Record api_mint_GenesisState := mk_api_mint_GenesisState {
  api_mint_GenesisState_Minter : option (Pulsar api_mint_Minter);
  api_mint_GenesisState_Params : option (Pulsar api_mint_Params) }.
Record api_mint_QueryParamsResponse := mk_api_mint_QueryParamsResponse {
  api_mint_QueryParamsResponse_Params : option (Pulsar api_mint_Params) }.
Record api_mint_QueryInflationResponse := mk_api_mint_QueryInflationResponse {
  api_mint_QueryInflationResponse_Inflation : string }.
Record api_mint_QueryAnnualProvisionsResponse := mk_api_mint_QueryAnnualProvisionsResponse {
  api_mint_QueryAnnualProvisionsResponse_AnnualProvisions : string }.
Record api_mint_MsgUpdateParams := mk_api_mint_MsgUpdateParams { api_mint_MsgUpdateParams_Authority : string;
  api_mint_MsgUpdateParams_Params : option (Pulsar api_mint_Params) }.

Context `{!GoPointer I DecCoin_api, !GoPointer I (Pulsar api_globalfee_Params), !GoPointer I (Pulsar api_mint_Minter),
  !GoPointer I (Pulsar api_mint_Params)}.
Context `{VF : !ValueFormat I}.

(** ** [api/xion/globalfee/v1/genesis.pulsar.go] *)
Definition api_globalfee_Params_fields : list (Field api_globalfee_Params) := [
  pl_messages_field ia_methods ia_zero 1 api_globalfee_Params_MinimumGasPrices (λ v m, mk_api_globalfee_Params v
    (api_globalfee_Params_BypassMinFeeMsgTypes m) (api_globalfee_Params_MaxTotalBypassMinFeeMsgGasUsage m));
  pl_strings_field 2 api_globalfee_Params_BypassMinFeeMsgTypes (λ v m, mk_api_globalfee_Params
    (api_globalfee_Params_MinimumGasPrices m) v (api_globalfee_Params_MaxTotalBypassMinFeeMsgGasUsage m));
  pl_int_field id 3 api_globalfee_Params_MaxTotalBypassMinFeeMsgGasUsage (λ v m, mk_api_globalfee_Params
    (api_globalfee_Params_MinimumGasPrices m) (api_globalfee_Params_BypassMinFeeMsgTypes m) v)].
Definition api_globalfee_Params_zero : api_globalfee_Params := mk_api_globalfee_Params [] [] 0.
#[global] Instance api_globalfee_Params_spec : PulsarSpec api_globalfee_Params_fields api_globalfee_Params_zero.
Proof. pulsar_spec. Defined.
Definition api_globalfee_Params_reflect : list (RField I api_globalfee_Params) := [
  r_messages "_Params_1_list" "xion.globalfee.v1.Params.minimum_gas_prices" api_globalfee_Params_MinimumGasPrices (λ v
    m, mk_api_globalfee_Params v (api_globalfee_Params_BypassMinFeeMsgTypes m)
    (api_globalfee_Params_MaxTotalBypassMinFeeMsgGasUsage m));
  r_strings "_Params_2_list" "xion.globalfee.v1.Params.bypass_min_fee_msg_types"
    api_globalfee_Params_BypassMinFeeMsgTypes (λ v m, mk_api_globalfee_Params (api_globalfee_Params_MinimumGasPrices
    m) v (api_globalfee_Params_MaxTotalBypassMinFeeMsgGasUsage m));
  r_uint64 "xion.globalfee.v1.Params.max_total_bypass_min_fee_msg_gas_usage"
    api_globalfee_Params_MaxTotalBypassMinFeeMsgGasUsage (λ v m, mk_api_globalfee_Params
    (api_globalfee_Params_MinimumGasPrices m) (api_globalfee_Params_BypassMinFeeMsgTypes m) v)].
#[global] Instance api_globalfee_Params_reflect_spec : ReflectSpec api_globalfee_Params_reflect
  api_globalfee_Params_zero.
Proof. reflect_spec. Defined.
Definition api_globalfee_Params_1_list : ListKind I (option DecCoin_api) := message_list ia_zero.
Definition api_globalfee_Params_2_list : ListKind I string := string_list.
Definition to_api_globalfee_Params (m : GlobalFeeParams) : api_globalfee_Params := mk_api_globalfee_Params
  (DecCoin_conv <$> MinimumGasPrices m) (BypassMinFeeMsgTypes m) (MaxTotalBypassMinFeeMsgGasUsage m).
#[global] Instance api_globalfee_Params_agrees : MessageAgrees globalfee_Params_fields globalfee_Params_zero
  api_globalfee_Params_fields api_globalfee_Params_zero to_api_globalfee_Params.
Proof. message_agree. Defined.

Definition api_globalfee_GenesisState_fields : list (Field api_globalfee_GenesisState) := [
  pl_pointer_field (ProtoMethods api_globalfee_Params_fields) (fresh api_globalfee_Params_zero) 1
    api_globalfee_GenesisState_Params (λ v _, mk_api_globalfee_GenesisState v)].
Definition api_globalfee_GenesisState_zero : api_globalfee_GenesisState := mk_api_globalfee_GenesisState None.
#[global] Instance api_globalfee_GenesisState_spec : PulsarSpec api_globalfee_GenesisState_fields api_globalfee_GenesisState_zero.
Proof. pulsar_spec. Defined.
Definition api_globalfee_GenesisState_reflect : list (RField I api_globalfee_GenesisState) := [
  r_message (fresh api_globalfee_Params_zero) "xion.globalfee.v1.GenesisState.params"
    api_globalfee_GenesisState_Params (λ v _, mk_api_globalfee_GenesisState v)].
#[global] Instance api_globalfee_GenesisState_reflect_spec : ReflectSpec api_globalfee_GenesisState_reflect
  api_globalfee_GenesisState_zero.
Proof. reflect_spec. Defined.
Definition to_api_globalfee_GenesisState (m : globalfee_GenesisState) : api_globalfee_GenesisState :=
  mk_api_globalfee_GenesisState (Some ((api to_api_globalfee_Params) (globalfee_GenesisState_Params m))).
#[global] Instance api_globalfee_GenesisState_agrees : MessageAgrees globalfee_GenesisState_fields
  globalfee_GenesisState_zero api_globalfee_GenesisState_fields api_globalfee_GenesisState_zero
  to_api_globalfee_GenesisState.
Proof. message_agree. Defined.

(** ** [api/xion/globalfee/v1/query.pulsar.go] *)
Definition api_globalfee_QueryParamsResponse_fields : list (Field api_globalfee_QueryParamsResponse) := [
  pl_pointer_field (ProtoMethods api_globalfee_Params_fields) (fresh api_globalfee_Params_zero) 1
    api_globalfee_QueryParamsResponse_Params (λ v _, mk_api_globalfee_QueryParamsResponse v)].
Definition api_globalfee_QueryParamsResponse_zero : api_globalfee_QueryParamsResponse := mk_api_globalfee_QueryParamsResponse None.
#[global] Instance api_globalfee_QueryParamsResponse_spec : PulsarSpec api_globalfee_QueryParamsResponse_fields api_globalfee_QueryParamsResponse_zero.
Proof. pulsar_spec. Defined.
Definition api_globalfee_QueryParamsResponse_reflect : list (RField I api_globalfee_QueryParamsResponse) := [
  r_message (fresh api_globalfee_Params_zero) "xion.globalfee.v1.QueryParamsResponse.params"
    api_globalfee_QueryParamsResponse_Params (λ v _, mk_api_globalfee_QueryParamsResponse v)].
#[global] Instance api_globalfee_QueryParamsResponse_reflect_spec : ReflectSpec
  api_globalfee_QueryParamsResponse_reflect api_globalfee_QueryParamsResponse_zero.
Proof. reflect_spec. Defined.
Definition to_api_globalfee_QueryParamsResponse (m : globalfee_QueryParamsResponse) :
  api_globalfee_QueryParamsResponse := mk_api_globalfee_QueryParamsResponse
  (Some ((api to_api_globalfee_Params) (globalfee_QueryParamsResponse_Params m))).
#[global] Instance api_globalfee_QueryParamsResponse_agrees : MessageAgrees globalfee_QueryParamsResponse_fields
  globalfee_QueryParamsResponse_zero api_globalfee_QueryParamsResponse_fields api_globalfee_QueryParamsResponse_zero
  to_api_globalfee_QueryParamsResponse.
Proof. message_agree. Defined.

(** ** [api/xion/mint/v1/event.pulsar.go] *)
Definition api_mint_MintIncentiveTokens_fields : list (Field api_mint_MintIncentiveTokens) := [
  pl_string_field 1 api_mint_MintIncentiveTokens_BondedRatio (λ v m, mk_api_mint_MintIncentiveTokens v
    (api_mint_MintIncentiveTokens_Inflation m) (api_mint_MintIncentiveTokens_AnnualProvisions m)
    (api_mint_MintIncentiveTokens_NeededAmount m) (api_mint_MintIncentiveTokens_CollectedAmount m)
    (api_mint_MintIncentiveTokens_MintedAmount m) (api_mint_MintIncentiveTokens_BurnedAmount m));
  pl_string_field 2 api_mint_MintIncentiveTokens_Inflation (λ v m, mk_api_mint_MintIncentiveTokens
    (api_mint_MintIncentiveTokens_BondedRatio m) v (api_mint_MintIncentiveTokens_AnnualProvisions m)
    (api_mint_MintIncentiveTokens_NeededAmount m) (api_mint_MintIncentiveTokens_CollectedAmount m)
    (api_mint_MintIncentiveTokens_MintedAmount m) (api_mint_MintIncentiveTokens_BurnedAmount m));
  pl_string_field 3 api_mint_MintIncentiveTokens_AnnualProvisions (λ v m, mk_api_mint_MintIncentiveTokens
    (api_mint_MintIncentiveTokens_BondedRatio m) (api_mint_MintIncentiveTokens_Inflation m) v
    (api_mint_MintIncentiveTokens_NeededAmount m) (api_mint_MintIncentiveTokens_CollectedAmount m)
    (api_mint_MintIncentiveTokens_MintedAmount m) (api_mint_MintIncentiveTokens_BurnedAmount m));
  pl_int_field id 4 api_mint_MintIncentiveTokens_NeededAmount (λ v m, mk_api_mint_MintIncentiveTokens
    (api_mint_MintIncentiveTokens_BondedRatio m) (api_mint_MintIncentiveTokens_Inflation m)
    (api_mint_MintIncentiveTokens_AnnualProvisions m) v (api_mint_MintIncentiveTokens_CollectedAmount m)
    (api_mint_MintIncentiveTokens_MintedAmount m) (api_mint_MintIncentiveTokens_BurnedAmount m));
  pl_int_field id 5 api_mint_MintIncentiveTokens_CollectedAmount (λ v m, mk_api_mint_MintIncentiveTokens
    (api_mint_MintIncentiveTokens_BondedRatio m) (api_mint_MintIncentiveTokens_Inflation m)
    (api_mint_MintIncentiveTokens_AnnualProvisions m) (api_mint_MintIncentiveTokens_NeededAmount m) v
    (api_mint_MintIncentiveTokens_MintedAmount m) (api_mint_MintIncentiveTokens_BurnedAmount m));
  pl_int_field id 6 api_mint_MintIncentiveTokens_MintedAmount (λ v m, mk_api_mint_MintIncentiveTokens
    (api_mint_MintIncentiveTokens_BondedRatio m) (api_mint_MintIncentiveTokens_Inflation m)
    (api_mint_MintIncentiveTokens_AnnualProvisions m) (api_mint_MintIncentiveTokens_NeededAmount m)
    (api_mint_MintIncentiveTokens_CollectedAmount m) v (api_mint_MintIncentiveTokens_BurnedAmount m));
  pl_int_field id 7 api_mint_MintIncentiveTokens_BurnedAmount (λ v m, mk_api_mint_MintIncentiveTokens
    (api_mint_MintIncentiveTokens_BondedRatio m) (api_mint_MintIncentiveTokens_Inflation m)
    (api_mint_MintIncentiveTokens_AnnualProvisions m) (api_mint_MintIncentiveTokens_NeededAmount m)
    (api_mint_MintIncentiveTokens_CollectedAmount m) (api_mint_MintIncentiveTokens_MintedAmount m) v)].
Definition api_mint_MintIncentiveTokens_zero : api_mint_MintIncentiveTokens := mk_api_mint_MintIncentiveTokens "" "" "" 0 0 0 0.
#[global] Instance api_mint_MintIncentiveTokens_spec : PulsarSpec api_mint_MintIncentiveTokens_fields api_mint_MintIncentiveTokens_zero.
Proof. pulsar_spec. Defined.
Definition api_mint_MintIncentiveTokens_reflect : list (RField I api_mint_MintIncentiveTokens) := [
  r_string "xion.mint.v1.MintIncentiveTokens.bonded_ratio" api_mint_MintIncentiveTokens_BondedRatio (λ v m,
    mk_api_mint_MintIncentiveTokens v (api_mint_MintIncentiveTokens_Inflation m)
    (api_mint_MintIncentiveTokens_AnnualProvisions m) (api_mint_MintIncentiveTokens_NeededAmount m)
    (api_mint_MintIncentiveTokens_CollectedAmount m) (api_mint_MintIncentiveTokens_MintedAmount m)
    (api_mint_MintIncentiveTokens_BurnedAmount m));
  r_string "xion.mint.v1.MintIncentiveTokens.inflation" api_mint_MintIncentiveTokens_Inflation (λ v m,
    mk_api_mint_MintIncentiveTokens (api_mint_MintIncentiveTokens_BondedRatio m) v
    (api_mint_MintIncentiveTokens_AnnualProvisions m) (api_mint_MintIncentiveTokens_NeededAmount m)
    (api_mint_MintIncentiveTokens_CollectedAmount m) (api_mint_MintIncentiveTokens_MintedAmount m)
    (api_mint_MintIncentiveTokens_BurnedAmount m));
  r_string "xion.mint.v1.MintIncentiveTokens.annual_provisions" api_mint_MintIncentiveTokens_AnnualProvisions (λ v m,
    mk_api_mint_MintIncentiveTokens (api_mint_MintIncentiveTokens_BondedRatio m)
    (api_mint_MintIncentiveTokens_Inflation m) v (api_mint_MintIncentiveTokens_NeededAmount m)
    (api_mint_MintIncentiveTokens_CollectedAmount m) (api_mint_MintIncentiveTokens_MintedAmount m)
    (api_mint_MintIncentiveTokens_BurnedAmount m));
  r_uint64 "xion.mint.v1.MintIncentiveTokens.needed_amount" api_mint_MintIncentiveTokens_NeededAmount (λ v m,
    mk_api_mint_MintIncentiveTokens (api_mint_MintIncentiveTokens_BondedRatio m)
    (api_mint_MintIncentiveTokens_Inflation m) (api_mint_MintIncentiveTokens_AnnualProvisions m) v
    (api_mint_MintIncentiveTokens_CollectedAmount m) (api_mint_MintIncentiveTokens_MintedAmount m)
    (api_mint_MintIncentiveTokens_BurnedAmount m));
  r_uint64 "xion.mint.v1.MintIncentiveTokens.collected_amount" api_mint_MintIncentiveTokens_CollectedAmount (λ v m,
    mk_api_mint_MintIncentiveTokens (api_mint_MintIncentiveTokens_BondedRatio m)
    (api_mint_MintIncentiveTokens_Inflation m) (api_mint_MintIncentiveTokens_AnnualProvisions m)
    (api_mint_MintIncentiveTokens_NeededAmount m) v (api_mint_MintIncentiveTokens_MintedAmount m)
    (api_mint_MintIncentiveTokens_BurnedAmount m));
  r_uint64 "xion.mint.v1.MintIncentiveTokens.minted_amount" api_mint_MintIncentiveTokens_MintedAmount (λ v m,
    mk_api_mint_MintIncentiveTokens (api_mint_MintIncentiveTokens_BondedRatio m)
    (api_mint_MintIncentiveTokens_Inflation m) (api_mint_MintIncentiveTokens_AnnualProvisions m)
    (api_mint_MintIncentiveTokens_NeededAmount m) (api_mint_MintIncentiveTokens_CollectedAmount m) v
    (api_mint_MintIncentiveTokens_BurnedAmount m));
  r_uint64 "xion.mint.v1.MintIncentiveTokens.burned_amount" api_mint_MintIncentiveTokens_BurnedAmount (λ v m,
    mk_api_mint_MintIncentiveTokens (api_mint_MintIncentiveTokens_BondedRatio m)
    (api_mint_MintIncentiveTokens_Inflation m) (api_mint_MintIncentiveTokens_AnnualProvisions m)
    (api_mint_MintIncentiveTokens_NeededAmount m) (api_mint_MintIncentiveTokens_CollectedAmount m)
    (api_mint_MintIncentiveTokens_MintedAmount m) v)].
#[global] Instance api_mint_MintIncentiveTokens_reflect_spec : ReflectSpec api_mint_MintIncentiveTokens_reflect
  api_mint_MintIncentiveTokens_zero.
Proof. reflect_spec. Defined.
Definition to_api_mint_MintIncentiveTokens (m : mint_MintIncentiveTokens) : api_mint_MintIncentiveTokens :=
  mk_api_mint_MintIncentiveTokens (of_bytes (cc_enc (mint_MintIncentiveTokens_BondedRatio m)))
  (of_bytes (cc_enc (mint_MintIncentiveTokens_Inflation m)))
  (of_bytes (cc_enc (mint_MintIncentiveTokens_AnnualProvisions m))) (mint_MintIncentiveTokens_NeededAmount m)
  (mint_MintIncentiveTokens_CollectedAmount m) (mint_MintIncentiveTokens_MintedAmount m)
  (mint_MintIncentiveTokens_BurnedAmount m).
#[global] Instance api_mint_MintIncentiveTokens_agrees : MessageAgrees (mint_MintIncentiveTokens_fields dec_codec)
  mint_MintIncentiveTokens_zero api_mint_MintIncentiveTokens_fields api_mint_MintIncentiveTokens_zero
  to_api_mint_MintIncentiveTokens.
Proof. message_agree. Defined.

(** ** [api/xion/mint/v1/mint.pulsar.go] *)
Definition api_mint_Minter_fields : list (Field api_mint_Minter) := [
  pl_string_field 1 api_mint_Minter_Inflation (λ v m, mk_api_mint_Minter v (api_mint_Minter_AnnualProvisions m));
  pl_string_field 2 api_mint_Minter_AnnualProvisions (λ v m, mk_api_mint_Minter (api_mint_Minter_Inflation m) v)].
Definition api_mint_Minter_zero : api_mint_Minter := mk_api_mint_Minter "" "".
#[global] Instance api_mint_Minter_spec : PulsarSpec api_mint_Minter_fields api_mint_Minter_zero.
Proof. pulsar_spec. Defined.
Definition api_mint_Minter_reflect : list (RField I api_mint_Minter) := [
  r_string "xion.mint.v1.Minter.inflation" api_mint_Minter_Inflation (λ v m, mk_api_mint_Minter v
    (api_mint_Minter_AnnualProvisions m));
  r_string "xion.mint.v1.Minter.annual_provisions" api_mint_Minter_AnnualProvisions (λ v m, mk_api_mint_Minter
    (api_mint_Minter_Inflation m) v)].
#[global] Instance api_mint_Minter_reflect_spec : ReflectSpec api_mint_Minter_reflect api_mint_Minter_zero.
Proof. reflect_spec. Defined.
Definition to_api_mint_Minter (m : Minter) : api_mint_Minter := mk_api_mint_Minter (of_bytes (cc_enc (Inflation m)))
  (of_bytes (cc_enc (AnnualProvisions m))).
#[global] Instance api_mint_Minter_agrees : MessageAgrees (mint_Minter_fields dec_codec) mint_Minter_zero
  api_mint_Minter_fields api_mint_Minter_zero to_api_mint_Minter.
Proof. message_agree. Defined.

Definition api_mint_Params_fields : list (Field api_mint_Params) := [
  pl_string_field 1 api_mint_Params_MintDenom (λ v m, mk_api_mint_Params v (api_mint_Params_InflationRateChange m)
    (api_mint_Params_InflationMax m) (api_mint_Params_InflationMin m) (api_mint_Params_GoalBonded m)
    (api_mint_Params_BlocksPerYear m));
  pl_string_field 2 api_mint_Params_InflationRateChange (λ v m, mk_api_mint_Params (api_mint_Params_MintDenom m) v
    (api_mint_Params_InflationMax m) (api_mint_Params_InflationMin m) (api_mint_Params_GoalBonded m)
    (api_mint_Params_BlocksPerYear m));
  pl_string_field 3 api_mint_Params_InflationMax (λ v m, mk_api_mint_Params (api_mint_Params_MintDenom m)
    (api_mint_Params_InflationRateChange m) v (api_mint_Params_InflationMin m) (api_mint_Params_GoalBonded m)
    (api_mint_Params_BlocksPerYear m));
  pl_string_field 4 api_mint_Params_InflationMin (λ v m, mk_api_mint_Params (api_mint_Params_MintDenom m)
    (api_mint_Params_InflationRateChange m) (api_mint_Params_InflationMax m) v (api_mint_Params_GoalBonded m)
    (api_mint_Params_BlocksPerYear m));
  pl_string_field 5 api_mint_Params_GoalBonded (λ v m, mk_api_mint_Params (api_mint_Params_MintDenom m)
    (api_mint_Params_InflationRateChange m) (api_mint_Params_InflationMax m) (api_mint_Params_InflationMin m) v
    (api_mint_Params_BlocksPerYear m));
  pl_int_field id 6 api_mint_Params_BlocksPerYear (λ v m, mk_api_mint_Params (api_mint_Params_MintDenom m)
    (api_mint_Params_InflationRateChange m) (api_mint_Params_InflationMax m) (api_mint_Params_InflationMin m)
    (api_mint_Params_GoalBonded m) v)].
Definition api_mint_Params_zero : api_mint_Params := mk_api_mint_Params "" "" "" "" "" 0.
#[global] Instance api_mint_Params_spec : PulsarSpec api_mint_Params_fields api_mint_Params_zero.
Proof. pulsar_spec. Defined.
Definition api_mint_Params_reflect : list (RField I api_mint_Params) := [
  r_string "xion.mint.v1.Params.mint_denom" api_mint_Params_MintDenom (λ v m, mk_api_mint_Params v
    (api_mint_Params_InflationRateChange m) (api_mint_Params_InflationMax m) (api_mint_Params_InflationMin m)
    (api_mint_Params_GoalBonded m) (api_mint_Params_BlocksPerYear m));
  r_string "xion.mint.v1.Params.inflation_rate_change" api_mint_Params_InflationRateChange (λ v m, mk_api_mint_Params
    (api_mint_Params_MintDenom m) v (api_mint_Params_InflationMax m) (api_mint_Params_InflationMin m)
    (api_mint_Params_GoalBonded m) (api_mint_Params_BlocksPerYear m));
  r_string "xion.mint.v1.Params.inflation_max" api_mint_Params_InflationMax (λ v m, mk_api_mint_Params
    (api_mint_Params_MintDenom m) (api_mint_Params_InflationRateChange m) v (api_mint_Params_InflationMin m)
    (api_mint_Params_GoalBonded m) (api_mint_Params_BlocksPerYear m));
  r_string "xion.mint.v1.Params.inflation_min" api_mint_Params_InflationMin (λ v m, mk_api_mint_Params
    (api_mint_Params_MintDenom m) (api_mint_Params_InflationRateChange m) (api_mint_Params_InflationMax m) v
    (api_mint_Params_GoalBonded m) (api_mint_Params_BlocksPerYear m));
  r_string "xion.mint.v1.Params.goal_bonded" api_mint_Params_GoalBonded (λ v m, mk_api_mint_Params
    (api_mint_Params_MintDenom m) (api_mint_Params_InflationRateChange m) (api_mint_Params_InflationMax m)
    (api_mint_Params_InflationMin m) v (api_mint_Params_BlocksPerYear m));
  r_uint64 "xion.mint.v1.Params.blocks_per_year" api_mint_Params_BlocksPerYear (λ v m, mk_api_mint_Params
    (api_mint_Params_MintDenom m) (api_mint_Params_InflationRateChange m) (api_mint_Params_InflationMax m)
    (api_mint_Params_InflationMin m) (api_mint_Params_GoalBonded m) v)].
#[global] Instance api_mint_Params_reflect_spec : ReflectSpec api_mint_Params_reflect api_mint_Params_zero.
Proof. reflect_spec. Defined.
Definition to_api_mint_Params (m : MintParams) : api_mint_Params := mk_api_mint_Params (MintDenom m)
  (of_bytes (cc_enc (InflationRateChange m))) (of_bytes (cc_enc (InflationMax m)))
  (of_bytes (cc_enc (InflationMin m))) (of_bytes (cc_enc (GoalBonded m))) (BlocksPerYear m).
#[global] Instance api_mint_Params_agrees : MessageAgrees (mint_Params_fields dec_codec) mint_Params_zero
  api_mint_Params_fields api_mint_Params_zero to_api_mint_Params.
Proof. message_agree. Defined.

(** ** [api/xion/mint/v1/genesis.pulsar.go] *)
Definition api_mint_GenesisState_fields : list (Field api_mint_GenesisState) := [
  pl_pointer_field (ProtoMethods api_mint_Minter_fields) (fresh api_mint_Minter_zero) 1 api_mint_GenesisState_Minter
    (λ v m, mk_api_mint_GenesisState v (api_mint_GenesisState_Params m));
  pl_pointer_field (ProtoMethods api_mint_Params_fields) (fresh api_mint_Params_zero) 2 api_mint_GenesisState_Params
    (λ v m, mk_api_mint_GenesisState (api_mint_GenesisState_Minter m) v)].
Definition api_mint_GenesisState_zero : api_mint_GenesisState := mk_api_mint_GenesisState None None.
#[global] Instance api_mint_GenesisState_spec : PulsarSpec api_mint_GenesisState_fields api_mint_GenesisState_zero.
Proof. pulsar_spec. Defined.
Definition api_mint_GenesisState_reflect : list (RField I api_mint_GenesisState) := [
  r_message (fresh api_mint_Minter_zero) "xion.mint.v1.GenesisState.minter" api_mint_GenesisState_Minter (λ v m,
    mk_api_mint_GenesisState v (api_mint_GenesisState_Params m));
  r_message (fresh api_mint_Params_zero) "xion.mint.v1.GenesisState.params" api_mint_GenesisState_Params (λ v m,
    mk_api_mint_GenesisState (api_mint_GenesisState_Minter m) v)].
#[global] Instance api_mint_GenesisState_reflect_spec : ReflectSpec api_mint_GenesisState_reflect
  api_mint_GenesisState_zero.
Proof. reflect_spec. Defined.
Definition to_api_mint_GenesisState (m : MintGenesis) : api_mint_GenesisState := mk_api_mint_GenesisState
  (Some ((api to_api_mint_Minter) (mg_Minter m))) (Some ((api to_api_mint_Params) (mg_Params m))).
#[global] Instance api_mint_GenesisState_agrees : MessageAgrees (mint_GenesisState_fields dec_codec)
  mint_GenesisState_zero api_mint_GenesisState_fields api_mint_GenesisState_zero to_api_mint_GenesisState.
Proof. message_agree. Defined.

(** ** [api/xion/mint/v1/query.pulsar.go] *)
Definition api_mint_QueryParamsResponse_fields : list (Field api_mint_QueryParamsResponse) := [
  pl_pointer_field (ProtoMethods api_mint_Params_fields) (fresh api_mint_Params_zero) 1
    api_mint_QueryParamsResponse_Params (λ v _, mk_api_mint_QueryParamsResponse v)].
Definition api_mint_QueryParamsResponse_zero : api_mint_QueryParamsResponse := mk_api_mint_QueryParamsResponse None.
#[global] Instance api_mint_QueryParamsResponse_spec : PulsarSpec api_mint_QueryParamsResponse_fields api_mint_QueryParamsResponse_zero.
Proof. pulsar_spec. Defined.
Definition api_mint_QueryParamsResponse_reflect : list (RField I api_mint_QueryParamsResponse) := [
  r_message (fresh api_mint_Params_zero) "xion.mint.v1.QueryParamsResponse.params" api_mint_QueryParamsResponse_Params
    (λ v _, mk_api_mint_QueryParamsResponse v)].
#[global] Instance api_mint_QueryParamsResponse_reflect_spec : ReflectSpec api_mint_QueryParamsResponse_reflect
  api_mint_QueryParamsResponse_zero.
Proof. reflect_spec. Defined.
Definition to_api_mint_QueryParamsResponse (m : mint_QueryParamsResponse) : api_mint_QueryParamsResponse :=
  mk_api_mint_QueryParamsResponse (Some ((api to_api_mint_Params) (mint_QueryParamsResponse_Params m))).
#[global] Instance api_mint_QueryParamsResponse_agrees : MessageAgrees (mint_QueryParamsResponse_fields dec_codec)
  mint_QueryParamsResponse_zero api_mint_QueryParamsResponse_fields api_mint_QueryParamsResponse_zero
  to_api_mint_QueryParamsResponse.
Proof. message_agree. Defined.

Definition api_mint_QueryInflationResponse_fields : list (Field api_mint_QueryInflationResponse) := [
  pl_string_field 1 api_mint_QueryInflationResponse_Inflation (λ v _, mk_api_mint_QueryInflationResponse v)].
Definition api_mint_QueryInflationResponse_zero : api_mint_QueryInflationResponse := mk_api_mint_QueryInflationResponse "".
#[global] Instance api_mint_QueryInflationResponse_spec : PulsarSpec api_mint_QueryInflationResponse_fields api_mint_QueryInflationResponse_zero.
Proof. pulsar_spec. Defined.
Definition api_mint_QueryInflationResponse_reflect : list (RField I api_mint_QueryInflationResponse) := [
  r_bytes "xion.mint.v1.QueryInflationResponse.inflation" api_mint_QueryInflationResponse_Inflation (λ v _,
    mk_api_mint_QueryInflationResponse v)].
#[global] Instance api_mint_QueryInflationResponse_reflect_spec : ReflectSpec api_mint_QueryInflationResponse_reflect
  api_mint_QueryInflationResponse_zero.
Proof. reflect_spec. Defined.
Definition to_api_mint_QueryInflationResponse (m : mint_QueryInflationResponse) : api_mint_QueryInflationResponse :=
  mk_api_mint_QueryInflationResponse (of_bytes (cc_enc (mint_QueryInflationResponse_Inflation m))).
#[global] Instance api_mint_QueryInflationResponse_agrees : MessageAgrees
  (mint_QueryInflationResponse_fields dec_codec) mint_QueryInflationResponse_zero
  api_mint_QueryInflationResponse_fields api_mint_QueryInflationResponse_zero to_api_mint_QueryInflationResponse.
Proof. message_agree. Defined.

Definition api_mint_QueryAnnualProvisionsResponse_fields : list (Field api_mint_QueryAnnualProvisionsResponse) := [
  pl_string_field 1 api_mint_QueryAnnualProvisionsResponse_AnnualProvisions (λ v _,
    mk_api_mint_QueryAnnualProvisionsResponse v)].
Definition api_mint_QueryAnnualProvisionsResponse_zero : api_mint_QueryAnnualProvisionsResponse := mk_api_mint_QueryAnnualProvisionsResponse "".
#[global] Instance api_mint_QueryAnnualProvisionsResponse_spec : PulsarSpec api_mint_QueryAnnualProvisionsResponse_fields api_mint_QueryAnnualProvisionsResponse_zero.
Proof. pulsar_spec. Defined.
Definition api_mint_QueryAnnualProvisionsResponse_reflect : list (RField I api_mint_QueryAnnualProvisionsResponse) := [
  r_bytes "xion.mint.v1.QueryAnnualProvisionsResponse.annual_provisions"
    api_mint_QueryAnnualProvisionsResponse_AnnualProvisions (λ v _, mk_api_mint_QueryAnnualProvisionsResponse v)].
#[global] Instance api_mint_QueryAnnualProvisionsResponse_reflect_spec : ReflectSpec
  api_mint_QueryAnnualProvisionsResponse_reflect api_mint_QueryAnnualProvisionsResponse_zero.
Proof. reflect_spec. Defined.
Definition to_api_mint_QueryAnnualProvisionsResponse (m : mint_QueryAnnualProvisionsResponse) :
  api_mint_QueryAnnualProvisionsResponse := mk_api_mint_QueryAnnualProvisionsResponse
  (of_bytes (cc_enc (mint_QueryAnnualProvisionsResponse_AnnualProvisions m))).
#[global] Instance api_mint_QueryAnnualProvisionsResponse_agrees : MessageAgrees
  (mint_QueryAnnualProvisionsResponse_fields dec_codec) mint_QueryAnnualProvisionsResponse_zero
  api_mint_QueryAnnualProvisionsResponse_fields api_mint_QueryAnnualProvisionsResponse_zero
  to_api_mint_QueryAnnualProvisionsResponse.
Proof. message_agree. Defined.

(** ** [api/xion/mint/v1/tx.pulsar.go] *)
Definition api_mint_MsgUpdateParams_fields : list (Field api_mint_MsgUpdateParams) := [
  pl_string_field 1 api_mint_MsgUpdateParams_Authority (λ v m, mk_api_mint_MsgUpdateParams v
    (api_mint_MsgUpdateParams_Params m));
  pl_pointer_field (ProtoMethods api_mint_Params_fields) (fresh api_mint_Params_zero) 2
    api_mint_MsgUpdateParams_Params (λ v m, mk_api_mint_MsgUpdateParams (api_mint_MsgUpdateParams_Authority m) v)].
Definition api_mint_MsgUpdateParams_zero : api_mint_MsgUpdateParams := mk_api_mint_MsgUpdateParams "" None.
#[global] Instance api_mint_MsgUpdateParams_spec : PulsarSpec api_mint_MsgUpdateParams_fields api_mint_MsgUpdateParams_zero.
Proof. pulsar_spec. Defined.
Definition api_mint_MsgUpdateParams_reflect : list (RField I api_mint_MsgUpdateParams) := [
  r_string "xion.mint.v1.MsgUpdateParams.authority" api_mint_MsgUpdateParams_Authority (λ v m,
    mk_api_mint_MsgUpdateParams v (api_mint_MsgUpdateParams_Params m));
  r_message (fresh api_mint_Params_zero) "xion.mint.v1.MsgUpdateParams.params" api_mint_MsgUpdateParams_Params (λ v m,
    mk_api_mint_MsgUpdateParams (api_mint_MsgUpdateParams_Authority m) v)].
#[global] Instance api_mint_MsgUpdateParams_reflect_spec : ReflectSpec api_mint_MsgUpdateParams_reflect
  api_mint_MsgUpdateParams_zero.
Proof. reflect_spec. Defined.
Definition to_api_mint_MsgUpdateParams (m : MsgUpdateMintParams) : api_mint_MsgUpdateParams :=
  mk_api_mint_MsgUpdateParams (um_Authority m) (Some ((api to_api_mint_Params) (um_Params m))).
#[global] Instance api_mint_MsgUpdateParams_agrees : MessageAgrees (mint_MsgUpdateParams_fields dec_codec)
  mint_MsgUpdateParams_zero api_mint_MsgUpdateParams_fields api_mint_MsgUpdateParams_zero to_api_mint_MsgUpdateParams.
Proof. message_agree. Defined.

(** ** The message types *)
Definition api_mint_messages : list (ApiMessage I) := [
  api_message globalfee_Params_fields globalfee_Params_zero api_globalfee_Params_fields api_globalfee_Params_zero api_globalfee_Params_reflect to_api_globalfee_Params;
  api_message globalfee_GenesisState_fields globalfee_GenesisState_zero api_globalfee_GenesisState_fields api_globalfee_GenesisState_zero api_globalfee_GenesisState_reflect to_api_globalfee_GenesisState;
  api_message globalfee_QueryParamsResponse_fields globalfee_QueryParamsResponse_zero api_globalfee_QueryParamsResponse_fields api_globalfee_QueryParamsResponse_zero api_globalfee_QueryParamsResponse_reflect to_api_globalfee_QueryParamsResponse;
  api_message (mint_MintIncentiveTokens_fields dec_codec) mint_MintIncentiveTokens_zero api_mint_MintIncentiveTokens_fields api_mint_MintIncentiveTokens_zero api_mint_MintIncentiveTokens_reflect to_api_mint_MintIncentiveTokens;
  api_message (mint_Minter_fields dec_codec) mint_Minter_zero api_mint_Minter_fields api_mint_Minter_zero api_mint_Minter_reflect to_api_mint_Minter;
  api_message (mint_Params_fields dec_codec) mint_Params_zero api_mint_Params_fields api_mint_Params_zero api_mint_Params_reflect to_api_mint_Params;
  api_message (mint_GenesisState_fields dec_codec) mint_GenesisState_zero api_mint_GenesisState_fields api_mint_GenesisState_zero api_mint_GenesisState_reflect to_api_mint_GenesisState;
  api_message (mint_QueryParamsResponse_fields dec_codec) mint_QueryParamsResponse_zero api_mint_QueryParamsResponse_fields api_mint_QueryParamsResponse_zero api_mint_QueryParamsResponse_reflect to_api_mint_QueryParamsResponse;
  api_message (mint_QueryInflationResponse_fields dec_codec) mint_QueryInflationResponse_zero api_mint_QueryInflationResponse_fields api_mint_QueryInflationResponse_zero api_mint_QueryInflationResponse_reflect to_api_mint_QueryInflationResponse;
  api_message (mint_QueryAnnualProvisionsResponse_fields dec_codec) mint_QueryAnnualProvisionsResponse_zero api_mint_QueryAnnualProvisionsResponse_fields api_mint_QueryAnnualProvisionsResponse_zero api_mint_QueryAnnualProvisionsResponse_reflect to_api_mint_QueryAnnualProvisionsResponse;
  api_message (mint_MsgUpdateParams_fields dec_codec) mint_MsgUpdateParams_zero api_mint_MsgUpdateParams_fields api_mint_MsgUpdateParams_zero api_mint_MsgUpdateParams_reflect to_api_mint_MsgUpdateParams
  ].

Lemma api_mint_messages_ok : Forall api_message_ok api_mint_messages.
Proof. api_messages_ok. Qed.

(** ** The lists *)
Definition api_mint_lists : list (ApiList I) := [ mkApiList api_globalfee_Params_1_list;
  mkApiList api_globalfee_Params_2_list ].
Lemma api_mint_lists_ok : Forall api_list_ok api_mint_lists.
Proof. repeat (apply List.Forall_cons; [apply api_list_is_ok; apply _|]). apply List.Forall_nil. Qed.
End api.
