(* ===== verification/ApiFeeAbs.v ===== *)
(** * src/api/xion/feeabs: the messages

    As the [Proto] file of the module, for the second set of messages: the fields of every
    message for [ProtoMethods] and for reflection, and its agreement with the message of the
    first set. *)

From S2P Require Import Prelude GoStd ProtoWire ProtoCodec PulsarWire PulsarCodec PulsarReflect PulsarLists PulsarAgree.
From S2P Require Import Sdk SdkModel FeeAbs ProtoFeeAbs.

Section api.
Context {I : Type} `{Rt : !PulsarRuntime, Op : !ProtoOptions, RtL : !PulsarRuntimeLaws, OpL : !ProtoOptionsLaws}.
Context `{ICoin : !ImportedMsg Coin}.
Context `{LCoin : !ImportedLaws Coin}.
Context (dec_codec : CustomCodec LegacyDec) `{Sdec_codec : !CustomCodecSpec dec_codec, Tdec : !CustomText dec_codec}.
Context (time_codec : CustomCodec Z) `{Stime_codec : !CustomCodecSpec time_codec}.
Context (duration_codec : CustomCodec Z) `{Sduration_codec : !CustomCodecSpec duration_codec}.
(** The message types of the dependencies in this set, and the counterparts of values *)
Context {Coin_api Timestamp_api Duration_api : Type} `{IACoin : !ImportedApi Coin_api,
  IATimestamp : !ImportedApi Timestamp_api, IADuration : !ImportedApi Duration_api}.
Context `{LACoin : !ImportedApiLaws Coin_api, LATimestamp : !ImportedApiLaws Timestamp_api,
  LADuration : !ImportedApiLaws Duration_api}.
Context (Coin_conv : Coin → Coin_api) (Timestamp_conv : Z → Timestamp_api) (Duration_conv : Z → Duration_api).
Context `{CACoin : !CodecAgrees im_codec im_zero ia_methods ia_zero Coin_conv,
  CATimestamp : !CustomAgrees time_codec ia_methods ia_zero Timestamp_conv,
  CADuration : !CustomAgrees duration_codec ia_methods ia_zero Duration_conv}.

(** ** Data: the fields that are known *)
Record api_feeabs_EpochInfo := mk_api_feeabs_EpochInfo { api_feeabs_EpochInfo_Identifier : string;
  api_feeabs_EpochInfo_StartTime : option Timestamp_api; api_feeabs_EpochInfo_Duration : option Duration_api;
  api_feeabs_EpochInfo_CurrentEpoch : Z; api_feeabs_EpochInfo_CurrentEpochStartTime : option Timestamp_api;
  api_feeabs_EpochInfo_EpochCountingStarted : bool; api_feeabs_EpochInfo_CurrentEpochStartHeight : Z }.
Record api_feeabs_ExponentialBackoff := mk_api_feeabs_ExponentialBackoff { api_feeabs_ExponentialBackoff_Jump : Z;
  api_feeabs_ExponentialBackoff_FutureEpoch : Z }.
Record api_feeabs_Params := mk_api_feeabs_Params { api_feeabs_Params_NativeIbcedInOsmosis : string;
  api_feeabs_Params_OsmosisQueryTwapPath : string; api_feeabs_Params_ChainName : string;
  api_feeabs_Params_IbcTransferChannel : string; api_feeabs_Params_IbcQueryIcqChannel : string;
  api_feeabs_Params_OsmosisCrosschainSwapAddress : string }.
Record api_feeabs_GenesisState := mk_api_feeabs_GenesisState {
  api_feeabs_GenesisState_Params : option (Pulsar api_feeabs_Params);
  api_feeabs_GenesisState_Epochs : list (Pulsar api_feeabs_EpochInfo); api_feeabs_GenesisState_PortId : string }.
Record api_feeabs_HostChainFeeAbsConfig := mk_api_feeabs_HostChainFeeAbsConfig {
  api_feeabs_HostChainFeeAbsConfig_IbcDenom : string;
  api_feeabs_HostChainFeeAbsConfig_OsmosisPoolTokenDenomIn : string; api_feeabs_HostChainFeeAbsConfig_PoolId : Z;
  api_feeabs_HostChainFeeAbsConfig_Status : Z }.
Record api_feeabs_AddHostZoneProposal := mk_api_feeabs_AddHostZoneProposal {
  api_feeabs_AddHostZoneProposal_Title : string; api_feeabs_AddHostZoneProposal_Description : string;
  api_feeabs_AddHostZoneProposal_HostChainConfig : option (Pulsar api_feeabs_HostChainFeeAbsConfig) }.
Record api_feeabs_DeleteHostZoneProposal := mk_api_feeabs_DeleteHostZoneProposal {
  api_feeabs_DeleteHostZoneProposal_Title : string; api_feeabs_DeleteHostZoneProposal_Description : string;
  api_feeabs_DeleteHostZoneProposal_IbcDenom : string }.
Record api_feeabs_SetHostZoneProposal := mk_api_feeabs_SetHostZoneProposal {
  api_feeabs_SetHostZoneProposal_Title : string; api_feeabs_SetHostZoneProposal_Description : string;
  api_feeabs_SetHostZoneProposal_HostChainConfig : option (Pulsar api_feeabs_HostChainFeeAbsConfig) }.
Record api_feeabs_QueryHostChainConfigRequest := mk_api_feeabs_QueryHostChainConfigRequest {
  api_feeabs_QueryHostChainConfigRequest_IbcDenom : string }.
Record api_feeabs_QueryHostChainConfigResponse := mk_api_feeabs_QueryHostChainConfigResponse {
  api_feeabs_QueryHostChainConfigResponse_HostChainConfig : option (Pulsar api_feeabs_HostChainFeeAbsConfig) }.
Record api_feeabs_QueryOsmosisArithmeticTwapRequest := mk_api_feeabs_QueryOsmosisArithmeticTwapRequest {
  api_feeabs_QueryOsmosisArithmeticTwapRequest_IbcDenom : string }.
Record api_feeabs_QueryOsmosisArithmeticTwapResponse := mk_api_feeabs_QueryOsmosisArithmeticTwapResponse {
  api_feeabs_QueryOsmosisArithmeticTwapResponse_ArithmeticTwap : string }.
Record api_feeabs_QueryFeeabsModuleBalancesResponse := mk_api_feeabs_QueryFeeabsModuleBalancesResponse {
  api_feeabs_QueryFeeabsModuleBalancesResponse_Balances : list Coin_api;
  api_feeabs_QueryFeeabsModuleBalancesResponse_Address : string }.
Record api_feeabs_QueryAllHostChainConfigResponse := mk_api_feeabs_QueryAllHostChainConfigResponse {
  api_feeabs_QueryAllHostChainConfigResponse_AllHostChainConfig : list (Pulsar api_feeabs_HostChainFeeAbsConfig) }.
Record api_feeabs_MsgFundFeeAbsModuleAccount := mk_api_feeabs_MsgFundFeeAbsModuleAccount {
  api_feeabs_MsgFundFeeAbsModuleAccount_Sender : string; api_feeabs_MsgFundFeeAbsModuleAccount_Amount : list Coin_api
  }.
Record api_feeabs_MsgSendQueryIbcDenomTWAP := mk_api_feeabs_MsgSendQueryIbcDenomTWAP {
  api_feeabs_MsgSendQueryIbcDenomTWAP_Sender : string }.
Record api_feeabs_MsgSwapCrossChain := mk_api_feeabs_MsgSwapCrossChain { api_feeabs_MsgSwapCrossChain_Sender : string;
  api_feeabs_MsgSwapCrossChain_IbcDenom : string }.
Record api_feeabs_MsgUpdateParams := mk_api_feeabs_MsgUpdateParams { api_feeabs_MsgUpdateParams_Authority : string;
  api_feeabs_MsgUpdateParams_Params : option (Pulsar api_feeabs_Params) }.
Record api_feeabs_MsgAddHostZone := mk_api_feeabs_MsgAddHostZone { api_feeabs_MsgAddHostZone_Authority : string;
  api_feeabs_MsgAddHostZone_HostChainConfig : option (Pulsar api_feeabs_HostChainFeeAbsConfig) }.
Record api_feeabs_MsgUpdateHostZone := mk_api_feeabs_MsgUpdateHostZone {
  api_feeabs_MsgUpdateHostZone_Authority : string;
  api_feeabs_MsgUpdateHostZone_HostChainConfig : option (Pulsar api_feeabs_HostChainFeeAbsConfig) }.
Record api_feeabs_MsgRemoveHostZone := mk_api_feeabs_MsgRemoveHostZone {
  api_feeabs_MsgRemoveHostZone_Authority : string; api_feeabs_MsgRemoveHostZone_IbcDenom : string }.

Context `{!GoPointer I Timestamp_api, !GoPointer I Duration_api, !GoPointer I (Pulsar api_feeabs_Params),
  !GoPointer I (Pulsar api_feeabs_EpochInfo), !GoPointer I (Pulsar api_feeabs_HostChainFeeAbsConfig),
  !GoPointer I Coin_api}.

(** ** [api/xion/feeabs/v1beta1/epoch.pulsar.go] *)
Definition api_feeabs_EpochInfo_fields : list (Field api_feeabs_EpochInfo) := [
  pl_string_field 1 api_feeabs_EpochInfo_Identifier (λ v m, mk_api_feeabs_EpochInfo v (api_feeabs_EpochInfo_StartTime
    m) (api_feeabs_EpochInfo_Duration m) (api_feeabs_EpochInfo_CurrentEpoch m)
    (api_feeabs_EpochInfo_CurrentEpochStartTime m) (api_feeabs_EpochInfo_EpochCountingStarted m)
    (api_feeabs_EpochInfo_CurrentEpochStartHeight m));
  pl_pointer_field ia_methods ia_zero 2 api_feeabs_EpochInfo_StartTime (λ v m, mk_api_feeabs_EpochInfo
    (api_feeabs_EpochInfo_Identifier m) v (api_feeabs_EpochInfo_Duration m) (api_feeabs_EpochInfo_CurrentEpoch m)
    (api_feeabs_EpochInfo_CurrentEpochStartTime m) (api_feeabs_EpochInfo_EpochCountingStarted m)
    (api_feeabs_EpochInfo_CurrentEpochStartHeight m));
  pl_pointer_field ia_methods ia_zero 3 api_feeabs_EpochInfo_Duration (λ v m, mk_api_feeabs_EpochInfo
    (api_feeabs_EpochInfo_Identifier m) (api_feeabs_EpochInfo_StartTime m) v (api_feeabs_EpochInfo_CurrentEpoch m)
    (api_feeabs_EpochInfo_CurrentEpochStartTime m) (api_feeabs_EpochInfo_EpochCountingStarted m)
    (api_feeabs_EpochInfo_CurrentEpochStartHeight m));
  pl_int_field i64 4 api_feeabs_EpochInfo_CurrentEpoch (λ v m, mk_api_feeabs_EpochInfo
    (api_feeabs_EpochInfo_Identifier m) (api_feeabs_EpochInfo_StartTime m) (api_feeabs_EpochInfo_Duration m) v
    (api_feeabs_EpochInfo_CurrentEpochStartTime m) (api_feeabs_EpochInfo_EpochCountingStarted m)
    (api_feeabs_EpochInfo_CurrentEpochStartHeight m));
  pl_pointer_field ia_methods ia_zero 5 api_feeabs_EpochInfo_CurrentEpochStartTime (λ v m, mk_api_feeabs_EpochInfo
    (api_feeabs_EpochInfo_Identifier m) (api_feeabs_EpochInfo_StartTime m) (api_feeabs_EpochInfo_Duration m)
    (api_feeabs_EpochInfo_CurrentEpoch m) v (api_feeabs_EpochInfo_EpochCountingStarted m)
    (api_feeabs_EpochInfo_CurrentEpochStartHeight m));
  pl_bool_field 6 api_feeabs_EpochInfo_EpochCountingStarted (λ v m, mk_api_feeabs_EpochInfo
    (api_feeabs_EpochInfo_Identifier m) (api_feeabs_EpochInfo_StartTime m) (api_feeabs_EpochInfo_Duration m)
    (api_feeabs_EpochInfo_CurrentEpoch m) (api_feeabs_EpochInfo_CurrentEpochStartTime m) v
    (api_feeabs_EpochInfo_CurrentEpochStartHeight m));
  pl_int_field i64 8 api_feeabs_EpochInfo_CurrentEpochStartHeight (λ v m, mk_api_feeabs_EpochInfo
    (api_feeabs_EpochInfo_Identifier m) (api_feeabs_EpochInfo_StartTime m) (api_feeabs_EpochInfo_Duration m)
    (api_feeabs_EpochInfo_CurrentEpoch m) (api_feeabs_EpochInfo_CurrentEpochStartTime m)
    (api_feeabs_EpochInfo_EpochCountingStarted m) v)].
Definition api_feeabs_EpochInfo_zero : api_feeabs_EpochInfo := mk_api_feeabs_EpochInfo "" None None 0 None false 0.
#[global] Instance api_feeabs_EpochInfo_spec : PulsarSpec api_feeabs_EpochInfo_fields api_feeabs_EpochInfo_zero.
Proof. pulsar_spec. Defined.
Definition api_feeabs_EpochInfo_reflect : list (RField I api_feeabs_EpochInfo) := [
  r_string "xion.feeabs.v1beta1.EpochInfo.identifier" api_feeabs_EpochInfo_Identifier (λ v m, mk_api_feeabs_EpochInfo
    v (api_feeabs_EpochInfo_StartTime m) (api_feeabs_EpochInfo_Duration m) (api_feeabs_EpochInfo_CurrentEpoch m)
    (api_feeabs_EpochInfo_CurrentEpochStartTime m) (api_feeabs_EpochInfo_EpochCountingStarted m)
    (api_feeabs_EpochInfo_CurrentEpochStartHeight m));
  r_message ia_zero "xion.feeabs.v1beta1.EpochInfo.start_time" api_feeabs_EpochInfo_StartTime (λ v m,
    mk_api_feeabs_EpochInfo (api_feeabs_EpochInfo_Identifier m) v (api_feeabs_EpochInfo_Duration m)
    (api_feeabs_EpochInfo_CurrentEpoch m) (api_feeabs_EpochInfo_CurrentEpochStartTime m)
    (api_feeabs_EpochInfo_EpochCountingStarted m) (api_feeabs_EpochInfo_CurrentEpochStartHeight m));
  r_message ia_zero "xion.feeabs.v1beta1.EpochInfo.duration" api_feeabs_EpochInfo_Duration (λ v m,
    mk_api_feeabs_EpochInfo (api_feeabs_EpochInfo_Identifier m) (api_feeabs_EpochInfo_StartTime m) v
    (api_feeabs_EpochInfo_CurrentEpoch m) (api_feeabs_EpochInfo_CurrentEpochStartTime m)
    (api_feeabs_EpochInfo_EpochCountingStarted m) (api_feeabs_EpochInfo_CurrentEpochStartHeight m));
  r_int64 "xion.feeabs.v1beta1.EpochInfo.current_epoch" api_feeabs_EpochInfo_CurrentEpoch (λ v m,
    mk_api_feeabs_EpochInfo (api_feeabs_EpochInfo_Identifier m) (api_feeabs_EpochInfo_StartTime m)
    (api_feeabs_EpochInfo_Duration m) v (api_feeabs_EpochInfo_CurrentEpochStartTime m)
    (api_feeabs_EpochInfo_EpochCountingStarted m) (api_feeabs_EpochInfo_CurrentEpochStartHeight m));
  r_message ia_zero "xion.feeabs.v1beta1.EpochInfo.current_epoch_start_time"
    api_feeabs_EpochInfo_CurrentEpochStartTime (λ v m, mk_api_feeabs_EpochInfo (api_feeabs_EpochInfo_Identifier m)
    (api_feeabs_EpochInfo_StartTime m) (api_feeabs_EpochInfo_Duration m) (api_feeabs_EpochInfo_CurrentEpoch m) v
    (api_feeabs_EpochInfo_EpochCountingStarted m) (api_feeabs_EpochInfo_CurrentEpochStartHeight m));
  r_bool "xion.feeabs.v1beta1.EpochInfo.epoch_counting_started" api_feeabs_EpochInfo_EpochCountingStarted (λ v m,
    mk_api_feeabs_EpochInfo (api_feeabs_EpochInfo_Identifier m) (api_feeabs_EpochInfo_StartTime m)
    (api_feeabs_EpochInfo_Duration m) (api_feeabs_EpochInfo_CurrentEpoch m)
    (api_feeabs_EpochInfo_CurrentEpochStartTime m) v (api_feeabs_EpochInfo_CurrentEpochStartHeight m));
  r_int64 "xion.feeabs.v1beta1.EpochInfo.current_epoch_start_height" api_feeabs_EpochInfo_CurrentEpochStartHeight (λ v
    m, mk_api_feeabs_EpochInfo (api_feeabs_EpochInfo_Identifier m) (api_feeabs_EpochInfo_StartTime m)
    (api_feeabs_EpochInfo_Duration m) (api_feeabs_EpochInfo_CurrentEpoch m)
    (api_feeabs_EpochInfo_CurrentEpochStartTime m) (api_feeabs_EpochInfo_EpochCountingStarted m) v)].
#[global] Instance api_feeabs_EpochInfo_reflect_spec : ReflectSpec api_feeabs_EpochInfo_reflect
  api_feeabs_EpochInfo_zero.
Proof. reflect_spec. Defined.
Definition to_api_feeabs_EpochInfo (m : EpochInfo) : api_feeabs_EpochInfo := mk_api_feeabs_EpochInfo (ep_Identifier m)
  (Some (Timestamp_conv (ep_StartTime m))) (Some (Duration_conv (ep_Duration m))) (ep_CurrentEpoch m)
  (Some (Timestamp_conv (ep_CurrentEpochStartTime m))) (ep_EpochCountingStarted m) (ep_CurrentEpochStartHeight m).
#[global] Instance api_feeabs_EpochInfo_agrees : MessageAgrees (feeabs_EpochInfo_fields time_codec duration_codec)
  feeabs_EpochInfo_zero api_feeabs_EpochInfo_fields api_feeabs_EpochInfo_zero to_api_feeabs_EpochInfo.
Proof. message_agree. Defined.

Definition api_feeabs_ExponentialBackoff_fields : list (Field api_feeabs_ExponentialBackoff) := [
  pl_int_field i64 1 api_feeabs_ExponentialBackoff_Jump (λ v m, mk_api_feeabs_ExponentialBackoff v
    (api_feeabs_ExponentialBackoff_FutureEpoch m));
  pl_int_field i64 2 api_feeabs_ExponentialBackoff_FutureEpoch (λ v m, mk_api_feeabs_ExponentialBackoff
    (api_feeabs_ExponentialBackoff_Jump m) v)].
Definition api_feeabs_ExponentialBackoff_zero : api_feeabs_ExponentialBackoff := mk_api_feeabs_ExponentialBackoff 0 0.
#[global] Instance api_feeabs_ExponentialBackoff_spec : PulsarSpec api_feeabs_ExponentialBackoff_fields api_feeabs_ExponentialBackoff_zero.
Proof. pulsar_spec. Defined.
Definition api_feeabs_ExponentialBackoff_reflect : list (RField I api_feeabs_ExponentialBackoff) := [
  r_int64 "xion.feeabs.v1beta1.ExponentialBackoff.jump" api_feeabs_ExponentialBackoff_Jump (λ v m,
    mk_api_feeabs_ExponentialBackoff v (api_feeabs_ExponentialBackoff_FutureEpoch m));
  r_int64 "xion.feeabs.v1beta1.ExponentialBackoff.future_epoch" api_feeabs_ExponentialBackoff_FutureEpoch (λ v m,
    mk_api_feeabs_ExponentialBackoff (api_feeabs_ExponentialBackoff_Jump m) v)].
#[global] Instance api_feeabs_ExponentialBackoff_reflect_spec : ReflectSpec api_feeabs_ExponentialBackoff_reflect
  api_feeabs_ExponentialBackoff_zero.
Proof. reflect_spec. Defined.
Definition to_api_feeabs_ExponentialBackoff (m : feeabs_ExponentialBackoff) : api_feeabs_ExponentialBackoff :=
  mk_api_feeabs_ExponentialBackoff (feeabs_ExponentialBackoff_Jump m) (feeabs_ExponentialBackoff_FutureEpoch m).
#[global] Instance api_feeabs_ExponentialBackoff_agrees : MessageAgrees feeabs_ExponentialBackoff_fields
  feeabs_ExponentialBackoff_zero api_feeabs_ExponentialBackoff_fields api_feeabs_ExponentialBackoff_zero
  to_api_feeabs_ExponentialBackoff.
Proof. message_agree. Defined.

(** ** [api/xion/feeabs/v1beta1/params.pulsar.go] *)
Definition api_feeabs_Params_fields : list (Field api_feeabs_Params) := [
  pl_string_field 1 api_feeabs_Params_NativeIbcedInOsmosis (λ v m, mk_api_feeabs_Params v
    (api_feeabs_Params_OsmosisQueryTwapPath m) (api_feeabs_Params_ChainName m) (api_feeabs_Params_IbcTransferChannel
    m) (api_feeabs_Params_IbcQueryIcqChannel m) (api_feeabs_Params_OsmosisCrosschainSwapAddress m));
  pl_string_field 2 api_feeabs_Params_OsmosisQueryTwapPath (λ v m, mk_api_feeabs_Params
    (api_feeabs_Params_NativeIbcedInOsmosis m) v (api_feeabs_Params_ChainName m) (api_feeabs_Params_IbcTransferChannel
    m) (api_feeabs_Params_IbcQueryIcqChannel m) (api_feeabs_Params_OsmosisCrosschainSwapAddress m));
  pl_string_field 3 api_feeabs_Params_ChainName (λ v m, mk_api_feeabs_Params (api_feeabs_Params_NativeIbcedInOsmosis
    m) (api_feeabs_Params_OsmosisQueryTwapPath m) v (api_feeabs_Params_IbcTransferChannel m)
    (api_feeabs_Params_IbcQueryIcqChannel m) (api_feeabs_Params_OsmosisCrosschainSwapAddress m));
  pl_string_field 4 api_feeabs_Params_IbcTransferChannel (λ v m, mk_api_feeabs_Params
    (api_feeabs_Params_NativeIbcedInOsmosis m) (api_feeabs_Params_OsmosisQueryTwapPath m) (api_feeabs_Params_ChainName
    m) v (api_feeabs_Params_IbcQueryIcqChannel m) (api_feeabs_Params_OsmosisCrosschainSwapAddress m));
  pl_string_field 5 api_feeabs_Params_IbcQueryIcqChannel (λ v m, mk_api_feeabs_Params
    (api_feeabs_Params_NativeIbcedInOsmosis m) (api_feeabs_Params_OsmosisQueryTwapPath m) (api_feeabs_Params_ChainName
    m) (api_feeabs_Params_IbcTransferChannel m) v (api_feeabs_Params_OsmosisCrosschainSwapAddress m));
  pl_string_field 6 api_feeabs_Params_OsmosisCrosschainSwapAddress (λ v m, mk_api_feeabs_Params
    (api_feeabs_Params_NativeIbcedInOsmosis m) (api_feeabs_Params_OsmosisQueryTwapPath m) (api_feeabs_Params_ChainName
    m) (api_feeabs_Params_IbcTransferChannel m) (api_feeabs_Params_IbcQueryIcqChannel m) v)].
Definition api_feeabs_Params_zero : api_feeabs_Params := mk_api_feeabs_Params "" "" "" "" "" "".
#[global] Instance api_feeabs_Params_spec : PulsarSpec api_feeabs_Params_fields api_feeabs_Params_zero.
Proof. pulsar_spec. Defined.
Definition api_feeabs_Params_reflect : list (RField I api_feeabs_Params) := [
  r_string "xion.feeabs.v1beta1.Params.native_ibced_in_osmosis" api_feeabs_Params_NativeIbcedInOsmosis (λ v m,
    mk_api_feeabs_Params v (api_feeabs_Params_OsmosisQueryTwapPath m) (api_feeabs_Params_ChainName m)
    (api_feeabs_Params_IbcTransferChannel m) (api_feeabs_Params_IbcQueryIcqChannel m)
    (api_feeabs_Params_OsmosisCrosschainSwapAddress m));
  r_string "xion.feeabs.v1beta1.Params.osmosis_query_twap_path" api_feeabs_Params_OsmosisQueryTwapPath (λ v m,
    mk_api_feeabs_Params (api_feeabs_Params_NativeIbcedInOsmosis m) v (api_feeabs_Params_ChainName m)
    (api_feeabs_Params_IbcTransferChannel m) (api_feeabs_Params_IbcQueryIcqChannel m)
    (api_feeabs_Params_OsmosisCrosschainSwapAddress m));
  r_string "xion.feeabs.v1beta1.Params.chain_name" api_feeabs_Params_ChainName (λ v m, mk_api_feeabs_Params
    (api_feeabs_Params_NativeIbcedInOsmosis m) (api_feeabs_Params_OsmosisQueryTwapPath m) v
    (api_feeabs_Params_IbcTransferChannel m) (api_feeabs_Params_IbcQueryIcqChannel m)
    (api_feeabs_Params_OsmosisCrosschainSwapAddress m));
  r_string "xion.feeabs.v1beta1.Params.ibc_transfer_channel" api_feeabs_Params_IbcTransferChannel (λ v m,
    mk_api_feeabs_Params (api_feeabs_Params_NativeIbcedInOsmosis m) (api_feeabs_Params_OsmosisQueryTwapPath m)
    (api_feeabs_Params_ChainName m) v (api_feeabs_Params_IbcQueryIcqChannel m)
    (api_feeabs_Params_OsmosisCrosschainSwapAddress m));
  r_string "xion.feeabs.v1beta1.Params.ibc_query_icq_channel" api_feeabs_Params_IbcQueryIcqChannel (λ v m,
    mk_api_feeabs_Params (api_feeabs_Params_NativeIbcedInOsmosis m) (api_feeabs_Params_OsmosisQueryTwapPath m)
    (api_feeabs_Params_ChainName m) (api_feeabs_Params_IbcTransferChannel m) v
    (api_feeabs_Params_OsmosisCrosschainSwapAddress m));
  r_string "xion.feeabs.v1beta1.Params.osmosis_crosschain_swap_address" api_feeabs_Params_OsmosisCrosschainSwapAddress
    (λ v m, mk_api_feeabs_Params (api_feeabs_Params_NativeIbcedInOsmosis m) (api_feeabs_Params_OsmosisQueryTwapPath m)
    (api_feeabs_Params_ChainName m) (api_feeabs_Params_IbcTransferChannel m) (api_feeabs_Params_IbcQueryIcqChannel m)
    v)].
#[global] Instance api_feeabs_Params_reflect_spec : ReflectSpec api_feeabs_Params_reflect api_feeabs_Params_zero.
Proof. reflect_spec. Defined.
Definition to_api_feeabs_Params (m : FeeAbsParams) : api_feeabs_Params := mk_api_feeabs_Params
  (fa_NativeIbcedInOsmosis m) (fa_OsmosisQueryTwapPath m) (fa_ChainName m) (fa_IbcTransferChannel m)
  (fa_IbcQueryIcqChannel m) (fa_OsmosisCrosschainSwapAddress m).
#[global] Instance api_feeabs_Params_agrees : MessageAgrees feeabs_Params_fields feeabs_Params_zero
  api_feeabs_Params_fields api_feeabs_Params_zero to_api_feeabs_Params.
Proof. message_agree. Defined.

(** ** [api/xion/feeabs/v1beta1/genesis.pulsar.go] *)
Definition api_feeabs_GenesisState_fields : list (Field api_feeabs_GenesisState) := [
  pl_pointer_field (ProtoMethods api_feeabs_Params_fields) (fresh api_feeabs_Params_zero) 1
    api_feeabs_GenesisState_Params (λ v m, mk_api_feeabs_GenesisState v (api_feeabs_GenesisState_Epochs m)
    (api_feeabs_GenesisState_PortId m));
  pl_messages_field (ProtoMethods api_feeabs_EpochInfo_fields) (fresh api_feeabs_EpochInfo_zero) 2
    api_feeabs_GenesisState_Epochs (λ v m, mk_api_feeabs_GenesisState (api_feeabs_GenesisState_Params m) v
    (api_feeabs_GenesisState_PortId m));
  pl_string_field 3 api_feeabs_GenesisState_PortId (λ v m, mk_api_feeabs_GenesisState (api_feeabs_GenesisState_Params
    m) (api_feeabs_GenesisState_Epochs m) v)].
Definition api_feeabs_GenesisState_zero : api_feeabs_GenesisState := mk_api_feeabs_GenesisState None [] "".
#[global] Instance api_feeabs_GenesisState_spec : PulsarSpec api_feeabs_GenesisState_fields api_feeabs_GenesisState_zero.
Proof. pulsar_spec. Defined.
Definition api_feeabs_GenesisState_reflect : list (RField I api_feeabs_GenesisState) := [
  r_message (fresh api_feeabs_Params_zero) "xion.feeabs.v1beta1.GenesisState.params" api_feeabs_GenesisState_Params (λ
    v m, mk_api_feeabs_GenesisState v (api_feeabs_GenesisState_Epochs m) (api_feeabs_GenesisState_PortId m));
  r_messages "_GenesisState_2_list" "xion.feeabs.v1beta1.GenesisState.epochs" api_feeabs_GenesisState_Epochs (λ v m,
    mk_api_feeabs_GenesisState (api_feeabs_GenesisState_Params m) v (api_feeabs_GenesisState_PortId m));
  r_string "xion.feeabs.v1beta1.GenesisState.port_id" api_feeabs_GenesisState_PortId (λ v m,
    mk_api_feeabs_GenesisState (api_feeabs_GenesisState_Params m) (api_feeabs_GenesisState_Epochs m) v)].
#[global] Instance api_feeabs_GenesisState_reflect_spec : ReflectSpec api_feeabs_GenesisState_reflect
  api_feeabs_GenesisState_zero.
Proof. reflect_spec. Defined.
Definition api_feeabs_GenesisState_2_list : ListKind I (option (Pulsar api_feeabs_EpochInfo)) := message_list (fresh api_feeabs_EpochInfo_zero).
Definition to_api_feeabs_GenesisState (m : FeeAbsGenesis) : api_feeabs_GenesisState := mk_api_feeabs_GenesisState
  (Some ((api to_api_feeabs_Params) (fg_Params m))) ((api to_api_feeabs_EpochInfo) <$> fg_Epochs m) (fg_PortId m).
#[global] Instance api_feeabs_GenesisState_agrees : MessageAgrees
  (feeabs_GenesisState_fields time_codec duration_codec) feeabs_GenesisState_zero api_feeabs_GenesisState_fields
  api_feeabs_GenesisState_zero to_api_feeabs_GenesisState.
Proof. message_agree. Defined.

(** ** [api/xion/feeabs/v1beta1/proposal.pulsar.go] *)
Definition api_feeabs_HostChainFeeAbsConfig_fields : list (Field api_feeabs_HostChainFeeAbsConfig) := [
  pl_string_field 1 api_feeabs_HostChainFeeAbsConfig_IbcDenom (λ v m, mk_api_feeabs_HostChainFeeAbsConfig v
    (api_feeabs_HostChainFeeAbsConfig_OsmosisPoolTokenDenomIn m) (api_feeabs_HostChainFeeAbsConfig_PoolId m)
    (api_feeabs_HostChainFeeAbsConfig_Status m));
  pl_string_field 2 api_feeabs_HostChainFeeAbsConfig_OsmosisPoolTokenDenomIn (λ v m,
    mk_api_feeabs_HostChainFeeAbsConfig (api_feeabs_HostChainFeeAbsConfig_IbcDenom m) v
    (api_feeabs_HostChainFeeAbsConfig_PoolId m) (api_feeabs_HostChainFeeAbsConfig_Status m));
  pl_int_field id 3 api_feeabs_HostChainFeeAbsConfig_PoolId (λ v m, mk_api_feeabs_HostChainFeeAbsConfig
    (api_feeabs_HostChainFeeAbsConfig_IbcDenom m) (api_feeabs_HostChainFeeAbsConfig_OsmosisPoolTokenDenomIn m) v
    (api_feeabs_HostChainFeeAbsConfig_Status m));
  pl_int_field i32 4 api_feeabs_HostChainFeeAbsConfig_Status (λ v m, mk_api_feeabs_HostChainFeeAbsConfig
    (api_feeabs_HostChainFeeAbsConfig_IbcDenom m) (api_feeabs_HostChainFeeAbsConfig_OsmosisPoolTokenDenomIn m)
    (api_feeabs_HostChainFeeAbsConfig_PoolId m) v)].
Definition api_feeabs_HostChainFeeAbsConfig_zero : api_feeabs_HostChainFeeAbsConfig := mk_api_feeabs_HostChainFeeAbsConfig "" "" 0 0.
#[global] Instance api_feeabs_HostChainFeeAbsConfig_spec : PulsarSpec api_feeabs_HostChainFeeAbsConfig_fields api_feeabs_HostChainFeeAbsConfig_zero.
Proof. pulsar_spec. Defined.
Definition api_feeabs_HostChainFeeAbsConfig_reflect : list (RField I api_feeabs_HostChainFeeAbsConfig) := [
  r_string "xion.feeabs.v1beta1.HostChainFeeAbsConfig.ibc_denom" api_feeabs_HostChainFeeAbsConfig_IbcDenom (λ v m,
    mk_api_feeabs_HostChainFeeAbsConfig v (api_feeabs_HostChainFeeAbsConfig_OsmosisPoolTokenDenomIn m)
    (api_feeabs_HostChainFeeAbsConfig_PoolId m) (api_feeabs_HostChainFeeAbsConfig_Status m));
  r_string "xion.feeabs.v1beta1.HostChainFeeAbsConfig.osmosis_pool_token_denom_in"
    api_feeabs_HostChainFeeAbsConfig_OsmosisPoolTokenDenomIn (λ v m, mk_api_feeabs_HostChainFeeAbsConfig
    (api_feeabs_HostChainFeeAbsConfig_IbcDenom m) v (api_feeabs_HostChainFeeAbsConfig_PoolId m)
    (api_feeabs_HostChainFeeAbsConfig_Status m));
  r_uint64 "xion.feeabs.v1beta1.HostChainFeeAbsConfig.pool_id" api_feeabs_HostChainFeeAbsConfig_PoolId (λ v m,
    mk_api_feeabs_HostChainFeeAbsConfig (api_feeabs_HostChainFeeAbsConfig_IbcDenom m)
    (api_feeabs_HostChainFeeAbsConfig_OsmosisPoolTokenDenomIn m) v (api_feeabs_HostChainFeeAbsConfig_Status m));
  r_enum "xion.feeabs.v1beta1.HostChainFeeAbsConfig.status" api_feeabs_HostChainFeeAbsConfig_Status (λ v m,
    mk_api_feeabs_HostChainFeeAbsConfig (api_feeabs_HostChainFeeAbsConfig_IbcDenom m)
    (api_feeabs_HostChainFeeAbsConfig_OsmosisPoolTokenDenomIn m) (api_feeabs_HostChainFeeAbsConfig_PoolId m) v)].
#[global] Instance api_feeabs_HostChainFeeAbsConfig_reflect_spec : ReflectSpec
  api_feeabs_HostChainFeeAbsConfig_reflect api_feeabs_HostChainFeeAbsConfig_zero.
Proof. reflect_spec. Defined.
Definition to_api_feeabs_HostChainFeeAbsConfig (m : feeabs_HostChainFeeAbsConfig) : api_feeabs_HostChainFeeAbsConfig
  := mk_api_feeabs_HostChainFeeAbsConfig (feeabs_HostChainFeeAbsConfig_IbcDenom m)
  (feeabs_HostChainFeeAbsConfig_OsmosisPoolTokenDenomIn m) (feeabs_HostChainFeeAbsConfig_PoolId m)
  (feeabs_HostChainFeeAbsConfig_Status m).
#[global] Instance api_feeabs_HostChainFeeAbsConfig_agrees : MessageAgrees feeabs_HostChainFeeAbsConfig_fields
  feeabs_HostChainFeeAbsConfig_zero api_feeabs_HostChainFeeAbsConfig_fields api_feeabs_HostChainFeeAbsConfig_zero
  to_api_feeabs_HostChainFeeAbsConfig.
Proof. message_agree. Defined.

Definition api_feeabs_AddHostZoneProposal_fields : list (Field api_feeabs_AddHostZoneProposal) := [
  pl_string_field 1 api_feeabs_AddHostZoneProposal_Title (λ v m, mk_api_feeabs_AddHostZoneProposal v
    (api_feeabs_AddHostZoneProposal_Description m) (api_feeabs_AddHostZoneProposal_HostChainConfig m));
  pl_string_field 2 api_feeabs_AddHostZoneProposal_Description (λ v m, mk_api_feeabs_AddHostZoneProposal
    (api_feeabs_AddHostZoneProposal_Title m) v (api_feeabs_AddHostZoneProposal_HostChainConfig m));
  pl_pointer_field (ProtoMethods api_feeabs_HostChainFeeAbsConfig_fields) (fresh
    api_feeabs_HostChainFeeAbsConfig_zero) 3 api_feeabs_AddHostZoneProposal_HostChainConfig (λ v m,
    mk_api_feeabs_AddHostZoneProposal (api_feeabs_AddHostZoneProposal_Title m)
    (api_feeabs_AddHostZoneProposal_Description m) v)].
Definition api_feeabs_AddHostZoneProposal_zero : api_feeabs_AddHostZoneProposal := mk_api_feeabs_AddHostZoneProposal "" "" None.
#[global] Instance api_feeabs_AddHostZoneProposal_spec : PulsarSpec api_feeabs_AddHostZoneProposal_fields api_feeabs_AddHostZoneProposal_zero.
Proof. pulsar_spec. Defined.
Definition api_feeabs_AddHostZoneProposal_reflect : list (RField I api_feeabs_AddHostZoneProposal) := [
  r_string "xion.feeabs.v1beta1.AddHostZoneProposal.title" api_feeabs_AddHostZoneProposal_Title (λ v m,
    mk_api_feeabs_AddHostZoneProposal v (api_feeabs_AddHostZoneProposal_Description m)
    (api_feeabs_AddHostZoneProposal_HostChainConfig m));
  r_string "xion.feeabs.v1beta1.AddHostZoneProposal.description" api_feeabs_AddHostZoneProposal_Description (λ v m,
    mk_api_feeabs_AddHostZoneProposal (api_feeabs_AddHostZoneProposal_Title m) v
    (api_feeabs_AddHostZoneProposal_HostChainConfig m));
  r_message (fresh api_feeabs_HostChainFeeAbsConfig_zero) "xion.feeabs.v1beta1.AddHostZoneProposal.host_chain_config"
    api_feeabs_AddHostZoneProposal_HostChainConfig (λ v m, mk_api_feeabs_AddHostZoneProposal
    (api_feeabs_AddHostZoneProposal_Title m) (api_feeabs_AddHostZoneProposal_Description m) v)].
#[global] Instance api_feeabs_AddHostZoneProposal_reflect_spec : ReflectSpec api_feeabs_AddHostZoneProposal_reflect
  api_feeabs_AddHostZoneProposal_zero.
Proof. reflect_spec. Defined.
Definition to_api_feeabs_AddHostZoneProposal (m : feeabs_AddHostZoneProposal) : api_feeabs_AddHostZoneProposal :=
  mk_api_feeabs_AddHostZoneProposal (feeabs_AddHostZoneProposal_Title m) (feeabs_AddHostZoneProposal_Description m)
  ((api to_api_feeabs_HostChainFeeAbsConfig) <$> feeabs_AddHostZoneProposal_HostChainConfig m).
#[global] Instance api_feeabs_AddHostZoneProposal_agrees : MessageAgrees feeabs_AddHostZoneProposal_fields
  feeabs_AddHostZoneProposal_zero api_feeabs_AddHostZoneProposal_fields api_feeabs_AddHostZoneProposal_zero
  to_api_feeabs_AddHostZoneProposal.
Proof. message_agree. Defined.

Definition api_feeabs_DeleteHostZoneProposal_fields : list (Field api_feeabs_DeleteHostZoneProposal) := [
  pl_string_field 1 api_feeabs_DeleteHostZoneProposal_Title (λ v m, mk_api_feeabs_DeleteHostZoneProposal v
    (api_feeabs_DeleteHostZoneProposal_Description m) (api_feeabs_DeleteHostZoneProposal_IbcDenom m));
  pl_string_field 2 api_feeabs_DeleteHostZoneProposal_Description (λ v m, mk_api_feeabs_DeleteHostZoneProposal
    (api_feeabs_DeleteHostZoneProposal_Title m) v (api_feeabs_DeleteHostZoneProposal_IbcDenom m));
  pl_string_field 3 api_feeabs_DeleteHostZoneProposal_IbcDenom (λ v m, mk_api_feeabs_DeleteHostZoneProposal
    (api_feeabs_DeleteHostZoneProposal_Title m) (api_feeabs_DeleteHostZoneProposal_Description m) v)].
Definition api_feeabs_DeleteHostZoneProposal_zero : api_feeabs_DeleteHostZoneProposal := mk_api_feeabs_DeleteHostZoneProposal "" "" "".
#[global] Instance api_feeabs_DeleteHostZoneProposal_spec : PulsarSpec api_feeabs_DeleteHostZoneProposal_fields api_feeabs_DeleteHostZoneProposal_zero.
Proof. pulsar_spec. Defined.
Definition api_feeabs_DeleteHostZoneProposal_reflect : list (RField I api_feeabs_DeleteHostZoneProposal) := [
  r_string "xion.feeabs.v1beta1.DeleteHostZoneProposal.title" api_feeabs_DeleteHostZoneProposal_Title (λ v m,
    mk_api_feeabs_DeleteHostZoneProposal v (api_feeabs_DeleteHostZoneProposal_Description m)
    (api_feeabs_DeleteHostZoneProposal_IbcDenom m));
  r_string "xion.feeabs.v1beta1.DeleteHostZoneProposal.description" api_feeabs_DeleteHostZoneProposal_Description (λ v
    m, mk_api_feeabs_DeleteHostZoneProposal (api_feeabs_DeleteHostZoneProposal_Title m) v
    (api_feeabs_DeleteHostZoneProposal_IbcDenom m));
  r_string "xion.feeabs.v1beta1.DeleteHostZoneProposal.ibc_denom" api_feeabs_DeleteHostZoneProposal_IbcDenom (λ v m,
    mk_api_feeabs_DeleteHostZoneProposal (api_feeabs_DeleteHostZoneProposal_Title m)
    (api_feeabs_DeleteHostZoneProposal_Description m) v)].
#[global] Instance api_feeabs_DeleteHostZoneProposal_reflect_spec : ReflectSpec
  api_feeabs_DeleteHostZoneProposal_reflect api_feeabs_DeleteHostZoneProposal_zero.
Proof. reflect_spec. Defined.
Definition to_api_feeabs_DeleteHostZoneProposal (m : feeabs_DeleteHostZoneProposal) :
  api_feeabs_DeleteHostZoneProposal := mk_api_feeabs_DeleteHostZoneProposal (feeabs_DeleteHostZoneProposal_Title m)
  (feeabs_DeleteHostZoneProposal_Description m) (feeabs_DeleteHostZoneProposal_IbcDenom m).
#[global] Instance api_feeabs_DeleteHostZoneProposal_agrees : MessageAgrees feeabs_DeleteHostZoneProposal_fields
  feeabs_DeleteHostZoneProposal_zero api_feeabs_DeleteHostZoneProposal_fields api_feeabs_DeleteHostZoneProposal_zero
  to_api_feeabs_DeleteHostZoneProposal.
Proof. message_agree. Defined.

Definition api_feeabs_SetHostZoneProposal_fields : list (Field api_feeabs_SetHostZoneProposal) := [
  pl_string_field 1 api_feeabs_SetHostZoneProposal_Title (λ v m, mk_api_feeabs_SetHostZoneProposal v
    (api_feeabs_SetHostZoneProposal_Description m) (api_feeabs_SetHostZoneProposal_HostChainConfig m));
  pl_string_field 2 api_feeabs_SetHostZoneProposal_Description (λ v m, mk_api_feeabs_SetHostZoneProposal
    (api_feeabs_SetHostZoneProposal_Title m) v (api_feeabs_SetHostZoneProposal_HostChainConfig m));
  pl_pointer_field (ProtoMethods api_feeabs_HostChainFeeAbsConfig_fields) (fresh
    api_feeabs_HostChainFeeAbsConfig_zero) 3 api_feeabs_SetHostZoneProposal_HostChainConfig (λ v m,
    mk_api_feeabs_SetHostZoneProposal (api_feeabs_SetHostZoneProposal_Title m)
    (api_feeabs_SetHostZoneProposal_Description m) v)].
Definition api_feeabs_SetHostZoneProposal_zero : api_feeabs_SetHostZoneProposal := mk_api_feeabs_SetHostZoneProposal "" "" None.
#[global] Instance api_feeabs_SetHostZoneProposal_spec : PulsarSpec api_feeabs_SetHostZoneProposal_fields api_feeabs_SetHostZoneProposal_zero.
Proof. pulsar_spec. Defined.
Definition api_feeabs_SetHostZoneProposal_reflect : list (RField I api_feeabs_SetHostZoneProposal) := [
  r_string "xion.feeabs.v1beta1.SetHostZoneProposal.title" api_feeabs_SetHostZoneProposal_Title (λ v m,
    mk_api_feeabs_SetHostZoneProposal v (api_feeabs_SetHostZoneProposal_Description m)
    (api_feeabs_SetHostZoneProposal_HostChainConfig m));
  r_string "xion.feeabs.v1beta1.SetHostZoneProposal.description" api_feeabs_SetHostZoneProposal_Description (λ v m,
    mk_api_feeabs_SetHostZoneProposal (api_feeabs_SetHostZoneProposal_Title m) v
    (api_feeabs_SetHostZoneProposal_HostChainConfig m));
  r_message (fresh api_feeabs_HostChainFeeAbsConfig_zero) "xion.feeabs.v1beta1.SetHostZoneProposal.host_chain_config"
    api_feeabs_SetHostZoneProposal_HostChainConfig (λ v m, mk_api_feeabs_SetHostZoneProposal
    (api_feeabs_SetHostZoneProposal_Title m) (api_feeabs_SetHostZoneProposal_Description m) v)].
#[global] Instance api_feeabs_SetHostZoneProposal_reflect_spec : ReflectSpec api_feeabs_SetHostZoneProposal_reflect
  api_feeabs_SetHostZoneProposal_zero.
Proof. reflect_spec. Defined.
Definition to_api_feeabs_SetHostZoneProposal (m : feeabs_SetHostZoneProposal) : api_feeabs_SetHostZoneProposal :=
  mk_api_feeabs_SetHostZoneProposal (feeabs_SetHostZoneProposal_Title m) (feeabs_SetHostZoneProposal_Description m)
  ((api to_api_feeabs_HostChainFeeAbsConfig) <$> feeabs_SetHostZoneProposal_HostChainConfig m).
#[global] Instance api_feeabs_SetHostZoneProposal_agrees : MessageAgrees feeabs_SetHostZoneProposal_fields
  feeabs_SetHostZoneProposal_zero api_feeabs_SetHostZoneProposal_fields api_feeabs_SetHostZoneProposal_zero
  to_api_feeabs_SetHostZoneProposal.
Proof. message_agree. Defined.

(** ** [api/xion/feeabs/v1beta1/query.pulsar.go] *)
Definition api_feeabs_QueryHostChainConfigRequest_fields : list (Field api_feeabs_QueryHostChainConfigRequest) := [
  pl_string_field 1 api_feeabs_QueryHostChainConfigRequest_IbcDenom (λ v _, mk_api_feeabs_QueryHostChainConfigRequest
    v)].
Definition api_feeabs_QueryHostChainConfigRequest_zero : api_feeabs_QueryHostChainConfigRequest := mk_api_feeabs_QueryHostChainConfigRequest "".
#[global] Instance api_feeabs_QueryHostChainConfigRequest_spec : PulsarSpec api_feeabs_QueryHostChainConfigRequest_fields api_feeabs_QueryHostChainConfigRequest_zero.
Proof. pulsar_spec. Defined.
Definition api_feeabs_QueryHostChainConfigRequest_reflect : list (RField I api_feeabs_QueryHostChainConfigRequest) := [
  r_string "xion.feeabs.v1beta1.QueryHostChainConfigRequest.ibc_denom" api_feeabs_QueryHostChainConfigRequest_IbcDenom
    (λ v _, mk_api_feeabs_QueryHostChainConfigRequest v)].
#[global] Instance api_feeabs_QueryHostChainConfigRequest_reflect_spec : ReflectSpec
  api_feeabs_QueryHostChainConfigRequest_reflect api_feeabs_QueryHostChainConfigRequest_zero.
Proof. reflect_spec. Defined.
Definition to_api_feeabs_QueryHostChainConfigRequest (m : feeabs_QueryHostChainConfigRequest) :
  api_feeabs_QueryHostChainConfigRequest := mk_api_feeabs_QueryHostChainConfigRequest
  (feeabs_QueryHostChainConfigRequest_IbcDenom m).
#[global] Instance api_feeabs_QueryHostChainConfigRequest_agrees : MessageAgrees
  feeabs_QueryHostChainConfigRequest_fields feeabs_QueryHostChainConfigRequest_zero
  api_feeabs_QueryHostChainConfigRequest_fields api_feeabs_QueryHostChainConfigRequest_zero
  to_api_feeabs_QueryHostChainConfigRequest.
Proof. message_agree. Defined.

Definition api_feeabs_QueryHostChainConfigResponse_fields : list (Field api_feeabs_QueryHostChainConfigResponse) := [
  pl_pointer_field (ProtoMethods api_feeabs_HostChainFeeAbsConfig_fields) (fresh
    api_feeabs_HostChainFeeAbsConfig_zero) 1 api_feeabs_QueryHostChainConfigResponse_HostChainConfig (λ v _,
    mk_api_feeabs_QueryHostChainConfigResponse v)].
Definition api_feeabs_QueryHostChainConfigResponse_zero : api_feeabs_QueryHostChainConfigResponse := mk_api_feeabs_QueryHostChainConfigResponse None.
#[global] Instance api_feeabs_QueryHostChainConfigResponse_spec : PulsarSpec api_feeabs_QueryHostChainConfigResponse_fields api_feeabs_QueryHostChainConfigResponse_zero.
Proof. pulsar_spec. Defined.
Definition api_feeabs_QueryHostChainConfigResponse_reflect : list (RField I api_feeabs_QueryHostChainConfigResponse) := [
  r_message (fresh api_feeabs_HostChainFeeAbsConfig_zero)
    "xion.feeabs.v1beta1.QueryHostChainConfigResponse.host_chain_config"
    api_feeabs_QueryHostChainConfigResponse_HostChainConfig (λ v _, mk_api_feeabs_QueryHostChainConfigResponse v)].
#[global] Instance api_feeabs_QueryHostChainConfigResponse_reflect_spec : ReflectSpec
  api_feeabs_QueryHostChainConfigResponse_reflect api_feeabs_QueryHostChainConfigResponse_zero.
Proof. reflect_spec. Defined.
Definition to_api_feeabs_QueryHostChainConfigResponse (m : feeabs_QueryHostChainConfigResponse) :
  api_feeabs_QueryHostChainConfigResponse := mk_api_feeabs_QueryHostChainConfigResponse
  (Some ((api to_api_feeabs_HostChainFeeAbsConfig) (feeabs_QueryHostChainConfigResponse_HostChainConfig m))).
#[global] Instance api_feeabs_QueryHostChainConfigResponse_agrees : MessageAgrees
  feeabs_QueryHostChainConfigResponse_fields feeabs_QueryHostChainConfigResponse_zero
  api_feeabs_QueryHostChainConfigResponse_fields api_feeabs_QueryHostChainConfigResponse_zero
  to_api_feeabs_QueryHostChainConfigResponse.
Proof. message_agree. Defined.

Definition api_feeabs_QueryOsmosisArithmeticTwapRequest_fields : list (Field api_feeabs_QueryOsmosisArithmeticTwapRequest) := [
  pl_string_field 1 api_feeabs_QueryOsmosisArithmeticTwapRequest_IbcDenom (λ v _,
    mk_api_feeabs_QueryOsmosisArithmeticTwapRequest v)].
Definition api_feeabs_QueryOsmosisArithmeticTwapRequest_zero : api_feeabs_QueryOsmosisArithmeticTwapRequest := mk_api_feeabs_QueryOsmosisArithmeticTwapRequest "".
#[global] Instance api_feeabs_QueryOsmosisArithmeticTwapRequest_spec : PulsarSpec api_feeabs_QueryOsmosisArithmeticTwapRequest_fields api_feeabs_QueryOsmosisArithmeticTwapRequest_zero.
Proof. pulsar_spec. Defined.
Definition api_feeabs_QueryOsmosisArithmeticTwapRequest_reflect : list (RField I api_feeabs_QueryOsmosisArithmeticTwapRequest) := [
  r_string "xion.feeabs.v1beta1.QueryOsmosisArithmeticTwapRequest.ibc_denom"
    api_feeabs_QueryOsmosisArithmeticTwapRequest_IbcDenom (λ v _, mk_api_feeabs_QueryOsmosisArithmeticTwapRequest v)].
#[global] Instance api_feeabs_QueryOsmosisArithmeticTwapRequest_reflect_spec : ReflectSpec
  api_feeabs_QueryOsmosisArithmeticTwapRequest_reflect api_feeabs_QueryOsmosisArithmeticTwapRequest_zero.
Proof. reflect_spec. Defined.
Definition to_api_feeabs_QueryOsmosisArithmeticTwapRequest (m : feeabs_QueryOsmosisArithmeticTwapRequest) :
  api_feeabs_QueryOsmosisArithmeticTwapRequest := mk_api_feeabs_QueryOsmosisArithmeticTwapRequest
  (feeabs_QueryOsmosisArithmeticTwapRequest_IbcDenom m).
#[global] Instance api_feeabs_QueryOsmosisArithmeticTwapRequest_agrees : MessageAgrees
  feeabs_QueryOsmosisArithmeticTwapRequest_fields feeabs_QueryOsmosisArithmeticTwapRequest_zero
  api_feeabs_QueryOsmosisArithmeticTwapRequest_fields api_feeabs_QueryOsmosisArithmeticTwapRequest_zero
  to_api_feeabs_QueryOsmosisArithmeticTwapRequest.
Proof. message_agree. Defined.

Definition api_feeabs_QueryOsmosisArithmeticTwapResponse_fields : list (Field api_feeabs_QueryOsmosisArithmeticTwapResponse) := [
  pl_string_field 1 api_feeabs_QueryOsmosisArithmeticTwapResponse_ArithmeticTwap (λ v _,
    mk_api_feeabs_QueryOsmosisArithmeticTwapResponse v)].
Definition api_feeabs_QueryOsmosisArithmeticTwapResponse_zero : api_feeabs_QueryOsmosisArithmeticTwapResponse := mk_api_feeabs_QueryOsmosisArithmeticTwapResponse "".
#[global] Instance api_feeabs_QueryOsmosisArithmeticTwapResponse_spec : PulsarSpec api_feeabs_QueryOsmosisArithmeticTwapResponse_fields api_feeabs_QueryOsmosisArithmeticTwapResponse_zero.
Proof. pulsar_spec. Defined.
Definition api_feeabs_QueryOsmosisArithmeticTwapResponse_reflect : list (RField I api_feeabs_QueryOsmosisArithmeticTwapResponse) := [
  r_string "xion.feeabs.v1beta1.QueryOsmosisArithmeticTwapResponse.arithmetic_twap"
    api_feeabs_QueryOsmosisArithmeticTwapResponse_ArithmeticTwap (λ v _,
    mk_api_feeabs_QueryOsmosisArithmeticTwapResponse v)].
#[global] Instance api_feeabs_QueryOsmosisArithmeticTwapResponse_reflect_spec : ReflectSpec
  api_feeabs_QueryOsmosisArithmeticTwapResponse_reflect api_feeabs_QueryOsmosisArithmeticTwapResponse_zero.
Proof. reflect_spec. Defined.
Definition to_api_feeabs_QueryOsmosisArithmeticTwapResponse (m : feeabs_QueryOsmosisArithmeticTwapResponse) :
  api_feeabs_QueryOsmosisArithmeticTwapResponse := mk_api_feeabs_QueryOsmosisArithmeticTwapResponse
  (of_bytes (cc_enc (feeabs_QueryOsmosisArithmeticTwapResponse_ArithmeticTwap m))).
#[global] Instance api_feeabs_QueryOsmosisArithmeticTwapResponse_agrees : MessageAgrees
  (feeabs_QueryOsmosisArithmeticTwapResponse_fields dec_codec) feeabs_QueryOsmosisArithmeticTwapResponse_zero
  api_feeabs_QueryOsmosisArithmeticTwapResponse_fields api_feeabs_QueryOsmosisArithmeticTwapResponse_zero
  to_api_feeabs_QueryOsmosisArithmeticTwapResponse.
Proof. message_agree. Defined.

Definition api_feeabs_QueryFeeabsModuleBalancesResponse_fields : list (Field api_feeabs_QueryFeeabsModuleBalancesResponse) := [
  pl_messages_field ia_methods ia_zero 1 api_feeabs_QueryFeeabsModuleBalancesResponse_Balances (λ v m,
    mk_api_feeabs_QueryFeeabsModuleBalancesResponse v (api_feeabs_QueryFeeabsModuleBalancesResponse_Address m));
  pl_string_field 2 api_feeabs_QueryFeeabsModuleBalancesResponse_Address (λ v m,
    mk_api_feeabs_QueryFeeabsModuleBalancesResponse (api_feeabs_QueryFeeabsModuleBalancesResponse_Balances m) v)].
Definition api_feeabs_QueryFeeabsModuleBalancesResponse_zero : api_feeabs_QueryFeeabsModuleBalancesResponse := mk_api_feeabs_QueryFeeabsModuleBalancesResponse [] "".
#[global] Instance api_feeabs_QueryFeeabsModuleBalancesResponse_spec : PulsarSpec api_feeabs_QueryFeeabsModuleBalancesResponse_fields api_feeabs_QueryFeeabsModuleBalancesResponse_zero.
Proof. pulsar_spec. Defined.
Definition api_feeabs_QueryFeeabsModuleBalancesResponse_reflect : list (RField I api_feeabs_QueryFeeabsModuleBalancesResponse) := [
  r_messages "_QueryFeeabsModuleBalancesResponse_1_list"
    "xion.feeabs.v1beta1.QueryFeeabsModuleBalancesResponse.balances"
    api_feeabs_QueryFeeabsModuleBalancesResponse_Balances (λ v m, mk_api_feeabs_QueryFeeabsModuleBalancesResponse v
    (api_feeabs_QueryFeeabsModuleBalancesResponse_Address m));
  r_string "xion.feeabs.v1beta1.QueryFeeabsModuleBalancesResponse.address"
    api_feeabs_QueryFeeabsModuleBalancesResponse_Address (λ v m, mk_api_feeabs_QueryFeeabsModuleBalancesResponse
    (api_feeabs_QueryFeeabsModuleBalancesResponse_Balances m) v)].
#[global] Instance api_feeabs_QueryFeeabsModuleBalancesResponse_reflect_spec : ReflectSpec
  api_feeabs_QueryFeeabsModuleBalancesResponse_reflect api_feeabs_QueryFeeabsModuleBalancesResponse_zero.
Proof. reflect_spec. Defined.
Definition api_feeabs_QueryFeeabsModuleBalancesResponse_1_list : ListKind I (option Coin_api) := message_list ia_zero.
Definition to_api_feeabs_QueryFeeabsModuleBalancesResponse (m : feeabs_QueryFeeabsModuleBalancesResponse) :
  api_feeabs_QueryFeeabsModuleBalancesResponse := mk_api_feeabs_QueryFeeabsModuleBalancesResponse
  (Coin_conv <$> feeabs_QueryFeeabsModuleBalancesResponse_Balances m)
  (feeabs_QueryFeeabsModuleBalancesResponse_Address m).
#[global] Instance api_feeabs_QueryFeeabsModuleBalancesResponse_agrees : MessageAgrees
  feeabs_QueryFeeabsModuleBalancesResponse_fields feeabs_QueryFeeabsModuleBalancesResponse_zero
  api_feeabs_QueryFeeabsModuleBalancesResponse_fields api_feeabs_QueryFeeabsModuleBalancesResponse_zero
  to_api_feeabs_QueryFeeabsModuleBalancesResponse.
Proof. message_agree. Defined.

Definition api_feeabs_QueryAllHostChainConfigResponse_fields : list (Field api_feeabs_QueryAllHostChainConfigResponse) := [
  pl_messages_field (ProtoMethods api_feeabs_HostChainFeeAbsConfig_fields) (fresh
    api_feeabs_HostChainFeeAbsConfig_zero) 1 api_feeabs_QueryAllHostChainConfigResponse_AllHostChainConfig (λ v _,
    mk_api_feeabs_QueryAllHostChainConfigResponse v)].
Definition api_feeabs_QueryAllHostChainConfigResponse_zero : api_feeabs_QueryAllHostChainConfigResponse := mk_api_feeabs_QueryAllHostChainConfigResponse [].
#[global] Instance api_feeabs_QueryAllHostChainConfigResponse_spec : PulsarSpec api_feeabs_QueryAllHostChainConfigResponse_fields api_feeabs_QueryAllHostChainConfigResponse_zero.
Proof. pulsar_spec. Defined.
Definition api_feeabs_QueryAllHostChainConfigResponse_reflect : list (RField I api_feeabs_QueryAllHostChainConfigResponse) := [
  r_messages "_QueryAllHostChainConfigResponse_1_list"
    "xion.feeabs.v1beta1.QueryAllHostChainConfigResponse.all_host_chain_config"
    api_feeabs_QueryAllHostChainConfigResponse_AllHostChainConfig (λ v _,
    mk_api_feeabs_QueryAllHostChainConfigResponse v)].
#[global] Instance api_feeabs_QueryAllHostChainConfigResponse_reflect_spec : ReflectSpec
  api_feeabs_QueryAllHostChainConfigResponse_reflect api_feeabs_QueryAllHostChainConfigResponse_zero.
Proof. reflect_spec. Defined.
Definition api_feeabs_QueryAllHostChainConfigResponse_1_list : ListKind I (option (Pulsar api_feeabs_HostChainFeeAbsConfig)) := message_list (fresh api_feeabs_HostChainFeeAbsConfig_zero).
Definition to_api_feeabs_QueryAllHostChainConfigResponse (m : feeabs_QueryAllHostChainConfigResponse) :
  api_feeabs_QueryAllHostChainConfigResponse := mk_api_feeabs_QueryAllHostChainConfigResponse
  ((api to_api_feeabs_HostChainFeeAbsConfig) <$> feeabs_QueryAllHostChainConfigResponse_AllHostChainConfig m).
#[global] Instance api_feeabs_QueryAllHostChainConfigResponse_agrees : MessageAgrees
  feeabs_QueryAllHostChainConfigResponse_fields feeabs_QueryAllHostChainConfigResponse_zero
  api_feeabs_QueryAllHostChainConfigResponse_fields api_feeabs_QueryAllHostChainConfigResponse_zero
  to_api_feeabs_QueryAllHostChainConfigResponse.
Proof. message_agree. Defined.

(** ** [api/xion/feeabs/v1beta1/tx.pulsar.go] *)
Definition api_feeabs_MsgFundFeeAbsModuleAccount_fields : list (Field api_feeabs_MsgFundFeeAbsModuleAccount) := [
  pl_string_field 1 api_feeabs_MsgFundFeeAbsModuleAccount_Sender (λ v m, mk_api_feeabs_MsgFundFeeAbsModuleAccount v
    (api_feeabs_MsgFundFeeAbsModuleAccount_Amount m));
  pl_messages_field ia_methods ia_zero 2 api_feeabs_MsgFundFeeAbsModuleAccount_Amount (λ v m,
    mk_api_feeabs_MsgFundFeeAbsModuleAccount (api_feeabs_MsgFundFeeAbsModuleAccount_Sender m) v)].
Definition api_feeabs_MsgFundFeeAbsModuleAccount_zero : api_feeabs_MsgFundFeeAbsModuleAccount := mk_api_feeabs_MsgFundFeeAbsModuleAccount "" [].
#[global] Instance api_feeabs_MsgFundFeeAbsModuleAccount_spec : PulsarSpec api_feeabs_MsgFundFeeAbsModuleAccount_fields api_feeabs_MsgFundFeeAbsModuleAccount_zero.
Proof. pulsar_spec. Defined.
Definition api_feeabs_MsgFundFeeAbsModuleAccount_reflect : list (RField I api_feeabs_MsgFundFeeAbsModuleAccount) := [
  r_string "xion.feeabs.v1beta1.MsgFundFeeAbsModuleAccount.sender" api_feeabs_MsgFundFeeAbsModuleAccount_Sender (λ v
    m, mk_api_feeabs_MsgFundFeeAbsModuleAccount v (api_feeabs_MsgFundFeeAbsModuleAccount_Amount m));
  r_messages "_MsgFundFeeAbsModuleAccount_2_list" "xion.feeabs.v1beta1.MsgFundFeeAbsModuleAccount.amount"
    api_feeabs_MsgFundFeeAbsModuleAccount_Amount (λ v m, mk_api_feeabs_MsgFundFeeAbsModuleAccount
    (api_feeabs_MsgFundFeeAbsModuleAccount_Sender m) v)].
#[global] Instance api_feeabs_MsgFundFeeAbsModuleAccount_reflect_spec : ReflectSpec
  api_feeabs_MsgFundFeeAbsModuleAccount_reflect api_feeabs_MsgFundFeeAbsModuleAccount_zero.
Proof. reflect_spec. Defined.
Definition api_feeabs_MsgFundFeeAbsModuleAccount_2_list : ListKind I (option Coin_api) := message_list ia_zero.
Definition to_api_feeabs_MsgFundFeeAbsModuleAccount (m : feeabs_MsgFundFeeAbsModuleAccount) :
  api_feeabs_MsgFundFeeAbsModuleAccount := mk_api_feeabs_MsgFundFeeAbsModuleAccount
  (feeabs_MsgFundFeeAbsModuleAccount_Sender m) (Coin_conv <$> feeabs_MsgFundFeeAbsModuleAccount_Amount m).
#[global] Instance api_feeabs_MsgFundFeeAbsModuleAccount_agrees : MessageAgrees
  feeabs_MsgFundFeeAbsModuleAccount_fields feeabs_MsgFundFeeAbsModuleAccount_zero
  api_feeabs_MsgFundFeeAbsModuleAccount_fields api_feeabs_MsgFundFeeAbsModuleAccount_zero
  to_api_feeabs_MsgFundFeeAbsModuleAccount.
Proof. message_agree. Defined.

Definition api_feeabs_MsgSendQueryIbcDenomTWAP_fields : list (Field api_feeabs_MsgSendQueryIbcDenomTWAP) := [
  pl_string_field 1 api_feeabs_MsgSendQueryIbcDenomTWAP_Sender (λ v _, mk_api_feeabs_MsgSendQueryIbcDenomTWAP v)].
Definition api_feeabs_MsgSendQueryIbcDenomTWAP_zero : api_feeabs_MsgSendQueryIbcDenomTWAP := mk_api_feeabs_MsgSendQueryIbcDenomTWAP "".
#[global] Instance api_feeabs_MsgSendQueryIbcDenomTWAP_spec : PulsarSpec api_feeabs_MsgSendQueryIbcDenomTWAP_fields api_feeabs_MsgSendQueryIbcDenomTWAP_zero.
Proof. pulsar_spec. Defined.
Definition api_feeabs_MsgSendQueryIbcDenomTWAP_reflect : list (RField I api_feeabs_MsgSendQueryIbcDenomTWAP) := [
  r_string "xion.feeabs.v1beta1.MsgSendQueryIbcDenomTWAP.sender" api_feeabs_MsgSendQueryIbcDenomTWAP_Sender (λ v _,
    mk_api_feeabs_MsgSendQueryIbcDenomTWAP v)].
#[global] Instance api_feeabs_MsgSendQueryIbcDenomTWAP_reflect_spec : ReflectSpec
  api_feeabs_MsgSendQueryIbcDenomTWAP_reflect api_feeabs_MsgSendQueryIbcDenomTWAP_zero.
Proof. reflect_spec. Defined.
Definition to_api_feeabs_MsgSendQueryIbcDenomTWAP (m : feeabs_MsgSendQueryIbcDenomTWAP) :
  api_feeabs_MsgSendQueryIbcDenomTWAP := mk_api_feeabs_MsgSendQueryIbcDenomTWAP
  (feeabs_MsgSendQueryIbcDenomTWAP_Sender m).
#[global] Instance api_feeabs_MsgSendQueryIbcDenomTWAP_agrees : MessageAgrees feeabs_MsgSendQueryIbcDenomTWAP_fields
  feeabs_MsgSendQueryIbcDenomTWAP_zero api_feeabs_MsgSendQueryIbcDenomTWAP_fields
  api_feeabs_MsgSendQueryIbcDenomTWAP_zero to_api_feeabs_MsgSendQueryIbcDenomTWAP.
Proof. message_agree. Defined.

Definition api_feeabs_MsgSwapCrossChain_fields : list (Field api_feeabs_MsgSwapCrossChain) := [
  pl_string_field 1 api_feeabs_MsgSwapCrossChain_Sender (λ v m, mk_api_feeabs_MsgSwapCrossChain v
    (api_feeabs_MsgSwapCrossChain_IbcDenom m));
  pl_string_field 2 api_feeabs_MsgSwapCrossChain_IbcDenom (λ v m, mk_api_feeabs_MsgSwapCrossChain
    (api_feeabs_MsgSwapCrossChain_Sender m) v)].
Definition api_feeabs_MsgSwapCrossChain_zero : api_feeabs_MsgSwapCrossChain := mk_api_feeabs_MsgSwapCrossChain "" "".
#[global] Instance api_feeabs_MsgSwapCrossChain_spec : PulsarSpec api_feeabs_MsgSwapCrossChain_fields api_feeabs_MsgSwapCrossChain_zero.
Proof. pulsar_spec. Defined.
Definition api_feeabs_MsgSwapCrossChain_reflect : list (RField I api_feeabs_MsgSwapCrossChain) := [
  r_string "xion.feeabs.v1beta1.MsgSwapCrossChain.sender" api_feeabs_MsgSwapCrossChain_Sender (λ v m,
    mk_api_feeabs_MsgSwapCrossChain v (api_feeabs_MsgSwapCrossChain_IbcDenom m));
  r_string "xion.feeabs.v1beta1.MsgSwapCrossChain.ibc_denom" api_feeabs_MsgSwapCrossChain_IbcDenom (λ v m,
    mk_api_feeabs_MsgSwapCrossChain (api_feeabs_MsgSwapCrossChain_Sender m) v)].
#[global] Instance api_feeabs_MsgSwapCrossChain_reflect_spec : ReflectSpec api_feeabs_MsgSwapCrossChain_reflect
  api_feeabs_MsgSwapCrossChain_zero.
Proof. reflect_spec. Defined.
Definition to_api_feeabs_MsgSwapCrossChain (m : MsgSwapCrossChain) : api_feeabs_MsgSwapCrossChain :=
  mk_api_feeabs_MsgSwapCrossChain (msc_Sender m) (msc_IbcDenom m).
#[global] Instance api_feeabs_MsgSwapCrossChain_agrees : MessageAgrees feeabs_MsgSwapCrossChain_fields
  feeabs_MsgSwapCrossChain_zero api_feeabs_MsgSwapCrossChain_fields api_feeabs_MsgSwapCrossChain_zero
  to_api_feeabs_MsgSwapCrossChain.
Proof. message_agree. Defined.

Definition api_feeabs_MsgUpdateParams_fields : list (Field api_feeabs_MsgUpdateParams) := [
  pl_string_field 1 api_feeabs_MsgUpdateParams_Authority (λ v m, mk_api_feeabs_MsgUpdateParams v
    (api_feeabs_MsgUpdateParams_Params m));
  pl_pointer_field (ProtoMethods api_feeabs_Params_fields) (fresh api_feeabs_Params_zero) 2
    api_feeabs_MsgUpdateParams_Params (λ v m, mk_api_feeabs_MsgUpdateParams (api_feeabs_MsgUpdateParams_Authority m)
    v)].
Definition api_feeabs_MsgUpdateParams_zero : api_feeabs_MsgUpdateParams := mk_api_feeabs_MsgUpdateParams "" None.
#[global] Instance api_feeabs_MsgUpdateParams_spec : PulsarSpec api_feeabs_MsgUpdateParams_fields api_feeabs_MsgUpdateParams_zero.
Proof. pulsar_spec. Defined.
Definition api_feeabs_MsgUpdateParams_reflect : list (RField I api_feeabs_MsgUpdateParams) := [
  r_string "xion.feeabs.v1beta1.MsgUpdateParams.authority" api_feeabs_MsgUpdateParams_Authority (λ v m,
    mk_api_feeabs_MsgUpdateParams v (api_feeabs_MsgUpdateParams_Params m));
  r_message (fresh api_feeabs_Params_zero) "xion.feeabs.v1beta1.MsgUpdateParams.params"
    api_feeabs_MsgUpdateParams_Params (λ v m, mk_api_feeabs_MsgUpdateParams (api_feeabs_MsgUpdateParams_Authority m)
    v)].
#[global] Instance api_feeabs_MsgUpdateParams_reflect_spec : ReflectSpec api_feeabs_MsgUpdateParams_reflect
  api_feeabs_MsgUpdateParams_zero.
Proof. reflect_spec. Defined.
Definition to_api_feeabs_MsgUpdateParams (m : feeabs_MsgUpdateParams) : api_feeabs_MsgUpdateParams :=
  mk_api_feeabs_MsgUpdateParams (feeabs_MsgUpdateParams_Authority m)
  (Some ((api to_api_feeabs_Params) (feeabs_MsgUpdateParams_Params m))).
#[global] Instance api_feeabs_MsgUpdateParams_agrees : MessageAgrees feeabs_MsgUpdateParams_fields
  feeabs_MsgUpdateParams_zero api_feeabs_MsgUpdateParams_fields api_feeabs_MsgUpdateParams_zero
  to_api_feeabs_MsgUpdateParams.
Proof. message_agree. Defined.

Definition api_feeabs_MsgAddHostZone_fields : list (Field api_feeabs_MsgAddHostZone) := [
  pl_string_field 1 api_feeabs_MsgAddHostZone_Authority (λ v m, mk_api_feeabs_MsgAddHostZone v
    (api_feeabs_MsgAddHostZone_HostChainConfig m));
  pl_pointer_field (ProtoMethods api_feeabs_HostChainFeeAbsConfig_fields) (fresh
    api_feeabs_HostChainFeeAbsConfig_zero) 2 api_feeabs_MsgAddHostZone_HostChainConfig (λ v m,
    mk_api_feeabs_MsgAddHostZone (api_feeabs_MsgAddHostZone_Authority m) v)].
Definition api_feeabs_MsgAddHostZone_zero : api_feeabs_MsgAddHostZone := mk_api_feeabs_MsgAddHostZone "" None.
#[global] Instance api_feeabs_MsgAddHostZone_spec : PulsarSpec api_feeabs_MsgAddHostZone_fields api_feeabs_MsgAddHostZone_zero.
Proof. pulsar_spec. Defined.
Definition api_feeabs_MsgAddHostZone_reflect : list (RField I api_feeabs_MsgAddHostZone) := [
  r_string "xion.feeabs.v1beta1.MsgAddHostZone.authority" api_feeabs_MsgAddHostZone_Authority (λ v m,
    mk_api_feeabs_MsgAddHostZone v (api_feeabs_MsgAddHostZone_HostChainConfig m));
  r_message (fresh api_feeabs_HostChainFeeAbsConfig_zero) "xion.feeabs.v1beta1.MsgAddHostZone.host_chain_config"
    api_feeabs_MsgAddHostZone_HostChainConfig (λ v m, mk_api_feeabs_MsgAddHostZone
    (api_feeabs_MsgAddHostZone_Authority m) v)].
#[global] Instance api_feeabs_MsgAddHostZone_reflect_spec : ReflectSpec api_feeabs_MsgAddHostZone_reflect
  api_feeabs_MsgAddHostZone_zero.
Proof. reflect_spec. Defined.
Definition to_api_feeabs_MsgAddHostZone (m : feeabs_MsgAddHostZone) : api_feeabs_MsgAddHostZone :=
  mk_api_feeabs_MsgAddHostZone (feeabs_MsgAddHostZone_Authority m)
  (Some ((api to_api_feeabs_HostChainFeeAbsConfig) (feeabs_MsgAddHostZone_HostChainConfig m))).
#[global] Instance api_feeabs_MsgAddHostZone_agrees : MessageAgrees feeabs_MsgAddHostZone_fields
  feeabs_MsgAddHostZone_zero api_feeabs_MsgAddHostZone_fields api_feeabs_MsgAddHostZone_zero
  to_api_feeabs_MsgAddHostZone.
Proof. message_agree. Defined.

Definition api_feeabs_MsgUpdateHostZone_fields : list (Field api_feeabs_MsgUpdateHostZone) := [
  pl_string_field 1 api_feeabs_MsgUpdateHostZone_Authority (λ v m, mk_api_feeabs_MsgUpdateHostZone v
    (api_feeabs_MsgUpdateHostZone_HostChainConfig m));
  pl_pointer_field (ProtoMethods api_feeabs_HostChainFeeAbsConfig_fields) (fresh
    api_feeabs_HostChainFeeAbsConfig_zero) 2 api_feeabs_MsgUpdateHostZone_HostChainConfig (λ v m,
    mk_api_feeabs_MsgUpdateHostZone (api_feeabs_MsgUpdateHostZone_Authority m) v)].
Definition api_feeabs_MsgUpdateHostZone_zero : api_feeabs_MsgUpdateHostZone := mk_api_feeabs_MsgUpdateHostZone "" None.
#[global] Instance api_feeabs_MsgUpdateHostZone_spec : PulsarSpec api_feeabs_MsgUpdateHostZone_fields api_feeabs_MsgUpdateHostZone_zero.
Proof. pulsar_spec. Defined.
Definition api_feeabs_MsgUpdateHostZone_reflect : list (RField I api_feeabs_MsgUpdateHostZone) := [
  r_string "xion.feeabs.v1beta1.MsgUpdateHostZone.authority" api_feeabs_MsgUpdateHostZone_Authority (λ v m,
    mk_api_feeabs_MsgUpdateHostZone v (api_feeabs_MsgUpdateHostZone_HostChainConfig m));
  r_message (fresh api_feeabs_HostChainFeeAbsConfig_zero) "xion.feeabs.v1beta1.MsgUpdateHostZone.host_chain_config"
    api_feeabs_MsgUpdateHostZone_HostChainConfig (λ v m, mk_api_feeabs_MsgUpdateHostZone
    (api_feeabs_MsgUpdateHostZone_Authority m) v)].
#[global] Instance api_feeabs_MsgUpdateHostZone_reflect_spec : ReflectSpec api_feeabs_MsgUpdateHostZone_reflect
  api_feeabs_MsgUpdateHostZone_zero.
Proof. reflect_spec. Defined.
Definition to_api_feeabs_MsgUpdateHostZone (m : feeabs_MsgUpdateHostZone) : api_feeabs_MsgUpdateHostZone :=
  mk_api_feeabs_MsgUpdateHostZone (feeabs_MsgUpdateHostZone_Authority m)
  (Some ((api to_api_feeabs_HostChainFeeAbsConfig) (feeabs_MsgUpdateHostZone_HostChainConfig m))).
#[global] Instance api_feeabs_MsgUpdateHostZone_agrees : MessageAgrees feeabs_MsgUpdateHostZone_fields
  feeabs_MsgUpdateHostZone_zero api_feeabs_MsgUpdateHostZone_fields api_feeabs_MsgUpdateHostZone_zero
  to_api_feeabs_MsgUpdateHostZone.
Proof. message_agree. Defined.

Definition api_feeabs_MsgRemoveHostZone_fields : list (Field api_feeabs_MsgRemoveHostZone) := [
  pl_string_field 1 api_feeabs_MsgRemoveHostZone_Authority (λ v m, mk_api_feeabs_MsgRemoveHostZone v
    (api_feeabs_MsgRemoveHostZone_IbcDenom m));
  pl_string_field 2 api_feeabs_MsgRemoveHostZone_IbcDenom (λ v m, mk_api_feeabs_MsgRemoveHostZone
    (api_feeabs_MsgRemoveHostZone_Authority m) v)].
Definition api_feeabs_MsgRemoveHostZone_zero : api_feeabs_MsgRemoveHostZone := mk_api_feeabs_MsgRemoveHostZone "" "".
#[global] Instance api_feeabs_MsgRemoveHostZone_spec : PulsarSpec api_feeabs_MsgRemoveHostZone_fields api_feeabs_MsgRemoveHostZone_zero.
Proof. pulsar_spec. Defined.
Definition api_feeabs_MsgRemoveHostZone_reflect : list (RField I api_feeabs_MsgRemoveHostZone) := [
  r_string "xion.feeabs.v1beta1.MsgRemoveHostZone.authority" api_feeabs_MsgRemoveHostZone_Authority (λ v m,
    mk_api_feeabs_MsgRemoveHostZone v (api_feeabs_MsgRemoveHostZone_IbcDenom m));
  r_string "xion.feeabs.v1beta1.MsgRemoveHostZone.ibc_denom" api_feeabs_MsgRemoveHostZone_IbcDenom (λ v m,
    mk_api_feeabs_MsgRemoveHostZone (api_feeabs_MsgRemoveHostZone_Authority m) v)].
#[global] Instance api_feeabs_MsgRemoveHostZone_reflect_spec : ReflectSpec api_feeabs_MsgRemoveHostZone_reflect
  api_feeabs_MsgRemoveHostZone_zero.
Proof. reflect_spec. Defined.
Definition to_api_feeabs_MsgRemoveHostZone (m : feeabs_MsgRemoveHostZone) : api_feeabs_MsgRemoveHostZone :=
  mk_api_feeabs_MsgRemoveHostZone (feeabs_MsgRemoveHostZone_Authority m) (feeabs_MsgRemoveHostZone_IbcDenom m).
#[global] Instance api_feeabs_MsgRemoveHostZone_agrees : MessageAgrees feeabs_MsgRemoveHostZone_fields
  feeabs_MsgRemoveHostZone_zero api_feeabs_MsgRemoveHostZone_fields api_feeabs_MsgRemoveHostZone_zero
  to_api_feeabs_MsgRemoveHostZone.
Proof. message_agree. Defined.

(** ** The message types *)
Definition api_feeabs_messages : list (ApiMessage I) := [
  api_message (feeabs_EpochInfo_fields time_codec duration_codec) feeabs_EpochInfo_zero api_feeabs_EpochInfo_fields api_feeabs_EpochInfo_zero api_feeabs_EpochInfo_reflect to_api_feeabs_EpochInfo;
  api_message feeabs_ExponentialBackoff_fields feeabs_ExponentialBackoff_zero api_feeabs_ExponentialBackoff_fields api_feeabs_ExponentialBackoff_zero api_feeabs_ExponentialBackoff_reflect to_api_feeabs_ExponentialBackoff;
  api_message feeabs_Params_fields feeabs_Params_zero api_feeabs_Params_fields api_feeabs_Params_zero api_feeabs_Params_reflect to_api_feeabs_Params;
  api_message (feeabs_GenesisState_fields time_codec duration_codec) feeabs_GenesisState_zero api_feeabs_GenesisState_fields api_feeabs_GenesisState_zero api_feeabs_GenesisState_reflect to_api_feeabs_GenesisState;
  api_message feeabs_HostChainFeeAbsConfig_fields feeabs_HostChainFeeAbsConfig_zero api_feeabs_HostChainFeeAbsConfig_fields api_feeabs_HostChainFeeAbsConfig_zero api_feeabs_HostChainFeeAbsConfig_reflect to_api_feeabs_HostChainFeeAbsConfig;
  api_message feeabs_AddHostZoneProposal_fields feeabs_AddHostZoneProposal_zero api_feeabs_AddHostZoneProposal_fields api_feeabs_AddHostZoneProposal_zero api_feeabs_AddHostZoneProposal_reflect to_api_feeabs_AddHostZoneProposal;
  api_message feeabs_DeleteHostZoneProposal_fields feeabs_DeleteHostZoneProposal_zero api_feeabs_DeleteHostZoneProposal_fields api_feeabs_DeleteHostZoneProposal_zero api_feeabs_DeleteHostZoneProposal_reflect to_api_feeabs_DeleteHostZoneProposal;
  api_message feeabs_SetHostZoneProposal_fields feeabs_SetHostZoneProposal_zero api_feeabs_SetHostZoneProposal_fields api_feeabs_SetHostZoneProposal_zero api_feeabs_SetHostZoneProposal_reflect to_api_feeabs_SetHostZoneProposal;
  api_message feeabs_QueryHostChainConfigRequest_fields feeabs_QueryHostChainConfigRequest_zero api_feeabs_QueryHostChainConfigRequest_fields api_feeabs_QueryHostChainConfigRequest_zero api_feeabs_QueryHostChainConfigRequest_reflect to_api_feeabs_QueryHostChainConfigRequest;
  api_message feeabs_QueryHostChainConfigResponse_fields feeabs_QueryHostChainConfigResponse_zero api_feeabs_QueryHostChainConfigResponse_fields api_feeabs_QueryHostChainConfigResponse_zero api_feeabs_QueryHostChainConfigResponse_reflect to_api_feeabs_QueryHostChainConfigResponse;
  api_message feeabs_QueryOsmosisArithmeticTwapRequest_fields feeabs_QueryOsmosisArithmeticTwapRequest_zero api_feeabs_QueryOsmosisArithmeticTwapRequest_fields api_feeabs_QueryOsmosisArithmeticTwapRequest_zero api_feeabs_QueryOsmosisArithmeticTwapRequest_reflect to_api_feeabs_QueryOsmosisArithmeticTwapRequest;
  api_message (feeabs_QueryOsmosisArithmeticTwapResponse_fields dec_codec) feeabs_QueryOsmosisArithmeticTwapResponse_zero api_feeabs_QueryOsmosisArithmeticTwapResponse_fields api_feeabs_QueryOsmosisArithmeticTwapResponse_zero api_feeabs_QueryOsmosisArithmeticTwapResponse_reflect to_api_feeabs_QueryOsmosisArithmeticTwapResponse;
  api_message feeabs_QueryFeeabsModuleBalancesResponse_fields feeabs_QueryFeeabsModuleBalancesResponse_zero api_feeabs_QueryFeeabsModuleBalancesResponse_fields api_feeabs_QueryFeeabsModuleBalancesResponse_zero api_feeabs_QueryFeeabsModuleBalancesResponse_reflect to_api_feeabs_QueryFeeabsModuleBalancesResponse;
  api_message feeabs_QueryAllHostChainConfigResponse_fields feeabs_QueryAllHostChainConfigResponse_zero api_feeabs_QueryAllHostChainConfigResponse_fields api_feeabs_QueryAllHostChainConfigResponse_zero api_feeabs_QueryAllHostChainConfigResponse_reflect to_api_feeabs_QueryAllHostChainConfigResponse;
  api_message feeabs_MsgFundFeeAbsModuleAccount_fields feeabs_MsgFundFeeAbsModuleAccount_zero api_feeabs_MsgFundFeeAbsModuleAccount_fields api_feeabs_MsgFundFeeAbsModuleAccount_zero api_feeabs_MsgFundFeeAbsModuleAccount_reflect to_api_feeabs_MsgFundFeeAbsModuleAccount;
  api_message feeabs_MsgSendQueryIbcDenomTWAP_fields feeabs_MsgSendQueryIbcDenomTWAP_zero api_feeabs_MsgSendQueryIbcDenomTWAP_fields api_feeabs_MsgSendQueryIbcDenomTWAP_zero api_feeabs_MsgSendQueryIbcDenomTWAP_reflect to_api_feeabs_MsgSendQueryIbcDenomTWAP;
  api_message feeabs_MsgSwapCrossChain_fields feeabs_MsgSwapCrossChain_zero api_feeabs_MsgSwapCrossChain_fields api_feeabs_MsgSwapCrossChain_zero api_feeabs_MsgSwapCrossChain_reflect to_api_feeabs_MsgSwapCrossChain;
  api_message feeabs_MsgUpdateParams_fields feeabs_MsgUpdateParams_zero api_feeabs_MsgUpdateParams_fields api_feeabs_MsgUpdateParams_zero api_feeabs_MsgUpdateParams_reflect to_api_feeabs_MsgUpdateParams;
  api_message feeabs_MsgAddHostZone_fields feeabs_MsgAddHostZone_zero api_feeabs_MsgAddHostZone_fields api_feeabs_MsgAddHostZone_zero api_feeabs_MsgAddHostZone_reflect to_api_feeabs_MsgAddHostZone;
  api_message feeabs_MsgUpdateHostZone_fields feeabs_MsgUpdateHostZone_zero api_feeabs_MsgUpdateHostZone_fields api_feeabs_MsgUpdateHostZone_zero api_feeabs_MsgUpdateHostZone_reflect to_api_feeabs_MsgUpdateHostZone;
  api_message feeabs_MsgRemoveHostZone_fields feeabs_MsgRemoveHostZone_zero api_feeabs_MsgRemoveHostZone_fields api_feeabs_MsgRemoveHostZone_zero api_feeabs_MsgRemoveHostZone_reflect to_api_feeabs_MsgRemoveHostZone
  ].

Lemma api_feeabs_messages_ok : Forall api_message_ok api_feeabs_messages.
Proof. api_messages_ok. Qed.

(** ** The lists *)
Definition api_feeabs_lists : list (ApiList I) := [ mkApiList api_feeabs_GenesisState_2_list;
  mkApiList api_feeabs_QueryFeeabsModuleBalancesResponse_1_list;
  mkApiList api_feeabs_QueryAllHostChainConfigResponse_1_list; mkApiList api_feeabs_MsgFundFeeAbsModuleAccount_2_list
  ].
Lemma api_feeabs_lists_ok : Forall api_list_ok api_feeabs_lists.
Proof. repeat (apply List.Forall_cons; [apply api_list_is_ok; apply _|]). apply List.Forall_nil. Qed.
End api.
