(* ===== verification/ApiIndexer.v ===== *)
(** * src/api/xion/indexer: the messages

    As the [Proto] file of the module, for the second set of messages: the fields of every
    message for [ProtoMethods] and for reflection, and its agreement with the message of the
    first set. *)

From S2P Require Import Prelude GoStd ProtoWire ProtoCodec PulsarWire PulsarCodec PulsarReflect PulsarLists PulsarAgree.
From S2P Require Import ProtoIndexer.

Section api.
Context {I : Type} `{Rt : !PulsarRuntime, Op : !ProtoOptions, RtL : !PulsarRuntimeLaws, OpL : !ProtoOptionsLaws}.
Context {PageRequest AuthzGrant PageResponse GrantAuthorization FeeGrant : Type}
  `{IPageRequest : !ImportedMsg PageRequest, IAuthzGrant : !ImportedMsg AuthzGrant,
  IPageResponse : !ImportedMsg PageResponse, IGrantAuthorization : !ImportedMsg GrantAuthorization,
  IFeeGrant : !ImportedMsg FeeGrant}.
Context `{LPageRequest : !ImportedLaws PageRequest, LAuthzGrant : !ImportedLaws AuthzGrant,
  LPageResponse : !ImportedLaws PageResponse, LGrantAuthorization : !ImportedLaws GrantAuthorization,
  LFeeGrant : !ImportedLaws FeeGrant}.
(** The message types of the dependencies in this set, and the counterparts of values *)
Context {PageRequest_api AuthzGrant_api PageResponse_api GrantAuthorization_api FeeGrant_api : Type}
  `{IAPageRequest : !ImportedApi PageRequest_api, IAAuthzGrant : !ImportedApi AuthzGrant_api,
  IAPageResponse : !ImportedApi PageResponse_api, IAGrantAuthorization : !ImportedApi GrantAuthorization_api,
  IAFeeGrant : !ImportedApi FeeGrant_api}.
Context `{LAPageRequest : !ImportedApiLaws PageRequest_api, LAAuthzGrant : !ImportedApiLaws AuthzGrant_api,
  LAPageResponse : !ImportedApiLaws PageResponse_api, LAGrantAuthorization : !ImportedApiLaws GrantAuthorization_api,
  LAFeeGrant : !ImportedApiLaws FeeGrant_api}.
Context (PageRequest_conv : PageRequest → PageRequest_api) (AuthzGrant_conv : AuthzGrant → AuthzGrant_api)
  (PageResponse_conv : PageResponse → PageResponse_api)
  (GrantAuthorization_conv : GrantAuthorization → GrantAuthorization_api) (FeeGrant_conv : FeeGrant → FeeGrant_api).
Context `{CAPageRequest : !CodecAgrees im_codec im_zero ia_methods ia_zero PageRequest_conv,
  CAAuthzGrant : !CodecAgrees im_codec im_zero ia_methods ia_zero AuthzGrant_conv,
  CAPageResponse : !CodecAgrees im_codec im_zero ia_methods ia_zero PageResponse_conv,
  CAGrantAuthorization : !CodecAgrees im_codec im_zero ia_methods ia_zero GrantAuthorization_conv,
  CAFeeGrant : !CodecAgrees im_codec im_zero ia_methods ia_zero FeeGrant_conv}.

(** ** Data: the fields that are known *)
Record api_authz_QueryGrantsRequest := mk_api_authz_QueryGrantsRequest {
  api_authz_QueryGrantsRequest_Granter : string; api_authz_QueryGrantsRequest_Grantee : string;
  api_authz_QueryGrantsRequest_MsgTypeUrl : string; api_authz_QueryGrantsRequest_Pagination : option PageRequest_api
  }.
Record api_authz_QueryGrantsResponse := mk_api_authz_QueryGrantsResponse {
  api_authz_QueryGrantsResponse_Grants : list AuthzGrant_api;
  api_authz_QueryGrantsResponse_Pagination : option PageResponse_api }.
Record api_authz_QueryGranterGrantsRequest := mk_api_authz_QueryGranterGrantsRequest {
  api_authz_QueryGranterGrantsRequest_Granter : string;
  api_authz_QueryGranterGrantsRequest_Pagination : option PageRequest_api }.
Record api_authz_QueryGranterGrantsResponse := mk_api_authz_QueryGranterGrantsResponse {
  api_authz_QueryGranterGrantsResponse_Grants : list GrantAuthorization_api;
  api_authz_QueryGranterGrantsResponse_Pagination : option PageResponse_api }.
Record api_authz_QueryGranteeGrantsRequest := mk_api_authz_QueryGranteeGrantsRequest {
  api_authz_QueryGranteeGrantsRequest_Grantee : string;
  api_authz_QueryGranteeGrantsRequest_Pagination : option PageRequest_api }.
Record api_authz_QueryGranteeGrantsResponse := mk_api_authz_QueryGranteeGrantsResponse {
  api_authz_QueryGranteeGrantsResponse_Grants : list GrantAuthorization_api;
  api_authz_QueryGranteeGrantsResponse_Pagination : option PageResponse_api }.
Record api_feegrant_QueryAllowanceRequest := mk_api_feegrant_QueryAllowanceRequest {
  api_feegrant_QueryAllowanceRequest_Granter : string; api_feegrant_QueryAllowanceRequest_Grantee : string }.
Record api_feegrant_QueryAllowanceResponse := mk_api_feegrant_QueryAllowanceResponse {
  api_feegrant_QueryAllowanceResponse_Allowance : option FeeGrant_api }.
Record api_feegrant_QueryAllowancesRequest := mk_api_feegrant_QueryAllowancesRequest {
  api_feegrant_QueryAllowancesRequest_Grantee : string;
  api_feegrant_QueryAllowancesRequest_Pagination : option PageRequest_api }.
Record api_feegrant_QueryAllowancesResponse := mk_api_feegrant_QueryAllowancesResponse {
  api_feegrant_QueryAllowancesResponse_Allowances : list FeeGrant_api;
  api_feegrant_QueryAllowancesResponse_Pagination : option PageResponse_api }.
Record api_feegrant_QueryAllowancesByGranterRequest := mk_api_feegrant_QueryAllowancesByGranterRequest {
  api_feegrant_QueryAllowancesByGranterRequest_Granter : string;
  api_feegrant_QueryAllowancesByGranterRequest_Pagination : option PageRequest_api }.
Record api_feegrant_QueryAllowancesByGranterResponse := mk_api_feegrant_QueryAllowancesByGranterResponse {
  api_feegrant_QueryAllowancesByGranterResponse_Allowances : list FeeGrant_api;
  api_feegrant_QueryAllowancesByGranterResponse_Pagination : option PageResponse_api }.

Context `{!GoPointer I PageRequest_api, !GoPointer I AuthzGrant_api, !GoPointer I PageResponse_api,
  !GoPointer I GrantAuthorization_api, !GoPointer I FeeGrant_api}.

(** ** [api/xion/indexer/authz/v1/query.pulsar.go] *)
Definition api_authz_QueryGrantsRequest_fields : list (Field api_authz_QueryGrantsRequest) := [
  pl_string_field 1 api_authz_QueryGrantsRequest_Granter (λ v m, mk_api_authz_QueryGrantsRequest v
    (api_authz_QueryGrantsRequest_Grantee m) (api_authz_QueryGrantsRequest_MsgTypeUrl m)
    (api_authz_QueryGrantsRequest_Pagination m));
  pl_string_field 2 api_authz_QueryGrantsRequest_Grantee (λ v m, mk_api_authz_QueryGrantsRequest
    (api_authz_QueryGrantsRequest_Granter m) v (api_authz_QueryGrantsRequest_MsgTypeUrl m)
    (api_authz_QueryGrantsRequest_Pagination m));
  pl_string_field 3 api_authz_QueryGrantsRequest_MsgTypeUrl (λ v m, mk_api_authz_QueryGrantsRequest
    (api_authz_QueryGrantsRequest_Granter m) (api_authz_QueryGrantsRequest_Grantee m) v
    (api_authz_QueryGrantsRequest_Pagination m));
  pl_pointer_field ia_methods ia_zero 4 api_authz_QueryGrantsRequest_Pagination (λ v m,
    mk_api_authz_QueryGrantsRequest (api_authz_QueryGrantsRequest_Granter m) (api_authz_QueryGrantsRequest_Grantee m)
    (api_authz_QueryGrantsRequest_MsgTypeUrl m) v)].
Definition api_authz_QueryGrantsRequest_zero : api_authz_QueryGrantsRequest := mk_api_authz_QueryGrantsRequest "" "" "" None.
#[global] Instance api_authz_QueryGrantsRequest_spec : PulsarSpec api_authz_QueryGrantsRequest_fields api_authz_QueryGrantsRequest_zero.
Proof. pulsar_spec. Defined.
Definition api_authz_QueryGrantsRequest_reflect : list (RField I api_authz_QueryGrantsRequest) := [
  r_string "xion.indexer.authz.v1.QueryGrantsRequest.granter" api_authz_QueryGrantsRequest_Granter (λ v m,
    mk_api_authz_QueryGrantsRequest v (api_authz_QueryGrantsRequest_Grantee m)
    (api_authz_QueryGrantsRequest_MsgTypeUrl m) (api_authz_QueryGrantsRequest_Pagination m));
  r_string "xion.indexer.authz.v1.QueryGrantsRequest.grantee" api_authz_QueryGrantsRequest_Grantee (λ v m,
    mk_api_authz_QueryGrantsRequest (api_authz_QueryGrantsRequest_Granter m) v
    (api_authz_QueryGrantsRequest_MsgTypeUrl m) (api_authz_QueryGrantsRequest_Pagination m));
  r_string "xion.indexer.authz.v1.QueryGrantsRequest.msg_type_url" api_authz_QueryGrantsRequest_MsgTypeUrl (λ v m,
    mk_api_authz_QueryGrantsRequest (api_authz_QueryGrantsRequest_Granter m) (api_authz_QueryGrantsRequest_Grantee m)
    v (api_authz_QueryGrantsRequest_Pagination m));
  r_message ia_zero "xion.indexer.authz.v1.QueryGrantsRequest.pagination" api_authz_QueryGrantsRequest_Pagination (λ v
    m, mk_api_authz_QueryGrantsRequest (api_authz_QueryGrantsRequest_Granter m) (api_authz_QueryGrantsRequest_Grantee
    m) (api_authz_QueryGrantsRequest_MsgTypeUrl m) v)].
#[global] Instance api_authz_QueryGrantsRequest_reflect_spec : ReflectSpec api_authz_QueryGrantsRequest_reflect
  api_authz_QueryGrantsRequest_zero.
Proof. reflect_spec. Defined.
Definition to_api_authz_QueryGrantsRequest (m : authz_QueryGrantsRequest) : api_authz_QueryGrantsRequest :=
  mk_api_authz_QueryGrantsRequest (authz_QueryGrantsRequest_Granter m) (authz_QueryGrantsRequest_Grantee m)
  (authz_QueryGrantsRequest_MsgTypeUrl m) (PageRequest_conv <$> authz_QueryGrantsRequest_Pagination m).
#[global] Instance api_authz_QueryGrantsRequest_agrees : MessageAgrees authz_QueryGrantsRequest_fields
  authz_QueryGrantsRequest_zero api_authz_QueryGrantsRequest_fields api_authz_QueryGrantsRequest_zero
  to_api_authz_QueryGrantsRequest.
Proof. message_agree. Defined.

Definition api_authz_QueryGrantsResponse_fields : list (Field api_authz_QueryGrantsResponse) := [
  pl_messages_field ia_methods ia_zero 1 api_authz_QueryGrantsResponse_Grants (λ v m, mk_api_authz_QueryGrantsResponse
    v (api_authz_QueryGrantsResponse_Pagination m));
  pl_pointer_field ia_methods ia_zero 2 api_authz_QueryGrantsResponse_Pagination (λ v m,
    mk_api_authz_QueryGrantsResponse (api_authz_QueryGrantsResponse_Grants m) v)].
Definition api_authz_QueryGrantsResponse_zero : api_authz_QueryGrantsResponse := mk_api_authz_QueryGrantsResponse [] None.
#[global] Instance api_authz_QueryGrantsResponse_spec : PulsarSpec api_authz_QueryGrantsResponse_fields api_authz_QueryGrantsResponse_zero.
Proof. pulsar_spec. Defined.
Definition api_authz_QueryGrantsResponse_reflect : list (RField I api_authz_QueryGrantsResponse) := [
  r_messages "_QueryGrantsResponse_1_list" "xion.indexer.authz.v1.QueryGrantsResponse.grants"
    api_authz_QueryGrantsResponse_Grants (λ v m, mk_api_authz_QueryGrantsResponse v
    (api_authz_QueryGrantsResponse_Pagination m));
  r_message ia_zero "xion.indexer.authz.v1.QueryGrantsResponse.pagination" api_authz_QueryGrantsResponse_Pagination (λ
    v m, mk_api_authz_QueryGrantsResponse (api_authz_QueryGrantsResponse_Grants m) v)].
#[global] Instance api_authz_QueryGrantsResponse_reflect_spec : ReflectSpec api_authz_QueryGrantsResponse_reflect
  api_authz_QueryGrantsResponse_zero.
Proof. reflect_spec. Defined.
Definition api_authz_QueryGrantsResponse_1_list : ListKind I (option AuthzGrant_api) := message_list ia_zero.
Definition to_api_authz_QueryGrantsResponse (m : authz_QueryGrantsResponse) : api_authz_QueryGrantsResponse :=
  mk_api_authz_QueryGrantsResponse (AuthzGrant_conv <$> authz_QueryGrantsResponse_Grants m)
  (PageResponse_conv <$> authz_QueryGrantsResponse_Pagination m).
#[global] Instance api_authz_QueryGrantsResponse_agrees : MessageAgrees authz_QueryGrantsResponse_fields
  authz_QueryGrantsResponse_zero api_authz_QueryGrantsResponse_fields api_authz_QueryGrantsResponse_zero
  to_api_authz_QueryGrantsResponse.
Proof. message_agree. Defined.

Definition api_authz_QueryGranterGrantsRequest_fields : list (Field api_authz_QueryGranterGrantsRequest) := [
  pl_string_field 1 api_authz_QueryGranterGrantsRequest_Granter (λ v m, mk_api_authz_QueryGranterGrantsRequest v
    (api_authz_QueryGranterGrantsRequest_Pagination m));
  pl_pointer_field ia_methods ia_zero 2 api_authz_QueryGranterGrantsRequest_Pagination (λ v m,
    mk_api_authz_QueryGranterGrantsRequest (api_authz_QueryGranterGrantsRequest_Granter m) v)].
Definition api_authz_QueryGranterGrantsRequest_zero : api_authz_QueryGranterGrantsRequest := mk_api_authz_QueryGranterGrantsRequest "" None.
#[global] Instance api_authz_QueryGranterGrantsRequest_spec : PulsarSpec api_authz_QueryGranterGrantsRequest_fields api_authz_QueryGranterGrantsRequest_zero.
Proof. pulsar_spec. Defined.
Definition api_authz_QueryGranterGrantsRequest_reflect : list (RField I api_authz_QueryGranterGrantsRequest) := [
  r_string "xion.indexer.authz.v1.QueryGranterGrantsRequest.granter" api_authz_QueryGranterGrantsRequest_Granter (λ v
    m, mk_api_authz_QueryGranterGrantsRequest v (api_authz_QueryGranterGrantsRequest_Pagination m));
  r_message ia_zero "xion.indexer.authz.v1.QueryGranterGrantsRequest.pagination"
    api_authz_QueryGranterGrantsRequest_Pagination (λ v m, mk_api_authz_QueryGranterGrantsRequest
    (api_authz_QueryGranterGrantsRequest_Granter m) v)].
#[global] Instance api_authz_QueryGranterGrantsRequest_reflect_spec : ReflectSpec
  api_authz_QueryGranterGrantsRequest_reflect api_authz_QueryGranterGrantsRequest_zero.
Proof. reflect_spec. Defined.
Definition to_api_authz_QueryGranterGrantsRequest (m : authz_QueryGranterGrantsRequest) :
  api_authz_QueryGranterGrantsRequest := mk_api_authz_QueryGranterGrantsRequest
  (authz_QueryGranterGrantsRequest_Granter m) (PageRequest_conv <$> authz_QueryGranterGrantsRequest_Pagination m).
#[global] Instance api_authz_QueryGranterGrantsRequest_agrees : MessageAgrees authz_QueryGranterGrantsRequest_fields
  authz_QueryGranterGrantsRequest_zero api_authz_QueryGranterGrantsRequest_fields
  api_authz_QueryGranterGrantsRequest_zero to_api_authz_QueryGranterGrantsRequest.
Proof. message_agree. Defined.

Definition api_authz_QueryGranterGrantsResponse_fields : list (Field api_authz_QueryGranterGrantsResponse) := [
  pl_messages_field ia_methods ia_zero 1 api_authz_QueryGranterGrantsResponse_Grants (λ v m,
    mk_api_authz_QueryGranterGrantsResponse v (api_authz_QueryGranterGrantsResponse_Pagination m));
  pl_pointer_field ia_methods ia_zero 2 api_authz_QueryGranterGrantsResponse_Pagination (λ v m,
    mk_api_authz_QueryGranterGrantsResponse (api_authz_QueryGranterGrantsResponse_Grants m) v)].
Definition api_authz_QueryGranterGrantsResponse_zero : api_authz_QueryGranterGrantsResponse := mk_api_authz_QueryGranterGrantsResponse [] None.
#[global] Instance api_authz_QueryGranterGrantsResponse_spec : PulsarSpec api_authz_QueryGranterGrantsResponse_fields api_authz_QueryGranterGrantsResponse_zero.
Proof. pulsar_spec. Defined.
Definition api_authz_QueryGranterGrantsResponse_reflect : list (RField I api_authz_QueryGranterGrantsResponse) := [
  r_messages "_QueryGranterGrantsResponse_1_list" "xion.indexer.authz.v1.QueryGranterGrantsResponse.grants"
    api_authz_QueryGranterGrantsResponse_Grants (λ v m, mk_api_authz_QueryGranterGrantsResponse v
    (api_authz_QueryGranterGrantsResponse_Pagination m));
  r_message ia_zero "xion.indexer.authz.v1.QueryGranterGrantsResponse.pagination"
    api_authz_QueryGranterGrantsResponse_Pagination (λ v m, mk_api_authz_QueryGranterGrantsResponse
    (api_authz_QueryGranterGrantsResponse_Grants m) v)].
#[global] Instance api_authz_QueryGranterGrantsResponse_reflect_spec : ReflectSpec
  api_authz_QueryGranterGrantsResponse_reflect api_authz_QueryGranterGrantsResponse_zero.
Proof. reflect_spec. Defined.
Definition api_authz_QueryGranterGrantsResponse_1_list : ListKind I (option GrantAuthorization_api) := message_list ia_zero.
Definition to_api_authz_QueryGranterGrantsResponse (m : authz_QueryGranterGrantsResponse) :
  api_authz_QueryGranterGrantsResponse := mk_api_authz_QueryGranterGrantsResponse
  (GrantAuthorization_conv <$> authz_QueryGranterGrantsResponse_Grants m)
  (PageResponse_conv <$> authz_QueryGranterGrantsResponse_Pagination m).
#[global] Instance api_authz_QueryGranterGrantsResponse_agrees : MessageAgrees authz_QueryGranterGrantsResponse_fields
  authz_QueryGranterGrantsResponse_zero api_authz_QueryGranterGrantsResponse_fields
  api_authz_QueryGranterGrantsResponse_zero to_api_authz_QueryGranterGrantsResponse.
Proof. message_agree. Defined.

Definition api_authz_QueryGranteeGrantsRequest_fields : list (Field api_authz_QueryGranteeGrantsRequest) := [
  pl_string_field 1 api_authz_QueryGranteeGrantsRequest_Grantee (λ v m, mk_api_authz_QueryGranteeGrantsRequest v
    (api_authz_QueryGranteeGrantsRequest_Pagination m));
  pl_pointer_field ia_methods ia_zero 2 api_authz_QueryGranteeGrantsRequest_Pagination (λ v m,
    mk_api_authz_QueryGranteeGrantsRequest (api_authz_QueryGranteeGrantsRequest_Grantee m) v)].
Definition api_authz_QueryGranteeGrantsRequest_zero : api_authz_QueryGranteeGrantsRequest := mk_api_authz_QueryGranteeGrantsRequest "" None.
#[global] Instance api_authz_QueryGranteeGrantsRequest_spec : PulsarSpec api_authz_QueryGranteeGrantsRequest_fields api_authz_QueryGranteeGrantsRequest_zero.
Proof. pulsar_spec. Defined.
Definition api_authz_QueryGranteeGrantsRequest_reflect : list (RField I api_authz_QueryGranteeGrantsRequest) := [
  r_string "xion.indexer.authz.v1.QueryGranteeGrantsRequest.grantee" api_authz_QueryGranteeGrantsRequest_Grantee (λ v
    m, mk_api_authz_QueryGranteeGrantsRequest v (api_authz_QueryGranteeGrantsRequest_Pagination m));
  r_message ia_zero "xion.indexer.authz.v1.QueryGranteeGrantsRequest.pagination"
    api_authz_QueryGranteeGrantsRequest_Pagination (λ v m, mk_api_authz_QueryGranteeGrantsRequest
    (api_authz_QueryGranteeGrantsRequest_Grantee m) v)].
#[global] Instance api_authz_QueryGranteeGrantsRequest_reflect_spec : ReflectSpec
  api_authz_QueryGranteeGrantsRequest_reflect api_authz_QueryGranteeGrantsRequest_zero.
Proof. reflect_spec. Defined.
Definition to_api_authz_QueryGranteeGrantsRequest (m : authz_QueryGranteeGrantsRequest) :
  api_authz_QueryGranteeGrantsRequest := mk_api_authz_QueryGranteeGrantsRequest
  (authz_QueryGranteeGrantsRequest_Grantee m) (PageRequest_conv <$> authz_QueryGranteeGrantsRequest_Pagination m).
#[global] Instance api_authz_QueryGranteeGrantsRequest_agrees : MessageAgrees authz_QueryGranteeGrantsRequest_fields
  authz_QueryGranteeGrantsRequest_zero api_authz_QueryGranteeGrantsRequest_fields
  api_authz_QueryGranteeGrantsRequest_zero to_api_authz_QueryGranteeGrantsRequest.
Proof. message_agree. Defined.

Definition api_authz_QueryGranteeGrantsResponse_fields : list (Field api_authz_QueryGranteeGrantsResponse) := [
  pl_messages_field ia_methods ia_zero 1 api_authz_QueryGranteeGrantsResponse_Grants (λ v m,
    mk_api_authz_QueryGranteeGrantsResponse v (api_authz_QueryGranteeGrantsResponse_Pagination m));
  pl_pointer_field ia_methods ia_zero 2 api_authz_QueryGranteeGrantsResponse_Pagination (λ v m,
    mk_api_authz_QueryGranteeGrantsResponse (api_authz_QueryGranteeGrantsResponse_Grants m) v)].
Definition api_authz_QueryGranteeGrantsResponse_zero : api_authz_QueryGranteeGrantsResponse := mk_api_authz_QueryGranteeGrantsResponse [] None.
#[global] Instance api_authz_QueryGranteeGrantsResponse_spec : PulsarSpec api_authz_QueryGranteeGrantsResponse_fields api_authz_QueryGranteeGrantsResponse_zero.
Proof. pulsar_spec. Defined.
Definition api_authz_QueryGranteeGrantsResponse_reflect : list (RField I api_authz_QueryGranteeGrantsResponse) := [
  r_messages "_QueryGranteeGrantsResponse_1_list" "xion.indexer.authz.v1.QueryGranteeGrantsResponse.grants"
    api_authz_QueryGranteeGrantsResponse_Grants (λ v m, mk_api_authz_QueryGranteeGrantsResponse v
    (api_authz_QueryGranteeGrantsResponse_Pagination m));
  r_message ia_zero "xion.indexer.authz.v1.QueryGranteeGrantsResponse.pagination"
    api_authz_QueryGranteeGrantsResponse_Pagination (λ v m, mk_api_authz_QueryGranteeGrantsResponse
    (api_authz_QueryGranteeGrantsResponse_Grants m) v)].
#[global] Instance api_authz_QueryGranteeGrantsResponse_reflect_spec : ReflectSpec
  api_authz_QueryGranteeGrantsResponse_reflect api_authz_QueryGranteeGrantsResponse_zero.
Proof. reflect_spec. Defined.
Definition api_authz_QueryGranteeGrantsResponse_1_list : ListKind I (option GrantAuthorization_api) := message_list ia_zero.
Definition to_api_authz_QueryGranteeGrantsResponse (m : authz_QueryGranteeGrantsResponse) :
  api_authz_QueryGranteeGrantsResponse := mk_api_authz_QueryGranteeGrantsResponse
  (GrantAuthorization_conv <$> authz_QueryGranteeGrantsResponse_Grants m)
  (PageResponse_conv <$> authz_QueryGranteeGrantsResponse_Pagination m).
#[global] Instance api_authz_QueryGranteeGrantsResponse_agrees : MessageAgrees authz_QueryGranteeGrantsResponse_fields
  authz_QueryGranteeGrantsResponse_zero api_authz_QueryGranteeGrantsResponse_fields
  api_authz_QueryGranteeGrantsResponse_zero to_api_authz_QueryGranteeGrantsResponse.
Proof. message_agree. Defined.

(** ** [api/xion/indexer/feegrant/v1/query.pulsar.go] *)
Definition api_feegrant_QueryAllowanceRequest_fields : list (Field api_feegrant_QueryAllowanceRequest) := [
  pl_string_field 1 api_feegrant_QueryAllowanceRequest_Granter (λ v m, mk_api_feegrant_QueryAllowanceRequest v
    (api_feegrant_QueryAllowanceRequest_Grantee m));
  pl_string_field 2 api_feegrant_QueryAllowanceRequest_Grantee (λ v m, mk_api_feegrant_QueryAllowanceRequest
    (api_feegrant_QueryAllowanceRequest_Granter m) v)].
Definition api_feegrant_QueryAllowanceRequest_zero : api_feegrant_QueryAllowanceRequest := mk_api_feegrant_QueryAllowanceRequest "" "".
#[global] Instance api_feegrant_QueryAllowanceRequest_spec : PulsarSpec api_feegrant_QueryAllowanceRequest_fields api_feegrant_QueryAllowanceRequest_zero.
Proof. pulsar_spec. Defined.
Definition api_feegrant_QueryAllowanceRequest_reflect : list (RField I api_feegrant_QueryAllowanceRequest) := [
  r_string "xion.indexer.feegrant.v1.QueryAllowanceRequest.granter" api_feegrant_QueryAllowanceRequest_Granter (λ v m,
    mk_api_feegrant_QueryAllowanceRequest v (api_feegrant_QueryAllowanceRequest_Grantee m));
  r_string "xion.indexer.feegrant.v1.QueryAllowanceRequest.grantee" api_feegrant_QueryAllowanceRequest_Grantee (λ v m,
    mk_api_feegrant_QueryAllowanceRequest (api_feegrant_QueryAllowanceRequest_Granter m) v)].
#[global] Instance api_feegrant_QueryAllowanceRequest_reflect_spec : ReflectSpec
  api_feegrant_QueryAllowanceRequest_reflect api_feegrant_QueryAllowanceRequest_zero.
Proof. reflect_spec. Defined.
Definition to_api_feegrant_QueryAllowanceRequest (m : feegrant_QueryAllowanceRequest) :
  api_feegrant_QueryAllowanceRequest := mk_api_feegrant_QueryAllowanceRequest
  (feegrant_QueryAllowanceRequest_Granter m) (feegrant_QueryAllowanceRequest_Grantee m).
#[global] Instance api_feegrant_QueryAllowanceRequest_agrees : MessageAgrees feegrant_QueryAllowanceRequest_fields
  feegrant_QueryAllowanceRequest_zero api_feegrant_QueryAllowanceRequest_fields
  api_feegrant_QueryAllowanceRequest_zero to_api_feegrant_QueryAllowanceRequest.
Proof. message_agree. Defined.

Definition api_feegrant_QueryAllowanceResponse_fields : list (Field api_feegrant_QueryAllowanceResponse) := [
  pl_pointer_field ia_methods ia_zero 1 api_feegrant_QueryAllowanceResponse_Allowance (λ v _,
    mk_api_feegrant_QueryAllowanceResponse v)].
Definition api_feegrant_QueryAllowanceResponse_zero : api_feegrant_QueryAllowanceResponse := mk_api_feegrant_QueryAllowanceResponse None.
#[global] Instance api_feegrant_QueryAllowanceResponse_spec : PulsarSpec api_feegrant_QueryAllowanceResponse_fields api_feegrant_QueryAllowanceResponse_zero.
Proof. pulsar_spec. Defined.
Definition api_feegrant_QueryAllowanceResponse_reflect : list (RField I api_feegrant_QueryAllowanceResponse) := [
  r_message ia_zero "xion.indexer.feegrant.v1.QueryAllowanceResponse.allowance"
    api_feegrant_QueryAllowanceResponse_Allowance (λ v _, mk_api_feegrant_QueryAllowanceResponse v)].
#[global] Instance api_feegrant_QueryAllowanceResponse_reflect_spec : ReflectSpec
  api_feegrant_QueryAllowanceResponse_reflect api_feegrant_QueryAllowanceResponse_zero.
Proof. reflect_spec. Defined.
Definition to_api_feegrant_QueryAllowanceResponse (m : feegrant_QueryAllowanceResponse) :
  api_feegrant_QueryAllowanceResponse := mk_api_feegrant_QueryAllowanceResponse
  (FeeGrant_conv <$> feegrant_QueryAllowanceResponse_Allowance m).
#[global] Instance api_feegrant_QueryAllowanceResponse_agrees : MessageAgrees feegrant_QueryAllowanceResponse_fields
  feegrant_QueryAllowanceResponse_zero api_feegrant_QueryAllowanceResponse_fields
  api_feegrant_QueryAllowanceResponse_zero to_api_feegrant_QueryAllowanceResponse.
Proof. message_agree. Defined.

Definition api_feegrant_QueryAllowancesRequest_fields : list (Field api_feegrant_QueryAllowancesRequest) := [
  pl_string_field 1 api_feegrant_QueryAllowancesRequest_Grantee (λ v m, mk_api_feegrant_QueryAllowancesRequest v
    (api_feegrant_QueryAllowancesRequest_Pagination m));
  pl_pointer_field ia_methods ia_zero 2 api_feegrant_QueryAllowancesRequest_Pagination (λ v m,
    mk_api_feegrant_QueryAllowancesRequest (api_feegrant_QueryAllowancesRequest_Grantee m) v)].
Definition api_feegrant_QueryAllowancesRequest_zero : api_feegrant_QueryAllowancesRequest := mk_api_feegrant_QueryAllowancesRequest "" None.
#[global] Instance api_feegrant_QueryAllowancesRequest_spec : PulsarSpec api_feegrant_QueryAllowancesRequest_fields api_feegrant_QueryAllowancesRequest_zero.
Proof. pulsar_spec. Defined.
Definition api_feegrant_QueryAllowancesRequest_reflect : list (RField I api_feegrant_QueryAllowancesRequest) := [
  r_string "xion.indexer.feegrant.v1.QueryAllowancesRequest.grantee" api_feegrant_QueryAllowancesRequest_Grantee (λ v
    m, mk_api_feegrant_QueryAllowancesRequest v (api_feegrant_QueryAllowancesRequest_Pagination m));
  r_message ia_zero "xion.indexer.feegrant.v1.QueryAllowancesRequest.pagination"
    api_feegrant_QueryAllowancesRequest_Pagination (λ v m, mk_api_feegrant_QueryAllowancesRequest
    (api_feegrant_QueryAllowancesRequest_Grantee m) v)].
#[global] Instance api_feegrant_QueryAllowancesRequest_reflect_spec : ReflectSpec
  api_feegrant_QueryAllowancesRequest_reflect api_feegrant_QueryAllowancesRequest_zero.
Proof. reflect_spec. Defined.
Definition to_api_feegrant_QueryAllowancesRequest (m : feegrant_QueryAllowancesRequest) :
  api_feegrant_QueryAllowancesRequest := mk_api_feegrant_QueryAllowancesRequest
  (feegrant_QueryAllowancesRequest_Grantee m) (PageRequest_conv <$> feegrant_QueryAllowancesRequest_Pagination m).
#[global] Instance api_feegrant_QueryAllowancesRequest_agrees : MessageAgrees feegrant_QueryAllowancesRequest_fields
  feegrant_QueryAllowancesRequest_zero api_feegrant_QueryAllowancesRequest_fields
  api_feegrant_QueryAllowancesRequest_zero to_api_feegrant_QueryAllowancesRequest.
Proof. message_agree. Defined.

Definition api_feegrant_QueryAllowancesResponse_fields : list (Field api_feegrant_QueryAllowancesResponse) := [
  pl_messages_field ia_methods ia_zero 1 api_feegrant_QueryAllowancesResponse_Allowances (λ v m,
    mk_api_feegrant_QueryAllowancesResponse v (api_feegrant_QueryAllowancesResponse_Pagination m));
  pl_pointer_field ia_methods ia_zero 2 api_feegrant_QueryAllowancesResponse_Pagination (λ v m,
    mk_api_feegrant_QueryAllowancesResponse (api_feegrant_QueryAllowancesResponse_Allowances m) v)].
Definition api_feegrant_QueryAllowancesResponse_zero : api_feegrant_QueryAllowancesResponse := mk_api_feegrant_QueryAllowancesResponse [] None.
#[global] Instance api_feegrant_QueryAllowancesResponse_spec : PulsarSpec api_feegrant_QueryAllowancesResponse_fields api_feegrant_QueryAllowancesResponse_zero.
Proof. pulsar_spec. Defined.
Definition api_feegrant_QueryAllowancesResponse_reflect : list (RField I api_feegrant_QueryAllowancesResponse) := [
  r_messages "_QueryAllowancesResponse_1_list" "xion.indexer.feegrant.v1.QueryAllowancesResponse.allowances"
    api_feegrant_QueryAllowancesResponse_Allowances (λ v m, mk_api_feegrant_QueryAllowancesResponse v
    (api_feegrant_QueryAllowancesResponse_Pagination m));
  r_message ia_zero "xion.indexer.feegrant.v1.QueryAllowancesResponse.pagination"
    api_feegrant_QueryAllowancesResponse_Pagination (λ v m, mk_api_feegrant_QueryAllowancesResponse
    (api_feegrant_QueryAllowancesResponse_Allowances m) v)].
#[global] Instance api_feegrant_QueryAllowancesResponse_reflect_spec : ReflectSpec
  api_feegrant_QueryAllowancesResponse_reflect api_feegrant_QueryAllowancesResponse_zero.
Proof. reflect_spec. Defined.
Definition api_feegrant_QueryAllowancesResponse_1_list : ListKind I (option FeeGrant_api) := message_list ia_zero.
Definition to_api_feegrant_QueryAllowancesResponse (m : feegrant_QueryAllowancesResponse) :
  api_feegrant_QueryAllowancesResponse := mk_api_feegrant_QueryAllowancesResponse
  (FeeGrant_conv <$> feegrant_QueryAllowancesResponse_Allowances m)
  (PageResponse_conv <$> feegrant_QueryAllowancesResponse_Pagination m).
#[global] Instance api_feegrant_QueryAllowancesResponse_agrees : MessageAgrees feegrant_QueryAllowancesResponse_fields
  feegrant_QueryAllowancesResponse_zero api_feegrant_QueryAllowancesResponse_fields
  api_feegrant_QueryAllowancesResponse_zero to_api_feegrant_QueryAllowancesResponse.
Proof. message_agree. Defined.

Definition api_feegrant_QueryAllowancesByGranterRequest_fields : list (Field api_feegrant_QueryAllowancesByGranterRequest) := [
  pl_string_field 1 api_feegrant_QueryAllowancesByGranterRequest_Granter (λ v m,
    mk_api_feegrant_QueryAllowancesByGranterRequest v (api_feegrant_QueryAllowancesByGranterRequest_Pagination m));
  pl_pointer_field ia_methods ia_zero 2 api_feegrant_QueryAllowancesByGranterRequest_Pagination (λ v m,
    mk_api_feegrant_QueryAllowancesByGranterRequest (api_feegrant_QueryAllowancesByGranterRequest_Granter m) v)].
Definition api_feegrant_QueryAllowancesByGranterRequest_zero : api_feegrant_QueryAllowancesByGranterRequest := mk_api_feegrant_QueryAllowancesByGranterRequest "" None.
#[global] Instance api_feegrant_QueryAllowancesByGranterRequest_spec : PulsarSpec api_feegrant_QueryAllowancesByGranterRequest_fields api_feegrant_QueryAllowancesByGranterRequest_zero.
Proof. pulsar_spec. Defined.
Definition api_feegrant_QueryAllowancesByGranterRequest_reflect : list (RField I api_feegrant_QueryAllowancesByGranterRequest) := [
  r_string "xion.indexer.feegrant.v1.QueryAllowancesByGranterRequest.granter"
    api_feegrant_QueryAllowancesByGranterRequest_Granter (λ v m, mk_api_feegrant_QueryAllowancesByGranterRequest v
    (api_feegrant_QueryAllowancesByGranterRequest_Pagination m));
  r_message ia_zero "xion.indexer.feegrant.v1.QueryAllowancesByGranterRequest.pagination"
    api_feegrant_QueryAllowancesByGranterRequest_Pagination (λ v m, mk_api_feegrant_QueryAllowancesByGranterRequest
    (api_feegrant_QueryAllowancesByGranterRequest_Granter m) v)].
#[global] Instance api_feegrant_QueryAllowancesByGranterRequest_reflect_spec : ReflectSpec
  api_feegrant_QueryAllowancesByGranterRequest_reflect api_feegrant_QueryAllowancesByGranterRequest_zero.
Proof. reflect_spec. Defined.
Definition to_api_feegrant_QueryAllowancesByGranterRequest (m : feegrant_QueryAllowancesByGranterRequest) :
  api_feegrant_QueryAllowancesByGranterRequest := mk_api_feegrant_QueryAllowancesByGranterRequest
  (feegrant_QueryAllowancesByGranterRequest_Granter m)
  (PageRequest_conv <$> feegrant_QueryAllowancesByGranterRequest_Pagination m).
#[global] Instance api_feegrant_QueryAllowancesByGranterRequest_agrees : MessageAgrees
  feegrant_QueryAllowancesByGranterRequest_fields feegrant_QueryAllowancesByGranterRequest_zero
  api_feegrant_QueryAllowancesByGranterRequest_fields api_feegrant_QueryAllowancesByGranterRequest_zero
  to_api_feegrant_QueryAllowancesByGranterRequest.
Proof. message_agree. Defined.

Definition api_feegrant_QueryAllowancesByGranterResponse_fields : list (Field api_feegrant_QueryAllowancesByGranterResponse) := [
  pl_messages_field ia_methods ia_zero 1 api_feegrant_QueryAllowancesByGranterResponse_Allowances (λ v m,
    mk_api_feegrant_QueryAllowancesByGranterResponse v (api_feegrant_QueryAllowancesByGranterResponse_Pagination m));
  pl_pointer_field ia_methods ia_zero 2 api_feegrant_QueryAllowancesByGranterResponse_Pagination (λ v m,
    mk_api_feegrant_QueryAllowancesByGranterResponse (api_feegrant_QueryAllowancesByGranterResponse_Allowances m) v)].
Definition api_feegrant_QueryAllowancesByGranterResponse_zero : api_feegrant_QueryAllowancesByGranterResponse := mk_api_feegrant_QueryAllowancesByGranterResponse [] None.
#[global] Instance api_feegrant_QueryAllowancesByGranterResponse_spec : PulsarSpec api_feegrant_QueryAllowancesByGranterResponse_fields api_feegrant_QueryAllowancesByGranterResponse_zero.
Proof. pulsar_spec. Defined.
Definition api_feegrant_QueryAllowancesByGranterResponse_reflect : list (RField I api_feegrant_QueryAllowancesByGranterResponse) := [
  r_messages "_QueryAllowancesByGranterResponse_1_list"
    "xion.indexer.feegrant.v1.QueryAllowancesByGranterResponse.allowances"
    api_feegrant_QueryAllowancesByGranterResponse_Allowances (λ v m, mk_api_feegrant_QueryAllowancesByGranterResponse
    v (api_feegrant_QueryAllowancesByGranterResponse_Pagination m));
  r_message ia_zero "xion.indexer.feegrant.v1.QueryAllowancesByGranterResponse.pagination"
    api_feegrant_QueryAllowancesByGranterResponse_Pagination (λ v m, mk_api_feegrant_QueryAllowancesByGranterResponse
    (api_feegrant_QueryAllowancesByGranterResponse_Allowances m) v)].
#[global] Instance api_feegrant_QueryAllowancesByGranterResponse_reflect_spec : ReflectSpec
  api_feegrant_QueryAllowancesByGranterResponse_reflect api_feegrant_QueryAllowancesByGranterResponse_zero.
Proof. reflect_spec. Defined.
Definition api_feegrant_QueryAllowancesByGranterResponse_1_list : ListKind I (option FeeGrant_api) := message_list ia_zero.
Definition to_api_feegrant_QueryAllowancesByGranterResponse (m : feegrant_QueryAllowancesByGranterResponse) :
  api_feegrant_QueryAllowancesByGranterResponse := mk_api_feegrant_QueryAllowancesByGranterResponse
  (FeeGrant_conv <$> feegrant_QueryAllowancesByGranterResponse_Allowances m)
  (PageResponse_conv <$> feegrant_QueryAllowancesByGranterResponse_Pagination m).
#[global] Instance api_feegrant_QueryAllowancesByGranterResponse_agrees : MessageAgrees
  feegrant_QueryAllowancesByGranterResponse_fields feegrant_QueryAllowancesByGranterResponse_zero
  api_feegrant_QueryAllowancesByGranterResponse_fields api_feegrant_QueryAllowancesByGranterResponse_zero
  to_api_feegrant_QueryAllowancesByGranterResponse.
Proof. message_agree. Defined.

(** ** The message types *)
Definition api_indexer_messages : list (ApiMessage I) := [
  api_message authz_QueryGrantsRequest_fields authz_QueryGrantsRequest_zero api_authz_QueryGrantsRequest_fields api_authz_QueryGrantsRequest_zero api_authz_QueryGrantsRequest_reflect to_api_authz_QueryGrantsRequest;
  api_message authz_QueryGrantsResponse_fields authz_QueryGrantsResponse_zero api_authz_QueryGrantsResponse_fields api_authz_QueryGrantsResponse_zero api_authz_QueryGrantsResponse_reflect to_api_authz_QueryGrantsResponse;
  api_message authz_QueryGranterGrantsRequest_fields authz_QueryGranterGrantsRequest_zero api_authz_QueryGranterGrantsRequest_fields api_authz_QueryGranterGrantsRequest_zero api_authz_QueryGranterGrantsRequest_reflect to_api_authz_QueryGranterGrantsRequest;
  api_message authz_QueryGranterGrantsResponse_fields authz_QueryGranterGrantsResponse_zero api_authz_QueryGranterGrantsResponse_fields api_authz_QueryGranterGrantsResponse_zero api_authz_QueryGranterGrantsResponse_reflect to_api_authz_QueryGranterGrantsResponse;
  api_message authz_QueryGranteeGrantsRequest_fields authz_QueryGranteeGrantsRequest_zero api_authz_QueryGranteeGrantsRequest_fields api_authz_QueryGranteeGrantsRequest_zero api_authz_QueryGranteeGrantsRequest_reflect to_api_authz_QueryGranteeGrantsRequest;
  api_message authz_QueryGranteeGrantsResponse_fields authz_QueryGranteeGrantsResponse_zero api_authz_QueryGranteeGrantsResponse_fields api_authz_QueryGranteeGrantsResponse_zero api_authz_QueryGranteeGrantsResponse_reflect to_api_authz_QueryGranteeGrantsResponse;
  api_message feegrant_QueryAllowanceRequest_fields feegrant_QueryAllowanceRequest_zero api_feegrant_QueryAllowanceRequest_fields api_feegrant_QueryAllowanceRequest_zero api_feegrant_QueryAllowanceRequest_reflect to_api_feegrant_QueryAllowanceRequest;
  api_message feegrant_QueryAllowanceResponse_fields feegrant_QueryAllowanceResponse_zero api_feegrant_QueryAllowanceResponse_fields api_feegrant_QueryAllowanceResponse_zero api_feegrant_QueryAllowanceResponse_reflect to_api_feegrant_QueryAllowanceResponse;
  api_message feegrant_QueryAllowancesRequest_fields feegrant_QueryAllowancesRequest_zero api_feegrant_QueryAllowancesRequest_fields api_feegrant_QueryAllowancesRequest_zero api_feegrant_QueryAllowancesRequest_reflect to_api_feegrant_QueryAllowancesRequest;
  api_message feegrant_QueryAllowancesResponse_fields feegrant_QueryAllowancesResponse_zero api_feegrant_QueryAllowancesResponse_fields api_feegrant_QueryAllowancesResponse_zero api_feegrant_QueryAllowancesResponse_reflect to_api_feegrant_QueryAllowancesResponse;
  api_message feegrant_QueryAllowancesByGranterRequest_fields feegrant_QueryAllowancesByGranterRequest_zero api_feegrant_QueryAllowancesByGranterRequest_fields api_feegrant_QueryAllowancesByGranterRequest_zero api_feegrant_QueryAllowancesByGranterRequest_reflect to_api_feegrant_QueryAllowancesByGranterRequest;
  api_message feegrant_QueryAllowancesByGranterResponse_fields feegrant_QueryAllowancesByGranterResponse_zero api_feegrant_QueryAllowancesByGranterResponse_fields api_feegrant_QueryAllowancesByGranterResponse_zero api_feegrant_QueryAllowancesByGranterResponse_reflect to_api_feegrant_QueryAllowancesByGranterResponse
  ].

Lemma api_indexer_messages_ok : Forall api_message_ok api_indexer_messages.
Proof. api_messages_ok. Qed.

(** ** The lists *)
Definition api_indexer_lists : list (ApiList I) := [ mkApiList api_authz_QueryGrantsResponse_1_list;
  mkApiList api_authz_QueryGranterGrantsResponse_1_list; mkApiList api_authz_QueryGranteeGrantsResponse_1_list;
  mkApiList api_feegrant_QueryAllowancesResponse_1_list;
  mkApiList api_feegrant_QueryAllowancesByGranterResponse_1_list ].
Lemma api_indexer_lists_ok : Forall api_list_ok api_indexer_lists.
Proof. repeat (apply List.Forall_cons; [apply api_list_is_ok; apply _|]). apply List.Forall_nil. Qed.
End api.
