(* ===== verification/FeeAbsIbc.v ===== *)
(** * x/feeabs/types: interchain queries, proposals and the memo of a swap

    Models x/feeabs/types/ibc.go and proposal.go over the generated code of
    [ProtoFeeAbs.v], and build_memo.go over the encoder of [GoJson.v].  Requests and responses of the ABCI, the time codec and the checks
    that governance makes on every proposal belong to dependencies. *)

From S2P Require Import Prelude GoStd GoJson ProtoWire ProtoCodec Sdk SdkModel FeeAbs ProtoFeeAbs.

(** ** Interchain queries *)
Section ibc.
Context {RequestQuery ResponseQuery : Type}.
Context `{Iq : !ImportedMsg RequestQuery, Ir : !ImportedMsg ResponseQuery}.
Context (time_codec : CustomCodec Z).

Definition NewQueryArithmeticTwapToNowRequest (poolID : Z) (baseDenom quoteDenom : string) (startTime : Z) :
    feeabs_QueryArithmeticTwapToNowRequest :=
  mk_feeabs_QueryArithmeticTwapToNowRequest poolID baseDenom quoteDenom startTime.

(** [ModuleCdc.MustMarshal(&p)] *)
Definition QueryArithmeticTwapToNowRequest_GetBytes (p : feeabs_QueryArithmeticTwapToNowRequest) : outcome bytes :=
  match msg_Marshal (feeabs_QueryArithmeticTwapToNowRequest_fields time_codec) p with Ok bz => Ok bz | _ => Panic end.

Definition SerializeCosmosQuery (reqs : list RequestQuery) : outcome bytes :=
  msg_Marshal feeabs_CosmosQuery_fields (mk_feeabs_CosmosQuery reqs).

Definition DeserializeCosmosQuery (bz : bytes) : outcome (list RequestQuery) :=
  q ← msg_Unmarshal feeabs_CosmosQuery_fields feeabs_CosmosQuery_zero bz;
  Ok (feeabs_CosmosQuery_Requests q).

Definition SerializeCosmosResponse (resps : list ResponseQuery) : outcome bytes :=
  msg_Marshal feeabs_CosmosResponse_fields (mk_feeabs_CosmosResponse resps).

Definition DeserializeCosmosResponse (bz : bytes) : outcome (list ResponseQuery) :=
  r ← msg_Unmarshal feeabs_CosmosResponse_fields feeabs_CosmosResponse_zero bz;
  Ok (feeabs_CosmosResponse_Responses r).

Definition NewInterchainQueryRequest (path data : string) : feeabs_InterchainQueryRequest :=
  mk_feeabs_InterchainQueryRequest data path.

Definition NewInterchainQueryPacketData (data memo : string) : feeabs_InterchainQueryPacketData :=
  mk_feeabs_InterchainQueryPacketData data memo.

Context `{Lq : !ImportedLaws RequestQuery, Lr : !ImportedLaws ResponseQuery}.

(** A list of queries, and a list of answers, is recovered from its bytes; other bytes
    give a list or an error. *)
Theorem cosmos_queries_roundtrip (reqs : list RequestQuery) (resps : list ResponseQuery) :
  encodable feeabs_CosmosQuery_fields feeabs_CosmosQuery_zero (mk_feeabs_CosmosQuery reqs) →
  encodable feeabs_CosmosResponse_fields feeabs_CosmosResponse_zero (mk_feeabs_CosmosResponse resps) →
  (∃ bz, SerializeCosmosQuery reqs = Ok bz ∧ DeserializeCosmosQuery bz = Ok reqs) ∧
  (∃ bz, SerializeCosmosResponse resps = Ok bz ∧ DeserializeCosmosResponse bz = Ok resps) ∧
  (∀ bz, llen bz < 2 ^ 63 → DeserializeCosmosQuery bz ≠ Panic ∧ DeserializeCosmosResponse bz ≠ Panic).
Proof.
  intros Hq Hr. split_and!.
  - destruct (msg_roundtrips feeabs_CosmosQuery_fields feeabs_CosmosQuery_zero _ Hq) as (bz&E1&_&E2&_).
    exists bz. split; [exact E1|]. unfold DeserializeCosmosQuery. cbn in E2. by rewrite E2.
  - destruct (msg_roundtrips feeabs_CosmosResponse_fields feeabs_CosmosResponse_zero _ Hr) as (bz&E1&_&E2&_).
    exists bz. split; [exact E1|]. unfold DeserializeCosmosResponse. cbn in E2. by rewrite E2.
  - intros bz Hl.
    split; [apply (msg_no_panic feeabs_CosmosQuery_fields feeabs_CosmosQuery_zero)
           |apply (msg_no_panic feeabs_CosmosResponse_fields feeabs_CosmosResponse_zero)]; exact Hl.
Qed.
End ibc.

(** ** Proposals *)

(** [v1beta1types.ValidateAbstract] on the title and the description *)
Class GovContent := ValidateAbstract : string → string → outcome unit.

Definition ProposalTypeAddHostZone : string := "AddHostZone".
Definition ProposalTypeDeleteHostZone : string := "DeleteHostZone".
Definition ProposalTypeSetHostZone : string := "SetHostZone".

Inductive Proposal :=
| AddHostZone (p : feeabs_AddHostZoneProposal)
| DeleteHostZone (p : feeabs_DeleteHostZoneProposal)
| SetHostZone (p : feeabs_SetHostZoneProposal).

Definition NewAddHostZoneProposal (title description : string) (config : feeabs_HostChainFeeAbsConfig) : Proposal :=
  AddHostZone (mk_feeabs_AddHostZoneProposal title description (Some config)).
Definition NewDeleteHostZoneProposal (title description ibcDenom : string) : Proposal :=
  DeleteHostZone (mk_feeabs_DeleteHostZoneProposal title description ibcDenom).
Definition NewSetHostZoneProposal (title description : string) (config : feeabs_HostChainFeeAbsConfig) : Proposal :=
  SetHostZone (mk_feeabs_SetHostZoneProposal title description (Some config)).

Definition Proposal_GetTitle (p : Proposal) : string :=
  match p with
  | AddHostZone p => feeabs_AddHostZoneProposal_Title p
  | DeleteHostZone p => feeabs_DeleteHostZoneProposal_Title p
  | SetHostZone p => feeabs_SetHostZoneProposal_Title p
  end.
Definition Proposal_GetDescription (p : Proposal) : string :=
  match p with
  | AddHostZone p => feeabs_AddHostZoneProposal_Description p
  | DeleteHostZone p => feeabs_DeleteHostZoneProposal_Description p
  | SetHostZone p => feeabs_SetHostZoneProposal_Description p
  end.
Definition Proposal_ProposalType (p : Proposal) : string :=
  match p with
  | AddHostZone _ => ProposalTypeAddHostZone
  | DeleteHostZone _ => ProposalTypeDeleteHostZone
  | SetHostZone _ => ProposalTypeSetHostZone
  end.

(** The configuration is not looked at. *)
Definition Proposal_ValidateBasic `{!GovContent} (p : Proposal) : outcome unit :=
  _ ← ValidateAbstract (Proposal_GetTitle p) (Proposal_GetDescription p); Ok tt.

(** ** The memo of a cross-chain swap *)
Record TwapRouter := mkTwapRouter { tw_SlippagePercentage : string; tw_WindowSeconds : Z }.
Record Twap := mkTwap { tw_Twap : TwapRouter }.
Record Swap := mkSwap { sw_OutputDenom : string; sw_Slippage : Twap; sw_Receiver : string; sw_OnFailedDelivery : string }.
Record OsmosisSwapMsg := mkOsmosisSwapMsg { om_OsmosisSwap : Swap }.

(** The values of the map of a memo *)
Inductive MemoValue :=
| MemoString (s : string)
| MemoMsg (msg : OsmosisSwapMsg).
Record OsmosisSpecialMemo := mkOsmosisSpecialMemo { sm_Wasm : list (string * MemoValue) }.

Definition NewOsmosisSwapMsg (outputDenom slippagePercentage : string) (windowSeconds : Z) (receiver : string) :
    OsmosisSwapMsg :=
  mkOsmosisSwapMsg (mkSwap outputDenom (mkTwap (mkTwapRouter slippagePercentage windowSeconds)) receiver "").

(** The values that [json.Marshal] writes, by the tags of the fields *)
Definition TwapRouter_json (t : TwapRouter) : Json :=
  JStruct [("slippage_percentage", JText (tw_SlippagePercentage t)); ("window_seconds", JNumber (tw_WindowSeconds t))].
Definition Twap_json (t : Twap) : Json := JStruct [("twap", TwapRouter_json (tw_Twap t))].
Definition Swap_json (s : Swap) : Json :=
  JStruct [("output_denom", JText (sw_OutputDenom s)); ("slippage", Twap_json (sw_Slippage s));
           ("receiver", JText (sw_Receiver s)); ("on_failed_delivery", JText (sw_OnFailedDelivery s))].
Definition OsmosisSwapMsg_json (m : OsmosisSwapMsg) : Json := JStruct [("osmosis_swap", Swap_json (om_OsmosisSwap m))].
Definition MemoValue_json (v : MemoValue) : Json :=
  match v with MemoString s => JText s | MemoMsg m => OsmosisSwapMsg_json m end.

Definition OsmosisSpecialMemo_json (m : OsmosisSpecialMemo) : Json :=
  JStruct [("wasm", JStruct ((λ kv : string * MemoValue, (kv.1, MemoValue_json kv.2)) <$> sm_Wasm m))].

(** [json.Marshal] has no error for these types. *)
Definition ParseMsgToMemo (msg : OsmosisSwapMsg) (contractAddr : string) : outcome string :=
  let memo := mkOsmosisSpecialMemo [] in
  let memo := mkOsmosisSpecialMemo (map_set "contract" (MemoString contractAddr) (sm_Wasm memo)) in
  let memo := mkOsmosisSpecialMemo (map_set "msg" (MemoMsg msg) (sm_Wasm memo)) in
  Ok (json_text (OsmosisSpecialMemo_json memo)).

Definition BuildCrossChainSwapMemo (outputDenom contractAddress receiverAddress chainName : string) : outcome string :=
  let receiver := chainName +:+ "/" +:+ receiverAddress in
  let swap := mkSwap outputDenom (mkTwap (mkTwapRouter "20" 10)) receiver "do_nothing" in
  ParseMsgToMemo (mkOsmosisSwapMsg swap) contractAddress.

(** The value a memo is meant to have *)
Definition swap_memo (m : OsmosisSwapMsg) (contractAddr : string) : Json :=
  JStruct [("wasm", JStruct [("contract", JText contractAddr); ("msg", OsmosisSwapMsg_json m)])].

(** C37. Whatever bytes the denomination, the addresses and the name of the chain hold, the
    memo of a swap is JSON of exactly the intended shape: none of them can close its quotes,
    add a member or change another one. The members hold them with every byte that belongs to
    no UTF-8 character replaced by U+FFFD, hence unchanged when they are UTF-8. *)
Theorem BuildCrossChainSwapMemo_parses outputDenom contractAddress receiverAddress chainName :
  let receiver := chainName +:+ "/" +:+ receiverAddress in
  ∃ memo, BuildCrossChainSwapMemo outputDenom contractAddress receiverAddress chainName = Ok memo ∧
    json_parses memo
      (JStruct [("wasm", JStruct
        [("contract", JText (valid_utf8 contractAddress));
         ("msg", JStruct [("osmosis_swap", JStruct
            [("output_denom", JText (valid_utf8 outputDenom));
             ("slippage", JStruct [("twap", JStruct [("slippage_percentage", JText "20"); ("window_seconds", JNumber 10)])]);
             ("receiver", JText (valid_utf8 receiver));
             ("on_failed_delivery", JText "do_nothing")])])])]) ∧
    Forall (λ s, utf8_text s → valid_utf8 s = s) [outputDenom; contractAddress; receiver].
Proof.
  cbv zeta. eexists. split; [reflexivity|]. split; [|by repeat constructor; intros ?; apply valid_utf8_ok].
  set (v := swap_memo (mkOsmosisSwapMsg (mkSwap outputDenom (mkTwap (mkTwapRouter "20" 10))
    (chainName +:+ "/" +:+ receiverAddress) "do_nothing")) contractAddress).
  assert (json_bytes v) as Hv.
  { repeat first [apply JText_bytes | apply JStruct_bytes | apply Forall_cons; split | apply Forall_nil; exact I]. by constructor. }
  apply json_text_reads in Hv. unfold v, swap_memo, OsmosisSwapMsg_json, Swap_json, Twap_json, TwapRouter_json in Hv.
  repeat (rewrite JStruct_fix in Hv by (repeat constructor); cbn [fmap list_fmap fst snd] in Hv).
  rewrite !JText_fix in Hv. exact Hv.
Qed.

(** A denomination that tries to close its quotes and to name another receiver *)
Definition ex_quote : string := String (Ascii.ascii_of_nat 34) "".
Definition ex_denom : string := "uosmo" +:+ ex_quote +:+ "," +:+ ex_quote +:+ "receiver" +:+ ex_quote +:+ ":" +:+ ex_quote +:+ "mallory".

Lemma BuildCrossChainSwapMemo_parses_witness :
  ∃ memo, BuildCrossChainSwapMemo ex_denom "osmo1contract" "xion1receiver" "feeabs" = Ok memo ∧
    json_parses memo (swap_memo (mkOsmosisSwapMsg (mkSwap ex_denom (mkTwap (mkTwapRouter "20" 10))
      "feeabs/xion1receiver" "do_nothing")) "osmo1contract").
Proof.
  destruct (BuildCrossChainSwapMemo_parses ex_denom "osmo1contract" "xion1receiver" "feeabs") as (memo & E & H & _).
  exists memo. split; [exact E|exact H].
Defined.
