(* ===== verification/Modules.v ===== *)
(** * The modules as the application sees them

    The methods of [AppModule] and [AppModuleBasic] in x/zk/module.go, x/dkim/module.go,
    x/jwk/module.go, x/globalfee/module.go and x/xion/module.go that reach the state: the
    genesis file as JSON, its validation, import and export, and the migrations that
    [RegisterServices] announces. *)

From S2P Require Import Prelude GoStd Sdk SdkModel PlatformFee ZkTypes ZkDefault ZkKeeper DkimTypes DkimKeeper ProtoJwk Jwk GlobalFee.

(** ** The codec *)

(** [codec.JSONCodec] on the messages of type [G] *)
Class JSONCodec (G : Type) := {
  MarshalJSON : G → outcome string;
  UnmarshalJSON : string → outcome G;
}.
Class JSONCodecLaws (G : Type) `{!JSONCodec G} := {
  json_roundtrip g bz : MarshalJSON g = Ok bz → UnmarshalJSON bz = Ok g;
}.

Definition MustMarshalJSON {G} `{!JSONCodec G} (g : G) : outcome string := or_panic (MarshalJSON g).
Definition MustUnmarshalJSON {G} `{!JSONCodec G} (bz : string) : outcome G := or_panic (UnmarshalJSON bz).

(** ** The interface *)
Record AppModule (S : Type) := mkAppModule {
  DefaultGenesis : outcome string;
  ValidateGenesis : string → outcome unit;
  InitGenesis : string → M S unit;
  ExportGenesis : S → outcome string;
  ConsensusVersion : Z;
  (** what [RegisterMigration] gets *)
  migrations : list (Z * M S unit);
}.
Arguments mkAppModule {S}.
Arguments DefaultGenesis {S}.
Arguments ValidateGenesis {S}.
Arguments InitGenesis {S}.
Arguments ExportGenesis {S}.
Arguments ConsensusVersion {S}.
Arguments migrations {S}.

(** The default file passes the validation, and a node starts with it. *)
Definition starts {S} (m : AppModule S) : Prop := ∀ bz, DefaultGenesis m = Ok bz →
  ValidateGenesis m bz = Ok tt ∧ ∀ s, ∃ s', InitGenesis m bz s = (s', Ok tt).
(** There is one migration from every version before the present one. *)
Definition upgradable {S} (m : AppModule S) : Prop := (migrations m).*1 = seqZ 1 (ConsensusVersion m - 1).

(** ** x/zk *)
Section zk.
Context `{!ZkCrypto, !AddressCodec, !JSONCodec ZkGenesis}.
Context {VC NC SQ PI G : Type}.
Context `{!CollMap Z VKey VC, !CollMap string Z NC, !CollSequence SQ, !CollItem ZkParams PI, !GasMeter G}.
Context (authority : string).
Abbreviation St := (ZkState VC NC SQ PI G).

Definition zk_module_DefaultGenesis : outcome string := gs ← ZkDefaultGenesisState; MustMarshalJSON gs.
Definition zk_module_ValidateGenesis (message : string) : outcome unit :=
  data ← (UnmarshalJSON message : outcome ZkGenesis);
  ZkGenesis_Validate data.
Definition zk_module_InitGenesis (message : string) : M St unit :=
  genesisState ← lift (MustUnmarshalJSON message);
  zk_InitGenesis authority genesisState.
Definition zk_module_ExportGenesis (s : St) : outcome string := gs ← zk_ExportGenesis s; MustMarshalJSON gs.
Definition zk_module_RegisterServices : list (Z * M St unit) := [(1, zk_v2_MigrateStore); (2, zk_v3_MigrateStore)].
Definition zk_AppModule : AppModule St :=
  mkAppModule zk_module_DefaultGenesis zk_module_ValidateGenesis zk_module_InitGenesis zk_module_ExportGenesis 3
    zk_module_RegisterServices.
End zk.

(** ** x/dkim *)
Section dkim.
Context `{!DkimCrypto, !JSONCodec DkimGenesis}.
Context {DC RC PC : Type}.
Context `{!PairMap DkimPubKey DC, !CollMap string bool RC, !CollItem DkimParams PC}.
Abbreviation St := (DkimState DC RC PC).

Definition dkim_module_DefaultGenesis : outcome string := MustMarshalJSON (mkDkimGenesis [] DkimDefaultParams []).
Definition dkim_module_ValidateGenesis (message : string) : outcome unit :=
  data ← (UnmarshalJSON message : outcome DkimGenesis);
  DkimGenesis_Validate data.
(** Not [Keeper.InitGenesis]: the collections are written here. *)
Definition dkim_module_InitGenesis (message : string) : M St unit :=
  genesisState ← lift (MustUnmarshalJSON message);
  _ ← must (DkimParams_Set (dg_Params genesisState));
  must (SaveDkimPubKeys (dg_DkimPubkeys genesisState)).
Definition dkim_module_ExportGenesis (s : St) : outcome string := genState ← dkim_ExportGenesis s; MustMarshalJSON genState.
Definition dkim_module_RegisterServices : list (Z * M St unit) := [(1, dkim_v2_MigrateStore)].
Definition dkim_AppModule : AppModule St :=
  mkAppModule dkim_module_DefaultGenesis dkim_module_ValidateGenesis dkim_module_InitGenesis dkim_module_ExportGenesis 2
    dkim_module_RegisterServices.
End dkim.

(** ** x/jwk *)
Section jwk.
Context `{!JwkCrypto, !AddressCodec, !JSONCodec JwkGenesis}.
Context {S P G : Type} `{!KVStore S, !Subspace P, !GasMeter G}.
Abbreviation St := (JwkState S P G).

Definition jwk_module_DefaultGenesis : outcome string := MustMarshalJSON JwkDefaultGenesis.
Definition jwk_module_ValidateGenesis (bz : string) : outcome unit :=
  genState ← map_err (λ _, Plain "failed to unmarshal jwk genesis state") (UnmarshalJSON bz : outcome JwkGenesis);
  JwkGenesis_Validate genState.
Definition jwk_module_InitGenesis (gs : string) : M St unit :=
  genState ← lift (MustUnmarshalJSON gs);
  jwk_InitGenesis genState.
Definition jwk_module_ExportGenesis (s : St) : outcome string := genState ← jwk_ExportGenesis s; MustMarshalJSON genState.
Definition jwk_module_RegisterServices : list (Z * M St unit) := [(1, jwk_v1_MigrateStore); (2, jwk_v3_MigrateStore)].
Definition jwk_AppModule : AppModule St :=
  mkAppModule jwk_module_DefaultGenesis jwk_module_ValidateGenesis jwk_module_InitGenesis jwk_module_ExportGenesis 3
    jwk_module_RegisterServices.
End jwk.

(** ** x/globalfee; a genesis state consists of the parameters *)
Section globalfee.
Context `{!CoinsOps, !JSONCodec GlobalFeeParams}.
Context (nil_type_url : string).
Abbreviation St := GlobalFeeSubspace.

Definition globalfee_module_DefaultGenesis : outcome string := MustMarshalJSON GlobalFeeDefaultParams.
Definition globalfee_module_ValidateGenesis (message : string) : outcome unit :=
  data ← (UnmarshalJSON message : outcome GlobalFeeParams);
  GlobalFeeParams_ValidateBasic nil_type_url data.
Definition globalfee_module_InitGenesis (message : string) : M St unit :=
  genesisState ← lift (MustUnmarshalJSON message);
  globalfee_InitGenesis nil_type_url genesisState.
Definition globalfee_module_ExportGenesis (s : St) : outcome string := genState ← globalfee_ExportGenesis s; MustMarshalJSON genState.
Definition globalfee_module_RegisterServices : list (Z * M St unit) := [(1, globalfee_v2_MigrateStore nil_type_url)].
Definition globalfee_AppModule : AppModule St :=
  mkAppModule globalfee_module_DefaultGenesis globalfee_module_ValidateGenesis globalfee_module_InitGenesis
    globalfee_module_ExportGenesis 2 globalfee_module_RegisterServices.
End globalfee.

(** ** x/xion *)
Section xion.
Context `{!SdkMath, !CoinsOps, !XionCodec, !JSONCodec XionGenesis}.
Context {S : Type} `{!KVStore S}.

Definition xion_module_DefaultGenesis : outcome string := MustMarshalJSON DefaultXionGenesis.
Definition xion_module_ValidateGenesis (bz : string) : outcome unit :=
  gs ← map_err (λ _, Plain "failed to unmarshal xion genesis state") (UnmarshalJSON bz : outcome XionGenesis);
  XionGenesis_Validate gs.
Definition xion_module_InitGenesis (data : string) : M S unit :=
  genesisState ← lift (MustUnmarshalJSON data);
  write (xion_InitGenesis genesisState).
Definition xion_module_ExportGenesis (s : S) : outcome string := gs ← xion_ExportGenesis s; MustMarshalJSON gs.
Definition xion_AppModule : AppModule S :=
  mkAppModule xion_module_DefaultGenesis xion_module_ValidateGenesis xion_module_InitGenesis xion_module_ExportGenesis 1 [].
End xion.

(** ** Starting from the default files *)
Lemma default_file {S G} `{!JSONCodec G, !JSONCodecLaws G} (m : AppModule S) (g : G) (valid : G → outcome unit) (init : G → M S unit) :
  (∀ bz, DefaultGenesis m = Ok bz → MustMarshalJSON g = Ok bz) →
  (∀ bz, UnmarshalJSON bz = Ok g → ValidateGenesis m bz = valid g) →
  (∀ bz s, UnmarshalJSON bz = Ok g → InitGenesis m bz s = init g s) →
  valid g = Ok tt → (∀ s, ∃ s', init g s = (s', Ok tt)) → starts m.
Proof.
  intros Hd Hv Hi Hok Hrun bz Hbz%Hd. unfold MustMarshalJSON in Hbz. destruct (MarshalJSON g) as [bz'| |] eqn:E; [|done..].
  injection Hbz as ->. apply json_roundtrip in E. split; [by rewrite Hv|]. intros s. rewrite Hi by done. apply Hrun.
Qed.

Lemma with_default_size_idem p : with_default_size (with_default_size p) = with_default_size p.
Proof.
  unfold with_default_size. cbn. by rewrite or_default_idem.
Qed.

Section dkim_genesis.
Context `{Ccr : !DkimCrypto, Cj : !JSONCodec DkimGenesis, Cjl : !JSONCodecLaws DkimGenesis}.
Context {DC RC PC : Type}.
Context `{Cd : !PairMap DkimPubKey DC, Cdl : !PairMapLaws DkimPubKey DC}.
Context `{Cr : !CollMap string bool RC, Crl : !CollMapLaws string bool RC, !CollKeysOk string bool RC}.
Context `{Cp : !CollItem DkimParams PC, Cpl : !CollItemLaws DkimParams PC}.
Context (authority : string).
Abbreviation St := (DkimState DC RC PC).
Implicit Types s : St.

(** Records are stored under their own domain and selector. *)
Definition keyed s : Prop := ∀ key k, pubkeys s !! key = Some k → key = (dk_Domain k, dk_Selector k).

Lemma keyed_same s s' : pubkeys s' = pubkeys s → keyed s → keyed s'.
Proof. unfold keyed. by intros ->. Qed.

Lemma keyed_Save k s : keyed s → keyed (SaveDkimPubKey k s).1.
Proof.
  intros Hk. unfold SaveDkimPubKey, keyed. destruct (DkimPubKeys_Set_run (dk_Domain k, dk_Selector k) k s) as [_ [->| ->]]; [done|].
  intros key k'. rewrite lookup_insert_Some. intros [[<- <-]|[_ H]]; [done|by apply Hk].
Qed.

Lemma keyed_Remove key s : keyed s → keyed (DkimPubKeys_Remove key s).1.
Proof.
  intros Hk. unfold keyed. destruct (DkimPubKeys_Remove_run key s) as [_ [[_ ->]|[_ ->]]]; [done|].
  intros key' k [_ H]%lookup_delete_Some. by apply Hk.
Qed.

Lemma keyed_Params p s : keyed s → keyed (DkimParams_Set p s).1.
Proof. apply keyed_same, DkimParams_Set_run. Qed.

Lemma keyed_revoke_matching params pk ck flag kvs s : keyed s → keyed (revoke_matching params pk ck flag kvs s).1.
Proof.
  revert flag s. induction kvs as [|kv kvs IH]; intros flag s Hk; cbn [revoke_matching]; [done|].
  do 2 (apply lift_keeps; [done|]; intros ? _). case_match; [|by apply IH].
  pose proof (keyed_Remove kv.1 s Hk) as Hr. apply bind_keeps; [done|]. intros s1 [] E1. rewrite E1 in Hr. cbn in Hr.
  assert (∀ b, keyed (RevokedKeys_Set ck b s1).1) as Hs.
  { intros b. destruct (RevokedKeys_Set_run ck b s1) as (s2&->&E&_). by apply (keyed_same s1). }
  apply bind_keeps; [by destruct flag|]. intros s2 [] E2. apply IH.
  destruct flag; [by injection E2 as <-|]. specialize (Hs true). by rewrite E2 in Hs.
Qed.

Lemma keyed_handle m s : keyed s → keyed (dkim_handle authority m s).1.
Proof.
  intros Hk. destruct m; cbn [dkim_handle].
  - unfold AddDkimPubKeys. apply lift_keeps; [done|]; intros ? _. rewrite get_state_bind.
    do 3 (apply lift_keeps; [done|]; intros ? _). unfold SaveDkimPubKeys. apply for_each_keeps; [|done]. intros. by apply keyed_Save.
  - unfold RemoveDkimPubKey. apply lift_keeps; [done|]; intros ? _. by apply keyed_Remove.
  - unfold RevokeDkimPubKey. rewrite get_state_bind. do 4 (apply lift_keeps; [done|]; intros ? _). by apply keyed_revoke_matching.
  - unfold DkimUpdateParams, DkimSetParams. do 3 (apply lift_keeps; [done|]; intros ? _). by apply keyed_Params.
  - unfold dkim_v2_MigrateStore. case_match; [by apply keyed_Params..|done].
Qed.

Lemma keyed_history s s' : keyed s → dkim_history authority s s' → keyed s'.
Proof. intros Hk. induction 1; [done|by apply keyed_handle]. Qed.

(** What the import writes *)
Definition put_keys (l : list DkimPubKey) (m : gmap (string * string) DkimPubKey) : gmap (string * string) DkimPubKey :=
  foldl (λ m k, <[(dk_Domain k, dk_Selector k) := k]> m) m l.

Lemma save_key_run k s : no_nul (dk_Domain k) → ∃ s', SaveDkimPubKey k s = (s', Ok tt) ∧
  pubkeys s' = <[(dk_Domain k, dk_Selector k) := k]> (pubkeys s) ∧ revoked s' = revoked s ∧ d_Params s' = d_Params s.
Proof.
  intros Hk. unfold SaveDkimPubKey, DkimPubKeys_Set, write.
  destruct (coll_Set_spec (d_DkimPubKeys s) _ k (pair_key_ok (dk_Domain k, dk_Selector k) Hk)) as (c&->&E). by eexists.
Qed.

Lemma save_keys_run l s : Forall (λ k, no_nul (dk_Domain k)) l →
  ∃ s', SaveDkimPubKeys l s = (s', Ok tt) ∧ pubkeys s' = put_keys l (pubkeys s) ∧
    revoked s' = revoked s ∧ d_Params s' = d_Params s.
Proof.
  intros Hl. revert s. induction Hl as [|k l Hk _ IH]; intros s; [by exists s|].
  destruct (save_key_run k s Hk) as (s1&E1&Hp1&Hr1&Ha1). destruct (IH s1) as (s'&E'&Hp&Hr&Ha). exists s'.
  split_and!; [by etrans; [exact (M_bind_Ok_l (λ _, SaveDkimPubKeys l) _ _ _ _ E1)|]|by rewrite Hp, Hp1|congruence..].
Qed.

Lemma revoke_run r s : ∃ s', RevokedKeys_Set r true s = (s', Ok tt) ∧
  pubkeys s' = pubkeys s ∧ revoked s' = <[r := true]> (revoked s) ∧ d_Params s' = d_Params s.
Proof.
  unfold RevokedKeys_Set, write. destruct (coll_Set_spec (d_RevokedKeys s) r true (coll_keys_ok r)) as (c&->&E). by eexists.
Qed.

Lemma revoke_all_run l s : ∃ s', for_each (λ r, RevokedKeys_Set r true) l s = (s', Ok tt) ∧
  pubkeys s' = pubkeys s ∧ revoked s' = foldl (λ m r, <[r := true]> m) (revoked s) l ∧ d_Params s' = d_Params s.
Proof.
  revert s. induction l as [|r l IH]; intros s; [by exists s|]. cbn [for_each].
  destruct (revoke_run r s) as (s1&E1&Hp1&Hr1&Ha1). destruct (IH s1) as (s'&E'&Hp&Hr&Ha). exists s'.
  split_and!; [by erewrite M_bind_Ok_l|congruence|by rewrite Hr, Hr1|congruence].
Qed.

Lemma set_params_run p s : ∃ s', DkimParams_Set p s = (s', Ok tt) ∧ pubkeys s' = pubkeys s ∧ revoked s' = revoked s ∧
  item_contents (d_Params s') = Some p.
Proof. unfold DkimParams_Set, write. destruct (item_Set_spec (d_Params s) p) as (c&->&E). by eexists. Qed.

Lemma DkimGetParams_run s : DkimGetParams s = Ok (default DkimDefaultParams (item_contents (d_Params s))).
Proof. unfold DkimGetParams. rewrite item_Get_spec. by destruct (item_contents (d_Params s)). Qed.

Lemma export_runs s : ∃ kvs rs p, kvs ≡ₚ map_to_list (pubkeys s) ∧ rs ≡ₚ map_to_list (revoked s) ∧ DkimGetParams s = Ok p ∧
  dkim_ExportGenesis s = Ok (mkDkimGenesis (map snd kvs) p (map fst rs)).
Proof.
  destruct (coll_Entries_spec (d_DkimPubKeys s)) as (kvs&Ek&Hk). destruct (coll_Entries_spec (d_RevokedKeys s)) as (rs&Er&Hr).
  exists kvs, rs, (default DkimDefaultParams (item_contents (d_Params s))). rewrite DkimGetParams_run. split_and!; [done..|].
  unfold dkim_ExportGenesis. by rewrite Ek, Er, DkimGetParams_run.
Qed.

(** Putting back the exported records gives the stored ones. *)
Lemma put_exported kvs s m : keyed s → kvs ≡ₚ map_to_list (pubkeys s) → put_keys (map snd kvs) m = pubkeys s ∪ m.
Proof.
  intros Hk Hp. unfold put_keys. rewrite (foldl_insert_to_list (λ k, (dk_Domain k, dk_Selector k)) id). f_equal.
  assert ((λ k, (dk_Domain k, dk_Selector k, id k)) <$> map snd kvs = kvs) as ->.
  { change (map snd kvs) with (snd <$> kvs). rewrite <- list_fmap_compose. transitivity (id <$> kvs); [|apply list_fmap_id].
    apply list_fmap_ext. intros i [key k] Hi%list_elem_of_lookup_2. cbn. rewrite Hp, elem_of_map_to_list in Hi.
    by rewrite (Hk key k). }
  rewrite <- (list_to_map_to_list (pubkeys s)). apply list_to_map_proper; rewrite reverse_Permutation, Hp; [apply NoDup_fst_map_to_list|done].
Qed.

Lemma put_revoked rs (m m0 : gmap string bool) : rs ≡ₚ map_to_list m →
  foldl (λ m r, <[r := true]> m) m0 (map fst rs) = (const true <$> m) ∪ m0.
Proof.
  intros Hp. rewrite (foldl_insert_to_list id (λ _, true)). f_equal.
  assert ((λ r, (id r, true)) <$> map fst rs = prod_map id (const true) <$> rs) as ->.
  { change (map fst rs) with (fst <$> rs). rewrite <- list_fmap_compose. by apply list_fmap_ext; intros ? []. }
  rewrite <- (list_to_map_to_list (const true <$> m)), map_to_list_fmap. apply list_to_map_proper; rewrite reverse_Permutation, Hp.
  - rewrite <- list_fmap_compose. apply (NoDup_fst_map_to_list m).
  - done.
Qed.

(** C15. The genesis file of a state that messages led to restores the records and the
    parameters in both imports, but only [Keeper.InitGenesis] restores the revocations.
    [AppModule.InitGenesis], which a starting chain calls, leaves them out: revoked keys can
    be added again. *)
Theorem dkim_genesis_imports e s s0 gs bz :
  pubkeys e = ∅ → dkim_history authority e s → dkim_ExportGenesis s = Ok gs → MarshalJSON gs = Ok bz →
  (∃ s', InitGenesis dkim_AppModule bz s0 = (s', Ok tt) ∧ pubkeys s' = pubkeys s ∪ pubkeys s0 ∧
     DkimGetParams s' = DkimGetParams s ∧ revoked s' = revoked s0) ∧
  (DkimGenesis_Validate gs = Ok tt →
   ∃ s', dkim_InitGenesis gs s0 = (s', Ok tt) ∧ pubkeys s' = pubkeys s ∪ pubkeys s0 ∧
     DkimGetParams s' = (with_default_size <$> DkimGetParams s) ∧ revoked s' = (const true <$> revoked s) ∪ revoked s0).
Proof.
  intros He Hh Hg Hj%json_roundtrip. assert (keyed s) as Hk.
  { eapply keyed_history; [|exact Hh]. intros key k. by rewrite He. }
  destruct (export_runs s) as (kvs&rs&p&Hkv&Hrs&Hpa&Eg). rewrite Eg in Hg. injection Hg as <-.
  assert (Forall (λ k, no_nul (dk_Domain k)) (map snd kvs)) as Hn.
  { change (map snd kvs) with (snd <$> kvs). rewrite Forall_fmap, Forall_forall. intros [key k] Hin.
    rewrite Hkv, elem_of_map_to_list in Hin. pose proof (Hk key k Hin) as ->. exact (pair_stored_ok (d_DkimPubKeys s) _ k Hin). }
  split.
  - destruct (set_params_run p s0) as (s1&E1&Hp1&Hr1&Ha1). destruct (save_keys_run (map snd kvs) s1 Hn) as (s2&E2&Hp2&Hr2&Ha2).
    exists s2. split_and!.
    + cbn. unfold dkim_module_InitGenesis, MustUnmarshalJSON. rewrite Hj, lift_bind. cbn [or_panic dg_Params dg_DkimPubkeys].
      erewrite M_bind_Ok_l by (by apply must_run). by apply must_run.
    + rewrite Hp2, Hp1. by apply put_exported.
    + by rewrite Hpa, DkimGetParams_run, Ha2, Ha1.
    + congruence.
  - intros Hv. destruct (set_params_run (with_default_size p) s0) as (s1&E1&Hp1&Hr1&Ha1).
    destruct (revoke_all_run (map fst rs) s1) as (s2&E2&Hp2&Hr2&Ha2). destruct (save_keys_run (map snd kvs) s2 Hn) as (s3&E3&Hp3&Hr3&Ha3).
    exists s3. split_and!.
    + unfold dkim_InitGenesis. rewrite lift_bind, Hv. cbn [dg_Params dg_DkimPubkeys dg_RevokedPubkeys]. unfold DkimSetParams.
      apply unit_bind in Hv as [Hv _]. cbn [dg_Params] in Hv. rewrite with_default_size_idem.
      erewrite M_bind_Ok_l by (rewrite lift_bind, Hv; exact E1). erewrite M_bind_Ok_l by exact E2. exact E3.
    + rewrite Hp3, Hp2, Hp1. by apply put_exported.
    + by rewrite Hpa, DkimGetParams_run, Ha3, Ha2, Ha1.
    + rewrite Hr3, Hr2, Hr1. by apply put_revoked.
Qed.
End dkim_genesis.

(** ** All modules *)
Section all.
Context `{Zc : !ZkCrypto, Zl : !ZkJsonLaws, Ad : !AddressCodec, Dc : !DkimCrypto, Jc : !JwkCrypto, Co : !CoinsOps, Xc : !XionCodec}.
Context `{Jz : !JSONCodec ZkGenesis, Jzl : !JSONCodecLaws ZkGenesis, Jd : !JSONCodec DkimGenesis, Jdl : !JSONCodecLaws DkimGenesis,
  Jj : !JSONCodec JwkGenesis, Jjl : !JSONCodecLaws JwkGenesis, Jg : !JSONCodec GlobalFeeParams, Jgl : !JSONCodecLaws GlobalFeeParams,
  Jx : !JSONCodec XionGenesis, Jxl : !JSONCodecLaws XionGenesis}.
Context {VC NC SQ PI G : Type}.
Context `{Cv : !CollMap Z VKey VC, Cvl : !CollMapLaws Z VKey VC, Cvk : !CollKeysOk Z VKey VC}.
Context `{Cn : !CollMap string Z NC, Cnl : !CollMapLaws string Z NC, Cnk : !CollKeysOk string Z NC}.
Context `{Cq : !CollSequence SQ, Cql : !CollSequenceLaws SQ}.
Context `{Ci : !CollItem ZkParams PI, Cil : !CollItemLaws ZkParams PI, Cg : !GasMeter G}.
Context {DC RC PC : Type}.
Context `{Cd : !PairMap DkimPubKey DC, Cdl : !PairMapLaws DkimPubKey DC}.
Context `{Cr : !CollMap string bool RC, Crl : !CollMapLaws string bool RC, Crk : !CollKeysOk string bool RC}.
Context `{Cp : !CollItem DkimParams PC, Cpl : !CollItemLaws DkimParams PC}.
Context {S P : Type} `{Ck : !KVStore S, Ckl : !KVStoreLaws S, Cs : !Subspace P, Csl : !SubspaceLaws P}.
Context (authority nil_type_url : string).

Lemma zk_starts : (∀ bz, json_Marshal_CircomVK vkeyJSON = Ok bz → slen bz ≤ DefaultMaxVKeySizeBytes) →
  starts (zk_AppModule authority : AppModule (ZkState VC NC SQ PI G)).
Proof.
  intros Hsz. destruct ZkDefaultGenesisState as [gs| |] eqn:Eg;
    [|intros bz Hbz; cbn in Hbz; unfold zk_module_DefaultGenesis in Hbz; by rewrite Eg in Hbz..].
  apply (default_file (zk_AppModule authority) gs ZkGenesis_Validate (zk_InitGenesis authority)).
  - intros bz. cbn. unfold zk_module_DefaultGenesis. by rewrite Eg.
  - intros bz E. cbn. unfold zk_module_ValidateGenesis. by rewrite E.
  - intros bz s E. cbn. unfold zk_module_InitGenesis, MustUnmarshalJSON. by rewrite E.
  - by apply ZkDefaultGenesisState_valid.
  - intros s. unfold ZkDefaultGenesisState, CreateDefaultVKeyBytes in Eg.
    destruct (json_Marshal_CircomVK vkeyJSON) as [kb| |] eqn:Ej; [|done..]. injection Eg as <-.
    set (gs := mkZkGenesis _ _). destruct (zk_InitGenesis_run authority gs s) as (s1&->&_); [done|].
    destruct (import_all_run authority (genesis_params gs) (zg_Vkeys gs) s1) as (s2&E&_); [|by exists s2].
    apply Forall_singleton. apply default_vkey_bytes_ok; [done|by apply Hsz].
Qed.

Lemma dkim_starts : starts (dkim_AppModule : AppModule (DkimState DC RC PC)).
Proof.
  apply (default_file dkim_AppModule (mkDkimGenesis [] DkimDefaultParams []) DkimGenesis_Validate
    (λ g, _ ← must (DkimParams_Set (dg_Params g)); must (SaveDkimPubKeys (dg_DkimPubkeys g)))).
  - done.
  - intros bz E. cbn. unfold dkim_module_ValidateGenesis. by rewrite E.
  - intros bz s E. cbn. unfold dkim_module_InitGenesis, MustUnmarshalJSON. by rewrite E.
  - by vm_compute.
  - intros s. destruct (set_params_run DkimDefaultParams s) as (s1&E1&_). exists s1.
    by erewrite M_bind_Ok_l by (by apply must_run).
Qed.

Lemma jwk_starts : starts (jwk_AppModule : AppModule (JwkState S P G)).
Proof.
  apply (default_file jwk_AppModule JwkDefaultGenesis JwkGenesis_Validate jwk_InitGenesis).
  - done.
  - intros bz E. cbn. unfold jwk_module_ValidateGenesis. by rewrite E.
  - intros bz s E. cbn. unfold jwk_module_InitGenesis, MustUnmarshalJSON. by rewrite E.
  - done.
  - intros s. destruct (JwkSetParams_run JwkDefaultParams s) as (s'&E&_); [done|]. by exists s'.
Qed.

Lemma globalfee_starts : Forall (λ t, HasPrefix t nil_type_url = true) DefaultBypassMinFeeMsgTypes →
  starts (globalfee_AppModule nil_type_url).
Proof.
  intros Ht. assert (GlobalFeeParams_ValidateBasic nil_type_url GlobalFeeDefaultParams = Ok tt) as Hv.
  { unfold GlobalFeeParams_ValidateBasic. cbn [GlobalFeeDefaultParams BypassMinFeeMsgTypes]. by rewrite default_types_ok. }
  apply (default_file (globalfee_AppModule nil_type_url) GlobalFeeDefaultParams (GlobalFeeParams_ValidateBasic nil_type_url)
    (globalfee_InitGenesis nil_type_url)).
  - done.
  - intros bz E. cbn. unfold globalfee_module_ValidateGenesis. by rewrite E.
  - intros bz s E. cbn. unfold globalfee_module_InitGenesis, MustUnmarshalJSON. by rewrite E.
  - done.
  - intros s. eexists. by apply SetParamSet_run.
Qed.

Lemma xion_starts : (∃ bz, json_Marshal_Coins [] = Ok bz) → starts (xion_AppModule : AppModule S).
Proof.
  intros [cz Hc]. apply (default_file xion_AppModule DefaultXionGenesis XionGenesis_Validate (λ g, write (xion_InitGenesis g))).
  - done.
  - intros bz E. cbn. unfold xion_module_ValidateGenesis. by rewrite E.
  - intros bz s E. cbn. unfold xion_module_InitGenesis, MustUnmarshalJSON. by rewrite E.
  - done.
  - intros s. unfold write, xion_InitGenesis, OverwritePlatformMinimum. cbn [DefaultXionGenesis gs_PlatformMinimums].
    rewrite Hc. by eexists.
Qed.

(** C31. Every module starts from its own default genesis file: the file passes
    [ValidateGenesis] and [InitGenesis] completes on any state.  [RegisterServices] announces
    exactly one migration from every version before [ConsensusVersion]. *)
Theorem modules_start :
  (∀ bz, json_Marshal_CircomVK vkeyJSON = Ok bz → slen bz ≤ DefaultMaxVKeySizeBytes) →
  Forall (λ t, HasPrefix t nil_type_url = true) DefaultBypassMinFeeMsgTypes → (∃ bz, json_Marshal_Coins [] = Ok bz) →
  let zk : AppModule (ZkState VC NC SQ PI G) := zk_AppModule authority in
  let dkim : AppModule (DkimState DC RC PC) := dkim_AppModule in
  let jwk : AppModule (JwkState S P G) := jwk_AppModule in
  let globalfee := globalfee_AppModule nil_type_url in
  let xion : AppModule S := xion_AppModule in
  (starts zk ∧ upgradable zk) ∧ (starts dkim ∧ upgradable dkim) ∧ (starts jwk ∧ upgradable jwk) ∧
  (starts globalfee ∧ upgradable globalfee) ∧ (starts xion ∧ upgradable xion).
Proof.
  intros Hsz Ht Hc. split_and!;
    first [by apply zk_starts|apply dkim_starts|apply jwk_starts|by apply globalfee_starts|by apply xion_starts|done].
Qed.
End all.

(** ** Witnesses *)

(** A codec that knows one file *)
Definition file_codec {G} `{EqDecision G} (name : string) (g0 : G) : JSONCodec G := {|
  MarshalJSON g := if decide (g = g0) then Ok name else Err (Plain "other state");
  UnmarshalJSON bz := if decide (bz = name) then Ok g0 else Err (Plain "other file") |}.
Definition file_codec_laws {G} `{EqDecision G} name (g0 : G) : @JSONCodecLaws G (file_codec name g0).
Proof. split. cbn. intros g bz. case_decide; [|done]. intros [= <-]. subst. by rewrite decide_True. Defined.

#[local] Instance IndexRange_eq : EqDecision IndexRange.
Proof. solve_decision. Defined.
#[local] Instance PublicInputIndices_eq : EqDecision PublicInputIndices.
Proof. solve_decision. Defined.
#[local] Instance DkimParams_eq : EqDecision DkimParams.
Proof. solve_decision. Defined.
#[local] Instance DkimGenesis_eq : EqDecision DkimGenesis.
Proof. solve_decision. Defined.
#[local] Instance VKeyWithID_eq : EqDecision VKeyWithID.
Proof. solve_decision. Defined.
#[local] Instance ZkGenesis_eq : EqDecision ZkGenesis.
Proof. solve_decision. Defined.
#[local] Instance JwkParams_eq : EqDecision JwkParams.
Proof. solve_decision. Defined.
#[local] Instance JwkGenesis_eq : EqDecision JwkGenesis.
Proof. solve_decision. Defined.
#[local] Instance DecCoin_eq : EqDecision DecCoin.
Proof. solve_decision. Defined.
#[local] Instance GlobalFeeParams_eq : EqDecision GlobalFeeParams.
Proof. solve_decision. Defined.
#[local] Instance XionGenesis_eq : EqDecision XionGenesis.
Proof. solve_decision. Defined.

(** A key is added and revoked; the file forgets it. *)
Definition ex_module0 : DkimState (pair_store DkimPubKey) (gmap string bool) (option DkimParams) :=
  mkDkimState (PairStore ∅) ∅ (Some DkimDefaultParams).
Definition ex_module_key : string := of_bytes (replicate 128 (byte_of 255)).
Definition ex_module_add : MsgAddDkimPubKeys := mkMsgAddDkim "gov" [mkDkimPubKey "a.com" ex_module_key "" "s1" 0 0].
Definition ex_module_revoke : MsgRevokeDkimPubKey := mkMsgRevokeDkim "anyone" "a.com" ex_module_key.
Definition ex_module1 := (dkim_handle "gov" (DkimAdd ex_module_add) ex_module0).1.
Definition ex_module2 := (dkim_handle "gov" (DkimRevoke ex_module_revoke) ex_module1).1.
Definition ex_module_file : DkimGenesis := match dkim_ExportGenesis ex_module2 with Ok gs => gs | _ => mkDkimGenesis [] DkimDefaultParams [] end.
#[local] Instance ex_dkim_codec : JSONCodec DkimGenesis := file_codec "dkim.json" ex_module_file.
#[local] Instance ex_dkim_codec_laws : JSONCodecLaws DkimGenesis := file_codec_laws "dkim.json" ex_module_file.

Lemma dkim_genesis_imports_witness :
  dg_RevokedPubkeys ex_module_file ≠ [] ∧
  (AddDkimPubKeys "gov" ex_module_add ex_module2).2 ≠ Ok tt ∧
  ∃ s, InitGenesis dkim_AppModule "dkim.json" ex_module0 = (s, Ok tt) ∧ revoked s = ∅ ∧
    (AddDkimPubKeys "gov" ex_module_add s).2 = Ok tt.
Proof.
  split; [by vm_compute|]. split; [by vm_compute|].
  destruct (dkim_genesis_imports "gov" ex_module0 ex_module2 ex_module0 ex_module_file "dkim.json") as [(s&E&_&_&Hr) _].
  - done.
  - apply (dh_step "gov" ex_module0 ex_module1 (DkimRevoke ex_module_revoke)), (dh_step "gov" ex_module0 ex_module0 (DkimAdd ex_module_add)), dh_start.
  - by vm_compute.
  - cbn. by rewrite decide_True.
  - exists s. split; [done|]. split; [exact Hr|].
    assert (s = (InitGenesis dkim_AppModule "dkim.json" ex_module0).1) as -> by (by rewrite E). by vm_compute.
Defined.

(** The default files *)
Definition ex_zk_default : ZkGenesis := match ZkDefaultGenesisState with Ok gs => gs | _ => mkZkGenesis [] ZkDefaultParams end.
#[local] Instance ex_zk_codec : JSONCodec ZkGenesis := file_codec "zk.json" ex_zk_default.
#[local] Instance ex_zk_codec_laws : JSONCodecLaws ZkGenesis := file_codec_laws "zk.json" ex_zk_default.
#[local] Instance ex_dkim_codec' : JSONCodec DkimGenesis := file_codec "dkim.json" (mkDkimGenesis [] DkimDefaultParams []).
#[local] Instance ex_dkim_codec_laws' : @JSONCodecLaws DkimGenesis ex_dkim_codec' := file_codec_laws "dkim.json" _.
#[local] Instance ex_jwk_codec : JSONCodec JwkGenesis := file_codec "jwk.json" JwkDefaultGenesis.
#[local] Instance ex_jwk_codec_laws : JSONCodecLaws JwkGenesis := file_codec_laws "jwk.json" _.
#[local] Instance ex_globalfee_codec : JSONCodec GlobalFeeParams := file_codec "globalfee.json" GlobalFeeDefaultParams.
#[local] Instance ex_globalfee_codec_laws : JSONCodecLaws GlobalFeeParams := file_codec_laws "globalfee.json" _.
#[local] Instance ex_xion_codec : JSONCodec XionGenesis := file_codec "xion.json" DefaultXionGenesis.
#[local] Instance ex_xion_codec_laws : JSONCodecLaws XionGenesis := file_codec_laws "xion.json" _.

Lemma modules_start_witness :
  (∀ s : ZkState (gmap Z VKey) (gmap string Z) Z (option ZkParams) Z, ∃ s', InitGenesis (zk_AppModule "gov") "zk.json" s = (s', Ok tt)) ∧
  (∀ s : DkimState (pair_store DkimPubKey) (gmap string bool) (option DkimParams), ∃ s', InitGenesis dkim_AppModule "dkim.json" s = (s', Ok tt)) ∧
  ValidateGenesis (globalfee_AppModule "/") "globalfee.json" = Ok tt.
Proof.
  destruct (modules_start (VC := gmap Z VKey) (NC := gmap string Z) (SQ := Z) (PI := option ZkParams) (G := Z)
    (DC := pair_store DkimPubKey) (RC := gmap string bool) (PC := option DkimParams) (S := gmap string string)
    (P := gmap string Z) "gov" "/") as ((Hz&_)&(Hd&_)&_&(Hg&_)&_).
  - intros bz. cbn -[vkeyJSON slen]. case_decide; [|done]. intros [= <-]. vm_compute. discriminate.
  - by repeat constructor.
  - by eexists.
  - split_and!; [apply Hz|apply Hd|apply Hg]; by vm_compute.
Defined.
