(* ===== verification/Cli.v ===== *)
(** * x/xion/client/cli: the transactions that the command line builds

    The commands of tx.go that build a message from their arguments and flags: [send],
    [multi-send], [register], [add-authenticator], [emit] and [update-params].  A command is a
    function from the arguments to the message that it passes to [GenerateOrBroadcastTxCLI];
    the libraries it asks are parameters. *)

From S2P Require Import Prelude GoStd GoJson Sdk SdkModel PlatformFee.

(** ** The libraries *)

(** [github.com/spf13/cobra]: the checks of the number of arguments that run first *)
Class Cobra := {
  ExactArgs : Z → list string → outcome unit;
  MinimumNArgs : Z → list string → outcome unit;
  MaximumNArgs : Z → list string → outcome unit;
}.
Class CobraLaws `{!Cobra} := {
  ExactArgs_spec n args : ExactArgs n args = Ok tt ↔ llen args = n;
  MinimumNArgs_spec n args : MinimumNArgs n args = Ok tt ↔ n ≤ llen args;
  MaximumNArgs_spec n args : MaximumNArgs n args = Ok tt ↔ llen args ≤ n;
}.

(** [client.Context], as far as the commands look at it *)
Record ClientCtx := mkClientCtx { cx_FromAddress : AccAddress; cx_SignModeStr : string }.

(** The flags that the commands define or get from the SDK; reading one does not fail. *)
Record Flags := mkFlags {
  fl_from : string;
  fl_split : bool;
  fl_salt : string;
  fl_funds : string;
  fl_authenticator : string;
  fl_authenticatorID : Z;
  fl_aud : string;
  fl_token : string;
  fl_sub : string;
}.

Record MsgRegisterAccount := mkMsgRegisterAccount {
  ra_Sender : string; ra_CodeID : Z; ra_Msg : string; ra_Funds : Coins; ra_Salt : string }.
Record MsgExecuteContract := mkMsgExecuteContract {
  ex_Sender : string; ex_Contract : string; ex_Msg : string; ex_Funds : Coins }.

Class CliDeps := {
  (** for the flag [--from] *)
  GetClientTxContext : string → outcome ClientCtx;
  ParseCoinsNormalized : string → outcome Coins;
  Coins_QuoInt : Coins → Z → outcome Coins;
  Coins_MulInt : Coins → Z → outcome Coins;
  (** [strconv.ParseUint(s, 10, 64)], and the hash of a code that the node answers *)
  ParseUint64 : string → outcome Z;
  Code_DataHash : Z → outcome string;
  BuildContractAddressPredictable : string → AccAddress → string → string → AccAddress;
  (** the signature and the key *)
  SignByAddress : AccAddress → string → Z → outcome (string * string);
  MsgRegisterAccount_ValidateBasic : MsgRegisterAccount → outcome unit;
  MsgExecuteContract_ValidateBasic : MsgExecuteContract → outcome unit;
  url_ParseRequestURI : string → outcome unit;
  (** [json.Unmarshal] into a [RawContractMessage] *)
  RawContractMessage_Unmarshal : string → outcome string;
}.
Class CliDepsLaws `{!CliDeps} := {
  Coins_QuoInt_ok cs n cs' d : Coins_QuoInt cs n = Ok cs' → amount_of cs' d = amount_of cs d `quot` n;
  Coins_MulInt_ok cs n cs' d : Coins_MulInt cs n = Ok cs' → amount_of cs' d = amount_of cs d * n;
  RawContractMessage_ok t v : json_parses t v → RawContractMessage_Unmarshal t = Ok t;
}.

(** [signing.SignMode] *)
Definition SIGN_MODE_UNSPECIFIED : Z := 0.
Definition SIGN_MODE_DIRECT : Z := 1.
Definition SIGN_MODE_TEXTUAL : Z := 2.
Definition SIGN_MODE_DIRECT_AUX : Z := 3.
Definition SIGN_MODE_LEGACY_AMINO_JSON : Z := 127.
Definition SIGN_MODE_EIP_191 : Z := 191.

(** ** The commands *)

(** [args[i]] *)
Definition arg (args : list string) (i : Z) : outcome string :=
  if i <? 0 then Panic else match args !! Z.to_nat i with Some a => Ok a | None => Panic end.

(** A map literal; the encoder writes the keys in order. *)
Definition go_map {V} (l : list (string * V)) : list (string * V) := foldl (λ m kv, map_set kv.1 kv.2 m) [] l.

Section commands.
Context `{!AddressCodec, !CoinsOps, !Cobra, !CliDeps}.
Implicit Types (args : list string) (fl : Flags).

Definition NewMsgSend (fromAddr toAddr : AccAddress) (amount : Coins) : MsgSend :=
  mkMsgSend (AccAddress_String fromAddr) (AccAddress_String toAddr) amount.
Definition NewInput (addr : AccAddress) (coins : Coins) : Input := mkInput (AccAddress_String addr) coins.

Definition NewSendTxCmd args : outcome MsgSend :=
  _ ← ExactArgs 3 args;
  from ← arg args 0;
  clientCtx ← GetClientTxContext from;
  a1 ← arg args 1;
  toAddr ← AccAddressFromBech32 a1;
  a2 ← arg args 2;
  coins ← ParseCoinsNormalized a2;
  Ok (NewMsgSend (cx_FromAddress clientCtx) toAddr coins).

Definition NewMultiSendTxCmd args fl : outcome MsgMultiSend :=
  _ ← MinimumNArgs 4 args;
  from ← arg args 0;
  clientCtx ← GetClientTxContext from;
  last ← arg args (llen args - 1);
  coins ← ParseCoinsNormalized last;
  _ ← fail_if (Coins_IsZero coins) (Plain "must send positive amount");
  let totalAddrs := llen args - 2 in
  sendCoins ← (if fl_split fl then Coins_QuoInt coins totalAddrs else Ok coins);
  output ← fold_outcome (λ output a, toAddr ← AccAddressFromBech32 a; Ok (output ++ [NewOutput toAddr sendCoins])) []
             (take (Z.to_nat (llen args - 2)) (drop 1 args));
  amount ← (if fl_split fl then Coins_MulInt sendCoins totalAddrs else Coins_MulInt coins totalAddrs);
  Ok (mkMsgMultiSend [NewInput (cx_FromAddress clientCtx) amount] output).

(** [newInstantiateMsg] and [newInstantiateJwtMsg]; [json.Marshal] has no error for these maps. *)
Definition newInstantiateMsg (authenticatorType : string) (authenticatorID : Z) (signature pubKey : string) : string :=
  let authenticatorDetails := map_set "id" (JNumber authenticatorID) [] in
  let authenticatorDetails := map_set "pubkey" (JBytes pubKey) authenticatorDetails in
  let authenticatorDetails := map_set "signature" (JBytes signature) authenticatorDetails in
  let authenticator := map_set authenticatorType (JStruct authenticatorDetails) [] in
  let instantiateMsg := map_set "authenticator" (JStruct authenticator) [] in
  json_text (JStruct instantiateMsg).

(** The token is stored after the map is; both names stand for the same map. *)
Definition newInstantiateJwtMsg (token authenticatorType sub aud : string) (authenticatorID : Z) : string :=
  let authenticatorDetails := map_set "sub" (JText sub) [] in
  let authenticatorDetails := map_set "aud" (JText aud) authenticatorDetails in
  let authenticatorDetails := map_set "id" (JNumber authenticatorID) authenticatorDetails in
  let authenticatorDetails := map_set "token" (JBytes token) authenticatorDetails in
  let authenticator := map_set authenticatorType (JStruct authenticatorDetails) [] in
  let instantiateMsg := map_set "authenticator" (JStruct authenticator) [] in
  json_text (JStruct instantiateMsg).

Definition registerMsg (sender salt instantiateMsg : string) (codeID : Z) (amount : Coins) : MsgRegisterAccount :=
  mkMsgRegisterAccount sender codeID instantiateMsg amount salt.

(** The hash is printed and decoded again, which gives back its bytes. *)
Definition NewRegisterCmd args fl : outcome MsgRegisterAccount :=
  _ ← MaximumNArgs 2 args;
  from ← arg args 1;
  clientCtx ← GetClientTxContext from;
  a0 ← arg args 0;
  codeID ← ParseUint64 a0;
  amount ← map_err (λ _, Plain "amount") (ParseCoinsNormalized (fl_funds fl));
  codeHash ← Code_DataHash codeID;
  let creatorAddr := cx_FromAddress clientCtx in
  let predictedAddr := BuildContractAddressPredictable codeHash creatorAddr (fl_salt fl) "" in
  '(signature, pubKey) ← map_err (λ _, Plain "error signing predicted address")
                           (SignByAddress creatorAddr (AccAddress_String predictedAddr) SIGN_MODE_DIRECT);
  let instantiateMsg :=
    if decide (fl_authenticator fl = "Jwt")
    then newInstantiateJwtMsg (fl_token fl) (fl_authenticator fl) (fl_sub fl) (fl_aud fl) (fl_authenticatorID fl)
    else newInstantiateMsg (fl_authenticator fl) (fl_authenticatorID fl) signature pubKey in
  let msg := registerMsg (AccAddress_String creatorAddr) (fl_salt fl) instantiateMsg codeID amount in
  _ ← MsgRegisterAccount_ValidateBasic msg;
  Ok msg.

Definition sign_mode (SignModeStr : string) : Z :=
  if decide (SignModeStr = "direct") then SIGN_MODE_DIRECT
  else if decide (SignModeStr = "amino-json") then SIGN_MODE_LEGACY_AMINO_JSON
  else if decide (SignModeStr = "direct-aux") then SIGN_MODE_DIRECT_AUX
  else if decide (SignModeStr = "textual") then SIGN_MODE_TEXTUAL
  else if decide (SignModeStr = "eip-191") then SIGN_MODE_EIP_191
  else SIGN_MODE_UNSPECIFIED.

Definition NewAddAuthenticatorCmd args fl : outcome MsgExecuteContract :=
  _ ← ExactArgs 1 args;
  clientCtx ← GetClientTxContext (fl_from fl);
  contractAddr ← arg args 0;
  '(signature, pubKey) ← map_err (λ _, Plain "error signing address")
    (SignByAddress (cx_FromAddress clientCtx) contractAddr (sign_mode (cx_SignModeStr clientCtx)));
  let secp256k1 := map_set "id" (JNumber (fl_authenticatorID fl)) [] in
  let secp256k1 := map_set "pubkey" (JBytes pubKey) secp256k1 in
  let secp256k1 := map_set "signature" (JBytes signature) secp256k1 in
  let addAuthenticator := map_set "Secp256K1" (JStruct secp256k1) [] in
  let addAuthMethod := map_set "add_authenticator" (JStruct addAuthenticator) [] in
  let msg := map_set "add_auth_method" (JStruct addAuthMethod) [] in
  rawMsg ← RawContractMessage_Unmarshal (json_text (JStruct msg));
  let wasmMsg := mkMsgExecuteContract contractAddr contractAddr rawMsg [] in
  _ ← MsgExecuteContract_ValidateBasic wasmMsg;
  Ok wasmMsg.

Definition NewEmitArbitraryDataCmd args fl : outcome MsgExecuteContract :=
  _ ← ExactArgs 2 args;
  clientCtx ← GetClientTxContext (fl_from fl);
  arbitraryData ← arg args 0;
  contractAddr ← arg args 1;
  let data := map_set "data" (JText arbitraryData) [] in
  let msg := map_set "emit" (JStruct data) [] in
  rawMsg ← RawContractMessage_Unmarshal (json_text (JStruct msg));
  let wasmMsg := mkMsgExecuteContract contractAddr contractAddr rawMsg [] in
  _ ← MsgExecuteContract_ValidateBasic wasmMsg;
  Ok wasmMsg.

Definition NewUpdateParamsCmd args fl : outcome MsgExecuteContract :=
  _ ← ExactArgs 3 args;
  clientCtx ← GetClientTxContext (fl_from fl);
  contract ← arg args 0;
  redirectURL ← arg args 1;
  iconURL ← arg args 2;
  _ ← map_err (λ _, Plain "invalid redirect URL") (url_ParseRequestURI redirectURL);
  _ ← map_err (λ _, Plain "invalid icon URL") (url_ParseRequestURI iconURL);
  let params := go_map [("redirect_url", JText redirectURL); ("icon_url", JText iconURL); ("metadata", JText "{}")] in
  let updateMsg := go_map [("update_params", JStruct (go_map [("params", JStruct params)]))] in
  Ok (mkMsgExecuteContract (AccAddress_String (cx_FromAddress clientCtx)) contract (json_text (JStruct updateMsg)) []).
End commands.

(** ** What the messages say *)
Section theorems.
Context `{Ad : !AddressCodec, Co : !CoinsOps, Cb : !Cobra, Cbl : !CobraLaws, Cd : !CliDeps, Cdl : !CliDepsLaws}.
Implicit Types (args : list string) (fl : Flags).

Lemma outputs_run sendCoins l acc out :
  fold_outcome (λ output a, toAddr ← AccAddressFromBech32 a; Ok (output ++ [NewOutput toAddr sendCoins])) acc l = Ok out →
  ∃ addrs, mapM AccAddressFromBech32 l = Ok addrs ∧ out = acc ++ ((λ a, NewOutput a sendCoins) <$> addrs).
Proof.
  revert acc. induction l as [|a l IH]; intros acc E; cbn [fold_outcome] in E.
  - injection E as <-. exists []. by rewrite app_nil_r.
  - apply bind_Ok in E as (acc'&E1&E). apply bind_Ok in E1 as (toAddr&Ht&[= <-]). destruct (IH _ E) as (addrs&Ea&->).
    exists (toAddr :: addrs). cbn [mapM]. rewrite Ht, bind_Ok_l, Ea. split; [done|]. by rewrite <- app_assoc.
Qed.

Lemma mapM_length {A B} (f : A → outcome B) l k : mapM f l = Ok k → length k = length l.
Proof.
  revert k. induction l as [|a l IH]; intros k E; cbn [mapM] in E; [by injection E as <-|].
  apply bind_Ok in E as (b&_&E). apply bind_Ok in E as (k'&E'&[= <-]). cbn. f_equal. by apply IH.
Qed.

Lemma sumZ_same {A} (c : Z) (l : list A) : sumZ (λ _, c) l = c * llen l.
Proof. induction l as [|a l IH]; cbn [sumZ]; [by rewrite Z.mul_0_r|]. rewrite IH, llen_cons. lia. Qed.

(** [multi-send] pays exactly what the outputs receive: the whole amount to every address, or,
    with [--split], an equal share of it, and what is left over is less than one unit of every
    denomination per address and stays with the sender. *)
Theorem multi_send_pays args fl msg : NewMultiSendTxCmd args fl = Ok msg →
  ∃ ctx coins sendCoins amount addrs,
    (from ← arg args 0; GetClientTxContext from) = Ok ctx ∧ (last ← arg args (llen args - 1); ParseCoinsNormalized last) = Ok coins ∧
    mapM AccAddressFromBech32 (take (Z.to_nat (llen args - 2)) (drop 1 args)) = Ok addrs ∧ llen addrs = llen args - 2 ∧
    msg = mkMsgMultiSend [NewInput (cx_FromAddress ctx) amount] ((λ a, NewOutput a sendCoins) <$> addrs) ∧
    ∀ d, amount_of amount d = sumZ (λ o, amount_of (out_Coins o) d) (ms_Outputs msg) ∧
      if fl_split fl then 0 ≤ amount_of coins d → 0 ≤ amount_of coins d - amount_of amount d < llen args - 2
      else sendCoins = coins.
Proof.
  unfold NewMultiSendTxCmd. intros E. apply bind_Ok in E as ([]&Hn&E). apply MinimumNArgs_spec in Hn.
  apply bind_Ok in E as (from&H0&E). apply bind_Ok in E as (ctx&Hctx&E). apply bind_Ok in E as (last&Hl&E).
  apply bind_Ok in E as (coins&Hc&E). apply bind_Ok in E as ([]&_&E). apply bind_Ok in E as (sendCoins&Hs&E).
  apply bind_Ok in E as (out&Ho&E). apply bind_Ok in E as (amount&Ha&[= <-]).
  apply outputs_run in Ho as (addrs&Hm&->). cbn [app] in *.
  assert (llen addrs = llen args - 2) as Hlen.
  { unfold llen in *. rewrite (mapM_length _ _ _ Hm), length_take, length_drop. lia. }
  exists ctx, coins, sendCoins, amount, addrs. rewrite H0, Hl, !bind_Ok_l. split_and!; [done..|]. intros d. cbn [ms_Outputs].
  rewrite sumZ_map. cbn [NewOutput out_Coins]. rewrite sumZ_same, Hlen. destruct (fl_split fl).
  - rewrite (Coins_MulInt_ok _ _ _ d Ha), (Coins_QuoInt_ok _ _ _ d Hs). split; [done|]. intros Hp.
    rewrite Z.quot_div_nonneg by lia. Z.div_mod_to_equations. nia.
  - injection Hs as <-. by rewrite (Coins_MulInt_ok _ _ _ d Ha).
Qed.

(** The texts that reach a message are UTF-8 and the identifier is a [uint8]. *)
Definition text_args args fl : Prop :=
  Forall utf8_text args ∧ utf8_text (fl_authenticator fl) ∧ utf8_text (fl_sub fl) ∧ utf8_text (fl_aud fl) ∧
  0 ≤ fl_authenticatorID fl < 256.

Lemma exact_args n args : ExactArgs (Z.of_nat n) args = Ok tt → length args = n.
Proof. intros H%ExactArgs_spec. unfold llen in H. lia. Qed.

Ltac json_values := repeat first [apply JBytes_ok | progress json_shape]; try lia.

Lemma raw_message v : json_ok v → RawContractMessage_Unmarshal (json_text v) = Ok (json_text v).
Proof. intros Hv. by eapply RawContractMessage_ok, json_text_parses. Qed.

Lemma emit_parses args fl msg : text_args args fl → NewEmitArbitraryDataCmd args fl = Ok msg →
  ∃ data contract, args = [data; contract] ∧ ex_Sender msg = contract ∧ ex_Contract msg = contract ∧
    json_parses (ex_Msg msg) (JStruct [("emit", JStruct [("data", JText data)])]).
Proof.
  intros (Ht&_) E. apply bind_Ok in E as ([]&Hn%(exact_args 2)&E). destruct args as [|data [|contract [|]]]; try done.
  apply Forall_cons in Ht as [Hd _]. apply bind_Ok in E as (ctx&_&E). do 2 apply bind_Ok in E as (?&[= <-]&E). cbv zeta in E.
  assert (json_ok (JStruct [("emit", JStruct [("data", JText data)])])) as Hok by json_values.
  rewrite raw_message, bind_Ok_l in E by exact Hok. apply bind_Ok in E as ([]&_&[= <-]).
  exists data, contract. split_and!; [done..|]. by apply json_text_parses.
Qed.

Lemma update_params_parses args fl msg : text_args args fl → NewUpdateParamsCmd args fl = Ok msg →
  ∃ contract redirectURL iconURL, args = [contract; redirectURL; iconURL] ∧ ex_Contract msg = contract ∧
    json_parses (ex_Msg msg) (JStruct [("update_params", JStruct [("params", JStruct
      [("icon_url", JText iconURL); ("metadata", JText "{}"); ("redirect_url", JText redirectURL)])])]).
Proof.
  intros (Ht&_) E. apply bind_Ok in E as ([]&Hn%(exact_args 3)&E). destruct args as [|contract [|redirectURL [|iconURL [|]]]]; try done.
  apply Forall_cons in Ht as [_ [Hr [Hi _]%Forall_cons]%Forall_cons].
  apply bind_Ok in E as (ctx&_&E). do 3 apply bind_Ok in E as (?&[= <-]&E). do 2 apply bind_Ok in E as (?&_&E). injection E as <-.
  exists contract, redirectURL, iconURL. split_and!; [done..|]. apply json_text_parses. json_values.
Qed.

Lemma add_authenticator_parses args fl msg : text_args args fl → NewAddAuthenticatorCmd args fl = Ok msg →
  ∃ contract ctx signature pubKey, args = [contract] ∧ ex_Sender msg = contract ∧ ex_Contract msg = contract ∧
    SignByAddress (cx_FromAddress ctx) contract (sign_mode (cx_SignModeStr ctx)) = Ok (signature, pubKey) ∧
    json_parses (ex_Msg msg) (JStruct [("add_auth_method", JStruct [("add_authenticator", JStruct [("Secp256K1", JStruct
      [("id", JNumber (fl_authenticatorID fl)); ("pubkey", JBytes pubKey); ("signature", JBytes signature)])])])]).
Proof.
  intros (Ht&_&_&_&Hid) E. apply bind_Ok in E as ([]&Hn%(exact_args 1)&E). destruct args as [|contract [|]]; try done.
  apply bind_Ok in E as (ctx&_&E). apply bind_Ok in E as (c&[= <-]&E).
  apply bind_Ok in E as ([signature pubKey]&Hs%map_err_Ok&E).
  assert (json_ok (JStruct [("add_auth_method", JStruct [("add_authenticator", JStruct [("Secp256K1", JStruct
    [("id", JNumber (fl_authenticatorID fl)); ("pubkey", JBytes pubKey); ("signature", JBytes signature)])])])])) as Hok by json_values.
  cbv zeta in E.
  rewrite raw_message, bind_Ok_l in E by exact Hok. apply bind_Ok in E as ([]&_&[= <-]).
  exists contract, ctx, signature, pubKey. split_and!; [done..|]. by apply json_text_parses.
Qed.

(** The object that instantiates an account *)
Definition instantiate_object fl (signature pubKey : string) : Json :=
  JStruct [("authenticator", JStruct [(fl_authenticator fl, JStruct
    (if decide (fl_authenticator fl = "Jwt")
     then [("aud", JText (fl_aud fl)); ("id", JNumber (fl_authenticatorID fl)); ("sub", JText (fl_sub fl)); ("token", JBytes (fl_token fl))]
     else [("id", JNumber (fl_authenticatorID fl)); ("pubkey", JBytes pubKey); ("signature", JBytes signature)]))])].

Lemma instantiate_object_ok args fl signature pubKey : text_args args fl → json_ok (instantiate_object fl signature pubKey).
Proof. intros (_&Ha&Hs&Hu&Hid). unfold instantiate_object. case_decide; json_values. Qed.

Lemma register_parses args fl msg : text_args args fl → NewRegisterCmd args fl = Ok msg →
  ∃ code from ctx codeHash signature pubKey, args = [code; from] ∧ GetClientTxContext from = Ok ctx ∧
    ParseUint64 code = Ok (ra_CodeID msg) ∧ Code_DataHash (ra_CodeID msg) = Ok codeHash ∧
    SignByAddress (cx_FromAddress ctx) (AccAddress_String (BuildContractAddressPredictable codeHash (cx_FromAddress ctx) (ra_Salt msg) ""))
      SIGN_MODE_DIRECT = Ok (signature, pubKey) ∧
    ra_Sender msg = AccAddress_String (cx_FromAddress ctx) ∧ ra_Salt msg = fl_salt fl ∧
    ParseCoinsNormalized (fl_funds fl) = Ok (ra_Funds msg) ∧
    json_parses (ra_Msg msg) (instantiate_object fl signature pubKey).
Proof.
  intros Ht E. apply bind_Ok in E as ([]&Hn%MaximumNArgs_spec&E). apply bind_Ok in E as (from&H1&E).
  destruct args as [|code [|from' [|]]]; try done; [|unfold llen in Hn; cbn in Hn; lia]. injection H1 as <-.
  apply bind_Ok in E as (ctx&Hctx&E). apply bind_Ok in E as (?&[= <-]&E). apply bind_Ok in E as (codeID&Hc&E).
  apply bind_Ok in E as (amount&Ha%map_err_Ok&E). apply bind_Ok in E as (codeHash&Hh&E).
  apply bind_Ok in E as ([signature pubKey]&Hs%map_err_Ok&E). apply bind_Ok in E as ([]&_&[= <-]).
  exists code, from', ctx, codeHash, signature, pubKey. split_and!; try done. cbn [ra_Msg registerMsg].
  pose proof (instantiate_object_ok _ _ signature pubKey Ht) as Hok. unfold instantiate_object in *.
  case_decide; by apply json_text_parses.
Qed.

(** Every accepted command builds the contract message that it stands for: whatever the
    arguments and flags hold, the message is JSON of exactly the intended shape. *)
Theorem contract_messages_parse args fl : text_args args fl →
  (∀ msg, NewEmitArbitraryDataCmd args fl = Ok msg → ∃ data contract, args = [data; contract] ∧
     json_parses (ex_Msg msg) (JStruct [("emit", JStruct [("data", JText data)])])) ∧
  (∀ msg, NewUpdateParamsCmd args fl = Ok msg → ∃ contract redirectURL iconURL, args = [contract; redirectURL; iconURL] ∧
     json_parses (ex_Msg msg) (JStruct [("update_params", JStruct [("params", JStruct
       [("icon_url", JText iconURL); ("metadata", JText "{}"); ("redirect_url", JText redirectURL)])])])) ∧
  (∀ msg, NewRegisterCmd args fl = Ok msg → ∃ signature pubKey,
     json_parses (ra_Msg msg) (instantiate_object fl signature pubKey)).
Proof.
  intros Ht. split_and!; intros msg E.
  - destruct (emit_parses _ _ _ Ht E) as (data&contract&?&_&_&?). eauto.
  - destruct (update_params_parses _ _ _ Ht E) as (contract&r&i&?&_&?). eauto 6.
  - destruct (register_parses _ _ _ Ht E) as (?&?&?&?&sig&pk&_&_&_&_&_&_&_&_&?). eauto.
Qed.

(** [register] accepts fewer than two arguments and then panics on the missing one. *)
Lemma register_panics args fl : (length args < 2)%nat → NewRegisterCmd args fl = Panic.
Proof.
  intros Hl. unfold NewRegisterCmd. destruct (MaximumNArgs 2 args) as [[]|e|] eqn:E.
  - by destruct args as [|? [|]]; cbn in Hl; try lia.
  - exfalso. assert (MaximumNArgs 2 args = Ok tt) as H by (apply MaximumNArgs_spec; unfold llen; lia). congruence.
  - done.
Qed.
End theorems.
