(* ===== verification/ProtoAll.v ===== *)
(** * The generated protobuf code: all message types

    The theorems on the message types of all modules, the layout of a stored audience,
    and a model of the imported message types on which the theorems are evaluated. *)

From S2P Require Import Prelude GoStd ProtoWire ProtoCodec ProtoJwk Sdk SdkModel ZkTypes DkimTypes PlatformFee.
From S2P Require Import ProtoZk ProtoDkim ProtoXion ProtoMint ProtoFeeAbs ProtoIndexer.

Section all.
Context {PageRequest PageResponse AuthzGrant GrantAuthorization FeeGrant Any RequestQuery ResponseQuery : Type}.
Context `{IPageRequest : !ImportedMsg PageRequest, IPageResponse : !ImportedMsg PageResponse,
  IAuthzGrant : !ImportedMsg AuthzGrant, IGrantAuthorization : !ImportedMsg GrantAuthorization,
  IFeeGrant : !ImportedMsg FeeGrant, IAny : !ImportedMsg Any, IRequestQuery : !ImportedMsg RequestQuery,
  IResponseQuery : !ImportedMsg ResponseQuery, ICoin : !ImportedMsg Coin, IDecCoin : !ImportedMsg DecCoin,
  IInput : !ImportedMsg Input, IOutput : !ImportedMsg Output}.
Context `{LPageRequest : !ImportedLaws PageRequest, LPageResponse : !ImportedLaws PageResponse,
  LAuthzGrant : !ImportedLaws AuthzGrant, LGrantAuthorization : !ImportedLaws GrantAuthorization,
  LFeeGrant : !ImportedLaws FeeGrant, LAny : !ImportedLaws Any, LRequestQuery : !ImportedLaws RequestQuery,
  LResponseQuery : !ImportedLaws ResponseQuery, LCoin : !ImportedLaws Coin, LDecCoin : !ImportedLaws DecCoin,
  LInput : !ImportedLaws Input, LOutput : !ImportedLaws Output}.
Context (dec_codec : CustomCodec LegacyDec) `{Sdec : !CustomCodecSpec dec_codec}.
Context (time_codec duration_codec : CustomCodec Z)
  `{Stime : !CustomCodecSpec time_codec, Sduration : !CustomCodecSpec duration_codec}.

Definition all_messages : list Message :=
  message empty_fields tt ::
  jwk_messages ++ jwk_messages_imported (PageRequest := PageRequest) (PageResponse := PageResponse) ++
  zk_messages ++ zk_messages_imported (PageRequest := PageRequest) (PageResponse := PageResponse) ++
  dkim_messages ++ dkim_messages_imported (PageRequest := PageRequest) (PageResponse := PageResponse) ++
  xion_messages ++ xion_messages_imported (Any := Any) ++
  mint_messages_imported dec_codec ++
  feeabs_messages ++ feeabs_messages_imported (RequestQuery := RequestQuery) (ResponseQuery := ResponseQuery)
                       dec_codec time_codec duration_codec ++
  indexer_messages ++ indexer_messages_imported (PageRequest := PageRequest) (PageResponse := PageResponse)
                        (AuthzGrant := AuthzGrant) (GrantAuthorization := GrantAuthorization) (FeeGrant := FeeGrant).

Lemma all_messages_ok : Forall message_ok all_messages.
Proof.
  unfold all_messages. apply List.Forall_cons; [apply message_is_ok|]. repeat (apply Forall_app_2; [|]);
    first [apply jwk_messages_ok|apply zk_messages_ok|apply dkim_messages_ok|apply xion_messages_ok
      |apply feeabs_messages_ok|apply indexer_messages_ok|apply jwk_messages_imported_ok|apply zk_messages_imported_ok
      |apply dkim_messages_imported_ok|apply xion_messages_imported_ok|apply mint_messages_imported_ok
      |apply feeabs_messages_imported_ok|apply indexer_messages_imported_ok].
Qed.

(** C17. For every message type of the repository, [Marshal] gives as many bytes as [Size]
    announces, [Unmarshal] reads them back to the same message, and
    [MarshalToSizedBuffer] puts them at the end of a larger buffer. *)
Theorem messages_roundtrip M : M ∈ all_messages → roundtrips M.
Proof. intros HM. pose proof all_messages_ok as H. rewrite Forall_forall in H. apply (H M HM). Qed.

(** C19. For every message type of the repository, [Unmarshal] ends on arbitrary bytes with a
    message or an error: no panic, and neither its loop nor the skipping of an unknown
    field runs on. *)
Theorem messages_decode_any M : M ∈ all_messages → decodes_any M.
Proof. intros HM. pose proof all_messages_ok as H. rewrite Forall_forall in H. apply (H M HM). Qed.

(** For every message type of the repository, fields with numbers it does not have, of
    any wire type but groups, before and behind the message, are skipped. *)
Theorem messages_skip_unknown M : M ∈ all_messages → skips_unknown M.
Proof. intros HM. pose proof all_messages_ok as H. rewrite Forall_forall in H. apply (H M HM). Qed.
End all.

(** ** The layout of a stored audience *)

(** A string field: nothing for the empty string, else the tag, the length and the bytes *)
Definition wire_string (num : Z) (s : string) : bytes :=
  if decide (s = "") then [] else tag_byte num 2 :: delimited (bytes_of s).

Lemma varint_digits_short rounds v : (length (varint_digits rounds v) ≤ rounds)%nat.
Proof. revert v. induction rounds as [|r IH]; intros v; cbn; [lia|]. case_match; cbn; [lia|]. specialize (IH (v / 128)). lia. Qed.

Lemma wire_string_short num s : llen (wire_string num s) ≤ slen s + 11.
Proof.
  pose proof (slen_nonneg s). unfold wire_string. case_decide; [unfold llen; cbn; lia|]. rewrite llen_cons. unfold delimited.
  rewrite llen_app, bytes_of_length. pose proof (varint_digits_short 10 (slen s)). unfold varint, llen in *. lia.
Qed.

(** An audience is stored as the name in field 1, the key in field 2 and the admin in
    field 3, each left out when it is empty. *)
Theorem jwk_Audience_wire a :
  slen (au_Aud a) < 2 ^ 60 → slen (au_Key a) < 2 ^ 60 → slen (au_Admin a) < 2 ^ 60 →
  msg_Marshal jwk_Audience_fields a = Ok (wire_string 1 (au_Aud a) ++ wire_string 2 (au_Key a) ++ wire_string 3 (au_Admin a)).
Proof.
  intros H1 H2 H3.
  pose proof (wire_string_short 1 (au_Aud a)). pose proof (wire_string_short 2 (au_Key a)). pose proof (wire_string_short 3 (au_Admin a)).
  assert (fields_enc (msg_fields (MsgSpec := jwk_Audience_spec)) a =
    wire_string 1 (au_Aud a) ++ wire_string 2 (au_Key a) ++ wire_string 3 (au_Admin a)) as E.
  { cbn. unfold wire_string, items_enc. repeat case_decide; cbn; by rewrite ?app_nil_r. }
  rewrite <- E. apply msg_Marshal_ok; [cbn; lia|]. rewrite E, !llen_app. lia.
Qed.

Lemma jwk_Audience_wire_witness :
  msg_Marshal jwk_Audience_fields (mkAudience "xion1alice" "app" "") =
  Ok (bytes_of (String (byte_of 10) (String (byte_of 3) "app")) ++ bytes_of (String (byte_of 26) (String (byte_of 10) "xion1alice"))).
Proof. rewrite jwk_Audience_wire by done. reflexivity. Defined.

(** ** A model of the imported types *)
Section model.
Context {A : Type} `{Countable A}.

Definition model_custom : CustomCodec A := {|
  cc_Size a := slen (model_marshal a);
  cc_MarshalTo a dAtA :=
    if slen (model_marshal a) <=? llen dAtA
    then Ok (bytes_of (model_marshal a) ++ drop (length (bytes_of (model_marshal a))) dAtA) else Panic;
  cc_Unmarshal s := or_fail (model_unmarshal (of_bytes s)) (Foreign "decode") |}.

#[global] Program Instance model_custom_spec : CustomCodecSpec model_custom := {|
  cc_fits _ := True; cc_enc a := bytes_of (model_marshal a) |}.
Next Obligation. intros a _. cbn. by rewrite bytes_of_length. Qed.
Next Obligation. intros a d _ Hl. cbn in *. rewrite bytes_of_length in Hl. by rewrite (proj2 (Z.leb_le _ _)). Qed.
Next Obligation. intros a _. cbn. by rewrite of_bytes_of, model_codec_roundtrip. Qed.
Next Obligation. intros s _. cbn. by destruct (model_unmarshal _). Qed.

Definition model_msg_fields : list (Field A) := [custom_field model_custom 1 id (λ v _, v)].
#[global] Instance model_msg_spec zero : MsgSpec model_msg_fields zero.
Proof. refine (mkMsgSpec _ _ _ _ _ _); [by apply (bool_decide_unpack _); vm_compute|done]. Defined.

Definition model_imported (zero : A) : ImportedMsg A := {| im_codec := msg_codec model_msg_fields; im_zero := zero |}.
Definition model_imported_laws zero : @ImportedLaws A (model_imported zero) := msg_codec_spec model_msg_fields zero.
End model.

#[global] Instance DecCoin_countable : Countable DecCoin.
Proof. apply (inj_countable' (λ c, (dc_Denom c, dc_Amount c)) (λ x, mkDecCoin x.1 x.2)). by intros []. Defined.
#[global] Instance Input_eq_dec : EqDecision Input.
Proof. solve_decision. Defined.
#[global] Instance Input_countable : Countable Input.
Proof. apply (inj_countable' (λ c, (in_Address c, in_Coins c)) (λ x, mkInput x.1 x.2)). by intros []. Defined.
#[global] Instance Output_eq_dec : EqDecision Output.
Proof. solve_decision. Defined.
#[global] Instance Output_countable : Countable Output.
Proof. apply (inj_countable' (λ c, (out_Address c, out_Coins c)) (λ x, mkOutput x.1 x.2)). by intros []. Defined.

(** The message types with the model in place of the dependencies: opaque ones are texts. *)
#[local] Instance model_text : ImportedMsg string := model_imported "".
#[local] Instance model_text_laws : ImportedLaws string := model_imported_laws "".
#[local] Instance model_Coin : ImportedMsg Coin := model_imported (mkCoin "" 0).
#[local] Instance model_Coin_laws : ImportedLaws Coin := model_imported_laws (mkCoin "" 0).
#[local] Instance model_DecCoin : ImportedMsg DecCoin := model_imported (mkDecCoin "" 0).
#[local] Instance model_DecCoin_laws : ImportedLaws DecCoin := model_imported_laws (mkDecCoin "" 0).
#[local] Instance model_Input : ImportedMsg Input := model_imported (mkInput "" []).
#[local] Instance model_Input_laws : ImportedLaws Input := model_imported_laws (mkInput "" []).
#[local] Instance model_Output : ImportedMsg Output := model_imported (mkOutput "" []).
#[local] Instance model_Output_laws : ImportedLaws Output := model_imported_laws (mkOutput "" []).

Definition model_messages : list Message :=
  all_messages (PageRequest := string) (PageResponse := string) (AuthzGrant := string) (GrantAuthorization := string)
    (FeeGrant := string) (Any := string) (RequestQuery := string) (ResponseQuery := string)
    model_custom model_custom model_custom.

Definition ex_send : MsgSend := mkMsgSend "xion1alice" "xion1bob" [mkCoin "uxion" 5].
Definition ex_send_message : Message := message xion_MsgSend_fields xion_MsgSend_zero.

Definition ex_send_bytes : bytes := match msg_Marshal xion_MsgSend_fields ex_send with Ok dAtA => dAtA | _ => [] end.

Lemma ex_send_in : ex_send_message ∈ model_messages.
Proof.
  unfold model_messages, all_messages. apply elem_of_cons. right. do 7 (apply elem_of_app; right). apply elem_of_app. left.
  apply list_elem_of_here.
Qed.
Lemma ex_send_encodable : mt_encodable ex_send_message ex_send.
Proof.
  split; [|by vm_compute]. cbn. split_and!; try done. by repeat constructor.
Qed.

Lemma messages_roundtrip_witness :
  ∃ dAtA, msg_Marshal xion_MsgSend_fields ex_send = Ok dAtA ∧ msg_Unmarshal xion_MsgSend_fields xion_MsgSend_zero dAtA = Ok ex_send.
Proof.
  destruct (messages_roundtrip model_custom model_custom model_custom ex_send_message ex_send_in ex_send ex_send_encodable)
    as (dAtA&E1&_&E2&_). exists dAtA. split; [exact E1|exact E2].
Defined.

(** A length that is too large *)
Lemma messages_decode_any_witness :
  ∃ e, msg_Unmarshal xion_MsgSend_fields xion_MsgSend_zero [byte_of 10; byte_of 255; byte_of 127] = Err e ∧ e ≠ ErrOutOfFuel.
Proof.
  destruct (messages_decode_any model_custom model_custom model_custom ex_send_message ex_send_in xion_MsgSend_zero
    [byte_of 10; byte_of 255; byte_of 127]) as [[m E]|H]; [done| |exact H].
  exfalso. revert E. vm_compute. discriminate.
Defined.

(** A later version with a memo in field 4 *)
Lemma messages_skip_unknown_witness :
  msg_Unmarshal xion_MsgSend_fields xion_MsgSend_zero (uns_enc [UVarint 9 300] ++ ex_send_bytes ++ uns_enc [UBytes 4 (bytes_of "memo")])
  = Ok ex_send.
Proof.
  apply (messages_skip_unknown model_custom model_custom model_custom ex_send_message ex_send_in ex_send
    [UVarint 9 300] [UBytes 4 (bytes_of "memo")] ex_send_bytes ex_send_encodable).
  - by vm_compute.
  - apply Forall_singleton. split; [by constructor|]. by apply (bool_decide_unpack _).
  - apply Forall_singleton. split; [by constructor|]. by apply (bool_decide_unpack _).
  - by vm_compute.
Defined.
