(* ===== verification/ApiAll.v ===== *)
(** * src/api: all message types

    The theorems on the message types of all modules in the second set, and a model of the
    libraries and of the imported message types on which they are evaluated. *)

From S2P Require Import Prelude GoStd ProtoWire ProtoCodec PulsarWire PulsarCodec PulsarReflect PulsarLists PulsarAgree Sdk SdkModel PlatformFee.
From S2P Require Import ProtoJwk ProtoXion ApiJwk ApiZk ApiDkim ApiXion ApiMint ApiFeeAbs ApiIndexer ProtoAll.

(** ** The message types without fields *)
#[global] Instance api_empty_spec : PulsarSpec empty_fields tt.
Proof. refine (mkPulsarSpec _ _ _ _ _ _); [constructor|by intros []]. Defined.
#[global] Instance api_empty_reflect {I} : ReflectSpec ([] : list (RField I unit)) tt.
Proof. refine (mkReflectSpec _ _ _ _ _ _ _ _ _); [constructor|done|done|by intros []]. Defined.
#[global] Instance api_empty_agrees : MessageAgrees empty_fields tt empty_fields tt id.
Proof. message_agree. Defined.

Section empty.
Context {I : Type} `{Rt : !PulsarRuntime, Op : !ProtoOptions, RtL : !PulsarRuntimeLaws, OpL : !ProtoOptionsLaws}.

Definition api_empty : ApiMessage I := api_message empty_fields tt empty_fields tt [] id.
Lemma api_empty_ok : api_message_ok api_empty.
Proof. apply api_message_is_ok; [apply _|]. apply pr_nil. Qed.
End empty.

(** ** All message types *)
Section all.
Context {I : Type} `{Rt : !PulsarRuntime, Op : !ProtoOptions, RtL : !PulsarRuntimeLaws, OpL : !ProtoOptionsLaws}.
Context {PageRequest PageResponse AuthzGrant GrantAuthorization FeeGrant Any : Type}
  `{IPageRequest : !ImportedMsg PageRequest, IPageResponse : !ImportedMsg PageResponse,
  IAuthzGrant : !ImportedMsg AuthzGrant, IGrantAuthorization : !ImportedMsg GrantAuthorization,
  IFeeGrant : !ImportedMsg FeeGrant, IAny : !ImportedMsg Any, ICoin : !ImportedMsg Coin,
  IDecCoin : !ImportedMsg DecCoin, IInput : !ImportedMsg Input, IOutput : !ImportedMsg Output}.
Context `{LPageRequest : !ImportedLaws PageRequest, LPageResponse : !ImportedLaws PageResponse,
  LAuthzGrant : !ImportedLaws AuthzGrant, LGrantAuthorization : !ImportedLaws GrantAuthorization,
  LFeeGrant : !ImportedLaws FeeGrant, LAny : !ImportedLaws Any, LCoin : !ImportedLaws Coin,
  LDecCoin : !ImportedLaws DecCoin, LInput : !ImportedLaws Input, LOutput : !ImportedLaws Output}.
Context (dec_codec : CustomCodec LegacyDec) `{Sdec : !CustomCodecSpec dec_codec, Tdec : !CustomText dec_codec}.
Context (time_codec duration_codec : CustomCodec Z)
  `{Stime : !CustomCodecSpec time_codec, Sduration : !CustomCodecSpec duration_codec}.
Context {PageRequest_api PageResponse_api AuthzGrant_api GrantAuthorization_api FeeGrant_api Any_api Coin_api
  DecCoin_api Input_api Output_api Timestamp_api Duration_api : Type} `{IAPageRequest : !ImportedApi PageRequest_api,
  IAPageResponse : !ImportedApi PageResponse_api, IAAuthzGrant : !ImportedApi AuthzGrant_api,
  IAGrantAuthorization : !ImportedApi GrantAuthorization_api, IAFeeGrant : !ImportedApi FeeGrant_api,
  IAAny : !ImportedApi Any_api, IACoin : !ImportedApi Coin_api, IADecCoin : !ImportedApi DecCoin_api,
  IAInput : !ImportedApi Input_api, IAOutput : !ImportedApi Output_api, IATimestamp : !ImportedApi Timestamp_api,
  IADuration : !ImportedApi Duration_api}.
Context `{LAPageRequest : !ImportedApiLaws PageRequest_api, LAPageResponse : !ImportedApiLaws PageResponse_api,
  LAAuthzGrant : !ImportedApiLaws AuthzGrant_api, LAGrantAuthorization : !ImportedApiLaws GrantAuthorization_api,
  LAFeeGrant : !ImportedApiLaws FeeGrant_api, LAAny : !ImportedApiLaws Any_api, LACoin : !ImportedApiLaws Coin_api,
  LADecCoin : !ImportedApiLaws DecCoin_api, LAInput : !ImportedApiLaws Input_api,
  LAOutput : !ImportedApiLaws Output_api, LATimestamp : !ImportedApiLaws Timestamp_api,
  LADuration : !ImportedApiLaws Duration_api}.
Context (PageRequest_conv : PageRequest → PageRequest_api) (PageResponse_conv : PageResponse → PageResponse_api)
  (AuthzGrant_conv : AuthzGrant → AuthzGrant_api)
  (GrantAuthorization_conv : GrantAuthorization → GrantAuthorization_api) (FeeGrant_conv : FeeGrant → FeeGrant_api)
  (Any_conv : Any → Any_api) (Coin_conv : Coin → Coin_api) (DecCoin_conv : DecCoin → DecCoin_api)
  (Input_conv : Input → Input_api) (Output_conv : Output → Output_api) (Timestamp_conv : Z → Timestamp_api)
  (Duration_conv : Z → Duration_api).
Context `{CAPageRequest : !CodecAgrees im_codec im_zero ia_methods ia_zero PageRequest_conv,
  CAPageResponse : !CodecAgrees im_codec im_zero ia_methods ia_zero PageResponse_conv,
  CAAuthzGrant : !CodecAgrees im_codec im_zero ia_methods ia_zero AuthzGrant_conv,
  CAGrantAuthorization : !CodecAgrees im_codec im_zero ia_methods ia_zero GrantAuthorization_conv,
  CAFeeGrant : !CodecAgrees im_codec im_zero ia_methods ia_zero FeeGrant_conv,
  CAAny : !CodecAgrees im_codec im_zero ia_methods ia_zero Any_conv,
  CACoin : !CodecAgrees im_codec im_zero ia_methods ia_zero Coin_conv,
  CADecCoin : !CodecAgrees im_codec im_zero ia_methods ia_zero DecCoin_conv,
  CAInput : !CodecAgrees im_codec im_zero ia_methods ia_zero Input_conv,
  CAOutput : !CodecAgrees im_codec im_zero ia_methods ia_zero Output_conv,
  CATimestamp : !CustomAgrees time_codec ia_methods ia_zero Timestamp_conv,
  CADuration : !CustomAgrees duration_codec ia_methods ia_zero Duration_conv}.
Context `{!GoPointer I (Pulsar api_jwk_Params), !GoPointer I (Pulsar api_jwk_Audience),
  !GoPointer I (Pulsar api_jwk_AudienceClaim), !GoPointer I PageRequest_api, !GoPointer I PageResponse_api,
  !GoPointer I (Pulsar api_jwk_PrivateClaim), !GoPointer I (Pulsar api_jwk_JWTClaim),
  !GoPointer I (Pulsar api_zk_VKey), !GoPointer I (Pulsar api_zk_VKeyWithID), !GoPointer I (Pulsar api_zk_Params),
  !GoPointer I (Pulsar api_dkim_IndexRange), !GoPointer I (Pulsar api_dkim_PublicInputIndices),
  !GoPointer I (Pulsar api_dkim_Params), !GoPointer I (Pulsar api_dkim_DkimPubKey), !GoPointer I Any_api,
  !GoPointer I Coin_api, !GoPointer I Input_api, !GoPointer I Output_api, !GoPointer I DecCoin_api,
  !GoPointer I (Pulsar (api_globalfee_Params (DecCoin_api := DecCoin_api))), !GoPointer I (Pulsar api_mint_Minter),
  !GoPointer I (Pulsar api_mint_Params), !GoPointer I Timestamp_api, !GoPointer I Duration_api,
  !GoPointer I (Pulsar api_feeabs_Params), !GoPointer I (Pulsar (api_feeabs_EpochInfo (Timestamp_api := Timestamp_api) (Duration_api := Duration_api))),
  !GoPointer I (Pulsar api_feeabs_HostChainFeeAbsConfig), !GoPointer I AuthzGrant_api,
  !GoPointer I GrantAuthorization_api, !GoPointer I FeeGrant_api}.

Definition all_api_messages : list (ApiMessage I) :=
  api_empty ::
  api_jwk_messages PageRequest_conv PageResponse_conv ++
  api_zk_messages PageRequest_conv PageResponse_conv ++
  api_dkim_messages PageRequest_conv PageResponse_conv ++
  api_xion_messages Any_conv Coin_conv Input_conv Output_conv ++
  api_mint_messages dec_codec DecCoin_conv ++
  api_feeabs_messages dec_codec time_codec duration_codec Coin_conv Timestamp_conv Duration_conv ++
  api_indexer_messages PageRequest_conv AuthzGrant_conv PageResponse_conv GrantAuthorization_conv FeeGrant_conv.

Lemma all_api_messages_ok : Forall api_message_ok all_api_messages.
Proof.
  unfold all_api_messages. apply List.Forall_cons; [apply api_empty_ok|]. repeat (apply Forall_app_2; [|]);
    first [apply api_jwk_messages_ok|apply api_zk_messages_ok|apply api_dkim_messages_ok
      |apply api_xion_messages_ok|apply api_mint_messages_ok|apply api_feeabs_messages_ok|apply api_indexer_messages_ok];
    apply _.
Qed.

Lemma api_message_elem M : M ∈ all_api_messages → api_message_ok M.
Proof. intros HM. pose proof all_api_messages_ok as H. rewrite Forall_forall in H. by apply H. Qed.

(** C20. For every message type under [src/api], [marshal] gives as many bytes as [size]
    announces and [unmarshal] reads them back; on arbitrary bytes it ends with a message or
    an error.  Fields that the type does not know, of any number and wire type, groups
    included, and anywhere between the known ones, survive reading and writing unless the
    option [DiscardUnknown] is set, and then they are all that is dropped.  The sizes are
    those of Go slices, below 2^63. *)
Theorem api_messages_roundtrip M : M ∈ all_api_messages → api_roundtrips M ∧ keeps_unknown M.
Proof. intros HM%api_message_elem. split; apply HM. Qed.

(** C18. The two sets of generated messages agree: for every message type, [Marshal] of
    [x/*/types] and [marshal] of [src/api] write the same bytes for a message and its
    counterpart, and each side reads them back. *)
Theorem generated_sets_agree M : M ∈ all_api_messages → sets_agree M.
Proof. intros HM%api_message_elem. apply HM. Qed.

(** C22. Reflection on every message type under [src/api]: setting the populated fields of a
    message on a new one gives that message, a cleared field is not populated, a method on
    one field leaves the others alone, other names panic, and the populated fields are the
    ones that [marshal] writes. *)
Theorem api_reflection M : M ∈ all_api_messages →
  reflects (am_reflect M) (am_zero M) (am_well_typed M) ∧ writes_populated M.
Proof. intros HM%api_message_elem. split; apply HM. Qed.

Context `{VF : !ValueFormat I}.

Definition all_api_lists : list (ApiList I) :=
  api_jwk_lists ++ api_zk_lists ++ api_dkim_lists ++ api_xion_lists ++ api_mint_lists ++ api_feeabs_lists ++ api_indexer_lists.

Lemma all_api_lists_ok : Forall api_list_ok all_api_lists.
Proof.
  unfold all_api_lists. repeat (apply Forall_app_2; [|]);
    first [apply api_jwk_lists_ok|apply api_zk_lists_ok|apply api_dkim_lists_ok|apply api_xion_lists_ok
      |apply api_mint_lists_ok|apply api_feeabs_lists_ok|apply api_indexer_lists_ok].
Qed.

(** C33. Every list type under [src/api] is a list: however [append] grows the array, [Len],
    [Get], [Set], [Append], [AppendMutable], [Truncate] and [NewElement] on a slice do what
    they do on the list of its elements, an index out of range panics, and a nil list is
    empty and cannot be changed. *)
Theorem api_lists_refine L spare : L ∈ all_api_lists → list_refines spare (al_kind L).
Proof. intros HL. pose proof all_api_lists_ok as H. rewrite Forall_forall in H. by apply H. Qed.
End all.

(** ** A model of the libraries and of the imported types *)
#[local] Instance model_runtime : PulsarRuntime := {|
  rt_Sov := sov;
  rt_EncodeVarint l i v := b ← encodeVarint v (mkBuf l i); Ok (buf_dAtA b, buf_i b);
  rt_Skip := skip |}.
#[local] Instance model_runtime_laws : PulsarRuntimeLaws.
Proof.
  split; [intros v Hv; by rewrite varint_length| |exact file_skip_spec].
  intros pre junk suf v Hv Hj. cbn. unfold encodeVarint. cbn [buf_dAtA buf_i]. rewrite <- varint_length, Hj by done.
  replace (llen pre + llen (varint v) - llen (varint v)) with (llen pre) by lia.
  unfold varint in *. rewrite put_varint_digits by (unfold is_u64, llen in *; lia). done.
Qed.
#[local] Instance model_options : ProtoOptions := {|
  DiscardUnknown := false;
  opt_Size T size := size;
  opt_Marshal T marshal := marshal;
  opt_Unmarshal T unmarshal _ := unmarshal |}.
#[local] Instance model_options_laws : ProtoOptionsLaws.
Proof. split; [done..|]. intros T unmarshal zero t s. by left. Qed.

Section model.
Context {A : Type} `{Countable A}.

(** The messages of [model_imported] in the second set *)
Definition model_methods : Methods A :=
  mkMethods (msg_Size model_msg_fields) (msg_Marshal model_msg_fields) (msg_Unmarshal model_msg_fields).
Definition model_api (zero : A) : ImportedApi A := {| ia_methods := model_methods; ia_zero := zero |}.
Definition model_api_laws zero : @ImportedApiLaws A (model_api zero).
Proof.
  refine (mkMethodsSpec _ _ _ (fields_fits (msg_fields (zero := zero))) (fields_enc (msg_fields (zero := zero))) _ _ _ _ _).
  - apply msg_Size_ok.
  - apply msg_Marshal_ok.
  - intros t t0 Hf Hl. eexists. by apply msg_Unmarshal_enc; [apply (msg_nodup (zero := zero))|..].
  - intros t Hf Hl. etrans; [by apply msg_Unmarshal_enc; [apply (msg_nodup (zero := zero))|..]|]. by rewrite msg_restore.
  - intros t s. apply (msg_Unmarshal_benign _ (msg_fields (zero := zero))).
Defined.
Lemma model_api_agrees zero :
  @CodecAgrees A A (im_codec (ImportedMsg := model_imported zero)) zero (model_imported_laws zero) model_methods zero (model_api_laws zero) id.
Proof. intros t Hf. split; [exact Hf|done]. Qed.

(** A custom type that is a message there *)
Definition model_stamp : Methods A := mkMethods (cc_Size model_custom) (λ t, Ok (cc_enc t)) (λ _, cc_Unmarshal model_custom).
Definition model_stamp_spec (zero : A) : MethodsSpec model_stamp zero.
Proof.
  refine (mkMethodsSpec _ _ _ (cc_fits (c := model_custom)) (cc_enc (c := model_custom)) _ _ _ _ _).
  - apply cc_Size_ok.
  - done.
  - intros t t0 Hf _. exists t. by apply cc_Unmarshal_ok.
  - intros t Hf _. by apply cc_Unmarshal_ok.
  - intros t0. apply cc_Unmarshal_benign.
Defined.
Lemma model_stamp_agrees (zero : A) : @CustomAgrees A A model_custom model_custom_spec model_stamp zero (model_stamp_spec zero) id.
Proof. intros t Hf. split; [exact Hf|done]. Qed.

#[global] Instance model_custom_text : CustomText (model_custom (A := A)).
Proof. intros t _. cbn. intros E. apply (model_marshal_nonempty t). by rewrite <- (of_bytes_of (model_marshal t)), E. Qed.
End model.

(** Pointers to the messages that are embedded somewhere *)
Inductive AnyMessage :=
| any_text (p : option string)
| any_Coin (p : option Coin)
| any_DecCoin (p : option DecCoin)
| any_Input (p : option Input)
| any_Output (p : option Output)
| any_time (p : option Z)
| any_jwk_Params (p : option (Pulsar api_jwk_Params))
| any_jwk_Audience (p : option (Pulsar api_jwk_Audience))
| any_jwk_AudienceClaim (p : option (Pulsar api_jwk_AudienceClaim))
| any_jwk_PrivateClaim (p : option (Pulsar api_jwk_PrivateClaim))
| any_jwk_JWTClaim (p : option (Pulsar api_jwk_JWTClaim))
| any_zk_VKey (p : option (Pulsar api_zk_VKey))
| any_zk_VKeyWithID (p : option (Pulsar api_zk_VKeyWithID))
| any_zk_Params (p : option (Pulsar api_zk_Params))
| any_dkim_IndexRange (p : option (Pulsar api_dkim_IndexRange))
| any_dkim_PublicInputIndices (p : option (Pulsar api_dkim_PublicInputIndices))
| any_dkim_Params (p : option (Pulsar api_dkim_Params))
| any_dkim_DkimPubKey (p : option (Pulsar api_dkim_DkimPubKey))
| any_globalfee_Params (p : option (Pulsar (api_globalfee_Params (DecCoin_api := DecCoin))))
| any_mint_Minter (p : option (Pulsar api_mint_Minter))
| any_mint_Params (p : option (Pulsar api_mint_Params))
| any_feeabs_Params (p : option (Pulsar api_feeabs_Params))
| any_feeabs_EpochInfo (p : option (Pulsar (api_feeabs_EpochInfo (Timestamp_api := Z) (Duration_api := Z))))
| any_feeabs_HostChainFeeAbsConfig (p : option (Pulsar api_feeabs_HostChainFeeAbsConfig)).

#[local] Instance any_text_pointer : GoPointer AnyMessage string := {|
  box := any_text; unbox i := match i with any_text p => Some p | _ => None end; unbox_box p := eq_refl |}.
#[local] Instance any_Coin_pointer : GoPointer AnyMessage Coin := {|
  box := any_Coin; unbox i := match i with any_Coin p => Some p | _ => None end; unbox_box p := eq_refl |}.
#[local] Instance any_DecCoin_pointer : GoPointer AnyMessage DecCoin := {|
  box := any_DecCoin; unbox i := match i with any_DecCoin p => Some p | _ => None end; unbox_box p := eq_refl |}.
#[local] Instance any_Input_pointer : GoPointer AnyMessage Input := {|
  box := any_Input; unbox i := match i with any_Input p => Some p | _ => None end; unbox_box p := eq_refl |}.
#[local] Instance any_Output_pointer : GoPointer AnyMessage Output := {|
  box := any_Output; unbox i := match i with any_Output p => Some p | _ => None end; unbox_box p := eq_refl |}.
#[local] Instance any_time_pointer : GoPointer AnyMessage Z := {|
  box := any_time; unbox i := match i with any_time p => Some p | _ => None end; unbox_box p := eq_refl |}.
#[local] Instance any_jwk_Params_pointer : GoPointer AnyMessage (Pulsar api_jwk_Params) := {|
  box := any_jwk_Params; unbox i := match i with any_jwk_Params p => Some p | _ => None end; unbox_box p := eq_refl |}.
#[local] Instance any_jwk_Audience_pointer : GoPointer AnyMessage (Pulsar api_jwk_Audience) := {|
  box := any_jwk_Audience; unbox i := match i with any_jwk_Audience p => Some p | _ => None end; unbox_box p := eq_refl |}.
#[local] Instance any_jwk_AudienceClaim_pointer : GoPointer AnyMessage (Pulsar api_jwk_AudienceClaim) := {|
  box := any_jwk_AudienceClaim; unbox i := match i with any_jwk_AudienceClaim p => Some p | _ => None end; unbox_box p := eq_refl |}.
#[local] Instance any_jwk_PrivateClaim_pointer : GoPointer AnyMessage (Pulsar api_jwk_PrivateClaim) := {|
  box := any_jwk_PrivateClaim; unbox i := match i with any_jwk_PrivateClaim p => Some p | _ => None end; unbox_box p := eq_refl |}.
#[local] Instance any_jwk_JWTClaim_pointer : GoPointer AnyMessage (Pulsar api_jwk_JWTClaim) := {|
  box := any_jwk_JWTClaim; unbox i := match i with any_jwk_JWTClaim p => Some p | _ => None end; unbox_box p := eq_refl |}.
#[local] Instance any_zk_VKey_pointer : GoPointer AnyMessage (Pulsar api_zk_VKey) := {|
  box := any_zk_VKey; unbox i := match i with any_zk_VKey p => Some p | _ => None end; unbox_box p := eq_refl |}.
#[local] Instance any_zk_VKeyWithID_pointer : GoPointer AnyMessage (Pulsar api_zk_VKeyWithID) := {|
  box := any_zk_VKeyWithID; unbox i := match i with any_zk_VKeyWithID p => Some p | _ => None end; unbox_box p := eq_refl |}.
#[local] Instance any_zk_Params_pointer : GoPointer AnyMessage (Pulsar api_zk_Params) := {|
  box := any_zk_Params; unbox i := match i with any_zk_Params p => Some p | _ => None end; unbox_box p := eq_refl |}.
#[local] Instance any_dkim_IndexRange_pointer : GoPointer AnyMessage (Pulsar api_dkim_IndexRange) := {|
  box := any_dkim_IndexRange; unbox i := match i with any_dkim_IndexRange p => Some p | _ => None end; unbox_box p := eq_refl |}.
#[local] Instance any_dkim_PublicInputIndices_pointer : GoPointer AnyMessage (Pulsar api_dkim_PublicInputIndices) := {|
  box := any_dkim_PublicInputIndices; unbox i := match i with any_dkim_PublicInputIndices p => Some p | _ => None end; unbox_box p := eq_refl |}.
#[local] Instance any_dkim_Params_pointer : GoPointer AnyMessage (Pulsar api_dkim_Params) := {|
  box := any_dkim_Params; unbox i := match i with any_dkim_Params p => Some p | _ => None end; unbox_box p := eq_refl |}.
#[local] Instance any_dkim_DkimPubKey_pointer : GoPointer AnyMessage (Pulsar api_dkim_DkimPubKey) := {|
  box := any_dkim_DkimPubKey; unbox i := match i with any_dkim_DkimPubKey p => Some p | _ => None end; unbox_box p := eq_refl |}.
#[local] Instance any_globalfee_Params_pointer : GoPointer AnyMessage (Pulsar (api_globalfee_Params (DecCoin_api := DecCoin))) := {|
  box := any_globalfee_Params; unbox i := match i with any_globalfee_Params p => Some p | _ => None end; unbox_box p := eq_refl |}.
#[local] Instance any_mint_Minter_pointer : GoPointer AnyMessage (Pulsar api_mint_Minter) := {|
  box := any_mint_Minter; unbox i := match i with any_mint_Minter p => Some p | _ => None end; unbox_box p := eq_refl |}.
#[local] Instance any_mint_Params_pointer : GoPointer AnyMessage (Pulsar api_mint_Params) := {|
  box := any_mint_Params; unbox i := match i with any_mint_Params p => Some p | _ => None end; unbox_box p := eq_refl |}.
#[local] Instance any_feeabs_Params_pointer : GoPointer AnyMessage (Pulsar api_feeabs_Params) := {|
  box := any_feeabs_Params; unbox i := match i with any_feeabs_Params p => Some p | _ => None end; unbox_box p := eq_refl |}.
#[local] Instance any_feeabs_EpochInfo_pointer : GoPointer AnyMessage (Pulsar (api_feeabs_EpochInfo (Timestamp_api := Z) (Duration_api := Z))) := {|
  box := any_feeabs_EpochInfo; unbox i := match i with any_feeabs_EpochInfo p => Some p | _ => None end; unbox_box p := eq_refl |}.
#[local] Instance any_feeabs_HostChainFeeAbsConfig_pointer : GoPointer AnyMessage (Pulsar api_feeabs_HostChainFeeAbsConfig) := {|
  box := any_feeabs_HostChainFeeAbsConfig; unbox i := match i with any_feeabs_HostChainFeeAbsConfig p => Some p | _ => None end; unbox_box p := eq_refl |}.

#[local] Instance imported_text : ImportedMsg string := model_imported "".
#[local] Instance imported_text_laws : ImportedLaws string := model_imported_laws "".
#[local] Instance imported_text_api : ImportedApi string := model_api "".
#[local] Instance imported_text_api_laws : ImportedApiLaws string := model_api_laws "".
#[local] Instance imported_text_agrees : CodecAgrees (T := string) im_codec im_zero ia_methods ia_zero id := model_api_agrees "".
#[local] Instance imported_Coin : ImportedMsg Coin := model_imported (mkCoin "" 0).
#[local] Instance imported_Coin_laws : ImportedLaws Coin := model_imported_laws (mkCoin "" 0).
#[local] Instance imported_Coin_api : ImportedApi Coin := model_api (mkCoin "" 0).
#[local] Instance imported_Coin_api_laws : ImportedApiLaws Coin := model_api_laws (mkCoin "" 0).
#[local] Instance imported_Coin_agrees : CodecAgrees (T := Coin) im_codec im_zero ia_methods ia_zero id := model_api_agrees (mkCoin "" 0).
#[local] Instance imported_DecCoin : ImportedMsg DecCoin := model_imported (mkDecCoin "" 0).
#[local] Instance imported_DecCoin_laws : ImportedLaws DecCoin := model_imported_laws (mkDecCoin "" 0).
#[local] Instance imported_DecCoin_api : ImportedApi DecCoin := model_api (mkDecCoin "" 0).
#[local] Instance imported_DecCoin_api_laws : ImportedApiLaws DecCoin := model_api_laws (mkDecCoin "" 0).
#[local] Instance imported_DecCoin_agrees : CodecAgrees (T := DecCoin) im_codec im_zero ia_methods ia_zero id := model_api_agrees (mkDecCoin "" 0).
#[local] Instance imported_Input : ImportedMsg Input := model_imported (mkInput "" []).
#[local] Instance imported_Input_laws : ImportedLaws Input := model_imported_laws (mkInput "" []).
#[local] Instance imported_Input_api : ImportedApi Input := model_api (mkInput "" []).
#[local] Instance imported_Input_api_laws : ImportedApiLaws Input := model_api_laws (mkInput "" []).
#[local] Instance imported_Input_agrees : CodecAgrees (T := Input) im_codec im_zero ia_methods ia_zero id := model_api_agrees (mkInput "" []).
#[local] Instance imported_Output : ImportedMsg Output := model_imported (mkOutput "" []).
#[local] Instance imported_Output_laws : ImportedLaws Output := model_imported_laws (mkOutput "" []).
#[local] Instance imported_Output_api : ImportedApi Output := model_api (mkOutput "" []).
#[local] Instance imported_Output_api_laws : ImportedApiLaws Output := model_api_laws (mkOutput "" []).
#[local] Instance imported_Output_agrees : CodecAgrees (T := Output) im_codec im_zero ia_methods ia_zero id := model_api_agrees (mkOutput "" []).
#[local] Instance stamp_api : ImportedApi Z := {| ia_methods := model_stamp; ia_zero := 0 |}.
#[local] Instance stamp_api_laws : ImportedApiLaws Z := model_stamp_spec 0.
#[local] Instance stamp_agrees : CustomAgrees (T := Z) model_custom ia_methods ia_zero id := model_stamp_agrees 0.

Definition model_api_messages : list (ApiMessage AnyMessage) :=
  all_api_messages (PageRequest := string) (PageResponse := string) (AuthzGrant := string) (GrantAuthorization := string)
    (FeeGrant := string) (Any := string) model_custom model_custom model_custom id id id id id id id id id id id id.

(** *** An example: the genesis state of [x/jwk] *)
Definition ex_api_genesis : ApiMessage AnyMessage :=
  api_message jwk_GenesisState_fields jwk_GenesisState_zero api_jwk_GenesisState_fields api_jwk_GenesisState_zero
    api_jwk_GenesisState_reflect to_api_jwk_GenesisState.
Definition ex_genesis : JwkGenesis := mkJwkGenesis [mkAudience "xion1alice" "app" "key"] (mkJwkParams 5 0).
Definition ex_api_bytes : bytes :=
  match pm_Marshal (am_methods ex_api_genesis) (am_api ex_api_genesis ex_genesis) with Ok dAtA => dAtA | _ => [] end.

Lemma ex_api_genesis_in : ex_api_genesis ∈ model_api_messages.
Proof.
  unfold model_api_messages, all_api_messages. apply elem_of_cons. right. apply elem_of_app. left.
  do 3 (apply elem_of_cons; right). apply list_elem_of_here.
Qed.
Lemma ex_genesis_encodable : mt_encodable (am_counterpart ex_api_genesis) ex_genesis.
Proof. split; [|by vm_compute]. cbn. split_and!; try done; by repeat constructor. Qed.
Lemma ex_api_genesis_encodable : am_encodable ex_api_genesis (am_api ex_api_genesis ex_genesis).
Proof. exact (api_encodable _ _ _ _ _ _ ex_genesis_encodable). Qed.

(** A later version with fields whose tags take two and three bytes, one of them a group, between
    the known fields *)
Definition ex_later : list Unknown :=
  [UBytes 20 (bytes_of "memo"); UGroup 3000 [UVarint 1 300; UFixed32 2 (bytes_of "four")]].
Definition ex_pieces : list bytes :=
  match am_items ex_api_genesis (am_api ex_api_genesis ex_genesis) with
  | x :: l => x :: (un_enc <$> ex_later) ++ l
  | [] => []
  end.

Lemma ex_pieces_mixed : interleaves (am_items ex_api_genesis (am_api ex_api_genesis ex_genesis)) (un_enc <$> ex_later) ex_pieces.
Proof.
  unfold ex_pieces. destruct (am_items _ _) as [|x l] eqn:E; [by vm_compute in E|]. constructor.
  rewrite <- (app_nil_r (un_enc <$> ex_later)) at 1. apply interleaves_app_right, interleaves_left.
Qed.

Lemma ex_later_ok : Forall (un_ok (am_fields ex_api_genesis)) ex_later.
Proof.
  constructor; [|constructor; [|constructor]]; (split; [|by apply (bool_decide_unpack _); vm_compute]); repeat constructor; done.
Qed.

Lemma api_messages_roundtrip_witness :
  pm_unmarshal (ProtoMethods api_jwk_GenesisState_fields) (Some (fresh api_jwk_GenesisState_zero)) ex_api_bytes
    = Ok (Some (api to_api_jwk_GenesisState ex_genesis)) ∧
  ∃ x, pl_Unmarshal api_jwk_GenesisState_fields (fresh api_jwk_GenesisState_zero) (concat ex_pieces) = Ok x ∧
    pl_Marshal api_jwk_GenesisState_fields x = Ok (ex_api_bytes ++ uns_enc ex_later).
Proof.
  destruct (api_messages_roundtrip model_custom model_custom model_custom id id id id id id id id id id id id
    ex_api_genesis ex_api_genesis_in) as [[Hr _] Hk].
  split.
  - destruct (Hr _ [] ex_api_genesis_encodable) as (dAtA&E&_&E2).
    assert (dAtA = ex_api_bytes) as -> by (revert E; vm_compute; congruence). exact E2.
  - destruct (Hk (am_api ex_api_genesis ex_genesis) ex_later ex_pieces) as [E0 (x&E1&_&E2)].
    + exact ex_api_genesis_encodable.
    + done.
    + exact ex_later_ok.
    + exact ex_pieces_mixed.
    + by vm_compute.
    + exists x. split; [exact E1|].
      assert (concat (am_items ex_api_genesis (am_api ex_api_genesis ex_genesis)) = ex_api_bytes) as Eb by (by vm_compute).
      rewrite Eb in E2. exact E2.
Defined.

Lemma generated_sets_agree_witness :
  ∃ dAtA, msg_Marshal jwk_GenesisState_fields ex_genesis = Ok dAtA ∧
    pl_Unmarshal api_jwk_GenesisState_fields (fresh api_jwk_GenesisState_zero) dAtA = Ok (api to_api_jwk_GenesisState ex_genesis).
Proof.
  destruct (generated_sets_agree model_custom model_custom model_custom id id id id id id id id id id id id
    ex_api_genesis ex_api_genesis_in ex_genesis ex_genesis_encodable) as (dAtA&E1&_&E2&_).
  exists dAtA. split; [exact E1|exact E2].
Defined.

Lemma api_reflection_witness :
  refl_copy api_jwk_GenesisState_reflect (to_api_jwk_GenesisState ex_genesis) api_jwk_GenesisState_zero
  = Ok (to_api_jwk_GenesisState ex_genesis).
Proof.
  apply (rl_copy _ _ _ (proj1 (api_reflection model_custom model_custom model_custom id id id id id id id id id id id id
    ex_api_genesis ex_api_genesis_in))).
  cbn. split_and!; try done; by repeat constructor.
Defined.

(** Appending to an empty list, when there is room in the array *)
#[local] Instance model_format : ValueFormat AnyMessage := {|
  value_String v := match v with VString s => s | _ => "" end; value_String_text s := eq_refl |}.
Lemma api_lists_refine_witness :
  gives (list_Append (λ n, n) (api_xion_ContractsAllowance_2_list (I := AnyMessage)) (Some (mkSlice ["old"] 0)) (VString "xion1dex")) ["xion1dex"].
Proof.
  apply (lr_Append _ _ (api_lists_refine (mkApiList api_xion_ContractsAllowance_2_list) (λ n, n) ltac:(
    unfold all_api_lists; do 3 (apply elem_of_app; right); apply elem_of_app; left; apply list_elem_of_here))
    (mkSlice ["old"] 0) "xion1dex").
  unfold sl_wf, sl_cap. cbn. lia.
Defined.
